(* ===== verification/_CoqProject ===== *)
-Q . S2P
Prelude.v
Bytes.v
Errors.v
Ids.v
Runtime.v
Pod.v
ExtensionState.v
Extension.v
TlvTheory.v
ViewTheory.v
Clean.v
AccountLen.v
TransferFee.v
CiphertextArithmetic.v
CiphertextTheory.v
ProofExtraction.v
MonadTheory.v
Ownership.v
State.v
StateTheory.v
Ledger.v
Transfer.v
TransferTheory.v
Supply.v
PodInstruction.v
Authority.v
AuthorityTheory.v
Initialize.v
InitializeTheory.v
Lifecycle.v
LifecycleTheory.v
Settings.v
Fees.v
FeesTheory.v
VariableLen.v
ConfidentialTransfer.v
ConfidentialTransferFee.v
ConfidentialMintBurn.v
ConfidentialPure.v
VariableLenTheory.v
SerializeTheory.v
TokenMetadata.v
TokenMetadataTheory.v
Reallocate.v
Backing.v
BackingSettings.v
BackingAccounts.v
BackingTransfers.v
BackingConfidential.v
ConfidentialTheory.v
ConfidentialTransferTheory.v
ConfidentialSupplyTheory.v
ConfidentialFeesTheory.v
UiAmount.v
Instruction.v
Processor.v
ExtensionInstructions.v
ConfidentialInstructions.v
ProofGeneration.v
ClientBalances.v
InstructionTheory.v
ClientTheory.v
ExtensionClientTheory.v
ConfidentialClientTheory.v
Onchain.v
TokenClient.v
ConfidentialClient.v
ProofGenerationTheory.v
ProofAcceptance.v
ClientBalanceTheory.v
MintCreation.v
Registry.v
BackingTheory.v
Examples.v
ConfidentialExamples.v
ConfidentialRuns.v
MetadataExamples.v
ExecutionExamples.v
ClientExamples.v
ProofExamples.v
