(* ===== verification/Prelude.v ===== *)
(** * Token-2022: a verification library

    Token-2022 is a token program for Solana.  A mint describes one kind of
    token; token accounts hold balances of a mint; both may carry extensions in
    type-length-value form after a fixed base.  An instruction names accounts,
    and its handler checks who signed, edits the bytes of those accounts and
    moves lamports.  This library models the program under [program/src], the
    data formats and client functions of [interface/src], the crates of
    [confidential/], among them the registry program, and the client library
    ([clients/rust-legacy/src]); and it proves what they promise.

    ** Layers

    - [Prelude], [Bytes]: lists and slices, checked machine integers ([Z] with
      the bounds of the type written in each operation), bytes, little-endian
      integers, fixed arrays and addresses.
    - [Errors] ([interface/src/error.rs]) and [Ids] ([declare_id!] literals):
      [Result] has a third value, [Panic], for what aborts a Rust program: an
      index out of range, [unreachable!], a conflicting [RefCell] borrow.
    - [Runtime]: the store of accounts ([World], keyed by address, so that two
      [AccountInfo]s of one address share lamports and data), the borrows alive
      at a point of a handler, and the instruction monad [M], which threads the
      store and stops at the first error.  The class [Runtime] is what the
      program takes from outside: sysvars, stack height, sibling instructions,
      resizing, cross-program calls.  An error carries no store because the
      runtime then discards every change.
    - [Pod] ([interface/src/pod.rs]): the interface of plain-old-data
      structures, a bijection with the byte lists of their size, and the base
      states.  [ExtensionState] has the data of each extension.
    - [Extension] ([interface/src/extension/mod.rs]): the walks over TLV
      entries, the views [PodState] (read-only) and [PodStateMut], and reading,
      allocating and initialising extensions.  A mutable reference to an
      extension is the value with a function that puts a new one in its place,
      so writes through it change the buffer of the view.  [AccountLen]
      ([account_len.rs]) computes lengths.
    - [TransferFee] ([transfer_fee/mod.rs]): fee arithmetic.
    - The handlers of [program/src/processor.rs]: [Ownership]
      ([validate_owner], and the queries and field updates that handlers
      share), [Transfer], [Supply] (mint and burn), [Authority] (approve, revoke, set
      authority, freeze), [Initialize], [Lifecycle] (close, sync, unwrap,
      excess lamports); [PodInstruction] decodes their data.
    - The processors of [program/src/extension]: [Settings], one [Module] for
      each Rust module, and [Fees] ([transfer_fee/processor.rs]).
    - [State] ([interface/src/state.rs]): the packed [Mint], [Account] and
      [Multisig], the trait [Pack] (its provided methods, of another crate, are
      the class [PackMethods] with their documented laws), the views over
      them.  [VariableLen] has the extensions of variable length
      ([realloc] and what [extension/mod.rs] builds on it), and [TokenMetadata]
      the processors of metadata, groups and members
      ([program/src/extension/token_metadata], [token_group]), over interfaces
      of the crates that define their data and instructions.
      [Reallocate] grows accounts and creates the native mint; [UiAmount]
      has amounts as decimal strings.
    - [Instruction] ([interface/src/instruction.rs]): the instructions with their
      packing and unpacking, and the functions with which clients build them;
      [ExtensionInstructions] and [ConfidentialInstructions] have those of the
      extensions, the latter with the places where a proof may be.  A batch as a
      list of instructions ([interface/src/serialization.rs]) is there too.
    - [Onchain] ([program/src/onchain.rs], [offchain.rs]): the helpers with which
      programs and clients make transfers for multisigs and mints with hooks.
    - The confidential extensions.  [CiphertextArithmetic] and
      [ProofExtraction] ([confidential/]): sums of ciphertexts, what a handler
      reads out of a verified zero-knowledge proof, and how it finds the
      proof, in a context account or among the sibling instructions.
      [ConfidentialTransfer], [ConfidentialTransferFee],
      [ConfidentialMintBurn]: the processors of [program/src/extension] of
      these names, one definition for each [process_*] function.  Curve
      operations, the formats of proofs and the program that verifies them
      are the classes [CurveInterface] and [ZkInterface].
    - [Processor]: [process], [_process_inner] and [process_batch]: decoding,
      dispatch over all handlers, and sequences of instructions.
    - [Registry] ([confidential/elgamal-registry], [elgamal-registry-interface]):
      the program that keeps the encryption keys of wallets, and the functions
      that build its instructions.
    - The client side of the confidential extensions, where randomness is an
      explicit state and keys, ciphertexts and provers are the class [ZkSdk]:
      [ProofGeneration] ([confidential/proof-generation]) encrypts amounts and
      asks for proofs; [ClientBalances] ([zk_proofs] of the client library)
      reads balances off accounts and computes what goes with an instruction.
    - [TokenClient] and [ConfidentialClient]
      ([clients/rust-legacy/src/token.rs]): the methods of the client [Token],
      which read accounts, build instructions and proofs, and send transactions,
      over the class [ProgramClient] of what the network, the signers and the
      instructions of other programs do.

    A handler is a function of the program id, the accounts and the decoded
    data, in the order of statements of the source; the view of an account is
    written back where its mutable borrow ends.  Long handlers are cut at the
    [match]es of the source, and each part is named after it.

    ** Theories

    - [TlvTheory], [ViewTheory], [Clean]: unpacking is the inverse of
      putting a view's slices together, the two views agree, an extension is a
      cell of its own.
    - [MonadTheory]: what each primitive of [M] did when it succeeded, and the
      tactic [m_inv] that inverts a whole handler with these facts.
    - [Ledger]: sums over all accounts.  [circulation m] is what the accounts of
      a mint hold and withhold with what the mint withholds; [supply_of m] is
      the supply it records; [total_lamports] is what it says.
    - [TransferTheory], [Supply], [FeesTheory], [AuthorityTheory],
      [InitializeTheory], [LifecycleTheory]: for each
      handler, what a successful run required (signatures, state, limits),
      what it wrote, that no other account changed, and the effect on the sums:
      a transfer and every movement of withheld fees keep circulation and
      supply, minting and burning change both by the amount, closing and
      unwrapping take native tokens out with their lamports.
    - [StateTheory]: packing and unpacking are inverse, and both ways of reading
      account data agree, as does the reader of single fields.
      [InstructionTheory]: a batch is the sequence of its instructions.
      [UiAmount]: printed amounts read back.  [Reallocate]: what reallocation
      grows and keeps.
    - [VariableLenTheory]: an entry is resized and zero-filled while the entries
      around it keep their bytes; [SerializeTheory]: what
      [alloc_and_serialize] leaves in an account.  [TokenMetadataTheory]: who
      may edit the metadata of a mint and what it holds afterwards, and that
      members of a group are numbered and never exceed its maximal size.
    - [InstructionTheory]: packing and unpacking of instructions are inverse, and
      unpacking never panics; a batch is what its elements say.  [ClientTheory],
      [ExtensionClientTheory], [ConfidentialClientTheory]: what a client function
      builds is dispatched to the handler of that name with its arguments, and a
      confidential handler finds the proofs that were given.  [Onchain]: a
      transfer that a program gathers is approved exactly when its authority is,
      the multisig's signers being looked up for it.
    - [Backing] states the invariant of single cells ([cell_ok]: an account of
      the program is zeroed, or a valid mint, account or multisig, with what the
      other theories rely on) and what an instruction may do with the sums
      ([evolves]); [BackingSettings], [BackingAccounts], [BackingTransfers] and
      [BackingConfidential] prove it of every handler, and [BackingTheory] of the
      dispatcher, of batches and of whole executions: what is in circulation
      and the net of what the instructions deposited to confidential balances
      never exceed the supply of a mint, and equal it where no more was
      withdrawn than deposited; and what an account of the program is stays so
      until it is closed.
    - [CiphertextTheory]: over an abelian group of points, the ciphertext
      operations compute on plaintexts.  [ConfidentialPure] says what a
      verified proof asserts of its context, as a predicate on openings, and
      that the confidential handlers that only configure an
      account leave the tokens of every cell alone; [BackingConfidential]: so
      do the others, but for deposits and withdrawals, which move tokens
      between an open balance and the [Pool] of the mint, a running total of
      amounts; [ConfidentialTheory] says what they do to the ciphertexts.
    - [ConfidentialTheory] (deposit, withdraw, apply pending balance),
      [ConfidentialTransferTheory], [ConfidentialSupplyTheory] (confidential
      mint and burn, pending burn, rotation of the supply key) and
      [ConfidentialFeesTheory] (harvest and withdrawal of withheld fees): if
      the ciphertexts of the accounts open to amounts and proofs hold of what
      they state, then the ciphertexts left behind open to the amounts that
      the instruction promises, and no amount is created or lost.
    - [FeesTheory]: a new fee is delayed, instructions survive packing, the
      average interest rate is between the rates averaged.
    - [Registry]: in every reachable state a registry is at the address of
      its wallet, which it keeps.
    - [ProofGenerationTheory], [ProofAcceptance]: the generated
      ciphertexts and commitments stand for the amounts, the provers are asked
      only for true statements (of transfers, mints and burns below 2^48), and
      the contexts of the proofs pass the checks of the processor; the client's
      fee is the processor's; what the balance does not cover is refused.
      [ClientBalanceTheory]: a client whose two forms of a balance agree can
      withdraw, and apply what is pending as long as it can read both halves as
      numbers below 2^32, and they agree afterwards: the loop from the client
      through the processor back to the client.
    - [MintCreation]: the instructions with which a client creates a mint
      succeed for every set of extensions that may occur together, and leave
      what was asked for.  [ConfidentialClient]: the methods that send several
      proofs fail when one is in an account and a later one is not given.
    - [Examples], [ConfidentialExamples], [ConfidentialRuns],
      [MetadataExamples], [ExecutionExamples], [ClientExamples],
      [ProofExamples]: concrete accounts on which the
      instructions run, each of the conditional properties applied to a run.

    ** Bounds and fuel

    The TLV walks are [while] loops; every turn advances by at least the four
    bytes of a header, so one more unit of fuel than the buffer has bytes is
    enough, and running out (which would be [Panic]) does not happen.  The ranges
    of the data that they index are checked by [index_range], which is [Panic]
    where Rust would abort, and the guards of the walks rule that out too:
    [TlvTheory] describes the result of a walk on every buffer, and
    [tlv_walks_terminate] states it of both walks.  Loops over
    accounts and signers are structural.

    ** Assumptions

    [hook_keeps_tokens] says what the Solana runtime enforces on the
    transfer hook's program: it cannot change the data or the owner of an
    account that this program owns, and an account that it assigns to this
    program has zeroed data.  [VariableLenPackLaws], [TokenMetadataLaws] and
    [TokenGroupLaws] say that what the crates of metadata and groups serialize
    fits its announced length and reads back, and that an update changes the
    field it names.  [resize_empties] says that resizing to zero
    leaves no data.  [sound_runtime] collects what executions rely on: these,
    that resizing fills with zeros, and that the system program moves lamports,
    allocates only accounts it owns and assigns only what is zeroed.  They hold
    of the runtimes in [Examples] and [ExecutionExamples].
    [resolves_from_additional]: the accounts of a hook are appended out of the
    additional ones.  For the registry, [ProgramAddresses] derives addresses and
    [system_program_rules] says what the system program refuses.  [ZkSdkLaws]
    are the homomorphic laws of the SDK and [ZkProvers] says that a prover makes
    a proof of a true statement, whose context is what it was given;
    [ZkClientLaws] are the laws of decryption.  [ProofExamples] has an SDK over
    a concrete group for which all of them hold.

    ** What is not modelled

    Logging is left out.  The operations of [f64] are parameters ([Float64]).
    The soundness of the zero-knowledge proofs is a hypothesis of the theorems
    that need it, [proofs_hold].  Out of scope: in the
    client library, the loop that polls for a new blockhash, what a failed
    request does to the network, and the order in which requests that are
    awaited together are served; the command line, which parses arguments and
    prints results; the serde adapters of single values, whose formats belong to
    other crates; entrypoints and re-exports.  With these exceptions, and but for a few conversions and
    accessors that only clients and tests call, every function of [program/src],
    [interface/src] and [confidential/] has its definition here. *)
From stdpp Require Export base tactics numbers list option gmap.
From Stdlib Require Export ZArith Lia.
From Stdlib Require Export Strings.Byte.
From Stdlib Require Import Eqdep_dec.

(** [naive_solver] clears hypotheses that may be gone already. *)
#[export] Set Warnings "-clear-no-such-hyp".

#[global] Open Scope Z_scope.

Declare Scope token_scope.
Delimit Scope token_scope with token.
#[global] Open Scope token_scope.

(** ** Machine integers

    Unsigned integers are [Z]; the widths appear in the checked operations
    below, which are Rust's [checked_*], [saturating_*] and [as] casts. *)

Definition u8_max : Z := 255.
Definition u16_max : Z := 65535.
Definition u64_max : Z := 18446744073709551615.
Definition u128_max : Z := 340282366920938463463374607431768211455.
Definition i64_min : Z := -9223372036854775808.
Definition i64_max : Z := 9223372036854775807.

(** [in_range lo hi z] is the boolean reading of "z is a value of the type". *)
Definition in_range (lo hi z : Z) : bool := (lo <=? z) && (z <=? hi).

Definition is_u8 (z : Z) : Prop := 0 <= z <= u8_max.
Definition is_u16 (z : Z) : Prop := 0 <= z <= u16_max.
Definition is_u64 (z : Z) : Prop := 0 <= z <= u64_max.

Definition checked (lo hi z : Z) : option Z :=
  if in_range lo hi z then Some z else None.

Definition u64_checked_add (a b : Z) : option Z := checked 0 u64_max (a + b).
Definition u64_checked_sub (a b : Z) : option Z := checked 0 u64_max (a - b).
Definition u64_saturating_sub (a b : Z) : Z := Z.max 0 (a - b).
Definition u64_saturating_add (a b : Z) : Z := Z.min u64_max (a + b).
Definition u64_try_from (z : Z) : option Z := checked 0 u64_max z.
Definition u128_checked_add (a b : Z) : option Z := checked 0 u128_max (a + b).
Definition u128_checked_sub (a b : Z) : option Z := checked 0 u128_max (a - b).
Definition u128_checked_mul (a b : Z) : option Z := checked 0 u128_max (a * b).
Definition u128_checked_div (a b : Z) : option Z :=
  if b =? 0 then None else Some (a / b).

Lemma in_range_spec lo hi z : in_range lo hi z = true <-> lo <= z <= hi.
Proof. unfold in_range. lia. Qed.

Lemma checked_Some lo hi z r : checked lo hi z = Some r <-> r = z /\ lo <= z <= hi.
Proof.
  unfold checked. destruct (in_range lo hi z) eqn:E.
  - apply in_range_spec in E. split; [intros [= <-]; auto | intros [-> _]; auto].
  - split; [done|]. intros [_ H]. apply in_range_spec in H. congruence.
Qed.

Lemma checked_None lo hi z : checked lo hi z = None <-> ~ (lo <= z <= hi).
Proof.
  unfold checked. destruct (in_range lo hi z) eqn:E.
  - apply in_range_spec in E. split; [done|tauto].
  - split; [|done]. intros _ H. apply in_range_spec in H. congruence.
Qed.

Lemma u64_checked_add_Some a b r :
  u64_checked_add a b = Some r <-> r = a + b /\ 0 <= a + b <= u64_max.
Proof. apply checked_Some. Qed.

Lemma u64_checked_sub_Some a b r :
  u64_checked_sub a b = Some r <-> r = a - b /\ 0 <= a - b <= u64_max.
Proof. apply checked_Some. Qed.

Create HintDb token discriminated.
Create Rewrite HintDb token.

(** ** Lists and slices *)

(** [&l[i..j]] for [i <= j <= l.len()]. *)
Definition slice {A} (l : list A) (i j : nat) : list A := take (j - i) (drop i l).

(** Overwrite [length new] elements of [l] from index [i] on:
    [l[i..i + new.len()].copy_from_slice(new)]. *)
Definition splice {A} (l : list A) (i : nat) (new : list A) : list A :=
  take i l ++ new ++ drop (i + length new) l.

#[global] Arguments slice : simpl never.
#[global] Arguments splice : simpl never.

Section lists.
Context {A : Type}.
Implicit Types l k : list A.

Lemma length_slice l i j : (j <= length l)%nat -> length (slice l i j) = (j - i)%nat.
Proof. intros. unfold slice. rewrite length_take, length_drop. lia. Qed.

Lemma length_splice l i k :
  (i + length k <= length l)%nat -> length (splice l i k) = length l.
Proof.
  intros. unfold splice. rewrite !length_app, length_take, length_drop. lia.
Qed.

Lemma slice_app_mid l1 l2 l3 i j :
  i = length l1 -> j = (length l1 + length l2)%nat ->
  slice (l1 ++ l2 ++ l3) i j = l2.
Proof.
  intros -> ->. unfold slice. rewrite drop_app_length.
  replace (length l1 + length l2 - length l1)%nat with (length l2) by lia.
  apply take_app_length.
Qed.

Lemma splice_app_mid l1 l2 l3 k i :
  i = length l1 -> length k = length l2 ->
  splice (l1 ++ l2 ++ l3) i k = l1 ++ k ++ l3.
Proof.
  intros -> Hk. unfold splice. rewrite take_app_length, Hk.
  rewrite (app_assoc l1 l2 l3), <- length_app, drop_app_length. done.
Qed.

Lemma split_at l i j :
  (i <= j <= length l)%nat -> l = take i l ++ slice l i j ++ drop j l.
Proof.
  intros H. unfold slice. rewrite <- (take_drop i l) at 1. f_equal.
  rewrite <- (take_drop (j - i) (drop i l)) at 1. f_equal.
  rewrite drop_drop. f_equal. lia.
Qed.

Lemma slice_app_r l k i j :
  (length l <= i)%nat -> slice (l ++ k) i j = slice k (i - length l) (j - length l).
Proof.
  intros H. unfold slice. rewrite drop_app_ge by lia. f_equal. lia.
Qed.

Lemma slice_app_l l k i j :
  (j <= length l)%nat -> slice (l ++ k) i j = slice l i j.
Proof.
  intros H. unfold slice. destruct (decide (i <= length l)%nat).
  - rewrite drop_app_le by lia. rewrite take_app_le; [done|].
    rewrite length_drop. lia.
  - replace (j - i)%nat with 0%nat by lia. done.
Qed.

Lemma slice_0 l j : slice l 0 j = take j l.
Proof. unfold slice. rewrite drop_0. f_equal. lia. Qed.

Lemma slice_drop l i j n : slice (drop n l) i j = slice l (n + i) (n + j).
Proof. unfold slice. rewrite drop_drop. f_equal. lia. Qed.

Lemma splice_drop l n i k :
  splice l (n + i) k = take n l ++ splice (drop n l) i k.
Proof.
  unfold splice. rewrite drop_drop, <- (take_take_drop l n i), <- !app_assoc.
  by rewrite Nat.add_assoc.
Qed.

Lemma slice_splice_eq l i k :
  (i + length k <= length l)%nat -> slice (splice l i k) i (i + length k) = k.
Proof. intros. unfold splice. apply slice_app_mid; rewrite length_take; lia. Qed.

Lemma slice_splice_ne l i k j n :
  (i + length k <= length l)%nat -> (j + n <= i \/ i + length k <= j)%nat ->
  slice (splice l i k) j (j + n) = slice l j (j + n).
Proof.
  intros Hl [Hj|Hj]; unfold splice.
  - rewrite slice_app_l by (rewrite length_take; lia). unfold slice.
    rewrite skipn_firstn_comm, take_take. f_equal. lia.
  - rewrite app_assoc, slice_app_r; rewrite length_app, length_take; [|lia].
    rewrite slice_drop. f_equal; lia.
Qed.

Lemma app_inv_length l1 l2 k1 k2 :
  length l1 = length k1 -> l1 ++ l2 = k1 ++ k2 -> l1 = k1 /\ l2 = k2.
Proof. intros Hl He. apply app_inj_1 in He; auto. Qed.

End lists.
