(* ===== verification/Bytes.v ===== *)
(** * Bytes, little-endian integers and fixed-size byte arrays

    Account data is a list of [byte].  [u8] is [byte] itself; [Bytes n] is the
    Rust array [[u8; n]]; the unaligned integers [U64], [U16], [I64], [I16] of
    the on-chain structures are byte arrays, read and written with
    [from_le_bytes] and [to_le_bytes].  [Pod] is the interface of the
    plain-old-data structures: a bijection between a structure and the byte
    lists of its size. *)
From S2P Require Import Prelude.
From Stdlib Require Import Eqdep_dec NArith.

(** ** [u8] *)

Definition u8_to_Z (b : byte) : Z := Z.of_N (Byte.to_N b).

(** [z as u8]: truncation to the low eight bits. *)
Definition u8_of_Z (z : Z) : byte :=
  match Byte.of_N (Z.to_N (z mod 256)) with Some b => b | None => x00 end.

#[export] Instance byte_eq_dec : EqDecision byte.
Proof. intros a b. exact (Byte.byte_eq_dec a b). Defined.

#[export] Program Instance byte_countable : Countable byte :=
  inj_countable Byte.to_N Byte.of_N _.
Next Obligation. intros b. apply Byte.of_to_N. Qed.

Lemma u8_to_Z_range b : 0 <= u8_to_Z b < 256.
Proof. unfold u8_to_Z. pose proof (Byte.to_N_bounded b). lia. Qed.

Lemma u8_of_to_Z b : u8_of_Z (u8_to_Z b) = b.
Proof.
  unfold u8_of_Z. pose proof (u8_to_Z_range b). rewrite Z.mod_small by lia.
  unfold u8_to_Z. by rewrite N2Z.id, Byte.of_to_N.
Qed.

Lemma u8_to_of_Z z : u8_to_Z (u8_of_Z z) = z mod 256.
Proof.
  unfold u8_of_Z, u8_to_Z. pose proof (Z.mod_pos_bound z 256 ltac:(lia)).
  destruct (Byte.of_N (Z.to_N (z mod 256))) as [b|] eqn:E.
  - apply Byte.to_of_N in E. rewrite E. lia.
  - apply Byte.of_N_None_iff in E. lia.
Qed.

Lemma u8_to_Z_inj a b : u8_to_Z a = u8_to_Z b -> a = b.
Proof. intros H. rewrite <- (u8_of_to_Z a), H. apply u8_of_to_Z. Qed.

(** ** Little-endian integers *)

Fixpoint from_le_bytes (l : list byte) : Z :=
  match l with
  | [] => 0
  | b :: l => u8_to_Z b + 256 * from_le_bytes l
  end.

Fixpoint to_le_bytes (n : nat) (z : Z) : list byte :=
  match n with
  | O => []
  | S n => u8_of_Z z :: to_le_bytes n (z / 256)
  end.

Lemma length_to_le_bytes n z : length (to_le_bytes n z) = n.
Proof. revert z. induction n; intros; simpl; auto. Qed.

Lemma from_le_bytes_range l : 0 <= from_le_bytes l < 256 ^ Z.of_nat (length l).
Proof.
  induction l as [|b l IH]; simpl; [lia|].
  pose proof (u8_to_Z_range b).
  rewrite Nat2Z.inj_succ, Z.pow_succ_r by lia. nia.
Qed.

Lemma to_from_le_bytes l : to_le_bytes (length l) (from_le_bytes l) = l.
Proof.
  induction l as [|b l IH]; simpl; [done|].
  pose proof (u8_to_Z_range b). f_equal.
  - apply u8_to_Z_inj. rewrite u8_to_of_Z.
    rewrite Z.mul_comm, Z_mod_plus_full, Z.mod_small; lia.
  - rewrite Z.mul_comm, Z.div_add, Z.div_small, Z.add_0_l by lia. done.
Qed.

Lemma from_to_le_bytes n z : from_le_bytes (to_le_bytes n z) = z mod 256 ^ Z.of_nat n.
Proof.
  revert z. induction n as [|n IH]; intros z; simpl.
  - by rewrite Z.mod_1_r.
  - rewrite IH, u8_to_of_Z, Nat2Z.inj_succ, Z.pow_succ_r by lia.
    rewrite Z.rem_mul_r by lia. done.
Qed.

(** Eight bytes are a [u64]. *)
Lemma from_to_le_8 z : is_u64 z -> from_le_bytes (to_le_bytes 8 z) = z.
Proof.
  intros Hz. rewrite from_to_le_bytes. change (256 ^ Z.of_nat 8) with (u64_max + 1).
  unfold is_u64, u64_max in *. apply Z.mod_small. lia.
Qed.

Lemma to_from_le_8 l : length l = 8%nat -> to_le_bytes 8 (from_le_bytes l) = l.
Proof. intros <-. apply to_from_le_bytes. Qed.

Lemma from_le_8_range l : length l = 8%nat -> is_u64 (from_le_bytes l).
Proof.
  intros Hl. pose proof (from_le_bytes_range l) as Hr. rewrite Hl in Hr.
  change (256 ^ Z.of_nat 8) with (u64_max + 1) in Hr. unfold is_u64. lia.
Qed.

#[global] Arguments to_le_bytes : simpl never.
#[global] Arguments from_le_bytes : simpl never.

(** ** Fixed-size arrays *)

Record Bytes (n : nat) : Type := mk_bytes {
  bytes_list : list byte;
  bytes_size : (length bytes_list =? n)%nat = true
}.
Arguments mk_bytes {_} _ _.
Arguments bytes_list {_} _.
Arguments bytes_size {_} _.

(** Replace a proof about a closed list by [eq_refl], so that two arrays with
    the same bytes are convertible after evaluation. *)
Definition canonical {b : bool} : b = true -> b = true :=
  match b with true => fun _ => eq_refl | false => fun H => H end.

Lemma resize_size n (l : list byte) : (length (resize n x00 l) =? n)%nat = true.
Proof. rewrite length_resize. apply Nat.eqb_refl. Qed.

(** The array holding [l]; [l] has length [n] wherever the model uses it. *)
Definition bytes_of_list (n : nat) (l : list byte) : Bytes n :=
  mk_bytes (resize n x00 l) (canonical (resize_size n l)).

Lemma length_bytes_list {n} (a : Bytes n) : length (bytes_list a) = n.
Proof. destruct a as [l H]. simpl. by apply Nat.eqb_eq. Qed.

Lemma bytes_eq {n} (a b : Bytes n) : bytes_list a = bytes_list b -> a = b.
Proof.
  destruct a as [l H], b as [k G]; simpl; intros ->.
  f_equal. apply UIP_dec. apply Bool.bool_dec.
Qed.

Lemma bytes_list_of_list n l : length l = n -> bytes_list (bytes_of_list n l) = l.
Proof. intros <-. simpl. apply resize_all. Qed.

Lemma bytes_of_list_list {n} (a : Bytes n) : bytes_of_list n (bytes_list a) = a.
Proof. apply bytes_eq, bytes_list_of_list, length_bytes_list. Qed.

#[export] Instance Bytes_eq_dec n : EqDecision (Bytes n).
Proof.
  intros a b. destruct (decide (bytes_list a = bytes_list b)) as [H|H].
  - left. by apply bytes_eq.
  - right. congruence.
Defined.

#[export] Program Instance Bytes_countable n : Countable (Bytes n) :=
  inj_countable' bytes_list (bytes_of_list n) _.
Next Obligation. intros n a. apply bytes_of_list_list. Qed.

#[export] Instance Bytes_inhabited n : Inhabited (Bytes n) := populate (bytes_of_list n []).

(** The all-zero array, [Default::default()] of the array types. *)
Definition zeroed (n : nat) : Bytes n := bytes_of_list n [].

(** ** The unaligned integer types of [solana_zero_copy] *)

Definition le_read {n} (a : Bytes n) : Z := from_le_bytes (bytes_list a).
Definition le_write (n : nat) (z : Z) : Bytes n := bytes_of_list n (to_le_bytes n z).

(** Two's complement reading of an [n]-byte integer. *)
Definition signed (n : nat) (z : Z) : Z :=
  if z <? 2 ^ (8 * Z.of_nat n - 1) then z else z - 2 ^ (8 * Z.of_nat n).

Abbreviation U64 := (Bytes 8).
Abbreviation U16 := (Bytes 2).
Abbreviation I64 := (Bytes 8).
Abbreviation I16 := (Bytes 2).

Definition u64_get (a : U64) : Z := le_read a.
Definition u64_new (z : Z) : U64 := le_write 8 z.
Definition u16_get (a : U16) : Z := le_read a.
Definition u16_new (z : Z) : U16 := le_write 2 z.
Definition i64_get (a : I64) : Z := signed 8 (le_read a).
Definition i64_new (z : Z) : I64 := le_write 8 z.
Definition i16_get (a : I16) : Z := signed 2 (le_read a).
Definition i16_new (z : Z) : I16 := le_write 2 z.

(** [Bool] is one byte: zero is [false], anything else reads as [true]. *)
Definition bool_get (b : byte) : bool := negb (bool_decide (b = x00)).
Definition bool_new (b : bool) : byte := if b then x01 else x00.

Lemma le_read_write n z : le_read (le_write n z) = z mod 256 ^ Z.of_nat n.
Proof.
  unfold le_read, le_write. rewrite bytes_list_of_list by apply length_to_le_bytes.
  apply from_to_le_bytes.
Qed.

Lemma le_write_read {n} (a : Bytes n) : le_write n (le_read a) = a.
Proof.
  apply bytes_eq. unfold le_write, le_read.
  rewrite bytes_list_of_list by apply length_to_le_bytes.
  rewrite <- (length_bytes_list a) at 1. apply to_from_le_bytes.
Qed.

Lemma u64_get_range a : is_u64 (u64_get a).
Proof.
  unfold u64_get, le_read, is_u64, u64_max.
  pose proof (from_le_bytes_range (bytes_list a)) as H.
  rewrite length_bytes_list in H. change (256 ^ Z.of_nat 8) with (u64_max + 1) in H.
  unfold u64_max in H. lia.
Qed.

Lemma u16_get_range a : is_u16 (u16_get a).
Proof.
  unfold u16_get, le_read, is_u16, u16_max.
  pose proof (from_le_bytes_range (bytes_list a)) as H.
  rewrite length_bytes_list in H. change (256 ^ Z.of_nat 2) with 65536 in H. lia.
Qed.

Lemma u64_get_new z : is_u64 z -> u64_get (u64_new z) = z.
Proof.
  unfold is_u64, u64_max, u64_get, u64_new. intros. rewrite le_read_write.
  change (256 ^ Z.of_nat 8) with 18446744073709551616. apply Z.mod_small. lia.
Qed.

Lemma u16_get_new z : is_u16 z -> u16_get (u16_new z) = z.
Proof.
  unfold is_u16, u16_max, u16_get, u16_new. intros. rewrite le_read_write.
  change (256 ^ Z.of_nat 2) with 65536. apply Z.mod_small. lia.
Qed.

Lemma u64_new_get a : u64_new (u64_get a) = a.
Proof. apply le_write_read. Qed.

Lemma u64_get_inj a b : u64_get a = u64_get b -> a = b.
Proof. intros H. rewrite <- (u64_new_get a), H. apply u64_new_get. Qed.

Lemma signed_8 z :
  signed 8 z = if z <? 9223372036854775808 then z else z - 18446744073709551616.
Proof. reflexivity. Qed.

Lemma i64_get_range a : i64_min <= i64_get a <= i64_max.
Proof.
  pose proof (u64_get_range a) as H. unfold u64_get, is_u64, u64_max in H.
  unfold i64_get, i64_min, i64_max. rewrite signed_8. case_match; lia.
Qed.

Lemma i64_get_new z : i64_min <= z <= i64_max -> i64_get (i64_new z) = z.
Proof.
  unfold i64_min, i64_max, i64_get, i64_new. intros H. rewrite le_read_write, signed_8.
  change (256 ^ Z.of_nat 8) with 18446744073709551616.
  destruct (decide (0 <= z)).
  - rewrite Z.mod_small by lia. case_match; lia.
  - assert (z mod 18446744073709551616 = z + 18446744073709551616) as ->.
    { symmetry. apply (Z.mod_unique_pos _ _ (-1)); lia. }
    case_match; lia.
Qed.

Lemma bool_get_new b : bool_get (bool_new b) = b.
Proof. by destruct b. Qed.

#[export] Hint Resolve u64_get_range u16_get_range : token.
#[export] Hint Rewrite u64_new_get bool_get_new @bytes_of_list_list : token.

(** ** Addresses *)

(** A 32-byte public key ([solana_address::Address]). *)
Abbreviation Address := (Bytes 32).

(** [solana_nullable::MaybeNull<Address>]: the all-zero address stands for
    [None]. *)
Abbreviation MaybeNull := (Bytes 32).

Definition maybe_null_get (m : MaybeNull) : option Address :=
  if decide (m = zeroed 32) then None else Some m.

(** [MaybeNull::from(value)] stores the value as it is. *)
Definition maybe_null_from (a : Address) : MaybeNull := a.

(** [Option::<Address>::try_into]: [Some] of the null value is refused. *)
Definition maybe_null_try_from (o : option Address) : option MaybeNull :=
  match o with
  | None => Some (zeroed 32)
  | Some a => if decide (a = zeroed 32) then None else Some a
  end.

Lemma maybe_null_get_try_from o m :
  maybe_null_try_from o = Some m -> maybe_null_get m = o.
Proof.
  unfold maybe_null_try_from, maybe_null_get.
  destruct o; repeat case_decide; naive_solver.
Qed.
