(* ===== verification/Errors.v ===== *)
(** * Errors

    [TokenError] is [interface/src/error.rs]; [ProgramError] is the runtime's
    error type, of which the program uses the constructors below.  [Result]
    is Rust's, with [Panic] for an aborted execution (a [RefCell] borrowed
    twice, an index out of range, [unreachable!]): the transaction fails as it
    does for [Err], but no code can observe it. *)
From S2P Require Import Prelude.

Module TokenError.
Inductive TokenError : Type :=
  | NotRentExempt
  | InsufficientFunds
  | InvalidMint
  | MintMismatch
  | OwnerMismatch
  | FixedSupply
  | AlreadyInUse
  | InvalidNumberOfProvidedSigners
  | InvalidNumberOfRequiredSigners
  | UninitializedState
  | NativeNotSupported
  | NonNativeHasBalance
  | InvalidInstruction
  | InvalidState
  | Overflow
  | AuthorityTypeNotSupported
  | MintCannotFreeze
  | AccountFrozen
  | MintDecimalsMismatch
  | NonNativeNotSupported
  | ExtensionTypeMismatch
  | ExtensionBaseMismatch
  | ExtensionAlreadyInitialized
  | ConfidentialTransferAccountHasBalance
  | ConfidentialTransferAccountNotApproved
  | ConfidentialTransferDepositsAndTransfersDisabled
  | ConfidentialTransferElGamalPubkeyMismatch
  | ConfidentialTransferBalanceMismatch
  | MintHasSupply
  | NoAuthorityExists
  | TransferFeeExceedsMaximum
  | MintRequiredForTransfer
  | FeeMismatch
  | FeeParametersMismatch
  | ImmutableOwner
  | AccountHasWithheldTransferFees
  | NoMemo
  | NonTransferable
  | NonTransferableNeedsImmutableOwnership
  | MaximumPendingBalanceCreditCounterExceeded
  | MaximumDepositAmountExceeded
  | CpiGuardSettingsLocked
  | CpiGuardTransferBlocked
  | CpiGuardBurnBlocked
  | CpiGuardCloseAccountBlocked
  | CpiGuardApproveBlocked
  | CpiGuardSetAuthorityBlocked
  | CpiGuardOwnerChangeBlocked
  | ExtensionNotFound
  | NonConfidentialTransfersDisabled
  | ConfidentialTransferFeeAccountHasWithheldFee
  | InvalidExtensionCombination
  | InvalidLengthForAlloc
  | AccountDecryption
  | ProofGeneration
  | InvalidProofInstructionOffset
  | HarvestToMintDisabled
  | SplitProofContextStateAccountsNotSupported
  | NotEnoughProofContextStateAccounts
  | MalformedCiphertext
  | CiphertextArithmeticFailed
  | PedersenCommitmentMismatch
  | RangeProofLengthMismatch
  | IllegalBitLength
  | FeeCalculation
  | IllegalMintBurnConversion
  | InvalidScale
  | MintPaused
  | PendingBalanceNonZero.
End TokenError.
Abbreviation TokenError := TokenError.TokenError.

Module ProgramError.
Inductive ProgramError : Type :=
  | Custom (code : Z)
  | InvalidArgument
  | InvalidInstructionData
  | InvalidAccountData
  | AccountDataTooSmall
  | IncorrectProgramId
  | MissingRequiredSignature
  | AccountAlreadyInitialized
  | UninitializedAccount
  | NotEnoughAccountKeys
  | AccountBorrowFailed
  | InvalidRealloc
  | InvalidAccountOwner
  | InvalidSeeds
  | AccountNotRentExempt
  | Runtime (code : Z).
End ProgramError.
Abbreviation ProgramError := ProgramError.ProgramError.

(** [e as u32]. *)
Definition token_error_code (e : TokenError) : Z :=
  match e with
  | TokenError.NotRentExempt => 0
  | TokenError.InsufficientFunds => 1
  | TokenError.InvalidMint => 2
  | TokenError.MintMismatch => 3
  | TokenError.OwnerMismatch => 4
  | TokenError.FixedSupply => 5
  | TokenError.AlreadyInUse => 6
  | TokenError.InvalidNumberOfProvidedSigners => 7
  | TokenError.InvalidNumberOfRequiredSigners => 8
  | TokenError.UninitializedState => 9
  | TokenError.NativeNotSupported => 10
  | TokenError.NonNativeHasBalance => 11
  | TokenError.InvalidInstruction => 12
  | TokenError.InvalidState => 13
  | TokenError.Overflow => 14
  | TokenError.AuthorityTypeNotSupported => 15
  | TokenError.MintCannotFreeze => 16
  | TokenError.AccountFrozen => 17
  | TokenError.MintDecimalsMismatch => 18
  | TokenError.NonNativeNotSupported => 19
  | TokenError.ExtensionTypeMismatch => 20
  | TokenError.ExtensionBaseMismatch => 21
  | TokenError.ExtensionAlreadyInitialized => 22
  | TokenError.ConfidentialTransferAccountHasBalance => 23
  | TokenError.ConfidentialTransferAccountNotApproved => 24
  | TokenError.ConfidentialTransferDepositsAndTransfersDisabled => 25
  | TokenError.ConfidentialTransferElGamalPubkeyMismatch => 26
  | TokenError.ConfidentialTransferBalanceMismatch => 27
  | TokenError.MintHasSupply => 28
  | TokenError.NoAuthorityExists => 29
  | TokenError.TransferFeeExceedsMaximum => 30
  | TokenError.MintRequiredForTransfer => 31
  | TokenError.FeeMismatch => 32
  | TokenError.FeeParametersMismatch => 33
  | TokenError.ImmutableOwner => 34
  | TokenError.AccountHasWithheldTransferFees => 35
  | TokenError.NoMemo => 36
  | TokenError.NonTransferable => 37
  | TokenError.NonTransferableNeedsImmutableOwnership => 38
  | TokenError.MaximumPendingBalanceCreditCounterExceeded => 39
  | TokenError.MaximumDepositAmountExceeded => 40
  | TokenError.CpiGuardSettingsLocked => 41
  | TokenError.CpiGuardTransferBlocked => 42
  | TokenError.CpiGuardBurnBlocked => 43
  | TokenError.CpiGuardCloseAccountBlocked => 44
  | TokenError.CpiGuardApproveBlocked => 45
  | TokenError.CpiGuardSetAuthorityBlocked => 46
  | TokenError.CpiGuardOwnerChangeBlocked => 47
  | TokenError.ExtensionNotFound => 48
  | TokenError.NonConfidentialTransfersDisabled => 49
  | TokenError.ConfidentialTransferFeeAccountHasWithheldFee => 50
  | TokenError.InvalidExtensionCombination => 51
  | TokenError.InvalidLengthForAlloc => 52
  | TokenError.AccountDecryption => 53
  | TokenError.ProofGeneration => 54
  | TokenError.InvalidProofInstructionOffset => 55
  | TokenError.HarvestToMintDisabled => 56
  | TokenError.SplitProofContextStateAccountsNotSupported => 57
  | TokenError.NotEnoughProofContextStateAccounts => 58
  | TokenError.MalformedCiphertext => 59
  | TokenError.CiphertextArithmeticFailed => 60
  | TokenError.PedersenCommitmentMismatch => 61
  | TokenError.RangeProofLengthMismatch => 62
  | TokenError.IllegalBitLength => 63
  | TokenError.FeeCalculation => 64
  | TokenError.IllegalMintBurnConversion => 65
  | TokenError.InvalidScale => 66
  | TokenError.MintPaused => 67
  | TokenError.PendingBalanceNonZero => 68
  end.

(** [impl From<TokenError> for ProgramError]. *)
Definition token_error_into (e : TokenError) : ProgramError :=
  ProgramError.Custom (token_error_code e).
Coercion token_error_into : TokenError.TokenError >-> ProgramError.ProgramError.

(** The variants of the enum, in the order of their discriminants. *)
Definition all_token_errors : list TokenError :=
  [TokenError.NotRentExempt; TokenError.InsufficientFunds;
   TokenError.InvalidMint; TokenError.MintMismatch;
   TokenError.OwnerMismatch; TokenError.FixedSupply;
   TokenError.AlreadyInUse; TokenError.InvalidNumberOfProvidedSigners;
   TokenError.InvalidNumberOfRequiredSigners;
   TokenError.UninitializedState; TokenError.NativeNotSupported;
   TokenError.NonNativeHasBalance; TokenError.InvalidInstruction;
   TokenError.InvalidState; TokenError.Overflow;
   TokenError.AuthorityTypeNotSupported; TokenError.MintCannotFreeze;
   TokenError.AccountFrozen; TokenError.MintDecimalsMismatch;
   TokenError.NonNativeNotSupported; TokenError.ExtensionTypeMismatch;
   TokenError.ExtensionBaseMismatch;
   TokenError.ExtensionAlreadyInitialized;
   TokenError.ConfidentialTransferAccountHasBalance;
   TokenError.ConfidentialTransferAccountNotApproved;
   TokenError.ConfidentialTransferDepositsAndTransfersDisabled;
   TokenError.ConfidentialTransferElGamalPubkeyMismatch;
   TokenError.ConfidentialTransferBalanceMismatch;
   TokenError.MintHasSupply; TokenError.NoAuthorityExists;
   TokenError.TransferFeeExceedsMaximum;
   TokenError.MintRequiredForTransfer; TokenError.FeeMismatch;
   TokenError.FeeParametersMismatch; TokenError.ImmutableOwner;
   TokenError.AccountHasWithheldTransferFees; TokenError.NoMemo;
   TokenError.NonTransferable;
   TokenError.NonTransferableNeedsImmutableOwnership;
   TokenError.MaximumPendingBalanceCreditCounterExceeded;
   TokenError.MaximumDepositAmountExceeded;
   TokenError.CpiGuardSettingsLocked; TokenError.CpiGuardTransferBlocked;
   TokenError.CpiGuardBurnBlocked; TokenError.CpiGuardCloseAccountBlocked;
   TokenError.CpiGuardApproveBlocked;
   TokenError.CpiGuardSetAuthorityBlocked;
   TokenError.CpiGuardOwnerChangeBlocked; TokenError.ExtensionNotFound;
   TokenError.NonConfidentialTransfersDisabled;
   TokenError.ConfidentialTransferFeeAccountHasWithheldFee;
   TokenError.InvalidExtensionCombination;
   TokenError.InvalidLengthForAlloc; TokenError.AccountDecryption;
   TokenError.ProofGeneration; TokenError.InvalidProofInstructionOffset;
   TokenError.HarvestToMintDisabled;
   TokenError.SplitProofContextStateAccountsNotSupported;
   TokenError.NotEnoughProofContextStateAccounts;
   TokenError.MalformedCiphertext; TokenError.CiphertextArithmeticFailed;
   TokenError.PedersenCommitmentMismatch;
   TokenError.RangeProofLengthMismatch; TokenError.IllegalBitLength;
   TokenError.FeeCalculation; TokenError.IllegalMintBurnConversion;
   TokenError.InvalidScale; TokenError.MintPaused;
   TokenError.PendingBalanceNonZero].

(** [num_traits::FromPrimitive::from_u32], derived on the enum: the variant
    whose discriminant is [code], if there is one. *)
Definition token_error_from_u32 (code : Z) : option TokenError :=
  head (filter (fun e => token_error_code e = code) all_token_errors).

(** ** Results *)

Inductive Result (E A : Type) : Type :=
  | Ok (a : A)
  | Err (e : E)
  | Panic.
Arguments Ok {_ _} _.
Arguments Err {_ _} _.
Arguments Panic {_ _}.

#[export] Instance Result_ret {E} : MRet (Result E) := fun _ a => Ok a.
#[export] Instance Result_bind {E} : MBind (Result E) := fun _ _ f r =>
  match r with Ok a => f a | Err e => Err e | Panic => Panic end.
#[export] Instance Result_fmap {E} : FMap (Result E) := fun _ _ f r =>
  match r with Ok a => Ok (f a) | Err e => Err e | Panic => Panic end.

(** [r.map_err(f)]. *)
Definition map_err {E F A} (f : E -> F) (r : Result E A) : Result F A :=
  match r with Ok a => Ok a | Err e => Err (f e) | Panic => Panic end.

(** [o.ok_or(e)]. *)
Definition ok_or {E A} (o : option A) (e : E) : Result E A :=
  match o with Some a => Ok a | None => Err e end.

(** [r.ok()], for results that do not panic. *)
Definition ok {E A} (r : Result E A) : option A :=
  match r with Ok a => Some a | _ => None end.

Definition is_ok {E A} (r : Result E A) : bool :=
  match r with Ok _ => true | _ => false end.

(** [if cond { return Err(e) }], and with [e.into()]. *)
Definition err_if {E} (cond : bool) (e : E) : Result E unit :=
  if cond then Err e else Ok tt.
Definition fail_if (cond : bool) (e : ProgramError) : Result ProgramError unit :=
  err_if cond e.
Definition fail {A} (e : ProgramError) : Result ProgramError A := Err e.

#[export] Instance TokenError_eq_dec : EqDecision TokenError.
Proof. solve_decision. Defined.
#[export] Instance ProgramError_eq_dec : EqDecision ProgramError.
Proof. solve_decision. Defined.

Ltac result_cases :=
  split; intros; repeat match goal with
  | H : exists _, _ |- _ => destruct H
  | H : _ /\ _ |- _ => destruct H
  end; simplify_eq; eauto.

Section results.
Context {E A B : Type}.

Lemma bind_Ok (r : Result E A) (f : A -> Result E B) b :
  (r ≫= f) = Ok b <-> exists a, r = Ok a /\ f a = Ok b.
Proof. destruct r; simpl; by result_cases. Qed.

Lemma fmap_Ok (r : Result E A) (f : A -> B) b :
  f <$> r = Ok b <-> exists a, r = Ok a /\ b = f a.
Proof. destruct r; simpl; by result_cases. Qed.

Lemma ret_Ok (a b : A) : (mret a : Result E A) = Ok b <-> a = b.
Proof. split; [by intros [= ->]|by intros ->]. Qed.

Lemma map_err_Ok {F} (f : E -> F) (r : Result E A) a :
  map_err f r = Ok a <-> r = Ok a.
Proof. destruct r; simpl; by result_cases. Qed.

Lemma ok_or_Ok (o : option A) (e : E) a : ok_or o e = Ok a <-> o = Some a.
Proof. destruct o; simpl; by result_cases. Qed.

Lemma err_if_Ok c (e : E) u : err_if c e = Ok u <-> c = false.
Proof. destruct u, c; simpl; by result_cases. Qed.

Lemma fail_if_Ok c e u : fail_if c e = Ok u <-> c = false.
Proof. destruct u, c; simpl; by result_cases. Qed.

Lemma ok_Some (r : Result E A) a : ok r = Some a <-> r = Ok a.
Proof. destruct r; simpl; by result_cases. Qed.

Lemma is_ok_true (r : Result E A) : is_ok r = true <-> exists a, r = Ok a.
Proof. destruct r; simpl; by result_cases. Qed.
End results.

Lemma token_error_code_inj e f : token_error_code e = token_error_code f -> e = f.
Proof. destruct e, f; simpl; intros [=]; reflexivity. Qed.

Lemma all_token_errors_complete e : In e all_token_errors.
Proof. destruct e; vm_compute; tauto. Qed.

(** Every error code the program reports decodes to the error it came
    from, and no other code decodes to it. *)
Theorem token_error_from_u32_spec code e :
  token_error_from_u32 code = Some e <-> code = token_error_code e.
Proof.
  unfold token_error_from_u32. split.
  - intros H. apply head_Some_elem_of, list_elem_of_filter in H. by destruct H.
  - intros ->. destruct (filter _ _) as [|f fs] eqn:Hf.
    + exfalso. eapply (not_elem_of_nil e). rewrite <- Hf.
      apply list_elem_of_filter. split; [done|].
      apply list_elem_of_In, all_token_errors_complete.
    + simpl. f_equal. apply token_error_code_inj.
      assert (f ∈ f :: fs) as Hin by constructor.
      rewrite <- Hf in Hin. by apply list_elem_of_filter in Hin as [? _].
Qed.
