(* ===== verification/Ids.v ===== *)
(** * Program ids

    The addresses the repository declares with [declare_id!], decoded from
    their base-58 literals. *)
From S2P Require Import Prelude Bytes.
From Stdlib Require Import Strings.String Ascii.

(** ** Program ids *)

Definition base58_alphabet : string :=
  "123456789ABCDEFGHJKLMNPQRSTUVWXYZabcdefghijkmnopqrstuvwxyz".

Fixpoint char_index (c : ascii) (s : string) : option Z :=
  match s with
  | EmptyString => None
  | String d s => if Ascii.eqb c d then Some 0 else Z.succ <$> char_index c s
  end.

Fixpoint base58_value (acc : Z) (s : string) : Z :=
  match s with
  | EmptyString => acc
  | String c s =>
      base58_value (58 * acc + default 0 (char_index c base58_alphabet)) s
  end.

(** [declare_id!]: the 32 bytes, most significant first, a base-58 literal denotes. *)
Definition declare_id (s : string) : Address :=
  bytes_of_list 32 (rev (to_le_bytes 32 (base58_value 0 s))).

(** [spl_token_2022_interface::id()]. *)
Definition id : Address :=
  Eval vm_compute in declare_id "TokenzQdBNbLqP5VEhdkAS6EPFLC1PHnBqCXEpPxuEb".

Module inline_spl_token.
(** [spl_token_2022_interface::inline_spl_token::id()]. *)
Definition id : Address :=
  Eval vm_compute in declare_id "TokenkegQfeZyiNwAJbNbGKPFXCWuBvf9Ss623VQ5DA".
End inline_spl_token.

Module native_mint.
Definition DECIMALS : Z := 9.
(** [spl_token_2022_interface::native_mint::id()]. *)
Definition id : Address :=
  Eval vm_compute in declare_id "9pan9bMn5HatX4EJdBwg9VgCa7Uz5HL8N1m5D3NdXejP".
End native_mint.

Module elgamal_registry.
(** [spl_elgamal_registry_interface::id()]. *)
Definition id : Address :=
  Eval vm_compute in declare_id "regVYJW7tcT8zipN5YiBvHsvR5jXW1uLFxaHSbugABg".
End elgamal_registry.
