(* ===== verification/Runtime.v ===== *)
(** * The runtime: accounts, borrows, sysvars and the instruction monad

    An instruction receives a slice of [AccountInfo]s.  Two entries with the
    same key share one [RefCell] for the data and one for the lamports, so the
    contents live in a store keyed by address ([World]); an [AccountInfo] is
    the key with its flags.  [M] threads the store and stops at the first
    error: on [Err] or [Panic] the runtime discards every change of the
    transaction, which is why these carry no store.

    What the runtime and the crates outside the repository supply is the class
    [Runtime]: sysvars, the stack height, the previous sibling instruction,
    account resizing and the cross-program calls. *)
From S2P Require Import Prelude Bytes Errors Ids.

(** ** Accounts *)

(** The shared contents of an account. *)
Record Cell : Type := mk_cell {
  cell_lamports : Z;
  cell_data : list byte;
  cell_owner : Address
}.

(** An account the store does not list: no lamports, no data. *)
Definition empty_cell : Cell := mk_cell 0 [] (zeroed 32).

Record AccountInfo : Type := mk_info {
  key : Address;
  is_signer : bool;
  is_writable : bool
}.

Record World : Type := mk_world {
  cells : gmap Address Cell;
  return_data : list byte
}.

Definition cell (w : World) (k : Address) : Cell := default empty_cell (cells w !! k).

Definition set_cell (k : Address) (c : Cell) (w : World) : World :=
  mk_world (<[k := c]> (cells w)) (return_data w).

Definition with_lamports (l : Z) (c : Cell) : Cell := mk_cell l (cell_data c) (cell_owner c).
Definition with_data (d : list byte) (c : Cell) : Cell :=
  mk_cell (cell_lamports c) d (cell_owner c).
Definition with_owner (o : Address) (c : Cell) : Cell :=
  mk_cell (cell_lamports c) (cell_data c) o.

(** ** What the model takes from outside the repository *)

Record Rent : Type := mk_rent {
  minimum_balance : nat -> Z;
  is_exempt : Z -> nat -> bool
}.

Record Clock : Type := mk_clock {
  clock_epoch : Z;
  clock_unix_timestamp : Z
}.

Class Runtime : Type := mk_runtime {
  (** [Clock::get()], [Rent::get()] and [Rent::from_account_info]. *)
  rt_clock : Result ProgramError Clock;
  rt_rent : Result ProgramError Rent;
  rt_rent_from_account_info : Address -> list byte -> Result ProgramError Rent;
  (** [sol_get_stack_height] and [TRANSACTION_LEVEL_STACK_HEIGHT]. *)
  rt_stack_height : Z;
  rt_transaction_level_stack_height : Z;
  (** The program of the previous sibling instruction
      ([sol_get_processed_sibling_instruction] at index 0). *)
  rt_processed_sibling : option Address;
  (** [system_program::id()], [incinerator::id()] and the memo programs. *)
  rt_system_program_id : Address;
  rt_incinerator_id : Address;
  (** [sysvar::rent::id()]. *)
  rt_rent_id : Address;
  rt_memo_v1_id : Address;
  rt_memo_v3_id : Address;
  rt_memo_v4_id : Address;
  (** [AccountInfo::resize]: the new data of the account. *)
  rt_resize : list byte -> nat -> Result ProgramError (list byte);
  (** [spl_transfer_hook_interface::onchain::invoke_execute], given program,
      source, mint, destination, authority, the remaining accounts and the
      amount. *)
  rt_invoke_execute : Address -> AccountInfo -> AccountInfo -> AccountInfo ->
    AccountInfo -> list AccountInfo -> Z -> World -> Result ProgramError World;
  (** The system program's [transfer], [allocate] and [assign] by CPI. *)
  rt_system_transfer : Address -> Address -> Z -> World -> Result ProgramError World;
  rt_system_allocate : Address -> Z -> World -> Result ProgramError World;
  rt_system_assign : Address -> Address -> World -> Result ProgramError World
}.

(** ** The instruction monad *)

Definition M (A : Type) : Type := World -> Result ProgramError (A * World).

#[export] Instance M_ret : MRet M := fun _ a w => Ok (a, w).
#[export] Instance M_bind : MBind M := fun _ _ f m w =>
  match m w with
  | Ok (a, w') => f a w'
  | Err e => Err e
  | Panic => Panic
  end.

(** A computation that does not touch the store. *)
Definition lift {A} (r : Result ProgramError A) : M A := fun w =>
  match r with Ok a => Ok (a, w) | Err e => Err e | Panic => Panic end.

(** A cross-program call, which may change any account. *)
Definition invoke (f : World -> Result ProgramError World) : M unit := fun w =>
  match f w with Ok w' => Ok (tt, w') | Err e => Err e | Panic => Panic end.

Definition throw {A} (e : ProgramError) : M A := fun _ => Err e.

(** [if cond { return Err(e.into()) }]. *)
Definition bail_if (cond : bool) (e : ProgramError) : M unit := lift (fail_if cond e).

Definition when (cond : bool) (m : M unit) : M unit := if cond then m else mret tt.

Definition get_cell (k : Address) : M Cell := fun w => Ok (cell w k, w).
Definition put_cell (k : Address) (c : Cell) : M unit := fun w => Ok (tt, set_cell k c w).

Definition info_owner (i : AccountInfo) : M Address := c ← get_cell (key i); mret (cell_owner c).
Definition info_lamports (i : AccountInfo) : M Z := c ← get_cell (key i); mret (cell_lamports c).

(** [**info.lamports.borrow_mut() = l]. *)
Definition set_lamports (i : AccountInfo) (l : Z) : M unit :=
  c ← get_cell (key i); put_cell (key i) (with_lamports l c).

(** Write a data buffer back: the end of a mutable borrow. *)
Definition write_data (i : AccountInfo) (d : list byte) : M unit :=
  c ← get_cell (key i); put_cell (key i) (with_data d c).

(** [info.assign(owner)]. *)
Definition assign (i : AccountInfo) (o : Address) : M unit :=
  c ← get_cell (key i); put_cell (key i) (with_owner o c).

(** [set_return_data(d)]. *)
Definition set_return_data (d : list byte) : M unit := fun w => Ok (tt, mk_world (cells w) d).

(** ** [RefCell] borrows of account data

    A handler names the borrows that are alive where it takes another one. *)

Inductive Borrow : Type := Shared (k : Address) | Mut (k : Address).

Definition conflicts_shared (k : Address) (b : Borrow) : bool :=
  match b with Shared _ => false | Mut k' => bool_decide (k = k') end.
Definition conflicts_mut (k : Address) (b : Borrow) : bool :=
  match b with Shared k' | Mut k' => bool_decide (k = k') end.

Definition data_of (i : AccountInfo) : M (list byte) :=
  c ← get_cell (key i); mret (cell_data c).

(** [info.data.borrow()] and [info.data.borrow_mut()]: a conflict panics. *)
Definition borrow (held : list Borrow) (i : AccountInfo) : M (list byte) :=
  if existsb (conflicts_shared (key i)) held then (fun _ => Panic) else data_of i.
Definition borrow_mut (held : list Borrow) (i : AccountInfo) : M (list byte) :=
  if existsb (conflicts_mut (key i)) held then (fun _ => Panic) else data_of i.

(** [info.try_borrow_data()] and [info.try_borrow_mut_data()]: a conflict is an error. *)
Definition try_borrow_data (held : list Borrow) (i : AccountInfo) : M (list byte) :=
  if existsb (conflicts_shared (key i)) held
  then throw ProgramError.AccountBorrowFailed else data_of i.
Definition try_borrow_mut_data (held : list Borrow) (i : AccountInfo) : M (list byte) :=
  if existsb (conflicts_mut (key i)) held
  then throw ProgramError.AccountBorrowFailed else data_of i.

(** [info.data_len()]. *)
Definition data_len (held : list Borrow) (i : AccountInfo) : M nat :=
  d ← borrow held i; mret (length d).

(** [next_account_info(iter)], on the rest of the slice. *)
Definition next_account_info (infos : list AccountInfo)
    : Result ProgramError (AccountInfo * list AccountInfo) :=
  match infos with
  | [] => Err ProgramError.NotEnoughAccountKeys
  | i :: rest => Ok (i, rest)
  end.

(** ** Program checks and runtime queries *)

Definition check_program_account (spl_token_program_id : Address) : Result ProgramError unit :=
  fail_if (negb (bool_decide (spl_token_program_id = id))) ProgramError.IncorrectProgramId.

Definition check_spl_token_program_account (spl_token_program_id : Address)
    : Result ProgramError unit :=
  fail_if (negb (bool_decide (spl_token_program_id = id)) &&
           negb (bool_decide (spl_token_program_id = inline_spl_token.id)))
    ProgramError.IncorrectProgramId.

Section runtime.
Context `{RT : Runtime}.

(** [cpi_guard::in_cpi]. *)
Definition in_cpi : bool := rt_transaction_level_stack_height <? rt_stack_height.

Definition check_system_program_account (system_program_id : Address)
    : Result ProgramError unit :=
  fail_if (negb (bool_decide (system_program_id = rt_system_program_id)))
    ProgramError.IncorrectProgramId.

Definition is_memo_program (program_id : Address) : bool :=
  bool_decide (program_id = rt_memo_v4_id) ||
  bool_decide (program_id = rt_memo_v3_id) ||
  bool_decide (program_id = rt_memo_v1_id).

Definition check_previous_sibling_instruction_is_memo : Result ProgramError unit :=
  match rt_processed_sibling with
  | Some program_id => fail_if (negb (is_memo_program program_id)) TokenError.NoMemo
  | None => fail TokenError.NoMemo
  end.

End runtime.
