(* ===== verification/Pod.v ===== *)
(** * Plain-old-data structures and the base states

    [Pod] is the interface of [bytemuck::Pod]: a structure of fixed size that
    is in bijection with the byte lists of that size.  The base states of
    [interface/src/pod.rs], [PodMint], [PodAccount] and [PodMultisig], are
    records over it, and [PodCOption] is the four-byte-tagged option.  [BaseState]
    is the trait of [interface/src/extension/mod.rs] that tells a mint from a
    token account. *)
From S2P Require Import Prelude Bytes Errors Ids Runtime.

(** ** The interface *)

Class Pod (A : Type) : Type := mk_pod {
  size_of : nat;
  to_bytes : A -> list byte;
  from_bytes : list byte -> A;
  length_to_bytes a : length (to_bytes a) = size_of;
  from_to_bytes a : from_bytes (to_bytes a) = a;
  to_from_bytes l : length l = size_of -> to_bytes (from_bytes l) = l
}.
Arguments size_of A {_}.
#[global] Hint Mode Pod ! : typeclass_instances.

(** [bytemuck::try_from_bytes]: every Pod type here has alignment one, so only
    the length matters. *)
Definition try_from_bytes {A} `{Pod A} (l : list byte) : option A :=
  if (length l =? size_of A)%nat then Some (from_bytes l) else None.

#[export] Program Instance u8_pod : Pod byte := {|
  size_of := 1;
  to_bytes b := [b];
  from_bytes l := default x00 (head l)
|}.
Next Obligation. done. Qed.
Next Obligation. done. Qed.
Next Obligation. intros [|b [|c l]] H; simpl in *; try done. Qed.

#[export] Program Instance bytes_pod n : Pod (Bytes n) := {|
  size_of := n;
  to_bytes a := bytes_list a;
  from_bytes l := bytes_of_list n l
|}.
Next Obligation. intros. apply length_bytes_list. Qed.
Next Obligation. intros. apply bytes_of_list_list. Qed.
Next Obligation. intros. by apply bytes_list_of_list. Qed.

#[export] Program Instance unit_pod : Pod unit := {|
  size_of := 0;
  to_bytes _ := [];
  from_bytes _ := tt
|}.
Next Obligation. done. Qed.
Next Obligation. by intros []. Qed.
Next Obligation. by intros [|]. Qed.

(** [repr(C)] structures of alignment one: the fields one after the other. *)
#[export] Program Instance pair_pod A B `{Pod A, Pod B} : Pod (A * B) := {|
  size_of := size_of A + size_of B;
  to_bytes p := to_bytes p.1 ++ to_bytes p.2;
  from_bytes l := (from_bytes (take (size_of A) l), from_bytes (drop (size_of A) l))
|}.
Next Obligation. intros. simpl. by rewrite length_app, !length_to_bytes. Qed.
Next Obligation.
  intros A B ? ? [a b]. simpl. f_equal.
  - rewrite take_app_length'; [apply from_to_bytes|by rewrite length_to_bytes].
  - rewrite drop_app_length'; [apply from_to_bytes|by rewrite length_to_bytes].
Qed.
Next Obligation.
  intros A B ? ? l H. simpl. rewrite !to_from_bytes, take_drop; [done| |].
  - rewrite length_drop. lia.
  - rewrite length_take. lia.
Qed.

(** A record through the tuple of its fields. *)
Program Definition pod_iso {A B} `{Pod B} (f : A -> B) (g : B -> A)
    (Hgf : forall a, g (f a) = a) (Hfg : forall b, f (g b) = b) : Pod A := {|
  size_of := size_of B;
  to_bytes a := to_bytes (f a);
  from_bytes l := g (from_bytes l)
|}.
Next Obligation. intros. apply length_to_bytes. Qed.
Next Obligation. intros. simpl. by rewrite from_to_bytes. Qed.
Next Obligation. intros. simpl. by rewrite Hfg, to_from_bytes. Qed.

(** A Pod instance for a record, from its fields as a right-nested tuple and
    the constructor applied to them. *)
Ltac solve_pod_iso :=
  intros; repeat match goal with x : _ * _ |- _ => destruct x end;
  match goal with x : _ |- _ => by destruct x | _ => reflexivity end.

Lemma try_from_bytes_Some {A} `{Pod A} l (a : A) :
  try_from_bytes l = Some a <-> l = to_bytes a.
Proof.
  unfold try_from_bytes. destruct (Nat.eqb_spec (length l) (size_of A)) as [E|E].
  - split; [intros [= <-]; by rewrite to_from_bytes|].
    intros ->. by rewrite from_to_bytes.
  - split; [done|]. intros ->. by rewrite length_to_bytes in E.
Qed.

Lemma to_bytes_inj {A} `{Pod A} (a b : A) : to_bytes a = to_bytes b -> a = b.
Proof. intros E. rewrite <- (from_to_bytes a), E. apply from_to_bytes. Qed.

#[export] Hint Rewrite @length_to_bytes @from_to_bytes : token.

(** ** [PodCOption] *)

Record PodCOption (T : Type) : Type := mk_coption {
  coption_tag : Bytes 4;
  value : T
}.
Arguments mk_coption {_} _ _.
Arguments coption_tag {_} _.
Arguments value {_} _.

#[export] Instance coption_pod T `{Pod T} : Pod (PodCOption T).
Proof.
  refine (pod_iso (fun c => (coption_tag c, value c)) (fun p => mk_coption p.1 p.2) _ _);
    solve_pod_iso.
Defined.

Module PodCOption.
Definition NONE : Bytes 4 := bytes_of_list 4 [x00; x00; x00; x00].
Definition SOME : Bytes 4 := bytes_of_list 4 [x01; x00; x00; x00].

(** [PodCOption::none()], with the type's [Default] as the unused value. *)
Definition none {T} (default_value : T) : PodCOption T := mk_coption NONE default_value.
Definition some {T} (v : T) : PodCOption T := mk_coption SOME v.

Section ops.
Context {T : Type}.
Implicit Types c : PodCOption T.

Definition unwrap_or c (d : T) : T :=
  if decide (coption_tag c = NONE) then d else value c.
Definition is_some c : bool := bool_decide (coption_tag c = SOME).
Definition is_none c : bool := bool_decide (coption_tag c = NONE).
Definition ok_or {E} c (e : E) : Result E T :=
  if decide (coption_tag c = SOME) then Ok (value c) else Err e.
(** The pattern [PodCOption { option: SOME, value }]. *)
Definition get c : option T :=
  if decide (coption_tag c = SOME) then Some (value c) else None.
End ops.
End PodCOption.

(** [TryFrom<PodCOption<Address>> for MaybeNull<Address>]. *)
Definition maybe_null_of_coption (p : PodCOption Address) : Result ProgramError MaybeNull :=
  if decide (coption_tag p = PodCOption.SOME) then
    if decide (value p = zeroed 32) then Err ProgramError.InvalidArgument
    else Ok (maybe_null_from (value p))
  else if decide (coption_tag p = PodCOption.NONE) then Ok (zeroed 32)
  else Panic.

(** ** Base states *)

Record PodMint : Type := mk_mint {
  mint_authority : PodCOption Address;
  supply : U64;
  decimals : byte;
  mint_is_initialized : byte;
  freeze_authority : PodCOption Address
}.

#[export] Instance PodMint_pod : Pod PodMint.
Proof.
  refine (pod_iso
    (fun m => (mint_authority m, (supply m, (decimals m, (mint_is_initialized m,
               freeze_authority m)))))
    (fun '(a, (s, (d, (i, f)))) => mk_mint a s d i f) _ _); solve_pod_iso.
Defined.

Record PodAccount : Type := mk_account {
  mint : Address;
  owner : Address;
  amount : U64;
  delegate : PodCOption Address;
  state : byte;
  is_native_reserve : PodCOption U64;
  delegated_amount : U64;
  close_authority : PodCOption Address
}.

#[export] Instance PodAccount_pod : Pod PodAccount.
Proof.
  refine (pod_iso
    (fun a => (mint a, (owner a, (amount a, (delegate a, (state a, (is_native_reserve a,
               (delegated_amount a, close_authority a))))))))
    (fun '(m, (o, (a, (d, (s, (n, (da, c))))))) => mk_account m o a d s n da c) _ _);
    solve_pod_iso.
Defined.

Definition MIN_SIGNERS : nat := 1.
Definition MAX_SIGNERS : nat := 11.

(** [m], [n] and [is_initialized], then eleven addresses. *)
Record PodMultisig : Type := mk_multisig {
  multisig_m : byte;
  multisig_n : byte;
  multisig_is_initialized : byte;
  signers_flat : Bytes (32 * MAX_SIGNERS)
}.

#[export] Instance PodMultisig_pod : Pod PodMultisig.
Proof.
  refine (pod_iso
    (fun s => (multisig_m s, (multisig_n s, (multisig_is_initialized s, signers_flat s))))
    (fun '(m, (n, (i, s))) => mk_multisig m n i s) _ _); solve_pod_iso.
Defined.

(** [multisig.signers[i]]. *)
Definition signers (s : PodMultisig) : list Address :=
  (fun i => bytes_of_list 32 (slice (bytes_list (signers_flat s)) (32 * i) (32 * i + 32)))
    <$> seq 0 MAX_SIGNERS.

(** [multisig.signers[i] = a]. *)
Definition set_signer (i : nat) (a : Address) (s : PodMultisig) : PodMultisig :=
  mk_multisig (multisig_m s) (multisig_n s) (multisig_is_initialized s)
    (bytes_of_list (32 * MAX_SIGNERS) (splice (bytes_list (signers_flat s)) (32 * i) (bytes_list a))).

Module AccountState.
Inductive AccountState : Type := Uninitialized | Initialized | Frozen.
End AccountState.
Abbreviation AccountState := AccountState.AccountState.

Definition account_state_u8 (s : AccountState) : byte :=
  match s with
  | AccountState.Uninitialized => x00
  | AccountState.Initialized => x01
  | AccountState.Frozen => x02
  end.

(** [AccountState::try_from(u8)]. *)
Definition account_state_try_from (b : byte) : option AccountState :=
  match b with
  | x00 => Some AccountState.Uninitialized
  | x01 => Some AccountState.Initialized
  | x02 => Some AccountState.Frozen
  | _ => None
  end.

#[export] Instance AccountState_eq_dec : EqDecision AccountState.
Proof. solve_decision. Defined.

Definition is_frozen (a : PodAccount) : bool :=
  bool_decide (state a = account_state_u8 AccountState.Frozen).
Definition is_native (a : PodAccount) : bool := PodCOption.is_some (is_native_reserve a).
Definition account_is_initialized (a : PodAccount) : bool :=
  bool_decide (state a = account_state_u8 AccountState.Initialized) ||
  bool_decide (state a = account_state_u8 AccountState.Frozen).

Definition is_owned_by_system_program_or_incinerator `{RT : Runtime} (a : PodAccount) : bool :=
  bool_decide (owner a = rt_system_program_id) || bool_decide (owner a = rt_incinerator_id).

Definition is_valid_signer_index (index : nat) : bool :=
  (MIN_SIGNERS <=? index)%nat && (index <=? MAX_SIGNERS)%nat.

(** ** [AccountType] and the [BaseState] trait *)

Module AccountType.
Inductive AccountType : Type := Uninitialized | Mint | Account.
End AccountType.
Abbreviation AccountType := AccountType.AccountType.

#[export] Instance AccountType_eq_dec : EqDecision AccountType.
Proof. solve_decision. Defined.

Definition account_type_u8 (t : AccountType) : byte :=
  match t with
  | AccountType.Uninitialized => x00
  | AccountType.Mint => x01
  | AccountType.Account => x02
  end.

Definition account_type_try_from (b : byte) : option AccountType :=
  match b with
  | x00 => Some AccountType.Uninitialized
  | x01 => Some AccountType.Mint
  | x02 => Some AccountType.Account
  | _ => None
  end.

Class BaseState (S : Type) `{Pod S} : Type := mk_base_state {
  ACCOUNT_TYPE : AccountType;
  is_initialized : S -> bool;
  ACCOUNT_TYPE_not_uninitialized : ACCOUNT_TYPE <> AccountType.Uninitialized
}.
Arguments ACCOUNT_TYPE S {_ _}.

#[export] Instance PodMint_base : BaseState PodMint := {|
  ACCOUNT_TYPE := AccountType.Mint;
  is_initialized s := bool_get (mint_is_initialized s);
  ACCOUNT_TYPE_not_uninitialized := ltac:(discriminate)
|}.

#[export] Instance PodAccount_base : BaseState PodAccount := {|
  ACCOUNT_TYPE := AccountType.Account;
  is_initialized := account_is_initialized;
  ACCOUNT_TYPE_not_uninitialized := ltac:(discriminate)
|}.

(** [Mint::LEN], [Account::LEN] and [Multisig::LEN] of [interface/src/state.rs]. *)
Definition Mint_LEN : nat := 82.
Definition Account_LEN : nat := 165.
Definition Multisig_LEN : nat := 355.

Lemma PodMint_size : size_of PodMint = Mint_LEN.
Proof. reflexivity. Qed.
Lemma PodAccount_size : size_of PodAccount = Account_LEN.
Proof. reflexivity. Qed.
Lemma PodMultisig_size : size_of PodMultisig = Multisig_LEN.
Proof. reflexivity. Qed.
