(* ===== verification/ExtensionState.v ===== *)
(** * Extension states

    The plain-old-data structures of [interface/src/extension/*/mod.rs], field
    by field, with a prefix on each field name.  Ciphertexts, ElGamal keys and
    [f64]s are opaque byte arrays of their documented sizes (64, 36, 32 and 8
    bytes).  [Default] is the all-zero value for each of them. *)
From S2P Require Import Prelude Bytes Errors Ids Runtime Pod.

(** [PodElGamalPubkey], [PodElGamalCiphertext], [PodAeCiphertext], [PodF64]. *)
Abbreviation PodElGamalPubkey := (Bytes 32).
Abbreviation EncryptedBalance := (Bytes 64).
Abbreviation DecryptableBalance := (Bytes 36).
Abbreviation PodF64 := (Bytes 8).

Record TransferFee : Type := mk_tf {
  tf_epoch : U64;
  tf_maximum_fee : U64;
  tf_transfer_fee_basis_points : U16
}.

#[export] Instance TransferFee_pod : Pod TransferFee.
Proof.
  refine (pod_iso
    (fun x => (tf_epoch x, (tf_maximum_fee x, tf_transfer_fee_basis_points
      x)))
    (fun '(a, (b, c)) => mk_tf a b c) _ _); solve_pod_iso.
Defined.

Record TransferFeeConfig : Type := mk_tfc {
  tfc_transfer_fee_config_authority : MaybeNull;
  tfc_withdraw_withheld_authority : MaybeNull;
  tfc_withheld_amount : U64;
  tfc_older_transfer_fee : TransferFee;
  tfc_newer_transfer_fee : TransferFee
}.

#[export] Instance TransferFeeConfig_pod : Pod TransferFeeConfig.
Proof.
  refine (pod_iso
    (fun x => (tfc_transfer_fee_config_authority x,
      (tfc_withdraw_withheld_authority x, (tfc_withheld_amount x,
      (tfc_older_transfer_fee x, tfc_newer_transfer_fee x)))))
    (fun '(a, (b, (c, (d, e)))) => mk_tfc a b c d e) _ _); solve_pod_iso.
Defined.

Record TransferFeeAmount : Type := mk_tfa {
  tfa_withheld_amount : U64
}.

#[export] Instance TransferFeeAmount_pod : Pod TransferFeeAmount.
Proof. refine (pod_iso tfa_withheld_amount mk_tfa _ _); solve_pod_iso. Defined.

Record MintCloseAuthority : Type := mk_mca {
  mca_close_authority : MaybeNull
}.

#[export] Instance MintCloseAuthority_pod : Pod MintCloseAuthority.
Proof. refine (pod_iso mca_close_authority mk_mca _ _); solve_pod_iso. Defined.

Record ConfidentialTransferMint : Type := mk_ctm {
  ctm_authority : MaybeNull;
  ctm_auto_approve_new_accounts : byte;
  ctm_auditor_elgamal_pubkey : PodElGamalPubkey
}.

#[export] Instance ConfidentialTransferMint_pod : Pod ConfidentialTransferMint.
Proof.
  refine (pod_iso
    (fun x => (ctm_authority x, (ctm_auto_approve_new_accounts x,
      ctm_auditor_elgamal_pubkey x)))
    (fun '(a, (b, c)) => mk_ctm a b c) _ _); solve_pod_iso.
Defined.

Record ConfidentialTransferAccount : Type := mk_cta {
  cta_approved : byte;
  cta_elgamal_pubkey : PodElGamalPubkey;
  cta_pending_balance_lo : EncryptedBalance;
  cta_pending_balance_hi : EncryptedBalance;
  cta_available_balance : EncryptedBalance;
  cta_decryptable_available_balance : DecryptableBalance;
  cta_allow_confidential_credits : byte;
  cta_allow_non_confidential_credits : byte;
  cta_pending_balance_credit_counter : U64;
  cta_maximum_pending_balance_credit_counter : U64;
  cta_expected_pending_balance_credit_counter : U64;
  cta_actual_pending_balance_credit_counter : U64
}.

#[export] Instance ConfidentialTransferAccount_pod : Pod ConfidentialTransferAccount.
Proof.
  refine (pod_iso
    (fun x => (cta_approved x, (cta_elgamal_pubkey x,
      (cta_pending_balance_lo x, (cta_pending_balance_hi x,
      (cta_available_balance x, (cta_decryptable_available_balance x,
      (cta_allow_confidential_credits x, (cta_allow_non_confidential_credits
      x, (cta_pending_balance_credit_counter x,
      (cta_maximum_pending_balance_credit_counter x,
      (cta_expected_pending_balance_credit_counter x,
      cta_actual_pending_balance_credit_counter x))))))))))))
    (fun '(a, (b, (c, (d, (e, (f, (g, (h, (i, (j, (k, l))))))))))) => mk_cta a b c d e f g h i j k l) _ _); solve_pod_iso.
Defined.

Record DefaultAccountState : Type := mk_das {
  das_state : byte
}.

#[export] Instance DefaultAccountState_pod : Pod DefaultAccountState.
Proof. refine (pod_iso das_state mk_das _ _); solve_pod_iso. Defined.

Record MemoTransfer : Type := mk_mt {
  mt_require_incoming_transfer_memos : byte
}.

#[export] Instance MemoTransfer_pod : Pod MemoTransfer.
Proof. refine (pod_iso mt_require_incoming_transfer_memos mk_mt _ _); solve_pod_iso. Defined.

Record InterestBearingConfig : Type := mk_ibc {
  ibc_rate_authority : MaybeNull;
  ibc_initialization_timestamp : I64;
  ibc_pre_update_average_rate : I16;
  ibc_last_update_timestamp : I64;
  ibc_current_rate : I16
}.

#[export] Instance InterestBearingConfig_pod : Pod InterestBearingConfig.
Proof.
  refine (pod_iso
    (fun x => (ibc_rate_authority x, (ibc_initialization_timestamp x,
      (ibc_pre_update_average_rate x, (ibc_last_update_timestamp x,
      ibc_current_rate x)))))
    (fun '(a, (b, (c, (d, e)))) => mk_ibc a b c d e) _ _); solve_pod_iso.
Defined.

Record CpiGuard : Type := mk_cg {
  cg_lock_cpi : byte
}.

#[export] Instance CpiGuard_pod : Pod CpiGuard.
Proof. refine (pod_iso cg_lock_cpi mk_cg _ _); solve_pod_iso. Defined.

Record PermanentDelegate : Type := mk_pd {
  pd_delegate : MaybeNull
}.

#[export] Instance PermanentDelegate_pod : Pod PermanentDelegate.
Proof. refine (pod_iso pd_delegate mk_pd _ _); solve_pod_iso. Defined.

Record TransferHook : Type := mk_th {
  th_authority : MaybeNull;
  th_program_id : MaybeNull
}.

#[export] Instance TransferHook_pod : Pod TransferHook.
Proof.
  refine (pod_iso
    (fun x => (th_authority x, th_program_id x))
    (fun '(a, b) => mk_th a b) _ _); solve_pod_iso.
Defined.

Record TransferHookAccount : Type := mk_tha {
  tha_transferring : byte
}.

#[export] Instance TransferHookAccount_pod : Pod TransferHookAccount.
Proof. refine (pod_iso tha_transferring mk_tha _ _); solve_pod_iso. Defined.

Record ConfidentialTransferFeeConfig : Type := mk_ctfc {
  ctfc_authority : MaybeNull;
  ctfc_withdraw_withheld_authority_elgamal_pubkey : PodElGamalPubkey;
  ctfc_harvest_to_mint_enabled : byte;
  ctfc_withheld_amount : EncryptedBalance
}.

#[export] Instance ConfidentialTransferFeeConfig_pod : Pod ConfidentialTransferFeeConfig.
Proof.
  refine (pod_iso
    (fun x => (ctfc_authority x,
      (ctfc_withdraw_withheld_authority_elgamal_pubkey x,
      (ctfc_harvest_to_mint_enabled x, ctfc_withheld_amount x))))
    (fun '(a, (b, (c, d))) => mk_ctfc a b c d) _ _); solve_pod_iso.
Defined.

Record ConfidentialTransferFeeAmount : Type := mk_ctfa {
  ctfa_withheld_amount : EncryptedBalance
}.

#[export] Instance ConfidentialTransferFeeAmount_pod : Pod ConfidentialTransferFeeAmount.
Proof. refine (pod_iso ctfa_withheld_amount mk_ctfa _ _); solve_pod_iso. Defined.

Record MetadataPointer : Type := mk_mp {
  mp_authority : MaybeNull;
  mp_metadata_address : MaybeNull
}.

#[export] Instance MetadataPointer_pod : Pod MetadataPointer.
Proof.
  refine (pod_iso
    (fun x => (mp_authority x, mp_metadata_address x))
    (fun '(a, b) => mk_mp a b) _ _); solve_pod_iso.
Defined.

Record GroupPointer : Type := mk_gp {
  gp_authority : MaybeNull;
  gp_group_address : MaybeNull
}.

#[export] Instance GroupPointer_pod : Pod GroupPointer.
Proof.
  refine (pod_iso
    (fun x => (gp_authority x, gp_group_address x))
    (fun '(a, b) => mk_gp a b) _ _); solve_pod_iso.
Defined.

Record GroupMemberPointer : Type := mk_gmp {
  gmp_authority : MaybeNull;
  gmp_member_address : MaybeNull
}.

#[export] Instance GroupMemberPointer_pod : Pod GroupMemberPointer.
Proof.
  refine (pod_iso
    (fun x => (gmp_authority x, gmp_member_address x))
    (fun '(a, b) => mk_gmp a b) _ _); solve_pod_iso.
Defined.

Record ConfidentialMintBurn : Type := mk_cmb {
  cmb_confidential_supply : EncryptedBalance;
  cmb_decryptable_supply : DecryptableBalance;
  cmb_supply_elgamal_pubkey : PodElGamalPubkey;
  cmb_pending_burn : EncryptedBalance
}.

#[export] Instance ConfidentialMintBurn_pod : Pod ConfidentialMintBurn.
Proof.
  refine (pod_iso
    (fun x => (cmb_confidential_supply x, (cmb_decryptable_supply x,
      (cmb_supply_elgamal_pubkey x, cmb_pending_burn x))))
    (fun '(a, (b, (c, d))) => mk_cmb a b c d) _ _); solve_pod_iso.
Defined.

Record ScaledUiAmountConfig : Type := mk_sua {
  sua_authority : MaybeNull;
  sua_multiplier : PodF64;
  sua_new_multiplier_effective_timestamp : I64;
  sua_new_multiplier : PodF64
}.

#[export] Instance ScaledUiAmountConfig_pod : Pod ScaledUiAmountConfig.
Proof.
  refine (pod_iso
    (fun x => (sua_authority x, (sua_multiplier x,
      (sua_new_multiplier_effective_timestamp x, sua_new_multiplier x))))
    (fun '(a, (b, (c, d))) => mk_sua a b c d) _ _); solve_pod_iso.
Defined.

Record PausableConfig : Type := mk_pc {
  pc_authority : MaybeNull;
  pc_paused : byte
}.

#[export] Instance PausableConfig_pod : Pod PausableConfig.
Proof.
  refine (pod_iso
    (fun x => (pc_authority x, pc_paused x))
    (fun '(a, b) => mk_pc a b) _ _); solve_pod_iso.
Defined.

Record PermissionedBurnConfig : Type := mk_pbc {
  pbc_authority : MaybeNull
}.

#[export] Instance PermissionedBurnConfig_pod : Pod PermissionedBurnConfig.
Proof. refine (pod_iso pbc_authority mk_pbc _ _); solve_pod_iso. Defined.

Record TokenGroup : Type := mk_tg {
  tg_update_authority : MaybeNull;
  tg_mint : Address;
  tg_size : U64;
  tg_max_size : U64
}.

#[export] Instance TokenGroup_pod : Pod TokenGroup.
Proof.
  refine (pod_iso
    (fun x => (tg_update_authority x, (tg_mint x, (tg_size x, tg_max_size
      x))))
    (fun '(a, (b, (c, d))) => mk_tg a b c d) _ _); solve_pod_iso.
Defined.

Record TokenGroupMember : Type := mk_tgm {
  tgm_mint : Address;
  tgm_group : Address;
  tgm_member_number : U64
}.

#[export] Instance TokenGroupMember_pod : Pod TokenGroupMember.
Proof.
  refine (pod_iso
    (fun x => (tgm_mint x, (tgm_group x, tgm_member_number x)))
    (fun '(a, (b, c)) => mk_tgm a b c) _ _); solve_pod_iso.
Defined.

Inductive ImmutableOwner : Type := mk_ImmutableOwner.

#[export] Instance ImmutableOwner_pod : Pod ImmutableOwner.
Proof. refine (pod_iso (fun _ => tt) (fun _ => mk_ImmutableOwner) _ _); solve_pod_iso. Defined.

Inductive NonTransferable : Type := mk_NonTransferable.

#[export] Instance NonTransferable_pod : Pod NonTransferable.
Proof. refine (pod_iso (fun _ => tt) (fun _ => mk_NonTransferable) _ _); solve_pod_iso. Defined.

Inductive NonTransferableAccount : Type := mk_NonTransferableAccount.

#[export] Instance NonTransferableAccount_pod : Pod NonTransferableAccount.
Proof. refine (pod_iso (fun _ => tt) (fun _ => mk_NonTransferableAccount) _ _); solve_pod_iso. Defined.

Inductive PausableAccount : Type := mk_PausableAccount.

#[export] Instance PausableAccount_pod : Pod PausableAccount.
Proof. refine (pod_iso (fun _ => tt) (fun _ => mk_PausableAccount) _ _); solve_pod_iso. Defined.

(** [V::default()]. *)
Definition pod_default (V : Type) `{Pod V} : V := from_bytes (replicate (size_of V) x00).

(** ** State checks on the extensions *)

(** [TransferFeeAmount::closable]. *)
Definition tfa_closable (e : TransferFeeAmount) : Result ProgramError unit :=
  fail_if (negb (bool_decide (tfa_withheld_amount e = u64_new 0)))
    TokenError.AccountHasWithheldTransferFees.

(** [ConfidentialTransferAccount::approved]. *)
Definition cta_check_approved (e : ConfidentialTransferAccount) : Result ProgramError unit :=
  fail_if (negb (bool_get (cta_approved e))) TokenError.ConfidentialTransferAccountNotApproved.

(** [ConfidentialTransferAccount::closable]. *)
Definition cta_closable (e : ConfidentialTransferAccount) : Result ProgramError unit :=
  fail_if (negb (bool_decide (cta_pending_balance_lo e = zeroed 64) &&
                 bool_decide (cta_pending_balance_hi e = zeroed 64) &&
                 bool_decide (cta_available_balance e = zeroed 64)))
    TokenError.ConfidentialTransferAccountHasBalance.

(** [ConfidentialTransferAccount::non_confidential_transfer_allowed]. *)
Definition cta_non_confidential_transfer_allowed (e : ConfidentialTransferAccount)
    : Result ProgramError unit :=
  fail_if (negb (bool_get (cta_allow_non_confidential_credits e)))
    TokenError.NonConfidentialTransfersDisabled.

(** [ConfidentialTransferAccount::valid_as_source]. *)
Definition cta_valid_as_source (e : ConfidentialTransferAccount) : Result ProgramError unit :=
  cta_check_approved e.

(** [ConfidentialTransferAccount::valid_as_destination]. *)
Definition cta_valid_as_destination (e : ConfidentialTransferAccount)
    : Result ProgramError unit :=
  _ ← cta_check_approved e;
  _ ← fail_if (negb (bool_get (cta_allow_confidential_credits e)))
        TokenError.ConfidentialTransferDepositsAndTransfersDisabled;
  new_counter ← ok_or (u64_checked_add (u64_get (cta_pending_balance_credit_counter e)) 1)
                  (TokenError.Overflow : ProgramError);
  fail_if (u64_get (cta_maximum_pending_balance_credit_counter e) <? new_counter)
    TokenError.MaximumPendingBalanceCreditCounterExceeded.

(** [ConfidentialTransferAccount::valid_as_withheld_amount_destination]. *)
Definition cta_valid_as_withheld_amount_destination (e : ConfidentialTransferAccount)
    : Result ProgramError unit :=
  _ ← cta_check_approved e;
  fail_if (negb (bool_get (cta_allow_confidential_credits e)))
    TokenError.ConfidentialTransferDepositsAndTransfersDisabled.

(** [ConfidentialTransferAccount::increment_pending_balance_credit_counter]. *)
Definition cta_increment_pending_balance_credit_counter (e : ConfidentialTransferAccount)
    : Result ProgramError ConfidentialTransferAccount :=
  counter ← ok_or (u64_checked_add (u64_get (cta_pending_balance_credit_counter e)) 1)
              (TokenError.Overflow : ProgramError);
  mret (mk_cta (cta_approved e) (cta_elgamal_pubkey e) (cta_pending_balance_lo e)
    (cta_pending_balance_hi e) (cta_available_balance e) (cta_decryptable_available_balance e)
    (cta_allow_confidential_credits e) (cta_allow_non_confidential_credits e)
    (u64_new counter) (cta_maximum_pending_balance_credit_counter e)
    (cta_expected_pending_balance_credit_counter e)
    (cta_actual_pending_balance_credit_counter e)).

(** [ConfidentialMintBurn::closable]. *)
Definition cmb_closable (e : ConfidentialMintBurn) : Result ProgramError unit :=
  fail_if (negb (bool_decide (cmb_confidential_supply e = zeroed 64))) TokenError.MintHasSupply.

(** [ConfidentialTransferFeeAmount::closable]. *)
Definition ctfa_closable (e : ConfidentialTransferFeeAmount) : Result ProgramError unit :=
  fail_if (negb (bool_decide (ctfa_withheld_amount e = zeroed 64)))
    TokenError.ConfidentialTransferFeeAccountHasWithheldFee.
