(* ===== verification/Extension.v ===== *)
(** * The type-length-value store of extensions

    [interface/src/extension/mod.rs]: the extension types, the walk over the
    entries of an account's TLV data, and the base-state views that the
    handlers unpack from account data.  A view is a value that is written back
    with [repack]; a mutable reference to an extension is its value with the
    function that stores a new one.

    Indices into account data are [nat]: an account holds at most ten
    megabytes and an entry's length is a [u16], so the [saturating_add]s on
    [usize] of the code never saturate and are written [+]. *)
From S2P Require Import Prelude Bytes Errors Ids Runtime Pod ExtensionState.

(** ** Extension types *)

Module ExtensionType.
Inductive ExtensionType : Type :=
  | Uninitialized
  | TransferFeeConfig
  | TransferFeeAmount
  | MintCloseAuthority
  | ConfidentialTransferMint
  | ConfidentialTransferAccount
  | DefaultAccountState
  | ImmutableOwner
  | MemoTransfer
  | NonTransferable
  | InterestBearingConfig
  | CpiGuard
  | PermanentDelegate
  | NonTransferableAccount
  | TransferHook
  | TransferHookAccount
  | ConfidentialTransferFeeConfig
  | ConfidentialTransferFeeAmount
  | MetadataPointer
  | TokenMetadata
  | GroupPointer
  | TokenGroup
  | GroupMemberPointer
  | TokenGroupMember
  | ConfidentialMintBurn
  | ScaledUiAmount
  | Pausable
  | PausableAccount
  | PermissionedBurn.
End ExtensionType.
Abbreviation ExtensionType := ExtensionType.ExtensionType.

#[export] Instance ExtensionType_eq_dec : EqDecision ExtensionType.
Proof. solve_decision. Defined.

(** [u16::from(extension_type)]. *)
Definition extension_type_u16 (t : ExtensionType) : Z :=
  match t with
  | ExtensionType.Uninitialized => 0
  | ExtensionType.TransferFeeConfig => 1
  | ExtensionType.TransferFeeAmount => 2
  | ExtensionType.MintCloseAuthority => 3
  | ExtensionType.ConfidentialTransferMint => 4
  | ExtensionType.ConfidentialTransferAccount => 5
  | ExtensionType.DefaultAccountState => 6
  | ExtensionType.ImmutableOwner => 7
  | ExtensionType.MemoTransfer => 8
  | ExtensionType.NonTransferable => 9
  | ExtensionType.InterestBearingConfig => 10
  | ExtensionType.CpiGuard => 11
  | ExtensionType.PermanentDelegate => 12
  | ExtensionType.NonTransferableAccount => 13
  | ExtensionType.TransferHook => 14
  | ExtensionType.TransferHookAccount => 15
  | ExtensionType.ConfidentialTransferFeeConfig => 16
  | ExtensionType.ConfidentialTransferFeeAmount => 17
  | ExtensionType.MetadataPointer => 18
  | ExtensionType.TokenMetadata => 19
  | ExtensionType.GroupPointer => 20
  | ExtensionType.TokenGroup => 21
  | ExtensionType.GroupMemberPointer => 22
  | ExtensionType.TokenGroupMember => 23
  | ExtensionType.ConfidentialMintBurn => 24
  | ExtensionType.ScaledUiAmount => 25
  | ExtensionType.Pausable => 26
  | ExtensionType.PausableAccount => 27
  | ExtensionType.PermissionedBurn => 28
  end.

(** The variants in the order of their discriminants. *)
Definition all_extension_types : list ExtensionType :=
  [ExtensionType.Uninitialized; ExtensionType.TransferFeeConfig;
   ExtensionType.TransferFeeAmount; ExtensionType.MintCloseAuthority;
   ExtensionType.ConfidentialTransferMint;
   ExtensionType.ConfidentialTransferAccount;
   ExtensionType.DefaultAccountState; ExtensionType.ImmutableOwner;
   ExtensionType.MemoTransfer; ExtensionType.NonTransferable;
   ExtensionType.InterestBearingConfig; ExtensionType.CpiGuard;
   ExtensionType.PermanentDelegate; ExtensionType.NonTransferableAccount;
   ExtensionType.TransferHook; ExtensionType.TransferHookAccount;
   ExtensionType.ConfidentialTransferFeeConfig;
   ExtensionType.ConfidentialTransferFeeAmount;
   ExtensionType.MetadataPointer; ExtensionType.TokenMetadata;
   ExtensionType.GroupPointer; ExtensionType.TokenGroup;
   ExtensionType.GroupMemberPointer; ExtensionType.TokenGroupMember;
   ExtensionType.ConfidentialMintBurn; ExtensionType.ScaledUiAmount;
   ExtensionType.Pausable; ExtensionType.PausableAccount;
   ExtensionType.PermissionedBurn].

(** [ExtensionType::try_from(u16)]. *)
Definition extension_type_try_from (v : Z) : option ExtensionType :=
  if v <? 0 then None else all_extension_types !! Z.to_nat v.

(** [ExtensionType::try_from(&[u8])]: exactly two bytes, little-endian. *)
Definition extension_type_try_from_slice (a : list byte) : Result ProgramError ExtensionType :=
  if (length a =? 2)%nat
  then ok_or (extension_type_try_from (from_le_bytes a)) ProgramError.InvalidAccountData
  else Err ProgramError.InvalidAccountData.

(** [<[u8; 2]>::from(extension_type)]. *)
Definition extension_type_bytes (t : ExtensionType) : list byte :=
  to_le_bytes 2 (extension_type_u16 t).

Definition get_account_type (t : ExtensionType) : AccountType :=
  match t with
  | ExtensionType.Uninitialized => AccountType.Uninitialized
  | ExtensionType.TransferFeeConfig
  | ExtensionType.MintCloseAuthority
  | ExtensionType.ConfidentialTransferMint
  | ExtensionType.DefaultAccountState
  | ExtensionType.NonTransferable
  | ExtensionType.InterestBearingConfig
  | ExtensionType.PermanentDelegate
  | ExtensionType.TransferHook
  | ExtensionType.ConfidentialTransferFeeConfig
  | ExtensionType.MetadataPointer
  | ExtensionType.TokenMetadata
  | ExtensionType.GroupPointer
  | ExtensionType.TokenGroup
  | ExtensionType.GroupMemberPointer
  | ExtensionType.TokenGroupMember
  | ExtensionType.ConfidentialMintBurn
  | ExtensionType.ScaledUiAmount
  | ExtensionType.Pausable
  | ExtensionType.PermissionedBurn => AccountType.Mint
  | ExtensionType.ImmutableOwner
  | ExtensionType.TransferFeeAmount
  | ExtensionType.ConfidentialTransferAccount
  | ExtensionType.MemoTransfer
  | ExtensionType.NonTransferableAccount
  | ExtensionType.TransferHookAccount
  | ExtensionType.CpiGuard
  | ExtensionType.ConfidentialTransferFeeAmount
  | ExtensionType.PausableAccount => AccountType.Account
  end.

(** The variable-length extension is the only one without a fixed size. *)
Definition sized (t : ExtensionType) : bool :=
  match t with ExtensionType.TokenMetadata => false | _ => true end.

Definition try_get_type_len (t : ExtensionType) : Result ProgramError nat :=
  if negb (sized t) then Err ProgramError.InvalidArgument else
  match t with
  | ExtensionType.Uninitialized => Ok 0%nat
  | ExtensionType.TransferFeeConfig => Ok (size_of TransferFeeConfig)
  | ExtensionType.TransferFeeAmount => Ok (size_of TransferFeeAmount)
  | ExtensionType.MintCloseAuthority => Ok (size_of MintCloseAuthority)
  | ExtensionType.ConfidentialTransferMint => Ok (size_of ConfidentialTransferMint)
  | ExtensionType.ConfidentialTransferAccount => Ok (size_of ConfidentialTransferAccount)
  | ExtensionType.DefaultAccountState => Ok (size_of DefaultAccountState)
  | ExtensionType.ImmutableOwner => Ok (size_of ImmutableOwner)
  | ExtensionType.MemoTransfer => Ok (size_of MemoTransfer)
  | ExtensionType.NonTransferable => Ok (size_of NonTransferable)
  | ExtensionType.InterestBearingConfig => Ok (size_of InterestBearingConfig)
  | ExtensionType.CpiGuard => Ok (size_of CpiGuard)
  | ExtensionType.PermanentDelegate => Ok (size_of PermanentDelegate)
  | ExtensionType.NonTransferableAccount => Ok (size_of NonTransferableAccount)
  | ExtensionType.TransferHook => Ok (size_of TransferHook)
  | ExtensionType.TransferHookAccount => Ok (size_of TransferHookAccount)
  | ExtensionType.ConfidentialTransferFeeConfig => Ok (size_of ConfidentialTransferFeeConfig)
  | ExtensionType.ConfidentialTransferFeeAmount => Ok (size_of ConfidentialTransferFeeAmount)
  | ExtensionType.MetadataPointer => Ok (size_of MetadataPointer)
  | ExtensionType.TokenMetadata => Panic
  | ExtensionType.GroupPointer => Ok (size_of GroupPointer)
  | ExtensionType.TokenGroup => Ok (size_of TokenGroup)
  | ExtensionType.GroupMemberPointer => Ok (size_of GroupMemberPointer)
  | ExtensionType.TokenGroupMember => Ok (size_of TokenGroupMember)
  | ExtensionType.ConfidentialMintBurn => Ok (size_of ConfidentialMintBurn)
  | ExtensionType.ScaledUiAmount => Ok (size_of ScaledUiAmountConfig)
  | ExtensionType.Pausable => Ok (size_of PausableConfig)
  | ExtensionType.PausableAccount => Ok (size_of PausableAccount)
  | ExtensionType.PermissionedBurn => Ok (size_of PermissionedBurnConfig)
  end.

Class Extension (V : Type) : Type := TYPE : ExtensionType.
Arguments TYPE V {_}.
#[global] Hint Mode Extension ! : typeclass_instances.

#[export] Instance TransferFeeConfig_ext : Extension TransferFeeConfig := ExtensionType.TransferFeeConfig.
#[export] Instance TransferFeeAmount_ext : Extension TransferFeeAmount := ExtensionType.TransferFeeAmount.
#[export] Instance MintCloseAuthority_ext : Extension MintCloseAuthority := ExtensionType.MintCloseAuthority.
#[export] Instance ConfidentialTransferMint_ext : Extension ConfidentialTransferMint := ExtensionType.ConfidentialTransferMint.
#[export] Instance ConfidentialTransferAccount_ext : Extension ConfidentialTransferAccount := ExtensionType.ConfidentialTransferAccount.
#[export] Instance DefaultAccountState_ext : Extension DefaultAccountState := ExtensionType.DefaultAccountState.
#[export] Instance ImmutableOwner_ext : Extension ImmutableOwner := ExtensionType.ImmutableOwner.
#[export] Instance MemoTransfer_ext : Extension MemoTransfer := ExtensionType.MemoTransfer.
#[export] Instance NonTransferable_ext : Extension NonTransferable := ExtensionType.NonTransferable.
#[export] Instance InterestBearingConfig_ext : Extension InterestBearingConfig := ExtensionType.InterestBearingConfig.
#[export] Instance CpiGuard_ext : Extension CpiGuard := ExtensionType.CpiGuard.
#[export] Instance PermanentDelegate_ext : Extension PermanentDelegate := ExtensionType.PermanentDelegate.
#[export] Instance NonTransferableAccount_ext : Extension NonTransferableAccount := ExtensionType.NonTransferableAccount.
#[export] Instance TransferHook_ext : Extension TransferHook := ExtensionType.TransferHook.
#[export] Instance TransferHookAccount_ext : Extension TransferHookAccount := ExtensionType.TransferHookAccount.
#[export] Instance ConfidentialTransferFeeConfig_ext : Extension ConfidentialTransferFeeConfig := ExtensionType.ConfidentialTransferFeeConfig.
#[export] Instance ConfidentialTransferFeeAmount_ext : Extension ConfidentialTransferFeeAmount := ExtensionType.ConfidentialTransferFeeAmount.
#[export] Instance MetadataPointer_ext : Extension MetadataPointer := ExtensionType.MetadataPointer.
#[export] Instance GroupPointer_ext : Extension GroupPointer := ExtensionType.GroupPointer.
#[export] Instance TokenGroup_ext : Extension TokenGroup := ExtensionType.TokenGroup.
#[export] Instance GroupMemberPointer_ext : Extension GroupMemberPointer := ExtensionType.GroupMemberPointer.
#[export] Instance TokenGroupMember_ext : Extension TokenGroupMember := ExtensionType.TokenGroupMember.
#[export] Instance ConfidentialMintBurn_ext : Extension ConfidentialMintBurn := ExtensionType.ConfidentialMintBurn.
#[export] Instance ScaledUiAmountConfig_ext : Extension ScaledUiAmountConfig := ExtensionType.ScaledUiAmount.
#[export] Instance PausableConfig_ext : Extension PausableConfig := ExtensionType.Pausable.
#[export] Instance PausableAccount_ext : Extension PausableAccount := ExtensionType.PausableAccount.
#[export] Instance PermissionedBurnConfig_ext : Extension PermissionedBurnConfig := ExtensionType.PermissionedBurn.

(** ** Lengths *)

(** [size_of::<ExtensionType>()], [size_of::<Length>()], [size_of::<AccountType>()]. *)
Definition EXT_TYPE_SIZE : nat := 2.
Definition LENGTH_SIZE : nat := 2.
Definition ACCOUNT_TYPE_SIZE : nat := 1.

Definition BASE_ACCOUNT_LENGTH : nat := Account_LEN.
Definition BASE_ACCOUNT_AND_TYPE_LENGTH : nat := (BASE_ACCOUNT_LENGTH + ACCOUNT_TYPE_SIZE)%nat.

(** [Length::try_from(usize)]. *)
Definition length_try_from (n : nat) : Result ProgramError (list byte) :=
  if Z.of_nat n <=? u16_max then Ok (to_le_bytes 2 (Z.of_nat n))
  else Err ProgramError.AccountDataTooSmall.

Definition adjust_len_for_multisig (account_len : nat) : nat :=
  if (account_len =? Multisig_LEN)%nat then (account_len + EXT_TYPE_SIZE)%nat else account_len.

Definition add_type_and_length_to_len (value_len : nat) : nat :=
  (value_len + EXT_TYPE_SIZE + LENGTH_SIZE)%nat.

Definition try_get_tlv_len (t : ExtensionType) : Result ProgramError nat :=
  add_type_and_length_to_len <$> try_get_type_len t.

(** ** Walking the TLV entries *)

Record TlvIndices : Type := mk_tlv_indices {
  type_start : nat;
  length_start : nat;
  value_start : nat
}.

Definition get_tlv_indices (type_start : nat) : TlvIndices :=
  let length_start := (type_start + EXT_TYPE_SIZE)%nat in
  let value_start := (length_start + LENGTH_SIZE)%nat in
  mk_tlv_indices type_start length_start value_start.

(** [&data[i..j]]: out of range is a panic. *)
Definition index_range {E} (data : list byte) (i j : nat) : Result E (list byte) :=
  if ((i <=? j) && (j <=? length data))%nat then Ok (slice data i j) else Panic.

(** The [u16] of the type field and the length field at [idx]. *)
Definition tlv_type_at (tlv_data : list byte) (idx : TlvIndices) : Z :=
  from_le_bytes (slice tlv_data (type_start idx) (length_start idx)).
Definition tlv_length_at (tlv_data : list byte) (idx : TlvIndices) : nat :=
  Z.to_nat (from_le_bytes (slice tlv_data (length_start idx) (value_start idx))).

(** The [while] loop of [get_extension_indices]; every turn advances by at
    least four bytes. *)
Fixpoint get_extension_indices_from (fuel : nat) (ty : ExtensionType) (tlv_data : list byte)
    (init : bool) (start_index : nat) : Result ProgramError TlvIndices :=
  match fuel with
  | O => Panic
  | S fuel =>
      if (start_index <? length tlv_data)%nat then
        let tlv_indices := get_tlv_indices start_index in
        if (length tlv_data <? value_start tlv_indices)%nat
        then Err ProgramError.InvalidAccountData
        else
          type_bytes ← index_range tlv_data (type_start tlv_indices) (length_start tlv_indices);
          let extension_type := from_le_bytes type_bytes in
          if extension_type =? extension_type_u16 ty then Ok tlv_indices
          else if extension_type =? extension_type_u16 ExtensionType.Uninitialized then
            if init then Ok tlv_indices else fail TokenError.ExtensionNotFound
          else
            length_bytes ← index_range tlv_data (length_start tlv_indices) (value_start tlv_indices);
            get_extension_indices_from fuel ty tlv_data init
              (value_start tlv_indices + Z.to_nat (from_le_bytes length_bytes))
      else Err ProgramError.InvalidAccountData
  end.

Definition get_extension_indices (ty : ExtensionType) (tlv_data : list byte) (init : bool)
    : Result ProgramError TlvIndices :=
  get_extension_indices_from (S (length tlv_data)) ty tlv_data init 0.

(** [try_for_each_tlv_extension_type]: the closure [f] threads its captured
    state; the result is that state with the bytes used. *)
Fixpoint try_for_each_from {A} (fuel : nat) (tlv_data : list byte)
    (f : ExtensionType -> A -> Result ProgramError A) (acc : A) (start_index : nat)
    : Result ProgramError (A * nat) :=
  match fuel with
  | O => Panic
  | S fuel =>
      if (start_index <? length tlv_data)%nat then
        let tlv_indices := get_tlv_indices start_index in
        if (length tlv_data <? length_start tlv_indices)%nat
        then Ok (acc, type_start tlv_indices)
        else
          type_bytes ← index_range tlv_data (type_start tlv_indices) (length_start tlv_indices);
          extension_type ← extension_type_try_from_slice type_bytes;
          if decide (extension_type = ExtensionType.Uninitialized)
          then Ok (acc, type_start tlv_indices)
          else if (length tlv_data <? value_start tlv_indices)%nat
          then Err ProgramError.InvalidAccountData
          else
            length_bytes ← index_range tlv_data (length_start tlv_indices) (value_start tlv_indices);
            let value_end_index :=
              (value_start tlv_indices + Z.to_nat (from_le_bytes length_bytes))%nat in
            if (length tlv_data <? value_end_index)%nat
            then Err ProgramError.InvalidAccountData
            else
              acc ← f extension_type acc;
              try_for_each_from fuel tlv_data f acc value_end_index
      else Ok (acc, start_index)
  end.

Definition try_for_each_tlv_extension_type {A} (tlv_data : list byte)
    (f : ExtensionType -> A -> Result ProgramError A) (acc : A)
    : Result ProgramError (A * nat) :=
  try_for_each_from (S (length tlv_data)) tlv_data f acc 0.

Record TlvDataInfo : Type := mk_tlv_data_info {
  extension_types : list ExtensionType;
  used_len : nat
}.

Definition get_tlv_data_info (tlv_data : list byte) : Result ProgramError TlvDataInfo :=
  '(types, used) ← try_for_each_tlv_extension_type tlv_data (fun t ts => Ok (ts ++ [t])) [];
  mret (mk_tlv_data_info types used).

Definition get_first_extension_type (tlv_data : list byte)
    : Result ProgramError (option ExtensionType) :=
  match tlv_data with
  | [] => Ok None
  | _ =>
      let tlv_indices := get_tlv_indices 0 in
      if (length tlv_data <=? length_start tlv_indices)%nat then Ok None
      else
        type_bytes ← index_range tlv_data (type_start tlv_indices) (length_start tlv_indices);
        extension_type ← extension_type_try_from_slice type_bytes;
        if decide (extension_type = ExtensionType.Uninitialized) then Ok None
        else Ok (Some extension_type)
  end.

(** ** Unpacking *)

Definition check_min_len_and_not_multisig (input : list byte) (minimum_len : nat)
    : Result ProgramError unit :=
  fail_if ((length input =? Multisig_LEN)%nat || (length input <? minimum_len)%nat)
    ProgramError.InvalidAccountData.

Section base.
Context (S : Type) `{BaseState S}.

Definition check_account_type (account_type : AccountType) : Result ProgramError unit :=
  fail_if (negb (bool_decide (account_type = ACCOUNT_TYPE S))) ProgramError.InvalidAccountData.

Definition type_and_tlv_indices (rest_input : list byte)
    : Result ProgramError (option (nat * nat)) :=
  match rest_input with
  | [] => Ok None
  | _ =>
      let account_type_index := (BASE_ACCOUNT_LENGTH - size_of S)%nat in
      let tlv_start_index := (account_type_index + ACCOUNT_TYPE_SIZE)%nat in
      if (length rest_input <? tlv_start_index)%nat then Err ProgramError.InvalidAccountData
      else if existsb (fun b => negb (bool_decide (b = x00))) (take account_type_index rest_input)
      then Err ProgramError.InvalidAccountData
      else Ok (Some (account_type_index, tlv_start_index))
  end.

(** [AccountType::try_from(rest[i])]. *)
Definition account_type_at (rest : list byte) (i : nat) : Result ProgramError AccountType :=
  match rest !! i with
  | None => Panic
  | Some b => ok_or (account_type_try_from b) ProgramError.InvalidAccountData
  end.

Definition unpack_tlv_data (rest : list byte) : Result ProgramError (list byte) :=
  indices ← type_and_tlv_indices rest;
  match indices with
  | Some (account_type_index, tlv_start_index) =>
      account_type ← account_type_at rest account_type_index;
      _ ← check_account_type account_type;
      mret (drop tlv_start_index rest)
  | None => mret []
  end.

(** [unpack_type_and_tlv_data_with_check_mut]: the padding before the account
    type, the account type (one byte or none) and the TLV data. *)
Definition unpack_type_and_tlv_data_with_check_mut (rest : list byte)
    (check_fn : AccountType -> Result ProgramError unit)
    : Result ProgramError (list byte * list byte * list byte) :=
  indices ← type_and_tlv_indices rest;
  match indices with
  | Some (account_type_index, tlv_start_index) =>
      account_type ← account_type_at rest account_type_index;
      _ ← check_fn account_type;
      mret (take account_type_index rest, slice rest account_type_index tlv_start_index,
            drop tlv_start_index rest)
  | None => mret ([], [], [])
  end.

Definition unpack_type_and_tlv_data_mut (rest : list byte) :=
  unpack_type_and_tlv_data_with_check_mut rest check_account_type.

Definition unpack_uninitialized_type_and_tlv_data_mut (rest : list byte) :=
  unpack_type_and_tlv_data_with_check_mut rest (fun account_type =>
    fail_if (negb (bool_decide (account_type = AccountType.Uninitialized)))
      ProgramError.InvalidAccountData).

End base.

(** ** The views of account data *)

(** [PodStateWithExtensions]. *)
Record PodState (S : Type) : Type := mk_state {
  state_base : S;
  state_tlv_data : list byte
}.
Arguments mk_state {_} _ _.
Arguments state_base {_} _.
Arguments state_tlv_data {_} _.

(** [PodStateWithExtensionsMut], with the padding its slices skip. *)
Record PodStateMut (S : Type) : Type := mk_state_mut {
  base : S;
  padding : list byte;
  account_type : list byte;
  tlv_data : list byte
}.
Arguments mk_state_mut {_} _ _ _ _.
Arguments base {_} _.
Arguments padding {_} _.
Arguments account_type {_} _.
Arguments tlv_data {_} _.

Definition with_base {S} (b : S) (st : PodStateMut S) : PodStateMut S :=
  mk_state_mut b (padding st) (account_type st) (tlv_data st).
Definition with_tlv_data {S} (t : list byte) (st : PodStateMut S) : PodStateMut S :=
  mk_state_mut (base st) (padding st) (account_type st) t.
Definition with_account_type {S} (t : list byte) (st : PodStateMut S) : PodStateMut S :=
  mk_state_mut (base st) (padding st) t (tlv_data st).

(** The buffer the view's slices make up. *)
Definition repack {S} `{Pod S} (st : PodStateMut S) : list byte :=
  to_bytes (base st) ++ padding st ++ account_type st ++ tlv_data st.

(** The two views of the trait [BaseStateWithExtensions]. *)
Class BaseStateWithExtensions (St : Type -> Type) : Type :=
  get_tlv_data : forall {S}, St S -> list byte.
#[export] Instance PodState_bse : BaseStateWithExtensions PodState := fun S => state_tlv_data.
#[export] Instance PodStateMut_bse : BaseStateWithExtensions PodStateMut := fun S => tlv_data.

Section views.
Context (S : Type) `{BaseState S}.

(** [PodStateWithExtensions::unpack]. *)
Definition unpack (input : list byte) : Result ProgramError (PodState S) :=
  _ ← check_min_len_and_not_multisig input (size_of S);
  let base_data := take (size_of S) input in
  let rest := drop (size_of S) input in
  base ← ok_or (try_from_bytes (A := S) base_data) ProgramError.InvalidArgument;
  if negb (is_initialized base) then Err ProgramError.UninitializedAccount
  else
    tlv_data ← unpack_tlv_data S rest;
    mret (mk_state base tlv_data).

(** [PodStateWithExtensionsMut::unpack]. *)
Definition unpack_mut (input : list byte) : Result ProgramError (PodStateMut S) :=
  _ ← check_min_len_and_not_multisig input (size_of S);
  let base_data := take (size_of S) input in
  let rest := drop (size_of S) input in
  base ← ok_or (try_from_bytes (A := S) base_data) ProgramError.InvalidArgument;
  if negb (is_initialized base) then Err ProgramError.UninitializedAccount
  else
    '(padding, account_type, tlv_data) ← unpack_type_and_tlv_data_mut S rest;
    mret (mk_state_mut base padding account_type tlv_data).

Definition check_account_type_matches_extension_type (st : PodStateMut S)
    : Result ProgramError unit :=
  first ← get_first_extension_type (tlv_data st);
  match first with
  | Some extension_type =>
      fail_if (negb (bool_decide (get_account_type extension_type = ACCOUNT_TYPE S)))
        TokenError.ExtensionBaseMismatch
  | None => mret tt
  end.

(** [PodStateWithExtensionsMut::unpack_uninitialized]. *)
Definition unpack_uninitialized (input : list byte) : Result ProgramError (PodStateMut S) :=
  _ ← check_min_len_and_not_multisig input (size_of S);
  let base_data := take (size_of S) input in
  let rest := drop (size_of S) input in
  base ← ok_or (try_from_bytes (A := S) base_data) ProgramError.InvalidArgument;
  if is_initialized base then fail TokenError.AlreadyInUse
  else
    '(padding, account_type, tlv_data) ← unpack_uninitialized_type_and_tlv_data_mut S rest;
    let st := mk_state_mut base padding account_type tlv_data in
    _ ← check_account_type_matches_extension_type st;
    mret st.

End views.

(** ** Reading and writing extensions *)

Section extensions.
Context {S : Type} `{BaseState S}.

Definition get_extension_bytes (ty : ExtensionType) (tlv_data : list byte)
    : Result ProgramError (list byte) :=
  if negb (bool_decide (get_account_type ty = ACCOUNT_TYPE S))
  then Err ProgramError.InvalidAccountData
  else
    idx ← get_extension_indices ty tlv_data false;
    let value_end := (value_start idx + tlv_length_at tlv_data idx)%nat in
    if (length tlv_data <? value_end)%nat then Err ProgramError.InvalidAccountData
    else mret (slice tlv_data (value_start idx) value_end).

(** [state.get_extension::<V>()]. *)
Definition get_extension {St} `{BaseStateWithExtensions St} (V : Type) `{Pod V, Extension V}
    (st : St S) : Result ProgramError V :=
  bytes ← get_extension_bytes (TYPE V) (get_tlv_data st);
  ok_or (try_from_bytes bytes) ProgramError.InvalidArgument.

(** [state.get_extension_mut::<V>()]: the value and its place. *)
Definition get_extension_mut (V : Type) `{Pod V, Extension V} (st : PodStateMut S)
    : Result ProgramError (V * (V -> PodStateMut S)) :=
  v ← get_extension V st;
  idx ← get_extension_indices (TYPE V) (tlv_data st) false;
  mret (v, fun v' => with_tlv_data (splice (tlv_data st) (value_start idx) (to_bytes v')) st).

(** [state.alloc::<V>(length, overwrite)]: the state with the entry's type and
    length written, and the place of the value. *)
Definition alloc (ty : ExtensionType) (length_ : nat) (overwrite : bool) (st : PodStateMut S)
    : Result ProgramError (PodStateMut S * TlvIndices) :=
  if negb (bool_decide (get_account_type ty = ACCOUNT_TYPE S))
  then Err ProgramError.InvalidAccountData
  else
    let tlv := tlv_data st in
    idx ← get_extension_indices ty tlv true;
    if (length (drop (type_start idx) tlv) <? add_type_and_length_to_len length_)%nat
    then Err ProgramError.InvalidAccountData
    else
      extension_type ← extension_type_try_from_slice
        (slice tlv (type_start idx) (length_start idx));
      if bool_decide (extension_type = ExtensionType.Uninitialized) || overwrite then
        let tlv := splice tlv (type_start idx) (extension_type_bytes ty) in
        if overwrite && bool_decide (extension_type = ty) &&
           negb (tlv_length_at tlv idx =? length_)%nat
        then fail TokenError.InvalidLengthForAlloc
        else
          len_bytes ← length_try_from length_;
          let tlv := splice tlv (length_start idx) len_bytes in
          mret (with_tlv_data tlv st, idx)
      else fail TokenError.ExtensionAlreadyInitialized.

(** [state.init_extension::<V>(overwrite)]: allocate, write the default value,
    and return its place. *)
Definition init_extension (V : Type) `{Pod V, Extension V} (overwrite : bool)
    (st : PodStateMut S) : Result ProgramError (V * (V -> PodStateMut S)) :=
  '(st, idx) ← alloc (TYPE V) (size_of V) overwrite st;
  mret (pod_default V,
        fun v => with_tlv_data (splice (tlv_data st) (value_start idx) (to_bytes v)) st).

(** [init_extension::<V>(true).map(|_| ())]. *)
Definition init_default (V : Type) `{Pod V, Extension V} (st : PodStateMut S)
    : Result ProgramError (PodStateMut S) :=
  '(v, put) ← init_extension V true st; mret (put v).

(** The state after [init_account_extension_from_type]. *)
Definition init_account_extension_from_type (t : ExtensionType) (st : PodStateMut S)
    : Result ProgramError (PodStateMut S) :=
  if negb (bool_decide (get_account_type t = AccountType.Account)) then mret st
  else match t with
  | ExtensionType.TransferFeeAmount => init_default TransferFeeAmount st
  | ExtensionType.ImmutableOwner => init_default ImmutableOwner st
  | ExtensionType.NonTransferableAccount => init_default NonTransferableAccount st
  | ExtensionType.TransferHookAccount => init_default TransferHookAccount st
  | ExtensionType.ConfidentialTransferAccount => mret st
  | ExtensionType.PausableAccount => init_default PausableAccount st
  | _ => Panic
  end.

(** The state after [init_account_type]. *)
Definition init_account_type (st : PodStateMut S) : Result ProgramError (PodStateMut S) :=
  first ← get_first_extension_type (tlv_data st);
  match account_type st with
  | [] => mret st
  | _ :: rest =>
      _ ← match first with
          | Some extension_type =>
              fail_if (negb (bool_decide (get_account_type extension_type = ACCOUNT_TYPE S)))
                TokenError.ExtensionBaseMismatch
          | None => mret tt
          end;
      mret (with_account_type (account_type_u8 (ACCOUNT_TYPE S) :: rest) st)
  end.

End extensions.
Arguments get_extension_bytes S {_ _} _ _.
