(* ===== verification/TlvTheory.v ===== *)
(** * Theory of the TLV store

    TLV data as a sequence of entries: [tlv_encode es ++ tail].  The walk of
    [get_extension_indices] passes an entry of another type without looking
    at its value, so lookups, in-place updates and allocations have equations
    over the entry list; every account handler rests on these. *)
From S2P Require Import Prelude Bytes Errors Ids Runtime Pod ExtensionState Extension.

(** ** Entries *)

(** The raw type and the value of an entry. *)
Definition Entry : Type := (Z * list byte)%type.

Definition entry_ok (e : Entry) : Prop := 0 < e.1 <= u16_max /\ Z.of_nat (length e.2) <= u16_max.

Definition enc_entry (t : Z) (v : list byte) : list byte :=
  to_le_bytes 2 t ++ to_le_bytes 2 (Z.of_nat (length v)) ++ v.

Definition tlv_encode (es : list Entry) : list byte :=
  es ≫= (fun e => enc_entry e.1 e.2).

(** The value of the first entry of type [t]. *)
Definition entries_lookup (t : Z) (es : list Entry) : option (list byte) :=
  snd <$> head (filter (fun e => e.1 = t) es).

(** Arithmetic over the sizes of the TLV header. *)
Ltac tlv_lia :=
  simpl in *; unfold EXT_TYPE_SIZE, LENGTH_SIZE, u16_max in *; simpl in *; lia.

(** ** Arithmetic of the encoding *)

Lemma length_enc_entry t v : length (enc_entry t v) = (4 + length v)%nat.
Proof. unfold enc_entry. rewrite !length_app, !length_to_le_bytes. lia. Qed.

Lemma tlv_encode_cons e es : tlv_encode (e :: es) = enc_entry e.1 e.2 ++ tlv_encode es.
Proof. reflexivity. Qed.

Lemma tlv_encode_app es fs : tlv_encode (es ++ fs) = tlv_encode es ++ tlv_encode fs.
Proof. apply bind_app. Qed.

Lemma extension_type_u16_range t : 0 <= extension_type_u16 t <= 28.
Proof. destruct t; simpl; lia. Qed.

Lemma extension_type_u16_inj a b : extension_type_u16 a = extension_type_u16 b -> a = b.
Proof. destruct a, b; simpl; intros [=]; reflexivity. Qed.

Lemma extension_type_u16_0 t : extension_type_u16 t = 0 <-> t = ExtensionType.Uninitialized.
Proof. destruct t; simpl; split; congruence. Qed.

Lemma extension_type_try_from_u16 t : extension_type_try_from (extension_type_u16 t) = Some t.
Proof. by destruct t. Qed.

Lemma extension_type_try_from_Some v t :
  extension_type_try_from v = Some t <-> v = extension_type_u16 t.
Proof.
  split; [|intros ->; apply extension_type_try_from_u16].
  unfold extension_type_try_from. destruct (Z.ltb_spec v 0); [done|]. intros Hl.
  assert (exists n, v = Z.of_nat n) as [n ->] by (exists (Z.to_nat v); lia).
  rewrite Nat2Z.id in Hl.
  do 29 (destruct n as [|n]; [by injection Hl as <-|]). done.
Qed.

Lemma from_to_le_2 z : 0 <= z <= u16_max -> from_le_bytes (to_le_bytes 2 z) = z.
Proof.
  unfold u16_max. intros. rewrite from_to_le_bytes.
  change (256 ^ Z.of_nat 2) with 65536. apply Z.mod_small. lia.
Qed.

Lemma length_le_2 l i j :
  j = (i + 2)%nat -> (j <= length l)%nat -> 0 <= from_le_bytes (slice l i j) <= u16_max.
Proof.
  intros -> H. pose proof (from_le_bytes_range (slice l i (i + 2))) as Hr.
  rewrite length_slice in Hr by lia.
  replace (i + 2 - i)%nat with 2%nat in Hr by lia.
  change (256 ^ Z.of_nat 2) with 65536 in Hr. unfold u16_max. lia.
Qed.

Lemma slice2_to_le l i j :
  j = (i + 2)%nat -> (j <= length l)%nat ->
  to_le_bytes 2 (from_le_bytes (slice l i j)) = slice l i j.
Proof.
  intros -> H. rewrite <- (to_from_le_bytes (slice l i (i + 2))) at 2.
  rewrite length_slice by lia. f_equal. lia.
Qed.

(** ** The walk *)

Lemma index_range_Ok {E} l i j :
  (i <= j)%nat -> (j <= length l)%nat -> index_range (E := E) l i j = Ok (slice l i j).
Proof. intros H1 H2. unfold index_range. by rewrite !(proj2 (Nat.leb_le _ _)). Qed.

(** A turn of each walk: the guards come before the ranges that they keep inside
    the data. *)
Lemma get_extension_indices_turn fuel ty tlv init s :
  get_extension_indices_from (S fuel) ty tlv init s =
  if (s <? length tlv)%nat then
    if (length tlv <? value_start (get_tlv_indices s))%nat then Err ProgramError.InvalidAccountData
    else if tlv_type_at tlv (get_tlv_indices s) =? extension_type_u16 ty then Ok (get_tlv_indices s)
    else if tlv_type_at tlv (get_tlv_indices s) =? extension_type_u16 ExtensionType.Uninitialized
    then if init then Ok (get_tlv_indices s) else fail TokenError.ExtensionNotFound
    else get_extension_indices_from fuel ty tlv init
           (value_start (get_tlv_indices s) + tlv_length_at tlv (get_tlv_indices s))
  else Err ProgramError.InvalidAccountData.
Proof.
  cbn [get_extension_indices_from]. destruct (_ <? _)%nat; [|done].
  destruct (Nat.ltb_spec (length tlv) (value_start (get_tlv_indices s))); [done|].
  by rewrite !index_range_Ok by tlv_lia.
Qed.

Lemma try_for_each_turn {A} fuel tlv (f : ExtensionType -> A -> Result ProgramError A) acc s :
  try_for_each_from (S fuel) tlv f acc s =
  if (s <? length tlv)%nat then
    if (length tlv <? length_start (get_tlv_indices s))%nat then Ok (acc, type_start (get_tlv_indices s))
    else
      extension_type ← extension_type_try_from_slice
        (slice tlv (type_start (get_tlv_indices s)) (length_start (get_tlv_indices s)));
      if decide (extension_type = ExtensionType.Uninitialized)
      then Ok (acc, type_start (get_tlv_indices s))
      else if (length tlv <? value_start (get_tlv_indices s))%nat
      then Err ProgramError.InvalidAccountData
      else if (length tlv <? value_start (get_tlv_indices s) + tlv_length_at tlv (get_tlv_indices s))%nat
      then Err ProgramError.InvalidAccountData
      else
        acc ← f extension_type acc;
        try_for_each_from fuel tlv f acc
          (value_start (get_tlv_indices s) + tlv_length_at tlv (get_tlv_indices s))
  else Ok (acc, s).
Proof.
  cbn [try_for_each_from]. destruct (_ <? _)%nat; [|done].
  destruct (Nat.ltb_spec (length tlv) (length_start (get_tlv_indices s))); [done|].
  rewrite (index_range_Ok _ (type_start _)) by tlv_lia. cbn [mbind Result_bind].
  destruct (extension_type_try_from_slice _); [|done..]. cbn [mbind Result_bind].
  destruct (decide _); [done|].
  destruct (Nat.ltb_spec (length tlv) (value_start (get_tlv_indices s))); [done|].
  by rewrite index_range_Ok by tlv_lia.
Qed.

(** Move indices by [n] bytes. *)
Definition shift_indices (n : nat) (i : TlvIndices) : TlvIndices :=
  mk_tlv_indices (n + type_start i) (n + length_start i) (n + value_start i).

Lemma get_tlv_indices_add n s : get_tlv_indices (n + s) = shift_indices n (get_tlv_indices s).
Proof. unfold get_tlv_indices, shift_indices. simpl. f_equal; lia. Qed.

Lemma tlv_type_at_app pre tlv i :
  tlv_type_at (pre ++ tlv) (shift_indices (length pre) i) = tlv_type_at tlv i.
Proof.
  unfold tlv_type_at. simpl. rewrite slice_app_r by lia. do 2 f_equal; lia.
Qed.

Lemma tlv_length_at_app pre tlv i :
  tlv_length_at (pre ++ tlv) (shift_indices (length pre) i) = tlv_length_at tlv i.
Proof.
  unfold tlv_length_at. simpl. rewrite slice_app_r by lia. do 3 f_equal; lia.
Qed.

Lemma get_extension_indices_from_app fuel ty pre tlv init s :
  get_extension_indices_from fuel ty (pre ++ tlv) init (length pre + s) =
  shift_indices (length pre) <$> get_extension_indices_from fuel ty tlv init s.
Proof.
  revert s. induction fuel as [|fuel IH]; intros s; [done|].
  rewrite !get_extension_indices_turn. rewrite length_app, get_tlv_indices_add.
  rewrite tlv_type_at_app, tlv_length_at_app.
  replace (length pre + s <? length pre + length tlv)%nat with (s <? length tlv)%nat
    by (destruct (Nat.ltb_spec s (length tlv)); symmetry;
        [apply Nat.ltb_lt|apply Nat.ltb_ge]; lia).
  simpl value_start.
  replace (length pre + length tlv <? length pre + (s + EXT_TYPE_SIZE + LENGTH_SIZE))%nat
    with (length tlv <? s + EXT_TYPE_SIZE + LENGTH_SIZE)%nat
    by (destruct (Nat.ltb_spec (length tlv) (s + EXT_TYPE_SIZE + LENGTH_SIZE)); symmetry;
        [apply Nat.ltb_lt|apply Nat.ltb_ge]; lia).
  destruct (s <? length tlv)%nat; [|done].
  destruct (length tlv <? _)%nat; [done|].
  destruct (_ =? _); [done|]. destruct (_ =? _); [by destruct init|].
  rewrite <- IH. f_equal. lia.
Qed.

(** Any fuel beyond the bytes left gives the same answer. *)
Lemma get_extension_indices_from_fuel f g ty tlv init s :
  (length tlv - s < f)%nat -> (length tlv - s < g)%nat ->
  get_extension_indices_from f ty tlv init s = get_extension_indices_from g ty tlv init s.
Proof.
  revert g s. induction f as [|f IH]; intros g s Hf Hg; [lia|].
  destruct g as [|g]; [lia|]. rewrite !get_extension_indices_turn.
  destruct (Nat.ltb_spec s (length tlv)); [|done].
  destruct (Nat.ltb_spec (length tlv) (value_start (get_tlv_indices s))) as [|Hv]; [done|].
  destruct (_ =? _); [done|]. destruct (_ =? _); [done|].
  apply IH; tlv_lia.
Qed.

Lemma get_extension_indices_app_r ty pre tlv init s :
  s = length pre ->
  get_extension_indices_from (S (length (pre ++ tlv))) ty (pre ++ tlv) init s =
  shift_indices (length pre) <$> get_extension_indices ty tlv init.
Proof.
  intros ->. pose proof (get_extension_indices_from_app
    (S (length (pre ++ tlv))) ty pre tlv init 0) as E.
  rewrite Nat.add_0_r in E. rewrite E. f_equal.
  apply get_extension_indices_from_fuel; rewrite ?length_app; lia.
Qed.

(** The entry at the front of the data. *)
Lemma tlv_type_at_0 tlv : tlv_type_at tlv (get_tlv_indices 0) = from_le_bytes (slice tlv 0 2).
Proof. reflexivity. Qed.

Lemma tlv_length_at_0 tlv :
  tlv_length_at tlv (get_tlv_indices 0) = Z.to_nat (from_le_bytes (slice tlv 2 4)).
Proof. reflexivity. Qed.

Lemma enc_entry_type_at t v rest :
  0 <= t <= u16_max -> tlv_type_at (enc_entry t v ++ rest) (get_tlv_indices 0) = t.
Proof.
  intros Ht. rewrite tlv_type_at_0, slice_0. unfold enc_entry.
  rewrite <- app_assoc, take_app_length'; [by apply from_to_le_2|].
  by rewrite length_to_le_bytes.
Qed.

Lemma enc_entry_length_at t v rest :
  Z.of_nat (length v) <= u16_max ->
  tlv_length_at (enc_entry t v ++ rest) (get_tlv_indices 0) = length v.
Proof.
  intros Ht. rewrite tlv_length_at_0. unfold enc_entry.
  rewrite <- !app_assoc, (slice_app_mid (to_le_bytes 2 t)); [|by rewrite ?length_to_le_bytes..].
  rewrite from_to_le_2 by lia. lia.
Qed.

(** The walk at a front entry: found, or on to the rest. *)
Lemma get_extension_indices_cons ty t v rest init :
  entry_ok (t, v) ->
  get_extension_indices ty (enc_entry t v ++ rest) init =
  if t =? extension_type_u16 ty then Ok (get_tlv_indices 0)
  else shift_indices (4 + length v) <$> get_extension_indices ty rest init.
Proof.
  intros [Ht Hv]. simpl in Ht, Hv. unfold get_extension_indices at 1.
  rewrite length_app, length_enc_entry. rewrite !get_extension_indices_turn.
  rewrite length_app, length_enc_entry, enc_entry_type_at, enc_entry_length_at by lia.
  destruct (Nat.ltb_spec 0 (4 + length v + length rest)); [|lia].
  destruct (Nat.ltb_spec (4 + length v + length rest) (value_start (get_tlv_indices 0))) as [Hl|];
    [tlv_lia|].
  destruct (t =? extension_type_u16 ty); [done|].
  destruct (Z.eqb_spec t (extension_type_u16 ExtensionType.Uninitialized)); [tlv_lia|].
  replace (shift_indices (4 + length v)) with (shift_indices (length (enc_entry t v)))
    by (by rewrite length_enc_entry).
  rewrite <- (get_extension_indices_app_r ty (enc_entry t v) rest init (4 + length v)).
  - apply get_extension_indices_from_fuel; rewrite ?length_app, ?length_enc_entry; tlv_lia.
  - by rewrite length_enc_entry.
Qed.

(** Data long enough for its first entry is that entry and the rest. *)
Lemma tlv_front tlv n :
  n = tlv_length_at tlv (get_tlv_indices 0) -> (4 + n <= length tlv)%nat ->
  tlv = enc_entry (tlv_type_at tlv (get_tlv_indices 0)) (slice tlv 4 (4 + n)) ++ drop (4 + n) tlv
  /\ length (slice tlv 4 (4 + n)) = n /\ Z.of_nat n <= u16_max.
Proof.
  intros Hn Hl. rewrite tlv_length_at_0 in Hn. rewrite tlv_type_at_0.
  pose proof (length_le_2 tlv 0 2 eq_refl ltac:(lia)) as H0.
  pose proof (length_le_2 tlv 2 4 eq_refl ltac:(lia)) as H2.
  assert (length (slice tlv 4 (4 + n)) = n) as Hs by (rewrite length_slice; lia).
  split_and!; [|done|lia]. unfold enc_entry. rewrite Hs.
  replace (Z.of_nat n) with (from_le_bytes (slice tlv 2 4)) by lia.
  rewrite (slice2_to_le tlv 0 2), (slice2_to_le tlv 2 4) by lia.
  rewrite (split_at tlv 0 2) at 1 by lia. rewrite take_0, <- !app_assoc. simpl app at 1. f_equal.
  rewrite (split_at (drop 2 tlv) 0 2) at 1 by (rewrite length_drop; lia).
  rewrite take_0, slice_drop, drop_drop. simpl app at 1. f_equal.
  rewrite (split_at (drop (2 + 2) tlv) 0 n) at 1 by (rewrite length_drop; lia).
  rewrite take_0, slice_drop, drop_drop, Nat.add_0_r. done.
Qed.

(** Where the walk stops, when it stops with indices. *)
Lemma get_extension_indices_inv ty tlv init idx :
  get_extension_indices ty tlv init = Ok idx ->
  exists es tail,
    Forall entry_ok es /\ Forall (fun e => e.1 <> extension_type_u16 ty) es /\
    tlv = tlv_encode es ++ tail /\ idx = get_tlv_indices (length (tlv_encode es)) /\
    (4 <= length tail)%nat /\
    (tlv_type_at tail (get_tlv_indices 0) = extension_type_u16 ty \/
     init = true /\ tlv_type_at tail (get_tlv_indices 0) = 0).
Proof.
  remember (length tlv) as n eqn:Hn. revert tlv idx Hn.
  induction (lt_wf n) as [n _ IH]; intros tlv idx -> H. pose proof H as H'.
  unfold get_extension_indices in H. rewrite get_extension_indices_turn in H.
  destruct (Nat.ltb_spec 0 (length tlv)); [|done].
  destruct (Nat.ltb_spec (length tlv) (value_start (get_tlv_indices 0))) as [|Hv]; [done|].
  assert (4 <= length tlv)%nat as H4 by tlv_lia.
  destruct (Z.eqb_spec (tlv_type_at tlv (get_tlv_indices 0)) (extension_type_u16 ty)) as [Et|Et].
  { injection H as <-. exists [], tlv. simpl. auto 10. }
  destruct (Z.eqb_spec (tlv_type_at tlv (get_tlv_indices 0))
              (extension_type_u16 ExtensionType.Uninitialized)) as [E0|E0].
  { destruct init; [|done]. injection H as <-. exists [], tlv. simpl. auto 10. }
  destruct (decide (4 + tlv_length_at tlv (get_tlv_indices 0) <= length tlv)%nat) as [Hl|Hl].
  - destruct (tlv_front tlv _ eq_refl Hl) as (Heq & Hs & Hu).
    set (t := tlv_type_at tlv (get_tlv_indices 0)) in *.
    set (v := slice tlv 4 _) in *. set (rest := drop _ tlv) in *.
    assert (entry_ok (t, v)) as Hok.
    { split; simpl; [|lia]. pose proof (length_le_2 tlv 0 2 eq_refl ltac:(lia)).
      unfold t in *. rewrite tlv_type_at_0 in *. simpl in E0. lia. }
    rewrite Heq, get_extension_indices_cons in H' by done.
    rewrite (proj2 (Z.eqb_neq _ _) Et) in H'.
    apply fmap_Ok in H' as (idx' & Hi & ->).
    assert (length rest < length tlv)%nat as Hlt.
    { pose proof (f_equal length Heq) as E. rewrite length_app, length_enc_entry in E. lia. }
    destruct (IH _ Hlt rest idx' eq_refl Hi) as (es & tail & Hes & Hne & Hr & -> & Hrest).
    exists ((t, v) :: es), tail. rewrite tlv_encode_cons. simpl fst; simpl snd.
    split_and!; [by constructor|by constructor| | |apply Hrest..].
    + by rewrite <- app_assoc, <- Hr.
    + rewrite length_app, get_tlv_indices_add, length_enc_entry. done.
  - exfalso. destruct (length tlv) as [|k] eqn:Ek; [lia|]. rewrite get_extension_indices_turn in H.
    destruct (Nat.ltb_spec (value_start (get_tlv_indices 0) +
      tlv_length_at tlv (get_tlv_indices 0)) (length tlv)); [tlv_lia|done].
Qed.

(** ** Lookups over the entries *)

Section lookups.
Context (S : Type) `{BaseState S}.

Lemma get_extension_bytes_cons ty t v rest :
  entry_ok (t, v) ->
  get_extension_bytes S ty (enc_entry t v ++ rest) =
  if bool_decide (get_account_type ty = ACCOUNT_TYPE S) && (t =? extension_type_u16 ty)
  then Ok v else get_extension_bytes S ty rest.
Proof.
  intros Hok. unfold get_extension_bytes.
  destruct (bool_decide _); [|done]. simpl negb. cbn iota. simpl andb.
  rewrite get_extension_indices_cons by done. destruct Hok as [_ Hv]. simpl in Hv.
  destruct (t =? extension_type_u16 ty).
  - cbn [mbind Result_bind]. rewrite enc_entry_length_at by done.
    rewrite length_app, length_enc_entry.
    destruct (Nat.ltb_spec (4 + length v + length rest) (value_start (get_tlv_indices 0) + length v));
      [tlv_lia|].
    unfold mret, Result_ret. f_equal. unfold enc_entry.
    rewrite <- !app_assoc, (app_assoc (to_le_bytes 2 t)).
    apply slice_app_mid; rewrite length_app, !length_to_le_bytes; tlv_lia.
  - destruct (get_extension_indices ty rest false) as [idx| |]; [|done..].
    cbn [fmap Result_fmap mbind Result_bind].
    replace (shift_indices (4 + length v)) with (shift_indices (length (enc_entry t v)))
      by (by rewrite length_enc_entry).
    rewrite tlv_length_at_app, length_app. cbn [shift_indices value_start].
    set (l := length (enc_entry t v)). set (e := (value_start idx + _)%nat).
    replace (l + value_start idx + tlv_length_at rest idx)%nat with (l + e)%nat by lia.
    destruct (Nat.ltb_spec (length rest) e), (Nat.ltb_spec (l + length rest) (l + e)); try lia; [done|].
    f_equal. rewrite slice_app_r by lia. f_equal; lia.
Qed.

Lemma get_extension_bytes_entries ty es tail :
  Forall entry_ok es -> Forall (fun e => e.1 <> extension_type_u16 ty) es ->
  get_extension_bytes S ty (tlv_encode es ++ tail) = get_extension_bytes S ty tail.
Proof.
  intros Hok Hne. induction Hok as [|[t v] es He Hok IH]; [done|].
  rewrite tlv_encode_cons, <- app_assoc, get_extension_bytes_cons by done.
  inversion Hne as [|? ? Ht Hes]; subst. simpl in Ht. cbn [fst snd].
  rewrite (proj2 (Z.eqb_neq _ _) Ht), andb_false_r. by apply IH.
Qed.

Lemma get_extension_bytes_inv ty tlv v :
  get_extension_bytes S ty tlv = Ok v ->
  get_account_type ty = ACCOUNT_TYPE S /\
  exists es tail, Forall entry_ok es /\ Forall (fun e => e.1 <> extension_type_u16 ty) es /\
    Z.of_nat (length v) <= u16_max /\
    tlv = tlv_encode es ++ enc_entry (extension_type_u16 ty) v ++ tail /\
    get_extension_indices ty tlv false = Ok (get_tlv_indices (length (tlv_encode es))).
Proof.
  unfold get_extension_bytes. case_bool_decide as Ha; [|done]. simpl negb. cbn iota.
  intros Hg. split; [done|]. apply bind_Ok in Hg as (idx & Hi & Hg).
  pose proof Hi as Hidx.
  apply get_extension_indices_inv in Hi as (es & tail & Hok & Hne & -> & -> & H4 & Ht).
  destruct Ht as [Ht|[? _]]; [|done].
  replace (get_tlv_indices (length (tlv_encode es)))
    with (shift_indices (length (tlv_encode es)) (get_tlv_indices 0)) in Hg
    by (rewrite <- get_tlv_indices_add; f_equal; lia).
  rewrite tlv_length_at_app, length_app in Hg.
  cbn [shift_indices get_tlv_indices value_start length_start] in Hg.
  unfold EXT_TYPE_SIZE, LENGTH_SIZE in Hg. replace (0 + 2 + 2)%nat with 4%nat in Hg by done.
  set (n := tlv_length_at tail (get_tlv_indices 0)) in *.
  destruct (Nat.ltb_spec (length (tlv_encode es) + length tail)
    (length (tlv_encode es) + 4 + n)); [done|].
  injection Hg as <-.
  destruct (tlv_front tail n eq_refl ltac:(lia)) as (Heq & Hl & Hu). rewrite Ht in Heq.
  exists es, (drop (4 + n) tail).
  assert (slice (tlv_encode es ++ tail) (length (tlv_encode es) + 4)
    (length (tlv_encode es) + 4 + n) = slice tail 4 (4 + n)) as ->.
  { rewrite slice_app_r by lia. f_equal; lia. }
  rewrite Hl, <- Heq. auto 10.
Qed.

Lemma get_extension_bytes_found ty es v tail :
  get_account_type ty = ACCOUNT_TYPE S -> ty <> ExtensionType.Uninitialized ->
  Forall entry_ok es -> Forall (fun e => e.1 <> extension_type_u16 ty) es ->
  Z.of_nat (length v) <= u16_max ->
  get_extension_bytes S ty (tlv_encode es ++ enc_entry (extension_type_u16 ty) v ++ tail) = Ok v.
Proof.
  intros Ha Hu Hok Hne Hv. rewrite get_extension_bytes_entries by done.
  rewrite get_extension_bytes_cons.
  - by rewrite bool_decide_true, Z.eqb_refl.
  - pose proof (extension_type_u16_range ty). rewrite <- extension_type_u16_0 in Hu.
    split; simpl; tlv_lia.
Qed.

End lookups.

(** ** Termination *)

Lemma extension_type_no_panic l : extension_type_try_from_slice l <> Panic.
Proof. unfold extension_type_try_from_slice, ok_or. by repeat case_match. Qed.

Lemma get_extension_indices_turns f ty tlv init s :
  (length tlv - s < 4 * f)%nat ->
  match get_extension_indices_from f ty tlv init s with
  | Ok i => (value_start i <= length tlv)%nat
  | Err _ => True
  | Panic => False
  end.
Proof.
  revert s. induction f as [|f IH]; intros s Hf; [lia|]. rewrite !get_extension_indices_turn.
  destruct (Nat.ltb_spec s (length tlv)); [|done].
  destruct (Nat.ltb_spec (length tlv) (value_start (get_tlv_indices s))) as [|Hv]; [done|].
  destruct (_ =? _); [done|]. destruct (_ =? _); [by destruct init|]. apply IH; tlv_lia.
Qed.

Lemma try_for_each_turns {A} f tlv (g : ExtensionType -> A -> Result ProgramError A) acc s :
  (forall t a, g t a <> Panic) -> (s <= length tlv)%nat -> (length tlv - s < 4 * f)%nat ->
  match try_for_each_from f tlv g acc s with
  | Ok (_, used) => (used <= length tlv)%nat
  | Err _ => True
  | Panic => False
  end.
Proof.
  intros Hg. revert acc s. induction f as [|f IH]; intros acc s Hs Hf; [lia|].
  rewrite !try_for_each_turn. destruct (Nat.ltb_spec s (length tlv)); [|done].
  destruct (Nat.ltb_spec (length tlv) (length_start (get_tlv_indices s))) as [|Hl]; [done|].
  destruct (extension_type_try_from_slice _) as [t| |] eqn:Ht; [|done|by eapply extension_type_no_panic].
  cbn [mbind Result_bind]. case_decide; [by cbn in *; lia|].
  destruct (Nat.ltb_spec (length tlv) (value_start (get_tlv_indices s))) as [|Hv]; [done|].
  destruct (Nat.ltb_spec (length tlv)
    (value_start (get_tlv_indices s) + tlv_length_at tlv (get_tlv_indices s))) as [|He]; [done|].
  pose proof (Hg t acc) as Hp. destruct (g t acc) as [acc'| |]; [|done..].
  cbn [mbind Result_bind]. apply IH; tlv_lia.
Qed.

(** More fuel than needed changes nothing. *)
Lemma get_extension_indices_more f g ty tlv init s :
  (f <= g)%nat -> get_extension_indices_from f ty tlv init s <> Panic ->
  get_extension_indices_from g ty tlv init s = get_extension_indices_from f ty tlv init s.
Proof.
  revert g s. induction f as [|f IH]; intros g s Hle Hp; [done|]. destruct g as [|g]; [lia|].
  rewrite !get_extension_indices_turn in *. repeat case_match; try done. by apply IH; [lia|].
Qed.

Lemma try_for_each_more {A} f g tlv (h : ExtensionType -> A -> Result ProgramError A) acc s :
  (f <= g)%nat -> try_for_each_from f tlv h acc s <> Panic ->
  try_for_each_from g tlv h acc s = try_for_each_from f tlv h acc s.
Proof.
  revert g acc s. induction f as [|f IH]; intros g acc s Hle Hp; [done|]. destruct g as [|g]; [lia|].
  rewrite !try_for_each_turn in *. destruct (_ <? _)%nat; [|done]. destruct (_ <? _)%nat; [done|].
  destruct (extension_type_try_from_slice _); [|done..]. cbn [mbind Result_bind] in *.
  destruct (decide _); [done|]. destruct (_ <? _)%nat; [done|]. destruct (_ <? _)%nat; [done|].
  destruct (h _ _); [|done..]. cbn [mbind Result_bind] in *. by apply IH; [lia|].
Qed.

(** C30: the walks over the entries of any bytes end: a turn passes at least the
    four bytes of a header, so more fuel than a quarter of the length is never
    exhausted and gives what the walk gives; neither walk panics, whatever the
    bytes: the guards keep every range of the data that is indexed, for a type or
    a length, inside it, where Rust would panic otherwise.  What a walk finds lies
    inside the data: the value of the entry found starts within it, and the bytes
    used are at most all. *)
Theorem tlv_walks_terminate {A} tlv ty init (g : ExtensionType -> A -> Result ProgramError A) acc fuel :
  (length tlv < 4 * fuel)%nat -> (forall t a, g t a <> Panic) ->
  get_extension_indices_from fuel ty tlv init 0 = get_extension_indices ty tlv init /\
  get_extension_indices ty tlv init <> Panic /\
  (forall i, get_extension_indices ty tlv init = Ok i -> (value_start i <= length tlv)%nat) /\
  try_for_each_from fuel tlv g acc 0 = try_for_each_tlv_extension_type tlv g acc /\
  try_for_each_tlv_extension_type tlv g acc <> Panic /\
  (forall a used, try_for_each_tlv_extension_type tlv g acc = Ok (a, used) -> (used <= length tlv)%nat).
Proof.
  intros Hf Hg.
  assert (forall f, (length tlv < 4 * f)%nat -> get_extension_indices_from f ty tlv init 0 <> Panic /\
    try_for_each_from f tlv g acc 0 <> Panic) as Hn.
  { intros f Hlt. pose proof (get_extension_indices_turns f ty tlv init 0 ltac:(lia)) as H1.
    pose proof (try_for_each_turns f tlv g acc 0 Hg ltac:(lia) ltac:(lia)) as H2.
    split; intros E; [by rewrite E in H1|by rewrite E in H2]. }
  destruct (Hn _ Hf) as [H1 H2], (Hn (S (length tlv)) ltac:(lia)) as [H3 H4].
  pose proof (get_extension_indices_turns (S (length tlv)) ty tlv init 0 ltac:(lia)) as Hi.
  pose proof (try_for_each_turns (S (length tlv)) tlv g acc 0 Hg ltac:(lia) ltac:(lia)) as Ht.
  unfold get_extension_indices, try_for_each_tlv_extension_type.
  split; [|split; [done|split; [by intros i Ei; rewrite Ei in Hi|split; [|split; [done|]]]]].
  - destruct (Nat.le_ge_cases fuel (S (length tlv)));
      [symmetry|]; by apply get_extension_indices_more.
  - destruct (Nat.le_ge_cases fuel (S (length tlv)));
      [symmetry|]; by apply try_for_each_more.
  - intros a used Eu. by rewrite Eu in Ht.
Qed.
