(* ===== verification/ViewTheory.v ===== *)
(** * Theory of the account views

    What [unpack_mut], [unpack] and [unpack_uninitialized] accept, and what a
    changed view reads back as: a view is unpacked from exactly the bytes it
    repacks to, both views of an account agree, and the references to
    extensions behave as fields (reading back what was written, leaving the
    others alone). *)
From S2P Require Import Prelude Bytes Errors Ids Runtime Pod ExtensionState Extension TlvTheory.

(** The shape of a view's slices: the base alone, or the zero padding up to the
    token-account length, one account-type byte and any TLV data; never the
    length of a multisig. *)
Definition well_formed {S} `{Pod S} (t : AccountType) (st : PodStateMut S) : Prop :=
  length (repack st) <> Multisig_LEN /\
  ((padding st = [] /\ account_type st = [] /\ tlv_data st = []) \/
   (padding st = replicate (BASE_ACCOUNT_LENGTH - size_of S) x00 /\
    account_type st = [account_type_u8 t])).

Lemma account_type_try_from_Some b t :
  account_type_try_from b = Some t <-> b = account_type_u8 t.
Proof. split; [by destruct b; intros [= <-]|intros ->; by destruct t]. Qed.

Lemma existsb_nonzero_false l :
  existsb (fun b => negb (bool_decide (b = x00))) l = false <-> l = replicate (length l) x00.
Proof.
  induction l as [|b l IH]; simpl; [done|].
  rewrite orb_false_iff, IH, negb_false_iff, bool_decide_eq_true.
  split; [intros [-> E]; by f_equal|by intros [= -> E]].
Qed.

Lemma slice_one {A} (l : list A) i x : l !! i = Some x -> slice l i (i + 1) = [x].
Proof.
  intros Hx. unfold slice. rewrite (drop_S l x i Hx).
  by replace (i + 1 - i)%nat with 1%nat by lia.
Qed.

Section unpack.
Context (S : Type) `{BaseState S}.

(** The checks on the bytes after the base, given their three parts. *)
Lemma unpack_with_check_app k ty t chk :
  k = (BASE_ACCOUNT_LENGTH - size_of S)%nat ->
  unpack_type_and_tlv_data_with_check_mut S (replicate k x00 ++ account_type_u8 ty :: t) chk =
  (_ ← chk ty; Ok (replicate k x00, [account_type_u8 ty], t)).
Proof.
  intros Hk. unfold unpack_type_and_tlv_data_with_check_mut, type_and_tlv_indices, ACCOUNT_TYPE_SIZE.
  rewrite <- Hk. set (z := replicate k x00). assert (length z = k) as Hz by apply length_replicate.
  assert (length (z ++ account_type_u8 ty :: t) = k + 1 + length t)%nat as Hl.
  { rewrite length_app, Hz. simpl. lia. }
  assert ((z ++ account_type_u8 ty :: t) !! k = Some (account_type_u8 ty)) as Ha.
  { rewrite lookup_app_r by lia. by rewrite Hz, Nat.sub_diag. }
  assert (take k (z ++ account_type_u8 ty :: t) = z) as Ht by by apply take_app_length'.
  assert (drop (k + 1) (z ++ account_type_u8 ty :: t) = t) as Hd.
  { rewrite drop_app_ge by lia. by replace (k + 1 - length z)%nat with 1%nat by lia. }
  unfold account_type_at. rewrite <- (slice_one _ _ _ Ha).
  destruct (z ++ account_type_u8 ty :: t) as [|c r] eqn:E; [by destruct z|]. rewrite <- E in *.
  clear E c r. rewrite (proj2 (Nat.ltb_ge _ _)) by lia.
  rewrite (proj2 (existsb_nonzero_false _)) by by rewrite Ht, Hz.
  cbn [mbind Result_bind]. rewrite Ha, (proj2 (account_type_try_from_Some _ ty)) by done.
  cbn [ok_or mbind Result_bind]. by rewrite Ht, Hd.
Qed.

Lemma unpack_with_check_spec rest chk p a t :
  unpack_type_and_tlv_data_with_check_mut S rest chk = Ok (p, a, t) <->
  (rest = [] /\ p = [] /\ a = [] /\ t = []) \/
  (rest = p ++ a ++ t /\ p = replicate (BASE_ACCOUNT_LENGTH - size_of S) x00 /\
   exists ty, a = [account_type_u8 ty] /\ chk ty = Ok tt).
Proof.
  split.
  - unfold unpack_type_and_tlv_data_with_check_mut, type_and_tlv_indices, ACCOUNT_TYPE_SIZE.
    set (k := (BASE_ACCOUNT_LENGTH - size_of S)%nat).
    destruct rest as [|c r0] eqn:Er; [intros [= <- <- <-]; auto|]. rewrite <- Er. clear c r0 Er.
    destruct (Nat.ltb_spec (length rest) (k + 1)) as [|Hl]; [done|].
    destruct (existsb _ _) eqn:Ez; [done|]. cbn [mbind Result_bind]. intros Hu.
    apply bind_Ok in Hu as (ty & Ht & Hu). apply bind_Ok in Hu as ([] & Hc & Hu).
    injection Hu as <- <- <-. right.
    apply existsb_nonzero_false in Ez. rewrite length_take, Nat.min_l in Ez by lia.
    unfold account_type_at in Ht. destruct (rest !! k) as [b|] eqn:Hb; [|done].
    apply ok_or_Ok, account_type_try_from_Some in Ht as ->.
    split_and!; [apply split_at; lia|done|].
    exists ty. split; [by apply slice_one|done].
  - intros [(-> & -> & -> & ->)|(-> & -> & ty & -> & Hc)]; [done|].
    simpl app. rewrite unpack_with_check_app by done. by rewrite Hc.
Qed.

Lemma length_repack (st : PodStateMut S) :
  length (repack st) =
  (size_of S + (length (padding st) + length (account_type st) + length (tlv_data st)))%nat.
Proof. unfold repack. rewrite !length_app, length_to_bytes. lia. Qed.

(** What the front of each [unpack] computes on a buffer of enough bytes. *)
Lemma unpack_front {B} input (f : S -> Result ProgramError B) r :
  (_ ← check_min_len_and_not_multisig input (size_of S);
   base ← ok_or (try_from_bytes (A := S) (take (size_of S) input)) ProgramError.InvalidArgument;
   f base) = Ok r <->
  exists b rest, input = to_bytes b ++ rest /\ length input <> Multisig_LEN /\ f b = Ok r.
Proof.
  split.
  - intros Hu. apply bind_Ok in Hu as ([] & Hc & Hu). apply fail_if_Ok in Hc.
    apply orb_false_iff in Hc as [Hm Hl]. apply Nat.eqb_neq in Hm.
    apply bind_Ok in Hu as (b & Hb & Hu). apply ok_or_Ok, try_from_bytes_Some in Hb.
    exists b, (drop (size_of S) input). by rewrite <- Hb, take_drop.
  - intros (b & rest & -> & Hm & Hf). unfold check_min_len_and_not_multisig.
    rewrite (proj2 (Nat.eqb_neq _ _) Hm), length_app, length_to_bytes.
    rewrite (proj2 (Nat.ltb_ge _ _)) by lia. cbn [orb fail_if err_if mbind Result_bind].
    rewrite take_app_length' by by rewrite length_to_bytes.
    by rewrite (proj2 (try_from_bytes_Some _ b) eq_refl).
Qed.

Lemma unpack_rest (b : S) rest : drop (size_of S) (to_bytes b ++ rest) = rest.
Proof. apply drop_app_length'. by rewrite length_to_bytes. Qed.

Lemma repack_inj_rest (b b' : S) r r' :
  to_bytes b ++ r = to_bytes b' ++ r' -> b = b' /\ r = r'.
Proof.
  intros E. apply app_inv_length in E as [Eb ->]; [|by rewrite !length_to_bytes].
  by apply to_bytes_inj in Eb.
Qed.

Lemma unpack_mut_Ok input st :
  unpack_mut S input = Ok st <->
  input = repack st /\ is_initialized (base st) = true /\ well_formed (ACCOUNT_TYPE S) st.
Proof.
  unfold unpack_mut. rewrite (unpack_front input (fun b =>
    if negb (is_initialized b) then Err ProgramError.UninitializedAccount
    else '(p, a, t) ← unpack_type_and_tlv_data_mut S (drop (size_of S) input);
         mret (mk_state_mut b p a t))).
  unfold unpack_type_and_tlv_data_mut, well_formed. split.
  - intros (b & rest & -> & Hm & Hu). rewrite unpack_rest in Hu.
    destruct (is_initialized b) eqn:Hb; [|done]. cbn [negb] in Hu.
    apply bind_Ok in Hu as ([[p a] t] & Hu & [= <-]). simpl.
    apply unpack_with_check_spec in Hu as [(-> & -> & -> & ->)|(-> & Hp & ty & -> & Hc)].
    + split_and!; auto.
    + split_and!; [done..|]. right. split; [done|].
      apply fail_if_Ok, negb_false_iff, bool_decide_eq_true in Hc. by rewrite Hc.
  - destruct st as [b p a t]. simpl. intros (-> & Hb & Hm & Hw).
    exists b, (p ++ a ++ t). split_and!; [done..|]. unfold repack. simpl.
    rewrite unpack_rest, Hb. cbn [negb].
    rewrite (proj2 (unpack_with_check_spec _ _ p a t)); [done|].
    destruct Hw as [(-> & -> & ->)|[-> ->]]; [auto|]. right. split_and!; [done..|].
    exists (ACCOUNT_TYPE S). split; [done|]. unfold check_account_type.
    by rewrite bool_decide_true.
Qed.

Lemma unpack_uninitialized_Ok input st :
  unpack_uninitialized S input = Ok st <->
  input = repack st /\ is_initialized (base st) = false /\
  well_formed AccountType.Uninitialized st /\
  check_account_type_matches_extension_type S st = Ok tt.
Proof.
  unfold unpack_uninitialized. rewrite (unpack_front input (fun b =>
    if is_initialized b then fail TokenError.AlreadyInUse
    else '(p, a, t) ← unpack_uninitialized_type_and_tlv_data_mut S (drop (size_of S) input);
         let st := mk_state_mut b p a t in
         _ ← check_account_type_matches_extension_type S st; mret st)).
  unfold unpack_uninitialized_type_and_tlv_data_mut, well_formed. split.
  - intros (b & rest & -> & Hm & Hu). rewrite unpack_rest in Hu.
    destruct (is_initialized b) eqn:Hb; [done|].
    apply bind_Ok in Hu as ([[p a] t] & Hu & Hv).
    apply bind_Ok in Hv as ([] & Hk & [= <-]). simpl.
    apply unpack_with_check_spec in Hu as [(-> & -> & -> & ->)|(-> & Hp & ty & -> & Hc)].
    + split_and!; auto.
    + split_and!; [done..| |done]. right. split; [done|].
      apply fail_if_Ok, negb_false_iff, bool_decide_eq_true in Hc. by rewrite Hc.
  - destruct st as [b p a t]. simpl. intros (-> & Hb & (Hm & Hw) & Hk).
    exists b, (p ++ a ++ t). split_and!; [done..|]. unfold repack. simpl.
    rewrite unpack_rest, Hb.
    rewrite (proj2 (unpack_with_check_spec _ _ p a t)); [cbn; by rewrite Hk|].
    destruct Hw as [(-> & -> & ->)|[-> ->]]; [auto|]. right. split_and!; [done..|].
    by exists AccountType.Uninitialized.
Qed.

(** The read-only view is the mutable one without its slices. *)
Lemma unpack_unpack_mut input :
  unpack S input = (fun st => mk_state (base st) (tlv_data st)) <$> unpack_mut S input.
Proof.
  unfold unpack, unpack_mut, unpack_tlv_data, unpack_type_and_tlv_data_mut,
    unpack_type_and_tlv_data_with_check_mut.
  destruct (check_min_len_and_not_multisig _ _); [|done..]. cbn [mbind Result_bind].
  destruct (ok_or _ _) as [b| |]; [|done..]. cbn [mbind Result_bind].
  destruct (negb _); [done|].
  destruct (type_and_tlv_indices S _) as [[[i j]|]| |]; [|done..]. cbn [mbind Result_bind].
  destruct (account_type_at _ _) as [ty| |]; [|done..]. cbn [mbind Result_bind].
  by destruct (check_account_type S ty).
Qed.

Lemma unpack_Ok input st :
  unpack S input = Ok st <->
  exists sm, unpack_mut S input = Ok sm /\ st = mk_state (base sm) (tlv_data sm).
Proof. rewrite unpack_unpack_mut, fmap_Ok. done. Qed.

End unpack.

(** ** References to extensions *)

Section references.
Context {S : Type} `{BaseState S}.

Lemma with_tlv_data_twice t t' (st : PodStateMut S) :
  with_tlv_data t (with_tlv_data t' st) = with_tlv_data t st.
Proof. done. Qed.

Lemma with_tlv_data_id (st : PodStateMut S) : with_tlv_data (tlv_data st) st = st.
Proof. by destruct st. Qed.

Lemma get_extension_Ok {St} `{BaseStateWithExtensions St} V `{Pod V, Extension V} (st : St S) v :
  get_extension V st = Ok v <->
  get_extension_bytes S (TYPE V) (get_tlv_data st) = Ok (to_bytes v).
Proof.
  unfold get_extension. rewrite bind_Ok. split.
  - intros (b & Hb & Hv). apply ok_or_Ok, try_from_bytes_Some in Hv. by subst b.
  - intros Hb. eexists. split; [done|]. by rewrite ok_or_Ok, try_from_bytes_Some.
Qed.

Lemma get_account_type_nonzero ty :
  get_account_type ty = ACCOUNT_TYPE S -> 0 < extension_type_u16 ty <= u16_max.
Proof.
  intros Ha. pose proof (extension_type_u16_range ty).
  assert (extension_type_u16 ty <> 0).
  { rewrite extension_type_u16_0. intros ->. by apply (ACCOUNT_TYPE_not_uninitialized (S := S)). }
  unfold u16_max. lia.
Qed.

(** An entry whose type is not looked up may change its value. *)
Lemma get_extension_bytes_other ty es t v v' tail :
  Forall entry_ok es -> entry_ok (t, v) -> entry_ok (t, v') -> t <> extension_type_u16 ty ->
  get_extension_bytes S ty (tlv_encode es ++ enc_entry t v ++ tail) =
  get_extension_bytes S ty (tlv_encode es ++ enc_entry t v' ++ tail).
Proof.
  intros Hes Hv Hv' Ht. induction Hes as [|[u w] es He Hes IH].
  - change (tlv_encode []) with (@nil byte). rewrite !app_nil_l.
    rewrite !get_extension_bytes_cons by done. by rewrite (proj2 (Z.eqb_neq _ _) Ht), andb_false_r.
  - rewrite !tlv_encode_cons, <- !app_assoc, !get_extension_bytes_cons by done. by rewrite IH.
Qed.

(** A place in the TLV data: the entry an extension reference points to. *)
Definition place (ty : ExtensionType) (n : nat) (st : PodStateMut S)
    (put : list byte -> PodStateMut S) (es : list Entry) (old tail : list byte) : Prop :=
  get_account_type ty = ACCOUNT_TYPE S /\ Forall entry_ok es /\
  Forall (fun e => e.1 <> extension_type_u16 ty) es /\ Z.of_nat n <= u16_max /\
  length old = (4 + n)%nat /\ tlv_data st = tlv_encode es ++ old ++ tail /\
  forall v, length v = n ->
    put v = with_tlv_data (tlv_encode es ++ enc_entry (extension_type_u16 ty) v ++ tail) st.

Lemma get_extension_mut_place V `{Pod V, Extension V} (st : PodStateMut S) v put :
  get_extension_mut V st = Ok (v, put) ->
  get_extension V st = Ok v /\
  exists es tail p, place (TYPE V) (size_of V) st p es
    (enc_entry (extension_type_u16 (TYPE V)) (to_bytes v)) tail /\
    forall v', put v' = p (to_bytes v').
Proof.
  intros Hg. unfold get_extension_mut in Hg.
  apply bind_Ok in Hg as (v0 & Hv & Hg). apply bind_Ok in Hg as (idx & Hi & [= <- <-]).
  split; [done|]. apply get_extension_Ok, get_extension_bytes_inv in Hv as
    (Ha & es & tail & Hes & Hne & Hlen & Htlv & Hidx).
  change (get_tlv_data st) with (tlv_data st) in Htlv, Hidx. rewrite Hi in Hidx. injection Hidx as ->.
  exists es, tail, (fun b => with_tlv_data (splice (tlv_data st)
    (value_start (get_tlv_indices (length (tlv_encode es)))) b) st).
  split; [|done]. unfold place. rewrite length_to_bytes in Hlen.
  split_and!; try done; [by rewrite length_enc_entry, length_to_bytes|].
  intros w Hw. f_equal. rewrite Htlv. unfold enc_entry. rewrite Hw, length_to_bytes.
  set (a := to_le_bytes 2 (extension_type_u16 _)). set (b := to_le_bytes 2 _).
  replace (tlv_encode es ++ (a ++ b ++ to_bytes v0) ++ tail)
    with ((tlv_encode es ++ a ++ b) ++ to_bytes v0 ++ tail) by by rewrite <- !app_assoc.
  rewrite splice_app_mid; [by rewrite <- !app_assoc| |by rewrite length_to_bytes].
  rewrite !length_app. unfold a, b. rewrite !length_to_le_bytes. tlv_lia.
Qed.

Lemma place_get V `{Pod V, Extension V} st put es old tail v :
  place (TYPE V) (size_of V) st put es old tail ->
  get_extension V (put (to_bytes v)) = Ok v.
Proof.
  intros (Ha & Hes & Hne & Hn & Ho & Ht & Hp). rewrite Hp by apply length_to_bytes.
  apply get_extension_Ok. apply get_extension_bytes_found; try done.
  - intros E. apply get_account_type_nonzero in Ha. rewrite E in Ha. simpl in Ha. lia.
  - by rewrite length_to_bytes.
Qed.

Lemma place_length ty n st put es old tail v :
  place ty n st put es old tail -> length v = n ->
  length (tlv_data (put v)) = length (tlv_data st).
Proof.
  intros (Ha & Hes & Hne & Hn & Ho & Ht & Hp) Hv. rewrite Hp, Ht by done. cbn.
  rewrite !length_app, length_enc_entry. lia.
Qed.

Lemma place_other ty ty' n st put es v0 tail v :
  place ty n st put es (enc_entry (extension_type_u16 ty) v0) tail -> length v = n ->
  ty' <> ty ->
  get_extension_bytes S ty' (tlv_data (put v)) = get_extension_bytes S ty' (tlv_data st).
Proof.
  intros (Ha & Hes & Hne & Hn & Ho & Ht & Hp) Hv Hty. rewrite Hp, Ht by done. cbn.
  rewrite length_enc_entry in Ho. apply get_account_type_nonzero in Ha.
  apply get_extension_bytes_other; [done|split; simpl; lia..|].
  intros E. by apply extension_type_u16_inj in E.
Qed.

(** A fresh entry takes the place of the end mark, which hides nothing. *)
Lemma get_extension_bytes_end ty rest b :
  tlv_type_at rest (get_tlv_indices 0) = 0 -> get_extension_bytes S ty rest <> Ok b.
Proof.
  intros H0' Hg. apply get_extension_bytes_inv in Hg as (Ha & es & tail & Hes & Hne & Hl & -> & _).
  apply get_account_type_nonzero in Ha.
  destruct es as [|[t w] es].
  - change (tlv_encode []) with (@nil byte) in H0'. rewrite app_nil_l in H0'.
    rewrite enc_entry_type_at in H0'; lia.
  - inversion Hes as [|? ? [Ht _] _]; subst. simpl in Ht.
    rewrite tlv_encode_cons, <- app_assoc, enc_entry_type_at in H0'; simpl in *; lia.
Qed.

Lemma place_other_fresh ty ty' n st put es old tail v b :
  place ty n st put es old tail -> length v = n -> ty' <> ty ->
  tlv_type_at (old ++ tail) (get_tlv_indices 0) = 0 ->
  get_extension_bytes S ty' (tlv_data st) = Ok b ->
  get_extension_bytes S ty' (tlv_data (put v)) = Ok b.
Proof.
  intros (Ha & Hes & Hne & Hn & Ho & Ht & Hp) Hv Hty H0'. rewrite Hp, Ht by done. cbn.
  clear Hp Ht Hne. induction Hes as [|[t w] es He Hes IH]; intros Hb.
  - by apply get_extension_bytes_end in Hb.
  - rewrite tlv_encode_cons, <- app_assoc, get_extension_bytes_cons in Hb |- * by done.
    destruct (_ && _); [done|]. by apply IH.
Qed.

(** The three writes of an allocation make up the entry. *)
Lemma splice_entry pre a b c rest t v :
  length a = 2%nat -> length b = 2%nat -> length c = length v ->
  splice (splice (splice (pre ++ a ++ b ++ c ++ rest) (length pre) (to_le_bytes 2 t))
    (length pre + 2) (to_le_bytes 2 (Z.of_nat (length v)))) (length pre + 2 + 2) v =
  pre ++ enc_entry t v ++ rest.
Proof.
  intros La Lb Lc.
  rewrite splice_app_mid by (rewrite ?La, ?length_to_le_bytes; done).
  rewrite (app_assoc pre (to_le_bytes 2 t)).
  rewrite splice_app_mid by (rewrite ?length_app, ?Lb, ?length_to_le_bytes; done).
  rewrite (app_assoc _ (to_le_bytes 2 (Z.of_nat _))).
  rewrite splice_app_mid; [|rewrite !length_app, !length_to_le_bytes; lia|by rewrite Lc].
  unfold enc_entry. by rewrite <- !app_assoc.
Qed.

Lemma split_header n (t : list byte) :
  (4 + n <= length t)%nat ->
  exists a b c rest, t = a ++ b ++ c ++ rest /\
    length a = 2%nat /\ length b = 2%nat /\ length c = n.
Proof.
  intros Hn. exists (take 2 t), (take 2 (drop 2 t)), (take n (drop 4 t)), (drop n (drop 4 t)).
  split_and!; rewrite ?length_take, ?length_drop; try lia.
  rewrite (take_drop n (drop 4 t)). change 4%nat with (2 + 2)%nat.
  by rewrite <- drop_drop, !take_drop.
Qed.

(** [alloc] finds a place: the end mark or, when it may overwrite, an entry of
    the same type and length. *)
Lemma alloc_place ty n overwrite st st' idx :
  alloc ty n overwrite st = Ok (st', idx) ->
  exists es old tail, place ty n st
    (fun v => with_tlv_data (splice (tlv_data st') (value_start idx) v) st') es old tail /\
    (tlv_type_at (old ++ tail) (get_tlv_indices 0) = 0 \/
     overwrite = true /\ exists v0, old = enc_entry (extension_type_u16 ty) v0).
Proof.
  unfold alloc. case_bool_decide as Ha; [|done]. simpl negb. cbn iota. intros Hg.
  apply bind_Ok in Hg as (i & Hi & Hg).
  apply get_extension_indices_inv in Hi as (es & t & Hes & Hne & Htlv & -> & H4 & Ht).
  rewrite Htlv in Hg. cbn [get_tlv_indices type_start length_start value_start] in Hg.
  rewrite drop_app_length in Hg.
  destruct (Nat.ltb_spec (length t) (add_type_and_length_to_len n)) as [|Hn]; [done|].
  unfold add_type_and_length_to_len, EXT_TYPE_SIZE, LENGTH_SIZE in Hn.
  destruct (split_header n t) as (a & b & c & rest & Et & La & Lb & Lc); [lia|].
  apply bind_Ok in Hg as (et & Het & Hg).
  destruct (bool_decide _ || overwrite) eqn:How; [|done].
  destruct (_ && _ && _) eqn:Hlen; [done|].
  apply bind_Ok in Hg as (lb & Hlb & Hg). injection Hg as <- <-.
  unfold length_try_from in Hlb. destruct (Z.leb_spec (Z.of_nat n) u16_max); [|done].
  injection Hlb as <-.
  exists es, (a ++ b ++ c), rest. rewrite <- !app_assoc, <- Et. split.
  { unfold place. rewrite <- !app_assoc, <- Et. split_and!; [done..| |done|].
    - rewrite !length_app. lia.
    - intros v Hv. unfold with_tlv_data; simpl; f_equal. rewrite Et, <- Hv.
      apply splice_entry; lia. }
  destruct Ht as [Ht|[_ Ht]]; [|by left]. right.
  assert (et = ty) as ->.
  { unfold extension_type_try_from_slice in Het. case_match; [|done].
    apply ok_or_Ok, extension_type_try_from_Some in Het.
    apply extension_type_u16_inj. rewrite <- Het, <- Ht, tlv_type_at_0, slice_0.
    unfold EXT_TYPE_SIZE. rewrite slice_app_r by lia. rewrite Nat.sub_diag, slice_0.
    do 2 f_equal. lia. }
  assert (overwrite = true) as ->.
  { apply orb_true_iff in How as [Hu|]; [|done]. apply bool_decide_eq_true in Hu as ->.
    apply get_account_type_nonzero in Ha. simpl in Ha. lia. }
  split; [done|]. exists c. rewrite bool_decide_true in Hlen by done. simpl in Hlen.
  apply negb_false_iff, Nat.eqb_eq in Hlen.
  rewrite <- Ht, tlv_type_at_0, slice_0, Et. unfold enc_entry. f_equal; [|f_equal].
  - rewrite take_app_length' by done. by rewrite <- La, to_from_le_bytes.
  - rewrite Lc, <- Hlen. clear Hlen. unfold tlv_length_at, extension_type_bytes. rewrite Et.
    rewrite splice_app_mid by (rewrite ?La, ?length_to_le_bytes; done).
    rewrite (app_assoc (tlv_encode es)), slice_app_mid
      by (rewrite ?length_app, ?length_to_le_bytes; simpl; unfold EXT_TYPE_SIZE, LENGTH_SIZE; lia).
    pose proof (from_le_bytes_range b). by rewrite Z2Nat.id, <- Lb, to_from_le_bytes by lia.
Qed.

Lemma init_extension_place V `{Pod V, Extension V} overwrite (st : PodStateMut S) v put :
  init_extension V overwrite st = Ok (v, put) ->
  v = pod_default V /\
  exists es old tail p, place (TYPE V) (size_of V) st p es old tail /\
    (forall v', put v' = p (to_bytes v')) /\
    (tlv_type_at (old ++ tail) (get_tlv_indices 0) = 0 \/
     exists v0, old = enc_entry (extension_type_u16 (TYPE V)) v0).
Proof.
  unfold init_extension. intros Hi. apply bind_Ok in Hi as ([st' idx] & Ha & [= <- <-]).
  split; [done|]. apply alloc_place in Ha as (es & old & tail & Hp & Ho).
  exists es, old, tail. eexists. split; [exact Hp|]. split; [done|].
  destruct Ho as [|[_ ?]]; auto.
Qed.

(** *** The laws the handlers use *)

(** What can be read can be rewritten. *)
Lemma get_extension_mut_exists V `{Pod V, Extension V} (st : PodStateMut S) v :
  get_extension V st = Ok v -> exists put, get_extension_mut V st = Ok (v, put).
Proof.
  intros Hv. unfold get_extension_mut. rewrite Hv.
  apply get_extension_Ok, get_extension_bytes_inv in Hv as (_ & es & tail & _ & _ & _ & _ & Hi).
  change (get_tlv_data st) with (tlv_data st) in Hi.
  cbn [mbind Result_bind]. rewrite Hi. by eexists.
Qed.

Lemma get_put_mut V `{Pod V, Extension V} (st : PodStateMut S) v put v' :
  get_extension_mut V st = Ok (v, put) -> get_extension V (put v') = Ok v'.
Proof.
  intros (_ & es & tail & p & Hp & E)%get_extension_mut_place. rewrite E.
  by eapply place_get.
Qed.

Lemma get_put_mut_other V W `{Pod V, Extension V, Pod W, Extension W} (st : PodStateMut S) v put v' :
  get_extension_mut V st = Ok (v, put) -> TYPE W <> TYPE V ->
  get_extension W (put v') = get_extension W st.
Proof.
  intros (_ & es & tail & p & Hp & E)%get_extension_mut_place Hne. rewrite E.
  unfold get_extension. change (@get_tlv_data PodStateMut _ S) with (@tlv_data S).
  erewrite place_other; [done|exact Hp|apply length_to_bytes|done].
Qed.

Lemma get_put_init V `{Pod V, Extension V} ow (st : PodStateMut S) v put v' :
  init_extension V ow st = Ok (v, put) -> get_extension V (put v') = Ok v'.
Proof.
  intros (_ & es & old & tail & p & Hp & E & _)%init_extension_place. rewrite E.
  by eapply place_get.
Qed.

Lemma get_put_init_other V W `{Pod V, Extension V, Pod W, Extension W} ow
    (st : PodStateMut S) v put v' x :
  init_extension V ow st = Ok (v, put) -> TYPE W <> TYPE V ->
  get_extension W st = Ok x -> get_extension W (put v') = Ok x.
Proof.
  intros (_ & es & old & tail & p & Hp & E & Ho)%init_extension_place Hne Hx. rewrite E.
  rewrite get_extension_Ok in Hx |- *.
  change (@get_tlv_data PodStateMut _ S) with (@tlv_data S) in *.
  destruct Ho as [Ho|[v0 ->]].
  - eapply place_other_fresh; eauto using length_to_bytes.
  - erewrite place_other; eauto using length_to_bytes.
Qed.

(** The buffer keeps its shape. *)
Definition same_shape (st st' : PodStateMut S) : Prop :=
  base st' = base st /\ padding st' = padding st /\ account_type st' = account_type st /\
  length (tlv_data st') = length (tlv_data st).

Lemma place_same_shape ty n st put es old tail v :
  place ty n st put es old tail -> length v = n -> same_shape st (put v).
Proof.
  intros Hp Hv. pose proof (place_length _ _ _ _ _ _ _ _ Hp Hv) as Hl.
  destruct Hp as (Ha & Hes & Hne & Hn & Ho & Ht & Hp). unfold same_shape.
  rewrite Hl. by rewrite Hp.
Qed.

Lemma put_mut_same_shape V `{Pod V, Extension V} (st : PodStateMut S) v put v' :
  get_extension_mut V st = Ok (v, put) -> same_shape st (put v').
Proof.
  intros (_ & es & tail & p & Hp & E)%get_extension_mut_place. rewrite E.
  eapply place_same_shape; eauto using length_to_bytes.
Qed.

Lemma put_init_same_shape V `{Pod V, Extension V} ow (st : PodStateMut S) v put v' :
  init_extension V ow st = Ok (v, put) -> same_shape st (put v').
Proof.
  intros (_ & es & old & tail & p & Hp & E & _)%init_extension_place. rewrite E.
  eapply place_same_shape; eauto using length_to_bytes.
Qed.

Lemma same_shape_length st st' : same_shape st st' -> length (repack st') = length (repack st).
Proof. intros (_ & Ep & Ea & El). by rewrite !length_repack, Ep, Ea, El. Qed.

Lemma well_formed_same_shape t st st' : same_shape st st' -> well_formed t st -> well_formed t st'.
Proof.
  intros Hs [Hm Hw]. split; [by rewrite (same_shape_length _ _ Hs)|].
  destruct Hs as (_ & -> & -> & El). destruct Hw as [(Hp & Ha & Ht)|Hw]; [left|by right].
  split_and!; [done..|]. apply nil_length_inv. by rewrite El, Ht.
Qed.

Lemma well_formed_with_base t (b : S) st : well_formed t st -> well_formed t (with_base b st).
Proof. intros [Hm Hw]. split; [|done]. by rewrite length_repack in *. Qed.

Lemma unpack_mut_repack st :
  is_initialized (base st) = true -> well_formed (ACCOUNT_TYPE S) st ->
  unpack_mut S (repack st) = Ok st.
Proof. intros. by apply unpack_mut_Ok. Qed.
End references.
#[export] Hint Resolve well_formed_with_base well_formed_same_shape put_mut_same_shape
  put_init_same_shape : token.
