(* ===== verification/Clean.v ===== *)
(** * Clean TLV data

    The extension data that the program itself writes: entries, and zeros after
    them.  Nothing then hides behind the end mark, so what a new entry uncovers
    is known.  Cleanliness, with a property of every entry, is kept by updates,
    allocations and growth.  The properties of the views close the file. *)
From S2P Require Import Prelude Bytes Errors Ids Runtime Pod ExtensionState Extension TlvTheory.
From S2P Require Import ViewTheory.

Definition clean (P : Entry -> Prop) (t : list byte) : Prop :=
  exists es n, Forall entry_ok es /\ Forall P es /\ t = tlv_encode es ++ replicate n x00.

Definition any_entry (e : Entry) : Prop := True.

(** ** Splitting an encoding *)

Lemma zeros_type n rest : replicate n x00 = rest -> (4 <= length rest)%nat ->
  tlv_type_at rest (get_tlv_indices 0) = 0.
Proof.
  intros <- Hl. rewrite length_replicate in Hl. rewrite tlv_type_at_0.
  replace n with (2 + (n - 2))%nat by lia. done.
Qed.

Lemma entry_type e rest : entry_ok e ->
  tlv_type_at (enc_entry e.1 e.2 ++ rest) (get_tlv_indices 0) = e.1.
Proof. intros [H1 H2]. apply enc_entry_type_at. lia. Qed.

Lemma enc_entry_inj e f r r' :
  entry_ok e -> entry_ok f -> enc_entry e.1 e.2 ++ r = enc_entry f.1 f.2 ++ r' -> e = f /\ r = r'.
Proof.
  intros He Hf E. pose proof (entry_type e r He) as T. rewrite E, entry_type in T by done.
  pose proof (enc_entry_length_at e.1 e.2 r (proj2 He)) as L.
  rewrite E, (enc_entry_length_at f.1 f.2 r' (proj2 Hf)) in L.
  unfold enc_entry in E. rewrite <- !app_assoc in E.
  apply app_inv_length in E as [_ E]; [|by rewrite !length_to_le_bytes].
  apply app_inv_length in E as [_ E]; [|by rewrite !length_to_le_bytes].
  apply app_inv_length in E as [E1 E2]; [|done].
  destruct e, f; simpl in *; by subst.
Qed.

(** The entries that come before a known one. *)
Lemma clean_split es es' e n tail :
  Forall entry_ok es -> Forall entry_ok es' -> entry_ok e ->
  tlv_encode es ++ replicate n x00 = tlv_encode es' ++ enc_entry e.1 e.2 ++ tail ->
  exists es'', es = es' ++ e :: es'' /\ tail = tlv_encode es'' ++ replicate n x00.
Proof.
  intros Hes Hes' He. revert es Hes. induction Hes' as [|f es' Hf Hes' IH]; intros es Hes E.
  - destruct Hes as [|g es Hg Hes].
    + exfalso. change (tlv_encode []) with (@nil byte) in E. rewrite !app_nil_l in E.
      pose proof (zeros_type n _ E) as Z. rewrite entry_type in Z by done.
      destruct He. rewrite length_app, length_enc_entry in Z. lia.
    + exists es. rewrite tlv_encode_cons, <- app_assoc in E.
      change (tlv_encode []) with (@nil byte) in E. rewrite app_nil_l in E.
      apply enc_entry_inj in E as [-> E]; done.
  - destruct Hes as [|g es Hg Hes].
    + exfalso. rewrite tlv_encode_cons, <- app_assoc in E.
      change (tlv_encode []) with (@nil byte) in E. rewrite app_nil_l in E.
      pose proof (zeros_type n _ E) as Z. rewrite entry_type in Z by done.
      destruct Hf. rewrite length_app, length_enc_entry in Z. lia.
    + rewrite !tlv_encode_cons, <- !app_assoc in E. apply enc_entry_inj in E as [-> E]; [|done..].
      destruct (IH es Hes E) as (es'' & -> & ->). by exists es''.
Qed.

(** The end mark is after all entries. *)
Lemma clean_end es es' n rest :
  Forall entry_ok es -> Forall entry_ok es' -> (4 <= length rest)%nat ->
  tlv_type_at rest (get_tlv_indices 0) = 0 ->
  tlv_encode es ++ replicate n x00 = tlv_encode es' ++ rest ->
  es = es' /\ rest = replicate n x00.
Proof.
  intros Hes Hes' Hl H0. revert es Hes. induction Hes' as [|f es' Hf Hes' IH]; intros es Hes E.
  - destruct Hes as [|g es Hg Hes]; [done|]. exfalso.
    rewrite tlv_encode_cons, <- app_assoc in E. change (tlv_encode []) with (@nil byte) in E.
    rewrite app_nil_l in E. rewrite <- E, entry_type in H0 by done. destruct Hg. lia.
  - destruct Hes as [|g es Hg Hes].
    + exfalso. rewrite tlv_encode_cons, <- app_assoc in E.
      change (tlv_encode []) with (@nil byte) in E. rewrite app_nil_l in E.
      pose proof (zeros_type n _ E) as Z. rewrite entry_type in Z by done.
      destruct Hf. rewrite length_app, length_enc_entry in Z. lia.
    + rewrite !tlv_encode_cons, <- !app_assoc in E. apply enc_entry_inj in E as [-> E]; [|done..].
      by destruct (IH es Hes E) as [-> ->].
Qed.

(** ** The store as a list of entries

    [tlv_holds t es]: the TLV data [t] is the entries [es] and zeros.
    [set_entry] is the update of the store seen this way: the first entry of
    the type gets the value, and a new entry comes last. *)
Definition tlv_holds (t : list byte) (es : list Entry) : Prop :=
  Forall entry_ok es /\ exists n, t = tlv_encode es ++ replicate n x00.

Fixpoint set_entry (t : Z) (v : list byte) (es : list Entry) : list Entry :=
  match es with
  | [] => [(t, v)]
  | e :: es => if e.1 =? t then (t, v) :: es else e :: set_entry t v es
  end.

Lemma set_entry_new t v es : Forall (fun e => e.1 <> t) es -> set_entry t v es = es ++ [(t, v)].
Proof.
  induction 1 as [|e es He _ IH]; [done|]. simpl. by rewrite (proj2 (Z.eqb_neq _ _) He), IH.
Qed.

Lemma set_entry_found t v v0 es es' : Forall (fun e => e.1 <> t) es ->
  set_entry t v (es ++ (t, v0) :: es') = es ++ (t, v) :: es'.
Proof.
  induction 1 as [|e es He _ IH]; simpl; [by rewrite Z.eqb_refl|].
  by rewrite (proj2 (Z.eqb_neq _ _) He), IH.
Qed.

Lemma Forall_set_entry (P : Entry -> Prop) t v es :
  Forall P es -> P (t, v) -> Forall P (set_entry t v es).
Proof.
  intros Hes Hv. induction Hes as [|e es He Hes IH]; simpl; [by constructor|].
  destruct (e.1 =? t); by constructor.
Qed.

Lemma entries_lookup_cons t e es :
  entries_lookup t (e :: es) = if e.1 =? t then Some e.2 else entries_lookup t es.
Proof.
  unfold entries_lookup. rewrite filter_cons.
  destruct (Z.eqb_spec e.1 t), (decide (e.1 = t)); try done.
Qed.

Lemma entries_lookup_set t v es : entries_lookup t (set_entry t v es) = Some v.
Proof.
  induction es as [|e es IH]; simpl; [by rewrite entries_lookup_cons, Z.eqb_refl|].
  destruct (e.1 =? t) eqn:E; rewrite entries_lookup_cons; [by rewrite Z.eqb_refl|]. by rewrite E.
Qed.

Lemma entries_lookup_set_ne t t' v es :
  t' <> t -> entries_lookup t' (set_entry t v es) = entries_lookup t' es.
Proof.
  intros Hne. induction es as [|e es IH]; simpl.
  - by rewrite entries_lookup_cons, (proj2 (Z.eqb_neq _ _)) by (simpl; congruence).
  - destruct (Z.eqb_spec e.1 t) as [E|E]; rewrite !entries_lookup_cons; [|by rewrite IH].
    simpl. rewrite E. rewrite (proj2 (Z.eqb_neq t t')) by congruence. done.
Qed.

(** ** Closure *)

Lemma clean_zeros P n : clean P (replicate n x00).
Proof. by exists [], n. Qed.

Lemma clean_impl (P Q : Entry -> Prop) t : (forall e, P e -> Q e) -> clean P t -> clean Q t.
Proof. intros HPQ (es & n & Hes & HP & ->). exists es, n. eauto using Forall_impl. Qed.

Lemma clean_grow P t n : clean P t -> clean P (t ++ replicate n x00).
Proof.
  intros (es & k & Hes & HP & ->). exists es, (k + n)%nat. by rewrite replicate_add, app_assoc.
Qed.

Section views.
Context {S : Type} `{BaseState S}.

Lemma clean_lookup P ty t v :
  clean P t -> get_extension_bytes S ty t = Ok v -> P (extension_type_u16 ty, v).
Proof.
  intros (es & n & Hes & HP & ->) (Ha & es' & tail & Hes' & _ & Hl & E & _)%get_extension_bytes_inv.
  apply get_account_type_nonzero in Ha.
  apply (clean_split _ _ (extension_type_u16 ty, v)) in E as (es'' & -> & _); [|done..].
  apply Forall_app in HP as [_ HP]. by apply Forall_cons in HP as [HP _].
Qed.

(** A write at a place sets the entry. *)
Lemma place_holds ty n st put es old tail es0 v :
  place ty n st put es old tail -> length v = n ->
  (tlv_type_at (old ++ tail) (get_tlv_indices 0) = 0 \/
   exists v0, old = enc_entry (extension_type_u16 ty) v0) ->
  tlv_holds (tlv_data st) es0 ->
  tlv_holds (tlv_data (put v)) (set_entry (extension_type_u16 ty) v es0).
Proof.
  intros (Ha & Hes & Hne & Hn & Ho & Ht & Hp) Hv Hold (Hes0 & k & E).
  apply get_account_type_nonzero in Ha. rewrite Hp by done. cbn [tlv_data with_tlv_data].
  rewrite Ht in E. symmetry in E.
  assert (entry_ok (extension_type_u16 ty, v)) as Hok by (split; simpl; [done|lia]).
  split; [by apply Forall_set_entry|]. destruct Hold as [Hz|[v0 ->]].
  - apply clean_end in E as [-> E]; [|done|done|rewrite length_app; lia|done].
    exists (length tail). rewrite set_entry_new, tlv_encode_app, <- app_assoc by done.
    do 2 f_equal. rewrite tlv_encode_cons.
    change (tlv_encode []) with (@nil byte). rewrite app_nil_r. f_equal.
    pose proof (f_equal length E) as El. rewrite length_app, length_replicate, Ho in El.
    rewrite <- El, replicate_add in E. apply app_inv_length in E as [_ E]; [|by rewrite length_replicate, Ho].
    exact E.
  - rewrite length_enc_entry in Ho.
    apply (clean_split _ _ (extension_type_u16 ty, v0)) in E as (es'' & -> & ->);
      [|done|done|split; simpl; [done|lia]].
    exists k. rewrite set_entry_found by done. by rewrite tlv_encode_app, tlv_encode_cons, <- !app_assoc.
Qed.

(** A write at a place keeps the data clean. *)
Lemma clean_place P ty n st put es old tail v :
  place ty n st put es old tail -> length v = n ->
  (tlv_type_at (old ++ tail) (get_tlv_indices 0) = 0 \/
   exists v0, old = enc_entry (extension_type_u16 ty) v0) ->
  P (extension_type_u16 ty, v) -> clean P (tlv_data st) -> clean P (tlv_data (put v)).
Proof.
  intros Hp Hv Ho HP (es0 & k & Hes0 & HP0 & E).
  destruct (place_holds ty n st put es old tail es0 v Hp Hv Ho) as (Hes1 & j & E1); [by split; [|exists k]|].
  exists (set_entry (extension_type_u16 ty) v es0), j. split; [done|]. split; [|done].
  by apply Forall_set_entry.
Qed.

Lemma clean_put_mut P V `{Pod V, Extension V} (st : PodStateMut S) v put v' :
  get_extension_mut V st = Ok (v, put) -> P (extension_type_u16 (TYPE V), to_bytes v') ->
  clean P (tlv_data st) -> clean P (tlv_data (put v')).
Proof.
  intros (_ & es & tail & p & Hp & E)%get_extension_mut_place. rewrite E.
  eapply clean_place; eauto using length_to_bytes.
Qed.

Lemma clean_put_init P V `{Pod V, Extension V} ow (st : PodStateMut S) v put v' :
  init_extension V ow st = Ok (v, put) -> P (extension_type_u16 (TYPE V), to_bytes v') ->
  clean P (tlv_data st) -> clean P (tlv_data (put v')).
Proof.
  intros (_ & es & old & tail & p & Hp & E & Ho)%init_extension_place. rewrite E.
  eapply clean_place; eauto using length_to_bytes.
Qed.

Lemma zeros_lookup ty n v : get_extension_bytes S ty (replicate n x00) <> Ok v.
Proof.
  intros Hj. pose proof Hj as (Ha & es' & tail & Hes' & _ & Hl & E & _)%get_extension_bytes_inv.
  apply get_account_type_nonzero in Ha.
  apply (clean_split [] es' (extension_type_u16 ty, v)) in E as (es'' & E & _); [|done..].
  by destruct es'.
Qed.

(** Allocating an extension uncovers no other one. *)
Lemma clean_put_init_other P V W `{Pod V, Extension V, Pod W, Extension W} ow
    (st : PodStateMut S) v put v' x :
  clean P (tlv_data st) -> init_extension V ow st = Ok (v, put) -> TYPE W <> TYPE V ->
  get_extension W (put v') = Ok x <-> get_extension W st = Ok x.
Proof.
  intros (es0 & k & Hes0 & _ & E0) (_ & es & old & tail & p & Hp & E & Ho)%init_extension_place Hne.
  rewrite E, !get_extension_Ok. change (@get_tlv_data PodStateMut _ S) with (@tlv_data S).
  destruct Ho as [Hz|[v0 ->]]; [|by erewrite place_other; eauto using length_to_bytes].
  pose proof Hp as (Ha & Hes & _ & Hn & Hl & Et & Hput). rewrite Hput by apply length_to_bytes.
  cbn [tlv_data with_tlv_data]. rewrite Et in E0 |- *. symmetry in E0.
  apply clean_end in E0 as [-> E0]; [|done|done|rewrite length_app; lia|done]. rewrite E0.
  assert (tail = replicate (length tail) x00) as Etail.
  { apply (f_equal (drop (length old))) in E0. rewrite drop_app_length, drop_replicate in E0.
    by rewrite E0, length_replicate. }
  apply get_account_type_nonzero in Ha. clear Hl Et Hput Hp E0 Hz.
  induction Hes as [|[t b] es He Hes IH].
  - change (tlv_encode []) with (@nil byte). rewrite !app_nil_l, get_extension_bytes_cons
      by (split; simpl; rewrite ?length_to_bytes; lia).
    rewrite Etail. cbn [fst]. rewrite (proj2 (Z.eqb_neq _ _)), andb_false_r.
    + split; intros Hx; by apply zeros_lookup in Hx.
    + intros Ex. by apply extension_type_u16_inj in Ex.
  - inversion Hes0 as [|? ? _ Hes0']; subst. specialize (IH Hes0').
    rewrite !tlv_encode_cons, <- !app_assoc, !get_extension_bytes_cons by done.
    by destruct (_ && _).
Qed.

(** Growing by zeros changes no lookup. *)
Lemma clean_grow_lookup P ty t n v :
  clean P t -> get_extension_bytes S ty (t ++ replicate n x00) = Ok v <->
               get_extension_bytes S ty t = Ok v.
Proof.
  intros (es & k & Hes & _ & ->). rewrite <- app_assoc, <- replicate_add.
  induction Hes as [|[t v0] es He Hes IH].
  - change (tlv_encode []) with (@nil byte). rewrite !app_nil_l. split; intros Hg; by apply zeros_lookup in Hg.
  - rewrite !tlv_encode_cons, <- !app_assoc, !get_extension_bytes_cons by done.
    by destruct (_ && _).
Qed.

Lemma clean_grow_extension {St St'} `{BaseStateWithExtensions St, BaseStateWithExtensions St'}
    P V `{Pod V, Extension V} (st : St S) (st' : St' S) n v :
  clean P (get_tlv_data st) -> get_tlv_data st' = get_tlv_data st ++ replicate n x00 ->
  get_extension V st' = Ok v <-> get_extension V st = Ok v.
Proof. intros Hc E. rewrite !get_extension_Ok, E. by eapply clean_grow_lookup. Qed.
End views.

(** ** What the views promise

    The contract of [PodStateWithExtensions] and [PodStateWithExtensionsMut]:
    unpacking and writing back are inverse, the read-only view reads what the
    mutable one does, and an extension is a cell of its own. *)

(** The views are exactly the well-formed buffers: unpacking an initialized
    state succeeds on the bytes of a well-formed view and on nothing else, and
    the view's slices put together are the buffer it came from; the same holds
    of an uninitialized state with no account type yet; and the read-only view
    succeeds, fails with the same error, and reads the same base and extension
    data as the mutable one. *)
Theorem unpack_spec (S : Type) `{BaseState S} d :
  (forall st, unpack_mut S d = Ok st <->
     d = repack st /\ is_initialized (base st) = true /\ well_formed (ACCOUNT_TYPE S) st) /\
  (forall st, unpack_uninitialized S d = Ok st <->
     d = repack st /\ is_initialized (base st) = false /\
     well_formed AccountType.Uninitialized st /\
     check_account_type_matches_extension_type S st = Ok tt) /\
  unpack S d = (fun st => mk_state (base st) (tlv_data st)) <$> unpack_mut S d.
Proof.
  split; [intros; apply unpack_mut_Ok|]. split; [intros; apply unpack_uninitialized_Ok|].
  apply unpack_unpack_mut.
Qed.

(** a reference to an extension reads and writes that extension alone: after
    writing [v'] the extension reads [v'], every other extension reads what it
    did, the rest of the buffer has the same base, padding, account type and
    length, and writing the value it read changes nothing. *)
Theorem extension_write_spec {S} `{BaseState S} V W `{Pod V, Extension V, Pod W, Extension W}
    (st : PodStateMut S) v put v' :
  get_extension_mut V st = Ok (v, put) ->
  get_extension V st = Ok v /\ put v = st /\ get_extension V (put v') = Ok v' /\
  (TYPE W <> TYPE V -> get_extension W (put v') = get_extension W st) /\
  same_shape st (put v') /\ length (repack (put v')) = length (repack st).
Proof.
  intros Hg. pose proof (put_mut_same_shape _ _ _ _ v' Hg) as Hs.
  pose proof Hg as (Hv & es & tail & p & Hp & E)%get_extension_mut_place.
  split; [done|]. split.
  { destruct Hp as (_ & _ & _ & _ & _ & Ht & Hp). rewrite E, Hp by apply length_to_bytes.
    rewrite <- Ht. apply with_tlv_data_id. }
  split; [by eapply get_put_mut|]. split; [intros; by eapply get_put_mut_other|].
  split; [done|by apply same_shape_length].
Qed.

(** initialising an extension gives its default value, a reference to it, and
    keeps what the other extensions of the state read; the buffer keeps its
    base, padding, account type and length. *)
Theorem extension_init_spec {S} `{BaseState S} V W `{Pod V, Extension V, Pod W, Extension W} ow
    (st : PodStateMut S) v put v' x :
  init_extension V ow st = Ok (v, put) ->
  TYPE W <> TYPE V -> get_extension W st = Ok x ->
  v = pod_default V /\ get_extension V (put v') = Ok v' /\ get_extension W (put v') = Ok x /\
  same_shape st (put v') /\ length (repack (put v')) = length (repack st).
Proof.
  intros Hi Hne Hx. pose proof (put_init_same_shape _ _ _ _ _ v' Hi) as Hs.
  split; [by apply init_extension_place in Hi as [? _]|]. split; [by eapply get_put_init|].
  split; [by eapply get_put_init_other|]. split; [done|by apply same_shape_length].
Qed.
