(* ===== verification/AccountLen.v ===== *)
(** * Account lengths and the extensions a token account must have

    [interface/src/extension/account_len.rs] with the parts of
    [interface/src/extension/mod.rs] that relate mint extensions to account
    extensions: the allocation-free length accumulator, the extensions
    [InitializeAccount] must create, the mint extensions that exclude each
    other, and [set_account_type]. *)
From S2P Require Import Prelude Bytes Errors Ids Runtime Pod ExtensionState Extension TlvTheory.

(** ** [TlvLenAccumulator] *)

Record TlvLenAccumulator : Type := mk_acc {
  seen : Z;
  byte_count : nat
}.

Definition acc_default : TlvLenAccumulator := mk_acc 0 0.

Definition bit (extension_type : ExtensionType) : Z :=
  Z.shiftl 1 (extension_type_u16 extension_type).

Definition acc_insert (extension_type : ExtensionType) (acc : TlvLenAccumulator)
    : Result ProgramError TlvLenAccumulator :=
  if Z.land (seen acc) (bit extension_type) =? 0 then
    len ← try_get_tlv_len extension_type;
    mret (mk_acc (Z.lor (seen acc) (bit extension_type)) (byte_count acc + len))
  else mret acc.

Definition acc_account_len (S : Type) `{BaseState S} (acc : TlvLenAccumulator) : nat :=
  if seen acc =? 0 then size_of S
  else adjust_len_for_multisig (byte_count acc + BASE_ACCOUNT_AND_TYPE_LENGTH).

(** [for &t in types { acc.insert(t)?; }]. *)
Fixpoint acc_insert_all (types : list ExtensionType) (acc : TlvLenAccumulator)
    : Result ProgramError TlvLenAccumulator :=
  match types with
  | [] => mret acc
  | t :: types => acc ← acc_insert t acc; acc_insert_all types acc
  end.

(** [ExtensionType::try_calculate_account_len::<S>]. *)
Definition try_calculate_account_len (S : Type) `{BaseState S} (extension_types : list ExtensionType)
    : Result ProgramError nat :=
  tlv_len ← acc_insert_all extension_types acc_default;
  mret (acc_account_len S tlv_len).

(** ** Extensions required on the accounts of a mint *)

Definition required_init_account_extensions (t : ExtensionType) : list ExtensionType :=
  match t with
  | ExtensionType.TransferFeeConfig => [ExtensionType.TransferFeeAmount]
  | ExtensionType.NonTransferable =>
      [ExtensionType.NonTransferableAccount; ExtensionType.ImmutableOwner]
  | ExtensionType.TransferHook => [ExtensionType.TransferHookAccount]
  | ExtensionType.Pausable => [ExtensionType.PausableAccount]
  | _ => []
  end.

(** [for &t in types { f(t)?; }], over the closure's state. *)
Fixpoint try_for_each {A} (types : list ExtensionType)
    (f : ExtensionType -> A -> Result ProgramError A) (acc : A) : Result ProgramError A :=
  match types with
  | [] => mret acc
  | t :: types => acc ← f t acc; try_for_each types f acc
  end.

Definition try_for_each_required_init_account_extension {A} (mint_tlv_data : list byte)
    (f : ExtensionType -> A -> Result ProgramError A) (acc : A) : Result ProgramError A :=
  fst <$> try_for_each_tlv_extension_type mint_tlv_data
    (fun mint_extension_type => try_for_each (required_init_account_extensions mint_extension_type) f)
    acc.

Definition get_required_init_account_extensions (mint_extension_types : list ExtensionType)
    : list ExtensionType :=
  mint_extension_types ≫= required_init_account_extensions.

Definition try_calculate_account_len_from_mint_data (mint_data : list byte)
    (additional_account_extensions : list ExtensionType) : Result ProgramError nat :=
  if existsb (fun t => negb (bool_decide (get_account_type t = AccountType.Account)))
       additional_account_extensions
  then fail TokenError.ExtensionTypeMismatch
  else
    state ← map_err (fun _ => token_error_into TokenError.InvalidMint) (unpack PodMint mint_data);
    tlv_len ← try_for_each_required_init_account_extension (get_tlv_data (St := PodState) state) acc_insert acc_default;
    tlv_len ← acc_insert_all additional_account_extensions tlv_len;
    mret (acc_account_len PodAccount tlv_len).

(** ** Mint extensions that exclude each other *)

Definition has (t : ExtensionType) (l : list ExtensionType) : bool :=
  bool_decide (t ∈ l).

Definition check_for_invalid_mint_extension_combinations (l : list ExtensionType)
    : Result TokenError unit :=
  let transfer_fee_config := has ExtensionType.TransferFeeConfig l in
  let confidential_transfer_mint := has ExtensionType.ConfidentialTransferMint l in
  let confidential_transfer_fee_config := has ExtensionType.ConfidentialTransferFeeConfig l in
  let confidential_mint_burn := has ExtensionType.ConfidentialMintBurn l in
  let interest_bearing := has ExtensionType.InterestBearingConfig l in
  let scaled_ui_amount := has ExtensionType.ScaledUiAmount l in
  let non_transferable := has ExtensionType.NonTransferable l in
  _ ← err_if (confidential_transfer_fee_config &&
              negb (transfer_fee_config && confidential_transfer_mint))
        TokenError.InvalidExtensionCombination;
  _ ← err_if (transfer_fee_config && confidential_transfer_mint &&
              negb confidential_transfer_fee_config)
        TokenError.InvalidExtensionCombination;
  _ ← err_if (confidential_mint_burn && negb confidential_transfer_mint)
        TokenError.InvalidExtensionCombination;
  _ ← err_if (scaled_ui_amount && interest_bearing) TokenError.InvalidExtensionCombination;
  err_if (non_transferable && confidential_transfer_mint && negb confidential_mint_burn)
    TokenError.InvalidExtensionCombination.

(** ** [set_account_type] *)

(** [is_initialized_account]: the raw state byte of the base is not zero. *)
Definition ACCOUNT_INITIALIZED_INDEX : nat := 108.
Definition is_initialized_account (input : list byte) : Result ProgramError bool :=
  if negb (length input =? BASE_ACCOUNT_LENGTH)%nat then Err ProgramError.InvalidAccountData
  else match input !! ACCOUNT_INITIALIZED_INDEX with
  | Some b => Ok (negb (bool_decide (b = x00)))
  | None => Panic
  end.

(** The buffer after [set_account_type::<S>]. *)
Definition set_account_type (S : Type) `{BaseState S} (input : list byte)
    : Result ProgramError (list byte) :=
  _ ← check_min_len_and_not_multisig input (size_of S);
  let base_data := take (size_of S) input in
  let rest := drop (size_of S) input in
  _ ← (if bool_decide (ACCOUNT_TYPE S = AccountType.Account) then
         initialized ← is_initialized_account base_data;
         fail_if (negb initialized) ProgramError.InvalidAccountData
       else mret tt);
  indices ← type_and_tlv_indices S rest;
  match indices with
  | Some (account_type_index, _) =>
      account_type ← account_type_at rest account_type_index;
      let fresh := bool_decide (account_type = AccountType.Uninitialized) in
      let rest := if fresh
        then splice rest account_type_index [account_type_u8 (ACCOUNT_TYPE S)] else rest in
      _ ← check_account_type S (if fresh then ACCOUNT_TYPE S else account_type);
      mret (base_data ++ rest)
  | None => Err ProgramError.InvalidAccountData
  end.

(** ** The accumulator sums over the set of types *)

Definition tlv_size (t : ExtensionType) : nat := default 0%nat (ok (try_get_tlv_len t)).

(** Each distinct type of [ts], counted once. *)
Definition set_size (ts : list ExtensionType) : nat :=
  sum_list_with tlv_size (filter (fun t => t ∈ ts) all_extension_types).

Definition account_len_spec (S : Type) `{BaseState S} (ts : list ExtensionType) : nat :=
  match ts with
  | [] => size_of S
  | _ => adjust_len_for_multisig (set_size ts + BASE_ACCOUNT_AND_TYPE_LENGTH)
  end.

(** The accumulator holds exactly the types [ts]. *)
Definition acc_holds (ts : list ExtensionType) (acc : TlvLenAccumulator) : Prop :=
  (forall n, Z.testbit (seen acc) n = existsb (fun t => extension_type_u16 t =? n) ts) /\
  byte_count acc = set_size ts.

Lemma all_extension_types_NoDup : NoDup all_extension_types.
Proof. refine (bool_decide_unpack _ _). vm_compute. exact I. Qed.

Lemma elem_of_all_extension_types t : t ∈ all_extension_types.
Proof. refine (bool_decide_unpack _ _). by destruct t; vm_compute. Qed.

Lemma filter_cons_not_in (t : ExtensionType) ts (l : list ExtensionType) :
  t ∉ l -> filter (fun u => u ∈ t :: ts) l = filter (fun u => u ∈ ts) l.
Proof.
  induction l as [|u l IH]; intros Ht; [done|]. rewrite !filter_cons, IH by set_solver.
  apply not_elem_of_cons in Ht as [Ht _].
  destruct (decide (u ∈ t :: ts)) as [Hc|Hc], (decide (u ∈ ts)); rewrite elem_of_cons in Hc; intuition congruence.
Qed.

Lemma sum_filter_cons (t : ExtensionType) ts (l : list ExtensionType) :
  NoDup l -> t ∈ l -> t ∉ ts ->
  sum_list_with tlv_size (filter (fun u => u ∈ t :: ts) l) =
  (tlv_size t + sum_list_with tlv_size (filter (fun u => u ∈ ts) l))%nat.
Proof.
  intros Hnd. induction Hnd as [|u l Hu Hnd IH]; intros Hin Ht; [by apply not_elem_of_nil in Hin|].
  rewrite !filter_cons. apply elem_of_cons in Hin as [<-|Hin].
  - rewrite decide_True by set_solver. rewrite decide_False by done. simpl.
    by rewrite filter_cons_not_in.
  - assert (u <> t) by congruence.
    destruct (decide (u ∈ t :: ts)) as [Hc|Hc], (decide (u ∈ ts)); rewrite elem_of_cons in Hc;
      simpl; rewrite ?IH by done; solve [lia|intuition congruence].
Qed.

Lemma set_size_cons t ts : t ∉ ts -> set_size (t :: ts) = (tlv_size t + set_size ts)%nat.
Proof.
  intros. apply sum_filter_cons; auto using all_extension_types_NoDup, elem_of_all_extension_types.
Qed.

Lemma set_size_proper ts us : (forall t, t ∈ ts <-> t ∈ us) -> set_size ts = set_size us.
Proof. intros E. unfold set_size. f_equal. by apply list_filter_iff. Qed.

Lemma testbit_bit t n : 0 <= n -> Z.testbit (bit t) n = (extension_type_u16 t =? n).
Proof.
  intros. unfold bit. rewrite Z.shiftl_1_l. pose proof (extension_type_u16_range t).
  by rewrite Z.pow2_bits_eqb by lia.
Qed.

Lemma seen_bit acc t :
  (Z.land (seen acc) (bit t) =? 0) = negb (Z.testbit (seen acc) (extension_type_u16 t)).
Proof.
  pose proof (extension_type_u16_range t) as Hr. apply eq_true_iff_eq.
  rewrite Z.eqb_eq, negb_true_iff. split; intros E.
  - assert (Z.testbit (Z.land (seen acc) (bit t)) (extension_type_u16 t) = false) as Hb
      by by rewrite E, Z.bits_0.
    by rewrite Z.land_spec, testbit_bit, Z.eqb_refl, andb_true_r in Hb by lia.
  - apply Z.bits_inj'. intros n Hn. rewrite Z.bits_0, Z.land_spec, testbit_bit by done.
    destruct (Z.eqb_spec (extension_type_u16 t) n) as [<-|]; [by rewrite E|apply andb_false_r].
Qed.

Lemma acc_holds_testbit ts acc t :
  acc_holds ts acc -> Z.testbit (seen acc) (extension_type_u16 t) = true <-> t ∈ ts.
Proof.
  intros [Hs _]. rewrite Hs, existsb_exists. setoid_rewrite <- list_elem_of_In.
  setoid_rewrite Z.eqb_eq. split.
  - intros (u & Hu & E). by apply extension_type_u16_inj in E as ->.
  - intros. by exists t.
Qed.

Lemma acc_holds_default : acc_holds [] acc_default.
Proof. split; [intros n; apply Z.bits_0|reflexivity]. Qed.

Lemma acc_holds_seen ts acc : acc_holds ts acc -> seen acc = 0 <-> ts = [].
Proof.
  intros Hh. split.
  - intros E. destruct ts as [|t ts]; [done|].
    pose proof (acc_holds_testbit _ _ t Hh) as [_ Ht]. rewrite E, Z.bits_0 in Ht.
    discriminate Ht. constructor.
  - intros ->. destruct Hh as [Hs _]. apply Z.bits_inj. intros n. by rewrite Z.bits_0, Hs.
Qed.

Lemma try_get_tlv_len_sized t : sized t = true -> try_get_tlv_len t = Ok (tlv_size t).
Proof. by destruct t. Qed.

Lemma acc_insert_holds ts acc t :
  acc_holds ts acc -> sized t = true ->
  exists acc', acc_insert t acc = Ok acc' /\ acc_holds (t :: ts) acc'.
Proof.
  intros Hh Hs. unfold acc_insert. rewrite seen_bit.
  destruct (Z.testbit _ _) eqn:E; cbn [negb].
  - apply (acc_holds_testbit _ _ _ Hh) in E. eexists. split; [done|].
    destruct Hh as [Hb Hc]. split.
    + intros n. rewrite Hb. simpl. destruct (Z.eqb_spec (extension_type_u16 t) n) as [<-|]; [|done].
      apply existsb_exists. exists t. rewrite <- list_elem_of_In, Z.eqb_refl. done.
    + rewrite Hc. apply set_size_proper. set_solver.
  - assert (t ∉ ts) as Ht.
    { intros Hin. apply (acc_holds_testbit _ _ _ Hh) in Hin. congruence. }
    rewrite try_get_tlv_len_sized by done. cbn [mbind Result_bind]. eexists. split; [done|].
    destruct Hh as [Hb Hc]. split; simpl.
    + intros n. rewrite Z.lor_spec, Hb. destruct (Z.le_gt_cases 0 n).
      * rewrite testbit_bit by done. apply orb_comm.
      * pose proof (extension_type_u16_range t).
        rewrite (proj2 (Z.eqb_neq _ n)) by lia.
        rewrite <- Hb, Z.testbit_neg_r by done. by rewrite Z.testbit_neg_r.
    + rewrite set_size_cons, Hc by done. lia.
Qed.

Lemma acc_insert_all_holds us ts acc :
  acc_holds ts acc -> forallb sized us = true ->
  exists acc', acc_insert_all us acc = Ok acc' /\ acc_holds (rev us ++ ts) acc'.
Proof.
  revert ts acc. induction us as [|u us IH]; intros ts acc Hh Hs; simpl in *; [eauto|].
  apply andb_true_iff in Hs as [Hu Hs].
  destruct (acc_insert_holds ts acc u Hh Hu) as (acc' & -> & Hh'). cbn [mbind Result_bind].
  rewrite <- app_assoc. by apply IH.
Qed.

Lemma acc_insert_unsized acc t ts :
  acc_holds ts acc -> forallb sized ts = true -> sized t = false ->
  acc_insert t acc = Err ProgramError.InvalidArgument.
Proof.
  intros Hh Hts Hs. unfold acc_insert. rewrite seen_bit.
  destruct (Z.testbit _ _) eqn:E; cbn [negb].
  - apply (acc_holds_testbit _ _ _ Hh), list_elem_of_In in E.
    rewrite forallb_forall in Hts. apply Hts in E. congruence.
  - unfold try_get_tlv_len, try_get_type_len. by rewrite Hs.
Qed.

Lemma acc_insert_all_unsized us ts acc :
  acc_holds ts acc -> forallb sized ts = true -> forallb sized us = false ->
  acc_insert_all us acc = Err ProgramError.InvalidArgument.
Proof.
  revert ts acc. induction us as [|u us IH]; intros ts acc Hh Hts Hs; simpl in *; [done|].
  destruct (sized u) eqn:Hu.
  - destruct (acc_insert_holds ts acc u Hh Hu) as (acc' & -> & Hh'). cbn [mbind Result_bind].
    apply (IH (u :: ts)); [done| |done]. simpl. by rewrite Hu.
  - by rewrite (acc_insert_unsized acc u ts).
Qed.

Lemma acc_account_len_spec (S : Type) `{BaseState S} ts acc :
  acc_holds ts acc -> acc_account_len S acc = account_len_spec S ts.
Proof.
  intros Hh. unfold acc_account_len. pose proof (acc_holds_seen _ _ Hh) as Hs.
  destruct ts as [|t ts]; simpl.
  - by rewrite (proj2 Hs).
  - rewrite (proj2 (Z.eqb_neq _ _)) by (intros E; by apply Hs in E).
    by destruct Hh as [_ ->].
Qed.

(** ** The walk with a closure is the walk that collects the types *)

Lemma try_for_each_from_collect {A} fuel tlv (f : ExtensionType -> A -> Result ProgramError A)
    (g : ExtensionType -> A -> A) acc ts s :
  (forall t a, f t a = Ok (g t a)) ->
  try_for_each_from fuel tlv f (foldl (fun a t => g t a) acc ts) s =
  (fun p => (foldl (fun a t => g t a) acc p.1, p.2)) <$>
    try_for_each_from fuel tlv (fun t ts => Ok (ts ++ [t])) ts s.
Proof.
  intros Hf. revert ts s. induction fuel as [|fuel IH]; intros ts s; [done|].
  rewrite !try_for_each_turn. destruct (s <? length tlv)%nat; [|done].
  destruct (_ <? length_start _)%nat; [done|].
  destruct (extension_type_try_from_slice _) as [t| |]; [|done..]. cbn [mbind Result_bind].
  case_decide; [done|]. destruct (_ <? value_start _)%nat; [done|].
  destruct (_ <? _)%nat; [done|]. rewrite Hf. cbn [mbind Result_bind].
  rewrite <- IH, foldl_app. done.
Qed.

(** The required extensions are all sized, so inserting them cannot fail. *)
Definition acc_insert_required (t : ExtensionType) (acc : TlvLenAccumulator) : TlvLenAccumulator :=
  default acc (ok (acc_insert_all (required_init_account_extensions t) acc)).

Lemma try_for_each_acc_insert ts acc : try_for_each ts acc_insert acc = acc_insert_all ts acc.
Proof.
  revert acc. induction ts as [|t ts IH]; intros acc; simpl; [done|].
  destruct (acc_insert t acc); [apply IH|done..].
Qed.

Lemma acc_insert_sized acc t : sized t = true -> exists acc', acc_insert t acc = Ok acc'.
Proof.
  intros Hs. unfold acc_insert. case_match; [|eauto].
  rewrite try_get_tlv_len_sized by done. cbn. eauto.
Qed.

Lemma acc_insert_all_required t acc :
  acc_insert_all (required_init_account_extensions t) acc = Ok (acc_insert_required t acc).
Proof.
  unfold acc_insert_required.
  assert (forallb sized (required_init_account_extensions t) = true) as Hs by by destruct t.
  revert acc Hs. generalize (required_init_account_extensions t) as ts.
  induction ts as [|u ts IH]; intros acc Hs; simpl in *; [done|].
  apply andb_true_iff in Hs as [Hu Hs]. destruct (acc_insert_sized acc u Hu) as [acc' ->].
  cbn [mbind Result_bind]. rewrite (IH acc' Hs). done.
Qed.

Lemma acc_insert_all_app us ts acc :
  acc_insert_all (us ++ ts) acc = (acc ← acc_insert_all us acc; acc_insert_all ts acc).
Proof.
  revert acc. induction us as [|u us IH]; intros acc; simpl; [done|].
  destruct (acc_insert u acc); [|done..]. apply IH.
Qed.

Lemma acc_insert_all_get_required ts acc :
  acc_insert_all (get_required_init_account_extensions ts) acc =
  Ok (foldl (fun a t => acc_insert_required t a) acc ts).
Proof.
  revert acc. induction ts as [|t ts IH]; intros acc; [done|].
  unfold get_required_init_account_extensions. rewrite bind_cons, acc_insert_all_app.
  rewrite acc_insert_all_required. cbn [mbind Result_bind foldl]. apply IH.
Qed.

Lemma try_for_each_required_collect tlv acc :
  try_for_each_required_init_account_extension tlv acc_insert acc =
  (info ← get_tlv_data_info tlv;
   acc_insert_all (get_required_init_account_extensions (extension_types info)) acc).
Proof.
  unfold try_for_each_required_init_account_extension, get_tlv_data_info,
    try_for_each_tlv_extension_type.
  pose proof (try_for_each_from_collect (S (length tlv)) tlv
    (fun t => try_for_each (required_init_account_extensions t) acc_insert)
    acc_insert_required acc [] 0) as E. simpl foldl at 1 in E. rewrite E.
  - clear E. destruct (try_for_each_from _ _ _ _ _) as [[ts n]| |]; [|done..].
    cbn [fmap Result_fmap mbind Result_bind fst snd]. unfold mret, Result_ret.
    cbn [mbind Result_bind extension_types]. by rewrite acc_insert_all_get_required.
  - intros t a. rewrite try_for_each_acc_insert. apply acc_insert_all_required.
Qed.

(** ** Properties *)

(** the bitset accumulator computes the length of the account that holds
    each requested extension once, whatever their order and repetitions, and
    refuses exactly the lists with a variable-length type; no account length
    it gives is the length of a multisig. *)
Theorem try_calculate_account_len_spec (S : Type) `{BaseState S} ts :
  try_calculate_account_len S ts =
    (if forallb sized ts then Ok (account_len_spec S ts) else Err ProgramError.InvalidArgument) /\
  (size_of S <> Multisig_LEN -> account_len_spec S ts <> Multisig_LEN) /\
  (forall us, us <> [] -> ts <> [] -> (forall t, t ∈ ts <-> t ∈ us) ->
     try_calculate_account_len S ts = try_calculate_account_len S us).
Proof.
  assert (forall us, try_calculate_account_len S us =
    if forallb sized us then Ok (account_len_spec S us) else Err ProgramError.InvalidArgument)
    as Hspec.
  { intros us. unfold try_calculate_account_len. destruct (forallb sized us) eqn:Hs.
    - destruct (acc_insert_all_holds us [] acc_default acc_holds_default Hs) as (acc & -> & Hh).
      cbn [mbind Result_bind]. rewrite app_nil_r in Hh. unfold mret, Result_ret. f_equal.
      rewrite (acc_account_len_spec S _ _ Hh). unfold account_len_spec.
      destruct us as [|u us]; [done|]. simpl rev.
      destruct (rev us ++ [u]) as [|v vs] eqn:E; [by destruct (rev us)|]. rewrite <- E.
      do 2 f_equal. apply set_size_proper. intros t.
      rewrite elem_of_app, elem_of_cons, !list_elem_of_In, <- in_rev. simpl. set_solver.
    - by rewrite (acc_insert_all_unsized us [] acc_default acc_holds_default). }
  split; [apply Hspec|]. split.
  - intros HS. unfold account_len_spec. destruct ts; [done|]. unfold adjust_len_for_multisig.
    destruct (Nat.eqb_spec (set_size (e :: ts) + BASE_ACCOUNT_AND_TYPE_LENGTH) Multisig_LEN);
      [rewrite e0; unfold EXT_TYPE_SIZE; lia|done].
  - intros us Hu Ht E. rewrite !Hspec.
    assert (forallb sized ts = forallb sized us) as ->.
    { apply eq_true_iff_eq. rewrite !forallb_forall. setoid_rewrite <- list_elem_of_In.
      split; intros Hall t Hin; apply Hall, E, Hin. }
    destruct ts, us; [done..|]. unfold account_len_spec. by rewrite (set_size_proper _ _ E).
Qed.

Lemma try_calculate_account_len_spec_witness :
  try_calculate_account_len PodAccount
    [ExtensionType.ImmutableOwner; ExtensionType.TransferFeeAmount; ExtensionType.ImmutableOwner] =
  Ok 182%nat.
Proof.
  rewrite (proj2 (proj2 (try_calculate_account_len_spec PodAccount _))
    [ExtensionType.TransferFeeAmount; ExtensionType.ImmutableOwner]);
    [vm_compute; reflexivity|discriminate|discriminate|set_solver].
Defined.

(** the allocation-free length of a token account of a mint equals the
    length computed from the collected lists: the extensions the mint's own
    require, then the additional ones, each counted once. *)
Theorem try_calculate_account_len_from_mint_data_spec mint_data additional state :
  forallb (fun t => bool_decide (get_account_type t = AccountType.Account)) additional = true ->
  unpack PodMint mint_data = Ok state ->
  try_calculate_account_len_from_mint_data mint_data additional =
  (info ← get_tlv_data_info (state_tlv_data state);
   try_calculate_account_len PodAccount
     (get_required_init_account_extensions (extension_types info) ++ additional)).
Proof.
  intros Ha Hu. unfold try_calculate_account_len_from_mint_data.
  assert (existsb (fun t => negb (bool_decide (get_account_type t = AccountType.Account)))
    additional = false) as ->.
  { clear Hu. induction additional as [|t ts IH]; simpl in *; [done|].
    apply andb_true_iff in Ha as [-> Ha]. by rewrite IH. }
  rewrite Hu. cbn [map_err mbind Result_bind].
  change (get_tlv_data state) with (state_tlv_data state). rewrite try_for_each_required_collect.
  destruct (get_tlv_data_info _) as [info| |]; [|done..]. cbn [mbind Result_bind].
  unfold try_calculate_account_len. rewrite acc_insert_all_app.
  by destruct (acc_insert_all _ acc_default).
Qed.

(** A mint with a transfer-fee configuration. *)
Definition example_fee_mint : list byte :=
  replicate 45 x00 ++ [x01] ++ replicate 36 x00 ++ replicate 83 x00 ++ [x01] ++
  enc_entry 1 (replicate 108 x00).

Definition example_fee_mint_state : PodState PodMint :=
  mk_state (from_bytes (replicate 45 x00 ++ [x01] ++ replicate 36 x00))
    (enc_entry 1 (replicate 108 x00)).

Lemma try_calculate_account_len_from_mint_data_spec_witness :
  try_calculate_account_len_from_mint_data example_fee_mint [ExtensionType.MemoTransfer] = Ok 183%nat.
Proof.
  rewrite (try_calculate_account_len_from_mint_data_spec _ _ example_fee_mint_state);
    vm_compute; reflexivity.
Defined.

(** The mint extensions [InitializeMint] accepts: a transfer-fee and a
    confidential-transfer extension on one mint need the confidential-fee
    extension, which needs both; confidential mint-burn needs confidential
    transfers; non-transferable confidential mints need confidential mint-burn;
    an interest-bearing mint has no scaled amounts. *)
Theorem check_for_invalid_mint_extension_combinations_spec l :
  check_for_invalid_mint_extension_combinations l = Ok tt <->
  (ExtensionType.ConfidentialTransferMint ∈ l ->
     (ExtensionType.ConfidentialTransferFeeConfig ∈ l <-> ExtensionType.TransferFeeConfig ∈ l) /\
     (ExtensionType.NonTransferable ∈ l -> ExtensionType.ConfidentialMintBurn ∈ l)) /\
  (ExtensionType.ConfidentialTransferFeeConfig ∈ l \/ ExtensionType.ConfidentialMintBurn ∈ l ->
     ExtensionType.ConfidentialTransferMint ∈ l) /\
  ~ (ExtensionType.ScaledUiAmount ∈ l /\ ExtensionType.InterestBearingConfig ∈ l).
Proof.
  unfold check_for_invalid_mint_extension_combinations, has.
  repeat case_bool_decide; cbn; split; try done; try tauto; intros; naive_solver.
Qed.
