(* ===== verification/TransferFee.v ===== *)
(** * Transfer-fee arithmetic

    [interface/src/extension/transfer_fee/mod.rs]: the fee of a transfer, the
    amounts before and after it, and the choice of the epoch's fee.  The
    intermediate products are [u128]; every conversion of the code is checked
    here as it is there. *)
From S2P Require Import Prelude Bytes Errors Ids Runtime Pod ExtensionState.

Definition MAX_FEE_BASIS_POINTS : Z := 10000.
Definition ONE_IN_BASIS_POINTS : Z := MAX_FEE_BASIS_POINTS.

(** [TransferFee::ceil_div]. *)
Definition ceil_div (numerator denominator : Z) : option Z :=
  a ← u128_checked_add numerator denominator;
  b ← u128_checked_sub a 1;
  u128_checked_div b denominator.

Definition calculate_fee (f : TransferFee) (pre_fee_amount : Z) : option Z :=
  let transfer_fee_basis_points := u16_get (tf_transfer_fee_basis_points f) in
  if (transfer_fee_basis_points =? 0) || (pre_fee_amount =? 0) then Some 0
  else
    numerator ← u128_checked_mul pre_fee_amount transfer_fee_basis_points;
    quotient ← ceil_div numerator ONE_IN_BASIS_POINTS;
    raw_fee ← u64_try_from quotient;
    Some (Z.min raw_fee (u64_get (tf_maximum_fee f))).

Definition calculate_post_fee_amount (f : TransferFee) (pre_fee_amount : Z) : option Z :=
  fee ← calculate_fee f pre_fee_amount;
  u64_checked_sub pre_fee_amount fee.

Definition calculate_pre_fee_amount (f : TransferFee) (post_fee_amount : Z) : option Z :=
  let maximum_fee := u64_get (tf_maximum_fee f) in
  let transfer_fee_basis_points := u16_get (tf_transfer_fee_basis_points f) in
  if transfer_fee_basis_points =? 0 then Some post_fee_amount
  else if post_fee_amount =? 0 then Some 0
  else if transfer_fee_basis_points =? ONE_IN_BASIS_POINTS
  then u64_checked_add maximum_fee post_fee_amount
  else
    numerator ← u128_checked_mul post_fee_amount ONE_IN_BASIS_POINTS;
    denominator ← u128_checked_sub ONE_IN_BASIS_POINTS transfer_fee_basis_points;
    raw_pre_fee_amount ← ceil_div numerator denominator;
    raw_fee ← u128_checked_sub raw_pre_fee_amount post_fee_amount;
    if maximum_fee <=? raw_fee then u64_checked_add post_fee_amount maximum_fee
    else u64_try_from raw_pre_fee_amount.

Definition calculate_inverse_fee (f : TransferFee) (post_fee_amount : Z) : option Z :=
  pre_fee_amount ← calculate_pre_fee_amount f post_fee_amount;
  calculate_fee f pre_fee_amount.

Definition get_epoch_fee (c : TransferFeeConfig) (epoch : Z) : TransferFee :=
  if u64_get (tf_epoch (tfc_newer_transfer_fee c)) <=? epoch
  then tfc_newer_transfer_fee c else tfc_older_transfer_fee c.

Definition calculate_epoch_fee (c : TransferFeeConfig) (epoch pre_fee_amount : Z) : option Z :=
  calculate_fee (get_epoch_fee c epoch) pre_fee_amount.

Definition calculate_inverse_epoch_fee (c : TransferFeeConfig) (epoch post_fee_amount : Z)
    : option Z :=
  calculate_inverse_fee (get_epoch_fee c epoch) post_fee_amount.

(** ** Lemmas *)

(** The rate is a percentage: what [process_set_transfer_fee] and
    [process_initialize_transfer_fee_config] let into a mint. *)
Definition valid_fee (f : TransferFee) : Prop :=
  u16_get (tf_transfer_fee_basis_points f) <= MAX_FEE_BASIS_POINTS.

(** The fee without machine widths: the rate rounded up, capped. *)
Definition fee_spec (bp max x : Z) : Z := Z.min ((x * bp + 9999) / 10000) max.

Lemma ceil_div_Some n d :
  0 <= n -> 0 < d -> n + d <= u128_max -> ceil_div n d = Some ((n + d - 1) / d).
Proof.
  intros. unfold ceil_div, u128_checked_add, u128_checked_sub, u128_checked_div.
  rewrite (proj2 (checked_Some 0 u128_max (n + d) (n + d))) by lia. cbn [mbind option_bind].
  rewrite (proj2 (checked_Some 0 u128_max (n + d - 1) (n + d - 1))) by lia. cbn [mbind option_bind].
  by rewrite (proj2 (Z.eqb_neq d 0)) by lia.
Qed.

Lemma u128_mul_small a b :
  is_u64 a -> 0 <= b <= u16_max -> u128_checked_mul a b = Some (a * b).
Proof.
  unfold is_u64, u64_max, u16_max, u128_checked_mul. intros. apply checked_Some.
  unfold u128_max. nia.
Qed.

Lemma u128_sub_small a b :
  0 <= a - b <= u128_max -> u128_checked_sub a b = Some (a - b).
Proof. intros. by apply checked_Some. Qed.

Lemma calculate_fee_valid f x :
  valid_fee f -> is_u64 x ->
  calculate_fee f x =
  Some (fee_spec (u16_get (tf_transfer_fee_basis_points f)) (u64_get (tf_maximum_fee f)) x).
Proof.
  unfold valid_fee, MAX_FEE_BASIS_POINTS, calculate_fee, fee_spec. intros Hf Hx.
  pose proof (u16_get_range (tf_transfer_fee_basis_points f)) as Hb. unfold is_u16 in Hb.
  pose proof (u64_get_range (tf_maximum_fee f)) as Hm.
  set (bp := u16_get _) in *. set (m := u64_get _) in *. unfold is_u64 in *.
  destruct (Z.eqb_spec bp 0) as [->|]; cbn [orb].
  { rewrite Z.mul_0_r. change ((0 + 9999) / 10000) with 0. f_equal. lia. }
  destruct (Z.eqb_spec x 0) as [->|].
  { change ((0 * bp + 9999) / 10000) with 0. f_equal. lia. }
  rewrite u128_mul_small by (unfold is_u64; lia). cbn [mbind option_bind].
  unfold ONE_IN_BASIS_POINTS, MAX_FEE_BASIS_POINTS, u64_max in *.
  rewrite ceil_div_Some by (unfold u128_max; nia). cbn [mbind option_bind].
  replace (x * bp + 10000 - 1) with (x * bp + 9999) by lia.
  assert (0 <= (x * bp + 9999) / 10000 <= x).
  { split; [apply Z.div_pos; nia|]. apply Z.lt_succ_r, Z.div_lt_upper_bound; nia. }
  unfold u64_try_from. by rewrite (proj2 (checked_Some _ _ _ _)) by (unfold u64_max; split; [done|lia]).
Qed.

Lemma fee_spec_bounds bp max x :
  0 <= bp <= 10000 -> 0 <= max -> 0 <= x -> 0 <= fee_spec bp max x <= Z.min x max.
Proof.
  intros. unfold fee_spec.
  assert (0 <= (x * bp + 9999) / 10000 <= x); [|lia].
  split; [apply Z.div_pos; nia|]. apply Z.lt_succ_r, Z.div_lt_upper_bound; nia.
Qed.

Lemma fee_spec_mono bp max x y :
  0 <= bp -> x <= y -> fee_spec bp max x <= fee_spec bp max y.
Proof.
  intros. unfold fee_spec. apply Z.min_le_compat_r, Z.div_le_mono; nia.
Qed.

(** What is left after the fee. *)
Lemma post_spec bp max x :
  x - fee_spec bp max x = Z.max (x * (10000 - bp) / 10000) (x - max).
Proof.
  unfold fee_spec.
  assert (x * (10000 - bp) / 10000 = x - (x * bp + 9999) / 10000) as ->; [|lia].
  assert (x * (10000 - bp) = x * 10000 + - (x * bp)) as -> by lia.
  rewrite Z.add_comm, Z.div_add by lia.
  enough (- (x * bp) / 10000 = - ((x * bp + 9999) / 10000)) by lia.
  symmetry. apply Z.div_unique_pos with (r := 9999 - (x * bp + 9999) mod 10000).
  - pose proof (Z.mod_pos_bound (x * bp + 9999) 10000). lia.
  - pose proof (Z.div_mod (x * bp + 9999) 10000). lia.
Qed.

Lemma calculate_post_fee_amount_valid f x :
  valid_fee f -> is_u64 x ->
  calculate_post_fee_amount f x =
  Some (x - fee_spec (u16_get (tf_transfer_fee_basis_points f)) (u64_get (tf_maximum_fee f)) x).
Proof.
  intros Hf Hx. unfold calculate_post_fee_amount. rewrite calculate_fee_valid by done.
  cbn [mbind option_bind]. apply u64_checked_sub_Some. split; [done|].
  pose proof (u16_get_range (tf_transfer_fee_basis_points f)) as Hb.
  pose proof (u64_get_range (tf_maximum_fee f)) as Hm.
  unfold valid_fee, MAX_FEE_BASIS_POINTS, is_u16, is_u64 in *.
  pose proof (fee_spec_bounds (u16_get (tf_transfer_fee_basis_points f))
    (u64_get (tf_maximum_fee f)) x). lia.
Qed.

(** The smallest amount that leaves [p] after the fee. *)
Definition pre_spec (bp max p : Z) : Z :=
  if bp =? 0 then p else if p =? 0 then 0 else if bp =? 10000 then p + max
  else
    let raw := (p * 10000 + (10000 - bp) - 1) / (10000 - bp) in
    Z.min raw (p + max).

Lemma calculate_pre_fee_amount_valid f p :
  valid_fee f -> is_u64 p ->
  calculate_pre_fee_amount f p =
  checked 0 u64_max
    (pre_spec (u16_get (tf_transfer_fee_basis_points f)) (u64_get (tf_maximum_fee f)) p).
Proof.
  intros Hf Hx. unfold valid_fee in Hf. unfold calculate_pre_fee_amount, pre_spec.
  pose proof (u16_get_range (tf_transfer_fee_basis_points f)) as Hb. unfold is_u16 in Hb.
  pose proof (u64_get_range (tf_maximum_fee f)) as Hm.
  set (bp := u16_get _) in *. set (m := u64_get _) in *. unfold is_u64, u64_max in *.
  unfold ONE_IN_BASIS_POINTS, MAX_FEE_BASIS_POINTS in *.
  destruct (Z.eqb_spec bp 0); [symmetry; apply checked_Some; unfold u64_max; lia|].
  destruct (Z.eqb_spec p 0); [done|].
  destruct (Z.eqb_spec bp 10000); [unfold u64_checked_add; f_equal; lia|].
  rewrite u128_mul_small by (unfold is_u64, u64_max, u16_max; lia). cbn [mbind option_bind].
  rewrite u128_sub_small by (unfold u128_max; lia).
  cbn [mbind option_bind]. rewrite ceil_div_Some by (unfold u128_max; nia).
  cbn [mbind option_bind]. set (raw := (p * 10000 + (10000 - bp) - 1) / (10000 - bp)).
  assert (p <= raw) by (apply Z.div_le_lower_bound; nia).
  assert (raw <= p * 10000 + (10000 - bp) - 1) by (apply Z.div_le_upper_bound; nia).
  rewrite u128_sub_small by (unfold u128_max; lia).
  cbn [mbind option_bind]. unfold u64_checked_add, u64_try_from, u64_max.
  destruct (Z.leb_spec m (raw - p)); f_equal; lia.
Qed.

Lemma pre_spec_post bp max p :
  0 <= bp <= 10000 -> 0 <= max -> 0 <= p ->
  0 <= pre_spec bp max p /\
  pre_spec bp max p - fee_spec bp max (pre_spec bp max p) = p /\
  forall x, 0 <= x < pre_spec bp max p -> x - fee_spec bp max x < p.
Proof.
  intros. setoid_rewrite post_spec. unfold pre_spec.
  destruct (Z.eqb_spec bp 0) as [->|].
  { rewrite !Z.sub_0_r, !Z.div_mul by lia. split_and!; [lia..|]. intros x ?.
    rewrite Z.div_mul; lia. }
  destruct (Z.eqb_spec p 0) as [->|].
  { change (0 * (10000 - bp) / 10000) with 0. split_and!; [lia..|]. lia. }
  destruct (Z.eqb_spec bp 10000) as [->|].
  { change (10000 - 10000) with 0. rewrite !Z.mul_0_r. change (0 / 10000) with 0.
    split_and!; [lia..|]. intros x ?. rewrite Z.mul_0_r. change (0 / 10000) with 0. lia. }
  set (d := 10000 - bp) in *. assert (0 < d < 10000) by (unfold d; lia).
  set (raw := (p * 10000 + d - 1) / d).
  assert (p * 10000 <= raw * d <= p * 10000 + d - 1) as Hraw.
  { unfold raw. pose proof (Z.div_mod (p * 10000 + d - 1) d).
    pose proof (Z.mod_pos_bound (p * 10000 + d - 1) d). nia. }
  assert (forall x, x < raw -> x * d / 10000 < p) as Hlt.
  { intros x Hx. apply Z.div_lt_upper_bound; [lia|]. nia. }
  assert (raw * d / 10000 = p) as Heq.
  { symmetry. apply Z.div_unique_pos with (r := raw * d - p * 10000); lia. }
  split_and!.
  - assert (0 <= raw) by nia. lia.
  - destruct (Z.min_spec raw (p + max)) as [[Hc ->]|[Hc ->]].
    + rewrite Heq. lia.
    + assert ((p + max) * d / 10000 <= p); [|lia].
      rewrite <- Heq at 2. apply Z.div_le_mono; nia.
  - intros x Hx. specialize (Hlt x). lia.
Qed.

Lemma get_epoch_fee_cases c epoch :
  get_epoch_fee c epoch = tfc_newer_transfer_fee c \/
  get_epoch_fee c epoch = tfc_older_transfer_fee c.
Proof. unfold get_epoch_fee. case_match; auto. Qed.

(** ** Properties *)

(** C36: for a rate of at most one hundred percent the fee is the transferred
    amount times the rate, rounded up to a whole token and capped by the
    maximum fee; it is computed for every amount (no checked operation fails),
    never exceeds the amount, so that the amount after the fee is defined and
    their sum is the amount. *)
Theorem calculate_fee_spec f x :
  valid_fee f -> is_u64 x ->
  exists fee post,
    calculate_fee f x = Some fee /\ calculate_post_fee_amount f x = Some post /\
    fee = Z.min ((x * u16_get (tf_transfer_fee_basis_points f) + 9999) / 10000)
                (u64_get (tf_maximum_fee f)) /\
    0 <= fee <= x /\ post + fee = x.
Proof.
  intros Hf Hx. rewrite calculate_fee_valid, calculate_post_fee_amount_valid by done.
  eexists _, _. split_and!; [done..| | |lia]; 
  pose proof (u16_get_range (tf_transfer_fee_basis_points f));
  pose proof (u64_get_range (tf_maximum_fee f));
  unfold valid_fee, MAX_FEE_BASIS_POINTS, is_u16, is_u64 in *;
  pose proof (fee_spec_bounds (u16_get (tf_transfer_fee_basis_points f))
    (u64_get (tf_maximum_fee f)) x); lia.
Qed.

Definition example_fee : TransferFee := mk_tf (u64_new 0) (u64_new 5000) (u16_new 250).

Lemma calculate_fee_spec_witness :
  exists fee post,
    calculate_fee example_fee 1001 = Some fee /\
    calculate_post_fee_amount example_fee 1001 = Some post /\
    fee = Z.min ((1001 * u16_get (tf_transfer_fee_basis_points example_fee) + 9999) / 10000)
                (u64_get (tf_maximum_fee example_fee)) /\
    0 <= fee <= 1001 /\ post + fee = 1001.
Proof.
  apply (calculate_fee_spec example_fee 1001); [vm_compute|split; vm_compute]; discriminate.
Defined.

(** [calculate_pre_fee_amount] returns the smallest amount whose transfer
    leaves exactly the requested net amount, and [None] only when no [u64]
    amount does: the documentation's choice of the smaller amount, and its
    overflow case. *)
Theorem calculate_pre_fee_amount_spec f p :
  valid_fee f -> is_u64 p ->
  match calculate_pre_fee_amount f p with
  | Some x => is_u64 x /\ calculate_post_fee_amount f x = Some p /\
      forall y, is_u64 y -> calculate_post_fee_amount f y = Some p -> x <= y
  | None => forall y, is_u64 y -> calculate_post_fee_amount f y <> Some p
  end.
Proof.
  intros Hf Hp. rewrite calculate_pre_fee_amount_valid by done.
  pose proof (u16_get_range (tf_transfer_fee_basis_points f)) as Hb.
  pose proof (u64_get_range (tf_maximum_fee f)) as Hm.
  edestruct (pre_spec_post (u16_get (tf_transfer_fee_basis_points f))
    (u64_get (tf_maximum_fee f)) p) as (H0 & Hpost & Hmin);
    [unfold valid_fee, MAX_FEE_BASIS_POINTS, is_u16, is_u64 in *; lia..|].
  set (x := pre_spec _ _ _) in *.
  assert (forall y, is_u64 y -> calculate_post_fee_amount f y = Some p -> x <= y) as Hle.
  { intros y Hy. rewrite calculate_post_fee_amount_valid by done. intros [= E].
    destruct (Z.le_gt_cases x y) as [|Hlt]; [done|].
    specialize (Hmin y). unfold is_u64 in Hy. lia. }
  destruct (checked 0 u64_max x) as [x'|] eqn:Ex.
  - apply checked_Some in Ex as [-> Hx]. split; [done|]. split; [|done].
    by rewrite calculate_post_fee_amount_valid, Hpost.
  - apply checked_None in Ex. intros y Hy E. specialize (Hle y Hy E). unfold is_u64 in Hy. lia.
Qed.

Lemma calculate_pre_fee_amount_spec_witness :
  match calculate_pre_fee_amount example_fee 975 with
  | Some x => is_u64 x /\ calculate_post_fee_amount example_fee x = Some 975 /\
      forall y, is_u64 y -> calculate_post_fee_amount example_fee y = Some 975 -> x <= y
  | None => forall y, is_u64 y -> calculate_post_fee_amount example_fee y <> Some 975
  end.
Proof.
  apply (calculate_pre_fee_amount_spec example_fee 975);
    [vm_compute|split; vm_compute]; discriminate.
Defined.

(** The relationship the documentation of [calculate_inverse_fee] promises:
    the fee of an amount is never below the inverse fee of what it leaves, and
    the inverse fee is always defined there. *)
Theorem calculate_inverse_fee_le f x fee post :
  valid_fee f -> is_u64 x ->
  calculate_fee f x = Some fee -> calculate_post_fee_amount f x = Some post ->
  exists inverse, calculate_inverse_fee f post = Some inverse /\ inverse <= fee.
Proof.
  intros Hf Hx Hfee Hpost.
  pose proof (u16_get_range (tf_transfer_fee_basis_points f)) as Hb.
  pose proof (u64_get_range (tf_maximum_fee f)) as Hm.
  rewrite calculate_fee_valid in Hfee by done. injection Hfee as <-.
  rewrite calculate_post_fee_amount_valid in Hpost by done. injection Hpost as E.
  set (bp := u16_get _) in *. set (m := u64_get _) in *.
  unfold valid_fee, MAX_FEE_BASIS_POINTS, is_u16, is_u64 in *.
  pose proof (fee_spec_bounds bp m x ltac:(lia) ltac:(lia) ltac:(lia)) as Hfb.
  destruct (pre_spec_post bp m post) as (H0 & Hp & Hmin); [lia..|].
  assert (pre_spec bp m post <= x) as Hle.
  { destruct (Z.le_gt_cases (pre_spec bp m post) x) as [|Hlt]; [done|]. specialize (Hmin x). lia. }
  unfold calculate_inverse_fee.
  rewrite calculate_pre_fee_amount_valid by (unfold is_u64, valid_fee, MAX_FEE_BASIS_POINTS; lia).
  fold bp m. rewrite (proj2 (checked_Some _ _ _ (pre_spec bp m post))) by lia.
  cbn [mbind option_bind].
  rewrite calculate_fee_valid by (unfold is_u64, valid_fee, MAX_FEE_BASIS_POINTS; lia).
  eexists. split; [done|]. fold bp m. apply fee_spec_mono; lia.
Qed.

Lemma calculate_inverse_fee_le_witness :
  exists inverse, calculate_inverse_fee example_fee 975 = Some inverse /\ inverse <= 26.
Proof.
  apply (calculate_inverse_fee_le example_fee 1001 26 975);
    [vm_compute; discriminate|split; vm_compute; discriminate|reflexivity|reflexivity].
Defined.
