(* ===== verification/CiphertextArithmetic.v ===== *)
(** * Arithmetic on ciphertexts

    [confidential/ciphertext-arithmetic/src/lib.rs]: a twisted ElGamal
    ciphertext is a Pedersen commitment and a decrypt handle, two encoded points
    of the Ristretto group, and adding ciphertexts adds both.  The group
    operations are syscalls ([CurveInterface]); what the
    functions here compute on plaintexts, given that they are those of an
    abelian group, is in [CiphertextTheory]. *)
From S2P Require Import Prelude Bytes Errors Pod ExtensionState.

Abbreviation PodRistrettoPoint := (Bytes 32) (only parsing).
Abbreviation PodScalar := (Bytes 32) (only parsing).
Abbreviation PodElGamalCiphertext := (Bytes 64) (only parsing).

(** ** The curve syscalls *)

(** [solana_curve25519::ristretto]. *)
Class CurveInterface : Type := mk_curve_interface {
  add_ristretto : PodRistrettoPoint -> PodRistrettoPoint -> option PodRistrettoPoint;
  subtract_ristretto : PodRistrettoPoint -> PodRistrettoPoint -> option PodRistrettoPoint;
  multiply_ristretto : PodScalar -> PodRistrettoPoint -> option PodRistrettoPoint
}.

Module ciphertext_arithmetic.

Definition SHIFT_BITS : Z := 16.

Definition G : PodRistrettoPoint := bytes_of_list 32 (u8_of_Z <$>
  [226; 242; 174; 10; 106; 188; 78; 113; 168; 132; 169; 97; 197; 0; 81; 95; 88; 227; 11; 106; 165;
   130; 221; 141; 182; 166; 89; 69; 224; 141; 45; 118]).

Definition H : PodRistrettoPoint := bytes_of_list 32 (u8_of_Z <$>
  [140; 146; 64; 180; 86; 169; 230; 220; 101; 195; 119; 161; 4; 141; 116; 95; 148; 160; 140; 219;
   127; 68; 203; 205; 123; 70; 243; 64; 72; 135; 17; 52]).

Definition u64_to_scalar (amount : Z) : PodScalar := bytes_of_list 32 (to_le_bytes 8 amount).

Definition elgamal_pubkey_to_ristretto (pubkey : PodElGamalPubkey) : PodRistrettoPoint := pubkey.

Definition elgamal_ciphertext_to_ristretto (ciphertext : PodElGamalCiphertext)
    : PodRistrettoPoint * PodRistrettoPoint :=
  (bytes_of_list 32 (slice (bytes_list ciphertext) 0 32),
   bytes_of_list 32 (slice (bytes_list ciphertext) 32 64)).

Definition ristretto_to_elgamal_ciphertext (commitment handle : PodRistrettoPoint)
    : PodElGamalCiphertext :=
  bytes_of_list 64 (bytes_list commitment ++ bytes_list handle).

Section arithmetic.
Context `{CV : CurveInterface}.

Definition add (left_ciphertext right_ciphertext : PodElGamalCiphertext)
    : option PodElGamalCiphertext :=
  let '(left_commitment, left_handle) := elgamal_ciphertext_to_ristretto left_ciphertext in
  let '(right_commitment, right_handle) := elgamal_ciphertext_to_ristretto right_ciphertext in
  result_commitment ← add_ristretto left_commitment right_commitment;
  result_handle ← add_ristretto left_handle right_handle;
  mret (ristretto_to_elgamal_ciphertext result_commitment result_handle).

Definition multiply (scalar : PodScalar) (ciphertext : PodElGamalCiphertext)
    : option PodElGamalCiphertext :=
  let '(commitment, handle) := elgamal_ciphertext_to_ristretto ciphertext in
  result_commitment ← multiply_ristretto scalar commitment;
  result_handle ← multiply_ristretto scalar handle;
  mret (ristretto_to_elgamal_ciphertext result_commitment result_handle).

(** [left + (lo + 2^16 hi)]. *)
Definition add_with_lo_hi (left_ciphertext right_ciphertext_lo right_ciphertext_hi : PodElGamalCiphertext)
    : option PodElGamalCiphertext :=
  let '(left_commitment, left_handle) := elgamal_ciphertext_to_ristretto left_ciphertext in
  let '(lo_commitment, lo_handle) := elgamal_ciphertext_to_ristretto right_ciphertext_lo in
  let '(hi_commitment, hi_handle) := elgamal_ciphertext_to_ristretto right_ciphertext_hi in
  let shift_scalar := u64_to_scalar (Z.shiftl 1 SHIFT_BITS) in
  hi_commitment_shifted ← multiply_ristretto shift_scalar hi_commitment;
  right_commitment_combined ← add_ristretto lo_commitment hi_commitment_shifted;
  hi_handle_shifted ← multiply_ristretto shift_scalar hi_handle;
  right_handle_combined ← add_ristretto lo_handle hi_handle_shifted;
  final_commitment ← add_ristretto left_commitment right_commitment_combined;
  final_handle ← add_ristretto left_handle right_handle_combined;
  mret (ristretto_to_elgamal_ciphertext final_commitment final_handle).

Definition subtract (left_ciphertext right_ciphertext : PodElGamalCiphertext)
    : option PodElGamalCiphertext :=
  let '(left_commitment, left_handle) := elgamal_ciphertext_to_ristretto left_ciphertext in
  let '(right_commitment, right_handle) := elgamal_ciphertext_to_ristretto right_ciphertext in
  result_commitment ← subtract_ristretto left_commitment right_commitment;
  result_handle ← subtract_ristretto left_handle right_handle;
  mret (ristretto_to_elgamal_ciphertext result_commitment result_handle).

(** [left - (lo + 2^16 hi)]. *)
Definition subtract_with_lo_hi
    (left_ciphertext right_ciphertext_lo right_ciphertext_hi : PodElGamalCiphertext)
    : option PodElGamalCiphertext :=
  let '(left_commitment, left_handle) := elgamal_ciphertext_to_ristretto left_ciphertext in
  let '(lo_commitment, lo_handle) := elgamal_ciphertext_to_ristretto right_ciphertext_lo in
  let '(hi_commitment, hi_handle) := elgamal_ciphertext_to_ristretto right_ciphertext_hi in
  let shift_scalar := u64_to_scalar (Z.shiftl 1 SHIFT_BITS) in
  hi_commitment_shifted ← multiply_ristretto shift_scalar hi_commitment;
  right_commitment_combined ← add_ristretto lo_commitment hi_commitment_shifted;
  hi_handle_shifted ← multiply_ristretto shift_scalar hi_handle;
  right_handle_combined ← add_ristretto lo_handle hi_handle_shifted;
  final_commitment ← subtract_ristretto left_commitment right_commitment_combined;
  final_handle ← subtract_ristretto left_handle right_handle_combined;
  mret (ristretto_to_elgamal_ciphertext final_commitment final_handle).

Definition add_to (ciphertext : PodElGamalCiphertext) (amount : Z) : option PodElGamalCiphertext :=
  let amount_scalar := u64_to_scalar amount in
  amount_point ← multiply_ristretto amount_scalar G;
  let '(commitment, handle) := elgamal_ciphertext_to_ristretto ciphertext in
  result_commitment ← add_ristretto commitment amount_point;
  mret (ristretto_to_elgamal_ciphertext result_commitment handle).

Definition add_to_with_offset (pubkey : PodElGamalPubkey) (ciphertext : PodElGamalCiphertext)
    (amount : Z) : option PodElGamalCiphertext :=
  let amount_scalar := u64_to_scalar amount in
  amount_point ← multiply_ristretto amount_scalar G;
  amount_point_with_offset ← add_ristretto amount_point H;
  let pubkey_point := elgamal_pubkey_to_ristretto pubkey in
  let '(commitment, handle) := elgamal_ciphertext_to_ristretto ciphertext in
  result_commitment ← add_ristretto commitment amount_point_with_offset;
  result_handle ← add_ristretto handle pubkey_point;
  mret (ristretto_to_elgamal_ciphertext result_commitment result_handle).

Definition subtract_from (ciphertext : PodElGamalCiphertext) (amount : Z)
    : option PodElGamalCiphertext :=
  let amount_scalar := u64_to_scalar amount in
  amount_point ← multiply_ristretto amount_scalar G;
  let '(commitment, handle) := elgamal_ciphertext_to_ristretto ciphertext in
  result_commitment ← subtract_ristretto commitment amount_point;
  mret (ristretto_to_elgamal_ciphertext result_commitment handle).
End arithmetic.
End ciphertext_arithmetic.
