(* ===== verification/CiphertextTheory.v ===== *)
(** * What the arithmetic on ciphertexts computes

    A point of the curve is an encoded element of an abelian group ([PointGroup],
    [CurveLaws]: the documented meaning of the syscalls).  Decryption with a
    secret scalar is linear, so the functions of [ciphertext_arithmetic] add and
    subtract plaintexts; they fail exactly when a part of an input that they
    decode is no point. *)
From S2P Require Import Prelude Bytes Errors Pod ExtensionState CiphertextArithmetic.
Import ciphertext_arithmetic.

(** An abelian group, with its integer multiples. *)
Class PointGroup (E : Type) : Type := mk_point_group {
  pzero : E;
  pplus : E -> E -> E;
  popp : E -> E;
  pscale : Z -> E -> E;
  pplus_assoc x y z : pplus x (pplus y z) = pplus (pplus x y) z;
  pplus_comm x y : pplus x y = pplus y x;
  pplus_0_l x : pplus pzero x = x;
  popp_l x : pplus (popp x) x = pzero;
  pscale_1 x : pscale 1 x = x;
  pscale_plus_l a b x : pscale (a + b) x = pplus (pscale a x) (pscale b x);
  pscale_plus_r a x y : pscale a (pplus x y) = pplus (pscale a x) (pscale a y);
  pscale_mul a b x : pscale a (pscale b x) = pscale (a * b) x
}.

Declare Scope point_scope.
Delimit Scope point_scope with point.
Infix "+" := pplus : point_scope.
Notation "x - y" := (pplus x (popp y)) : point_scope.
Infix "⋅" := pscale (at level 40) : point_scope.
#[local] Open Scope point_scope.

Section group.
Context {E : Type} `{PG : !PointGroup E}.
Implicit Types x y z : E.

Lemma pplus_0_r x : x + pzero = x.
Proof. by rewrite pplus_comm, pplus_0_l. Qed.

Lemma popp_r x : x - x = pzero.
Proof. by rewrite pplus_comm, popp_l. Qed.

Lemma pplus_cancel x y z : x + y = x + z -> y = z.
Proof.
  intros Exy. rewrite <- (pplus_0_l y), <- (pplus_0_l z), <- (popp_l x), <- !pplus_assoc.
  by rewrite Exy.
Qed.

Lemma pplus_swap x y z w : (x + y) + (z + w) = (x + z) + (y + w).
Proof. by rewrite <- !pplus_assoc, (pplus_assoc y), (pplus_comm y z), <- !pplus_assoc. Qed.

Lemma popp_plus x y : popp (x + y) = popp x + popp y.
Proof.
  apply (pplus_cancel (x + y)). rewrite popp_r, pplus_swap, !popp_r. by rewrite pplus_0_l.
Qed.

Lemma psub_plus x y z w : (x + y) - (z + w) = (x - z) + (y - w).
Proof. by rewrite popp_plus, pplus_swap. Qed.

Lemma popp_popp x : popp (popp x) = x.
Proof. apply (pplus_cancel (popp x)). by rewrite popp_r, popp_l. Qed.

Lemma popp_0 : popp pzero = (pzero : E).
Proof. rewrite <- (pplus_0_l (popp pzero)). apply popp_r. Qed.

Lemma pscale_0_r a : a ⋅ (pzero : E) = pzero.
Proof. apply (pplus_cancel (a ⋅ pzero)). by rewrite <- pscale_plus_r, !pplus_0_r. Qed.

Lemma pscale_0_l x : 0 ⋅ x = pzero.
Proof. apply (pplus_cancel (0 ⋅ x)). by rewrite <- pscale_plus_l, pplus_0_r. Qed.

Lemma pscale_opp a x : a ⋅ popp x = popp (a ⋅ x).
Proof. apply (pplus_cancel (a ⋅ x)). by rewrite <- pscale_plus_r, !popp_r, pscale_0_r. Qed.

(** Twisting: [x - s⋅d] is linear in both. *)
Lemma twist_plus s x y d e : (x + y) - s ⋅ (d + e) = (x - s ⋅ d) + (y - s ⋅ e).
Proof. by rewrite pscale_plus_r, psub_plus. Qed.

Lemma twist_opp s x d : popp x - s ⋅ popp d = popp (x - s ⋅ d).
Proof. by rewrite pscale_opp, popp_plus. Qed.

Lemma twist_scale s a x d : a ⋅ x - s ⋅ (a ⋅ d) = a ⋅ (x - s ⋅ d).
Proof.
  by rewrite pscale_plus_r, pscale_opp, !pscale_mul, (Z.mul_comm s a).
Qed.
End group.

(** The documented meaning of the syscalls: they decode their arguments and
    encode the result, and fail on bytes that encode no point. *)
Class CurveLaws (E : Type) `{CV : CurveInterface} `{PG : !PointGroup E} : Type := mk_curve_laws {
  encode : E -> PodRistrettoPoint;
  decode : PodRistrettoPoint -> option E;
  decode_encode x : decode (encode x) = Some x;
  encode_decode p x : decode p = Some x -> encode x = p;
  add_ristretto_eq p q :
    add_ristretto p q = x ← decode p; y ← decode q; mret (encode (x + y));
  subtract_ristretto_eq p q :
    subtract_ristretto p q = x ← decode p; y ← decode q; mret (encode (x - y));
  multiply_ristretto_eq s p : le_read s <= u64_max ->
    multiply_ristretto s p = x ← decode p; mret (encode (le_read s ⋅ x));
  decode_zeroed : decode (zeroed 32) = Some pzero;
  point_G : E;
  point_H : E;
  decode_G : decode ciphertext_arithmetic.G = Some point_G;
  decode_H : decode ciphertext_arithmetic.H = Some point_H
}.

Section theory.
Context {E : Type} `{CV : CurveInterface} `{PG : !PointGroup E} `{CL : !CurveLaws E}.

(** The plaintext of a ciphertext under the secret scalar [s], as a point. *)
Definition decrypt (s : Z) (ciphertext : PodElGamalCiphertext) : option E :=
  let '(commitment, handle) := elgamal_ciphertext_to_ristretto ciphertext in
  c ← decode commitment; d ← decode handle; mret (c - s ⋅ d).

(** The public key of the secret scalar [s]. *)
Definition keypair (s : Z) (pubkey : PodElGamalPubkey) : Prop :=
  exists p, decode pubkey = Some p /\ s ⋅ p = point_H.

(** The plaintext of an amount. *)
Definition amount_point (n : Z) : E := n ⋅ point_G.

(** [lo + 2^16 hi]. *)
Definition lo_hi (lo hi : E) : E := lo + 65536 ⋅ hi.

Lemma elgamal_roundtrip c d :
  elgamal_ciphertext_to_ristretto (ristretto_to_elgamal_ciphertext c d) = (c, d).
Proof.
  unfold elgamal_ciphertext_to_ristretto, ristretto_to_elgamal_ciphertext.
  rewrite bytes_list_of_list by (rewrite length_app, !length_bytes_list; done).
  rewrite slice_app_l, slice_0, take_ge by (rewrite length_bytes_list; done).
  rewrite slice_app_r by (rewrite length_bytes_list; done).
  rewrite !length_bytes_list. change (32 - 32)%nat with 0%nat. change (64 - 32)%nat with 32%nat.
  rewrite slice_0, take_ge by (rewrite !length_bytes_list; done).
  by rewrite !bytes_of_list_list.
Qed.

Lemma decrypt_ciphertext s c d :
  decrypt s (ristretto_to_elgamal_ciphertext c d) =
  x ← decode c; y ← decode d; mret (x - s ⋅ y).
Proof. unfold decrypt. by rewrite elgamal_roundtrip. Qed.

Lemma from_le_bytes_pad l k : from_le_bytes (l ++ replicate k x00) = from_le_bytes l.
Proof.
  assert (forall b l, from_le_bytes (b :: l) = u8_to_Z b + 256 * from_le_bytes l)%Z as Ec by done.
  induction l as [|b l IH]; [|by rewrite <- app_comm_cons, !Ec, IH].
  induction k as [|k IH]; [done|]. cbn [app replicate] in *. by rewrite Ec, IH.
Qed.

Lemma u64_to_scalar_read n : is_u64 n -> le_read (u64_to_scalar n) = n.
Proof.
  intros Hn. unfold u64_to_scalar, le_read, bytes_of_list. cbn [bytes_list].
  rewrite resize_ge by (rewrite length_to_le_bytes; lia).
  by rewrite from_le_bytes_pad, from_to_le_8.
Qed.

Lemma multiply_u64 n p : is_u64 n ->
  multiply_ristretto (u64_to_scalar n) p = x ← decode p; mret (encode (n ⋅ x)).
Proof.
  intros Hn. rewrite multiply_ristretto_eq; rewrite u64_to_scalar_read by done; [done|].
  by destruct Hn.
Qed.

(** Unfold an operation of the crate into the group. *)
Ltac curve_step :=
  match goal with
  | E : decode ?p = _ |- context [decode ?p] => rewrite E
  | |- context [decode (encode ?x)] => rewrite (decode_encode x)
  | |- context [decode G] => rewrite decode_G
  | |- context [decode H] => rewrite decode_H
  | |- context [decrypt ?s (ristretto_to_elgamal_ciphertext ?c ?d)] =>
      rewrite (decrypt_ciphertext s c d)
  | |- context [decode ?p] => destruct (decode p) eqn:?
  | |- context [add_ristretto ?p ?q] => rewrite (add_ristretto_eq p q)
  | |- context [subtract_ristretto ?p ?q] => rewrite (subtract_ristretto_eq p q)
  | |- context [multiply_ristretto (u64_to_scalar ?n) ?p] =>
      rewrite (multiply_u64 n p) by (unfold is_u64, u64_max in *; lia)
  end; cbn [mbind option_bind mret option_ret]; try done.
Ltac curve := repeat curve_step.

Lemma add_decrypt s a b :
  add a b ≫= decrypt s = x ← decrypt s a; y ← decrypt s b; mret (x + y).
Proof.
  unfold add, decrypt at 2 3.
  destruct (elgamal_ciphertext_to_ristretto a) as [ac ad].
  destruct (elgamal_ciphertext_to_ristretto b) as [bc bd].
  curve. by rewrite twist_plus.
Qed.

(** Only ciphertexts can be added. *)
Lemma add_Some s a b c : add a b = Some c ->
  exists x y, decrypt s a = Some x /\ decrypt s b = Some y /\ decrypt s c = Some (x + y).
Proof.
  intros Hc. assert (decrypt s c = x ← decrypt s a; y ← decrypt s b; mret (x + y)) as Hd
    by (by rewrite <- add_decrypt, Hc). rewrite Hd. revert Hc. clear Hd. unfold add, decrypt.
  destruct (elgamal_ciphertext_to_ristretto a) as [ac ad].
  destruct (elgamal_ciphertext_to_ristretto b) as [bc bd].
  curve. intros _. by do 2 eexists.
Qed.

Lemma subtract_decrypt s a b :
  subtract a b ≫= decrypt s = x ← decrypt s a; y ← decrypt s b; mret (x - y).
Proof.
  unfold subtract, decrypt at 2 3.
  destruct (elgamal_ciphertext_to_ristretto a) as [ac ad].
  destruct (elgamal_ciphertext_to_ristretto b) as [bc bd].
  curve. by rewrite twist_plus, twist_opp.
Qed.

Lemma multiply_decrypt s n a : is_u64 n ->
  multiply (u64_to_scalar n) a ≫= decrypt s = x ← decrypt s a; mret (n ⋅ x).
Proof.
  intros Hn. unfold multiply, decrypt at 2.
  destruct (elgamal_ciphertext_to_ristretto a) as [ac ad].
  curve. by rewrite twist_scale.
Qed.

Lemma add_with_lo_hi_decrypt s a lo hi :
  add_with_lo_hi a lo hi ≫= decrypt s =
  x ← decrypt s a; l ← decrypt s lo; h ← decrypt s hi; mret (x + lo_hi l h).
Proof.
  unfold add_with_lo_hi, decrypt at 2 3 4. change (Z.shiftl 1 SHIFT_BITS) with 65536.
  destruct (elgamal_ciphertext_to_ristretto a) as [ac ad].
  destruct (elgamal_ciphertext_to_ristretto lo) as [lc ld].
  destruct (elgamal_ciphertext_to_ristretto hi) as [hc hd].
  curve. unfold lo_hi. by rewrite !twist_plus, twist_scale.
Qed.

Lemma subtract_with_lo_hi_decrypt s a lo hi :
  subtract_with_lo_hi a lo hi ≫= decrypt s =
  x ← decrypt s a; l ← decrypt s lo; h ← decrypt s hi; mret (x - lo_hi l h).
Proof.
  unfold subtract_with_lo_hi, decrypt at 2 3 4. change (Z.shiftl 1 SHIFT_BITS) with 65536.
  destruct (elgamal_ciphertext_to_ristretto a) as [ac ad].
  destruct (elgamal_ciphertext_to_ristretto lo) as [lc ld].
  destruct (elgamal_ciphertext_to_ristretto hi) as [hc hd].
  curve. unfold lo_hi. by rewrite twist_plus, twist_opp, twist_plus, twist_scale.
Qed.

Lemma add_to_decrypt s a n : is_u64 n ->
  add_to a n ≫= decrypt s = x ← decrypt s a; mret (x + amount_point n).
Proof.
  intros Hn. unfold add_to, decrypt at 2. rewrite multiply_u64 by done.
  destruct (elgamal_ciphertext_to_ristretto a) as [ac ad]. curve.
  unfold amount_point. by rewrite <- !pplus_assoc, (pplus_comm (n ⋅ point_G)).
Qed.

Lemma subtract_from_decrypt s a n : is_u64 n ->
  subtract_from a n ≫= decrypt s = x ← decrypt s a; mret (x - amount_point n).
Proof.
  intros Hn. unfold subtract_from, decrypt at 2. rewrite multiply_u64 by done.
  destruct (elgamal_ciphertext_to_ristretto a) as [ac ad]. curve.
  unfold amount_point. by rewrite <- !pplus_assoc, (pplus_comm (popp (n ⋅ point_G))).
Qed.

(** The offset vanishes under the key it is made for. *)
Lemma add_to_with_offset_decrypt s pk a n : is_u64 n -> keypair s pk ->
  add_to_with_offset pk a n ≫= decrypt s = x ← decrypt s a; mret (x + amount_point n).
Proof.
  intros Hn (p & Hp & Hs). unfold add_to_with_offset, decrypt at 2, elgamal_pubkey_to_ristretto.
  rewrite multiply_u64 by done.
  destruct (elgamal_ciphertext_to_ristretto a) as [ac ad]. simplify_eq. curve.
  rewrite twist_plus, Hs. unfold amount_point. by rewrite <- !pplus_assoc, popp_r, pplus_0_r.
Qed.

Lemma zeroed_decrypt s : decrypt s (zeroed 64) = Some pzero.
Proof.
  unfold decrypt, elgamal_ciphertext_to_ristretto.
  change (bytes_of_list 32 (slice (bytes_list (zeroed 64)) 0 32)) with (zeroed 32).
  change (bytes_of_list 32 (slice (bytes_list (zeroed 64)) 32 64)) with (zeroed 32).
  rewrite decode_zeroed. cbn. by rewrite pscale_0_r, popp_r.
Qed.

(** ** When the operations succeed *)

(** The commitment of a ciphertext is a point, and its handle is one too. *)
Definition is_commitment (a : PodElGamalCiphertext) : Prop :=
  is_Some (decode (elgamal_ciphertext_to_ristretto a).1).
Definition is_ciphertext (a : PodElGamalCiphertext) : Prop :=
  is_commitment a /\ is_Some (decode (elgamal_ciphertext_to_ristretto a).2).

Lemma decrypt_is_Some s a : is_Some (decrypt s a) <-> is_ciphertext a.
Proof.
  unfold is_ciphertext, is_commitment, decrypt. destruct (elgamal_ciphertext_to_ristretto a) as [c d].
  cbn [fst snd]. rewrite !is_Some_alt. curve; tauto.
Qed.

Ltac succeeds :=
  unfold is_ciphertext, is_commitment; rewrite !is_Some_alt;
  repeat match goal with |- context [elgamal_ciphertext_to_ristretto ?a] =>
    destruct (elgamal_ciphertext_to_ristretto a) as [? ?] end;
  cbn [fst snd]; curve; tauto.

Lemma add_is_Some a b : is_Some (add a b) <-> is_ciphertext a /\ is_ciphertext b.
Proof. unfold add. succeeds. Qed.

Lemma subtract_is_Some a b : is_Some (subtract a b) <-> is_ciphertext a /\ is_ciphertext b.
Proof. unfold subtract. succeeds. Qed.

Lemma multiply_is_Some n a : is_u64 n -> is_Some (multiply (u64_to_scalar n) a) <-> is_ciphertext a.
Proof. intros Hn. unfold multiply. succeeds. Qed.

Lemma add_with_lo_hi_is_Some a lo hi :
  is_Some (add_with_lo_hi a lo hi) <-> is_ciphertext a /\ is_ciphertext lo /\ is_ciphertext hi.
Proof. unfold add_with_lo_hi. change (Z.shiftl 1 SHIFT_BITS) with 65536. succeeds. Qed.

Lemma subtract_with_lo_hi_is_Some a lo hi :
  is_Some (subtract_with_lo_hi a lo hi) <-> is_ciphertext a /\ is_ciphertext lo /\ is_ciphertext hi.
Proof. unfold subtract_with_lo_hi. change (Z.shiftl 1 SHIFT_BITS) with 65536. succeeds. Qed.

Lemma add_to_is_Some a n : is_u64 n -> is_Some (add_to a n) <-> is_commitment a.
Proof. intros Hn. unfold add_to. succeeds. Qed.

Lemma subtract_from_is_Some a n : is_u64 n -> is_Some (subtract_from a n) <-> is_commitment a.
Proof. intros Hn. unfold subtract_from. succeeds. Qed.

Lemma add_to_with_offset_is_Some pk a n : is_u64 n ->
  is_Some (add_to_with_offset pk a n) <-> is_ciphertext a /\ is_Some (decode pk).
Proof. intros Hn. unfold add_to_with_offset, elgamal_pubkey_to_ristretto. succeeds. Qed.

(** C17: the arithmetic on ciphertexts is arithmetic on their plaintexts, under
    every secret scalar: adding, subtracting, scaling and the combinations with
    the low 16 and the high bits of an amount decrypt to the sums, differences
    and multiples of what their arguments decrypt to, and succeed exactly when
    every argument is a ciphertext, two encodings of points.  Adding an amount
    with the offset of a key decrypts under that key as adding the amount does,
    and succeeds exactly on a ciphertext and a key that are points.  Adding and
    subtracting an amount without an offset only decode the commitment: they
    succeed exactly when that is a point, and what they give decrypts, to the
    sum and the difference, exactly when the argument did. *)
Theorem ciphertext_arithmetic_spec s a b lo hi n pk :
  is_u64 n ->
  (add a b ≫= decrypt s = (x ← decrypt s a; y ← decrypt s b; mret (x + y)) /\
   subtract a b ≫= decrypt s = (x ← decrypt s a; y ← decrypt s b; mret (x - y)) /\
   multiply (u64_to_scalar n) a ≫= decrypt s = (x ← decrypt s a; mret (n ⋅ x)) /\
   add_with_lo_hi a lo hi ≫= decrypt s =
     (x ← decrypt s a; l ← decrypt s lo; h ← decrypt s hi; mret (x + lo_hi l h)) /\
   subtract_with_lo_hi a lo hi ≫= decrypt s =
     (x ← decrypt s a; l ← decrypt s lo; h ← decrypt s hi; mret (x - lo_hi l h)) /\
   add_to a n ≫= decrypt s = (x ← decrypt s a; mret (x + amount_point n)) /\
   subtract_from a n ≫= decrypt s = (x ← decrypt s a; mret (x - amount_point n)) /\
   (keypair s pk ->
    add_to_with_offset pk a n ≫= decrypt s = (x ← decrypt s a; mret (x + amount_point n)))) /\
  (is_Some (add a b) <-> is_ciphertext a /\ is_ciphertext b) /\
  (is_Some (subtract a b) <-> is_ciphertext a /\ is_ciphertext b) /\
  (is_Some (multiply (u64_to_scalar n) a) <-> is_ciphertext a) /\
  (is_Some (add_with_lo_hi a lo hi) <-> is_ciphertext a /\ is_ciphertext lo /\ is_ciphertext hi) /\
  (is_Some (subtract_with_lo_hi a lo hi) <-> is_ciphertext a /\ is_ciphertext lo /\ is_ciphertext hi) /\
  (is_Some (add_to a n) <-> is_commitment a) /\
  (is_Some (subtract_from a n) <-> is_commitment a) /\
  (is_Some (add_to_with_offset pk a n) <-> is_ciphertext a /\ is_Some (decode pk)) /\
  (is_ciphertext a <-> is_Some (decrypt s a)).
Proof.
  intros Hn. split; [|split_and!].
  - auto 10 using add_decrypt, subtract_decrypt, multiply_decrypt, add_with_lo_hi_decrypt,
      subtract_with_lo_hi_decrypt, add_to_decrypt, subtract_from_decrypt, add_to_with_offset_decrypt.
  - apply add_is_Some.
  - apply subtract_is_Some.
  - by apply multiply_is_Some.
  - apply add_with_lo_hi_is_Some.
  - apply subtract_with_lo_hi_is_Some.
  - by apply add_to_is_Some.
  - by apply subtract_from_is_Some.
  - by apply add_to_with_offset_is_Some.
  - symmetry. apply decrypt_is_Some.
Qed.
End theory.
