(* ===== verification/ProofExtraction.v ===== *)
(** * Proof contexts

    [confidential/proof-extraction/src]: a confidential instruction comes with
    zero-knowledge proofs that another program has verified.  The processors
    read the statements of these proofs, their contexts, from an account of that
    program or from an instruction of the same transaction
    ([verify_and_extract_context]), and [verify_and_extract] checks that the
    contexts of one operation speak of the same keys, commitments and bit
    lengths.

    The proof program, its data formats and the instructions sysvar belong to
    other crates: the classes [ZkInterface] and [ZkContext]. *)
From S2P Require Import Prelude Bytes Errors Ids Runtime Pod ExtensionState CiphertextArithmetic.
Import ciphertext_arithmetic.

(** ** Errors *)

Module TokenProofExtractionError.
Inductive TokenProofExtractionError : Type :=
  | ElGamalPubkeyMismatch
  | PedersenCommitmentMismatch
  | RangeProofLengthMismatch
  | FeeParametersMismatch
  | CurveArithmetic
  | CiphertextExtraction.
End TokenProofExtractionError.
Abbreviation TokenProofExtractionError := TokenProofExtractionError.TokenProofExtractionError.

(** [From<TokenProofExtractionError> for TokenError]. *)
Definition token_error_from (e : TokenProofExtractionError) : TokenError :=
  match e with
  | TokenProofExtractionError.ElGamalPubkeyMismatch =>
      TokenError.ConfidentialTransferElGamalPubkeyMismatch
  | TokenProofExtractionError.PedersenCommitmentMismatch => TokenError.PedersenCommitmentMismatch
  | TokenProofExtractionError.RangeProofLengthMismatch => TokenError.RangeProofLengthMismatch
  | TokenProofExtractionError.FeeParametersMismatch => TokenError.FeeParametersMismatch
  | TokenProofExtractionError.CurveArithmetic => TokenError.CiphertextArithmeticFailed
  | TokenProofExtractionError.CiphertextExtraction => TokenError.MalformedCiphertext
  end.

(** [.map_err(TokenError::from)?] in a function that returns a [ProgramError]. *)
Definition extraction_into (e : TokenProofExtractionError) : ProgramError :=
  token_error_into (token_error_from e).

(** ** The proof program's interface *)

Module ProofType.
Inductive ProofType : Type :=
  | Uninitialized
  | ZeroCiphertext
  | CiphertextCiphertextEquality
  | CiphertextCommitmentEquality
  | PubkeyValidity
  | PercentageWithCap
  | BatchedRangeProofU64
  | BatchedRangeProofU128
  | BatchedRangeProofU256
  | GroupedCiphertext2HandlesValidity
  | BatchedGroupedCiphertext2HandlesValidity
  | GroupedCiphertext3HandlesValidity
  | BatchedGroupedCiphertext3HandlesValidity.
End ProofType.
Abbreviation ProofType := ProofType.ProofType.

Module ProofInstruction.
Inductive ProofInstruction : Type :=
  | CloseContextState
  | VerifyZeroCiphertext
  | VerifyCiphertextCiphertextEquality
  | VerifyCiphertextCommitmentEquality
  | VerifyPubkeyValidity
  | VerifyPercentageWithCap
  | VerifyBatchedRangeProofU64
  | VerifyBatchedRangeProofU128
  | VerifyBatchedRangeProofU256
  | VerifyGroupedCiphertext2HandlesValidity
  | VerifyBatchedGroupedCiphertext2HandlesValidity
  | VerifyGroupedCiphertext3HandlesValidity
  | VerifyBatchedGroupedCiphertext3HandlesValidity.
End ProofInstruction.
Abbreviation ProofInstruction := ProofInstruction.ProofInstruction.

#[export] Instance ProofInstruction_eq_dec : EqDecision ProofInstruction.
Proof. solve_decision. Defined.

Abbreviation PodPedersenCommitment := (Bytes 32) (only parsing).

(** Amounts encrypted for two or three keys with one commitment, the proof
    program, and the instructions sysvar. *)
Class ZkInterface : Type := mk_zk_interface {
  (** [solana_zk_elgamal_proof_interface::id()]. *)
  zk_id : Address;
  (** [PodProofType::from]. *)
  zk_proof_type_into : ProofType -> byte;
  (** [ProofInstruction::instruction_type]. *)
  zk_instruction_type : list byte -> option ProofInstruction;
  (** [get_instruction_relative], on the key and the data of the sysvar: the
      program and the data of the instruction. *)
  zk_get_instruction_relative : Z -> Address -> list byte -> Result ProgramError (Address * list byte);
  PodGroupedElGamalCiphertext2Handles : Type;
  g2_try_extract_ciphertext : PodGroupedElGamalCiphertext2Handles -> nat -> option PodElGamalCiphertext;
  g2_extract_commitment : PodGroupedElGamalCiphertext2Handles -> PodPedersenCommitment;
  PodGroupedElGamalCiphertext3Handles : Type;
  g3_try_extract_ciphertext : PodGroupedElGamalCiphertext3Handles -> nat -> option PodElGamalCiphertext;
  g3_extract_commitment : PodGroupedElGamalCiphertext3Handles -> PodPedersenCommitment
}.

(** How a context [U] is stored: in a [ProofContextState<U>], with the byte of
    its proof type, and in the data of a verifying instruction. *)
Class ZkContext (U : Type) : Type := mk_zk_context {
  zk_context_state : list byte -> option (byte * U);
  zk_proof_data : ProofType -> list byte -> option U
}.

(** The contexts, with the fields that the source destructures. *)
Record PubkeyValidityProofContext : Type := mk_pubkey_validity {
  pv_pubkey : PodElGamalPubkey
}.

Record ZeroCiphertextProofContext : Type := mk_zero_ciphertext {
  zc_pubkey : PodElGamalPubkey;
  zc_ciphertext : PodElGamalCiphertext
}.

Record CiphertextCiphertextEqualityProofContext : Type := mk_ciphertext_equality {
  cce_first_pubkey : PodElGamalPubkey;
  cce_second_pubkey : PodElGamalPubkey;
  cce_first_ciphertext : PodElGamalCiphertext;
  cce_second_ciphertext : PodElGamalCiphertext
}.

Record CiphertextCommitmentEqualityProofContext : Type := mk_commitment_equality {
  eq_pubkey : PodElGamalPubkey;
  eq_ciphertext : PodElGamalCiphertext;
  eq_commitment : PodPedersenCommitment
}.

Record BatchedRangeProofContext : Type := mk_batched_range {
  range_commitments : list PodPedersenCommitment;
  range_bit_lengths : list byte
}.

Record PercentageWithCapProofContext : Type := mk_percentage_with_cap {
  pwc_percentage_commitment : PodPedersenCommitment;
  pwc_delta_commitment : PodPedersenCommitment;
  pwc_claimed_commitment : PodPedersenCommitment;
  pwc_max_value : U64
}.

Section contexts.
Context `{ZK : ZkInterface}.

Record BatchedGroupedCiphertext2HandlesValidityProofContext : Type := mk_grouped_2 {
  g2_first_pubkey : PodElGamalPubkey;
  g2_second_pubkey : PodElGamalPubkey;
  g2_grouped_ciphertext_lo : PodGroupedElGamalCiphertext2Handles;
  g2_grouped_ciphertext_hi : PodGroupedElGamalCiphertext2Handles
}.

Record BatchedGroupedCiphertext3HandlesValidityProofContext : Type := mk_grouped_3 {
  g3_first_pubkey : PodElGamalPubkey;
  g3_second_pubkey : PodElGamalPubkey;
  g3_third_pubkey : PodElGamalPubkey;
  g3_grouped_ciphertext_lo : PodGroupedElGamalCiphertext3Handles;
  g3_grouped_ciphertext_hi : PodGroupedElGamalCiphertext3Handles
}.

(** [try_extract_ciphertext] of the wrappers in [encryption.rs]. *)
Definition try_extract_ciphertext2 (ciphertext : PodGroupedElGamalCiphertext2Handles) (index : nat)
    : Result TokenProofExtractionError PodElGamalCiphertext :=
  ok_or (g2_try_extract_ciphertext ciphertext index) TokenProofExtractionError.CiphertextExtraction.
Definition try_extract_ciphertext3 (ciphertext : PodGroupedElGamalCiphertext3Handles) (index : nat)
    : Result TokenProofExtractionError PodElGamalCiphertext :=
  ok_or (g3_try_extract_ciphertext ciphertext index) TokenProofExtractionError.CiphertextExtraction.
End contexts.

(** Every context that the processors read can be decoded. *)
Class ZkContexts `{ZK : ZkInterface} : Type := mk_zk_contexts {
  #[global] zk_pubkey_validity :: ZkContext PubkeyValidityProofContext;
  #[global] zk_zero_ciphertext :: ZkContext ZeroCiphertextProofContext;
  #[global] zk_ciphertext_equality :: ZkContext CiphertextCiphertextEqualityProofContext;
  #[global] zk_commitment_equality :: ZkContext CiphertextCommitmentEqualityProofContext;
  #[global] zk_batched_range :: ZkContext BatchedRangeProofContext;
  #[global] zk_percentage_with_cap :: ZkContext PercentageWithCapProofContext;
  #[global] zk_grouped_2 :: ZkContext BatchedGroupedCiphertext2HandlesValidityProofContext;
  #[global] zk_grouped_3 :: ZkContext BatchedGroupedCiphertext3HandlesValidityProofContext
}.

(** ** [instruction.rs] *)

Section extract.
Context `{ZK : ZkInterface}.

Definition check_zk_elgamal_proof_program_account (zk_elgamal_proof_program_id : Address)
    : Result ProgramError unit :=
  fail_if (negb (bool_decide (zk_elgamal_proof_program_id = zk_id))) ProgramError.IncorrectProgramId.

Definition zk_proof_type_to_instruction (proof_type : ProofType)
    : Result ProgramError ProofInstruction :=
  match proof_type with
  | ProofType.ZeroCiphertext => Ok ProofInstruction.VerifyZeroCiphertext
  | ProofType.CiphertextCiphertextEquality =>
      Ok ProofInstruction.VerifyCiphertextCiphertextEquality
  | ProofType.PubkeyValidity => Ok ProofInstruction.VerifyPubkeyValidity
  | ProofType.BatchedRangeProofU64 => Ok ProofInstruction.VerifyBatchedRangeProofU64
  | ProofType.BatchedRangeProofU128 => Ok ProofInstruction.VerifyBatchedRangeProofU128
  | ProofType.BatchedRangeProofU256 => Ok ProofInstruction.VerifyBatchedRangeProofU256
  | ProofType.CiphertextCommitmentEquality =>
      Ok ProofInstruction.VerifyCiphertextCommitmentEquality
  | ProofType.GroupedCiphertext2HandlesValidity =>
      Ok ProofInstruction.VerifyGroupedCiphertext2HandlesValidity
  | ProofType.BatchedGroupedCiphertext2HandlesValidity =>
      Ok ProofInstruction.VerifyBatchedGroupedCiphertext2HandlesValidity
  | ProofType.PercentageWithCap => Ok ProofInstruction.VerifyPercentageWithCap
  | ProofType.GroupedCiphertext3HandlesValidity =>
      Ok ProofInstruction.VerifyGroupedCiphertext3HandlesValidity
  | ProofType.BatchedGroupedCiphertext3HandlesValidity =>
      Ok ProofInstruction.VerifyBatchedGroupedCiphertext3HandlesValidity
  | ProofType.Uninitialized => Err ProgramError.InvalidInstructionData
  end.

(** The type parameter [T] of the source is its [PROOF_TYPE]. *)
Definition decode_proof_instruction_context (U : Type) `{ZkContext U} (proof_type : ProofType)
    (expected : ProofInstruction) (instruction : Address * list byte) : Result ProgramError U :=
  let '(program_id, data) := instruction in
  if negb (bool_decide (program_id = zk_id)) ||
     negb (bool_decide (zk_instruction_type data = Some expected))
  then Err ProgramError.InvalidInstructionData
  else ok_or (zk_proof_data proof_type data) ProgramError.InvalidInstructionData.

(** The context and the rest of the accounts. *)
Definition verify_and_extract_context (U : Type) `{ZkContext U} (proof_type : ProofType)
    (held : list Borrow) (account_info_iter : list AccountInfo) (proof_instruction_offset : Z)
    (sysvar_account_info : option AccountInfo) : M (U * list AccountInfo) :=
  if proof_instruction_offset =? 0 then
    '(context_state_account_info, iter) ← lift (next_account_info account_info_iter);
    owner ← info_owner context_state_account_info;
    _ ← lift (check_zk_elgamal_proof_program_account owner);
    context_state_account_data ← borrow held context_state_account_info;
    '(proof_type_byte, context) ← lift (ok_or (zk_context_state context_state_account_data)
                                         ProgramError.InvalidArgument);
    _ ← bail_if (negb (bool_decide (proof_type_byte = zk_proof_type_into proof_type)))
          ProgramError.InvalidInstructionData;
    mret (context, iter)
  else
    '(sysvar_account_info, iter) ←
      match sysvar_account_info with
      | Some sysvar_account_info => mret (sysvar_account_info, account_info_iter)
      | None => lift (next_account_info account_info_iter)
      end;
    sysvar_data ← data_of sysvar_account_info;
    zkp_instruction ← lift (zk_get_instruction_relative proof_instruction_offset
                              (key sysvar_account_info) sysvar_data);
    expected_proof_type ← lift (zk_proof_type_to_instruction proof_type);
    context ← lift (decode_proof_instruction_context U proof_type expected_proof_type
                      zkp_instruction);
    mret (context, iter).

(** The processors take the sysvar first when any proof is in the transaction. *)
Definition proof_sysvar (offsets : list Z) (account_info_iter : list AccountInfo)
    : Result ProgramError (option AccountInfo * list AccountInfo) :=
  if existsb (fun offset => negb (offset =? 0)) offsets then
    '(sysvar_account_info, iter) ← next_account_info account_info_iter;
    mret (Some sysvar_account_info, iter)
  else mret (None, account_info_iter).

End extract.

(** ** Consistency of the contexts *)

(** [a.iter().zip(b).all(|(x, y)| x == y)]. *)
Definition zip_all_equal {A} `{EqDecision A} (a b : list A) : bool :=
  forallb (fun p => bool_decide (p.1 = p.2)) (zip a b).

(** [l[0] != x], which panics on an empty list. *)
Definition first_differs {A} `{EqDecision A} (l : list A) (x : A)
    : Result TokenProofExtractionError bool :=
  match l with [] => Panic | y :: _ => Ok (negb (bool_decide (y = x))) end.

Definition bits (l : list Z) : list byte := u8_of_Z <$> l.

Definition check (cond : bool) (e : TokenProofExtractionError)
    : Result TokenProofExtractionError unit :=
  if cond then Ok tt else Err e.

Record WithdrawProofContext : Type := mk_withdraw_proof {
  wp_source_pubkey : PodElGamalPubkey;
  wp_remaining_balance_ciphertext : PodElGamalCiphertext
}.

Definition WithdrawProofContext_verify_and_extract
    (equality_proof_context : CiphertextCommitmentEqualityProofContext)
    (range_proof_context : BatchedRangeProofContext)
    : Result TokenProofExtractionError WithdrawProofContext :=
  differs ← first_differs (range_commitments range_proof_context)
              (eq_commitment equality_proof_context);
  _ ← check (negb differs) TokenProofExtractionError.PedersenCommitmentMismatch;
  differs ← first_differs (range_bit_lengths range_proof_context) (u8_of_Z 64);
  _ ← check (negb differs) TokenProofExtractionError.RangeProofLengthMismatch;
  mret (mk_withdraw_proof (eq_pubkey equality_proof_context) (eq_ciphertext equality_proof_context)).

Section consistency.
Context `{ZK : ZkInterface}.

Record TransferPubkeys : Type := mk_transfer_pubkeys {
  tp_source : PodElGamalPubkey;
  tp_destination : PodElGamalPubkey;
  tp_auditor : PodElGamalPubkey
}.

Record TransferProofContext : Type := mk_transfer_proof {
  tp_ciphertext_lo : PodGroupedElGamalCiphertext3Handles;
  tp_ciphertext_hi : PodGroupedElGamalCiphertext3Handles;
  tp_transfer_pubkeys : TransferPubkeys;
  tp_new_source_ciphertext : PodElGamalCiphertext
}.

Definition TransferProofContext_verify_and_extract
    (equality_proof_context : CiphertextCommitmentEqualityProofContext)
    (ciphertext_validity_proof_context : BatchedGroupedCiphertext3HandlesValidityProofContext)
    (range_proof_context : BatchedRangeProofContext)
    : Result TokenProofExtractionError TransferProofContext :=
  let transfer_amount_ciphertext_lo := g3_grouped_ciphertext_lo ciphertext_validity_proof_context in
  let transfer_amount_ciphertext_hi := g3_grouped_ciphertext_hi ciphertext_validity_proof_context in
  _ ← check (bool_decide (eq_pubkey equality_proof_context =
                          g3_first_pubkey ciphertext_validity_proof_context))
        TokenProofExtractionError.ElGamalPubkeyMismatch;
  let expected_commitments :=
    [eq_commitment equality_proof_context;
     g3_extract_commitment transfer_amount_ciphertext_lo;
     g3_extract_commitment transfer_amount_ciphertext_hi] in
  _ ← check (zip_all_equal (range_commitments range_proof_context) expected_commitments)
        TokenProofExtractionError.PedersenCommitmentMismatch;
  _ ← check (zip_all_equal (range_bit_lengths range_proof_context) (bits [64; 16; 32; 16]))
        TokenProofExtractionError.RangeProofLengthMismatch;
  mret (mk_transfer_proof transfer_amount_ciphertext_lo transfer_amount_ciphertext_hi
    (mk_transfer_pubkeys (eq_pubkey equality_proof_context)
       (g3_second_pubkey ciphertext_validity_proof_context)
       (g3_third_pubkey ciphertext_validity_proof_context))
    (eq_ciphertext equality_proof_context)).

Record MintPubkeys : Type := mk_mint_pubkeys {
  mp_destination : PodElGamalPubkey;
  mp_supply : PodElGamalPubkey;
  mp_auditor : PodElGamalPubkey
}.

Record MintProofContext : Type := mk_mint_proof {
  mp_mint_amount_ciphertext_lo : PodGroupedElGamalCiphertext3Handles;
  mp_mint_amount_ciphertext_hi : PodGroupedElGamalCiphertext3Handles;
  mp_mint_pubkeys : MintPubkeys;
  mp_new_supply_ciphertext : PodElGamalCiphertext
}.

Definition MintProofContext_verify_and_extract
    (equality_proof_context : CiphertextCommitmentEqualityProofContext)
    (ciphertext_validity_proof_context : BatchedGroupedCiphertext3HandlesValidityProofContext)
    (range_proof_context : BatchedRangeProofContext)
    : Result TokenProofExtractionError MintProofContext :=
  let mint_amount_ciphertext_lo := g3_grouped_ciphertext_lo ciphertext_validity_proof_context in
  let mint_amount_ciphertext_hi := g3_grouped_ciphertext_hi ciphertext_validity_proof_context in
  _ ← check (bool_decide (eq_pubkey equality_proof_context =
                          g3_second_pubkey ciphertext_validity_proof_context))
        TokenProofExtractionError.ElGamalPubkeyMismatch;
  let expected_commitments :=
    [eq_commitment equality_proof_context;
     g3_extract_commitment mint_amount_ciphertext_lo;
     g3_extract_commitment mint_amount_ciphertext_hi] in
  _ ← check (zip_all_equal (range_commitments range_proof_context) expected_commitments)
        TokenProofExtractionError.PedersenCommitmentMismatch;
  _ ← check (zip_all_equal (range_bit_lengths range_proof_context) (bits [64; 16; 32; 16]))
        TokenProofExtractionError.RangeProofLengthMismatch;
  mret (mk_mint_proof mint_amount_ciphertext_lo mint_amount_ciphertext_hi
    (mk_mint_pubkeys (g3_first_pubkey ciphertext_validity_proof_context)
       (eq_pubkey equality_proof_context)
       (g3_third_pubkey ciphertext_validity_proof_context))
    (eq_ciphertext equality_proof_context)).

Record BurnPubkeys : Type := mk_burn_pubkeys {
  bp_source : PodElGamalPubkey;
  bp_supply : PodElGamalPubkey;
  bp_auditor : PodElGamalPubkey
}.

Record BurnProofContext : Type := mk_burn_proof {
  bp_burn_amount_ciphertext_lo : PodGroupedElGamalCiphertext3Handles;
  bp_burn_amount_ciphertext_hi : PodGroupedElGamalCiphertext3Handles;
  bp_burn_pubkeys : BurnPubkeys;
  bp_remaining_balance_ciphertext : PodElGamalCiphertext
}.

Definition BurnProofContext_verify_and_extract
    (equality_proof_context : CiphertextCommitmentEqualityProofContext)
    (ciphertext_validity_proof_context : BatchedGroupedCiphertext3HandlesValidityProofContext)
    (range_proof_context : BatchedRangeProofContext)
    : Result TokenProofExtractionError BurnProofContext :=
  let burn_amount_ciphertext_lo := g3_grouped_ciphertext_lo ciphertext_validity_proof_context in
  let burn_amount_ciphertext_hi := g3_grouped_ciphertext_hi ciphertext_validity_proof_context in
  _ ← check (bool_decide (eq_pubkey equality_proof_context =
                          g3_first_pubkey ciphertext_validity_proof_context))
        TokenProofExtractionError.ElGamalPubkeyMismatch;
  let expected_commitments :=
    [eq_commitment equality_proof_context;
     g3_extract_commitment burn_amount_ciphertext_lo;
     g3_extract_commitment burn_amount_ciphertext_hi] in
  _ ← check (zip_all_equal (range_commitments range_proof_context) expected_commitments)
        TokenProofExtractionError.PedersenCommitmentMismatch;
  _ ← check (zip_all_equal (range_bit_lengths range_proof_context) (bits [64; 16; 32; 16]))
        TokenProofExtractionError.RangeProofLengthMismatch;
  mret (mk_burn_proof burn_amount_ciphertext_lo burn_amount_ciphertext_hi
    (mk_burn_pubkeys (eq_pubkey equality_proof_context)
       (g3_second_pubkey ciphertext_validity_proof_context)
       (g3_third_pubkey ciphertext_validity_proof_context))
    (eq_ciphertext equality_proof_context)).

End consistency.

(** ** Transfers with a fee *)

Module transfer_with_fee.
Definition MAX_FEE_BASIS_POINTS_SUB_ONE : Z := 9999.
Definition MAX_FEE_BASIS_POINTS : Z := 10000.

(** The generator [G] of this file is that of [ciphertext_arithmetic]. *)
Definition G : PodRistrettoPoint := bytes_of_list 32 (u8_of_Z <$>
  [226; 242; 174; 10; 106; 188; 78; 113; 168; 132; 169; 97; 197; 0; 81; 95; 88; 227; 11; 106; 165;
   130; 221; 141; 182; 166; 89; 69; 224; 141; 45; 118]).

Definition u64_to_scalar (amount : Z) : PodScalar := bytes_of_list 32 (to_le_bytes 8 amount).
Definition u16_to_scalar (amount : Z) : PodScalar := bytes_of_list 32 (to_le_bytes 2 amount).

Definition commitment_to_ristretto (commitment : PodPedersenCommitment) : PodRistrettoPoint :=
  commitment.

Section fee.
Context `{CV : CurveInterface} `{ZK : ZkInterface}.

Record TransferWithFeePubkeys : Type := mk_transfer_with_fee_pubkeys {
  tf_source : PodElGamalPubkey;
  tf_destination : PodElGamalPubkey;
  tf_auditor : PodElGamalPubkey;
  tf_withdraw_withheld_authority : PodElGamalPubkey
}.

Record TransferWithFeeProofContext : Type := mk_transfer_with_fee_proof {
  tf_ciphertext_lo : PodGroupedElGamalCiphertext3Handles;
  tf_ciphertext_hi : PodGroupedElGamalCiphertext3Handles;
  tf_transfer_with_fee_pubkeys : TransferWithFeePubkeys;
  tf_new_source_ciphertext : PodElGamalCiphertext;
  tf_fee_ciphertext_lo : PodGroupedElGamalCiphertext2Handles;
  tf_fee_ciphertext_hi : PodGroupedElGamalCiphertext2Handles
}.

Definition combine_lo_hi_pedersen_points (point_lo point_hi : PodRistrettoPoint)
    : option PodRistrettoPoint :=
  let scaling_constant_scalar := u64_to_scalar 65536 in
  scaled_point_hi ← multiply_ristretto scaling_constant_scalar point_hi;
  add_ristretto point_lo scaled_point_hi.

(** [.ok_or(TokenProofExtractionError::CurveArithmetic)]. *)
Definition curve_ok {A} (o : option A) : Result TokenProofExtractionError A :=
  ok_or o TokenProofExtractionError.CurveArithmetic.

Definition verify_delta_commitment
    (transfer_amount_commitment_lo transfer_amount_commitment_hi : PodPedersenCommitment)
    (fee_commitment proof_delta_commitment : PodPedersenCommitment)
    (transfer_fee_basis_points : Z) : Result TokenProofExtractionError unit :=
  transfer_amount_point ← curve_ok (combine_lo_hi_pedersen_points
    (commitment_to_ristretto transfer_amount_commitment_lo)
    (commitment_to_ristretto transfer_amount_commitment_hi));
  let transfer_fee_basis_points_scalar := u16_to_scalar transfer_fee_basis_points in
  scaled_transfer_amount_point ← curve_ok (multiply_ristretto transfer_fee_basis_points_scalar
                                             transfer_amount_point);
  let max_fee_basis_points_scalar := u64_to_scalar MAX_FEE_BASIS_POINTS in
  let fee_point := commitment_to_ristretto fee_commitment in
  scaled_fee_point ← curve_ok (multiply_ristretto max_fee_basis_points_scalar fee_point);
  expected_delta_commitment_point ← curve_ok (subtract_ristretto scaled_fee_point
                                                scaled_transfer_amount_point);
  let proof_delta_commitment_point := commitment_to_ristretto proof_delta_commitment in
  check (bool_decide (expected_delta_commitment_point = proof_delta_commitment_point))
    TokenProofExtractionError.CurveArithmetic.

Definition verify_and_extract
    (equality_proof_context : CiphertextCommitmentEqualityProofContext)
    (transfer_amount_ciphertext_validity_proof_context :
       BatchedGroupedCiphertext3HandlesValidityProofContext)
    (fee_sigma_proof_context : PercentageWithCapProofContext)
    (fee_ciphertext_validity_proof_context : BatchedGroupedCiphertext2HandlesValidityProofContext)
    (range_proof_context : BatchedRangeProofContext)
    (expected_fee_rate_basis_points expected_maximum_fee : Z)
    : Result TokenProofExtractionError TransferWithFeeProofContext :=
  let amount := transfer_amount_ciphertext_validity_proof_context in
  let transfer_amount_ciphertext_lo := g3_grouped_ciphertext_lo amount in
  let transfer_amount_ciphertext_hi := g3_grouped_ciphertext_hi amount in
  let fee_commitment := pwc_percentage_commitment fee_sigma_proof_context in
  let claimed_commitment := pwc_claimed_commitment fee_sigma_proof_context in
  _ ← check (expected_maximum_fee =? u64_get (pwc_max_value fee_sigma_proof_context))
        TokenProofExtractionError.FeeParametersMismatch;
  let fee_ciphertext_lo := g2_grouped_ciphertext_lo fee_ciphertext_validity_proof_context in
  let fee_ciphertext_hi := g2_grouped_ciphertext_hi fee_ciphertext_validity_proof_context in
  _ ← check (bool_decide (g3_second_pubkey amount =
                          g2_first_pubkey fee_ciphertext_validity_proof_context))
        TokenProofExtractionError.ElGamalPubkeyMismatch;
  let transfer_amount_commitment_lo := g3_extract_commitment transfer_amount_ciphertext_lo in
  let transfer_amount_commitment_hi := g3_extract_commitment transfer_amount_ciphertext_hi in
  let fee_commitment_lo := g2_extract_commitment fee_ciphertext_lo in
  let fee_commitment_hi := g2_extract_commitment fee_ciphertext_hi in
  let max_fee_basis_points_sub_one_scalar := u64_to_scalar MAX_FEE_BASIS_POINTS_SUB_ONE in
  max_fee_basis_points_sub_one_commitment ←
    curve_ok (multiply_ristretto max_fee_basis_points_sub_one_scalar G);
  claimed_complement_commitment ←
    curve_ok (subtract_ristretto max_fee_basis_points_sub_one_commitment
                (commitment_to_ristretto claimed_commitment));
  transfer_amount_point ← curve_ok (combine_lo_hi_pedersen_points
    (commitment_to_ristretto transfer_amount_commitment_lo)
    (commitment_to_ristretto transfer_amount_commitment_hi));
  let fee_commitment_point := commitment_to_ristretto fee_commitment in
  net_transfer_commitment_point ←
    curve_ok (subtract_ristretto transfer_amount_point fee_commitment_point);
  let expected_commitments :=
    [eq_commitment equality_proof_context; transfer_amount_commitment_lo;
     transfer_amount_commitment_hi; claimed_commitment; claimed_complement_commitment;
     fee_commitment_lo; fee_commitment_hi; net_transfer_commitment_point] in
  _ ← check (zip_all_equal (range_commitments range_proof_context) expected_commitments)
        TokenProofExtractionError.PedersenCommitmentMismatch;
  _ ← check (zip_all_equal (range_bit_lengths range_proof_context)
               (bits [64; 16; 32; 16; 16; 16; 32; 64]))
        TokenProofExtractionError.RangeProofLengthMismatch;
  let sigma_proof_fee_commitment_point := commitment_to_ristretto fee_commitment in
  validity_proof_fee_point ← curve_ok (combine_lo_hi_pedersen_points
    (commitment_to_ristretto fee_commitment_lo) (commitment_to_ristretto fee_commitment_hi));
  _ ← check (bool_decide (eq_pubkey equality_proof_context = g3_first_pubkey amount))
        TokenProofExtractionError.ElGamalPubkeyMismatch;
  _ ← check (bool_decide (validity_proof_fee_point = sigma_proof_fee_commitment_point))
        TokenProofExtractionError.FeeParametersMismatch;
  _ ← verify_delta_commitment transfer_amount_commitment_lo transfer_amount_commitment_hi
        fee_commitment (pwc_delta_commitment fee_sigma_proof_context)
        expected_fee_rate_basis_points;
  mret (mk_transfer_with_fee_proof transfer_amount_ciphertext_lo transfer_amount_ciphertext_hi
    (mk_transfer_with_fee_pubkeys (eq_pubkey equality_proof_context) (g3_second_pubkey amount)
       (g3_third_pubkey amount) (g2_second_pubkey fee_ciphertext_validity_proof_context))
    (eq_ciphertext equality_proof_context) fee_ciphertext_lo fee_ciphertext_hi).
End fee.
End transfer_with_fee.
