(* ===== verification/MonadTheory.v ===== *)
(** * Inversion of instruction computations

    What a successful computation of [M] did, step by step: each primitive has
    an equivalence between [m w = Ok (a, w')] and what it read and wrote.  The
    tactic [m_inv] applies them to a hypothesis until only facts are left; the
    proofs about the handlers are made of it. *)
From S2P Require Import Prelude Bytes Errors Ids Runtime Pod ExtensionState Extension TlvTheory ViewTheory.

Section inversion.
Context {A B : Type}.

Lemma M_bind_Ok (m : M A) (f : A -> M B) w r :
  (m ≫= f) w = Ok r <-> exists a w1, m w = Ok (a, w1) /\ f a w1 = Ok r.
Proof.
  unfold mbind, M_bind. destruct (m w) as [[a w1]|e|]; split; intros H; naive_solver.
Qed.

Lemma M_bind_step (m : M A) (f : A -> M B) w a w1 r :
  m w = Ok (a, w1) -> f a w1 = r -> (m ≫= f) w = r.
Proof. unfold mbind, M_bind. by intros -> <-. Qed.

Lemma M_ret_Ok (a : A) w r : (mret a : M A) w = Ok r <-> r = (a, w).
Proof. unfold mret, M_ret. split; [by intros [= <-]|by intros ->]. Qed.

Lemma lift_Ok (r : Result ProgramError A) w a w' : lift r w = Ok (a, w') <-> r = Ok a /\ w' = w.
Proof. unfold lift. destruct r; split; intros H; naive_solver. Qed.

Lemma throw_Ok e w (r : A * World) : throw e w = Ok r <-> False.
Proof. done. Qed.
End inversion.

Lemma invoke_kept f w w' u : invoke f w = Ok (u, w') -> f w = Ok w'.
Proof. unfold invoke. intros H. destruct (f w); by simplify_eq. Qed.

Lemma bail_if_Ok c e w u w' : bail_if c e w = Ok (u, w') <-> c = false /\ w' = w.
Proof. unfold bail_if. by rewrite lift_Ok, fail_if_Ok. Qed.

Lemma get_cell_Ok k w c w' : get_cell k w = Ok (c, w') <-> c = cell w k /\ w' = w.
Proof. unfold get_cell. split; [by intros [= <- <-]|by intros [-> ->]]. Qed.

Lemma put_cell_Ok k c w u w' : put_cell k c w = Ok (u, w') <-> w' = set_cell k c w.
Proof. unfold put_cell. destruct u. split; [by intros [= <-]|by intros ->]. Qed.

Lemma info_owner_Ok i w o w' :
  info_owner i w = Ok (o, w') <-> o = cell_owner (cell w (key i)) /\ w' = w.
Proof. unfold info_owner, get_cell, mbind, M_bind, mret, M_ret. naive_solver. Qed.

Lemma info_lamports_Ok i w l w' :
  info_lamports i w = Ok (l, w') <-> l = cell_lamports (cell w (key i)) /\ w' = w.
Proof. unfold info_lamports, get_cell, mbind, M_bind, mret, M_ret. naive_solver. Qed.

Lemma set_lamports_Ok i l w u w' :
  set_lamports i l w = Ok (u, w') <-> w' = set_cell (key i) (with_lamports l (cell w (key i))) w.
Proof. destruct u. unfold set_lamports, get_cell, put_cell, mbind, M_bind. naive_solver. Qed.

Lemma write_data_Ok i d w u w' :
  write_data i d w = Ok (u, w') <-> w' = set_cell (key i) (with_data d (cell w (key i))) w.
Proof. destruct u. unfold write_data, get_cell, put_cell, mbind, M_bind. naive_solver. Qed.

Lemma assign_Ok i o w u w' :
  assign i o w = Ok (u, w') <-> w' = set_cell (key i) (with_owner o (cell w (key i))) w.
Proof. destruct u. unfold assign, get_cell, put_cell, mbind, M_bind. naive_solver. Qed.

Lemma set_return_data_Ok d w u w' :
  set_return_data d w = Ok (u, w') <-> w' = mk_world (cells w) d.
Proof. destruct u. unfold set_return_data. naive_solver. Qed.

Lemma data_of_Ok i w d w' : data_of i w = Ok (d, w') <-> d = cell_data (cell w (key i)) /\ w' = w.
Proof. unfold data_of, get_cell, mbind, M_bind, mret, M_ret. naive_solver. Qed.

Lemma borrow_Ok held i w d w' :
  borrow held i w = Ok (d, w') <->
  existsb (conflicts_shared (key i)) held = false /\ d = cell_data (cell w (key i)) /\ w' = w.
Proof. unfold borrow. destruct (existsb _ _); rewrite ?data_of_Ok; naive_solver. Qed.

Lemma borrow_mut_Ok held i w d w' :
  borrow_mut held i w = Ok (d, w') <->
  existsb (conflicts_mut (key i)) held = false /\ d = cell_data (cell w (key i)) /\ w' = w.
Proof. unfold borrow_mut. destruct (existsb _ _); rewrite ?data_of_Ok; naive_solver. Qed.

Lemma try_borrow_data_Ok held i w d w' :
  try_borrow_data held i w = Ok (d, w') <->
  existsb (conflicts_shared (key i)) held = false /\ d = cell_data (cell w (key i)) /\ w' = w.
Proof. unfold try_borrow_data, throw. destruct (existsb _ _); rewrite ?data_of_Ok; naive_solver. Qed.

Lemma try_borrow_mut_data_Ok held i w d w' :
  try_borrow_mut_data held i w = Ok (d, w') <->
  existsb (conflicts_mut (key i)) held = false /\ d = cell_data (cell w (key i)) /\ w' = w.
Proof. unfold try_borrow_mut_data, throw. destruct (existsb _ _); rewrite ?data_of_Ok; naive_solver. Qed.

Lemma data_len_Ok held i w n w' :
  data_len held i w = Ok (n, w') <->
  existsb (conflicts_shared (key i)) held = false /\
  n = length (cell_data (cell w (key i))) /\ w' = w.
Proof.
  unfold data_len. rewrite M_bind_Ok. split.
  - intros (d & w1 & Hb & Hr). apply borrow_Ok in Hb as (? & -> & ->).
    apply M_ret_Ok in Hr. by injection Hr as -> ->.
  - intros (Hb & -> & ->). eexists _, _. rewrite borrow_Ok. split; [done|]. by apply M_ret_Ok.
Qed.

Lemma next_account_info_Ok l i rest :
  next_account_info l = Ok (i, rest) <-> l = i :: rest.
Proof. destruct l; simpl; naive_solver. Qed.

(** ** Reading the store after a write *)

Lemma cell_set_cell k c w : cell (set_cell k c w) k = c.
Proof. unfold cell, set_cell. simpl. by rewrite lookup_insert_eq. Qed.

Lemma cell_set_cell_ne k k' c w : k <> k' -> cell (set_cell k c w) k' = cell w k'.
Proof. intros. unfold cell, set_cell. simpl. by rewrite lookup_insert_ne. Qed.

Lemma cell_set_cell_case k k' c w :
  cell (set_cell k c w) k' = if decide (k = k') then c else cell w k'.
Proof. case_decide; subst; [apply cell_set_cell|by apply cell_set_cell_ne]. Qed.

#[export] Hint Rewrite cell_set_cell : token.
#[export] Hint Rewrite cell_set_cell_ne using done : token.

(** The store with the account at [k] holding the bytes of [st]: what writing
    a view back leaves. *)
Definition store {S} `{Pod S} (k : Address) (st : PodStateMut S) (w : World) : World :=
  set_cell k (with_data (repack st) (cell w k)) w.

Lemma store_comm {S T} `{Pod S, Pod T} k k' (st : PodStateMut S) (st' : PodStateMut T) w :
  k <> k' -> store k st (store k' st' w) = store k' st' (store k st w).
Proof.
  intros Hne. unfold store. rewrite !cell_set_cell_ne by done.
  unfold set_cell. simpl. by rewrite insert_insert_ne.
Qed.

Lemma write_repack_Ok {S} `{Pod S} i (st : PodStateMut S) w u w' :
  write_data i (repack st) w = Ok (u, w') <-> w' = store (key i) st w.
Proof. apply write_data_Ok. Qed.

(** ** The inversion tactic *)

(** Steps added by the files that follow. *)
Ltac m_hook := fail.

(** Use an equation that a step found. *)
Ltac m_sub E :=
  lazymatch type of E with
  | ?x = ?x => clear E
  | _ => try match type of E with
    | ?x = _ => is_var x; subst x
    | _ = ?x => is_var x; subst x
    end
  end.

(** One step on one hypothesis; [m_inv] repeats it and substitutes what the
    steps determine. *)
Ltac m_step :=
  match goal with
  | H : (_ ≫= _) ?w = Ok (_, _) |- _ =>
      let a := fresh "a" in let w1 := fresh "w" in let H1 := fresh "Hm" in
      apply M_bind_Ok in H as (a & w1 & H1 & H); cbn beta in H
  | H : when ?c _ _ = Ok (_, _) |- _ => unfold when in H; destruct c eqn:?
  | H : (let '(_, _) := ?p in _) _ = Ok _ |- _ => first [is_var p; destruct p|cbn iota beta in H]
  | H : (let '(_, _) := ?p in _) = Ok _ |- _ => first [is_var p; destruct p|cbn iota beta in H]
  | u : unit |- _ => destruct u
  | H : mret _ _ = Ok (_, _) |- _ => apply M_ret_Ok in H; injection H; clear H; intros; subst
  | H : mret _ = Ok _ |- _ => apply (proj1 (ret_Ok _ _)) in H; simplify_eq
  | H : throw _ _ = Ok _ |- _ => apply throw_Ok in H; destruct H
  | H : lift _ _ = Ok (_, _) |- _ => let E := fresh in apply lift_Ok in H as [H E]; m_sub E
  | H : bail_if _ _ _ = Ok (_, _) |- _ => let E := fresh in apply bail_if_Ok in H as [H E]; m_sub E
  | H : get_cell _ _ = Ok (_, _) |- _ => let E := fresh in apply get_cell_Ok in H as [H E]; m_sub H; m_sub E
  | H : info_owner _ _ = Ok (_, _) |- _ => let E := fresh in apply info_owner_Ok in H as [H E]; m_sub H; m_sub E
  | H : info_lamports _ _ = Ok (_, _) |- _ => let E := fresh in apply info_lamports_Ok in H as [H E]; m_sub H; m_sub E
  | H : set_lamports _ _ _ = Ok (_, _) |- _ => apply set_lamports_Ok in H; m_sub H
  | H : write_data _ (repack _) _ = Ok (_, _) |- _ => apply write_repack_Ok in H; m_sub H
  | H : write_data _ _ _ = Ok (_, _) |- _ => apply write_data_Ok in H; m_sub H
  | H : assign _ _ _ = Ok (_, _) |- _ => apply assign_Ok in H; m_sub H
  | H : borrow _ _ _ = Ok (_, _) |- _ => let E := fresh in let F := fresh in apply borrow_Ok in H as (H & E & F); m_sub E; m_sub F
  | H : borrow_mut _ _ _ = Ok (_, _) |- _ => let E := fresh in let F := fresh in apply borrow_mut_Ok in H as (H & E & F); m_sub E; m_sub F
  | H : try_borrow_data _ _ _ = Ok (_, _) |- _ => let E := fresh in let F := fresh in apply try_borrow_data_Ok in H as (H & E & F); m_sub E; m_sub F
  | H : try_borrow_mut_data _ _ _ = Ok (_, _) |- _ =>
      let E := fresh in let F := fresh in apply try_borrow_mut_data_Ok in H as (H & E & F); m_sub E; m_sub F
  | H : data_len _ _ _ = Ok (_, _) |- _ => let E := fresh in let F := fresh in apply data_len_Ok in H as (H & E & F); m_sub E; m_sub F
  | H : Ok _ = Ok _ |- _ => injection H; clear H; intros; subst
  | H : Err _ = Ok _ |- _ => discriminate H
  | H : Panic = Ok _ |- _ => discriminate H
  | H : next_account_info _ = Ok (_, _) |- _ => apply next_account_info_Ok in H; subst
  | H : next_account_info _ = Ok ?p |- _ => is_var p; destruct p
  | H : fail_if _ _ = Ok _ |- _ => apply fail_if_Ok in H
  | H : ok_or _ _ = Ok _ |- _ => apply ok_or_Ok in H
  | H : (_ ≫= _) = Ok _ |- _ =>
      let a := fresh "a" in let H1 := fresh "Hm" in
      apply bind_Ok in H as (a & H1 & H); cbn beta in H
  | H : try_from_bytes _ = Some _ |- _ => apply try_from_bytes_Some in H
  | H : negb _ = false |- _ => apply negb_false_iff in H
  | H : negb _ = true |- _ => apply negb_true_iff in H
  | H : bool_decide _ = true |- _ => apply bool_decide_eq_true in H
  | H : bool_decide _ = false |- _ => apply bool_decide_eq_false in H
  | H : _ && _ = true |- _ => apply andb_true_iff in H as [? H]
  | H : _ || _ = false |- _ => apply orb_false_iff in H as [? H]
  | H : (_ <? _) = false |- _ => apply Z.ltb_ge in H
  | H : u64_checked_add _ _ = Some _ |- _ => apply u64_checked_add_Some in H as [H ?]; m_sub H
  | H : u64_checked_sub _ _ = Some _ |- _ => apply u64_checked_sub_Some in H as [H ?]; m_sub H
  | H : Some _ = Some _ |- _ => injection H; clear H; intros; subst
  | H : _ :: _ = _ :: _ |- _ => injection H; clear H; intros; subst
  | _ => m_hook
  end.
Ltac m_inv := repeat m_step.
Ltac m_cases := repeat first [m_step | case_match].
