(* ===== verification/Ownership.v ===== *)
(** * Authorization

    [Processor::validate_owner] of [program/src/processor.rs]: the expected
    authority is the given account, and that account either signed or is a
    multisig of which enough positions are matched by signers.  The queries and
    the field updates that handlers share are here too. *)
From S2P Require Import Prelude Bytes Errors Ids Runtime Pod ExtensionState Extension TlvTheory.
From S2P Require Import ViewTheory MonadTheory.

(** The inner loop over the multisig's keys for one signer account. *)
Fixpoint match_keys (signer : AccountInfo) (keys : list Address) (position : nat)
    (matched : list bool) (num_signers : nat) : Result ProgramError (list bool * nat) :=
  match keys with
  | [] => Ok (matched, num_signers)
  | k :: keys =>
      if bool_decide (k = key signer) && negb (default false (matched !! position)) then
        if negb (is_signer signer) then Err ProgramError.MissingRequiredSignature
        else match_keys signer keys (S position) (<[position := true]> matched) (S num_signers)
      else match_keys signer keys (S position) matched num_signers
  end.

(** The outer loop over the signer accounts. *)
Fixpoint match_signers (infos : list AccountInfo) (keys : list Address)
    (matched : list bool) (num_signers : nat) : Result ProgramError (list bool * nat) :=
  match infos with
  | [] => Ok (matched, num_signers)
  | signer :: infos =>
      '(matched, num_signers) ← match_keys signer keys 0 matched num_signers;
      match_signers infos keys matched num_signers
  end.

(** The checks on the multisig; the slice [signers[0..n]] panics past the array. *)
Definition validate_multisig (multisig : PodMultisig) (infos : list AccountInfo)
    : Result ProgramError unit :=
  if negb (bool_get (multisig_is_initialized multisig)) then Err ProgramError.UninitializedAccount
  else
    let n := Z.to_nat (u8_to_Z (multisig_n multisig)) in
    if (MAX_SIGNERS <? n)%nat then Panic
    else
      '(_, num_signers) ← match_signers infos (take n (signers multisig))
        (replicate MAX_SIGNERS false) 0;
      fail_if (Z.of_nat num_signers <? u8_to_Z (multisig_m multisig))
        ProgramError.MissingRequiredSignature.

Definition owned_by_token_program (program_id owner : Address) : bool :=
  bool_decide (program_id = owner) || bool_decide (owner = inline_spl_token.id) ||
  bool_decide (owner = id).

Definition validate_owner (held : list Borrow) (program_id expected_owner : Address)
    (owner_account_info : AccountInfo) (owner_account_data_len : nat)
    (infos : list AccountInfo) : M unit :=
  _ ← bail_if (negb (bool_decide (expected_owner = key owner_account_info)))
        TokenError.OwnerMismatch;
  o ← info_owner owner_account_info;
  if owned_by_token_program program_id o && (owner_account_data_len =? size_of PodMultisig)%nat then
    multisig_data ← borrow held owner_account_info;
    multisig ← lift (ok_or (try_from_bytes (A := PodMultisig) multisig_data)
                       ProgramError.InvalidArgument);
    lift (validate_multisig multisig infos)
  else bail_if (negb (is_signer owner_account_info)) ProgramError.MissingRequiredSignature.

(** ** What the loops compute *)

(** The first of the accounts with address [k]. *)
Definition first_with_key (k : Address) (infos : list AccountInfo) : option AccountInfo :=
  head (filter (fun i => key i = k) infos).

Definition is_matched (infos : list AccountInfo) (k : Address) : bool :=
  bool_decide (k ∈ key <$> infos).

(** The number of positions whose key is among the given accounts. *)
Definition matched_count (infos : list AccountInfo) (keys : list Address) : nat :=
  length (filter (fun k => is_matched infos k = true) keys).

(** Each account that is the first to match a key is a signer. *)
Definition matches_sign (infos : list AccountInfo) (keys : list Address) : Prop :=
  forall k s, k ∈ keys -> first_with_key k infos = Some s -> is_signer s = true.

(** The keys of [keys] that [s] is the first to match. *)
Definition new_matches (f : Address -> bool) (s : AccountInfo) (keys : list Address) : nat :=
  length (filter (fun k => k = key s /\ f k = false) keys).

Definition mark (f : Address -> bool) (s : AccountInfo) (k : Address) : bool :=
  f k || bool_decide (k = key s).

Lemma match_keys_spec s f pre keys pad num :
  match_keys s keys (length pre) (pre ++ (f <$> keys) ++ pad) num =
  if negb (is_signer s) && negb (f (key s)) && bool_decide (key s ∈ keys)
  then Err ProgramError.MissingRequiredSignature
  else Ok (pre ++ (mark f s <$> keys) ++ pad, (num + new_matches f s keys)%nat).
Proof.
  revert pre num. induction keys as [|k keys IH]; intros pre num; simpl match_keys.
  { rewrite bool_decide_false by apply not_elem_of_nil. rewrite andb_false_r.
    unfold new_matches. simpl. by rewrite Nat.add_0_r. }
  rewrite !fmap_cons. simpl app. rewrite list_lookup_middle by done.
  simpl default. unfold new_matches. rewrite filter_cons.
  assert (bool_decide (key s ∈ k :: keys) = bool_decide (k = key s) || bool_decide (key s ∈ keys))
    as ->.
  { apply eq_true_iff_eq. rewrite orb_true_iff, !bool_decide_eq_true, elem_of_cons. naive_solver. }
  assert (forall b num', (if negb (is_signer s) && negb (f (key s)) && bool_decide (key s ∈ keys)
      then Err ProgramError.MissingRequiredSignature
      else Ok ((pre ++ [b]) ++ (mark f s <$> keys) ++ pad, (num' + new_matches f s keys)%nat)) =
    match_keys s keys (S (length pre)) (pre ++ b :: (f <$> keys) ++ pad) num') as Hrec.
  { intros b num'. rewrite <- IH, length_app, <- app_assoc. f_equal. simpl. lia. }
  destruct (decide (k = key s)) as [->|Hk].
  - rewrite bool_decide_true by done. destruct (f (key s)) eqn:Hf; cbn [andb negb orb].
    + rewrite <- Hrec. cbn [negb]. rewrite !andb_false_r. cbn [andb].
      assert (mark f s (key s) = true) as -> by (unfold mark; by rewrite Hf).
      rewrite decide_False by naive_solver. by rewrite <- app_assoc.
    + destruct (is_signer s); cbn [negb andb]; [|done].
      rewrite insert_app_r_alt, Nat.sub_diag by lia. cbn [list_insert insert].
      rewrite <- (Hrec true). cbn [negb andb]. rewrite decide_True by done.
      assert (mark f s (key s) = true) as -> by
        (unfold mark; by rewrite bool_decide_true, orb_true_r).
      rewrite <- app_assoc. do 2 f_equal. simpl. unfold new_matches. lia.
  - rewrite bool_decide_false by done. cbn [andb orb]. rewrite <- Hrec.
    rewrite decide_False by naive_solver.
    assert (mark f s k = f k) as -> by
      (unfold mark; by rewrite bool_decide_false, orb_false_r).
    by rewrite <- app_assoc.
Qed.

Lemma is_matched_snoc prev s k : is_matched (prev ++ [s]) k = mark (is_matched prev) s k.
Proof.
  unfold is_matched, mark. apply eq_true_iff_eq.
  rewrite orb_true_iff, !bool_decide_eq_true, fmap_app, elem_of_app. simpl.
  by rewrite list_elem_of_singleton.
Qed.

Lemma matched_count_snoc prev s keys :
  matched_count (prev ++ [s]) keys =
  (matched_count prev keys + new_matches (is_matched prev) s keys)%nat.
Proof.
  unfold matched_count, new_matches. induction keys as [|k keys IH]; [done|].
  rewrite !filter_cons, is_matched_snoc. unfold mark.
  destruct (is_matched prev k) eqn:E; cbn [orb].
  - rewrite !decide_True by done. rewrite decide_False by (intros [_ ?]; done). simpl. by rewrite IH.
  - rewrite (decide_False (P := false = true)) by done. destruct (decide (k = key s)) as [->|Hk].
    + rewrite bool_decide_true by done. rewrite !decide_True by done. simpl. rewrite IH. lia.
    + rewrite bool_decide_false by done. rewrite !decide_False by (intros ?; naive_solver). done.
Qed.

(** Each account of [infos] that newly matches a key signed. *)
Fixpoint new_matches_sign (prev infos : list AccountInfo) (keys : list Address) : bool :=
  match infos with
  | [] => true
  | s :: infos =>
      negb (negb (is_signer s) && negb (is_matched prev (key s)) && bool_decide (key s ∈ keys)) &&
      new_matches_sign (prev ++ [s]) infos keys
  end.

Lemma match_signers_spec infos keys prev pad :
  match_signers infos keys ((is_matched prev <$> keys) ++ pad) (matched_count prev keys) =
  if new_matches_sign prev infos keys
  then Ok ((is_matched (prev ++ infos) <$> keys) ++ pad, matched_count (prev ++ infos) keys)
  else Err ProgramError.MissingRequiredSignature.
Proof.
  revert prev. induction infos as [|s infos IH]; intros prev; simpl; [by rewrite app_nil_r|].
  rewrite (match_keys_spec s (is_matched prev) [] keys pad).
  destruct (negb (is_signer s) && _ && _); cbn [negb andb]; [done|]. cbn [mbind Result_bind app].
  replace (mark (is_matched prev) s <$> keys) with (is_matched (prev ++ [s]) <$> keys)
    by (apply list_fmap_ext; intros; apply is_matched_snoc).
  rewrite <- matched_count_snoc, IH, <- app_assoc. done.
Qed.

Lemma is_matched_false prev k :
  is_matched prev k = false <-> Forall (fun i => key i <> k) prev.
Proof.
  unfold is_matched. rewrite bool_decide_eq_false, list_elem_of_fmap, Forall_forall. naive_solver.
Qed.

Lemma first_with_key_app k prev infos :
  is_matched prev k = false -> first_with_key k (prev ++ infos) = first_with_key k infos.
Proof.
  intros Hm. apply is_matched_false in Hm. unfold first_with_key. rewrite filter_app.
  induction Hm as [|i prev Hi Hm IH]; [done|]. by rewrite filter_cons_False.
Qed.

Lemma new_matches_sign_spec infos keys prev :
  new_matches_sign prev infos keys = true <->
  forall k s, k ∈ keys -> is_matched prev k = false -> first_with_key k infos = Some s ->
    is_signer s = true.
Proof.
  revert prev. induction infos as [|i infos IH]; intros prev; simpl; [by split|].
  rewrite andb_true_iff, IH, negb_true_iff. clear IH. split.
  - intros [Hi Hr] k s Hk Hp Hs. unfold first_with_key in Hs. rewrite filter_cons in Hs.
    case_decide as Hki.
    + injection Hs as ->. subst k. rewrite Hp, bool_decide_true in Hi by done.
      cbn in Hi. rewrite !andb_true_r in Hi. by apply negb_false_iff in Hi.
    + apply (Hr k s); [done| |done]. rewrite is_matched_snoc. unfold mark.
      by rewrite Hp, bool_decide_false.
  - intros Hall. split.
    + destruct (is_signer i) eqn:Es; [done|]. destruct (is_matched prev (key i)) eqn:Ep; [done|].
      cbn. apply bool_decide_eq_false. intros Hk.
      rewrite (Hall (key i) i Hk Ep) in Es; [done|]. unfold first_with_key. by rewrite filter_cons_True.
    + intros k s Hk Hp Hs. rewrite is_matched_snoc in Hp. unfold mark in Hp.
      apply orb_false_iff in Hp as [Hp Hki]. apply bool_decide_eq_false in Hki.
      apply (Hall k s Hk Hp). unfold first_with_key in *. by rewrite filter_cons_False by congruence.
Qed.

(** The keys that count: the first [n] of the multisig. *)
Definition multisig_keys (ms : PodMultisig) : list Address :=
  take (Z.to_nat (u8_to_Z (multisig_n ms))) (signers ms).

Definition multisig_approves (ms : PodMultisig) (infos : list AccountInfo) : Prop :=
  bool_get (multisig_is_initialized ms) = true /\
  u8_to_Z (multisig_n ms) <= Z.of_nat MAX_SIGNERS /\
  matches_sign infos (multisig_keys ms) /\
  u8_to_Z (multisig_m ms) <= Z.of_nat (matched_count infos (multisig_keys ms)).

Lemma length_multisig_keys ms : (length (multisig_keys ms) <= MAX_SIGNERS)%nat.
Proof. unfold multisig_keys, signers. rewrite length_take, length_fmap, length_seq. lia. Qed.

Lemma validate_multisig_spec ms infos u :
  validate_multisig ms infos = Ok u <-> multisig_approves ms infos.
Proof.
  unfold validate_multisig, multisig_approves. fold (multisig_keys ms).
  pose proof (u8_to_Z_range (multisig_n ms)) as Hn.
  destruct (bool_get (multisig_is_initialized ms)); cbn [negb]; [|naive_solver].
  destruct (Nat.ltb_spec MAX_SIGNERS (Z.to_nat (u8_to_Z (multisig_n ms)))) as [Hlt|Hge].
  { split; [done|]. intros (_ & Hle & _). lia. }
  assert (replicate MAX_SIGNERS false =
    (is_matched [] <$> multisig_keys ms) ++ replicate (MAX_SIGNERS - length (multisig_keys ms)) false)
    as ->.
  { replace (is_matched [] <$> multisig_keys ms)
      with (replicate (length (multisig_keys ms)) false).
    - rewrite <- replicate_add. f_equal. pose proof (length_multisig_keys ms). lia.
    - induction (multisig_keys ms); simpl; by f_equal. }
  assert (0%nat = matched_count [] (multisig_keys ms)) as E0.
  { unfold matched_count. induction (multisig_keys ms); [done|]. by rewrite filter_cons_False. }
  pose proof (match_signers_spec infos (multisig_keys ms) []
    (replicate (MAX_SIGNERS - length (multisig_keys ms)) false)) as Hms.
  rewrite <- E0 in Hms. rewrite Hms. clear Hms E0. cbn [app].
  pose proof (new_matches_sign_spec infos (multisig_keys ms) []) as Hs.
  destruct (new_matches_sign _ _ _); cbn [mbind Result_bind].
  - rewrite fail_if_Ok, Z.ltb_ge. split.
    + intros Hm. split_and!; [done|lia| |done]. intros k s Hk Hf. by apply (proj1 Hs eq_refl k s).
    + by intros (_ & _ & _ & ?).
  - split; [done|]. intros (_ & _ & Hm & _). enough (false = true) by done.
    apply Hs. intros k s Hk _ Hf. by apply (Hm k s).
Qed.

(** Who may act as [expected]: its signature or its multisig's. *)
Definition authorizes (program_id expected : Address) (info : AccountInfo) (len : nat)
    (infos : list AccountInfo) (w : World) : Prop :=
  expected = key info /\
  if owned_by_token_program program_id (cell_owner (cell w (key info))) && (len =? Multisig_LEN)%nat
  then exists ms, cell_data (cell w (key info)) = to_bytes ms /\ multisig_approves ms infos
  else is_signer info = true.

Lemma validate_owner_Ok held program_id expected info len infos w u w' :
  validate_owner held program_id expected info len infos w = Ok (u, w') ->
  w' = w /\ authorizes program_id expected info len infos w.
Proof.
  unfold validate_owner, authorizes. rewrite PodMultisig_size. intros H.
  m_step. m_step. m_step. m_inv. split; [by destruct (_ && _); m_inv|]. split; [done|].
  destruct (_ && _); m_inv; [|done].
  apply validate_multisig_spec in H. eauto.
Qed.

(** An authority that approves is accepted, if its data can be read. *)
Lemma validate_owner_approved held program_id expected info len infos w :
  authorizes program_id expected info len infos w ->
  existsb (conflicts_shared (key info)) held = false ->
  validate_owner held program_id expected info len infos w = Ok (tt, w).
Proof.
  intros [-> H] Hh. unfold validate_owner. rewrite PodMultisig_size.
  apply M_bind_Ok. exists tt, w. rewrite bail_if_Ok, bool_decide_true by done. split; [done|].
  apply M_bind_Ok. eexists _, w. rewrite info_owner_Ok. split; [done|].
  destruct (_ && _); [|by rewrite bail_if_Ok, H]. destruct H as (ms & Hd & Hms).
  apply M_bind_Ok. exists (to_bytes ms), w. rewrite borrow_Ok. split; [done|].
  apply M_bind_Ok. exists ms, w. rewrite lift_Ok, ok_or_Ok, try_from_bytes_Some. split; [done|].
  by rewrite lift_Ok, validate_multisig_spec.
Qed.

Ltac m_hook ::=
  match goal with
  | H : validate_owner _ _ _ _ _ _ _ = Ok _ |- _ =>
      let Ha := fresh "Hauth" in apply validate_owner_Ok in H as [H Ha]; m_sub H
  end.

(** ** Properties *)

(** C9: [validate_owner] accepts exactly when the authority account is the
    expected one and either signed or, when it is a multisig account (owned by a
    token program and of that length, whose data must not be mutably borrowed),
    is initialized, each account that is the first to match a key signed, and
    the matched positions among the first [n] keys number at least [m]; it
    changes nothing. *)
Theorem validate_owner_spec held program_id expected info len infos w w' :
  validate_owner held program_id expected info len infos w = Ok (tt, w') <->
  w' = w /\ expected = key info /\
  if owned_by_token_program program_id (cell_owner (cell w (key info))) && (len =? Multisig_LEN)%nat
  then existsb (conflicts_shared (key info)) held = false /\
    exists ms, cell_data (cell w (key info)) = to_bytes ms /\
      bool_get (multisig_is_initialized ms) = true /\
      u8_to_Z (multisig_n ms) <= Z.of_nat MAX_SIGNERS /\
      (forall k s, k ∈ multisig_keys ms -> first_with_key k infos = Some s -> is_signer s = true) /\
      u8_to_Z (multisig_m ms) <= Z.of_nat (matched_count infos (multisig_keys ms))
  else is_signer info = true.
Proof.
  split.
  - intros H. pose proof (validate_owner_Ok _ _ _ _ _ _ _ _ _ H) as (-> & -> & Ha).
    split_and!; [done..|]. unfold validate_owner in H. rewrite PodMultisig_size in H. m_inv.
    destruct (_ && _); [|done]. m_inv. split; [done|].
    apply validate_multisig_spec in H. eexists. split; [done|]. apply H.
  - intros (-> & -> & H). destruct (_ && _) eqn:Em.
    + destruct H as (Hh & ms & Hd & Hms). apply validate_owner_approved; [|done].
      split; [done|]. rewrite Em. by exists ms.
    + unfold validate_owner. rewrite PodMultisig_size.
      apply M_bind_Ok. exists tt, w. rewrite bail_if_Ok, bool_decide_true by done. split; [done|].
      apply M_bind_Ok. eexists _, w. rewrite info_owner_Ok. split; [done|].
      by rewrite Em, bail_if_Ok, H.
Qed.

(** ** Reading and updating token accounts and mints

    Assignments to the fields of the base states, the small queries of
    [interface/src/extension/*/mod.rs] that several handlers share, and the
    view an account's data stands for in the store. *)

(** ** Field assignments *)

Definition set_owner (o : Address) (a : PodAccount) : PodAccount :=
  mk_account (mint a) o (amount a) (delegate a) (state a) (is_native_reserve a)
    (delegated_amount a) (close_authority a).
Definition set_amount (z : Z) (a : PodAccount) : PodAccount :=
  mk_account (mint a) (owner a) (u64_new z) (delegate a) (state a) (is_native_reserve a)
    (delegated_amount a) (close_authority a).
Definition set_delegate (d : PodCOption Address) (a : PodAccount) : PodAccount :=
  mk_account (mint a) (owner a) (amount a) d (state a) (is_native_reserve a)
    (delegated_amount a) (close_authority a).
Definition set_state (s : byte) (a : PodAccount) : PodAccount :=
  mk_account (mint a) (owner a) (amount a) (delegate a) s (is_native_reserve a)
    (delegated_amount a) (close_authority a).
Definition set_is_native (n : PodCOption U64) (a : PodAccount) : PodAccount :=
  mk_account (mint a) (owner a) (amount a) (delegate a) (state a) n
    (delegated_amount a) (close_authority a).
Definition set_delegated_amount (z : Z) (a : PodAccount) : PodAccount :=
  mk_account (mint a) (owner a) (amount a) (delegate a) (state a) (is_native_reserve a)
    (u64_new z) (close_authority a).
Definition set_close_authority (c : PodCOption Address) (a : PodAccount) : PodAccount :=
  mk_account (mint a) (owner a) (amount a) (delegate a) (state a) (is_native_reserve a)
    (delegated_amount a) c.

Definition set_mint_authority (c : PodCOption Address) (m : PodMint) : PodMint :=
  mk_mint c (supply m) (decimals m) (mint_is_initialized m) (freeze_authority m).
Definition set_supply (z : Z) (m : PodMint) : PodMint :=
  mk_mint (mint_authority m) (u64_new z) (decimals m) (mint_is_initialized m) (freeze_authority m).
Definition set_freeze_authority (c : PodCOption Address) (m : PodMint) : PodMint :=
  mk_mint (mint_authority m) (supply m) (decimals m) (mint_is_initialized m) c.

(** [PodCOption::<Address>::none()]. *)
Definition coption_none : PodCOption Address := PodCOption.none (zeroed 32).

(** ** Queries *)

(** [state.get_extension::<V>().is_ok()]. *)
Definition has_extension {S} `{BaseState S} {St} `{BaseStateWithExtensions St}
    (V : Type) `{Pod V, Extension V} (st : St S) : bool := is_ok (get_extension V st).

(** [permanent_delegate::get_permanent_delegate]. *)
Definition get_permanent_delegate (m : PodState PodMint) : option Address :=
  e ← ok (get_extension PermanentDelegate m); maybe_null_get (pd_delegate e).

(** [transfer_hook::get_program_id]. *)
Definition get_program_id (m : PodState PodMint) : option Address :=
  e ← ok (get_extension TransferHook m); maybe_null_get (th_program_id e).

(** [memo_transfer::memo_required]. *)
Definition memo_required (a : PodStateMut PodAccount) : bool :=
  match get_extension MemoTransfer a with
  | Ok e => bool_get (mt_require_incoming_transfer_memos e)
  | _ => false
  end.

(** The lock of the CPI guard, when the account has the extension. *)
Definition cpi_locked {St} `{BaseStateWithExtensions St} (a : St PodAccount) : bool :=
  match get_extension CpiGuard a with
  | Ok e => bool_get (cg_lock_cpi e)
  | _ => false
  end.

(** The pause flag of a mint, when it has the extension. *)
Definition mint_paused {St} `{BaseStateWithExtensions St} (m : St PodMint) : bool :=
  match get_extension PausableConfig m with
  | Ok e => bool_get (pc_paused e)
  | _ => false
  end.

(** [transfer_hook::set_transferring]. *)
Definition set_transferring (a : PodStateMut PodAccount)
    : Result ProgramError (PodStateMut PodAccount) :=
  '(_, put) ← get_extension_mut TransferHookAccount a;
  mret (put (mk_tha (bool_new true))).

(** [check_program_account(info.owner)]. *)
Definition check_owner (i : AccountInfo) : M unit :=
  o ← info_owner i; lift (check_program_account o).

(** [transfer_hook::unset_transferring]. *)
Definition unset_transferring (i : AccountInfo) : M unit :=
  account_data ← borrow_mut [] i;
  account ← lift (unpack_mut PodAccount account_data);
  '(_, put) ← lift (get_extension_mut TransferHookAccount account);
  write_data i (repack (put (mk_tha (bool_new false)))).

(** ** Inversion *)

Lemma check_program_account_Ok o u : check_program_account o = Ok u <-> o = id.
Proof.
  unfold check_program_account. by rewrite fail_if_Ok, negb_false_iff, bool_decide_eq_true.
Qed.

Lemma check_owner_Ok i w u w' :
  check_owner i w = Ok (u, w') -> w' = w /\ cell_owner (cell w (key i)) = id.
Proof. unfold check_owner. intros H. m_inv. by apply check_program_account_Ok in H. Qed.

Lemma check_owner_own i w : cell_owner (cell w (key i)) = id -> check_owner i w = Ok (tt, w).
Proof.
  intros Ho. unfold check_owner. apply M_bind_Ok. exists id, w. rewrite info_owner_Ok. split; [done|].
  apply lift_Ok. split; [|done]. unfold check_program_account. by rewrite bool_decide_true.
Qed.

Ltac m_hook ::=
  match goal with
  | H : validate_owner _ _ _ _ _ _ _ = Ok _ |- _ =>
      let Ha := fresh "Hauth" in apply validate_owner_Ok in H as [H Ha]; m_sub H
  | H : check_owner _ _ = Ok _ |- _ =>
      let Ha := fresh "Hown" in apply check_owner_Ok in H as [H Ha]; m_sub H
  end.
