(* ===== verification/State.v ===== *)
(** * Packed base states

    [interface/src/state.rs]: [Mint], [Account] and [Multisig] as structures of
    ordinary Rust values, serialized field by field.  A few handlers read an
    account through them ([StateWithExtensions]); the others use the Pod
    layouts of [Pod], which are the same bytes.  [generic_token_account] reads
    single fields without unpacking. *)
From S2P Require Import Prelude Bytes Errors Ids Runtime Pod ExtensionState Extension TlvTheory.
From S2P Require Import ViewTheory MonadTheory.

(** ** Arrays of slices *)

(** [array_refs![src, n1, n2, ...]]: consecutive slices of the given sizes. *)
Fixpoint array_refs (sizes : list nat) (src : list byte) : list (list byte) :=
  match sizes with
  | [] => []
  | n :: sizes => take n src :: array_refs sizes (drop n src)
  end.

(** [array_ref![src, 0, n]] panics when [src] is shorter. *)
Definition array_ref (n : nat) (src : list byte) : Result ProgramError (list byte) :=
  if (length src <? n)%nat then Panic else Ok (take n src).

(** ** [COption] fields *)

Definition SOME_TAG : list byte := [x01; x00; x00; x00].
Definition NONE_TAG : list byte := [x00; x00; x00; x00].

(** [None] writes the tag and leaves the body as it is. *)
Definition pack_coption {T} (body : T -> list byte) (src : option T) (dst : list byte)
    : list byte :=
  match src with
  | Some v => SOME_TAG ++ body v
  | None => NONE_TAG ++ drop 4 dst
  end.

Definition unpack_coption {T} (parse : list byte -> T) (src : list byte)
    : Result ProgramError (option T) :=
  match array_refs [4; length src - 4]%nat src with
  | [tag; body] =>
      if bool_decide (tag = NONE_TAG) then Ok None
      else if bool_decide (tag = SOME_TAG) then Ok (Some (parse body))
      else Err ProgramError.InvalidAccountData
  | _ => Panic
  end.

Definition pack_coption_key : option Address -> list byte -> list byte :=
  pack_coption bytes_list.
Definition unpack_coption_key : list byte -> Result ProgramError (option Address) :=
  unpack_coption (bytes_of_list 32).
Definition pack_coption_u64 : option Z -> list byte -> list byte :=
  pack_coption (to_le_bytes 8).
Definition unpack_coption_u64 : list byte -> Result ProgramError (option Z) :=
  unpack_coption from_le_bytes.

(** A boolean is the byte 0 or 1. *)
Definition unpack_bool (src : list byte) : Result ProgramError bool :=
  match src with
  | [x00] => Ok false
  | [x01] => Ok true
  | _ => Err ProgramError.InvalidAccountData
  end.

(** ** The trait [Pack] *)

Class Pack (S : Type) : Type := mk_pack {
  LEN : nat;
  unpack_from_slice : list byte -> Result ProgramError S;
  pack_into_slice : S -> list byte -> Result ProgramError (list byte);
  packed_is_initialized : S -> bool
}.
Arguments LEN S {_}.
#[global] Hint Mode Pack ! : typeclass_instances.

(** The provided methods of [solana_program_pack::Pack], with the behaviour
    that crate documents: the length is checked, and [unpack] refuses an
    uninitialised state. *)
Class PackMethods : Type := mk_pack_methods {
  pm_unpack : forall S, Pack S -> list byte -> Result ProgramError S;
  pm_unpack_unchecked : forall S, Pack S -> list byte -> Result ProgramError S;
  pm_pack : forall S, Pack S -> S -> list byte -> Result ProgramError (list byte);
  pm_unpack_unchecked_spec S P input :
    pm_unpack_unchecked S P input =
      if (length input =? LEN S)%nat then unpack_from_slice input
      else Err ProgramError.InvalidAccountData;
  pm_unpack_spec S P input :
    pm_unpack S P input =
      (v ← pm_unpack_unchecked S P input;
       if packed_is_initialized v then mret v else Err ProgramError.UninitializedAccount);
  pm_pack_spec S P v dst :
    pm_pack S P v dst =
      if (length dst =? LEN S)%nat then pack_into_slice v dst
      else Err ProgramError.InvalidAccountData
}.
Arguments pm_unpack {_} S {_} _.
Arguments pm_unpack_unchecked {_} S {_} _.
Arguments pm_pack {_} {S _} _ _.

(** ** The three structures *)

Module Mint.
Record Mint : Type := mk {
  mint_authority : option Address;
  supply : Z;
  decimals : byte;
  is_initialized : bool;
  freeze_authority : option Address
}.

Definition default : Mint := mk None 0 x00 false None.

Definition sizes : list nat := [36; 8; 1; 1; 36]%nat.

(** The fields from their slices. *)
Definition parse (slices : list (list byte)) : Result ProgramError Mint :=
  match slices with
  | [mint_authority; supply; decimals; is_initialized; freeze_authority] =>
      mint_authority ← unpack_coption_key mint_authority;
      is_initialized ← unpack_bool is_initialized;
      freeze_authority ← unpack_coption_key freeze_authority;
      mret (mk mint_authority (from_le_bytes supply) (List.hd x00 decimals) is_initialized
              freeze_authority)
  | _ => Panic
  end.

Definition unpack_from_slice (src : list byte) : Result ProgramError Mint :=
  src ← array_ref Mint_LEN src; parse (array_refs sizes src).

Definition pack_into_slice (m : Mint) (dst : list byte) : Result ProgramError (list byte) :=
  src ← array_ref Mint_LEN dst;
  match array_refs sizes src with
  | [mint_authority_dst; _; _; _; freeze_authority_dst] =>
      mret (concat [pack_coption_key (mint_authority m) mint_authority_dst;
                    to_le_bytes 8 (supply m); [decimals m]; [bool_new (is_initialized m)];
                    pack_coption_key (freeze_authority m) freeze_authority_dst]
            ++ drop Mint_LEN dst)
  | _ => Panic
  end.
End Mint.

#[export] Instance Mint_pack : Pack Mint.Mint :=
  mk_pack _ Mint_LEN Mint.unpack_from_slice Mint.pack_into_slice Mint.is_initialized.

Module Account.
Record Account : Type := mk {
  mint : Address;
  owner : Address;
  amount : Z;
  delegate : option Address;
  state : AccountState;
  is_native : option Z;
  delegated_amount : Z;
  close_authority : option Address
}.

Definition sizes : list nat := [32; 32; 8; 36; 1; 12; 8; 36]%nat.

(** The fields from their slices. *)
Definition parse (slices : list (list byte)) : Result ProgramError Account :=
  match slices with
  | [mint; owner; amount; delegate; state; is_native; delegated_amount; close_authority] =>
      delegate ← unpack_coption_key delegate;
      state ← ok_or (account_state_try_from (List.hd x00 state)) ProgramError.InvalidAccountData;
      is_native ← unpack_coption_u64 is_native;
      close_authority ← unpack_coption_key close_authority;
      mret (mk (bytes_of_list 32 mint) (bytes_of_list 32 owner) (from_le_bytes amount) delegate
              state is_native (from_le_bytes delegated_amount) close_authority)
  | _ => Panic
  end.

Definition unpack_from_slice (src : list byte) : Result ProgramError Account :=
  src ← array_ref Account_LEN src; parse (array_refs sizes src).

Definition pack_into_slice (a : Account) (dst : list byte) : Result ProgramError (list byte) :=
  src ← array_ref Account_LEN dst;
  match array_refs sizes src with
  | [_; _; _; delegate_dst; _; is_native_dst; _; close_authority_dst] =>
      mret (concat [bytes_list (mint a); bytes_list (owner a); to_le_bytes 8 (amount a);
                    pack_coption_key (delegate a) delegate_dst; [account_state_u8 (state a)];
                    pack_coption_u64 (is_native a) is_native_dst;
                    to_le_bytes 8 (delegated_amount a);
                    pack_coption_key (close_authority a) close_authority_dst]
            ++ drop Account_LEN dst)
  | _ => Panic
  end.

(** [IsInitialized for Account], and the field [is_native] as a question. *)
Definition is_initialized (a : Account) : bool :=
  negb (bool_decide (state a = AccountState.Uninitialized)).
Definition is_frozen (a : Account) : bool := bool_decide (state a = AccountState.Frozen).
Definition has_native (a : Account) : bool := bool_decide (is_Some (is_native a)).

Definition set_is_native (n : option Z) (a : Account) : Account :=
  mk (mint a) (owner a) (amount a) (delegate a) (state a) n (delegated_amount a)
    (close_authority a).
End Account.

#[export] Instance Account_pack : Pack Account.Account :=
  mk_pack _ Account_LEN Account.unpack_from_slice Account.pack_into_slice Account.is_initialized.

Module Multisig.
Record Multisig : Type := mk {
  m : byte;
  n : byte;
  is_initialized : bool;
  signers : list Address
}.

Definition sizes : list nat := [1; 1; 1; 32 * MAX_SIGNERS]%nat.
Definition signer_sizes : list nat := replicate MAX_SIGNERS 32%nat.

(** The fields from their slices. *)
Definition parse (slices : list (list byte)) : Result ProgramError Multisig :=
  match slices with
  | [m; n; is_initialized; signers_flat] =>
      is_initialized ← unpack_bool is_initialized;
      mret (mk (List.hd x00 m) (List.hd x00 n) is_initialized
              (bytes_of_list 32 <$> array_refs signer_sizes signers_flat))
  | _ => Panic
  end.

Definition unpack_from_slice (src : list byte) : Result ProgramError Multisig :=
  src ← array_ref Multisig_LEN src; parse (array_refs sizes src).

Definition pack_into_slice (s : Multisig) (dst : list byte) : Result ProgramError (list byte) :=
  _ ← array_ref Multisig_LEN dst;
  mret (concat [[m s]; [n s]; [bool_new (is_initialized s)]; concat (bytes_list <$> signers s)]
        ++ drop Multisig_LEN dst).
End Multisig.

#[export] Instance Multisig_pack : Pack Multisig.Multisig :=
  mk_pack _ Multisig_LEN Multisig.unpack_from_slice Multisig.pack_into_slice
    Multisig.is_initialized.

(** ** The views over packed base states

    [P] is the Pod layout of [S]: [SIZE_OF] and [ACCOUNT_TYPE], which the
    source's functions on the rest of the buffer take from [S], are the same
    constants for both. *)

(** [StateWithExtensions]. *)
Record StateWithExtensions (S : Type) : Type := mk_swe {
  swe_base : S;
  swe_tlv_data : list byte
}.
Arguments mk_swe {_} _ _.
Arguments swe_base {_} _.
Arguments swe_tlv_data {_} _.

(** [StateWithExtensionsMut], with the padding its slices skip. *)
Record StateWithExtensionsMut (S : Type) : Type := mk_swm {
  swm_base : S;
  swm_base_data : list byte;
  swm_padding : list byte;
  swm_account_type : list byte;
  swm_tlv_data : list byte
}.
Arguments mk_swm {_} _ _ _ _ _.
Arguments swm_base {_} _.
Arguments swm_base_data {_} _.
Arguments swm_padding {_} _.
Arguments swm_account_type {_} _.
Arguments swm_tlv_data {_} _.

Section views.
Context `{PM : PackMethods} (S P : Type) `{Pack S, BaseState P}.

Definition swe_unpack (input : list byte) : Result ProgramError (StateWithExtensions S) :=
  _ ← check_min_len_and_not_multisig input (size_of P);
  base ← pm_unpack S (take (size_of P) input);
  tlv_data ← unpack_tlv_data P (drop (size_of P) input);
  mret (mk_swe base tlv_data).

Definition swm_unpack (input : list byte) : Result ProgramError (StateWithExtensionsMut S) :=
  _ ← check_min_len_and_not_multisig input (size_of P);
  base ← pm_unpack S (take (size_of P) input);
  '(padding, account_type, tlv_data) ← unpack_type_and_tlv_data_mut P (drop (size_of P) input);
  mret (mk_swm base (take (size_of P) input) padding account_type tlv_data).

(** [StateWithExtensionsMut::pack_base]. *)
Definition pack_base (st : StateWithExtensionsMut S)
    : Result ProgramError (StateWithExtensionsMut S) :=
  base_data ← pack_into_slice (swm_base st) (swm_base_data st);
  mret (mk_swm (swm_base st) base_data (swm_padding st) (swm_account_type st) (swm_tlv_data st)).

(** The buffer the view's slices make up. *)
Definition swm_repack (st : StateWithExtensionsMut S) : list byte :=
  swm_base_data st ++ swm_padding st ++ swm_account_type st ++ swm_tlv_data st.

End views.

(** ** Reading a field without unpacking

    [interface/src/generic_token_account.rs], with [valid_account_data] of
    [interface/src/state.rs]: what programs use that only want the owner or the
    mint of an account. *)
Module generic_token_account.
Definition SPL_TOKEN_ACCOUNT_MINT_OFFSET : nat := 0.
Definition SPL_TOKEN_ACCOUNT_OWNER_OFFSET : nat := 32.
Definition ACCOUNT_INITIALIZED_INDEX : nat := 108.

Definition is_initialized_account (account_data : list byte) : bool :=
  negb (bool_decide (default (account_state_u8 AccountState.Uninitialized)
    (account_data !! ACCOUNT_INITIALIZED_INDEX) = account_state_u8 AccountState.Uninitialized)).

(** [Account::valid_account_data]: indexing past the end panics. *)
Definition valid_account_data (account_data : list byte) : Result ProgramError bool :=
  if (length account_data =? Account_LEN)%nat && is_initialized_account account_data then Ok true
  else if negb (Account_LEN <? length account_data)%nat then Ok false
  else if (length account_data =? Multisig_LEN)%nat then Ok false
  else match account_data !! Account_LEN with
       | None => Panic
       | Some b => Ok (bool_decide (b = account_type_u8 AccountType.Account) &&
                       is_initialized_account account_data)
       end.

Definition unpack_pubkey_unchecked (account_data : list byte) (offset : nat)
    : Result ProgramError Address :=
  if (length account_data <? offset + 32)%nat then Panic
  else Ok (bytes_of_list 32 (slice account_data offset (offset + 32))).

Definition unpack_account_owner_unchecked (account_data : list byte) : Result ProgramError Address :=
  unpack_pubkey_unchecked account_data SPL_TOKEN_ACCOUNT_OWNER_OFFSET.
Definition unpack_account_mint_unchecked (account_data : list byte) : Result ProgramError Address :=
  unpack_pubkey_unchecked account_data SPL_TOKEN_ACCOUNT_MINT_OFFSET.

Definition unpack_account_owner (account_data : list byte) : Result ProgramError (option Address) :=
  valid ← valid_account_data account_data;
  if (valid : bool) then Some <$> unpack_account_owner_unchecked account_data else mret None.

Definition unpack_account_mint (account_data : list byte) : Result ProgramError (option Address) :=
  valid ← valid_account_data account_data;
  if (valid : bool) then Some <$> unpack_account_mint_unchecked account_data else mret None.
End generic_token_account.
