(* ===== verification/StateTheory.v ===== *)
(** * Packing, unpacking, and the two views

    Serialization and parsing are inverse, parsing and writing back changes
    nothing, the packed view of an account agrees with the Pod view, and so does
    the reader of single fields. *)
From S2P Require Import Prelude Bytes Errors Ids Runtime Pod ExtensionState Extension TlvTheory.
From S2P Require Import ViewTheory MonadTheory Ownership State.

(** ** Slices and their concatenation *)

Lemma array_refs_concat sizes pieces rest :
  Forall2 (fun n p => length p = n) sizes pieces ->
  array_refs sizes (concat pieces ++ rest) = pieces.
Proof.
  induction 1 as [|n p sizes pieces Hl Hs IH]; [done|]. simpl.
  rewrite <- app_assoc, take_app_length', drop_app_length' by done. by rewrite IH.
Qed.

Lemma concat_array_refs sizes src : concat (array_refs sizes src) = take (sum_list sizes) src.
Proof.
  revert src. induction sizes as [|n sizes IH]; intros src; simpl; [done|].
  rewrite IH. by rewrite take_take_drop.
Qed.

Lemma length_array_refs sizes src :
  (sum_list sizes <= length src)%nat ->
  Forall2 (fun n p => length p = n) sizes (array_refs sizes src).
Proof.
  revert src. induction sizes as [|n sizes IH]; intros src Hl; simpl in *; constructor.
  - rewrite length_take. lia.
  - apply IH. rewrite length_drop. lia.
Qed.

Lemma array_ref_Ok n src r :
  array_ref n src = Ok r <-> (n <= length src)%nat /\ r = take n src.
Proof.
  unfold array_ref. destruct (Nat.ltb_spec (length src) n); split; intros H'; naive_solver lia.
Qed.

(** ** The option fields *)

Section coption.
Context {T : Type} (n : nat) (body : T -> list byte) (parse : list byte -> T) (valid : T -> Prop).
Context (length_body : forall v, length (body v) = n).
Context (parse_body : forall v, valid v -> parse (body v) = v).
Context (body_parse : forall l, length l = n -> body (parse l) = l).

Lemma length_pack_coption o dst :
  length dst = (4 + n)%nat -> length (pack_coption body o dst) = (4 + n)%nat.
Proof.
  intros Hl. destruct o; simpl; [by rewrite length_body|]. rewrite length_drop. lia.
Qed.

Lemma unpack_pack_coption o dst :
  length dst = (4 + n)%nat -> from_option valid True o ->
  unpack_coption parse (pack_coption body o dst) = Ok o.
Proof.
  intros Hl Hv. unfold unpack_coption. rewrite length_pack_coption by done.
  destruct o as [v|]; cbn -[take drop].
  - rewrite (take_ge (body v)) by (rewrite length_body; lia). by rewrite parse_body.
  - done.
Qed.

Lemma pack_unpack_coption o src :
  length src = (4 + n)%nat -> unpack_coption parse src = Ok o -> pack_coption body o src = src.
Proof.
  intros Hl. unfold unpack_coption. cbn -[take drop]. intros Hu.
  rewrite (take_ge (drop 4 src)) in Hu by (rewrite length_drop; lia).
  destruct (bool_decide (take 4 src = NONE_TAG)) eqn:E1;
    [|destruct (bool_decide (take 4 src = SOME_TAG)) eqn:E2; [|done]];
    injection Hu as <-; unfold pack_coption; apply bool_decide_eq_true in E1 || apply bool_decide_eq_true in E2.
  - rewrite <- E1. apply take_drop.
  - rewrite <- E2, body_parse by (rewrite length_drop; lia). apply take_drop.
Qed.
End coption.

(** ** Packing and unpacking *)

Lemma length_concat_sizes sizes (pieces : list (list byte)) :
  Forall2 (fun n p => length p = n) sizes pieces -> length (concat pieces) = sum_list sizes.
Proof. induction 1; simpl; [done|]. rewrite length_app. lia. Qed.

(** A buffer whose first [sum_list sizes] bytes were replaced by [pieces]. *)
Lemma packed_pieces sizes pieces dst :
  Forall2 (fun n p => length p = n) sizes pieces -> (sum_list sizes <= length dst)%nat ->
  let d := concat pieces ++ drop (sum_list sizes) dst in
  length d = length dst /\ drop (sum_list sizes) d = drop (sum_list sizes) dst /\
  array_ref (sum_list sizes) d = Ok (concat pieces) /\ array_refs sizes (concat pieces) = pieces.
Proof.
  intros Hf Hl d. pose proof (length_concat_sizes _ _ Hf) as Ec. subst d.
  split; [rewrite length_app, length_drop; lia|].
  split; [by rewrite drop_app_length' by done|].
  split.
  - apply array_ref_Ok. rewrite length_app, length_drop, take_app_length' by done. split; [lia|done].
  - rewrite <- (app_nil_r (concat pieces)). by apply array_refs_concat.
Qed.

Definition mint_valid (m : Mint.Mint) : Prop := is_u64 (Mint.supply m).
Definition account_valid (a : Account.Account) : Prop :=
  is_u64 (Account.amount a) /\ is_u64 (Account.delegated_amount a) /\
  from_option is_u64 True (Account.is_native a).
Definition multisig_valid (s : Multisig.Multisig) : Prop :=
  length (Multisig.signers s) = MAX_SIGNERS.

Lemma unpack_bool_Ok l b : unpack_bool l = Ok b <-> l = [bool_new b].
Proof.
  unfold unpack_bool. split.
  - destruct l as [|c [|? ?]]; [done| |by destruct c]. destruct c; try done; by intros [= <-].
  - intros ->. by destruct b.
Qed.

Lemma one_byte l : length l = 1%nat -> [List.hd x00 l] = l.
Proof. destruct l as [|? [|? ?]]; done. Qed.

Lemma account_state_from_u8 s : account_state_try_from (account_state_u8 s) = Some s.
Proof. by destruct s. Qed.

Lemma account_state_u8_from b s : account_state_try_from b = Some s -> account_state_u8 s = b.
Proof. destruct b; try done; by intros [= <-]. Qed.

Lemma length_pack_key o dst :
  length dst = 36%nat -> length (pack_coption_key o dst) = 36%nat.
Proof. apply (length_pack_coption 32). intros. apply length_bytes_list. Qed.

Lemma length_pack_u64 o dst :
  length dst = 12%nat -> length (pack_coption_u64 o dst) = 12%nat.
Proof. apply (length_pack_coption 8). intros. apply length_to_le_bytes. Qed.

Lemma coption_key_pack o dst :
  length dst = 36%nat -> unpack_coption_key (pack_coption_key o dst) = Ok o.
Proof.
  intros Hl. apply (unpack_pack_coption 32 _ _ (fun _ => True)); try done.
  - intros. apply length_bytes_list.
  - intros. apply bytes_of_list_list.
  - by destruct o.
Qed.

Lemma coption_key_unpack o src :
  length src = 36%nat -> unpack_coption_key src = Ok o -> pack_coption_key o src = src.
Proof.
  intros Hl. apply (pack_unpack_coption 32); [|done]. intros l Hl'. by apply bytes_list_of_list.
Qed.

Lemma coption_u64_pack o dst :
  length dst = 12%nat -> from_option is_u64 True o ->
  unpack_coption_u64 (pack_coption_u64 o dst) = Ok o.
Proof.
  intros Hl Ho. apply (unpack_pack_coption 8 _ _ is_u64); [|apply from_to_le_8|done..].
  intros; apply length_to_le_bytes.
Qed.

Lemma coption_u64_unpack o src :
  length src = 12%nat -> unpack_coption_u64 src = Ok o ->
  pack_coption_u64 o src = src /\ from_option is_u64 True o.
Proof.
  intros Hl Hu. split.
  - revert Hu. apply (pack_unpack_coption 8); [|done]. intros l Hl'. by apply to_from_le_8.
  - revert Hu. unfold unpack_coption_u64, unpack_coption. cbn -[take drop]. intros Hu.
    repeat case_match; simplify_eq; simpl; [done|]. apply from_le_8_range.
    rewrite length_take, length_drop. lia.
Qed.

(** [array_refs] on a buffer that is long enough. *)
Lemma array_refs_shape sizes n src :
  sum_list sizes = n -> (n <= length src)%nat ->
  array_ref n src = Ok (take n src) /\
  Forall2 (fun n p => length p = n) sizes (array_refs sizes (take n src)) /\
  concat (array_refs sizes (take n src)) = take n src.
Proof.
  intros <- Hl. split; [by apply array_ref_Ok|]. split.
  - apply length_array_refs. rewrite length_take. lia.
  - rewrite concat_array_refs, take_take. f_equal. lia.
Qed.

(** Name the slices that [Hf] lists with their lengths. *)
Ltac pieces Hf :=
  match type of Hf with Forall2 _ ?sizes ?refs =>
    revert Hf; generalize refs; intros ? Hf; unfold sizes in Hf end;
  repeat match type of Hf with
  | Forall2 _ (_ :: _) _ =>
      let Hp := fresh "Hp" in apply Forall2_cons_inv_l in Hf as (? & ? & Hp & Hf & ->); cbn beta in Hp
  | Forall2 _ [] _ => apply Forall2_nil_inv_l in Hf as ->
  end.

(** What makes packing and unpacking inverse, for the values of the fields'
    Rust types. *)
Definition pack_inverse (S : Type) `{Pack S} (valid : S -> Prop) : Prop :=
  (forall s dst, valid s -> (LEN S <= length dst)%nat ->
     exists d, pack_into_slice s dst = Ok d /\ length d = length dst /\
       drop (LEN S) d = drop (LEN S) dst /\ unpack_from_slice d = Ok s) /\
  (forall d s, unpack_from_slice d = Ok s -> valid s /\ pack_into_slice s d = Ok d).

(** It is enough to look at the slices: what is parsed from them, and what is
    written over them. *)
Section slices.
Context {S : Type} `{Pack S} (valid : S -> Prop) (sizes : list nat) (sum : sum_list sizes = LEN S).
Context (parse : list (list byte) -> Result ProgramError S).
Context (build : S -> list (list byte) -> list (list byte)).
Abbreviation sized := (Forall2 (fun n (p : list byte) => length p = n) sizes).
Context (unpack_eq : forall d,
  unpack_from_slice d = (src ← array_ref (LEN S) d; parse (array_refs sizes src))).
Context (pack_eq : forall s d, (LEN S <= length d)%nat ->
  pack_into_slice s d =
    Ok (concat (build s (array_refs sizes (take (LEN S) d))) ++ drop (LEN S) d)).
Context (build_sized : forall s ps, sized ps -> sized (build s ps)).
Context (parse_build : forall s ps, valid s -> sized ps -> parse (build s ps) = Ok s).
Context (build_parse : forall s ps, sized ps -> parse ps = Ok s -> valid s /\ build s ps = ps).

Lemma slices_inverse : pack_inverse S valid.
Proof.
  split.
  - intros s dst Hv Hl. eexists. split; [by apply pack_eq|].
    destruct (array_refs_shape sizes (LEN S) dst sum Hl) as (_ & Hf & _).
    rewrite <- sum in Hl.
    destruct (packed_pieces sizes _ dst (build_sized s _ Hf) Hl) as (E1 & E2 & E3 & E4).
    rewrite sum in *. do 2 (split; [done|]).
    rewrite unpack_eq, E3. cbn [mbind Result_bind]. rewrite E4. by apply parse_build.
  - intros d s Hu. rewrite unpack_eq in Hu. apply bind_Ok in Hu as (src & Hs & Hu).
    apply array_ref_Ok in Hs as [Hl ->].
    destruct (array_refs_shape sizes (LEN S) d sum Hl) as (_ & Hf & Ec).
    destruct (build_parse _ _ Hf Hu) as [Hv Hb]. split; [done|].
    by rewrite pack_eq, Hb, Ec, take_drop.
Qed.
End slices.

(** A handler's definition against its slices. *)
Ltac slices_eq sizes n :=
  intros s d Hl; destruct (array_refs_shape sizes n d eq_refl Hl) as (E & Hf & _);
  cbv beta iota delta [State.pack_into_slice Mint_pack Account_pack Mint.pack_into_slice
    Account.pack_into_slice];
  rewrite E; cbn [mbind Result_bind]; change (LEN _) with n; pieces Hf; reflexivity.

Definition mint_slices (s : Mint.Mint) (ps : list (list byte)) : list (list byte) :=
  [pack_coption_key (Mint.mint_authority s) (List.nth 0 ps []); to_le_bytes 8 (Mint.supply s);
   [Mint.decimals s]; [bool_new (Mint.is_initialized s)];
   pack_coption_key (Mint.freeze_authority s) (List.nth 4 ps [])].

Lemma mint_pack_inverse : pack_inverse Mint.Mint mint_valid.
Proof.
  eapply (slices_inverse (H := Mint_pack) _ Mint.sizes eq_refl Mint.parse mint_slices).
  - intros d. reflexivity.
  - slices_eq Mint.sizes Mint_LEN.
  - intros s ps Hf. pieces Hf. repeat constructor; simpl; auto using length_pack_key.
  - intros s ps Hv Hf. pieces Hf. simpl. rewrite !coption_key_pack by done. simpl.
    rewrite from_to_le_8 by done. by destruct s as [? ? ? [] ?].
  - intros s ps Hf. pieces Hf. unfold Mint.parse. intros Hu. m_inv. split; [by apply from_le_8_range|].
    apply unpack_bool_Ok in Hm0 as ->. unfold mint_slices. simpl.
    by rewrite !coption_key_unpack, to_from_le_8, one_byte by done.
Qed.

Definition account_slices (s : Account.Account) (ps : list (list byte)) : list (list byte) :=
  [bytes_list (Account.mint s); bytes_list (Account.owner s); to_le_bytes 8 (Account.amount s);
   pack_coption_key (Account.delegate s) (List.nth 3 ps []);
   [account_state_u8 (Account.state s)];
   pack_coption_u64 (Account.is_native s) (List.nth 5 ps []);
   to_le_bytes 8 (Account.delegated_amount s);
   pack_coption_key (Account.close_authority s) (List.nth 7 ps [])].

Lemma account_pack_inverse : pack_inverse Account.Account account_valid.
Proof.
  eapply (slices_inverse (H := Account_pack) _ Account.sizes eq_refl Account.parse account_slices).
  - intros d. reflexivity.
  - slices_eq Account.sizes Account_LEN.
  - intros s ps Hf. pieces Hf.
    repeat constructor; simpl; auto using length_pack_key, length_pack_u64, length_bytes_list.
  - intros s ps (Ha & Hd & Hn) Hf. pieces Hf. simpl.
    rewrite !coption_key_pack, coption_u64_pack by done. simpl.
    rewrite account_state_from_u8, !from_to_le_8 by done. simpl.
    rewrite !bytes_of_list_list. by destruct s.
  - intros s ps Hf. pieces Hf. unfold Account.parse. intros Hu. m_inv.
    apply account_state_u8_from in Hm0. apply coption_u64_unpack in Hm1 as [E Hn]; [|done].
    split; [by split_and!; [apply from_le_8_range..|]|]. unfold account_slices. cbn -[bytes_list bytes_of_list].
    by rewrite !coption_key_unpack, E, Hm0, !to_from_le_8, one_byte, !bytes_list_of_list by done.
Qed.

Definition multisig_slices (s : Multisig.Multisig) (ps : list (list byte)) : list (list byte) :=
  [[Multisig.m s]; [Multisig.n s]; [bool_new (Multisig.is_initialized s)];
   concat (bytes_list <$> Multisig.signers s)].

Lemma concat_signers (l : list Address) : length (concat (bytes_list <$> l)) = (32 * length l)%nat.
Proof.
  induction l as [|a l IH]; [done|]. cbn [fmap list_fmap concat].
  rewrite length_app, length_bytes_list. simpl. lia.
Qed.

Lemma signers_of_slices (ps : list (list byte)) :
  Forall (fun p => length p = 32%nat) ps -> bytes_list <$> (bytes_of_list 32 <$> ps) = ps.
Proof.
  induction 1 as [|p ps Hl Hf IH]; [done|]. cbn -[bytes_list bytes_of_list].
  by rewrite bytes_list_of_list, IH.
Qed.

Lemma slices_of_signers (l : list Address) :
  length l = MAX_SIGNERS ->
  bytes_of_list 32 <$> array_refs Multisig.signer_sizes (concat (bytes_list <$> l)) = l.
Proof.
  intros Hl. rewrite <- (app_nil_r (concat _)), array_refs_concat.
  - rewrite <- list_fmap_compose. rewrite <- (list_fmap_id l) at 2. apply list_fmap_ext.
    intros i a _. apply bytes_of_list_list.
  - unfold Multisig.signer_sizes. rewrite <- Hl. clear. induction l; constructor; [|done].
    apply length_bytes_list.
Qed.

(** The signers are as many as the structure has. *)
Lemma multisig_pack_inverse : pack_inverse Multisig.Multisig multisig_valid.
Proof.
  split.
  - intros s dst Hv Hl. change (LEN Multisig.Multisig) with Multisig_LEN in *.
    simpl. unfold Multisig.pack_into_slice.
    destruct (array_refs_shape Multisig.sizes Multisig_LEN dst eq_refl Hl) as (-> & _ & _).
    eexists. split; [done|].
    destruct (packed_pieces Multisig.sizes [[Multisig.m s]; [Multisig.n s];
      [bool_new (Multisig.is_initialized s)]; concat (bytes_list <$> Multisig.signers s)] dst)
      as (E1 & E2 & E3 & E4); [|done|].
    { repeat constructor. by rewrite concat_signers, Hv. }
    change (sum_list Multisig.sizes) with Multisig_LEN in *. do 2 (split; [done|]).
    unfold Multisig.unpack_from_slice. rewrite E3. cbn [mbind Result_bind]. rewrite E4.
    unfold Multisig.parse. rewrite slices_of_signers by done. by destruct s as [? ? [] ?].
  - intros d s Hu. simpl in *. unfold Multisig.unpack_from_slice in Hu.
    apply bind_Ok in Hu as (src & [Hl ->]%array_ref_Ok & Hu).
    destruct (array_refs_shape Multisig.sizes Multisig_LEN d eq_refl Hl) as (Ea & Hf & Ec).
    unfold Multisig.pack_into_slice. rewrite Ea. cbn [mbind Result_bind].
    revert Hu Ec. pieces Hf. unfold Multisig.parse. intros Hu Ec. m_inv.
    apply unpack_bool_Ok in Hm as ->. rename x2 into sl.
    assert (Forall2 (fun n p => length p = n) Multisig.signer_sizes
      (array_refs Multisig.signer_sizes sl)) as Hs by (apply length_array_refs; by rewrite Hp2).
    split; [unfold multisig_valid; cbn [Multisig.signers]; rewrite length_fmap; by rewrite <- (Forall2_length _ _ _ Hs)|].
    cbn [Multisig.m Multisig.n Multisig.is_initialized Multisig.signers].
    rewrite signers_of_slices by (by apply (Forall2_Forall_r _ _ (replicate MAX_SIGNERS 32%nat) _ Hs), Forall_replicate).
    rewrite concat_array_refs, take_ge by (by rewrite Hp2).
    by rewrite !one_byte, Ec, take_drop by done.
Qed.

(** C38: packing writes exactly the structure's bytes and unpacking them gives the
    value back, for every mint, account and multisig whose integers fit their
    fields; and a state that was unpacked and is packed again, unchanged, over
    the same buffer leaves every byte as it was, the unused bodies of absent
    options included. *)
Theorem pack_unpack_inverse :
  pack_inverse Mint.Mint mint_valid /\ pack_inverse Account.Account account_valid /\
  pack_inverse Multisig.Multisig multisig_valid.
Proof. split; [|split]; [apply mint_pack_inverse|apply account_pack_inverse|apply multisig_pack_inverse]. Qed.

(** ** The two views of an account *)

(** What parsing makes of a Pod layout: the option tags and the state byte must
    be values of their types, which the Pod layout does not require. *)
Definition coption_of_pod {T U} (f : T -> U) (c : PodCOption T) : Result ProgramError (option U) :=
  if bool_decide (coption_tag c = PodCOption.NONE) then Ok None
  else if bool_decide (coption_tag c = PodCOption.SOME) then Ok (Some (f (value c)))
  else Err ProgramError.InvalidAccountData.

Definition account_of_pod (p : PodAccount) : Result ProgramError Account.Account :=
  delegate ← coption_of_pod (fun a => a) (delegate p);
  state ← ok_or (account_state_try_from (state p)) ProgramError.InvalidAccountData;
  is_native ← coption_of_pod u64_get (is_native_reserve p);
  close_authority ← coption_of_pod (fun a => a) (close_authority p);
  mret (Account.mk (mint p) (owner p) (u64_get (amount p)) delegate state is_native
          (u64_get (delegated_amount p)) close_authority).

Definition mint_of_pod (p : PodMint) : Result ProgramError Mint.Mint :=
  mint_authority ← coption_of_pod (fun a => a) (mint_authority p);
  is_initialized ← unpack_bool [mint_is_initialized p];
  freeze_authority ← coption_of_pod (fun a => a) (freeze_authority p);
  mret (Mint.mk mint_authority (u64_get (supply p)) (decimals p) is_initialized freeze_authority).

Lemma tag_bytes (t : Bytes 4) l : length l = 4%nat -> t = bytes_of_list 4 l <-> bytes_list t = l.
Proof.
  intros Hl. split; [intros ->; by apply bytes_list_of_list|]. intros <-. symmetry. apply bytes_of_list_list.
Qed.

Lemma unpack_coption_pod {T U} `{Pod T} (parse : list byte -> U) (c : PodCOption T) :
  unpack_coption parse (to_bytes c) = coption_of_pod (fun v => parse (to_bytes v)) c.
Proof.
  unfold unpack_coption, coption_of_pod. rewrite length_to_bytes.
  assert (to_bytes c = bytes_list (coption_tag c) ++ to_bytes (value c)) as -> by done.
  cbn -[take drop].
  rewrite take_app_length', drop_app_length' by (by rewrite length_bytes_list).
  rewrite (take_ge (to_bytes _)) by (rewrite length_to_bytes; lia).
  unfold PodCOption.NONE, PodCOption.SOME. 
  rewrite (bool_decide_ext _ _ (tag_bytes (coption_tag c) NONE_TAG eq_refl)).
  by rewrite (bool_decide_ext _ _ (tag_bytes (coption_tag c) SOME_TAG eq_refl)).
Qed.

Lemma account_to_bytes p :
  to_bytes p = concat [bytes_list (mint p); bytes_list (owner p); bytes_list (amount p);
    to_bytes (delegate p); [state p]; to_bytes (is_native_reserve p);
    bytes_list (delegated_amount p); to_bytes (close_authority p)] ++ [].
Proof. cbn [concat]. by rewrite !app_nil_r. Qed.

Lemma mint_to_bytes p :
  to_bytes p = concat [to_bytes (mint_authority p); bytes_list (supply p); [decimals p];
    [mint_is_initialized p]; to_bytes (freeze_authority p)] ++ [].
Proof. cbn [concat]. by rewrite !app_nil_r. Qed.

Lemma coption_of_pod_key (c : PodCOption Address) :
  unpack_coption_key (to_bytes c) = coption_of_pod (fun a => a) c.
Proof.
  unfold unpack_coption_key. rewrite unpack_coption_pod. unfold coption_of_pod.
  cbn [to_bytes bytes_pod]. by rewrite bytes_of_list_list.
Qed.

Lemma account_unpack_pod p : Account.unpack_from_slice (to_bytes p) = account_of_pod p.
Proof.
  unfold Account.unpack_from_slice.
  rewrite (proj2 (array_ref_Ok Account_LEN (to_bytes p) (to_bytes p))).
  2: { rewrite take_ge; rewrite length_to_bytes; vm_compute; [split; reflexivity|lia]. }
  cbn [mbind Result_bind]. rewrite account_to_bytes, array_refs_concat.
  2: { repeat constructor; rewrite ?length_bytes_list, ?length_to_bytes; reflexivity. }
  unfold Account.parse, account_of_pod. rewrite !coption_of_pod_key.
  unfold unpack_coption_u64. rewrite unpack_coption_pod. cbn [List.hd].
  rewrite !bytes_of_list_list. done.
Qed.

Lemma mint_unpack_pod p : Mint.unpack_from_slice (to_bytes p) = mint_of_pod p.
Proof.
  unfold Mint.unpack_from_slice.
  rewrite (proj2 (array_ref_Ok Mint_LEN (to_bytes p) (to_bytes p))).
  2: { rewrite take_ge; rewrite length_to_bytes; vm_compute; [split; reflexivity|lia]. }
  cbn [mbind Result_bind]. rewrite mint_to_bytes, array_refs_concat.
  2: { repeat constructor; rewrite ?length_bytes_list, ?length_to_bytes; reflexivity. }
  unfold Mint.parse, mint_of_pod. by rewrite !coption_of_pod_key.
Qed.

(** A packed structure that parses the bytes of a Pod layout as [conv] says. *)
Class PodView (S P : Type) `{Pack S, BaseState P} : Type := mk_pod_view {
  conv : P -> Result ProgramError S;
  conv_size : LEN S = size_of P;
  conv_unpack p : unpack_from_slice (to_bytes p) = conv p;
  conv_initialized p s : conv p = Ok s -> packed_is_initialized s = is_initialized p
}.

#[export] Program Instance account_view : PodView Account.Account PodAccount :=
  {| conv := account_of_pod; conv_size := eq_refl; conv_unpack := account_unpack_pod |}.
Next Obligation.
  unfold account_of_pod. intros p s Hs. m_inv. cbn -[account_is_initialized].
  apply account_state_u8_from in Hm0. unfold Account.is_initialized, account_is_initialized.
  cbn [Account.state]. rewrite <- Hm0. by destruct a0.
Qed.

#[export] Program Instance mint_view : PodView Mint.Mint PodMint :=
  {| conv := mint_of_pod; conv_size := eq_refl; conv_unpack := mint_unpack_pod |}.
Next Obligation.
  unfold mint_of_pod. intros p s Hs. m_inv. simpl. apply unpack_bool_Ok in Hm0.
  injection Hm0 as ->. symmetry. apply bool_get_new.
Qed.

Lemma swe_unpack_Ok `{PM : PackMethods} {S P} `{PodView S P} d s :
  swe_unpack S P d = Ok s <->
  exists st b, unpack P d = Ok st /\ conv (state_base st) = Ok b /\
    s = mk_swe b (state_tlv_data st).
Proof.
  unfold swe_unpack, unpack. rewrite !bind_Ok. split.
  - intros (u & Hc & Hb). apply bind_Ok in Hb as (b & Hb & Ht).
    apply bind_Ok in Ht as (t & Ht & Hr). apply ret_Ok in Hr as <-.
    pose proof Hc as Hl. apply fail_if_Ok, orb_false_iff in Hl as [_ Hl%Nat.ltb_ge].
    assert (length (take (size_of P) d) = size_of P) as Hlen by (rewrite length_take; lia).
    rewrite pm_unpack_spec, pm_unpack_unchecked_spec, conv_size, Hlen, Nat.eqb_refl in Hb.
    apply bind_Ok in Hb as (b' & Hb & Hi).
    destruct (packed_is_initialized b') eqn:Ei; [|done]. apply ret_Ok in Hi as ->.
    rewrite <- (to_from_bytes (A := P) (take (size_of P) d)), conv_unpack in Hb by done.
    exists (mk_state (from_bytes (A := P) (take (size_of P) d)) t), b. split; [|done].
    rewrite Hc. cbn [mbind Result_bind]. unfold try_from_bytes. rewrite Hlen, Nat.eqb_refl. simpl.
    rewrite <- (conv_initialized _ _ Hb), Ei. simpl. by rewrite Ht.
  - intros (st & b & Hu & Hb & ->). apply bind_Ok in Hu as (u & Hc & Hu). exists u. split; [done|].
    apply bind_Ok in Hu as (base & Hf%ok_or_Ok%try_from_bytes_Some & Hu). rewrite Hf.
    destruct (is_initialized base) eqn:Ei; [|done]. simpl in Hu.
    apply bind_Ok in Hu as (t & Ht & Hr). apply ret_Ok in Hr as <-. simpl in *.
    rewrite pm_unpack_spec, pm_unpack_unchecked_spec, conv_size, length_to_bytes, Nat.eqb_refl.
    rewrite conv_unpack, Hb. simpl. rewrite (conv_initialized _ _ Hb), Ei. simpl. by rewrite Ht.
Qed.

(** the two ways of reading account data agree.  A buffer is read through the
    packed [Account] (or [Mint]) exactly when the zero-copy Pod view accepts it
    and its option tags, state and flag are values of their types, and both
    then find the same fields and the same extension data. *)
Theorem state_with_extensions_agree `{PM : PackMethods} d :
  (forall s, swe_unpack Account.Account PodAccount d = Ok s <->
     exists st b, unpack PodAccount d = Ok st /\ account_of_pod (state_base st) = Ok b /\
       s = mk_swe b (state_tlv_data st)) /\
  (forall s, swe_unpack Mint.Mint PodMint d = Ok s <->
     exists st b, unpack PodMint d = Ok st /\ mint_of_pod (state_base st) = Ok b /\
       s = mk_swe b (state_tlv_data st)).
Proof.
  split; intros s.
  - exact (swe_unpack_Ok (S := Account.Account) (P := PodAccount) d s).
  - exact (swe_unpack_Ok (S := Mint.Mint) (P := PodMint) d s).
Qed.

(** The mutable views agree too, slice by slice. *)
Lemma swm_unpack_Ok `{PM : PackMethods} {S P} `{PodView S P} d s :
  swm_unpack S P d = Ok s ->
  exists st b, unpack_mut P d = Ok st /\ conv (base st) = Ok b /\
    s = mk_swm b (to_bytes (base st)) (padding st) (account_type st) (tlv_data st).
Proof.
  unfold swm_unpack, unpack_mut. intros (u & Hc & Hb)%bind_Ok.
  apply bind_Ok in Hb as (b & Hb & Ht). apply bind_Ok in Ht as ([[p a] t] & Ht & Hr).
  apply ret_Ok in Hr as <-.
  pose proof Hc as Hl. apply fail_if_Ok, orb_false_iff in Hl as [_ Hl%Nat.ltb_ge].
  assert (length (take (size_of P) d) = size_of P) as Hlen by (rewrite length_take; lia).
  rewrite pm_unpack_spec, pm_unpack_unchecked_spec, conv_size, Hlen, Nat.eqb_refl in Hb.
  apply bind_Ok in Hb as (b' & Hb & Hi).
  destruct (packed_is_initialized b') eqn:Ei; [|done]. apply ret_Ok in Hi as ->.
  rewrite <- (to_from_bytes (A := P) (take (size_of P) d)), conv_unpack in Hb by done.
  exists (mk_state_mut (from_bytes (A := P) (take (size_of P) d)) p a t), b.
  rewrite Hc. cbn [mbind Result_bind]. unfold try_from_bytes. rewrite Hlen, Nat.eqb_refl. simpl.
  rewrite <- (conv_initialized _ _ Hb), Ei. simpl. rewrite Ht. split; [done|]. split; [done|].
  cbn [base padding account_type tlv_data]. by rewrite to_from_bytes.
Qed.

Lemma array_refs_account p :
  array_refs Account.sizes (to_bytes p) =
    [bytes_list (mint p); bytes_list (owner p); bytes_list (amount p); to_bytes (delegate p);
     [state p]; to_bytes (is_native_reserve p); bytes_list (delegated_amount p);
     to_bytes (close_authority p)].
Proof.
  rewrite account_to_bytes, array_refs_concat; [done|].
  repeat constructor; rewrite ?length_bytes_list, ?length_to_bytes; reflexivity.
Qed.

(** Packing an account read from [p], with another native reserve, over the
    bytes of [p]. *)
Lemma pack_account_native p b r :
  account_of_pod p = Ok b ->
  Account.pack_into_slice (Account.set_is_native (Some r) b) (to_bytes p) =
    Ok (to_bytes (set_is_native (PodCOption.some (u64_new r)) p)).
Proof.
  unfold account_of_pod. intros Hb. m_inv.
  match goal with H1 : coption_of_pod _ (delegate p) = Ok _, H2 : coption_of_pod _ (close_authority p) = Ok _,
      H3 : account_state_try_from _ = Some _ |- _ =>
    rewrite <- coption_of_pod_key in H1, H2; apply coption_key_unpack in H1, H2;
      [|by rewrite length_to_bytes..]; apply account_state_u8_from in H3;
    rename H1 into Ed, H2 into Ec, H3 into Es end.
  unfold Account.pack_into_slice.
  rewrite (proj2 (array_ref_Ok Account_LEN (to_bytes p) (to_bytes p))).
  2: { rewrite take_ge; rewrite length_to_bytes; vm_compute; [split; reflexivity|lia]. }
  cbn [mbind Result_bind]. rewrite array_refs_account.
  cbn [Account.set_is_native Account.mint Account.owner Account.amount Account.delegate Account.state
       Account.is_native Account.delegated_amount Account.close_authority].
  rewrite Ed, Ec, Es. rewrite drop_ge by (rewrite length_to_bytes; vm_compute; lia).
  assert (forall x : U64, to_le_bytes 8 (u64_get x) = bytes_list x) as Ex
    by (intros x; apply to_from_le_8, length_bytes_list).
  rewrite !Ex, (account_to_bytes (set_is_native _ _)). cbn [concat set_is_native].
  rewrite !app_nil_r. done.
Qed.

(** ** Reading a field of an account *)

Section generic.
Import generic_token_account.

Lemma account_fields (b : PodAccount) rest :
  (to_bytes b ++ rest) !! ACCOUNT_INITIALIZED_INDEX = Some (state b) /\
  slice (to_bytes b ++ rest) SPL_TOKEN_ACCOUNT_MINT_OFFSET (SPL_TOKEN_ACCOUNT_MINT_OFFSET + 32) =
    bytes_list (mint b) /\
  slice (to_bytes b ++ rest) SPL_TOKEN_ACCOUNT_OWNER_OFFSET (SPL_TOKEN_ACCOUNT_OWNER_OFFSET + 32) =
    bytes_list (owner b).
Proof.
  rewrite account_to_bytes. cbn [concat]. rewrite !app_nil_r, <- !app_assoc. cbn [app].
  unfold ACCOUNT_INITIALIZED_INDEX, SPL_TOKEN_ACCOUNT_MINT_OFFSET, SPL_TOKEN_ACCOUNT_OWNER_OFFSET.
  split_and!.
  - rewrite !app_assoc, lookup_app_r; rewrite !length_app, !length_bytes_list, length_to_bytes; [|vm_compute; lia].
    reflexivity.
  - rewrite slice_0, take_app_length' by (by rewrite length_bytes_list). done.
  - rewrite slice_app_mid; rewrite ?length_bytes_list; done.
Qed.

Lemma valid_account_data_true d :
  valid_account_data d = Ok true <->
  is_initialized_account d = true /\
  (length d = Account_LEN \/
   (Account_LEN < length d)%nat /\ length d <> Multisig_LEN /\
   d !! Account_LEN = Some (account_type_u8 AccountType.Account)).
Proof.
  unfold valid_account_data. destruct (is_initialized_account d); cbn [andb].
  - destruct (Nat.eqb_spec (length d) Account_LEN); cbn [andb]; [naive_solver|].
    destruct (Nat.ltb_spec Account_LEN (length d)); cbn [negb]; [|naive_solver lia].
    destruct (Nat.eqb_spec (length d) Multisig_LEN); [naive_solver lia|].
    destruct (d !! Account_LEN); [|naive_solver]. rewrite andb_true_r. split.
    + intros [= Hb%bool_decide_eq_true]. subst. auto.
    + intros (_ & [|(_ & _ & [= ->])]); [done|]. by rewrite bool_decide_true.
  - rewrite andb_false_r. split; [|by intros []].
    destruct (negb _); [done|]. destruct (_ =? _)%nat; [done|].
    destruct (d !! Account_LEN); [|done]. by rewrite andb_false_r.
Qed.

Lemma valid_account_data_total d : exists b, valid_account_data d = Ok b.
Proof.
  unfold valid_account_data. destruct (_ && _); [by eexists|].
  destruct (Nat.ltb_spec Account_LEN (length d)) as [Hl|]; cbn [negb]; [|by eexists].
  destruct (_ =? _)%nat; [by eexists|].
  destruct (lookup_lt_is_Some_2 d _ Hl) as [b ->]. by eexists.
Qed.

Lemma initialized_state (b : PodAccount) rest :
  is_initialized_account (to_bytes b ++ rest) = negb (bool_decide (state b = x00)).
Proof. unfold is_initialized_account. by rewrite (proj1 (account_fields b rest)). Qed.

Lemma unchecked_fields (b : PodAccount) rest :
  unpack_account_owner_unchecked (to_bytes b ++ rest) = Ok (owner b) /\
  unpack_account_mint_unchecked (to_bytes b ++ rest) = Ok (mint b).
Proof.
  destruct (account_fields b rest) as (_ & Hm & Ho).
  unfold unpack_account_owner_unchecked, unpack_account_mint_unchecked, unpack_pubkey_unchecked.
  rewrite Hm, Ho, !bytes_of_list_list.
  assert (165 <= length (to_bytes b ++ rest))%nat as Hl
    by (rewrite length_app, length_to_bytes; change (size_of PodAccount) with 165%nat; lia).
  unfold SPL_TOKEN_ACCOUNT_MINT_OFFSET, SPL_TOKEN_ACCOUNT_OWNER_OFFSET.
  rewrite !(proj2 (Nat.ltb_ge _ _)) by lia. done.
Qed.

Lemma account_type_lookup (b : PodAccount) rest :
  (to_bytes b ++ rest) !! Account_LEN = rest !! 0%nat.
Proof. rewrite lookup_app_r by (rewrite length_to_bytes; reflexivity). by rewrite length_to_bytes. Qed.

Lemma account_front d : (Account_LEN <= length d)%nat ->
  exists (b : PodAccount) rest, d = to_bytes b ++ rest.
Proof.
  intros Hl. exists (from_bytes (A := PodAccount) (take Account_LEN d)), (drop Account_LEN d).
  rewrite to_from_bytes by (rewrite length_take; change (size_of PodAccount) with Account_LEN; lia).
  by rewrite take_drop.
Qed.

Lemma account_initialized_state (b : PodAccount) :
  is_initialized b = true <-> state b = x01 \/ state b = x02.
Proof.
  cbn [is_initialized PodAccount_base]. unfold account_is_initialized.
  rewrite orb_true_iff, !bool_decide_eq_true. done.
Qed.

Lemma valid_account_of_view d (st : PodStateMut PodAccount) :
  unpack_mut PodAccount d = Ok st -> valid_account_data d = Ok true.
Proof.
  rewrite unpack_mut_Ok. intros (-> & Hi & Hl & Hw). apply valid_account_data_true.
  unfold repack in *. rewrite initialized_state, account_type_lookup, length_app, length_to_bytes in *.
  change (size_of PodAccount) with Account_LEN in *. apply account_initialized_state in Hi.
  split; [by destruct Hi as [-> | ->]|].
  destruct Hw as [(-> & -> & ->)|[Hp Ha]]; [left; apply Nat.add_0_r|right].
  rewrite Ha. change (padding st = []) in Hp. rewrite Hp in *. cbn [app length] in *.
  rewrite Ha in Hl. cbn [app length] in Hl. split_and!; [lia|lia|done].
Qed.

Lemma valid_account_of_mint d (st : PodStateMut PodMint) :
  unpack_mut PodMint d = Ok st -> valid_account_data d = Ok false.
Proof.
  intros Hu. destruct (valid_account_data_total d) as [[|] Hv]; [exfalso|done].
  apply valid_account_data_true in Hv as [_ Hv]. apply unpack_mut_Ok in Hu as (-> & _ & _ & Hw).
  rewrite length_repack in Hv. change (size_of PodMint) with 82%nat in Hv.
  change Account_LEN with 165%nat in Hv.
  destruct Hw as [(Ep & Ea & Et)|[Ep Ea]]; rewrite ?Ep, ?Ea, ?Et in Hv; cbn [length] in Hv.
  - destruct Hv as [|(? & _)]; lia.
  - change (BASE_ACCOUNT_LENGTH - size_of PodMint)%nat with 83%nat in *. rewrite length_replicate in Hv.
    destruct Hv as [|(_ & _ & Ht)]; [lia|]. unfold repack in Ht. rewrite Ep, Ea in Ht.
    rewrite lookup_app_r in Ht by (rewrite length_to_bytes; change (size_of PodMint) with 82%nat; lia).
    rewrite length_to_bytes in Ht. discriminate Ht.
Qed.

Lemma view_of_valid_account d :
  valid_account_data d = Ok true -> d !! ACCOUNT_INITIALIZED_INDEX ∈ [Some x01; Some x02] ->
  exists st, unpack_mut PodAccount d = Ok st.
Proof.
  intros [_ Hv]%valid_account_data_true Hs.
  destruct (account_front d) as (b & rest & ->); [lia|].
  rewrite (proj1 (account_fields b rest)) in Hs. rewrite account_type_lookup, length_app in Hv.
  rewrite length_to_bytes in Hv. change (size_of PodAccount) with Account_LEN in Hv.
  assert (is_initialized b = true) as Hi
    by (apply account_initialized_state;
        apply elem_of_cons in Hs as [[= E]|[[= E]|[]%elem_of_nil]%elem_of_cons]; auto).
  destruct Hv as [Hl|(_ & Hl & Ht)].
  - destruct rest; [|cbn [length] in Hl; lia]. exists (mk_state_mut b [] [] []). apply unpack_mut_Ok.
    split; [done|]. split; [done|]. split; [|by left]. rewrite length_repack. by vm_compute.
  - destruct rest as [|c tlv]; [done|]. injection Ht as ->.
    exists (mk_state_mut b [] [account_type_u8 AccountType.Account] tlv). apply unpack_mut_Ok.
    split; [done|]. split; [done|]. split; [|by right].
    rewrite length_repack. change (size_of PodAccount) with Account_LEN. cbn [length padding account_type tlv_data] in Hl |- *. lia.
Qed.

(** The reader of single fields agrees with the view of the whole account: it
    never panics, finds the owner and the mint of every account, and nothing in
    a mint; and what it accepts is an account, if its state byte is a state. *)
Theorem generic_account_spec d :
  (exists o, unpack_account_owner d = Ok o) /\
  (forall st, unpack_mut PodAccount d = Ok st ->
     unpack_account_owner d = Ok (Some (owner (base st))) /\
     unpack_account_mint d = Ok (Some (mint (base st)))) /\
  (forall st, unpack_mut PodMint d = Ok st ->
     unpack_account_owner d = Ok None /\ unpack_account_mint d = Ok None) /\
  (valid_account_data d = Ok true -> d !! ACCOUNT_INITIALIZED_INDEX ∈ [Some x01; Some x02] ->
     exists st, unpack_mut PodAccount d = Ok st).
Proof.
  split; [|split; [|split; [|apply view_of_valid_account]]].
  - unfold unpack_account_owner. destruct (valid_account_data_total d) as [b Hb]. rewrite Hb.
    cbn [mbind Result_bind]. destruct b; [|by eexists].
    apply valid_account_data_true in Hb as [_ Hl]. destruct (account_front d) as (b & rest & ->); [lia|].
    rewrite (proj1 (unchecked_fields b rest)). by eexists.
  - intros st Hu. unfold unpack_account_owner, unpack_account_mint.
    rewrite (valid_account_of_view d st Hu). apply unpack_mut_Ok in Hu as (-> & _ & _).
    unfold repack. cbn [mbind Result_bind].
    by rewrite (proj1 (unchecked_fields (base st) _)), (proj2 (unchecked_fields (base st) _)).
  - intros st Hu. unfold unpack_account_owner, unpack_account_mint.
    by rewrite (valid_account_of_mint d st Hu).
Qed.
End generic.
