(* ===== verification/Ledger.v ===== *)
(** * The ledger: sums over all accounts

    Sums of a quantity over the accounts of the store, and the quantities the
    properties are about: the tokens of a mint held by (or withheld on) its
    accounts and on the mint itself, the supply the mint records, and the
    lamports. *)
From S2P Require Import Prelude Bytes Errors Ids Runtime Pod ExtensionState Extension TlvTheory.
From S2P Require Import ViewTheory MonadTheory Ownership.

(** ** Sums over the store *)

Definition sum_Z (l : list Z) : Z := foldr Z.add 0 l.

Definition world_sum (f : Address -> Cell -> Z) (w : World) : Z :=
  sum_Z ((fun k => f k (cell w k)) <$> elements (dom (cells w))).

Lemma sum_Z_app l k : sum_Z (l ++ k) = sum_Z l + sum_Z k.
Proof. induction l; simpl; lia. Qed.

Lemma sum_Z_perm l k : l ≡ₚ k -> sum_Z l = sum_Z k.
Proof. induction 1; simpl; lia. Qed.

Lemma sum_Z_zero l : Forall (fun z => z = 0) l -> sum_Z l = 0.
Proof. induction 1; simpl; lia. Qed.

Section sums.
Context (f : Address -> Cell -> Z) (f_empty : forall k, f k empty_cell = 0).

(** The sum over any set that covers the store. *)
Lemma world_sum_cover w (X : gset Address) :
  dom (cells w) ⊆ X -> world_sum f w = sum_Z ((fun k => f k (cell w k)) <$> elements X).
Proof.
  intros HX. unfold world_sum.
  assert (elements X ≡ₚ elements (dom (cells w)) ++ elements (X ∖ dom (cells w))) as E.
  { rewrite <- elements_disj_union by set_solver. by rewrite <- union_difference_L. }
  rewrite (sum_Z_perm _ _ (fmap_Permutation (fun k => f k (cell w k)) _ _ E)).
  rewrite fmap_app, sum_Z_app. rewrite (sum_Z_zero ((fun k => f k (cell w k)) <$> elements (X ∖ _)));
    [lia|].
  apply Forall_fmap, Forall_forall. intros k Hk. apply elem_of_elements, elem_of_difference in Hk as [_ Hk].
  apply not_elem_of_dom in Hk. unfold compose, cell. rewrite Hk. apply f_empty.
Qed.

Lemma world_sum_ext w w' :
  (forall k, f k (cell w k) = f k (cell w' k)) -> world_sum f w = world_sum f w'.
Proof.
  intros E. rewrite (world_sum_cover w (dom (cells w) ∪ dom (cells w'))) by set_solver.
  rewrite (world_sum_cover w' (dom (cells w) ∪ dom (cells w'))) by set_solver.
  f_equal. apply list_fmap_ext. intros i k _. apply E.
Qed.

Lemma world_sum_split w k (X : gset Address) :
  dom (cells w) ⊆ X -> k ∈ X ->
  world_sum f w = f k (cell w k) + sum_Z ((fun k => f k (cell w k)) <$> elements (X ∖ {[k]})).
Proof.
  intros HX Hk. rewrite (world_sum_cover w X) by done.
  assert (elements X ≡ₚ k :: elements (X ∖ {[k]})) as E.
  { change (k :: ?l) with ([k] ++ l). rewrite <- (elements_singleton (C := gset Address) k).
    rewrite <- elements_disj_union by set_solver. f_equiv. apply leibniz_equiv_iff.
    rewrite <- union_difference_singleton_L; done. }
  by rewrite (sum_Z_perm _ _ (fmap_Permutation (fun k => f k (cell w k)) _ _ E)).
Qed.

(** A write changes the sum by the change of the account's own term. *)
Lemma world_sum_set_cell k c w :
  world_sum f (set_cell k c w) = world_sum f w - f k (cell w k) + f k c.
Proof.
  set (X := {[k]} ∪ dom (cells w)).
  rewrite (world_sum_split w k X), (world_sum_split (set_cell k c w) k X);
    [|unfold X; simpl; rewrite ?dom_insert_L; set_solver..].
  rewrite cell_set_cell.
  rewrite (list_fmap_ext (fun k' => f k' (cell (set_cell k c w) k')) (fun k' => f k' (cell w k'))
    (elements (X ∖ {[k]}))); [lia|].
  intros i k' Hk'. rewrite cell_set_cell_ne; [done|]. intros <-.
  apply list_elem_of_lookup_2, elem_of_elements in Hk'. set_solver.
Qed.
End sums.

(** ** Token accounts and mints *)

(** The fee withheld on a token account, and on a mint. *)
Definition withheld (a : PodStateMut PodAccount) : Z :=
  match get_extension TransferFeeAmount a with
  | Ok e => u64_get (tfa_withheld_amount e)
  | _ => 0
  end.

Definition mint_withheld (m : PodStateMut PodMint) : Z :=
  match get_extension TransferFeeConfig m with
  | Ok e => u64_get (tfc_withheld_amount e)
  | _ => 0
  end.

(** The tokens an account accounts for. *)
Definition account_tokens (a : PodStateMut PodAccount) : Z :=
  u64_get (amount (base a)) + withheld a.

(** The tokens of mint [m] in the account at [k]: the balance and the withheld
    fee of a token account, the withheld fee on the mint itself. *)
Definition holding (m k : Address) (c : Cell) : Z :=
  if bool_decide (cell_owner c = id) then
    match unpack_mut PodAccount (cell_data c) with
    | Ok a => if bool_decide (mint (base a) = m) then account_tokens a else 0
    | _ =>
        match unpack_mut PodMint (cell_data c) with
        | Ok mt => if bool_decide (k = m) then mint_withheld mt else 0
        | _ => 0
        end
    end
  else 0.

Definition circulation (m : Address) (w : World) : Z := world_sum (holding m) w.

(** The supply a mint records. *)
Definition recorded_supply (c : Cell) : Z :=
  if bool_decide (cell_owner c = id) then
    match unpack_mut PodMint (cell_data c) with
    | Ok mt => u64_get (supply (base mt))
    | _ => 0
    end
  else 0.
Definition supply_of (m : Address) (w : World) : Z := recorded_supply (cell w m).

Definition total_lamports (w : World) : Z := world_sum (fun _ c => cell_lamports c) w.

(** The byte of the account type. *)
Lemma lookup_repack_type {S} `{Pod S} (st : PodStateMut S) t :
  account_type st = [t] -> repack st !! (size_of S + length (padding st))%nat = Some t.
Proof.
  intros Ht. unfold repack. rewrite Ht, lookup_app_r by (rewrite length_to_bytes; lia).
  rewrite length_to_bytes, lookup_app_r by lia.
  by replace (size_of S + length (padding st) - size_of S - length (padding st))%nat with 0%nat by lia.
Qed.

Lemma withheld_tlv_data st st' : tlv_data st' = tlv_data st -> withheld st' = withheld st.
Proof.
  intros E. unfold withheld, get_extension, get_tlv_data, PodStateMut_bse. by rewrite E.
Qed.

Lemma mint_withheld_tlv_data st st' :
  tlv_data st' = tlv_data st -> mint_withheld st' = mint_withheld st.
Proof.
  intros E. unfold mint_withheld, get_extension, get_tlv_data, PodStateMut_bse. by rewrite E.
Qed.

Lemma withheld_with_base b st : withheld (with_base b st) = withheld st.
Proof. done. Qed.

(** No account data is both a token account and a mint. *)
Lemma account_mint_exclusive d a m :
  unpack_mut PodAccount d = Ok a -> unpack_mut PodMint d = Ok m -> False.
Proof.
  rewrite !unpack_mut_Ok. intros (-> & _ & _ & Ha) (E & _ & _ & Hm).
  pose proof (f_equal length E) as El. rewrite !length_repack in El.
  rewrite PodAccount_size, PodMint_size in *. unfold BASE_ACCOUNT_LENGTH in *.
  destruct Ha as [(Hp & Ht & Htl)|[Hp Ht]]; destruct Hm as [(Hp' & Ht' & Htl')|[Hp' Ht']];
    rewrite ?Hp, ?Ht, ?Htl, ?Hp', ?Ht', ?Htl', ?length_replicate in El; simpl in El; try lia.
  pose proof (lookup_repack_type a _ Ht) as Ea. pose proof (lookup_repack_type m _ Ht') as Em.
  rewrite Hp, PodAccount_size, length_replicate in Ea.
  rewrite Hp', PodMint_size, length_replicate in Em. rewrite E in Ea. simpl in Ea, Em. congruence.
Qed.

Lemma holding_account m k c a :
  cell_owner c = id -> unpack_mut PodAccount (cell_data c) = Ok a ->
  holding m k c = if bool_decide (mint (base a) = m) then account_tokens a else 0.
Proof. intros Ho Ha. unfold holding. by rewrite bool_decide_true, Ha. Qed.

Lemma holding_mint m k c mt :
  cell_owner c = id -> unpack_mut PodMint (cell_data c) = Ok mt ->
  holding m k c = if bool_decide (k = m) then mint_withheld mt else 0.
Proof.
  intros Ho Hm. unfold holding. rewrite bool_decide_true by done.
  destruct (unpack_mut PodAccount (cell_data c)) as [a| |] eqn:Ha; [|by rewrite Hm..].
  by destruct (account_mint_exclusive _ _ _ Ha Hm).
Qed.

Lemma recorded_supply_account c a :
  unpack_mut PodAccount (cell_data c) = Ok a -> recorded_supply c = 0.
Proof.
  intros Ha. unfold recorded_supply. case_bool_decide; [|done].
  destruct (unpack_mut PodMint (cell_data c)) as [mt| |] eqn:Hm; [|done..].
  by destruct (account_mint_exclusive _ _ _ Ha Hm).
Qed.

Lemma supply_of_max m w : supply_of m w <= u64_max.
Proof.
  unfold supply_of, recorded_supply. case_bool_decide; [|done].
  destruct (unpack_mut PodMint _); [apply u64_get_range|done..].
Qed.

Lemma recorded_supply_mint c mt :
  cell_owner c = id -> unpack_mut PodMint (cell_data c) = Ok mt ->
  recorded_supply c = u64_get (supply (base mt)).
Proof. intros Ho Hm. unfold recorded_supply. by rewrite bool_decide_true, Hm. Qed.

Lemma holding_empty m k : holding m k empty_cell = 0.
Proof. unfold holding. by rewrite bool_decide_false by (vm_compute; discriminate). Qed.

Lemma withheld_range a : is_u64 (withheld a).
Proof. unfold withheld. case_match; try apply u64_get_range. all: split; vm_compute; discriminate. Qed.

Lemma mint_withheld_range a : is_u64 (mint_withheld a).
Proof. unfold mint_withheld. case_match; try apply u64_get_range. all: split; vm_compute; discriminate. Qed.

Lemma holding_nonneg m k c : 0 <= holding m k c.
Proof.
  unfold holding, account_tokens.
  repeat case_match; try lia.
  - pose proof (withheld_range a). pose proof (u64_get_range (amount (base a))).
    unfold is_u64 in *. lia.
  - match goal with |- context [mint_withheld ?x] => pose proof (mint_withheld_range x) end.
    unfold is_u64 in *. lia.
  - match goal with |- context [mint_withheld ?x] => pose proof (mint_withheld_range x) end.
    unfold is_u64 in *. lia.
Qed.

(** ** Writing a view back *)

(** A view that can replace [st]: initialized and of its shape. *)
Definition replaces {S} `{BaseState S} (st st' : PodStateMut S) : Prop :=
  is_initialized (base st') = true /\ padding st' = padding st /\
  account_type st' = account_type st /\ length (tlv_data st') = length (tlv_data st).

Lemma replaces_unpack {S} `{BaseState S} d (st st' : PodStateMut S) :
  unpack_mut S d = Ok st -> replaces st st' -> unpack_mut S (repack st') = Ok st'.
Proof.
  intros (-> & Hi & Hw)%unpack_mut_Ok (Hi' & Hp & Ha & Ht).
  apply unpack_mut_repack; [done|]. eapply well_formed_same_shape; [|apply well_formed_with_base, Hw].
  split_and!; [|done..]. reflexivity.
Qed.

Lemma same_shape_replaces {S} `{BaseState S} d (st st' : PodStateMut S) :
  unpack_mut S d = Ok st -> same_shape st st' -> replaces st st'.
Proof. intros (-> & Hi & Hw)%unpack_mut_Ok (Hb & Hs). split; [by rewrite Hb|done]. Qed.

Lemma replaces_base {S} `{BaseState S} (st st' : PodStateMut S) b :
  replaces st st' -> is_initialized b = true -> replaces st (with_base b st').
Proof. intros (_ & Hs) Hb. by split. Qed.

Lemma replaces_trans {S} `{BaseState S} (st st' st'' : PodStateMut S) :
  replaces st st' -> replaces st' st'' -> replaces st st''.
Proof.
  intros (_ & Ep & Ea & Et) (Hi & Ep' & Ea' & Et'). unfold replaces. rewrite Ep', Ea', Et'. done.
Qed.

Lemma replaces_same_shape {S} `{BaseState S} (st st' st'' : PodStateMut S) :
  replaces st st' -> same_shape st' st'' -> replaces st st''.
Proof.
  intros (Hi & Hp & Ha & Ht) (Eb & Ep & Ea & Et). unfold replaces. rewrite Eb, Ep, Ea, Et. done.
Qed.

(** What storing a token account or a mint does to the sums. *)
Section stored.
Context (m k : Address) (w : World) (Hown : cell_owner (cell w k) = id).

Lemma circulation_store_account a a' :
  unpack_mut PodAccount (cell_data (cell w k)) = Ok a -> replaces a a' ->
  mint (base a') = mint (base a) ->
  circulation m (store k a' w) = circulation m w +
    if bool_decide (mint (base a) = m) then account_tokens a' - account_tokens a else 0.
Proof.
  intros Ha Hr Em. unfold circulation, store.
  rewrite world_sum_set_cell by apply holding_empty.
  rewrite (holding_account m k _ a) by done.
  rewrite (holding_account m k (with_data _ _) a'); [|done|by eapply replaces_unpack].
  rewrite Em. case_bool_decide; lia.
Qed.

Lemma supply_store_account a a' :
  unpack_mut PodAccount (cell_data (cell w k)) = Ok a -> replaces a a' ->
  supply_of m (store k a' w) = supply_of m w.
Proof.
  intros Ha Hr. unfold supply_of, store. rewrite cell_set_cell_case. case_decide as E; [|done].
  subst. rewrite (recorded_supply_account (cell w m) a) by done.
  apply (recorded_supply_account _ a'). by eapply replaces_unpack.
Qed.

Lemma circulation_rewrite_mint mt mt' :
  unpack_mut PodMint (cell_data (cell w k)) = Ok mt -> unpack_mut PodMint (repack mt') = Ok mt' ->
  circulation m (store k mt' w) = circulation m w +
    if bool_decide (k = m) then mint_withheld mt' - mint_withheld mt else 0.
Proof.
  intros Hm Hr. unfold circulation, store.
  rewrite world_sum_set_cell by apply holding_empty.
  rewrite (holding_mint m k _ mt) by done.
  rewrite (holding_mint m k (with_data _ _) mt') by done.
  case_bool_decide; lia.
Qed.

Lemma circulation_store_mint mt mt' :
  unpack_mut PodMint (cell_data (cell w k)) = Ok mt -> replaces mt mt' ->
  circulation m (store k mt' w) = circulation m w +
    if bool_decide (k = m) then mint_withheld mt' - mint_withheld mt else 0.
Proof. intros. apply circulation_rewrite_mint; [done|by eapply replaces_unpack]. Qed.

Lemma supply_rewrite_mint mt mt' :
  unpack_mut PodMint (cell_data (cell w k)) = Ok mt -> unpack_mut PodMint (repack mt') = Ok mt' ->
  supply_of m (store k mt' w) = supply_of m w +
    if bool_decide (k = m) then u64_get (supply (base mt')) - u64_get (supply (base mt)) else 0.
Proof.
  intros Hm Hr. unfold supply_of, store. rewrite cell_set_cell_case.
  destruct (decide (k = m)) as [->|]; [|rewrite bool_decide_false by done; lia].
  rewrite bool_decide_true, (recorded_supply_mint (cell w m) mt) by done.
  rewrite (recorded_supply_mint _ mt') by done. lia.
Qed.

Lemma supply_store_mint mt mt' :
  unpack_mut PodMint (cell_data (cell w k)) = Ok mt -> replaces mt mt' ->
  supply_of m (store k mt' w) = supply_of m w +
    if bool_decide (k = m) then u64_get (supply (base mt')) - u64_get (supply (base mt)) else 0.
Proof. intros. apply supply_rewrite_mint; [done|by eapply replaces_unpack]. Qed.

Lemma owner_store {S} `{Pod S} (st : PodStateMut S) k' :
  cell_owner (cell (store k st w) k') = cell_owner (cell w k').
Proof. unfold store. rewrite cell_set_cell_case. case_decide as E; [by rewrite E|done]. Qed.

Lemma lamports_store {S} `{Pod S} (st : PodStateMut S) k' :
  cell_lamports (cell (store k st w) k') = cell_lamports (cell w k').
Proof. unfold store. rewrite cell_set_cell_case. case_decide as E; [by rewrite E|done]. Qed.
End stored.

Lemma data_store {S} `{Pod S} (st : PodStateMut S) k w :
  cell_data (cell (store k st w) k) = repack st.
Proof. unfold store. by rewrite cell_set_cell. Qed.

Lemma cell_store_ne {S} `{Pod S} (st : PodStateMut S) k k' w :
  k <> k' -> cell (store k st w) k' = cell w k'.
Proof. intros. unfold store. by rewrite cell_set_cell_ne. Qed.

(** Lamports do not enter the token sums. *)
Lemma circulation_lamports m k l w :
  circulation m (set_cell k (with_lamports l (cell w k)) w) = circulation m w.
Proof.
  unfold circulation. rewrite world_sum_set_cell by apply holding_empty.
  unfold holding at 2 3. simpl. lia.
Qed.

Lemma supply_lamports m k l w :
  supply_of m (set_cell k (with_lamports l (cell w k)) w) = supply_of m w.
Proof. unfold supply_of. rewrite cell_set_cell_case. case_decide; subst; done. Qed.

(** ** Cross-program calls

    What the Solana runtime guarantees when another program runs: the data and
    the owner of an account change only by the program that owns it, and an
    account assigned to the token program has zeroed data. *)
Definition token_data_kept (w w' : World) : Prop :=
  forall k,
    (cell_owner (cell w k) = id ->
       cell_owner (cell w' k) = id /\ cell_data (cell w' k) = cell_data (cell w k)) /\
    (cell_owner (cell w k) <> id -> cell_owner (cell w' k) = id ->
       Forall (fun b => b = x00) (cell_data (cell w' k))).

Lemma unpack_mut_zeroed {S} `{BaseState S} d st :
  is_initialized (pod_default S) = false -> Forall (fun b => b = x00) d ->
  unpack_mut S d <> Ok st.
Proof.
  intros Hz Hd (-> & Hi & _)%unpack_mut_Ok.
  unfold repack in Hd. apply Forall_app in Hd as [Hd _].
  assert (to_bytes (base st) = replicate (size_of S) x00) as E.
  { rewrite <- (length_to_bytes (base st)). clear Hi Hz.
    induction Hd as [|b l -> Hd IH]; simpl; [done|by f_equal]. }
  enough (base st = pod_default S) by congruence.
  unfold pod_default. rewrite <- E. symmetry. apply from_to_bytes.
Qed.

Lemma holding_zeroed m k c : Forall (fun b => b = x00) (cell_data c) -> holding m k c = 0.
Proof.
  intros Hz. unfold holding. case_bool_decide; [|done].
  destruct (unpack_mut PodAccount _) as [a| |] eqn:Ha.
  { by apply unpack_mut_zeroed in Ha; [|vm_compute|]. }
  all: destruct (unpack_mut PodMint _) as [a| |] eqn:Hm; [|done..];
    by apply unpack_mut_zeroed in Hm; [|vm_compute|].
Qed.

Lemma recorded_supply_zeroed c : Forall (fun b => b = x00) (cell_data c) -> recorded_supply c = 0.
Proof.
  intros Hz. unfold recorded_supply. case_bool_decide; [|done].
  destruct (unpack_mut PodMint _) as [a| |] eqn:Hm; [|done..].
  by apply unpack_mut_zeroed in Hm; [|vm_compute|].
Qed.

Lemma token_data_kept_sums m w w' :
  token_data_kept w w' ->
  circulation m w' = circulation m w /\ supply_of m w' = supply_of m w.
Proof.
  intros Hk. assert (forall k, holding m k (cell w' k) = holding m k (cell w k) /\
    recorded_supply (cell w' k) = recorded_supply (cell w k)) as Hall.
  { intros k. destruct (Hk k) as [H1 H2].
    destruct (decide (cell_owner (cell w k) = id)) as [Ho|Ho].
    - destruct (H1 Ho) as [Ho' Hd]. unfold holding, recorded_supply. by rewrite Ho, Ho', Hd.
    - assert (holding m k (cell w k) = 0 /\ recorded_supply (cell w k) = 0) as [-> ->].
      { unfold holding, recorded_supply. by rewrite bool_decide_false. }
      destruct (decide (cell_owner (cell w' k) = id)) as [Ho'|Ho'].
      + rewrite holding_zeroed, recorded_supply_zeroed; auto.
      + unfold holding, recorded_supply. by rewrite bool_decide_false. }
  split; [|apply Hall]. apply world_sum_ext; [apply holding_empty|]. intros k. apply Hall.
Qed.

Lemma total_lamports_store {S} `{Pod S} k (st : PodStateMut S) w :
  total_lamports (store k st w) = total_lamports w.
Proof. unfold total_lamports, store. rewrite world_sum_set_cell by done. simpl. lia. Qed.

Lemma unpack_mut_initialized {S} `{BaseState S} d (st : PodStateMut S) :
  unpack_mut S d = Ok st -> is_initialized (base st) = true.
Proof. by intros (_ & ? & _)%unpack_mut_Ok. Qed.

(** A base of the same state replaces the one that was unpacked. *)
Lemma replaces_account d st b :
  unpack_mut PodAccount d = Ok st -> state b = state (base st) -> replaces st (with_base b st).
Proof.
  intros Hu Eb. apply unpack_mut_initialized in Hu. split; [|done].
  change (account_is_initialized b = true). unfold account_is_initialized. by rewrite Eb.
Qed.

Lemma replaces_mint d st b :
  unpack_mut PodMint d = Ok st -> mint_is_initialized b = mint_is_initialized (base st) ->
  replaces st (with_base b st).
Proof.
  intros Hu Eb. apply unpack_mut_initialized in Hu. split; [|done].
  change (bool_get (mint_is_initialized b) = true). by rewrite Eb.
Qed.

(** A token account and a mint stored together. *)
Lemma store_account_mint ka km a a' mt mt' w :
  cell_owner (cell w ka) = id -> cell_owner (cell w km) = id ->
  unpack_mut PodAccount (cell_data (cell w ka)) = Ok a -> replaces a a' ->
  unpack_mut PodMint (cell_data (cell w km)) = Ok mt -> replaces mt mt' ->
  mint (base a') = mint (base a) ->
  ka <> km /\
  unpack_mut PodAccount (cell_data (cell (store km mt' (store ka a' w)) ka)) = Ok a' /\
  unpack_mut PodMint (cell_data (cell (store km mt' (store ka a' w)) km)) = Ok mt' /\
  (forall k, k <> ka -> k <> km -> cell (store km mt' (store ka a' w)) k = cell w k) /\
  forall m,
    circulation m (store km mt' (store ka a' w)) = circulation m w +
      (if bool_decide (mint (base a) = m) then account_tokens a' - account_tokens a else 0) +
      (if bool_decide (km = m) then mint_withheld mt' - mint_withheld mt else 0) /\
    supply_of m (store km mt' (store ka a' w)) = supply_of m w +
      (if bool_decide (km = m) then u64_get (supply (base mt')) - u64_get (supply (base mt)) else 0).
Proof.
  intros Hoa Hom Ha Hra Hm Hrm Em.
  assert (ka <> km) as Hne by (intros ->; by eapply account_mint_exclusive).
  assert (unpack_mut PodMint (cell_data (cell (store ka a' w) km)) = Ok mt) as Hm1
    by by rewrite cell_store_ne.
  assert (cell_owner (cell (store ka a' w) km) = id) as Hom1 by by rewrite owner_store.
  split; [done|]. split; [|split; [|split]].
  - rewrite cell_store_ne, data_store by done. by apply (replaces_unpack _ _ _ Ha).
  - rewrite data_store. by apply (replaces_unpack _ _ _ Hm).
  - intros k H1 H2. by rewrite !cell_store_ne.
  - intros m. rewrite (circulation_store_mint m km _ Hom1 mt), (supply_store_mint m km _ Hom1 mt)
      by done.
    rewrite (circulation_store_account m ka _ Hoa a), (supply_store_account m ka _ Hoa a) by done.
    split; [lia|done].
Qed.
