(* ===== verification/Transfer.v ===== *)
(** * Transfer

    [Processor::process_transfer] of [program/src/processor.rs]: the mint
    checks and the fee, the choice of the authority and the delegate's
    allowance, the self-transfer exit, the movement of the amount, the withheld
    fee, the lamports of native accounts, and the transfer hook. *)
From S2P Require Import Prelude Bytes Errors Ids Runtime Pod ExtensionState Extension TlvTheory.
From S2P Require Import ViewTheory MonadTheory TransferFee Ownership.

Module TransferInstruction.
Inductive TransferInstruction : Type :=
  | Unchecked
  | Checked (decimals : byte)
  | CheckedWithFee (decimals : byte) (fee : Z).
End TransferInstruction.
Abbreviation TransferInstruction := TransferInstruction.TransferInstruction.

Section transfer.
Context `{RT : Runtime}.

(** The [match] on the instruction that takes the mint from the accounts. *)
Definition transfer_expected_mint (transfer_instruction : TransferInstruction)
    (iter : list AccountInfo)
    : Result ProgramError (option (AccountInfo * byte) * list AccountInfo) :=
  match transfer_instruction with
  | TransferInstruction.Unchecked => mret (None, iter)
  | TransferInstruction.Checked decimals
  | TransferInstruction.CheckedWithFee decimals _ =>
      '(mint_info, iter) ← next_account_info iter; mret (Some (mint_info, decimals), iter)
  end.

(** The fee, the permanent delegate and the hook program that the mint asks
    for; without a mint the account must have no extension that needs it. *)
Definition transfer_mint_checks (source_account_info : AccountInfo)
    (source_account : PodStateMut PodAccount) (amount : Z)
    (expected_mint_info : option (AccountInfo * byte))
    : M (Z * option Address * option Address) :=
  match expected_mint_info with
  | Some (mint_info, expected_decimals) =>
      _ ← check_owner mint_info;
      _ ← bail_if (negb (bool_decide (mint (base source_account) = key mint_info)))
            TokenError.MintMismatch;
      mint_data ← try_borrow_data [Mut (key source_account_info)] mint_info;
      mint ← lift (unpack PodMint mint_data);
      _ ← bail_if (negb (bool_decide (expected_decimals = decimals (state_base mint))))
            TokenError.MintDecimalsMismatch;
      fee ← match get_extension TransferFeeConfig mint with
            | Ok transfer_fee_config =>
                clock ← lift rt_clock;
                lift (ok_or (calculate_epoch_fee transfer_fee_config (clock_epoch clock) amount)
                        (TokenError.Overflow : ProgramError))
            | _ => mret 0
            end;
      _ ← bail_if (mint_paused mint) TokenError.MintPaused;
      mret (fee, get_permanent_delegate mint, get_program_id mint)
  | None =>
      _ ← bail_if (has_extension TransferHookAccount source_account)
            TokenError.MintRequiredForTransfer;
      _ ← bail_if (has_extension TransferFeeAmount source_account)
            TokenError.MintRequiredForTransfer;
      _ ← bail_if (has_extension PausableAccount source_account)
            TokenError.MintRequiredForTransfer;
      mret (0, None, None)
  end.

(** The [match] that validates the authority: the permanent delegate, the
    account's delegate, whose allowance is spent unless the transfer is to the
    account itself, or the owner.  The result is the source's new base. *)
Definition transfer_authority (program_id : Address) (source_account_info authority_info : AccountInfo)
    (authority_info_data_len : nat) (signers : list AccountInfo) (source : PodAccount)
    (maybe_permanent_delegate : option Address) (amount : Z) (self_transfer : bool) : M PodAccount :=
  let held := [Mut (key source_account_info)] in
  if bool_decide (maybe_permanent_delegate = Some (key authority_info)) then
    _ ← validate_owner held program_id (key authority_info) authority_info
          authority_info_data_len signers;
    mret source
  else if bool_decide (PodCOption.get (delegate source) = Some (key authority_info)) then
    _ ← validate_owner held program_id (key authority_info) authority_info
          authority_info_data_len signers;
    let delegated := u64_get (delegated_amount source) in
    _ ← bail_if (delegated <? amount) TokenError.InsufficientFunds;
    if self_transfer then mret source
    else
      new_delegated ← lift (ok_or (u64_checked_sub delegated amount)
                              (TokenError.Overflow : ProgramError));
      let source := set_delegated_amount new_delegated source in
      mret (if u64_get (delegated_amount source) =? 0 then set_delegate coption_none source
            else source)
  else
    _ ← validate_owner held program_id (owner source) authority_info
          authority_info_data_len signers;
    mret source.

(** Withhold the fee on the destination. *)
Definition transfer_withhold (calculated_fee : Z) (destination_account : PodStateMut PodAccount)
    : Result ProgramError (PodStateMut PodAccount) :=
  if 0 <? calculated_fee then
    match get_extension_mut TransferFeeAmount destination_account with
    | Ok (extension, put) =>
        new_withheld_amount ← ok_or (u64_checked_add (u64_get (tfa_withheld_amount extension))
                                       calculated_fee) (TokenError.Overflow : ProgramError);
        mret (put (mk_tfa (u64_new new_withheld_amount)))
    | Err _ => fail TokenError.InvalidState
    | Panic => Panic
    end
  else mret destination_account.

(** The lamports of a native account follow its tokens. *)
Definition transfer_lamports (source_account_info destination_account_info : AccountInfo)
    (amount : Z) : M unit :=
  source_starting_lamports ← info_lamports source_account_info;
  new_source ← lift (ok_or (u64_checked_sub source_starting_lamports amount)
                       (TokenError.Overflow : ProgramError));
  _ ← set_lamports source_account_info new_source;
  destination_starting_lamports ← info_lamports destination_account_info;
  new_destination ← lift (ok_or (u64_checked_add destination_starting_lamports amount)
                            (TokenError.Overflow : ProgramError));
  set_lamports destination_account_info new_destination.

(** The end of both borrows, around the hook's call when there is one. *)
Definition transfer_finish (source_account_info destination_account_info authority_info : AccountInfo)
    (signers : list AccountInfo) (expected_mint_info : option (AccountInfo * byte))
    (maybe_transfer_hook_program_id : option Address) (amount : Z)
    (source_account destination_account : PodStateMut PodAccount) : M unit :=
  match maybe_transfer_hook_program_id with
  | Some hook_program_id =>
      match expected_mint_info with
      | Some (mint_info, _) =>
          source_account ← lift (set_transferring source_account);
          destination_account ← lift (set_transferring destination_account);
          _ ← write_data source_account_info (repack source_account);
          _ ← write_data destination_account_info (repack destination_account);
          _ ← invoke (rt_invoke_execute hook_program_id source_account_info mint_info
                        destination_account_info authority_info signers amount);
          _ ← unset_transferring source_account_info;
          unset_transferring destination_account_info
      | None => throw TokenError.MintRequiredForTransfer
      end
  | None =>
      _ ← write_data source_account_info (repack source_account);
      write_data destination_account_info (repack destination_account)
  end.

Definition process_transfer (program_id : Address) (accounts : list AccountInfo) (amount_ : Z)
    (transfer_instruction : TransferInstruction) : M unit :=
  '(source_account_info, iter) ← lift (next_account_info accounts);
  '(expected_mint_info, iter) ← lift (transfer_expected_mint transfer_instruction iter);
  '(destination_account_info, iter) ← lift (next_account_info iter);
  '(authority_info, signers) ← lift (next_account_info iter);
  authority_info_data_len ← data_len [] authority_info;
  _ ← check_owner source_account_info;
  _ ← check_owner destination_account_info;
  source_account_data ← borrow_mut [] source_account_info;
  source_account ← lift (unpack_mut PodAccount source_account_data);
  _ ← bail_if (is_frozen (base source_account)) TokenError.AccountFrozen;
  let source_amount := u64_get (amount (base source_account)) in
  _ ← bail_if (source_amount <? amount_) TokenError.InsufficientFunds;
  _ ← bail_if (has_extension NonTransferableAccount source_account) TokenError.NonTransferable;
  '(calculated_fee, maybe_permanent_delegate, maybe_transfer_hook_program_id) ←
    transfer_mint_checks source_account_info source_account amount_ expected_mint_info;
  _ ← match transfer_instruction with
      | TransferInstruction.CheckedWithFee _ fee =>
          bail_if (negb (calculated_fee =? fee)) TokenError.FeeMismatch
      | _ => mret tt
      end;
  let self_transfer := bool_decide (key source_account_info = key destination_account_info) in
  _ ← bail_if (bool_decide (key authority_info = owner (base source_account)) &&
               cpi_locked source_account && in_cpi) TokenError.CpiGuardTransferBlocked;
  source_base ← transfer_authority program_id source_account_info authority_info
    authority_info_data_len signers (base source_account) maybe_permanent_delegate amount_
    self_transfer;
  let source_account := with_base source_base source_account in
  if self_transfer then
    when (memo_required source_account) (lift check_previous_sibling_instruction_is_memo)
  else
    destination_account_data ← borrow_mut [Mut (key source_account_info)] destination_account_info;
    destination_account ← lift (unpack_mut PodAccount destination_account_data);
    _ ← bail_if (is_frozen (base destination_account)) TokenError.AccountFrozen;
    _ ← bail_if (negb (bool_decide (mint (base source_account) = mint (base destination_account))))
          TokenError.MintMismatch;
    _ ← when (memo_required destination_account)
          (lift check_previous_sibling_instruction_is_memo);
    _ ← match get_extension ConfidentialTransferAccount destination_account with
        | Ok e => lift (cta_non_confidential_transfer_allowed e)
        | _ => mret tt
        end;
    new_source_amount ← lift (ok_or (u64_checked_sub source_amount amount_)
                                (TokenError.Overflow : ProgramError));
    let source_account := with_base (set_amount new_source_amount source_base) source_account in
    credited_amount ← lift (ok_or (u64_checked_sub amount_ calculated_fee)
                              (TokenError.Overflow : ProgramError));
    new_destination_amount ←
      lift (ok_or (u64_checked_add (u64_get (amount (base destination_account))) credited_amount)
              (TokenError.Overflow : ProgramError));
    let destination_account :=
      with_base (set_amount new_destination_amount (base destination_account)) destination_account in
    destination_account ← lift (transfer_withhold calculated_fee destination_account);
    _ ← when (is_native (base source_account))
          (transfer_lamports source_account_info destination_account_info amount_);
    transfer_finish source_account_info destination_account_info authority_info signers
      expected_mint_info maybe_transfer_hook_program_id amount_ source_account destination_account.

End transfer.

(** ** Inversion *)

Section inversion.
Context `{RT : Runtime}.

Lemma transfer_mint_checks_pure src st a mo w r w' :
  transfer_mint_checks src st a mo w = Ok (r, w') -> w' = w.
Proof. unfold transfer_mint_checks. intros H. m_cases; done. Qed.

Lemma transfer_authority_Ok pid src auth len signers b pd a self w b' w' :
  transfer_authority pid src auth len signers b pd a self w = Ok (b', w') ->
  w' = w /\ amount b' = amount b /\ mint b' = mint b /\ state b' = state b /\
  is_native_reserve b' = is_native_reserve b /\
  authorizes pid (key auth) auth len signers w /\
  (pd = Some (key auth) \/ owner b = key auth \/
   PodCOption.get (delegate b) = Some (key auth) /\ a <= u64_get (delegated_amount b) /\
   (self = false -> 0 <= a -> u64_get (delegated_amount b') = u64_get (delegated_amount b) - a)).
Proof.
  unfold transfer_authority. intros H. pose proof (u64_get_range (delegated_amount b)).
  m_cases; simpl.
  - auto 10.
  - split_and!; auto. right; right. split_and!; [done..|]. discriminate.
  - split_and!; auto. right; right. split_and!; [done..|]. intros _ ?.
    apply u64_get_new. split; lia.
  - split_and!; auto. right; right. split_and!; [done..|]. intros _ ?.
    apply u64_get_new. split; lia.
  - pose proof Hauth as [E _]. rewrite E in Hauth |- *. auto 10.
Qed.

(** The slots of the account list. *)
Definition transfer_layout (ti : TransferInstruction) (accounts : list AccountInfo)
    (src : AccountInfo) (mo : option (AccountInfo * byte)) (dst auth : AccountInfo)
    (signers : list AccountInfo) : Prop :=
  match ti, mo with
  | TransferInstruction.Unchecked, None => accounts = src :: dst :: auth :: signers
  | TransferInstruction.Checked d, Some (m, d')
  | TransferInstruction.CheckedWithFee d _, Some (m, d') =>
      d' = d /\ accounts = src :: m :: dst :: auth :: signers
  | _, _ => False
  end.

Lemma transfer_expected_mint_Ok ti iter mo iter' src dst auth signers :
  transfer_expected_mint ti iter = Ok (mo, iter') -> iter' = dst :: auth :: signers ->
  transfer_layout ti (src :: iter) src mo dst auth signers.
Proof. unfold transfer_expected_mint. intros H ->. destruct ti; m_inv; by simpl. Qed.

Lemma process_transfer_inv pid accounts a ti w u w' :
  process_transfer pid accounts a ti w = Ok (u, w') ->
  exists src mo dst auth signers st fee pd hook b,
    transfer_layout ti accounts src mo dst auth signers /\
    cell_owner (cell w (key src)) = id /\ cell_owner (cell w (key dst)) = id /\
    unpack_mut PodAccount (cell_data (cell w (key src))) = Ok st /\
    is_frozen (base st) = false /\ a <= u64_get (amount (base st)) /\
    has_extension NonTransferableAccount st = false /\
    transfer_mint_checks src st a mo w = Ok ((fee, pd, hook), w) /\
    (forall d f, ti = TransferInstruction.CheckedWithFee d f -> fee = f) /\
    (key auth = owner (base st) /\ cpi_locked st = true -> in_cpi = false) /\
    transfer_authority pid src auth (length (cell_data (cell w (key auth)))) signers (base st) pd a
      (bool_decide (key src = key dst)) w = Ok (b, w) /\
    if decide (key src = key dst)
    then w' = w /\ (memo_required st = true -> check_previous_sibling_instruction_is_memo = Ok tt)
    else exists dt dt' w1,
      unpack_mut PodAccount (cell_data (cell w (key dst))) = Ok dt /\
      is_frozen (base dt) = false /\ mint (base st) = mint (base dt) /\
      (memo_required dt = true -> check_previous_sibling_instruction_is_memo = Ok tt) /\
      0 <= a - fee <= u64_max /\ 0 <= u64_get (amount (base dt)) + (a - fee) <= u64_max /\
      transfer_withhold fee
        (with_base (set_amount (u64_get (amount (base dt)) + (a - fee)) (base dt)) dt) = Ok dt' /\
      (if is_native b then transfer_lamports src dst a w = Ok (tt, w1) else w1 = w) /\
      transfer_finish src dst auth signers mo hook a
        (with_base (set_amount (u64_get (amount (base st)) - a) b) st) dt' w1 = Ok (tt, w').
Proof.
  unfold process_transfer. intros H. m_inv.
  match goal with H : transfer_mint_checks _ _ _ _ _ = Ok _ |- _ =>
    pose proof (transfer_mint_checks_pure _ _ _ _ _ _ _ H); subst end.
  match goal with H : transfer_authority _ _ _ _ _ _ _ _ _ _ = Ok (_, ?w1) |- _ =>
    assert (w1 = w) as -> by (by apply transfer_authority_Ok in H as [? _]; m_cases) end.
  match goal with H : match ti with _ => _ end w = Ok (_, ?w1) |- _ =>
    rename H into Hfee;
    assert (w1 = w /\ forall d f, ti = TransferInstruction.CheckedWithFee d f -> z = f) as [-> Hf]
      by (destruct ti; m_inv; split; try done; intros ? ? [= -> ->]; by apply Z.eqb_eq) end.
  exists a0, o, a1, a2, l2, a7, z, o1, o0, a13.
  split; [by eapply transfer_expected_mint_Ok|]. do 8 (split; [done|]).
  split; [intros [Hko Hl]; by rewrite bool_decide_true, Hl in Hm13 by done|]. split; [done|].
  destruct (decide (key a0 = key a1)) as [Hk|Hk].
  - rewrite bool_decide_true in H by done. m_inv; split; try done.
    change (memo_required a7 = false) in Heqb. congruence.
  - rewrite bool_decide_false in H by done. m_inv;
    pose proof (transfer_authority_Ok _ _ _ _ _ _ _ _ _ _ _ _ Hm14) as (_ & _ & Emint & _);
    match goal with H : match get_extension ConfidentialTransferAccount _ with _ => _ end w = Ok (_, ?w1) |- _ =>
      assert (w1 = w) by (by m_cases); subst end;
    cbn [base with_base] in *; unfold is_native in *; cbn [set_amount is_native_reserve] in *;
    rewrite Emint in *;
    do 3 eexists; (split; [done|]); (split; [done|]); (split; [done|]);
    (split; [first [by intros _|intros ?; congruence]|]); (split; [done|]); (split; [done|]);
    (split; [done|]); (split; [|done]);
    match goal with E : PodCOption.is_some _ = _ |- _ => by rewrite E end.
Qed.
End inversion.
