(* ===== verification/TransferTheory.v ===== *)
(** * What a transfer does

    The properties of [process_transfer]: the amounts it moves, that it
    conserves the tokens of every mint and the lamports, who may make it, and
    that a transfer to the source itself changes nothing. *)
From S2P Require Import Prelude Bytes Errors Ids Runtime Pod ExtensionState Extension TlvTheory.
From S2P Require Import ViewTheory MonadTheory TransferFee Ownership Ledger Transfer.

(** ** The parts *)

Lemma set_transferring_Ok a a' :
  set_transferring a = Ok a' -> same_shape a a' /\ withheld a' = withheld a.
Proof.
  unfold set_transferring. intros H. m_inv. split; [by eapply put_mut_same_shape|].
  unfold withheld. by erewrite (get_put_mut_other TransferHookAccount TransferFeeAmount).
Qed.

Lemma unset_transferring_Ok i w u w' :
  unset_transferring i w = Ok (u, w') ->
  exists a a', unpack_mut PodAccount (cell_data (cell w (key i))) = Ok a /\
    same_shape a a' /\ withheld a' = withheld a /\ w' = store (key i) a' w.
Proof.
  unfold unset_transferring. intros H. m_inv. eexists _, _. split; [done|].
  split; [by eapply put_mut_same_shape|]. split; [|done].
  unfold withheld. by erewrite (get_put_mut_other TransferHookAccount TransferFeeAmount).
Qed.

Lemma transfer_withhold_Ok fee a a' :
  0 <= fee -> transfer_withhold fee a = Ok a' ->
  same_shape a a' /\ withheld a' = withheld a + fee.
Proof.
  unfold transfer_withhold. intros Hf. destruct (Z.ltb_spec 0 fee).
  - destruct (get_extension_mut TransferFeeAmount a) as [[e put]| |] eqn:Hg; [|done..].
    intros H'. m_inv. split; [by eapply put_mut_same_shape|].
    unfold withheld. rewrite (get_put_mut _ _ _ _ _ Hg).
    pose proof (get_extension_mut_place _ _ _ _ Hg) as [-> _]. simpl.
    by rewrite u64_get_new.
  - intros [= <-]. split; [done|lia].
Qed.

Lemma calculate_fee_nonneg f x fee : calculate_fee f x = Some fee -> 0 <= fee.
Proof.
  unfold calculate_fee. case_match; [intros [= <-]; lia|].
  intros (n & _ & (q & _ & (r & Hr & [= <-])%bind_Some)%bind_Some)%bind_Some.
  apply checked_Some in Hr as [-> ?]. pose proof (u64_get_range (tf_maximum_fee f)).
  unfold is_u64 in *. lia.
Qed.

Section transfer.
Context `{RT : Runtime}.

Lemma transfer_mint_checks_fee src st a mo w fee pd hook w' :
  transfer_mint_checks src st a mo w = Ok ((fee, pd, hook), w') -> 0 <= fee.
Proof.
  unfold transfer_mint_checks. intros H. m_cases; try lia.
  by eapply calculate_fee_nonneg.
Qed.

Lemma transfer_lamports_Ok src dst a w u w' :
  key src <> key dst -> transfer_lamports src dst a w = Ok (u, w') ->
  (forall k, cell_owner (cell w' k) = cell_owner (cell w k) /\
     cell_data (cell w' k) = cell_data (cell w k)) /\
  total_lamports w' = total_lamports w /\
  (forall m, circulation m w' = circulation m w /\ supply_of m w' = supply_of m w).
Proof.
  unfold transfer_lamports. intros Hne H. m_inv.
  split_and!.
  - intros k. rewrite !cell_set_cell_case. repeat case_decide; subst; done.
  - unfold total_lamports. rewrite !world_sum_set_cell by done. simpl.
    rewrite cell_set_cell_ne by done. lia.
  - intros m. by rewrite !circulation_lamports, !supply_lamports.
Qed.

(** What the hook's call may do to the store. *)
Definition hook_keeps_tokens : Prop :=
  forall p src mint dst auth signers a w w',
    rt_invoke_execute p src mint dst auth signers a w = Ok w' -> token_data_kept w w'.

(** Both accounts stored. *)
Definition store_both (ks kd : Address) (st dt : PodStateMut PodAccount) (w : World) : World :=
  store kd dt (store ks st w).

(** The two accounts as they stand in the store. *)
Definition both (ks kd : Address) (st dt : PodStateMut PodAccount) (w : World) : Prop :=
  cell_owner (cell w ks) = id /\ cell_owner (cell w kd) = id /\
  unpack_mut PodAccount (cell_data (cell w ks)) = Ok st /\
  unpack_mut PodAccount (cell_data (cell w kd)) = Ok dt.

Definition token_change (m : Address) (st st' : PodStateMut PodAccount) : Z :=
  if bool_decide (mint (base st) = m) then account_tokens st' - account_tokens st else 0.

Lemma store_both_Ok ks kd st dt st' dt' w :
  ks <> kd -> both ks kd st dt w -> replaces st st' -> replaces dt dt' ->
  mint (base st') = mint (base st) -> mint (base dt') = mint (base dt) ->
  both ks kd st' dt' (store_both ks kd st' dt' w) /\
  forall m, supply_of m (store_both ks kd st' dt' w) = supply_of m w /\
    circulation m (store_both ks kd st' dt' w) =
      circulation m w + token_change m st st' + token_change m dt dt'.
Proof.
  intros Hne (Hos & Hod & Hs & Hd) Hrs Hrd Ems Emd.
  assert (both ks kd st' dt (store ks st' w)) as (Hos1 & Hod1 & Hs1 & Hd1).
  { unfold both. rewrite !owner_store, data_store, cell_store_ne by done.
    split_and!; first [done|by apply (replaces_unpack _ _ _ Hs)]. }
  unfold store_both. split.
  - unfold both. rewrite !owner_store, data_store, cell_store_ne by done.
    split_and!; first [done|by apply (replaces_unpack _ _ _ Hd)].
  - intros m. rewrite (supply_store_account m kd _ Hod1 dt), (supply_store_account m ks _ Hos st) by done.
    rewrite (circulation_store_account m kd _ Hod1 dt), (circulation_store_account m ks _ Hos st)
      by done.
    done.
Qed.

Lemma both_kept ks kd st dt w w' :
  both ks kd st dt w -> token_data_kept w w' -> both ks kd st dt w'.
Proof.
  intros (Hos & Hod & Hs & Hd) Hk. destruct (Hk ks) as [H1 _], (Hk kd) as [H2 _].
  destruct (H1 Hos) as [E1 E2], (H2 Hod) as [E3 E4]. unfold both. by rewrite E1, E2, E3, E4.
Qed.

(** The same balance, mint and withheld fee. *)
Definition same_tokens (st st' : PodStateMut PodAccount) : Prop :=
  base st' = base st /\ withheld st' = withheld st.

Lemma same_tokens_change m st0 st st' :
  same_tokens st st' -> token_change m st0 st' = token_change m st0 st.
Proof. intros [Hb Hw]. unfold token_change, account_tokens. by rewrite Hb, Hw. Qed.

Lemma token_change_same m st st' : same_tokens st st' -> token_change m st st' = 0.
Proof.
  intros Hs. rewrite (same_tokens_change m st st st' Hs). unfold token_change.
  case_bool_decide; lia.
Qed.

(** The end of a transfer stores the two accounts, up to the hook's flag. *)
Lemma transfer_finish_Ok src dst auth signers mo hook a st dt st' dt' w w' :
  hook_keeps_tokens -> key src <> key dst -> both (key src) (key dst) st dt w ->
  replaces st st' -> replaces dt dt' ->
  mint (base st') = mint (base st) -> mint (base dt') = mint (base dt) ->
  transfer_finish src dst auth signers mo hook a st' dt' w = Ok (tt, w') ->
  (hook = None -> w' = store_both (key src) (key dst) st' dt' w) /\
  (exists s d, both (key src) (key dst) s d w' /\ same_tokens st' s /\ same_tokens dt' d) /\
  (forall m, supply_of m w' = supply_of m w /\
     circulation m w' = circulation m w + token_change m st st' + token_change m dt dt').
Proof.
  intros Hk Hne Hb Hrs Hrd Ems Emd. unfold transfer_finish. destruct hook as [p|].
  2: { intros H. m_inv. destruct (store_both_Ok _ _ _ _ st' dt' w Hne Hb) as [Hb' Hsum]; try done.
       split_and!; [done| |done]. exists st', dt'. by split_and!. }
  destruct mo as [[mi d]|]; [|done]. intros H. m_inv.
  match goal with H : set_transferring st' = _, H' : set_transferring dt' = _ |- _ =>
    apply set_transferring_Ok in H as [Hss Hsw]; apply set_transferring_Ok in H' as [Hds Hdw] end.
  match goal with H : invoke _ _ = Ok (_, ?w2) |- _ =>
    rename H into Hinv; rename w2 into wi end.
  fold (store_both (key src) (key dst) a0 a1 w) in Hinv.
  unfold invoke in Hinv. destruct (rt_invoke_execute _ _ _ _ _ _ _ _) as [w2| |] eqn:Hi; [|done..].
  injection Hinv as <-. apply Hk in Hi.
  destruct (store_both_Ok _ _ _ _ a0 a1 w Hne Hb) as [Hb1 Hsum1];
    [by eapply replaces_same_shape|by eapply replaces_same_shape|
     by rewrite (proj1 Hss)|by rewrite (proj1 Hds)|].
  pose proof (both_kept _ _ _ _ _ _ Hb1 Hi) as Hb2. pose proof Hb2 as (_ & _ & Hs2 & Hd2).
  apply unset_transferring_Ok in Hm4 as (s & s' & Hs & Hss' & Hsw' & ->).
  apply unset_transferring_Ok in H as (e & e' & He & Hes' & Hew' & ->).
  rewrite cell_store_ne in He by done. rewrite Hs2 in Hs. rewrite Hd2 in He. simplify_eq.
  destruct (store_both_Ok _ _ _ _ s' e' w2 Hne Hb2) as [Hb3 Hsum3];
    [by eapply same_shape_replaces|by eapply same_shape_replaces|
     by rewrite (proj1 Hss')|by rewrite (proj1 Hes')|].
  assert (same_tokens st' s) as T1 by (split; [apply Hss|done]).
  assert (same_tokens s s') as T2 by (split; [apply Hss'|done]).
  assert (same_tokens dt' e) as T3 by (split; [apply Hds|done]).
  assert (same_tokens e e') as T4 by (split; [apply Hes'|done]).
  split; [done|]. split.
  - exists s', e'. split; [done|]. unfold same_tokens in *.
    destruct T1, T2, T3, T4. split; split; congruence.
  - intros m. destruct (Hsum3 m) as [E1 E2], (Hsum1 m) as [E3 E4].
    destruct (token_data_kept_sums m _ _ Hi) as [E5 E6].
    change (store (key dst) e' (store (key src) s' w2)) with (store_both (key src) (key dst) s' e' w2).
    rewrite E1, E2, E6, E5, E3, E4.
    rewrite (token_change_same m s s'), (token_change_same m e e') by done.
    rewrite (same_tokens_change m st st' s), (same_tokens_change m dt dt' e) by done.
    split; [done|lia].
Qed.

(** ** The whole transfer *)

(** The amounts of the two accounts before and after. *)
Definition moved (a fee : Z) (st dt st' dt' : PodStateMut PodAccount) : Prop :=
  u64_get (amount (base st')) = u64_get (amount (base st)) - a /\
  u64_get (amount (base dt')) = u64_get (amount (base dt)) + (a - fee) /\
  withheld st' = withheld st /\ withheld dt' = withheld dt + fee /\
  mint (base st') = mint (base st) /\ mint (base dt') = mint (base dt) /\
  mint (base st) = mint (base dt) /\ 0 <= fee <= a /\ a <= u64_get (amount (base st)).

Lemma moved_change m a fee st dt st' dt' :
  moved a fee st dt st' dt' -> token_change m st st' + token_change m dt dt' = 0.
Proof.
  intros (E1 & E2 & E3 & E4 & _ & _ & Em & _). unfold token_change, account_tokens.
  rewrite Em. case_bool_decide; lia.
Qed.

Lemma process_transfer_moved pid accounts a ti w w' :
  hook_keeps_tokens -> is_u64 a ->
  process_transfer pid accounts a ti w = Ok (tt, w') ->
  exists src mo dst auth signers st,
    transfer_layout ti accounts src mo dst auth signers /\
    cell_owner (cell w (key src)) = id /\
    unpack_mut PodAccount (cell_data (cell w (key src))) = Ok st /\ 
    if decide (key src = key dst) then w' = w
    else exists fee pd hook dt st' dt',
      transfer_mint_checks src st a mo w = Ok ((fee, pd, hook), w) /\
      both (key src) (key dst) st dt w /\ both (key src) (key dst) st' dt' w' /\
      moved a fee st dt st' dt' /\
      is_frozen (base st) = false /\ is_frozen (base dt) = false /\
      (forall m, supply_of m w' = supply_of m w /\ circulation m w' = circulation m w) /\
      (hook = None -> total_lamports w' = total_lamports w).
Proof.
  intros Hk Ha (src & mo & dst & auth & signers & st & fee & pd & hook & b & Hlay & Hos & Hod & Hs &
    Hfz & Hamt & _ & Hmc & _ & _ & Hau & Hrest)%process_transfer_inv.
  exists src, mo, dst, auth, signers, st. do 3 (split; [done|]).
  destruct (decide _) as [|Hne]; [by destruct Hrest|].
  destruct Hrest as (dt & dt1 & w1 & Hd & Hfzd & Hmint & _ & Hfee & Hcred & Hwh & Hlam & Hfin).
  apply transfer_authority_Ok in Hau as (_ & Eba & Ebm & Ebs & Ebn & _).
  pose proof (transfer_mint_checks_fee _ _ _ _ _ _ _ _ _ Hmc) as Hfee0.
  apply transfer_withhold_Ok in Hwh as [Hsh Hwh]; [|done].
  assert ((forall k, cell_owner (cell w1 k) = cell_owner (cell w k) /\
      cell_data (cell w1 k) = cell_data (cell w k)) /\ total_lamports w1 = total_lamports w /\
    (forall m, circulation m w1 = circulation m w /\ supply_of m w1 = supply_of m w))
    as (Hsame & Htl & Hsum).
  { destruct (is_native b); [|by subst]. by apply transfer_lamports_Ok in Hlam. }
  assert (both (key src) (key dst) st dt w) as Hb by done.
  assert (both (key src) (key dst) st dt w1) as Hb1.
  { destruct (Hsame (key src)) as [E1 E2], (Hsame (key dst)) as [E3 E4].
    unfold both. by rewrite E1, E2, E3, E4. }
  set (st1 := with_base _ st) in Hfin. pose proof (proj1 Hsh) as Ebd. simpl in Ebd.
  assert (replaces st st1) as Hr1 by (eapply replaces_account; done).
  assert (replaces dt dt1) as Hr2.
  { eapply replaces_same_shape; [|exact Hsh]. by eapply replaces_account. }
  assert (moved a fee st dt st1 dt1) as Hmv.
  { pose proof (u64_get_range (amount (base st))) as Hrg. unfold is_u64 in *.
    unfold moved. rewrite Ebd, Hwh, !withheld_with_base. unfold st1. simpl.
    rewrite !u64_get_new by (unfold is_u64; lia). split_and!; congruence || lia || done. }
  edestruct transfer_finish_Ok as (Hnone & (s' & d' & Hb' & [Es1 Es2] & [Ed1 Ed2]) & Hsum');
    [exact Hk|exact Hne|exact Hb1|exact Hr1|exact Hr2|done|by rewrite Ebd|exact Hfin|].
  exists fee, pd, hook, dt, s', d'. do 3 (split; [done|]). split.
  { unfold moved in *. rewrite Es1, Es2, Ed1, Ed2. apply Hmv. }
  do 2 (split; [done|]). split.
  - intros m. destruct (Hsum' m) as [-> ->], (Hsum m) as [-> ->]. split; [done|].
    pose proof (moved_change m _ _ _ _ _ _ Hmv). lia.
  - intros Hh. rewrite (Hnone Hh). unfold store_both. by rewrite !total_lamports_store.
Qed.

(** ** Properties *)

(** C4: a transfer between two accounts debits the source by the amount,
    credits the destination with the amount less the fee that the mint's
    configuration and epoch ask for, and withholds the fee there; both accounts
    are of the same mint, neither is frozen, and the source had the amount; a
    transfer of an account to itself changes nothing.  The transfer hook may
    run any program. *)
Theorem process_transfer_moves pid accounts a ti w w' :
  hook_keeps_tokens -> is_u64 a ->
  process_transfer pid accounts a ti w = Ok (tt, w') ->
  exists src mo dst auth signers st,
    transfer_layout ti accounts src mo dst auth signers /\
    unpack_mut PodAccount (cell_data (cell w (key src))) = Ok st /\ 
    if decide (key src = key dst) then w' = w
    else exists fee pd hook dt st' dt',
      transfer_mint_checks src st a mo w = Ok ((fee, pd, hook), w) /\
      both (key src) (key dst) st dt w /\ both (key src) (key dst) st' dt' w' /\
      moved a fee st dt st' dt' /\
      is_frozen (base st) = false /\ is_frozen (base dt) = false.
Proof.
  intros Hk Ha (src & mo & dst & auth & signers & st & Hl & _ & Hs & Hrest)%process_transfer_moved;
    [|done..].
  exists src, mo, dst, auth, signers, st. do 2 (split; [done|]).
  destruct (decide _); [done|]. naive_solver.
Qed.

(** C3: a transfer conserves tokens: whatever the instruction variant, the fee
    and the hook, the tokens of every mint that accounts hold and have withheld
    sum to the same, and no recorded supply changes. *)
Theorem process_transfer_conserves pid accounts a ti w w' m :
  hook_keeps_tokens -> is_u64 a ->
  process_transfer pid accounts a ti w = Ok (tt, w') ->
  circulation m w' = circulation m w /\ supply_of m w' = supply_of m w.
Proof.
  intros Hk Ha (src & mo & dst & auth & signers & st & _ & _ & _ & Hrest)%process_transfer_moved;
    [|done..].
  destruct (decide _); [by subst|].
  destruct Hrest as (? & ? & ? & ? & ? & ? & _ & _ & _ & _ & _ & _ & Hsum & _).
  destruct (Hsum m); auto.
Qed.

(** C5: who may transfer: the authority account is the source's owner, its
    delegate with at least the amount delegated, or the mint's permanent
    delegate, and it signed or its multisig did; under an enabled CPI guard the
    owner cannot make the transfer in a cross-program call; a frozen account or
    one of a non-transferable mint sends nothing. *)
Theorem process_transfer_authorized pid accounts a ti w w' :
  process_transfer pid accounts a ti w = Ok (tt, w') ->
  exists src mo dst auth signers st fee pd hook,
    transfer_layout ti accounts src mo dst auth signers /\
    unpack_mut PodAccount (cell_data (cell w (key src))) = Ok st /\
    transfer_mint_checks src st a mo w = Ok ((fee, pd, hook), w) /\
    authorizes pid (key auth) auth (length (cell_data (cell w (key auth)))) signers w /\
    (key auth = owner (base st) \/ pd = Some (key auth) \/
     PodCOption.get (delegate (base st)) = Some (key auth) /\
       a <= u64_get (delegated_amount (base st))) /\
    (key auth = owner (base st) /\ cpi_locked st = true -> in_cpi = false) /\
    is_frozen (base st) = false /\ has_extension NonTransferableAccount st = false.
Proof.
  intros (src & mo & dst & auth & signers & st & fee & pd & hook & b & Hlay & _ & _ & Hs &
    Hfz & _ & Hnt & Hmc & _ & Hcpi & Hau & _)%process_transfer_inv.
  apply transfer_authority_Ok in Hau as (_ & _ & _ & _ & _ & Hau & Hwho).
  exists src, mo, dst, auth, signers, st, fee, pd, hook. do 4 (split; [done|]).
  split; [|done]. naive_solver.
Qed.
End transfer.
