(* ===== verification/Supply.v ===== *)
(** * Minting and burning

    [Processor::process_mint_to] and [Processor::process_burn] of
    [program/src/processor.rs], with the permissioned variant of a burn, and what
    they do to balances and the supply. *)
From S2P Require Import Prelude Bytes Errors Ids Runtime Pod ExtensionState Extension TlvTheory.
From S2P Require Import ViewTheory MonadTheory Ownership Ledger.

Module InstructionVariant.
Inductive InstructionVariant : Type := Unchecked | Checked (decimals : byte).
End InstructionVariant.
Abbreviation InstructionVariant := InstructionVariant.InstructionVariant.

Module BurnInstructionVariant.
Inductive BurnInstructionVariant : Type := Standard | Permissioned.
End BurnInstructionVariant.
Abbreviation BurnInstructionVariant := BurnInstructionVariant.BurnInstructionVariant.

(** The decimals a checked instruction expects. *)
Definition check_decimals (v : InstructionVariant) (mint : PodMint) : Result ProgramError unit :=
  match v with
  | InstructionVariant.Checked d =>
      fail_if (negb (bool_decide (d = decimals mint))) TokenError.MintDecimalsMismatch
  | InstructionVariant.Unchecked => mret tt
  end.

Definition process_mint_to (program_id : Address) (accounts : list AccountInfo) (amount_ : Z)
    (instruction_variant : InstructionVariant) : M unit :=
  '(mint_info, iter) ← lift (next_account_info accounts);
  '(destination_account_info, iter) ← lift (next_account_info iter);
  '(owner_info, signers) ← lift (next_account_info iter);
  owner_info_data_len ← data_len [] owner_info;
  _ ← check_owner mint_info;
  _ ← check_owner destination_account_info;
  destination_account_data ← borrow_mut [] destination_account_info;
  destination_account ← lift (unpack_mut PodAccount destination_account_data);
  _ ← bail_if (is_frozen (base destination_account)) TokenError.AccountFrozen;
  _ ← bail_if (is_native (base destination_account)) TokenError.NativeNotSupported;
  _ ← bail_if (negb (bool_decide (key mint_info = mint (base destination_account))))
        TokenError.MintMismatch;
  mint_data ← borrow_mut [Mut (key destination_account_info)] mint_info;
  mint ← lift (unpack_mut PodMint mint_data);
  _ ← bail_if (has_extension NonTransferable mint &&
               (negb (has_extension ImmutableOwner destination_account) ||
                negb (has_extension NonTransferableAccount destination_account)))
        TokenError.NonTransferableNeedsImmutableOwnership;
  _ ← bail_if (mint_paused mint) TokenError.MintPaused;
  _ ← bail_if (has_extension ConfidentialMintBurn mint) TokenError.IllegalMintBurnConversion;
  _ ← lift (check_decimals instruction_variant (base mint));
  _ ← match PodCOption.get (mint_authority (base mint)) with
      | Some mint_authority =>
          validate_owner [Mut (key destination_account_info); Mut (key mint_info)] program_id
            mint_authority owner_info owner_info_data_len signers
      | None => throw TokenError.FixedSupply
      end;
  new_amount ← lift (ok_or (u64_checked_add (u64_get (amount (base destination_account))) amount_)
                       (TokenError.Overflow : ProgramError));
  new_supply ← lift (ok_or (u64_checked_add (u64_get (supply (base mint))) amount_)
                       (TokenError.Overflow : ProgramError));
  _ ← write_data destination_account_info
        (repack (with_base (set_amount new_amount (base destination_account)) destination_account));
  write_data mint_info (repack (with_base (set_supply new_supply (base mint)) mint)).

Section burn.
Context `{RT : Runtime}.

(** The accounts of the authorities: the extra one of a permissioned burn first. *)
Definition burn_authorities (burn_variant : BurnInstructionVariant) (iter : list AccountInfo)
    : Result ProgramError (option AccountInfo * AccountInfo * list AccountInfo) :=
  match burn_variant with
  | BurnInstructionVariant.Permissioned =>
      '(permissioned_burn_authority_info, iter) ← next_account_info iter;
      '(authority_info, iter) ← next_account_info iter;
      mret (Some permissioned_burn_authority_info, authority_info, iter)
  | BurnInstructionVariant.Standard =>
      '(authority_info, iter) ← next_account_info iter;
      mret (None, authority_info, iter)
  end.

(** The check of the permissioned-burn extension against the variant. *)
Definition burn_permission (burn_variant : BurnInstructionVariant)
    (mint : PodStateMut PodMint) (permissioned_burn_authority_info : option AccountInfo)
    : Result ProgramError unit :=
  let permissioned_ext := get_extension PermissionedBurnConfig mint in
  let maybe_permissioned_burn_authority :=
    ext ← ok permissioned_ext; maybe_null_get (pbc_authority ext) in
  match burn_variant with
  | BurnInstructionVariant.Standard =>
      fail_if (bool_decide (is_Some maybe_permissioned_burn_authority)) TokenError.InvalidInstruction
  | BurnInstructionVariant.Permissioned =>
      _ ← map_err (fun _ => token_error_into TokenError.InvalidInstruction) permissioned_ext;
      expected_burn_authority ← ok_or maybe_permissioned_burn_authority
                                  (TokenError.InvalidInstruction : ProgramError);
      approver_ai ← ok_or permissioned_burn_authority_info ProgramError.NotEnoughAccountKeys;
      _ ← fail_if (negb (is_signer approver_ai)) ProgramError.MissingRequiredSignature;
      fail_if (negb (bool_decide (key approver_ai = expected_burn_authority)))
        ProgramError.InvalidAccountData
  end.

(** The [match] that validates the authority and spends a delegate's allowance. *)
Definition burn_authority (held : list Borrow) (program_id : Address) (authority_info : AccountInfo)
    (authority_info_data_len : nat) (signers : list AccountInfo) (source : PodAccount)
    (maybe_permanent_delegate : option Address) (amount : Z) : M PodAccount :=
  if bool_decide (maybe_permanent_delegate = Some (key authority_info)) then
    _ ← validate_owner held program_id (key authority_info) authority_info
          authority_info_data_len signers;
    mret source
  else if bool_decide (PodCOption.get (delegate source) = Some (key authority_info)) then
    _ ← validate_owner held program_id (key authority_info) authority_info
          authority_info_data_len signers;
    let delegated := u64_get (delegated_amount source) in
    _ ← bail_if (delegated <? amount) TokenError.InsufficientFunds;
    new_delegated ← lift (ok_or (u64_checked_sub delegated amount)
                            (TokenError.Overflow : ProgramError));
    let source := set_delegated_amount new_delegated source in
    mret (if u64_get (delegated_amount source) =? 0 then set_delegate coption_none source
          else source)
  else
    _ ← validate_owner held program_id (owner source) authority_info
          authority_info_data_len signers;
    mret source.

(** [get_permanent_delegate] on the mutable view. *)
Definition get_permanent_delegate_mut (m : PodStateMut PodMint) : option Address :=
  e ← ok (get_extension PermanentDelegate m); maybe_null_get (pd_delegate e).

Definition process_burn (program_id : Address) (accounts : list AccountInfo) (amount_ : Z)
    (burn_variant : BurnInstructionVariant) (instruction_variant : InstructionVariant) : M unit :=
  '(source_account_info, iter) ← lift (next_account_info accounts);
  '(mint_info, iter) ← lift (next_account_info iter);
  _ ← check_owner source_account_info;
  _ ← check_owner mint_info;
  '(permissioned_burn_authority_info, authority_info, signers) ←
    lift (burn_authorities burn_variant iter);
  authority_info_data_len ← data_len [] authority_info;
  mint_data ← borrow_mut [] mint_info;
  mint_ ← lift (unpack_mut PodMint mint_data);
  _ ← lift (burn_permission burn_variant mint_ permissioned_burn_authority_info);
  source_account_data ← borrow_mut [Mut (key mint_info)] source_account_info;
  source_account ← lift (unpack_mut PodAccount source_account_data);
  let source := base source_account in
  _ ← bail_if (is_frozen source) TokenError.AccountFrozen;
  _ ← bail_if (is_native source) TokenError.NativeNotSupported;
  _ ← bail_if (u64_get (amount source) <? amount_) TokenError.InsufficientFunds;
  _ ← bail_if (negb (bool_decide (key mint_info = mint source))) TokenError.MintMismatch;
  _ ← lift (check_decimals instruction_variant (base mint_));
  _ ← bail_if (mint_paused mint_) TokenError.MintPaused;
  _ ← bail_if (has_extension ConfidentialMintBurn mint_) TokenError.IllegalMintBurnConversion;
  let maybe_permanent_delegate := get_permanent_delegate_mut mint_ in
  _ ← bail_if (bool_decide (key authority_info = owner source) && cpi_locked source_account &&
               in_cpi) TokenError.CpiGuardBurnBlocked;
  source ← (if is_owned_by_system_program_or_incinerator source then mret source
            else burn_authority [Mut (key mint_info); Mut (key source_account_info)] program_id
                   authority_info authority_info_data_len signers source
                   maybe_permanent_delegate amount_);
  new_amount ← lift (ok_or (u64_checked_sub (u64_get (amount source)) amount_)
                       (TokenError.Overflow : ProgramError));
  new_supply ← lift (ok_or (u64_checked_sub (u64_get (supply (base mint_))) amount_)
                       (TokenError.Overflow : ProgramError));
  _ ← write_data source_account_info
        (repack (with_base (set_amount new_amount source) source_account));
  write_data mint_info (repack (with_base (set_supply new_supply (base mint_)) mint_)).

End burn.

(** ** What minting and burning do

    Both change one balance and the recorded supply of its mint by the same
    amount; minting needs the mint authority, burning the account's. *)

Lemma check_decimals_Ok v m u :
  check_decimals v m = Ok u -> forall d, v = InstructionVariant.Checked d -> d = decimals m.
Proof. unfold check_decimals. intros H d ->. m_inv. done. Qed.

Lemma process_mint_to_inv pid accounts a v w u w' :
  process_mint_to pid accounts a v w = Ok (u, w') ->
  exists mi di auth signers mt dt ma,
    accounts = mi :: di :: auth :: signers /\
    cell_owner (cell w (key mi)) = id /\ cell_owner (cell w (key di)) = id /\
    unpack_mut PodMint (cell_data (cell w (key mi))) = Ok mt /\
    unpack_mut PodAccount (cell_data (cell w (key di))) = Ok dt /\
    is_frozen (base dt) = false /\ is_native (base dt) = false /\ mint (base dt) = key mi /\
    (has_extension NonTransferable mt = true ->
       has_extension ImmutableOwner dt = true /\ has_extension NonTransferableAccount dt = true) /\
    mint_paused mt = false /\ has_extension ConfidentialMintBurn mt = false /\
    (forall d, v = InstructionVariant.Checked d -> d = decimals (base mt)) /\
    PodCOption.get (mint_authority (base mt)) = Some ma /\
    authorizes pid ma auth (length (cell_data (cell w (key auth)))) signers w /\
    0 <= u64_get (amount (base dt)) + a <= u64_max /\
    0 <= u64_get (supply (base mt)) + a <= u64_max /\
    w' = store (key mi) (with_base (set_supply (u64_get (supply (base mt)) + a) (base mt)) mt)
           (store (key di) (with_base (set_amount (u64_get (amount (base dt)) + a) (base dt)) dt) w).
Proof.
  unfold process_mint_to. intros H. m_inv.
  destruct (PodCOption.get (mint_authority _)) as [ma|] eqn:Hma; m_inv.
  do 7 eexists. do 7 (split; [done|]). split; [done|]. split.
  { intros Hnt. rewrite Hnt in *. cbn [andb] in *.
    match goal with E : negb _ || negb _ = false |- _ => apply orb_false_iff in E as [E1 E2] end.
    by apply negb_false_iff in E1, E2. }
  do 2 (split; [done|]). split; [by eapply check_decimals_Ok|].
  repeat (split; [done|]). done.
Qed.

Section burn.
Context `{RT : Runtime}.

Lemma burn_authority_Ok held pid auth len signers b pd a w b' w' :
  burn_authority held pid auth len signers b pd a w = Ok (b', w') ->
  w' = w /\ amount b' = amount b /\ mint b' = mint b /\ state b' = state b /\
  is_native_reserve b' = is_native_reserve b /\
  authorizes pid (key auth) auth len signers w /\
  (pd = Some (key auth) \/ owner b = key auth \/
   PodCOption.get (delegate b) = Some (key auth) /\ a <= u64_get (delegated_amount b) /\
   (0 <= a -> u64_get (delegated_amount b') = u64_get (delegated_amount b) - a)).
Proof.
  unfold burn_authority. intros H. pose proof (u64_get_range (delegated_amount b)).
  m_cases; simpl.
  - auto 10.
  - split_and!; auto. right; right. split_and!; [done..|]. intros ?.
    apply u64_get_new. unfold is_u64 in *. split; lia.
  - split_and!; auto. right; right. split_and!; [done..|]. intros ?.
    apply u64_get_new. unfold is_u64 in *. split; lia.
  - pose proof Hauth as [E _]. rewrite E in Hauth |- *. auto 10.
Qed.

(** The permissioned-burn authority approved, when the mint has one. *)
Definition burn_permitted (v : BurnInstructionVariant) (mt : PodStateMut PodMint)
    (approver : option AccountInfo) : Prop :=
  match v with
  | BurnInstructionVariant.Standard =>
      forall e, get_extension PermissionedBurnConfig mt = Ok e -> maybe_null_get (pbc_authority e) = None
  | BurnInstructionVariant.Permissioned =>
      exists e i, get_extension PermissionedBurnConfig mt = Ok e /\ approver = Some i /\
        maybe_null_get (pbc_authority e) = Some (key i) /\ is_signer i = true
  end.

Lemma burn_permission_Ok v mt approver u :
  burn_permission v mt approver = Ok u -> burn_permitted v mt approver.
Proof.
  unfold burn_permission, burn_permitted. destruct v; intros H.
  - intros e He. rewrite He in H. cbn in H. m_inv. by apply eq_None_not_Some.
  - m_inv. match goal with H : map_err _ _ = Ok ?e |- _ => apply map_err_Ok in H; rewrite H in *; exists e end.
    eexists. split; [done|]. split; [done|]. cbn in *. split; congruence.
Qed.

Definition burn_layout (v : BurnInstructionVariant) (accounts : list AccountInfo)
    (src mi : AccountInfo) (approver : option AccountInfo) (auth : AccountInfo)
    (signers : list AccountInfo) : Prop :=
  match v, approver with
  | BurnInstructionVariant.Standard, None => accounts = src :: mi :: auth :: signers
  | BurnInstructionVariant.Permissioned, Some i => accounts = src :: mi :: i :: auth :: signers
  | _, _ => False
  end.

Lemma process_burn_inv pid accounts a bv v w u w' :
  process_burn pid accounts a bv v w = Ok (u, w') ->
  exists src mi approver auth signers mt st b,
    burn_layout bv accounts src mi approver auth signers /\
    cell_owner (cell w (key src)) = id /\ cell_owner (cell w (key mi)) = id /\
    unpack_mut PodMint (cell_data (cell w (key mi))) = Ok mt /\
    burn_permitted bv mt approver /\
    unpack_mut PodAccount (cell_data (cell w (key src))) = Ok st /\
    is_frozen (base st) = false /\ is_native (base st) = false /\ mint (base st) = key mi /\
    (forall d, v = InstructionVariant.Checked d -> d = decimals (base mt)) /\
    mint_paused mt = false /\ has_extension ConfidentialMintBurn mt = false /\
    (key auth = owner (base st) /\ cpi_locked st = true -> in_cpi = false) /\
    (is_owned_by_system_program_or_incinerator (base st) = false ->
       authorizes pid (key auth) auth (length (cell_data (cell w (key auth)))) signers w /\
       (get_permanent_delegate_mut mt = Some (key auth) \/ owner (base st) = key auth \/
        PodCOption.get (delegate (base st)) = Some (key auth) /\
          a <= u64_get (delegated_amount (base st)))) /\
    amount b = amount (base st) /\ mint b = mint (base st) /\ state b = state (base st) /\
    is_native_reserve b = is_native_reserve (base st) /\
    a <= u64_get (amount (base st)) /\
    0 <= u64_get (amount (base st)) - a <= u64_max /\
    0 <= u64_get (supply (base mt)) - a <= u64_max /\
    w' = store (key mi) (with_base (set_supply (u64_get (supply (base mt)) - a) (base mt)) mt)
           (store (key src) (with_base (set_amount (u64_get (amount (base st)) - a) b) st) w).
Proof.
  unfold process_burn. intros H. m_inv.
  rename Hm18 into Hb.
  assert (w19 = w /\ amount a19 = amount (base a10) /\ mint a19 = mint (base a10) /\
    state a19 = state (base a10) /\ is_native_reserve a19 = is_native_reserve (base a10) /\
    (is_owned_by_system_program_or_incinerator (base a10) = false ->
       authorizes pid (key a4) a4 (length (cell_data (cell w (key a4)))) l1 w /\
       (get_permanent_delegate_mut a7 = Some (key a4) \/ owner (base a10) = key a4 \/
        PodCOption.get (delegate (base a10)) = Some (key a4) /\
          a <= u64_get (delegated_amount (base a10))))) as (-> & Ea & Em & Es & En & Hau).
  { destruct (is_owned_by_system_program_or_incinerator _); m_inv; [done|].
    apply burn_authority_Ok in Hb as (? & ? & ? & ? & ? & ? & ?). naive_solver. }
  exists a0, a1, o, a4, l1, a7, a10, a19. split.
  { unfold burn_authorities in Hm3. destruct bv; m_inv; done. }
  do 3 (split; [done|]). split; [by eapply burn_permission_Ok|].
  do 4 (split; [done|]). split; [by eapply check_decimals_Ok|].
  do 2 (split; [done|]). split.
  { intros [Hk Hl]. by rewrite bool_decide_true, Hl in Hm17 by done. }
  rewrite Ea in *. repeat (split; [done|]). done.
Qed.
End burn.

(** ** Properties *)

(** C10: minting adds the amount to one account of the mint and to the mint's
    recorded supply, both without overflow, and changes nothing else: the
    supply stays equal to the tokens in circulation if it was.  It needs the
    mint authority's approval; a fixed supply, a paused mint, a frozen or a
    native account and a confidential mint-burn mint refuse. *)
Theorem process_mint_to_spec pid accounts a v w w' :
  is_u64 a -> process_mint_to pid accounts a v w = Ok (tt, w') ->
  exists mi di auth signers mt dt mt' dt' ma,
    accounts = mi :: di :: auth :: signers /\
    unpack_mut PodMint (cell_data (cell w (key mi))) = Ok mt /\
    unpack_mut PodAccount (cell_data (cell w (key di))) = Ok dt /\
    unpack_mut PodMint (cell_data (cell w' (key mi))) = Ok mt' /\
    unpack_mut PodAccount (cell_data (cell w' (key di))) = Ok dt' /\
    base dt' = set_amount (u64_get (amount (base dt)) + a) (base dt) /\
    base mt' = set_supply (u64_get (supply (base mt)) + a) (base mt) /\
    u64_get (amount (base dt)) + a <= u64_max /\ u64_get (supply (base mt)) + a <= u64_max /\
    tlv_data dt' = tlv_data dt /\ tlv_data mt' = tlv_data mt /\
    mint (base dt) = key mi /\ mint_paused mt = false /\ is_frozen (base dt) = false /\
    PodCOption.get (mint_authority (base mt)) = Some ma /\
    authorizes pid ma auth (length (cell_data (cell w (key auth)))) signers w /\
    (forall k, k <> key mi -> k <> key di -> cell w' k = cell w k) /\
    forall m, let d := if bool_decide (key mi = m) then a else 0 in
      circulation m w' = circulation m w + d /\ supply_of m w' = supply_of m w + d.
Proof.
  intros Ha (mi & di & auth & signers & mt & dt & ma & -> & Hom & Hod & Hm & Hd & Hfz & _ & Em &
    _ & Hp & _ & _ & Hma & Hau & Hda & Hsu & ->)%process_mint_to_inv.
  set (dt' := with_base _ dt). set (mt' := with_base _ mt).
  destruct (store_account_mint (key di) (key mi) dt dt' mt mt' w) as
    (Hne & Hd' & Hm' & Hother & Hsum); try done.
  { by eapply replaces_account. }
  { by eapply replaces_mint. }
  exists mi, di, auth, signers, mt, dt, mt', dt', ma. do 7 (split; [done|]).
  split; [lia|]. split; [lia|]. do 7 (split; [done|]). split; [intros; by apply Hother|].
  intros m. destruct (Hsum m) as [-> ->]. unfold account_tokens, dt', mt'. simpl.
  rewrite Em, withheld_with_base, !u64_get_new by (unfold is_u64; lia).
  change (mint_withheld (with_base ?b mt)) with (mint_withheld mt).
  case_bool_decide; lia.
Qed.

(** C11: burning removes the amount from one account of the mint and from the
    mint's recorded supply, and changes no other account.  Unless the account
    belongs to the system program or the incinerator, its owner, its delegate
    with enough delegated, or the mint's permanent delegate approves; a mint
    with a permissioned-burn authority also needs that authority's signature,
    and refuses the standard instruction. *)
Theorem process_burn_spec `{RT : Runtime} pid accounts a bv v w w' :
  is_u64 a -> process_burn pid accounts a bv v w = Ok (tt, w') ->
  exists src mi approver auth signers mt st mt' st',
    burn_layout bv accounts src mi approver auth signers /\
    unpack_mut PodMint (cell_data (cell w (key mi))) = Ok mt /\
    unpack_mut PodAccount (cell_data (cell w (key src))) = Ok st /\
    unpack_mut PodMint (cell_data (cell w' (key mi))) = Ok mt' /\
    unpack_mut PodAccount (cell_data (cell w' (key src))) = Ok st' /\
    u64_get (amount (base st')) = u64_get (amount (base st)) - a /\
    u64_get (supply (base mt')) = u64_get (supply (base mt)) - a /\
    a <= u64_get (amount (base st)) /\ a <= u64_get (supply (base mt)) /\
    mint (base st) = key mi /\ is_frozen (base st) = false /\ mint_paused mt = false /\
    burn_permitted bv mt approver /\
    (is_owned_by_system_program_or_incinerator (base st) = false ->
       authorizes pid (key auth) auth (length (cell_data (cell w (key auth)))) signers w /\
       (get_permanent_delegate_mut mt = Some (key auth) \/ owner (base st) = key auth \/
        PodCOption.get (delegate (base st)) = Some (key auth) /\
          a <= u64_get (delegated_amount (base st)))) /\
    (forall k, k <> key mi -> k <> key src -> cell w' k = cell w k) /\
    forall m, let d := if bool_decide (key mi = m) then a else 0 in
      circulation m w' = circulation m w - d /\ supply_of m w' = supply_of m w - d.
Proof.
  intros Ha (src & mi & ap & auth & signers & mt & st & b & Hlay & Hos & Hom & Hm & Hperm & Hs & Hfz &
    _ & Em & _ & Hp & _ & _ & Hau & Eba & Ebm & Ebs & _ & Hle & Hda & Hsu & ->)%process_burn_inv.
  set (st' := with_base _ st). set (mt' := with_base _ mt).
  destruct (store_account_mint (key src) (key mi) st st' mt mt' w) as
    (Hne & Hs' & Hm' & Hother & Hsum); try done.
  { by eapply replaces_account. }
  { by eapply replaces_mint. }
  exists src, mi, ap, auth, signers, mt, st, mt', st'. do 5 (split; [done|]).
  unfold is_u64 in *. simpl. rewrite !u64_get_new by (unfold is_u64; lia).
  do 3 (split; [done|]). split; [lia|]. do 5 (split; [done|]). split; [intros; by apply Hother|].
  intros m. destruct (Hsum m) as [-> ->]. unfold account_tokens, st', mt'. simpl.
  rewrite Em, withheld_with_base, !u64_get_new by (unfold is_u64; lia).
  change (mint_withheld (with_base ?b mt)) with (mint_withheld mt).
  case_bool_decide; lia.
Qed.
