(* ===== verification/PodInstruction.v ===== *)
(** * Decoding instructions

    [program/src/pod_instruction.rs] and the decoding helpers of
    [interface/src/instruction.rs]: the one-byte instruction types and the data
    that follows them. *)
From S2P Require Import Prelude Bytes Errors Ids Runtime Pod.

Module PodTokenInstruction.
Inductive PodTokenInstruction : Type :=
  | InitializeMint | InitializeAccount | InitializeMultisig | Transfer | Approve
  | Revoke | SetAuthority | MintTo | Burn | CloseAccount
  | FreezeAccount | ThawAccount | TransferChecked | ApproveChecked | MintToChecked
  | BurnChecked | InitializeAccount2 | SyncNative | InitializeAccount3 | InitializeMultisig2
  | InitializeMint2 | GetAccountDataSize | InitializeImmutableOwner | AmountToUiAmount
  | UiAmountToAmount
  | InitializeMintCloseAuthority | TransferFeeExtension | ConfidentialTransferExtension
  | DefaultAccountStateExtension | Reallocate
  | MemoTransferExtension | CreateNativeMint | InitializeNonTransferableMint
  | InterestBearingMintExtension | CpiGuardExtension
  | InitializePermanentDelegate | TransferHookExtension | ConfidentialTransferFeeExtension
  | WithdrawExcessLamports | MetadataPointerExtension
  | GroupPointerExtension | GroupMemberPointerExtension | ConfidentialMintBurnExtension
  | ScaledUiAmountExtension | PausableExtension
  | UnwrapLamports | PermissionedBurnExtension
  | Batch.
End PodTokenInstruction.
Abbreviation PodTokenInstruction := PodTokenInstruction.PodTokenInstruction.

#[export] Instance PodTokenInstruction_eq_dec : EqDecision PodTokenInstruction.
Proof. solve_decision. Defined.

(** The variants whose discriminants run from 0; [Batch] is 255. *)
Definition sequential_instructions : list PodTokenInstruction :=
  [PodTokenInstruction.InitializeMint; PodTokenInstruction.InitializeAccount;
   PodTokenInstruction.InitializeMultisig; PodTokenInstruction.Transfer;
   PodTokenInstruction.Approve; PodTokenInstruction.Revoke; PodTokenInstruction.SetAuthority;
   PodTokenInstruction.MintTo; PodTokenInstruction.Burn; PodTokenInstruction.CloseAccount;
   PodTokenInstruction.FreezeAccount; PodTokenInstruction.ThawAccount;
   PodTokenInstruction.TransferChecked; PodTokenInstruction.ApproveChecked;
   PodTokenInstruction.MintToChecked; PodTokenInstruction.BurnChecked;
   PodTokenInstruction.InitializeAccount2; PodTokenInstruction.SyncNative;
   PodTokenInstruction.InitializeAccount3; PodTokenInstruction.InitializeMultisig2;
   PodTokenInstruction.InitializeMint2; PodTokenInstruction.GetAccountDataSize;
   PodTokenInstruction.InitializeImmutableOwner; PodTokenInstruction.AmountToUiAmount;
   PodTokenInstruction.UiAmountToAmount; PodTokenInstruction.InitializeMintCloseAuthority;
   PodTokenInstruction.TransferFeeExtension; PodTokenInstruction.ConfidentialTransferExtension;
   PodTokenInstruction.DefaultAccountStateExtension; PodTokenInstruction.Reallocate;
   PodTokenInstruction.MemoTransferExtension; PodTokenInstruction.CreateNativeMint;
   PodTokenInstruction.InitializeNonTransferableMint;
   PodTokenInstruction.InterestBearingMintExtension; PodTokenInstruction.CpiGuardExtension;
   PodTokenInstruction.InitializePermanentDelegate; PodTokenInstruction.TransferHookExtension;
   PodTokenInstruction.ConfidentialTransferFeeExtension;
   PodTokenInstruction.WithdrawExcessLamports; PodTokenInstruction.MetadataPointerExtension;
   PodTokenInstruction.GroupPointerExtension; PodTokenInstruction.GroupMemberPointerExtension;
   PodTokenInstruction.ConfidentialMintBurnExtension;
   PodTokenInstruction.ScaledUiAmountExtension; PodTokenInstruction.PausableExtension;
   PodTokenInstruction.UnwrapLamports; PodTokenInstruction.PermissionedBurnExtension].

(** [PodTokenInstruction::try_from(u8)]. *)
Definition pod_token_instruction_try_from (b : byte) : option PodTokenInstruction :=
  if u8_to_Z b =? 255 then Some PodTokenInstruction.Batch
  else sequential_instructions !! Z.to_nat (u8_to_Z b).

(** [decode_instruction_type::<T>], given [T::try_from]. *)
Definition decode_instruction_type {T} (try_from : byte -> option T) (input : list byte)
    : Result ProgramError T :=
  match input with
  | [] => Err ProgramError.InvalidInstructionData
  | b :: _ => ok_or (try_from b) (TokenError.InvalidInstruction : ProgramError)
  end.

(** [decode_instruction_data::<T>]. *)
Definition decode_instruction_data (T : Type) `{Pod T} (input_with_type : list byte)
    : Result ProgramError T :=
  if negb (length input_with_type =? size_of T + 1)%nat
  then Err ProgramError.InvalidInstructionData
  else ok_or (try_from_bytes (drop 1 input_with_type)) ProgramError.InvalidArgument.

Record InitializeMintData : Type := mk_imd {
  imd_decimals : byte;
  imd_mint_authority : Address
}.
#[export] Instance InitializeMintData_pod : Pod InitializeMintData.
Proof.
  refine (pod_iso (fun x => (imd_decimals x, imd_mint_authority x)) (fun '(a, b) => mk_imd a b) _ _);
    solve_pod_iso.
Defined.

Record InitializeMultisigData : Type := mk_imsd { imsd_m : byte }.
#[export] Instance InitializeMultisigData_pod : Pod InitializeMultisigData.
Proof. refine (pod_iso imsd_m mk_imsd _ _); solve_pod_iso. Defined.

Record AmountData : Type := mk_ad { ad_amount : U64 }.
#[export] Instance AmountData_pod : Pod AmountData.
Proof. refine (pod_iso ad_amount mk_ad _ _); solve_pod_iso. Defined.

Record AmountCheckedData : Type := mk_acd {
  acd_amount : U64;
  acd_decimals : byte
}.
#[export] Instance AmountCheckedData_pod : Pod AmountCheckedData.
Proof.
  refine (pod_iso (fun x => (acd_amount x, acd_decimals x)) (fun '(a, b) => mk_acd a b) _ _);
    solve_pod_iso.
Defined.

Record SetAuthorityData : Type := mk_sad { sad_authority_type : byte }.
#[export] Instance SetAuthorityData_pod : Pod SetAuthorityData.
Proof. refine (pod_iso sad_authority_type mk_sad _ _); solve_pod_iso. Defined.

(** [input.get(..n)] and [input.get(i..j)]. *)
Definition get_prefix (n : nat) (l : list byte) : option (list byte) :=
  if (n <=? length l)%nat then Some (take n l) else None.
Definition get_range (i j : nat) (l : list byte) : option (list byte) :=
  if (i <=? j)%nat && (j <=? length l)%nat then Some (slice l i j) else None.

Definition unpack_pubkey_option (input : list byte) : Result ProgramError (PodCOption Address) :=
  match input with
  | x00 :: _ => Ok (PodCOption.none (zeroed 32))
  | x01 :: rest =>
      pk ← ok_or (get_prefix 32 rest) ProgramError.InvalidInstructionData;
      mret (PodCOption.some (bytes_of_list 32 pk))
  | _ => Err ProgramError.InvalidInstructionData
  end.

Definition unpack_u64_option (input : list byte) : Result ProgramError (PodCOption Z) :=
  match input with
  | x00 :: _ => Ok (PodCOption.none 0)
  | x01 :: rest =>
      amount ← ok_or (get_prefix 8 rest) ProgramError.InvalidInstructionData;
      mret (PodCOption.some (from_le_bytes amount))
  | _ => Err ProgramError.InvalidInstructionData
  end.

(** The two [decode_instruction_data_with_coption_*] functions differ in the
    option that follows. *)
Definition decode_instruction_data_with {O} (unpack_option : list byte -> Result ProgramError O)
    (T : Type) `{Pod T} (input_with_type : list byte) : Result ProgramError (T * O) :=
  let end_of_t := (size_of T + 1)%nat in
  bytes ← ok_or (get_range 1 end_of_t input_with_type) ProgramError.InvalidInstructionData;
  value ← ok_or (try_from_bytes bytes) ProgramError.InvalidArgument;
  o ← unpack_option (drop end_of_t input_with_type);
  mret (value, o).

Definition decode_instruction_data_with_coption_pubkey (T : Type) `{Pod T} (input : list byte)
    : Result ProgramError (T * PodCOption Address) :=
  decode_instruction_data_with unpack_pubkey_option T input.

Definition decode_instruction_data_with_coption_u64 (T : Type) `{Pod T} (input : list byte)
    : Result ProgramError (T * PodCOption Z) :=
  decode_instruction_data_with unpack_u64_option T input.

(** [&[u8]::chunks(n)], for [0 < n]. *)
Fixpoint chunks_from (fuel n : nat) (l : list byte) : list (list byte) :=
  match fuel, l with
  | S fuel, _ :: _ => take n l :: chunks_from fuel n (drop n l)
  | _, _ => []
  end.
Definition chunks (n : nat) (l : list byte) : list (list byte) := chunks_from (length l) n l.

(** [iter.map(f).collect::<Result<Vec<_>, _>>()]. *)
Fixpoint collect {A B} (f : A -> Result ProgramError B) (l : list A)
    : Result ProgramError (list B) :=
  match l with
  | [] => mret []
  | a :: l => b ← f a; bs ← collect f l; mret (b :: bs)
  end.

Module AuthorityType.
Inductive AuthorityType : Type :=
  | MintTokens
  | FreezeAccount
  | AccountOwner
  | CloseAccount
  | TransferFeeConfig
  | WithheldWithdraw
  | CloseMint
  | InterestRate
  | PermanentDelegate
  | ConfidentialTransferMint
  | TransferHookProgramId
  | ConfidentialTransferFeeConfig
  | MetadataPointer
  | GroupPointer
  | GroupMemberPointer
  | ScaledUiAmount
  | Pause
  | PermissionedBurn.
End AuthorityType.
Abbreviation AuthorityType := AuthorityType.AuthorityType.

#[export] Instance AuthorityType_eq_dec : EqDecision AuthorityType.
Proof. solve_decision. Defined.

(** [AuthorityType::into]. *)
Definition authority_type_into (t : AuthorityType) : byte :=
  match t with
  | AuthorityType.MintTokens => x00
  | AuthorityType.FreezeAccount => x01
  | AuthorityType.AccountOwner => x02
  | AuthorityType.CloseAccount => x03
  | AuthorityType.TransferFeeConfig => x04
  | AuthorityType.WithheldWithdraw => x05
  | AuthorityType.CloseMint => x06
  | AuthorityType.InterestRate => x07
  | AuthorityType.PermanentDelegate => x08
  | AuthorityType.ConfidentialTransferMint => x09
  | AuthorityType.TransferHookProgramId => x0a
  | AuthorityType.ConfidentialTransferFeeConfig => x0b
  | AuthorityType.MetadataPointer => x0c
  | AuthorityType.GroupPointer => x0d
  | AuthorityType.GroupMemberPointer => x0e
  | AuthorityType.ScaledUiAmount => x0f
  | AuthorityType.Pause => x10
  | AuthorityType.PermissionedBurn => x11
  end.

(** [AuthorityType::from]. *)
Definition authority_type_from (index : byte) : Result ProgramError AuthorityType :=
  match index with
  | x00 => Ok AuthorityType.MintTokens
  | x01 => Ok AuthorityType.FreezeAccount
  | x02 => Ok AuthorityType.AccountOwner
  | x03 => Ok AuthorityType.CloseAccount
  | x04 => Ok AuthorityType.TransferFeeConfig
  | x05 => Ok AuthorityType.WithheldWithdraw
  | x06 => Ok AuthorityType.CloseMint
  | x07 => Ok AuthorityType.InterestRate
  | x08 => Ok AuthorityType.PermanentDelegate
  | x09 => Ok AuthorityType.ConfidentialTransferMint
  | x0a => Ok AuthorityType.TransferHookProgramId
  | x0b => Ok AuthorityType.ConfidentialTransferFeeConfig
  | x0c => Ok AuthorityType.MetadataPointer
  | x0d => Ok AuthorityType.GroupPointer
  | x0e => Ok AuthorityType.GroupMemberPointer
  | x0f => Ok AuthorityType.ScaledUiAmount
  | x10 => Ok AuthorityType.Pause
  | x11 => Ok AuthorityType.PermissionedBurn
  | _ => Err (TokenError.InvalidInstruction : ProgramError)
  end.

Lemma authority_type_from_into t : authority_type_from (authority_type_into t) = Ok t.
Proof. by destruct t. Qed.
