(* ===== verification/Authority.v ===== *)
(** * Delegation, authorities and freezing

    [Processor::process_approve], [process_revoke], [process_set_authority]
    and [process_toggle_freeze_account] of [program/src/processor.rs]. *)
From S2P Require Import Prelude Bytes Errors Ids Runtime Pod ExtensionState Extension TlvTheory.
From S2P Require Import ViewTheory MonadTheory Ownership Ledger Supply PodInstruction.

(** ** Approve and revoke *)

Section approve.
Context `{RT : Runtime}.

Definition process_approve (program_id : Address) (accounts : list AccountInfo) (amount_ : Z)
    (instruction_variant : InstructionVariant) : M unit :=
  '(source_account_info, iter) ← lift (next_account_info accounts);
  _ ← check_owner source_account_info;
  '(expected_mint_info, iter) ←
    lift (match instruction_variant with
          | InstructionVariant.Checked decimals =>
              '(mint_info, iter) ← next_account_info iter; mret (Some (mint_info, decimals), iter)
          | InstructionVariant.Unchecked => mret (None, iter)
          end);
  '(delegate_info, iter) ← lift (next_account_info iter);
  '(owner_info, signers) ← lift (next_account_info iter);
  owner_info_data_len ← data_len [] owner_info;
  source_account_data ← borrow_mut [] source_account_info;
  source_account ← lift (unpack_mut PodAccount source_account_data);
  _ ← bail_if (is_frozen (base source_account)) TokenError.AccountFrozen;
  _ ← match expected_mint_info with
      | Some (mint_info, expected_decimals) =>
          _ ← check_owner mint_info;
          _ ← bail_if (negb (bool_decide (mint (base source_account) = key mint_info)))
                TokenError.MintMismatch;
          mint_data ← borrow [Mut (key source_account_info)] mint_info;
          mint ← lift (unpack PodMint mint_data);
          bail_if (negb (bool_decide (expected_decimals = decimals (state_base mint))))
            TokenError.MintDecimalsMismatch
      | None => mret tt
      end;
  _ ← validate_owner [Mut (key source_account_info)] program_id (owner (base source_account))
        owner_info owner_info_data_len signers;
  _ ← bail_if (cpi_locked source_account && in_cpi) TokenError.CpiGuardApproveBlocked;
  write_data source_account_info
    (repack (with_base
      (set_delegated_amount amount_
        (set_delegate (PodCOption.some (key delegate_info)) (base source_account)))
      source_account)).

(** The authority a revocation must come from: the delegate itself or the owner. *)
Definition revoke_authority (source : PodAccount) (authority : Address) : Address :=
  if bool_decide (PodCOption.get (delegate source) = Some authority) then authority
  else owner source.

Definition process_revoke (program_id : Address) (accounts : list AccountInfo) : M unit :=
  '(source_account_info, iter) ← lift (next_account_info accounts);
  '(authority_info, signers) ← lift (next_account_info iter);
  authority_info_data_len ← data_len [] authority_info;
  _ ← check_owner source_account_info;
  source_account_data ← borrow_mut [] source_account_info;
  source_account ← lift (unpack_mut PodAccount source_account_data);
  _ ← bail_if (is_frozen (base source_account)) TokenError.AccountFrozen;
  _ ← validate_owner [Mut (key source_account_info)] program_id
        (revoke_authority (base source_account) (key authority_info))
        authority_info authority_info_data_len signers;
  write_data source_account_info
    (repack (with_base (set_delegated_amount 0 (set_delegate coption_none (base source_account)))
      source_account)).

End approve.

(** ** Set authority *)

Section set_authority.
Context `{RT : Runtime}.

(** What the arms of the [match] share: the accounts that validate, and the
    mutable borrow of the account whose authority changes. *)
Context (program_id : Address) (account_info authority_info : AccountInfo)
  (authority_info_data_len : nat) (signers : list AccountInfo) (new_authority : PodCOption Address).

Definition validate_authority (expected : Address) : M unit :=
  validate_owner [Mut (key account_info)] program_id expected authority_info
    authority_info_data_len signers.

Definition set_account_authority (authority_type : AuthorityType) (account : PodStateMut PodAccount)
    : M (PodStateMut PodAccount) :=
  let b := base account in
  match authority_type with
  | AuthorityType.AccountOwner =>
      _ ← validate_authority (owner b);
      _ ← bail_if (has_extension ImmutableOwner account) TokenError.ImmutableOwner;
      _ ← bail_if (cpi_locked account && in_cpi) TokenError.CpiGuardSetAuthorityBlocked;
      _ ← bail_if (cpi_locked account) TokenError.CpiGuardOwnerChangeBlocked;
      authority ← lift (ok_or (PodCOption.get new_authority)
                          (TokenError.InvalidInstruction : ProgramError));
      let b := set_delegated_amount 0 (set_delegate coption_none (set_owner authority b)) in
      let b := if is_native b then set_close_authority coption_none b else b in
      mret (with_base b account)
  | AuthorityType.CloseAccount =>
      _ ← validate_authority (PodCOption.unwrap_or (close_authority b) (owner b));
      _ ← bail_if (cpi_locked account && in_cpi && PodCOption.is_some new_authority)
            TokenError.CpiGuardSetAuthorityBlocked;
      mret (with_base (set_close_authority new_authority b) account)
  | _ => throw TokenError.AuthorityTypeNotSupported
  end.

(** The arms that change the authority of a mint's extension [V]. *)
Definition set_extension_authority (V : Type) `{Pod V, Extension V}
    (get_authority : V -> MaybeNull) (put_authority : MaybeNull -> V -> V)
    (mint : PodStateMut PodMint) : M (PodStateMut PodMint) :=
  '(extension, put) ← lift (get_extension_mut V mint);
  authority ← lift (ok_or (maybe_null_get (get_authority extension))
                      (TokenError.AuthorityTypeNotSupported : ProgramError));
  _ ← validate_authority authority;
  new_authority ← lift (maybe_null_of_coption new_authority);
  mret (put (put_authority new_authority extension)).

Definition set_mint_authority_of (authority_type : AuthorityType) (mint : PodStateMut PodMint)
    : M (PodStateMut PodMint) :=
  match authority_type with
  | AuthorityType.MintTokens =>
      authority ← lift (PodCOption.ok_or (mint_authority (base mint))
                          (TokenError.FixedSupply : ProgramError));
      _ ← validate_authority authority;
      mret (with_base (set_mint_authority new_authority (base mint)) mint)
  | AuthorityType.FreezeAccount =>
      authority ← lift (PodCOption.ok_or (freeze_authority (base mint))
                          (TokenError.MintCannotFreeze : ProgramError));
      _ ← validate_authority authority;
      mret (with_base (set_freeze_authority new_authority (base mint)) mint)
  | AuthorityType.CloseMint =>
      set_extension_authority MintCloseAuthority mca_close_authority
        (fun a _ => mk_mca a) mint
  | AuthorityType.TransferFeeConfig =>
      set_extension_authority TransferFeeConfig tfc_transfer_fee_config_authority
        (fun a e => mk_tfc a (tfc_withdraw_withheld_authority e) (tfc_withheld_amount e)
           (tfc_older_transfer_fee e) (tfc_newer_transfer_fee e)) mint
  | AuthorityType.WithheldWithdraw =>
      set_extension_authority TransferFeeConfig tfc_withdraw_withheld_authority
        (fun a e => mk_tfc (tfc_transfer_fee_config_authority e) a (tfc_withheld_amount e)
           (tfc_older_transfer_fee e) (tfc_newer_transfer_fee e)) mint
  | AuthorityType.InterestRate =>
      set_extension_authority InterestBearingConfig ibc_rate_authority
        (fun a e => mk_ibc a (ibc_initialization_timestamp e) (ibc_pre_update_average_rate e)
           (ibc_last_update_timestamp e) (ibc_current_rate e)) mint
  | AuthorityType.PermanentDelegate =>
      set_extension_authority PermanentDelegate pd_delegate (fun a _ => mk_pd a) mint
  | AuthorityType.ConfidentialTransferMint =>
      set_extension_authority ConfidentialTransferMint ctm_authority
        (fun a e => mk_ctm a (ctm_auto_approve_new_accounts e) (ctm_auditor_elgamal_pubkey e)) mint
  | AuthorityType.TransferHookProgramId =>
      set_extension_authority TransferHook th_authority
        (fun a e => mk_th a (th_program_id e)) mint
  | AuthorityType.ConfidentialTransferFeeConfig =>
      set_extension_authority ConfidentialTransferFeeConfig ctfc_authority
        (fun a e => mk_ctfc a (ctfc_withdraw_withheld_authority_elgamal_pubkey e)
           (ctfc_harvest_to_mint_enabled e) (ctfc_withheld_amount e)) mint
  | AuthorityType.MetadataPointer =>
      set_extension_authority MetadataPointer mp_authority
        (fun a e => mk_mp a (mp_metadata_address e)) mint
  | AuthorityType.GroupPointer =>
      set_extension_authority GroupPointer gp_authority
        (fun a e => mk_gp a (gp_group_address e)) mint
  | AuthorityType.GroupMemberPointer =>
      set_extension_authority GroupMemberPointer gmp_authority
        (fun a e => mk_gmp a (gmp_member_address e)) mint
  | AuthorityType.ScaledUiAmount =>
      set_extension_authority ScaledUiAmountConfig sua_authority
        (fun a e => mk_sua a (sua_multiplier e) (sua_new_multiplier_effective_timestamp e)
           (sua_new_multiplier e)) mint
  | AuthorityType.Pause =>
      set_extension_authority PausableConfig pc_authority
        (fun a e => mk_pc a (pc_paused e)) mint
  | AuthorityType.PermissionedBurn =>
      set_extension_authority PermissionedBurnConfig pbc_authority (fun a _ => mk_pbc a) mint
  | _ => throw TokenError.AuthorityTypeNotSupported
  end.

End set_authority.

Section toplevel.
Context `{RT : Runtime}.

Definition process_set_authority (program_id : Address) (accounts : list AccountInfo)
    (authority_type : AuthorityType) (new_authority : PodCOption Address) : M unit :=
  '(account_info, iter) ← lift (next_account_info accounts);
  '(authority_info, signers) ← lift (next_account_info iter);
  authority_info_data_len ← data_len [] authority_info;
  _ ← check_owner account_info;
  account_data ← borrow_mut [] account_info;
  match unpack_mut PodAccount account_data with
  | Ok account =>
      _ ← bail_if (is_frozen (base account)) TokenError.AccountFrozen;
      account ← set_account_authority program_id account_info authority_info
        authority_info_data_len signers new_authority authority_type account;
      write_data account_info (repack account)
  | _ =>
      match unpack_mut PodMint account_data with
      | Ok mint =>
          mint ← set_mint_authority_of program_id account_info authority_info
            authority_info_data_len signers new_authority authority_type mint;
          write_data account_info (repack mint)
      | _ => throw ProgramError.InvalidAccountData
      end
  end.

(** ** Freeze and thaw *)

Definition process_toggle_freeze_account (program_id : Address) (accounts : list AccountInfo)
    (freeze : bool) : M unit :=
  '(source_account_info, iter) ← lift (next_account_info accounts);
  '(mint_info, iter) ← lift (next_account_info iter);
  '(authority_info, signers) ← lift (next_account_info iter);
  authority_info_data_len ← data_len [] authority_info;
  _ ← check_owner source_account_info;
  _ ← check_owner mint_info;
  source_account_data ← borrow_mut [] source_account_info;
  source_account ← lift (unpack_mut PodAccount source_account_data);
  _ ← bail_if (freeze && is_frozen (base source_account) ||
               negb freeze && negb (is_frozen (base source_account))) TokenError.InvalidState;
  _ ← bail_if (is_native (base source_account)) TokenError.NativeNotSupported;
  _ ← bail_if (negb (bool_decide (key mint_info = mint (base source_account))))
        TokenError.MintMismatch;
  mint_data ← borrow [Mut (key source_account_info)] mint_info;
  mint ← lift (unpack PodMint mint_data);
  _ ← match PodCOption.get (freeze_authority (state_base mint)) with
      | Some authority =>
          validate_owner [Mut (key source_account_info); Shared (key mint_info)] program_id authority
            authority_info authority_info_data_len signers
      | None => throw TokenError.MintCannotFreeze
      end;
  write_data source_account_info
    (repack (with_base
      (set_state (account_state_u8 (if freeze then AccountState.Frozen else AccountState.Initialized))
        (base source_account)) source_account)).

End toplevel.
