(* ===== verification/AuthorityTheory.v ===== *)
(** * What changing an authority does

    An authority changes only by its holder's approval, only that authority
    changes, and one that was given up stays given up; freezing and thawing
    toggle one byte under the freeze authority; approving and revoking set the
    delegate and its allowance. *)
From S2P Require Import Prelude Bytes Errors Ids Runtime Pod ExtensionState Extension TlvTheory.
From S2P Require Import ViewTheory MonadTheory Ownership Ledger Supply PodInstruction.
From S2P Require Import Authority.

(** ** The authorities of a mint *)

Definition extension_authority (V : Type) `{Pod V, Extension V} (get_authority : V -> MaybeNull)
    (mt : PodStateMut PodMint) : option Address :=
  e ← ok (get_extension V mt); maybe_null_get (get_authority e).

(** The holder of each authority of a mint. *)
Definition mint_authority_of (mt : PodStateMut PodMint) (t : AuthorityType) : option Address :=
  match t with
  | AuthorityType.MintTokens => PodCOption.get (mint_authority (base mt))
  | AuthorityType.FreezeAccount => PodCOption.get (freeze_authority (base mt))
  | AuthorityType.AccountOwner | AuthorityType.CloseAccount => None
  | AuthorityType.CloseMint => extension_authority MintCloseAuthority mca_close_authority mt
  | AuthorityType.TransferFeeConfig =>
      extension_authority TransferFeeConfig tfc_transfer_fee_config_authority mt
  | AuthorityType.WithheldWithdraw =>
      extension_authority TransferFeeConfig tfc_withdraw_withheld_authority mt
  | AuthorityType.InterestRate => extension_authority InterestBearingConfig ibc_rate_authority mt
  | AuthorityType.PermanentDelegate => extension_authority PermanentDelegate pd_delegate mt
  | AuthorityType.ConfidentialTransferMint =>
      extension_authority ConfidentialTransferMint ctm_authority mt
  | AuthorityType.TransferHookProgramId => extension_authority TransferHook th_authority mt
  | AuthorityType.ConfidentialTransferFeeConfig =>
      extension_authority ConfidentialTransferFeeConfig ctfc_authority mt
  | AuthorityType.MetadataPointer => extension_authority MetadataPointer mp_authority mt
  | AuthorityType.GroupPointer => extension_authority GroupPointer gp_authority mt
  | AuthorityType.GroupMemberPointer => extension_authority GroupMemberPointer gmp_authority mt
  | AuthorityType.ScaledUiAmount => extension_authority ScaledUiAmountConfig sua_authority mt
  | AuthorityType.Pause => extension_authority PausableConfig pc_authority mt
  | AuthorityType.PermissionedBurn => extension_authority PermissionedBurnConfig pbc_authority mt
  end.

(** The holder of each authority of a token account. *)
Definition account_authority_of (a : PodAccount) (t : AuthorityType) : option Address :=
  match t with
  | AuthorityType.AccountOwner => Some (owner a)
  | AuthorityType.CloseAccount => Some (PodCOption.unwrap_or (close_authority a) (owner a))
  | _ => None
  end.

Lemma maybe_null_of_coption_Ok p m :
  maybe_null_of_coption p = Ok m -> maybe_null_get m = PodCOption.get p.
Proof.
  unfold maybe_null_of_coption, PodCOption.get, maybe_null_get, maybe_null_from.
  repeat case_decide; intros [= <-]; congruence.
Qed.

Lemma coption_ok_or_Ok {T E} (p : PodCOption T) (e : E) v :
  PodCOption.ok_or p e = Ok v -> PodCOption.get p = Some v.
Proof. unfold PodCOption.ok_or, PodCOption.get. case_decide; [by intros [= <-]|done]. Qed.

Section set_authority.
Context (pid : Address) (ai auth : AccountInfo) (len : nat) (signers : list AccountInfo)
  (na : PodCOption Address).

Lemma set_extension_authority_Ok V `{Pod V, Extension V} get_a put_a mt w mt' w' :
  (forall m e, get_a (put_a m e) = m) ->
  set_extension_authority pid ai auth len signers na V get_a put_a mt w = Ok (mt', w') ->
  w' = w /\ exists a e put m,
    extension_authority V get_a mt = Some a /\ authorizes pid a auth len signers w /\
    get_extension_mut V mt = Ok (e, put) /\ maybe_null_get m = PodCOption.get na /\
    mt' = put (put_a m e) /\ extension_authority V get_a mt' = PodCOption.get na.
Proof.
  unfold set_extension_authority, validate_authority. intros Hgp H'. m_inv.
  split; [done|]. eexists _, _, _, _.
  pose proof (get_extension_mut_place _ _ _ _ Hm) as [Hg _].
  split; [unfold extension_authority; by rewrite Hg|]. split; [done|]. split; [done|].
  split; [by apply maybe_null_of_coption_Ok|]. split; [done|].
  unfold extension_authority. rewrite (get_put_mut _ _ _ _ _ Hm). cbn. rewrite Hgp.
  by apply maybe_null_of_coption_Ok.
Qed.

(** The authorities in another extension, and the tokens, stay as they were. *)
Lemma extension_authority_put V W `{Pod V, Extension V, Pod W, Extension W} get_a mt e put v :
  get_extension_mut V mt = Ok (e, put) -> TYPE W <> TYPE V ->
  extension_authority W get_a (put v) = extension_authority W get_a mt.
Proof. intros Hg Hne. unfold extension_authority. by erewrite get_put_mut_other. Qed.

Lemma mint_withheld_put V `{Pod V, Extension V} mt e put v :
  get_extension_mut V mt = Ok (e, put) -> TYPE V <> ExtensionType.TransferFeeConfig ->
  mint_withheld (put v) = mint_withheld mt.
Proof.
  intros Hg Hne. unfold mint_withheld. erewrite (get_put_mut_other V TransferFeeConfig); [done|done|].
  intros E. by rewrite <- E in Hne.
Qed.

Lemma mint_withheld_put_config mt e put v :
  get_extension_mut TransferFeeConfig mt = Ok (e, put) ->
  tfc_withheld_amount v = tfc_withheld_amount e -> mint_withheld (put v) = mint_withheld mt.
Proof.
  intros Hg Ew. unfold mint_withheld. rewrite (get_put_mut _ _ _ _ _ Hg).
  pose proof (get_extension_mut_place _ _ _ _ Hg) as [-> _]. by rewrite Ew.
Qed.

(** Both authorities of the transfer fee are in one extension. *)
Lemma extension_authority_config get_a mt e put v :
  get_extension_mut TransferFeeConfig mt = Ok (e, put) -> get_a v = get_a e ->
  extension_authority TransferFeeConfig get_a (put v) = extension_authority TransferFeeConfig get_a mt.
Proof.
  intros Hg Ew. unfold extension_authority. rewrite (get_put_mut _ _ _ _ _ Hg).
  pose proof (get_extension_mut_place _ _ _ _ Hg) as [-> _]. cbn. by rewrite Ew.
Qed.

(** The data differ in the value of one extension only, whose values before and
    after are related. *)
Definition only_extension (V : Type) `{Pod V, Extension V} (related : V -> V -> Prop)
    (mt mt' : PodStateMut PodMint) : Prop :=
  base mt' = base mt /\ padding mt' = padding mt /\ account_type mt' = account_type mt /\
  exists es tail e e',
    Forall (fun x => x.1 <> extension_type_u16 (TYPE V)) es /\
    tlv_data mt = tlv_encode es ++ enc_entry (extension_type_u16 (TYPE V)) (to_bytes e) ++ tail /\
    tlv_data mt' = tlv_encode es ++ enc_entry (extension_type_u16 (TYPE V)) (to_bytes e') ++ tail /\
    get_extension V mt = Ok e /\ get_extension V mt' = Ok e' /\ related e e'.

Lemma only_extension_put V `{Pod V, Extension V} (related : V -> V -> Prop) mt e put v :
  get_extension_mut V mt = Ok (e, put) -> related e v -> only_extension V related mt (put v).
Proof.
  intros Hg Hr. pose proof (get_put_mut _ _ _ _ v Hg) as Hv.
  apply get_extension_mut_place in Hg as (He & es & tail & p & (_ & _ & Hne & _ & _ & Ht & Hp) & Eput).
  rewrite Eput in Hv |- *. rewrite (Hp (to_bytes v)) in Hv |- * by apply length_to_bytes.
  do 3 (split; [done|]). by exists es, tail, e, v.
Qed.

(** Every field but the authority's is kept: those of the base, or those of the
    extension that has the authority, whose neighbours keep every byte. *)
Definition only_authority (t : AuthorityType) (mt mt' : PodStateMut PodMint) : Prop :=
  match t with
  | AuthorityType.MintTokens =>
      exists a, mt' = with_base (mk_mint a (supply (base mt)) (decimals (base mt))
        (mint_is_initialized (base mt)) (freeze_authority (base mt))) mt
  | AuthorityType.FreezeAccount =>
      exists a, mt' = with_base (mk_mint (mint_authority (base mt)) (supply (base mt))
        (decimals (base mt)) (mint_is_initialized (base mt)) a) mt
  | AuthorityType.AccountOwner | AuthorityType.CloseAccount => False
  | AuthorityType.CloseMint => only_extension MintCloseAuthority (fun _ _ => True) mt mt'
  | AuthorityType.TransferFeeConfig => only_extension TransferFeeConfig (fun e e' =>
      tfc_withdraw_withheld_authority e' = tfc_withdraw_withheld_authority e /\
      tfc_withheld_amount e' = tfc_withheld_amount e /\
      tfc_older_transfer_fee e' = tfc_older_transfer_fee e /\
      tfc_newer_transfer_fee e' = tfc_newer_transfer_fee e) mt mt'
  | AuthorityType.WithheldWithdraw => only_extension TransferFeeConfig (fun e e' =>
      tfc_transfer_fee_config_authority e' = tfc_transfer_fee_config_authority e /\
      tfc_withheld_amount e' = tfc_withheld_amount e /\
      tfc_older_transfer_fee e' = tfc_older_transfer_fee e /\
      tfc_newer_transfer_fee e' = tfc_newer_transfer_fee e) mt mt'
  | AuthorityType.InterestRate => only_extension InterestBearingConfig (fun e e' =>
      ibc_initialization_timestamp e' = ibc_initialization_timestamp e /\
      ibc_pre_update_average_rate e' = ibc_pre_update_average_rate e /\
      ibc_last_update_timestamp e' = ibc_last_update_timestamp e /\
      ibc_current_rate e' = ibc_current_rate e) mt mt'
  | AuthorityType.PermanentDelegate => only_extension PermanentDelegate (fun _ _ => True) mt mt'
  | AuthorityType.ConfidentialTransferMint => only_extension ConfidentialTransferMint (fun e e' =>
      ctm_auto_approve_new_accounts e' = ctm_auto_approve_new_accounts e /\
      ctm_auditor_elgamal_pubkey e' = ctm_auditor_elgamal_pubkey e) mt mt'
  | AuthorityType.TransferHookProgramId => only_extension TransferHook (fun e e' =>
      th_program_id e' = th_program_id e) mt mt'
  | AuthorityType.ConfidentialTransferFeeConfig =>
      only_extension ConfidentialTransferFeeConfig (fun e e' =>
        ctfc_withdraw_withheld_authority_elgamal_pubkey e' =
          ctfc_withdraw_withheld_authority_elgamal_pubkey e /\
        ctfc_harvest_to_mint_enabled e' = ctfc_harvest_to_mint_enabled e /\
        ctfc_withheld_amount e' = ctfc_withheld_amount e) mt mt'
  | AuthorityType.MetadataPointer => only_extension MetadataPointer (fun e e' =>
      mp_metadata_address e' = mp_metadata_address e) mt mt'
  | AuthorityType.GroupPointer => only_extension GroupPointer (fun e e' =>
      gp_group_address e' = gp_group_address e) mt mt'
  | AuthorityType.GroupMemberPointer => only_extension GroupMemberPointer (fun e e' =>
      gmp_member_address e' = gmp_member_address e) mt mt'
  | AuthorityType.ScaledUiAmount => only_extension ScaledUiAmountConfig (fun e e' =>
      sua_multiplier e' = sua_multiplier e /\
      sua_new_multiplier_effective_timestamp e' = sua_new_multiplier_effective_timestamp e /\
      sua_new_multiplier e' = sua_new_multiplier e) mt mt'
  | AuthorityType.Pause => only_extension PausableConfig (fun e e' =>
      pc_paused e' = pc_paused e) mt mt'
  | AuthorityType.PermissionedBurn =>
      only_extension PermissionedBurnConfig (fun _ _ => True) mt mt'
  end.

(** What a change of an authority keeps. *)
Definition authority_changed (mt mt' : PodStateMut PodMint) (t : AuthorityType) (n : option Address)
    : Prop :=
  replaces mt mt' /\ only_authority t mt mt' /\ supply (base mt') = supply (base mt) /\ mint_withheld mt' = mint_withheld mt /\
  decimals (base mt') = decimals (base mt) /\ mint_authority_of mt' t = n /\
  forall t', t' <> t -> mint_authority_of mt' t' = mint_authority_of mt t'.

Lemma set_mint_authority_of_Ok t d mt w mt' w' :
  unpack_mut PodMint d = Ok mt ->
  set_mint_authority_of pid ai auth len signers na t mt w = Ok (mt', w') ->
  w' = w /\ authority_changed mt mt' t (PodCOption.get na) /\
  exists a, mint_authority_of mt t = Some a /\ authorizes pid a auth len signers w.
Proof.
  intros Hu. unfold set_mint_authority_of, validate_authority, authority_changed.
  destruct t; intros H; try done;
  first
  [ m_inv; match goal with H : PodCOption.ok_or _ _ = Ok _ |- _ => apply coption_ok_or_Ok in H end;
    split; [done|]; split; [|by eexists]; split; [by eapply replaces_mint|];
    split; [by eexists|]; do 4 (split; [done|]); intros [] ?; done
  | apply set_extension_authority_Ok in H as (-> & a & e & put & m & Ha & Hau & Hg & Hm & -> & Hn);
      [|by intros ? []];
    (split; [done|]); (split; [|by exists a]);
    (split; [eapply same_shape_replaces; [exact Hu|by eapply put_mut_same_shape]|]);
    (split; [by apply (only_extension_put _ _ _ _ _ _ Hg)|]);
    (split; [by rewrite (proj1 (put_mut_same_shape _ _ _ _ _ Hg))|]);
    (split; [first [by apply (mint_withheld_put_config _ _ _ _ Hg)
                   |by apply (mint_withheld_put _ _ _ _ _ Hg)]|]);
    (split; [by rewrite (proj1 (put_mut_same_shape _ _ _ _ _ Hg))|]);
    (split; [done|]); intros t' Ht';
    destruct t'; cbn [mint_authority_of]; try done;
    first [ by rewrite (proj1 (put_mut_same_shape _ _ _ _ _ Hg))
          | by apply (extension_authority_put _ _ _ _ _ _ _ Hg)
          | by apply (extension_authority_config _ _ _ _ _ Hg) ] ].
Qed.

Lemma set_account_authority_Ok `{RT : Runtime} t d st w st' w' :
  unpack_mut PodAccount d = Ok st ->
  set_account_authority pid ai auth len signers na t st w = Ok (st', w') ->
  w' = w /\ replaces st st' /\ tlv_data st' = tlv_data st /\
  mint (base st') = mint (base st) /\ amount (base st') = amount (base st) /\
  (exists a, account_authority_of (base st) t = Some a /\ authorizes pid a auth len signers w) /\
  match t with
  | AuthorityType.AccountOwner =>
      PodCOption.get na = Some (owner (base st')) /\ PodCOption.get (delegate (base st')) = None /\
      u64_get (delegated_amount (base st')) = 0 /\
      (is_native (base st) = true -> PodCOption.get (close_authority (base st')) = None) /\
      has_extension ImmutableOwner st = false /\ cpi_locked st = false
  | _ => base st' = set_close_authority na (base st) /\
      (cpi_locked st = true -> PodCOption.is_some na = true -> in_cpi = false)
  end.
Proof.
  intros Hu. unfold set_account_authority, validate_authority.
  destruct t; intros H; try done; m_inv.
  - split; [done|]. split; [eapply replaces_account; [exact Hu|]; by case_match|].
    split; [done|]. split; [by simpl; case_match|]. split; [by simpl; case_match|].
    split; [by eexists|]. simpl. unfold is_native. simpl.
    case_match; simpl; split_and!; done.
  - split; [done|]. split; [by eapply replaces_account|]. do 3 (split; [done|]).
    split; [by eexists|]. split; [done|]. intros El En.
    match goal with H : _ && _ && _ = false |- _ => by rewrite El, En, andb_true_r in H end.
Qed.
End set_authority.

(** ** Properties *)

(** C34: an authority of a mint changes only with the approval of its holder, and
    only it changes: if the account is a mint, the authority of that type is set,
    it approved, and the new holder reads back.  Every other field of the base
    and of the extension that has the authority (the fee schedule, the rate, the
    paused flag, the hook program) keeps its value, and every other extension,
    whatever its kind, every byte; so no other authority, nor the supply, the
    decimals or the withheld amount changes.  The account keeps its lamports and
    its owner, and no other account changes.  In particular an authority set to
    none can never be set again. *)
Theorem process_set_authority_mint `{RT : Runtime} pid ai accounts t na mt w w' :
  process_set_authority pid (ai :: accounts) t na w = Ok (tt, w') ->
  unpack_mut PodMint (cell_data (cell w (key ai))) = Ok mt ->
  exists auth signers a mt',
    accounts = auth :: signers /\
    mint_authority_of mt t = Some a /\
    authorizes pid a auth (length (cell_data (cell w (key auth)))) signers w /\
    unpack_mut PodMint (cell_data (cell w' (key ai))) = Ok mt' /\
    mint_authority_of mt' t = PodCOption.get na /\
    only_authority t mt mt' /\
    (forall t', t' <> t -> mint_authority_of mt' t' = mint_authority_of mt t') /\
    supply (base mt') = supply (base mt) /\ decimals (base mt') = decimals (base mt) /\
    mint_withheld mt' = mint_withheld mt /\
    cell_lamports (cell w' (key ai)) = cell_lamports (cell w (key ai)) /\
    cell_owner (cell w' (key ai)) = cell_owner (cell w (key ai)) /\
    forall k, k <> key ai -> cell w' k = cell w k.
Proof.
  unfold process_set_authority. intros H Hu. m_inv.
  destruct (unpack_mut PodAccount (cell_data (cell w (key a)))) as [acc| |] eqn:Ha;
    [by destruct (account_mint_exclusive _ _ _ Ha Hu)|..];
  rewrite Hu in H; m_inv;
  match goal with H : set_mint_authority_of _ _ _ _ _ _ _ _ _ = Ok _ |- _ =>
    eapply set_mint_authority_of_Ok in H as (-> & (Hr & Ho & Es & Ew & Ed & En & Eo) & x & Hx & Hau); [|exact Hu] end;
  (eexists _, _, x, _; split; [done|]; split; [done|]; split; [done|];
   split; [rewrite data_store; by eapply replaces_unpack|];
   do 6 (split; [done|]); split; [apply lamports_store|];
   split; [apply owner_store|]; intros k Hk; by rewrite cell_store_ne).
Qed.

(** C35: the owner and the close authority of a token account change only with
    the approval of the present one; a new owner clears the delegation (and the
    close authority of a native account), and neither an immutable-owner
    account nor one with an enabled CPI guard changes owner; balance, mint and
    extensions stay, and so does every other account. *)
Theorem process_set_authority_account `{RT : Runtime} pid ai accounts t na st w w' :
  process_set_authority pid (ai :: accounts) t na w = Ok (tt, w') ->
  unpack_mut PodAccount (cell_data (cell w (key ai))) = Ok st ->
  exists auth signers a st',
    accounts = auth :: signers /\ is_frozen (base st) = false /\
    account_authority_of (base st) t = Some a /\
    authorizes pid a auth (length (cell_data (cell w (key auth)))) signers w /\
    unpack_mut PodAccount (cell_data (cell w' (key ai))) = Ok st' /\
    mint (base st') = mint (base st) /\ amount (base st') = amount (base st) /\
    tlv_data st' = tlv_data st /\
    match t with
    | AuthorityType.AccountOwner =>
        PodCOption.get na = Some (owner (base st')) /\
        PodCOption.get (delegate (base st')) = None /\
        u64_get (delegated_amount (base st')) = 0 /\
        (is_native (base st) = true -> PodCOption.get (close_authority (base st')) = None) /\
        has_extension ImmutableOwner st = false /\ cpi_locked st = false
    | _ => base st' = set_close_authority na (base st) /\
        (cpi_locked st = true -> PodCOption.is_some na = true -> in_cpi = false)
    end /\
    forall k, k <> key ai -> cell w' k = cell w k.
Proof.
  unfold process_set_authority. intros H Hu. m_inv. rewrite Hu in H. m_inv.
  match goal with H : set_account_authority _ _ _ _ _ _ _ _ _ = Ok _ |- _ =>
    eapply set_account_authority_Ok in H as (-> & Hr & Et & Em & Ea & (x & Hx & Hau) & Hty);
      [|exact Hu] end.
  eexists _, _, x, _. do 4 (split; [done|]).
  split; [rewrite data_store; by eapply replaces_unpack|]. do 4 (split; [done|]).
  intros k Hk. by rewrite cell_store_ne.
Qed.

(** freezing and thawing toggle the state of one account of the mint with
    the approval of the mint's freeze authority, and nothing else: a frozen
    account cannot be frozen again nor a thawed one thawed, and a native
    account never is. *)
Theorem process_toggle_freeze_account_spec pid accounts freeze w w' :
  process_toggle_freeze_account pid accounts freeze w = Ok (tt, w') ->
  exists src mi auth signers st mt a,
    accounts = src :: mi :: auth :: signers /\
    unpack_mut PodAccount (cell_data (cell w (key src))) = Ok st /\
    unpack PodMint (cell_data (cell w (key mi))) = Ok mt /\
    mint (base st) = key mi /\ is_native (base st) = false /\ is_frozen (base st) = negb freeze /\
    PodCOption.get (freeze_authority (state_base mt)) = Some a /\
    authorizes pid a auth (length (cell_data (cell w (key auth)))) signers w /\
    (forall k, k <> key src -> cell w' k = cell w k) /\
    exists st', unpack_mut PodAccount (cell_data (cell w' (key src))) = Ok st' /\
      is_frozen (base st') = freeze /\ tlv_data st' = tlv_data st /\
      base st' = set_state (account_state_u8 (if freeze then AccountState.Frozen
                                              else AccountState.Initialized)) (base st).
Proof.
  unfold process_toggle_freeze_account. intros H. m_inv.
  destruct (PodCOption.get (freeze_authority _)) as [fa|] eqn:Hfa; m_inv.
  do 7 eexists. do 5 (split; [done|]). split.
  { repeat match goal with H : _ && _ = false |- _ => revert H end.
    destruct freeze, (is_frozen _); done. }
  do 2 (split; [done|]). split; [intros; by rewrite cell_store_ne|].
  eexists. split.
  - rewrite data_store. eapply replaces_unpack; [done|]. split; [|done]. by destruct freeze.
  - by destruct freeze.
Qed.

(** ** What approving and revoking do

    A delegation is written by the owner and erased by the owner or the
    delegate; neither moves a token. *)

Section delegation.
Context `{RT : Runtime}.

(** The accounts of an approval; the checked instruction names the mint. *)
Definition approve_layout (v : InstructionVariant) (accounts : list AccountInfo)
    (src delegate owner : AccountInfo) (signers : list AccountInfo) : Prop :=
  match v with
  | InstructionVariant.Unchecked => accounts = src :: delegate :: owner :: signers
  | InstructionVariant.Checked _ => exists mi, accounts = src :: mi :: delegate :: owner :: signers
  end.

(** What the two operations share: one account's base changed, and nothing
    else. *)
Definition base_changed (k : Address) (st st' : PodStateMut PodAccount) (w w' : World) : Prop :=
  unpack_mut PodAccount (cell_data (cell w k)) = Ok st /\
  unpack_mut PodAccount (cell_data (cell w' k)) = Ok st' /\
  tlv_data st' = tlv_data st /\ (forall k', k' <> k -> cell w' k' = cell w k') /\
  total_lamports w' = total_lamports w /\
  forall m, circulation m w' = circulation m w /\ supply_of m w' = supply_of m w.

Lemma base_changed_store k st b w :
  cell_owner (cell w k) = id -> unpack_mut PodAccount (cell_data (cell w k)) = Ok st ->
  state b = state (base st) -> mint b = mint (base st) -> amount b = amount (base st) ->
  base_changed k st (with_base b st) w (store k (with_base b st) w).
Proof.
  intros Ho Hu Es Em Ea. pose proof (replaces_account _ _ _ Hu Es) as Hr.
  split; [done|]. split; [rewrite data_store; by eapply replaces_unpack|]. split; [done|].
  split; [intros; by rewrite cell_store_ne|]. split; [apply total_lamports_store|].
  intros m. rewrite (circulation_store_account m _ _ Ho st), (supply_store_account m _ _ Ho st) by done.
  unfold account_tokens. cbn [base with_base]. rewrite Ea, withheld_with_base.
  split; [case_bool_decide; lia|done].
Qed.

(** approving writes the delegate and the amount delegated to the source's
    account and changes nothing else; the owner approves, the account is not
    frozen, an enabled CPI guard refuses in a cross-program call, and the
    checked instruction names the account's mint and its decimals. *)
Theorem process_approve_spec pid accounts a v w w' :
  process_approve pid accounts a v w = Ok (tt, w') ->
  exists src dele auth signers st,
    approve_layout v accounts src dele auth signers /\
    authorizes pid (owner (base st)) auth (length (cell_data (cell w (key auth)))) signers w /\
    is_frozen (base st) = false /\ (cpi_locked st = true -> in_cpi = false) /\
    (forall d, v = InstructionVariant.Checked d ->
       exists mt, unpack PodMint (cell_data (cell w (mint (base st)))) = Ok mt /\
         d = decimals (state_base mt)) /\
    base_changed (key src) st
      (with_base (set_delegated_amount a (set_delegate (PodCOption.some (key dele)) (base st))) st) w w'.
Proof.
  intros H. unfold process_approve in H. destruct v as [|d]; m_inv.
  - eexists _, _, _, _, _. split; [done|]. split; [done|]. split; [done|].
    split; [intros Hl; by rewrite Hl in *|]. split; [done|].
    by apply base_changed_store.
  - match goal with H : mint (base ?st) = key ?mi |- _ => rename H into Em end.
    eexists _, _, _, _, _. split; [by eexists|]. split; [done|]. split; [done|].
    split; [intros Hl; by rewrite Hl in *|]. split.
    { intros d' [= <-]. eexists. rewrite Em. split; done. }
    by apply base_changed_store.
Qed.

(** Revoking erases the delegate and the amount delegated and changes nothing
    else; the account's owner or the delegate itself approves, and the account
    is not frozen. *)
Theorem process_revoke_spec pid accounts w w' :
  process_revoke pid accounts w = Ok (tt, w') ->
  exists src auth signers st,
    accounts = src :: auth :: signers /\ is_frozen (base st) = false /\
    authorizes pid (key auth) auth (length (cell_data (cell w (key auth)))) signers w /\
    (owner (base st) = key auth \/ PodCOption.get (delegate (base st)) = Some (key auth)) /\
    base_changed (key src) st
      (with_base (set_delegated_amount 0 (set_delegate coption_none (base st))) st) w w'.
Proof.
  intros H. unfold process_revoke in H. m_inv.
  match goal with H : authorizes _ (revoke_authority ?b _) _ _ _ _ |- _ =>
    pose proof (proj1 H) as Ek; rewrite Ek in H; rename H into Hau end.
  eexists _, _, _, _. split; [done|]. split; [done|]. split; [done|]. split.
  - unfold revoke_authority in Ek. case_bool_decide; auto.
  - by apply base_changed_store.
Qed.
End delegation.
