(* ===== verification/Initialize.v ===== *)
(** * Initialising mints, token accounts and multisignature accounts

    The [process_initialize_*] handlers of [program/src/processor.rs].  A mint
    is given its extensions first, while it is uninitialised, and is closed to
    new ones by [InitializeMint]; a token account receives the extensions its
    mint requires in [InitializeAccount]. *)
From S2P Require Import Prelude Bytes Errors Ids Runtime Pod ExtensionState Extension TlvTheory.
From S2P Require Import ViewTheory AccountLen MonadTheory Ownership.

Section initialize.
Context `{RT : Runtime}.

(** The rent parameters, from the sysvar account the instruction passes or
    from [Rent::get()].  [Rent::from_account_info] compares the address before
    it borrows the data, and the sysvar is no account of this program. *)
Definition get_rent (rent_sysvar_account : bool) (iter : list AccountInfo)
    : M (Rent * list AccountInfo) :=
  if rent_sysvar_account then
    '(rent_info, iter) ← lift (next_account_info iter);
    rent_data ← data_of rent_info;
    rent ← lift (rt_rent_from_account_info (key rent_info) rent_data);
    mret (rent, iter)
  else
    rent ← lift rt_rent;
    mret (rent, iter).

(** [AccountState::try_from(e.state).or(Err(InvalidAccountData))]. *)
Definition default_state (e : DefaultAccountState) : Result ProgramError AccountState :=
  ok_or (account_state_try_from (das_state e)) ProgramError.InvalidAccountData.

Definition initialized_mint (decimals_ : byte) (mint_authority_ : Address)
    (freeze_authority_ : PodCOption Address) (m : PodMint) : PodMint :=
  mk_mint (PodCOption.some mint_authority_) (supply m) decimals_ (bool_new true) freeze_authority_.

Definition _process_initialize_mint (accounts : list AccountInfo) (decimals_ : byte)
    (mint_authority_ : Address) (freeze_authority_ : PodCOption Address)
    (rent_sysvar_account : bool) : M unit :=
  '(mint_info, iter) ← lift (next_account_info accounts);
  mint_data_len ← data_len [] mint_info;
  mint_data ← borrow_mut [] mint_info;
  _ ← check_owner mint_info;
  '(rent, _) ← get_rent rent_sysvar_account iter;
  mint_lamports ← info_lamports mint_info;
  _ ← bail_if (negb (is_exempt rent mint_lamports mint_data_len)) TokenError.NotRentExempt;
  mint ← lift (unpack_uninitialized PodMint mint_data);
  info ← lift (get_tlv_data_info (tlv_data mint));
  account_len ← lift (try_calculate_account_len PodMint (extension_types info));
  _ ← bail_if (negb (account_len =? mint_data_len)%nat) ProgramError.InvalidAccountData;
  _ ← lift (map_err token_error_into
              (check_for_invalid_mint_extension_combinations (extension_types info)));
  _ ← match get_extension DefaultAccountState mint with
      | Ok default_account_state =>
          state ← lift (default_state default_account_state);
          bail_if (bool_decide (state = AccountState.Frozen) &&
                   PodCOption.is_none freeze_authority_) TokenError.MintCannotFreeze
      | _ => mret tt
      end;
  mint ← lift (init_account_type
    (with_base (initialized_mint decimals_ mint_authority_ freeze_authority_ (base mint)) mint));
  write_data mint_info (repack mint).

Definition process_initialize_mint (accounts : list AccountInfo) (decimals_ : byte)
    (mint_authority_ : Address) (freeze_authority_ : PodCOption Address) : M unit :=
  _process_initialize_mint accounts decimals_ mint_authority_ freeze_authority_ true.
Definition process_initialize_mint2 (accounts : list AccountInfo) (decimals_ : byte)
    (mint_authority_ : Address) (freeze_authority_ : PodCOption Address) : M unit :=
  _process_initialize_mint accounts decimals_ mint_authority_ freeze_authority_ false.

(** ** Token accounts *)

(** The state a new account starts in. *)
Definition starting_state (m : PodState PodMint) : Result ProgramError AccountState :=
  match get_extension DefaultAccountState m with
  | Ok default_account_state => default_state default_account_state
  | _ => Ok AccountState.Initialized
  end.

(** The amount and the native reserve of a new account. *)
Definition starting_balance (mint_key : Address) (rent : Rent) (lamports : Z) (account_len : nat)
    : Result ProgramError (U64 * PodCOption U64) :=
  if bool_decide (mint_key = native_mint.id) then
    let rent_exempt_reserve := minimum_balance rent account_len in
    amount ← ok_or (u64_checked_sub lamports rent_exempt_reserve)
               (TokenError.Overflow : ProgramError);
    mret (u64_new amount, PodCOption.some (u64_new rent_exempt_reserve))
  else mret (u64_new 0, PodCOption.none (u64_new 0)).

Definition _process_initialize_account (accounts : list AccountInfo) (owner_ : option Address)
    (rent_sysvar_account : bool) : M unit :=
  '(new_account_info, iter) ← lift (next_account_info accounts);
  '(mint_info, iter) ← lift (next_account_info iter);
  _ ← check_owner new_account_info;
  _ ← check_owner mint_info;
  '(owner_, iter) ← lift (match owner_ with
                          | Some owner => mret (owner, iter)
                          | None =>
                              '(owner_info, iter) ← next_account_info iter;
                              mret (key owner_info, iter)
                          end);
  new_account_info_data_len ← data_len [] new_account_info;
  '(rent, _) ← get_rent rent_sysvar_account iter;
  account_data ← borrow_mut [] new_account_info;
  account ← lift (unpack_uninitialized PodAccount account_data);
  lamports ← info_lamports new_account_info;
  _ ← bail_if (negb (is_exempt rent lamports new_account_info_data_len)) TokenError.NotRentExempt;
  mint_data ← borrow [Mut (key new_account_info)] mint_info;
  mint ← lift (map_err (fun _ => token_error_into TokenError.InvalidMint)
                 (unpack PodMint mint_data));
  _ ← check_owner mint_info;
  required_account_len ← lift (try_calculate_account_len_from_mint_data mint_data []);
  _ ← bail_if (new_account_info_data_len <? required_account_len)%nat
        ProgramError.InvalidAccountData;
  account ← lift (try_for_each_required_init_account_extension (state_tlv_data mint)
                    init_account_extension_from_type account);
  state ← lift (starting_state mint);
  '(amount_, is_native_) ←
    lift (starting_balance (key mint_info) rent lamports new_account_info_data_len);
  account ← lift (init_account_type
    (with_base (mk_account (key mint_info) owner_ amount_ coption_none (account_state_u8 state)
                  is_native_ (u64_new 0) coption_none) account));
  write_data new_account_info (repack account).

Definition process_initialize_account (accounts : list AccountInfo) : M unit :=
  _process_initialize_account accounts None true.
Definition process_initialize_account2 (accounts : list AccountInfo) (owner : Address) : M unit :=
  _process_initialize_account accounts (Some owner) true.
Definition process_initialize_account3 (accounts : list AccountInfo) (owner : Address) : M unit :=
  _process_initialize_account accounts (Some owner) false.

(** ** Multisignature accounts *)

(** [for (i, signer_info) in signer_infos.iter().enumerate() { ... }]: an index
    past the array panics. *)
Fixpoint set_signers (i : nat) (signer_infos : list AccountInfo) (multisig : PodMultisig)
    : Result ProgramError PodMultisig :=
  match signer_infos with
  | [] => mret multisig
  | signer_info :: rest =>
      if (i <? MAX_SIGNERS)%nat
      then set_signers (S i) rest (set_signer i (key signer_info) multisig)
      else Panic
  end.

(** [multisig.n] is [signer_infos.len() as u8], the length modulo 256. *)
Definition _process_initialize_multisig (accounts : list AccountInfo) (m : byte)
    (rent_sysvar_account : bool) : M unit :=
  '(multisig_info, iter) ← lift (next_account_info accounts);
  _ ← check_owner multisig_info;
  multisig_info_data_len ← data_len [] multisig_info;
  '(rent, signer_infos) ← get_rent rent_sysvar_account iter;
  multisig_data ← borrow_mut [] multisig_info;
  multisig ← lift (ok_or (try_from_bytes (A := PodMultisig) multisig_data)
                     ProgramError.InvalidArgument);
  _ ← bail_if (bool_get (multisig_is_initialized multisig)) TokenError.AlreadyInUse;
  lamports ← info_lamports multisig_info;
  _ ← bail_if (negb (is_exempt rent lamports multisig_info_data_len)) TokenError.NotRentExempt;
  let n := u8_of_Z (Z.of_nat (length signer_infos)) in
  _ ← bail_if (negb (is_valid_signer_index (Z.to_nat (u8_to_Z n))))
        TokenError.InvalidNumberOfProvidedSigners;
  _ ← bail_if (negb (is_valid_signer_index (Z.to_nat (u8_to_Z m))))
        TokenError.InvalidNumberOfRequiredSigners;
  multisig ← lift (set_signers 0 signer_infos
    (mk_multisig m n (multisig_is_initialized multisig) (signers_flat multisig)));
  write_data multisig_info
    (to_bytes (mk_multisig (multisig_m multisig) (multisig_n multisig) (bool_new true)
                 (signers_flat multisig))).

Definition process_initialize_multisig (accounts : list AccountInfo) (m : byte) : M unit :=
  _process_initialize_multisig accounts m true.
Definition process_initialize_multisig2 (accounts : list AccountInfo) (m : byte) : M unit :=
  _process_initialize_multisig accounts m false.

(** ** Extensions of uninitialised mints and accounts *)

(** What the extension initialisers share: check the owner, view the
    uninitialised account as an [S], run [pre], allocate the extension [V] and
    set its fields with [fields]. *)
Definition initialize_extension_with (S V : Type) `{BaseState S, Pod V, Extension V} {C}
    (info : AccountInfo) (pre : M C) (fields : C -> V -> M V) : M unit :=
  _ ← check_owner info;
  data ← borrow_mut [] info;
  state ← lift (unpack_uninitialized S data);
  c ← pre;
  '(extension, put) ← lift (init_extension V true state);
  extension ← fields c extension;
  write_data info (repack (put extension)).

Definition initialize_extension (S V : Type) `{BaseState S, Pod V, Extension V}
    (info : AccountInfo) (fields : V -> M V) : M unit :=
  initialize_extension_with S V info (mret tt) (fun _ => fields).

Definition process_initialize_mint_close_authority (accounts : list AccountInfo)
    (close_authority : PodCOption Address) : M unit :=
  '(mint_account_info, _) ← lift (next_account_info accounts);
  initialize_extension PodMint MintCloseAuthority mint_account_info (fun _ =>
    authority ← lift (maybe_null_of_coption close_authority);
    mret (mk_mca authority)).

Definition process_initialize_immutable_owner (accounts : list AccountInfo) : M unit :=
  '(token_account_info, _) ← lift (next_account_info accounts);
  initialize_extension PodAccount ImmutableOwner token_account_info mret.

Definition process_initialize_non_transferable_mint (accounts : list AccountInfo) : M unit :=
  '(mint_account_info, _) ← lift (next_account_info accounts);
  initialize_extension PodMint NonTransferable mint_account_info mret.

Definition process_initialize_permanent_delegate (accounts : list AccountInfo)
    (delegate : Address) : M unit :=
  '(mint_account_info, _) ← lift (next_account_info accounts);
  initialize_extension PodMint PermanentDelegate mint_account_info (fun _ =>
    delegate ← lift (ok_or (maybe_null_try_from (Some delegate)) ProgramError.InvalidArgument);
    mret (mk_pd delegate)).

Definition process_get_account_data_size (accounts : list AccountInfo)
    (new_extension_types : list ExtensionType) : M unit :=
  '(mint_account_info, _) ← lift (next_account_info accounts);
  _ ← check_owner mint_account_info;
  mint_data ← borrow [] mint_account_info;
  account_len ← lift (try_calculate_account_len_from_mint_data mint_data new_extension_types);
  set_return_data (to_le_bytes 8 (Z.of_nat account_len)).

End initialize.
