(* ===== verification/InitializeTheory.v ===== *)
(** * What initialisation leaves

    A freshly initialised mint, token account or multisig is a well-formed
    state with the fields the instruction named, and no token appears with it. *)
From S2P Require Import Prelude Bytes Errors Ids Runtime Pod ExtensionState Extension TlvTheory.
From S2P Require Import ViewTheory AccountLen MonadTheory Ownership Ledger Initialize.

(** ** Uninitialised states hold nothing *)

Lemma uninitialized_shape {S T} `{BaseState S, BaseState T} (st : PodStateMut S)
    (st' : PodStateMut T) :
  (size_of S <= BASE_ACCOUNT_LENGTH)%nat -> (size_of T <= BASE_ACCOUNT_LENGTH)%nat ->
  well_formed AccountType.Uninitialized st -> unpack_mut T (repack st) = Ok st' ->
  size_of S = size_of T.
Proof.
  rewrite unpack_mut_Ok. intros HS HT [_ Hs] (E & _ & [_ Hs']).
  pose proof (f_equal length E) as El. rewrite !length_repack in El.
  destruct Hs as [(Hp & Ht & Htl)|[Hp Ht]]; destruct Hs' as [(Hp' & Ht' & Htl')|[Hp' Ht']];
    rewrite ?Hp, ?Ht, ?Htl, ?Hp', ?Ht', ?Htl', ?length_replicate in El; simpl in El; try lia.
  pose proof (lookup_repack_type st _ Ht) as Ea. pose proof (lookup_repack_type st' _ Ht') as Em.
  rewrite Hp, length_replicate in Ea. rewrite Hp', length_replicate in Em.
  replace (size_of S + (BASE_ACCOUNT_LENGTH - size_of S))%nat with BASE_ACCOUNT_LENGTH in Ea by lia.
  replace (size_of T + (BASE_ACCOUNT_LENGTH - size_of T))%nat with BASE_ACCOUNT_LENGTH in Em by lia.
  rewrite E, Em in Ea. pose proof (ACCOUNT_TYPE_not_uninitialized (S := T)).
  by destruct (ACCOUNT_TYPE T).
Qed.

Lemma uninitialized_not_initialized {S} `{BaseState S} (st st' : PodStateMut S) :
  is_initialized (base st) = false -> unpack_mut S (repack st) = Ok st' -> False.
Proof.
  rewrite unpack_mut_Ok. intros Hi (E & Hi' & _).
  unfold repack in E. apply repack_inj_rest in E as [E _]. congruence.
Qed.

(** Neither a mint nor an account, in the eyes of the ledger. *)
Definition uncounted (d : list byte) : Prop :=
  (forall a, unpack_mut PodAccount d <> Ok a) /\ (forall a, unpack_mut PodMint d <> Ok a).

(** A base state whose views are mints or accounts. *)
Definition counted_base (S : Type) `{BaseState S} : Prop :=
  forall st : PodStateMut S, well_formed AccountType.Uninitialized st ->
    is_initialized (base st) = false -> uncounted (repack st).

Lemma counted_account : counted_base PodAccount.
Proof.
  intros st Hw Hi. split; intros a Ha; [exact (uninitialized_not_initialized _ _ Hi Ha)|].
  apply (uninitialized_shape st a) in Ha; [|vm_compute; lia|vm_compute; lia|done].
  vm_compute in Ha. lia.
Qed.

Lemma counted_mint : counted_base PodMint.
Proof.
  intros st Hw Hi. split; intros a Ha; [|exact (uninitialized_not_initialized _ _ Hi Ha)].
  apply (uninitialized_shape st a) in Ha; [|vm_compute; lia|vm_compute; lia|done].
  vm_compute in Ha. lia.
Qed.

Lemma counted_uninitialized {S} `{BaseState S} d (st : PodStateMut S) :
  counted_base S -> unpack_uninitialized S d = Ok st -> uncounted d.
Proof. intros HS (-> & Hi & Hw & _)%unpack_uninitialized_Ok. by apply HS. Qed.

Lemma uncounted_account d st : unpack_uninitialized PodAccount d = Ok st -> uncounted d.
Proof. apply counted_uninitialized, counted_account. Qed.

Lemma uncounted_mint d st : unpack_uninitialized PodMint d = Ok st -> uncounted d.
Proof. apply counted_uninitialized, counted_mint. Qed.

Lemma uncounted_zero m k c :
  uncounted (cell_data c) -> holding m k c = 0 /\ recorded_supply c = 0.
Proof.
  intros [Ha Hm]. unfold holding, recorded_supply. case_bool_decide; [|done].
  destruct (unpack_mut PodAccount _) as [a| |]; [by destruct (Ha a)|..];
    (destruct (unpack_mut PodMint _) as [a| |]; [by destruct (Hm a)|done..]).
Qed.

(** A state written where none was counted. *)
Section fresh.
Context (m k : Address) (w : World) (Hown : cell_owner (cell w k) = id).
Context (Hun : uncounted (cell_data (cell w k))).

Lemma store_fresh_mint mt :
  unpack_mut PodMint (repack mt) = Ok mt ->
  circulation m (store k mt w) = circulation m w + (if bool_decide (k = m) then mint_withheld mt else 0) /\
  supply_of m (store k mt w) =
    (if bool_decide (k = m) then u64_get (supply (base mt)) else supply_of m w).
Proof.
  intros Hu. destruct (uncounted_zero m k _ Hun) as [E1 E2]. unfold circulation, supply_of, store.
  rewrite world_sum_set_cell, E1 by apply holding_empty.
  rewrite (holding_mint m k (with_data _ _) mt) by done. rewrite cell_set_cell_case.
  case_bool_decide; [subst; rewrite decide_True by done|rewrite decide_False by done; split; [lia|done]].
  rewrite (recorded_supply_mint _ mt) by done. split; [lia|done].
Qed.

Lemma store_fresh_account a :
  unpack_mut PodAccount (repack a) = Ok a ->
  circulation m (store k a w) =
    circulation m w + (if bool_decide (mint (base a) = m) then account_tokens a else 0) /\
  supply_of m (store k a w) = supply_of m w.
Proof.
  intros Hu. destruct (uncounted_zero m k _ Hun) as [E1 E2]. unfold circulation, supply_of, store.
  rewrite world_sum_set_cell, E1 by apply holding_empty.
  rewrite (holding_account m k (with_data _ _) a) by done. split; [lia|].
  rewrite cell_set_cell_case. case_decide; [subst|done]. rewrite E2.
  by apply (recorded_supply_account _ a).
Qed.
End fresh.

(** ** The account type is written last *)

Lemma init_account_type_Ok {S} `{BaseState S} (st st' : PodStateMut S) :
  init_account_type st = Ok st' -> well_formed AccountType.Uninitialized st ->
  (is_initialized (base st) = true -> unpack_mut S (repack st') = Ok st') /\
  base st' = base st /\ tlv_data st' = tlv_data st /\ length (repack st') = length (repack st).
Proof.
  unfold init_account_type. intros Hi [Hm Hw]. m_inv.
  destruct Hw as [(Hp & Ht & Htl)|[Hp Ht]]; rewrite Ht in Hi; m_inv.
  - split; [|done]. intros Hin. apply unpack_mut_Ok. do 3 (split; [done|]). by left.
  - assert (length (repack (with_account_type [account_type_u8 (ACCOUNT_TYPE S)] st)) =
      length (repack st)) as El by (rewrite !length_repack; cbn; by rewrite Ht).
    split; [|done]. intros Hin. apply unpack_mut_Ok. do 2 (split; [done|]).
    split; [by rewrite El|]. right. split; [apply Hp|done].
Qed.

Section initialize.
Context `{RT : Runtime}.

Lemma get_rent_Ok b l rent l' w w' :
  get_rent b l w = Ok ((rent, l'), w') ->
  w' = w /\ if b then exists i d, l = i :: l' /\ rt_rent_from_account_info (key i) d = Ok rent
            else l' = l /\ rt_rent = Ok rent.
Proof.
  unfold get_rent. intros H. destruct b; m_inv; [|done].
  match goal with H : data_of _ _ = _ |- _ => apply data_of_Ok in H as [-> ->] end.
  split; [done|]. eauto.
Qed.

(** ** Mints *)

(** initialising a mint: its data was the exact size of its extensions, which
    may occur together; it becomes an initialized mint with the named decimals
    and authorities, its extension data as they were, and rent-exempt; a mint
    whose accounts start frozen has a freeze authority.  The ledger gains the
    supply and the withheld fee its buffer already recorded, which are zero in
    a new account, and no other account changes. *)
Theorem process_initialize_mint_spec accounts d ma fa rs w w' :
  _process_initialize_mint accounts d ma fa rs w = Ok (tt, w') ->
  exists mi rest st st' info,
    accounts = mi :: rest /\
    unpack_uninitialized PodMint (cell_data (cell w (key mi))) = Ok st /\
    get_tlv_data_info (tlv_data st) = Ok info /\
    try_calculate_account_len PodMint (extension_types info) =
      Ok (length (cell_data (cell w (key mi)))) /\
    check_for_invalid_mint_extension_combinations (extension_types info) = Ok tt /\
    (forall e, get_extension DefaultAccountState st = Ok e ->
       das_state e = account_state_u8 AccountState.Frozen -> PodCOption.is_none fa = false) /\
    unpack_mut PodMint (cell_data (cell w' (key mi))) = Ok st' /\
    base st' = initialized_mint d ma fa (base st) /\ tlv_data st' = tlv_data st /\
    length (cell_data (cell w' (key mi))) = length (cell_data (cell w (key mi))) /\
    (forall k, k <> key mi -> cell w' k = cell w k) /\
    forall m,
      circulation m w' = circulation m w + (if bool_decide (key mi = m) then mint_withheld st else 0) /\
      supply_of m w' =
        if bool_decide (key mi = m) then u64_get (supply (base st)) else supply_of m w.
Proof.
  unfold _process_initialize_mint. intros H. m_inv.
  apply get_rent_Ok in Hm3 as [-> _].
  match goal with H : map_err _ _ = Ok _ |- _ => apply map_err_Ok in H end.
  match goal with H : (match get_extension _ _ with _ => _ end) _ = Ok (_, ?x) |- _ =>
    rename H into Hd; rename x into w2 end.
  assert (w2 = w /\ forall e, get_extension DefaultAccountState a5 = Ok e ->
    das_state e = account_state_u8 AccountState.Frozen -> PodCOption.is_none fa = false) as [-> Hfz].
  { destruct (get_extension DefaultAccountState a5) as [e| |]; m_inv; [|done..].
    split; [done|]. intros e' [= <-] Hf. unfold default_state in *. rewrite Hf in *. m_inv.
    match goal with H : account_state_try_from _ = Some _ |- _ => injection H as <- end.
    done. }
  pose proof Hm6 as (Ed & _ & Hw & _)%unpack_uninitialized_Ok.
  apply init_account_type_Ok in Hm12 as (Hu & Eb & Et & El); [|by apply well_formed_with_base].
  specialize (Hu eq_refl).
  assert (length (repack (with_base (initialized_mint d ma fa (base a5)) a5)) = length (repack a5))
    as El' by by rewrite !length_repack.
  eexists a, l, a5, a11, _. do 3 (split; [done|]).
  split; [by apply Nat.eqb_eq in Hm9 as <-|]. do 2 (split; [done|]).
  rewrite data_store. do 3 (split; [done|]). split; [by rewrite Ed, El, El'|].
  split; [intros k Hk; by apply cell_store_ne|]. intros m.
  destruct (store_fresh_mint m (key a) w Hown (uncounted_mint _ _ Hm6) a11 Hu) as [-> ->].
  rewrite Eb. split; [|done].
  by rewrite (mint_withheld_tlv_data a5 a11).
Qed.

(** ** Token accounts *)

(** The loop over the mint's extensions keeps a property of the account that
    each initialisation keeps. *)
Lemma try_for_each_inv {A} (P : A -> Prop) f types acc acc' :
  (forall t a a', f t a = Ok a' -> P a -> P a') ->
  try_for_each types f acc = Ok acc' -> P acc -> P acc'.
Proof.
  intros Hf. revert acc. induction types as [|t types IH]; intros acc H1 H2; simpl in H1; m_inv; [done|].
  eauto.
Qed.

Lemma try_for_each_from_inv {A} (P : A -> Prop) fuel tlv f (acc acc' : A) n i :
  (forall t a a', f t a = Ok a' -> P a -> P a') ->
  try_for_each_from fuel tlv f acc i = Ok (acc', n) -> P acc -> P acc'.
Proof.
  intros Hf. revert acc i. induction fuel as [|fuel IH]; intros acc i H1 H2; [done|].
  rewrite try_for_each_turn in H1.
  destruct (_ <? _)%nat; [|by injection H1 as <- _].
  destruct (_ <? _)%nat; [by injection H1 as <- _|]. m_inv.
  destruct (decide _); [by injection H1 as <- _|].
  destruct (_ <? _)%nat; [done|]. destruct (_ <? _)%nat; [done|]. m_inv. eauto.
Qed.

Lemma required_extensions_inv {A} (P : A -> Prop) f tlv (acc acc' : A) :
  (forall t a a', f t a = Ok a' -> P a -> P a') ->
  try_for_each_required_init_account_extension tlv f acc = Ok acc' -> P acc -> P acc'.
Proof.
  intros Hf H1. unfold try_for_each_required_init_account_extension, try_for_each_tlv_extension_type in H1.
  apply fmap_Ok in H1 as ([a n] & H1 & ->). revert H1. apply try_for_each_from_inv.
  intros t a1 a2 Ht. revert Ht. by apply try_for_each_inv.
Qed.

Lemma init_default_same_shape {S} `{BaseState S} V `{Pod V, Extension V} (st st' : PodStateMut S) :
  init_default V st = Ok st' -> same_shape st st'.
Proof. unfold init_default. intros Hi. m_inv. by eapply put_init_same_shape. Qed.

Lemma same_shape_trans {S} `{Pod S} (st st' st'' : PodStateMut S) :
  same_shape st st' -> same_shape st' st'' -> same_shape st st''.
Proof. unfold same_shape. intros (-> & -> & -> & ->) (-> & -> & -> & ->). done. Qed.

Lemma init_account_extension_same_shape {S} `{BaseState S} t (st st' : PodStateMut S) :
  init_account_extension_from_type t st = Ok st' -> same_shape st st'.
Proof.
  unfold init_account_extension_from_type. intros Hi.
  destruct (negb _); [by injection Hi as <-|].
  destruct t; first [discriminate|by injection Hi as <-|by eapply init_default_same_shape].
Qed.

Lemma account_state_known e s :
  default_state e = Ok s -> s <> AccountState.Uninitialized -> das_state e = account_state_u8 s.
Proof.
  unfold default_state. intros Hi Hne. m_inv.
  destruct (das_state e); try discriminate Hi; by injection Hi as <-.
Qed.

(** The fields of a new account. *)
Definition new_account (mint_key owner : Address) (amount : U64) (state : AccountState)
    (reserve : PodCOption U64) : PodAccount :=
  mk_account mint_key owner amount coption_none (account_state_u8 state) reserve (u64_new 0)
    coption_none.

(** initialising a token account: the account becomes a token account of the
    mint and the owner named, with no delegate and no close authority, in the
    mint's default state; its amount is zero, or for the native mint its
    lamports above the rent reserve, which it records; it is rent-exempt and
    has room for every extension its mint requires; its length stays and no
    other account changes.  No supply changes, and only the account's own
    tokens join those in circulation. *)
Theorem process_initialize_account_spec accounts o rs w w' :
  _process_initialize_account accounts o rs w = Ok (tt, w') ->
  exists ai mi rest st mt st' owner state amount_ reserve rent needed,
    accounts = ai :: mi :: rest /\
    (match o with Some x => owner = x | None => key <$> head rest = Some owner end) /\
    unpack_uninitialized PodAccount (cell_data (cell w (key ai))) = Ok st /\
    unpack PodMint (cell_data (cell w (key mi))) = Ok mt /\
    starting_state mt = Ok state /\
    starting_balance (key mi) rent (cell_lamports (cell w (key ai)))
      (length (cell_data (cell w (key ai)))) = Ok (amount_, reserve) /\
    is_exempt rent (cell_lamports (cell w (key ai))) (length (cell_data (cell w (key ai)))) = true /\
    try_calculate_account_len_from_mint_data (cell_data (cell w (key mi))) [] = Ok needed /\
    (needed <= length (cell_data (cell w (key ai))))%nat /\
    base st' = new_account (key mi) owner amount_ state reserve /\
    (state <> AccountState.Uninitialized ->
       unpack_mut PodAccount (cell_data (cell w' (key ai))) = Ok st') /\
    length (cell_data (cell w' (key ai))) = length (cell_data (cell w (key ai))) /\
    (forall k, k <> key ai -> cell w' k = cell w k) /\
    (state <> AccountState.Uninitialized -> forall m,
       circulation m w' =
         circulation m w + (if bool_decide (key mi = m) then account_tokens st' else 0) /\
       supply_of m w' = supply_of m w).
Proof.
  unfold _process_initialize_account. intros H. m_inv.
  apply get_rent_Ok in Hm5 as [-> _].
  match goal with H : map_err _ _ = Ok _ |- _ => apply map_err_Ok in H end.
  match goal with H : unpack_uninitialized _ _ = Ok ?x |- _ => rename H into Hun; rename x into st end.
  pose proof Hun as (Ed & _ & Hw & _)%unpack_uninitialized_Ok.
  match goal with H : try_for_each_required_init_account_extension _ _ st = Ok ?x |- _ =>
    rename H into Hreq; rename x into st1 end.
  assert (same_shape st st1) as Hs.
  { refine (required_extensions_inv (same_shape st) _ _ _ _ _ Hreq _); [|done].
    intros t x x' Hx Hsx. eapply same_shape_trans; [exact Hsx|].
    by eapply init_account_extension_same_shape. }
  match goal with H : init_account_type _ = Ok ?x |- _ =>
    apply init_account_type_Ok in H as (Hu & Eb & Et & El);
      [|apply well_formed_with_base; by eapply well_formed_same_shape]; rename x into st' end.
  assert (length (repack st') = length (repack st)) as El'.
  { rewrite El. transitivity (length (repack st1)); [by rewrite !length_repack|].
    by apply same_shape_length. }
  eexists a, a0, l0, st, _, st', b, _, _, _, _, _. split; [done|].
  split. { destruct o; [by injection Hm3 as ->|]. destruct l0; [done|].
    simpl in Hm3. m_inv. done. }
  do 6 (split; [eassumption|]). split; [by apply Nat.ltb_ge|]. split; [done|].
  rewrite data_store. assert (a14 <> AccountState.Uninitialized ->
    unpack_mut PodAccount (repack st') = Ok st') as Hu'.
  { intros Hne. apply Hu. by destruct a14. }
  split; [done|]. split; [by rewrite El', Ed|]. split; [intros k Hk; by apply cell_store_ne|].
  intros Hne m.
  destruct (store_fresh_account m (key a) w Hown1 (uncounted_account _ _ Hun) st' (Hu' Hne)) as [-> ->].
  by rewrite Eb.
Qed.

(** ** Multisigs *)

Lemma signers_set_signer i j a ms :
  (i < MAX_SIGNERS)%nat -> (j < MAX_SIGNERS)%nat ->
  signers (set_signer i a ms) !! j = if decide (j = i) then Some a else signers ms !! j.
Proof.
  intros Hi Hj. unfold signers. rewrite !list_lookup_fmap, lookup_seq_lt by done.
  unfold set_signer. cbn [fmap option_fmap option_map signers_flat]. rewrite Nat.add_0_l.
  pose proof (length_bytes_list (signers_flat ms)) as Hl. pose proof (length_bytes_list a) as Ha.
  set (l := bytes_list (signers_flat ms)) in *. unfold MAX_SIGNERS in Hi, Hj.
  assert (length l = 352)%nat as Hl' by exact Hl.
  rewrite bytes_list_of_list
    by (rewrite length_splice; [done|rewrite Ha, Hl'; lia]).
  case_decide as E; [subst j|]; f_equal.
  - rewrite <- (bytes_of_list_list a) at 2. f_equal. rewrite <- Ha at 5.
    apply slice_splice_eq. rewrite Ha, Hl'. lia.
  - f_equal. apply slice_splice_ne; rewrite Ha; [rewrite Hl'; lia|lia].
Qed.

Lemma set_signers_Ok i infos ms ms' :
  set_signers i infos ms = Ok ms' ->
  (i + length infos <= MAX_SIGNERS \/ infos = [])%nat /\
  multisig_m ms' = multisig_m ms /\ multisig_n ms' = multisig_n ms /\
  forall j, (j < MAX_SIGNERS)%nat ->
    signers ms' !! j = if decide (i <= j < i + length infos)%nat
                       then key <$> infos !! (j - i)%nat else signers ms !! j.
Proof.
  revert i ms. induction infos as [|x infos IH]; intros i ms Hi; simpl in Hi.
  { m_inv. split; [by right|]. do 2 (split; [done|]). intros j Hj.
    rewrite decide_False; [done|]. simpl. lia. }
  destruct (Nat.ltb_spec i MAX_SIGNERS) as [Hl|]; [|done].
  apply IH in Hi as (Hn & Em & En & Hsig). split; [left|].
  { destruct Hn as [Hn| ->]; simpl; lia. }
  do 2 (split; [done|]). intros j Hj. rewrite Hsig by done. simpl length.
  rewrite signers_set_signer by done.
  destruct (decide (j = i)) as [->|Hne].
  - rewrite decide_False, decide_True by lia. by rewrite Nat.sub_diag.
  - destruct (decide (S i <= j < S i + length infos)%nat) as [Hd|Hd].
    + rewrite decide_True by lia. by replace (j - i)%nat with (S (j - S i)) by lia.
    + by rewrite decide_False by lia.
Qed.

Lemma length_signers ms : length (signers ms) = MAX_SIGNERS.
Proof. unfold signers. by rewrite length_fmap, length_seq. Qed.

Lemma is_valid_signer_index_spec b :
  is_valid_signer_index (Z.to_nat (u8_to_Z b)) = true -> 1 <= u8_to_Z b <= 11.
Proof.
  unfold is_valid_signer_index, MIN_SIGNERS, MAX_SIGNERS.
  intros [H1 H2]%andb_true_iff. apply Nat.leb_le in H1, H2. lia.
Qed.

(** The list form of [set_signers_Ok]. *)
Lemma set_signers_all infos ms ms' :
  set_signers 0 infos ms = Ok ms' ->
  (length infos <= MAX_SIGNERS)%nat /\ multisig_m ms' = multisig_m ms /\
  multisig_n ms' = multisig_n ms /\
  take (length infos) (signers ms') = key <$> infos /\
  drop (length infos) (signers ms') = drop (length infos) (signers ms).
Proof.
  intros (Hl & Em & En & Hs)%set_signers_Ok.
  assert (length infos <= MAX_SIGNERS)%nat as Hl' by (destruct Hl as [Hl| ->]; simpl in *; lia).
  do 3 (split; [done|]). split; apply list_eq; intros j.
  - destruct (decide (j < length infos)%nat) as [Hj|Hj].
    + rewrite lookup_take_lt, Hs, decide_True, list_lookup_fmap by lia. by rewrite Nat.sub_0_r.
    + rewrite lookup_take_ge by lia. symmetry. apply lookup_ge_None_2. rewrite length_fmap. lia.
  - rewrite !lookup_drop. destruct (decide (length infos + j < MAX_SIGNERS)%nat) as [Hj|Hj].
    + rewrite Hs, decide_False by lia. done.
    + rewrite !lookup_ge_None_2; [done|rewrite length_signers; lia..].
Qed.

(** Initialising a multisig: at most eleven signers are given, and at least
    one; the account then requires [m] of them, between one and eleven, and
    lists their keys in order; an account in use is refused, and no other
    account changes. *)
Theorem process_initialize_multisig_spec accounts m rs w w' :
  _process_initialize_multisig accounts m rs w = Ok (tt, w') ->
  exists mi rest infos ms ms',
    accounts = mi :: rest /\ infos = (if rs then tail rest else rest) /\
    cell_data (cell w (key mi)) = to_bytes ms /\ bool_get (multisig_is_initialized ms) = false /\
    cell_data (cell w' (key mi)) = to_bytes ms' /\
    bool_get (multisig_is_initialized ms') = true /\
    multisig_m ms' = m /\ 1 <= u8_to_Z m <= 11 /\
    u8_to_Z (multisig_n ms') = Z.of_nat (length infos) /\ 1 <= Z.of_nat (length infos) <= 11 /\
    take (length infos) (signers ms') = key <$> infos /\
    drop (length infos) (signers ms') = drop (length infos) (signers ms) /\
    forall k, k <> key mi -> cell w' k = cell w k.
Proof.
  unfold _process_initialize_multisig. intros H. m_inv.
  apply get_rent_Ok in Hm2 as [-> Hrent].
  match goal with H : set_signers _ _ _ = _ |- _ =>
    apply set_signers_all in H as (Hl & Em & En & Ht & Hd) end.
  cbn [multisig_m multisig_n] in Em, En.
  match goal with H : is_valid_signer_index (Z.to_nat (u8_to_Z (u8_of_Z _))) = _ |- _ =>
    apply is_valid_signer_index_spec in H as Hn end.
  apply is_valid_signer_index_spec in Hm9. rewrite u8_to_of_Z in Hn. unfold MAX_SIGNERS in Hl.
  rewrite Z.mod_small in Hn by lia.
  eexists a, l, l0, a3, _. split; [done|]. split.
  { destruct rs; [by destruct Hrent as (i & d & -> & _)|by destruct Hrent]. }
  do 2 (split; [done|]). rewrite cell_set_cell. split; [done|]. cbn [multisig_m multisig_n].
  split; [done|]. split; [done|]. split; [done|].
  split; [by rewrite En, u8_to_of_Z, Z.mod_small by lia|]. split; [done|].
  do 2 (split; [done|]). intros k Hk. by rewrite cell_set_cell_ne.
Qed.
End initialize.
