(* ===== verification/Lifecycle.v ===== *)
(** * Closing accounts and moving lamports

    [process_close_account], [process_sync_native],
    [process_withdraw_excess_lamports] and [process_unwrap_lamports] of
    [program/src/processor.rs]. *)
From S2P Require Import Prelude Bytes Errors Ids Runtime Pod ExtensionState Extension TlvTheory.
From S2P Require Import ViewTheory MonadTheory Ownership.



(** [if let Ok(e) = state.get_extension::<V>() { check(e)? }]. *)
Definition check_extension {S} `{BaseState S} (V : Type) `{Pod V, Extension V}
    (check : V -> Result ProgramError unit) (state : PodState S) : Result ProgramError unit :=
  match get_extension V state with
  | Ok e => check e
  | _ => Ok tt
  end.

Section lifecycle.
Context `{RT : Runtime}.

(** ** Close *)

(** The first arm of [process_close_account]: a token account. *)
Definition close_token_account (program_id : Address)
    (source_account_info destination_account_info authority_info : AccountInfo)
    (authority_info_data_len : nat) (signers : list AccountInfo)
    (source_account : PodState PodAccount) : M unit :=
  let b := state_base source_account in
  _ ← bail_if (negb (is_native b) && negb (u64_get (amount b) =? 0)) TokenError.NonNativeHasBalance;
  let authority := PodCOption.unwrap_or (close_authority b) (owner b) in
  _ ← (if negb (is_owned_by_system_program_or_incinerator b) then
         _ ← bail_if (cpi_locked source_account && in_cpi &&
                      negb (bool_decide (key destination_account_info = owner b)))
               TokenError.CpiGuardCloseAccountBlocked;
         validate_owner [Shared (key source_account_info)] program_id authority authority_info
           authority_info_data_len signers
       else
         bail_if (negb (bool_decide (key destination_account_info = rt_incinerator_id)))
           ProgramError.InvalidAccountData);
  _ ← lift (check_extension ConfidentialTransferAccount cta_closable source_account);
  _ ← lift (check_extension ConfidentialTransferFeeAmount ctfa_closable source_account);
  lift (check_extension TransferFeeAmount tfa_closable source_account).

(** The second arm: a mint with the close-authority extension. *)
Definition close_mint (program_id : Address) (source_account_info authority_info : AccountInfo)
    (authority_info_data_len : nat) (signers : list AccountInfo) (mint : PodState PodMint)
    : M unit :=
  extension ← lift (get_extension MintCloseAuthority mint);
  authority ← lift (ok_or (maybe_null_get (mca_close_authority extension))
                      (TokenError.AuthorityTypeNotSupported : ProgramError));
  _ ← validate_owner [Shared (key source_account_info)] program_id authority authority_info
        authority_info_data_len signers;
  _ ← bail_if (negb (u64_get (supply (state_base mint)) =? 0)) TokenError.MintHasSupply;
  lift (check_extension ConfidentialMintBurn cmb_closable mint).

(** [delete_account] as it is compiled for the chain. *)
Definition delete_account (account_info : AccountInfo) : M unit :=
  _ ← assign account_info rt_system_program_id;
  account_data ← data_of account_info;
  account_data ← lift (rt_resize account_data 0);
  write_data account_info account_data.

Definition process_close_account (program_id : Address) (accounts : list AccountInfo) : M unit :=
  '(source_account_info, iter) ← lift (next_account_info accounts);
  '(destination_account_info, iter) ← lift (next_account_info iter);
  '(authority_info, signers) ← lift (next_account_info iter);
  authority_info_data_len ← data_len [] authority_info;
  _ ← check_owner source_account_info;
  _ ← bail_if (bool_decide (key source_account_info = key destination_account_info))
        ProgramError.InvalidAccountData;
  source_account_data ← borrow [] source_account_info;
  _ ← match unpack PodAccount source_account_data with
      | Ok source_account =>
          close_token_account program_id source_account_info destination_account_info
            authority_info authority_info_data_len signers source_account
      | _ =>
          match unpack PodMint source_account_data with
          | Ok mint =>
              close_mint program_id source_account_info authority_info authority_info_data_len
                signers mint
          | _ => throw ProgramError.UninitializedAccount
          end
      end;
  destination_starting_lamports ← info_lamports destination_account_info;
  source_lamports ← info_lamports source_account_info;
  total ← lift (ok_or (u64_checked_add destination_starting_lamports source_lamports)
                  (TokenError.Overflow : ProgramError));
  _ ← set_lamports destination_account_info total;
  _ ← set_lamports source_account_info 0;
  delete_account source_account_info.

(** ** Native accounts *)

Definition process_sync_native (accounts : list AccountInfo) : M unit :=
  '(native_account_info, iter) ← lift (next_account_info accounts);
  _ ← check_owner native_account_info;
  rent ← match next_account_info iter with
         | Ok (rent_sysvar_info, _) =>
             rent_data ← data_of rent_sysvar_info;
             lift (rt_rent_from_account_info (key rent_sysvar_info) rent_data)
         | _ => lift rt_rent
         end;
  native_account_len ← data_len [] native_account_info;
  let rent_exempt_reserve := minimum_balance rent native_account_len in
  native_account_data ← borrow_mut [] native_account_info;
  native_account ← lift (unpack_mut PodAccount native_account_data);
  match PodCOption.get (is_native_reserve (base native_account)) with
  | Some _ =>
      lamports ← info_lamports native_account_info;
      new_amount ← lift (ok_or (u64_checked_sub lamports rent_exempt_reserve)
                           (TokenError.Overflow : ProgramError));
      write_data native_account_info
        (repack (with_base
          (set_amount new_amount
            (set_is_native (PodCOption.some (u64_new rent_exempt_reserve)) (base native_account)))
          native_account))
  | None => throw TokenError.NonNativeNotSupported
  end.

(** ** Lamports in excess *)

(** The checks on the account the lamports leave, for each kind of account. *)
Definition excess_lamports_authority (program_id : Address) (source_info authority_info : AccountInfo)
    (signers : list AccountInfo) (source_data : list byte) : M unit :=
  let validate expected :=
    authority_info_data_len ← data_len [Shared (key source_info)] authority_info;
    validate_owner [Shared (key source_info)] program_id expected authority_info
      authority_info_data_len signers in
  match unpack PodAccount source_data with
  | Ok account =>
      _ ← bail_if (is_native (state_base account)) TokenError.NativeNotSupported;
      _ ← validate (owner (state_base account));
      bail_if (cpi_locked account && in_cpi) TokenError.CpiGuardTransferBlocked
  | _ =>
      match unpack PodMint source_data with
      | Ok mint =>
          let mint_authority := mint_authority (state_base mint) in
          if PodCOption.is_some mint_authority then validate (value mint_authority)
          else if PodCOption.is_none mint_authority &&
                  bool_decide (key source_info = key authority_info)
          then bail_if (negb (is_signer authority_info)) ProgramError.MissingRequiredSignature
          else throw TokenError.AuthorityTypeNotSupported
      | _ =>
          if (length source_data =? size_of PodMultisig)%nat then validate (key source_info)
          else throw TokenError.InvalidState
      end
  end.

Definition process_withdraw_excess_lamports (program_id : Address) (accounts : list AccountInfo)
    : M unit :=
  '(source_info, iter) ← lift (next_account_info accounts);
  '(destination_info, iter) ← lift (next_account_info iter);
  '(authority_info, signers) ← lift (next_account_info iter);
  _ ← check_owner source_info;
  source_data ← borrow [] source_info;
  _ ← excess_lamports_authority program_id source_info authority_info signers source_data;
  rent ← lift rt_rent;
  source_len ← data_len [Shared (key source_info)] source_info;
  source_lamports ← info_lamports source_info;
  transfer_amount ← lift (ok_or (u64_checked_sub source_lamports (minimum_balance rent source_len))
                            (TokenError.NotRentExempt : ProgramError));
  new_source ← lift (ok_or (u64_checked_sub source_lamports transfer_amount)
                       (TokenError.Overflow : ProgramError));
  _ ← set_lamports source_info new_source;
  destination_starting_lamports ← info_lamports destination_info;
  new_destination ← lift (ok_or (u64_checked_add destination_starting_lamports transfer_amount)
                            (TokenError.Overflow : ProgramError));
  set_lamports destination_info new_destination.

(** ** Unwrapping *)

(** The amount to unwrap and what remains of [current]. *)
Definition unwrap_amounts (current : Z) (amount : PodCOption Z) : Result ProgramError (Z * Z) :=
  if PodCOption.is_some amount then
    remaining_amount ← ok_or (u64_checked_sub current (value amount))
                         (TokenError.InsufficientFunds : ProgramError);
    mret (value amount, remaining_amount)
  else if PodCOption.is_none amount then mret (current, 0)
  else Err ProgramError.InvalidInstructionData.

(** The authority: the delegate, whose allowance is spent, or the owner. *)
Definition unwrap_authority (program_id : Address) (source_account_info authority_info : AccountInfo)
    (authority_info_data_len : nat) (signers : list AccountInfo) (source : PodAccount) (amount : Z)
    : M PodAccount :=
  let held := [Mut (key source_account_info)] in
  if bool_decide (PodCOption.get (delegate source) = Some (key authority_info)) then
    _ ← validate_owner held program_id (key authority_info) authority_info
          authority_info_data_len signers;
    new_delegated ← lift (ok_or (u64_checked_sub (u64_get (delegated_amount source)) amount)
                            (TokenError.InsufficientFunds : ProgramError));
    let source := set_delegated_amount new_delegated source in
    mret (if u64_get (delegated_amount source) =? 0 then set_delegate coption_none source
          else source)
  else
    _ ← validate_owner held program_id (owner source) authority_info
          authority_info_data_len signers;
    mret source.

Definition process_unwrap_lamports (program_id : Address) (accounts : list AccountInfo)
    (amount_ : PodCOption Z) : M unit :=
  '(source_account_info, iter) ← lift (next_account_info accounts);
  '(destination_account_info, iter) ← lift (next_account_info iter);
  '(authority_info, signers) ← lift (next_account_info iter);
  authority_info_data_len ← data_len [] authority_info;
  _ ← check_owner source_account_info;
  source_account_data ← borrow_mut [] source_account_info;
  source_account ← lift (unpack_mut PodAccount source_account_data);
  '(amount_, remaining_amount) ←
    lift (unwrap_amounts (u64_get (amount (base source_account))) amount_);
  _ ← bail_if (negb (is_native (base source_account))) TokenError.NonNativeNotSupported;
  source ← unwrap_authority program_id source_account_info authority_info
    authority_info_data_len signers (base source_account) amount_;
  _ ← bail_if (cpi_locked source_account && in_cpi) TokenError.CpiGuardTransferBlocked;
  if negb (amount_ =? 0) then
    _ ← when (negb (bool_decide (key source_account_info = key destination_account_info)))
         (source_starting_lamports ← info_lamports source_account_info;
          new_source ← lift (ok_or (u64_checked_sub source_starting_lamports amount_)
                               (TokenError.Overflow : ProgramError));
          _ ← set_lamports source_account_info new_source;
          destination_starting_lamports ← info_lamports destination_account_info;
          new_destination ← lift (ok_or (u64_checked_add destination_starting_lamports amount_)
                                    (TokenError.Overflow : ProgramError));
          set_lamports destination_account_info new_destination);
    write_data source_account_info
      (repack (with_base (set_amount remaining_amount source) source_account))
  else write_data source_account_info (repack (with_base source source_account)).

End lifecycle.
