(* ===== verification/LifecycleTheory.v ===== *)
(** * What closing, syncing and unwrapping do

    Closing an account moves all its lamports and takes no tokens out of
    circulation but native ones, where the supply backs what circulates; the
    balance of a native account follows its lamports. *)
From S2P Require Import Prelude Bytes Errors Ids Runtime Pod ExtensionState Extension TlvTheory.
From S2P Require Import ViewTheory MonadTheory Ownership Ledger Lifecycle.

Section lifecycle.
Context `{RT : Runtime}.

(** What [AccountInfo::resize(0)] does when it succeeds. *)
Definition resize_empties : Prop := forall d d', rt_resize d 0 = Ok d' -> d' = [].

(** ** Closing *)

Lemma check_extension_Ok {S} `{BaseState S} V `{Pod V, Extension V}
    (check : V -> Result ProgramError unit) (st : PodState S) u e :
  check_extension V check st = Ok u -> get_extension V st = Ok e -> check e = Ok u.
Proof. unfold check_extension. intros Hc He. by rewrite He in Hc. Qed.

(** The store after the lamports are moved and the account is deleted. *)
Definition emptied (src dst : Address) (w w' : World) : Prop :=
  cell w' src = mk_cell 0 [] rt_system_program_id /\
  cell w' dst = with_lamports (cell_lamports (cell w dst) + cell_lamports (cell w src)) (cell w dst) /\
  (forall k, k <> src -> k <> dst -> cell w' k = cell w k) /\
  total_lamports w' = total_lamports w /\
  forall m,
    circulation m w' = circulation m w - holding m src (cell w src) /\
    supply_of m w' = if bool_decide (src = m) then 0 else supply_of m w.

Lemma foreign_holding m k c : cell_owner c <> id -> holding m k c = 0.
Proof. intros. unfold holding. by rewrite bool_decide_false. Qed.

Lemma foreign_supply c : cell_owner c <> id -> recorded_supply c = 0.
Proof. intros. unfold recorded_supply. by rewrite bool_decide_false. Qed.

Lemma delete_account_Ok i w u w' :
  resize_empties -> delete_account i w = Ok (u, w') ->
  w' = set_cell (key i) (mk_cell (cell_lamports (cell w (key i))) [] rt_system_program_id)
         (set_cell (key i) (with_owner rt_system_program_id (cell w (key i))) w).
Proof.
  intros Hr H. unfold delete_account in H. m_inv.
  apply data_of_Ok in Hm0 as [-> ->]. m_inv.
  match goal with H : rt_resize _ _ = Ok _ |- _ => apply Hr in H as -> end.
  by rewrite !cell_set_cell.
Qed.

Lemma emptied_Ok src dst w total :
  rt_system_program_id <> id -> src <> dst ->
  total = cell_lamports (cell w dst) + cell_lamports (cell w src) ->
  let w1 := set_cell dst (with_lamports total (cell w dst)) w in
  let w2 := set_cell src (with_lamports 0 (cell w1 src)) w1 in
  emptied src dst w
    (set_cell src (mk_cell (cell_lamports (cell w2 src)) [] rt_system_program_id)
       (set_cell src (with_owner rt_system_program_id (cell w2 src)) w2)).
Proof.
  intros Hsys Hne -> w1 w2. unfold emptied.
  assert (cell w1 src = cell w src) as E1 by (unfold w1; by rewrite cell_set_cell_ne).
  assert (cell w2 src = with_lamports 0 (cell w src)) as E2 by (unfold w2; by rewrite cell_set_cell, E1).
  split; [by rewrite cell_set_cell, E2|]. split.
  { rewrite !(cell_set_cell_ne src dst) by done. unfold w2. rewrite (cell_set_cell_ne src dst) by done.
    unfold w1. by rewrite cell_set_cell. }
  split.
  { intros k H1 H2. rewrite !(cell_set_cell_ne src k) by done. unfold w2.
    rewrite (cell_set_cell_ne src k) by done. unfold w1. by rewrite cell_set_cell_ne. }
  split.
  { unfold total_lamports. rewrite !world_sum_set_cell by done.
    rewrite cell_set_cell. unfold w2. rewrite !world_sum_set_cell by done.
    unfold w1. rewrite world_sum_set_cell by done. rewrite !cell_set_cell, (cell_set_cell_ne dst src) by done.
    simpl. lia. }
  intros m. split.
  - unfold circulation. rewrite !world_sum_set_cell by apply holding_empty.
    rewrite cell_set_cell.
    rewrite (foreign_holding m src (with_owner _ _)), (foreign_holding m src (mk_cell _ _ _)) by done.
    assert (world_sum (holding m) w2 = world_sum (holding m) w) as ->.
    { change (circulation m w2 = circulation m w). unfold w2, w1. by rewrite !circulation_lamports. }
    rewrite E2. change (holding m src (with_lamports 0 (cell w src))) with (holding m src (cell w src)).
    lia.
  - unfold supply_of. rewrite cell_set_cell_case. case_bool_decide as Em.
    + subst. rewrite decide_True by done. by apply foreign_supply.
    + rewrite decide_False by done. rewrite cell_set_cell_ne by done.
      change (supply_of m w2 = supply_of m w). unfold w2, w1. by rewrite !supply_lamports.
Qed.

(** Who may close an account of either kind, and what must be empty. *)
Definition account_closable (pid : Address) (dst auth : AccountInfo) (signers : list AccountInfo)
    (a : PodStateMut PodAccount) (w : World) : Prop :=
  (is_native (base a) = false -> u64_get (amount (base a)) = 0) /\ withheld a = 0 /\
  (forall e, get_extension ConfidentialTransferAccount a = Ok e -> cta_closable e = Ok tt) /\
  (forall e, get_extension ConfidentialTransferFeeAmount a = Ok e -> ctfa_closable e = Ok tt) /\
  if is_owned_by_system_program_or_incinerator (base a)
  then key dst = rt_incinerator_id
  else authorizes pid (PodCOption.unwrap_or (close_authority (base a)) (owner (base a))) auth
         (length (cell_data (cell w (key auth)))) signers w /\
       (cpi_locked a = true -> in_cpi = true -> key dst = owner (base a)).

Definition mint_closable (pid : Address) (auth : AccountInfo) (signers : list AccountInfo)
    (mt : PodStateMut PodMint) (w : World) : Prop :=
  u64_get (supply (base mt)) = 0 /\
  exists e a, get_extension MintCloseAuthority mt = Ok e /\
    maybe_null_get (mca_close_authority e) = Some a /\
    authorizes pid a auth (length (cell_data (cell w (key auth)))) signers w.

Lemma close_token_account_Ok pid src dst auth signers (a : PodStateMut PodAccount) w u w' :
  close_token_account pid src dst auth (length (cell_data (cell w (key auth)))) signers
    (mk_state (base a) (tlv_data a)) w = Ok (u, w') ->
  w' = w /\ account_closable pid dst auth signers a w.
Proof.
  unfold close_token_account, account_closable. cbn [state_base]. intros H. m_inv.
  match goal with H : check_extension TransferFeeAmount _ _ = _ |- _ => rename H into Hf end.
  assert (w1 = w /\ if is_owned_by_system_program_or_incinerator (base a)
    then key dst = rt_incinerator_id
    else authorizes pid (PodCOption.unwrap_or (close_authority (base a)) (owner (base a))) auth
           (length (cell_data (cell w (key auth)))) signers w /\
         (cpi_locked a = true -> in_cpi = true -> key dst = owner (base a))) as [-> Hau].
  { destruct (is_owned_by_system_program_or_incinerator _); cbn [negb] in Hm0; m_inv; [done|].
    split; [done|]. split; [done|]. intros Hl Hc.
    match goal with H : cpi_locked _ && _ && _ = false |- _ =>
      change (cpi_locked (mk_state (base a) (tlv_data a))) with (cpi_locked a) in H;
      rewrite Hl, Hc in H; cbn [andb] in H end.
    m_inv. done. }
  split; [done|]. split.
  { intros Hn. rewrite Hn in Hm. cbn [negb andb] in Hm. m_inv. by apply Z.eqb_eq. }
  split.
  { unfold withheld. destruct (get_extension TransferFeeAmount a) as [e| |] eqn:He; [|done..].
    apply (check_extension_Ok _ _ _ _ e) in Hf; [|done]. unfold tfa_closable in Hf. m_inv.
    match goal with H : tfa_withheld_amount e = _ |- _ => rewrite H end. by vm_compute. }
  split; [intros e He; by eapply check_extension_Ok|].
  split; [intros e He; by eapply check_extension_Ok|]. done.
Qed.

Lemma close_mint_Ok pid src auth signers (mt : PodStateMut PodMint) w u w' :
  close_mint pid src auth (length (cell_data (cell w (key auth)))) signers
    (mk_state (base mt) (tlv_data mt)) w = Ok (u, w') ->
  w' = w /\ mint_closable pid auth signers mt w.
Proof.
  unfold close_mint, mint_closable. cbn [state_base]. intros H. m_inv.
  split; [done|]. split; [by apply Z.eqb_eq|]. eexists _, _. done.
Qed.

Lemma holding_le_circulation m k w : holding m k (cell w k) <= circulation m w.
Proof.
  unfold circulation. rewrite (world_sum_split _ (holding_empty m) w k ({[k]} ∪ dom (cells w)))
    by set_solver.
  assert (forall l, 0 <= sum_Z ((fun k => holding m k (cell w k)) <$> l)) as Hs.
  { intros l. induction l as [|x l IH]; [done|]. rewrite fmap_cons. unfold sum_Z in *. cbn [foldr]. pose proof (holding_nonneg m x (cell w x)). lia. }
  specialize (Hs (elements (({[k]} ∪ dom (cells w)) ∖ {[k]}))). lia.
Qed.


(** The tokens of a native account, which go with its lamports. *)
Definition native_tokens (m : Address) (c : Cell) : Z :=
  match unpack_mut PodAccount (cell_data c) with
  | Ok a => if bool_decide (mint (base a) = m) && is_native (base a)
            then u64_get (amount (base a)) else 0
  | _ => 0
  end.

(** The tokens that closing takes out of circulation: a native account's, and
    what a mint without supply still withholds. *)
Definition closed_tokens (m src : Address) (c : Cell) : Z :=
  match unpack_mut PodAccount (cell_data c) with
  | Ok a => if bool_decide (mint (base a) = m) && is_native (base a)
            then u64_get (amount (base a)) else 0
  | _ => holding m src c
  end.

(** What the account is and who approved that it is closed. *)
Definition closable (pid : Address) (src dst auth : AccountInfo) (signers : list AccountInfo)
    (w : World) : Prop :=
  (exists a, unpack_mut PodAccount (cell_data (cell w (key src))) = Ok a /\
     account_closable pid dst auth signers a w) \/
  (exists mt, unpack_mut PodMint (cell_data (cell w (key src))) = Ok mt /\
     mint_closable pid auth signers mt w).

Lemma close_checks_Ok pid src dst auth signers w u w' :
  match unpack PodAccount (cell_data (cell w (key src))) with
  | Ok source_account =>
      close_token_account pid src dst auth (length (cell_data (cell w (key auth)))) signers
        source_account
  | _ =>
      match unpack PodMint (cell_data (cell w (key src))) with
      | Ok mint => close_mint pid src auth (length (cell_data (cell w (key auth)))) signers mint
      | _ => throw ProgramError.UninitializedAccount
      end
  end w = Ok (u, w') ->
  w' = w /\ closable pid src dst auth signers w.
Proof.
  rewrite !unpack_unpack_mut. unfold closable.
  destruct (unpack_mut PodAccount _) as [a| |];
    [intros [-> Hc]%close_token_account_Ok; eauto 10|..];
  (destruct (unpack_mut PodMint _) as [mt| |];
    [intros [-> Hc]%close_mint_Ok; eauto 10|done..]).
Qed.

Lemma closable_tokens pid src dst auth signers w m :
  cell_owner (cell w (key src)) = id -> closable pid src dst auth signers w ->
  holding m (key src) (cell w (key src)) = closed_tokens m (key src) (cell w (key src)) /\
  supply_of (key src) w = 0.
Proof.
  intros Ho [(a & Ha & Hn & Hw & _)|(mt & Hm & Hs & _)]; unfold closed_tokens, supply_of.
  - rewrite (holding_account _ _ _ a), (recorded_supply_account _ a), Ha by done.
    unfold account_tokens. split; [|done]. destruct (is_native _); [|rewrite (Hn eq_refl)];
      case_bool_decide; simpl; lia.
  - rewrite (recorded_supply_mint _ mt) by done. split; [|done].
    destruct (unpack_mut PodAccount _) as [a| |] eqn:Ha; [|done..].
    by destruct (account_mint_exclusive _ _ _ Ha Hm).
Qed.

(** Where the supply backs the circulation, a mint without supply withholds nothing. *)
Lemma closable_backed pid src dst auth signers w m :
  cell_owner (cell w (key src)) = id -> closable pid src dst auth signers w ->
  circulation m w <= supply_of m w ->
  closed_tokens m (key src) (cell w (key src)) = native_tokens m (cell w (key src)).
Proof.
  intros Ho Hc Hb. destruct (closable_tokens _ _ _ _ _ _ m Ho Hc) as [Eh Hs]. unfold native_tokens.
  destruct Hc as [(a & Ha & _)|(mt & Hm & _)]; [by unfold closed_tokens; rewrite Ha|].
  destruct (unpack_mut PodAccount _) as [a| |] eqn:Ha; [by destruct (account_mint_exclusive _ _ _ Ha Hm)|..].
  all: rewrite <- Eh; pose proof (holding_le_circulation m (key src) w) as Hle;
    pose proof (holding_nonneg m (key src) (cell w (key src)));
    destruct (decide (key src = m)) as [<-|Hne]; [lia|];
    by rewrite (holding_mint m _ _ mt), bool_decide_false.
Qed.

(** A close: the checks, and the store they leave. *)
Lemma process_close_account_inv pid accounts w w' :
  resize_empties -> rt_system_program_id <> id ->
  process_close_account pid accounts w = Ok (tt, w') ->
  exists src dst auth signers,
    accounts = src :: dst :: auth :: signers /\ key src <> key dst /\
    cell_owner (cell w (key src)) = id /\
    closable pid src dst auth signers w /\ emptied (key src) (key dst) w w'.
Proof.
  intros Hr Hsys H. unfold process_close_account in H. m_inv.
  match goal with H : (match unpack PodAccount _ with _ => _ end) _ = Ok _ |- _ =>
    apply close_checks_Ok in H as [-> Hc] end.
  apply delete_account_Ok in H as ->; [|done].
  match goal with H : key ?s <> key ?d |- _ => rename H into Hne; rename s into src, d into dst end.
  eexists src, dst, _, _. do 4 (split; [done|]).
  by apply (emptied_Ok (key src) (key dst) w _ Hsys Hne eq_refl).
Qed.

(** C33: closing an account moves all of its lamports to the destination, so that
    the sum of all lamports stays, and leaves an empty account of the system
    program.  A token account that is not native has no tokens left, none of
    them withheld or confidential, and is closed by its close authority or its
    owner (or, when the system program or the incinerator owns it, into the
    incinerator); a mint has no supply and is closed by its close authority.  So
    where no more tokens are in circulation than the supply records, as the
    invariant on reachable states says, only native tokens leave circulation,
    with their lamports; in any other state, what a mint without supply still
    withholds goes with it.  No recorded supply changes. *)
Theorem process_close_account_spec pid accounts w w' :
  resize_empties -> rt_system_program_id <> id ->
  process_close_account pid accounts w = Ok (tt, w') ->
  exists src dst auth signers,
    accounts = src :: dst :: auth :: signers /\ key src <> key dst /\
    cell_owner (cell w (key src)) = id /\
    closable pid src dst auth signers w /\
    cell w' (key src) = mk_cell 0 [] rt_system_program_id /\
    cell w' (key dst) =
      with_lamports (cell_lamports (cell w (key dst)) + cell_lamports (cell w (key src)))
        (cell w (key dst)) /\
    (forall k, k <> key src -> k <> key dst -> cell w' k = cell w k) /\
    total_lamports w' = total_lamports w /\
    forall m, circulation m w' = circulation m w - closed_tokens m (key src) (cell w (key src)) /\
      (circulation m w <= supply_of m w ->
       circulation m w' = circulation m w - native_tokens m (cell w (key src))) /\
      supply_of m w' = supply_of m w.
Proof.
  intros Hr Hsys (src & dst & auth & signers & Ea & Hne & Hown & Hc & E1 & E2 & E3 & E4 & E5)%process_close_account_inv;
    [|done..].
  exists src, dst, auth, signers. do 8 (split; [done|]).
  intros m. destruct (E5 m) as [-> ->].
  pose proof (closable_backed _ _ _ _ _ _ m Hown Hc) as Hb.
  destruct (closable_tokens _ _ _ _ _ _ m Hown Hc) as [-> Hs]. split; [done|].
  split; [by intros ->%Hb|]. case_bool_decide; [by subst|done].
Qed.

(** ** Native accounts *)

(** A rent the runtime gave. *)
Definition runtime_rent (rent : Rent) : Prop :=
  rt_rent = Ok rent \/ exists k d, rt_rent_from_account_info k d = Ok rent.

Lemma sync_rent_Ok l rent w w' :
  match next_account_info l with
  | Ok (rent_sysvar_info, _) =>
      data_of rent_sysvar_info ≫= fun rent_data =>
        lift (rt_rent_from_account_info (key rent_sysvar_info) rent_data)
  | _ => lift rt_rent
  end w = Ok (rent, w') -> w' = w /\ runtime_rent rent.
Proof.
  unfold runtime_rent. destruct l as [|i l]; simpl; intros H; m_inv; [by auto|].
  apply data_of_Ok in Hm as [-> ->]. m_inv. eauto.
Qed.

Lemma is_native_get a : is_native a = true <-> exists r, PodCOption.get (is_native_reserve a) = Some r.
Proof.
  unfold is_native, PodCOption.is_some, PodCOption.get. rewrite bool_decide_eq_true.
  case_decide; naive_solver.
Qed.

(** syncing a native account sets its amount to the lamports above the rent
    reserve of its size, records that reserve, and changes nothing else; an
    account that is not native refuses. *)
Theorem process_sync_native_spec accounts w w' :
  process_sync_native accounts w = Ok (tt, w') ->
  exists i rest st st' rent,
    accounts = i :: rest /\ runtime_rent rent /\
    unpack_mut PodAccount (cell_data (cell w (key i))) = Ok st /\ is_native (base st) = true /\
    unpack_mut PodAccount (cell_data (cell w' (key i))) = Ok st' /\
    let reserve := minimum_balance rent (length (cell_data (cell w (key i)))) in
    u64_get (amount (base st')) = cell_lamports (cell w (key i)) - reserve /\
    base st' = set_amount (cell_lamports (cell w (key i)) - reserve)
      (set_is_native (PodCOption.some (u64_new reserve)) (base st)) /\
    tlv_data st' = tlv_data st /\
    (forall k, k <> key i -> cell w' k = cell w k) /\ total_lamports w' = total_lamports w.
Proof.
  unfold process_sync_native. intros H. m_inv.
  apply sync_rent_Ok in Hm1 as [-> Hrent].
  destruct (PodCOption.get _) as [r|] eqn:Hn; m_inv.
  match goal with H : unpack_mut PodAccount _ = Ok ?x |- _ => rename H into Hu; rename x into st end.
  match goal with |- context [store (key a) ?x w] => set (st' := x) end.
  assert (replaces st st') as Hrp by (by eapply replaces_account).
  eexists a, l, st, st', _. split; [done|]. split; [exact Hrent|]. split; [done|].
  split; [apply is_native_get; by eexists|]. split; [rewrite data_store; by eapply replaces_unpack|].
  split; [apply u64_get_new; done|]. do 2 (split; [done|]).
  split; [intros k Hk; by apply cell_store_ne|apply total_lamports_store].
Qed.

(** The authority of an unwrapping: the owner, or the delegate within its
    allowance. *)
Lemma unwrap_authority_Ok pid src auth len signers b a w b' w' :
  unwrap_authority pid src auth len signers b a w = Ok (b', w') ->
  w' = w /\ amount b' = amount b /\ mint b' = mint b /\ state b' = state b /\
  is_native_reserve b' = is_native_reserve b /\
  authorizes pid (key auth) auth len signers w /\
  (owner b = key auth \/
   PodCOption.get (delegate b) = Some (key auth) /\ a <= u64_get (delegated_amount b)).
Proof.
  unfold unwrap_authority. intros H. m_cases; simpl.
  - split_and!; auto. right. split; [done|]. unfold u64_max in *. lia.
  - split_and!; auto. right. split; [done|]. unfold u64_max in *. lia.
  - pose proof Hauth as [E _]. rewrite E in Hauth |- *. split_and!; auto.
Qed.

Lemma unwrap_amounts_Ok current amount a r :
  unwrap_amounts current amount = Ok (a, r) -> is_u64 current ->
  r = current - a /\ is_u64 r /\
  (amount = PodCOption.some a \/ PodCOption.is_none amount = true /\ a = current).
Proof.
  unfold unwrap_amounts. intros H Hc. destruct (PodCOption.is_some amount) eqn:Hs; m_inv.
  - split; [done|]. split; [done|]. left. unfold PodCOption.is_some in Hs. m_inv.
    destruct amount as [t v]. simpl in *. by subst.
  - destruct (PodCOption.is_none amount) eqn:Hn; m_inv. split; [lia|].
    split; [vm_compute; split; discriminate|]. by right.
Qed.

(** [z] lamports went from [src] to [dst], and nothing else changed. *)
Definition lamports_moved (src dst : Address) (z : Z) (w w' : World) : Prop :=
  (forall k, cell_owner (cell w' k) = cell_owner (cell w k) /\
     cell_data (cell w' k) = cell_data (cell w k)) /\
  (forall k, k <> src -> k <> dst -> cell w' k = cell w k) /\
  total_lamports w' = total_lamports w /\
  (src <> dst ->
     cell_lamports (cell w' src) = cell_lamports (cell w src) - z /\
     cell_lamports (cell w' dst) = cell_lamports (cell w dst) + z) /\
  forall m, circulation m w' = circulation m w /\ supply_of m w' = supply_of m w.

Lemma lamports_moved_refl src dst z w : (src = dst \/ z = 0) -> lamports_moved src dst z w w.
Proof. intros Hz. do 3 (split; [done|]). split; [|done]. intros Hne. destruct Hz; [done|lia]. Qed.

Lemma set_lamports_moved src dst z w :
  src <> dst ->
  let w1 := set_cell src (with_lamports (cell_lamports (cell w src) - z) (cell w src)) w in
  lamports_moved src dst z w
    (set_cell dst (with_lamports (cell_lamports (cell w1 dst) + z) (cell w1 dst)) w1).
Proof.
  intros Hne w1. assert (cell w1 dst = cell w dst) as E by (unfold w1; by rewrite cell_set_cell_ne).
  rewrite E. split; [|split; [|split; [|split]]].
  - intros k. rewrite cell_set_cell_case. case_decide; [by subst|].
    unfold w1. rewrite cell_set_cell_case. case_decide; by subst.
  - intros k H1 H2. rewrite cell_set_cell_ne by done. unfold w1. by rewrite cell_set_cell_ne.
  - unfold total_lamports. rewrite world_sum_set_cell, E by done. unfold w1.
    rewrite world_sum_set_cell by done. simpl. lia.
  - intros _. rewrite cell_set_cell, cell_set_cell_ne by done. unfold w1. by rewrite cell_set_cell.
  - intros m. rewrite <- E, circulation_lamports, supply_lamports. unfold w1.
    by rewrite circulation_lamports, supply_lamports.
Qed.

(** unwrapping takes lamports and native tokens together: the source's
    amount falls by the amount asked for, or by all of it, and the same number
    of lamports move from the source to the destination, so the sum of lamports
    stays and the circulation of every mint falls by exactly the unwrapped
    amount if it is the source's mint.  The owner approves, or the delegate
    within its allowance; an enabled CPI guard refuses in a cross-program call. *)
Theorem process_unwrap_lamports_spec pid accounts amount_ w w' :
  is_u64 (value amount_) ->
  process_unwrap_lamports pid accounts amount_ w = Ok (tt, w') ->
  exists src dst auth signers st st' a,
    accounts = src :: dst :: auth :: signers /\
    unpack_mut PodAccount (cell_data (cell w (key src))) = Ok st /\ is_native (base st) = true /\
    (amount_ = PodCOption.some a \/
     PodCOption.is_none amount_ = true /\ a = u64_get (amount (base st))) /\
    authorizes pid (key auth) auth (length (cell_data (cell w (key auth)))) signers w /\
    (owner (base st) = key auth \/
     PodCOption.get (delegate (base st)) = Some (key auth) /\
       a <= u64_get (delegated_amount (base st))) /\
    (cpi_locked st = true -> in_cpi = false) /\
    unpack_mut PodAccount (cell_data (cell w' (key src))) = Ok st' /\
    u64_get (amount (base st')) = u64_get (amount (base st)) - a /\
    (forall k, k <> key src -> k <> key dst -> cell w' k = cell w k) /\
    total_lamports w' = total_lamports w /\
    (key src <> key dst ->
       cell_lamports (cell w' (key src)) = cell_lamports (cell w (key src)) - a /\
       cell_lamports (cell w' (key dst)) = cell_lamports (cell w (key dst)) + a) /\
    forall m, circulation m w' =
        circulation m w - (if bool_decide (mint (base st) = m) then a else 0) /\
      supply_of m w' = supply_of m w.
Proof.
  intros Ha. unfold process_unwrap_lamports. intros H. m_inv.
  apply unwrap_amounts_Ok in Hm6 as (-> & Hr & Hamt); [|apply u64_get_range].
  apply unwrap_authority_Ok in Hm8 as (-> & Ea & Em & Es & _ & Hau & Hwho).
  match goal with H : unpack_mut PodAccount _ = Ok ?x |- _ => rename H into Hu; rename x into st end.
  rename a into src, a0 into dst, a7 into b.
  assert (exists w1 st', w' = store (key src) st' w1 /\ lamports_moved (key src) (key dst) z w w1 /\
    replaces st st' /\ mint (base st') = mint (base st) /\ tlv_data st' = tlv_data st /\
    u64_get (amount (base st')) = u64_get (amount (base st)) - z)
    as (w1 & st' & -> & Hmv & Hrp & Em' & Et & Ea').
  { destruct (Z.eqb_spec z 0) as [Hz|Hz]; cbn [negb] in H; m_inv.
    - exists w, (with_base b st). split; [done|]. split; [apply lamports_moved_refl; by right|].
      split; [by eapply replaces_account|]. do 2 (split; [done|]). simpl. rewrite Ea. lia.
    - eexists _, _. split; [done|]. split; [by apply set_lamports_moved|].
      split; [by eapply replaces_account|]. do 2 (split; [done|]). by apply u64_get_new.
    - eexists _, _. split; [done|]. split; [apply lamports_moved_refl; by left|].
      split; [by eapply replaces_account|]. do 2 (split; [done|]). by apply u64_get_new. }
  destruct Hmv as (Hsame & Hother & Htl & Hl & Hsum). destruct (Hsame (key src)) as [Eo Ed].
  assert (unpack_mut PodAccount (cell_data (cell w1 (key src))) = Ok st) as Hu1 by by rewrite Ed.
  assert (cell_owner (cell w1 (key src)) = id) as Ho1 by by rewrite Eo.
  exists src, dst, a1, l1, st, st', z. do 6 (split; [done|]).
  split. { intros Hlk. by rewrite Hlk in Hm9. }
  split; [rewrite data_store; by eapply replaces_unpack|]. split; [done|].
  split; [intros k H1 H2; rewrite cell_store_ne by done; by apply Hother|].
  split; [by rewrite total_lamports_store|]. split.
  { intros Hne. destruct (Hl Hne) as [<- <-]. unfold store.
    by rewrite cell_set_cell, cell_set_cell_ne. }
  intros m. destruct (Hsum m) as [E1 E2].
  rewrite (circulation_store_account m _ _ Ho1 st), (supply_store_account m _ _ Ho1 st) by done.
  rewrite E1, E2. split; [|done]. unfold account_tokens.
  rewrite Ea', (withheld_tlv_data _ _ Et). 
  destruct (bool_decide (mint (base st) = m)); lia.
Qed.
End lifecycle.
