(* ===== verification/Settings.v ===== *)
(** * The settings of extensions

    The processors of [program/src/extension/*/processor.rs] that read and
    write one extension of a mint or an account: memo transfer, CPI guard,
    default account state, interest-bearing mint, pausable, permissioned burn
    (its initialisation), scaled UI amount, transfer hook and the three
    pointers.  Each Rust module is a [Module] here. *)
From S2P Require Import Prelude Bytes Errors Ids Runtime Pod ExtensionState Extension TlvTheory.
From S2P Require Import ViewTheory AccountLen MonadTheory Ownership PodInstruction Initialize.

(** The instruction enumerations that are [Initialize] and [Update], or
    [Enable] and [Disable]. *)
Definition two_variants {T} (zero one : T) (b : byte) : option T :=
  match b with x00 => Some zero | x01 => Some one | _ => None end.

Section shared.
Context `{RT : Runtime}.

(** What the extension updates share: the mint's extension [V], the authority
    it names, and new fields once that authority has signed. *)
Definition update_mint_extension (V : Type) `{Pod V, Extension V} (get_authority : V -> MaybeNull)
    (no_authority : TokenError) (fields : V -> M V) (program_id : Address)
    (accounts : list AccountInfo) : M unit :=
  '(mint_account_info, iter) ← lift (next_account_info accounts);
  '(authority_info, signers) ← lift (next_account_info iter);
  authority_info_data_len ← data_len [] authority_info;
  _ ← check_owner mint_account_info;
  mint_data ← borrow_mut [] mint_account_info;
  mint ← lift (unpack_mut PodMint mint_data);
  '(extension, put) ← lift (get_extension_mut V mint);
  authority ← lift (ok_or (maybe_null_get (get_authority extension))
                      (no_authority : ProgramError));
  _ ← validate_owner [Mut (key mint_account_info)] program_id authority authority_info
        authority_info_data_len signers;
  extension ← fields extension;
  write_data mint_account_info (repack (put extension)).

(** The toggles of account extensions: the owner signs, the extension is
    created when the account lacks it, and its flag is set. *)
Definition toggle_account_extension (V : Type) `{Pod V, Extension V} (check : M unit) (flag : V)
    (program_id : Address) (accounts : list AccountInfo) : M unit :=
  '(token_account_info, iter) ← lift (next_account_info accounts);
  '(owner_info, signers) ← lift (next_account_info iter);
  owner_info_data_len ← data_len [] owner_info;
  _ ← check_owner token_account_info;
  account_data ← borrow_mut [] token_account_info;
  account ← lift (unpack_mut PodAccount account_data);
  _ ← validate_owner [Mut (key token_account_info)] program_id (owner (base account)) owner_info
        owner_info_data_len signers;
  _ ← check;
  '(_, put) ← lift (match get_extension_mut V account with
                    | Ok place => Ok place
                    | _ => init_extension V true account
                    end);
  write_data token_account_info (repack (put flag)).

End shared.

Module memo_transfer.
Inductive RequiredMemoTransfersInstruction : Type := Enable | Disable.

Section processor.
Context `{RT : Runtime}.

Definition process_toggle_required_memo_transfers (program_id : Address)
    (accounts : list AccountInfo) (enable : bool) : M unit :=
  toggle_account_extension MemoTransfer (mret tt) (mk_mt (bool_new enable)) program_id accounts.

Definition process_instruction (program_id : Address) (accounts : list AccountInfo)
    (input : list byte) : M unit :=
  _ ← lift (check_program_account program_id);
  instruction ← lift (decode_instruction_type (two_variants Enable Disable) input);
  match instruction with
  | Enable => process_toggle_required_memo_transfers program_id accounts true
  | Disable => process_toggle_required_memo_transfers program_id accounts false
  end.
End processor.
End memo_transfer.

Module cpi_guard.
Inductive CpiGuardInstruction : Type := Enable | Disable.

Section processor.
Context `{RT : Runtime}.

Definition process_toggle_cpi_guard (program_id : Address) (accounts : list AccountInfo)
    (enable : bool) : M unit :=
  toggle_account_extension CpiGuard (bail_if in_cpi TokenError.CpiGuardSettingsLocked)
    (mk_cg (bool_new enable)) program_id accounts.

Definition process_instruction (program_id : Address) (accounts : list AccountInfo)
    (input : list byte) : M unit :=
  _ ← lift (check_program_account program_id);
  instruction ← lift (decode_instruction_type (two_variants Enable Disable) input);
  match instruction with
  | Enable => process_toggle_cpi_guard program_id accounts true
  | Disable => process_toggle_cpi_guard program_id accounts false
  end.
End processor.
End cpi_guard.

Module default_account_state.
Inductive DefaultAccountStateInstruction : Type := Initialize | Update.

Definition decode_instruction (input : list byte)
    : Result ProgramError (DefaultAccountStateInstruction * AccountState) :=
  match input with
  | [i; s] =>
      instruction ← ok_or (two_variants Initialize Update i)
                      (TokenError.InvalidInstruction : ProgramError);
      state ← ok_or (account_state_try_from s) (TokenError.InvalidInstruction : ProgramError);
      mret (instruction, state)
  | _ => fail TokenError.InvalidInstruction
  end.

Definition check_valid_default_state (state : AccountState) : Result ProgramError unit :=
  match state with
  | AccountState.Uninitialized => fail TokenError.InvalidState
  | _ => Ok tt
  end.

Section processor.
Context `{RT : Runtime}.

Definition process_initialize_default_account_state (accounts : list AccountInfo)
    (state : AccountState) : M unit :=
  _ ← lift (check_valid_default_state state);
  '(mint_account_info, _) ← lift (next_account_info accounts);
  initialize_extension PodMint DefaultAccountState mint_account_info (fun _ =>
    mret (mk_das (account_state_u8 state))).

Definition process_update_default_account_state (program_id : Address)
    (accounts : list AccountInfo) (state : AccountState) : M unit :=
  _ ← lift (check_valid_default_state state);
  '(mint_account_info, iter) ← lift (next_account_info accounts);
  '(freeze_authority_info, signers) ← lift (next_account_info iter);
  freeze_authority_info_data_len ← data_len [] freeze_authority_info;
  _ ← check_owner mint_account_info;
  mint_data ← borrow_mut [] mint_account_info;
  mint ← lift (unpack_mut PodMint mint_data);
  _ ← match PodCOption.get (freeze_authority (base mint)) with
      | Some freeze_authority =>
          validate_owner [Mut (key mint_account_info)] program_id freeze_authority
            freeze_authority_info freeze_authority_info_data_len signers
      | None => throw TokenError.NoAuthorityExists
      end;
  '(_, put) ← lift (get_extension_mut DefaultAccountState mint);
  write_data mint_account_info (repack (put (mk_das (account_state_u8 state)))).

Definition process_instruction (program_id : Address) (accounts : list AccountInfo)
    (input : list byte) : M unit :=
  _ ← lift (check_program_account program_id);
  '(instruction, state) ← lift (decode_instruction input);
  match instruction with
  | Initialize => process_initialize_default_account_state accounts state
  | Update => process_update_default_account_state program_id accounts state
  end.
End processor.
End default_account_state.

Module interest_bearing_mint.
Inductive InterestBearingMintInstruction : Type := Initialize | UpdateRate.

Record InitializeInstructionData : Type := mk_init {
  rate_authority : MaybeNull;
  rate : I16
}.
#[export] Instance InitializeInstructionData_pod : Pod InitializeInstructionData.
Proof.
  refine (pod_iso (fun x => (rate_authority x, rate x)) (fun '(a, b) => mk_init a b) _ _);
    solve_pod_iso.
Defined.

Definition i128_max : Z := 170141183460469231731687303715884105727.
Definition i128_checked (z : Z) : option Z := checked (-i128_max - 1) i128_max z.
Definition i16_try_from (z : Z) : option Z := checked (-32768) 32767 z.

(** [InterestBearingConfig::time_weighted_average_rate]; the division of
    [i128]s truncates towards zero. *)
Definition time_weighted_average_rate (e : InterestBearingConfig) (current_timestamp : Z)
    : option Z :=
  let initialization_timestamp := i64_get (ibc_initialization_timestamp e) in
  let last_update_timestamp := i64_get (ibc_last_update_timestamp e) in
  let r_1 := i16_get (ibc_pre_update_average_rate e) in
  t_1 ← i128_checked (last_update_timestamp - initialization_timestamp);
  let r_2 := i16_get (ibc_current_rate e) in
  t_2 ← i128_checked (current_timestamp - last_update_timestamp);
  total_timespan ← i128_checked (t_1 + t_2);
  average_rate ←
    (if total_timespan =? 0 then Some r_2
     else
       a ← i128_checked (r_1 * t_1);
       b ← i128_checked (r_2 * t_2);
       c ← i128_checked (a + b);
       i128_checked (Z.quot c total_timespan));
  i16_try_from average_rate.

Section processor.
Context `{RT : Runtime}.

Definition process_initialize (accounts : list AccountInfo) (rate_authority : MaybeNull)
    (rate : I16) : M unit :=
  '(mint_account_info, _) ← lift (next_account_info accounts);
  initialize_extension_with PodMint InterestBearingConfig mint_account_info (lift rt_clock)
    (fun clock _ =>
      let now := i64_new (clock_unix_timestamp clock) in
      mret (mk_ibc rate_authority now rate now rate)).

Definition process_update_rate (program_id : Address) (accounts : list AccountInfo)
    (new_rate : I16) : M unit :=
  update_mint_extension InterestBearingConfig ibc_rate_authority TokenError.NoAuthorityExists
    (fun extension =>
      clock ← lift rt_clock;
      new_average_rate ←
        lift (ok_or (time_weighted_average_rate extension (clock_unix_timestamp clock))
                (TokenError.Overflow : ProgramError));
      mret (mk_ibc (ibc_rate_authority extension) (ibc_initialization_timestamp extension)
              (i16_new new_average_rate) (i64_new (clock_unix_timestamp clock)) new_rate))
    program_id accounts.

Definition process_instruction (program_id : Address) (accounts : list AccountInfo)
    (input : list byte) : M unit :=
  _ ← lift (check_program_account program_id);
  instruction ← lift (decode_instruction_type (two_variants Initialize UpdateRate) input);
  match instruction with
  | Initialize =>
      data ← lift (decode_instruction_data InitializeInstructionData input);
      process_initialize accounts (rate_authority data) (rate data)
  | UpdateRate =>
      new_rate ← lift (decode_instruction_data I16 input);
      process_update_rate program_id accounts new_rate
  end.
End processor.
End interest_bearing_mint.

Module pausable.
Inductive PausableInstruction : Type := Initialize | Pause | Resume.

Definition pausable_instruction_try_from (b : byte) : option PausableInstruction :=
  match b with x00 => Some Initialize | x01 => Some Pause | x02 => Some Resume | _ => None end.

Section processor.
Context `{RT : Runtime}.

Definition process_initialize (accounts : list AccountInfo) (authority : Address) : M unit :=
  '(mint_account_info, _) ← lift (next_account_info accounts);
  initialize_extension PodMint PausableConfig mint_account_info (fun extension =>
    authority ← lift (ok_or (maybe_null_try_from (Some authority)) ProgramError.InvalidArgument);
    mret (mk_pc authority (pc_paused extension))).

Definition process_toggle_pause (program_id : Address) (accounts : list AccountInfo)
    (pause : bool) : M unit :=
  update_mint_extension PausableConfig pc_authority TokenError.AuthorityTypeNotSupported
    (fun extension => mret (mk_pc (pc_authority extension) (bool_new pause))) program_id accounts.

Definition process_instruction (program_id : Address) (accounts : list AccountInfo)
    (input : list byte) : M unit :=
  _ ← lift (check_program_account program_id);
  instruction ← lift (decode_instruction_type pausable_instruction_try_from input);
  match instruction with
  | Initialize =>
      authority ← lift (decode_instruction_data Address input);
      process_initialize accounts authority
  | Pause => process_toggle_pause program_id accounts true
  | Resume => process_toggle_pause program_id accounts false
  end.
End processor.
End pausable.

Module permissioned_burn.
Inductive PermissionedBurnInstruction : Type := Initialize | Burn | BurnChecked | ConfidentialBurn.

Section processor.
Context `{RT : Runtime}.

Definition process_initialize (accounts : list AccountInfo) (authority : Address) : M unit :=
  '(mint_account_info, _) ← lift (next_account_info accounts);
  initialize_extension PodMint PermissionedBurnConfig mint_account_info (fun _ =>
    authority ← lift (ok_or (maybe_null_try_from (Some authority)) ProgramError.InvalidArgument);
    mret (mk_pbc authority)).
End processor.
End permissioned_burn.

Module scaled_ui_amount.
Inductive ScaledUiAmountMintInstruction : Type := Initialize | UpdateMultiplier.

Record InitializeInstructionData : Type := mk_init {
  authority : MaybeNull;
  multiplier : PodF64
}.
#[export] Instance InitializeInstructionData_pod : Pod InitializeInstructionData.
Proof.
  refine (pod_iso (fun x => (authority x, multiplier x)) (fun '(a, b) => mk_init a b) _ _);
    solve_pod_iso.
Defined.

Record UpdateMultiplierInstructionData : Type := mk_update {
  update_multiplier : PodF64;
  effective_timestamp : I64
}.
#[export] Instance UpdateMultiplierInstructionData_pod : Pod UpdateMultiplierInstructionData.
Proof.
  refine (pod_iso (fun x => (update_multiplier x, effective_timestamp x))
            (fun '(a, b) => mk_update a b) _ _); solve_pod_iso.
Defined.

(** [f64::is_sign_positive] and [f64::is_normal], on the bits of the number:
    the sign bit, and an exponent field neither zero nor all ones. *)
Definition is_sign_positive (f : PodF64) : bool := le_read f <? 2 ^ 63.
Definition exponent_field (f : PodF64) : Z := Z.shiftr (le_read f) 52 mod 2 ^ 11.
Definition is_normal (f : PodF64) : bool :=
  negb (exponent_field f =? 0) && negb (exponent_field f =? 2 ^ 11 - 1).

Definition try_validate_multiplier (multiplier : PodF64) : Result ProgramError unit :=
  if is_sign_positive multiplier && is_normal multiplier then Ok tt
  else fail TokenError.InvalidScale.

Section processor.
Context `{RT : Runtime}.

Definition process_initialize (accounts : list AccountInfo) (authority : MaybeNull)
    (multiplier : PodF64) : M unit :=
  '(mint_account_info, _) ← lift (next_account_info accounts);
  initialize_extension PodMint ScaledUiAmountConfig mint_account_info (fun _ =>
    _ ← lift (try_validate_multiplier multiplier);
    mret (mk_sua authority multiplier (i64_new 0) multiplier)).

(** The fields after [process_update_multiplier], at time [now]. *)
Definition updated_multiplier (now : Z) (new_multiplier : PodF64) (effective_timestamp : I64)
    (extension : ScaledUiAmountConfig) : ScaledUiAmountConfig :=
  let multiplier :=
    if i64_get (sua_new_multiplier_effective_timestamp extension) <=? now
    then sua_new_multiplier extension else sua_multiplier extension in
  let int_effective_timestamp := i64_get effective_timestamp in
  let new_timestamp := if int_effective_timestamp <? 0 then i64_new 0 else effective_timestamp in
  let multiplier := if int_effective_timestamp <=? now then new_multiplier else multiplier in
  mk_sua (sua_authority extension) multiplier new_timestamp new_multiplier.

Definition process_update_multiplier (program_id : Address) (accounts : list AccountInfo)
    (new_multiplier : PodF64) (effective_timestamp : I64) : M unit :=
  update_mint_extension ScaledUiAmountConfig sua_authority TokenError.NoAuthorityExists
    (fun extension =>
      _ ← lift (try_validate_multiplier new_multiplier);
      clock ← lift rt_clock;
      mret (updated_multiplier (clock_unix_timestamp clock) new_multiplier effective_timestamp
              extension))
    program_id accounts.

Definition process_instruction (program_id : Address) (accounts : list AccountInfo)
    (input : list byte) : M unit :=
  _ ← lift (check_program_account program_id);
  instruction ← lift (decode_instruction_type (two_variants Initialize UpdateMultiplier) input);
  match instruction with
  | Initialize =>
      data ← lift (decode_instruction_data InitializeInstructionData input);
      process_initialize accounts (authority data) (multiplier data)
  | UpdateMultiplier =>
      data ← lift (decode_instruction_data UpdateMultiplierInstructionData input);
      process_update_multiplier program_id accounts (update_multiplier data)
        (effective_timestamp data)
  end.
End processor.
End scaled_ui_amount.

(** The pointers and the transfer hook share the shape of their data: an
    authority and an address, both nullable. *)
Record PairInstructionData : Type := mk_pair_data {
  data_authority : MaybeNull;
  data_address : MaybeNull
}.
#[export] Instance PairInstructionData_pod : Pod PairInstructionData.
Proof.
  refine (pod_iso (fun x => (data_authority x, data_address x))
            (fun '(a, b) => mk_pair_data a b) _ _); solve_pod_iso.
Defined.

Module PointerInstruction.
Inductive PointerInstruction : Type := Initialize | Update.
End PointerInstruction.

Section pointer_instruction.
Context `{RT : Runtime}.
Context (process_initialize : list AccountInfo -> MaybeNull -> MaybeNull -> M unit)
  (process_update : Address -> list AccountInfo -> MaybeNull -> M unit).

Definition process_pointer_instruction (program_id : Address) (accounts : list AccountInfo)
    (input : list byte) : M unit :=
  _ ← lift (check_program_account program_id);
  instruction ← lift (decode_instruction_type
    (two_variants PointerInstruction.Initialize PointerInstruction.Update) input);
  match instruction with
  | PointerInstruction.Initialize =>
      data ← lift (decode_instruction_data PairInstructionData input);
      process_initialize accounts (data_authority data) (data_address data)
  | PointerInstruction.Update =>
      address ← lift (decode_instruction_data MaybeNull input);
      process_update program_id accounts address
  end.

(** At least one of the two has to be given. *)
Definition authority_or_address (authority address : MaybeNull) : Result ProgramError unit :=
  fail_if (negb (bool_decide (is_Some (maybe_null_get authority))) &&
           negb (bool_decide (is_Some (maybe_null_get address)))) TokenError.InvalidInstruction.
End pointer_instruction.

Module transfer_hook.
Section processor.
Context `{RT : Runtime}.

Definition process_initialize (program_id : Address) (accounts : list AccountInfo)
    (authority transfer_hook_program_id : MaybeNull) : M unit :=
  '(mint_account_info, _) ← lift (next_account_info accounts);
  initialize_extension PodMint TransferHook mint_account_info (fun _ =>
    _ ← match maybe_null_get transfer_hook_program_id with
        | Some hook =>
            bail_if (bool_decide (hook = program_id)) ProgramError.IncorrectProgramId
        | None =>
            bail_if (negb (bool_decide (is_Some (maybe_null_get authority))))
              TokenError.InvalidInstruction
        end;
    mret (mk_th authority transfer_hook_program_id)).

Definition process_update (program_id : Address) (accounts : list AccountInfo)
    (new_program_id : MaybeNull) : M unit :=
  update_mint_extension TransferHook th_authority TokenError.NoAuthorityExists
    (fun extension =>
      _ ← match maybe_null_get new_program_id with
          | Some hook =>
              bail_if (bool_decide (hook = program_id)) ProgramError.IncorrectProgramId
          | None => mret tt
          end;
      mret (mk_th (th_authority extension) new_program_id))
    program_id accounts.

Definition process_instruction (program_id : Address) (accounts : list AccountInfo)
    (input : list byte) : M unit :=
  process_pointer_instruction (process_initialize program_id) process_update
    program_id accounts input.
End processor.
End transfer_hook.

Module metadata_pointer.
Section processor.
Context `{RT : Runtime}.

Definition process_initialize (accounts : list AccountInfo)
    (authority metadata_address : MaybeNull) : M unit :=
  '(mint_account_info, _) ← lift (next_account_info accounts);
  initialize_extension PodMint MetadataPointer mint_account_info (fun _ =>
    _ ← lift (authority_or_address authority metadata_address);
    mret (mk_mp authority metadata_address)).

Definition process_update (program_id : Address) (accounts : list AccountInfo)
    (new_metadata_address : MaybeNull) : M unit :=
  update_mint_extension MetadataPointer mp_authority TokenError.NoAuthorityExists
    (fun extension => mret (mk_mp (mp_authority extension) new_metadata_address))
    program_id accounts.

Definition process_instruction := process_pointer_instruction process_initialize process_update.
End processor.
End metadata_pointer.

Module group_pointer.
Section processor.
Context `{RT : Runtime}.

Definition process_initialize (accounts : list AccountInfo)
    (authority group_address : MaybeNull) : M unit :=
  '(mint_account_info, _) ← lift (next_account_info accounts);
  initialize_extension_with PodMint GroupPointer mint_account_info
    (lift (authority_or_address authority group_address))
    (fun _ _ => mret (mk_gp authority group_address)).

Definition process_update (program_id : Address) (accounts : list AccountInfo)
    (new_group_address : MaybeNull) : M unit :=
  update_mint_extension GroupPointer gp_authority TokenError.NoAuthorityExists
    (fun extension => mret (mk_gp (gp_authority extension) new_group_address))
    program_id accounts.

Definition process_instruction := process_pointer_instruction process_initialize process_update.
End processor.
End group_pointer.

Module group_member_pointer.
Section processor.
Context `{RT : Runtime}.

Definition process_initialize (accounts : list AccountInfo)
    (authority member_address : MaybeNull) : M unit :=
  '(mint_account_info, _) ← lift (next_account_info accounts);
  initialize_extension_with PodMint GroupMemberPointer mint_account_info
    (lift (authority_or_address authority member_address))
    (fun _ _ => mret (mk_gmp authority member_address)).

Definition process_update (program_id : Address) (accounts : list AccountInfo)
    (new_member_address : MaybeNull) : M unit :=
  update_mint_extension GroupMemberPointer gmp_authority TokenError.NoAuthorityExists
    (fun extension => mret (mk_gmp (gmp_authority extension) new_member_address))
    program_id accounts.

Definition process_instruction := process_pointer_instruction process_initialize process_update.
End processor.
End group_member_pointer.
