(* ===== verification/Fees.v ===== *)
(** * The transfer-fee processor

    [program/src/extension/transfer_fee/processor.rs] and
    [TransferFeeInstruction] of [interface/src/extension/transfer_fee/instruction.rs]:
    configuring the fee, and the two roads of withheld fees, from the accounts
    to the mint (harvest) and from the mint or the accounts to a destination
    (withdraw). *)
From S2P Require Import Prelude Bytes Errors Ids Runtime Pod ExtensionState Extension TlvTheory.
From S2P Require Import ViewTheory AccountLen TransferFee MonadTheory Ownership PodInstruction Initialize Settings Transfer.

(** ** Decoding *)

(** [TokenInstruction::unpack_pubkey_option] and its companions: the value and
    the rest of the input. *)
Definition split_at_bytes (n : nat) (input : list byte)
    : Result ProgramError (list byte * list byte) :=
  if (n <=? length input)%nat then Ok (take n input, drop n input)
  else fail TokenError.InvalidInstruction.

Definition unpack_pubkey (input : list byte) : Result ProgramError (Address * list byte) :=
  '(pk, rest) ← split_at_bytes 32 input; mret (bytes_of_list 32 pk, rest).
Definition unpack_u16 (input : list byte) : Result ProgramError (Z * list byte) :=
  '(bytes, rest) ← split_at_bytes 2 input; mret (from_le_bytes bytes, rest).
Definition unpack_u64 (input : list byte) : Result ProgramError (Z * list byte) :=
  '(bytes, rest) ← split_at_bytes 8 input; mret (from_le_bytes bytes, rest).
Definition unpack_u8 (input : list byte) : Result ProgramError (byte * list byte) :=
  match input with b :: rest => Ok (b, rest) | [] => fail TokenError.InvalidInstruction end.
Definition unpack_amount_decimals (input : list byte)
    : Result ProgramError (Z * byte * list byte) :=
  '(amount, rest) ← unpack_u64 input;
  '(decimals, rest) ← unpack_u8 rest;
  mret (amount, decimals, rest).

(** [TokenInstruction::unpack_pubkey_option]; [COption] is [option]. *)
Definition unpack_coption_pubkey (input : list byte)
    : Result ProgramError (option Address * list byte) :=
  match input with
  | x00 :: rest => Ok (None, rest)
  | x01 :: rest => '(pk, rest) ← unpack_pubkey rest; mret (Some pk, rest)
  | _ => fail TokenError.InvalidInstruction
  end.

Definition pack_coption_pubkey (value : option Address) : list byte :=
  match value with
  | Some key => x01 :: bytes_list key
  | None => [x00]
  end.

Module transfer_fee.

Inductive TransferFeeInstruction : Type :=
  | InitializeTransferFeeConfig (transfer_fee_config_authority withdraw_withheld_authority : option Address)
      (transfer_fee_basis_points maximum_fee : Z)
  | TransferCheckedWithFee (amount : Z) (decimals : byte) (fee : Z)
  | WithdrawWithheldTokensFromMint
  | WithdrawWithheldTokensFromAccounts (num_token_accounts : byte)
  | HarvestWithheldTokensToMint
  | SetTransferFee (transfer_fee_basis_points maximum_fee : Z).

Definition unpack (input : list byte) : Result ProgramError TransferFeeInstruction :=
  '(tag, rest) ← unpack_u8 input;
  match tag with
  | x00 =>
      '(transfer_fee_config_authority, rest) ← unpack_coption_pubkey rest;
      '(withdraw_withheld_authority, rest) ← unpack_coption_pubkey rest;
      '(transfer_fee_basis_points, rest) ← unpack_u16 rest;
      '(maximum_fee, _) ← unpack_u64 rest;
      mret (InitializeTransferFeeConfig transfer_fee_config_authority withdraw_withheld_authority
              transfer_fee_basis_points maximum_fee)
  | x01 =>
      '(amount, decimals, rest) ← unpack_amount_decimals rest;
      '(fee, _) ← unpack_u64 rest;
      mret (TransferCheckedWithFee amount decimals fee)
  | x02 => mret WithdrawWithheldTokensFromMint
  | x03 =>
      '(num_token_accounts, _) ← unpack_u8 rest;
      mret (WithdrawWithheldTokensFromAccounts num_token_accounts)
  | x04 => mret HarvestWithheldTokensToMint
  | x05 =>
      '(transfer_fee_basis_points, rest) ← unpack_u16 rest;
      '(maximum_fee, _) ← unpack_u64 rest;
      mret (SetTransferFee transfer_fee_basis_points maximum_fee)
  | _ => fail TokenError.InvalidInstruction
  end.

Definition pack (i : TransferFeeInstruction) : list byte :=
  match i with
  | InitializeTransferFeeConfig transfer_fee_config_authority withdraw_withheld_authority
      transfer_fee_basis_points maximum_fee =>
      [x00] ++ pack_coption_pubkey transfer_fee_config_authority ++
      pack_coption_pubkey withdraw_withheld_authority ++
      to_le_bytes 2 transfer_fee_basis_points ++ to_le_bytes 8 maximum_fee
  | TransferCheckedWithFee amount decimals fee =>
      [x01] ++ to_le_bytes 8 amount ++ [decimals] ++ to_le_bytes 8 fee
  | WithdrawWithheldTokensFromMint => [x02]
  | WithdrawWithheldTokensFromAccounts num_token_accounts => [x03; num_token_accounts]
  | HarvestWithheldTokensToMint => [x04]
  | SetTransferFee transfer_fee_basis_points maximum_fee =>
      [x05] ++ to_le_bytes 2 transfer_fee_basis_points ++ to_le_bytes 8 maximum_fee
  end.

(** ** Configuration *)

Section processor.
Context `{RT : Runtime}.

Definition set_withheld (amount : Z) (e : TransferFeeConfig) : TransferFeeConfig :=
  mk_tfc (tfc_transfer_fee_config_authority e) (tfc_withdraw_withheld_authority e)
    (u64_new amount) (tfc_older_transfer_fee e) (tfc_newer_transfer_fee e).

Definition process_initialize_transfer_fee_config (accounts : list AccountInfo)
    (transfer_fee_config_authority withdraw_withheld_authority : option Address)
    (transfer_fee_basis_points maximum_fee : Z) : M unit :=
  '(mint_account_info, _) ← lift (next_account_info accounts);
  initialize_extension PodMint TransferFeeConfig mint_account_info (fun _ =>
    config_authority ← lift (ok_or (maybe_null_try_from transfer_fee_config_authority)
                               ProgramError.InvalidArgument);
    withheld_authority ← lift (ok_or (maybe_null_try_from withdraw_withheld_authority)
                                 ProgramError.InvalidArgument);
    _ ← bail_if (MAX_FEE_BASIS_POINTS <? transfer_fee_basis_points)
          TokenError.TransferFeeExceedsMaximum;
    clock ← lift rt_clock;
    let transfer_fee := mk_tf (u64_new (clock_epoch clock)) (u64_new maximum_fee)
                          (u16_new transfer_fee_basis_points) in
    mret (mk_tfc config_authority withheld_authority (u64_new 0) transfer_fee transfer_fee)).

(** The configuration after [process_set_transfer_fee] in epoch [epoch]. *)
Definition updated_transfer_fee (epoch transfer_fee_basis_points maximum_fee : Z)
    (e : TransferFeeConfig) : TransferFeeConfig :=
  let older :=
    if u64_get (tf_epoch (tfc_newer_transfer_fee e)) <=? epoch
    then tfc_newer_transfer_fee e else tfc_older_transfer_fee e in
  let newer_fee_start_epoch := u64_saturating_add epoch 2 in
  mk_tfc (tfc_transfer_fee_config_authority e) (tfc_withdraw_withheld_authority e)
    (tfc_withheld_amount e) older
    (mk_tf (u64_new newer_fee_start_epoch) (u64_new maximum_fee)
       (u16_new transfer_fee_basis_points)).

Definition process_set_transfer_fee (program_id : Address) (accounts : list AccountInfo)
    (transfer_fee_basis_points maximum_fee : Z) : M unit :=
  update_mint_extension TransferFeeConfig tfc_transfer_fee_config_authority
    TokenError.NoAuthorityExists
    (fun extension =>
      _ ← bail_if (MAX_FEE_BASIS_POINTS <? transfer_fee_basis_points)
            TokenError.TransferFeeExceedsMaximum;
      clock ← lift rt_clock;
      mret (updated_transfer_fee (clock_epoch clock) transfer_fee_basis_points maximum_fee
              extension))
    program_id accounts.

(** ** Withheld fees *)

Definition process_withdraw_withheld_tokens_from_mint (program_id : Address)
    (accounts : list AccountInfo) : M unit :=
  '(mint_account_info, iter) ← lift (next_account_info accounts);
  '(destination_account_info, iter) ← lift (next_account_info iter);
  '(authority_info, signers) ← lift (next_account_info iter);
  authority_info_data_len ← data_len [] authority_info;
  _ ← check_owner mint_account_info;
  _ ← check_owner destination_account_info;
  mint_data ← borrow_mut [] mint_account_info;
  mint_ ← lift (unpack_mut PodMint mint_data);
  '(extension, put) ← lift (get_extension_mut TransferFeeConfig mint_);
  authority ← lift (ok_or (maybe_null_get (tfc_withdraw_withheld_authority extension))
                      (TokenError.NoAuthorityExists : ProgramError));
  _ ← validate_owner [Mut (key mint_account_info)] program_id authority authority_info
        authority_info_data_len signers;
  destination_account_data ← borrow_mut [Mut (key mint_account_info)] destination_account_info;
  destination_account ← lift (unpack_mut PodAccount destination_account_data);
  _ ← bail_if (negb (bool_decide (mint (base destination_account) = key mint_account_info)))
        TokenError.MintMismatch;
  _ ← bail_if (is_frozen (base destination_account)) TokenError.AccountFrozen;
  let withheld_amount := u64_get (tfc_withheld_amount extension) in
  new_amount ← lift (ok_or (u64_checked_add (u64_get (amount (base destination_account)))
                               withheld_amount) (TokenError.Overflow : ProgramError));
  _ ← write_data mint_account_info (repack (put (set_withheld 0 extension)));
  write_data destination_account_info
    (repack (with_base (set_amount new_amount (base destination_account)) destination_account)).

(** [harvest_from_account]: the errors are token errors, which the callers
    log and skip. *)
Definition harvest_from_account (held : list Borrow) (mint_key : Address)
    (token_account_info : AccountInfo) : M Z :=
  token_account_data ← borrow_mut held token_account_info;
  token_account ← lift (map_err (fun _ => token_error_into TokenError.InvalidState)
                          (Extension.unpack_mut PodAccount token_account_data));
  _ ← bail_if (negb (bool_decide (mint (base token_account) = mint_key))) TokenError.MintMismatch;
  owner ← info_owner token_account_info;
  _ ← lift (map_err (fun _ => token_error_into TokenError.InvalidState)
              (check_program_account owner));
  '(extension, put) ← lift (map_err (fun _ => token_error_into TokenError.InvalidState)
                              (get_extension_mut TransferFeeAmount token_account));
  _ ← write_data token_account_info (repack (put (mk_tfa (u64_new 0))));
  mret (u64_get (tfa_withheld_amount extension)).

(** [match m { Ok(a) => Some(a), Err(e) => { msg!(...); None } }]. *)
Definition attempt {A} (m : M A) : M (option A) := fun w =>
  match m w with
  | Ok (a, w') => Ok (Some a, w')
  | Err _ => Ok (None, w)
  | Panic => Panic
  end.

(** The loop of [process_harvest_withheld_tokens_to_mint]: the amount withheld
    on the mint after each account. *)
Fixpoint harvest_all (mint_key : Address) (withheld : Z) (token_account_infos : list AccountInfo)
    : M Z :=
  match token_account_infos with
  | [] => mret withheld
  | token_account_info :: rest =>
      harvested ← attempt (harvest_from_account [Mut mint_key] mint_key token_account_info);
      match harvested with
      | Some amount =>
          withheld ← lift (ok_or (u64_checked_add withheld amount)
                             (TokenError.Overflow : ProgramError));
          harvest_all mint_key withheld rest
      | None => harvest_all mint_key withheld rest
      end
  end.

Definition process_harvest_withheld_tokens_to_mint (accounts : list AccountInfo) : M unit :=
  '(mint_account_info, token_account_infos) ← lift (next_account_info accounts);
  _ ← check_owner mint_account_info;
  mint_data ← borrow_mut [] mint_account_info;
  mint ← lift (unpack_mut PodMint mint_data);
  '(extension, put) ← lift (get_extension_mut TransferFeeConfig mint);
  withheld ← harvest_all (key mint_account_info) (u64_get (tfc_withheld_amount extension))
    token_account_infos;
  write_data mint_account_info (repack (put (set_withheld withheld extension))).

(** The loop of [process_withdraw_withheld_tokens_from_accounts], over the
    destination's view. *)
Fixpoint withdraw_all (mint_key : Address) (destination_key : Address)
    (destination_account : PodStateMut PodAccount) (account_infos : list AccountInfo)
    : M (PodStateMut PodAccount) :=
  match account_infos with
  | [] => mret destination_account
  | account_info :: rest =>
      let credit (amount_ : Z) (destination_account : PodStateMut PodAccount) :=
        new_amount ← lift (ok_or (u64_checked_add (u64_get (amount (base destination_account)))
                                     amount_) (TokenError.Overflow : ProgramError));
        withdraw_all mint_key destination_key
          (with_base (set_amount new_amount (base destination_account)) destination_account) rest in
      if bool_decide (key account_info = destination_key) then
        '(extension, put) ← lift (map_err (fun _ => token_error_into TokenError.InvalidState)
                                    (get_extension_mut TransferFeeAmount destination_account));
        credit (u64_get (tfa_withheld_amount extension)) (put (mk_tfa (u64_new 0)))
      else
        harvested ← attempt (harvest_from_account [Shared mint_key; Mut destination_key] mint_key
                               account_info);
        match harvested with
        | Some amount => credit amount destination_account
        | None => withdraw_all mint_key destination_key destination_account rest
        end
  end.

Definition process_withdraw_withheld_tokens_from_accounts (program_id : Address)
    (accounts : list AccountInfo) (num_token_accounts : byte) : M unit :=
  '(mint_account_info, iter) ← lift (next_account_info accounts);
  '(destination_account_info, iter) ← lift (next_account_info iter);
  '(authority_info, account_infos) ← lift (next_account_info iter);
  authority_info_data_len ← data_len [] authority_info;
  let num_signers := (length account_infos - Z.to_nat (u8_to_Z num_token_accounts))%nat in
  _ ← check_owner mint_account_info;
  _ ← check_owner destination_account_info;
  mint_data ← borrow [] mint_account_info;
  mint_ ← lift (Extension.unpack PodMint mint_data);
  extension ← lift (get_extension TransferFeeConfig mint_);
  authority ← lift (ok_or (maybe_null_get (tfc_withdraw_withheld_authority extension))
                      (TokenError.NoAuthorityExists : ProgramError));
  _ ← validate_owner [Shared (key mint_account_info)] program_id authority authority_info
        authority_info_data_len (take num_signers account_infos);
  destination_account_data ← borrow_mut [Shared (key mint_account_info)] destination_account_info;
  destination_account ← lift (unpack_mut PodAccount destination_account_data);
  _ ← bail_if (negb (bool_decide (mint (base destination_account) = key mint_account_info)))
        TokenError.MintMismatch;
  _ ← bail_if (is_frozen (base destination_account)) TokenError.AccountFrozen;
  destination_account ← withdraw_all (key mint_account_info) (key destination_account_info)
    destination_account (drop num_signers account_infos);
  write_data destination_account_info (repack destination_account).

Definition process_instruction (program_id : Address) (accounts : list AccountInfo)
    (input : list byte) : M unit :=
  instruction ← lift (unpack input);
  _ ← lift (check_program_account program_id);
  match instruction with
  | InitializeTransferFeeConfig transfer_fee_config_authority withdraw_withheld_authority
      transfer_fee_basis_points maximum_fee =>
      process_initialize_transfer_fee_config accounts transfer_fee_config_authority
        withdraw_withheld_authority transfer_fee_basis_points maximum_fee
  | TransferCheckedWithFee amount decimals fee =>
      process_transfer program_id accounts amount (TransferInstruction.CheckedWithFee decimals fee)
  | WithdrawWithheldTokensFromMint =>
      process_withdraw_withheld_tokens_from_mint program_id accounts
  | WithdrawWithheldTokensFromAccounts num_token_accounts =>
      process_withdraw_withheld_tokens_from_accounts program_id accounts num_token_accounts
  | HarvestWithheldTokensToMint => process_harvest_withheld_tokens_to_mint accounts
  | SetTransferFee transfer_fee_basis_points maximum_fee =>
      process_set_transfer_fee program_id accounts transfer_fee_basis_points maximum_fee
  end.

End processor.
End transfer_fee.
