(* ===== verification/FeesTheory.v ===== *)
(** * Withheld fees are moved, never made

    Harvesting and withdrawing withheld transfer fees keep every mint's tokens
    in circulation and recorded supply, and say where the fees went; changing
    the fee and the interest rate. *)
From S2P Require Import Prelude Bytes Errors Ids Runtime Pod ExtensionState Extension TlvTheory.
From S2P Require Import ViewTheory AccountLen TransferFee MonadTheory Ownership Ledger Transfer.
From S2P Require Import PodInstruction Initialize Settings Fees.
Import transfer_fee.

Section fees.
Context `{RT : Runtime}.

(** ** One account *)

(** The view at [k] when the token program owns the account. *)
Definition token_account (w : World) (k : Address) (a : PodStateMut PodAccount) : Prop :=
  cell_owner (cell w k) = id /\ unpack_mut PodAccount (cell_data (cell w k)) = Ok a.

Lemma withheld_put st e put v :
  get_extension_mut TransferFeeAmount st = Ok (e, put) ->
  withheld st = u64_get (tfa_withheld_amount e) /\ withheld (put v) = u64_get (tfa_withheld_amount v).
Proof.
  intros Hg. split.
  - apply get_extension_mut_place in Hg as [Hg _]. unfold withheld. by rewrite Hg.
  - unfold withheld. by rewrite (get_put_mut _ _ _ _ v Hg).
Qed.

Lemma config_withheld_put st e put v :
  get_extension_mut TransferFeeConfig st = Ok (e, put) ->
  mint_withheld st = u64_get (tfc_withheld_amount e) /\
  mint_withheld (put v) = u64_get (tfc_withheld_amount v).
Proof.
  intros Hg. split.
  - apply get_extension_mut_place in Hg as [Hg _]. unfold mint_withheld. by rewrite Hg.
  - unfold mint_withheld. by rewrite (get_put_mut _ _ _ _ v Hg).
Qed.

Lemma u64_get_0 : u64_get (u64_new 0) = 0.
Proof. by vm_compute. Qed.

(** What a successful harvest of one account did. *)
Definition harvested (mint_key k : Address) (n : Z) (w w' : World) : Prop :=
  exists st st', token_account w k st /\ mint (base st) = mint_key /\
    has_extension TransferFeeAmount st = true /\ withheld st = n /\
    replaces st st' /\ base st' = base st /\ has_extension TransferFeeAmount st' = true /\
    withheld st' = 0 /\ w' = store k st' w.

Lemma harvest_from_account_Ok held mint_key info n w w' :
  harvest_from_account held mint_key info w = Ok (n, w') ->
  existsb (conflicts_mut (key info)) held = false /\ harvested mint_key (key info) n w w'.
Proof.
  unfold harvest_from_account. intros H. m_inv.
  repeat match goal with H : map_err _ _ = Ok _ |- _ => apply map_err_Ok in H end.
  split; [done|].
  match goal with H : check_program_account _ = Ok _ |- _ => apply check_program_account_Ok in H end.
  match goal with H : get_extension_mut _ _ = Ok _ |- _ => rename H into Hg end.
  pose proof (withheld_put _ _ _ (mk_tfa (u64_new 0)) Hg) as [Ew Ew'].
  pose proof (put_mut_same_shape _ _ _ _ (mk_tfa (u64_new 0)) Hg) as Hs.
  eexists _, _. split; [by split|]. split; [done|]. split.
  { apply get_extension_mut_place in Hg as [Hg _]. unfold has_extension. by rewrite Hg. }
  split; [done|]. split; [by eapply same_shape_replaces|]. split; [apply Hs|].
  split; [unfold has_extension; by rewrite (get_put_mut _ _ _ _ _ Hg)|].
  rewrite Ew'. cbn [tfa_withheld_amount]. by rewrite u64_get_0.
Qed.

Lemma attempt_Ok {A} (m : M A) w o w' :
  attempt m w = Ok (o, w') <->
  (exists a, o = Some a /\ m w = Ok (a, w')) \/ (o = None /\ w' = w /\ exists e, m w = Err e).
Proof. unfold attempt. destruct (m w) as [[a w1]|e|]; naive_solver. Qed.

Lemma harvested_sums mint_key k n w w' m :
  harvested mint_key k n w w' ->
  circulation m w' = circulation m w - (if bool_decide (mint_key = m) then n else 0) /\
  supply_of m w' = supply_of m w.
Proof.
  intros (st & st' & [Ho Hu] & Em & _ & En & Hr & Eb & He' & E0 & ->).
  rewrite (circulation_store_account m k w Ho st st') by (try done; by rewrite Eb).
  rewrite (supply_store_account m k w Ho st st') by done. split; [|done].
  rewrite Em. unfold account_tokens. rewrite Eb, En, E0. case_bool_decide; lia.
Qed.

(** An account after [k] was harvested. *)
Lemma harvested_account mint_key k n w w' k' a :
  harvested mint_key k n w w' -> token_account w k' a ->
  exists a', token_account w' k' a' /\ base a' = base a /\
    has_extension TransferFeeAmount a' = has_extension TransferFeeAmount a /\
    withheld a' = (if bool_decide (k' = k) then 0 else withheld a).
Proof.
  intros (st & st' & [Ho Hu] & Em & He & En & Hr & Eb & He' & E0 & ->) [Ho' Hu'].
  case_bool_decide as Ek.
  - subst k'. rewrite Hu in Hu'. injection Hu' as <-. exists st'. split.
    { split; [by rewrite owner_store|]. rewrite data_store. by eapply replaces_unpack. }
    split; [done|]. by rewrite He, He'.
  - exists a. split; [|done]. split; rewrite cell_store_ne by done; done.
Qed.

(** ** The harvest loop *)

(** The accounts of [infos] that a harvest for [mint_key] empties. *)
Definition is_harvested (mint_key : Address) (infos : list AccountInfo) (k : Address)
    (a : PodStateMut PodAccount) : bool :=
  bool_decide (k ∈ key <$> infos) && bool_decide (mint (base a) = mint_key) &&
  has_extension TransferFeeAmount a.

(** What a sequence of harvests did: every account keeps its base, and the
    listed ones lose what they withheld. *)
Definition harvest_effect (mint_key : Address) (infos : list AccountInfo) (w w' : World) : Prop :=
  forall k a, token_account w k a ->
    exists a', token_account w' k a' /\ base a' = base a /\
      has_extension TransferFeeAmount a' = has_extension TransferFeeAmount a /\
      withheld a' = (if is_harvested mint_key infos k a then 0 else withheld a).

(** A failed harvest means the account is none of the mint's with the
    extension. *)
Lemma harvest_from_account_Err held mint_key info w e a :
  harvest_from_account held mint_key info w = Err e ->
  token_account w (key info) a ->
  mint (base a) = mint_key -> has_extension TransferFeeAmount a = true -> False.
Proof.
  intros H [Ho Hu] Em He. unfold harvest_from_account in H.
  unfold borrow_mut in H. destruct (existsb _ _); [done|].
  unfold mbind, M_bind, data_of, get_cell, mret, M_ret, lift in H. cbn in H.
  unfold mbind, M_bind, mret, M_ret in H. rewrite Hu in H. cbn in H.
  unfold bail_if, lift in H. rewrite bool_decide_true in H by done. cbn in H.
  unfold info_owner, get_cell, mbind, M_bind, mret, M_ret in H. rewrite Ho in H. cbn in H.
  unfold has_extension, get_extension_mut in *.
  destruct (get_extension TransferFeeAmount a) as [v| |] eqn:Hv; [|done..].
  apply get_extension_Ok, get_extension_bytes_inv in Hv as (_ & es & tail & _ & _ & _ & _ & Hi).
  change (get_tlv_data a) with (tlv_data a) in Hi. unfold mbind, Result_bind in H.
  rewrite Hi in H. cbn in H. done.
Qed.

Lemma harvest_from_account_Err_free held mint_key info w e :
  harvest_from_account held mint_key info w = Err e ->
  existsb (conflicts_mut (key info)) held = false.
Proof.
  unfold harvest_from_account, borrow_mut. destruct (existsb _ _); [|done].
  unfold mbind, M_bind. done.
Qed.

(** What one turn of either loop did. *)
Definition harvest_step (mint_key : Address) (infos : list AccountInfo) (n : Z) (w w' : World)
    : Prop :=
  harvest_effect mint_key infos w w' /\
  (forall k, k ∉ key <$> infos -> cell w' k = cell w k) /\
  (forall k, cell_owner (cell w' k) = cell_owner (cell w k)) /\
  forall m, circulation m w' = circulation m w - (if bool_decide (mint_key = m) then n else 0) /\
            supply_of m w' = supply_of m w.

Lemma attempt_harvest_Ok held mint_key info o w w' :
  attempt (harvest_from_account held mint_key info) w = Ok (o, w') ->
  existsb (conflicts_mut (key info)) held = false /\ is_u64 (default 0 o) /\
  harvest_step mint_key [info] (default 0 o) w w'.
Proof.
  rewrite attempt_Ok. intros [(n & -> & H)|(-> & -> & e & H)].
  - apply harvest_from_account_Ok in H as [Hf H]. split; [done|]. split.
    { destruct H as (st & _ & _ & _ & _ & <- & _). apply withheld_range. }
    split; [|split; [|split; [|intros m; by apply (harvested_sums _ _ _ _ _ m) in H]]].
    + intros k a Hk. destruct (harvested_account _ _ _ _ _ _ _ H Hk) as (a' & ? & ? & ? & E).
      exists a'. do 3 (split; [done|]). rewrite E. unfold is_harvested. simpl.
      case_bool_decide as Ek; [subst k|by rewrite bool_decide_false by set_solver].
      destruct H as (st & st' & [_ Hu] & Em & He & _). destruct Hk as [_ Hk].
      assert (a = st) as -> by congruence. rewrite He, !bool_decide_true; [done|done|set_solver].
    + intros k Hk. destruct H as (st & st' & _ & _ & _ & _ & _ & _ & _ & _ & ->).
      apply cell_store_ne. set_solver.
    + intros k. destruct H as (st & st' & _ & _ & _ & _ & _ & _ & _ & _ & ->). apply owner_store.
  - split; [by eapply harvest_from_account_Err_free|]. simpl. split; [vm_compute; split; discriminate|].
    split; [|split; [done|split; [done|intros m; case_bool_decide; split; lia]]].
    intros k a Hk. exists a. do 3 (split; [done|]). unfold is_harvested. simpl.
    case_bool_decide as Ek; [|done]. assert (k = key info) as -> by set_solver.
    case_bool_decide as Em; [|done]. destruct (has_extension _ _) eqn:He; [|done].
    by destruct (harvest_from_account_Err _ _ _ _ _ _ H Hk Em He).
Qed.

Lemma harvest_step_trans mint_key infos infos' n n' w w1 w' :
  harvest_step mint_key infos n w w1 -> harvest_step mint_key infos' n' w1 w' ->
  harvest_step mint_key (infos ++ infos') (n + n') w w'.
Proof.
  intros (He & Hc & Ho & Hs) (He' & Hc' & Ho' & Hs').
  split; [|split; [|split]].
  - intros k a Hk. destruct (He k a Hk) as (a1 & Hk1 & Eb & Ex & Ew).
    destruct (He' k a1 Hk1) as (a2 & Hk2 & Eb' & Ex' & Ew'). exists a2. split; [done|].
    split; [congruence|]. split; [congruence|]. rewrite Ew', Ew. unfold is_harvested.
    rewrite Eb, Ex, fmap_app.
    rewrite (bool_decide_ext (k ∈ _ ++ _) _ (elem_of_app _ _ _)), bool_decide_or.
    destruct (bool_decide (k ∈ key <$> infos)), (bool_decide (k ∈ key <$> infos')),
      (bool_decide (mint (base a) = mint_key)), (has_extension TransferFeeAmount a); reflexivity.
  - intros k Hk. rewrite fmap_app in Hk. rewrite Hc', Hc by set_solver. done.
  - intros k. by rewrite Ho', Ho.
  - intros m. destruct (Hs m) as [Hs1 Hs2], (Hs' m) as [Hs1' Hs2']. rewrite Hs1', Hs1, Hs2', Hs2.
    split; [case_bool_decide; lia|done].
Qed.

Lemma harvest_step_refl mint_key w : harvest_step mint_key [] 0 w w.
Proof.
  split; [|split; [done|split; [done|intros m; case_bool_decide; split; lia]]].
  intros k a Hk. by exists a.
Qed.

Lemma harvest_all_Ok mint_key infos n n' w w' :
  harvest_all mint_key n infos w = Ok (n', w') -> is_u64 n ->
  (mint_key ∉ key <$> infos) /\ n <= n' /\ is_u64 n' /\ harvest_step mint_key infos (n' - n) w w'.
Proof.
  revert n w. induction infos as [|i infos IH]; intros n w H Hn; simpl in H.
  { m_inv. split; [set_solver|]. split; [lia|]. split; [done|].
    rewrite Z.sub_diag. apply harvest_step_refl. }
  m_inv. apply attempt_harvest_Ok in Hm as (Hf & Ha & Hs).
  assert (key i <> mint_key) as Hi.
  { cbn in Hf. rewrite orb_false_r in Hf. by apply bool_decide_eq_false in Hf. }
  destruct a as [a|]; m_inv; simpl in Ha, Hs.
  - apply IH in H as (Hk & Hle & Hn' & Hs'); [|unfold is_u64 in *; lia].
    split; [set_solver|]. unfold is_u64 in *. split; [lia|]. split; [lia|].
    pose proof (harvest_step_trans _ _ _ _ _ _ _ _ Hs Hs') as Ht.
    by replace (n' - n) with (a + (n' - (n + a))) by lia.
  - apply IH in H as (Hk & Hle & Hn' & Hs'); [|done].
    split; [set_solver|]. do 2 (split; [done|]).
    exact (harvest_step_trans _ _ _ _ _ _ _ _ Hs Hs').
Qed.

(** ** The withdrawal loop *)

(** The sources other than the destination. *)
Definition other_sources (dest_key : Address) (infos : list AccountInfo) : list AccountInfo :=
  filter (fun i => key i <> dest_key) infos.

(** The destination's view after it was credited. *)
Definition credited (infos : list AccountInfo) (dest_key : Address) (n : Z)
    (d d' : PodStateMut PodAccount) : Prop :=
  replaces d d' /\ u64_get (amount (base d)) <= u64_get (amount (base d')) /\
  base d' = set_amount (u64_get (amount (base d'))) (base d) /\
  withheld d' = (if bool_decide (dest_key ∈ key <$> infos) then 0 else withheld d) /\
  account_tokens d' = account_tokens d + n.

Lemma set_amount_twice a b x : set_amount a (set_amount b x) = set_amount a x.
Proof. done. Qed.

Lemma set_amount_same x : set_amount (u64_get (amount x)) x = x.
Proof. destruct x. unfold set_amount. simpl. by rewrite u64_new_get. Qed.

Lemma credited_refl k d : is_initialized (base d) = true -> credited [] k 0 d d.
Proof.
  intros Hi. split; [done|]. split; [done|]. split; [by rewrite set_amount_same|]. split; [done|]. lia.
Qed.

Lemma credited_trans infos infos' k n n' d d1 d' :
  credited infos k n d d1 -> credited infos' k n' d1 d' -> credited (infos ++ infos') k (n + n') d d'.
Proof.
  intros (Hr & Hl & Eb & Ew & Et) (Hr' & Hl' & Eb' & Ew' & Et').
  split; [by eapply replaces_trans|]. split; [lia|]. split.
  { etrans; [exact Eb'|]. rewrite Eb at 1. apply set_amount_twice. }
  split; [|lia]. rewrite Ew', Ew, fmap_app.
  rewrite (bool_decide_ext (k ∈ _ ++ _) _ (elem_of_app _ _ _)), bool_decide_or.
  by destruct (bool_decide (k ∈ key <$> infos)), (bool_decide (k ∈ key <$> infos')).
Qed.

Lemma credited_amount infos k d d1 n :
  same_shape d d1 -> is_initialized (base d) = true ->
  is_u64 (u64_get (amount (base d)) + n) -> 0 <= n ->
  withheld d1 = (if bool_decide (k ∈ key <$> infos) then 0 else withheld d) ->
  credited infos k (n + (withheld d1 - withheld d)) d
    (with_base (set_amount (u64_get (amount (base d1)) + n) (base d1)) d1).
Proof.
  intros (Eb & Ep & Ea & El) Hi Hu Hn Ew. rewrite Eb.
  split; [by split|]. simpl. rewrite u64_get_new by done. split; [lia|].
  split; [done|]. split; [by rewrite withheld_with_base|].
  unfold account_tokens. rewrite withheld_with_base. simpl. rewrite u64_get_new by done. lia.
Qed.

(** A destination that is also a source is credited what it withheld itself. *)
Lemma withdraw_all_Ok mint_key dk d infos w d' w' :
  withdraw_all mint_key dk d infos w = Ok (d', w') -> is_initialized (base d) = true ->
  (mint_key ∉ key <$> other_sources dk infos) /\
  exists n, harvest_step mint_key (other_sources dk infos) n w w' /\ credited infos dk n d d'.
Proof.
  revert d w. induction infos as [|i infos IH]; intros d w H Hi.
  { simpl in H. m_inv. split; [set_solver|]. exists 0.
    split; [apply harvest_step_refl|by apply credited_refl]. }
  cbn [withdraw_all] in H. unfold other_sources. rewrite filter_cons.
  destruct (decide (key i = dk)) as [Ek|Ek].
  - rewrite bool_decide_true in H by done. rewrite decide_False by tauto. m_inv.
    match goal with H : map_err _ _ = Ok _ |- _ => apply map_err_Ok in H; rename H into Hg end.
    pose proof (put_mut_same_shape _ _ _ _ (mk_tfa (u64_new 0)) Hg) as Hs.
    destruct (withheld_put _ _ _ (mk_tfa (u64_new 0)) Hg) as [Ew Ew0].
    cbn [tfa_withheld_amount] in Ew0. rewrite u64_get_0 in Ew0.
    match type of H with withdraw_all _ _ ?d1 _ _ = _ =>
      assert (credited [i] dk 0 d d1) as Hc end.
    { pose proof Hs as (Eb & _). rewrite Eb in *. rewrite <- Ew in *.
      pose proof (withheld_range d) as Hw. unfold is_u64 in Hw.
      pose proof (credited_amount [i] dk d _ (withheld d) Hs Hi) as Hc.
      rewrite Eb, Ew0 in Hc. replace (withheld d + (0 - withheld d)) with 0 in Hc by lia.
      apply Hc; [done|lia|]. rewrite bool_decide_true; [done|set_solver]. }
    destruct (IH _ _ H) as (Hk & n & Hst & Hc'); [apply Hc|]. split; [done|]. exists n.
    split; [done|]. exact (credited_trans [i] infos dk 0 n d _ d' Hc Hc').
  - rewrite bool_decide_false in H by done. rewrite decide_True by done.
    m_inv. apply attempt_harvest_Ok in Hm as (Hf & Ha & Hs). cbn in Hf.
    apply orb_false_iff in Hf as [Hf _]. apply bool_decide_eq_false in Hf.
    destruct a as [a|]; m_inv; simpl in Ha, Hs.
    + match type of H with withdraw_all _ _ ?d1 _ _ = _ =>
        assert (credited [i] dk a d d1) as Hc end.
      { pose proof (credited_amount [i] dk d d a) as Hc. rewrite Z.sub_diag, Z.add_0_r in Hc.
        apply Hc; [by split|done|done|unfold is_u64 in Ha; lia|].
        rewrite bool_decide_false; [done|set_solver]. }
      destruct (IH _ _ H) as (Hk & n & Hst & Hc'); [apply Hc|].
      split; [rewrite fmap_cons; set_solver|]. exists (a + n). split.
      * exact (harvest_step_trans _ _ _ _ _ _ _ _ Hs Hst).
      * exact (credited_trans [i] infos dk a n d _ d' Hc Hc').
    + destruct (IH _ _ H Hi) as (Hk & n & Hst & Hc').
      split; [rewrite fmap_cons; set_solver|]. exists n. split.
      * exact (harvest_step_trans _ _ _ 0 _ _ _ _ Hs Hst).
      * pose proof (credited_refl dk d Hi) as Hc.
        pose proof (credited_trans [] infos dk 0 n d d d' Hc Hc') as (? & ? & ? & Ew & ?).
        do 3 (split; [done|]). split; [|done]. rewrite Ew.
        rewrite (bool_decide_ext (dk ∈ key <$> i :: infos) (dk ∈ key <$> infos)); [done|].
        rewrite fmap_cons. set_solver.
Qed.
Lemma elem_of_other_sources k dk infos :
  k ∈ key <$> other_sources dk infos <-> k <> dk /\ k ∈ key <$> infos.
Proof.
  unfold other_sources. rewrite !list_elem_of_fmap. setoid_rewrite list_elem_of_filter. naive_solver.
Qed.

Lemma is_harvested_other mint_key dk infos k a :
  k <> dk -> is_harvested mint_key (other_sources dk infos) k a = is_harvested mint_key infos k a.
Proof.
  intros Hk. unfold is_harvested. do 2 f_equal. apply bool_decide_ext.
  rewrite elem_of_other_sources. tauto.
Qed.
End fees.

(** ** Properties *)

(** harvesting moves what the listed accounts of the mint withhold to the
    mint: every token account keeps its balance and every field of its base,
    the listed accounts of that mint that have the extension end with nothing
    withheld, the others are skipped, and each mint's tokens in circulation and
    recorded supply stay what they were. *)
Theorem process_harvest_conserves `{RT : Runtime} accounts w w' :
  process_harvest_withheld_tokens_to_mint accounts w = Ok (tt, w') ->
  exists mi infos mt mt',
    accounts = mi :: infos /\
    unpack_mut PodMint (cell_data (cell w (key mi))) = Ok mt /\
    unpack_mut PodMint (cell_data (cell w' (key mi))) = Ok mt' /\
    base mt' = base mt /\ mint_withheld mt <= mint_withheld mt' /\
    harvest_effect (key mi) infos w w' /\
    (forall k, k <> key mi -> k ∉ key <$> infos -> cell w' k = cell w k) /\
    forall m, circulation m w' = circulation m w /\ supply_of m w' = supply_of m w.
Proof.
  unfold process_harvest_withheld_tokens_to_mint. intros H. m_inv.
  match goal with H : get_extension_mut _ _ = Ok _ |- _ => rename H into Hg end.
  match goal with H : unpack_mut _ _ = Ok ?x |- _ => rename H into Hu; rename x into mt end.
  match goal with H : harvest_all _ _ _ _ = Ok (?x, ?y) |- _ =>
    rename H into Hh; rename x into n; rename y into w1 end.
  match goal with |- context [p (set_withheld n ?t)] => set (e := t) in * end.
  pose proof (put_mut_same_shape _ _ _ _ (set_withheld n e) Hg) as Hs.
  destruct (config_withheld_put _ _ _ (set_withheld n e) Hg) as [Ew Ew'].
  apply harvest_all_Ok in Hh as (Hk & Hle & Hn & He & Hc & Ho & Hsum); [|apply u64_get_range].
  cbn [set_withheld tfc_withheld_amount] in Ew'. rewrite u64_get_new in Ew' by done.
  assert (cell w1 (key a) = cell w (key a)) as Ea by by apply Hc.
  assert (replaces mt (p (set_withheld n e))) as Hr by by eapply same_shape_replaces.
  eexists _, _, mt, (p (set_withheld n e)). split; [done|]. split; [done|].
  split; [rewrite data_store; by eapply replaces_unpack|]. split; [apply Hs|]. split; [lia|].
  split.
  { intros k x Hx. destruct (He k x Hx) as (x' & [Hox Hux] & Hrest). exists x'. split; [|done].
    split; [by rewrite owner_store|]. rewrite cell_store_ne; [done|].
    intros <-. rewrite Ea in Hux. by eapply account_mint_exclusive. }
  split; [intros k Hk1 Hk2; rewrite cell_store_ne by done; by apply Hc|].
  intros m. rewrite <- Ea in Hu. destruct (Hsum m) as [Hs1 Hs2].
  assert (cell_owner (cell w1 (key a)) = id) as Ho1 by by rewrite Ho.
  rewrite (circulation_store_mint m _ _ Ho1 mt), (supply_store_mint m _ _ Ho1 mt) by done.
  destruct Hs as (Eb & _). rewrite Eb, Hs1, Hs2, Ew', Ew. case_bool_decide; split; lia.
Qed.

(** withdrawing the fees withheld on a mint pays all of them to an account of
    that mint that is not frozen, leaves nothing withheld on the mint, needs
    the withdraw authority's approval, and keeps every mint's tokens in
    circulation and recorded supply. *)
Theorem process_withdraw_from_mint_conserves `{RT : Runtime} pid accounts w w' :
  process_withdraw_withheld_tokens_from_mint pid accounts w = Ok (tt, w') ->
  exists mi di auth signers mt mt' dt dt' e authority,
    accounts = mi :: di :: auth :: signers /\
    unpack_mut PodMint (cell_data (cell w (key mi))) = Ok mt /\
    unpack_mut PodMint (cell_data (cell w' (key mi))) = Ok mt' /\
    unpack_mut PodAccount (cell_data (cell w (key di))) = Ok dt /\
    unpack_mut PodAccount (cell_data (cell w' (key di))) = Ok dt' /\
    get_extension TransferFeeConfig mt = Ok e /\
    maybe_null_get (tfc_withdraw_withheld_authority e) = Some authority /\
    authorizes pid authority auth (length (cell_data (cell w (key auth)))) signers w /\
    mint (base dt) = key mi /\ is_frozen (base dt) = false /\
    base dt' = set_amount (u64_get (amount (base dt)) + mint_withheld mt) (base dt) /\
    u64_get (amount (base dt)) + mint_withheld mt <= u64_max /\
    mint_withheld mt' = 0 /\ base mt' = base mt /\
    (forall k, k <> key mi -> k <> key di -> cell w' k = cell w k) /\
    forall m, circulation m w' = circulation m w /\ supply_of m w' = supply_of m w.
Proof.
  unfold process_withdraw_withheld_tokens_from_mint. intros H. m_inv.
  match goal with H : get_extension_mut _ _ = Ok _ |- _ => rename H into Hg end.
  match goal with H : unpack_mut PodMint _ = Ok ?x |- _ => rename H into Hu; rename x into mt end.
  match goal with H : unpack_mut PodAccount _ = Ok ?x |- _ => rename H into Hd; rename x into dt end.
  match goal with |- context [p (set_withheld 0 ?t)] => set (e := t) in * end.
  pose proof (put_mut_same_shape _ _ _ _ (set_withheld 0 e) Hg) as Hs.
  destruct (config_withheld_put _ _ _ (set_withheld 0 e) Hg) as [Ew Ew'].
  cbn [set_withheld tfc_withheld_amount] in Ew'. rewrite u64_get_0 in Ew'.
  match goal with |- context [with_base ?b dt] => set (dt' := with_base b dt) in * end.
  assert (replaces mt (p (set_withheld 0 e))) as Hr by by eapply same_shape_replaces.
  assert (replaces dt dt') as Hrd by by eapply replaces_account.
  destruct (store_account_mint (key a0) (key a) dt dt' mt (p (set_withheld 0 e)) w) as
    (Hne & Hd' & Hm' & Hother & Hsum); try done.
  rewrite store_comm by done.
  exists a, a0, a1, l1, mt, (p (set_withheld 0 e)), dt, dt', e, a7.
  do 5 (split; [done|]). split; [by apply get_extension_mut_place in Hg as [Hg _]|].
  do 4 (split; [done|]). rewrite Ew. split; [done|]. split; [lia|]. split; [done|].
  split; [apply Hs|]. split; [intros; by apply Hother|].
  intros m. destruct (Hsum m) as [-> ->]. destruct Hs as (Eb & _). rewrite Eb.
  unfold account_tokens, dt'. simpl. rewrite withheld_with_base, u64_get_new by done.
  match goal with H : mint (base dt) = _ |- _ => rewrite H end.
  rewrite Ew, Ew'. split; case_bool_decide; lia.
Qed.

(** withdrawing the fees withheld on accounts credits a destination of the mint
    that is not frozen with what the sources, itself included, withheld; the
    sources keep their balances, and every mint's tokens in circulation and
    recorded supply stay what they were.  The last [num_token_accounts]
    accounts are the sources, those before them the signers of the withdraw
    authority. *)
Theorem process_withdraw_from_accounts_conserves `{RT : Runtime} pid accounts num w w' :
  process_withdraw_withheld_tokens_from_accounts pid accounts num w = Ok (tt, w') ->
  exists mi di auth infos mt dt dt' e authority n,
    accounts = mi :: di :: auth :: infos /\
    let num_signers := (length infos - Z.to_nat (u8_to_Z num))%nat in
    let sources := drop num_signers infos in
    Extension.unpack PodMint (cell_data (cell w (key mi))) = Ok mt /\
    get_extension TransferFeeConfig mt = Ok e /\
    maybe_null_get (tfc_withdraw_withheld_authority e) = Some authority /\
    authorizes pid authority auth (length (cell_data (cell w (key auth))))
      (take num_signers infos) w /\
    unpack_mut PodAccount (cell_data (cell w (key di))) = Ok dt /\
    mint (base dt) = key mi /\ is_frozen (base dt) = false /\
    unpack_mut PodAccount (cell_data (cell w' (key di))) = Ok dt' /\
    credited sources (key di) n dt dt' /\
    (forall k a, k <> key di -> token_account w k a ->
       exists a', token_account w' k a' /\ base a' = base a /\
         withheld a' = (if is_harvested (key mi) sources k a then 0 else withheld a)) /\
    (forall k, k ∉ key <$> mi :: di :: sources -> cell w' k = cell w k) /\
    forall m, circulation m w' = circulation m w /\ supply_of m w' = supply_of m w.
Proof.
  unfold process_withdraw_withheld_tokens_from_accounts. intros H. m_inv.
  match goal with H : Extension.unpack PodMint _ = Ok ?x |- _ => rename H into Hu; rename x into mt end.
  match goal with H : unpack_mut PodAccount _ = Ok ?x |- _ => rename H into Hd; rename x into dt end.
  match goal with H : get_extension _ mt = Ok ?x |- _ => rename H into Hg; rename x into e end.
  match goal with H : withdraw_all _ _ _ _ _ = Ok (?x, ?y) |- _ =>
    rename H into Hw; rename x into dt'; rename y into w1 end.
  apply withdraw_all_Ok in Hw as (Hk & n & (He & Hc & Ho & Hsum) & Hcr);
    [|by eapply unpack_mut_initialized].
  assert (cell w1 (key a0) = cell w (key a0)) as Ea by (apply Hc; rewrite elem_of_other_sources; tauto).
  exists a, a0, a1, l1, mt, dt, dt', e, a8, n. do 8 (split; [done|]).
  split; [rewrite data_store; eapply replaces_unpack; [exact Hd|apply Hcr]|]. split; [done|].
  split; [|split].
  - intros k x Hne Hx. destruct (He k x Hx) as (x' & [Ho1 Hu1] & Eb & _ & Ew).
    exists x'. rewrite is_harvested_other in Ew by done. split; [|done].
    split; [by rewrite owner_store|]. by rewrite cell_store_ne.
  - intros k Hk1. rewrite cell_store_ne by (rewrite !fmap_cons in Hk1; set_solver).
    apply Hc. rewrite elem_of_other_sources. rewrite !fmap_cons in Hk1. set_solver.
  - intros m. destruct (Hsum m) as [Hs1 Hs2].
    assert (cell_owner (cell w1 (key a0)) = id) as Ho1 by by rewrite Ho.
    assert (unpack_mut PodAccount (cell_data (cell w1 (key a0))) = Ok dt) as Hd1 by by rewrite Ea.
    destruct Hcr as (Hr & _ & Eb & _ & Et).
    rewrite (circulation_store_account m _ _ Ho1 dt), (supply_store_account m _ _ Ho1 dt)
      by (try done; by rewrite Eb).
    rewrite Hs1, Hs2, Et. match goal with H : mint (base dt) = _ |- _ => rewrite H end.
    split; [case_bool_decide; lia|done].
Qed.

(** ** Changing the fee and the interest rate

    A new transfer fee takes effect two epochs later, transfer-fee instructions
    survive packing and unpacking, and the average interest rate lies between
    the rates it averages. *)
Import transfer_fee.

(** ** Packing and unpacking *)

Lemma split_at_bytes_app n a r :
  length a = n -> split_at_bytes n (a ++ r) = Ok (a, r).
Proof.
  intros <-. unfold split_at_bytes. rewrite (proj2 (Nat.leb_le _ _)) by (rewrite length_app; lia).
  by rewrite take_app_length, drop_app_length.
Qed.

Lemma unpack_le_app n z r :
  0 <= z < 256 ^ Z.of_nat n ->
  split_at_bytes n (to_le_bytes n z ++ r) = Ok (to_le_bytes n z, r) /\
  from_le_bytes (to_le_bytes n z) = z.
Proof.
  intros Hz. split; [apply split_at_bytes_app, length_to_le_bytes|].
  by rewrite from_to_le_bytes, Z.mod_small.
Qed.

Lemma unpack_u16_app z r : is_u16 z -> unpack_u16 (to_le_bytes 2 z ++ r) = Ok (z, r).
Proof.
  unfold is_u16, u16_max. intros Hz. destruct (unpack_le_app 2 z r) as [E1 E2]; [simpl; lia|].
  unfold unpack_u16. rewrite E1. cbn [mbind Result_bind]. by rewrite E2.
Qed.

Lemma unpack_u64_app z r : is_u64 z -> unpack_u64 (to_le_bytes 8 z ++ r) = Ok (z, r).
Proof.
  unfold is_u64, u64_max. intros Hz. destruct (unpack_le_app 8 z r) as [E1 E2]; [simpl; lia|].
  unfold unpack_u64. rewrite E1. cbn [mbind Result_bind]. by rewrite E2.
Qed.

Lemma unpack_coption_pubkey_app o r :
  unpack_coption_pubkey (pack_coption_pubkey o ++ r) = Ok (o, r).
Proof.
  destruct o as [a|]; [|done]. simpl. unfold unpack_pubkey.
  rewrite split_at_bytes_app by apply length_bytes_list. cbn [mbind Result_bind mret Result_ret].
  by rewrite bytes_of_list_list.
Qed.

(** The integers of an instruction are of their widths. *)
Definition instruction_in_range (i : TransferFeeInstruction) : Prop :=
  match i with
  | InitializeTransferFeeConfig _ _ bps max | SetTransferFee bps max => is_u16 bps /\ is_u64 max
  | TransferCheckedWithFee amount _ fee => is_u64 amount /\ is_u64 fee
  | _ => True
  end.

(** ** Averages *)

Lemma quot_between c t lo hi : 0 < t -> lo * t <= c -> c <= hi * t -> lo <= Z.quot c t <= hi.
Proof.
  intros Ht Hlo Hhi. split.
  - rewrite <- (Z.quot_mul lo t) by lia. by apply Z.quot_le_mono.
  - rewrite <- (Z.quot_mul hi t) by lia. by apply Z.quot_le_mono.
Qed.

Lemma weighted_between a b t u : 0 <= t -> 0 <= u -> Z.min a b * (t + u) <= a * t + b * u <= Z.max a b * (t + u).
Proof. intros. nia. Qed.

Lemma i16_get_range a : -32768 <= i16_get a <= 32767.
Proof.
  pose proof (u16_get_range a) as H. unfold u16_get, is_u16, u16_max in H.
  unfold i16_get, signed. change (2 ^ (8 * Z.of_nat 2 - 1)) with 32768.
  change (2 ^ (8 * Z.of_nat 2)) with 65536. case_match; lia.
Qed.

Lemma i128_checked_small z : -2 ^ 100 <= z <= 2 ^ 100 -> interest_bearing_mint.i128_checked z = Some z.
Proof.
  intros Hz. apply checked_Some. split; [done|]. unfold interest_bearing_mint.i128_max. lia.
Qed.

(** ** Properties *)

(** a transfer fee that is set in an epoch leaves the fee of that epoch and of
    the next what it was in that epoch, and applies from the epoch after: a
    pending change is overwritten, never brought forward. *)
Theorem updated_transfer_fee_delayed epoch ep bps max e :
  0 <= epoch -> epoch + 2 <= u64_max -> 0 <= ep ->
  get_epoch_fee (updated_transfer_fee epoch bps max e) ep =
    if ep <? epoch + 2
    then (if epoch <=? ep then get_epoch_fee e epoch
          else if u64_get (tf_epoch (tfc_newer_transfer_fee e)) <=? epoch
               then tfc_newer_transfer_fee e else tfc_older_transfer_fee e)
    else mk_tf (u64_new (epoch + 2)) (u64_new max) (u16_new bps).
Proof.
  intros He Hm Hep. unfold updated_transfer_fee, get_epoch_fee, u64_saturating_add.
  rewrite Z.min_r by lia. cbn [tfc_newer_transfer_fee tfc_older_transfer_fee tf_epoch].
  rewrite u64_get_new by (unfold is_u64; lia). repeat case_match; first [done|lia].
Qed.

Lemma updated_transfer_fee_delayed_witness :
  let old := mk_tf (u64_new 0) (u64_new 7) (u16_new 10) in
  let e := mk_tfc (zeroed 32) (zeroed 32) (u64_new 0) old old in
  get_epoch_fee (updated_transfer_fee 5 20 9 e) 6 = old /\
  get_epoch_fee (updated_transfer_fee 5 20 9 e) 7 = mk_tf (u64_new 7) (u64_new 9) (u16_new 20).
Proof.
  simpl. split; rewrite updated_transfer_fee_delayed; first [vm_compute; reflexivity|by vm_compute].
Defined.

(** A transfer-fee instruction survives packing and unpacking, whatever bytes
    follow it. *)
Lemma transfer_fee_unpack_pack i rest :
  instruction_in_range i -> unpack (pack i ++ rest) = Ok i.
Proof.
  destruct i; cbn [instruction_in_range pack]; intros Hr; unfold unpack;
    cbn [unpack_u8 app mbind Result_bind]; try done.
  - destruct Hr. rewrite <- !app_assoc.
    rewrite unpack_coption_pubkey_app. cbn [mbind Result_bind].
    rewrite unpack_coption_pubkey_app. cbn [mbind Result_bind].
    rewrite unpack_u16_app by done. cbn [mbind Result_bind]. by rewrite unpack_u64_app.
  - destruct Hr. unfold unpack_amount_decimals. rewrite <- !app_assoc.
    rewrite unpack_u64_app by done. cbn [mbind Result_bind unpack_u8 app mret Result_ret].
    by rewrite unpack_u64_app.
  - destruct Hr. rewrite <- !app_assoc. rewrite unpack_u16_app by done. cbn [mbind Result_bind].
    by rewrite unpack_u64_app.
Qed.

(** C37: the interest rate averaged over the time since initialization exists, fits
    the rate's sixteen bits, and lies between the average before the last
    update and the current rate, when time runs forward. *)
Theorem time_weighted_average_rate_bounds e now :
  i64_get (ibc_initialization_timestamp e) <= i64_get (ibc_last_update_timestamp e) ->
  i64_get (ibc_last_update_timestamp e) <= now <= i64_max ->
  exists r, interest_bearing_mint.time_weighted_average_rate e now = Some r /\
    Z.min (i16_get (ibc_pre_update_average_rate e)) (i16_get (ibc_current_rate e)) <= r <=
    Z.max (i16_get (ibc_pre_update_average_rate e)) (i16_get (ibc_current_rate e)).
Proof.
  intros H1 H2. unfold interest_bearing_mint.time_weighted_average_rate.
  pose proof (i16_get_range (ibc_pre_update_average_rate e)) as R1.
  pose proof (i16_get_range (ibc_current_rate e)) as R2.
  pose proof (i64_get_range (ibc_initialization_timestamp e)) as T0.
  set (r1 := i16_get _) in *. set (r2 := i16_get (ibc_current_rate e)) in *.
  set (t0 := i64_get _) in *. set (t1 := i64_get (ibc_last_update_timestamp e)) in *.
  unfold i64_min, i64_max in *. change (2 ^ 100) with 1267650600228229401496703205376 in *.
  rewrite (i128_checked_small (t1 - t0)) by lia. cbn [mbind option_bind].
  rewrite (i128_checked_small (now - t1)) by lia. cbn [mbind option_bind].
  rewrite (i128_checked_small (t1 - t0 + (now - t1))) by lia. cbn [mbind option_bind].
  pose proof (weighted_between r1 r2 (t1 - t0) (now - t1) ltac:(lia) ltac:(lia)) as Hw.
  destruct (Z.eqb_spec (t1 - t0 + (now - t1)) 0) as [Ht|Ht].
  - exists r2. split; [|lia]. apply checked_Some. lia.
  - rewrite (i128_checked_small (r1 * (t1 - t0))) by nia. cbn [mbind option_bind].
    rewrite (i128_checked_small (r2 * (now - t1))) by nia. cbn [mbind option_bind].
    rewrite (i128_checked_small (_ + _)) by nia. cbn [mbind option_bind].
    destruct (quot_between (r1 * (t1 - t0) + r2 * (now - t1)) (t1 - t0 + (now - t1))
      (Z.min r1 r2) (Z.max r1 r2)) as [Q1 Q2]; [lia..|].
    rewrite i128_checked_small by lia. cbn [mbind option_bind].
    eexists. split; [apply checked_Some; split; [done|lia]|]. lia.
Qed.

Lemma time_weighted_average_rate_bounds_witness :
  exists r, interest_bearing_mint.time_weighted_average_rate
    (mk_ibc (zeroed 32) (i64_new 0) (i16_new (-100)) (i64_new 100) (i16_new 300)) 150 = Some r /\
    -100 <= r <= 300.
Proof.
  destruct (time_weighted_average_rate_bounds
    (mk_ibc (zeroed 32) (i64_new 0) (i16_new (-100)) (i64_new 100) (i16_new 300)) 150) as [r [Hr Hb]].
  - vm_compute. discriminate.
  - vm_compute. split; discriminate.
  - exists r. split; [exact Hr|exact Hb].
Defined.
