(* ===== verification/VariableLen.v ===== *)
(** * Variable-length extensions

    The parts of [interface/src/extension/mod.rs] that deal with extensions
    whose value has no fixed size ([TokenMetadata]): their entries are allocated
    with the packed length, moved and resized in place, and the account is
    resized with them.  [alloc_and_serialize] does the same for a fixed size.

    [VariableLenPack] is a trait of another crate ([spl_type_length_value]); its
    methods are the class of that name, and [VariableLenPackLaws] states what it
    documents: packing fills a slice of the packed length, unpacking reads the
    value back. *)
From S2P Require Import Prelude Bytes Errors Ids Runtime Pod ExtensionState Extension AccountLen.

Class VariableLenPack (V : Type) : Type := mk_variable_len_pack {
  vl_get_packed_len : V -> Result ProgramError nat;
  vl_pack_into_slice : V -> list byte -> Result ProgramError (list byte);
  vl_unpack_from_slice : list byte -> Result ProgramError V
}.

Class VariableLenPackLaws (V : Type) `{VariableLenPack V} : Prop := mk_variable_len_pack_laws {
  vl_pack_length : forall (v : V) d d', vl_pack_into_slice v d = Ok d' -> length d' = length d;
  vl_unpack_pack : forall (v : V) d d', vl_get_packed_len v = Ok (length d) ->
    vl_pack_into_slice v d = Ok d' -> vl_unpack_from_slice d' = Ok v
}.

(** ** Moves in a buffer *)

(** [buf.copy_within(src_start..src_end, dest)]. *)
Definition copy_within (buf : list byte) (src_start src_end dest : nat)
    : Result ProgramError (list byte) :=
  if ((src_start <=? src_end) && (src_end <=? length buf) &&
      (dest <=? length buf - (src_end - src_start)))%nat
  then Ok (splice buf dest (slice buf src_start src_end)) else Panic.

(** [buf[start..end].fill(0)]. *)
Definition fill_zero (buf : list byte) (start end_ : nat) : Result ProgramError (list byte) :=
  if ((start <=? end_) && (end_ <=? length buf))%nat
  then Ok (splice buf start (replicate (end_ - start) x00)) else Panic.

Section extensions.
Context {S : Type} `{BaseState S}.

(** ** Lengths *)

Definition get_variable_len_extension {St} `{BaseStateWithExtensions St} (V : Type)
    `{VariableLenPack V, Extension V} (st : St S) : Result ProgramError V :=
  data ← get_extension_bytes S (TYPE V) (get_tlv_data st);
  vl_unpack_from_slice data.

Definition get_extension_types {St} `{BaseStateWithExtensions St} (st : St S)
    : Result ProgramError (list ExtensionType) :=
  extension_types <$> get_tlv_data_info (get_tlv_data st).

Definition try_get_account_len {St} `{BaseStateWithExtensions St} (st : St S)
    : Result ProgramError nat :=
  tlv_info ← get_tlv_data_info (get_tlv_data st);
  match extension_types tlv_info with
  | [] => mret (size_of S)
  | _ =>
      let total_len := (used_len tlv_info + BASE_ACCOUNT_AND_TYPE_LENGTH)%nat in
      mret (adjust_len_for_multisig total_len)
  end.

Definition try_get_new_account_len_for_extension_len (ty : ExtensionType) (tlv_data : list byte)
    (new_extension_len : nat) : Result ProgramError nat :=
  let new_extension_tlv_len := add_type_and_length_to_len new_extension_len in
  tlv_info ← get_tlv_data_info tlv_data;
  let current_len := (used_len tlv_info + BASE_ACCOUNT_AND_TYPE_LENGTH)%nat in
  let current_extension_len :=
    default 0%nat (ok ((fun x => add_type_and_length_to_len (length x)) <$>
                         get_extension_bytes S ty tlv_data)) in
  let new_len := (current_len - current_extension_len + new_extension_tlv_len)%nat in
  mret (adjust_len_for_multisig new_len).

Definition try_get_new_account_len {St} `{BaseStateWithExtensions St} (V : Type)
    `{Pod V, Extension V} (st : St S) : Result ProgramError nat :=
  try_get_new_account_len_for_extension_len (TYPE V) (get_tlv_data st) (size_of V).

Definition try_get_new_account_len_for_variable_len_extension {St} `{BaseStateWithExtensions St}
    {V : Type} `{VariableLenPack V, Extension V} (new_extension : V) (st : St S)
    : Result ProgramError nat :=
  packed_len ← vl_get_packed_len new_extension;
  try_get_new_account_len_for_extension_len (TYPE V) (get_tlv_data st) packed_len.

(** ** Writing *)

(** [V::pack_into_slice] on the bytes from [start] to [end_] of the TLV data. *)
Definition pack_at {V : Type} `{VariableLenPack V} (extension : V) (start end_ : nat)
    (st : PodStateMut S) : Result ProgramError (PodStateMut S) :=
  data ← vl_pack_into_slice extension (slice (tlv_data st) start end_);
  mret (with_tlv_data (splice (tlv_data st) start data) st).

(** The state after [pack_variable_len_extension]. *)
Definition pack_variable_len_extension {V : Type} `{VariableLenPack V, Extension V}
    (extension : V) (st : PodStateMut S) : Result ProgramError (PodStateMut S) :=
  data ← get_extension_bytes S (TYPE V) (tlv_data st);
  idx ← get_extension_indices (TYPE V) (tlv_data st) false;
  pack_at extension (value_start idx) (value_start idx + length data) st.

(** [state.realloc::<V>(length)]: the state with the entry resized, and the
    place of its value. *)
Definition realloc (ty : ExtensionType) (length_ : nat) (st : PodStateMut S)
    : Result ProgramError (PodStateMut S * nat * nat) :=
  let tlv := tlv_data st in
  idx ← get_extension_indices ty tlv false;
  tlv_len ← used_len <$> get_tlv_data_info tlv;
  let data_len := length tlv in
  let old_length := tlv_length_at tlv idx in
  _ ← fail_if ((old_length <? length_) && (data_len <? tlv_len + (length_ - old_length)))%nat
        ProgramError.InvalidAccountData;
  length_ref ← length_try_from length_;
  let tlv := splice tlv (length_start idx) length_ref in
  let old_value_end := (value_start idx + old_length)%nat in
  let new_value_end := (value_start idx + length_)%nat in
  tlv ← copy_within tlv old_value_end tlv_len new_value_end;
  tlv ← match Nat.compare old_length length_ with
        | Gt =>
            let new_tlv_len := (tlv_len - (old_length - length_))%nat in
            fill_zero tlv new_tlv_len tlv_len
        | Lt => fill_zero tlv old_value_end new_value_end
        | Eq => mret tlv
        end;
  mret (with_tlv_data tlv st, value_start idx, new_value_end).

(** The state after [realloc_variable_len_extension]. *)
Definition realloc_variable_len_extension {V : Type} `{VariableLenPack V, Extension V}
    (new_extension : V) (st : PodStateMut S) : Result ProgramError (PodStateMut S) :=
  packed_len ← vl_get_packed_len new_extension;
  '(st, start, end_) ← realloc (TYPE V) packed_len st;
  pack_at new_extension start end_ st.

(** The state after [init_variable_len_extension]. *)
Definition init_variable_len_extension {V : Type} `{VariableLenPack V, Extension V}
    (extension : V) (overwrite : bool) (st : PodStateMut S) : Result ProgramError (PodStateMut S) :=
  packed_len ← vl_get_packed_len extension;
  '(st, idx) ← alloc (TYPE V) packed_len overwrite st;
  pack_at extension (value_start idx) (value_start idx + packed_len) st.

End extensions.

(** ** Accounts that grow and shrink with an extension *)

Section accounts.
Context `{RT : Runtime} (S : Type) `{BaseState S}.

(** [account_info.try_data_len()]. *)
Definition try_data_len (held : list Borrow) (account_info : AccountInfo) : M nat :=
  data ← try_borrow_data held account_info; mret (length data).

(** [account_info.resize(new_len)], which borrows the data. *)
Definition resize_account (held : list Borrow) (account_info : AccountInfo) (new_len : nat)
    : M unit :=
  account_data ← try_borrow_mut_data held account_info;
  account_data ← lift (rt_resize account_data new_len);
  write_data account_info account_data.

(** [set_account_type::<S>] on the buffer where the account had no account type. *)
Definition set_type_if_base (previous_account_len : nat) (buffer : list byte)
    : Result ProgramError (list byte) :=
  if (previous_account_len <=? BASE_ACCOUNT_LENGTH)%nat then set_account_type S buffer
  else mret buffer.

Definition alloc_and_serialize {V : Type} `{Pod V, Extension V} (held : list Borrow)
    (account_info : AccountInfo) (new_extension : V) (overwrite : bool) : M unit :=
  previous_account_len ← try_data_len held account_info;
  data ← try_borrow_data held account_info;
  state ← lift (unpack S data);
  new_account_len ← lift (try_get_new_account_len V state);
  _ ← when (previous_account_len <? new_account_len)%nat
        (resize_account held account_info new_account_len);
  buffer ← try_borrow_mut_data held account_info;
  buffer ← lift (set_type_if_base previous_account_len buffer);
  state ← lift (unpack_mut S buffer);
  '(extension, put) ← lift (init_extension V overwrite state);
  write_data account_info (repack (put new_extension)).

(** The arm for an account that gets longer. *)
Definition grow_and_serialize {V : Type} `{VariableLenPack V, Extension V} (held : list Borrow)
    (account_info : AccountInfo) (new_extension : V) (extension_already_exists : bool)
    (previous_account_len new_account_len : nat) : M unit :=
  _ ← resize_account held account_info new_account_len;
  buffer ← try_borrow_mut_data held account_info;
  if extension_already_exists then
    state ← lift (unpack_mut S buffer);
    state ← lift (realloc_variable_len_extension new_extension state);
    write_data account_info (repack state)
  else
    buffer ← lift (set_type_if_base previous_account_len buffer);
    state ← lift (unpack_mut S buffer);
    state ← lift (init_variable_len_extension new_extension false state);
    write_data account_info (repack state).

(** The other arm: write first, then shrink. *)
Definition serialize_and_shrink {V : Type} `{VariableLenPack V, Extension V} (held : list Borrow)
    (account_info : AccountInfo) (new_extension : V) (extension_already_exists : bool)
    (previous_account_len new_account_len : nat) : M unit :=
  buffer ← try_borrow_mut_data held account_info;
  state ← lift (unpack_mut S buffer);
  state ← lift (if extension_already_exists
                then realloc_variable_len_extension new_extension state
                else init_variable_len_extension new_extension false state);
  _ ← write_data account_info (repack state);
  removed_bytes ← lift (ok_or (if (new_account_len <=? previous_account_len)%nat
                               then Some (previous_account_len - new_account_len)%nat else None)
                          ProgramError.AccountDataTooSmall);
  when (0 <? removed_bytes)%nat (resize_account held account_info new_account_len).

Definition alloc_and_serialize_variable_len_extension {V : Type} `{VariableLenPack V, Extension V}
    (held : list Borrow) (account_info : AccountInfo) (new_extension : V) (overwrite : bool)
    : M unit :=
  previous_account_len ← try_data_len held account_info;
  data ← try_borrow_data held account_info;
  state ← lift (unpack S data);
  new_account_len ←
    lift (try_get_new_account_len_for_variable_len_extension new_extension state);
  let extension_already_exists :=
    is_ok (get_extension_bytes S (TYPE V) (get_tlv_data state)) in
  _ ← bail_if (extension_already_exists && negb overwrite) TokenError.ExtensionAlreadyInitialized;
  if (previous_account_len <? new_account_len)%nat
  then grow_and_serialize held account_info new_extension extension_already_exists
         previous_account_len new_account_len
  else serialize_and_shrink held account_info new_extension extension_already_exists
         previous_account_len new_account_len.

End accounts.
