(* ===== verification/ConfidentialTransfer.v ===== *)
(** * Confidential transfers

    [program/src/extension/confidential_transfer] with
    [interface/src/extension/confidential_transfer/instruction.rs]: an account
    with the extension has, besides its balance, an available and a pending
    balance that are ciphertexts under its ElGamal key.  Deposits and
    withdrawals move tokens between the balance and the ciphertexts; transfers
    move encrypted amounts; applying the pending balance makes it available. *)
From S2P Require Import Prelude Bytes Errors Ids Runtime Pod ExtensionState CiphertextArithmetic.
From S2P Require Import ProofExtraction Extension TlvTheory ViewTheory AccountLen TransferFee.
From S2P Require Import MonadTheory Ownership PodInstruction Initialize VariableLen.

(** ** Instruction data *)

(** [i8 as i64]. *)
Definition i8_get (b : byte) : Z := signed 1 (u8_to_Z b).

(** [spl_elgamal_registry_interface::state::ElGamalRegistry]. *)
Record ElGamalRegistry : Type := mk_registry {
  er_owner : Address;
  er_elgamal_pubkey : PodElGamalPubkey
}.
#[global] Instance ElGamalRegistry_pod : Pod ElGamalRegistry.
Proof.
  refine (pod_iso (fun x => (er_owner x, er_elgamal_pubkey x)) (fun '(a, b) => mk_registry a b) _ _);
    solve_pod_iso.
Defined.

(** [program/src/lib.rs]. *)
Definition check_elgamal_registry_program_account (elgamal_registry_account_program_id : Address)
    : Result ProgramError unit :=
  fail_if (negb (bool_decide (elgamal_registry_account_program_id = elgamal_registry.id)))
    ProgramError.IncorrectProgramId.

Definition check_auditor_ciphertext
    (instruction_data_auditor_ciphertext_lo instruction_data_auditor_ciphertext_hi
     proof_context_auditor_ciphertext_lo proof_context_auditor_ciphertext_hi : PodElGamalCiphertext)
    : Result ProgramError unit :=
  _ ← fail_if (negb (bool_decide (instruction_data_auditor_ciphertext_lo =
                                  proof_context_auditor_ciphertext_lo)))
        TokenError.ConfidentialTransferBalanceMismatch;
  fail_if (negb (bool_decide (instruction_data_auditor_ciphertext_hi =
                              proof_context_auditor_ciphertext_hi)))
    TokenError.ConfidentialTransferBalanceMismatch.

(** Failures of the ciphertext arithmetic. *)
Definition arithmetic_ok {A} (o : option A) : M A :=
  lift (ok_or o (TokenError.CiphertextArithmeticFailed : ProgramError)).

(** ** Fields of the account extension *)

Definition cta_set_approved (b : bool) (e : ConfidentialTransferAccount) : ConfidentialTransferAccount :=
  mk_cta (bool_new b) (cta_elgamal_pubkey e) (cta_pending_balance_lo e) (cta_pending_balance_hi e)
    (cta_available_balance e) (cta_decryptable_available_balance e)
    (cta_allow_confidential_credits e) (cta_allow_non_confidential_credits e)
    (cta_pending_balance_credit_counter e) (cta_maximum_pending_balance_credit_counter e)
    (cta_expected_pending_balance_credit_counter e) (cta_actual_pending_balance_credit_counter e).

Definition cta_set_pending (lo hi : EncryptedBalance) (e : ConfidentialTransferAccount)
    : ConfidentialTransferAccount :=
  mk_cta (cta_approved e) (cta_elgamal_pubkey e) lo hi
    (cta_available_balance e) (cta_decryptable_available_balance e)
    (cta_allow_confidential_credits e) (cta_allow_non_confidential_credits e)
    (cta_pending_balance_credit_counter e) (cta_maximum_pending_balance_credit_counter e)
    (cta_expected_pending_balance_credit_counter e) (cta_actual_pending_balance_credit_counter e).

Definition cta_set_available (available : EncryptedBalance) (e : ConfidentialTransferAccount)
    : ConfidentialTransferAccount :=
  mk_cta (cta_approved e) (cta_elgamal_pubkey e) (cta_pending_balance_lo e)
    (cta_pending_balance_hi e) available (cta_decryptable_available_balance e)
    (cta_allow_confidential_credits e) (cta_allow_non_confidential_credits e)
    (cta_pending_balance_credit_counter e) (cta_maximum_pending_balance_credit_counter e)
    (cta_expected_pending_balance_credit_counter e) (cta_actual_pending_balance_credit_counter e).

Definition cta_set_decryptable (decryptable : DecryptableBalance) (e : ConfidentialTransferAccount)
    : ConfidentialTransferAccount :=
  mk_cta (cta_approved e) (cta_elgamal_pubkey e) (cta_pending_balance_lo e)
    (cta_pending_balance_hi e) (cta_available_balance e) decryptable
    (cta_allow_confidential_credits e) (cta_allow_non_confidential_credits e)
    (cta_pending_balance_credit_counter e) (cta_maximum_pending_balance_credit_counter e)
    (cta_expected_pending_balance_credit_counter e) (cta_actual_pending_balance_credit_counter e).

Definition cta_set_credits (confidential non_confidential : byte) (e : ConfidentialTransferAccount)
    : ConfidentialTransferAccount :=
  mk_cta (cta_approved e) (cta_elgamal_pubkey e) (cta_pending_balance_lo e)
    (cta_pending_balance_hi e) (cta_available_balance e) (cta_decryptable_available_balance e)
    confidential non_confidential
    (cta_pending_balance_credit_counter e) (cta_maximum_pending_balance_credit_counter e)
    (cta_expected_pending_balance_credit_counter e) (cta_actual_pending_balance_credit_counter e).

Definition cta_set_counters (pending expected actual : U64) (e : ConfidentialTransferAccount)
    : ConfidentialTransferAccount :=
  mk_cta (cta_approved e) (cta_elgamal_pubkey e) (cta_pending_balance_lo e)
    (cta_pending_balance_hi e) (cta_available_balance e) (cta_decryptable_available_balance e)
    (cta_allow_confidential_credits e) (cta_allow_non_confidential_credits e)
    pending (cta_maximum_pending_balance_credit_counter e) expected actual.

Module confidential_transfer.

Inductive ConfidentialTransferInstruction : Type :=
  | InitializeMint
  | UpdateMint
  | ConfigureAccount
  | ApproveAccount
  | EmptyAccount
  | Deposit
  | Withdraw
  | Transfer
  | ApplyPendingBalance
  | EnableConfidentialCredits
  | DisableConfidentialCredits
  | EnableNonConfidentialCredits
  | DisableNonConfidentialCredits
  | TransferWithFee
  | ConfigureAccountWithRegistry.

Definition sequential_instructions : list ConfidentialTransferInstruction :=
  [InitializeMint; UpdateMint; ConfigureAccount; ApproveAccount; EmptyAccount; Deposit; Withdraw;
   Transfer; ApplyPendingBalance; EnableConfidentialCredits; DisableConfidentialCredits;
   EnableNonConfidentialCredits; DisableNonConfidentialCredits; TransferWithFee;
   ConfigureAccountWithRegistry].

Definition instruction_try_from (b : byte) : option ConfidentialTransferInstruction :=
  sequential_instructions !! Z.to_nat (u8_to_Z b).

Record InitializeMintData : Type := mk_initialize_mint {
  im_authority : MaybeNull;
  im_auto_approve_new_accounts : byte;
  im_auditor_elgamal_pubkey : MaybeNull
}.
#[global] Instance InitializeMintData_pod : Pod InitializeMintData.
Proof.
  refine (pod_iso (fun x => (im_authority x, (im_auto_approve_new_accounts x,
    im_auditor_elgamal_pubkey x))) (fun '(a, (b, c)) => mk_initialize_mint a b c) _ _);
    solve_pod_iso.
Defined.

Record UpdateMintData : Type := mk_update_mint {
  um_auto_approve_new_accounts : byte;
  um_auditor_elgamal_pubkey : MaybeNull
}.
#[global] Instance UpdateMintData_pod : Pod UpdateMintData.
Proof.
  refine (pod_iso (fun x => (um_auto_approve_new_accounts x, um_auditor_elgamal_pubkey x))
    (fun '(a, b) => mk_update_mint a b) _ _); solve_pod_iso.
Defined.

Record ConfigureAccountInstructionData : Type := mk_configure_account {
  ca_decryptable_zero_balance : DecryptableBalance;
  ca_maximum_pending_balance_credit_counter : U64;
  ca_proof_instruction_offset : byte
}.
#[global] Instance ConfigureAccountInstructionData_pod : Pod ConfigureAccountInstructionData.
Proof.
  refine (pod_iso (fun x => (ca_decryptable_zero_balance x,
    (ca_maximum_pending_balance_credit_counter x, ca_proof_instruction_offset x)))
    (fun '(a, (b, c)) => mk_configure_account a b c) _ _); solve_pod_iso.
Defined.

Record EmptyAccountInstructionData : Type := mk_empty_account {
  ea_proof_instruction_offset : byte
}.
#[global] Instance EmptyAccountInstructionData_pod : Pod EmptyAccountInstructionData.
Proof. refine (pod_iso ea_proof_instruction_offset mk_empty_account _ _); solve_pod_iso. Defined.

Record DepositInstructionData : Type := mk_deposit {
  di_amount : U64;
  di_decimals : byte
}.
#[global] Instance DepositInstructionData_pod : Pod DepositInstructionData.
Proof.
  refine (pod_iso (fun x => (di_amount x, di_decimals x)) (fun '(a, b) => mk_deposit a b) _ _);
    solve_pod_iso.
Defined.

Record WithdrawInstructionData : Type := mk_withdraw {
  wi_amount : U64;
  wi_decimals : byte;
  wi_new_decryptable_available_balance : DecryptableBalance;
  wi_equality_proof_instruction_offset : byte;
  wi_range_proof_instruction_offset : byte
}.
#[global] Instance WithdrawInstructionData_pod : Pod WithdrawInstructionData.
Proof.
  refine (pod_iso (fun x => (wi_amount x, (wi_decimals x, (wi_new_decryptable_available_balance x,
    (wi_equality_proof_instruction_offset x, wi_range_proof_instruction_offset x)))))
    (fun '(a, (b, (c, (d, e)))) => mk_withdraw a b c d e) _ _); solve_pod_iso.
Defined.

Record TransferInstructionData : Type := mk_transfer {
  ti_new_source_decryptable_available_balance : DecryptableBalance;
  ti_transfer_amount_auditor_ciphertext_lo : PodElGamalCiphertext;
  ti_transfer_amount_auditor_ciphertext_hi : PodElGamalCiphertext;
  ti_equality_proof_instruction_offset : byte;
  ti_ciphertext_validity_proof_instruction_offset : byte;
  ti_range_proof_instruction_offset : byte
}.
#[global] Instance TransferInstructionData_pod : Pod TransferInstructionData.
Proof.
  refine (pod_iso (fun x => (ti_new_source_decryptable_available_balance x,
    (ti_transfer_amount_auditor_ciphertext_lo x, (ti_transfer_amount_auditor_ciphertext_hi x,
    (ti_equality_proof_instruction_offset x, (ti_ciphertext_validity_proof_instruction_offset x,
     ti_range_proof_instruction_offset x))))))
    (fun '(a, (b, (c, (d, (e, f))))) => mk_transfer a b c d e f) _ _); solve_pod_iso.
Defined.

Record ApplyPendingBalanceData : Type := mk_apply_pending_balance {
  ap_expected_pending_balance_credit_counter : U64;
  ap_new_decryptable_available_balance : DecryptableBalance
}.
#[global] Instance ApplyPendingBalanceData_pod : Pod ApplyPendingBalanceData.
Proof.
  refine (pod_iso (fun x => (ap_expected_pending_balance_credit_counter x,
    ap_new_decryptable_available_balance x)) (fun '(a, b) => mk_apply_pending_balance a b) _ _);
    solve_pod_iso.
Defined.

Record TransferWithFeeInstructionData : Type := mk_transfer_with_fee {
  tw_new_source_decryptable_available_balance : DecryptableBalance;
  tw_transfer_amount_auditor_ciphertext_lo : PodElGamalCiphertext;
  tw_transfer_amount_auditor_ciphertext_hi : PodElGamalCiphertext;
  tw_equality_proof_instruction_offset : byte;
  tw_transfer_amount_ciphertext_validity_proof_instruction_offset : byte;
  tw_fee_sigma_proof_instruction_offset : byte;
  tw_fee_ciphertext_validity_proof_instruction_offset : byte;
  tw_range_proof_instruction_offset : byte
}.
#[global] Instance TransferWithFeeInstructionData_pod : Pod TransferWithFeeInstructionData.
Proof.
  refine (pod_iso (fun x => (tw_new_source_decryptable_available_balance x,
    (tw_transfer_amount_auditor_ciphertext_lo x, (tw_transfer_amount_auditor_ciphertext_hi x,
    (tw_equality_proof_instruction_offset x,
    (tw_transfer_amount_ciphertext_validity_proof_instruction_offset x,
    (tw_fee_sigma_proof_instruction_offset x,
    (tw_fee_ciphertext_validity_proof_instruction_offset x,
     tw_range_proof_instruction_offset x))))))))
    (fun '(a, (b, (c, (d, (e, (f, (g, h))))))) => mk_transfer_with_fee a b c d e f g h) _ _);
    solve_pod_iso.
Defined.

Section processor.
Context `{RT : Runtime} `{CV : CurveInterface} `{ZK : ZkInterface} `{ZC : !ZkContexts}.

(** ** [verify_proof.rs] *)

Definition verify_withdraw_proof (held : list Borrow) (account_info_iter : list AccountInfo)
    (equality_proof_instruction_offset range_proof_instruction_offset : Z)
    : M (WithdrawProofContext * list AccountInfo) :=
  '(sysvar_account_info, iter) ←
    lift (proof_sysvar [equality_proof_instruction_offset; range_proof_instruction_offset]
            account_info_iter);
  '(equality_proof_context, iter) ←
    verify_and_extract_context CiphertextCommitmentEqualityProofContext
      ProofType.CiphertextCommitmentEquality held iter equality_proof_instruction_offset
      sysvar_account_info;
  '(range_proof_context, iter) ←
    verify_and_extract_context BatchedRangeProofContext ProofType.BatchedRangeProofU64 held iter
      range_proof_instruction_offset sysvar_account_info;
  context ← lift (map_err extraction_into
    (WithdrawProofContext_verify_and_extract equality_proof_context range_proof_context));
  mret (context, iter).

Definition verify_transfer_proof (held : list Borrow) (account_info_iter : list AccountInfo)
    (equality_proof_instruction_offset ciphertext_validity_proof_instruction_offset
     range_proof_instruction_offset : Z) : M (TransferProofContext * list AccountInfo) :=
  '(sysvar_account_info, iter) ←
    lift (proof_sysvar [equality_proof_instruction_offset;
                        ciphertext_validity_proof_instruction_offset;
                        range_proof_instruction_offset] account_info_iter);
  '(equality_proof_context, iter) ←
    verify_and_extract_context CiphertextCommitmentEqualityProofContext
      ProofType.CiphertextCommitmentEquality held iter equality_proof_instruction_offset
      sysvar_account_info;
  '(ciphertext_validity_proof_context, iter) ←
    verify_and_extract_context BatchedGroupedCiphertext3HandlesValidityProofContext
      ProofType.BatchedGroupedCiphertext3HandlesValidity held iter
      ciphertext_validity_proof_instruction_offset sysvar_account_info;
  '(range_proof_context, iter) ←
    verify_and_extract_context BatchedRangeProofContext ProofType.BatchedRangeProofU128 held iter
      range_proof_instruction_offset sysvar_account_info;
  context ← lift (map_err extraction_into
    (TransferProofContext_verify_and_extract equality_proof_context
       ciphertext_validity_proof_context range_proof_context));
  mret (context, iter).

Definition verify_transfer_with_fee_proof (held : list Borrow) (account_info_iter : list AccountInfo)
    (equality_proof_instruction_offset
     transfer_amount_ciphertext_validity_proof_instruction_offset
     fee_sigma_proof_instruction_offset fee_ciphertext_validity_proof_instruction_offset
     range_proof_instruction_offset : Z) (fee_parameters : TransferFee)
    : M (transfer_with_fee.TransferWithFeeProofContext * list AccountInfo) :=
  '(sysvar_account_info, iter) ←
    lift (proof_sysvar [equality_proof_instruction_offset;
                        transfer_amount_ciphertext_validity_proof_instruction_offset;
                        fee_sigma_proof_instruction_offset;
                        fee_ciphertext_validity_proof_instruction_offset;
                        range_proof_instruction_offset] account_info_iter);
  '(equality_proof_context, iter) ←
    verify_and_extract_context CiphertextCommitmentEqualityProofContext
      ProofType.CiphertextCommitmentEquality held iter equality_proof_instruction_offset
      sysvar_account_info;
  '(transfer_amount_ciphertext_validity_proof_context, iter) ←
    verify_and_extract_context BatchedGroupedCiphertext3HandlesValidityProofContext
      ProofType.BatchedGroupedCiphertext3HandlesValidity held iter
      transfer_amount_ciphertext_validity_proof_instruction_offset sysvar_account_info;
  '(fee_sigma_proof_context, iter) ←
    verify_and_extract_context PercentageWithCapProofContext ProofType.PercentageWithCap held iter
      fee_sigma_proof_instruction_offset sysvar_account_info;
  '(fee_ciphertext_validity_proof_context, iter) ←
    verify_and_extract_context BatchedGroupedCiphertext2HandlesValidityProofContext
      ProofType.BatchedGroupedCiphertext2HandlesValidity held iter
      fee_ciphertext_validity_proof_instruction_offset sysvar_account_info;
  '(range_proof_context, iter) ←
    verify_and_extract_context BatchedRangeProofContext ProofType.BatchedRangeProofU256 held iter
      range_proof_instruction_offset sysvar_account_info;
  context ← lift (map_err extraction_into
    (transfer_with_fee.verify_and_extract equality_proof_context
       transfer_amount_ciphertext_validity_proof_context fee_sigma_proof_context
       fee_ciphertext_validity_proof_context range_proof_context
       (u16_get (tf_transfer_fee_basis_points fee_parameters))
       (u64_get (tf_maximum_fee fee_parameters))));
  mret (context, iter).

(** [ciphertext.try_extract_ciphertext(index).map_err(TokenError::from)?]. *)
Definition extract3 (ciphertext : PodGroupedElGamalCiphertext3Handles) (index : nat)
    : M PodElGamalCiphertext :=
  lift (map_err extraction_into (try_extract_ciphertext3 ciphertext index)).
Definition extract2 (ciphertext : PodGroupedElGamalCiphertext2Handles) (index : nat)
    : M PodElGamalCiphertext :=
  lift (map_err extraction_into (try_extract_ciphertext2 ciphertext index)).

(** ** The mint *)

Definition process_initialize_mint (accounts : list AccountInfo) (authority : MaybeNull)
    (auto_approve_new_account : byte) (auditor_encryption_pubkey : MaybeNull) : M unit :=
  '(mint_info, _) ← lift (next_account_info accounts);
  initialize_extension PodMint ConfidentialTransferMint mint_info (fun _ =>
    mret (mk_ctm authority auto_approve_new_account auditor_encryption_pubkey)).

Definition process_update_mint (accounts : list AccountInfo) (auto_approve_new_account : byte)
    (auditor_encryption_pubkey : MaybeNull) : M unit :=
  '(mint_info, iter) ← lift (next_account_info accounts);
  '(authority_info, _) ← lift (next_account_info iter);
  _ ← check_owner mint_info;
  mint_data ← borrow_mut [] mint_info;
  mint ← lift (unpack_mut PodMint mint_data);
  '(confidential_transfer_mint, put) ← lift (get_extension_mut ConfidentialTransferMint mint);
  confidential_transfer_mint_authority ←
    lift (ok_or (maybe_null_get (ctm_authority confidential_transfer_mint))
            (TokenError.NoAuthorityExists : ProgramError));
  _ ← bail_if (negb (is_signer authority_info)) ProgramError.MissingRequiredSignature;
  _ ← bail_if (negb (bool_decide (confidential_transfer_mint_authority = key authority_info)))
        TokenError.OwnerMismatch;
  write_data mint_info (repack (put (mk_ctm (ctm_authority confidential_transfer_mint)
    auto_approve_new_account auditor_encryption_pubkey))).

(** ** Configuring accounts *)

Inductive ElGamalPubkeySource : Type :=
  | ProofInstructionOffset (offset : Z)
  | Registry (elgamal_registry : ElGamalRegistry).

Definition DEFAULT_MAXIMUM_PENDING_BALANCE_CREDIT_COUNTER : Z := 65536.

(** A new account extension. *)
Definition configured_account (approved : byte) (elgamal_pubkey : PodElGamalPubkey)
    (decryptable_zero_balance : DecryptableBalance)
    (maximum_pending_balance_credit_counter : U64) : ConfidentialTransferAccount :=
  mk_cta approved elgamal_pubkey (zeroed 64) (zeroed 64) (zeroed 64) decryptable_zero_balance
    (bool_new true) (bool_new true) (u64_new 0) maximum_pending_balance_credit_counter
    (u64_new 0) (u64_new 0).

(** [held] are the borrows of the caller. *)
Definition process_configure_account (held : list Borrow) (program_id : Address)
    (accounts : list AccountInfo) (decryptable_zero_balance : DecryptableBalance)
    (maximum_pending_balance_credit_counter : U64)
    (elgamal_pubkey_source : ElGamalPubkeySource) : M unit :=
  '(token_account_info, iter) ← lift (next_account_info accounts);
  '(mint_info, iter) ← lift (next_account_info iter);
  '(elgamal_pubkey, iter) ←
    match elgamal_pubkey_source with
    | ProofInstructionOffset offset =>
        '(proof_context, iter) ← verify_and_extract_context PubkeyValidityProofContext
          ProofType.PubkeyValidity held iter offset None;
        mret (pv_pubkey proof_context, iter)
    | Registry elgamal_registry_account =>
        '(_, iter) ← lift (next_account_info iter);
        mret (er_elgamal_pubkey elgamal_registry_account, iter)
    end;
  _ ← check_owner token_account_info;
  token_account_data ← borrow_mut held token_account_info;
  let held := Mut (key token_account_info) :: held in
  token_account ← lift (unpack_mut PodAccount token_account_data);
  _ ← bail_if (negb (bool_decide (mint (base token_account) = key mint_info)))
        TokenError.MintMismatch;
  _ ← match elgamal_pubkey_source with
      | ProofInstructionOffset _ =>
          '(authority_info, signers) ← lift (next_account_info iter);
          authority_info_data_len ← data_len held authority_info;
          validate_owner held program_id (owner (base token_account)) authority_info
            authority_info_data_len signers
      | Registry elgamal_registry_account =>
          bail_if (negb (bool_decide (er_owner elgamal_registry_account =
                                      owner (base token_account))))
            TokenError.OwnerMismatch
      end;
  _ ← check_owner mint_info;
  mint_data ← borrow held mint_info;
  mint ← lift (unpack PodMint mint_data);
  confidential_transfer_mint ← lift (get_extension ConfidentialTransferMint mint);
  '(_, put) ← lift (init_extension ConfidentialTransferAccount false token_account);
  let token_account := put (configured_account
    (ctm_auto_approve_new_accounts confidential_transfer_mint) elgamal_pubkey
    decryptable_zero_balance maximum_pending_balance_credit_counter) in
  token_account ←
    if has_extension TransferFeeConfig mint then
      '(_, put) ← lift (init_extension ConfidentialTransferFeeAmount false token_account);
      mret (put (mk_ctfa (zeroed 64)))
    else mret token_account;
  write_data token_account_info (repack token_account).

Definition reallocate_for_configure_account_with_registry
    (token_account_info payer_info system_program_info : AccountInfo) : M unit :=
  token_account_data ← borrow [] token_account_info;
  account ← lift (unpack PodAccount token_account_data);
  current_extension_types ← lift (get_extension_types account);
  let current_extension_types :=
    current_extension_types ++ [ExtensionType.ConfidentialTransferAccount] in
  let current_extension_types :=
    if bool_decide (ExtensionType.TransferFeeAmount ∈ current_extension_types)
    then current_extension_types ++ [ExtensionType.ConfidentialTransferFeeAmount]
    else current_extension_types in
  needed_account_len ← lift (try_calculate_account_len PodAccount current_extension_types);
  len ← data_len [] token_account_info;
  if (needed_account_len <=? len)%nat then mret tt
  else
    account_data ← try_borrow_mut_data [] token_account_info;
    account_data ← lift (rt_resize account_data needed_account_len);
    _ ← write_data token_account_info account_data;
    rent ← lift rt_rent;
    let new_rent_exempt_reserve := minimum_balance rent needed_account_len in
    current_lamport_reserve ← info_lamports token_account_info;
    let lamports_diff := u64_saturating_sub new_rent_exempt_reserve current_lamport_reserve in
    _ ← when (0 <? lamports_diff)
          (invoke (rt_system_transfer (key payer_info) (key token_account_info) lamports_diff));
    token_account_data ← borrow_mut [] token_account_info;
    token_account_data ← lift (set_account_type PodAccount token_account_data);
    write_data token_account_info token_account_data.

Definition process_configure_account_with_registry (program_id : Address)
    (accounts : list AccountInfo) : M unit :=
  '(token_account_info, iter) ← lift (next_account_info accounts);
  '(_, iter) ← lift (next_account_info iter);
  '(elgamal_registry_account, iter) ← lift (next_account_info iter);
  registry_owner ← info_owner elgamal_registry_account;
  _ ← lift (check_elgamal_registry_program_account registry_owner);
  _ ← match next_account_info iter with
      | Ok (payer_info, iter) =>
          '(system_program_info, _) ← lift (next_account_info iter);
          reallocate_for_configure_account_with_registry token_account_info payer_info
            system_program_info
      | _ => mret tt
      end;
  elgamal_registry_account_data ← borrow [] elgamal_registry_account;
  registry ← lift (ok_or (try_from_bytes elgamal_registry_account_data)
                     ProgramError.InvalidArgument);
  process_configure_account [Shared (key elgamal_registry_account)] program_id accounts
    (zeroed 36) (u64_new DEFAULT_MAXIMUM_PENDING_BALANCE_CREDIT_COUNTER) (Registry registry).

Definition process_approve_account (accounts : list AccountInfo) : M unit :=
  '(token_account_info, iter) ← lift (next_account_info accounts);
  '(mint_info, iter) ← lift (next_account_info iter);
  '(authority_info, _) ← lift (next_account_info iter);
  _ ← check_owner token_account_info;
  token_account_data ← borrow_mut [] token_account_info;
  token_account ← lift (unpack_mut PodAccount token_account_data);
  _ ← bail_if (negb (bool_decide (key mint_info = mint (base token_account))))
        TokenError.MintMismatch;
  _ ← check_owner mint_info;
  mint_data ← borrow_mut [Mut (key token_account_info)] mint_info;
  mint ← lift (unpack PodMint mint_data);
  confidential_transfer_mint ← lift (get_extension ConfidentialTransferMint mint);
  confidential_transfer_mint_authority ←
    lift (ok_or (maybe_null_get (ctm_authority confidential_transfer_mint))
            (TokenError.NoAuthorityExists : ProgramError));
  if is_signer authority_info &&
     bool_decide (key authority_info = confidential_transfer_mint_authority)
  then
    '(confidential_transfer_state, put) ←
      lift (get_extension_mut ConfidentialTransferAccount token_account);
    write_data token_account_info (repack (put (cta_set_approved true confidential_transfer_state)))
  else throw ProgramError.MissingRequiredSignature.

Definition process_empty_account (program_id : Address) (accounts : list AccountInfo)
    (proof_instruction_offset : Z) : M unit :=
  '(token_account_info, iter) ← lift (next_account_info accounts);
  '(proof_context, iter) ← verify_and_extract_context ZeroCiphertextProofContext
    ProofType.ZeroCiphertext [] iter proof_instruction_offset None;
  '(authority_info, signers) ← lift (next_account_info iter);
  authority_info_data_len ← data_len [] authority_info;
  _ ← check_owner token_account_info;
  token_account_data ← borrow_mut [] token_account_info;
  token_account ← lift (unpack_mut PodAccount token_account_data);
  _ ← validate_owner [Mut (key token_account_info)] program_id (owner (base token_account))
        authority_info authority_info_data_len signers;
  '(confidential_transfer_account, put) ←
    lift (get_extension_mut ConfidentialTransferAccount token_account);
  _ ← bail_if (negb (bool_decide (cta_elgamal_pubkey confidential_transfer_account =
                                  zc_pubkey proof_context)))
        TokenError.ConfidentialTransferElGamalPubkeyMismatch;
  _ ← bail_if (negb (bool_decide (cta_available_balance confidential_transfer_account =
                                  zc_ciphertext proof_context)))
        TokenError.ConfidentialTransferBalanceMismatch;
  let confidential_transfer_account := cta_set_available (zeroed 64) confidential_transfer_account in
  _ ← lift (cta_closable confidential_transfer_account);
  write_data token_account_info (repack (put confidential_transfer_account)).

(** ** Deposits and withdrawals *)

Definition MAXIMUM_DEPOSIT_TRANSFER_AMOUNT : Z := u16_max + Z.shiftl 1 16 * 4294967295.

Definition verify_and_split_deposit_amount (amount : Z) : Result ProgramError (Z * Z) :=
  if MAXIMUM_DEPOSIT_TRANSFER_AMOUNT <? amount
  then fail TokenError.MaximumDepositAmountExceeded
  else
    let deposit_amount_lo := Z.land amount u16_max in
    let deposit_amount_hi := Z.shiftr amount 16 in
    Ok (deposit_amount_lo, deposit_amount_hi).

Definition process_deposit (program_id : Address) (accounts : list AccountInfo) (amount_ : Z)
    (expected_decimals : byte) : M unit :=
  '(token_account_info, iter) ← lift (next_account_info accounts);
  '(mint_info, iter) ← lift (next_account_info iter);
  '(authority_info, signers) ← lift (next_account_info iter);
  authority_info_data_len ← data_len [] authority_info;
  _ ← check_owner mint_info;
  mint_data ← borrow_mut [] mint_info;
  mint_ ← lift (unpack PodMint mint_data);
  _ ← bail_if (mint_paused mint_) TokenError.MintPaused;
  _ ← bail_if (negb (bool_decide (expected_decimals = decimals (state_base mint_))))
        TokenError.MintDecimalsMismatch;
  _ ← bail_if (has_extension ConfidentialMintBurn mint_) TokenError.IllegalMintBurnConversion;
  _ ← check_owner token_account_info;
  token_account_data ← borrow_mut [Mut (key mint_info)] token_account_info;
  token_account ← lift (unpack_mut PodAccount token_account_data);
  _ ← bail_if (has_extension NonTransferableAccount token_account) TokenError.NonTransferable;
  _ ← validate_owner [Mut (key mint_info); Mut (key token_account_info)] program_id
        (owner (base token_account)) authority_info authority_info_data_len signers;
  _ ← bail_if (is_frozen (base token_account)) TokenError.AccountFrozen;
  _ ← bail_if (negb (bool_decide (mint (base token_account) = key mint_info)))
        TokenError.MintMismatch;
  _ ← bail_if (is_native (base token_account)) TokenError.NativeNotSupported;
  new_amount ← lift (ok_or (u64_checked_sub (u64_get (amount (base token_account))) amount_)
                       (TokenError.Overflow : ProgramError));
  let token_account := with_base (set_amount new_amount (base token_account)) token_account in
  '(confidential_transfer_account, put) ←
    lift (get_extension_mut ConfidentialTransferAccount token_account);
  _ ← lift (cta_valid_as_destination confidential_transfer_account);
  '(amount_lo, amount_hi) ← lift (verify_and_split_deposit_amount amount_);
  pending_balance_lo ← arithmetic_ok (ciphertext_arithmetic.add_to_with_offset
    (cta_elgamal_pubkey confidential_transfer_account)
    (cta_pending_balance_lo confidential_transfer_account) amount_lo);
  pending_balance_hi ← arithmetic_ok (ciphertext_arithmetic.add_to_with_offset
    (cta_elgamal_pubkey confidential_transfer_account)
    (cta_pending_balance_hi confidential_transfer_account) amount_hi);
  confidential_transfer_account ← lift (cta_increment_pending_balance_credit_counter
    (cta_set_pending pending_balance_lo pending_balance_hi confidential_transfer_account));
  write_data token_account_info (repack (put confidential_transfer_account)).

Definition process_withdraw (program_id : Address) (accounts : list AccountInfo) (amount_ : Z)
    (expected_decimals : byte) (new_decryptable_available_balance : DecryptableBalance)
    (equality_proof_instruction_offset range_proof_instruction_offset : Z) : M unit :=
  '(token_account_info, iter) ← lift (next_account_info accounts);
  '(mint_info, iter) ← lift (next_account_info iter);
  '(proof_context, iter) ← verify_withdraw_proof [] iter equality_proof_instruction_offset
    range_proof_instruction_offset;
  '(authority_info, signers) ← lift (next_account_info iter);
  authority_info_data_len ← data_len [] authority_info;
  _ ← check_owner mint_info;
  mint_data ← borrow_mut [] mint_info;
  mint_ ← lift (unpack PodMint mint_data);
  _ ← bail_if (negb (bool_decide (expected_decimals = decimals (state_base mint_))))
        TokenError.MintDecimalsMismatch;
  _ ← bail_if (has_extension ConfidentialMintBurn mint_) TokenError.IllegalMintBurnConversion;
  _ ← bail_if (mint_paused mint_) TokenError.MintPaused;
  _ ← check_owner token_account_info;
  token_account_data ← borrow_mut [Mut (key mint_info)] token_account_info;
  token_account ← lift (unpack_mut PodAccount token_account_data);
  _ ← bail_if (has_extension NonTransferableAccount token_account) TokenError.NonTransferable;
  _ ← validate_owner [Mut (key mint_info); Mut (key token_account_info)] program_id
        (owner (base token_account)) authority_info authority_info_data_len signers;
  _ ← bail_if (is_frozen (base token_account)) TokenError.AccountFrozen;
  _ ← bail_if (negb (bool_decide (mint (base token_account) = key mint_info)))
        TokenError.MintMismatch;
  _ ← bail_if (is_native (base token_account)) TokenError.NativeNotSupported;
  '(confidential_transfer_account, put) ←
    lift (get_extension_mut ConfidentialTransferAccount token_account);
  _ ← lift (cta_valid_as_source confidential_transfer_account);
  _ ← bail_if (negb (bool_decide (cta_elgamal_pubkey confidential_transfer_account =
                                  wp_source_pubkey proof_context)))
        TokenError.ConfidentialTransferElGamalPubkeyMismatch;
  available_balance ←
    if 0 <? amount_ then
      arithmetic_ok (ciphertext_arithmetic.subtract_from
        (cta_available_balance confidential_transfer_account) amount_)
    else mret (cta_available_balance confidential_transfer_account);
  _ ← bail_if (negb (bool_decide (available_balance =
                                  wp_remaining_balance_ciphertext proof_context)))
        TokenError.ConfidentialTransferBalanceMismatch;
  let token_account := put (cta_set_decryptable new_decryptable_available_balance
    (cta_set_available available_balance confidential_transfer_account)) in
  new_amount ← lift (ok_or (u64_checked_add (u64_get (amount (base token_account))) amount_)
                       (TokenError.Overflow : ProgramError));
  write_data token_account_info
    (repack (with_base (set_amount new_amount (base token_account)) token_account)).

(** ** Transfers *)

(** What [process_source_for_transfer] and [process_source_for_transfer_with_fee]
    share: the source's key, the encrypted amount and the new balance come from
    either kind of context. *)
Definition process_source (held : list Borrow) (program_id : Address)
    (source_account_info mint_info authority_info : AccountInfo) (signers : list AccountInfo)
    (source_pubkey : PodElGamalPubkey) (ciphertext_lo ciphertext_hi : PodGroupedElGamalCiphertext3Handles)
    (new_source_ciphertext : PodElGamalCiphertext)
    (new_source_decryptable_available_balance : DecryptableBalance) : M unit :=
  _ ← check_owner source_account_info;
  authority_info_data_len ← data_len held authority_info;
  token_account_data ← borrow_mut held source_account_info;
  let held := Mut (key source_account_info) :: held in
  token_account ← lift (unpack_mut PodAccount token_account_data);
  _ ← bail_if (has_extension NonTransferableAccount token_account) TokenError.NonTransferable;
  _ ← validate_owner held program_id (owner (base token_account)) authority_info
        authority_info_data_len signers;
  _ ← bail_if (bool_decide (key authority_info = owner (base token_account)) &&
               cpi_locked token_account && in_cpi) TokenError.CpiGuardTransferBlocked;
  _ ← bail_if (is_frozen (base token_account)) TokenError.AccountFrozen;
  _ ← bail_if (negb (bool_decide (mint (base token_account) = key mint_info)))
        TokenError.MintMismatch;
  '(confidential_transfer_account, put) ←
    lift (get_extension_mut ConfidentialTransferAccount token_account);
  _ ← lift (cta_valid_as_source confidential_transfer_account);
  _ ← bail_if (negb (bool_decide (source_pubkey = cta_elgamal_pubkey confidential_transfer_account)))
        TokenError.ConfidentialTransferElGamalPubkeyMismatch;
  source_transfer_amount_lo ← extract3 ciphertext_lo 0;
  source_transfer_amount_hi ← extract3 ciphertext_hi 0;
  new_source_available_balance ← arithmetic_ok (ciphertext_arithmetic.subtract_with_lo_hi
    (cta_available_balance confidential_transfer_account) source_transfer_amount_lo
    source_transfer_amount_hi);
  _ ← bail_if (negb (bool_decide (new_source_available_balance = new_source_ciphertext)))
        TokenError.ConfidentialTransferBalanceMismatch;
  write_data source_account_info (repack (put
    (cta_set_decryptable new_source_decryptable_available_balance
       (cta_set_available new_source_available_balance confidential_transfer_account)))).

Definition process_source_for_transfer (held : list Borrow) (program_id : Address)
    (source_account_info mint_info authority_info : AccountInfo) (signers : list AccountInfo)
    (proof_context : TransferProofContext)
    (new_source_decryptable_available_balance : DecryptableBalance) : M unit :=
  process_source held program_id source_account_info mint_info authority_info signers
    (tp_source (tp_transfer_pubkeys proof_context)) (tp_ciphertext_lo proof_context)
    (tp_ciphertext_hi proof_context) (tp_new_source_ciphertext proof_context)
    new_source_decryptable_available_balance.

Definition process_source_for_transfer_with_fee (held : list Borrow) (program_id : Address)
    (source_account_info mint_info authority_info : AccountInfo) (signers : list AccountInfo)
    (proof_context : transfer_with_fee.TransferWithFeeProofContext)
    (new_source_decryptable_available_balance : DecryptableBalance) : M unit :=
  process_source held program_id source_account_info mint_info authority_info signers
    (transfer_with_fee.tf_source (transfer_with_fee.tf_transfer_with_fee_pubkeys proof_context))
    (transfer_with_fee.tf_ciphertext_lo proof_context)
    (transfer_with_fee.tf_ciphertext_hi proof_context)
    (transfer_with_fee.tf_new_source_ciphertext proof_context)
    new_source_decryptable_available_balance.

(** What the two destination functions share: the account is credited, and
    [finish] completes the view and its extension. *)
Definition process_destination (held : list Borrow)
    (destination_account_info mint_info : AccountInfo) (destination_pubkey : PodElGamalPubkey)
    (ciphertext_lo ciphertext_hi : PodGroupedElGamalCiphertext3Handles)
    (finish : ConfidentialTransferAccount ->
       (ConfidentialTransferAccount -> PodStateMut PodAccount) -> M (PodStateMut PodAccount))
    : M unit :=
  _ ← check_owner destination_account_info;
  destination_token_account_data ← borrow_mut held destination_account_info;
  destination_token_account ← lift (unpack_mut PodAccount destination_token_account_data);
  _ ← bail_if (is_frozen (base destination_token_account)) TokenError.AccountFrozen;
  _ ← bail_if (negb (bool_decide (mint (base destination_token_account) = key mint_info)))
        TokenError.MintMismatch;
  _ ← (if memo_required destination_token_account
       then lift check_previous_sibling_instruction_is_memo else mret tt);
  '(destination_confidential_transfer_account, put) ←
    lift (get_extension_mut ConfidentialTransferAccount destination_token_account);
  _ ← lift (cta_valid_as_destination destination_confidential_transfer_account);
  _ ← bail_if (negb (bool_decide (destination_pubkey =
                                  cta_elgamal_pubkey destination_confidential_transfer_account)))
        TokenError.ConfidentialTransferElGamalPubkeyMismatch;
  destination_ciphertext_lo ← extract3 ciphertext_lo 1;
  destination_ciphertext_hi ← extract3 ciphertext_hi 1;
  pending_balance_lo ← arithmetic_ok (ciphertext_arithmetic.add
    (cta_pending_balance_lo destination_confidential_transfer_account) destination_ciphertext_lo);
  pending_balance_hi ← arithmetic_ok (ciphertext_arithmetic.add
    (cta_pending_balance_hi destination_confidential_transfer_account) destination_ciphertext_hi);
  destination_confidential_transfer_account ← lift (cta_increment_pending_balance_credit_counter
    (cta_set_pending pending_balance_lo pending_balance_hi
       destination_confidential_transfer_account));
  destination_token_account ← finish destination_confidential_transfer_account put;
  write_data destination_account_info (repack destination_token_account).

Definition process_destination_for_transfer (held : list Borrow)
    (destination_account_info mint_info : AccountInfo) (proof_context : TransferProofContext)
    : M unit :=
  process_destination held destination_account_info mint_info
    (tp_destination (tp_transfer_pubkeys proof_context)) (tp_ciphertext_lo proof_context)
    (tp_ciphertext_hi proof_context) (fun account put => mret (put account)).

(** [process transfer fee]: the fee leaves the pending balance and is withheld
    under the key of the withdraw authority. *)
Definition withhold_fee (fee_ciphertext_lo fee_ciphertext_hi : PodGroupedElGamalCiphertext2Handles)
    (account : ConfidentialTransferAccount)
    (put : ConfidentialTransferAccount -> PodStateMut PodAccount) : M (PodStateMut PodAccount) :=
  destination_fee_lo ← extract2 fee_ciphertext_lo 0;
  destination_fee_hi ← extract2 fee_ciphertext_hi 0;
  pending_balance_lo ← arithmetic_ok (ciphertext_arithmetic.subtract
    (cta_pending_balance_lo account) destination_fee_lo);
  pending_balance_hi ← arithmetic_ok (ciphertext_arithmetic.subtract
    (cta_pending_balance_hi account) destination_fee_hi);
  let destination_token_account :=
    put (cta_set_pending pending_balance_lo pending_balance_hi account) in
  withdraw_withheld_authority_fee_lo ← extract2 fee_ciphertext_lo 1;
  withdraw_withheld_authority_fee_hi ← extract2 fee_ciphertext_hi 1;
  '(destination_confidential_transfer_fee_amount, put) ←
    lift (get_extension_mut ConfidentialTransferFeeAmount destination_token_account);
  withheld_amount ← arithmetic_ok (ciphertext_arithmetic.add_with_lo_hi
    (ctfa_withheld_amount destination_confidential_transfer_fee_amount)
    withdraw_withheld_authority_fee_lo withdraw_withheld_authority_fee_hi);
  mret (put (mk_ctfa withheld_amount)).

Definition process_destination_for_transfer_with_fee (held : list Borrow)
    (destination_account_info mint_info : AccountInfo)
    (proof_context : transfer_with_fee.TransferWithFeeProofContext) (is_self_transfer : bool)
    : M unit :=
  process_destination held destination_account_info mint_info
    (transfer_with_fee.tf_destination (transfer_with_fee.tf_transfer_with_fee_pubkeys proof_context))
    (transfer_with_fee.tf_ciphertext_lo proof_context)
    (transfer_with_fee.tf_ciphertext_hi proof_context)
    (fun account put =>
       if negb is_self_transfer then
         withhold_fee (transfer_with_fee.tf_fee_ciphertext_lo proof_context)
           (transfer_with_fee.tf_fee_ciphertext_hi proof_context) account put
       else mret (put account)).

(** The checks on the amounts encrypted for the auditor. *)
Definition check_auditor (ciphertext_lo ciphertext_hi : PodGroupedElGamalCiphertext3Handles)
    (auditor_ciphertext_lo auditor_ciphertext_hi : PodElGamalCiphertext) : M unit :=
  proof_context_auditor_ciphertext_lo ← extract3 ciphertext_lo 2;
  proof_context_auditor_ciphertext_hi ← extract3 ciphertext_hi 2;
  lift (check_auditor_ciphertext auditor_ciphertext_lo auditor_ciphertext_hi
          proof_context_auditor_ciphertext_lo proof_context_auditor_ciphertext_hi).

(** The branch of [process_transfer] for a mint without fees: the authority and
    the accounts that follow it. *)
Definition transfer_without_fee (program_id : Address)
    (source_account_info mint_info destination_account_info : AccountInfo) (iter : list AccountInfo)
    (confidential_transfer_mint : ConfidentialTransferMint)
    (new_source_decryptable_available_balance : DecryptableBalance)
    (transfer_amount_auditor_ciphertext_lo transfer_amount_auditor_ciphertext_hi : PodElGamalCiphertext)
    (equality_proof_instruction_offset
     transfer_amount_ciphertext_validity_proof_instruction_offset
     range_proof_instruction_offset : Z) : M (AccountInfo * list AccountInfo) :=
  let held := [Mut (key mint_info)] in
  '(proof_context, iter) ← verify_transfer_proof held iter equality_proof_instruction_offset
    transfer_amount_ciphertext_validity_proof_instruction_offset range_proof_instruction_offset;
  '(authority_info, signers) ← lift (next_account_info iter);
  _ ← bail_if (negb (bool_decide (ctm_auditor_elgamal_pubkey confidential_transfer_mint =
                                  tp_auditor (tp_transfer_pubkeys proof_context))))
        TokenError.ConfidentialTransferElGamalPubkeyMismatch;
  _ ← check_auditor (tp_ciphertext_lo proof_context) (tp_ciphertext_hi proof_context)
        transfer_amount_auditor_ciphertext_lo transfer_amount_auditor_ciphertext_hi;
  _ ← process_source_for_transfer held program_id source_account_info mint_info authority_info
        signers proof_context new_source_decryptable_available_balance;
  _ ← process_destination_for_transfer held destination_account_info mint_info proof_context;
  mret (authority_info, signers).

(** The branch for a mint with fees. *)
Definition transfer_with_fee_ (program_id : Address)
    (source_account_info mint_info destination_account_info : AccountInfo) (iter : list AccountInfo)
    (mint : PodState PodMint) (confidential_transfer_mint : ConfidentialTransferMint)
    (new_source_decryptable_available_balance : DecryptableBalance)
    (transfer_amount_auditor_ciphertext_lo transfer_amount_auditor_ciphertext_hi : PodElGamalCiphertext)
    (equality_proof_instruction_offset
     transfer_amount_ciphertext_validity_proof_instruction_offset : Z)
    (fee_sigma_proof_instruction_offset
     fee_ciphertext_validity_proof_instruction_offset : option Z)
    (range_proof_instruction_offset : Z) : M (AccountInfo * list AccountInfo) :=
  let held := [Mut (key mint_info)] in
  transfer_fee_config ← lift (get_extension TransferFeeConfig mint);
  clock ← lift rt_clock;
  let fee_parameters := get_epoch_fee transfer_fee_config (clock_epoch clock) in
  fee_sigma_proof_instruction_offset ←
    lift (ok_or fee_sigma_proof_instruction_offset ProgramError.InvalidInstructionData);
  fee_ciphertext_validity_proof_insruction_offset ←
    lift (ok_or fee_ciphertext_validity_proof_instruction_offset ProgramError.InvalidInstructionData);
  '(proof_context, iter) ← verify_transfer_with_fee_proof held iter
    equality_proof_instruction_offset transfer_amount_ciphertext_validity_proof_instruction_offset
    fee_sigma_proof_instruction_offset fee_ciphertext_validity_proof_insruction_offset
    range_proof_instruction_offset fee_parameters;
  '(authority_info, signers) ← lift (next_account_info iter);
  let pubkeys := transfer_with_fee.tf_transfer_with_fee_pubkeys proof_context in
  _ ← bail_if (negb (bool_decide (ctm_auditor_elgamal_pubkey confidential_transfer_mint =
                                  transfer_with_fee.tf_auditor pubkeys)))
        TokenError.ConfidentialTransferElGamalPubkeyMismatch;
  confidential_transfer_fee_config ← lift (get_extension ConfidentialTransferFeeConfig mint);
  _ ← bail_if (negb (bool_decide (transfer_with_fee.tf_withdraw_withheld_authority pubkeys =
        ctfc_withdraw_withheld_authority_elgamal_pubkey confidential_transfer_fee_config)))
        TokenError.ConfidentialTransferElGamalPubkeyMismatch;
  _ ← check_auditor (transfer_with_fee.tf_ciphertext_lo proof_context)
        (transfer_with_fee.tf_ciphertext_hi proof_context)
        transfer_amount_auditor_ciphertext_lo transfer_amount_auditor_ciphertext_hi;
  _ ← process_source_for_transfer_with_fee held program_id source_account_info mint_info
        authority_info signers proof_context new_source_decryptable_available_balance;
  let is_self_transfer := bool_decide (key source_account_info = key destination_account_info) in
  _ ← process_destination_for_transfer_with_fee held destination_account_info mint_info
        proof_context is_self_transfer;
  mret (authority_info, signers).

(** The scope in which an account is marked as transferring. *)
Definition mark_transferring (held : list Borrow) (account_info : AccountInfo) : M unit :=
  account_data ← borrow_mut held account_info;
  account ← lift (unpack_mut PodAccount account_data);
  account ← lift (set_transferring account);
  write_data account_info (repack account).

(** The call of the transfer hook; the amount is unknown. *)
Definition call_hook (mint_info source_account_info destination_account_info authority_info : AccountInfo)
    (signers : list AccountInfo) (hook_program_id : Address) : M unit :=
  _ ← mark_transferring [Mut (key mint_info)] source_account_info;
  _ ← mark_transferring [Mut (key mint_info)] destination_account_info;
  _ ← invoke (rt_invoke_execute hook_program_id source_account_info mint_info
                destination_account_info authority_info signers u64_max);
  _ ← unset_transferring source_account_info;
  unset_transferring destination_account_info.

Definition process_transfer (program_id : Address) (accounts : list AccountInfo)
    (new_source_decryptable_available_balance : DecryptableBalance)
    (transfer_amount_auditor_ciphertext_lo transfer_amount_auditor_ciphertext_hi : PodElGamalCiphertext)
    (equality_proof_instruction_offset
     transfer_amount_ciphertext_validity_proof_instruction_offset : Z)
    (fee_sigma_proof_instruction_offset
     fee_ciphertext_validity_proof_instruction_offset : option Z)
    (range_proof_instruction_offset : Z) : M unit :=
  '(source_account_info, iter) ← lift (next_account_info accounts);
  '(mint_info, iter) ← lift (next_account_info iter);
  '(destination_account_info, iter) ← lift (next_account_info iter);
  _ ← check_owner mint_info;
  mint_data ← borrow_mut [] mint_info;
  mint ← lift (unpack PodMint mint_data);
  _ ← bail_if (mint_paused mint) TokenError.MintPaused;
  confidential_transfer_mint ← lift (get_extension ConfidentialTransferMint mint);
  '(authority_info, signers) ←
    if negb (has_extension TransferFeeConfig mint) then
      transfer_without_fee program_id source_account_info mint_info destination_account_info iter
        confidential_transfer_mint new_source_decryptable_available_balance
        transfer_amount_auditor_ciphertext_lo transfer_amount_auditor_ciphertext_hi
        equality_proof_instruction_offset
        transfer_amount_ciphertext_validity_proof_instruction_offset range_proof_instruction_offset
    else
      transfer_with_fee_ program_id source_account_info mint_info destination_account_info iter mint
        confidential_transfer_mint new_source_decryptable_available_balance
        transfer_amount_auditor_ciphertext_lo transfer_amount_auditor_ciphertext_hi
        equality_proof_instruction_offset
        transfer_amount_ciphertext_validity_proof_instruction_offset
        fee_sigma_proof_instruction_offset fee_ciphertext_validity_proof_instruction_offset
        range_proof_instruction_offset;
  match get_program_id mint with
  | Some hook_program_id =>
      call_hook mint_info source_account_info destination_account_info authority_info signers
        hook_program_id
  | None => mret tt
  end.

(** ** The owner's settings *)

(** The accounts, the owner's signature and the extension, which the last
    instructions start with; [fields] sets the extension. *)
Definition update_account_extension (program_id : Address) (accounts : list AccountInfo)
    (check : PodStateMut PodAccount -> Result ProgramError unit)
    (fields : ConfidentialTransferAccount -> M ConfidentialTransferAccount) : M unit :=
  '(token_account_info, iter) ← lift (next_account_info accounts);
  '(authority_info, signers) ← lift (next_account_info iter);
  authority_info_data_len ← data_len [] authority_info;
  _ ← check_owner token_account_info;
  token_account_data ← borrow_mut [] token_account_info;
  token_account ← lift (unpack_mut PodAccount token_account_data);
  _ ← validate_owner [Mut (key token_account_info)] program_id (owner (base token_account))
        authority_info authority_info_data_len signers;
  _ ← lift (check token_account);
  '(confidential_transfer_account, put) ←
    lift (get_extension_mut ConfidentialTransferAccount token_account);
  confidential_transfer_account ← fields confidential_transfer_account;
  write_data token_account_info (repack (put confidential_transfer_account)).

Definition process_apply_pending_balance (program_id : Address) (accounts : list AccountInfo)
    (data : ApplyPendingBalanceData) : M unit :=
  update_account_extension program_id accounts
    (fun token_account => fail_if (is_frozen (base token_account)) TokenError.AccountFrozen)
    (fun confidential_transfer_account =>
      available_balance ← arithmetic_ok (ciphertext_arithmetic.add_with_lo_hi
        (cta_available_balance confidential_transfer_account)
        (cta_pending_balance_lo confidential_transfer_account)
        (cta_pending_balance_hi confidential_transfer_account));
      mret (cta_set_pending (zeroed 64) (zeroed 64)
        (cta_set_counters (u64_new 0) (ap_expected_pending_balance_credit_counter data)
           (cta_pending_balance_credit_counter confidential_transfer_account)
        (cta_set_decryptable (ap_new_decryptable_available_balance data)
        (cta_set_available available_balance confidential_transfer_account))))).

Definition process_allow_confidential_credits (program_id : Address) (accounts : list AccountInfo)
    (allow_confidential_credits : bool) : M unit :=
  update_account_extension program_id accounts (fun _ => Ok tt)
    (fun e => mret (cta_set_credits (bool_new allow_confidential_credits)
                      (cta_allow_non_confidential_credits e) e)).

Definition process_allow_non_confidential_credits (program_id : Address)
    (accounts : list AccountInfo) (allow_non_confidential_credits : bool) : M unit :=
  update_account_extension program_id accounts (fun _ => Ok tt)
    (fun e => mret (cta_set_credits (cta_allow_confidential_credits e)
                      (bool_new allow_non_confidential_credits) e)).

Definition process_instruction (program_id : Address) (accounts : list AccountInfo)
    (input : list byte) : M unit :=
  _ ← lift (check_program_account program_id);
  instruction ← lift (decode_instruction_type instruction_try_from input);
  match instruction with
  | InitializeMint =>
      data ← lift (decode_instruction_data InitializeMintData input);
      process_initialize_mint accounts (im_authority data) (im_auto_approve_new_accounts data)
        (im_auditor_elgamal_pubkey data)
  | UpdateMint =>
      data ← lift (decode_instruction_data UpdateMintData input);
      process_update_mint accounts (um_auto_approve_new_accounts data)
        (um_auditor_elgamal_pubkey data)
  | ConfigureAccount =>
      data ← lift (decode_instruction_data ConfigureAccountInstructionData input);
      process_configure_account [] program_id accounts (ca_decryptable_zero_balance data)
        (ca_maximum_pending_balance_credit_counter data)
        (ProofInstructionOffset (i8_get (ca_proof_instruction_offset data)))
  | ApproveAccount => process_approve_account accounts
  | EmptyAccount =>
      data ← lift (decode_instruction_data EmptyAccountInstructionData input);
      process_empty_account program_id accounts (i8_get (ea_proof_instruction_offset data))
  | Deposit =>
      data ← lift (decode_instruction_data DepositInstructionData input);
      process_deposit program_id accounts (u64_get (di_amount data)) (di_decimals data)
  | Withdraw =>
      data ← lift (decode_instruction_data WithdrawInstructionData input);
      process_withdraw program_id accounts (u64_get (wi_amount data)) (wi_decimals data)
        (wi_new_decryptable_available_balance data)
        (i8_get (wi_equality_proof_instruction_offset data))
        (i8_get (wi_range_proof_instruction_offset data))
  | Transfer =>
      data ← lift (decode_instruction_data TransferInstructionData input);
      process_transfer program_id accounts (ti_new_source_decryptable_available_balance data)
        (ti_transfer_amount_auditor_ciphertext_lo data)
        (ti_transfer_amount_auditor_ciphertext_hi data)
        (i8_get (ti_equality_proof_instruction_offset data))
        (i8_get (ti_ciphertext_validity_proof_instruction_offset data)) None None
        (i8_get (ti_range_proof_instruction_offset data))
  | ApplyPendingBalance =>
      data ← lift (decode_instruction_data ApplyPendingBalanceData input);
      process_apply_pending_balance program_id accounts data
  | DisableConfidentialCredits => process_allow_confidential_credits program_id accounts false
  | EnableConfidentialCredits => process_allow_confidential_credits program_id accounts true
  | DisableNonConfidentialCredits =>
      process_allow_non_confidential_credits program_id accounts false
  | EnableNonConfidentialCredits =>
      process_allow_non_confidential_credits program_id accounts true
  | TransferWithFee =>
      data ← lift (decode_instruction_data TransferWithFeeInstructionData input);
      process_transfer program_id accounts (tw_new_source_decryptable_available_balance data)
        (tw_transfer_amount_auditor_ciphertext_lo data)
        (tw_transfer_amount_auditor_ciphertext_hi data)
        (i8_get (tw_equality_proof_instruction_offset data))
        (i8_get (tw_transfer_amount_ciphertext_validity_proof_instruction_offset data))
        (Some (i8_get (tw_fee_sigma_proof_instruction_offset data)))
        (Some (i8_get (tw_fee_ciphertext_validity_proof_instruction_offset data)))
        (i8_get (tw_range_proof_instruction_offset data))
  | ConfigureAccountWithRegistry => process_configure_account_with_registry program_id accounts
  end.

End processor.
End confidential_transfer.
