(* ===== verification/ConfidentialTransferFee.v ===== *)
(** * Fees of confidential transfers

    [program/src/extension/confidential_transfer_fee/processor.rs] with
    [interface/src/extension/confidential_transfer_fee/instruction.rs]: the fees
    of confidential transfers are withheld as ciphertexts under the key of the
    withdraw authority, harvested to the mint, and withdrawn to an account
    against a proof that the same amount is encrypted under its key. *)
From S2P Require Import Prelude Bytes Errors Ids Runtime Pod ExtensionState CiphertextArithmetic.
From S2P Require Import ProofExtraction Extension TlvTheory ViewTheory AccountLen TransferFee.
From S2P Require Import MonadTheory Ownership PodInstruction Initialize Settings Fees.
From S2P Require Import VariableLen ConfidentialTransfer.

(** ** Fields of the mint extension *)

Definition ctfc_set_withheld (withheld : EncryptedBalance) (e : ConfidentialTransferFeeConfig)
    : ConfidentialTransferFeeConfig :=
  mk_ctfc (ctfc_authority e) (ctfc_withdraw_withheld_authority_elgamal_pubkey e)
    (ctfc_harvest_to_mint_enabled e) withheld.

Definition ctfc_set_harvest (enabled : bool) (e : ConfidentialTransferFeeConfig)
    : ConfidentialTransferFeeConfig :=
  mk_ctfc (ctfc_authority e) (ctfc_withdraw_withheld_authority_elgamal_pubkey e)
    (bool_new enabled) (ctfc_withheld_amount e).

Module confidential_transfer_fee.

Inductive ConfidentialTransferFeeInstruction : Type :=
  | InitializeConfidentialTransferFeeConfig
  | WithdrawWithheldTokensFromMint
  | WithdrawWithheldTokensFromAccounts
  | HarvestWithheldTokensToMint
  | EnableHarvestToMint
  | DisableHarvestToMint.

Definition sequential_instructions : list ConfidentialTransferFeeInstruction :=
  [InitializeConfidentialTransferFeeConfig; WithdrawWithheldTokensFromMint;
   WithdrawWithheldTokensFromAccounts; HarvestWithheldTokensToMint; EnableHarvestToMint;
   DisableHarvestToMint].

Definition instruction_try_from (b : byte) : option ConfidentialTransferFeeInstruction :=
  sequential_instructions !! Z.to_nat (u8_to_Z b).

Record InitializeConfidentialTransferFeeConfigData : Type := mk_initialize_config {
  ic_authority : MaybeNull;
  ic_withdraw_withheld_authority_elgamal_pubkey : PodElGamalPubkey
}.
#[global] Instance InitializeConfidentialTransferFeeConfigData_pod :
  Pod InitializeConfidentialTransferFeeConfigData.
Proof.
  refine (pod_iso (fun x => (ic_authority x, ic_withdraw_withheld_authority_elgamal_pubkey x))
    (fun '(a, b) => mk_initialize_config a b) _ _); solve_pod_iso.
Defined.

Record WithdrawWithheldTokensFromMintData : Type := mk_withdraw_from_mint {
  wm_proof_instruction_offset : byte;
  wm_new_decryptable_available_balance : DecryptableBalance
}.
#[global] Instance WithdrawWithheldTokensFromMintData_pod : Pod WithdrawWithheldTokensFromMintData.
Proof.
  refine (pod_iso (fun x => (wm_proof_instruction_offset x, wm_new_decryptable_available_balance x))
    (fun '(a, b) => mk_withdraw_from_mint a b) _ _); solve_pod_iso.
Defined.

Record WithdrawWithheldTokensFromAccountsData : Type := mk_withdraw_from_accounts {
  wa_num_token_accounts : byte;
  wa_proof_instruction_offset : byte;
  wa_new_decryptable_available_balance : DecryptableBalance
}.
#[global] Instance WithdrawWithheldTokensFromAccountsData_pod :
  Pod WithdrawWithheldTokensFromAccountsData.
Proof.
  refine (pod_iso (fun x => (wa_num_token_accounts x, (wa_proof_instruction_offset x,
    wa_new_decryptable_available_balance x))) (fun '(a, (b, c)) => mk_withdraw_from_accounts a b c) _ _);
    solve_pod_iso.
Defined.

Section processor.
Context `{RT : Runtime} `{CV : CurveInterface} `{ZK : ZkInterface} `{ZC : !ZkContexts}.

Definition process_initialize_confidential_transfer_fee_config (accounts : list AccountInfo)
    (authority : MaybeNull) (withdraw_withheld_authority_elgamal_pubkey : PodElGamalPubkey) : M unit :=
  '(mint_account_info, _) ← lift (next_account_info accounts);
  initialize_extension PodMint ConfidentialTransferFeeConfig mint_account_info (fun _ =>
    mret (mk_ctfc authority withdraw_withheld_authority_elgamal_pubkey (bool_new true) (zeroed 64))).

(** The withdraw authority of the mint's fees must sign. *)
Definition withdraw_authority_signs (program_id : Address) (mint_account_info : AccountInfo)
    (mint : PodStateMut PodMint) (authority_info : AccountInfo) (authority_info_data_len : nat)
    (signers : list AccountInfo) : M unit :=
  transfer_fee_config ← lift (get_extension TransferFeeConfig mint);
  withdraw_withheld_authority ←
    lift (ok_or (maybe_null_get (tfc_withdraw_withheld_authority transfer_fee_config))
            (TokenError.NoAuthorityExists : ProgramError));
  validate_owner [Mut (key mint_account_info)] program_id withdraw_withheld_authority authority_info
    authority_info_data_len signers.

Definition process_withdraw_withheld_tokens_from_mint (program_id : Address)
    (accounts : list AccountInfo) (new_decryptable_available_balance : DecryptableBalance)
    (proof_instruction_offset : Z) : M unit :=
  '(mint_account_info, iter) ← lift (next_account_info accounts);
  '(destination_account_info, iter) ← lift (next_account_info iter);
  '(proof_context, iter) ← verify_and_extract_context CiphertextCiphertextEqualityProofContext
    ProofType.CiphertextCiphertextEquality [] iter proof_instruction_offset None;
  '(authority_info, signers) ← lift (next_account_info iter);
  authority_info_data_len ← data_len [] authority_info;
  _ ← check_owner mint_account_info;
  mint_data ← borrow_mut [] mint_account_info;
  mint_ ← lift (unpack_mut PodMint mint_data);
  _ ← withdraw_authority_signs program_id mint_account_info mint_ authority_info
        authority_info_data_len signers;
  '(confidential_transfer_fee_config, put_config) ←
    lift (get_extension_mut ConfidentialTransferFeeConfig mint_);
  _ ← check_owner destination_account_info;
  destination_account_data ← borrow_mut [Mut (key mint_account_info)] destination_account_info;
  destination_account ← lift (unpack_mut PodAccount destination_account_data);
  _ ← bail_if (negb (bool_decide (mint (base destination_account) = key mint_account_info)))
        TokenError.MintMismatch;
  _ ← bail_if (is_frozen (base destination_account)) TokenError.AccountFrozen;
  '(destination_confidential_transfer_account, put) ←
    lift (get_extension_mut ConfidentialTransferAccount destination_account);
  _ ← lift (cta_valid_as_withheld_amount_destination destination_confidential_transfer_account);
  _ ← bail_if (negb (bool_decide (cce_first_pubkey proof_context =
        ctfc_withdraw_withheld_authority_elgamal_pubkey confidential_transfer_fee_config)))
        TokenError.ConfidentialTransferElGamalPubkeyMismatch;
  _ ← bail_if (negb (bool_decide (cce_second_pubkey proof_context =
                                  cta_elgamal_pubkey destination_confidential_transfer_account)))
        TokenError.ConfidentialTransferElGamalPubkeyMismatch;
  _ ← bail_if (negb (bool_decide (cce_first_ciphertext proof_context =
                                  ctfc_withheld_amount confidential_transfer_fee_config)))
        TokenError.ConfidentialTransferBalanceMismatch;
  available_balance ← arithmetic_ok (ciphertext_arithmetic.add
    (cta_available_balance destination_confidential_transfer_account)
    (cce_second_ciphertext proof_context));
  _ ← write_data mint_account_info
        (repack (put_config (ctfc_set_withheld (zeroed 64) confidential_transfer_fee_config)));
  write_data destination_account_info (repack (put
    (cta_set_decryptable new_decryptable_available_balance
       (cta_set_available available_balance destination_confidential_transfer_account)))).

(** The errors are token errors, which the callers log and skip. *)
Definition harvest_from_account (held : list Borrow) (mint_key : Address)
    (token_account_info : AccountInfo) : M EncryptedBalance :=
  token_account_data ← borrow_mut held token_account_info;
  token_account ← lift (map_err (fun _ => token_error_into TokenError.InvalidState)
                          (unpack_mut PodAccount token_account_data));
  _ ← bail_if (negb (bool_decide (mint (base token_account) = mint_key))) TokenError.MintMismatch;
  owner ← info_owner token_account_info;
  _ ← lift (map_err (fun _ => token_error_into TokenError.InvalidState)
              (check_program_account owner));
  '(confidential_transfer_token_account, put) ←
    lift (map_err (fun _ => token_error_into TokenError.InvalidState)
            (get_extension_mut ConfidentialTransferFeeAmount token_account));
  _ ← write_data token_account_info (repack (put (mk_ctfa (zeroed 64))));
  mret (ctfa_withheld_amount confidential_transfer_token_account).

(** The loop over the sources: the destination's view, and the sum. *)
Fixpoint sum_withheld (mint_key destination_key : Address)
    (destination_account : PodStateMut PodAccount) (aggregate_withheld_amount : EncryptedBalance)
    (account_infos : list AccountInfo) : M (PodStateMut PodAccount * EncryptedBalance) :=
  match account_infos with
  | [] => mret (destination_account, aggregate_withheld_amount)
  | account_info :: rest =>
      if bool_decide (key account_info = destination_key) then
        '(destination_confidential_transfer_fee_amount, put) ←
          lift (map_err (fun _ => token_error_into TokenError.InvalidState)
                  (get_extension_mut ConfidentialTransferFeeAmount destination_account));
        aggregate_withheld_amount ← arithmetic_ok (ciphertext_arithmetic.add
          aggregate_withheld_amount
          (ctfa_withheld_amount destination_confidential_transfer_fee_amount));
        sum_withheld mint_key destination_key (put (mk_ctfa (zeroed 64)))
          aggregate_withheld_amount rest
      else
        harvested ← transfer_fee.attempt
          (harvest_from_account [Mut mint_key; Mut destination_key] mint_key account_info);
        match harvested with
        | Some encrypted_withheld_amount =>
            aggregate_withheld_amount ← arithmetic_ok (ciphertext_arithmetic.add
              aggregate_withheld_amount encrypted_withheld_amount);
            sum_withheld mint_key destination_key destination_account
              aggregate_withheld_amount rest
        | None =>
            sum_withheld mint_key destination_key destination_account
              aggregate_withheld_amount rest
        end
  end.

Definition process_withdraw_withheld_tokens_from_accounts (program_id : Address)
    (accounts : list AccountInfo) (num_token_accounts : byte)
    (new_decryptable_available_balance : DecryptableBalance) (proof_instruction_offset : Z) : M unit :=
  '(mint_account_info, iter) ← lift (next_account_info accounts);
  '(destination_account_info, iter) ← lift (next_account_info iter);
  '(proof_context, iter) ← verify_and_extract_context CiphertextCiphertextEqualityProofContext
    ProofType.CiphertextCiphertextEquality [] iter proof_instruction_offset None;
  '(authority_info, account_infos) ← lift (next_account_info iter);
  authority_info_data_len ← data_len [] authority_info;
  let num_signers := (length account_infos - Z.to_nat (u8_to_Z num_token_accounts))%nat in
  _ ← check_owner mint_account_info;
  mint_data ← borrow_mut [] mint_account_info;
  mint_ ← lift (unpack_mut PodMint mint_data);
  _ ← withdraw_authority_signs program_id mint_account_info mint_ authority_info
        authority_info_data_len (take num_signers account_infos);
  _ ← check_owner destination_account_info;
  destination_account_data ← borrow_mut [Mut (key mint_account_info)] destination_account_info;
  destination_account ← lift (unpack_mut PodAccount destination_account_data);
  _ ← bail_if (negb (bool_decide (mint (base destination_account) = key mint_account_info)))
        TokenError.MintMismatch;
  _ ← bail_if (is_frozen (base destination_account)) TokenError.AccountFrozen;
  destination_confidential_transfer_account ←
    lift (get_extension ConfidentialTransferAccount destination_account);
  _ ← lift (cta_valid_as_withheld_amount_destination destination_confidential_transfer_account);
  confidential_transfer_fee_config ← lift (get_extension ConfidentialTransferFeeConfig mint_);
  _ ← bail_if (negb (bool_decide (cce_first_pubkey proof_context =
        ctfc_withdraw_withheld_authority_elgamal_pubkey confidential_transfer_fee_config)))
        TokenError.ConfidentialTransferElGamalPubkeyMismatch;
  _ ← bail_if (negb (bool_decide (cce_second_pubkey proof_context =
                                  cta_elgamal_pubkey destination_confidential_transfer_account)))
        TokenError.ConfidentialTransferElGamalPubkeyMismatch;
  '(destination_account, aggregate_withheld_amount) ←
    sum_withheld (key mint_account_info) (key destination_account_info) destination_account
      (zeroed 64) (drop num_signers account_infos);
  _ ← bail_if (negb (bool_decide (cce_first_ciphertext proof_context = aggregate_withheld_amount)))
        TokenError.ConfidentialTransferBalanceMismatch;
  '(destination_confidential_transfer_account, put) ←
    lift (get_extension_mut ConfidentialTransferAccount destination_account);
  available_balance ← lift (ok_or (ciphertext_arithmetic.add
      (cta_available_balance destination_confidential_transfer_account)
      (cce_second_ciphertext proof_context)) ProgramError.InvalidInstructionData);
  write_data destination_account_info (repack (put
    (cta_set_decryptable new_decryptable_available_balance
       (cta_set_available available_balance destination_confidential_transfer_account)))).

(** The loop of [process_harvest_withheld_tokens_to_mint]. *)
Fixpoint harvest_all (mint_key : Address) (withheld : EncryptedBalance)
    (token_account_infos : list AccountInfo) : M EncryptedBalance :=
  match token_account_infos with
  | [] => mret withheld
  | token_account_info :: rest =>
      harvested ← transfer_fee.attempt
        (harvest_from_account [Mut mint_key] mint_key token_account_info);
      match harvested with
      | Some withheld_amount =>
          withheld ← arithmetic_ok (ciphertext_arithmetic.add withheld withheld_amount);
          harvest_all mint_key withheld rest
      | None => harvest_all mint_key withheld rest
      end
  end.

Definition process_harvest_withheld_tokens_to_mint (accounts : list AccountInfo) : M unit :=
  '(mint_account_info, token_account_infos) ← lift (next_account_info accounts);
  _ ← check_owner mint_account_info;
  mint_data ← borrow_mut [] mint_account_info;
  mint ← lift (unpack_mut PodMint mint_data);
  _ ← lift (get_extension TransferFeeConfig mint);
  '(confidential_transfer_fee_mint, put) ←
    lift (get_extension_mut ConfidentialTransferFeeConfig mint);
  _ ← bail_if (negb (bool_get (ctfc_harvest_to_mint_enabled confidential_transfer_fee_mint)))
        TokenError.HarvestToMintDisabled;
  withheld ← harvest_all (key mint_account_info) (ctfc_withheld_amount confidential_transfer_fee_mint)
    token_account_infos;
  write_data mint_account_info (repack (put (ctfc_set_withheld withheld confidential_transfer_fee_mint))).

(** The authority of the configuration enables or disables harvesting. *)
Definition process_enable_harvest_to_mint (program_id : Address) (accounts : list AccountInfo) : M unit :=
  update_mint_extension ConfidentialTransferFeeConfig ctfc_authority TokenError.NoAuthorityExists
    (fun e => mret (ctfc_set_harvest true e)) program_id accounts.

Definition process_disable_harvest_to_mint (program_id : Address) (accounts : list AccountInfo) : M unit :=
  update_mint_extension ConfidentialTransferFeeConfig ctfc_authority TokenError.NoAuthorityExists
    (fun e => mret (ctfc_set_harvest false e)) program_id accounts.

Definition process_instruction (program_id : Address) (accounts : list AccountInfo)
    (input : list byte) : M unit :=
  _ ← lift (check_program_account program_id);
  instruction ← lift (decode_instruction_type instruction_try_from input);
  match instruction with
  | InitializeConfidentialTransferFeeConfig =>
      data ← lift (decode_instruction_data InitializeConfidentialTransferFeeConfigData input);
      process_initialize_confidential_transfer_fee_config accounts (ic_authority data)
        (ic_withdraw_withheld_authority_elgamal_pubkey data)
  | WithdrawWithheldTokensFromMint =>
      data ← lift (decode_instruction_data WithdrawWithheldTokensFromMintData input);
      process_withdraw_withheld_tokens_from_mint program_id accounts
        (wm_new_decryptable_available_balance data) (i8_get (wm_proof_instruction_offset data))
  | WithdrawWithheldTokensFromAccounts =>
      data ← lift (decode_instruction_data WithdrawWithheldTokensFromAccountsData input);
      process_withdraw_withheld_tokens_from_accounts program_id accounts
        (wa_num_token_accounts data) (wa_new_decryptable_available_balance data)
        (i8_get (wa_proof_instruction_offset data))
  | HarvestWithheldTokensToMint => process_harvest_withheld_tokens_to_mint accounts
  | EnableHarvestToMint => process_enable_harvest_to_mint program_id accounts
  | DisableHarvestToMint => process_disable_harvest_to_mint program_id accounts
  end.

End processor.
End confidential_transfer_fee.
