(* ===== verification/ConfidentialMintBurn.v ===== *)
(** * Confidential supply

    [program/src/extension/confidential_mint_burn] with
    [interface/src/extension/confidential_mint_burn/instruction.rs]: a mint with
    the extension records its supply as a ciphertext.  Minting adds to it;
    burning adds to a pending ciphertext that the authority subtracts later. *)
From S2P Require Import Prelude Bytes Errors Ids Runtime Pod ExtensionState CiphertextArithmetic.
From S2P Require Import ProofExtraction Extension TlvTheory ViewTheory AccountLen TransferFee.
From S2P Require Import MonadTheory Ownership Supply PodInstruction Initialize VariableLen.
From S2P Require Import ConfidentialTransfer.

(** ** Fields of the mint extension *)

Definition cmb_set_supply (supply : EncryptedBalance) (e : ConfidentialMintBurn) : ConfidentialMintBurn :=
  mk_cmb supply (cmb_decryptable_supply e) (cmb_supply_elgamal_pubkey e) (cmb_pending_burn e).

Definition cmb_set_decryptable (decryptable : DecryptableBalance) (e : ConfidentialMintBurn)
    : ConfidentialMintBurn :=
  mk_cmb (cmb_confidential_supply e) decryptable (cmb_supply_elgamal_pubkey e) (cmb_pending_burn e).

Definition cmb_set_pubkey (pubkey : PodElGamalPubkey) (e : ConfidentialMintBurn) : ConfidentialMintBurn :=
  mk_cmb (cmb_confidential_supply e) (cmb_decryptable_supply e) pubkey (cmb_pending_burn e).

Definition cmb_set_pending (pending : EncryptedBalance) (e : ConfidentialMintBurn) : ConfidentialMintBurn :=
  mk_cmb (cmb_confidential_supply e) (cmb_decryptable_supply e) (cmb_supply_elgamal_pubkey e) pending.

Module confidential_mint_burn.

Inductive ConfidentialMintBurnInstruction : Type :=
  | InitializeMint
  | RotateSupplyElGamalPubkey
  | UpdateDecryptableSupply
  | Mint
  | Burn
  | ApplyPendingBurn.

Definition sequential_instructions : list ConfidentialMintBurnInstruction :=
  [InitializeMint; RotateSupplyElGamalPubkey; UpdateDecryptableSupply; Mint; Burn; ApplyPendingBurn].

Definition instruction_try_from (b : byte) : option ConfidentialMintBurnInstruction :=
  sequential_instructions !! Z.to_nat (u8_to_Z b).

Record InitializeMintData : Type := mk_initialize_mint {
  im_supply_elgamal_pubkey : PodElGamalPubkey;
  im_decryptable_supply : DecryptableBalance
}.
#[global] Instance InitializeMintData_pod : Pod InitializeMintData.
Proof.
  refine (pod_iso (fun x => (im_supply_elgamal_pubkey x, im_decryptable_supply x))
    (fun '(a, b) => mk_initialize_mint a b) _ _); solve_pod_iso.
Defined.

Record RotateSupplyElGamalPubkeyData : Type := mk_rotate {
  rs_new_supply_elgamal_pubkey : PodElGamalPubkey;
  rs_proof_instruction_offset : byte
}.
#[global] Instance RotateSupplyElGamalPubkeyData_pod : Pod RotateSupplyElGamalPubkeyData.
Proof.
  refine (pod_iso (fun x => (rs_new_supply_elgamal_pubkey x, rs_proof_instruction_offset x))
    (fun '(a, b) => mk_rotate a b) _ _); solve_pod_iso.
Defined.

Record UpdateDecryptableSupplyData : Type := mk_update_decryptable {
  ud_new_decryptable_supply : DecryptableBalance
}.
#[global] Instance UpdateDecryptableSupplyData_pod : Pod UpdateDecryptableSupplyData.
Proof. refine (pod_iso ud_new_decryptable_supply mk_update_decryptable _ _); solve_pod_iso. Defined.

Record MintInstructionData : Type := mk_mint_data {
  mi_new_decryptable_supply : DecryptableBalance;
  mi_mint_amount_auditor_ciphertext_lo : PodElGamalCiphertext;
  mi_mint_amount_auditor_ciphertext_hi : PodElGamalCiphertext;
  mi_equality_proof_instruction_offset : byte;
  mi_ciphertext_validity_proof_instruction_offset : byte;
  mi_range_proof_instruction_offset : byte
}.
#[global] Instance MintInstructionData_pod : Pod MintInstructionData.
Proof.
  refine (pod_iso (fun x => (mi_new_decryptable_supply x, (mi_mint_amount_auditor_ciphertext_lo x,
    (mi_mint_amount_auditor_ciphertext_hi x, (mi_equality_proof_instruction_offset x,
    (mi_ciphertext_validity_proof_instruction_offset x, mi_range_proof_instruction_offset x))))))
    (fun '(a, (b, (c, (d, (e, f))))) => mk_mint_data a b c d e f) _ _); solve_pod_iso.
Defined.

Record BurnInstructionData : Type := mk_burn_data {
  bi_new_decryptable_available_balance : DecryptableBalance;
  bi_burn_amount_auditor_ciphertext_lo : PodElGamalCiphertext;
  bi_burn_amount_auditor_ciphertext_hi : PodElGamalCiphertext;
  bi_equality_proof_instruction_offset : byte;
  bi_ciphertext_validity_proof_instruction_offset : byte;
  bi_range_proof_instruction_offset : byte
}.
#[global] Instance BurnInstructionData_pod : Pod BurnInstructionData.
Proof.
  refine (pod_iso (fun x => (bi_new_decryptable_available_balance x,
    (bi_burn_amount_auditor_ciphertext_lo x, (bi_burn_amount_auditor_ciphertext_hi x,
    (bi_equality_proof_instruction_offset x, (bi_ciphertext_validity_proof_instruction_offset x,
     bi_range_proof_instruction_offset x))))))
    (fun '(a, (b, (c, (d, (e, f))))) => mk_burn_data a b c d e f) _ _); solve_pod_iso.
Defined.

Section processor.
Context `{RT : Runtime} `{CV : CurveInterface} `{ZK : ZkInterface} `{ZC : !ZkContexts}.

(** ** [verify_proof.rs] *)

(** What both functions read before the consistency check. *)
Definition extract_contexts (held : list Borrow) (account_info_iter : list AccountInfo)
    (equality_proof_instruction_offset ciphertext_validity_proof_instruction_offset
     range_proof_instruction_offset : byte)
    : M (CiphertextCommitmentEqualityProofContext *
         BatchedGroupedCiphertext3HandlesValidityProofContext * BatchedRangeProofContext *
         list AccountInfo) :=
  '(sysvar_account_info, iter) ←
    lift (proof_sysvar [i8_get equality_proof_instruction_offset;
                        i8_get ciphertext_validity_proof_instruction_offset;
                        i8_get range_proof_instruction_offset] account_info_iter);
  '(equality_proof_context, iter) ←
    verify_and_extract_context CiphertextCommitmentEqualityProofContext
      ProofType.CiphertextCommitmentEquality held iter
      (i8_get equality_proof_instruction_offset) sysvar_account_info;
  '(ciphertext_validity_proof_context, iter) ←
    verify_and_extract_context BatchedGroupedCiphertext3HandlesValidityProofContext
      ProofType.BatchedGroupedCiphertext3HandlesValidity held iter
      (i8_get ciphertext_validity_proof_instruction_offset) sysvar_account_info;
  '(range_proof_context, iter) ←
    verify_and_extract_context BatchedRangeProofContext ProofType.BatchedRangeProofU128 held iter
      (i8_get range_proof_instruction_offset) sysvar_account_info;
  mret (equality_proof_context, ciphertext_validity_proof_context, range_proof_context, iter).

Definition verify_mint_proof (held : list Borrow) (account_info_iter : list AccountInfo)
    (equality_proof_instruction_offset ciphertext_validity_proof_instruction_offset
     range_proof_instruction_offset : byte) : M (MintProofContext * list AccountInfo) :=
  '(equality, validity, range, iter) ← extract_contexts held account_info_iter
    equality_proof_instruction_offset ciphertext_validity_proof_instruction_offset
    range_proof_instruction_offset;
  context ← lift (map_err extraction_into (MintProofContext_verify_and_extract equality validity range));
  mret (context, iter).

Definition verify_burn_proof (held : list Borrow) (account_info_iter : list AccountInfo)
    (equality_proof_instruction_offset ciphertext_validity_proof_instruction_offset
     range_proof_instruction_offset : byte) : M (BurnProofContext * list AccountInfo) :=
  '(equality, validity, range, iter) ← extract_contexts held account_info_iter
    equality_proof_instruction_offset ciphertext_validity_proof_instruction_offset
    range_proof_instruction_offset;
  context ← lift (map_err extraction_into (BurnProofContext_verify_and_extract equality validity range));
  mret (context, iter).

(** ** The mint's authority *)

Definition process_initialize_mint (accounts : list AccountInfo) (data : InitializeMintData) : M unit :=
  '(mint_info, _) ← lift (next_account_info accounts);
  initialize_extension PodMint ConfidentialMintBurn mint_info (fun e =>
    mret (cmb_set_decryptable (im_decryptable_supply data)
            (cmb_set_pubkey (im_supply_elgamal_pubkey data) e))).

(** The mint authority, taken from the accounts, must sign; the mint is borrowed. *)
Definition mint_authority_signs (held : list Borrow) (program_id : Address) (mint : PodMint)
    (iter : list AccountInfo) : M unit :=
  '(authority_info, signers) ← lift (next_account_info iter);
  authority_info_data_len ← data_len held authority_info;
  authority ← lift (PodCOption.ok_or (mint_authority mint)
                      (TokenError.NoAuthorityExists : ProgramError));
  validate_owner held program_id authority authority_info authority_info_data_len signers.

(** The conversion of the supply's key to an [Option] always gives [Some]. *)
Definition process_rotate_supply_elgamal_pubkey (program_id : Address)
    (accounts : list AccountInfo) (data : RotateSupplyElGamalPubkeyData) : M unit :=
  '(mint_info, iter) ← lift (next_account_info accounts);
  _ ← check_owner mint_info;
  mint_data ← borrow_mut [] mint_info;
  mint ← lift (unpack_mut PodMint mint_data);
  '(mint_burn_extension, put) ← lift (get_extension_mut ConfidentialMintBurn mint);
  '(proof_context, iter) ← verify_and_extract_context CiphertextCiphertextEqualityProofContext
    ProofType.CiphertextCiphertextEquality [Mut (key mint_info)] iter
    (i8_get (rs_proof_instruction_offset data)) None;
  _ ← bail_if (negb (bool_decide (cmb_supply_elgamal_pubkey mint_burn_extension =
                                  cce_first_pubkey proof_context)))
        TokenError.ConfidentialTransferElGamalPubkeyMismatch;
  _ ← bail_if (negb (bool_decide (cmb_confidential_supply mint_burn_extension =
                                  cce_first_ciphertext proof_context)))
        ProgramError.InvalidInstructionData;
  _ ← bail_if (negb (bool_decide (cmb_pending_burn mint_burn_extension = zeroed 64)))
        TokenError.PendingBalanceNonZero;
  _ ← mint_authority_signs [Mut (key mint_info)] program_id (base mint) iter;
  write_data mint_info (repack (put (cmb_set_supply (cce_second_ciphertext proof_context)
    (cmb_set_pubkey (cce_second_pubkey proof_context) mint_burn_extension)))).

Definition process_update_decryptable_supply (program_id : Address) (accounts : list AccountInfo)
    (new_decryptable_supply : DecryptableBalance) : M unit :=
  '(mint_info, iter) ← lift (next_account_info accounts);
  _ ← check_owner mint_info;
  mint_data ← borrow_mut [] mint_info;
  mint ← lift (unpack_mut PodMint mint_data);
  '(mint_burn_extension, put) ← lift (get_extension_mut ConfidentialMintBurn mint);
  _ ← mint_authority_signs [Mut (key mint_info)] program_id (base mint) iter;
  write_data mint_info (repack (put (cmb_set_decryptable new_decryptable_supply mint_burn_extension))).

Definition process_apply_pending_burn (program_id : Address) (accounts : list AccountInfo) : M unit :=
  '(mint_info, iter) ← lift (next_account_info accounts);
  _ ← check_owner mint_info;
  mint_data ← borrow_mut [] mint_info;
  mint ← lift (unpack_mut PodMint mint_data);
  '(mint_burn_extension, put) ← lift (get_extension_mut ConfidentialMintBurn mint);
  _ ← mint_authority_signs [Mut (key mint_info)] program_id (base mint) iter;
  new_supply ← arithmetic_ok (ciphertext_arithmetic.subtract
    (cmb_confidential_supply mint_burn_extension) (cmb_pending_burn mint_burn_extension));
  write_data mint_info (repack (put (cmb_set_pending (zeroed 64)
    (cmb_set_supply new_supply mint_burn_extension)))).

(** ** Minting and burning *)

(** [try_extract_ciphertext(1).map_err(|_| ProgramError::InvalidAccountData)?]. *)
Definition extract_supply (ciphertext : PodGroupedElGamalCiphertext3Handles) : M PodElGamalCiphertext :=
  lift (map_err (fun _ => ProgramError.InvalidAccountData) (try_extract_ciphertext3 ciphertext 1)).

Definition process_confidential_mint (program_id : Address) (accounts : list AccountInfo)
    (data : MintInstructionData) : M unit :=
  '(token_account_info, iter) ← lift (next_account_info accounts);
  '(mint_info, iter) ← lift (next_account_info iter);
  _ ← check_owner mint_info;
  mint_data ← borrow_mut [] mint_info;
  mint_ ← lift (unpack_mut PodMint mint_data);
  confidential_transfer_mint ← lift (get_extension ConfidentialTransferMint mint_);
  let auditor_elgamal_pubkey := ctm_auditor_elgamal_pubkey confidential_transfer_mint in
  _ ← bail_if (mint_paused mint_) TokenError.MintPaused;
  _ ← check_owner token_account_info;
  token_account_data ← borrow_mut [Mut (key mint_info)] token_account_info;
  token_account ← lift (unpack_mut PodAccount token_account_data);
  _ ← bail_if (has_extension NonTransferable mint_ &&
               (negb (has_extension ImmutableOwner token_account) ||
                negb (has_extension NonTransferableAccount token_account)))
        TokenError.NonTransferableNeedsImmutableOwnership;
  '(mint_burn_extension, put_mint) ← lift (get_extension_mut ConfidentialMintBurn mint_);
  let held := [Mut (key token_account_info); Mut (key mint_info)] in
  '(proof_context, iter) ← verify_mint_proof held iter (mi_equality_proof_instruction_offset data)
    (mi_ciphertext_validity_proof_instruction_offset data) (mi_range_proof_instruction_offset data);
  _ ← mint_authority_signs held program_id (base mint_) iter;
  _ ← bail_if (is_frozen (base token_account)) TokenError.AccountFrozen;
  _ ← bail_if (negb (bool_decide (mint (base token_account) = key mint_info)))
        TokenError.MintMismatch;
  _ ← bail_if (is_native (base token_account)) TokenError.NativeNotSupported;
  '(confidential_transfer_account, put) ←
    lift (get_extension_mut ConfidentialTransferAccount token_account);
  _ ← lift (cta_valid_as_destination confidential_transfer_account);
  _ ← bail_if (negb (bool_decide (mp_destination (mp_mint_pubkeys proof_context) =
                                  cta_elgamal_pubkey confidential_transfer_account)))
        ProgramError.InvalidInstructionData;
  _ ← bail_if (negb (bool_decide (auditor_elgamal_pubkey = mp_auditor (mp_mint_pubkeys proof_context))))
        TokenError.ConfidentialTransferElGamalPubkeyMismatch;
  let ciphertext_lo := mp_mint_amount_ciphertext_lo proof_context in
  let ciphertext_hi := mp_mint_amount_ciphertext_hi proof_context in
  _ ← confidential_transfer.check_auditor ciphertext_lo ciphertext_hi
        (mi_mint_amount_auditor_ciphertext_lo data) (mi_mint_amount_auditor_ciphertext_hi data);
  amount_lo ← confidential_transfer.extract3 ciphertext_lo 0;
  pending_balance_lo ← arithmetic_ok (ciphertext_arithmetic.add
    (cta_pending_balance_lo confidential_transfer_account) amount_lo);
  amount_hi ← confidential_transfer.extract3 ciphertext_hi 0;
  pending_balance_hi ← arithmetic_ok (ciphertext_arithmetic.add
    (cta_pending_balance_hi confidential_transfer_account) amount_hi);
  confidential_transfer_account ← lift (cta_increment_pending_balance_credit_counter
    (cta_set_pending pending_balance_lo pending_balance_hi confidential_transfer_account));
  _ ← bail_if (negb (bool_decide (cmb_supply_elgamal_pubkey mint_burn_extension =
                                  mp_supply (mp_mint_pubkeys proof_context))))
        ProgramError.InvalidInstructionData;
  supply_lo ← extract_supply ciphertext_lo;
  supply_hi ← extract_supply ciphertext_hi;
  confidential_supply ← arithmetic_ok (ciphertext_arithmetic.add_with_lo_hi
    (cmb_confidential_supply mint_burn_extension) supply_lo supply_hi);
  _ ← bail_if (negb (bool_decide (confidential_supply = mp_new_supply_ciphertext proof_context)))
        TokenError.ConfidentialTransferBalanceMismatch;
  _ ← write_data token_account_info (repack (put confidential_transfer_account));
  write_data mint_info (repack (put_mint (cmb_set_decryptable (mi_new_decryptable_supply data)
    (cmb_set_supply confidential_supply mint_burn_extension)))).

Definition process_confidential_burn (program_id : Address) (accounts : list AccountInfo)
    (data : BurnInstructionData) (burn_variant : BurnInstructionVariant) : M unit :=
  '(token_account_info, iter) ← lift (next_account_info accounts);
  '(mint_info, iter) ← lift (next_account_info iter);
  _ ← check_owner mint_info;
  mint_data ← borrow_mut [] mint_info;
  mint_ ← lift (unpack_mut PodMint mint_data);
  confidential_transfer_mint ← lift (get_extension ConfidentialTransferMint mint_);
  let auditor_elgamal_pubkey := ctm_auditor_elgamal_pubkey confidential_transfer_mint in
  _ ← bail_if (mint_paused mint_) TokenError.MintPaused;
  '(proof_context, iter) ← verify_burn_proof [Mut (key mint_info)] iter
    (bi_equality_proof_instruction_offset data)
    (bi_ciphertext_validity_proof_instruction_offset data) (bi_range_proof_instruction_offset data);
  '(permissioned_burn_authority_info, authority_info, signers) ←
    lift (burn_authorities burn_variant iter);
  _ ← lift (burn_permission burn_variant mint_ permissioned_burn_authority_info);
  '(mint_burn_extension, put_mint) ← lift (get_extension_mut ConfidentialMintBurn mint_);
  _ ← check_owner token_account_info;
  token_account_data ← borrow_mut [Mut (key mint_info)] token_account_info;
  token_account ← lift (unpack_mut PodAccount token_account_data);
  let held := [Mut (key token_account_info); Mut (key mint_info)] in
  authority_info_data_len ← data_len held authority_info;
  _ ← validate_owner held program_id (owner (base token_account)) authority_info
        authority_info_data_len signers;
  _ ← bail_if (bool_decide (key authority_info = owner (base token_account)) &&
               cpi_locked token_account && in_cpi) TokenError.CpiGuardBurnBlocked;
  _ ← bail_if (is_frozen (base token_account)) TokenError.AccountFrozen;
  _ ← bail_if (negb (bool_decide (mint (base token_account) = key mint_info)))
        TokenError.MintMismatch;
  '(confidential_transfer_account, put) ←
    lift (get_extension_mut ConfidentialTransferAccount token_account);
  _ ← lift (cta_valid_as_source confidential_transfer_account);
  _ ← bail_if (negb (bool_decide (bp_source (bp_burn_pubkeys proof_context) =
                                  cta_elgamal_pubkey confidential_transfer_account)))
        TokenError.ConfidentialTransferElGamalPubkeyMismatch;
  let ciphertext_lo := bp_burn_amount_ciphertext_lo proof_context in
  let ciphertext_hi := bp_burn_amount_ciphertext_hi proof_context in
  _ ← confidential_transfer.check_auditor ciphertext_lo ciphertext_hi
        (bi_burn_amount_auditor_ciphertext_lo data) (bi_burn_amount_auditor_ciphertext_hi data);
  burn_amount_lo ← confidential_transfer.extract3 ciphertext_lo 0;
  burn_amount_hi ← confidential_transfer.extract3 ciphertext_hi 0;
  new_source_available_balance ← arithmetic_ok (ciphertext_arithmetic.subtract_with_lo_hi
    (cta_available_balance confidential_transfer_account) burn_amount_lo burn_amount_hi);
  _ ← bail_if (negb (bool_decide (new_source_available_balance =
                                  bp_remaining_balance_ciphertext proof_context)))
        TokenError.ConfidentialTransferBalanceMismatch;
  _ ← bail_if (negb (bool_decide (auditor_elgamal_pubkey = bp_auditor (bp_burn_pubkeys proof_context))))
        TokenError.ConfidentialTransferElGamalPubkeyMismatch;
  _ ← bail_if (negb (bool_decide (cmb_supply_elgamal_pubkey mint_burn_extension =
                                  bp_supply (bp_burn_pubkeys proof_context))))
        ProgramError.InvalidInstructionData;
  supply_lo ← extract_supply ciphertext_lo;
  supply_hi ← extract_supply ciphertext_hi;
  pending_burn ← arithmetic_ok (ciphertext_arithmetic.add_with_lo_hi
    (cmb_pending_burn mint_burn_extension) supply_lo supply_hi);
  _ ← write_data token_account_info (repack (put
        (cta_set_decryptable (bi_new_decryptable_available_balance data)
           (cta_set_available new_source_available_balance confidential_transfer_account))));
  write_data mint_info (repack (put_mint (cmb_set_pending pending_burn mint_burn_extension))).

Definition process_instruction (program_id : Address) (accounts : list AccountInfo)
    (input : list byte) : M unit :=
  _ ← lift (check_program_account program_id);
  instruction ← lift (decode_instruction_type instruction_try_from input);
  match instruction with
  | InitializeMint =>
      data ← lift (decode_instruction_data InitializeMintData input);
      process_initialize_mint accounts data
  | RotateSupplyElGamalPubkey =>
      data ← lift (decode_instruction_data RotateSupplyElGamalPubkeyData input);
      process_rotate_supply_elgamal_pubkey program_id accounts data
  | UpdateDecryptableSupply =>
      data ← lift (decode_instruction_data UpdateDecryptableSupplyData input);
      process_update_decryptable_supply program_id accounts (ud_new_decryptable_supply data)
  | Mint =>
      data ← lift (decode_instruction_data MintInstructionData input);
      process_confidential_mint program_id accounts data
  | Burn =>
      data ← lift (decode_instruction_data BurnInstructionData input);
      process_confidential_burn program_id accounts data BurnInstructionVariant.Standard
  | ApplyPendingBurn => process_apply_pending_burn program_id accounts
  end.

End processor.
End confidential_mint_burn.
