(* ===== verification/ConfidentialPure.v ===== *)
(** * Reading proofs

    The functions of the confidential processors that read proof contexts, check
    authorities or compute on ciphertexts leave the store as it is; [m_inv] is
    extended with them.  What the proofs state of their contexts follows. *)
From S2P Require Import Prelude Bytes Errors Ids Runtime Pod ExtensionState Extension TlvTheory.
From S2P Require Import ViewTheory CiphertextArithmetic CiphertextTheory ProofExtraction.
From S2P Require Import MonadTheory Ownership ConfidentialTransfer ConfidentialTransferFee.
From S2P Require Import ConfidentialMintBurn.

Lemma verify_and_extract_context_pure `{RT : Runtime} `{ZK : ZkInterface} U `{ZU : !ZkContext U} ty held
    iter off sysvar w r w' :
  verify_and_extract_context U ty held iter off sysvar w = Ok (r, w') -> w' = w.
Proof.
  unfold verify_and_extract_context. intros H. destruct (_ =? 0); [by m_inv|].
  destruct sysvar; m_inv;
    by match goal with H : data_of _ _ = Ok _ |- _ => apply data_of_Ok in H as [-> ->]; m_inv end.
Qed.

Ltac m_confidential :=
  match goal with
  | H : verify_and_extract_context _ _ _ _ _ _ _ = Ok (_, _) |- _ =>
      apply verify_and_extract_context_pure in H; m_sub H
  | H : arithmetic_ok _ _ = Ok (_, _) |- _ => unfold arithmetic_ok in H
  | H : confidential_transfer.extract2 _ _ _ = Ok (_, _) |- _ => unfold confidential_transfer.extract2 in H
  | H : confidential_transfer.extract3 _ _ _ = Ok (_, _) |- _ => unfold confidential_transfer.extract3 in H
  end.
Ltac m_hook ::=
  match goal with
  | H : validate_owner _ _ _ _ _ _ _ = Ok _ |- _ =>
      let Ha := fresh "Hauth" in apply validate_owner_Ok in H as [H Ha]; m_sub H
  | H : check_owner _ _ = Ok _ |- _ =>
      let Ha := fresh "Hown" in apply check_owner_Ok in H as [H Ha]; m_sub H
  | _ => m_confidential
  end.

Section pure.
Context `{RT : Runtime} `{CV : CurveInterface} `{ZK : ZkInterface} `{ZC : !ZkContexts}.

(** ** Transfers *)

Section transfers.
Import confidential_transfer.

Lemma verify_withdraw_proof_pure held iter a b w r w' :
  verify_withdraw_proof held iter a b w = Ok (r, w') -> w' = w.
Proof. unfold verify_withdraw_proof. intros H. by m_inv. Qed.

Lemma verify_transfer_proof_pure held iter a b c w r w' :
  verify_transfer_proof held iter a b c w = Ok (r, w') -> w' = w.
Proof. unfold verify_transfer_proof. intros H. by m_inv. Qed.

Lemma verify_transfer_with_fee_proof_pure held iter a b c d e f w r w' :
  verify_transfer_with_fee_proof held iter a b c d e f w = Ok (r, w') -> w' = w.
Proof. unfold verify_transfer_with_fee_proof. intros H. by m_inv. Qed.

Lemma check_auditor_pure a b c d w r w' : check_auditor a b c d w = Ok (r, w') -> w' = w.
Proof. unfold check_auditor. intros H. by m_inv. Qed.

End transfers.

(** ** Fees *)

Section fees.
Import confidential_transfer_fee.

Lemma withdraw_authority_pure pid mi mt ai len signers w u w' :
  withdraw_authority_signs pid mi mt ai len signers w = Ok (u, w') -> w' = w.
Proof. unfold withdraw_authority_signs. intros H. by m_inv. Qed.

End fees.

(** ** Supply *)

Section mint_burn.
Import confidential_mint_burn.

Lemma extract_contexts_pure held iter a b c w r w' :
  extract_contexts held iter a b c w = Ok (r, w') -> w' = w.
Proof. unfold extract_contexts. intros H. by m_inv. Qed.

Lemma verify_mint_proof_pure held iter a b c w r w' :
  verify_mint_proof held iter a b c w = Ok (r, w') -> w' = w.
Proof. unfold verify_mint_proof. intros H. m_inv. by eapply extract_contexts_pure. Qed.

Lemma verify_burn_proof_pure held iter a b c w r w' :
  verify_burn_proof held iter a b c w = Ok (r, w') -> w' = w.
Proof. unfold verify_burn_proof. intros H. m_inv. by eapply extract_contexts_pure. Qed.

Lemma mint_authority_signs_pure held pid mt iter w u w' :
  mint_authority_signs held pid mt iter w = Ok (u, w') -> w' = w.
Proof. unfold mint_authority_signs. intros H. by m_inv. Qed.

Lemma extract_supply_Ok c w x w' :
  extract_supply c w = Ok (x, w') -> w' = w /\ g3_try_extract_ciphertext c 1 = Some x.
Proof.
  unfold extract_supply, try_extract_ciphertext3. intros [H%map_err_Ok ->]%lift_Ok.
  by apply ok_or_Ok in H.
Qed.
End mint_burn.
End pure.

(** [m_inv] goes through them; what a proof was read as stays known, on the
    store before it. *)
Ltac m_keep H w w' tac :=
  tryif constr_eq w w' then fail else
    (let E := fresh in assert (w' = w) as E by (tac H); subst w').
Ltac m_hook ::=
  match goal with
  | H : validate_owner _ _ _ _ _ _ _ = Ok _ |- _ =>
      let Ha := fresh "Hauth" in apply validate_owner_Ok in H as [H Ha]; m_sub H
  | H : check_owner _ _ = Ok _ |- _ =>
      let Ha := fresh "Hown" in apply check_owner_Ok in H as [H Ha]; m_sub H
  | H : confidential_transfer.verify_withdraw_proof _ _ _ _ ?w = Ok (_, ?w') |- _ =>
      m_keep H w w' ltac:(fun H => exact (verify_withdraw_proof_pure _ _ _ _ _ _ _ H))
  | H : confidential_transfer.verify_transfer_proof _ _ _ _ _ ?w = Ok (_, ?w') |- _ =>
      m_keep H w w' ltac:(fun H => exact (verify_transfer_proof_pure _ _ _ _ _ _ _ _ H))
  | H : confidential_transfer.verify_transfer_with_fee_proof _ _ _ _ _ _ _ _ ?w = Ok (_, ?w') |- _ =>
      m_keep H w w' ltac:(fun H => exact (verify_transfer_with_fee_proof_pure _ _ _ _ _ _ _ _ _ _ _ H))
  | H : confidential_mint_burn.verify_mint_proof _ _ _ _ _ ?w = Ok (_, ?w') |- _ =>
      m_keep H w w' ltac:(fun H => exact (verify_mint_proof_pure _ _ _ _ _ _ _ _ H))
  | H : confidential_mint_burn.verify_burn_proof _ _ _ _ _ ?w = Ok (_, ?w') |- _ =>
      m_keep H w w' ltac:(fun H => exact (verify_burn_proof_pure _ _ _ _ _ _ _ _ H))
  | H : verify_and_extract_context _ _ _ _ _ _ ?w = Ok (_, ?w') |- _ =>
      m_keep H w w' ltac:(fun H => exact (verify_and_extract_context_pure _ _ _ _ _ _ _ _ _ H))
  | H : confidential_mint_burn.mint_authority_signs _ _ _ _ ?w = Ok (_, ?w') |- _ =>
      m_keep H w w' ltac:(fun H => exact (mint_authority_signs_pure _ _ _ _ _ _ _ H))
  | H : confidential_transfer_fee.withdraw_authority_signs _ _ _ _ _ _ ?w = Ok (_, ?w') |- _ =>
      m_keep H w w' ltac:(fun H => exact (withdraw_authority_pure _ _ _ _ _ _ _ _ _ H))
  | H : confidential_transfer.check_auditor _ _ _ _ ?w = Ok (_, ?w') |- _ =>
      m_keep H w w' ltac:(fun H => exact (check_auditor_pure _ _ _ _ _ _ _ H))
  | H : confidential_mint_burn.extract_supply _ _ = Ok (_, _) |- _ =>
      let E := fresh in apply extract_supply_Ok in H as [E H]; m_sub E
  | H : arithmetic_ok _ _ = Ok (_, _) |- _ => unfold arithmetic_ok in H
  | H : confidential_transfer.extract2 _ _ _ = Ok (_, _) |- _ => unfold confidential_transfer.extract2 in H
  | H : confidential_transfer.extract3 _ _ _ = Ok (_, _) |- _ => unfold confidential_transfer.extract3 in H
  | H : map_err _ _ = Ok _ |- _ => apply map_err_Ok in H
  | H : try_extract_ciphertext2 _ _ = Ok _ |- _ => unfold try_extract_ciphertext2 in H
  | H : try_extract_ciphertext3 _ _ = Ok _ |- _ => unfold try_extract_ciphertext3 in H
  end.

(** ** What the proofs state

    The statements that the proof program verifies, for the contexts whose
    meaning the conservation of encrypted amounts needs: amounts grouped for
    several keys encrypt one plaintext for all of them, and two ciphertexts are
    equal under their keys.  A world in which they hold for every context that
    can be read is the soundness of the proof program ([proofs_hold]). *)

Section statements.
Context {E : Type} `{CV : CurveInterface} `{PG : !PointGroup E} `{CL : !CurveLaws E}.
Context `{RT : Runtime} `{ZK : ZkInterface} `{ZC : !ZkContexts}.

(** The ciphertext of [m] for the key, with the randomness [r]: the commitment
    [m + r⋅H] and the handle [r⋅P]. *)
Definition encryption (pk : PodElGamalPubkey) (m : E) (r : Z) (c : PodElGamalCiphertext) : Prop :=
  exists p, decode pk = Some p /\
    decode (ciphertext_arithmetic.elgamal_ciphertext_to_ristretto c).1 =
      Some (m + r ⋅ point_H)%point /\
    decode (ciphertext_arithmetic.elgamal_ciphertext_to_ristretto c).2 = Some (r ⋅ p)%point.

Lemma encryption_decrypt s pk m r c :
  keypair s pk -> encryption pk m r c -> decrypt s c = Some m.
Proof.
  intros (p & Hp & Hs) (p' & Hp' & Hc & Hd). unfold decrypt.
  destruct (ciphertext_arithmetic.elgamal_ciphertext_to_ristretto c) as [c1 d1]. cbn in *.
  rewrite Hc, Hd. cbn. simplify_eq. rewrite <- Hs, !pscale_mul, (Z.mul_comm r).
  by rewrite <- pplus_assoc, popp_r, pplus_0_r.
Qed.

(** The ciphertext that is extracted for the [i]-th of the keys. *)
Definition grouped_encryption {C} (extract : C -> nat -> option PodElGamalCiphertext)
    (pks : list PodElGamalPubkey) (m : E) (c : C) : Prop :=
  exists r, forall i pk x, pks !! i = Some pk -> extract c i = Some x -> encryption pk m r x.

Lemma grouped_decrypt {C} (extract : C -> nat -> option PodElGamalCiphertext) pks m c s i pk x :
  grouped_encryption extract pks m c -> pks !! i = Some pk -> extract c i = Some x ->
  keypair s pk -> decrypt s x = Some m.
Proof. intros [r H] Hi Hx Hk. by eapply encryption_decrypt, H. Qed.

(** The statements, for the plaintexts of the low and the high bits. *)
Definition grouped_3_states (lo hi : E) (ctx : BatchedGroupedCiphertext3HandlesValidityProofContext)
    : Prop :=
  let pks := [g3_first_pubkey ctx; g3_second_pubkey ctx; g3_third_pubkey ctx] in
  grouped_encryption g3_try_extract_ciphertext pks lo (g3_grouped_ciphertext_lo ctx) /\
  grouped_encryption g3_try_extract_ciphertext pks hi (g3_grouped_ciphertext_hi ctx).

Definition grouped_2_states (lo hi : E) (ctx : BatchedGroupedCiphertext2HandlesValidityProofContext)
    : Prop :=
  let pks := [g2_first_pubkey ctx; g2_second_pubkey ctx] in
  grouped_encryption g2_try_extract_ciphertext pks lo (g2_grouped_ciphertext_lo ctx) /\
  grouped_encryption g2_try_extract_ciphertext pks hi (g2_grouped_ciphertext_hi ctx).

Definition equality_states (m : E) (ctx : CiphertextCiphertextEqualityProofContext) : Prop :=
  (forall s, keypair s (cce_first_pubkey ctx) -> decrypt s (cce_first_ciphertext ctx) = Some m) /\
  exists r, encryption (cce_second_pubkey ctx) m r (cce_second_ciphertext ctx).

(** [P] holds of every context of this type that can be read in the world. *)
Definition every_context (U : Type) `{!ZkContext U} (ty : ProofType) (P : U -> Prop) (w : World) : Prop :=
  forall held iter off sysvar ctx rest,
    verify_and_extract_context U ty held iter off sysvar w = Ok ((ctx, rest), w) -> P ctx.

Record proofs_hold (w : World) : Prop := {
  grouped_3_hold : every_context BatchedGroupedCiphertext3HandlesValidityProofContext
    ProofType.BatchedGroupedCiphertext3HandlesValidity
    (fun ctx => exists lo hi, grouped_3_states lo hi ctx) w;
  grouped_2_hold : every_context BatchedGroupedCiphertext2HandlesValidityProofContext
    ProofType.BatchedGroupedCiphertext2HandlesValidity
    (fun ctx => exists lo hi, grouped_2_states lo hi ctx) w;
  equality_hold : every_context CiphertextCiphertextEqualityProofContext
    ProofType.CiphertextCiphertextEquality (fun ctx => exists m, equality_states m ctx) w
}.

(** ** Amounts for several keys *)

(** The amount [y] is encrypted in the two ciphertexts for each of the keys. *)
Definition amount_for {C} (extract : C -> nat -> option PodElGamalCiphertext)
    (pks : list PodElGamalPubkey) (y : E) (lo hi : C) : Prop :=
  forall s i pk l h, keypair s pk -> pks !! i = Some pk -> extract lo i = Some l ->
    extract hi i = Some h ->
    exists a b, decrypt s l = Some a /\ decrypt s h = Some b /\ lo_hi a b = y.

Lemma grouped_amount {C} (extract : C -> nat -> option PodElGamalCiphertext) pks l h lo hi :
  grouped_encryption extract pks l lo -> grouped_encryption extract pks h hi ->
  amount_for extract pks (lo_hi l h) lo hi.
Proof.
  intros Hl Hh s i pk x y Hk Hi Hx Hy. exists l, h. by split_and!; try eapply grouped_decrypt.
Qed.
End statements.
