(* ===== verification/VariableLenTheory.v ===== *)
(** * What variable-length writes do

    The TLV data that the program writes is a list of entries and zeros
    ([tlv_holds]); on it, allocating and reallocating an extension are
    [set_entry] on that list, whatever moves in the buffer, and the account has
    the length of its entries afterwards. *)
From S2P Require Import Prelude Bytes Errors Ids Runtime Pod ExtensionState Extension TlvTheory.
From S2P Require Import ViewTheory Clean AccountLen MonadTheory VariableLen.

(** ** The bytes in use *)

Lemma slice_enc_type pre t v rest :
  slice (pre ++ enc_entry t v ++ rest) (length pre) (length pre + 2) = to_le_bytes 2 t.
Proof.
  unfold enc_entry. rewrite <- app_assoc.
  apply slice_app_mid; by rewrite ?length_to_le_bytes.
Qed.

Lemma tlv_info_used {A} (f : ExtensionType -> A -> Result ProgramError A) es n fuel pre acc acc' u :
  Forall entry_ok es ->
  try_for_each_from fuel (pre ++ tlv_encode es ++ replicate n x00) f acc (length pre) = Ok (acc', u) ->
  u = (length pre + length (tlv_encode es))%nat.
Proof.
  intros Hes. revert fuel pre acc. induction Hes as [|[t v] es [Ht Hv] Hes IH]; intros fuel pre acc Hw;
    (destruct fuel as [|fuel]; [done|]); rewrite try_for_each_turn in Hw.
  - change (tlv_encode []) with (@nil byte) in *. rewrite app_nil_l in Hw. simpl. rewrite Nat.add_0_r.
    destruct (_ <? _)%nat; [|by injection Hw].
    rewrite length_app, length_replicate in Hw.
    destruct (Nat.ltb_spec (length pre + n) (length_start (get_tlv_indices (length pre)))) as [|Hn];
      [by injection Hw|].
    cbn [get_tlv_indices length_start type_start] in Hw, Hn.
    unfold EXT_TYPE_SIZE in Hw, Hn.
    rewrite slice_app_r, Nat.sub_diag in Hw by lia.
    replace (length pre + 2 - length pre)%nat with 2%nat in Hw by lia.
    replace n with (2 + (n - 2))%nat in Hw by lia.
    rewrite replicate_add, slice_0, take_app_length' in Hw by done. cbn in Hw. by injection Hw.
  - rewrite tlv_encode_cons. rewrite tlv_encode_cons, <- app_assoc in Hw. cbn [fst snd] in *.
    set (rest := tlv_encode es ++ replicate n x00) in *.
    assert (length (pre ++ enc_entry t v ++ rest) = (length pre + (4 + length v) + length rest)%nat)
      as El by (rewrite !length_app, length_enc_entry; lia).
    rewrite El in Hw. destruct (Nat.ltb_spec (length pre) (length pre + (4 + length v) + length rest)); [|lia].
    cbn [get_tlv_indices length_start type_start value_start] in Hw.
    unfold EXT_TYPE_SIZE, LENGTH_SIZE in Hw.
    destruct (Nat.ltb_spec (length pre + (4 + length v) + length rest) (length pre + 2)); [lia|].
    apply bind_Ok in Hw as (ty & Hty & Hw).
    assert (ty <> ExtensionType.Uninitialized) as Hne.
    { intros ->. rewrite slice_enc_type in Hty. unfold extension_type_try_from_slice in Hty.
      rewrite length_to_le_bytes in Hty. apply ok_or_Ok, extension_type_try_from_Some in Hty.
      rewrite from_to_le_2 in Hty by tlv_lia. tlv_lia. }
    rewrite decide_False in Hw by done.
    destruct (Nat.ltb_spec (length pre + (4 + length v) + length rest) (length pre + 2 + 2)); [lia|].
    rewrite <- (Nat.add_0_r (length pre)), get_tlv_indices_add, Nat.add_0_r in Hw.
    rewrite tlv_length_at_app, enc_entry_length_at in Hw by tlv_lia.
    destruct (_ <? _)%nat; [done|]. apply bind_Ok in Hw as (acc1 & _ & Hw).
    replace (length pre + 2 + 2 + length v)%nat with (length (pre ++ enc_entry t v)) in Hw
      by (rewrite length_app, length_enc_entry; lia).
    rewrite app_assoc in Hw. apply IH in Hw. rewrite Hw, !length_app, length_enc_entry. lia.
Qed.

Lemma tlv_used t es info :
  tlv_holds t es -> get_tlv_data_info t = Ok info -> used_len info = length (tlv_encode es).
Proof.
  intros (Hes & n & ->). unfold get_tlv_data_info, try_for_each_tlv_extension_type.
  intros ([ts u] & Hw & [= <-])%bind_Ok. cbn [used_len].
  by apply (tlv_info_used _ es n _ []) in Hw.
Qed.

Lemma tlv_holds_grow t es k : tlv_holds t es -> tlv_holds (t ++ replicate k x00) es.
Proof.
  intros (Hes & n & ->). split; [done|]. exists (n + k)%nat. by rewrite <- app_assoc, replicate_add.
Qed.

(** ** Moving and filling *)

Section buffers.
Implicit Types p v r z : list byte.

Lemma splice_at p old tail new i :
  i = length p -> length old = length new -> splice (p ++ old ++ tail) i new = p ++ new ++ tail.
Proof. intros -> E. rewrite splice_app_mid; [done|done|by symmetry]. Qed.

Lemma copy_within_Ok buf a b d :
  (a <= b)%nat -> (b <= length buf)%nat -> (d + (b - a) <= length buf)%nat ->
  copy_within buf a b d = Ok (splice buf d (slice buf a b)).
Proof.
  intros. unfold copy_within.
  by rewrite !(proj2 (Nat.leb_le _ _)) by lia.
Qed.

Lemma fill_zero_Ok buf a b : (a <= b)%nat -> (b <= length buf)%nat ->
  fill_zero buf a b = Ok (splice buf a (replicate (b - a) x00)).
Proof. intros. unfold fill_zero. by rewrite !(proj2 (Nat.leb_le _ _)) by lia. Qed.

(** What follows a value moves towards it, and zeros fill the end. *)
Lemma move_shrink p v1 v2 r z :
  let a := (length p + length v1)%nat in let d := length v2 in let l := length r in
  (buf ← copy_within (p ++ v1 ++ v2 ++ r ++ z) (a + d) (a + d + l) a;
   fill_zero buf (a + l) (a + d + l)) = Ok (p ++ v1 ++ r ++ replicate d x00 ++ z).
Proof.
  intros a d l. rewrite copy_within_Ok by (rewrite ?length_app; subst a d l; lia).
  replace (slice _ _ _) with r.
  2: { rewrite !app_assoc, <- (app_assoc _ r z). symmetry.
       apply slice_app_mid; rewrite !length_app; subst a d l; lia. }
  cbn [mbind Result_bind]. unfold splice at 1.
  rewrite (app_assoc p v1), take_app_length' by (rewrite length_app; subst a; lia).
  rewrite drop_app_ge by (rewrite length_app; subst a l; lia).
  replace (a + length r - length (p ++ v1))%nat with l by (rewrite length_app; subst a l; lia).
  set (y := drop l (v2 ++ r ++ z)).
  assert (length y = (d + length z)%nat) as Ly
    by (subst y; rewrite length_drop, !length_app; subst d l; lia).
  assert (drop d y = z) as Ey.
  { subst y. rewrite drop_drop, app_assoc, drop_app_length'; [done|].
    rewrite length_app. subst d l. lia. }
  rewrite fill_zero_Ok by (rewrite ?length_app; subst a d l; lia).
  replace (a + d + l - (a + l))%nat with d by lia. f_equal.
  rewrite <- (take_drop d y), Ey, (app_assoc _ r).
  rewrite splice_at; [by rewrite <- !app_assoc| |].
  - rewrite !length_app. subst a l. lia.
  - rewrite length_replicate, length_take. lia.
Qed.

(** What follows a value moves away from it, and zeros fill the gap. *)
Lemma move_grow p v r g m :
  (g <= m)%nat ->
  let a := (length p + length v)%nat in let l := length r in
  (buf ← copy_within (p ++ v ++ r ++ replicate m x00) a (a + l) (a + g);
   fill_zero buf a (a + g)) = Ok (p ++ v ++ replicate g x00 ++ r ++ replicate (m - g) x00).
Proof.
  intros Hg a l. rewrite copy_within_Ok by (rewrite ?length_app, ?length_replicate; subst a l; lia).
  replace (slice _ _ _) with r.
  2: { rewrite (app_assoc p v). symmetry. apply slice_app_mid; rewrite !length_app; subst a l; lia. }
  cbn [mbind Result_bind]. unfold splice at 1.
  rewrite (app_assoc p v). set (z := replicate m x00).
  rewrite take_app_ge by (rewrite length_app; subst a l; lia).
  rewrite drop_app_ge by (rewrite length_app; subst a l; lia).
  replace (a + g - length (p ++ v))%nat with g by (rewrite length_app; subst a l; lia).
  replace (a + g + length r - length (p ++ v))%nat with (l + g)%nat
    by (rewrite length_app; subst a l; lia).
  replace (drop (l + g) (r ++ z)) with (replicate (m - g) x00)
    by (rewrite <- drop_drop; subst l z; by rewrite drop_app_length, drop_replicate).
  assert (length (take g (r ++ z)) = g) as Lt.
  { rewrite length_take, length_app. unfold z. rewrite length_replicate. lia. }
  rewrite fill_zero_Ok by (rewrite ?length_app, ?Lt; subst a l; lia).
  replace (a + g - a)%nat with g by lia. f_equal. rewrite <- (app_assoc (p ++ v)).
  rewrite splice_at; [by rewrite <- !app_assoc| |].
  - rewrite length_app. done.
  - by rewrite length_replicate.
Qed.

(** The moves of [realloc] resize the value between [p] and [r]. *)
Lemma move_value p v r n m :
  (n <= length v + m)%nat ->
  (buf ← copy_within (p ++ v ++ r ++ replicate m x00) (length p + length v)
           (length p + length v + length r) (length p + n);
   match Nat.compare (length v) n with
   | Gt => fill_zero buf (length p + length v + length r - (length v - n))
             (length p + length v + length r)
   | Lt => fill_zero buf (length p + length v) (length p + n)
   | Eq => mret buf
   end) = Ok (p ++ resize n x00 v ++ r ++ replicate (length v + m - n) x00).
Proof.
  intros Hn. destruct (Nat.compare_spec (length v) n) as [E|Hl|Hl].
  - subst n. rewrite resize_all, copy_within_Ok by (rewrite ?length_app; lia).
    cbn [mbind Result_bind]. unfold mret, Result_ret.
    replace (length v + m - length v)%nat with m by lia. f_equal.
    rewrite (app_assoc p v), slice_app_mid by (rewrite ?length_app; lia).
    by rewrite splice_at by (rewrite ?length_app; lia).
  - pose proof (move_grow p v r (n - length v) m ltac:(lia)) as Hg. cbv zeta in Hg.
    replace (length p + length v + (n - length v))%nat with (length p + n)%nat in Hg by lia.
    rewrite Hg, resize_ge by lia. rewrite <- app_assoc.
    by replace (length v + m - n)%nat with (m - (n - length v))%nat by lia.
  - rewrite <- (take_drop n v) at 1.
    set (v1 := take n v). set (v2 := drop n v).
    assert (length v1 = n) as L1 by (unfold v1; rewrite length_take; lia).
    assert (length v2 = length v - n)%nat as L2 by (unfold v2; rewrite length_drop; lia).
    pose proof (move_shrink p v1 v2 r (replicate m x00)) as Hg. cbv zeta in Hg.
    replace (length p + length v1 + length v2)%nat with (length p + length v)%nat in Hg by lia.
    replace (length p + length v1 + length r)%nat
      with (length p + length v + length r - (length v - n))%nat in Hg by lia.
    rewrite L1 in Hg. rewrite <- (app_assoc v1), Hg, resize_le by lia. fold v1.
    rewrite <- replicate_add. by replace (length v + m - n)%nat with (length v2 + m)%nat by lia.
Qed.
End buffers.

(** ** Reallocating an entry *)

Lemma resize_app_le v1 v2 : resize (length v1) x00 (v1 ++ v2) = v1 :> list byte.
Proof. by rewrite resize_le, take_app_length by (rewrite length_app; lia). Qed.

(** The walk reaches the first entry of the type. *)
Lemma get_extension_indices_entries ty es v tail init :
  Forall entry_ok es -> Forall (fun e => e.1 <> extension_type_u16 ty) es ->
  entry_ok (extension_type_u16 ty, v) ->
  get_extension_indices ty (tlv_encode es ++ enc_entry (extension_type_u16 ty) v ++ tail) init =
  Ok (get_tlv_indices (length (tlv_encode es))).
Proof.
  intros Hes Hne Hv. induction Hes as [|[t b] es He Hes IH].
  - change (tlv_encode []) with (@nil byte). rewrite app_nil_l, get_extension_indices_cons by done.
    by rewrite Z.eqb_refl.
  - apply Forall_cons in Hne as [Ht Hne]. cbn [fst] in Ht.
    rewrite tlv_encode_cons, <- app_assoc, get_extension_indices_cons by done.
    cbn [fst snd]. rewrite (proj2 (Z.eqb_neq _ _) Ht), IH by done. cbn [fmap Result_fmap fst snd].
    by rewrite <- get_tlv_indices_add, length_app, length_enc_entry.
Qed.

Section views.
Context {S : Type} `{BaseState S}.

(** The place of the value of the entry after [es]. *)
Definition value_at (es : list Entry) : nat := (length (tlv_encode es) + 4)%nat.

Lemma realloc_entries ty n (st : PodStateMut S) es v es' m info :
  Forall entry_ok es -> Forall entry_ok es' -> entry_ok (extension_type_u16 ty, v) ->
  Forall (fun e => e.1 <> extension_type_u16 ty) es ->
  tlv_data st = tlv_encode (es ++ (extension_type_u16 ty, v) :: es') ++ replicate m x00 ->
  get_tlv_data_info (tlv_data st) = Ok info ->
  realloc ty n st =
  if (length v + m <? n)%nat then Err ProgramError.InvalidAccountData
  else if u16_max <? Z.of_nat n then Err ProgramError.AccountDataTooSmall
  else Ok (with_tlv_data (tlv_encode (es ++ (extension_type_u16 ty, resize n x00 v) :: es') ++
                          replicate (length v + m - n) x00) st,
           value_at es, (value_at es + n)%nat).
Proof.
  intros Hes Hes' Hv Hne Et Hi. pose proof Hv as [Hty Hlv]. cbn [fst snd] in Hty, Hlv.
  unfold realloc. pose proof Hi as Hu.
  apply (tlv_used _ (es ++ (extension_type_u16 ty, v) :: es')) in Hu; [|split; [|by exists m]].
  2: { apply Forall_app; split; [done|by constructor]. }
  rewrite Hi. cbn [fmap Result_fmap]. rewrite Hu. clear Hi Hu.
  rewrite Et. rewrite !tlv_encode_app, !tlv_encode_cons, <- !app_assoc. cbn [fst snd].
  set (tail := tlv_encode es' ++ replicate m x00).
  rewrite get_extension_indices_entries by done. cbn [mbind Result_bind fmap Result_fmap].
  replace (get_tlv_indices (length (tlv_encode es)))
    with (shift_indices (length (tlv_encode es)) (get_tlv_indices 0))
    by (rewrite <- get_tlv_indices_add; f_equal; lia).
  rewrite tlv_length_at_app, enc_entry_length_at by done.
  cbn [shift_indices get_tlv_indices type_start length_start value_start].
  unfold EXT_TYPE_SIZE, LENGTH_SIZE.
  set (a := tlv_encode es). set (ty2 := to_le_bytes 2 (extension_type_u16 ty)).
  assert (length tail = (length (tlv_encode es') + m)%nat) as Elt
    by (unfold tail; by rewrite length_app, length_replicate).
  destruct (Nat.ltb_spec (length v + m) n) as [Hm|Hm].
  { rewrite !length_app, !length_enc_entry, Elt.
    rewrite !(proj2 (Nat.ltb_lt _ _)) by lia. done. }
  rewrite !length_app, !length_enc_entry, Elt.
  rewrite (proj2 (andb_false_iff _ _)) by (rewrite !Nat.ltb_ge; lia).
  cbn [fail_if mbind Result_bind]. unfold length_try_from.
  destruct (Z.leb_spec (Z.of_nat n) u16_max), (Z.ltb_spec u16_max (Z.of_nat n)); try lia; [|done].
  cbn [mbind Result_bind].
  set (p := a ++ ty2 ++ to_le_bytes 2 (Z.of_nat n)).
  assert (length p = length a + 4)%nat as Lp
    by (unfold p, ty2; rewrite !length_app, !length_to_le_bytes; lia).
  replace (splice _ _ _) with (p ++ v ++ tail).
  2: { unfold p, enc_entry. fold ty2. rewrite <- !app_assoc, !(app_assoc a ty2). symmetry.
       apply splice_at; unfold ty2; rewrite ?length_app, !length_to_le_bytes; lia. }
  unfold tail, value_at. fold a. rewrite <- Lp.
  replace (length a + (0 + 2 + 2))%nat with (length p) by lia.
  replace (length a + (4 + length v + length (tlv_encode es')))%nat
    with (length p + length v + length (tlv_encode es'))%nat by lia.
  cbn [fail_if mbind Result_bind].
  pose proof (move_value p v (tlv_encode es') n m Hm) as Hmv.
  apply bind_Ok in Hmv as (buf & Hc & Hmv). rewrite Hc. cbn [mbind Result_bind]. rewrite Hmv.
  cbn [mbind Result_bind]. unfold mret, Result_ret. do 4 f_equal.
  unfold p, enc_entry. rewrite length_resize. by rewrite <- !app_assoc.
Qed.

(** ** Writes as updates of the entry list *)

Lemma first_entry t (es : list Entry) :
  Forall (fun e => e.1 <> t) es \/
  exists es1 v es2, es = es1 ++ (t, v) :: es2 /\ Forall (fun e => e.1 <> t) es1.
Proof.
  induction es as [|[u v] es IH]; [by left|]. destruct (decide (u = t)) as [->|Hne].
  - right. by exists [], v, es.
  - destruct IH as [IH|(es1 & v' & es2 & -> & Hes1)]; [left; by constructor|].
    right. exists ((u, v) :: es1), v', es2. split; [done|by constructor].
Qed.

Lemma lookup_absent t (es : list Entry) : Forall (fun e => e.1 <> t) es -> entries_lookup t es = None.
Proof.
  induction 1 as [|e es He _ IH]; [done|].
  by rewrite entries_lookup_cons, (proj2 (Z.eqb_neq _ _) He).
Qed.

Lemma lookup_first t v (es es' : list Entry) :
  Forall (fun e => e.1 <> t) es -> entries_lookup t (es ++ (t, v) :: es') = Some v.
Proof.
  induction 1 as [|e es He _ IH]; simpl; rewrite entries_lookup_cons; [by rewrite Z.eqb_refl|].
  by rewrite (proj2 (Z.eqb_neq _ _) He).
Qed.

Lemma length_set_entry t v es :
  length (tlv_encode (set_entry t v es)) =
  (length (tlv_encode es) -
     default 0 ((fun x => add_type_and_length_to_len (length x)) <$> entries_lookup t es) +
   add_type_and_length_to_len (length v))%nat.
Proof.
  unfold add_type_and_length_to_len, EXT_TYPE_SIZE, LENGTH_SIZE.
  destruct (first_entry t es) as [Hne|(es1 & v0 & es2 & -> & Hne)].
  - rewrite lookup_absent, set_entry_new, tlv_encode_app, length_app by done.
    rewrite tlv_encode_cons, length_app, length_enc_entry. simpl. lia.
  - rewrite lookup_first, set_entry_found by done.
    rewrite !tlv_encode_app, !tlv_encode_cons, !length_app, !length_enc_entry. simpl. lia.
Qed.

Lemma get_extension_bytes_holds ty t es :
  get_account_type ty = ACCOUNT_TYPE S -> tlv_holds t es ->
  ok (get_extension_bytes S ty t) = entries_lookup (extension_type_u16 ty) es.
Proof.
  intros Ha (Hes & n & ->). induction Hes as [|[u v] es He Hes IH].
  - change (tlv_encode []) with (@nil byte). rewrite app_nil_l.
    destruct (get_extension_bytes S ty _) as [v| |] eqn:Hg; [|done..]. by apply zeros_lookup in Hg.
  - rewrite tlv_encode_cons, <- app_assoc, get_extension_bytes_cons, entries_lookup_cons by done.
    rewrite bool_decide_true by done. cbn [andb fst snd]. by destruct (u =? _).
Qed.

(** What the account will have to hold. *)
Lemma new_account_len_holds ty t es n len b :
  get_account_type ty = ACCOUNT_TYPE S -> tlv_holds t es -> length b = n ->
  try_get_new_account_len_for_extension_len (S := S) ty t n = Ok len ->
  len = adjust_len_for_multisig
    (BASE_ACCOUNT_AND_TYPE_LENGTH + length (tlv_encode (set_entry (extension_type_u16 ty) b es))).
Proof.
  intros Ha Ht <- Hl. unfold try_get_new_account_len_for_extension_len in Hl.
  apply bind_Ok in Hl as (info & Hi & [= <-]). apply (tlv_used t es info Ht) in Hi. rewrite Hi.
  f_equal. rewrite length_set_entry.
  replace (ok (_ <$> get_extension_bytes S ty t)) with
    ((fun x => add_type_and_length_to_len (length x)) <$> ok (get_extension_bytes S ty t))
    by by destruct (get_extension_bytes S ty t).
  rewrite (get_extension_bytes_holds ty t es) by done. generalize BASE_ACCOUNT_AND_TYPE_LENGTH. intros k.
  destruct (first_entry (extension_type_u16 ty) es) as [Hne|(es1 & v0 & es2 & -> & Hne)].
  - rewrite lookup_absent by done. simpl. lia.
  - rewrite lookup_first by done. rewrite !tlv_encode_app, !tlv_encode_cons, !length_app, !length_enc_entry.
    unfold add_type_and_length_to_len, EXT_TYPE_SIZE, LENGTH_SIZE. simpl. lia.
Qed.

Lemma get_extension_indices_absent ty es n idx :
  ty <> ExtensionType.Uninitialized ->
  Forall entry_ok es -> Forall (fun e => e.1 <> extension_type_u16 ty) es ->
  get_extension_indices ty (tlv_encode es ++ replicate n x00) false <> Ok idx.
Proof.
  intros Hty Hes. revert idx. induction Hes as [|[t v] es He Hes IH]; intros idx Hne.
  - change (tlv_encode []) with (@nil byte). rewrite app_nil_l.
    intros (es' & tail & Hes' & Hne' & E & _ & Hl & Ht)%get_extension_indices_inv.
    destruct Hes' as [|[u b] es' Hu Hes'].
    + change (tlv_encode []) with (@nil byte) in E. rewrite app_nil_l in E.
      pose proof (zeros_type _ _ E Hl) as H0'. rewrite H0' in Ht.
      destruct Ht as [Ht|[? _]]; [|done]. by symmetry in Ht; apply extension_type_u16_0 in Ht.
    + rewrite tlv_encode_cons, <- app_assoc in E. pose proof (zeros_type _ _ E) as H0'.
      rewrite entry_type in H0' by done. destruct Hu as [Hu _]. cbn [fst snd] in *.
      rewrite length_app, length_enc_entry in H0'. specialize (H0' ltac:(lia)). lia.
  - apply Forall_cons in Hne as [Ht Hne]. cbn [fst] in Ht.
    rewrite tlv_encode_cons, <- app_assoc, get_extension_indices_cons by done. cbn [fst snd].
    rewrite (proj2 (Z.eqb_neq _ _) Ht). intros (i & Hi & _)%fmap_Ok. by apply (IH i).
Qed.

(** The bytes [b] are what [v] is packed to. *)
Definition packs {V} `{VariableLenPack V} (v : V) (b : list byte) : Prop :=
  vl_get_packed_len v = Ok (length b) /\ vl_unpack_from_slice b = Ok v.

(** [st'] is [st] with the value of one entry written. *)
Definition entry_written (t : Z) (b : list byte) (es : list Entry) (st st' : PodStateMut S) : Prop :=
  same_shape st st' /\ tlv_holds (tlv_data st') (set_entry t b es).

Section packing.
Context {V : Type} `{VL : VariableLenPack V} `{Extension V} `{!VariableLenPackLaws V}.

Lemma pack_at_Ok (v : V) start n (st st' : PodStateMut S) :
  vl_get_packed_len v = Ok n -> (start + n <= length (tlv_data st))%nat ->
  pack_at v start (start + n) st = Ok st' ->
  exists b, length b = n /\ packs v b /\ st' = with_tlv_data (splice (tlv_data st) start b) st.
Proof.
  intros Hn Hl (b & Hp & [= <-])%bind_Ok.
  assert (length b = n) as Lb
    by (erewrite vl_pack_length by eassumption; rewrite length_slice; lia).
  exists b. split; [done|]. split; [|done]. split; [by rewrite Lb|].
  eapply vl_unpack_pack; [|eassumption]. rewrite Hn. f_equal. rewrite length_slice; lia.
Qed.

Lemma realloc_written (v : V) (st st' : PodStateMut S) es :
  TYPE V <> ExtensionType.Uninitialized -> tlv_holds (tlv_data st) es ->
  realloc_variable_len_extension v st = Ok st' ->
  exists b, packs v b /\ entry_written (extension_type_u16 (TYPE V)) b es st st'.
Proof.
  intros Hty (Hes & m & Et) (n & Hn & Hr)%bind_Ok.
  pose proof (extension_type_u16_range (TYPE V)) as Hrange. rewrite <- extension_type_u16_0 in Hty.
  destruct (first_entry (extension_type_u16 (TYPE V)) es) as [Hne|(es1 & v0 & es2 & -> & Hne)].
  { apply bind_Ok in Hr as ([[st1 i] j] & Hr & _). unfold realloc in Hr. rewrite Et in Hr.
    apply bind_Ok in Hr as (idx & Hi & _). exfalso.
    eapply get_extension_indices_absent; [|exact Hes|exact Hne|exact Hi].
    by rewrite <- extension_type_u16_0. }
  apply Forall_app in Hes as [Hes1 Hes2]. apply Forall_cons in Hes2 as [Hv0 Hes2].
  apply bind_Ok in Hr as ([[st1 i] j] & Hr & Hp).
  assert (exists info, get_tlv_data_info (tlv_data st) = Ok info) as [info Hinfo].
  { unfold realloc in Hr. apply bind_Ok in Hr as (idx & _ & Hr).
    apply bind_Ok in Hr as (u & (info & Hi & _)%fmap_Ok & _). by exists info. }
  rewrite (realloc_entries (TYPE V) n st es1 v0 es2 m info) in Hr by done.
  destruct (Nat.ltb_spec (length v0 + m) n) as [|Hm]; [done|].
  destruct (Z.ltb_spec u16_max (Z.of_nat n)) as [|Hu]; [done|]. injection Hr as <- <- <-.
  set (tlv := tlv_encode _ ++ _) in Hp.
  assert (tlv = (tlv_encode es1 ++ to_le_bytes 2 (extension_type_u16 (TYPE V)) ++
    to_le_bytes 2 (Z.of_nat n)) ++ resize n x00 v0 ++
    tlv_encode es2 ++ replicate (length v0 + m - n) x00) as Etlv.
  { unfold tlv. rewrite tlv_encode_app, tlv_encode_cons. unfold enc_entry. cbn [fst snd].
    rewrite length_resize. by rewrite <- !app_assoc. }
  apply pack_at_Ok in Hp as (b & Lb & Hb & ->); [|done|].
  2: { cbn [tlv_data with_tlv_data]. rewrite Etlv, !length_app, length_resize, !length_to_le_bytes.
       unfold value_at. lia. }
  exists b. split; [done|]. cbn [tlv_data with_tlv_data].
  replace (splice tlv _ b) with (tlv_encode (es1 ++ (extension_type_u16 (TYPE V), b) :: es2) ++
    replicate (length v0 + m - n) x00).
  2: { rewrite Etlv, splice_at; unfold value_at;
         rewrite ?length_app, ?length_resize, ?length_to_le_bytes; [|lia..].
       rewrite tlv_encode_app, tlv_encode_cons. unfold enc_entry. cbn [fst snd].
       rewrite Lb. by rewrite <- !app_assoc. }
  assert (length b <= length v0 + m)%nat by lia.
  split.
  - unfold same_shape. cbn [base padding account_type tlv_data with_tlv_data]. split_and!; [done..|].
    rewrite Et, !tlv_encode_app, !tlv_encode_cons, !length_app, !length_enc_entry, !length_replicate.
    cbn [fst snd]. lia.
  - rewrite set_entry_found by done. split; [|by eexists].
    apply Forall_app. split; [done|]. constructor; [|done]. split; cbn [fst snd]; [apply Hv0|lia].
Qed.

Lemma alloc_room ty n ow (st st' : PodStateMut S) idx :
  alloc ty n ow st = Ok (st', idx) -> (value_start idx + n <= length (tlv_data st'))%nat.
Proof.
  unfold alloc. destruct (negb _); [done|].
  intros (i & (es & tail & _ & _ & Et & -> & Hl & _)%get_extension_indices_inv & Ha)%bind_Ok.
  destruct (Nat.ltb_spec (length (drop (type_start (get_tlv_indices (length (tlv_encode es))))
    (tlv_data st))) (add_type_and_length_to_len n)) as [|Hn]; [done|].
  apply bind_Ok in Ha as (t & _ & Ha). destruct (_ || _); [|done].
  destruct (_ && _); [done|]. apply bind_Ok in Ha as (lb & Hlb & Ha). injection Ha as <- <-.
  unfold length_try_from in Hlb. destruct (_ <=? _); [|done]. injection Hlb as <-.
  cbn [tlv_data with_tlv_data value_start get_tlv_indices type_start length_start] in *.
  unfold add_type_and_length_to_len, EXT_TYPE_SIZE, LENGTH_SIZE in *.
  assert (length (tlv_data st) = length (tlv_encode es) + length tail)%nat as El
    by (by rewrite Et, length_app).
  rewrite length_drop in Hn. unfold extension_type_bytes.
  assert (forall (l : list byte) i b, length b = 2%nat -> (i + 2 <= length l)%nat ->
    length (splice l i b) = length l) as Hs by (intros l i b Lb Hi; rewrite length_splice; lia).
  rewrite !Hs; rewrite ?Hs, ?length_to_le_bytes; try done; lia.
Qed.

Lemma init_written (v : V) (st st' : PodStateMut S) es :
  tlv_holds (tlv_data st) es -> init_variable_len_extension v false st = Ok st' ->
  exists b, packs v b /\ entry_written (extension_type_u16 (TYPE V)) b es st st'.
Proof.
  intros Ht (n & Hn & Hi)%bind_Ok. apply bind_Ok in Hi as ([st1 idx] & Ha & Hp).
  pose proof (alloc_room _ _ _ _ _ _ Ha) as Hroom.
  apply alloc_place in Ha as (es1 & old & tail & Hpl & Ho).
  apply pack_at_Ok in Hp as (b & Lb & Hb & ->); [|done..].
  exists b. split; [done|]. split; [exact (place_same_shape _ _ _ _ _ _ _ b Hpl Lb)|].
  apply (place_holds _ _ _ _ _ _ _ es b Hpl Lb); [|done]. destruct Ho as [|[? _]]; [by left|done].
Qed.
End packing.
End views.

(** C29: reallocating an entry, which moves bytes in the buffer and fills the
    gap or the end with zeros, is the replacement of its value in the list of
    entries by its first [n] bytes, or by itself and zeros: the entries around
    it and the length of the buffer stay.  It fails exactly when the buffer or
    the length field is too small, and never reads or writes out of bounds. *)
Theorem realloc_spec {S} `{BaseState S} ty n (st : PodStateMut S) es v es' m info :
  Forall entry_ok (es ++ (extension_type_u16 ty, v) :: es') ->
  Forall (fun e => e.1 <> extension_type_u16 ty) es ->
  tlv_data st = tlv_encode (es ++ (extension_type_u16 ty, v) :: es') ++ replicate m x00 ->
  get_tlv_data_info (tlv_data st) = Ok info ->
  realloc ty n st =
    (if (length v + m <? n)%nat then Err ProgramError.InvalidAccountData
     else if u16_max <? Z.of_nat n then Err ProgramError.AccountDataTooSmall
     else Ok (with_tlv_data (tlv_encode (es ++ (extension_type_u16 ty, resize n x00 v) :: es') ++
                             replicate (length v + m - n) x00) st,
              value_at es, (value_at es + n)%nat)) /\
  (forall st' i j, realloc ty n st = Ok (st', i, j) -> length (repack st') = length (repack st)).
Proof.
  intros [Hes [Hv Hes']%Forall_cons]%Forall_app Hne Et Hi.
  pose proof (realloc_entries ty n st es v es' m info Hes Hes' Hv Hne Et Hi) as Hr.
  split; [done|]. intros st' i j Hok. rewrite Hr in Hok.
  destruct (Nat.ltb_spec (length v + m) n); [done|]. destruct (_ <? _); [done|]. injection Hok as <- _ _.
  rewrite !length_repack. cbn [padding account_type tlv_data with_tlv_data]. rewrite Et.
  rewrite !tlv_encode_app, !tlv_encode_cons, !length_app, !length_enc_entry, !length_replicate.
  cbn [fst snd]. rewrite length_resize. lia.
Qed.
