(* ===== verification/SerializeTheory.v ===== *)
(** * Accounts that grow and shrink with an extension

    What [alloc_and_serialize] and [alloc_and_serialize_variable_len_extension]
    leave of an account that they write an extension to: the base state and the
    other extensions as they were, the extension with its new value, and a
    buffer of the length that the extensions ask for. *)
From S2P Require Import Prelude Bytes Errors Ids Runtime Pod ExtensionState Extension TlvTheory.
From S2P Require Import ViewTheory Clean AccountLen MonadTheory VariableLen VariableLenTheory.

Lemma set_cell_twice k c c' w : set_cell k c (set_cell k c' w) = set_cell k c w.
Proof. unfold set_cell. simpl. by rewrite insert_insert_eq. Qed.

Lemma adjust_len_bounds n : (n <= adjust_len_for_multisig n)%nat /\ adjust_len_for_multisig n <> Multisig_LEN.
Proof.
  unfold adjust_len_for_multisig, EXT_TYPE_SIZE. destruct (Nat.eqb_spec n Multisig_LEN); lia.
Qed.

Section views.
Context {S : Type} `{BaseState S} (HS : (size_of S <= BASE_ACCOUNT_LENGTH)%nat).
Implicit Types st : PodStateMut S.

Lemma unpack_with_tlv st t :
  unpack_mut S (repack st) = Ok st -> account_type st <> [] ->
  length (repack (with_tlv_data t st)) <> Multisig_LEN ->
  unpack_mut S (repack (with_tlv_data t st)) = Ok (with_tlv_data t st).
Proof.
  intros (_ & Hi & Hm & Hw)%unpack_mut_Ok Ha Hl. apply unpack_mut_repack; [done|].
  split; [done|]. right. by destruct Hw as [(_ & ? & _)|Hw].
Qed.

Lemma typed_view st :
  unpack_mut S (repack st) = Ok st -> (BASE_ACCOUNT_LENGTH < length (repack st))%nat ->
  account_type st <> [].
Proof.
  intros (_ & Hi & Hm & [(Hp & Ha & Ht)|[_ ->]])%unpack_mut_Ok Hl; [|done].
  rewrite length_repack, Hp, Ha, Ht in Hl. simpl in Hl. lia.
Qed.

Lemma typed_length st :
  unpack_mut S (repack st) = Ok st -> account_type st <> [] ->
  length (repack st) = (BASE_ACCOUNT_AND_TYPE_LENGTH + length (tlv_data st))%nat.
Proof.
  intros (_ & Hi & Hm & [(_ & Ha & _)|[Hp Ha]])%unpack_mut_Ok Hne; [done|].
  rewrite length_repack, Hp, Ha, length_replicate. unfold BASE_ACCOUNT_AND_TYPE_LENGTH, ACCOUNT_TYPE_SIZE.
  cbn [length]. lia.
Qed.

Lemma untyped_view st :
  unpack_mut S (repack st) = Ok st -> (length (repack st) <= BASE_ACCOUNT_LENGTH)%nat ->
  padding st = [] /\ account_type st = [] /\ tlv_data st = [].
Proof.
  intros (_ & Hi & Hm & [Hw|[Hp Ha]])%unpack_mut_Ok Hl; [done|].
  rewrite length_repack, Hp, Ha, length_replicate in Hl. cbn [length] in Hl. lia.
Qed.

Lemma resize_repack st n :
  (length (repack st) <= n)%nat ->
  resize n x00 (repack st) =
  repack (with_tlv_data (tlv_data st ++ replicate (n - length (repack st)) x00) st).
Proof.
  intros Hl. rewrite resize_ge by done. unfold repack at 1 3. cbn [base padding account_type tlv_data with_tlv_data].
  by rewrite <- !app_assoc.
Qed.

Lemma cut_repack st t rest n :
  tlv_data st = t ++ rest -> n = length (repack (with_tlv_data t st)) ->
  resize n x00 (repack st) = repack (with_tlv_data t st).
Proof.
  intros Et ->. assert (repack st = repack (with_tlv_data t st) ++ rest) as ->.
  { unfold repack. cbn [base padding account_type tlv_data with_tlv_data]. rewrite Et. by rewrite <- !app_assoc. }
  apply resize_app_le.
Qed.

(** A longer buffer gets its account type. *)
Lemma set_account_type_longer st n d' :
  unpack_mut S (repack st) = Ok st -> (length (repack st) <= BASE_ACCOUNT_LENGTH)%nat ->
  set_account_type S (resize n x00 (repack st)) = Ok d' ->
  exists k, length d' = n /\
    d' = repack (mk_state_mut (base st) (replicate (BASE_ACCOUNT_LENGTH - size_of S) x00)
           [account_type_u8 (ACCOUNT_TYPE S)] (replicate k x00)).
Proof.
  intros Hu Hl Hs. destruct (untyped_view st Hu Hl) as (Hp & Ha & Ht).
  assert (repack st = to_bytes (base st)) as Er.
  { unfold repack. by rewrite Hp, Ha, Ht, !app_nil_r. }
  rewrite Er in Hs. unfold set_account_type in Hs.
  apply bind_Ok in Hs as (u & Hc & Hs). apply fail_if_Ok, orb_false_iff in Hc as [_ Hmin%Nat.ltb_ge].
  rewrite length_resize in Hmin. rewrite resize_ge in Hs by (rewrite length_to_bytes; lia).
  rewrite length_to_bytes in Hs.
  rewrite take_app_length', drop_app_length' in Hs by (by rewrite length_to_bytes).
  apply bind_Ok in Hs as (u' & _ & Hs). apply bind_Ok in Hs as (idx & Hi & Hs).
  set (p := (BASE_ACCOUNT_LENGTH - size_of S)%nat) in *.
  set (m := (n - size_of S)%nat) in *. unfold type_and_tlv_indices in Hi.
  destruct (replicate m x00) as [|b0 r0] eqn:Em; [injection Hi as <-; done|].
  rewrite <- Em in Hi, Hs. clear Em b0 r0. rewrite length_replicate in Hi. fold p in Hi.
  unfold ACCOUNT_TYPE_SIZE in Hi. destruct (Nat.ltb_spec m (p + 1)) as [|Hm]; [done|].
  destruct (existsb _ _); [done|]. injection Hi as <-. cbn iota in Hs.
  unfold account_type_at in Hs. rewrite lookup_replicate_2 in Hs by lia.
  cbn [account_type_try_from ok_or mbind Result_bind] in Hs.
  rewrite bool_decide_true in Hs by done. apply bind_Ok in Hs as (u'' & _ & [= <-]).
  exists (m - p - 1)%nat.
  assert (splice (replicate m x00) p [account_type_u8 (ACCOUNT_TYPE S)] =
    replicate p x00 ++ [account_type_u8 (ACCOUNT_TYPE S)] ++ replicate (m - p - 1) x00) as ->.
  { replace m with (p + (1 + (m - p - 1)))%nat at 1 by lia. rewrite !replicate_add.
    apply splice_at; [by rewrite length_replicate|done]. }
  split; [|done]. rewrite !length_app, length_to_bytes, !length_replicate. cbn [length].
  unfold m in *. lia.
Qed.

(** ** Writing an extension *)

(** [st'] has the base [b0] and the entries [es] with the value [b] at [ty]. *)
Definition extension_set (ty : ExtensionType) (b : list byte) (es : list Entry) (b0 : S) st' : Prop :=
  base st' = b0 /\ unpack_mut S (repack st') = Ok st' /\
  tlv_holds (tlv_data st') (set_entry (extension_type_u16 ty) b es).

(** A buffer with room for [es], before the write. *)
Definition roomy (es : list Entry) (b : S) (n : nat) st : Prop :=
  base st = b /\ unpack_mut S (repack st) = Ok st /\ account_type st <> [] /\
  tlv_holds (tlv_data st) es /\ length (repack st) = n.

Lemma roomy_grown es st n :
  unpack_mut S (repack st) = Ok st -> tlv_holds (tlv_data st) es ->
  (BASE_ACCOUNT_LENGTH < length (repack st))%nat -> (length (repack st) <= n)%nat ->
  n <> Multisig_LEN ->
  exists st', resize n x00 (repack st) = repack st' /\ roomy es (base st) n st'.
Proof.
  intros Hu Hes Hl Hn Hm. rewrite resize_repack by done.
  set (st' := with_tlv_data _ st). exists st'. split; [done|].
  assert (length (repack st') = n) as El.
  { unfold st'. rewrite length_repack. cbn [padding account_type tlv_data with_tlv_data].
    rewrite length_app, length_replicate. rewrite length_repack in *. lia. }
  pose proof (typed_view st Hu Hl) as Ha. unfold roomy.
  split; [done|]. split; [|split; [done|]].
  - apply unpack_with_tlv; [done..|]. fold st'. by rewrite El.
  - split; [|done]. by apply tlv_holds_grow.
Qed.

Lemma roomy_written ty b es base_ n st st' :
  roomy es base_ n st -> entry_written (extension_type_u16 ty) b es st st' ->
  extension_set ty b es base_ st' /\ length (repack st') = n /\ account_type st' <> [].
Proof.
  intros (Hb & Hu & Ha & _ & Hl) [Hs Hh]. pose proof (same_shape_length _ _ Hs) as El.
  pose proof Hs as (Eb & _ & Ea & _). split; [|by rewrite El, Ea].
  split; [by rewrite Eb|]. split; [|done]. apply unpack_mut_Ok in Hu as (_ & Hi & Hw).
  apply unpack_mut_repack; [by rewrite Eb|]. by eapply well_formed_same_shape.
Qed.

(** Cutting a buffer to the length of its entries. *)
Lemma shrunk ty b es b0 st' n :
  extension_set ty b es b0 st' -> account_type st' <> [] ->
  n = adjust_len_for_multisig (BASE_ACCOUNT_AND_TYPE_LENGTH +
        length (tlv_encode (set_entry (extension_type_u16 ty) b es))) ->
  (n <= length (repack st'))%nat ->
  exists st'', resize n x00 (repack st') = repack st'' /\ extension_set ty b es b0 st'' /\
    length (repack st'') = n.
Proof.
  intros (Eb & Hu & Hok & m & Et) Ha En Hn. pose proof (typed_length st' Hu Ha) as El.
  set (enc := tlv_encode _) in *.
  destruct (adjust_len_bounds (BASE_ACCOUNT_AND_TYPE_LENGTH + length enc)) as [Hlo Hm].
  rewrite <- En in Hlo, Hm. rewrite Et, length_app, length_replicate in El.
  set (j := (n - BASE_ACCOUNT_AND_TYPE_LENGTH - length enc)%nat).
  set (t := enc ++ replicate j x00).
  assert (length (repack (with_tlv_data t st')) = n) as Elt.
  { pose proof (typed_length st' Hu Ha) as E0. rewrite length_repack in E0 |- *.
    rewrite Et, length_app, length_replicate in E0.
    cbn [padding account_type tlv_data with_tlv_data]. unfold t, j. rewrite length_app, length_replicate. lia. }
  exists (with_tlv_data t st'). split; [|split; [|done]].
  - apply (cut_repack st' t (replicate (m - j) x00)); [|done]. rewrite Et. unfold t.
    rewrite <- app_assoc, <- replicate_add. do 2 f_equal. unfold j. lia.
  - split; [done|]. split; [apply unpack_with_tlv; [done..|by rewrite Elt]|].
    split; [done|]. by exists j.
Qed.
End views.

(** ** The accounts *)

Section accounts.
Context `{RT : Runtime} {S : Type} `{BaseState S} (HS : (size_of S <= BASE_ACCOUNT_LENGTH)%nat).

(** [AccountInfo::resize]: the data cut, or extended with zeros. *)
Definition resize_zeroes : Prop := forall d n d', rt_resize d n = Ok d' -> d' = resize n x00 d.

(** The account at [k] holds [st], with the entries [es]. *)
Definition holds_entries (w : World) (k : Address) (st : PodStateMut S) (es : list Entry) : Prop :=
  unpack_mut S (cell_data (cell w k)) = Ok st /\ tlv_holds (tlv_data st) es.

(** Only the data of the account at [k] changed, to a view with the entry set. *)
Definition account_written (k : Address) (ty : ExtensionType) (b : list byte) (es : list Entry)
    (b0 : S) (w w' : World) (n : nat) : Prop :=
  exists st', w' = store k st' w /\ extension_set ty b es b0 st' /\ length (repack st') = n.

Lemma resize_account_Ok held i n w u w' :
  resize_zeroes -> resize_account held i n w = Ok (u, w') ->
  w' = set_cell (key i) (with_data (resize n x00 (cell_data (cell w (key i)))) (cell w (key i))) w.
Proof.
  intros Hr H1. unfold resize_account in H1. m_inv.
  match goal with E : rt_resize _ _ = Ok _ |- _ => apply Hr in E; subst end. done.
Qed.

Lemma try_data_len_Ok held i w n w' :
  try_data_len held i w = Ok (n, w') -> n = length (cell_data (cell w (key i))) /\ w' = w.
Proof. intros H1. unfold try_data_len in H1. m_inv. done. Qed.

Lemma store_twice k (st st' : PodStateMut S) w :
  set_cell k (with_data (repack st') (with_data (repack st) (cell w k))) (store k st w) = store k st' w.
Proof. unfold store. by rewrite set_cell_twice. Qed.

Lemma store_resized k d (st : PodStateMut S) w :
  store k st (set_cell k (with_data d (cell w k)) w) = store k st w.
Proof. unfold store. by rewrite cell_set_cell, set_cell_twice. Qed.

(** The buffer that [unpack_mut] sees after the account was made longer. *)
Lemma grown_buffer prev n (d : list byte) st es buffer :
  unpack_mut S d = Ok st -> tlv_holds (tlv_data st) es -> prev = length d -> (prev < n)%nat ->
  n <> Multisig_LEN -> (BASE_ACCOUNT_LENGTH < n)%nat ->
  set_type_if_base S prev (resize n x00 d) = Ok buffer ->
  exists st', buffer = repack st' /\ roomy es (base st) n st'.
Proof.
  intros Hu Hes -> Hn Hm Hb Hs. apply unpack_mut_Ok in Hu as Hd. destruct Hd as (-> & Hi & Hw).
  unfold set_type_if_base in Hs. destruct (Nat.leb_spec (length (repack st)) BASE_ACCOUNT_LENGTH) as [Hl|Hl].
  - apply (set_account_type_longer HS st) in Hs as (k & El & ->); [|done..].
    destruct (untyped_view HS st Hu Hl) as (_ & _ & Et).
    destruct Hes as (Hes & j & Ej). rewrite Et in Ej.
    assert (es = []) as ->.
    { destruct es as [|e es]; [done|]. apply (f_equal length) in Ej.
      rewrite tlv_encode_cons, !length_app, length_enc_entry in Ej. simpl in Ej. lia. }
    eexists. split; [reflexivity|]. split; [done|]. split; [|split; [done|]].
    + apply unpack_mut_repack; [done|]. split; [by rewrite El|by right].
    + split; [split; [done|by exists k]|done].
  - injection Hs as <-. apply roomy_grown; [done..|lia|done].
Qed.

(** What both arms do to the view once the buffer has room. *)
Lemma roomy_store w k es (b0 : S) n ty b st st' :
  roomy es b0 n st -> entry_written (extension_type_u16 ty) b es st st' ->
  account_written k ty b es b0 w (store k st' w) n.
Proof.
  intros Hr Hw. exists st'. split; [done|].
  by destruct (roomy_written _ _ _ _ _ _ _ Hr Hw) as (? & ? & _).
Qed.

Lemma roomy_read es (b0 : S) n (st a : PodStateMut S) :
  roomy es b0 n st -> unpack_mut S (repack st) = Ok a -> a = st.
Proof. intros (_ & Hu & _) Ha. congruence. Qed.

Lemma type_size_pos n : (BASE_ACCOUNT_LENGTH < BASE_ACCOUNT_AND_TYPE_LENGTH + n)%nat.
Proof. unfold BASE_ACCOUNT_AND_TYPE_LENGTH, ACCOUNT_TYPE_SIZE. lia. Qed.

(** An extension takes more than the base. *)
Lemma extension_room ty t es n len :
  get_account_type ty = ACCOUNT_TYPE S -> tlv_holds t es ->
  try_get_new_account_len_for_extension_len (S := S) ty t n = Ok len ->
  (BASE_ACCOUNT_LENGTH < len)%nat /\ len <> Multisig_LEN.
Proof.
  intros Ha Ht Hl. apply (new_account_len_holds _ _ _ _ _ (replicate n x00) Ha Ht) in Hl as ->;
    [|by rewrite length_replicate].
  match goal with |- context [adjust_len_for_multisig ?m] =>
    destruct (adjust_len_bounds m) as [Hlo Hm] end.
  split; [|exact Hm]. eapply Nat.lt_le_trans; [|exact Hlo]. apply type_size_pos.
Qed.

Section variable_len.
Context {V : Type} `{VL : VariableLenPack V} `{EV : Extension V} `{!VariableLenPackLaws V}.
Context (Hty : TYPE V <> ExtensionType.Uninitialized).

Lemma grow_and_serialize_Ok held i (v : V) exists_ new w u w' st es :
  resize_zeroes -> holds_entries w (key i) st es ->
  let prev := length (cell_data (cell w (key i))) in
  (prev < new)%nat -> new <> Multisig_LEN -> (BASE_ACCOUNT_LENGTH < new)%nat ->
  (exists_ = true -> (BASE_ACCOUNT_LENGTH < prev)%nat) ->
  grow_and_serialize S held i v exists_ prev new w = Ok (u, w') ->
  exists b, packs v b /\ account_written (key i) (TYPE V) b es (base st) w w' new.
Proof.
  intros Hr [Hu Hes] prev Hn Hm Hb Hex Hg. unfold grow_and_serialize in Hg. m_inv.
  match goal with E : resize_account _ _ _ _ = Ok _ |- _ => apply resize_account_Ok in E as ->; [|done] end.
  set (buf := resize new x00 _) in *. 
  assert (forall buffer, set_type_if_base S prev buf = Ok buffer ->
    exists st', buffer = repack st' /\ roomy es (base st) new st') as Hroom.
  { intros buffer Hs. by eapply grown_buffer. }
  destruct exists_; m_inv; autorewrite with token in *; cbn [cell_data with_data] in *.
  - destruct (Hroom buf) as (st1 & E1 & Hst1).
    { unfold set_type_if_base. by rewrite (proj2 (Nat.leb_gt _ _)) by auto. }
    rewrite E1 in Hm0. apply (roomy_read _ _ _ _ _ Hst1) in Hm0 as ->.
    apply (realloc_written v st1 a0 es) in Hm2 as (b & Hb1 & Hw1); [|done|apply Hst1].
    exists b. split; [done|]. rewrite store_resized; by eapply roomy_store.
  - match goal with E : set_type_if_base _ _ _ = Ok ?buffer |- _ =>
      apply Hroom in E as (st1 & -> & Hst1) end.
    match goal with E : unpack_mut _ (repack st1) = Ok _ |- _ =>
      apply (roomy_read _ _ _ _ _ Hst1) in E as -> end.
    match goal with E : init_variable_len_extension v false st1 = Ok ?a |- _ =>
      apply (init_written v st1 a es) in E as (b & Hb1 & Hw1); [|apply Hst1] end.
    exists b. split; [done|]. rewrite store_resized; by eapply roomy_store.
Qed.

Lemma serialize_and_shrink_Ok held i (v : V) exists_ new w u w' st es b0 :
  resize_zeroes -> holds_entries w (key i) st es ->
  let prev := length (cell_data (cell w (key i))) in
  let len b := adjust_len_for_multisig (BASE_ACCOUNT_AND_TYPE_LENGTH +
      length (tlv_encode (set_entry (extension_type_u16 (TYPE V)) b es))) in
  (new <= prev)%nat -> (forall b, packs v b -> new = len b) -> (BASE_ACCOUNT_LENGTH < new)%nat ->
  base st = b0 ->
  serialize_and_shrink S held i v exists_ prev new w = Ok (u, w') ->
  exists b, packs v b /\ account_written (key i) (TYPE V) b es b0 w w' new.
Proof.
  intros Hr [Hu Hes] prev len Hn Hlen Hb <- Hs. unfold serialize_and_shrink in Hs.
  apply M_bind_Ok in Hs as (buf & w1 & (_ & -> & ->)%try_borrow_mut_data_Ok & Hs).
  rewrite Hu in Hs. apply M_bind_Ok in Hs as (st0 & w1 & ([= <-] & ->)%lift_Ok & Hs).
  apply unpack_mut_Ok in Hu as Hd. destruct Hd as (Ed & _).
  assert (roomy es (base st) prev st) as Hroom.
  { unfold prev. rewrite Ed in Hu |- *. split; [done|]. split; [done|]. split; [|done].
    apply typed_view; [done..|]. rewrite <- Ed. fold prev. lia. }
  apply M_bind_Ok in Hs as (st1 & w1 & [Hm ->]%lift_Ok & Hs).
  assert (exists b, packs v b /\ entry_written (extension_type_u16 (TYPE V)) b es st st1)
    as (b & Hp & Hw1) by (destruct exists_; [by apply realloc_written|by apply init_written]).
  exists b. split; [done|]. specialize (Hlen b Hp).
  destruct (roomy_written _ _ _ _ _ _ _ Hroom Hw1) as (Hset & El & Ha).
  rewrite (proj2 (Nat.leb_le _ _)) in Hs by done. m_inv.
  - match goal with E : resize_account _ _ _ _ = Ok _ |- _ => apply resize_account_Ok in E as ->; [|done] end.
    unfold store at 1 2. rewrite cell_set_cell. cbn [cell_data with_data].
    destruct (shrunk HS (TYPE V) b es (base st) st1 (len b)) as (st2 & E2 & Hset2 & El2);
      [done|done|done|by rewrite El|].
    rewrite E2, store_twice. by exists st2.
  - exists st1. split; [done|]. split; [done|]. rewrite El.
    match goal with E : (0 <? _)%nat = false |- _ => apply Nat.ltb_ge in E end. lia.
Qed.

Lemma alloc_and_serialize_variable_len_Ok held i (v : V) ow w u w' st es :
  get_account_type (TYPE V) = ACCOUNT_TYPE S -> resize_zeroes -> holds_entries w (key i) st es ->
  alloc_and_serialize_variable_len_extension S held i v ow w = Ok (u, w') ->
  exists b, packs v b /\
    account_written (key i) (TYPE V) b es (base st) w w'
      (adjust_len_for_multisig (BASE_ACCOUNT_AND_TYPE_LENGTH +
         length (tlv_encode (set_entry (extension_type_u16 (TYPE V)) b es)))) /\
    (ow = false -> entries_lookup (extension_type_u16 (TYPE V)) es = None).
Proof.
  intros Ha Hr He Hs. pose proof He as [Hu Hes]. unfold alloc_and_serialize_variable_len_extension in Hs.
  apply M_bind_Ok in Hs as (prev & w1 & [-> ->]%try_data_len_Ok & Hs).
  apply M_bind_Ok in Hs as (d & w1 & (_ & -> & ->)%try_borrow_data_Ok & Hs).
  rewrite unpack_unpack_mut, Hu in Hs. cbn [fmap Result_fmap] in Hs.
  apply M_bind_Ok in Hs as (st0 & w1 & [[= <-] ->]%lift_Ok & Hs).
  apply M_bind_Ok in Hs as (new & w1 & [Hnew ->]%lift_Ok & Hs).
  unfold try_get_new_account_len_for_variable_len_extension in Hnew.
  apply bind_Ok in Hnew as (n & Hn & Hnew). cbn [get_tlv_data PodState_bse state_tlv_data] in *.
  destruct (extension_room _ _ _ _ _ Ha Hes Hnew) as [Hbase Hmulti].
  apply M_bind_Ok in Hs as (u1 & w1 & [How ->]%bail_if_Ok & Hs).
  pose proof (get_extension_bytes_holds (S := S) (TYPE V) _ _ Ha Hes) as Hget.
  assert (forall b, packs v b -> new = adjust_len_for_multisig (BASE_ACCOUNT_AND_TYPE_LENGTH +
      length (tlv_encode (set_entry (extension_type_u16 (TYPE V)) b es)))) as Hlen.
  { intros b [Hb _]. eapply new_account_len_holds; [done..| |exact Hnew]. congruence. }
  assert (is_ok (get_extension_bytes S (TYPE V) (tlv_data st)) = true ->
    (BASE_ACCOUNT_LENGTH < length (cell_data (cell w (key i))))%nat) as Hex.
  { intros [x Hx]%is_ok_true. destruct (Nat.lt_ge_cases BASE_ACCOUNT_LENGTH
      (length (cell_data (cell w (key i))))) as [|Hle]; [done|exfalso].
    apply unpack_mut_Ok in Hu as Hd. destruct Hd as (Ed & _). rewrite Ed in Hu, Hle.
    destruct (untyped_view HS st Hu Hle) as (_ & _ & Et). by rewrite Et in Hx; apply (zeros_lookup _ 0) in Hx. }
  assert (exists b, packs v b /\ account_written (key i) (TYPE V) b es (base st) w w' new)
    as (b & Hb & Hw).
  { destruct (Nat.ltb_spec (length (cell_data (cell w (key i)))) new) as [Hlt|Hge].
    - by eapply grow_and_serialize_Ok in Hs.
    - by eapply serialize_and_shrink_Ok in Hs. }
  exists b. rewrite <- (Hlen b Hb). split; [done|]. split; [done|]. intros ->.
  rewrite andb_true_r in How. rewrite <- Hget. by destruct (get_extension_bytes S _ _).
Qed.
End variable_len.

(** ** Fixed-size extensions *)

Lemma init_extension_written V `{Pod V, Extension V} v ow (st : PodStateMut S) dv put es :
  tlv_holds (tlv_data st) es -> init_extension V ow st = Ok (dv, put) ->
  entry_written (extension_type_u16 (TYPE V)) (to_bytes v) es st (put v) /\
  (ow = false -> entries_lookup (extension_type_u16 (TYPE V)) es = None).
Proof.
  intros Ht Hi. pose proof (put_init_same_shape V ow st dv put v Hi) as Hs.
  unfold init_extension in Hi. apply bind_Ok in Hi as ([st1 idx] & Ha & [= <- <-]).
  apply alloc_place in Ha as (es1 & old & tail & Hp & Ho). split.
  - split; [done|]. apply (place_holds _ _ _ _ _ _ _ _ _ Hp); [apply length_to_bytes| |done].
    destruct Ho as [|[_ ?]]; auto.
  - intros ->. destruct Ho as [Hz|[? _]]; [|done].
    destruct Hp as (_ & Hes1 & Hne & _ & Ho & Et & _). destruct Ht as (Hes & m & E).
    rewrite Et in E. symmetry in E.
    apply clean_end in E as [-> _]; [|done|done|rewrite length_app; lia|done].
    by apply lookup_absent.
Qed.

Lemma alloc_and_serialize_Ok {V} `{Pod V, Extension V} held i (v : V) ow w u w' st es :
  get_account_type (TYPE V) = ACCOUNT_TYPE S -> resize_zeroes -> holds_entries w (key i) st es ->
  alloc_and_serialize S held i v ow w = Ok (u, w') ->
  account_written (key i) (TYPE V) (to_bytes v) es (base st) w w'
    (Nat.max (length (cell_data (cell w (key i))))
       (adjust_len_for_multisig (BASE_ACCOUNT_AND_TYPE_LENGTH +
          length (tlv_encode (set_entry (extension_type_u16 (TYPE V)) (to_bytes v) es))))) /\
  (ow = false -> entries_lookup (extension_type_u16 (TYPE V)) es = None).
Proof.
  intros Ha Hr He Hs. pose proof He as [Hu Hes]. unfold alloc_and_serialize in Hs.
  apply M_bind_Ok in Hs as (prev & w1 & [-> ->]%try_data_len_Ok & Hs).
  apply M_bind_Ok in Hs as (d & w1 & (_ & -> & ->)%try_borrow_data_Ok & Hs).
  rewrite unpack_unpack_mut, Hu in Hs. cbn [fmap Result_fmap] in Hs.
  apply M_bind_Ok in Hs as (st0 & w1 & [[= <-] ->]%lift_Ok & Hs).
  apply M_bind_Ok in Hs as (new & w1 & [Hnew ->]%lift_Ok & Hs).
  unfold try_get_new_account_len in Hnew. cbn [get_tlv_data PodState_bse state_tlv_data] in *.
  destruct (extension_room _ _ _ _ _ Ha Hes Hnew) as [Hbase Hmulti].
  rewrite <- (new_account_len_holds _ _ _ _ _ (to_bytes v) Ha Hes (length_to_bytes v) Hnew).
  assert (exists w1 st1 dv put, (forall st' : PodStateMut S, store (key i) st' w1 = store (key i) st' w) /\
    roomy es (base st) (Nat.max (length (cell_data (cell w (key i)))) new) st1 /\
    init_extension V ow st1 = Ok (dv, put) /\ w' = store (key i) (put v) w1)
    as (w1 & st1 & dv & put & Hw1 & Hroom & Hput & ->).
  { apply M_bind_Ok in Hs as (u1 & w1 & Hs1 & Hs).
    destruct (Nat.ltb_spec (length (cell_data (cell w (key i)))) new) as [Hlt|Hge]; cbn [when] in Hs1.
    - apply resize_account_Ok in Hs1 as ->; [|done]. m_inv. autorewrite with token in *.
      cbn [cell_data with_data] in *. rewrite Nat.max_r by lia.
      match goal with E : set_type_if_base _ _ _ = Ok _ |- _ =>
        eapply grown_buffer in E as (st1 & -> & Hst1); [|done..] end.
      match goal with E : unpack_mut _ (repack st1) = Ok _ |- _ =>
        apply (roomy_read _ _ _ _ _ Hst1) in E as -> end.
      eexists _, st1, _, _. split; [intros st'; apply store_resized|done].
    - m_inv. rewrite Nat.max_l by lia.
      match goal with E : set_type_if_base _ _ _ = Ok _ |- _ =>
        unfold set_type_if_base in E; rewrite (proj2 (Nat.leb_gt _ _)) in E by lia; injection E as <- end.
      match goal with E : unpack_mut S _ = Ok ?a |- _ => rewrite Hu in E; injection E as <- end.
      exists w, st. eexists _, _. split; [done|]. split; [|done].
      apply unpack_mut_Ok in Hu as Hd. destruct Hd as (Ed & _). rewrite Ed in *.
      split; [done|]. split; [done|]. split; [|done]. apply typed_view; [done..|lia]. }
  destruct (init_extension_written V v ow st1 dv put es) as [Hw Hnone]; [apply Hroom|done|].
  split; [|done]. rewrite Hw1. by eapply roomy_store.
Qed.
End accounts.
