(* ===== verification/TokenMetadata.v ===== *)
(** * Metadata and groups in a mint

    [program/src/extension/token_metadata/processor.rs] and
    [program/src/extension/token_group/processor.rs]: a mint can describe
    itself, a group of mints, or its membership in a group.

    The data of these extensions, their instructions and their errors are
    defined in other crates ([spl_token_metadata_interface],
    [spl_token_group_interface]), which are the two classes below.  Their laws
    state what those crates document: updating a field changes neither the
    authority nor the mint, and a group counts its members up to its limit. *)
From S2P Require Import Prelude Bytes Errors Ids Runtime Pod ExtensionState Extension TlvTheory.
From S2P Require Import ViewTheory AccountLen MonadTheory Ownership VariableLen.

#[export] Instance PodCOption_eq_dec T `{EqDecision T} : EqDecision (PodCOption T).
Proof. solve_decision. Defined.

Definition eq_coption (a b : PodCOption Address) : bool := bool_decide (a = b).

Section shared.
Context `{RT : Runtime}.

(** [check_update_authority], with the errors of the two crates. *)
Definition check_update_authority (immutable incorrect : ProgramError)
    (update_authority_info : AccountInfo) (expected_update_authority : MaybeNull)
    : Result ProgramError unit :=
  _ ← fail_if (negb (is_signer update_authority_info)) ProgramError.MissingRequiredSignature;
  update_authority ← ok_or (maybe_null_get expected_update_authority) immutable;
  fail_if (negb (bool_decide (update_authority = key update_authority_info))) incorrect.

(** The scope in which the initialisers check the mint: its authority signs, and
    the pointer extension [V] is there. *)
Definition check_described_mint (V : Type) `{Pod V, Extension V} (incorrect : ProgramError)
    (mint_info mint_authority_info : AccountInfo) : M unit :=
  _ ← check_owner mint_info;
  mint_data ← try_borrow_data [] mint_info;
  mint ← lift (unpack PodMint mint_data);
  _ ← bail_if (negb (is_signer mint_authority_info)) ProgramError.MissingRequiredSignature;
  _ ← bail_if (negb (eq_coption (mint_authority (state_base mint))
                       (PodCOption.some (key mint_authority_info)))) incorrect;
  bail_if (negb (is_ok (get_extension V mint))) TokenError.InvalidExtensionCombination.

End shared.

(** ** Token metadata *)

Module TokenMetadataInstruction.
Inductive TokenMetadataInstruction {Field : Type} : Type :=
  | Initialize (name symbol uri : list byte)
  | UpdateField (field : Field) (value : list byte)
  | RemoveKey (idempotent : bool) (key : list byte)
  | UpdateAuthority (new_authority : MaybeNull)
  | Emit (start end_ : option Z).
Arguments TokenMetadataInstruction Field : clear implicits.
End TokenMetadataInstruction.
Abbreviation TokenMetadataInstruction := TokenMetadataInstruction.TokenMetadataInstruction.

(** What [spl_token_metadata_interface] supplies.  A string is its bytes. *)
Class TokenMetadataInterface : Type := mk_token_metadata_interface {
  TokenMetadata : Type;
  Field : Type;
  (** The fields that the program reads and sets. *)
  tm_new : list byte -> list byte -> list byte -> MaybeNull -> Address -> TokenMetadata;
  tm_update_authority : TokenMetadata -> MaybeNull;
  tm_set_update_authority : MaybeNull -> TokenMetadata -> TokenMetadata;
  tm_mint : TokenMetadata -> Address;
  (** [update], [remove_key] and [get_slice]. *)
  tm_update : Field -> list byte -> TokenMetadata -> TokenMetadata;
  tm_remove_key : list byte -> TokenMetadata -> bool * TokenMetadata;
  tm_get_slice : list byte -> option Z -> option Z -> option (list byte);
  (** [TokenMetadataInstruction::unpack], where it succeeds. *)
  tm_unpack : list byte -> option (TokenMetadataInstruction Field);
  #[global] tm_pack :: VariableLenPack TokenMetadata;
  (** [TokenMetadataError]. *)
  tm_ImmutableMetadata : ProgramError;
  tm_IncorrectUpdateAuthority : ProgramError;
  tm_IncorrectMintAuthority : ProgramError;
  tm_KeyNotFound : ProgramError
}.

Class TokenMetadataLaws `{TokenMetadataInterface} : Prop := mk_token_metadata_laws {
  #[global] tm_pack_laws :: VariableLenPackLaws TokenMetadata;
  tm_update_authority_new n s u a m : tm_update_authority (tm_new n s u a m) = a;
  tm_mint_new n s u a m : tm_mint (tm_new n s u a m) = m;
  tm_update_authority_set a t : tm_update_authority (tm_set_update_authority a t) = a;
  tm_mint_set a t : tm_mint (tm_set_update_authority a t) = tm_mint t;
  tm_update_keeps f v t : tm_update_authority (tm_update f v t) = tm_update_authority t /\
    tm_mint (tm_update f v t) = tm_mint t;
  tm_remove_key_keeps k t : tm_update_authority (tm_remove_key k t).2 = tm_update_authority t /\
    tm_mint (tm_remove_key k t).2 = tm_mint t
}.

#[export] Instance TokenMetadata_ext `{TokenMetadataInterface} : Extension TokenMetadata :=
  ExtensionType.TokenMetadata.

Module token_metadata.
Section processor.
Context `{RT : Runtime} `{TM : TokenMetadataInterface}.

Definition process_initialize (program_id : Address) (accounts : list AccountInfo)
    (name symbol uri : list byte) : M unit :=
  '(metadata_info, iter) ← lift (next_account_info accounts);
  '(update_authority_info, iter) ← lift (next_account_info iter);
  '(mint_info, iter) ← lift (next_account_info iter);
  '(mint_authority_info, iter) ← lift (next_account_info iter);
  _ ← bail_if (negb (bool_decide (key metadata_info = key mint_info))) TokenError.MintMismatch;
  _ ← check_described_mint MetadataPointer tm_IncorrectMintAuthority mint_info mint_authority_info;
  update_authority ← lift (ok_or (maybe_null_try_from (Some (key update_authority_info)))
                             ProgramError.InvalidArgument);
  let token_metadata := tm_new name symbol uri update_authority (key mint_info) in
  alloc_and_serialize_variable_len_extension PodMint [] metadata_info token_metadata false.

(** The scope in which the other handlers read the metadata. *)
Definition read_metadata (metadata_info : AccountInfo) : M TokenMetadata :=
  buffer ← try_borrow_data [] metadata_info;
  mint ← lift (unpack PodMint buffer);
  lift (get_variable_len_extension TokenMetadata mint).

Definition process_update_field (program_id : Address) (accounts : list AccountInfo)
    (field : Field) (value : list byte) : M unit :=
  '(metadata_info, iter) ← lift (next_account_info accounts);
  '(update_authority_info, iter) ← lift (next_account_info iter);
  _ ← check_owner metadata_info;
  token_metadata ← read_metadata metadata_info;
  _ ← lift (check_update_authority tm_ImmutableMetadata tm_IncorrectUpdateAuthority
              update_authority_info (tm_update_authority token_metadata));
  let token_metadata := tm_update field value token_metadata in
  alloc_and_serialize_variable_len_extension PodMint [] metadata_info token_metadata true.

Definition process_remove_key (program_id : Address) (accounts : list AccountInfo)
    (idempotent : bool) (key_ : list byte) : M unit :=
  '(metadata_info, iter) ← lift (next_account_info accounts);
  '(update_authority_info, iter) ← lift (next_account_info iter);
  _ ← check_owner metadata_info;
  token_metadata ← read_metadata metadata_info;
  _ ← lift (check_update_authority tm_ImmutableMetadata tm_IncorrectUpdateAuthority
              update_authority_info (tm_update_authority token_metadata));
  let '(removed, token_metadata) := tm_remove_key key_ token_metadata in
  _ ← bail_if (negb removed && negb idempotent) tm_KeyNotFound;
  alloc_and_serialize_variable_len_extension PodMint [] metadata_info token_metadata true.

Definition process_update_authority (program_id : Address) (accounts : list AccountInfo)
    (new_authority : MaybeNull) : M unit :=
  '(metadata_info, iter) ← lift (next_account_info accounts);
  '(update_authority_info, iter) ← lift (next_account_info iter);
  _ ← check_owner metadata_info;
  token_metadata ← read_metadata metadata_info;
  _ ← lift (check_update_authority tm_ImmutableMetadata tm_IncorrectUpdateAuthority
              update_authority_info (tm_update_authority token_metadata));
  let token_metadata := tm_set_update_authority new_authority token_metadata in
  alloc_and_serialize_variable_len_extension PodMint [] metadata_info token_metadata true.

Definition process_emit (program_id : Address) (accounts : list AccountInfo)
    (start end_ : option Z) : M unit :=
  '(metadata_info, iter) ← lift (next_account_info accounts);
  _ ← check_owner metadata_info;
  buffer ← try_borrow_data [] metadata_info;
  state ← lift (unpack PodMint buffer);
  metadata_bytes ← lift (get_extension_bytes PodMint (TYPE TokenMetadata) (state_tlv_data state));
  match tm_get_slice metadata_bytes start end_ with
  | Some range => set_return_data range
  | None => mret tt
  end.

Definition process_instruction (program_id : Address) (accounts : list AccountInfo)
    (instruction : TokenMetadataInstruction Field) : M unit :=
  match instruction with
  | TokenMetadataInstruction.Initialize name symbol uri =>
      process_initialize program_id accounts name symbol uri
  | TokenMetadataInstruction.UpdateField field value =>
      process_update_field program_id accounts field value
  | TokenMetadataInstruction.RemoveKey idempotent key_ =>
      process_remove_key program_id accounts idempotent key_
  | TokenMetadataInstruction.UpdateAuthority new_authority =>
      process_update_authority program_id accounts new_authority
  | TokenMetadataInstruction.Emit start end_ => process_emit program_id accounts start end_
  end.
End processor.
End token_metadata.

(** ** Token groups *)

Module TokenGroupInstruction.
Inductive TokenGroupInstruction : Type :=
  | InitializeGroup (update_authority : MaybeNull) (max_size : U64)
  | UpdateGroupMaxSize (max_size : U64)
  | UpdateGroupAuthority (new_authority : MaybeNull)
  | InitializeMember.
End TokenGroupInstruction.
Abbreviation TokenGroupInstruction := TokenGroupInstruction.TokenGroupInstruction.

(** What [spl_token_group_interface] supplies, on the data of [ExtensionState]. *)
Class TokenGroupInterface : Type := mk_token_group_interface {
  (** [TokenGroup::new], [update_max_size] and [increment_size], and
      [TokenGroupMember::new]. *)
  tg_new : Address -> MaybeNull -> Z -> TokenGroup;
  tg_update_max_size : Z -> TokenGroup -> Result ProgramError TokenGroup;
  tg_increment_size : TokenGroup -> Result ProgramError (Z * TokenGroup);
  tgm_new : Address -> Address -> Z -> TokenGroupMember;
  (** [TokenGroupInstruction::unpack], where it succeeds. *)
  tg_unpack : list byte -> option TokenGroupInstruction;
  (** [TokenGroupError]. *)
  tg_ImmutableGroup : ProgramError;
  tg_IncorrectUpdateAuthority : ProgramError;
  tg_IncorrectMintAuthority : ProgramError;
  tg_MemberAccountIsGroupAccount : ProgramError
}.

Class TokenGroupLaws `{TokenGroupInterface} : Prop := mk_token_group_laws {
  tg_new_fields m a n : is_u64 n -> tg_new m a n = mk_tg a m (u64_new 0) (u64_new n);
  tg_update_max_size_Ok n g g' : is_u64 n -> tg_update_max_size n g = Ok g' <->
    u64_get (tg_size g) <= n /\
    g' = mk_tg (tg_update_authority g) (tg_mint g) (tg_size g) (u64_new n);
  tg_increment_size_Ok g n g' : tg_increment_size g = Ok (n, g') <->
    n = u64_get (tg_size g) + 1 /\ n <= u64_get (tg_max_size g) /\
    g' = mk_tg (tg_update_authority g) (tg_mint g) (u64_new n) (tg_max_size g);
  tgm_new_fields m g n : is_u64 n -> tgm_new m g n = mk_tgm m g (u64_new n)
}.

Definition set_tg_update_authority (a : MaybeNull) (g : TokenGroup) : TokenGroup :=
  mk_tg a (tg_mint g) (tg_size g) (tg_max_size g).

Module token_group.
Section processor.
Context `{RT : Runtime} `{TG : TokenGroupInterface}.

Definition process_initialize_group (program_id : Address) (accounts : list AccountInfo)
    (update_authority : MaybeNull) (max_size : U64) : M unit :=
  '(group_info, iter) ← lift (next_account_info accounts);
  '(mint_info, iter) ← lift (next_account_info iter);
  '(mint_authority_info, iter) ← lift (next_account_info iter);
  _ ← bail_if (negb (bool_decide (key group_info = key mint_info))) TokenError.MintMismatch;
  _ ← check_described_mint GroupPointer tg_IncorrectMintAuthority mint_info mint_authority_info;
  let group := tg_new (key mint_info) update_authority (u64_get max_size) in
  alloc_and_serialize PodMint [] group_info group false.

Definition process_update_group_max_size (program_id : Address) (accounts : list AccountInfo)
    (max_size : U64) : M unit :=
  '(group_info, iter) ← lift (next_account_info accounts);
  '(update_authority_info, iter) ← lift (next_account_info iter);
  _ ← check_owner group_info;
  buffer ← try_borrow_mut_data [] group_info;
  state ← lift (unpack_mut PodMint buffer);
  '(group, put) ← lift (get_extension_mut TokenGroup state);
  _ ← lift (check_update_authority tg_ImmutableGroup tg_IncorrectUpdateAuthority
              update_authority_info (tg_update_authority group));
  group ← lift (tg_update_max_size (u64_get max_size) group);
  write_data group_info (repack (put group)).

Definition process_update_group_authority (program_id : Address) (accounts : list AccountInfo)
    (new_authority : MaybeNull) : M unit :=
  '(group_info, iter) ← lift (next_account_info accounts);
  '(update_authority_info, iter) ← lift (next_account_info iter);
  _ ← check_owner group_info;
  buffer ← try_borrow_mut_data [] group_info;
  state ← lift (unpack_mut PodMint buffer);
  '(group, put) ← lift (get_extension_mut TokenGroup state);
  _ ← lift (check_update_authority tg_ImmutableGroup tg_IncorrectUpdateAuthority
              update_authority_info (tg_update_authority group));
  write_data group_info (repack (put (set_tg_update_authority new_authority group))).

(** The group stays borrowed while the member is written. *)
Definition process_initialize_member (program_id : Address) (accounts : list AccountInfo) : M unit :=
  '(member_info, iter) ← lift (next_account_info accounts);
  '(member_mint_info, iter) ← lift (next_account_info iter);
  '(member_mint_authority_info, iter) ← lift (next_account_info iter);
  '(group_info, iter) ← lift (next_account_info iter);
  '(group_update_authority_info, iter) ← lift (next_account_info iter);
  _ ← check_owner group_info;
  _ ← bail_if (negb (bool_decide (key member_info = key member_mint_info))) TokenError.MintMismatch;
  _ ← check_described_mint GroupMemberPointer tg_IncorrectMintAuthority member_mint_info
        member_mint_authority_info;
  _ ← bail_if (bool_decide (key member_info = key group_info)) tg_MemberAccountIsGroupAccount;
  buffer ← try_borrow_mut_data [] group_info;
  state ← lift (unpack_mut PodMint buffer);
  '(group, put) ← lift (get_extension_mut TokenGroup state);
  _ ← lift (check_update_authority tg_ImmutableGroup tg_IncorrectUpdateAuthority
              group_update_authority_info (tg_update_authority group));
  '(member_number, group) ← lift (tg_increment_size group);
  _ ← write_data group_info (repack (put group));
  let member := tgm_new (key member_mint_info) (key group_info) member_number in
  alloc_and_serialize PodMint [Mut (key group_info)] member_info member false.

Definition process_instruction (program_id : Address) (accounts : list AccountInfo)
    (instruction : TokenGroupInstruction) : M unit :=
  match instruction with
  | TokenGroupInstruction.InitializeGroup update_authority max_size =>
      process_initialize_group program_id accounts update_authority max_size
  | TokenGroupInstruction.UpdateGroupMaxSize max_size =>
      process_update_group_max_size program_id accounts max_size
  | TokenGroupInstruction.UpdateGroupAuthority new_authority =>
      process_update_group_authority program_id accounts new_authority
  | TokenGroupInstruction.InitializeMember => process_initialize_member program_id accounts
  end.
End processor.
End token_group.
