(* ===== verification/TokenMetadataTheory.v ===== *)
(** * What the metadata and group handlers do

    Each handler that succeeds was signed by the authority that the extension
    names, changed the one extension and the length of the mint's account, and
    nothing else: not the base of the mint, not another extension, not another
    account. *)
From S2P Require Import Prelude Bytes Errors Ids Runtime Pod ExtensionState Extension TlvTheory.
From S2P Require Import ViewTheory Clean AccountLen MonadTheory Ownership VariableLen.
From S2P Require Import VariableLenTheory SerializeTheory TokenMetadata Ledger.

Lemma mint_fits : (size_of PodMint <= BASE_ACCOUNT_LENGTH)%nat.
Proof. by vm_compute; lia. Qed.

Section shared.
Context `{RT : Runtime}.

(** The update authority [a], which is not null, signed. *)
Definition signed_by (a : MaybeNull) (i : AccountInfo) : Prop :=
  maybe_null_get a = Some (key i) /\ is_signer i = true.

Lemma check_update_authority_Ok e1 e2 i a :
  check_update_authority e1 e2 i a = Ok tt <-> signed_by a i.
Proof.
  unfold check_update_authority, signed_by. split.
  - intros H. m_inv. match goal with E : maybe_null_get _ = Some _ |- _ => rewrite E end.
    split; [by f_equal|done].
  - intros [-> ->]. cbn. by rewrite bool_decide_true.
Qed.

(** What the initialisers require of the mint. *)
Definition described_mint (V : Type) `{Pod V, Extension V} (w : World) (k : Address)
    (authority : AccountInfo) : Prop :=
  cell_owner (cell w k) = id /\ is_signer authority = true /\
  exists mt, unpack_mut PodMint (cell_data (cell w k)) = Ok mt /\
    mint_authority (base mt) = PodCOption.some (key authority) /\
    exists v, get_extension V mt = Ok v.

Lemma check_described_mint_Ok V `{Pod V, Extension V} e mi ai w u w' :
  check_described_mint V e mi ai w = Ok (u, w') -> w' = w /\ described_mint V w (key mi) ai.
Proof.
  unfold check_described_mint. intros H1. m_inv. split; [done|].
  match goal with E : unpack _ _ = Ok _ |- _ => apply unpack_Ok in E as (mt & Hu & ->) end.
  match goal with E : eq_coption _ _ = true |- _ => apply bool_decide_eq_true in E end.
  match goal with E : is_ok _ = true |- _ => apply is_ok_true in E as [v Hv] end.
  split; [done|]. split; [done|]. exists mt. split; [done|]. split; [done|].
  exists v. by apply get_extension_Ok in Hv; apply get_extension_Ok.
Qed.

(** The value that the entries give to an extension type. *)
Definition entry_of (ty : ExtensionType) (es : list Entry) : option (list byte) :=
  entries_lookup (extension_type_u16 ty) es.

(** The length of an account with the entries. *)
Definition entries_account_len (es : list Entry) : nat :=
  adjust_len_for_multisig (BASE_ACCOUNT_AND_TYPE_LENGTH + length (tlv_encode es)).

End shared.

(** ** Metadata *)

Section metadata.
Context `{RT : Runtime} `{TM : TokenMetadataInterface} `{!TokenMetadataLaws}.

Definition metadata_of (es : list Entry) (v : TokenMetadata) : Prop :=
  exists b, entry_of ExtensionType.TokenMetadata es = Some b /\ vl_unpack_from_slice b = Ok v.

(** The updates, as functions of the metadata. *)
Definition metadata_update (i : TokenMetadataInstruction Field) (old : TokenMetadata)
    : option TokenMetadata :=
  match i with
  | TokenMetadataInstruction.UpdateField field value => Some (tm_update field value old)
  | TokenMetadataInstruction.RemoveKey idempotent key_ =>
      let '(removed, new) := tm_remove_key key_ old in
      if removed || idempotent then Some new else None
  | TokenMetadataInstruction.UpdateAuthority new_authority =>
      Some (tm_set_update_authority new_authority old)
  | _ => None
  end.

(** Only the metadata of the mint at [k] changed, to [new]. *)
Definition metadata_written (k : Address) (es : list Entry) (st : PodStateMut PodMint)
    (new : TokenMetadata) (w w' : World) : Prop :=
  exists b st', packs new b /\ w' = store k st' w /\ base st' = base st /\
    unpack_mut PodMint (repack st') = Ok st' /\
    tlv_holds (tlv_data st') (set_entry (extension_type_u16 ExtensionType.TokenMetadata) b es) /\
    length (repack st') =
      entries_account_len (set_entry (extension_type_u16 ExtensionType.TokenMetadata) b es).

Lemma read_metadata_Ok mi w v w' :
  token_metadata.read_metadata mi w = Ok (v, w') -> w' = w /\
  forall st es, holds_entries (S := PodMint) w (key mi) st es -> metadata_of es v.
Proof.
  unfold token_metadata.read_metadata. intros Hr. m_inv. split; [done|]. intros st es [Hu Hes].
  match goal with E : unpack _ _ = Ok _ |- _ => apply unpack_Ok in E as (mt & Hu' & ->) end.
  rewrite Hu in Hu'. injection Hu' as <-.
  unfold get_variable_len_extension in *. m_inv.
  match goal with E : get_extension_bytes _ _ _ = Ok ?b |- _ => exists b;
    pose proof (get_extension_bytes_holds (S := PodMint) ExtensionType.TokenMetadata _ _ eq_refl Hes) as Hg;
    change (get_tlv_data (mk_state (base st) (tlv_data st))) with (tlv_data st) in E;
    unfold TYPE, TokenMetadata_ext in E; rewrite E in Hg end.
  by split.
Qed.

Lemma metadata_update_mint i old new :
  metadata_update i old = Some new -> tm_mint new = tm_mint old.
Proof.
  destruct i; cbn; intros E; simplify_eq.
  - apply tm_update_keeps.
  - pose proof (tm_remove_key_keeps key old) as [_ Hm].
    destruct (tm_remove_key _ _) as [removed m]. destruct (removed || idempotent); by simplify_eq.
  - apply tm_mint_set.
Qed.

(** What was packed is read back. *)
Lemma metadata_read_back v b es (st : PodStateMut PodMint) :
  packs v b ->
  tlv_holds (tlv_data st) (set_entry (extension_type_u16 ExtensionType.TokenMetadata) b es) ->
  get_variable_len_extension TokenMetadata st = Ok v.
Proof.
  intros [_ Hb] Ht. unfold get_variable_len_extension.
  pose proof (get_extension_bytes_holds (S := PodMint) ExtensionType.TokenMetadata _ _ eq_refl Ht) as Hg.
  rewrite entries_lookup_set in Hg. change (get_tlv_data st) with (tlv_data st).
  unfold TYPE, TokenMetadata_ext. by apply ok_Some in Hg as ->.
Qed.

Lemma metadata_serialized held mi v ow w u w' st es :
  resize_zeroes -> holds_entries w (key mi) st es ->
  alloc_and_serialize_variable_len_extension PodMint held mi v ow w = Ok (u, w') ->
  metadata_written (key mi) es st v w w' /\
  (ow = false -> entry_of ExtensionType.TokenMetadata es = None).
Proof.
  intros Hr He Hs.
  apply (alloc_and_serialize_variable_len_Ok mint_fits) with (st := st) (es := es) in Hs
    as (b & Hb & (st' & -> & (Eb & Hu & Ht) & El) & Hn); [|done..].
  split; [|done]. by exists b, st'.
Qed.

Definition is_metadata_update (i : TokenMetadataInstruction Field) : bool :=
  match i with
  | TokenMetadataInstruction.UpdateField _ _ | TokenMetadataInstruction.RemoveKey _ _
  | TokenMetadataInstruction.UpdateAuthority _ => true
  | _ => false
  end.

Lemma process_metadata_update_inv pid accounts i w w' :
  is_metadata_update i = true ->
  token_metadata.process_instruction pid accounts i w = Ok (tt, w') ->
  exists mi ua rest old new, accounts = mi :: ua :: rest /\
    cell_owner (cell w (key mi)) = id /\ token_metadata.read_metadata mi w = Ok (old, w) /\
    signed_by (tm_update_authority old) ua /\ metadata_update i old = Some new /\
    alloc_and_serialize_variable_len_extension PodMint [] mi new true w = Ok (tt, w').
Proof.
  intros Hi Hp. destruct i; try done; cbn [token_metadata.process_instruction] in Hp;
    [unfold token_metadata.process_update_field in Hp|unfold token_metadata.process_remove_key in Hp
    |unfold token_metadata.process_update_authority in Hp]; m_inv;
    try (destruct (tm_remove_key _ _) as [removed new] eqn:Hrm; m_inv);
    match goal with E : token_metadata.read_metadata _ _ = Ok (?v, _) |- _ =>
      pose proof E as Hread; apply read_metadata_Ok in E as [-> _]; rename v into old end;
    match goal with E : check_update_authority _ _ _ _ = Ok _ |- _ =>
      apply check_update_authority_Ok in E end;
    (eexists _, _, _, old, _; split; [done|]; split; [done|]; split; [exact Hread|];
      split; [done|]; split; [|done]); try reflexivity.
  cbn [metadata_update]. rewrite Hrm.
  match goal with E : negb removed && negb idempotent = false |- _ =>
    by destruct removed, idempotent end.
Qed.

(** an instruction that updates metadata and succeeds was signed by the
    update authority that the metadata names, and made the change of the
    instruction to the metadata that was there: the mint's account then holds
    the new metadata, read back as it was packed, has exactly the length that
    its extensions ask for, and its base and its other extensions are as
    before; no other account changed. *)
Theorem process_metadata_update_spec pid mi ua rest i w w' st es :
  resize_zeroes -> is_metadata_update i = true -> holds_entries w (key mi) st es ->
  token_metadata.process_instruction pid (mi :: ua :: rest) i w = Ok (tt, w') ->
  cell_owner (cell w (key mi)) = id /\
  exists old new st', metadata_of es old /\ signed_by (tm_update_authority old) ua /\
    metadata_update i old = Some new /\ tm_mint new = tm_mint old /\
    w' = store (key mi) st' w /\ base st' = base st /\
    unpack_mut PodMint (repack st') = Ok st' /\
    get_variable_len_extension TokenMetadata st' = Ok new /\
    (exists es', holds_entries w' (key mi) st' es' /\
       length (repack st') = entries_account_len es' /\
       forall ty, ty <> ExtensionType.TokenMetadata -> entry_of ty es' = entry_of ty es).
Proof.
  intros Hr Hi He Hp.
  apply process_metadata_update_inv in Hp as (mi' & ua' & rest' & old & new & [= <- <- <-] & Ho & Hread & Hs & Hn & Hw);
    [|done].
  apply read_metadata_Ok in Hread as [_ Hold]. specialize (Hold st es He).
  pose proof (metadata_serialized [] mi new true w tt w' st es Hr He Hw) as [(b & st' & Hb & -> & Eb & Hu & Ht & El) _].
  split; [done|]. exists old, new, st'. split; [done|]. split; [done|]. split; [done|].
  split; [by eapply metadata_update_mint|]. do 3 (split; [done|]).
  split; [by eapply metadata_read_back|]. eexists. split; [split; [|exact Ht]|].
  - by rewrite data_store.
  - split; [done|]. intros ty Hne. apply entries_lookup_set_ne. intros E.
    by apply extension_type_u16_inj in E.
Qed.


Lemma process_initialize_metadata_inv pid accounts name symbol uri w w' :
  token_metadata.process_initialize pid accounts name symbol uri w = Ok (tt, w') ->
  exists mi ui mint_info ai rest ua, accounts = mi :: ui :: mint_info :: ai :: rest /\
    key mint_info = key mi /\ described_mint MetadataPointer w (key mi) ai /\
    maybe_null_try_from (Some (key ui)) = Some ua /\
    alloc_and_serialize_variable_len_extension PodMint [] mi
      (tm_new name symbol uri ua (key mi)) false w = Ok (tt, w').
Proof.
  intros Hp. unfold token_metadata.process_initialize in Hp. m_inv.
  match goal with E : check_described_mint _ _ _ _ _ = Ok _ |- _ =>
    apply check_described_mint_Ok in E as [-> Hd] end.
  match goal with E : key ?x = key ?y |- _ => rewrite <- E in * end.
  by eexists _, _, _, _, _, _.
Qed.

(** A new mint description names who may change it. *)
Lemma process_initialize_metadata_Ok pid mi ui mint_info ai rest name symbol uri w w' st es :
  resize_zeroes -> holds_entries w (key mi) st es ->
  token_metadata.process_initialize pid (mi :: ui :: mint_info :: ai :: rest) name symbol uri w =
    Ok (tt, w') ->
  key mint_info = key mi /\ described_mint MetadataPointer w (key mi) ai /\
  entry_of ExtensionType.TokenMetadata es = None /\
  exists new, tm_mint new = key mi /\ signed_by (tm_update_authority new) (mk_info (key ui) true false) /\
    metadata_written (key mi) es st new w w'.
Proof.
  intros Hr He Hp.
  apply process_initialize_metadata_inv in Hp as (? & ? & ? & ? & ? & ua & [= <- <- <- <- <-] & Ek & Hd & Hua & Hw).
  apply (metadata_serialized [] mi _ false w tt w' st es Hr He) in Hw as [Hw Hn].
  split; [done|]. split; [done|]. split; [by apply Hn|]. eexists. split; [apply tm_mint_new|].
  split; [|done]. rewrite tm_update_authority_new. split; [|done]. by apply maybe_null_get_try_from.
Qed.
End metadata.

(** ** Groups *)

Section groups.
Context `{RT : Runtime} `{TG : TokenGroupInterface} `{!TokenGroupLaws}.

Lemma process_initialize_group_inv pid accounts a n w w' :
  token_group.process_initialize_group pid accounts a n w = Ok (tt, w') ->
  exists gi mint_info ai rest, accounts = gi :: mint_info :: ai :: rest /\
    key mint_info = key gi /\ described_mint GroupPointer w (key gi) ai /\
    alloc_and_serialize PodMint [] gi (mk_tg a (key gi) (u64_new 0) n) false w = Ok (tt, w').
Proof.
  intros Hp. unfold token_group.process_initialize_group in Hp. m_inv.
  match goal with E : check_described_mint _ _ _ _ _ = Ok _ |- _ =>
    apply check_described_mint_Ok in E as [-> Hd] end.
  match goal with E : key ?x = key ?y |- _ => rewrite <- E in * end.
  rewrite tg_new_fields in Hp by apply u64_get_range. rewrite u64_new_get in Hp.
  by eexists _, _, _, _.
Qed.

(** The two updates of a group by its authority. *)
Definition is_group_update (i : TokenGroupInstruction) : bool :=
  match i with
  | TokenGroupInstruction.UpdateGroupMaxSize _ | TokenGroupInstruction.UpdateGroupAuthority _ => true
  | _ => false
  end.

Definition group_update (i : TokenGroupInstruction) (g : TokenGroup) : option TokenGroup :=
  match i with
  | TokenGroupInstruction.UpdateGroupMaxSize n =>
      if u64_get (tg_size g) <=? u64_get n
      then Some (mk_tg (tg_update_authority g) (tg_mint g) (tg_size g) n) else None
  | TokenGroupInstruction.UpdateGroupAuthority a =>
      Some (mk_tg a (tg_mint g) (tg_size g) (tg_max_size g))
  | _ => None
  end.

Lemma process_group_update_inv pid accounts i w w' :
  is_group_update i = true -> token_group.process_instruction pid accounts i w = Ok (tt, w') ->
  exists gi ua rest st g put g', accounts = gi :: ua :: rest /\
    cell_owner (cell w (key gi)) = id /\ unpack_mut PodMint (cell_data (cell w (key gi))) = Ok st /\
    get_extension_mut TokenGroup st = Ok (g, put) /\ signed_by (tg_update_authority g) ua /\
    group_update i g = Some g' /\ w' = store (key gi) (put g') w.
Proof.
  intros Hi Hp. destruct i; try discriminate Hi; cbn [token_group.process_instruction] in Hp;
    [unfold token_group.process_update_group_max_size in Hp
    |unfold token_group.process_update_group_authority in Hp]; m_inv;
    match goal with E : check_update_authority _ _ _ _ = Ok _ |- _ =>
      apply check_update_authority_Ok in E end;
    eexists _, _, _, _, _, _, _; (split; [reflexivity|]); (split; [done|]); (split; [eassumption|]);
    (split; [eassumption|]); (split; [done|]); (split; [|reflexivity]); [|done].
  match goal with E : tg_update_max_size _ _ = Ok _ |- _ =>
    apply tg_update_max_size_Ok in E as [Hle ->]; [|apply u64_get_range] end.
  cbn [group_update]. by rewrite (proj2 (Z.leb_le _ _) Hle), u64_new_get.
Qed.

Definition grown_group (g : TokenGroup) : TokenGroup :=
  mk_tg (tg_update_authority g) (tg_mint g) (u64_new (u64_get (tg_size g) + 1)) (tg_max_size g).

Lemma process_initialize_member_inv pid accounts w w' :
  token_group.process_initialize_member pid accounts w = Ok (tt, w') ->
  exists mi mint_info ai gi ua rest st g put,
    accounts = mi :: mint_info :: ai :: gi :: ua :: rest /\
    key mint_info = key mi /\ key mi <> key gi /\
    cell_owner (cell w (key gi)) = id /\ described_mint GroupMemberPointer w (key mi) ai /\
    unpack_mut PodMint (cell_data (cell w (key gi))) = Ok st /\
    get_extension_mut TokenGroup st = Ok (g, put) /\ signed_by (tg_update_authority g) ua /\
    u64_get (tg_size g) + 1 <= u64_get (tg_max_size g) /\
    alloc_and_serialize PodMint [Mut (key gi)] mi
      (mk_tgm (key mi) (key gi) (u64_new (u64_get (tg_size g) + 1))) false
      (store (key gi) (put (grown_group g)) w) = Ok (tt, w').
Proof.
  intros Hp. unfold token_group.process_initialize_member in Hp. m_inv.
  match goal with E : check_described_mint _ _ _ _ _ = Ok _ |- _ =>
    apply check_described_mint_Ok in E as [-> Hd] end.
  match goal with E : check_update_authority _ _ _ _ = Ok _ |- _ =>
    apply check_update_authority_Ok in E end.
  match goal with E : tg_increment_size _ = Ok _ |- _ =>
    apply tg_increment_size_Ok in E as (-> & Hle & ->) end.
  match goal with E : key ?x = key ?y |- _ => symmetry in E; rewrite E in * end.
  match goal with g : TokenGroup |- _ => pose proof (u64_get_range (tg_size g));
    pose proof (u64_get_range (tg_max_size g)) end.
  rewrite tgm_new_fields in Hp by (unfold is_u64 in *; lia).
  eexists _, _, _, _, _, _, _, _, _. split_and!; try done.
Qed.

(** The new extension [ty] is all that changed of a mint, but its length. *)
Definition extension_added (ty : ExtensionType) (b : list byte)
    (st st' : PodStateMut PodMint) (es : list Entry) : Prop :=
  base st' = base st /\ unpack_mut PodMint (repack st') = Ok st' /\
  tlv_holds (tlv_data st') (set_entry (extension_type_u16 ty) b es) /\ entry_of ty es = None.

(** a mint that joins a group was not in one, its mint authority and the
    update authority of the group signed, and the group had room: the group
    counts one member more, and the mint records the group and that count as
    its number; the base and the other extensions of both mints are as before,
    and so is every other account. *)
Theorem process_initialize_member_spec pid mi mint_info ai gi ua rest w w' st es :
  resize_zeroes -> holds_entries (S := PodMint) w (key mi) st es ->
  token_group.process_initialize_member pid (mi :: mint_info :: ai :: gi :: ua :: rest) w = Ok (tt, w') ->
  key mint_info = key mi /\ key mi <> key gi /\
  described_mint GroupMemberPointer w (key mi) ai /\
  exists stg g put st', unpack_mut PodMint (cell_data (cell w (key gi))) = Ok stg /\
    get_extension_mut TokenGroup stg = Ok (g, put) /\ signed_by (tg_update_authority g) ua /\
    u64_get (tg_size g) + 1 <= u64_get (tg_max_size g) /\
    w' = store (key mi) st' (store (key gi) (put (grown_group g)) w) /\
    extension_added ExtensionType.TokenGroupMember
      (to_bytes (mk_tgm (key mi) (key gi) (u64_new (u64_get (tg_size g) + 1)))) st st' es.
Proof.
  intros Hr [Hu Hes] Hp.
  apply process_initialize_member_inv in Hp as
    (? & ? & ? & ? & ? & ? & stg & g & put & [= <- <- <- <- <- <-] & Ek & Hne & Ho & Hd & Hug & Hg & Hs & Hle & Hw).
  apply (alloc_and_serialize_Ok mint_fits) with (st := st) (es := es) in Hw
    as [(st' & -> & (Eb & Hu' & Ht) & _) Hn]; [|done..|].
  - split; [done|]. split; [done|]. split; [done|]. exists stg, g, put, st'.
    do 5 (split; [done|]). split; [done|]. split; [done|]. split; [done|]. by apply Hn.
  - split; [|done]. by rewrite cell_store_ne.
Qed.
End groups.
