(* ===== verification/Reallocate.v ===== *)
(** * Growing a token account, and the native mint

    [program/src/extension/reallocate.rs] and [process_create_native_mint] of
    [program/src/processor.rs]: the handlers that use the packed base states of
    [State] and call the system program; and what growing an account does. *)
From S2P Require Import Prelude Bytes Errors Ids Runtime Pod ExtensionState Extension TlvTheory.
From S2P Require Import ViewTheory Clean AccountLen MonadTheory Ownership State.
From S2P Require Import StateTheory Ledger FeesTheory VariableLen SerializeTheory.

Section reallocate.
Context `{RT : Runtime} `{PM : PackMethods}.

(** The block that checks the account and its owner: the extension types it
    has, and its amount when it is native. *)
Definition reallocate_account (program_id : Address) (token_account_info authority_info : AccountInfo)
    (authority_info_data_len : nat) (signers : list AccountInfo)
    : M (list ExtensionType * option Z) :=
  token_account ← borrow [] token_account_info;
  account ← lift (swe_unpack Account.Account PodAccount token_account);
  _ ← validate_owner [Shared (key token_account_info)] program_id
        (Account.owner (swe_base account)) authority_info authority_info_data_len signers;
  let native_token_amount :=
    if Account.has_native (swe_base account) then Some (Account.amount (swe_base account))
    else None in
  info ← lift (get_tlv_data_info (swe_tlv_data account));
  mret (extension_types info, native_token_amount).

(** The last block: set the account type of the longer buffer, and record the
    new reserve of a native account. *)
Definition reallocate_finish (token_account_info : AccountInfo) (new_rent_exempt_reserve : Z)
    (native_token_amount : option Z) : M unit :=
  token_account_data ← borrow_mut [] token_account_info;
  token_account_data ← lift (set_account_type PodAccount token_account_data);
  match native_token_amount with
  | Some native_token_amount =>
      token_account ← lift (swm_unpack Account.Account PodAccount token_account_data);
      minimum_lamports ←
        lift (ok_or (u64_checked_add new_rent_exempt_reserve native_token_amount)
                (TokenError.Overflow : ProgramError));
      lamports ← info_lamports token_account_info;
      _ ← bail_if (lamports <? minimum_lamports) TokenError.InvalidState;
      token_account ← lift (pack_base Account.Account
        (mk_swm (Account.set_is_native (Some new_rent_exempt_reserve) (swm_base token_account))
           (swm_base_data token_account) (swm_padding token_account)
           (swm_account_type token_account) (swm_tlv_data token_account)));
      write_data token_account_info (swm_repack Account.Account token_account)
  | None => write_data token_account_info token_account_data
  end.

(** The part after the early return: resize, pay the rent, and the last block. *)
Definition reallocate_grow (token_account_info payer_info : AccountInfo)
    (needed_account_len : nat) (native_token_amount : option Z) : M unit :=
  account_data ← try_borrow_mut_data [] token_account_info;
  account_data ← lift (rt_resize account_data needed_account_len);
  _ ← write_data token_account_info account_data;
  rent ← lift rt_rent;
  let new_rent_exempt_reserve := minimum_balance rent needed_account_len in
  lamports ← info_lamports token_account_info;
  current_lamport_reserve ←
    lift (ok_or (u64_checked_sub lamports (default 0 native_token_amount))
            (TokenError.Overflow : ProgramError));
  let lamports_diff := u64_saturating_sub new_rent_exempt_reserve current_lamport_reserve in
  _ ← when (0 <? lamports_diff)
        (invoke (rt_system_transfer (key payer_info) (key token_account_info) lamports_diff));
  reallocate_finish token_account_info new_rent_exempt_reserve native_token_amount.

Definition process_reallocate (program_id : Address) (accounts : list AccountInfo)
    (new_extension_types : list ExtensionType) : M unit :=
  '(token_account_info, iter) ← lift (next_account_info accounts);
  '(payer_info, iter) ← lift (next_account_info iter);
  '(system_program_info, iter) ← lift (next_account_info iter);
  '(authority_info, signers) ← lift (next_account_info iter);
  authority_info_data_len ← data_len [] authority_info;
  _ ← check_owner token_account_info;
  '(current_extension_types, native_token_amount) ←
    reallocate_account program_id token_account_info authority_info authority_info_data_len signers;
  _ ← bail_if (existsb (fun t => negb (bool_decide (get_account_type t = AccountType.Account)))
                 new_extension_types) TokenError.InvalidState;
  needed_account_len ← lift (try_calculate_account_len PodAccount
                               (current_extension_types ++ new_extension_types));
  len ← data_len [] token_account_info;
  if (needed_account_len <=? len)%nat then mret tt
  else reallocate_grow token_account_info payer_info needed_account_len native_token_amount.

(** [process_create_native_mint]: the system program funds, allocates and
    assigns the address, which the program signs for; then the mint is packed. *)
Definition process_create_native_mint (accounts : list AccountInfo) : M unit :=
  '(payer_info, iter) ← lift (next_account_info accounts);
  '(native_mint_info, iter) ← lift (next_account_info iter);
  '(system_program_info, iter) ← lift (next_account_info iter);
  _ ← bail_if (negb (bool_decide (key native_mint_info = native_mint.id))) TokenError.InvalidMint;
  rent ← lift rt_rent;
  let new_minimum_balance := minimum_balance rent Mint_LEN in
  lamports ← info_lamports native_mint_info;
  let lamports_diff := u64_saturating_sub new_minimum_balance lamports in
  _ ← invoke (rt_system_transfer (key payer_info) (key native_mint_info) lamports_diff);
  _ ← invoke (rt_system_allocate (key native_mint_info) (Z.of_nat Mint_LEN));
  _ ← invoke (rt_system_assign (key native_mint_info) id);
  native_mint_data ← borrow_mut [] native_mint_info;
  native_mint_data ← lift (pm_pack
    (Mint.mk None 0 (u8_of_Z native_mint.DECIMALS) true None) native_mint_data);
  write_data native_mint_info native_mint_data.

End reallocate.

(** ** What growing an account does

    [process_reallocate] makes room for extensions after the data that is
    there: the account stays what it was, on a longer buffer that ends in
    zeros, and a native account records the rent reserve of the new length. *)

Section reallocate.
Context `{RT : Runtime} `{PM : PackMethods}.

(** The system program owns no token account. *)
Definition system_transfer_keeps_tokens : Prop :=
  forall src dst l w w', rt_system_transfer src dst l w = Ok w' -> token_data_kept w w'.

(** The view on the longer buffer. *)
Definition grown (n : nat) (st st' : PodStateMut PodAccount) : Prop :=
  padding st' = [] /\ account_type st' = [account_type_u8 AccountType.Account] /\
  (exists k, tlv_data st' = tlv_data st ++ replicate k x00) /\
  length (repack st') = n.

Lemma set_account_type_grown st n d' :
  unpack_mut PodAccount (repack st) = Ok st -> (length (repack st) < n)%nat ->
  set_account_type PodAccount (resize n x00 (repack st)) = Ok d' ->
  exists st', d' = repack st' /\ unpack_mut PodAccount d' = Ok st' /\ base st' = base st /\
    grown n st st'.
Proof.
  intros Hu Hn. rewrite resize_ge by lia. set (k := (n - _)%nat). unfold set_account_type.
  intros (u & Hc & H)%bind_Ok. apply fail_if_Ok, orb_false_iff in Hc as [Hm%Nat.eqb_neq _].
  apply unpack_mut_Ok in Hu as (_ & Hi & Hml & Hw).
  assert (padding st = []) as Ep.
  { destruct Hw as [(-> & _ & _)|[-> _]]; [done|]. by vm_compute. }
  assert (size_of PodAccount = BASE_ACCOUNT_LENGTH) as Es by done.
  set (tail := account_type st ++ tlv_data st ++ replicate k x00).
  assert (repack st ++ replicate k x00 = to_bytes (base st) ++ tail) as Er.
  { unfold repack, tail. by rewrite Ep, <- !app_assoc. }
  rewrite Er in H, Hm.
  rewrite take_app_length', drop_app_length' in H by (symmetry; apply length_to_bytes).
  apply bind_Ok in H as (u' & _ & H).
  assert (exists b tail', tail = b :: tail' /\
    (b = account_type_u8 AccountType.Account \/ b = x00) /\
    exists j, tail' = tlv_data st ++ replicate j x00) as (b & tail' & Et & Hb & j & Ej).
  { unfold tail. destruct Hw as [(_ & -> & ->)|[_ ->]].
    - destruct k as [|j] eqn:Ek; [lia|]. eexists _, _. split; [reflexivity|]. split; [by right|].
      by exists j.
    - eexists _, _. split; [reflexivity|]. split; [by left|]. by exists k. }
  rewrite Et in H, Er, Hm. set (st' := mk_state_mut (base st) [] [account_type_u8 AccountType.Account] tail').
  assert (d' = repack st') as ->.
  { cbn [type_and_tlv_indices] in H. unfold type_and_tlv_indices in H. rewrite Es, Nat.sub_diag in H.
    cbn [take existsb length Nat.add] in H.
    change (S (length tail') <? ACCOUNT_TYPE_SIZE)%nat with false in H. cbn [mbind Result_bind] in H.
    unfold account_type_at in H. cbn [lookup list_lookup mbind] in H.
    destruct Hb as [-> | ->]; cbn in H; injection H as <-; done. }
  assert (length (repack st') = length (to_bytes (base st) ++ b :: tail')) as El.
  { rewrite length_repack, length_app, length_to_bytes. cbn [base padding account_type tlv_data length st'].
    lia. }
  assert (length (repack st') = n) as Eln.
  { rewrite El, <- Er, length_app, length_replicate. unfold k. lia. }
  exists st'. split; [done|]. split; [|split; [done|]].
  - apply unpack_mut_Ok. split; [done|]. split; [done|]. split; [by rewrite El|]. right. by split.
  - split; [done|]. split; [done|]. split; [by exists j|done].
Qed.

(** Only the account at [k] was rewritten by this program. *)
Definition kept_except (k : Address) (w w' : World) : Prop :=
  token_data_kept w (set_cell k (cell w k) w').

Lemma kept_except_sums m k w w' :
  kept_except k w w' ->
  circulation m w' = circulation m w - holding m k (cell w k) + holding m k (cell w' k) /\
  (k <> m -> supply_of m w' = supply_of m w).
Proof.
  intros Hk. destruct (token_data_kept_sums m _ _ Hk) as [E1 E2]. split.
  - unfold circulation in *. rewrite world_sum_set_cell in E1 by apply holding_empty. lia.
  - intros Hne. rewrite <- E2. unfold supply_of. by rewrite cell_set_cell_ne.
Qed.

(** The account as the handler reads it. *)
Lemma reallocate_account_Ok pid ti auth len signers w types na w' :
  reallocate_account pid ti auth len signers w = Ok ((types, na), w') ->
  w' = w /\ exists st info,
    unpack_mut PodAccount (cell_data (cell w (key ti))) = Ok st /\
    authorizes pid (owner (base st)) auth len signers w /\
    get_tlv_data_info (tlv_data st) = Ok info /\ types = extension_types info /\
    na = if is_native (base st) then Some (u64_get (amount (base st))) else None.
Proof.
  unfold reallocate_account. intros H. m_inv. split; [done|].
  match goal with H : swe_unpack _ _ _ = Ok _ |- _ =>
    apply (swe_unpack_Ok (S := Account.Account) (P := PodAccount)) in H
      as (ps & b & (st & Hu & ->)%unpack_Ok & Hb & ->) end.
  exists st. eexists. split; [done|]. cbn [state_base] in Hb. cbn [swe_base swe_tlv_data] in *.
  change (account_of_pod (base st) = Ok b) in Hb. unfold account_of_pod in Hb. m_inv.
  cbn [Account.owner] in *. split; [done|]. split; [done|]. split; [done|].
  unfold Account.has_native. cbn [Account.is_native Account.amount]. unfold is_native.
  match goal with H : coption_of_pod u64_get _ = Ok ?x |- _ =>
    rename H into Hn; rename x into n; unfold coption_of_pod in Hn end.
  unfold PodCOption.is_some. case_bool_decide as E1; simplify_eq.
  - rewrite E1, bool_decide_false by (by intros [? ?]). done.
  - case_bool_decide as E2; simplify_eq. by rewrite bool_decide_true.
Qed.

(** What growing leaves at the account. *)
Definition regrown (rent : Rent) (k : Address) (n : nat) (st : PodStateMut PodAccount) (w w' : World)
    : Prop :=
  exists st', cell_owner (cell w' k) = id /\ unpack_mut PodAccount (cell_data (cell w' k)) = Ok st' /\
    grown n st st' /\ kept_except k w w' /\
    if is_native (base st)
    then base st' = set_is_native (PodCOption.some (u64_new (minimum_balance rent n))) (base st) /\
         minimum_balance rent n + u64_get (amount (base st)) <= cell_lamports (cell w' k)
    else base st' = base st.

Lemma kept_except_store {S} `{Pod S} k d (st : PodStateMut S) w w2 :
  token_data_kept (set_cell k (with_data d (cell w k)) w) w2 -> cell_owner (cell w k) = id ->
  kept_except k w (store k st w2).
Proof.
  intros Hk Ho k'. rewrite cell_set_cell_case. case_decide as E; [by subst|].
  rewrite cell_store_ne by done. specialize (Hk k'). by rewrite cell_set_cell_ne in Hk.
Qed.

(** After the resize and the payment. *)
Lemma reallocate_finish_Ok ti rent needed na st w w2 w' :
  let k := key ti in
  cell_owner (cell w k) = id -> unpack_mut PodAccount (cell_data (cell w k)) = Ok st ->
  (length (cell_data (cell w k)) < needed)%nat ->
  na = (if is_native (base st) then Some (u64_get (amount (base st))) else None) ->
  token_data_kept (set_cell k (with_data (resize needed x00 (cell_data (cell w k))) (cell w k)) w) w2 ->
  reallocate_finish ti (minimum_balance rent needed) na w2 = Ok (tt, w') ->
  regrown rent k needed st w w'.
Proof.
  intros k Ho Hu Hn Ena Hk H. unfold reallocate_finish in H. m_inv.
  pose proof (Hk k) as [Hk1 _]. rewrite cell_set_cell in Hk1. destruct (Hk1 Ho) as [Ho2 Ed2].
  cbn [cell_data with_data] in Ed2. subst k.
  pose proof Hu as (Ed & _)%unpack_mut_Ok. rewrite Ed in Ed2, Hn.
  match goal with H : set_account_type _ _ = Ok _ |- _ =>
    rewrite Ed2 in H; apply set_account_type_grown in H as (st' & -> & Hu' & Eb & Hg);
    [|by rewrite <- Ed|done] end.
  assert (forall st2 : PodStateMut PodAccount, kept_except (key ti) w (store (key ti) st2 w2)) as Hke.
  { intros st2. by eapply kept_except_store. }
  destruct (is_native (base st)) eqn:En; subst na; m_inv; unfold regrown; rewrite En.
  - match goal with H : swm_unpack _ _ _ = Ok _ |- _ =>
      apply (swm_unpack_Ok (S := Account.Account) (P := PodAccount)) in H as (u & b & E & Hb & ->) end.
    assert (u = st') as -> by congruence. clear E.
    match goal with H : pack_base _ _ = Ok _ |- _ => unfold pack_base in H; m_inv end.
    cbn [swm_base swm_base_data swm_padding swm_account_type swm_tlv_data] in *.
    match goal with H : pack_into_slice _ _ = Ok _ |- _ => rename H into Hp end.
    change (Account.pack_into_slice (Account.set_is_native (Some (minimum_balance rent needed)) b)
      (to_bytes (base st')) = Ok a) in Hp.
    rewrite (pack_account_native (base st') b) in Hp by done. set (b' := set_is_native _ _) in Hp.
    assert (a = to_bytes b') as -> by congruence. clear Hp Hb.
    change (swm_repack _ _) with (repack (with_base b' st')).
    change (set_cell (key ti) _ w2) with (store (key ti) (with_base b' st') w2).
    assert (replaces st' (with_base b' st')) as Hb'.
    { split; [|done]. apply (unpack_mut_initialized (S := PodAccount)) in Hu'. exact Hu'. }
    exists (with_base b' st'). unfold store at 1 2 4. rewrite !cell_set_cell.
    cbn [cell_owner cell_data with_data cell_lamports].
    split; [done|]. split; [by eapply replaces_unpack|].
    split; [|split; [done|split; [by rewrite <- Eb|]]].
    + destruct Hg as (E1 & E2 & E3 & E4). do 3 (split; [done|]). rewrite <- E4.
      by rewrite !length_repack.
    + done.
  - exists st'. split; [|split; [|split; [done|split; [apply Hke|done]]]];
      unfold store; by rewrite cell_set_cell.
Qed.

Lemma reallocate_grow_Ok ti payer needed na st w w' :
  resize_zeroes -> system_transfer_keeps_tokens ->
  cell_owner (cell w (key ti)) = id ->
  unpack_mut PodAccount (cell_data (cell w (key ti))) = Ok st ->
  (length (cell_data (cell w (key ti))) < needed)%nat ->
  na = (if is_native (base st) then Some (u64_get (amount (base st))) else None) ->
  reallocate_grow ti payer needed na w = Ok (tt, w') ->
  exists rent, rt_rent = Ok rent /\ regrown rent (key ti) needed st w w'.
Proof.
  intros Hr Hs Ho Hu Hn Ena H. unfold reallocate_grow in H. m_inv;
    match goal with H : rt_resize _ _ = Ok _ |- _ => apply Hr in H as -> end;
    match goal with H : rt_rent = Ok ?r |- _ => exists r; split; [exact H|]; clear H end;
    (eapply reallocate_finish_Ok; [done|exact Hu|done|done| |eassumption]).
  - match goal with H : invoke _ _ = Ok _ |- _ => unfold invoke in H; case_match; simplify_eq end.
    by eapply Hs.
  - intros k'. split; [done|]. done.
Qed.

(** The extensions asked for, over those that are there. *)
Lemma process_reallocate_inv pid accounts new w w' :
  resize_zeroes -> system_transfer_keeps_tokens ->
  process_reallocate pid accounts new w = Ok (tt, w') ->
  exists ti payer system auth signers st info needed,
    accounts = ti :: payer :: system :: auth :: signers /\
    cell_owner (cell w (key ti)) = id /\
    unpack_mut PodAccount (cell_data (cell w (key ti))) = Ok st /\
    authorizes pid (owner (base st)) auth (length (cell_data (cell w (key auth)))) signers w /\
    Forall (fun t => get_account_type t = AccountType.Account) new /\
    get_tlv_data_info (tlv_data st) = Ok info /\
    try_calculate_account_len PodAccount (extension_types info ++ new) = Ok needed /\
    (((needed <= length (cell_data (cell w (key ti))))%nat /\ w' = w) \/
     ((length (cell_data (cell w (key ti))) < needed)%nat /\
      exists rent, rt_rent = Ok rent /\ regrown rent (key ti) needed st w w')).
Proof.
  intros Hr Hs H. unfold process_reallocate in H. m_inv.
  match goal with H : reallocate_account _ _ _ _ _ _ = Ok _ |- _ =>
    apply reallocate_account_Ok in H as (-> & st & info & Hu & Ha & Hi & -> & ->) end.
  match goal with H : existsb _ new = false, Ht : try_calculate_account_len _ _ = Ok ?n,
      Hif : (if (?n <=? _)%nat then _ else _) _ = _ |- _ =>
    rename H into Hex; rename Hif into Hgrow; rename n into needed end.
  do 5 eexists. exists st, info, needed. split; [done|]. do 3 (split; [done|]).
  split; [|split; [done|split; [done|]]].
  - apply Forall_forall. intros t Ht. destruct (decide (get_account_type t = AccountType.Account)) as [|Hne]; [done|].
    rewrite <- not_true_iff_false in Hex. destruct Hex. apply existsb_exists. exists t.
    split; [by apply list_elem_of_In|]. by rewrite bool_decide_false.
  - destruct (Nat.leb_spec needed (length (cell_data (cell w (key a))))).
    + left. split; [done|]. by m_inv.
    + right. split; [done|]. by eapply reallocate_grow_Ok.
Qed.

Lemma grown_withheld n st st' :
  grown n st st' -> clean any_entry (tlv_data st) ->
  clean any_entry (tlv_data st') /\ withheld st' = withheld st.
Proof.
  intros (_ & _ & (j & Et) & _) Hc. split; [rewrite Et; by apply clean_grow|]. unfold withheld.
  assert (forall v, get_extension TransferFeeAmount st' = Ok v <->
    get_extension TransferFeeAmount st = Ok v) as Hg.
  { intros v. by apply (clean_grow_extension any_entry TransferFeeAmount st st' j). }
  destruct (get_extension TransferFeeAmount st) as [v| |] eqn:E;
    [by rewrite (proj2 (Hg v) eq_refl)|..];
    (destruct (get_extension TransferFeeAmount st') as [v'| |] eqn:E'; [|done..];
     by pose proof (proj1 (Hg v') eq_refl)).
Qed.

Lemma regrown_tokens rent k n st w w' :
  regrown rent k n st w w' -> clean any_entry (tlv_data st) ->
  exists st', cell_owner (cell w' k) = id /\ unpack_mut PodAccount (cell_data (cell w' k)) = Ok st' /\
    kept_except k w w' /\ clean any_entry (tlv_data st') /\ mint (base st') = mint (base st) /\
    is_native (base st') = is_native (base st) /\ account_tokens st' = account_tokens st.
Proof.
  intros (st' & Ho & Hu & Hg & Hk & Hb) Hc. exists st'.
  destruct (grown_withheld _ _ _ Hg Hc) as [Hc' Ew].
  do 4 (split; [done|]). unfold account_tokens. rewrite Ew.
  destruct (is_native (base st)) eqn:En; [destruct Hb as [-> _]|rewrite Hb]; auto.
Qed.

Lemma regrown_sums rent k n st w w' m :
  regrown rent k n st w w' -> clean any_entry (tlv_data st) ->
  cell_owner (cell w k) = id -> unpack_mut PodAccount (cell_data (cell w k)) = Ok st ->
  circulation m w' = circulation m w /\ supply_of m w' = supply_of m w.
Proof.
  intros Hr Hc Ho Hu. destruct (regrown_tokens _ _ _ _ _ _ Hr Hc) as (st' & Ho' & Hu' & Hk & _ & Em & _ & Ea).
  destruct (kept_except_sums m _ _ _ Hk) as [E1 E2].
  assert (holding m k (cell w' k) = holding m k (cell w k)) as Eh.
  { unfold holding. by rewrite Ho, Ho', Hu, Hu', !bool_decide_true, Em, Ea by done. }
  split; [lia|]. destruct (decide (k = m)) as [->|Hne]; [|by apply E2].
  unfold supply_of. erewrite !recorded_supply_account; eauto.
Qed.

(** C28: growing a token account: its owner (or the members of its multisig)
    authorizes it and only account extensions are asked for.  When the data is
    long enough already nothing changes; otherwise the account at that address,
    and no other account of the program, is rewritten on a buffer of exactly
    the length that the present and the new extensions need, with the same
    entries followed by zeros and the same fields, except that a native account
    records the rent of the new length and has the lamports for it beside its
    balance.  Extension data as the program writes it then counts the same
    tokens in circulation and the same supply. *)
Theorem process_reallocate_spec pid accounts new w w' :
  resize_zeroes -> system_transfer_keeps_tokens ->
  process_reallocate pid accounts new w = Ok (tt, w') ->
  exists ti payer system auth signers st info needed,
    accounts = ti :: payer :: system :: auth :: signers /\
    cell_owner (cell w (key ti)) = id /\
    unpack_mut PodAccount (cell_data (cell w (key ti))) = Ok st /\
    authorizes pid (owner (base st)) auth (length (cell_data (cell w (key auth)))) signers w /\
    Forall (fun t => get_account_type t = AccountType.Account) new /\
    get_tlv_data_info (tlv_data st) = Ok info /\
    try_calculate_account_len PodAccount (extension_types info ++ new) = Ok needed /\
    (if (needed <=? length (cell_data (cell w (key ti))))%nat then w' = w
     else exists rent, rt_rent = Ok rent /\ regrown rent (key ti) needed st w w') /\
    (clean any_entry (tlv_data st) ->
       forall m, circulation m w' = circulation m w /\ supply_of m w' = supply_of m w).
Proof.
  intros Hr Hs H. apply process_reallocate_inv in H
    as (ti & payer & system & auth & signers & st & info & needed & Ea & Ho & Hu & Hau & Hn & Hi & Hl & Hc);
    [|done..].
  exists ti, payer, system, auth, signers, st, info, needed.
  do 7 (split; [done|]). destruct Hc as [[Hle ->]|(Hlt & rent & Hre & Hg)].
  - by rewrite (proj2 (Nat.leb_le _ _) Hle).
  - rewrite (proj2 (Nat.leb_gt _ _) Hlt). split; [by exists rent|].
    intros Hcl m. by eapply regrown_sums.
Qed.
End reallocate.
