(* ===== verification/Backing.v ===== *)
(** * Supply backs circulation: the invariant and its steps

    What the data of every account of the program satisfies between
    instructions ([cells_ok]), and how each kind of write changes the
    difference between the tokens of a mint in circulation and the supply it
    records ([evolves]).  The native mint is left out: its tokens are lamports,
    and it records no supply. *)
From S2P Require Import Prelude Bytes Errors Ids Runtime Pod ExtensionState Extension TlvTheory.
From S2P Require Import ViewTheory Clean MonadTheory Ownership Ledger Initialize.
From S2P Require Import InitializeTheory TransferTheory FeesTheory LifecycleTheory.

(** ** The data of one account *)

(** The default state of new accounts is a state. *)
Definition mint_entry (e : Entry) : Prop :=
  e.1 = extension_type_u16 ExtensionType.DefaultAccountState -> e.2 <> [x00].

(** Nothing is withheld before initialisation. *)
Definition fresh_entry (e : Entry) : Prop :=
  mint_entry e /\
  (forall v : TransferFeeAmount, e.1 = extension_type_u16 ExtensionType.TransferFeeAmount ->
     e.2 = to_bytes v -> u64_get (tfa_withheld_amount v) = 0) /\
  (forall v : TransferFeeConfig, e.1 = extension_type_u16 ExtensionType.TransferFeeConfig ->
     e.2 = to_bytes v -> u64_get (tfc_withheld_amount v) = 0).

Definition account_ok (a : PodStateMut PodAccount) : Prop :=
  (is_native (base a) = true -> mint (base a) = native_mint.id) /\ clean any_entry (tlv_data a).

Definition mint_ok (mt : PodStateMut PodMint) : Prop := clean mint_entry (tlv_data mt).

Definition zeroes (l : list byte) : Prop := Forall (fun b => b = x00) l.

(** Data that no initialisation has completed. *)
Definition fresh (d : list byte) : Prop :=
  uncounted d /\ zeroes (take Mint_LEN d) /\
  clean fresh_entry (drop BASE_ACCOUNT_AND_TYPE_LENGTH d).

Inductive data_ok (d : list byte) : Prop :=
  | data_account a : unpack_mut PodAccount d = Ok a -> account_ok a -> data_ok d
  | data_mint mt : unpack_mut PodMint d = Ok mt -> mint_ok mt -> data_ok d
  | data_multisig : length d = Multisig_LEN -> data_ok d
  | data_fresh : fresh d -> data_ok d.

Definition cell_ok (c : Cell) : Prop := cell_owner c = id -> data_ok (cell_data c).
Definition cells_ok (w : World) : Prop := forall k, cell_ok (cell w k).

(** The tokens of [m] in circulation beyond the supply it records. *)
Definition unbacked (m : Address) (w : World) : Z := circulation m w - supply_of m w.

Definition mint_account (w : World) (k : Address) (mt : PodStateMut PodMint) : Prop :=
  cell_owner (cell w k) = id /\ unpack_mut PodMint (cell_data (cell w k)) = Ok mt.

(** ** What the invariant says of a view *)

Lemma unpack_mut_not_multisig {S} `{BaseState S} d (st : PodStateMut S) :
  unpack_mut S d = Ok st -> length d <> Multisig_LEN.
Proof. by intros (-> & _ & Hm & _)%unpack_mut_Ok. Qed.

Lemma cells_ok_account w k a : cells_ok w -> token_account w k a -> account_ok a.
Proof.
  intros Hc [Ho Hu]. destruct (Hc k Ho) as [a' Ha Hok|mt Hm _|Hl|[[Hun _] _]].
  - congruence.
  - by destruct (account_mint_exclusive _ _ _ Hu Hm).
  - by apply unpack_mut_not_multisig in Hu.
  - by destruct (Hun a).
Qed.

Lemma cells_ok_mint w k mt : cells_ok w -> mint_account w k mt -> mint_ok mt.
Proof.
  intros Hc [Ho Hu]. destruct (Hc k Ho) as [a' Ha Hok|mt' Hm Hok|Hl|[[_ Hun] _]].
  - by destruct (account_mint_exclusive _ _ _ Ha Hu).
  - congruence.
  - by apply unpack_mut_not_multisig in Hu.
  - by destruct (Hun mt).
Qed.


(** ** Steps *)

(** Accounts of a mint stay accounts of that mint, and mints stay mints with
    their decimals. *)
Definition kind_kept (c c' : Cell) : Prop :=
  cell_owner c = id -> cell_owner c' = id /\
  (forall a, unpack_mut PodAccount (cell_data c) = Ok a ->
     exists a', unpack_mut PodAccount (cell_data c') = Ok a' /\ mint (base a') = mint (base a)) /\
  (forall mt, unpack_mut PodMint (cell_data c) = Ok mt ->
     exists mt', unpack_mut PodMint (cell_data c') = Ok mt' /\
       decimals (base mt') = decimals (base mt)).
Definition kinds_kept (w w' : World) : Prop := forall k, kind_kept (cell w k) (cell w' k).

(** The invariant on the data is kept, what is unbacked changes by [δ], and no
    account changes its kind. *)
Definition evolves (δ : Address -> Z) (w w' : World) : Prop :=
  cells_ok w' /\
  (forall m, m <> native_mint.id -> unbacked m w' = unbacked m w + δ m) /\
  kinds_kept w w'.

Lemma kind_kept_same c c' :
  cell_owner c' = cell_owner c -> cell_data c' = cell_data c -> kind_kept c c'.
Proof.
  intros Eo Ed Ho. rewrite Eo, Ed. split; [done|]. split; intros x Hx; by exists x.
Qed.

Lemma kinds_kept_refl w : kinds_kept w w.
Proof. intros k. by apply kind_kept_same. Qed.

Lemma kind_kept_trans c c1 c' : kind_kept c c1 -> kind_kept c1 c' -> kind_kept c c'.
Proof.
  intros H1 H2 Ho. destruct (H1 Ho) as (Ho1 & Ha1 & Hm1). destruct (H2 Ho1) as (Ho2 & Ha2 & Hm2).
  split; [done|]. split.
  - intros a (a1 & Hu1 & E1)%Ha1. destruct (Ha2 _ Hu1) as (a2 & Hu2 & E2). exists a2.
    split; [done|congruence].
  - intros mt (m1 & Hu1 & E1)%Hm1. destruct (Hm2 _ Hu1) as (m2 & Hu2 & E2). exists m2.
    split; [done|congruence].
Qed.

Lemma kinds_kept_trans w w1 w' : kinds_kept w w1 -> kinds_kept w1 w' -> kinds_kept w w'.
Proof. intros H1 H2 k. by eapply kind_kept_trans. Qed.

Lemma kinds_kept_set_cell k c w : kind_kept (cell w k) c -> kinds_kept w (set_cell k c w).
Proof.
  intros Hc k'. rewrite cell_set_cell_case. case_decide; [by subst|by apply kind_kept_same].
Qed.

Lemma kinds_kept_foreign w w' : token_data_kept w w' -> kinds_kept w w'.
Proof.
  intros Hk k Ho. destruct (Hk k) as [H1 _]. destruct (H1 Ho) as [Ho' Ed].
  by apply kind_kept_same; [congruence| |].
Qed.

(** Nothing that is not native changes its backing. *)
Definition keeps (w w' : World) : Prop := cells_ok w -> evolves (fun _ => 0) w w'.

Lemma evolves_refl w : cells_ok w -> evolves (fun _ => 0) w w.
Proof. intros Hc. split; [done|]. split; [intros m _; lia|apply kinds_kept_refl]. Qed.

Lemma evolves_trans δ δ' w w1 w' :
  evolves δ w w1 -> evolves δ' w1 w' -> evolves (fun m => δ m + δ' m) w w'.
Proof.
  intros (H1 & E1 & K1) (H2 & E2 & K2). split; [done|]. split; [|by eapply kinds_kept_trans].
  intros m Hm. rewrite E2, E1 by done. lia.
Qed.

Lemma evolves_ext δ δ' w w' :
  (forall m, m <> native_mint.id -> δ m = δ' m) -> evolves δ w w' -> evolves δ' w w'.
Proof.
  intros Hd (Hc & E & K). split; [done|]. split; [|done]. intros m Hm. by rewrite E, Hd.
Qed.

Lemma keeps_refl w : keeps w w.
Proof. intros Hc. by apply evolves_refl. Qed.

Lemma keeps_trans w w1 w' : keeps w w1 -> keeps w1 w' -> keeps w w'.
Proof.
  intros H1 H2 Hc. eapply (evolves_ext (fun _ => 0 + 0)); [done|].
  eapply (evolves_trans (fun _ => 0) (fun _ => 0)); [by apply H1|]. apply H2. by apply H1.
Qed.

Lemma cells_ok_set_cell k c w : cells_ok w -> cell_ok c -> cells_ok (set_cell k c w).
Proof. intros Hw Hc k'. rewrite cell_set_cell_case. case_decide; [done|apply Hw]. Qed.

Lemma cells_ok_store {S} `{Pod S} k (st : PodStateMut S) w :
  cells_ok w -> data_ok (repack st) -> cells_ok (store k st w).
Proof. intros Hw Hd. apply cells_ok_set_cell; [done|]. by intros _. Qed.

Lemma evolves_store_account k a a' w :
  cells_ok w -> token_account w k a -> replaces a a' -> mint (base a') = mint (base a) ->
  account_ok a' -> evolves (fun m => token_change m a a') w (store k a' w).
Proof.
  intros Hw [Ho Hu] Hr Em Hok. split.
  - apply cells_ok_store; [done|]. eapply data_account; [by eapply replaces_unpack|done].
  - split.
    + intros m _. unfold unbacked.
      rewrite (circulation_store_account m k w Ho a), (supply_store_account m k w Ho a) by done.
      unfold token_change. lia.
    + apply kinds_kept_set_cell. intros _. split; [done|]. split.
      * intros x Hx. exists a'. split; [exact (replaces_unpack _ a a' Hu Hr)|congruence].
      * intros x Hx. by destruct (account_mint_exclusive _ _ _ Hu Hx).
Qed.

(** What the mint's record of withheld fees and supply changes by. *)
Definition mint_change (m k : Address) (mt mt' : PodStateMut PodMint) : Z :=
  if bool_decide (k = m)
  then (mint_withheld mt' - mint_withheld mt) -
       (u64_get (supply (base mt')) - u64_get (supply (base mt)))
  else 0.

Lemma evolves_rewrite_mint k mt mt' w :
  cells_ok w -> mint_account w k mt -> unpack_mut PodMint (repack mt') = Ok mt' -> mint_ok mt' ->
  decimals (base mt') = decimals (base mt) ->
  evolves (fun m => mint_change m k mt mt') w (store k mt' w).
Proof.
  intros Hw [Ho Hu] Hr Hok Hd. split.
  - apply cells_ok_store; [done|]. by eapply data_mint.
  - split.
    + intros m _. unfold unbacked, mint_change.
      rewrite (circulation_rewrite_mint m k w Ho mt), (supply_rewrite_mint m k w Ho mt) by done.
      case_bool_decide; lia.
    + apply kinds_kept_set_cell. intros _. split; [done|]. split.
      * intros x Hx. by destruct (account_mint_exclusive _ _ _ Hx Hu).
      * intros x Hx. exists mt'. split; [exact Hr|congruence].
Qed.

Lemma evolves_store_mint k mt mt' w :
  cells_ok w -> mint_account w k mt -> replaces mt mt' -> mint_ok mt' ->
  decimals (base mt') = decimals (base mt) ->
  evolves (fun m => mint_change m k mt mt') w (store k mt' w).
Proof.
  intros Hw Hm Hr. apply evolves_rewrite_mint; [done..|]. destruct Hm as [_ Hu].
  by eapply replaces_unpack.
Qed.

Lemma keeps_lamports k l w : keeps w (set_cell k (with_lamports l (cell w k)) w).
Proof.
  intros Hw. split; [apply cells_ok_set_cell; [done|exact (Hw k)]|].
  split; [|by apply kinds_kept_set_cell, kind_kept_same].
  intros m _. unfold unbacked. rewrite circulation_lamports, supply_lamports. lia.
Qed.

(** The data and owners of all accounts are as before. *)
Lemma keeps_same w w' :
  (forall k, cell_owner (cell w' k) = cell_owner (cell w k) /\
             cell_data (cell w' k) = cell_data (cell w k)) -> keeps w w'.
Proof.
  intros Hk Hw. split; [|split].
  - intros k Ho. destruct (Hk k) as [E1 E2]. rewrite E2. apply Hw. by rewrite <- E1.
  - intros m _. assert (token_data_kept w w') as Ht.
    { intros k. destruct (Hk k) as [E1 E2]. rewrite E1, E2. done. }
    unfold unbacked. destruct (token_data_kept_sums m _ _ Ht) as [-> ->]. lia.
  - intros k. destruct (Hk k) as [E1 E2]. by apply kind_kept_same.
Qed.

Lemma keeps_return_data d w : keeps w (mk_world (cells w) d).
Proof. by apply keeps_same. Qed.

Lemma fresh_zeroes d : zeroes d -> fresh d.
Proof.
  intros Hz. split; [|split].
  - split; intros a Ha; by apply unpack_mut_zeroed in Ha; [|vm_compute|].
  - by apply Forall_take.
  - assert (drop BASE_ACCOUNT_AND_TYPE_LENGTH d =
      replicate (length (drop BASE_ACCOUNT_AND_TYPE_LENGTH d)) x00) as ->; [|apply clean_zeros].
    apply (Forall_drop (fun b => b = x00) BASE_ACCOUNT_AND_TYPE_LENGTH) in Hz.
    induction Hz as [|b l -> _ IH]; [done|]. simpl. by f_equal.
Qed.

(** Other programs. *)
Lemma keeps_foreign w w' : token_data_kept w w' -> keeps w w'.
Proof.
  intros Hk Hw. split; [|split; [|by apply kinds_kept_foreign]].
  - intros k Ho. destruct (Hk k) as [H1 H2].
    destruct (decide (cell_owner (cell w k) = id)) as [Ho'|Hne].
    + destruct (H1 Ho') as [_ ->]. by apply Hw.
    + apply data_fresh, fresh_zeroes. by apply H2.
  - intros m _. unfold unbacked. destruct (token_data_kept_sums m _ _ Hk) as [-> ->]. lia.
Qed.

Lemma kind_kept_uncounted c d : uncounted (cell_data c) -> kind_kept c (with_data d c).
Proof.
  intros [Ha Hm] Ho. split; [done|].
  split; [intros a Hu; by destruct (Ha a)|intros mt Hu; by destruct (Hm mt)].
Qed.

(** Data that is neither a mint nor an account replaced by such data. *)
Lemma keeps_uncounted k d w :
  uncounted (cell_data (cell w k)) -> uncounted d -> (cell_owner (cell w k) = id -> data_ok d) ->
  keeps w (set_cell k (with_data d (cell w k)) w).
Proof.
  intros Hun Hun' Hd Hw. split; [by apply cells_ok_set_cell|].
  split; [|by apply kinds_kept_set_cell, kind_kept_uncounted].
  intros m _. unfold unbacked, circulation, supply_of. rewrite world_sum_set_cell by apply holding_empty.
  destruct (uncounted_zero m k _ Hun) as [-> E1].
  destruct (uncounted_zero m k (with_data d (cell w k)) Hun') as [-> E2].
  rewrite cell_set_cell_case. case_decide as Ek; [|lia]. subst. rewrite E1, E2. lia.
Qed.

(** ** The invariant of a changed view *)

Lemma account_ok_base a b :
  account_ok a -> mint b = mint (base a) -> is_native_reserve b = is_native_reserve (base a) ->
  account_ok (with_base b a).
Proof.
  intros [Hn Hc] Em En. split; [|done]. unfold is_native in *. cbn [base with_base].
  by rewrite En, Em.
Qed.

Lemma account_ok_native a b :
  account_ok a -> is_native (base a) = true -> mint b = mint (base a) -> account_ok (with_base b a).
Proof. intros [Hn Hc] Hna Em. split; [|done]. intros _. cbn [base with_base]. by rewrite Em, Hn. Qed.

Lemma account_ok_put V `{Pod V, Extension V} a v put v' :
  get_extension_mut V a = Ok (v, put) -> account_ok a -> account_ok (put v').
Proof.
  intros Hg [Hn Hc]. pose proof (put_mut_same_shape _ _ _ _ v' Hg) as [Eb _].
  split; [by rewrite Eb|]. by eapply (clean_put_mut any_entry).
Qed.

Lemma account_ok_init V `{Pod V, Extension V} ow a v put v' :
  init_extension V ow a = Ok (v, put) -> account_ok a -> account_ok (put v').
Proof.
  intros Hg [Hn Hc]. pose proof (put_init_same_shape _ _ _ _ _ v' Hg) as [Eb _].
  split; [by rewrite Eb|]. by eapply (clean_put_init any_entry).
Qed.

Lemma mint_entry_other t v : t <> ExtensionType.DefaultAccountState ->
  mint_entry (extension_type_u16 t, v).
Proof. intros Hne E. by apply extension_type_u16_inj in E. Qed.

Lemma mint_ok_put V `{Pod V, Extension V} mt v put v' :
  get_extension_mut V mt = Ok (v, put) -> mint_entry (extension_type_u16 (TYPE V), to_bytes v') ->
  mint_ok mt -> mint_ok (put v').
Proof. apply clean_put_mut. Qed.

(** ** Data before initialisation *)

Section uninitialized.
Context {S : Type} `{BaseState S} (HS : (Mint_LEN <= size_of S <= BASE_ACCOUNT_LENGTH)%nat)
  (HSc : counted_base S).

Lemma drop_tlv_data t (st : PodStateMut S) :
  well_formed t st -> drop BASE_ACCOUNT_AND_TYPE_LENGTH (repack st) = tlv_data st.
Proof.
  intros [_ [(Hp & Ht & Htl)|[Hp Ht]]]; unfold repack; rewrite Hp, Ht.
  - rewrite Htl. apply drop_ge. rewrite !app_nil_r, length_to_bytes. unfold BASE_ACCOUNT_AND_TYPE_LENGTH. lia.
  - rewrite !app_assoc. apply drop_app_length'.
    rewrite !length_app, length_to_bytes, length_replicate. simpl.
    unfold BASE_ACCOUNT_AND_TYPE_LENGTH, ACCOUNT_TYPE_SIZE. lia.
Qed.

Lemma take_base (st : PodStateMut S) :
  take Mint_LEN (repack st) = take Mint_LEN (to_bytes (base st)).
Proof. unfold repack. apply take_app_le. rewrite length_to_bytes. lia. Qed.

(** Uninitialised data that an instruction views is fresh. *)
Lemma cells_ok_fresh w k (st : PodStateMut S) :
  cells_ok w -> cell_owner (cell w k) = id ->
  unpack_uninitialized S (cell_data (cell w k)) = Ok st -> fresh (cell_data (cell w k)).
Proof.
  intros Hc Ho Hu. pose proof (counted_uninitialized _ _ HSc Hu) as Hun. destruct (Hc k Ho) as [a Ha _|mt Hm _|Hl|Hf]; [| | |done].
  - by destruct Hun as [Hun _], (Hun a).
  - by destruct Hun as [_ Hun], (Hun mt).
  - apply unpack_uninitialized_Ok in Hu as (E & _ & [Hm _] & _). by rewrite E in Hl.
Qed.

(** An extension written before initialisation. *)
Lemma keeps_fresh_store w k (st st' : PodStateMut S) :
  cell_owner (cell w k) = id -> unpack_uninitialized S (cell_data (cell w k)) = Ok st ->
  same_shape st st' ->
  (clean fresh_entry (tlv_data st) -> clean fresh_entry (tlv_data st')) ->
  keeps w (store k st' w).
Proof.
  intros Ho Hu Hs Hcl Hc. pose proof (cells_ok_fresh _ _ _ Hc Ho Hu) as (Hun & Hz & Hf).
  apply unpack_uninitialized_Ok in Hu as (E & Hi & Hw & _). rewrite E in Hz, Hf.
  rewrite (drop_tlv_data _ _ Hw) in Hf.
  pose proof (well_formed_same_shape _ _ _ Hs Hw) as Hw'.
  assert (uncounted (repack st')) as Hun'.
  { apply HSc; [done|]. by rewrite (proj1 Hs). }
  apply (keeps_uncounted k (repack st') w Hun Hun'); [intros _|done].
  apply data_fresh. split; [done|].
  rewrite take_base in Hz |- *. rewrite (drop_tlv_data _ _ Hw'), (proj1 Hs). auto.
Qed.

End uninitialized.

Lemma PodMint_sizes : (Mint_LEN <= size_of PodMint <= BASE_ACCOUNT_LENGTH)%nat.
Proof. vm_compute. lia. Qed.
Lemma PodAccount_sizes : (Mint_LEN <= size_of PodAccount <= BASE_ACCOUNT_LENGTH)%nat.
Proof. vm_compute. lia. Qed.

(** The value of an initialised extension when it is none of the three that
    the invariant reads. *)
Lemma fresh_entry_other t v :
  t <> ExtensionType.DefaultAccountState -> t <> ExtensionType.TransferFeeAmount ->
  t <> ExtensionType.TransferFeeConfig -> fresh_entry (extension_type_u16 t, v).
Proof.
  intros H1 H2 H3. split; [by apply mint_entry_other|].
  split; intros x E; by apply extension_type_u16_inj in E.
Qed.

Lemma fresh_entry_state s :
  s <> x00 -> fresh_entry (extension_type_u16 ExtensionType.DefaultAccountState, [s]).
Proof.
  intros Hs. split; [by intros _ [= E]|]. split; intros x E; discriminate E.
Qed.

Lemma fresh_entry_config (e : TransferFeeConfig) :
  u64_get (tfc_withheld_amount e) = 0 ->
  fresh_entry (extension_type_u16 ExtensionType.TransferFeeConfig, to_bytes e).
Proof.
  intros He. split; [by apply mint_entry_other|].
  split; intros x E; [discriminate E|]. by intros <-%to_bytes_inj.
Qed.

Lemma fresh_entry_amount (e : TransferFeeAmount) :
  u64_get (tfa_withheld_amount e) = 0 ->
  fresh_entry (extension_type_u16 ExtensionType.TransferFeeAmount, to_bytes e).
Proof.
  intros He. split; [by apply mint_entry_other|].
  split; intros x E; [|discriminate E]. by intros <-%to_bytes_inj.
Qed.

Section extension_initialisers.
Context `{RT : Runtime}.

(** The shared body of the extension initialisers. *)
Lemma initialize_extension_with_keeps (S V : Type) `{BaseState S, Pod V, Extension V} {C}
    info (pre : M C) (fields : C -> V -> M V) w w' :
  (Mint_LEN <= size_of S <= BASE_ACCOUNT_LENGTH)%nat -> counted_base S ->
  (forall w c w1, pre w = Ok (c, w1) -> w1 = w) ->
  (forall c e w e' w1, fields c e w = Ok (e', w1) ->
     w1 = w /\ fresh_entry (extension_type_u16 (TYPE V), to_bytes e')) ->
  initialize_extension_with S V info pre fields w = Ok (tt, w') -> keeps w w'.
Proof.
  intros HS HSc Hpre Hf Hi. unfold initialize_extension_with in Hi. m_inv.
  match goal with H : pre _ = Ok _ |- _ => apply Hpre in H as -> end.
  match goal with H : fields _ _ _ = Ok _ |- _ => apply Hf in H as [-> Hfe] end.
  match goal with Hu : unpack_uninitialized S _ = Ok ?st, Hi : init_extension V _ ?st = Ok _ |- _ =>
    apply (keeps_fresh_store HS HSc _ _ st _ Hown Hu);
      [by eapply put_init_same_shape|by eapply (clean_put_init fresh_entry)] end.
Qed.

End extension_initialisers.

(** ** Initialisation *)

Lemma pod_zeroes {A} `{Pod A} (a : A) : zeroes (to_bytes a) -> a = pod_default A.
Proof.
  intros Hz. unfold pod_default. rewrite <- (length_to_bytes a).
  assert (replicate (length (to_bytes a)) x00 = to_bytes a) as ->; [|by rewrite from_to_bytes].
  symmetry. induction Hz as [|b l -> _ IH]; [done|]. simpl. by f_equal.
Qed.

Lemma fresh_withheld (st : PodStateMut PodAccount) :
  clean fresh_entry (tlv_data st) -> withheld st = 0.
Proof.
  intros Hc. unfold withheld. destruct (get_extension TransferFeeAmount st) as [e| |] eqn:He; [|done..].
  apply get_extension_Ok in He. apply (clean_lookup fresh_entry) in He as (_ & Hf & _); [|done].
  by apply Hf.
Qed.

Lemma fresh_mint_withheld (st : PodStateMut PodMint) :
  clean fresh_entry (tlv_data st) -> mint_withheld st = 0.
Proof.
  intros Hc. unfold mint_withheld. destruct (get_extension TransferFeeConfig st) as [e| |] eqn:He; [|done..].
  apply get_extension_Ok in He. apply (clean_lookup fresh_entry) in He as (_ & _ & Hf); [|done].
  by apply Hf.
Qed.

Lemma keeps_init_mint w k st st' :
  cell_owner (cell w k) = id -> unpack_uninitialized PodMint (cell_data (cell w k)) = Ok st ->
  unpack_mut PodMint (repack st') = Ok st' -> supply (base st') = supply (base st) ->
  tlv_data st' = tlv_data st -> keeps w (store k st' w).
Proof.
  intros Ho Hu Hu' Es Et Hc.
  pose proof (cells_ok_fresh counted_mint _ _ _ Hc Ho Hu) as (Hun & Hz & Hf).
  apply unpack_uninitialized_Ok in Hu as (E & _ & Hw & _). rewrite E in Hz, Hf.
  rewrite (drop_tlv_data PodMint_sizes _ _ Hw) in Hf. rewrite (take_base PodMint_sizes) in Hz.
  assert (base st = pod_default PodMint) as Eb.
  { apply pod_zeroes. by rewrite take_ge in Hz by (rewrite length_to_bytes; vm_compute; lia). }
  split.
  - apply cells_ok_store; [done|]. eapply data_mint; [done|]. unfold mint_ok. rewrite Et.
    eapply clean_impl; [|exact Hf]. by intros e [? _].
  - split; [|by apply kinds_kept_set_cell, kind_kept_uncounted].
    intros m _. unfold unbacked. destruct (store_fresh_mint m k w Ho Hun st' Hu') as [-> ->].
    rewrite (mint_withheld_tlv_data st st') by done. rewrite (fresh_mint_withheld st) by done.
    rewrite Es, Eb. case_bool_decide as Ek; [subst|lia].
    assert (supply_of m w = 0) as -> by by apply uncounted_zero.
    change (u64_get (supply (pod_default PodMint))) with 0. lia.
Qed.

Lemma keeps_init_account w k st st' :
  cell_owner (cell w k) = id -> unpack_uninitialized PodAccount (cell_data (cell w k)) = Ok st ->
  unpack_mut PodAccount (repack st') = Ok st' ->
  (mint (base st') <> native_mint.id ->
     u64_get (amount (base st')) = 0 /\ is_native (base st') = false) ->
  (clean fresh_entry (tlv_data st) -> clean fresh_entry (tlv_data st')) ->
  keeps w (store k st' w).
Proof.
  intros Ho Hu Hu' Hn Hcl Hc.
  pose proof (cells_ok_fresh counted_account _ _ _ Hc Ho Hu) as (Hun & Hz & Hf).
  apply unpack_uninitialized_Ok in Hu as (E & _ & Hw & _). rewrite E in Hf.
  rewrite (drop_tlv_data PodAccount_sizes _ _ Hw) in Hf. specialize (Hcl Hf).
  split.
  - apply cells_ok_store; [done|]. eapply data_account; [done|]. split.
    + intros Hi. destruct (decide (mint (base st') = native_mint.id)) as [|Hne]; [done|].
      destruct (Hn Hne). congruence.
    + eapply clean_impl; [|exact Hcl]. done.
  - split; [|by apply kinds_kept_set_cell, kind_kept_uncounted].
    intros m Hm. unfold unbacked. destruct (store_fresh_account m k w Ho Hun st' Hu') as [-> ->].
    case_bool_decide as Em; [|lia]. subst m. destruct (Hn Hm) as [E0 _].
    unfold account_tokens. rewrite E0, fresh_withheld by done. lia.
Qed.
