(* ===== verification/BackingSettings.v ===== *)
(** * Instructions that move no tokens keep the backing

    Initialisers of extensions, updates of extensions, delegations,
    authorities and freezing. *)
From S2P Require Import Prelude Bytes Errors Ids Runtime Pod ExtensionState Extension TlvTheory.
From S2P Require Import ViewTheory Clean AccountLen MonadTheory Ownership Ledger.
From S2P Require Import PodInstruction Supply Authority AuthorityTheory Initialize InitializeTheory.
From S2P Require Import TransferTheory Settings Fees FeesTheory Backing.

(** ** Stores that keep the backing *)

Lemma keeps_store_account k a a' w :
  token_account w k a -> replaces a a' -> mint (base a') = mint (base a) ->
  (account_ok a -> account_ok a' /\ account_tokens a' = account_tokens a) ->
  keeps w (store k a' w).
Proof.
  intros Ht Hr Em Hok Hc. destruct (Hok (cells_ok_account _ _ _ Hc Ht)) as [Ha' Ea].
  eapply evolves_ext; [|by eapply evolves_store_account].
  intros m _. unfold token_change. case_bool_decide; lia.
Qed.

Lemma keeps_store_base k a b w :
  token_account w k a -> state b = state (base a) -> mint b = mint (base a) ->
  amount b = amount (base a) -> is_native_reserve b = is_native_reserve (base a) ->
  keeps w (store k (with_base b a) w).
Proof.
  intros Ht Es Em Ea En. apply (keeps_store_account k a); [done| |done|].
  - destruct Ht. by eapply replaces_account.
  - intros Hok. split; [by apply account_ok_base|].
    unfold account_tokens. cbn [base with_base]. by rewrite Ea, withheld_with_base.
Qed.

Lemma keeps_store_mint k mt mt' w :
  mint_account w k mt -> replaces mt mt' -> supply (base mt') = supply (base mt) ->
  decimals (base mt') = decimals (base mt) ->
  mint_withheld mt' = mint_withheld mt -> (mint_ok mt -> mint_ok mt') ->
  keeps w (store k mt' w).
Proof.
  intros Ht Hr Es Ed Ew Hok Hc.
  eapply evolves_ext; [|eapply evolves_store_mint; eauto using cells_ok_mint].
  intros m _. unfold mint_change. rewrite Es, Ew. case_bool_decide; lia.
Qed.

(** A mint's extension [V] rewritten. *)
Lemma keeps_put_mint k V `{Pod V, Extension V} mt e put v w :
  mint_account w k mt -> get_extension_mut V mt = Ok (e, put) ->
  mint_withheld (put v) = mint_withheld mt -> mint_entry (extension_type_u16 (TYPE V), to_bytes v) ->
  keeps w (store k (put v) w).
Proof.
  intros Hm Hg Ew He. apply (keeps_store_mint k mt); [done| | | |done|].
  - destruct Hm as [_ Hu]. eapply same_shape_replaces; [exact Hu|by eapply put_mut_same_shape].
  - by rewrite (proj1 (put_mut_same_shape _ _ _ _ _ Hg)).
  - by rewrite (proj1 (put_mut_same_shape _ _ _ _ _ Hg)).
  - by apply (mint_ok_put V _ _ _ _ Hg).
Qed.

(** An account's extension [V], other than the withheld fee, written. *)
Lemma withheld_put_other V `{Pod V, Extension V} a v put v' :
  get_extension_mut V a = Ok (v, put) -> TYPE V <> ExtensionType.TransferFeeAmount ->
  withheld (put v') = withheld a.
Proof.
  intros Hg Hne. unfold withheld. erewrite (get_put_mut_other V TransferFeeAmount); [done|done|].
  intros E. by rewrite <- E in Hne.
Qed.

Lemma put_init_keeps V `{Pod V, Extension V} ow a v put v' :
  init_extension V ow a = Ok (v, put) -> TYPE V <> ExtensionType.TransferFeeAmount ->
  same_shape a (put v') /\
  (account_ok a -> account_ok (put v') /\ account_tokens (put v') = account_tokens a).
Proof.
  intros Hg Hne. pose proof (put_init_same_shape _ _ _ _ _ v' Hg) as Hs. split; [done|].
  intros Ha. split; [by eapply account_ok_init|]. unfold account_tokens. rewrite (proj1 Hs).
  f_equal. unfold withheld.
  assert (forall x, get_extension TransferFeeAmount (put v') = Ok x <->
    get_extension TransferFeeAmount a = Ok x) as Hx.
  { intros x. by apply (clean_put_init_other any_entry V _ ow _ v); [apply Ha| |]. }
  destruct (get_extension TransferFeeAmount a) as [x| |]; [by rewrite (proj2 (Hx x) eq_refl)|..];
    (destruct (get_extension TransferFeeAmount (put v')) as [x| |];
     [by discriminate (proj1 (Hx x) eq_refl)|done..]).
Qed.

Section handlers.
Context `{RT : Runtime}.

(** ** Shared bodies *)

Lemma update_mint_extension_keeps V `{Pod V, Extension V} get_a err fields pid accounts w w' :
  (forall mt e put w e' w1, get_extension_mut V mt = Ok (e, put) -> fields e w = Ok (e', w1) ->
     w1 = w /\ mint_withheld (put e') = mint_withheld mt /\
     mint_entry (extension_type_u16 (TYPE V), to_bytes e')) ->
  update_mint_extension V get_a err fields pid accounts w = Ok (tt, w') -> keeps w w'.
Proof.
  intros Hf Hu. unfold update_mint_extension in Hu. m_inv.
  match goal with Hg : get_extension_mut V _ = Ok _, Hx : fields _ _ = Ok _ |- _ =>
    destruct (Hf _ _ _ _ _ _ Hg Hx) as (-> & Ew & He); by eapply keeps_put_mint end.
Qed.

(** The updates of extensions that record no withheld fees and no state. *)
Lemma update_other_extension_keeps V `{Pod V, Extension V} get_a err fields pid accounts w w' :
  TYPE V <> ExtensionType.TransferFeeConfig -> TYPE V <> ExtensionType.DefaultAccountState ->
  (forall e w e' w1, fields e w = Ok (e', w1) -> w1 = w) ->
  update_mint_extension V get_a err fields pid accounts w = Ok (tt, w') -> keeps w w'.
Proof.
  intros H1 H2 Hf. apply update_mint_extension_keeps. intros mt e put w0 e' w1 Hg Hx.
  split; [by eapply Hf|]. split; [by eapply mint_withheld_put|by apply mint_entry_other].
Qed.

Lemma toggle_account_extension_keeps V `{Pod V, Extension V} check flag pid accounts w w' :
  TYPE V <> ExtensionType.TransferFeeAmount ->
  (forall w u w1, check w = Ok (u, w1) -> w1 = w) ->
  toggle_account_extension V check flag pid accounts w = Ok (tt, w') -> keeps w w'.
Proof.
  intros HV Hch Ht. unfold toggle_account_extension in Ht. m_inv.
  match goal with Hc : check _ = Ok _ |- _ => apply Hch in Hc as -> end.
  match goal with Hu : unpack_mut PodAccount _ = Ok ?x, Hp : match _ with _ => _ end = Ok (_, ?p) |- _ =>
    set (st := x) in *; set (put := p) in *; rename Hu into Hun, Hp into Hplace end.
  assert (same_shape st (put flag) /\ (account_ok st -> account_ok (put flag) /\
    account_tokens (put flag) = account_tokens st)) as [Hs Hok].
  { destruct (get_extension_mut V st) as [[x pu]| |] eqn:Hgm; simplify_eq.
    - split; [by eapply put_mut_same_shape|]. intros Ha. split; [by eapply account_ok_put|].
      unfold account_tokens. rewrite (proj1 (put_mut_same_shape _ _ _ _ _ Hgm)).
      f_equal. by apply (withheld_put_other V _ _ _ _ Hgm).
    - by eapply put_init_keeps.
    - by eapply put_init_keeps. }
  apply (keeps_store_account _ st); [by split|by eapply same_shape_replaces|by rewrite (proj1 Hs)|done].
Qed.

End handlers.

(** ** Extension initialisers *)

(** An initialiser of a mint's extension: the rest of the proof says what its
    fields are. *)
Ltac keeps_by_init H :=
  unfold initialize_extension in H;
  refine (initialize_extension_with_keeps _ _ _ _ _ _ _ _ _ _ _ H);
  [first [exact PodMint_sizes|exact PodAccount_sizes]
  |first [exact counted_mint|exact counted_account]
  |intros ? ? ? ?; by m_inv
  |intros ? ? ? ? ? ?; m_cases; (split; [done|]); try by apply fresh_entry_other].

Section initialisers.
Context `{RT : Runtime}.

Lemma process_initialize_mint_close_authority_keeps accounts ca w w' :
  process_initialize_mint_close_authority accounts ca w = Ok (tt, w') -> keeps w w'.
Proof. intros H. unfold process_initialize_mint_close_authority in H. m_inv. keeps_by_init H. Qed.

Lemma process_initialize_immutable_owner_keeps accounts w w' :
  process_initialize_immutable_owner accounts w = Ok (tt, w') -> keeps w w'.
Proof. intros H. unfold process_initialize_immutable_owner in H. m_inv. keeps_by_init H. Qed.

Lemma process_initialize_non_transferable_mint_keeps accounts w w' :
  process_initialize_non_transferable_mint accounts w = Ok (tt, w') -> keeps w w'.
Proof. intros H. unfold process_initialize_non_transferable_mint in H. m_inv. keeps_by_init H. Qed.

Lemma process_initialize_permanent_delegate_keeps accounts d w w' :
  process_initialize_permanent_delegate accounts d w = Ok (tt, w') -> keeps w w'.
Proof. intros H. unfold process_initialize_permanent_delegate in H. m_inv. keeps_by_init H. Qed.
End initialisers.

(** ** The settings processors *)

Ltac keeps_by_update H V :=
  refine (update_other_extension_keeps V _ _ _ _ _ _ _ _ _ _ H);
  [done|done|intros ? ? ? ? ?; cbn beta in *; m_cases; done].

Section processors.
Context `{RT : Runtime}.

Lemma interest_bearing_keeps pid accounts input w w' :
  interest_bearing_mint.process_instruction pid accounts input w = Ok (tt, w') -> keeps w w'.
Proof.
  intros H. unfold interest_bearing_mint.process_instruction in H. m_inv.
  destruct a0; m_inv.
  - unfold interest_bearing_mint.process_initialize in H. m_inv. keeps_by_init H.
  - keeps_by_update H InterestBearingConfig.
Qed.

Lemma memo_transfer_keeps pid accounts input w w' :
  memo_transfer.process_instruction pid accounts input w = Ok (tt, w') -> keeps w w'.
Proof.
  intros H. unfold memo_transfer.process_instruction in H. m_inv.
  destruct a0; (eapply (toggle_account_extension_keeps MemoTransfer); [done| |exact H]);
    intros; by m_inv.
Qed.

Lemma cpi_guard_keeps pid accounts input w w' :
  cpi_guard.process_instruction pid accounts input w = Ok (tt, w') -> keeps w w'.
Proof.
  intros H. unfold cpi_guard.process_instruction in H. m_inv.
  destruct a0; (eapply (toggle_account_extension_keeps CpiGuard); [done| |exact H]);
    intros; by m_inv.
Qed.

Lemma valid_default_state state u :
  default_account_state.check_valid_default_state state = Ok u -> account_state_u8 state <> x00.
Proof. by destruct state. Qed.

Lemma default_account_state_keeps pid accounts input w w' :
  default_account_state.process_instruction pid accounts input w = Ok (tt, w') -> keeps w w'.
Proof.
  intros H. unfold default_account_state.process_instruction in H. m_inv.
  destruct d.
  - unfold default_account_state.process_initialize_default_account_state in H. m_inv.
    match goal with H : default_account_state.check_valid_default_state _ = _ |- _ =>
      apply valid_default_state in H as Hv end.
    keeps_by_init H. by apply fresh_entry_state.
  - unfold default_account_state.process_update_default_account_state in H. m_inv.
    match goal with H : default_account_state.check_valid_default_state _ = _ |- _ =>
      apply valid_default_state in H as Hv end.
    destruct (PodCOption.get _); m_inv.
    match goal with Hg : get_extension_mut DefaultAccountState _ = Ok _ |- _ =>
      eapply (keeps_put_mint _ DefaultAccountState); [by split|exact Hg| |] end.
    + by eapply mint_withheld_put.
    + intros _ [= E]. by apply Hv.
Qed.

Lemma pausable_keeps pid accounts input w w' :
  pausable.process_instruction pid accounts input w = Ok (tt, w') -> keeps w w'.
Proof.
  intros H. unfold pausable.process_instruction in H. m_inv. destruct a0; m_inv.
  - unfold pausable.process_initialize in H. m_inv. keeps_by_init H.
  - keeps_by_update H PausableConfig.
  - keeps_by_update H PausableConfig.
Qed.

Lemma permissioned_burn_initialize_keeps accounts authority w w' :
  permissioned_burn.process_initialize accounts authority w = Ok (tt, w') -> keeps w w'.
Proof. intros H. unfold permissioned_burn.process_initialize in H. m_inv. keeps_by_init H. Qed.

Lemma scaled_ui_amount_keeps pid accounts input w w' :
  scaled_ui_amount.process_instruction pid accounts input w = Ok (tt, w') -> keeps w w'.
Proof.
  intros H. unfold scaled_ui_amount.process_instruction in H. m_inv. destruct a0; m_inv.
  - unfold scaled_ui_amount.process_initialize in H. m_inv. keeps_by_init H.
  - keeps_by_update H ScaledUiAmountConfig.
Qed.

Lemma pointer_instruction_keeps init update pid accounts input w w' :
  (forall accounts a b w w', init accounts a b w = Ok (tt, w') -> keeps w w') ->
  (forall pid accounts a w w', update pid accounts a w = Ok (tt, w') -> keeps w w') ->
  process_pointer_instruction init update pid accounts input w = Ok (tt, w') -> keeps w w'.
Proof.
  intros Hi Hu H. unfold process_pointer_instruction in H. m_inv. destruct a0; m_inv; eauto.
Qed.

Lemma transfer_hook_keeps pid accounts input w w' :
  transfer_hook.process_instruction pid accounts input w = Ok (tt, w') -> keeps w w'.
Proof.
  apply pointer_instruction_keeps; clear.
  - intros accounts a b w w' H. unfold transfer_hook.process_initialize in H. m_inv.
    keeps_by_init H.
  - intros pid' accounts a w w' H. keeps_by_update H TransferHook.
Qed.

Lemma metadata_pointer_keeps pid accounts input w w' :
  metadata_pointer.process_instruction pid accounts input w = Ok (tt, w') -> keeps w w'.
Proof.
  apply pointer_instruction_keeps; clear.
  - intros accounts a b w w' H. unfold metadata_pointer.process_initialize in H. m_inv.
    keeps_by_init H.
  - intros pid accounts a w w' H. keeps_by_update H MetadataPointer.
Qed.

Lemma group_pointer_keeps pid accounts input w w' :
  group_pointer.process_instruction pid accounts input w = Ok (tt, w') -> keeps w w'.
Proof.
  apply pointer_instruction_keeps; clear.
  - intros accounts a b w w' H. unfold group_pointer.process_initialize in H. m_inv.
    keeps_by_init H.
  - intros pid accounts a w w' H. keeps_by_update H GroupPointer.
Qed.

Lemma group_member_pointer_keeps pid accounts input w w' :
  group_member_pointer.process_instruction pid accounts input w = Ok (tt, w') -> keeps w w'.
Proof.
  apply pointer_instruction_keeps; clear.
  - intros accounts a b w w' H. unfold group_member_pointer.process_initialize in H. m_inv.
    keeps_by_init H.
  - intros pid accounts a w w' H. keeps_by_update H GroupMemberPointer.
Qed.
End processors.
