(* ===== verification/BackingAccounts.v ===== *)
(** * Instructions on accounts keep the backing

    Delegations, authorities, freezing, initialisation, lamports and closing:
    what they write keeps every account's data in the invariant, and no token
    that is not native becomes unbacked. *)
From S2P Require Import Prelude Bytes Errors Ids Runtime Pod ExtensionState Extension TlvTheory.
From S2P Require Import ViewTheory Clean AccountLen MonadTheory Ownership Ledger.
From S2P Require Import PodInstruction Supply Authority AuthorityTheory Initialize InitializeTheory.
From S2P Require Import Transfer TransferTheory Lifecycle LifecycleTheory FeesTheory Backing BackingSettings.

Section handlers.
Context `{RT : Runtime}.

(** ** Delegations, authorities, freezing *)

Lemma process_approve_keeps pid accounts a v w w' :
  process_approve pid accounts a v w = Ok (tt, w') -> keeps w w'.
Proof.
  intros H. unfold process_approve in H. destruct v; m_inv; by apply keeps_store_base.
Qed.

Lemma process_revoke_keeps pid accounts w w' :
  process_revoke pid accounts w = Ok (tt, w') -> keeps w w'.
Proof. intros H. unfold process_revoke in H. m_inv. by apply keeps_store_base. Qed.

Lemma set_account_authority_keeps pid ai auth len signers na t st w st' w' :
  token_account w (key ai) st ->
  set_account_authority pid ai auth len signers na t st w = Ok (st', w') ->
  w' = w /\ keeps w (store (key ai) st' w).
Proof.
  intros Hst. unfold set_account_authority, validate_authority. destruct t; intros H; try done; m_inv.
  - split; [done|]. case_match; by apply keeps_store_base.
  - split; [done|]. by apply keeps_store_base.
Qed.

Lemma set_mint_authority_keeps pid ai auth len signers na t mt w mt' w' :
  mint_account w (key ai) mt ->
  set_mint_authority_of pid ai auth len signers na t mt w = Ok (mt', w') ->
  w' = w /\ keeps w (store (key ai) mt' w).
Proof.
  intros Hmt Hs. pose proof (set_mint_authority_of_Ok _ _ _ _ _ _ _ _ _ _ _ _ (proj2 Hmt) Hs)
    as (-> & (Hr & _ & Es & Ew & Ed & _) & _). split; [done|].
  apply (keeps_store_mint _ mt); try done. revert Hs.
  unfold set_mint_authority_of, validate_authority. destruct t; intros H; try done;
    first
    [ m_inv; done
    | apply set_extension_authority_Ok in H as (_ & a & e & put & m & _ & _ & Hg & _ & -> & _);
        [|by intros ? []]; apply (mint_ok_put _ _ _ _ _ Hg); by apply mint_entry_other ].
Qed.

Lemma process_set_authority_keeps pid accounts t na w w' :
  process_set_authority pid accounts t na w = Ok (tt, w') -> keeps w w'.
Proof.
  intros H. unfold process_set_authority in H. m_inv.
  destruct (unpack_mut PodAccount _) as [st| |] eqn:Ha; m_inv.
  - match goal with H : set_account_authority _ _ _ _ _ _ _ _ _ = Ok _ |- _ =>
      by apply set_account_authority_keeps in H as [-> Hk] end.
  - destruct (unpack_mut PodMint _) as [mt| |] eqn:Hmint; m_inv.
    match goal with H : set_mint_authority_of _ _ _ _ _ _ _ _ _ = Ok _ |- _ =>
      by apply set_mint_authority_keeps in H as [-> Hk] end.
  - destruct (unpack_mut PodMint _) as [mt| |] eqn:Hmint; m_inv.
    match goal with H : set_mint_authority_of _ _ _ _ _ _ _ _ _ = Ok _ |- _ =>
      by apply set_mint_authority_keeps in H as [-> Hk] end.
Qed.

Lemma process_toggle_freeze_account_keeps pid accounts freeze w w' :
  process_toggle_freeze_account pid accounts freeze w = Ok (tt, w') -> keeps w w'.
Proof.
  intros H. unfold process_toggle_freeze_account in H. m_inv.
  destruct (PodCOption.get (freeze_authority _)); m_inv.
  match goal with Hu : unpack_mut PodAccount _ = Ok ?x |- _ =>
    apply (keeps_store_account _ x); [by split| |done|] end.
  - split; [|done]. by destruct freeze.
  - intros Hok. split; [by apply account_ok_base|done].
Qed.

(** ** Native accounts and lamports *)

Lemma keeps_store_native k a b w :
  token_account w k a -> is_native (base a) = true -> state b = state (base a) ->
  mint b = mint (base a) -> keeps w (store k (with_base b a) w).
Proof.
  intros Ht Hn Es Em Hc. pose proof (cells_ok_account _ _ _ Hc Ht) as Hok.
  eapply evolves_ext; [|eapply (evolves_store_account k a); try done].
  - intros m Hm. unfold token_change. rewrite (proj1 Hok Hn). by rewrite bool_decide_false by done.
  - destruct Ht. by eapply replaces_account.
  - by apply account_ok_native.
Qed.

Lemma token_account_lamports w k k' l a :
  token_account w k a -> token_account (set_cell k' (with_lamports l (cell w k')) w) k a.
Proof. intros [Ho Hu]. unfold token_account. rewrite cell_set_cell_case. case_decide; by subst. Qed.

Lemma process_sync_native_keeps accounts w w' :
  process_sync_native accounts w = Ok (tt, w') -> keeps w w'.
Proof.
  unfold process_sync_native. intros H. m_inv. apply sync_rent_Ok in Hm1 as [-> _].
  destruct (PodCOption.get _) as [r|] eqn:Hn; m_inv.
  apply keeps_store_native; [by split| |done|done]. apply is_native_get. by eexists.
Qed.

Lemma transfer_lamports_keeps src dst a w w' :
  transfer_lamports src dst a w = Ok (tt, w') -> keeps w w'.
Proof.
  unfold transfer_lamports. intros H. m_inv. eapply keeps_trans; apply keeps_lamports.
Qed.

Lemma process_unwrap_lamports_keeps pid accounts a w w' :
  process_unwrap_lamports pid accounts a w = Ok (tt, w') -> keeps w w'.
Proof.
  intros H. unfold process_unwrap_lamports in H. m_inv.
  match goal with H : unwrap_authority _ _ _ _ _ _ _ _ = Ok _ |- _ =>
    apply unwrap_authority_Ok in H as (-> & Ea & Em & Es & En & _) end.
  match goal with Hu : unpack_mut PodAccount _ = Ok ?x, Hn : is_native (base ?x) = true |- _ =>
    assert (token_account w (key a0) x) as Ht by (by split) end.
  destruct (negb _) eqn:Hz; m_inv.
  - 
    eapply keeps_trans; [apply keeps_lamports|]. eapply keeps_trans; [apply keeps_lamports|].
    apply keeps_store_native; [by repeat apply token_account_lamports|done..].
  - by apply keeps_store_native.
  - by apply keeps_store_native.
Qed.

Lemma excess_lamports_authority_pure pid src auth signers d w u w' :
  excess_lamports_authority pid src auth signers d w = Ok (u, w') -> w' = w.
Proof. unfold excess_lamports_authority. intros H. m_cases; done. Qed.

Lemma process_withdraw_excess_lamports_keeps pid accounts w w' :
  process_withdraw_excess_lamports pid accounts w = Ok (tt, w') -> keeps w w'.
Proof.
  intros H. unfold process_withdraw_excess_lamports in H. m_inv.
  match goal with H : excess_lamports_authority _ _ _ _ _ _ = Ok _ |- _ =>
    apply excess_lamports_authority_pure in H as -> end.
  eapply keeps_trans; apply keeps_lamports.
Qed.

(** ** Initialisation *)

Lemma initialize_mint_keeps accounts d ma fa rs w w' :
  _process_initialize_mint accounts d ma fa rs w = Ok (tt, w') -> keeps w w'.
Proof.
  unfold _process_initialize_mint. intros H. m_inv. apply get_rent_Ok in Hm3 as [-> _].
  match goal with H : (match get_extension _ _ with _ => _ end) _ = Ok (_, ?x) |- _ =>
    assert (x = w) as -> by (by m_cases) end.
  match goal with Hu : unpack_uninitialized PodMint _ = Ok _, Hi : init_account_type _ = Ok _ |- _ =>
    pose proof Hu as (Ed & _ & Hw & _)%unpack_uninitialized_Ok;
    apply init_account_type_Ok in Hi as (Hu' & Eb & Et & _); [|by apply well_formed_with_base];
    apply (keeps_init_mint _ _ _ _ Hown Hu); [by apply Hu'|by rewrite Eb|done] end.
Qed.

(** The initialisation of the account extensions leaves nothing withheld. *)
Lemma init_account_extension_fresh t (st st' : PodStateMut PodAccount) :
  init_account_extension_from_type t st = Ok st' ->
  clean fresh_entry (tlv_data st) -> clean fresh_entry (tlv_data st').
Proof.
  unfold init_account_extension_from_type, init_default. intros Hi.
  destruct (negb _); [by injection Hi as <-|].
  destruct t; try discriminate Hi; try (by injection Hi as <-); m_inv;
    (eapply (clean_put_init fresh_entry); [eassumption|]);
    match goal with Hx : init_extension _ _ _ = Ok (?v, _) |- fresh_entry (_, to_bytes ?v) =>
      apply init_extension_place in Hx as [-> _] end;
    first [by apply fresh_entry_other|by apply fresh_entry_amount].
Qed.

Lemma starting_state_initialized mt state :
  clean mint_entry (state_tlv_data mt) -> starting_state mt = Ok state ->
  state <> AccountState.Uninitialized.
Proof.
  unfold starting_state. intros Hc Hs ->.
  destruct (get_extension DefaultAccountState mt) as [e| |] eqn:He; [|done..].
  apply get_extension_Ok in He. apply (clean_lookup mint_entry) in He; [|done].
  apply He; [done|]. unfold default_state in Hs. m_inv.
  change (to_bytes e) with [das_state e]. by destruct (das_state e).
Qed.

Lemma starting_balance_zero mk rent lamports len amt reserve :
  starting_balance mk rent lamports len = Ok (amt, reserve) -> mk <> native_mint.id ->
  u64_get amt = 0 /\ PodCOption.is_some reserve = false.
Proof.
  unfold starting_balance. intros H Hne. rewrite bool_decide_false in H by done. m_inv.
  split; [by vm_compute|done].
Qed.

Lemma initialize_account_keeps accounts o rs w w' :
  _process_initialize_account accounts o rs w = Ok (tt, w') -> keeps w w'.
Proof.
  unfold _process_initialize_account. intros H. m_inv. apply get_rent_Ok in Hm5 as [-> _].
  match goal with H : map_err _ _ = Ok _ |- _ =>
    apply map_err_Ok in H; apply unpack_Ok in H as (smt & Hmt & ->) end.
  match goal with Hu : unpack_uninitialized _ _ = Ok ?x,
      Hr : try_for_each_required_init_account_extension _ _ ?x = Ok ?y,
      Hi : init_account_type _ = Ok ?z, Hs : starting_state _ = Ok _ |- _ =>
    rename Hu into Hun, x into st, Hr into Hreq, y into st1, Hi into Hinit, z into st', Hs into Hst end.
  pose proof Hun as (_ & _ & Hw & _)%unpack_uninitialized_Ok.
  assert (same_shape st st1 /\ (clean fresh_entry (tlv_data st) -> clean fresh_entry (tlv_data st1)))
    as [Hs Hf].
  { refine (required_extensions_inv (fun x => same_shape st x /\
      (clean fresh_entry (tlv_data st) -> clean fresh_entry (tlv_data x))) _ _ _ _ _ Hreq _); [|done].
    intros t x x' Hx [Hsx Hcx]. split.
    - eapply same_shape_trans; [exact Hsx|]. by eapply init_account_extension_same_shape.
    - intros Hc. eapply init_account_extension_fresh; eauto. }
  apply init_account_type_Ok in Hinit as (Hu & Eb & Et & _);
    [|apply well_formed_with_base; by eapply well_formed_same_shape].
  intros Hc. eapply (keeps_init_account _ _ st st' Hown1 Hun).
  - apply Hu. apply starting_state_initialized in Hst; [by destruct a14|].
    by apply (cells_ok_mint w (key a0) smt).
  - rewrite Eb. cbn [base with_base mint amount is_native_reserve]. intros Hne. unfold is_native.
    by eapply starting_balance_zero.
  - rewrite Et. exact Hf.
  - done.
Qed.

Lemma initialize_multisig_keeps accounts m rs w w' :
  _process_initialize_multisig accounts m rs w = Ok (tt, w') -> keeps w w'.
Proof.
  unfold _process_initialize_multisig. intros H. m_inv. apply get_rent_Ok in Hm2 as [-> _].
  assert (forall x : PodMultisig, uncounted (to_bytes x)) as Hun.
  { intros x. split; intros y Hy; apply unpack_mut_not_multisig in Hy; by rewrite length_to_bytes in Hy. }
  match goal with H : cell_data _ = to_bytes _ |- _ => rename H into Ed end.
  match goal with |- keeps _ (set_cell ?k (with_data ?d _) _) =>
    apply (keeps_uncounted k d); [by rewrite Ed|done|] end.
  intros _. apply data_multisig. by rewrite length_to_bytes.
Qed.

(** ** Closing *)

(** Closing never adds to what is unbacked, and keeps it where the supply backs
    the circulation: a mint without supply then has no tokens.  This is where the
    invariant is needed, not only kept. *)
Lemma process_close_account_backed pid accounts w w' :
  resize_empties -> rt_system_program_id <> id ->
  process_close_account pid accounts w = Ok (tt, w') -> cells_ok w ->
  cells_ok w' /\ forall m, m <> native_mint.id ->
    unbacked m w' <= unbacked m w /\ (unbacked m w <= 0 -> unbacked m w' = unbacked m w).
Proof.
  intros Hr Hsys (src & dst & auth & signers & Ea & Hne & Hown & Hcl & E1 & E2 & E3 & _ & E5)%process_close_account_inv
    Hc; [|done..].
  split.
  - intros k. destruct (decide (k = key src)) as [->|H1]; [rewrite E1; by intros ?|].
    destruct (decide (k = key dst)) as [->|H2]; [rewrite E2; exact (Hc (key dst))|].
    rewrite E3 by done. apply Hc.
  - intros m Hm. unfold unbacked. destruct (E5 m) as [-> ->].
    destruct (closable_tokens _ _ _ _ _ _ m Hown Hcl) as [Eh Hs].
    destruct Hcl as [(a & Ha & _)|(mt & Hmt & _)].
    + rewrite Eh. unfold closed_tokens. rewrite Ha.
      pose proof (cells_ok_account w (key src) a Hc (conj Hown Ha)) as [Hnat _].
      assert ((if bool_decide (mint (base a) = m) && is_native (base a)
               then u64_get (amount (base a)) else 0) = 0) as ->.
      { case_bool_decide as Em; [|done]. destruct (is_native (base a)); [|done].
        by rewrite (Hnat eq_refl) in Em. }
      case_bool_decide; [subst; lia|lia].
    + pose proof (holding_nonneg m (key src) (cell w (key src))) as Hn.
      pose proof (holding_le_circulation m (key src) w) as Hle.
      case_bool_decide as Ek; [subst m; lia|].
      rewrite (holding_mint m _ _ mt), bool_decide_false by done. lia.
Qed.

End handlers.
