(* ===== verification/BackingTransfers.v ===== *)
(** * Instructions that move tokens keep the backing

    Transfers, minting, burning and the roads of withheld fees: what one
    account or the mint gains another loses, or the supply follows.  The
    processors of fees, metadata and groups are here too. *)
From S2P Require Import Prelude Bytes Errors Ids Runtime Pod ExtensionState Extension TlvTheory.
From S2P Require Import ViewTheory Clean AccountLen TransferFee MonadTheory Ownership Ledger.
From S2P Require Import Transfer TransferTheory Supply PodInstruction Authority.
From S2P Require Import AuthorityTheory Initialize InitializeTheory LifecycleTheory Settings Fees.
From S2P Require Import FeesTheory VariableLen VariableLenTheory SerializeTheory TokenMetadata.
From S2P Require Import TokenMetadataTheory Backing BackingSettings BackingAccounts.

Section handlers.
Context `{RT : Runtime}.

(** ** Transfers *)

Lemma unset_transferring_keeps i w w' :
  unset_transferring i w = Ok (tt, w') -> cell_owner (cell w (key i)) = id -> keeps w w'.
Proof.
  unfold unset_transferring. intros H Ho. m_inv.
  match goal with Hu : unpack_mut PodAccount _ = Ok ?x, Hg : get_extension_mut _ ?x = Ok _ |- _ =>
    pose proof (put_mut_same_shape _ _ _ _ (mk_tha (bool_new false)) Hg) as Hs;
    apply (keeps_store_account _ x); [by split|by eapply same_shape_replaces|by rewrite (proj1 Hs)|];
    intros Hok; split; [by eapply account_ok_put|];
    unfold account_tokens; rewrite (proj1 Hs); f_equal; by apply (withheld_put_other _ _ _ _ _ Hg) end.
Qed.

Lemma set_transferring_ok a a' : set_transferring a = Ok a' -> account_ok a -> account_ok a'.
Proof. unfold set_transferring. intros H Ha. m_inv. by eapply account_ok_put. Qed.

Lemma transfer_withhold_ok fee a a' :
  transfer_withhold fee a = Ok a' -> account_ok a -> account_ok a'.
Proof.
  unfold transfer_withhold. intros H Ha. destruct (0 <? fee); [|by injection H as <-].
  destruct (get_extension_mut TransferFeeAmount a) as [[e put]| |] eqn:Hg; [|done..].
  m_inv. by eapply account_ok_put.
Qed.

Lemma evolves_store_both ks kd st dt st' dt' w :
  cells_ok w -> ks <> kd -> both ks kd st dt w -> replaces st st' -> replaces dt dt' ->
  mint (base st') = mint (base st) -> mint (base dt') = mint (base dt) ->
  account_ok st' -> account_ok dt' ->
  evolves (fun m => token_change m st st' + token_change m dt dt') w (store_both ks kd st' dt' w).
Proof.
  intros Hc Hne (Hos & Hod & Hs & Hd) Hrs Hrd Ems Emd Hoks Hokd.
  assert (evolves (fun m => token_change m st st') w (store ks st' w)) as H1
    by (by apply evolves_store_account).
  unfold store_both. eapply (evolves_trans (fun m => token_change m st st')); [exact H1|].
  apply evolves_store_account; [apply H1| |done..].
  unfold token_account. by rewrite owner_store, cell_store_ne.
Qed.

Lemma transfer_finish_evolves src dst auth signers mo hook a st dt st' dt' w w' :
  hook_keeps_tokens -> cells_ok w -> key src <> key dst -> both (key src) (key dst) st dt w ->
  replaces st st' -> replaces dt dt' ->
  mint (base st') = mint (base st) -> mint (base dt') = mint (base dt) ->
  account_ok st' -> account_ok dt' ->
  transfer_finish src dst auth signers mo hook a st' dt' w = Ok (tt, w') ->
  evolves (fun m => token_change m st st' + token_change m dt dt') w w'.
Proof.
  intros Hk Hc Hne Hb Hrs Hrd Ems Emd Hoks Hokd H.
  pose proof H as (_ & (s & d & (Hos & Hod & _) & _) & Hsum)%(transfer_finish_Ok _ _ _ _ _ _ _ st dt);
    [|done..].
  enough (cells_ok w' /\ kinds_kept w w') as [Hc' Hk'].
  { split; [done|]. split; [|done]. intros m _. unfold unbacked. destruct (Hsum m) as [-> ->]. lia. }
  unfold transfer_finish in H. destruct hook as [p|].
  2: { m_inv. assert (evolves (fun m => token_change m st st' + token_change m dt dt') w
         (store_both (key src) (key dst) st' dt' w)) as (? & _ & ?) by by apply (evolves_store_both _ _ st dt).
       done. }
  destruct mo as [[mi x]|]; [|done]. m_inv.
  match goal with H1 : set_transferring st' = Ok ?s, H2 : set_transferring dt' = Ok ?d |- _ =>
    pose proof (set_transferring_Ok _ _ H1) as [Hss _]; pose proof (set_transferring_Ok _ _ H2) as [Hds _];
    apply set_transferring_ok in H1; [|done]; apply set_transferring_ok in H2; [|done];
    assert (evolves (fun m => token_change m st s + token_change m dt d) w
        (store_both (key src) (key dst) s d w) /\
      both (key src) (key dst) s d (store_both (key src) (key dst) s d w)) as [(Hc1 & _ & Hk1) Hb1] end.
  { split.
    - eapply (evolves_store_both _ _ st dt); eauto using replaces_same_shape.
      + by rewrite (proj1 Hss).
      + by rewrite (proj1 Hds).
    - eapply (store_both_Ok _ _ st dt); eauto using replaces_same_shape.
      + by rewrite (proj1 Hss).
      + by rewrite (proj1 Hds). }
  match goal with H : invoke _ _ = Ok (_, ?x) |- _ => rename H into Hinv; rename x into w1 end.
  unfold invoke in Hinv. case_match eqn:Hi; simplify_eq. apply Hk in Hi.
  assert (both (key src) (key dst) a0 a1 w1) as (Hos1 & Hod1 & _) by (by eapply both_kept).
  destruct (keeps_foreign _ _ Hi Hc1) as (Hc2 & _ & Hk2).
  match goal with H : unset_transferring src _ = Ok (_, ?x) |- _ =>
    pose proof H as (? & ? & _ & _ & _ & E)%unset_transferring_Ok;
    apply unset_transferring_keeps in H; [|done]; destruct (H Hc2) as (Hc3 & _ & Hk3) end.
  match goal with H : unset_transferring dst _ = Ok (_, ?x) |- _ =>
    apply unset_transferring_keeps in H; [destruct (H Hc3) as (Hc4 & _ & Hk4)|] end.
  - split; [done|]. eauto using kinds_kept_trans.
  - rewrite E. by rewrite owner_store.
Qed.

Lemma process_transfer_keeps pid accounts a ti w w' :
  hook_keeps_tokens -> is_u64 a ->
  process_transfer pid accounts a ti w = Ok (tt, w') -> keeps w w'.
Proof.
  intros Hk Ha (src & mo & dst & auth & signers & st & fee & pd & hook & b & _ & Hos & Hod & Hs &
    _ & Hamt & _ & Hmc & _ & _ & Hau & Hrest)%process_transfer_inv Hc.
  destruct (decide _) as [|Hne]; [destruct Hrest as [-> _]; by apply evolves_refl|].
  destruct Hrest as (dt & dt1 & w1 & Hd & _ & Hmint & _ & Hfee & Hcred & Hwh & Hlam & Hfin).
  apply transfer_authority_Ok in Hau as (_ & Eba & Ebm & Ebs & Ebn & _).
  pose proof (transfer_mint_checks_fee _ _ _ _ _ _ _ _ _ Hmc) as Hfee0.
  pose proof (cells_ok_account _ _ _ Hc (conj Hos Hs)) as Hok.
  pose proof (cells_ok_account _ _ _ Hc (conj Hod Hd)) as Hokd.
  assert (keeps w w1 /\ both (key src) (key dst) st dt w1) as [Hk1 Hb1].
  { destruct (is_native b); [|subst; split; [apply keeps_refl|done]]. split; [by eapply transfer_lamports_keeps|].
    apply transfer_lamports_Ok in Hlam as [Hsame _]; [|done].
    destruct (Hsame (key src)) as [E1 E2], (Hsame (key dst)) as [E3 E4].
    unfold both. by rewrite E1, E2, E3, E4. }
  apply transfer_withhold_ok in Hwh as Hokd1; [|by apply account_ok_base].
  apply transfer_withhold_Ok in Hwh as [Hsh Hwh]; [|done].
  specialize (Hk1 Hc). eapply evolves_ext; [|eapply evolves_trans; [exact Hk1|]].
  2: { refine (transfer_finish_evolves _ _ _ _ _ _ _ st dt _ _ _ _ Hk (proj1 Hk1) Hne Hb1 _ _ _ _ _ Hokd1 Hfin).
       - by eapply replaces_account.
       - eapply replaces_same_shape; [|exact Hsh]. by eapply replaces_account.
       - done.
       - by rewrite (proj1 Hsh).
       - by apply account_ok_base. }
  intros m _. unfold token_change, account_tokens. rewrite (proj1 Hsh), Hwh, !withheld_with_base, Hmint.
  cbn [base with_base set_amount amount]. unfold is_u64 in *.
  pose proof (u64_get_range (amount (base st))) as Hrg. unfold is_u64 in Hrg.
  rewrite !u64_get_new by (unfold is_u64; lia). case_bool_decide; lia.
Qed.

(** ** Supply *)

(** A balance and a supply that move together. *)
Lemma evolves_store_account_mint ka km a a' mt mt' w :
  cells_ok w -> token_account w ka a -> mint_account w km mt -> replaces a a' -> replaces mt mt' ->
  mint (base a') = mint (base a) -> account_ok a' -> mint_ok mt' ->
  decimals (base mt') = decimals (base mt) ->
  evolves (fun m => token_change m a a' + mint_change m km mt mt') w
    (store km mt' (store ka a' w)).
Proof.
  intros Hc Ha [Hom Hm] Hra Hrm Em Hoka Hokm Hdec.
  assert (evolves (fun m => token_change m a a') w (store ka a' w)) as H1
    by (by apply evolves_store_account).
  assert (ka <> km) as Hne.
  { intros E. destruct Ha as [_ Ha]. rewrite E in Ha. by eapply account_mint_exclusive. }
  eapply (evolves_trans (fun m => token_change m a a')); [exact H1|].
  apply evolves_store_mint; [apply H1| |done..].
  unfold mint_account. by rewrite owner_store, cell_store_ne.
Qed.

(** The balance of an account of the mint and the supply change alike. *)
Lemma keeps_supply_change ka km a b mt na ns w :
  token_account w ka a -> mint_account w km mt -> mint (base a) = km ->
  amount b = amount (base a) -> mint b = mint (base a) -> state b = state (base a) ->
  is_native_reserve b = is_native_reserve (base a) -> is_u64 na -> is_u64 ns ->
  na - u64_get (amount (base a)) = ns - u64_get (supply (base mt)) ->
  keeps w (store km (with_base (set_supply ns (base mt)) mt)
             (store ka (with_base (set_amount na b) a) w)).
Proof.
  intros Ha Hm Em Eb Ebm Ebs Ebn Hna Hns Hd Hc.
  eapply evolves_ext; [|apply (evolves_store_account_mint ka km a _ mt); try done].
  - intros m _. unfold token_change, mint_change, account_tokens. rewrite Em, withheld_with_base.
    cbn [base with_base set_amount set_supply amount supply].
    change (mint_withheld (with_base ?b mt)) with (mint_withheld mt).
    rewrite !u64_get_new by done. case_bool_decide; lia.
  - destruct Ha as [_ Ha]. by eapply replaces_account.
  - destruct Hm as [_ Hm]. by eapply replaces_mint.
  - apply account_ok_base; [|done..]. by eapply cells_ok_account.
  - by apply (cells_ok_mint w km mt).
Qed.

Lemma process_mint_to_keeps pid accounts a v w w' :
  process_mint_to pid accounts a v w = Ok (tt, w') -> keeps w w'.
Proof.
  intros (mi & di & auth & signers & mt & dt & ma & _ & Hom & Hod & Hm & Hd & _ & _ & Em & _ & _ & _ &
    _ & _ & _ & Hda & Hsu & ->)%process_mint_to_inv.
  by apply keeps_supply_change; try done; lia.
Qed.

Lemma process_burn_keeps pid accounts a bv v w w' :
  process_burn pid accounts a bv v w = Ok (tt, w') -> keeps w w'.
Proof.
  intros (src & mi & ap & auth & signers & mt & st & b & _ & Hos & Hom & Hm & _ & Hs & _ & _ & Em & _ &
    _ & _ & _ & _ & Eba & Ebm & Ebs & Ebn & Hle & Hda & Hsu & ->)%process_burn_inv.
  by apply keeps_supply_change; try done; lia.
Qed.
End handlers.

(** ** The transfer-fee processor keeps the backing

    Fees withheld on accounts move to the mint or to a destination's balance. *)
Import transfer_fee.

Section fees.
Context `{RT : Runtime}.

(** ** Configuration *)

Lemma initialize_transfer_fee_config_keeps accounts a b bps fee w w' :
  process_initialize_transfer_fee_config accounts a b bps fee w = Ok (tt, w') -> keeps w w'.
Proof.
  intros H. unfold process_initialize_transfer_fee_config in H. m_inv. keeps_by_init H.
  by apply fresh_entry_config.
Qed.

Lemma set_transfer_fee_keeps pid accounts bps fee w w' :
  process_set_transfer_fee pid accounts bps fee w = Ok (tt, w') -> keeps w w'.
Proof.
  apply (update_mint_extension_keeps TransferFeeConfig).
  intros mt e put w0 e' w1 Hg Hf. cbn beta in Hf. m_inv. split; [done|].
  split; [by eapply mint_withheld_put_config|by apply mint_entry_other].
Qed.

(** ** Cells through the harvests *)

(** The part of [evolves] that does not count tokens. *)
Definition safe (w w' : World) : Prop := cells_ok w' /\ kinds_kept w w'.

Lemma evolves_safe δ w w' : evolves δ w w' -> safe w w'.
Proof. by intros (? & _ & ?). Qed.

Lemma safe_trans w w1 w' : safe w w1 -> safe w1 w' -> safe w w'.
Proof. intros [_ K1] [H2 K2]. split; [done|]. by eapply kinds_kept_trans. Qed.

Lemma safe_refl w : cells_ok w -> safe w w.
Proof. intros Hc. split; [done|apply kinds_kept_refl]. Qed.

Lemma harvest_from_account_safe held mint_key info n w w' :
  harvest_from_account held mint_key info w = Ok (n, w') -> cells_ok w -> safe w w'.
Proof.
  intros H Hc. unfold harvest_from_account in H. m_inv.
  repeat match goal with H : map_err _ _ = Ok _ |- _ => apply map_err_Ok in H end.
  match goal with H : check_program_account _ = Ok _ |- _ => apply check_program_account_Ok in H as Ho end.
  match goal with Hu : Extension.unpack_mut PodAccount _ = Ok ?x, Hg : get_extension_mut _ ?x = Ok _ |- _ =>
    pose proof (put_mut_same_shape _ _ _ _ (mk_tfa (u64_new 0)) Hg) as Hs;
    eapply evolves_safe, (evolves_store_account _ x); [done|by split|by eapply same_shape_replaces|
      by rewrite (proj1 Hs)|eapply account_ok_put; [exact Hg|]; by apply (cells_ok_account w (key info))]
  end.
Qed.

Lemma attempt_harvest_safe held mint_key info o w w' :
  attempt (harvest_from_account held mint_key info) w = Ok (o, w') -> cells_ok w -> safe w w'.
Proof.
  rewrite attempt_Ok. intros [(n & -> & H)|(-> & -> & _)]; [|apply safe_refl].
  by eapply harvest_from_account_safe.
Qed.

Lemma harvest_all_safe mint_key infos n n' w w' :
  harvest_all mint_key n infos w = Ok (n', w') -> cells_ok w -> safe w w'.
Proof.
  revert n w. induction infos as [|i infos IH]; intros n w H Hc; cbn [harvest_all] in H; m_inv;
    [by apply safe_refl|].
  match goal with H : attempt _ _ = Ok _ |- _ => apply attempt_harvest_safe in H as Hs; [|done] end.
  eapply safe_trans; [exact Hs|]. destruct Hs as [Hc1 _]. case_match; m_inv; eauto.
Qed.

Lemma withdraw_all_safe mint_key dk d infos w d' w' :
  withdraw_all mint_key dk d infos w = Ok (d', w') ->
  cells_ok w -> account_ok d -> safe w w' /\ account_ok d'.
Proof.
  revert d w. induction infos as [|i infos IH]; intros d w H Hc Hd; cbn [withdraw_all] in H.
  { m_inv. split; [by apply safe_refl|done]. }
  destruct (bool_decide _); m_inv.
  - match goal with H : map_err _ _ = Ok _ |- _ => apply map_err_Ok in H; rename H into Hg end.
    eapply IH; [exact H|done|]. apply account_ok_base; [|done..]. by eapply account_ok_put.
  - match goal with H : attempt _ _ = Ok _ |- _ => apply attempt_harvest_safe in H as Hs; [|done] end.
    enough (exists d1 w1', account_ok d1 /\ withdraw_all mint_key dk d1 infos w1' = Ok (d', w') /\
      safe w w1') as (d1 & w1' & Hd1 & Hw & Hs1).
    { destruct (IH _ _ Hw (proj1 Hs1) Hd1) as [? ?]. split; [by eapply safe_trans|done]. }
    case_match; m_inv; eexists _, _; (split; [|split; [exact H|exact Hs]]); [|done].
    by apply account_ok_base.
Qed.

(** ** The three roads *)

Lemma withdraw_from_mint_keeps pid accounts w w' :
  process_withdraw_withheld_tokens_from_mint pid accounts w = Ok (tt, w') -> keeps w w'.
Proof.
  intros H Hc. unfold process_withdraw_withheld_tokens_from_mint in H. m_inv.
  match goal with Hm : unpack_mut PodMint _ = Ok ?x, Hg : get_extension_mut _ ?x = Ok (?ee, ?p),
      Hd : unpack_mut PodAccount _ = Ok ?y |- _ =>
    rename x into mt, ee into e, p into put, y into d; rename Hm into Hum, Hg into Hge, Hd into Hud end.
  destruct (config_withheld_put _ _ _ (set_withheld 0 e) Hge) as [Ew Ew'].
  pose proof (put_mut_same_shape _ _ _ _ (set_withheld 0 e) Hge) as Hs.
  assert (key a <> key a0) as Hne by (intros E; rewrite E in *; by eapply account_mint_exclusive).
  rewrite store_comm by done.
  eapply evolves_ext; [|apply (evolves_store_account_mint _ _ d _ mt _)]; try done.
  - intros m _. unfold token_change, mint_change, account_tokens. rewrite Ew', (proj1 Hs), withheld_with_base.
    cbn [base with_base set_amount amount set_withheld tfc_withheld_amount]. rewrite u64_get_0, Ew.
    rewrite u64_get_new by done.
    match goal with E : mint (base d) = key a |- _ => rewrite E end. case_bool_decide; lia.
  - by eapply replaces_account.
  - by eapply same_shape_replaces.
  - apply account_ok_base; [|done..]. by apply (cells_ok_account w (key a0)).
  - eapply mint_ok_put; [exact Hge|by apply mint_entry_other|]. by apply (cells_ok_mint w (key a)).
  - by rewrite (proj1 Hs).
Qed.

Lemma harvest_to_mint_keeps accounts w w' :
  process_harvest_withheld_tokens_to_mint accounts w = Ok (tt, w') -> keeps w w'.
Proof.
  intros H Hc. unfold process_harvest_withheld_tokens_to_mint in H. m_inv.
  match goal with Hm : unpack_mut PodMint _ = Ok ?x, Hg : get_extension_mut _ ?x = Ok (?ee, ?p),
      Hh : harvest_all _ _ _ _ = Ok (?n, ?ww) |- _ =>
    rename x into mt, ee into e, p into put, n into n', ww into w1;
    rename Hm into Hum, Hg into Hge, Hh into Hha end.
  pose proof (harvest_all_safe _ _ _ _ _ _ Hha Hc) as [Hc1 Hk1].
  apply harvest_all_Ok in Hha as (Hk & _ & Hn' & _ & Hcell & _ & Hsum); [|apply u64_get_range].
  destruct (config_withheld_put _ _ _ (set_withheld n' e) Hge) as [Ew Ew'].
  pose proof (put_mut_same_shape _ _ _ _ (set_withheld n' e) Hge) as Hs.
  eapply evolves_ext; [|eapply (evolves_trans
    (fun m => - (if bool_decide (key a = m) then n' - mint_withheld mt else 0)));
    [|apply (evolves_store_mint _ mt); [done| | | |]]].
  - intros m _. unfold mint_change. rewrite Ew', (proj1 Hs). cbn [set_withheld tfc_withheld_amount].
    rewrite u64_get_new by done. case_bool_decide; lia.
  - split; [done|]. split; [|done]. intros m _. unfold unbacked. destruct (Hsum m) as [-> ->].
    rewrite Ew. case_bool_decide; lia.
  - unfold mint_account. rewrite Hcell by done. done.
  - by eapply same_shape_replaces.
  - eapply mint_ok_put; [exact Hge|by apply mint_entry_other|]. by apply (cells_ok_mint w (key a)).
  - by rewrite (proj1 Hs).
Qed.

Lemma withdraw_from_accounts_keeps pid accounts num w w' :
  process_withdraw_withheld_tokens_from_accounts pid accounts num w = Ok (tt, w') -> keeps w w'.
Proof.
  intros H Hc. unfold process_withdraw_withheld_tokens_from_accounts in H. m_inv.
  match goal with Hw : withdraw_all _ _ ?x _ _ = Ok (?y, ?ww), Hd : unpack_mut PodAccount _ = Ok ?x |- _ =>
    rename x into d, y into d', ww into w1; rename Hw into Hwa, Hd into Hud end.
  pose proof (cells_ok_account w (key a0) d Hc (conj Hown Hud)) as Hd.
  destruct (withdraw_all_safe _ _ _ _ _ _ _ Hwa Hc Hd) as [[Hc1 Hk1] Hd'].
  apply withdraw_all_Ok in Hwa as (_ & n & (_ & Hcell & _ & Hsum) & (Hr & _ & Eb & _ & Et));
    [|by eapply unpack_mut_initialized].
  eapply evolves_ext; [|eapply (evolves_trans
    (fun m => - (if bool_decide (key a = m) then n else 0)));
    [|apply (evolves_store_account _ d d'); [done| |done| |done]]].
  - intros m _. unfold token_change. rewrite Et.
    match goal with E : mint (base d) = key a |- _ => rewrite E end. case_bool_decide; lia.
  - split; [done|]. split; [|done]. intros m _. unfold unbacked. destruct (Hsum m) as [-> ->].
    case_bool_decide; lia.
  - unfold token_account. rewrite Hcell; [done|]. rewrite elem_of_other_sources. tauto.
  - by rewrite Eb.
Qed.

Lemma unpack_u64_range l z rest : unpack_u64 l = Ok (z, rest) -> is_u64 z.
Proof.
  unfold unpack_u64, split_at_bytes. intros H. destruct (Nat.leb_spec 8 (length l)); [|done]. m_inv.
  pose proof (from_le_bytes_range (take 8 l)) as Hr. rewrite length_take in Hr.
  replace (8 `min` length l)%nat with 8%nat in Hr by lia.
  unfold is_u64, u64_max. change (256 ^ Z.of_nat 8) with 18446744073709551616 in Hr. lia.
Qed.

Lemma transfer_fee_unpack_u64 input amount decimals fee :
  transfer_fee.unpack input = Ok (TransferCheckedWithFee amount decimals fee) -> is_u64 amount.
Proof.
  unfold transfer_fee.unpack, unpack_amount_decimals. intros H. m_inv.
  destruct b; m_inv; try discriminate. by eapply unpack_u64_range.
Qed.

Lemma transfer_fee_keeps pid accounts input w w' :
  hook_keeps_tokens -> transfer_fee.process_instruction pid accounts input w = Ok (tt, w') ->
  keeps w w'.
Proof.
  intros Hk H. unfold transfer_fee.process_instruction in H. m_inv. destruct a.
  - by eapply initialize_transfer_fee_config_keeps.
  - eapply process_transfer_keeps; [done| |exact H]. by eapply transfer_fee_unpack_u64.
  - by eapply withdraw_from_mint_keeps.
  - by eapply withdraw_from_accounts_keeps.
  - by eapply harvest_to_mint_keeps.
  - by eapply set_transfer_fee_keeps.
Qed.
End fees.

(** ** Metadata and groups keep the backing

    An extension of a mint that has nothing to do with its supply is written,
    on a buffer of another length. *)

(** ** One extension of a mint set *)

(** Reading an extension off the entries. *)
Lemma get_extension_entries {S} `{BaseState S} V `{Pod V, Extension V} (st : PodStateMut S) es :
  get_account_type (TYPE V) = ACCOUNT_TYPE S -> tlv_holds (tlv_data st) es ->
  ok (get_extension V st) = entry_of (TYPE V) es ≫= try_from_bytes.
Proof.
  intros Ha Hes. unfold entry_of. rewrite <- (get_extension_bytes_holds (TYPE V) _ _ Ha Hes).
  unfold get_extension. change (get_tlv_data st) with (tlv_data st).
  destruct (get_extension_bytes S _ _) as [b| |]; [|done..]. cbn.
  by destruct (try_from_bytes b).
Qed.

Lemma mint_withheld_entries st es :
  tlv_holds (tlv_data st) es ->
  mint_withheld st = from_option (fun e => u64_get (tfc_withheld_amount e)) 0
    (entry_of ExtensionType.TransferFeeConfig es ≫= try_from_bytes).
Proof.
  intros Hes. unfold mint_withheld.
  pose proof (get_extension_entries (S := PodMint) TransferFeeConfig st es eq_refl Hes) as E.
  unfold TYPE, TransferFeeConfig_ext in E. rewrite <- E. by destruct (get_extension _ _).
Qed.

Lemma mint_ok_entries st : mint_ok st -> exists es, tlv_holds (tlv_data st) es /\ Forall mint_entry es.
Proof. intros (es & n & Hes & HP & E). exists es. split; [|done]. split; [done|by exists n]. Qed.

Lemma keeps_extension_set w k st st' es ty b :
  mint_account w k st -> tlv_holds (tlv_data st) es -> Forall mint_entry es ->
  extension_set ty b es (base st) st' ->
  ty <> ExtensionType.DefaultAccountState -> ty <> ExtensionType.TransferFeeConfig ->
  keeps w (store k st' w).
Proof.
  intros Hm Hes HP (Eb & Hu & Ht) Hd Hf Hc.
  assert (mint_withheld st' = mint_withheld st) as Ew.
  { rewrite (mint_withheld_entries _ _ Ht), (mint_withheld_entries _ _ Hes). unfold entry_of.
    rewrite entries_lookup_set_ne; [done|]. intros E. by apply extension_type_u16_inj in E. }
  eapply evolves_ext; [|apply (evolves_rewrite_mint k st st'); [done..| |by rewrite Eb]].
  - intros m _. unfold mint_change. rewrite Eb, Ew. case_bool_decide; lia.
  - destruct Ht as [Hok (n & E)]. exists (set_entry (extension_type_u16 ty) b es), n.
    split; [done|]. split; [|done]. apply Forall_set_entry; [done|by apply mint_entry_other].
Qed.

Section runtime.
Context `{RT : Runtime}.

Lemma serialize_variable_keeps {V} `{VariableLenPack V} `{Extension V} `{!VariableLenPackLaws V}
    held i (v : V) ow w w' :
  get_account_type (TYPE V) = AccountType.Mint -> TYPE V <> ExtensionType.DefaultAccountState ->
  TYPE V <> ExtensionType.TransferFeeConfig -> resize_zeroes ->
  cell_owner (cell w (key i)) = id ->
  alloc_and_serialize_variable_len_extension PodMint held i v ow w = Ok (tt, w') -> keeps w w'.
Proof.
  intros Ha Hd Hf Hr Ho Hs Hc.
  assert (exists st, unpack_mut PodMint (cell_data (cell w (key i))) = Ok st) as [st Hu].
  { unfold alloc_and_serialize_variable_len_extension in Hs.
    apply M_bind_Ok in Hs as (p & w1 & [-> ->]%try_data_len_Ok & Hs).
    apply M_bind_Ok in Hs as (d & w1 & (_ & -> & ->)%try_borrow_data_Ok & Hs).
    apply M_bind_Ok in Hs as (st & w1 & [(sm & Hu & _)%unpack_Ok ->]%lift_Ok & Hs). by exists sm. }
  destruct (mint_ok_entries st) as (es & Hes & HP); [by eapply cells_ok_mint|].
  apply (alloc_and_serialize_variable_len_Ok mint_fits) with (st := st) (es := es) in Hs
    as (b & _ & (st' & -> & Hset & _) & _); [| |done..|done].
  - by eapply keeps_extension_set.
  - intros E. by rewrite E in Ha.
Qed.

Lemma serialize_keeps {V} `{Pod V} `{Extension V} held i (v : V) ow w w' :
  get_account_type (TYPE V) = AccountType.Mint -> TYPE V <> ExtensionType.DefaultAccountState ->
  TYPE V <> ExtensionType.TransferFeeConfig -> resize_zeroes ->
  cell_owner (cell w (key i)) = id ->
  alloc_and_serialize PodMint held i v ow w = Ok (tt, w') -> keeps w w'.
Proof.
  intros Ha Hd Hf Hr Ho Hs Hc.
  assert (exists st, unpack_mut PodMint (cell_data (cell w (key i))) = Ok st) as [st Hu].
  { unfold alloc_and_serialize in Hs.
    apply M_bind_Ok in Hs as (p & w1 & [-> ->]%try_data_len_Ok & Hs).
    apply M_bind_Ok in Hs as (d & w1 & (_ & -> & ->)%try_borrow_data_Ok & Hs).
    apply M_bind_Ok in Hs as (st & w1 & [(sm & Hu & _)%unpack_Ok ->]%lift_Ok & Hs). by exists sm. }
  destruct (mint_ok_entries st) as (es & Hes & HP); [by eapply cells_ok_mint|].
  apply (alloc_and_serialize_Ok mint_fits) with (st := st) (es := es) in Hs
    as [(st' & -> & Hset & _) _]; [|done..].
  by eapply keeps_extension_set.
Qed.

Lemma token_metadata_keeps `{TM : TokenMetadataInterface} `{!TokenMetadataLaws} pid accounts i w w' :
  resize_zeroes -> token_metadata.process_instruction pid accounts i w = Ok (tt, w') -> keeps w w'.
Proof.
  intros Hr Hp. destruct (is_metadata_update i) eqn:Hi.
  - apply process_metadata_update_inv in Hp as (mi & ua & rest & old & new & _ & Ho & _ & _ & _ & Hp); [|done].
    by eapply serialize_variable_keeps.
  - destruct i; try discriminate Hi; cbn [token_metadata.process_instruction] in Hp.
    + apply process_initialize_metadata_inv in Hp as (mi & ui & ? & ai & rest & ua & _ & _ & [Ho _] & _ & Hp).
      by eapply serialize_variable_keeps.
    + unfold token_metadata.process_emit in Hp. m_inv. destruct (tm_get_slice _ _ _); m_inv.
      * match goal with E : set_return_data _ _ = Ok _ |- _ => injection E as <- end.
        apply keeps_return_data.
      * apply keeps_refl.
Qed.

Lemma token_group_keeps `{TG : TokenGroupInterface} `{!TokenGroupLaws} pid accounts i w w' :
  resize_zeroes -> token_group.process_instruction pid accounts i w = Ok (tt, w') -> keeps w w'.
Proof.
  intros Hr Hp. destruct (is_group_update i) eqn:Hi; [|destruct i; try discriminate Hi;
    cbn [token_group.process_instruction] in Hp].
  - apply process_group_update_inv in Hp as
      (gi & ua & rest & st & g & put & g' & _ & Ho & Hu & Hg & _ & _ & ->); [|done].
    apply (keeps_put_mint _ _ st g); [done..| |by apply mint_entry_other].
    by eapply (mint_withheld_put TokenGroup).
  - apply process_initialize_group_inv in Hp as (gi & ? & ai & rest & _ & _ & [Ho _] & Hp).
    eapply serialize_keeps; [..|exact Hp]; done.
  - apply process_initialize_member_inv in Hp as
      (mi & ? & ai & gi & ua & rest & st & g & put & _ & _ & Hne & Ho & [Hom _] & Hu & Hg & _ & _ & Hp).
    eapply keeps_trans; [|eapply serialize_keeps; [..|exact Hp]; try done].
    + apply (keeps_put_mint _ _ st g); [done..| |by apply mint_entry_other].
      by eapply (mint_withheld_put TokenGroup).
    + by rewrite owner_store.
Qed.
End runtime.
