(* ===== verification/BackingConfidential.v ===== *)
(** * Confidential balances and the backing

    What the confidential processors do to the tokens that are not encrypted:
    only deposits and withdrawals change a balance, by the amount that enters
    or leaves a ciphertext. *)
From S2P Require Import Prelude Bytes Errors Ids Runtime Pod ExtensionState CiphertextArithmetic.
From S2P Require Import ProofExtraction Extension TlvTheory ViewTheory Clean AccountLen TransferFee.
From S2P Require Import MonadTheory Ownership Ledger PodInstruction Supply Initialize.
From S2P Require Import InitializeTheory Transfer TransferTheory Settings Fees FeesTheory VariableLen.
From S2P Require Import SerializeTheory Reallocate.
From S2P Require Import ConfidentialTransfer ConfidentialTransferFee ConfidentialMintBurn ConfidentialPure.
From S2P Require Import Authority AuthorityTheory LifecycleTheory Backing BackingSettings.
From S2P Require Import BackingAccounts BackingTransfers.

(** ** Views of one account *)

(** The view [a'] may be stored where [a] was: it has [δ] more tokens. *)
Definition edits (δ : Z) (a a' : PodStateMut PodAccount) : Prop :=
  replaces a a' /\ mint (base a') = mint (base a) /\ (account_ok a -> account_ok a') /\
  account_tokens a' = account_tokens a + δ.

Lemma edits_refl d a : unpack_mut PodAccount d = Ok a -> edits 0 a a.
Proof.
  intros Hu. split; [eapply same_shape_replaces; [done|by split_and!]|]. do 2 (split; [done|]). lia.
Qed.

Lemma edits_trans δ δ' a b c : edits δ a b -> edits δ' b c -> edits (δ + δ') a c.
Proof.
  intros (R1 & E1 & O1 & T1) (R2 & E2 & O2 & T2). split; [by eapply replaces_trans|].
  split; [congruence|]. split; [auto|lia].
Qed.

(** An extension other than the withheld fee is rewritten. *)
Lemma edits_put V `{Pod V, Extension V} a e put v :
  is_initialized (base a) = true -> get_extension_mut V a = Ok (e, put) ->
  TYPE V <> ExtensionType.TransferFeeAmount -> edits 0 a (put v).
Proof.
  intros Hi Hg Hne. pose proof (put_mut_same_shape _ _ _ _ v Hg) as Hs.
  pose proof Hs as (Eb & Ep & Ea & Et).
  split; [by rewrite <- Eb in Hi|]. split; [by rewrite Eb|].
  split; [by eapply account_ok_put|]. unfold account_tokens.
  rewrite Eb, (withheld_put_other V _ _ _ _ Hg Hne). lia.
Qed.

Lemma edits_amount a n :
  is_initialized (base a) = true -> is_u64 n ->
  edits (n - u64_get (amount (base a))) a (with_base (set_amount n (base a)) a).
Proof.
  intros Hi Hn. split; [by split|]. split; [done|]. split; [intros Hok; by apply account_ok_base|].
  unfold account_tokens. rewrite withheld_with_base. cbn [base with_base set_amount amount].
  rewrite u64_get_new by done. lia.
Qed.

Lemma edits_initialized δ a a' : edits δ a a' -> is_initialized (base a') = true.
Proof. by intros [[Hi _] _]. Qed.

Lemma edits_unpack δ d a a' :
  unpack_mut PodAccount d = Ok a -> edits δ a a' -> unpack_mut PodAccount (repack a') = Ok a'.
Proof. intros Hu [Hr _]. by eapply replaces_unpack. Qed.

Lemma edits_ok δ a a' : edits δ a a' -> account_ok a -> account_ok a'.
Proof. by intros (_ & _ & Hok & _). Qed.

(** The tokens of the mint [mk] that are not backed change by [z]. *)
Definition gains (mk : Address) (z : Z) (m : Address) : Z := if bool_decide (m = mk) then z else 0.

Lemma evolves_edits δ k a a' w :
  cells_ok w -> token_account w k a -> edits δ a a' ->
  evolves (gains (mint (base a)) δ) w (store k a' w).
Proof.
  intros Hc Ht (Hr & Em & Hok & Et). eapply evolves_ext; [|eapply evolves_store_account; try done].
  - intros m _. unfold token_change, gains. repeat case_bool_decide; try congruence; lia.
  - by apply Hok, (cells_ok_account w k).
Qed.

Lemma keeps_edits k a a' w :
  cell_owner (cell w k) = id -> unpack_mut PodAccount (cell_data (cell w k)) = Ok a -> edits 0 a a' ->
  keeps w (store k a' w).
Proof.
  intros Ho Hu He Hc. eapply evolves_ext; [|eapply (evolves_edits 0 k a); [done|by split|done]].
  intros m _. unfold gains. by case_bool_decide.
Qed.

(** The same wherever the account is: other programs' data is not counted. *)
Lemma keeps_edits_any k a a' w :
  unpack_mut PodAccount (cell_data (cell w k)) = Ok a -> edits 0 a a' -> keeps w (store k a' w).
Proof.
  intros Hu He. destruct (decide (cell_owner (cell w k) = id)) as [Ho|Hne]; [by eapply keeps_edits|].
  apply keeps_foreign. intros k'. destruct (decide (k' = k)) as [->|Hk].
  - rewrite owner_store. by split.
  - rewrite cell_store_ne by done. by split; [|].
Qed.

(** An extension added to an account. *)
Lemma edits_init V `{Pod V, Extension V} ow a d v put v' :
  unpack_mut PodAccount d = Ok a -> init_extension V ow a = Ok (v, put) ->
  TYPE V <> ExtensionType.TransferFeeAmount -> account_ok a -> edits 0 a (put v').
Proof.
  intros Hu Hi Hne Hok. destruct (put_init_keeps V _ _ _ _ v' Hi Hne) as [Hs Ha].
  destruct (Ha Hok) as [Hok' Et]. split; [by eapply same_shape_replaces|].
  split; [by rewrite (proj1 Hs)|]. split; [done|lia].
Qed.

(** ** Mints *)

Lemma keeps_put_mint_other k V `{Pod V, Extension V} mt e put v w :
  cell_owner (cell w k) = id -> unpack_mut PodMint (cell_data (cell w k)) = Ok mt ->
  get_extension_mut V mt = Ok (e, put) ->
  TYPE V <> ExtensionType.TransferFeeConfig -> TYPE V <> ExtensionType.DefaultAccountState ->
  keeps w (store k (put v) w).
Proof.
  intros Ho Hu Hg H1 H2. eapply keeps_put_mint; [by split|exact Hg| |by apply mint_entry_other].
  by eapply (mint_withheld_put V).
Qed.

(** A mint's extension and an account's view are both rewritten. *)
Lemma keeps_edits_put ka km V `{Pod V, Extension V} a a' mt e put v w :
  cell_owner (cell w ka) = id -> unpack_mut PodAccount (cell_data (cell w ka)) = Ok a ->
  edits 0 a a' ->
  cell_owner (cell w km) = id -> unpack_mut PodMint (cell_data (cell w km)) = Ok mt ->
  get_extension_mut V mt = Ok (e, put) ->
  TYPE V <> ExtensionType.TransferFeeConfig -> TYPE V <> ExtensionType.DefaultAccountState ->
  keeps w (store km (put v) (store ka a' w)) /\ keeps w (store ka a' (store km (put v) w)).
Proof.
  intros Ho Hu He Hom Hum Hg H1 H2.
  assert (ka <> km) as Hne by (intros ->; by eapply account_mint_exclusive).
  assert (keeps w (store km (put v) (store ka a' w))) as Hk; [|split; [done|by rewrite store_comm]].
  apply (keeps_trans _ (store ka a' w)); [by eapply keeps_edits|].
  by eapply (keeps_put_mint_other _ V); [rewrite owner_store|rewrite cell_store_ne|..].
Qed.

(** ** One account grown *)

Lemma kept_except_cells_ok k w w' :
  kept_except k w w' -> cells_ok w -> cell_ok (cell w' k) -> cells_ok w'.
Proof.
  intros Hk Hc Hok k'. destruct (decide (k' = k)) as [->|Hne]; [done|].
  apply keeps_foreign in Hk. destruct (Hk Hc) as [Hc' _]. specialize (Hc' k').
  by rewrite cell_set_cell_ne in Hc'.
Qed.

Lemma kept_except_kinds k w w' :
  kept_except k w w' -> kind_kept (cell w k) (cell w' k) -> kinds_kept w w'.
Proof.
  intros Hk Hkk k'. destruct (decide (k' = k)) as [->|Hne]; [done|].
  apply kinds_kept_foreign in Hk. specialize (Hk k'). by rewrite cell_set_cell_ne in Hk.
Qed.

Section transfers.
Context `{RT : Runtime} `{CV : CurveInterface} `{ZK : ZkInterface} `{ZC : !ZkContexts}.
Import confidential_transfer.

(** ** The mint and the settings of accounts *)

Lemma confidential_initialize_mint_keeps accounts a b c w w' :
  process_initialize_mint accounts a b c w = Ok (tt, w') -> keeps w w'.
Proof. intros H. unfold process_initialize_mint in H. m_inv. keeps_by_init H. Qed.

Lemma confidential_update_mint_keeps accounts b c w w' :
  process_update_mint accounts b c w = Ok (tt, w') -> keeps w w'.
Proof.
  intros H. unfold process_update_mint in H. m_inv.
  by eapply (keeps_put_mint_other _ ConfidentialTransferMint).
Qed.

Lemma confidential_approve_keeps accounts w w' :
  process_approve_account accounts w = Ok (tt, w') -> keeps w w'.
Proof.
  intros H. unfold process_approve_account in H. m_inv. destruct (_ && _); m_inv.
  eapply keeps_edits; [done..|].
  by eapply (edits_put ConfidentialTransferAccount); [eapply unpack_mut_initialized|..].
Qed.

Lemma confidential_empty_keeps pid accounts off w w' :
  process_empty_account pid accounts off w = Ok (tt, w') -> keeps w w'.
Proof.
  intros H. unfold process_empty_account in H. m_inv.
  eapply keeps_edits; [done..|].
  by eapply (edits_put ConfidentialTransferAccount); [eapply unpack_mut_initialized|..].
Qed.

Lemma update_account_extension_keeps pid accounts check fields w w' :
  (forall e w e' w1, fields e w = Ok (e', w1) -> w1 = w) ->
  update_account_extension pid accounts check fields w = Ok (tt, w') -> keeps w w'.
Proof.
  intros Hf H. unfold update_account_extension in H. m_inv.
  match goal with H : fields _ _ = Ok _ |- _ => apply Hf in H as -> end.
  eapply keeps_edits; [done..|].
  by eapply (edits_put ConfidentialTransferAccount); [eapply unpack_mut_initialized|..].
Qed.

Lemma configure_account_keeps held pid accounts z n src w w' :
  process_configure_account held pid accounts z n src w = Ok (tt, w') -> keeps w w'.
Proof.
  intros H. unfold process_configure_account in H. m_inv.
  match goal with H : (match src with _ => _ end) _ = Ok ((_, _), ?x) |- _ =>
    assert (x = w) as -> by (destruct src; by m_inv); clear H end.
  match goal with H : (match src with _ => _ end) _ = Ok (_, ?x) |- _ =>
    assert (x = w) as -> by (destruct src; by m_inv); clear H end.
  match goal with Hu : unpack_mut PodAccount _ = Ok ?x, Hi : init_extension ConfidentialTransferAccount _ _ = Ok (_, ?p)
    |- _ => rename Hu into Hun, Hi into Hin, x into st, p into put end.
  intros Hc. assert (account_ok st) as Hok by (by eapply (cells_ok_account w (key a) st)).
  assert (forall v, edits 0 st (put v)) as He by (intros v; by eapply edits_init).
  match goal with H : (if ?b then _ else _) _ = Ok _ |- _ => destruct b; m_inv end.
  - eapply keeps_edits; [done..| |done]. eapply (edits_trans 0 0); [apply He|].
    eapply edits_init; [|eassumption|done|by eapply edits_ok]. by eapply edits_unpack.
  - by eapply keeps_edits.
Qed.

(** ** Deposits and withdrawals *)

Lemma edits_ext δ δ' a a' : δ = δ' -> edits δ a a' -> edits δ' a a'.
Proof. by intros ->. Qed.

(** The view is stored at the account of the mint. *)
Lemma evolves_stored δ k mk a a' w :
  cells_ok w -> cell_owner (cell w k) = id -> unpack_mut PodAccount (cell_data (cell w k)) = Ok a ->
  mint (base a) = mk -> edits δ a a' -> evolves (gains mk δ) w (store k a' w).
Proof. intros Hc Ho Hu <- He. by apply evolves_edits. Qed.

Lemma deposit_evolves pid accounts n d w w' :
  process_deposit pid accounts n d w = Ok (tt, w') -> cells_ok w ->
  exists ti mi rest, accounts = ti :: mi :: rest /\ evolves (gains (key mi) (- n)) w w'.
Proof.
  intros H Hc. unfold process_deposit in H. m_inv. do 3 eexists. split; [done|].
  match goal with Hu : unpack_mut PodAccount _ = Ok ?x, Hm : mint (base ?x) = _,
      Hg : get_extension_mut ConfidentialTransferAccount _ = Ok _ |- _ =>
    apply (evolves_stored _ _ _ x); [done..|];
    pose proof (edits_amount x _ (unpack_mut_initialized _ _ Hu) H) as He;
    eapply edits_ext; [|eapply (edits_trans _ 0); [exact He|];
      by eapply (edits_put ConfidentialTransferAccount); [eapply edits_initialized|..]] end.
  lia.
Qed.

Lemma withdraw_evolves pid accounts n d nb a b w w' :
  process_withdraw pid accounts n d nb a b w = Ok (tt, w') -> cells_ok w ->
  exists ti mi rest, accounts = ti :: mi :: rest /\ evolves (gains (key mi) n) w w'.
Proof.
  intros H Hc. unfold process_withdraw in H. m_inv. do 3 eexists. split; [done|].
  match goal with H : (if 0 <? n then _ else _) _ = Ok (?x, ?y) |- _ =>
    assert (y = w) as -> by (by destruct (0 <? n); m_inv) end.
  match goal with Hu : unpack_mut PodAccount _ = Ok ?x, Hm : mint (base ?x) = _,
      Hg : get_extension_mut ConfidentialTransferAccount ?x = Ok (_, ?p)
      |- evolves _ _ (store _ (with_base _ (?p ?v)) _) =>
    apply (evolves_stored _ _ _ x); [done..|];
    assert (edits 0 x (p v)) as He by
      (eapply (edits_put ConfidentialTransferAccount); [by eapply unpack_mut_initialized|done..]) end.
  eapply edits_ext; [|eapply (edits_trans 0); [exact He|];
    apply edits_amount; [by eapply edits_initialized|exact H]].
  lia.
Qed.

(** ** Transfers *)

Lemma process_source_keeps held pid si mi ai signers pk lo hi new nd w w' :
  process_source held pid si mi ai signers pk lo hi new nd w = Ok (tt, w') ->
  keeps w w' /\ (forall k, cell_owner (cell w' k) = cell_owner (cell w k)).
Proof.
  intros H. unfold process_source in H. m_inv. split; [|by intros; rewrite owner_store].
  eapply keeps_edits; [done..|].
  by eapply (edits_put ConfidentialTransferAccount); [eapply unpack_mut_initialized|..].
Qed.

(** The destination's view is completed after its extension is credited. *)
Lemma process_destination_keeps held di mi pk lo hi finish w w' :
  (forall a e put v a' w w1, is_initialized (base a) = true ->
     get_extension_mut ConfidentialTransferAccount a = Ok (e, put) ->
     finish v put w = Ok (a', w1) -> w1 = w /\ edits 0 a a') ->
  process_destination held di mi pk lo hi finish w = Ok (tt, w') -> keeps w w'.
Proof.
  intros Hf H. unfold process_destination in H. m_inv.
  match goal with H : (if _ then _ else _) _ = Ok (_, ?x) |- _ =>
    assert (x = w) as -> by (by case_match; m_inv) end.
  match goal with H : finish _ _ _ = Ok _, Hg : get_extension_mut _ ?x = Ok _ |- _ =>
    eapply Hf in H as [-> He]; [|by eapply (unpack_mut_initialized (S := PodAccount))|exact Hg] end.
  by eapply keeps_edits.
Qed.

Lemma edits_withhold a e put v put' v' :
  is_initialized (base a) = true -> get_extension_mut ConfidentialTransferAccount a = Ok (e, put) ->
  (exists f, get_extension_mut ConfidentialTransferFeeAmount (put v) = Ok (f, put')) ->
  edits 0 a (put' v').
Proof.
  intros Hi Hg [f Hf]. assert (edits 0 a (put v)) as He by (by eapply edits_put).
  eapply (edits_trans 0 0); [exact He|]. eapply (edits_put ConfidentialTransferFeeAmount); [|done..].
  by eapply edits_initialized.
Qed.

Lemma destination_keeps held di mi pc w w' :
  process_destination_for_transfer held di mi pc w = Ok (tt, w') -> keeps w w'.
Proof.
  apply process_destination_keeps. intros a e put v a' w0 w1 Hi Hg H. m_inv.
  split; [done|]. by eapply edits_put.
Qed.

Lemma destination_with_fee_keeps held di mi pc self w w' :
  process_destination_for_transfer_with_fee held di mi pc self w = Ok (tt, w') -> keeps w w'.
Proof.
  apply process_destination_keeps. intros a e put v a' w0 w1 Hi Hg H.
  destruct (negb self); [unfold withhold_fee in H|]; m_inv; (split; [done|]); [|by eapply edits_put].
  by eapply edits_withhold; [..|eexists].
Qed.

Lemma mark_transferring_keeps held i w w' : mark_transferring held i w = Ok (tt, w') -> keeps w w'.
Proof.
  unfold mark_transferring, set_transferring. intros H. m_inv.
  eapply keeps_edits_any; [done|].
  by eapply (edits_put TransferHookAccount); [eapply unpack_mut_initialized|..].
Qed.

Lemma unmark_transferring_keeps i w w' : unset_transferring i w = Ok (tt, w') -> keeps w w'.
Proof.
  unfold unset_transferring. intros H. m_inv. eapply keeps_edits_any; [done|].
  by eapply (edits_put TransferHookAccount); [eapply unpack_mut_initialized|..].
Qed.

Lemma call_hook_keeps mi si di ai signers hook w w' :
  hook_keeps_tokens -> call_hook mi si di ai signers hook w = Ok (tt, w') -> keeps w w'.
Proof.
  intros Hk H. unfold call_hook in H. m_inv.
  repeat match goal with
  | H : mark_transferring _ _ _ = Ok _ |- _ => apply mark_transferring_keeps in H
  | H : unset_transferring _ _ = Ok _ |- _ => apply unmark_transferring_keeps in H
  | H : invoke _ _ = Ok _ |- _ => apply invoke_kept in H; apply Hk, keeps_foreign in H
  end.
  eauto using keeps_trans.
Qed.

Lemma transfer_without_fee_keeps pid si mi di iter cm nd alo ahi a b c r w w' :
  transfer_without_fee pid si mi di iter cm nd alo ahi a b c w = Ok (r, w') -> keeps w w'.
Proof.
  unfold transfer_without_fee. intros H. m_inv.
  repeat match goal with
  | H : process_source_for_transfer _ _ _ _ _ _ _ _ _ = Ok _ |- _ => apply process_source_keeps in H as [H _]
  | H : process_destination_for_transfer _ _ _ _ _ = Ok _ |- _ => apply destination_keeps in H
  end.
  eauto using keeps_trans.
Qed.

Lemma transfer_with_fee_keeps pid si mi di iter m cm nd alo ahi a b c d e r w w' :
  transfer_with_fee_ pid si mi di iter m cm nd alo ahi a b c d e w = Ok (r, w') -> keeps w w'.
Proof.
  unfold transfer_with_fee_. intros H. m_inv.
  repeat match goal with
  | H : process_source_for_transfer_with_fee _ _ _ _ _ _ _ _ _ = Ok _ |- _ =>
      apply process_source_keeps in H as [H _]
  | H : process_destination_for_transfer_with_fee _ _ _ _ _ _ = Ok _ |- _ =>
      apply destination_with_fee_keeps in H
  end.
  eauto using keeps_trans.
Qed.

Lemma confidential_transfer_keeps pid accounts nd alo ahi a b c d e w w' :
  hook_keeps_tokens -> process_transfer pid accounts nd alo ahi a b c d e w = Ok (tt, w') -> keeps w w'.
Proof.
  intros Hk H. unfold process_transfer in H. m_inv.
  match goal with H : (if ?x then transfer_without_fee _ _ _ _ _ _ _ _ _ _ _ _ else _) _ = Ok (_, ?w1) |- _ =>
    assert (keeps w w1) as H1 by
      (destruct x; [by eapply transfer_without_fee_keeps|by eapply transfer_with_fee_keeps]) end.
  eapply keeps_trans; [exact H1|]. destruct (get_program_id _); m_inv; [|apply keeps_refl].
  by eapply call_hook_keeps.
Qed.

(** ** Configuration with the registry *)

(** An account grown by zeros. *)
Lemma keeps_grown n k st st' w w' :
  cell_owner (cell w k) = id -> unpack_mut PodAccount (cell_data (cell w k)) = Ok st ->
  cell_owner (cell w' k) = id -> unpack_mut PodAccount (cell_data (cell w' k)) = Ok st' ->
  kept_except k w w' -> grown n st st' -> base st' = base st -> keeps w w'.
Proof.
  intros Ho Hu Ho' Hu' Hk Hg Eb Hc.
  destruct (cells_ok_account w k st Hc (conj Ho Hu)) as [Hn Hcl].
  destruct (grown_withheld _ _ _ Hg Hcl) as [Hcl' Ew].
  assert (account_tokens st' = account_tokens st) as Et by (unfold account_tokens; by rewrite Eb, Ew).
  split; [|split].
  - apply (kept_except_cells_ok k w); [done..|]. intros _. eapply data_account; [done|].
    split; [by rewrite Eb|done].
  - intros m _. unfold unbacked. destruct (kept_except_sums m _ _ _ Hk) as [-> E2].
    assert (holding m k (cell w' k) = holding m k (cell w k)) as ->.
    { unfold holding. by rewrite Ho, Ho', Hu, Hu', !bool_decide_true, Eb, Et by done. }
    destruct (decide (k = m)) as [->|Hne]; [|rewrite E2 by done; lia].
    unfold supply_of. erewrite !recorded_supply_account; eauto. lia.
  - apply (kept_except_kinds k); [done|]. intros _. split; [done|]. split.
    + intros a Ha. exists st'. split; [done|]. congruence.
    + intros mt Hm. by destruct (account_mint_exclusive _ _ _ Hu Hm).
Qed.

Lemma set_account_type_zeroes d d' : zeroes d -> set_account_type PodAccount d <> Ok d'.
Proof.
  unfold set_account_type. intros Hz (u & _ & H)%bind_Ok.
  apply bind_Ok in H as (u' & Hi & _). rewrite bool_decide_true in Hi by done.
  apply bind_Ok in Hi as (b & Hi & Hf). apply fail_if_Ok in Hf. destruct b; [|done].
  unfold is_initialized_account in Hi. destruct (negb _); [done|].
  destruct (take _ d !! _) as [b|] eqn:Hb; [|done]. injection Hi as Hi.
  apply negb_true_iff, bool_decide_eq_false in Hi. apply Hi.
  apply lookup_take_Some in Hb as [Hb _]. exact (proj1 (Forall_lookup _ _) Hz _ _ Hb).
Qed.

(** The account type is written after the resize and the payment. *)
Lemma regrow_keeps k n st d w w2 :
  unpack_mut PodAccount (cell_data (cell w k)) = Ok st -> (length (cell_data (cell w k)) < n)%nat ->
  token_data_kept (set_cell k (with_data (resize n x00 (cell_data (cell w k))) (cell w k)) w) w2 ->
  set_account_type PodAccount (cell_data (cell w2 k)) = Ok d ->
  keeps w (set_cell k (with_data d (cell w2 k)) w2).
Proof.
  intros Hu Hn Hk Hs. destruct (Hk k) as [H1 H2]. rewrite cell_set_cell in H1, H2.
  cbn [cell_owner cell_data with_data] in *.
  destruct (decide (cell_owner (cell w k) = id)) as [Ho|Hf].
  - destruct (H1 Ho) as [Ho2 Ed2]. pose proof Hu as (Ed & _)%unpack_mut_Ok.
    rewrite Ed in Ed2, Hn. rewrite Ed2 in Hs.
    apply set_account_type_grown in Hs as (st' & -> & Hu' & Eb & Hg); [|by rewrite <- Ed|done].
    eapply (keeps_grown n k st st'); [done..| | |by eapply kept_except_store|done|done];
      rewrite cell_set_cell; [exact Ho2|exact Hu'].
  - assert (cell_owner (cell w2 k) <> id) as Hf2.
    { intros Ho2. by eapply set_account_type_zeroes; [apply H2|]. }
    apply keeps_foreign. intros k'. destruct (decide (k' = k)) as [->|Hne].
    + rewrite cell_set_cell. by split.
    + rewrite cell_set_cell_ne by done. specialize (Hk k'). by rewrite cell_set_cell_ne in Hk.
Qed.

Lemma reallocate_for_registry_keeps ti pi si w w' :
  resize_zeroes -> system_transfer_keeps_tokens ->
  reallocate_for_configure_account_with_registry ti pi si w = Ok (tt, w') -> keeps w w'.
Proof.
  intros Hr Hs H. unfold reallocate_for_configure_account_with_registry in H. m_inv.
  match goal with H : unpack PodAccount _ = Ok _ |- _ => apply unpack_Ok in H as (st & Hu & ->) end.
  match goal with H : (if (?x <=? ?y)%nat then _ else _) _ = _ |- _ =>
    rename x into needed; destruct (Nat.leb_spec needed y) as [|Hlt]; m_inv; [apply keeps_refl|..] end;
    match goal with H : rt_resize _ _ = Ok _ |- _ => apply Hr in H as -> end;
    (eapply regrow_keeps; [done..| |eassumption]); [|done].
  match goal with H : invoke _ _ = Ok _ |- _ => apply invoke_kept in H; by eapply Hs end.
Qed.

Lemma configure_with_registry_keeps pid accounts w w' :
  resize_zeroes -> system_transfer_keeps_tokens ->
  process_configure_account_with_registry pid accounts w = Ok (tt, w') -> keeps w w'.
Proof.
  intros Hr Hs H. unfold process_configure_account_with_registry in H. m_inv.
  match goal with H : process_configure_account _ _ _ _ _ _ ?x = _,
      Hm : (match next_account_info ?l with _ => _ end) _ = _ |- _ =>
    apply configure_account_keeps in H; apply (keeps_trans _ x); [|done]; rename Hm into Hre; clear H;
    destruct (next_account_info l) as [[]| |]; m_inv; [|apply keeps_refl..] end.
  by eapply reallocate_for_registry_keeps.
Qed.

(** ** The instruction *)

(** The tokens of [m] that an instruction for confidential balances turns into
    ciphertexts: a deposit's amount, less a withdrawal's. *)
Definition confidential_credit (accounts : list AccountInfo) (input : list byte) (m : Address) : Z :=
  let at_mint := gains (default (zeroed 32) (key <$> accounts !! 1%nat)) in
  match decode_instruction_type instruction_try_from input with
  | Ok Deposit =>
      match decode_instruction_data DepositInstructionData input with
      | Ok data => at_mint (u64_get (di_amount data)) m
      | _ => 0
      end
  | Ok Withdraw =>
      match decode_instruction_data WithdrawInstructionData input with
      | Ok data => at_mint (- u64_get (wi_amount data)) m
      | _ => 0
      end
  | _ => 0
  end.

Lemma confidential_transfer_evolves pid accounts input w w' :
  resize_zeroes -> system_transfer_keeps_tokens -> hook_keeps_tokens ->
  process_instruction pid accounts input w = Ok (tt, w') -> cells_ok w ->
  evolves (fun m => - confidential_credit accounts input m) w w'.
Proof.
  intros Hr Hs Hk H Hc. unfold process_instruction in H. m_inv.
  unfold confidential_credit. match goal with H : decode_instruction_type _ _ = _ |- _ => rewrite H end.
  destruct a0; m_inv;
    repeat match goal with H : decode_instruction_data _ _ = _ |- _ => rewrite H end.
  6: { apply deposit_evolves in H as (ti & mi & rest & -> & H); [|done].
       eapply evolves_ext; [|exact H]. intros m _. unfold gains. simpl. case_bool_decide; lia. }
  6: { apply withdraw_evolves in H as (ti & mi & rest & -> & H); [|done].
       eapply evolves_ext; [|exact H]. intros m _. unfold gains. simpl. case_bool_decide; lia. }
  all: change (fun m => - 0) with (fun m : Address => 0); revert Hc; fold (keeps w w').
  - by eapply confidential_initialize_mint_keeps.
  - by eapply confidential_update_mint_keeps.
  - by eapply configure_account_keeps.
  - by eapply confidential_approve_keeps.
  - by eapply confidential_empty_keeps.
  - by eapply confidential_transfer_keeps.
  - eapply update_account_extension_keeps; [|exact H]. intros e w0 e' w1 H1. cbn beta in H1. by m_inv.
  - eapply update_account_extension_keeps; [|exact H]. intros e w0 e' w1 H1. cbn beta in H1. by m_inv.
  - eapply update_account_extension_keeps; [|exact H]. intros e w0 e' w1 H1. cbn beta in H1. by m_inv.
  - eapply update_account_extension_keeps; [|exact H]. intros e w0 e' w1 H1. cbn beta in H1. by m_inv.
  - eapply update_account_extension_keeps; [|exact H]. intros e w0 e' w1 H1. cbn beta in H1. by m_inv.
  - by eapply confidential_transfer_keeps.
  - by eapply configure_with_registry_keeps.
Qed.
End transfers.

(** ** Confidential fees *)

Section fees.
Context `{RT : Runtime} `{CV : CurveInterface} `{ZK : ZkInterface} `{ZC : !ZkContexts}.
Import confidential_transfer_fee.

(** Harvesting one source, whether it is skipped or not, and the accounts that
    are borrowed meanwhile. *)
Lemma attempt_confidential_harvest_keeps held mk info o w w' :
  transfer_fee.attempt (harvest_from_account held mk info) w = Ok (o, w') ->
  keeps w w' /\ forall k, Mut k ∈ held -> cell w' k = cell w k.
Proof.
  rewrite attempt_Ok. intros [(n & -> & H)|(-> & -> & _)]; [|split; [apply keeps_refl|done]].
  unfold harvest_from_account in H. m_inv.
  match goal with H : check_program_account _ = Ok _ |- _ => apply check_program_account_Ok in H as Ho end.
  split.
  - eapply keeps_edits; [done..|].
    by eapply (edits_put ConfidentialTransferFeeAmount); [eapply unpack_mut_initialized|..].
  - intros k Hk. apply cell_store_ne. intros E.
    match goal with H : existsb (conflicts_mut _) held = false |- _ =>
      rewrite <- not_true_iff_false in H; destruct H; apply existsb_exists end.
    exists (Mut k). split; [by apply list_elem_of_In|]. simpl. by apply bool_decide_eq_true.
Qed.

Lemma confidential_harvest_all_keeps mk s infos s' w w' :
  harvest_all mk s infos w = Ok (s', w') -> keeps w w' /\ cell w' mk = cell w mk.
Proof.
  revert s w. induction infos as [|i infos IH]; intros s w H; cbn [harvest_all] in H; m_inv;
    [by split; [apply keeps_refl|]|].
  match goal with H : transfer_fee.attempt _ _ = Ok _ |- _ =>
    apply attempt_confidential_harvest_keeps in H as [Hk Hc] end.
  specialize (Hc mk ltac:(set_solver)).
  case_match; m_inv; apply IH in H as [Hk' Hc']; (split; [by eapply keeps_trans|congruence]).
Qed.

Lemma sum_withheld_keeps mk dk d s infos d' s' w w' :
  is_initialized (base d) = true -> sum_withheld mk dk d s infos w = Ok ((d', s'), w') ->
  keeps w w' /\ cell w' dk = cell w dk /\ edits 0 d d'.
Proof.
  revert d s w. induction infos as [|i infos IH]; intros d s w Hi H; cbn [sum_withheld] in H.
  { m_inv. split; [apply keeps_refl|]. split; [done|]. split; [by split|]. split; [done|].
    split; [done|lia]. }
  destruct (bool_decide _); m_inv.
  - assert (edits 0 d (p (mk_ctfa (zeroed 64)))) as He
      by (by eapply (edits_put ConfidentialTransferFeeAmount)).
    apply IH in H as (Hk & Hc & He'); [|by eapply edits_initialized].
    do 2 (split; [done|]). by apply (edits_trans 0 0 _ _ _ He).
  - match goal with H : transfer_fee.attempt _ _ = Ok _ |- _ =>
      apply attempt_confidential_harvest_keeps in H as [Hk Hc] end.
    specialize (Hc dk ltac:(set_solver)).
    case_match; m_inv; apply IH in H as (Hk' & Hc' & He); [|done| |done];
      (split; [by eapply keeps_trans|split; [congruence|done]]).
Qed.

Lemma confidential_withdraw_from_mint_keeps pid accounts nd off w w' :
  process_withdraw_withheld_tokens_from_mint pid accounts nd off w = Ok (tt, w') -> keeps w w'.
Proof.
  intros H. unfold process_withdraw_withheld_tokens_from_mint in H. m_inv.
  eapply (keeps_edits_put _ _ ConfidentialTransferFeeConfig); [done..| |done|done|eassumption|done|done].
  by eapply (edits_put ConfidentialTransferAccount); [eapply unpack_mut_initialized|..].
Qed.

Lemma confidential_withdraw_from_accounts_keeps pid accounts n nd off w w' :
  process_withdraw_withheld_tokens_from_accounts pid accounts n nd off w = Ok (tt, w') -> keeps w w'.
Proof.
  intros H. unfold process_withdraw_withheld_tokens_from_accounts in H. m_inv.
  match goal with H : sum_withheld _ _ _ _ _ _ = Ok _ |- _ =>
    apply sum_withheld_keeps in H as (Hk & Hc & He); [|by eapply unpack_mut_initialized] end.
  eapply keeps_trans; [exact Hk|]. eapply keeps_edits; [by rewrite Hc|by rewrite Hc|].
  eapply (edits_trans 0 0); [exact He|].
  by eapply (edits_put ConfidentialTransferAccount); [eapply edits_initialized|..].
Qed.

Lemma confidential_harvest_keeps accounts w w' :
  process_harvest_withheld_tokens_to_mint accounts w = Ok (tt, w') -> keeps w w'.
Proof.
  intros H. unfold process_harvest_withheld_tokens_to_mint in H. m_inv.
  match goal with H : harvest_all _ _ _ _ = Ok _ |- _ =>
    apply confidential_harvest_all_keeps in H as [Hk Hc] end.
  eapply keeps_trans; [exact Hk|].
  by eapply (keeps_put_mint_other _ ConfidentialTransferFeeConfig); [rewrite Hc..| | |].
Qed.

Lemma confidential_transfer_fee_keeps pid accounts input w w' :
  process_instruction pid accounts input w = Ok (tt, w') -> keeps w w'.
Proof.
  intros H. unfold process_instruction in H. m_inv. destruct a0; m_inv.
  - unfold process_initialize_confidential_transfer_fee_config in H. m_inv. keeps_by_init H.
  - by eapply confidential_withdraw_from_mint_keeps.
  - by eapply confidential_withdraw_from_accounts_keeps.
  - by eapply confidential_harvest_keeps.
  - keeps_by_update H ConfidentialTransferFeeConfig.
  - keeps_by_update H ConfidentialTransferFeeConfig.
Qed.
End fees.

(** ** Confidential supply *)

Section mint_burn.
Context `{RT : Runtime} `{CV : CurveInterface} `{ZK : ZkInterface} `{ZC : !ZkContexts}.
Import confidential_mint_burn.

Lemma rotate_keeps pid accounts d w w' :
  process_rotate_supply_elgamal_pubkey pid accounts d w = Ok (tt, w') -> keeps w w'.
Proof.
  intros H. unfold process_rotate_supply_elgamal_pubkey in H. m_inv.
  by eapply (keeps_put_mint_other _ ConfidentialMintBurn).
Qed.

Lemma update_decryptable_supply_keeps pid accounts d w w' :
  process_update_decryptable_supply pid accounts d w = Ok (tt, w') -> keeps w w'.
Proof.
  intros H. unfold process_update_decryptable_supply in H. m_inv.
  by eapply (keeps_put_mint_other _ ConfidentialMintBurn).
Qed.

Lemma apply_pending_burn_keeps pid accounts w w' :
  process_apply_pending_burn pid accounts w = Ok (tt, w') -> keeps w w'.
Proof.
  intros H. unfold process_apply_pending_burn in H. m_inv.
  by eapply (keeps_put_mint_other _ ConfidentialMintBurn).
Qed.

Lemma confidential_mint_keeps pid accounts d w w' :
  process_confidential_mint pid accounts d w = Ok (tt, w') -> keeps w w'.
Proof.
  intros H. unfold process_confidential_mint in H. m_inv.
  eapply proj1, (keeps_edits_put _ _ ConfidentialMintBurn); [done..| |done|done|eassumption|done|done].
  by eapply (edits_put ConfidentialTransferAccount); [eapply unpack_mut_initialized|..].
Qed.

Lemma confidential_burn_keeps pid accounts d bv w w' :
  process_confidential_burn pid accounts d bv w = Ok (tt, w') -> keeps w w'.
Proof.
  intros H. unfold process_confidential_burn in H. m_inv.
  eapply proj1, (keeps_edits_put _ _ ConfidentialMintBurn); [done..| |done|done|eassumption|done|done].
  by eapply (edits_put ConfidentialTransferAccount); [eapply unpack_mut_initialized|..].
Qed.

Lemma confidential_mint_burn_keeps pid accounts input w w' :
  process_instruction pid accounts input w = Ok (tt, w') -> keeps w w'.
Proof.
  intros H. unfold process_instruction in H. m_inv. destruct a0; m_inv.
  - unfold process_initialize_mint in H. m_inv. keeps_by_init H.
  - by eapply rotate_keeps.
  - by eapply update_decryptable_supply_keeps.
  - by eapply confidential_mint_keeps.
  - by eapply confidential_burn_keeps.
  - by eapply apply_pending_burn_keeps.
Qed.
End mint_burn.
