(* ===== verification/ConfidentialTheory.v ===== *)
(** * What the confidential instructions do to plaintexts

    Under the secret scalar of its key, a confidential account stands for two
    points, its available and its pending balance ([opens]).  The instructions
    move amounts between these and the balance of the account; the specification
    is arithmetic on the plaintexts, and says nothing of randomness. *)
From S2P Require Import Prelude Bytes Errors Ids Runtime Pod ExtensionState Extension TlvTheory.
From S2P Require Import ViewTheory AccountLen CiphertextArithmetic CiphertextTheory ProofExtraction.
From S2P Require Import MonadTheory Ownership Ledger TransferTheory PodInstruction.
From S2P Require Import InitializeTheory FeesTheory ConfidentialTransfer ConfidentialTransferFee.
From S2P Require Import ConfidentialMintBurn ConfidentialPure.
Import confidential_transfer.

(** ** Accounts in the store *)

(** The account at [k] has the fields [b] and the confidential state [e]. *)
Definition confidential_account (w : World) (k : Address) (b : PodAccount)
    (e : ConfidentialTransferAccount) : Prop :=
  exists st, token_account w k st /\ base st = b /\ get_extension ConfidentialTransferAccount st = Ok e.

(** The other accounts are as before. *)
Definition only_at (k : Address) (w w' : World) : Prop := forall k', k' <> k -> cell w' k' = cell w k'.

(** The account at [k] is rewritten under the same key. *)
Definition rewrites (k : Address) (w w' : World) (b b' : PodAccount)
    (e e' : ConfidentialTransferAccount) : Prop :=
  confidential_account w k b e /\ confidential_account w' k b' e' /\ only_at k w w' /\
  cta_elgamal_pubkey e' = cta_elgamal_pubkey e.

Lemma confidential_account_ne k k' {S} `{Pod S} (st : PodStateMut S) w b e :
  k' <> k -> confidential_account w k b e -> confidential_account (store k' st w) k b e.
Proof.
  intros Hne (a & [Ho Hu] & Hb & Hc). exists a. split; [|done]. split; rewrite cell_store_ne; done.
Qed.

(** The view [st'] may be stored where [st] was, with [b'] and [e']. *)
Definition becomes (st st' : PodStateMut PodAccount) (b' : PodAccount)
    (e' : ConfidentialTransferAccount) : Prop :=
  replaces st st' /\ base st' = b' /\ get_extension ConfidentialTransferAccount st' = Ok e'.

Lemma becomes_put d st b e put e' :
  unpack_mut PodAccount d = Ok st -> state b = state (base st) ->
  get_extension_mut ConfidentialTransferAccount (with_base b st) = Ok (e, put) ->
  get_extension ConfidentialTransferAccount st = Ok e /\ becomes st (put e') b e'.
Proof.
  intros Hu Hb Hg. pose proof (get_put_mut _ _ _ _ e' Hg) as He'.
  pose proof (put_mut_same_shape _ _ _ _ e' Hg) as Hs.
  apply get_extension_mut_place in Hg as [He _]. split; [done|]. split; [|by split; [apply Hs|]].
  eapply replaces_same_shape; [|exact Hs]. by eapply replaces_account.
Qed.

Lemma with_base_id (st : PodStateMut PodAccount) : with_base (base st) st = st.
Proof. by destruct st. Qed.

Lemma becomes_put_same d st e put e' :
  unpack_mut PodAccount d = Ok st ->
  get_extension_mut ConfidentialTransferAccount st = Ok (e, put) ->
  get_extension ConfidentialTransferAccount st = Ok e /\ becomes st (put e') (base st) e'.
Proof. intros Hu. rewrite <- (with_base_id st) at 1. by apply (becomes_put d). Qed.

Lemma becomes_base st st' b b' e :
  becomes st st' b e -> state b' = state b -> becomes st (with_base b' st') b' e.
Proof.
  intros ((Hi & Hr) & <- & He) Eb. split; [|done]. split; [|done].
  change (account_is_initialized b' = true). unfold account_is_initialized. by rewrite Eb.
Qed.

Lemma becomes_other V `{Pod V, Extension V} st st' b e v put v' :
  becomes st st' b e -> get_extension_mut V st' = Ok (v, put) ->
  TYPE V <> ExtensionType.ConfidentialTransferAccount -> becomes st (put v') b e.
Proof.
  intros (Hr & <- & He) Hg Hne. pose proof (put_mut_same_shape _ _ _ _ v' Hg) as Hs.
  split; [by eapply replaces_same_shape|]. split; [apply Hs|].
  rewrite <- He. eapply get_put_mut_other; [exact Hg|]. by intros E.
Qed.

Lemma rewrites_store k st st' b' e e' w :
  cell_owner (cell w k) = id -> unpack_mut PodAccount (cell_data (cell w k)) = Ok st ->
  get_extension ConfidentialTransferAccount st = Ok e -> becomes st st' b' e' ->
  cta_elgamal_pubkey e' = cta_elgamal_pubkey e ->
  rewrites k w (store k st' w) (base st) b' e e'.
Proof.
  intros Ho Hu He (Hr & <- & He') Ek. split; [by exists st|]. split; [|split; [|done]].
  - exists st'. split; [|done]. split; [by rewrite owner_store|]. rewrite data_store.
    by eapply replaces_unpack.
  - intros k' Hne. by apply cell_store_ne.
Qed.

Section theory.
Context {E : Type} `{RT : Runtime} `{CV : CurveInterface} `{ZK : ZkInterface} `{ZC : !ZkContexts}.
Context `{PG : !PointGroup E} `{CL : !CurveLaws E}.

(** ** Plaintexts *)

(** The available and the pending balance under the secret scalar [s]. *)
Definition opens (s : Z) (e : ConfidentialTransferAccount) : option (E * E) :=
  a ← decrypt s (cta_available_balance e);
  l ← decrypt s (cta_pending_balance_lo e);
  h ← decrypt s (cta_pending_balance_hi e);
  mret (a, lo_hi l h).

(** [y] leaves the available balance, whatever the secret of the account's key. *)
Definition spends (y : E) (e e' : ConfidentialTransferAccount) : Prop :=
  forall s x p, keypair s (cta_elgamal_pubkey e) -> opens s e = Some (x, p) ->
    opens s e' = Some (x - y, p)%point.

(** [y] is added to the pending balance. *)
Definition receives (y : E) (e e' : ConfidentialTransferAccount) : Prop :=
  forall s x p, keypair s (cta_elgamal_pubkey e) -> opens s e = Some (x, p) ->
    opens s e' = Some (x, p + y)%point.

Lemma lo_hi_plus a b c d : (lo_hi (a + c) (b + d) = lo_hi a b + lo_hi c d)%point.
Proof. unfold lo_hi. by rewrite pscale_plus_r, pplus_swap. Qed.

Lemma lo_hi_minus a b c d : (lo_hi (a - c) (b - d) = lo_hi a b - lo_hi c d)%point.
Proof. unfold lo_hi. by rewrite pscale_plus_r, pscale_opp, popp_plus, pplus_swap. Qed.

(** The 16 low bits and the rest make up the amount. *)
Lemma amount_lo_hi n :
  lo_hi (amount_point (Z.land n u16_max)) (amount_point (Z.shiftr n 16)) = amount_point n.
Proof.
  unfold lo_hi, amount_point. rewrite pscale_mul, <- pscale_plus_l. f_equal.
  change u16_max with (Z.ones 16). rewrite Z.land_ones, Z.shiftr_div_pow2 by done.
  pose proof (Z.div_mod n (2 ^ 16) ltac:(done)). lia.
Qed.

Lemma offset_credit s pk a n c : is_u64 n -> keypair s pk ->
  ciphertext_arithmetic.add_to_with_offset pk a n = Some c ->
  (y ← decrypt s a; mret (y + amount_point n)%point) = decrypt s c.
Proof. intros Hn Hk Hc. rewrite <- (add_to_with_offset_decrypt s pk) by done. by rewrite Hc. Qed.

Lemma bind_decrypt s (o : option PodElGamalCiphertext) c (x : option E) :
  o = Some c -> o ≫= decrypt s = x -> decrypt s c = x.
Proof. by intros ->. Qed.

(** ** Deposits *)

Lemma pending_credit s e (lo hi : E) lo' hi' (x p q : E) :
  opens s e = Some (x, p) ->
  (y ← decrypt s (cta_pending_balance_lo e); mret (y + lo)%point) = decrypt s lo' ->
  (y ← decrypt s (cta_pending_balance_hi e); mret (y + hi)%point) = decrypt s hi' ->
  q = (p + lo_hi lo hi)%point -> opens s (cta_set_pending lo' hi' e) = Some (x, q).
Proof.
  unfold opens. intros Ho El Eh ->. cbn [cta_set_pending cta_available_balance cta_pending_balance_lo
    cta_pending_balance_hi]. rewrite <- El, <- Eh. revert Ho.
  destruct (decrypt s (cta_available_balance e)), (decrypt s (cta_pending_balance_lo e)),
    (decrypt s (cta_pending_balance_hi e)); [|done..].
  cbn. intros [= <- <-]. by rewrite lo_hi_plus.
Qed.

(** The counter does not matter for the balances. *)
Lemma increment_counter_Ok e e' :
  cta_increment_pending_balance_credit_counter e = Ok e' ->
  (forall s, opens s e' = (opens s e : option (E * E))) /\ cta_elgamal_pubkey e' = cta_elgamal_pubkey e /\
  u64_get (cta_pending_balance_credit_counter e') = u64_get (cta_pending_balance_credit_counter e) + 1.
Proof.
  unfold cta_increment_pending_balance_credit_counter. intros H. m_inv.
  split; [done|]. split; [done|]. cbn [cta_pending_balance_credit_counter]. by rewrite u64_get_new.
Qed.

Lemma split_deposit_Ok n lo hi :
  verify_and_split_deposit_amount n = Ok (lo, hi) -> is_u64 n ->
  n <= MAXIMUM_DEPOSIT_TRANSFER_AMOUNT /\ lo = Z.land n u16_max /\ hi = Z.shiftr n 16 /\
  is_u64 lo /\ is_u64 hi.
Proof.
  unfold verify_and_split_deposit_amount. destruct (Z.ltb_spec MAXIMUM_DEPOSIT_TRANSFER_AMOUNT n); [done|].
  intros [= <- <-] Hn. do 3 (split; [done|]). change u16_max with (Z.ones 16).
  rewrite Z.land_ones, Z.shiftr_div_pow2 by done. unfold is_u64, u64_max in *.
  pose proof (Z.mod_pos_bound n (2 ^ 16) ltac:(done)). change (2 ^ 16) with 65536 in *.
  split; [lia|]. split; [apply Z.div_pos; lia|]. apply Z.div_le_upper_bound; lia.
Qed.

(** C7: a deposit moves tokens of the account's balance into its pending balance:
    with the approval of the owner, of an approved account that is neither
    frozen nor native and accepts confidential credits, of a mint that is not
    paused and has no confidential supply, the balance decreases by the amount,
    and whatever the secret of the account's key decrypted the pending balance
    to before, it decrypts it afterwards to that plus the amount: the 16 low
    bits and the rest, added to the two ciphertexts, are the amount.  The
    available balance is kept, the number of credits grows by one, and no other
    account changes. *)
Theorem process_deposit_spec pid accounts n d w w' :
  is_u64 n -> process_deposit pid accounts n d w = Ok (tt, w') ->
  exists ti mi ai signers mt a e e',
    accounts = ti :: mi :: ai :: signers /\
    cell_owner (cell w (key mi)) = id /\ unpack PodMint (cell_data (cell w (key mi))) = Ok mt /\
    mint_paused mt = false /\ decimals (state_base mt) = d /\
    has_extension ConfidentialMintBurn mt = false /\
    mint a = key mi /\ is_frozen a = false /\ is_native a = false /\
    authorizes pid (owner a) ai (length (cell_data (cell w (key ai)))) signers w /\
    cta_valid_as_destination e = Ok tt /\
    n <= u64_get (amount a) /\ n <= MAXIMUM_DEPOSIT_TRANSFER_AMOUNT /\
    rewrites (key ti) w w' a (set_amount (u64_get (amount a) - n) a) e e' /\
    u64_get (cta_pending_balance_credit_counter e') =
      u64_get (cta_pending_balance_credit_counter e) + 1 /\
    receives (amount_point n) e e'.
Proof.
  intros Hn H. unfold process_deposit in H. m_inv.
  match goal with Hs : verify_and_split_deposit_amount _ = _ |- _ =>
    apply split_deposit_Ok in Hs as (Hmax & -> & -> & Hlo & Hhi); [|done] end.
  match goal with Hu : unpack_mut PodAccount _ = Ok ?x, Hg : get_extension_mut _ _ = Ok (?c, _),
      Hc : cta_increment_pending_balance_credit_counter _ = Ok ?c',
      Hm : unpack PodMint _ = Ok ?m |- _ =>
    exists a, a0, a1, l1, m, (base x), c, c';
    eapply (becomes_put _ x _ _ _ c') in Hg as [Hg Hb]; [|done..];
    apply increment_counter_Ok in Hc as (Ho & Ek & En) end.
  split_and!; try done; [lia|by eapply rewrites_store|].
  intros s x p' Hk Hop. rewrite Ho. eapply pending_credit; [exact Hop|..].
  - eapply offset_credit; [exact Hlo|done..].
  - eapply offset_credit; [exact Hhi|done..].
  - by rewrite amount_lo_hi.
Qed.

(** ** Withdrawals *)

(** A new available balance. *)
Lemma available_change s e a' (x x' p : E) :
  opens s e = Some (x, p) -> (decrypt s (cta_available_balance e) = Some x -> decrypt s a' = Some x') ->
  opens s (cta_set_available a' e) = Some (x', p).
Proof.
  unfold opens. intros Ho Ha. cbn [cta_set_available cta_available_balance cta_pending_balance_lo
    cta_pending_balance_hi]. revert Ho Ha.
  destruct (decrypt s (cta_available_balance e)), (decrypt s (cta_pending_balance_lo e)),
    (decrypt s (cta_pending_balance_hi e)); try done.
  cbn. intros [= <- <-] Ha. by rewrite Ha.
Qed.

Lemma available_minus a n r w w' : is_u64 n ->
  (if 0 <? n then arithmetic_ok (ciphertext_arithmetic.subtract_from a n) else mret a) w =
    Ok (r, w') ->
  w' = w /\ forall s (x : E), decrypt s a = Some x -> decrypt s r = Some (x - amount_point n)%point.
Proof.
  intros Hn. destruct (Z.ltb_spec 0 n).
  - intros H1. m_inv. split; [done|]. intros s x Hx. pose proof (subtract_from_decrypt s a n Hn) as Hs.
    match goal with H : ciphertext_arithmetic.subtract_from _ _ = _ |- _ => rewrite H in Hs end.
    by rewrite Hx in Hs.
  - intros H1. m_inv. split; [done|]. intros s x Hx. assert (n = 0) as -> by (destruct Hn; lia).
    rewrite Hx. unfold amount_point. by rewrite pscale_0_l, popp_0, pplus_0_r.
Qed.

(** C8: a withdrawal moves tokens of the available balance into the account's
    balance: of an approved account that is neither frozen nor native, with the
    approval of its owner, of a mint that is not paused and has no confidential
    supply, and with a proof for the account's key and for exactly the remaining
    ciphertext, the balance increases by the amount, without overflow, and
    whatever the secret of the key decrypted the available balance to before, it
    decrypts it afterwards to that minus the amount; the pending balance is kept, and no
    other account changes. *)
Theorem process_withdraw_spec pid accounts n d nb i j w w' :
  is_u64 n -> process_withdraw pid accounts n d nb i j w = Ok (tt, w') ->
  exists ti mi iter ctx ai signers mt a e e',
    accounts = ti :: mi :: iter /\
    verify_withdraw_proof [] iter i j w = Ok ((ctx, ai :: signers), w) /\
    cell_owner (cell w (key mi)) = id /\ unpack PodMint (cell_data (cell w (key mi))) = Ok mt /\
    mint_paused mt = false /\ decimals (state_base mt) = d /\
    has_extension ConfidentialMintBurn mt = false /\
    mint a = key mi /\ is_frozen a = false /\ is_native a = false /\
    authorizes pid (owner a) ai (length (cell_data (cell w (key ai)))) signers w /\
    cta_valid_as_source e = Ok tt /\
    wp_source_pubkey ctx = cta_elgamal_pubkey e /\
    wp_remaining_balance_ciphertext ctx = cta_available_balance e' /\
    u64_get (amount a) + n <= u64_max /\
    rewrites (key ti) w w' a (set_amount (u64_get (amount a) + n) a) e e' /\
    spends (amount_point n) e e'.
Proof.
  intros Hn H. unfold process_withdraw in H. m_inv.
  match goal with Hu : unpack_mut PodAccount _ = Ok ?x, Hg : get_extension_mut _ _ = Ok (?c, ?p),
      Hm : unpack PodMint _ = Ok ?m, Hp : verify_withdraw_proof _ _ _ _ _ = Ok ((?ctx, _), _),
      Hs : (if _ then _ else _) _ = Ok (?r, _) |- _ =>
    apply available_minus in Hs as [-> Hs]; [|done];
    destruct (becomes_put_same _ x c p (cta_set_decryptable nb (cta_set_available r c)) Hu Hg) as [He Hb];
    pose proof (proj1 (proj2 Hb)) as Eb; rewrite Eb in *;
    exists a, a0, l0, ctx, a1, l2, m, (base x), c, (cta_set_decryptable nb (cta_set_available r c)) end.
  split_and!; try done; [lia|eapply rewrites_store; [done..|by eapply becomes_base|done]|].
  intros s x q _ Hop. eapply (available_change s); [exact Hop|auto].
Qed.
(** ** Applying the pending balance *)

Lemma pending_to_available e a : 
  ciphertext_arithmetic.add_with_lo_hi (cta_available_balance e) (cta_pending_balance_lo e)
    (cta_pending_balance_hi e) = Some a ->
  forall s (x p : E), opens s e = Some (x, p) -> decrypt s a = Some (x + p)%point.
Proof.
  intros Ha s x p. rewrite (bind_decrypt s _ _ _ Ha (add_with_lo_hi_decrypt s _ _ _)). unfold opens.
  destruct (decrypt s (cta_available_balance e)), (decrypt s (cta_pending_balance_lo e)),
    (decrypt s (cta_pending_balance_hi e)); try done. cbn. by intros [= <- <-].
Qed.

(** The account after its pending balance was applied. *)
Lemma applied_opens e a pending expected actual decryptable :
  ciphertext_arithmetic.add_with_lo_hi (cta_available_balance e) (cta_pending_balance_lo e)
    (cta_pending_balance_hi e) = Some a ->
  forall s (x p : E), opens s e = Some (x, p) ->
    opens s (cta_set_pending (zeroed 64) (zeroed 64) (cta_set_counters pending expected actual
      (cta_set_decryptable decryptable (cta_set_available a e)))) = Some (x + p, pzero)%point.
Proof.
  intros Ha s x p Hop. unfold opens. cbn [cta_set_pending cta_set_counters cta_set_decryptable
    cta_set_available cta_available_balance cta_pending_balance_lo cta_pending_balance_hi].
  rewrite (pending_to_available _ _ Ha _ _ _ Hop), zeroed_decrypt. cbn. unfold lo_hi.
  by rewrite pscale_0_r, pplus_0_r.
Qed.

(** C12: applying the pending balance makes it available: with the approval of
    the owner of an account that is not frozen, whatever the secret decrypts the
    two balances to, the new available balance decrypts to their sum and the new
    pending balance to nothing; the counter of credits is reset, and the number
    of credits and the number the owner expected are recorded.  The balance of
    the account is kept, and no other account changes. *)
Theorem process_apply_pending_balance_spec pid accounts data w w' :
  process_apply_pending_balance pid accounts data w = Ok (tt, w') ->
  exists ti ai signers b e e',
    accounts = ti :: ai :: signers /\
    authorizes pid (owner b) ai (length (cell_data (cell w (key ai)))) signers w /\
    is_frozen b = false /\
    rewrites (key ti) w w' b b e e' /\
    (forall s (x p : E), opens s e = Some (x, p) -> opens s e' = Some (x + p, pzero)%point) /\
    u64_get (cta_pending_balance_credit_counter e') = 0 /\
    cta_actual_pending_balance_credit_counter e' = cta_pending_balance_credit_counter e /\
    cta_expected_pending_balance_credit_counter e' =
      ap_expected_pending_balance_credit_counter data /\
    cta_decryptable_available_balance e' = ap_new_decryptable_available_balance data.
Proof.
  unfold process_apply_pending_balance, update_account_extension. intros H. m_inv.
  match goal with Hu : unpack_mut PodAccount _ = Ok ?x, Hg : get_extension_mut _ _ = Ok (?c, ?p)
    |- context [store _ (?p ?c')] =>
    destruct (becomes_put_same _ x c p c' Hu Hg) as [He Hb];
    exists a, a0, l0, (base x), c, c' end.
  split_and!; try done; [by eapply rewrites_store|].
  intros s x p'. by apply applied_opens.
Qed.
Lemma add_pending_exists s e (x p : E) :
  opens s e = Some (x, p) ->
  exists a, ciphertext_arithmetic.add_with_lo_hi (cta_available_balance e)
    (cta_pending_balance_lo e) (cta_pending_balance_hi e) = Some a.
Proof.
  intros Ho. pose proof (add_with_lo_hi_decrypt s (cta_available_balance e)
    (cta_pending_balance_lo e) (cta_pending_balance_hi e)) as Hd. revert Ho Hd. unfold opens.
  destruct (decrypt s (cta_available_balance e)), (decrypt s (cta_pending_balance_lo e)),
    (decrypt s (cta_pending_balance_hi e)); try done.
  destruct (ciphertext_arithmetic.add_with_lo_hi _ _ _) as [a|]; [by exists a|done].
Qed.

(** The owner can always make a pending balance available: for an account
    of the program that is not frozen and whose ciphertexts are well formed, and
    with the approval of its owner, applying the pending balance succeeds,
    whatever credits arrived in the meantime and without any proof, and the
    available balance afterwards stands for all that the account had. *)
Lemma process_apply_pending_balance_enabled pid ti ai signers data w st e s (x p : E) :
  token_account w (key ti) st -> is_frozen (base st) = false ->
  get_extension ConfidentialTransferAccount st = Ok e -> opens s e = Some (x, p) ->
  authorizes pid (owner (base st)) ai (length (cell_data (cell w (key ai)))) signers w ->
  key ai <> key ti ->
  exists w' e',
    process_apply_pending_balance pid (ti :: ai :: signers) data w = Ok (tt, w') /\
    confidential_account w' (key ti) (base st) e' /\ opens s e' = Some (x + p, pzero)%point /\
    cta_elgamal_pubkey e' = cta_elgamal_pubkey e /\
    cta_decryptable_available_balance e' = ap_new_decryptable_available_balance data.
Proof.
  intros [Ho Hu] Hf He Hop Ha Hne.
  destruct (get_extension_mut_exists _ _ _ He) as [put Hg].
  destruct (add_pending_exists s e x p Hop) as [a Hadd].
  set (e' := cta_set_pending (zeroed 64) (zeroed 64)
        (cta_set_counters (u64_new 0) (ap_expected_pending_balance_credit_counter data)
           (cta_pending_balance_credit_counter e)
        (cta_set_decryptable (ap_new_decryptable_available_balance data) (cta_set_available a e)))).
  exists (store (key ti) (put e') w), e'. split.
  - unfold process_apply_pending_balance, update_account_extension.
    do 2 (eapply M_bind_step; [by apply lift_Ok|]; cbn beta iota).
    eapply M_bind_step; [by apply data_len_Ok|]; cbn beta iota.
    eapply M_bind_step; [by apply check_owner_own|]; cbn beta iota.
    eapply M_bind_step; [by apply borrow_mut_Ok|]; cbn beta iota.
    eapply M_bind_step; [by apply lift_Ok|]; cbn beta iota.
    eapply M_bind_step; [apply validate_owner_approved; [exact Ha|]|]; cbn beta iota.
    { cbn. by rewrite bool_decide_false. }
    eapply M_bind_step; [apply lift_Ok; split; [by rewrite Hf|done]|]; cbn beta iota.
    eapply M_bind_step; [by apply lift_Ok|]; cbn beta iota.
    eapply M_bind_step; [|by apply write_repack_Ok].
    eapply M_bind_step; [unfold arithmetic_ok; apply lift_Ok; by rewrite Hadd|]. done.
  - destruct (becomes_put_same _ st e put e' Hu Hg) as [_ Hb].
    destruct (rewrites_store (key ti) st _ _ e e' w Ho Hu He Hb eq_refl) as (_ & H2 & _).
    split; [done|]. split; [by eapply applied_opens|done].
Qed.
End theory.

(** ** Configuring confidential accounts

    A new confidential account is empty under every secret, and its key is one
    that was proved valid with the approval of the account's owner, or the one
    that the owner registered. *)
Import confidential_transfer.

(** An extension is only initialised once. *)
Lemma init_extension_fresh {S} `{BaseState S} V `{Pod V, Extension V} (st : PodStateMut S) v put x :
  init_extension V false st = Ok (v, put) -> get_extension V st <> Ok x.
Proof.
  unfold init_extension. intros Hi. apply bind_Ok in Hi as ([st' idx] & Ha & _).
  apply alloc_place in Ha as (es & old & tail & (Hty & Hes & Hne & _ & _ & Ht & _) & [Hz|[? _]]); [|done].
  rewrite get_extension_Ok. change (get_tlv_data st) with (tlv_data st). rewrite Ht.
  rewrite get_extension_bytes_entries by done. intros Hb. by apply get_extension_bytes_end in Hb.
Qed.

Section theory.
Context {E : Type} `{RT : Runtime} `{CV : CurveInterface} `{ZK : ZkInterface} `{ZC : !ZkContexts}.
Context `{PG : !PointGroup E} `{CL : !CurveLaws E}.

(** The key comes from a proof, with the owner's approval, or from the owner's registry. *)
Definition key_source (pid : Address) (held : list Borrow) (src : ElGamalPubkeySource)
    (iter : list AccountInfo) (owner : Address) (pk : PodElGamalPubkey) (w : World) : Prop :=
  match src with
  | ProofInstructionOffset off =>
      exists ai signers,
        verify_and_extract_context PubkeyValidityProofContext ProofType.PubkeyValidity held iter off
          None w = Ok ((mk_pubkey_validity pk, ai :: signers), w) /\
        authorizes pid owner ai (length (cell_data (cell w (key ai)))) signers w
  | Registry reg => pk = er_elgamal_pubkey reg /\ er_owner reg = owner
  end.

Lemma configured_opens s b pk z n :
  opens s (configured_account b pk z n) = Some (pzero, pzero).
Proof.
  unfold opens, configured_account. cbn [cta_available_balance cta_pending_balance_lo cta_pending_balance_hi].
  rewrite zeroed_decrypt. cbn [mbind option_bind]. unfold lo_hi. by rewrite pscale_0_r, pplus_0_r.
Qed.

Lemma key_source_Ok pid held k src iter owner rest pk w w1 w2 :
  match src with
  | ProofInstructionOffset offset =>
      '(proof_context, iter) ← verify_and_extract_context PubkeyValidityProofContext
        ProofType.PubkeyValidity held iter offset None;
      mret (pv_pubkey proof_context, iter)
  | Registry reg => '(_, iter) ← lift (next_account_info iter); mret (er_elgamal_pubkey reg, iter)
  end w = Ok ((pk, rest), w1) ->
  match src with
  | ProofInstructionOffset _ =>
      '(ai, signers) ← lift (next_account_info rest);
      len ← data_len (Mut k :: held) ai;
      validate_owner (Mut k :: held) pid owner ai len signers
  | Registry reg => bail_if (negb (bool_decide (er_owner reg = owner))) TokenError.OwnerMismatch
  end w1 = Ok (tt, w2) ->
  w1 = w /\ w2 = w /\ key_source pid held src iter owner pk w.
Proof.
  destruct src as [off|reg]; intros H1 H2; m_inv; [|by split_and!].
  split_and!; [done..|]. cbn [key_source]. eexists _, _. split; [|done].
  by match goal with c : PubkeyValidityProofContext |- _ => destruct c end.
Qed.

Lemma configured_view (st : PodStateMut PodAccount) v put e b st' w w' :
  init_extension ConfidentialTransferAccount false st = Ok (v, put) ->
  (if (b : bool) then
     '(_, put) ← lift (init_extension ConfidentialTransferFeeAmount false (put e));
     mret (put (mk_ctfa (zeroed 64)))
   else mret (put e)) w = Ok (st', w') ->
  w' = w /\ same_shape st st' /\ get_extension ConfidentialTransferAccount st' = Ok e /\
  (b = true -> get_extension ConfidentialTransferFeeAmount st' = Ok (mk_ctfa (zeroed 64))).
Proof.
  intros Hi H. assert (same_shape st (put e)) as Hs by (by eapply put_init_same_shape).
  assert (get_extension ConfidentialTransferAccount (put e) = Ok e) as Hg by (by eapply get_put_init).
  destruct b; m_inv; [|by split_and!]. split; [done|]. split; [|split].
  - eapply same_shape_trans; [exact Hs|]. by eapply put_init_same_shape.
  - by eapply get_put_init_other.
  - intros _. by eapply get_put_init.
Qed.

Theorem process_configure_account_spec held pid accounts z n src w w' :
  process_configure_account held pid accounts z n src w = Ok (tt, w') ->
  exists ti mi iter mt cm st st' pk,
    accounts = ti :: mi :: iter /\
    cell_owner (cell w (key mi)) = id /\ unpack PodMint (cell_data (cell w (key mi))) = Ok mt /\
    get_extension ConfidentialTransferMint mt = Ok cm /\
    token_account w (key ti) st /\ mint (base st) = key mi /\
    (forall e, get_extension ConfidentialTransferAccount st <> Ok e) /\
    key_source pid held src iter (owner (base st)) pk w /\
    w' = store (key ti) st' w /\ token_account w' (key ti) st' /\ base st' = base st /\
    get_extension ConfidentialTransferAccount st' =
      Ok (configured_account (ctm_auto_approve_new_accounts cm) pk z n) /\
    (has_extension TransferFeeConfig mt = true ->
     get_extension ConfidentialTransferFeeAmount st' = Ok (mk_ctfa (zeroed 64))) /\
    (forall s b, opens s (configured_account b pk z n) = Some (pzero, pzero)).
Proof.
  intros H. unfold process_configure_account in H. m_inv.
  match goal with H1 : (match src with _ => _ end) w = _, H2 : (match src with _ => _ end) _ = _ |- _ =>
    destruct (key_source_Ok _ _ _ _ _ _ _ _ _ _ _ H1 H2) as (-> & -> & Hsrc); clear H1 H2 end.
  match goal with Hi : init_extension ConfidentialTransferAccount false _ = _,
      Hf : (if has_extension _ _ then _ else _) _ = _ |- _ =>
    apply (configured_view _ _ _ _ _ _ _ _ Hi) in Hf as (-> & Hs & Hg & Hf) end.
  do 8 eexists. split; [reflexivity|]. do 3 (split; [eassumption|]).
  split; [by split; eassumption|]. split; [done|].
  split; [intros e; by eapply init_extension_fresh|]. split; [exact Hsrc|]. split; [reflexivity|].
  split; [|split; [apply Hs|split; [exact Hg|split; [done|intros; apply configured_opens]]]].
  split; [by rewrite owner_store|]. rewrite data_store. eapply replaces_unpack; [eassumption|].
  by eapply same_shape_replaces.
Qed.

(** An account configured from a registry has the key that the account's owner
    registered. *)
Theorem process_configure_account_with_registry_spec pid accounts w w' :
  process_configure_account_with_registry pid accounts w = Ok (tt, w') ->
  exists ti mi ri iter reg st e,
    accounts = ti :: mi :: ri :: iter /\ cell_owner (cell w (key ri)) = elgamal_registry.id /\
    cell_data (cell w' (key ri)) = to_bytes reg /\ token_account w' (key ti) st /\
    owner (base st) = er_owner reg /\ get_extension ConfidentialTransferAccount st = Ok e /\
    cta_elgamal_pubkey e = er_elgamal_pubkey reg /\ (forall s, opens s e = Some (pzero, pzero)).
Proof.
  intros H. unfold process_configure_account_with_registry, check_elgamal_registry_program_account in H. m_inv.
  match goal with H : process_configure_account _ _ _ _ _ _ _ = _ |- _ =>
    apply process_configure_account_spec in H
      as (ti & mi & iter & mt & cm & st & st' & pk & Ea & _ & _ & _ & [_ Hu] & _ & _ & [-> Hreg] & -> &
          Ht & Eb & Hg & _ & Hz) end.
  injection Ea as <- <- <-.
  match goal with Hd : cell_data (cell _ (key ?r)) = to_bytes _ |- _ =>
    assert (key r <> key a) as Hne end.
  { intros Ek. rewrite Ek in *. apply unpack_mut_Ok in Hu as (Ed & _ & _).
    apply (f_equal length) in Ed.
    match goal with Hd : cell_data _ = to_bytes _ |- _ => rewrite Hd, length_to_bytes in Ed end.
    rewrite length_repack in Ed. change (size_of PodAccount) with 165%nat in Ed.
    change (size_of ElGamalRegistry) with 64%nat in Ed. lia. }
  do 7 eexists. split; [reflexivity|]. split; [eassumption|].
  split; [rewrite cell_store_ne by done; eassumption|]. split; [exact Ht|].
  split; [by rewrite Eb|]. split; [exact Hg|]. split; [done|]. intros s. apply Hz.
Qed.
End theory.
