(* ===== verification/ConfidentialTransferTheory.v ===== *)
(** * What a confidential transfer moves

    With the statements of the proofs, one amount leaves the available balance
    of the source and, less the fee, enters the pending balance of the
    destination; the fee is withheld under the key of the withdraw authority,
    and the auditor can read the amount. *)
From S2P Require Import Prelude Bytes Errors Ids Runtime Pod ExtensionState CiphertextArithmetic.
From S2P Require Import CiphertextTheory ProofExtraction Extension TlvTheory ViewTheory AccountLen.
From S2P Require Import MonadTheory Ownership Ledger TransferFee TransferTheory FeesTheory PodInstruction.
From S2P Require Import Initialize VariableLen ConfidentialTransfer ConfidentialTransferFee.
From S2P Require Import ConfidentialMintBurn ConfidentialPure ConfidentialTheory.
Import confidential_transfer transfer_with_fee.

Section theory.
Context {E : Type} `{RT : Runtime} `{CV : CurveInterface} `{ZK : ZkInterface} `{ZC : !ZkContexts}.
Context `{PG : !PointGroup E} `{CL : !CurveLaws E}.

(** ** The source *)

Lemma spend_available e l h a : 
  ciphertext_arithmetic.subtract_with_lo_hi (cta_available_balance e) l h = Some a ->
  forall s (x p y : E) b c, opens s e = Some (x, p) -> decrypt s l = Some b -> decrypt s h = Some c ->
    lo_hi b c = y -> opens s (cta_set_available a e) = Some (x - y, p)%point.
Proof.
  intros Ha s x p y b c Ho Hl Hh <-. eapply available_change; [exact Ho|]. intros Hx.
  by rewrite (bind_decrypt s _ _ _ Ha (subtract_with_lo_hi_decrypt s _ _ _)), Hx, Hl, Hh.
Qed.

(** The source spends the amount that is encrypted for its key. *)
Lemma process_source_Ok held pid si mi ai signers pk lo hi new nd w w' :
  process_source held pid si mi ai signers pk lo hi new nd w = Ok (tt, w') ->
  exists b e e',
    rewrites (key si) w w' b b e e' /\ mint b = key mi /\ is_frozen b = false /\
    cta_valid_as_source e = Ok tt /\ pk = cta_elgamal_pubkey e /\ cta_available_balance e' = new /\
    authorizes pid (owner b) ai (length (cell_data (cell w (key ai)))) signers w /\
    forall (y : E) pks, pks !! 0%nat = Some pk ->
      amount_for g3_try_extract_ciphertext pks y lo hi -> spends y e e'.
Proof.
  unfold process_source. intros H. m_inv.
  match goal with Hu : unpack_mut PodAccount _ = Ok ?x, Hg : get_extension_mut _ _ = Ok (?c, ?p)
    |- context [store _ (?p ?c')] =>
    destruct (becomes_put_same _ x c p c' Hu Hg) as [He Hb]; exists (base x), c, c' end.
  split_and!; try done; [by eapply rewrites_store|].
  subst pk. intros y pks Hpk Hy s x q Hk Hop. edestruct (Hy s 0%nat) as (u & v & Hl & Hh & Euv);
    [exact Hk|exact Hpk|eassumption..|].
  by eapply (spend_available c).
Qed.

(** ** The destination *)

Lemma receive_pending e l h lo hi e' :
  ciphertext_arithmetic.add (cta_pending_balance_lo e) l = Some lo ->
  ciphertext_arithmetic.add (cta_pending_balance_hi e) h = Some hi ->
  cta_increment_pending_balance_credit_counter (cta_set_pending lo hi e) = Ok e' ->
  cta_elgamal_pubkey e' = cta_elgamal_pubkey e /\
  forall s (x p y : E) b c, opens s e = Some (x, p) -> decrypt s l = Some b -> decrypt s h = Some c ->
    lo_hi b c = y -> opens s e' = Some (x, p + y)%point.
Proof.
  intros Hl Hh (Ho & Ek & _)%increment_counter_Ok. split; [done|].
  intros s x p y b c Hop Hb Hc <-. rewrite Ho. eapply pending_credit; [exact Hop|..|done].
  - by rewrite (bind_decrypt s _ _ _ Hl (add_decrypt s _ _)), Hb.
  - by rewrite (bind_decrypt s _ _ _ Hh (add_decrypt s _ _)), Hc.
Qed.
Lemma process_destination_Ok (Q : PodStateMut PodAccount -> PodStateMut PodAccount ->
    ConfidentialTransferAccount -> ConfidentialTransferAccount -> Prop)
    held di mi pk lo hi finish w w' :
  (forall d st e put v st' w w1, unpack_mut PodAccount d = Ok st ->
     get_extension_mut ConfidentialTransferAccount st = Ok (e, put) ->
     finish v put w = Ok (st', w1) ->
     w1 = w /\ exists v', becomes st st' (base st) v' /\
       cta_elgamal_pubkey v' = cta_elgamal_pubkey v /\ Q st st' v v') ->
  process_destination held di mi pk lo hi finish w = Ok (tt, w') ->
  exists st st' e v e',
    token_account w (key di) st /\ token_account w' (key di) st' /\
    rewrites (key di) w w' (base st) (base st) e e' /\
    mint (base st) = key mi /\ is_frozen (base st) = false /\
    cta_valid_as_destination e = Ok tt /\ pk = cta_elgamal_pubkey e /\
    (forall (y : E) pks, pks !! 1%nat = Some pk ->
       amount_for g3_try_extract_ciphertext pks y lo hi -> receives y e v) /\
    cta_elgamal_pubkey v = cta_elgamal_pubkey e /\ Q st st' v e'.
Proof.
  unfold process_destination. intros Hf H. m_inv.
  match goal with H : (if _ then _ else _) _ = Ok (_, ?x) |- _ =>
    assert (x = w) as -> by (by case_match; m_inv) end.
  match goal with H : finish ?v _ _ = Ok (?y, _), Hu : unpack_mut PodAccount _ = Ok ?x,
      Hg : get_extension_mut _ ?x = Ok (?c, _),
      Hi : cta_increment_pending_balance_credit_counter _ = Ok ?v |- _ =>
    destruct (becomes_put_same _ x c _ c Hu Hg) as [He _];
    eapply (Hf _ x) in H as [-> (v' & Hb & Ek & HQ)]; [|exact Hu|exact Hg];
    eapply receive_pending in Hi as [Ekv Hrec]; [|done..];
    exists x, y, c, v, v';
    assert (rewrites (key di) w (store (key di) y w) (base x) (base x) c v') as Hr
      by (eapply rewrites_store; [done..|congruence]) end.
  split_and!; try done.
  - split; [by rewrite owner_store|]. rewrite data_store. eapply replaces_unpack; [done|apply Hb].
  - subst pk. intros y pks Hpk Hy s x q Hk Hop. edestruct (Hy s 1%nat) as (u & z & Hl & Hh & Euv);
      [exact Hk|exact Hpk|eassumption..|].
    by eapply Hrec.
Qed.

Lemma process_destination_no_fee held di mi pk lo hi w w' :
  process_destination held di mi pk lo hi (fun account put => mret (put account)) w = Ok (tt, w') ->
  exists st st' e e',
    token_account w (key di) st /\ token_account w' (key di) st' /\
    rewrites (key di) w w' (base st) (base st) e e' /\
    mint (base st) = key mi /\ is_frozen (base st) = false /\
    cta_valid_as_destination e = Ok tt /\ pk = cta_elgamal_pubkey e /\
    forall (y : E) pks, pks !! 1%nat = Some pk ->
      amount_for g3_try_extract_ciphertext pks y lo hi -> receives y e e'.
Proof.
  intros H. eapply (process_destination_Ok (fun _ _ v v' => v' = v)) in H
    as (st & st' & e & v & e' & H1 & H2 & H3 & H4 & H5 & H6 & H7 & H8 & _ & ->); [by do 4 eexists|].
  intros d st e put v st' w0 w1 Hu Hg H1. m_inv. split; [done|]. exists v. split; [|done].
  by eapply becomes_put_same.
Qed.
(** ** The fee *)

(** The encrypted fee moves from the pending balance to the withheld amount. *)
Definition fee_withheld (flo fhi : PodGroupedElGamalCiphertext2Handles)
    (st st' : PodStateMut PodAccount) (v v' : ConfidentialTransferAccount) : Prop :=
  exists c c',
    get_extension ConfidentialTransferFeeAmount st = Ok (mk_ctfa c) /\
    get_extension ConfidentialTransferFeeAmount st' = Ok (mk_ctfa c') /\
    forall (fee : E) pk pk', amount_for g2_try_extract_ciphertext [pk; pk'] fee flo fhi ->
      (forall s x p, keypair s pk -> opens s v = Some (x, p) -> opens s v' = Some (x, p - fee)%point) /\
      (forall s x, keypair s pk' -> decrypt s c = Some x -> decrypt s c' = Some (x + fee)%point).

Lemma pay_pending v l h lo hi :
  ciphertext_arithmetic.subtract (cta_pending_balance_lo v) l = Some lo ->
  ciphertext_arithmetic.subtract (cta_pending_balance_hi v) h = Some hi ->
  forall s (x p y : E) b c, opens s v = Some (x, p) -> decrypt s l = Some b -> decrypt s h = Some c ->
    lo_hi b c = y -> opens s (cta_set_pending lo hi v) = Some (x, p - y)%point.
Proof.
  intros Hl Hh s x p y b c Hop Hb Hc <-. eapply (pending_credit s v (popp b) (popp c)); [exact Hop|..].
  - by rewrite (bind_decrypt s _ _ _ Hl (subtract_decrypt s _ _)), Hb.
  - by rewrite (bind_decrypt s _ _ _ Hh (subtract_decrypt s _ _)), Hc.
  - f_equal. unfold lo_hi. by rewrite pscale_opp, popp_plus.
Qed.

Lemma withhold_fee_Ok flo fhi d st e put v st' w w1 :
  unpack_mut PodAccount d = Ok st -> get_extension_mut ConfidentialTransferAccount st = Ok (e, put) ->
  withhold_fee flo fhi v put w = Ok (st', w1) ->
  w1 = w /\ exists v', becomes st st' (base st) v' /\
    cta_elgamal_pubkey v' = cta_elgamal_pubkey v /\ fee_withheld flo fhi st st' v v'.
Proof.
  intros Hu Hg H. unfold withhold_fee in H. m_inv. split; [done|].
  match goal with Hf : get_extension_mut ConfidentialTransferFeeAmount (put ?v') = Ok (?c, ?p),
      Hw : ciphertext_arithmetic.add_with_lo_hi _ _ _ = Some _ |- _ =>
    destruct (becomes_put_same _ st e put v' Hu Hg) as [He Hb];
    pose proof (get_extension_mut_place _ _ _ _ Hf) as [Hc _];
    rewrite (get_put_mut_other _ ConfidentialTransferFeeAmount _ _ _ v' Hg) in Hc by done;
    exists v'; split; [by eapply becomes_other|]; split; [done|];
    destruct c as [c]; eexists c, _; split; [exact Hc|]; split; [by eapply get_put_mut|];
    intros fee pk pk' Hfee; split end.
  - intros s x p' Hk Hop. edestruct (Hfee s 0%nat) as (u & z & Hl & Hh & Euv);
      [exact Hk|done|eassumption..|].
    by eapply pay_pending.
  - intros s x Hk Hx. edestruct (Hfee s 1%nat) as (u & z & Hl & Hh & Euv);
      [exact Hk|done|eassumption..|].
    match goal with Hw : ciphertext_arithmetic.add_with_lo_hi _ _ _ = Some _ |- _ =>
      rewrite (bind_decrypt s _ _ _ Hw (add_with_lo_hi_decrypt s _ _ _)) end.
    cbn [ctfa_withheld_amount]. rewrite Hx, Hl, Hh. cbn. by rewrite Euv.
Qed.

Lemma process_destination_fee held di mi pk lo hi flo fhi w w' :
  process_destination held di mi pk lo hi (withhold_fee flo fhi) w = Ok (tt, w') ->
  exists st st' e v e',
    token_account w (key di) st /\ token_account w' (key di) st' /\
    rewrites (key di) w w' (base st) (base st) e e' /\
    mint (base st) = key mi /\ is_frozen (base st) = false /\
    cta_valid_as_destination e = Ok tt /\ pk = cta_elgamal_pubkey e /\
    (forall (y : E) pks, pks !! 1%nat = Some pk ->
       amount_for g3_try_extract_ciphertext pks y lo hi -> receives y e v) /\
    cta_elgamal_pubkey v = cta_elgamal_pubkey e /\ fee_withheld flo fhi st st' v e'.
Proof.
  apply process_destination_Ok. intros d st e put v st' w0 w1 Hu Hg H. by eapply withhold_fee_Ok.
Qed.
(** ** The proofs *)

Lemma check_Ok b e u : check b e = Ok u -> b = true.
Proof. by destruct b. Qed.

Lemma transfer_proof_amount held iter a b c ctx rest w :
  verify_transfer_proof held iter a b c w = Ok ((ctx, rest), w) -> proofs_hold (E := E) w ->
  exists y : E, amount_for g3_try_extract_ciphertext
    [tp_source (tp_transfer_pubkeys ctx); tp_destination (tp_transfer_pubkeys ctx);
     tp_auditor (tp_transfer_pubkeys ctx)] y (tp_ciphertext_lo ctx) (tp_ciphertext_hi ctx).
Proof.
  unfold verify_transfer_proof. intros H Hw. m_inv.
  match goal with H : verify_and_extract_context BatchedGroupedCiphertext3HandlesValidityProofContext
      _ _ _ _ _ _ = _ |- _ => apply (grouped_3_hold _ Hw) in H as (lo & hi & Hlo & Hhi) end.
  match goal with H : TransferProofContext_verify_and_extract _ _ _ = Ok _ |- _ =>
    unfold TransferProofContext_verify_and_extract in H; m_inv end.
  repeat match goal with H : check _ _ = Ok _ |- _ => apply check_Ok in H end. m_inv.
  match goal with H : eq_pubkey _ = _ |- _ => rewrite H end.
  eexists. by apply grouped_amount.
Qed.

Lemma transfer_with_fee_proof_amounts held iter a b c d e fee ctx rest w :
  verify_transfer_with_fee_proof held iter a b c d e fee w = Ok ((ctx, rest), w) ->
  proofs_hold (E := E) w ->
  exists y f : E,
    amount_for g3_try_extract_ciphertext
      [tf_source (tf_transfer_with_fee_pubkeys ctx); tf_destination (tf_transfer_with_fee_pubkeys ctx);
       tf_auditor (tf_transfer_with_fee_pubkeys ctx)] y (tf_ciphertext_lo ctx) (tf_ciphertext_hi ctx) /\
    amount_for g2_try_extract_ciphertext
      [tf_destination (tf_transfer_with_fee_pubkeys ctx);
       tf_withdraw_withheld_authority (tf_transfer_with_fee_pubkeys ctx)] f
      (tf_fee_ciphertext_lo ctx) (tf_fee_ciphertext_hi ctx).
Proof.
  unfold verify_transfer_with_fee_proof. intros H Hw. m_inv.
  match goal with H : verify_and_extract_context BatchedGroupedCiphertext3HandlesValidityProofContext
      _ _ _ _ _ _ = _ |- _ => apply (grouped_3_hold _ Hw) in H as (lo & hi & Hlo & Hhi) end.
  match goal with H : verify_and_extract_context BatchedGroupedCiphertext2HandlesValidityProofContext
      _ _ _ _ _ _ = _ |- _ => apply (grouped_2_hold _ Hw) in H as (flo & fhi & Hflo & Hfhi) end.
  match goal with H : verify_and_extract _ _ _ _ _ _ _ = Ok _ |- _ =>
    unfold verify_and_extract in H; m_inv end.
  repeat match goal with H : check _ _ = Ok _ |- _ => apply check_Ok in H end. m_inv.
  eexists _, _. cbn. split; [|apply grouped_amount].
  - match goal with H : eq_pubkey _ = _ |- _ => rewrite H end. by apply grouped_amount.
  - match goal with H : _ = g2_first_pubkey _ |- _ => rewrite H end. exact Hflo.
  - match goal with H : _ = g2_first_pubkey _ |- _ => rewrite H end. exact Hfhi.
Qed.

(** The auditor's ciphertexts are those of the proof. *)
Lemma check_auditor_Ok lo hi alo ahi w u w' :
  check_auditor lo hi alo ahi w = Ok (u, w') ->
  g3_try_extract_ciphertext lo 2 = Some alo /\ g3_try_extract_ciphertext hi 2 = Some ahi.
Proof.
  unfold check_auditor, check_auditor_ciphertext. intros H. m_inv. by subst.
Qed.

(** The amount can be read from the two ciphertexts under the key. *)
Definition reads (pk : PodElGamalPubkey) (lo hi : PodElGamalCiphertext) (y : E) : Prop :=
  forall s, keypair s pk -> exists a b, decrypt s lo = Some a /\ decrypt s hi = Some b /\ lo_hi a b = y.

Lemma auditor_reads lo hi alo ahi w u w' pks pk (y : E) :
  check_auditor lo hi alo ahi w = Ok (u, w') -> pks !! 2%nat = Some pk ->
  amount_for g3_try_extract_ciphertext pks y lo hi -> reads pk alo ahi y.
Proof. intros [Hl Hh]%check_auditor_Ok Hpk Hy s Hk. by eapply (Hy s 2%nat). Qed.
(** ** Transfers *)

(** With the approval of the source's owner, [y] leaves its available balance,
    and [y] less [fee] then enters the pending balance of the destination. *)
Definition moved (pid : Address) (si mi di ai : AccountInfo) (signers : list AccountInfo)
    (y fee : E) (w w2 : World) : Prop :=
  exists w1 sb se se' db de de',
    rewrites (key si) w w1 sb sb se se' /\ rewrites (key di) w1 w2 db db de de' /\
    authorizes pid (owner sb) ai (length (cell_data (cell w (key ai)))) signers w /\
    mint sb = key mi /\ is_frozen sb = false /\ cta_valid_as_source se = Ok tt /\
    mint db = key mi /\ is_frozen db = false /\ cta_valid_as_destination de = Ok tt /\
    spends y se se' /\ receives (y - fee)%point de de'.

(** The account's withheld amount under the key of the withdraw authority. *)
Definition confidential_withheld (w : World) (k : Address) (c : EncryptedBalance) : Prop :=
  exists st, token_account w k st /\ get_extension ConfidentialTransferFeeAmount st = Ok (mk_ctfa c).

Definition withholds (k : Address) (pk : PodElGamalPubkey) (fee : E) (w w' : World) : Prop :=
  exists c c', confidential_withheld w k c /\ confidential_withheld w' k c' /\
    forall s x, keypair s pk -> decrypt s c = Some x -> decrypt s c' = Some (x + fee)%point.

Lemma token_account_only k w w' k' st :
  only_at k w w' -> k' <> k -> token_account w' k' st -> token_account w k' st.
Proof. intros Ho Hne. unfold token_account. by rewrite Ho. Qed.

Lemma transfer_without_fee_Ok pid si mi di iter ctm nd alo ahi a b c w ai signers w' :
  transfer_without_fee pid si mi di iter ctm nd alo ahi a b c w = Ok ((ai, signers), w') ->
  proofs_hold (E := E) w ->
  exists y, moved pid si mi di ai signers y pzero w w' /\
    reads (ctm_auditor_elgamal_pubkey ctm) alo ahi y.
Proof.
  unfold transfer_without_fee. intros H Hw. m_inv.
  match goal with H : verify_transfer_proof _ _ _ _ _ _ = Ok _ |- _ =>
    apply transfer_proof_amount in H as [y Hy]; [|done] end.
  match goal with H : check_auditor _ _ _ _ _ = Ok _, Hp : ctm_auditor_elgamal_pubkey _ = _ |- _ =>
    assert (reads (ctm_auditor_elgamal_pubkey ctm) alo ahi y) as Hread
      by (eapply auditor_reads; [exact H| |exact Hy]; by rewrite Hp) end.
  match goal with H : process_source_for_transfer _ _ _ _ _ _ _ _ _ = Ok _ |- _ =>
    apply process_source_Ok in H as (sb & se & se' & Hr & Hmt & Hf & Hv & Ek & Hn & Ha & Hs) end.
  match goal with H : process_destination_for_transfer _ _ _ _ _ = Ok _ |- _ =>
    apply process_destination_no_fee in H
      as (st & st' & de & de' & _ & _ & Hr' & Hmt' & Hf' & Hv' & Ek' & Hd) end.
  exists y. split; [|done]. eexists _, sb, se, se', (base st), de, de'.
  split_and!; try done; [by eapply Hs, Hy|]. rewrite popp_0, pplus_0_r. by eapply Hd, Hy.
Qed.

Lemma transfer_with_fee_Ok pid si mi di iter mt ctm nd alo ahi a b fs fc c w ai signers w' :
  transfer_with_fee_ pid si mi di iter mt ctm nd alo ahi a b fs fc c w = Ok ((ai, signers), w') ->
  proofs_hold (E := E) w ->
  exists y fee config, moved pid si mi di ai signers y fee w w' /\
    reads (ctm_auditor_elgamal_pubkey ctm) alo ahi y /\
    get_extension ConfidentialTransferFeeConfig mt = Ok config /\
    if decide (key si = key di) then fee = pzero
    else withholds (key di) (ctfc_withdraw_withheld_authority_elgamal_pubkey config) fee w w'.
Proof.
  unfold transfer_with_fee_. intros H Hw. m_inv.
  match goal with H : verify_transfer_with_fee_proof _ _ _ _ _ _ _ _ _ = Ok _ |- _ =>
    apply transfer_with_fee_proof_amounts in H as (y & f & Hy & Hfee); [|done] end.
  match goal with H : check_auditor _ _ _ _ _ = Ok _, Hp : ctm_auditor_elgamal_pubkey _ = _ |- _ =>
    assert (reads (ctm_auditor_elgamal_pubkey ctm) alo ahi y) as Hread
      by (eapply auditor_reads; [exact H| |exact Hy]; by rewrite Hp) end.
  match goal with H : process_source_for_transfer_with_fee _ _ _ _ _ _ _ _ _ = Ok _ |- _ =>
    apply process_source_Ok in H as (sb & se & se' & Hr & Hmt & Hf & Hv & Ek & Hn & Ha & Hs) end.
  match goal with H : process_destination_for_transfer_with_fee _ _ _ _ _ _ = Ok _ |- _ =>
    unfold process_destination_for_transfer_with_fee in H; rename H into Hdest end.
  destruct (decide (key si = key di)) as [Ed|Hne].
  - rewrite bool_decide_true in Hdest by done. apply process_destination_no_fee in Hdest
      as (st & st' & de & de' & _ & _ & Hr' & Hmt' & Hf' & Hv' & Ek' & Hd).
    eexists y, pzero, _. split_and!; try done. eexists _, sb, se, se', (base st), de, de'.
    split_and!; try done; [by eapply Hs, Hy|]. rewrite popp_0, pplus_0_r. by eapply Hd, Hy.
  - rewrite bool_decide_false in Hdest by done. apply process_destination_fee in Hdest
      as (st & st' & de & v & de' & Ht & Ht' & Hr' & Hmt' & Hf' & Hv' & Ek' & Hd & Ev & Hwith).
    destruct Hwith as (c1 & c2 & Hc1 & Hc2 & Hwith). destruct (Hwith _ _ _ Hfee) as [Hpay Hkeep].
    eexists y, f, _. split_and!; try done.
    + eexists _, sb, se, se', (base st), de, de'. split_and!; try done; [by eapply Hs, Hy|].
      assert (receives y de v) as Hrec by by eapply Hd, Hy.
      intros s x p Hk Hop. apply Hrec in Hop; [|done]. rewrite pplus_assoc. eapply Hpay; [by rewrite Ek'|done].
    + exists c1, c2. split; [exists st; split; [|done]|split; [by exists st'|]].
      * eapply token_account_only; [apply Hr|by intros E'; apply Hne|done].
      * intros s x Hk. apply Hkeep. by match goal with H : tf_withdraw_withheld_authority _ = _ |- _ => rewrite H end.
Qed.
(** C6: a confidential transfer conserves the encrypted tokens: when the proofs
    in the world state true statements, one amount, which the auditor of the mint
    can read, leaves the available balance of the source, with the approval of
    its owner, and then enters the pending balance of the destination, less the
    fee, under the secrets of both keys.  There is a fee only between different
    accounts of a mint with fees, and then it is added to the amount that the
    destination withholds under the key of the withdraw authority.  Neither
    account is frozen, both are of the mint, which is not paused, and approved
    for confidential transfers; then the hook of the mint is called. *)
Theorem confidential_transfer_conserves pid accounts nd alo ahi eq_offset validity_offset sigma_offset
    fee_validity_offset range_offset w w' :
  process_transfer pid accounts nd alo ahi eq_offset validity_offset sigma_offset
    fee_validity_offset range_offset w = Ok (tt, w') ->
  proofs_hold (E := E) w ->
  exists si mi di rest ai signers mt ctm y fee w2,
    accounts = si :: mi :: di :: rest /\
    cell_owner (cell w (key mi)) = id /\ unpack PodMint (cell_data (cell w (key mi))) = Ok mt /\
    mint_paused mt = false /\ get_extension ConfidentialTransferMint mt = Ok ctm /\
    moved pid si mi di ai signers y fee w w2 /\
    reads (ctm_auditor_elgamal_pubkey ctm) alo ahi y /\
    (if has_extension TransferFeeConfig mt && negb (bool_decide (key si = key di)) then
       exists config, get_extension ConfidentialTransferFeeConfig mt = Ok config /\
         withholds (key di) (ctfc_withdraw_withheld_authority_elgamal_pubkey config) fee w w2
     else fee = pzero) /\
    match get_program_id mt with
    | Some hook => call_hook mi si di ai signers hook w2 = Ok (tt, w')
    | None => w' = w2
    end.
Proof.
  unfold process_transfer. intros H Hw. m_inv.
  match goal with H : (if _ then _ else _) _ = Ok ((?ai, ?signers), ?w2),
      Hu : unpack PodMint _ = Ok ?mt, Hc : get_extension ConfidentialTransferMint _ = Ok ?ctm |- _ =>
    rename H into Hb; rename w2 into w2';
    assert (match get_program_id mt with
            | Some hook => call_hook a0 a a1 ai signers hook w2' = Ok (tt, w')
            | None => w' = w2' end) as Hhook by (by case_match; m_inv);
    destruct (has_extension TransferFeeConfig mt) eqn:Ef; cbn [negb] in Hb;
    [apply transfer_with_fee_Ok in Hb as (y & fee & config & Hmv & Hr & Hcf & Hd); [|done]
    |apply transfer_without_fee_Ok in Hb as (y & Hmv & Hr); [|done]];
    [exists a, a0, a1, l1, ai, signers, mt, ctm, y, fee, w2'
    |exists a, a0, a1, l1, ai, signers, mt, ctm, y, pzero, w2']; rewrite Ef; cbn [andb] end.
  - do 7 (split; [done|]). split; [|done].
    destruct (decide (key a = key a1)) as [Ed|Hne]; [by rewrite bool_decide_true|].
    rewrite bool_decide_false by done. by exists config.
  - by do 8 (split; [done|]).
Qed.
End theory.
