(* ===== verification/ConfidentialSupplyTheory.v ===== *)
(** * What confidential minting and burning do to the supply

    The supply of a mint is a ciphertext under its own key, next to the
    ciphertext of what has been burned and not yet subtracted.  An amount that
    enters a pending balance enters the supply, and one that leaves an available
    balance enters the pending burn. *)
From S2P Require Import Prelude Bytes Errors Ids Runtime Pod ExtensionState CiphertextArithmetic.
From S2P Require Import CiphertextTheory ProofExtraction Extension TlvTheory ViewTheory AccountLen.
From S2P Require Import MonadTheory Ownership Ledger TransferFee TransferTheory FeesTheory.
From S2P Require Import PodInstruction Supply Initialize VariableLen ConfidentialTransfer.
From S2P Require Import ConfidentialTransferFee ConfidentialMintBurn ConfidentialPure.
From S2P Require Import ConfidentialTheory ConfidentialTransferTheory Authority AuthorityTheory Backing.
Import confidential_transfer confidential_mint_burn.

(** The mint at [k] has the fields [b] and the confidential supply [c]. *)
Definition confidential_mint (w : World) (k : Address) (b : PodMint) (c : ConfidentialMintBurn) : Prop :=
  exists mt, mint_account w k mt /\ base mt = b /\ get_extension ConfidentialMintBurn mt = Ok c.

(** The extension of the mint is rewritten, here and with an account. *)
Definition rewrites_mint (k : Address) (w w' : World) (c c' : ConfidentialMintBurn) : Prop :=
  exists b, confidential_mint w k b c /\ confidential_mint w' k b c'.

Lemma store_mint k mt c put c' w :
  cell_owner (cell w k) = id -> unpack_mut PodMint (cell_data (cell w k)) = Ok mt ->
  get_extension_mut ConfidentialMintBurn mt = Ok (c, put) ->
  confidential_mint w k (base mt) c /\ confidential_mint (store k (put c') w) k (base mt) c'.
Proof.
  intros Ho Hu Hg. pose proof (get_put_mut _ _ _ _ c' Hg) as Hc'.
  pose proof (put_mut_same_shape _ _ _ _ c' Hg) as Hs. apply get_extension_mut_place in Hg as [Hc _].
  split; [by exists mt|]. exists (put c'). split; [|by split; [apply Hs|]].
  split; [by rewrite owner_store|]. rewrite data_store. eapply replaces_unpack; [exact Hu|].
  by eapply same_shape_replaces.
Qed.

Lemma confidential_mint_ne k k' {S} `{Pod S} (st : PodStateMut S) w b c :
  k' <> k -> confidential_mint w k b c -> confidential_mint (store k' st w) k b c.
Proof.
  intros Hne (mt & [Ho Hu] & Hb & Hc). exists mt. split; [|done]. split; rewrite cell_store_ne; done.
Qed.

(** The other accounts than the two are as before. *)
Definition only_two (k k' : Address) (w w' : World) : Prop :=
  forall i, i <> k -> i <> k' -> cell w' i = cell w i.

(** The account [ka] and the mint [km], with the fields [b] and [mb], are
    rewritten under the same keys. *)
Definition rewrites_two (ka km : Address) (b : PodAccount) (mb : PodMint)
    (e e' : ConfidentialTransferAccount) (c c' : ConfidentialMintBurn) (w w' : World) : Prop :=
  confidential_account w ka b e /\ confidential_account w' ka b e' /\
  confidential_mint w km mb c /\ confidential_mint w' km mb c' /\
  only_two ka km w w' /\ cta_elgamal_pubkey e' = cta_elgamal_pubkey e /\
  cmb_supply_elgamal_pubkey c' = cmb_supply_elgamal_pubkey c.

Lemma rewrites_both ka km st st' e e' mt c put c' w :
  cell_owner (cell w ka) = id -> unpack_mut PodAccount (cell_data (cell w ka)) = Ok st ->
  get_extension ConfidentialTransferAccount st = Ok e -> becomes st st' (base st) e' ->
  cell_owner (cell w km) = id -> unpack_mut PodMint (cell_data (cell w km)) = Ok mt ->
  get_extension_mut ConfidentialMintBurn mt = Ok (c, put) ->
  cta_elgamal_pubkey e' = cta_elgamal_pubkey e ->
  cmb_supply_elgamal_pubkey c' = cmb_supply_elgamal_pubkey c ->
  rewrites_two ka km (base st) (base mt) e e' c c' w (store km (put c') (store ka st' w)).
Proof.
  intros Ho Hu He (Hr & Eb & He') Hom Hum Hg Ek Ec.
  assert (ka <> km) as Hne by (intros ->; by eapply account_mint_exclusive).
  destruct (store_mint km mt c put c' w Hom Hum Hg) as [H1 H2].
  split; [by exists st|]. split; [|split; [done|split; [|split; [|done]]]].
  - apply confidential_account_ne; [done|]. exists st'. split; [|done].
    split; [by rewrite owner_store|]. rewrite data_store. by eapply replaces_unpack.
  - rewrite store_comm by done. by apply confidential_mint_ne.
  - intros i Hi Hi'. by rewrite !cell_store_ne.
Qed.

Section theory.
Context {E : Type} `{RT : Runtime} `{CV : CurveInterface} `{ZK : ZkInterface} `{ZC : !ZkContexts}.
Context `{PG : !PointGroup E} `{CL : !CurveLaws E}.

(** ** The proofs *)

Lemma extract_contexts_amount held iter a b c eq val rng rest w :
  extract_contexts held iter a b c w = Ok ((eq, val, rng, rest), w) -> proofs_hold (E := E) w ->
  exists y : E, amount_for g3_try_extract_ciphertext
    [g3_first_pubkey val; g3_second_pubkey val; g3_third_pubkey val] y
    (g3_grouped_ciphertext_lo val) (g3_grouped_ciphertext_hi val).
Proof.
  unfold extract_contexts. intros H Hw. m_inv.
  match goal with H : verify_and_extract_context BatchedGroupedCiphertext3HandlesValidityProofContext
      _ _ _ _ _ _ = _ |- _ => apply (grouped_3_hold _ Hw) in H as (lo & hi & Hlo & Hhi) end.
  eexists. by apply grouped_amount.
Qed.

Lemma mint_proof_amount held iter a b c ctx rest w :
  verify_mint_proof held iter a b c w = Ok ((ctx, rest), w) -> proofs_hold (E := E) w ->
  exists y : E, amount_for g3_try_extract_ciphertext
    [mp_destination (mp_mint_pubkeys ctx); mp_supply (mp_mint_pubkeys ctx);
     mp_auditor (mp_mint_pubkeys ctx)] y
    (mp_mint_amount_ciphertext_lo ctx) (mp_mint_amount_ciphertext_hi ctx).
Proof.
  unfold verify_mint_proof. intros H Hw. m_inv.
  match goal with H : extract_contexts _ _ _ _ _ _ = Ok _ |- _ =>
    apply extract_contexts_amount in H as [y Hy]; [|done] end.
  match goal with H : MintProofContext_verify_and_extract _ _ _ = Ok _ |- _ =>
    unfold MintProofContext_verify_and_extract in H; m_inv end.
  repeat match goal with H : check _ _ = Ok _ |- _ => apply check_Ok in H end. m_inv.
  match goal with H : eq_pubkey _ = _ |- _ => rewrite H end. by exists y.
Qed.

Lemma burn_proof_amount held iter a b c ctx rest w :
  verify_burn_proof held iter a b c w = Ok ((ctx, rest), w) -> proofs_hold (E := E) w ->
  exists y : E, amount_for g3_try_extract_ciphertext
    [bp_source (bp_burn_pubkeys ctx); bp_supply (bp_burn_pubkeys ctx);
     bp_auditor (bp_burn_pubkeys ctx)] y
    (bp_burn_amount_ciphertext_lo ctx) (bp_burn_amount_ciphertext_hi ctx).
Proof.
  unfold verify_burn_proof. intros H Hw. m_inv.
  match goal with H : extract_contexts _ _ _ _ _ _ = Ok _ |- _ =>
    apply extract_contexts_amount in H as [y Hy]; [|done] end.
  match goal with H : BurnProofContext_verify_and_extract _ _ _ = Ok _ |- _ =>
    unfold BurnProofContext_verify_and_extract in H; m_inv end.
  repeat match goal with H : check _ _ = Ok _ |- _ => apply check_Ok in H end. m_inv.
  match goal with H : eq_pubkey _ = _ |- _ => rewrite H end. by exists y.
Qed.
(** ** Minting and burning *)

(** [y] is added to the plaintext of a ciphertext, under the secret of the key. *)
Definition grows (pk : PodElGamalPubkey) (y : E) (c c' : EncryptedBalance) : Prop :=
  forall s x, keypair s pk -> decrypt s c = Some x -> decrypt s c' = Some (x + y)%point.

Lemma extracted_supply pks pk lo hi (y : E) c l h c' :
  amount_for g3_try_extract_ciphertext pks y lo hi -> pks !! 1%nat = Some pk ->
  g3_try_extract_ciphertext lo 1 = Some l -> g3_try_extract_ciphertext hi 1 = Some h ->
  ciphertext_arithmetic.add_with_lo_hi c l h = Some c' -> grows pk y c c'.
Proof.
  intros Hy Hpk Hl Hh Hc s x Hk Hx. destruct (Hy s 1%nat pk l h) as (a & b & Ha & Hb & <-); [done..|].
  by rewrite (bind_decrypt s _ _ _ Hc (add_with_lo_hi_decrypt s _ _ _)), Hx, Ha, Hb.
Qed.

(** The mint authority of the mint with the fields [b] approves: the first of
    the accounts [iter] is the authority and signs, or is its multisig, of which
    enough signers are among the accounts that follow. *)
Definition mint_approved (pid : Address) (b : PodMint) (iter : list AccountInfo) (w : World) : Prop :=
  exists auth ai signers, iter = ai :: signers /\ PodCOption.get (mint_authority b) = Some auth /\
    authorizes pid auth ai (length (cell_data (cell w (key ai)))) signers w.

Lemma mint_authority_signs_Ok held pid b iter w u w' :
  mint_authority_signs held pid b iter w = Ok (u, w') -> mint_approved pid b iter w.
Proof.
  unfold mint_authority_signs. intros H. m_inv.
  match goal with H : PodCOption.ok_or _ _ = Ok _ |- _ => apply coption_ok_or_Ok in H end.
  by do 3 eexists.
Qed.

(** C13: a confidential mint adds one amount to the supply and to an account: when
    the proofs in the world state true statements, for an account of the mint
    that is neither frozen nor native and accepts confidential credits, of a mint
    that is not paused, one amount, which the auditor of the mint can read, is
    added to the account's pending balance under its key and to the supply under
    the key of the supply.  The instruction's accounts are the account, the mint,
    those the proofs are read from and then the mint authority, which signs, or
    its multisig and enough of its signers.  What is burned and pending is kept,
    and no other account changes. *)
Theorem process_confidential_mint_spec pid accounts data w w' :
  process_confidential_mint pid accounts data w = Ok (tt, w') -> proofs_hold (E := E) w ->
  exists ti mi rest ctx approvers mt ctm b e e' c c' y,
    accounts = ti :: mi :: rest /\
    verify_mint_proof [Mut (key ti); Mut (key mi)] rest (mi_equality_proof_instruction_offset data)
      (mi_ciphertext_validity_proof_instruction_offset data)
      (mi_range_proof_instruction_offset data) w = Ok ((ctx, approvers), w) /\
    mint_approved pid (base mt) approvers w /\
    unpack_mut PodMint (cell_data (cell w (key mi))) = Ok mt /\ mint_paused mt = false /\
    get_extension ConfidentialTransferMint mt = Ok ctm /\
    rewrites_two (key ti) (key mi) b (base mt) e e' c c' w w' /\
    mint b = key mi /\ is_frozen b = false /\ is_native b = false /\
    cta_valid_as_destination e = Ok tt /\
    cta_elgamal_pubkey e = mp_destination (mp_mint_pubkeys ctx) /\
    cmb_confidential_supply c' = mp_new_supply_ciphertext ctx /\
    receives y e e' /\
    grows (cmb_supply_elgamal_pubkey c) y (cmb_confidential_supply c) (cmb_confidential_supply c') /\
    cmb_pending_burn c' = cmb_pending_burn c /\
    reads (ctm_auditor_elgamal_pubkey ctm) (mi_mint_amount_auditor_ciphertext_lo data)
      (mi_mint_amount_auditor_ciphertext_hi data) y.
Proof.
  unfold process_confidential_mint. intros H Hw. m_inv.
  match goal with Hp : verify_mint_proof _ _ _ _ _ _ = Ok ((?x, ?it), _) |- _ =>
    pose proof Hp as Hproof; set (ctx := x) in *; set (approvers := it) in * end.
  match goal with Hp : verify_mint_proof _ _ _ _ _ _ = Ok _, Hs : mint_authority_signs _ _ _ _ _ = Ok _,
      Hc : check_auditor _ _ _ _ _ = Ok _, Ha : ctm_auditor_elgamal_pubkey ?ctm = _ |- _ =>
    apply mint_proof_amount in Hp as [y Hy]; [|done]; apply mint_authority_signs_Ok in Hs;
    eapply auditor_reads in Hc; [| |exact Hy]; [|reflexivity]; rewrite <- Ha in Hc end.
  match goal with Hi : cta_increment_pending_balance_credit_counter _ = Ok ?e',
      Hu : unpack_mut PodAccount _ = Ok ?st, Hg : get_extension_mut ConfidentialTransferAccount _ = Ok (?e, ?p),
      Hum : unpack_mut PodMint _ = Ok ?mt, Hm : get_extension_mut ConfidentialMintBurn ?mt = Ok (?c, ?q),
      Hc : get_extension ConfidentialTransferMint _ = Ok ?ctm |- context [store _ (?q ?d) _] =>
    eapply receive_pending in Hi as [Ek Hrec]; [|done..];
    destruct (becomes_put_same _ st e p e' Hu Hg) as [He Hb];
    exists a, a0, l0, ctx, approvers, mt, ctm, (base st), e, e', c, d, y;
    pose proof (rewrites_both (key a) (key a0) st (p e') e e' mt c q d w Hown Hu He Hb
      Hown0 Hum Hm Ek eq_refl) as Hrw end.
  split_and!; try done.
  - intros s x q Hk Hop. match goal with H : mp_destination _ = _ |- _ => rewrite <- H in Hk end.
    edestruct (Hy s 0%nat) as (u & z & Hl & Hh & Euv); [done|done|eassumption..|]. by eapply Hrec.
  - match goal with H : cmb_supply_elgamal_pubkey _ = _ |- _ => rewrite H end.
    eapply extracted_supply; [exact Hy|done|eassumption..].
Qed.

(** C14: a confidential burn moves one amount from an account to the pending burn:
    when the proofs in the world state true statements, with the approval of the
    account's owner, and of the burn authority where the mint requires one, which
    are among the accounts after those the proofs are read from, of an account of
    the mint that is not frozen, of a mint that is not paused, one amount, which
    the auditor of the mint can read, leaves the available balance under the
    account's key and is added to the pending burn under the key of the supply.
    The supply itself is kept, and no other account changes. *)
Theorem process_confidential_burn_spec pid accounts data variant w w' :
  process_confidential_burn pid accounts data variant w = Ok (tt, w') -> proofs_hold (E := E) w ->
  exists ti mi rest ctx approvers mt ctm burn_ai ai signers b e e' c c' y,
    accounts = ti :: mi :: rest /\
    verify_burn_proof [Mut (key mi)] rest (bi_equality_proof_instruction_offset data)
      (bi_ciphertext_validity_proof_instruction_offset data)
      (bi_range_proof_instruction_offset data) w = Ok ((ctx, approvers), w) /\
    burn_authorities variant approvers = Ok (burn_ai, ai, signers) /\
    unpack_mut PodMint (cell_data (cell w (key mi))) = Ok mt /\ mint_paused mt = false /\
    get_extension ConfidentialTransferMint mt = Ok ctm /\
    burn_permission variant mt burn_ai = Ok tt /\
    authorizes pid (owner b) ai (length (cell_data (cell w (key ai)))) signers w /\
    rewrites_two (key ti) (key mi) b (base mt) e e' c c' w w' /\
    mint b = key mi /\ is_frozen b = false /\ cta_valid_as_source e = Ok tt /\
    spends y e e' /\
    grows (cmb_supply_elgamal_pubkey c) y (cmb_pending_burn c) (cmb_pending_burn c') /\
    cmb_confidential_supply c' = cmb_confidential_supply c /\
    reads (ctm_auditor_elgamal_pubkey ctm) (bi_burn_amount_auditor_ciphertext_lo data)
      (bi_burn_amount_auditor_ciphertext_hi data) y.
Proof.
  unfold process_confidential_burn. intros H Hw. m_inv.
  match goal with Hp : verify_burn_proof _ _ _ _ _ _ = Ok _ |- _ => pose proof Hp as Hproof end.
  match goal with Hp : verify_burn_proof _ _ _ _ _ _ = Ok _,
      Hc : check_auditor _ _ _ _ _ = Ok _, Ha : ctm_auditor_elgamal_pubkey ?ctm = _ |- _ =>
    apply burn_proof_amount in Hp as [y Hy]; [|done];
    eapply auditor_reads in Hc; [| |exact Hy]; [|reflexivity]; rewrite <- Ha in Hc end.
  match goal with Hu : unpack_mut PodAccount _ = Ok ?st, Hg : get_extension_mut ConfidentialTransferAccount _ = Ok (?e, ?p),
      Hum : unpack_mut PodMint _ = Ok ?mt, Hm : get_extension_mut ConfidentialMintBurn ?mt = Ok (?c, ?q),
      Hc : get_extension ConfidentialTransferMint _ = Ok ?ctm
      |- context [store _ (?q ?d) (store _ (?p ?e') _)] =>
    destruct (becomes_put_same _ st e p e' Hu Hg) as [He Hb];
    do 6 eexists; exists ctm; do 3 eexists; exists (base st), e, e', c, d, y;
    pose proof (rewrites_both (key a) (key a0) st (p e') e e' mt c q d w Hown Hu He Hb
      Hown0 Hum Hm eq_refl eq_refl) as Hrw end.
  split_and!; try done.
  - intros s x q Hk Hop. match goal with H : bp_source _ = _ |- _ => rewrite <- H in Hk end.
    edestruct (Hy s 0%nat) as (u & z & Hl & Hh & Euv); [done|done|eassumption..|].
    by eapply (spend_available c0).
  - match goal with H : cmb_supply_elgamal_pubkey _ = _ |- _ => rewrite H end.
    eapply extracted_supply; [exact Hy|done|eassumption..].
Qed.

(** applying the pending burn subtracts it from the supply: with the approval
    of the mint authority, whatever a secret decrypts the supply and the pending
    burn to, the new supply decrypts to their difference and the new pending burn
    to nothing; no account changes. *)
Theorem process_apply_pending_burn_spec pid accounts w w' :
  process_apply_pending_burn pid accounts w = Ok (tt, w') ->
  exists mi rest b c c',
    accounts = mi :: rest /\ mint_approved pid b rest w /\
    confidential_mint w (key mi) b c /\ confidential_mint w' (key mi) b c' /\
    only_at (key mi) w w' /\ cmb_supply_elgamal_pubkey c' = cmb_supply_elgamal_pubkey c /\
    forall s (x y : E), decrypt s (cmb_confidential_supply c) = Some x ->
      decrypt s (cmb_pending_burn c) = Some y ->
      decrypt s (cmb_confidential_supply c') = Some (x - y)%point /\
      decrypt s (cmb_pending_burn c') = Some (pzero : E).
Proof.
  unfold process_apply_pending_burn. intros H. m_inv.
  match goal with Hs : mint_authority_signs _ _ _ ?it _ = Ok _, Hu : unpack_mut PodMint _ = Ok ?mt,
      Hg : get_extension_mut _ ?mt = Ok (?c, ?q), Hsub : ciphertext_arithmetic.subtract _ _ = Some _
      |- context [store _ (?q ?d) _] =>
    apply mint_authority_signs_Ok in Hs; destruct (store_mint (key a) mt c q d w Hown Hu Hg) as [H1 H2];
    exists a, it, (base mt), c, d; split_and!; try done;
    [by intros k Hk; apply cell_store_ne|];
    intros s x y Hx Hy; cbn [cmb_set_pending cmb_set_supply cmb_confidential_supply cmb_pending_burn];
    rewrite zeroed_decrypt; split; [|done];
    by rewrite (bind_decrypt s _ _ _ Hsub (subtract_decrypt s _ _)), Hx, Hy end.
Qed.

(** rotating the key of the supply re-encrypts the same supply: with the
    approval of the mint authority, while nothing is burned and pending, and
    when the equality proof states a true statement, the new ciphertext decrypts
    under the secret of the new key to what the old one did under the old
    secret; the new key is the second key of the proof. *)
Theorem process_rotate_supply_spec pid accounts data w w' :
  process_rotate_supply_elgamal_pubkey pid accounts data w = Ok (tt, w') ->
  proofs_hold (E := E) w ->
  exists mi iter rest ctx b c c' (x : E),
    accounts = mi :: iter /\ mint_approved pid b rest w /\
    verify_and_extract_context CiphertextCiphertextEqualityProofContext
      ProofType.CiphertextCiphertextEquality [Mut (key mi)] iter
      (i8_get (rs_proof_instruction_offset data)) None w = Ok ((ctx, rest), w) /\
    confidential_mint w (key mi) b c /\ confidential_mint w' (key mi) b c' /\
    only_at (key mi) w w' /\
    cce_first_pubkey ctx = cmb_supply_elgamal_pubkey c /\
    cce_second_pubkey ctx = cmb_supply_elgamal_pubkey c' /\
    cmb_pending_burn c = zeroed 64 /\ cmb_pending_burn c' = zeroed 64 /\
    (forall s, keypair s (cmb_supply_elgamal_pubkey c) ->
       decrypt s (cmb_confidential_supply c) = Some x) /\
    (forall s, keypair s (cmb_supply_elgamal_pubkey c') ->
       decrypt s (cmb_confidential_supply c') = Some x).
Proof.
  unfold process_rotate_supply_elgamal_pubkey. intros H Hw. m_inv.
  match goal with Hs : mint_authority_signs _ _ _ _ _ = Ok _, Hu : unpack_mut PodMint _ = Ok ?mt,
      Hp : verify_and_extract_context _ _ _ ?it _ _ _ = Ok ((?ctx, ?rest), _),
      Hk : cmb_supply_elgamal_pubkey _ = cce_first_pubkey _,
      Hc : cmb_confidential_supply _ = cce_first_ciphertext _,
      Hg : get_extension_mut _ ?mt = Ok (?c, ?q) |- context [store _ (?q ?d) _] =>
    apply mint_authority_signs_Ok in Hs; destruct (store_mint (key a) mt c q d w Hown Hu Hg) as [H1 H2];
    destruct (equality_hold _ Hw _ _ _ _ _ _ Hp) as (x & Hx & r & Hr);
    exists a, it, rest, ctx, (base mt), c, d, x; split_and!; try done;
    [by intros k Hk'; apply cell_store_ne|by rewrite Hk, Hc|] end.
  intros s Hs. by eapply encryption_decrypt.
Qed.
End theory.
