(* ===== verification/ConfidentialFeesTheory.v ===== *)
(** * What becomes of the withheld confidential fees

    The fees that accounts withhold are ciphertexts under one key, that of the
    withdraw authority: harvesting moves their plaintexts to the mint, and
    withdrawing moves them to an account whose key the equality proof relates.
    The sums are over any list of distinct keys that has the harvested ones. *)
From S2P Require Import Prelude Bytes Errors Ids Runtime Pod ExtensionState CiphertextArithmetic.
From S2P Require Import CiphertextTheory ProofExtraction Extension TlvTheory ViewTheory AccountLen.
From S2P Require Import MonadTheory Ownership Ledger TransferFee TransferTheory FeesTheory.
From S2P Require Import PodInstruction Supply Initialize InitializeTheory Settings Fees VariableLen ConfidentialTransfer.
From S2P Require Import ConfidentialTransferFee ConfidentialMintBurn ConfidentialPure.
From S2P Require Import ConfidentialTheory ConfidentialTransferTheory Backing.
Import confidential_transfer_fee.

Section theory.
Context {E : Type} `{RT : Runtime} `{CV : CurveInterface} `{ZK : ZkInterface} `{ZC : !ZkContexts}.
Context `{PG : !PointGroup E} `{CL : !CurveLaws E}.

(** ** Sums of withheld plaintexts *)

Definition withheld_view (s : Z) (st : PodStateMut PodAccount) : E :=
  match get_extension ConfidentialTransferFeeAmount st with
  | Ok x => default pzero (decrypt s (ctfa_withheld_amount x))
  | _ => pzero
  end.

Definition withheld_point (s : Z) (w : World) (k : Address) : E :=
  match unpack_mut PodAccount (cell_data (cell w k)) with
  | Ok st => withheld_view s st
  | _ => pzero
  end.

Definition point_sum (f : Address -> E) (ks : list Address) : E :=
  foldr (fun k x => f k + x)%point pzero ks.

Lemma point_sum_ext f g ks : (forall k, k ∈ ks -> f k = g k) -> point_sum f ks = point_sum g ks.
Proof.
  induction ks as [|k ks IH]; [done|]. intros H. cbn [point_sum foldr].
  rewrite (H k) by set_solver. f_equal. apply IH. set_solver.
Qed.

(** One summand is emptied. *)
Lemma point_sum_emptied f g k ks :
  NoDup ks -> k ∈ ks -> (forall k', k' <> k -> g k' = f k') -> g k = pzero ->
  point_sum f ks = (point_sum g ks + f k)%point.
Proof.
  intros Hnd Hk Hne Hz. induction Hnd as [|k' ks Hni Hnd IH]; [by set_solver|].
  cbn [point_sum foldr]. destruct (decide (k' = k)) as [->|Hkk].
  - rewrite Hz, pplus_0_l, pplus_comm. f_equal. apply point_sum_ext. intros k'' Hk''.
    symmetry. apply Hne. by intros ->.
  - rewrite Hne by done. change (foldr _ _ ks) with (point_sum f ks) at 1.
    rewrite IH by set_solver. by rewrite pplus_assoc.
Qed.

(** ** One account *)

Lemma withheld_view_put s st e put :
  get_extension_mut ConfidentialTransferFeeAmount st = Ok (e, put) ->
  withheld_view s st = default pzero (decrypt s (ctfa_withheld_amount e)) /\
  withheld_view s (put (mk_ctfa (zeroed 64))) = pzero.
Proof.
  intros Hg. pose proof (get_put_mut _ _ _ _ (mk_ctfa (zeroed 64)) Hg) as Hp.
  apply get_extension_mut_place in Hg as [He _]. unfold withheld_view. rewrite He, Hp.
  cbn [ctfa_withheld_amount]. by rewrite zeroed_decrypt.
Qed.

Lemma withheld_point_store s k d st st' w :
  unpack_mut PodAccount d = Ok st -> replaces st st' ->
  withheld_point s (store k st' w) k = withheld_view s st'.
Proof.
  intros Hu Hr. unfold withheld_point. rewrite data_store. by rewrite (replaces_unpack _ _ _ Hu Hr).
Qed.

Lemma withheld_point_cell s w w' k : cell w' k = cell w k -> withheld_point s w' k = withheld_point s w k.
Proof. unfold withheld_point. by intros ->. Qed.

(** A harvested account has given all that it withheld. *)
Lemma confidential_harvest_Ok s held mk info c w w' :
  harvest_from_account held mk info w = Ok (c, w') ->
  withheld_point s w (key info) = default pzero (decrypt s c) /\
  withheld_point s w' (key info) = pzero /\
  only_at (key info) w w' /\ existsb (conflicts_mut (key info)) held = false.
Proof.
  unfold harvest_from_account. intros H. m_inv.
  match goal with Hu : unpack_mut PodAccount _ = Ok ?st, Hg : get_extension_mut _ _ = Ok (?e, ?p) |- _ =>
    destruct (withheld_view_put s _ _ _ Hg) as [E1 E2];
    split; [unfold withheld_point; by rewrite Hu|]; split end.
  - erewrite withheld_point_store; [exact E2|done|].
    eapply same_shape_replaces; [done|]. by eapply put_mut_same_shape.
  - split; [|done]. intros k Hk. by apply cell_store_ne.
Qed.

(** ** The harvest loop *)

(** A list of accounts loses [z], which is added to a ciphertext. *)
Definition collects (s : Z) (ks : list Address) (c c' : EncryptedBalance) (f g : Address -> E) : Prop :=
  forall x, decrypt s c = Some x ->
    exists z, decrypt s c' = Some (x + z)%point /\ point_sum f ks = (point_sum g ks + z)%point.

Lemma collects_refl s ks c f g : (forall k, g k = f k) -> collects s ks c c f g.
Proof.
  intros Hfg x Hx. exists pzero. rewrite !pplus_0_r. split; [done|]. by apply point_sum_ext.
Qed.

Lemma collects_trans s ks a b c f g h :
  collects s ks a b f g -> collects s ks b c g h -> collects s ks a c f h.
Proof.
  intros H1 H2 x (z & Hb & ->)%H1. destruct (H2 _ Hb) as (z' & Hc & ->).
  exists (z + z')%point. rewrite pplus_assoc. split; [done|].
  by rewrite <- pplus_assoc, (pplus_comm z').
Qed.

(** One turn: the account [k] is emptied into the sum. *)
Lemma collects_one s ks k v c c' f g :
  NoDup ks -> k ∈ ks -> ciphertext_arithmetic.add c v = Some c' ->
  (forall k', k' <> k -> g k' = f k') -> g k = pzero -> f k = default pzero (decrypt s v) ->
  collects s ks c c' f g.
Proof.
  intros Hnd Hk Hc Hne Hg Hf x Hx.
  destruct (add_Some s _ _ _ Hc) as (x' & y & Hx' & Hy & Hc'). simplify_eq.
  exists y. split; [done|]. rewrite Hy in Hf. cbn in Hf. rewrite <- Hf. by eapply point_sum_emptied.
Qed.

Lemma attempt_harvest_cases s held mk info o w w' :
  transfer_fee.attempt (harvest_from_account held mk info) w = Ok (o, w') ->
  match o with
  | Some c => withheld_point s w (key info) = default pzero (decrypt s c) /\
      withheld_point s w' (key info) = pzero /\ only_at (key info) w w' /\
      existsb (conflicts_mut (key info)) held = false
  | None => w' = w
  end.
Proof.
  rewrite attempt_Ok. intros [(c & -> & H)|(-> & -> & _)]; [|done]. by eapply confidential_harvest_Ok.
Qed.

Lemma harvest_all_collects s mk c infos c' w w' ks :
  harvest_all mk c infos w = Ok (c', w') -> NoDup ks -> (forall i, i ∈ infos -> key i ∈ ks) ->
  collects s ks c c' (withheld_point s w) (withheld_point s w') /\ cell w' mk = cell w mk /\
  forall k, k ∉ key <$> infos -> cell w' k = cell w k.
Proof.
  intros H Hnd. revert c w H. induction infos as [|info infos IH]; intros c w H Hin; cbn [harvest_all] in H.
  { m_inv. split; [by apply collects_refl|done]. }
  m_inv. match goal with H : transfer_fee.attempt _ _ = Ok (?o, _) |- _ =>
    apply (attempt_harvest_cases s) in H; destruct o as [v|] end; m_inv.
  - match goal with H : _ /\ _ /\ _ /\ _ |- _ => destruct H as (Ev & Ez & Ho & Hf) end.
    apply IH in H as (H1 & H2 & H3); [|set_solver].
    assert (mk <> key info) as Hne.
    { intros ->. cbn in Hf. by rewrite bool_decide_true in Hf. }
    split; [|split; [by rewrite H2, Ho|intros k Hk; rewrite H3, Ho by set_solver; done]]. eapply collects_trans; [|exact H1].
    eapply (collects_one s ks (key info)); [done|set_solver|eassumption| |done|done].
    intros k' Hk'. by apply withheld_point_cell, Ho.
  - subst. apply IH in H as (H1 & H2 & H3); [|set_solver].
    split; [done|]. split; [done|]. intros k Hk. apply H3. set_solver.
Qed.
(** ** Harvesting to the mint *)

(** The mint at [k] has the fields [b] and the fee configuration [c]. *)
Definition fee_mint (w : World) (k : Address) (b : PodMint) (c : ConfidentialTransferFeeConfig) : Prop :=
  exists mt, mint_account w k mt /\ base mt = b /\ get_extension ConfidentialTransferFeeConfig mt = Ok c.

Lemma store_fee_mint k mt c put c' w w1 :
  cell_owner (cell w k) = id -> unpack_mut PodMint (cell_data (cell w k)) = Ok mt ->
  get_extension_mut ConfidentialTransferFeeConfig mt = Ok (c, put) -> cell w1 k = cell w k ->
  fee_mint w k (base mt) c /\ fee_mint (store k (put c') w1) k (base mt) c'.
Proof.
  intros Ho Hu Hg Ec. pose proof (get_put_mut _ _ _ _ c' Hg) as Hc'.
  pose proof (put_mut_same_shape _ _ _ _ c' Hg) as Hs. apply get_extension_mut_place in Hg as [Hc _].
  split; [by exists mt|]. exists (put c'). split; [|by split; [apply Hs|]].
  split; [by rewrite owner_store, Ec|]. rewrite data_store. eapply replaces_unpack; [exact Hu|].
  by eapply same_shape_replaces.
Qed.

(** A mint withholds nothing as an account. *)
Lemma withheld_point_mint s w k b c : fee_mint w k b c -> withheld_point s w k = pzero.
Proof.
  intros (mt & [_ Hu] & _). unfold withheld_point.
  destruct (unpack_mut PodAccount _) eqn:Ha; [by destruct (account_mint_exclusive _ _ _ Ha Hu)|done..].
Qed.

(** C15: harvesting moves the withheld fees of accounts to the mint: when the mint
    allows it, whatever a secret decrypts the fees to that the listed accounts
    withhold, the sum over them decreases by what the withheld amount of the mint
    increases by, under the same secret; accounts that are not of the mint, or
    without the extension, are skipped, and neither the mint's other settings nor
    any account that is not listed changes. *)
Theorem confidential_harvest_conserves accounts w w' :
  process_harvest_withheld_tokens_to_mint accounts w = Ok (tt, w') ->
  exists mi infos b c c',
    accounts = mi :: infos /\
    fee_mint w (key mi) b c /\ fee_mint w' (key mi) b c' /\
    bool_get (ctfc_harvest_to_mint_enabled c) = true /\
    c' = ctfc_set_withheld (ctfc_withheld_amount c') c /\
    (forall k, k <> key mi -> k ∉ key <$> infos -> cell w' k = cell w k) /\
    forall s ks, NoDup ks -> (forall i, i ∈ infos -> key i ∈ ks) ->
      collects s ks (ctfc_withheld_amount c) (ctfc_withheld_amount c')
        (withheld_point s w) (withheld_point s w').
Proof.
  unfold process_harvest_withheld_tokens_to_mint. intros H. m_inv.
  match goal with Hl : harvest_all _ _ _ _ = Ok (?v, _) |- _ =>
    rename Hl into Hloop; rename v into v' end.
  pose proof (fun s ks => harvest_all_collects s _ _ _ _ _ _ ks Hloop) as Hc.
  destruct (Hc 0 (remove_dups (key <$> l))) as (_ & Ec & Hother).
  { apply NoDup_remove_dups. }
  { intros i Hi. apply elem_of_remove_dups, list_elem_of_fmap. by exists i. }
  match goal with Hu : unpack_mut PodMint _ = Ok ?mt, Hg : get_extension_mut _ ?mt = Ok (?c, ?p) |- _ =>
    destruct (store_fee_mint (key a) mt c p (ctfc_set_withheld v' c) w _ Hown Hu Hg Ec) as [H1 H2];
    exists a, l, (base mt), c, (ctfc_set_withheld v' c); split_and!; try done end.
  { intros k Hk Hkl. rewrite cell_store_ne by done. by apply Hother. }
  intros s ks Hnd Hin. destruct (Hc s ks Hnd Hin) as [Hcol _].
  eapply collects_trans; [exact Hcol|apply collects_refl].
  intros k. destruct (decide (k = key a)) as [->|Hne].
  - rewrite (withheld_point_mint s _ _ _ _ H2). symmetry. 
    rewrite (withheld_point_cell s w) by done. by eapply withheld_point_mint.
  - apply withheld_point_cell. by apply cell_store_ne.
Qed.
(** ** Withdrawing *)

Lemma credit_available e v a (m : E) pk :
  ciphertext_arithmetic.add (cta_available_balance e) v = Some a -> cta_elgamal_pubkey e = pk ->
  (exists r, encryption pk m r v) ->
  forall s x p, keypair s pk -> opens s e = Some (x, p) ->
    opens s (cta_set_available a e) = Some (x + m, p)%point.
Proof.
  intros Ha Ek [r Hr] s x p Hk Ho. eapply available_change; [exact Ho|]. intros Hx.
  rewrite (bind_decrypt s _ _ _ Ha (add_decrypt s _ _)), Hx.
  by rewrite (encryption_decrypt s pk m r v).
Qed.

(** The withdraw authority of the mint's fees approves. *)
Definition withdraw_approved (pid : Address) (mt : PodStateMut PodMint) (w : World) : Prop :=
  exists config auth ai signers, get_extension TransferFeeConfig mt = Ok config /\
    maybe_null_get (tfc_withdraw_withheld_authority config) = Some auth /\
    authorizes pid auth ai (length (cell_data (cell w (key ai)))) signers w.

Lemma withdraw_authority_signs_Ok pid mi mt ai signers w u w' :
  withdraw_authority_signs pid mi mt ai (length (cell_data (cell w (key ai)))) signers w = Ok (u, w') ->
  withdraw_approved pid mt w.
Proof. unfold withdraw_authority_signs. intros H. m_inv. by do 4 eexists. Qed.

(** withdrawing the withheld fees of a mint moves all of them to an account:
    with the approval of the withdraw authority, and when the equality proof
    states a true statement, the amount that the mint withheld under the key of
    that authority becomes nothing, and the available balance of the destination,
    an account of the mint that is not frozen, increases by the same amount under
    its own key; its pending balance is kept, and no other account changes. *)
Theorem confidential_withdraw_from_mint_conserves pid accounts nb off w w' :
  process_withdraw_withheld_tokens_from_mint pid accounts nb off w = Ok (tt, w') ->
  proofs_hold (E := E) w ->
  exists mi di rest mt c c' b e e' (m : E),
    accounts = mi :: di :: rest /\ mint_account w (key mi) mt /\ withdraw_approved pid mt w /\
    fee_mint w (key mi) (base mt) c /\ fee_mint w' (key mi) (base mt) c' /\
    confidential_account w (key di) b e /\ confidential_account w' (key di) b e' /\
    mint b = key mi /\ is_frozen b = false /\
    (forall k, k <> key mi -> k <> key di -> cell w' k = cell w k) /\
    c' = ctfc_set_withheld (zeroed 64) c /\ cta_elgamal_pubkey e' = cta_elgamal_pubkey e /\
    (forall s, keypair s (ctfc_withdraw_withheld_authority_elgamal_pubkey c) ->
       decrypt s (ctfc_withheld_amount c) = Some m /\
       decrypt s (ctfc_withheld_amount c') = Some (pzero : E)) /\
    forall s x p, keypair s (cta_elgamal_pubkey e) -> opens s e = Some (x, p) ->
      opens s e' = Some (x + m, p)%point.
Proof.
  unfold process_withdraw_withheld_tokens_from_mint. intros H Hw. m_inv.
  match goal with Hp : verify_and_extract_context _ _ _ _ _ _ _ = Ok ((?ctx, _), _),
      Hs : withdraw_authority_signs _ _ _ _ _ _ _ = Ok _, H1 : cce_first_pubkey _ = _,
      H2 : cce_second_pubkey _ = _, H3 : cce_first_ciphertext _ = _ |- _ =>
    destruct (equality_hold _ Hw _ _ _ _ _ _ Hp) as (m & Hfirst & Hsecond);
    rewrite H1, H3 in Hfirst; rewrite H2 in Hsecond;
    apply withdraw_authority_signs_Ok in Hs; clear Hp end.
  match goal with Hum : unpack_mut PodMint _ = Ok ?mt, Hu : unpack_mut PodAccount _ = Ok ?st,
      Hg : get_extension_mut ConfidentialTransferFeeConfig _ = Ok (?c, ?p),
      Hq : get_extension_mut ConfidentialTransferAccount _ = Ok (?e, ?q)
      |- context [store _ (?q ?e') (store _ (?p ?c') _)] =>
    rename Hown into Hod; rename Hown0 into Hom;
    destruct (becomes_put_same _ st e q e' Hu Hq) as [He Hb];
    destruct (rewrites_store (key a0) st _ (base st) e e' w Hod Hu He Hb eq_refl) as (Hr1 & Hr2 & _);
    assert (key a <> key a0) as Hne
      by (intros E0; rewrite E0 in Hum; by eapply account_mint_exclusive);
    destruct (store_fee_mint (key a) mt c p c' w (store (key a0) (q e') w) Hom Hum Hg
      ltac:(by apply cell_store_ne)) as [Hf1 Hf2];
    exists a, a0; eexists; exists mt, c, c', (base st), e, e', m end.
  rewrite (store_comm (key a0)) by congruence.
  do 3 (split; [done|]). split; [exact Hf1|]. split; [exact Hf2|]. split; [exact Hr1|].
  split; [by apply confidential_account_ne|]. do 2 (split; [done|]).
  split; [intros k H1 H2; by rewrite !cell_store_ne|]. do 2 (split; [done|]). split.
  - intros s Hs. split; [by apply Hfirst|]. by apply zeroed_decrypt.
  - intros s x q Hk Ho.
    eapply (credit_available c1); [eassumption|reflexivity|exact Hsecond|exact Hk|exact Ho].
Qed.
(** The loop over the sources: the view [st] of the account [dk] is in memory. *)
Definition withheld_with (s : Z) (dk : Address) (st : PodStateMut PodAccount) (w : World) (k : Address)
    : E :=
  if decide (k = dk) then withheld_view s st else withheld_point s w k.

(** The view changes in its withheld amount only. *)
Definition same_but_fee (st st' : PodStateMut PodAccount) : Prop :=
  same_shape st st' /\
  get_extension ConfidentialTransferAccount st' = get_extension ConfidentialTransferAccount st.

Lemma same_but_fee_refl st : same_but_fee st st.
Proof. by split; [split_and!|]. Qed.

Lemma same_but_fee_trans a b c : same_but_fee a b -> same_but_fee b c -> same_but_fee a c.
Proof.
  intros [(B1 & P1 & A1 & L1) E1] [(B2 & P2 & A2 & L2) E2]. split; [|congruence].
  split_and!; congruence.
Qed.

Lemma same_but_fee_put st e put v :
  get_extension_mut ConfidentialTransferFeeAmount st = Ok (e, put) -> same_but_fee st (put v).
Proof.
  intros Hg. split; [by eapply put_mut_same_shape|]. by eapply get_put_mut_other.
Qed.

Lemma sum_withheld_collects s mk dk st agg infos st' agg' w w' ks :
  sum_withheld mk dk st agg infos w = Ok ((st', agg'), w') -> NoDup ks ->
  (forall i, i ∈ infos -> key i ∈ ks) ->
  collects s ks agg agg' (withheld_with s dk st w) (withheld_with s dk st' w') /\
  same_but_fee st st' /\ cell w' mk = cell w mk /\ cell w' dk = cell w dk /\
  forall k, k ∉ key <$> infos -> cell w' k = cell w k.
Proof.
  intros H Hnd. revert st agg w H.
  induction infos as [|info infos IH]; intros st agg w H Hin; cbn [sum_withheld] in H.
  { m_inv. split; [by apply collects_refl|]. by split; [apply same_but_fee_refl|]. }
  case_bool_decide as Ek; m_inv.
  - apply IH in H as (H1 & H2 & H3 & H4 & H5); [|set_solver].
    match goal with Hg : get_extension_mut _ st = Ok (?e, ?p), Ha : ciphertext_arithmetic.add _ _ = _ |- _ =>
      destruct (withheld_view_put s _ _ _ Hg) as [E1 E2];
      pose proof (same_but_fee_put _ _ _ (mk_ctfa (zeroed 64)) Hg) as Hsame;
      rename Ha into Hadd end.
    split; [|split; [by eapply same_but_fee_trans|do 2 (split; [done|]); set_solver]].
    eapply collects_trans; [|exact H1].
    eapply (collects_one s ks dk); [done|rewrite <- Ek; set_solver|exact Hadd|..]; unfold withheld_with.
    + intros k Hk. by rewrite !decide_False.
    + by rewrite decide_True.
    + by rewrite decide_True.
  - match goal with H : transfer_fee.attempt _ _ = Ok (?o, _) |- _ =>
      apply (attempt_harvest_cases s) in H; destruct o as [v|] end; m_inv.
    + match goal with H : _ /\ _ /\ _ /\ _ |- _ => destruct H as (Ev & Ez & Ho & Hf) end.
      apply IH in H as (H1 & H2 & H3 & H4 & H5); [|set_solver].
      assert (mk <> key info) as Hne.
      { intros ->. cbn in Hf. by rewrite bool_decide_true in Hf. }
      split; [|split; [done|split; [by rewrite H3, Ho|split; [by rewrite H4, Ho by congruence|]]]];
        [|intros k Hk; rewrite H5, Ho by set_solver; done].
      eapply collects_trans; [|exact H1].
      eapply (collects_one s ks (key info)); [done|set_solver|eassumption|..]; unfold withheld_with.
      * intros k Hk. case_decide; [done|]. by apply withheld_point_cell, Ho.
      * by rewrite decide_False.
      * by rewrite decide_False.
    + subst. apply IH in H as (H1 & H2 & H3 & H4 & H5); [|set_solver].
      do 4 (split; [done|]). intros k Hk. apply H5. set_solver.
Qed.
Lemma becomes_stored k st st' b e' w w1 :
  cell_owner (cell w k) = id -> unpack_mut PodAccount (cell_data (cell w k)) = Ok st ->
  becomes st st' b e' -> cell w1 k = cell w k -> confidential_account (store k st' w1) k b e'.
Proof.
  intros Ho Hu (Hr & <- & He) Ec. exists st'. split; [|done].
  split; [by rewrite owner_store, Ec|]. rewrite data_store. by eapply replaces_unpack.
Qed.

(** The view is rewritten after the loop. *)
Lemma becomes_after_fee d st st1 e e1 put e' :
  unpack_mut PodAccount d = Ok st -> get_extension ConfidentialTransferAccount st = Ok e ->
  same_but_fee st st1 -> get_extension_mut ConfidentialTransferAccount st1 = Ok (e1, put) ->
  e1 = e /\ becomes st (put e') (base st) e'.
Proof.
  intros Hu He [Hs Hx] Hg. pose proof (put_mut_same_shape _ _ _ _ e' Hg) as Hs'.
  pose proof (get_put_mut _ _ _ _ e' Hg) as He'.
  apply get_extension_mut_place in Hg as [Hg _]. split; [congruence|].
  split; [eapply same_shape_replaces, same_shape_trans; done|]. split; [|done].
  rewrite (proj1 Hs'). apply Hs.
Qed.

(** C16: withdrawing the withheld fees of accounts moves all that was collected to
    one account: with the approval of the withdraw authority, and when the
    equality proof states a true statement, some amount leaves the sum of what
    the listed accounts withhold under the key of that authority, and the
    available balance of the destination, an account of the mint that is not
    frozen, increases by it under its own key, also when the destination is one
    of the listed accounts; its pending balance is kept, and no account that is
    not listed changes. *)
Theorem confidential_withdraw_from_accounts_conserves pid accounts num nb off w w' :
  process_withdraw_withheld_tokens_from_accounts pid accounts num nb off w = Ok (tt, w') ->
  proofs_hold (E := E) w ->
  exists mi di rest ctx ai infos mt c b e e' (m : E),
    let sources := drop (length infos - Z.to_nat (u8_to_Z num)) infos in
    accounts = mi :: di :: rest /\
    verify_and_extract_context CiphertextCiphertextEqualityProofContext
      ProofType.CiphertextCiphertextEquality [] rest off None w = Ok ((ctx, ai :: infos), w) /\
    mint_account w (key mi) mt /\ withdraw_approved pid mt w /\
    get_extension ConfidentialTransferFeeConfig mt = Ok c /\
    confidential_account w (key di) b e /\ confidential_account w' (key di) b e' /\
    mint b = key mi /\ is_frozen b = false /\ cta_elgamal_pubkey e' = cta_elgamal_pubkey e /\
    (forall k, k <> key di -> k ∉ key <$> sources -> cell w' k = cell w k) /\
    (forall s ks, keypair s (ctfc_withdraw_withheld_authority_elgamal_pubkey c) -> NoDup ks ->
       (forall i, i ∈ sources -> key i ∈ ks) ->
       point_sum (withheld_point s w) ks = (point_sum (withheld_point s w') ks + m)%point) /\
    forall s x p, keypair s (cta_elgamal_pubkey e) -> opens s e = Some (x, p) ->
      opens s e' = Some (x + m, p)%point.
Proof.
  unfold process_withdraw_withheld_tokens_from_accounts. intros H Hw. m_inv.
  match goal with Hp : verify_and_extract_context _ _ _ _ _ _ _ = Ok ((?ctx, _), _),
      Hs : withdraw_authority_signs _ _ _ _ _ _ _ = Ok _, H1 : cce_first_pubkey _ = _,
      H2 : cce_second_pubkey _ = _, H3 : cce_first_ciphertext _ = _,
      Hl : sum_withheld _ _ _ _ _ _ = Ok _ |- _ =>
    destruct (equality_hold _ Hw _ _ _ _ _ _ Hp) as (m & Hfirst & Hsecond);
    rewrite H1, H3 in Hfirst; rewrite H2 in Hsecond;
    apply withdraw_authority_signs_Ok in Hs; rename Hl into Hloop; rename Hp into Hproof end.
  pose proof (fun s ks => sum_withheld_collects s _ _ _ _ _ _ _ _ _ ks Hloop) as Hcol.
  destruct (Hcol 0 (remove_dups (key <$> drop (length l2 - Z.to_nat (u8_to_Z num)) l2)))
    as (_ & Hsame & _ & Ed & Hother); [apply NoDup_remove_dups| |].
  { intros i Hi. apply elem_of_remove_dups, list_elem_of_fmap. by exists i. }
  match goal with Hu : unpack_mut PodAccount _ = Ok ?st, Hum : unpack_mut PodMint _ = Ok ?mt,
      He : get_extension ConfidentialTransferAccount ?st = Ok ?e,
      Hq : get_extension_mut ConfidentialTransferAccount ?st1 = Ok (?e1, ?q),
      Hc : get_extension ConfidentialTransferFeeConfig _ = Ok ?c
      |- context [store _ (?q ?e2) ?w1] =>
    destruct (becomes_after_fee _ st st1 e e1 q e2 Hu He Hsame Hq) as [Ee Hb];
    exists a, a0, l0; do 3 eexists; exists mt, c, (base st), e, e2, m end.
  do 2 (split; [done|]). do 3 (split; [done|]). split; [by exists a9|].
  subst c0. split; [eapply becomes_stored; [exact Hown|exact Hm10|exact Hb|exact Ed]|].
  do 3 (split; [done|]).
  split; [intros k Hk Hks; rewrite cell_store_ne by done; by apply Hother|]. split.
  - intros s ks Hs Hnd Hin. destruct (Hcol s ks Hnd Hin) as [Hsum _].
    destruct (Hsum _ (zeroed_decrypt s)) as (z & Hz & Esum).
    rewrite Hfirst, pplus_0_l in Hz by done. injection Hz as <-.
    transitivity (point_sum (withheld_with s (key a0) a9 w) ks); [|rewrite Esum; f_equal];
      apply point_sum_ext; intros k _; unfold withheld_with; (case_decide as Ek; [subst k|]).
    + unfold withheld_point. by match goal with H : unpack_mut PodAccount _ = Ok a9 |- _ => rewrite H end.
    + done.
    + erewrite withheld_point_store; [|exact Hm10|apply Hb]. unfold withheld_view.
      erewrite get_put_mut_other; [done|eassumption|done].
    + symmetry. by apply withheld_point_cell, cell_store_ne.
  - intros s x q Hk Ho.
    eapply (credit_available a12); [eassumption|reflexivity|exact Hsecond|exact Hk|exact Ho].
Qed.
End theory.
