(* ===== verification/UiAmount.v ===== *)
(** * Amounts as decimal strings

    [program/src/lib.rs]: a raw amount printed with the mint's decimals and
    read back, the conversions of the interest-bearing and scaled extensions
    ([interface/src/extension]), and the handlers [process_amount_to_ui_amount] and
    [process_ui_amount_to_amount] of [program/src/processor.rs].  Strings are
    their UTF-8 bytes.  The operations of [f64] are parameters ([Float64]). *)
From S2P Require Import Prelude Bytes Errors Ids Runtime Pod ExtensionState Extension TlvTheory.
From S2P Require Import ViewTheory MonadTheory Ownership Settings.

(** ** Decimal digits *)

Definition ZERO : byte := x30.
Definition DOT : byte := x2e.
Definition PLUS : byte := x2b.

Definition digit (d : Z) : byte := u8_of_Z (48 + d).

(** The value of an ASCII digit. *)
Definition digit_value (b : byte) : option Z :=
  let d := u8_to_Z b - 48 in if in_range 0 9 d then Some d else None.

(** [u64::to_string]; a [u64] has at most twenty digits. *)
Fixpoint decimal (fuel : nat) (z : Z) (acc : list byte) : list byte :=
  match fuel with
  | O => acc
  | S fuel =>
      let acc := digit (z mod 10) :: acc in
      if z / 10 =? 0 then acc else decimal fuel (z / 10) acc
  end.
Definition u64_to_string (z : Z) : list byte := decimal 20 z [].

(** [str::parse::<u64>]: an optional plus sign and at least one digit. *)
Fixpoint parse_digits (acc : Z) (s : list byte) : option Z :=
  match s with
  | [] => Some acc
  | b :: s =>
      d ← digit_value b;
      acc ← checked 0 u64_max (acc * 10);
      acc ← checked 0 u64_max (acc + d);
      parse_digits acc s
  end.
Definition parse_u64 (s : list byte) : option Z :=
  match s with
  | [] => None
  | b :: rest =>
      if bool_decide (b = PLUS)
      then match rest with [] => None | _ => parse_digits 0 rest end
      else parse_digits 0 s
  end.

(** [str::trim_end_matches(c)] and [str::split('.')], for a one-byte [c]. *)
Fixpoint skip (c : byte) (s : list byte) : list byte :=
  match s with
  | [] => []
  | b :: rest => if bool_decide (b = c) then skip c rest else s
  end.
Definition trim_end_matches (c : byte) (s : list byte) : list byte :=
  reverse (skip c (reverse s)).

Fixpoint split_dot (s : list byte) : list (list byte) :=
  match s with
  | [] => [[]]
  | b :: rest =>
      if bool_decide (b = DOT) then [] :: split_dot rest
      else match split_dot rest with
           | part :: parts => (b :: part) :: parts
           | [] => [[b]]
           end
  end.

(** [format!("{:01$}", amount, width)]: zeros on the left. *)
Definition zero_padded (width : nat) (s : list byte) : list byte :=
  replicate (width - length s) ZERO ++ s.

(** ** [program/src/lib.rs] *)

Definition amount_to_ui_amount_string (amount : Z) (decimals : byte) : list byte :=
  let decimals := Z.to_nat (u8_to_Z decimals) in
  if (0 <? decimals)%nat then
    let s := zero_padded (decimals + 1) (u64_to_string amount) in
    let point := (length s - decimals)%nat in
    take point s ++ [DOT] ++ drop point s
  else u64_to_string amount.

Definition trim_ui_amount_string (ui_amount : list byte) (decimals : byte) : list byte :=
  if 0 <? u8_to_Z decimals
  then trim_end_matches DOT (trim_end_matches ZERO ui_amount)
  else ui_amount.

Definition amount_to_ui_amount_string_trimmed (amount : Z) (decimals : byte) : list byte :=
  trim_ui_amount_string (amount_to_ui_amount_string amount decimals) decimals.

Definition is_empty (s : list byte) : bool := match s with [] => true | _ => false end.

Definition try_ui_amount_into_amount (ui_amount : list byte) (decimals : byte)
    : Result ProgramError Z :=
  let decimals := Z.to_nat (u8_to_Z decimals) in
  let parts := split_dot ui_amount in
  let amount_str := default [] (parts !! 0%nat) in
  let after_decimal := trim_end_matches ZERO (default [] (parts !! 1%nat)) in
  if (is_empty amount_str && is_empty after_decimal) ||
     bool_decide (is_Some (parts !! 2%nat)) || (decimals <? length after_decimal)%nat
  then Err ProgramError.InvalidArgument
  else
    ok_or (parse_u64 (amount_str ++ after_decimal ++
                      replicate (decimals - length after_decimal) ZERO))
      ProgramError.InvalidArgument.

(** [std::str::from_utf8]: whether the bytes are well-formed UTF-8. *)
Definition is_cont (lo hi : Z) (b : byte) : bool := in_range lo hi (u8_to_Z b).
Fixpoint valid_utf8 (s : list byte) : bool :=
  match s with
  | [] => true
  | b0 :: s =>
      let c := u8_to_Z b0 in
      if in_range 0 127 c then valid_utf8 s
      else match s with
      | [] => false
      | b1 :: s =>
          if in_range 194 223 c then is_cont 128 191 b1 && valid_utf8 s
          else match s with
          | [] => false
          | b2 :: s =>
              let three :=
                ((c =? 224) && is_cont 160 191 b1) || ((c =? 237) && is_cont 128 159 b1) ||
                ((in_range 225 236 c || in_range 238 239 c) && is_cont 128 191 b1) in
              if three then is_cont 128 191 b2 && valid_utf8 s
              else match s with
              | [] => false
              | b3 :: s =>
                  (((c =? 240) && is_cont 144 191 b1) || ((c =? 244) && is_cont 128 143 b1) ||
                   (in_range 241 243 c && is_cont 128 191 b1)) &&
                  is_cont 128 191 b2 && is_cont 128 191 b3 && valid_utf8 s
              end
          end
      end
  end.

(** ** Amounts scaled in floating point *)

(** What the source uses of [f64] and of [num_traits] ([Float], [pow]):
    [f64_of_Z] is [as f64] on an integer, [f64_decimal n k] the literal
    [n / 10^k], [f64_as_u64] the saturating [as u64], [f64_fixed] the format
    [{:.*}], [f64_parse] [str::parse]. *)
Class Float64 : Type := mk_float64 {
  f64 : Type;
  f64_of_Z : Z -> f64;
  f64_decimal : Z -> nat -> f64;
  f64_from_le_bytes : PodF64 -> f64;
  f64_mul : f64 -> f64 -> f64;
  f64_div : f64 -> f64 -> f64;
  f64_pow : f64 -> nat -> f64;
  f64_exp : f64 -> f64;
  f64_round : f64 -> f64;
  f64_trunc : f64 -> f64;
  f64_ltb : f64 -> f64 -> bool;
  f64_is_nan : f64 -> bool;
  f64_as_u64 : f64 -> Z;
  f64_fixed : nat -> f64 -> list byte;
  f64_parse : list byte -> option f64
}.

Section scaled.
Context `{F64 : Float64}.

(** The guard on the quotient, which both conversions share. *)
Definition out_of_u64 (amount : f64) : bool :=
  f64_ltb (f64_of_Z u64_max) amount || f64_ltb amount (f64_of_Z 0) || f64_is_nan amount.

Definition TEN : f64 := f64_decimal 10 0.
Definition ONE_IN_BASIS_POINTS : f64 := f64_decimal 10000 0.
Definition SECONDS_PER_YEAR : f64 :=
  f64_mul (f64_mul (f64_mul (f64_decimal 60 0) (f64_decimal 60 0)) (f64_decimal 24 0))
    (f64_decimal 36524 2).

(** [InterestBearingConfig]. *)
Definition pre_update_timespan (e : InterestBearingConfig) : option Z :=
  checked i64_min i64_max (i64_get (ibc_last_update_timestamp e) - i64_get (ibc_initialization_timestamp e)).

Definition pre_update_exp (e : InterestBearingConfig) : option f64 :=
  timespan ← pre_update_timespan e;
  numerator ← interest_bearing_mint.i128_checked (i16_get (ibc_pre_update_average_rate e) * timespan);
  mret (f64_exp (f64_div (f64_div (f64_of_Z numerator) SECONDS_PER_YEAR) ONE_IN_BASIS_POINTS)).

Definition post_update_timespan (e : InterestBearingConfig) (unix_timestamp : Z) : option Z :=
  checked i64_min i64_max (unix_timestamp - i64_get (ibc_last_update_timestamp e)).

Definition post_update_exp (e : InterestBearingConfig) (unix_timestamp : Z) : option f64 :=
  timespan ← post_update_timespan e unix_timestamp;
  numerator ← interest_bearing_mint.i128_checked (i16_get (ibc_current_rate e) * timespan);
  mret (f64_exp (f64_div (f64_div (f64_of_Z numerator) SECONDS_PER_YEAR) ONE_IN_BASIS_POINTS)).

Definition total_scale (e : InterestBearingConfig) (decimals : byte) (unix_timestamp : Z)
    : option f64 :=
  pre ← pre_update_exp e;
  post ← post_update_exp e unix_timestamp;
  mret (f64_div (f64_mul pre post) (f64_pow TEN (Z.to_nat (u8_to_Z decimals)))).

Definition interest_amount_to_ui_amount (e : InterestBearingConfig) (amount : Z) (decimals : byte)
    (unix_timestamp : Z) : option (list byte) :=
  scale ← total_scale e decimals unix_timestamp;
  let scaled_amount_with_interest := f64_mul (f64_of_Z amount) scale in
  let ui_amount := f64_fixed (Z.to_nat (u8_to_Z decimals)) scaled_amount_with_interest in
  mret (trim_ui_amount_string ui_amount decimals).

Definition interest_try_ui_amount_into_amount (e : InterestBearingConfig) (ui_amount : list byte)
    (decimals : byte) (unix_timestamp : Z) : Result ProgramError Z :=
  scaled_amount ← ok_or (f64_parse ui_amount) ProgramError.InvalidArgument;
  scale ← ok_or (total_scale e decimals unix_timestamp) ProgramError.InvalidArgument;
  let amount := f64_div scaled_amount scale in
  if out_of_u64 amount then Err ProgramError.InvalidArgument
  else mret (f64_as_u64 (f64_round amount)).

(** [ScaledUiAmountConfig]. *)
Definition current_multiplier (e : ScaledUiAmountConfig) (unix_timestamp : Z) : f64 :=
  if i64_get (sua_new_multiplier_effective_timestamp e) <=? unix_timestamp
  then f64_from_le_bytes (sua_new_multiplier e) else f64_from_le_bytes (sua_multiplier e).

Definition total_multiplier (e : ScaledUiAmountConfig) (decimals : byte) (unix_timestamp : Z)
    : f64 :=
  f64_div (current_multiplier e unix_timestamp) (f64_pow TEN (Z.to_nat (u8_to_Z decimals))).

Definition scaled_amount_to_ui_amount (e : ScaledUiAmountConfig) (amount : Z) (decimals : byte)
    (unix_timestamp : Z) : option (list byte) :=
  let scaled_amount := f64_mul (f64_of_Z amount) (total_multiplier e decimals unix_timestamp) in
  let ui_amount := f64_fixed (Z.to_nat (u8_to_Z decimals)) scaled_amount in
  mret (trim_ui_amount_string ui_amount decimals).

Definition scaled_try_ui_amount_into_amount (e : ScaledUiAmountConfig) (ui_amount : list byte)
    (decimals : byte) (unix_timestamp : Z) : Result ProgramError Z :=
  scaled_amount ← ok_or (f64_parse ui_amount) ProgramError.InvalidArgument;
  let amount := f64_div scaled_amount (total_multiplier e decimals unix_timestamp) in
  if out_of_u64 amount then Err ProgramError.InvalidArgument
  else mret (f64_as_u64 (f64_trunc amount)).
End scaled.

(** ** The handlers *)

Section handlers.
Context `{RT : Runtime} `{F64 : Float64}.

(** What the two handlers share: the mint, and the conversion its extensions
    ask for. *)
Definition with_mint_scale {A} (accounts : list AccountInfo)
    (interest : InterestBearingConfig -> byte -> Z -> Result ProgramError A)
    (scaled : ScaledUiAmountConfig -> byte -> Z -> Result ProgramError A)
    (plain : byte -> Result ProgramError A) : M A :=
  '(mint_info, _) ← lift (next_account_info accounts);
  _ ← check_owner mint_info;
  mint_data ← borrow [] mint_info;
  mint ← lift (map_err (fun _ => token_error_into TokenError.InvalidMint)
                 (unpack PodMint mint_data));
  match get_extension InterestBearingConfig mint with
  | Ok extension =>
      clock ← lift rt_clock;
      lift (interest extension (decimals (state_base mint)) (clock_unix_timestamp clock))
  | _ =>
      match get_extension ScaledUiAmountConfig mint with
      | Ok extension =>
          clock ← lift rt_clock;
          lift (scaled extension (decimals (state_base mint)) (clock_unix_timestamp clock))
      | _ => lift (plain (decimals (state_base mint)))
      end
  end.

Definition process_amount_to_ui_amount (accounts : list AccountInfo) (amount : Z) : M unit :=
  ui_amount ← with_mint_scale accounts
    (fun extension decimals unix_timestamp =>
       ok_or (interest_amount_to_ui_amount extension amount decimals unix_timestamp)
         ProgramError.InvalidArgument)
    (fun extension decimals unix_timestamp =>
       ok_or (scaled_amount_to_ui_amount extension amount decimals unix_timestamp)
         ProgramError.InvalidArgument)
    (fun decimals => Ok (amount_to_ui_amount_string_trimmed amount decimals));
  set_return_data ui_amount.

Definition process_ui_amount_to_amount (accounts : list AccountInfo) (ui_amount : list byte)
    : M unit :=
  amount ← with_mint_scale accounts
    (fun extension decimals unix_timestamp =>
       interest_try_ui_amount_into_amount extension ui_amount decimals unix_timestamp)
    (fun extension decimals unix_timestamp =>
       scaled_try_ui_amount_into_amount extension ui_amount decimals unix_timestamp)
    (fun decimals => try_ui_amount_into_amount ui_amount decimals);
  set_return_data (to_le_bytes 8 amount).

End handlers.

(** ** Reading digits *)

Definition is_digit (b : byte) : Prop := is_Some (digit_value b).

Lemma digit_value_range b d : digit_value b = Some d -> 0 <= d <= 9.
Proof.
  unfold digit_value. intros H. destruct (in_range 0 9 _) eqn:E; [|done].
  injection H as <-. by apply in_range_spec in E.
Qed.

Lemma digit_value_digit d : 0 <= d <= 9 -> digit_value (digit d) = Some d.
Proof.
  intros Hd. unfold digit_value, digit. rewrite u8_to_of_Z, Z.mod_small by lia.
  replace (48 + d - 48) with d by lia. by rewrite (proj2 (in_range_spec 0 9 d)).
Qed.

(** The value of a digit string read from [acc] on. *)
Fixpoint value_from (acc : Z) (s : list byte) : Z :=
  match s with
  | [] => acc
  | b :: s => value_from (acc * 10 + default 0 (digit_value b)) s
  end.

Lemma value_from_app acc s t : value_from acc (s ++ t) = value_from (value_from acc s) t.
Proof. revert acc. induction s; intros; simpl; auto. Qed.

Lemma value_from_ge acc s : Forall is_digit s -> 0 <= acc -> acc <= value_from acc s.
Proof.
  intros Hs. revert acc. induction Hs as [|b s [d Hd] Hs IH]; intros acc Ha; simpl; [lia|].
  pose proof (digit_value_range _ _ Hd). rewrite Hd. simpl.
  transitivity (acc * 10 + d); [lia|]. apply IH. lia.
Qed.

Lemma value_from_zeros n acc s : acc = 0 -> value_from acc (replicate n ZERO ++ s) = value_from 0 s.
Proof. intros ->. induction n; [done|exact IHn]. Qed.

Lemma parse_digits_value acc s :
  Forall is_digit s -> 0 <= acc -> value_from acc s <= u64_max ->
  parse_digits acc s = Some (value_from acc s).
Proof.
  intros Hs. revert acc. induction Hs as [|b s [d Hd] Hs IH]; intros acc Ha Hv; simpl in *; [done|].
  pose proof (digit_value_range _ _ Hd). rewrite Hd in *. simpl in *.
  assert (acc * 10 + d <= value_from (acc * 10 + d) s) by (apply value_from_ge; [done|lia]).
  rewrite (proj2 (checked_Some 0 u64_max (acc * 10) _)) by (split; [reflexivity|lia]). simpl.
  rewrite (proj2 (checked_Some 0 u64_max (acc * 10 + d) _)) by (split; [reflexivity|lia]). simpl.
  apply IH; [lia|done].
Qed.

Lemma plus_no_digit : ~ is_digit PLUS.
Proof. intros [d Hd]. by vm_compute in Hd. Qed.
Lemma dot_no_digit : ~ is_digit DOT.
Proof. intros [d Hd]. by vm_compute in Hd. Qed.

Lemma parse_u64_digits s :
  s <> [] -> Forall is_digit s -> value_from 0 s <= u64_max -> parse_u64 s = Some (value_from 0 s).
Proof.
  intros Hne Hs Hv. unfold parse_u64. destruct s as [|b s]; [done|].
  rewrite bool_decide_false; [by apply parse_digits_value|].
  intros ->. apply Forall_cons in Hs as [Hp _]. by apply plus_no_digit.
Qed.

(** ** Printing *)

Lemma decimal_digits fuel z acc :
  0 <= z -> Forall is_digit acc -> Forall is_digit (decimal fuel z acc).
Proof.
  revert z acc. induction fuel as [|fuel IH]; intros z acc Hz Ha; simpl; [done|].
  assert (Forall is_digit (digit (z mod 10) :: acc)).
  { constructor; [|done]. eexists. apply digit_value_digit.
    pose proof (Z.mod_pos_bound z 10). lia. }
  destruct (z / 10 =? 0); [done|]. apply IH; [|done]. apply Z.div_pos; lia.
Qed.

Lemma decimal_nonempty fuel z acc : acc <> [] -> decimal fuel z acc <> [].
Proof. revert z acc. induction fuel; intros; simpl; [done|]. destruct (_ =? _); auto. Qed.

Lemma decimal_value fuel z acc :
  0 <= z < 10 ^ Z.of_nat fuel -> value_from 0 (decimal fuel z acc) = value_from z acc.
Proof.
  revert z acc. induction fuel as [|fuel IH]; intros z acc Hz; simpl.
  { simpl in Hz. by replace z with 0 by lia. }
  rewrite Nat2Z.inj_succ, Z.pow_succ_r in Hz by lia.
  pose proof (Z.mod_pos_bound z 10). pose proof (Z.div_mod z 10).
  destruct (Z.eqb_spec (z / 10) 0) as [E|E].
  - simpl. rewrite digit_value_digit by lia. simpl. f_equal. lia.
  - rewrite IH; simpl; [rewrite digit_value_digit by lia; simpl; f_equal; lia|].
    split; [apply Z.div_pos; lia|apply Z.div_lt_upper_bound; lia].
Qed.

Lemma u64_to_string_spec z :
  is_u64 z ->
  u64_to_string z <> [] /\ Forall is_digit (u64_to_string z) /\ value_from 0 (u64_to_string z) = z.
Proof.
  unfold is_u64, u64_max. intros Hz. unfold u64_to_string. split; [|split].
  - change (decimal 20 z []) with
      (let acc := [digit (z mod 10)] in if z / 10 =? 0 then acc else decimal 19 (z / 10) acc).
    cbv zeta. destruct (_ =? _); [done|]. by apply decimal_nonempty.
  - apply decimal_digits; [lia|constructor].
  - rewrite decimal_value; [done|]. change (10 ^ Z.of_nat 20) with 100000000000000000000. lia.
Qed.

(** ** Trimming and splitting *)

Lemma skip_spec c s : exists n, s = replicate n c ++ skip c s /\ head (skip c s) <> Some c.
Proof.
  induction s as [|b s [n [E Hh]]]; simpl; [by exists 0%nat|].
  destruct (bool_decide (b = c)) eqn:Eb.
  - apply bool_decide_eq_true in Eb as ->. exists (S n). simpl. by rewrite <- E.
  - apply bool_decide_eq_false in Eb. exists 0%nat. simpl. split; [done|congruence].
Qed.

Lemma skip_replicate c n s : head s <> Some c -> skip c (replicate n c ++ s) = s.
Proof.
  intros Hh. induction n as [|n IH]; simpl.
  - destruct s as [|b s]; [done|]. simpl in *. rewrite bool_decide_false; [done|congruence].
  - by rewrite bool_decide_true.
Qed.

Lemma trim_end_spec c s :
  exists n, s = trim_end_matches c s ++ replicate n c /\ last (trim_end_matches c s) <> Some c.
Proof.
  destruct (skip_spec c (reverse s)) as [n [E Hh]]. exists n. unfold trim_end_matches. split.
  - rewrite <- (reverse_replicate n c), <- reverse_app, <- E. by rewrite reverse_involutive.
  - by rewrite last_reverse.
Qed.

Lemma trim_end_replicate c s n :
  last s <> Some c -> trim_end_matches c (s ++ replicate n c) = s.
Proof.
  intros Hl. unfold trim_end_matches. rewrite reverse_app, reverse_replicate, skip_replicate.
  - apply reverse_involutive.
  - by rewrite head_reverse.
Qed.

Lemma split_dot_digits s : Forall is_digit s -> split_dot s = [s].
Proof.
  induction 1 as [|b s Hb Hs IH]; simpl; [done|].
  rewrite bool_decide_false by (intros ->; by apply dot_no_digit). by rewrite IH.
Qed.

Lemma split_dot_app s t : Forall is_digit s -> split_dot (s ++ DOT :: t) = s :: split_dot t.
Proof.
  induction 1 as [|b s Hb Hs IH]; simpl; [done|].
  rewrite bool_decide_false by (intros ->; by apply dot_no_digit). by rewrite IH.
Qed.

Lemma last_digit s c : Forall is_digit s -> ~ is_digit c -> last s <> Some c.
Proof.
  intros Hs Hc Hl. apply last_Some_elem_of in Hl. rewrite Forall_forall in Hs. by apply Hc, Hs.
Qed.

(** A printed amount is its integer digits, and after a point the digits of the
    fraction up to the last that is not zero. *)
Lemma trimmed_split s decimals f n :
  let d := Z.to_nat (u8_to_Z decimals) in
  (0 < d)%nat -> Forall is_digit s -> (d < length s)%nat ->
  drop (length s - d) s = f ++ replicate n ZERO -> last f <> Some ZERO ->
  trim_ui_amount_string (take (length s - d) s ++ [DOT] ++ drop (length s - d) s) decimals =
    take (length s - d) s ++ match f with [] => [] | _ => DOT :: f end.
Proof.
  intros d Hd Hs Hl E Hf. unfold trim_ui_amount_string.
  rewrite (proj2 (Z.ltb_lt 0 _)) by lia.
  pose proof (Forall_take _ (length s - d) _ Hs) as Hi.
  pose proof (Forall_drop _ (length s - d) _ Hs) as Hfr. rewrite E in *.
  apply Forall_app in Hfr as [Hfd _]. set (ip := take (length s - d) s) in *.
  assert (forall c, last f <> Some c -> c <> DOT -> last (ip ++ [DOT] ++ f) <> Some c) as Hlast.
  { intros c Hc Hne. rewrite last_app. destruct f as [|b f]; [simpl; congruence|].
    change (last ([DOT] ++ b :: f)) with (last (b :: f)).
    destruct (last (b :: f)) eqn:El; [congruence|]. by apply last_None in El. }
  rewrite (app_assoc [DOT]), (app_assoc ip), trim_end_replicate by (by apply Hlast).
  destruct f as [|b f].
  - rewrite !app_nil_r. apply (trim_end_replicate DOT ip 1). by apply last_digit, dot_no_digit.
  - rewrite <- (app_nil_r (ip ++ _)). rewrite (trim_end_replicate DOT _ 0); [done|].
    rewrite last_app. change (last ([DOT] ++ b :: f)) with (last (b :: f)).
    destruct (last (b :: f)) eqn:El; [|by apply last_None in El].
    rewrite <- El. apply last_digit; [done|apply dot_no_digit].
Qed.

(** Reading a string with an integer part and at most one fraction. *)
Lemma try_ui_amount_parts s ip parts f decimals :
  let d := Z.to_nat (u8_to_Z decimals) in
  split_dot s = ip :: parts -> parts = [] /\ f = [] \/ (exists n, parts = [f ++ replicate n ZERO]) ->
  ip <> [] -> last f <> Some ZERO -> (length f <= d)%nat ->
  try_ui_amount_into_amount s decimals =
    ok_or (parse_u64 (ip ++ f ++ replicate (d - length f) ZERO)) ProgramError.InvalidArgument.
Proof.
  intros d Esp Hp Hne Hl Hd. unfold try_ui_amount_into_amount. fold d. rewrite Esp.
  assert (trim_end_matches ZERO (default [] ((ip :: parts) !! 1%nat)) = f) as ->.
  { destruct Hp as [[-> ->]|[n ->]]; [done|]. by apply trim_end_replicate. }
  replace (d <? length f)%nat with false by (symmetry; apply Nat.ltb_ge; lia).
  rewrite bool_decide_false by (destruct Hp as [[-> _]|[n ->]]; by intros [? ?]).
  destruct ip; [done|]. reflexivity.
Qed.

(** Digits that are put around a point, trimmed or not, read as their value. *)
Lemma pointed_reads s decimals :
  let d := Z.to_nat (u8_to_Z decimals) in
  (0 < d)%nat -> Forall is_digit s -> (d < length s)%nat -> value_from 0 s <= u64_max ->
  let printed := take (length s - d) s ++ [DOT] ++ drop (length s - d) s in
  try_ui_amount_into_amount printed decimals = Ok (value_from 0 s) /\
  try_ui_amount_into_amount (trim_ui_amount_string printed decimals) decimals = Ok (value_from 0 s).
Proof.
  intros d Hp Hs Hl Hv printed. unfold printed.
  destruct (trim_end_spec ZERO (drop (length s - d) s)) as [n [E Hf]].
  set (f := trim_end_matches ZERO (drop (length s - d) s)) in *.
  pose proof (trimmed_split s decimals f n Hp Hs Hl E Hf) as Ht. fold d in Ht. rewrite Ht. clear Ht.
  pose proof (Forall_take _ (length s - d) _ Hs) as Hi.
  pose proof (Forall_drop _ (length s - d) _ Hs) as Hfr.
  pose proof Hfr as Hfd. rewrite E in Hfd. apply Forall_app in Hfd as [Hfd _].
  pose proof (f_equal length E) as El. rewrite length_drop, length_app, length_replicate in El.
  assert (take (length s - d) s <> []) as Hne
    by (intros E0%(f_equal length); rewrite length_take in E0; simpl in E0; lia).
  assert (parse_u64 (take (length s - d) s ++ f ++ replicate (d - length f) ZERO) =
    Some (value_from 0 s)) as Hparse.
  { replace (d - length f)%nat with n by lia. rewrite <- E, take_drop.
    apply parse_u64_digits; [intros E0; rewrite E0 in Hl; simpl in Hl; lia|done|done]. }
  split.
  - rewrite (try_ui_amount_parts _ (take (length s - d) s) [drop (length s - d) s] f); [by fold d; rewrite Hparse| | |done|done|fold d; lia].
    + change ([DOT] ++ drop (length s - d) s) with (DOT :: drop (length s - d) s).
      by rewrite split_dot_app, split_dot_digits.
    + right. exists n. by rewrite E.
  - rewrite (try_ui_amount_parts _ (take (length s - d) s) (match f with [] => [] | _ => [f] end) f);
      [by fold d; rewrite Hparse| | |done|done|fold d; lia].
    + destruct f as [|b f']; [rewrite app_nil_r; by apply split_dot_digits|].
      by rewrite split_dot_app, split_dot_digits.
    + destruct f as [|b f']; [by left|]. right. exists 0%nat. by rewrite app_nil_r.
Qed.

(** C40: an amount printed with a mint's decimals, with all of its digits or with
    the zeros at its end and a point without fraction trimmed off, reads back as
    the same amount, for every [u64] and every number of decimals. *)
Theorem ui_amount_roundtrip amount decimals :
  is_u64 amount ->
  try_ui_amount_into_amount (amount_to_ui_amount_string amount decimals) decimals = Ok amount /\
  try_ui_amount_into_amount (amount_to_ui_amount_string_trimmed amount decimals) decimals =
    Ok amount.
Proof.
  intros Ha. destruct (u64_to_string_spec amount Ha) as (Hne & Hd & Hv). pose proof Ha as [_ Hm].
  unfold amount_to_ui_amount_string_trimmed, amount_to_ui_amount_string.
  set (d := Z.to_nat (u8_to_Z decimals)). destruct (Nat.ltb_spec 0 d) as [Hp|Hp].
  - set (s := zero_padded (d + 1) (u64_to_string amount)).
    assert (Forall is_digit s) as Hs.
    { apply Forall_app. split; [|done]. apply Forall_replicate. by eexists. }
    assert (d < length s)%nat as Hl.
    { unfold s, zero_padded. rewrite length_app, length_replicate. lia. }
    assert (value_from 0 s = amount) as Hvs by (unfold s, zero_padded; by rewrite value_from_zeros).
    pose proof (pointed_reads s decimals Hp Hs Hl) as Hr. rewrite Hvs in Hr. by apply Hr.
  - unfold trim_ui_amount_string. rewrite (proj2 (Z.ltb_ge 0 _)) by (unfold d in *; lia).
    enough (try_ui_amount_into_amount (u64_to_string amount) decimals = Ok amount) by done.
    rewrite (try_ui_amount_parts _ (u64_to_string amount) [] []);
      [|by apply split_dot_digits|by left|done|done|simpl; lia].
    fold d. replace (d - _)%nat with 0%nat by lia. rewrite !app_nil_r.
    rewrite parse_u64_digits; [by rewrite Hv|done|done|by rewrite Hv].
Qed.

Lemma ui_amount_roundtrip_witness :
  is_u64 1050 /\ amount_to_ui_amount_string_trimmed 1050 x02 = [x31; x30; x2e; x35] /\
  try_ui_amount_into_amount (amount_to_ui_amount_string_trimmed 1050 x02) x02 = Ok 1050.
Proof.
  assert (is_u64 1050) as H by (split; vm_compute; discriminate).
  split; [exact H|]. split; [vm_compute; reflexivity|]. apply (ui_amount_roundtrip 1050 x02 H).
Defined.

(** A string that is no decimal numeral is accepted: with two decimals the
    five bytes of ".+5" read as the amount 5. *)
Example try_ui_amount_inner_plus :
  try_ui_amount_into_amount [DOT; PLUS; digit 5] x02 = Ok 5.
Proof. vm_compute. reflexivity. Qed.
