(* ===== verification/Instruction.v ===== *)
(** * Instructions as clients build them

    [TokenInstruction] of [interface/src/instruction.rs] with its byte format
    ([pack], [unpack]), the elements that a batch is serialized to, and the
    functions that build an instruction, its list of accounts included, for a
    client. *)
From S2P Require Import Prelude Bytes Errors Ids Runtime Pod ExtensionState Extension.
From S2P Require Import PodInstruction UiAmount.

Module TokenInstruction.
Inductive TokenInstruction : Type :=
  | InitializeMint (decimals : byte) (mint_authority : Address) (freeze_authority : option Address)
  | InitializeAccount
  | InitializeMultisig (m : byte)
  | Transfer (amount : Z)
  | Approve (amount : Z)
  | Revoke
  | SetAuthority (authority_type : AuthorityType) (new_authority : option Address)
  | MintTo (amount : Z)
  | Burn (amount : Z)
  | CloseAccount
  | FreezeAccount
  | ThawAccount
  | TransferChecked (amount : Z) (decimals : byte)
  | ApproveChecked (amount : Z) (decimals : byte)
  | MintToChecked (amount : Z) (decimals : byte)
  | BurnChecked (amount : Z) (decimals : byte)
  | InitializeAccount2 (owner : Address)
  | SyncNative
  | InitializeAccount3 (owner : Address)
  | InitializeMultisig2 (m : byte)
  | InitializeMint2 (decimals : byte) (mint_authority : Address) (freeze_authority : option Address)
  | GetAccountDataSize (extension_types : list ExtensionType)
  | InitializeImmutableOwner
  | AmountToUiAmount (amount : Z)
  | UiAmountToAmount (ui_amount : list byte)
  | InitializeMintCloseAuthority (close_authority : option Address)
  | TransferFeeExtension
  | ConfidentialTransferExtension
  | DefaultAccountStateExtension
  | Reallocate (extension_types : list ExtensionType)
  | MemoTransferExtension
  | CreateNativeMint
  | InitializeNonTransferableMint
  | InterestBearingMintExtension
  | CpiGuardExtension
  | InitializePermanentDelegate (delegate : Address)
  | TransferHookExtension
  | ConfidentialTransferFeeExtension
  | WithdrawExcessLamports
  | MetadataPointerExtension
  | GroupPointerExtension
  | GroupMemberPointerExtension
  | ConfidentialMintBurnExtension
  | ScaledUiAmountExtension
  | PausableExtension
  | UnwrapLamports (amount : option Z)
  | PermissionedBurnExtension
  | Batch (data : list byte).

(** ** Packing *)

Definition pack_pubkey_option (value : option Address) : list byte :=
  match value with
  | Some key => x01 :: to_bytes key
  | None => [x00]
  end.

Definition pack_u64_option (value : option Z) : list byte :=
  match value with
  | Some amount => x01 :: to_le_bytes 8 amount
  | None => [x00]
  end.

Definition pack (i : TokenInstruction) : list byte :=
  match i with
  | InitializeMint decimals mint_authority freeze_authority =>
      x00 :: decimals :: to_bytes mint_authority ++ pack_pubkey_option freeze_authority
  | InitializeAccount => [x01]
  | InitializeMultisig m => [x02; m]
  | Transfer amount => x03 :: to_le_bytes 8 amount
  | Approve amount => x04 :: to_le_bytes 8 amount
  | MintTo amount => x07 :: to_le_bytes 8 amount
  | Burn amount => x08 :: to_le_bytes 8 amount
  | Revoke => [x05]
  | SetAuthority authority_type new_authority =>
      x06 :: authority_type_into authority_type :: pack_pubkey_option new_authority
  | CloseAccount => [x09]
  | FreezeAccount => [x0a]
  | ThawAccount => [x0b]
  | TransferChecked amount decimals => x0c :: to_le_bytes 8 amount ++ [decimals]
  | ApproveChecked amount decimals => x0d :: to_le_bytes 8 amount ++ [decimals]
  | MintToChecked amount decimals => x0e :: to_le_bytes 8 amount ++ [decimals]
  | BurnChecked amount decimals => x0f :: to_le_bytes 8 amount ++ [decimals]
  | InitializeAccount2 owner => x10 :: to_bytes owner
  | SyncNative => [x11]
  | InitializeAccount3 owner => x12 :: to_bytes owner
  | InitializeMultisig2 m => [x13; m]
  | InitializeMint2 decimals mint_authority freeze_authority =>
      x14 :: decimals :: to_bytes mint_authority ++ pack_pubkey_option freeze_authority
  | GetAccountDataSize extension_types => x15 :: concat (extension_type_bytes <$> extension_types)
  | InitializeImmutableOwner => [x16]
  | AmountToUiAmount amount => x17 :: to_le_bytes 8 amount
  | UiAmountToAmount ui_amount => x18 :: ui_amount
  | InitializeMintCloseAuthority close_authority => x19 :: pack_pubkey_option close_authority
  | TransferFeeExtension => [x1a]
  | ConfidentialTransferExtension => [x1b]
  | DefaultAccountStateExtension => [x1c]
  | Reallocate extension_types => x1d :: concat (extension_type_bytes <$> extension_types)
  | MemoTransferExtension => [x1e]
  | CreateNativeMint => [x1f]
  | InitializeNonTransferableMint => [x20]
  | InterestBearingMintExtension => [x21]
  | CpiGuardExtension => [x22]
  | InitializePermanentDelegate delegate => x23 :: to_bytes delegate
  | TransferHookExtension => [x24]
  | ConfidentialTransferFeeExtension => [x25]
  | WithdrawExcessLamports => [x26]
  | MetadataPointerExtension => [x27]
  | GroupPointerExtension => [x28]
  | GroupMemberPointerExtension => [x29]
  | ConfidentialMintBurnExtension => [x2a]
  | ScaledUiAmountExtension => [x2b]
  | PausableExtension => [x2c]
  | UnwrapLamports amount => x2d :: pack_u64_option amount
  | PermissionedBurnExtension => [x2e]
  | Batch data => xff :: data
  end.

(** ** Unpacking *)

(** [InvalidInstruction] as the error of [ok_or] and [?]. *)
Definition or_invalid {A} (o : option A) : Result ProgramError A :=
  ok_or o (TokenError.InvalidInstruction : ProgramError).

(** [slice::split_first] and [slice::split_at_checked]. *)
Definition split_first (l : list byte) : option (byte * list byte) :=
  match l with [] => None | b :: rest => Some (b, rest) end.
Definition split_at_checked (n : nat) (l : list byte) : option (list byte * list byte) :=
  if (n <=? length l)%nat then Some (take n l, drop n l) else None.

Definition unpack_pubkey (input : list byte) : Result ProgramError (Address * list byte) :=
  pk ← or_invalid (get_prefix 32 input);
  mret (bytes_of_list 32 pk, drop 32 input).

Definition unpack_pubkey_option (input : list byte)
    : Result ProgramError (option Address * list byte) :=
  match split_first input with
  | Some (x00, rest) => Ok (None, rest)
  | Some (x01, rest) => '(pk, rest) ← unpack_pubkey rest; mret (Some pk, rest)
  | _ => Err (TokenError.InvalidInstruction : ProgramError)
  end.

Definition unpack_u64 (input : list byte) : Result ProgramError (Z * list byte) :=
  value ← or_invalid (get_prefix 8 input);
  mret (from_le_bytes value, drop 8 input).

Definition unpack_u64_option (input : list byte) : Result ProgramError (option Z * list byte) :=
  match split_first input with
  | Some (x00, rest) => Ok (None, rest)
  | Some (x01, rest) => '(value, rest) ← unpack_u64 rest; mret (Some value, rest)
  | _ => Err (TokenError.InvalidInstruction : ProgramError)
  end.

Definition unpack_amount_decimals (input : list byte)
    : Result ProgramError (Z * byte * list byte) :=
  '(amount, rest) ← unpack_u64 input;
  '(decimals, rest) ← or_invalid (split_first rest);
  mret (amount, decimals, rest).

(** The [for] loop over the chunks. *)
Definition unpack_extension_types (rest : list byte) : Result ProgramError (list ExtensionType) :=
  collect extension_type_try_from_slice (chunks 2 rest).

Definition unpack_initialize_mint (rest : list byte)
    : Result ProgramError (byte * Address * option Address * list byte) :=
  '(decimals, rest) ← or_invalid (split_first rest);
  '(mint_authority, rest) ← unpack_pubkey rest;
  '(freeze_authority, rest) ← unpack_pubkey_option rest;
  mret (decimals, mint_authority, freeze_authority, rest).

Definition unpack_with_rest (input : list byte)
    : Result ProgramError (TokenInstruction * list byte) :=
  '(tag, rest) ← or_invalid (split_first input);
  match tag with
  | x00 =>
      '(decimals, mint_authority, freeze_authority, rest) ← unpack_initialize_mint rest;
      mret (InitializeMint decimals mint_authority freeze_authority, rest)
  | x01 => mret (InitializeAccount, rest)
  | x02 => '(m, rest) ← or_invalid (split_first rest); mret (InitializeMultisig m, rest)
  | x03 | x04 | x07 | x08 =>
      '(bytes, rest) ← or_invalid (split_at_checked 8 rest);
      let amount := from_le_bytes bytes in
      match tag with
      | x03 => mret (Transfer amount, rest)
      | x04 => mret (Approve amount, rest)
      | x07 => mret (MintTo amount, rest)
      | x08 => mret (Burn amount, rest)
      | _ => Panic
      end
  | x05 => mret (Revoke, rest)
  | x06 =>
      '(t, rest) ← or_invalid (split_first rest);
      authority_type ← authority_type_from t;
      '(new_authority, rest) ← unpack_pubkey_option rest;
      mret (SetAuthority authority_type new_authority, rest)
  | x09 => mret (CloseAccount, rest)
  | x0a => mret (FreezeAccount, rest)
  | x0b => mret (ThawAccount, rest)
  | x0c => '(amount, decimals, rest) ← unpack_amount_decimals rest;
           mret (TransferChecked amount decimals, rest)
  | x0d => '(amount, decimals, rest) ← unpack_amount_decimals rest;
           mret (ApproveChecked amount decimals, rest)
  | x0e => '(amount, decimals, rest) ← unpack_amount_decimals rest;
           mret (MintToChecked amount decimals, rest)
  | x0f => '(amount, decimals, rest) ← unpack_amount_decimals rest;
           mret (BurnChecked amount decimals, rest)
  | x10 => '(owner, rest) ← unpack_pubkey rest; mret (InitializeAccount2 owner, rest)
  | x11 => mret (SyncNative, rest)
  | x12 => '(owner, rest) ← unpack_pubkey rest; mret (InitializeAccount3 owner, rest)
  | x13 => '(m, rest) ← or_invalid (split_first rest); mret (InitializeMultisig2 m, rest)
  | x14 =>
      '(decimals, mint_authority, freeze_authority, rest) ← unpack_initialize_mint rest;
      mret (InitializeMint2 decimals mint_authority freeze_authority, rest)
  | x15 => extension_types ← unpack_extension_types rest;
           mret (GetAccountDataSize extension_types, [])
  | x16 => mret (InitializeImmutableOwner, rest)
  | x17 => '(amount, rest) ← unpack_u64 rest; mret (AmountToUiAmount amount, rest)
  | x18 =>
      if valid_utf8 rest then mret (UiAmountToAmount rest, [])
      else Err (TokenError.InvalidInstruction : ProgramError)
  | x19 => '(close_authority, rest) ← unpack_pubkey_option rest;
           mret (InitializeMintCloseAuthority close_authority, rest)
  | x1a => mret (TransferFeeExtension, rest)
  | x1b => mret (ConfidentialTransferExtension, rest)
  | x1c => mret (DefaultAccountStateExtension, rest)
  | x1d => extension_types ← unpack_extension_types rest; mret (Reallocate extension_types, [])
  | x1e => mret (MemoTransferExtension, rest)
  | x1f => mret (CreateNativeMint, rest)
  | x20 => mret (InitializeNonTransferableMint, rest)
  | x21 => mret (InterestBearingMintExtension, rest)
  | x22 => mret (CpiGuardExtension, rest)
  | x23 => '(delegate, rest) ← unpack_pubkey rest; mret (InitializePermanentDelegate delegate, rest)
  | x24 => mret (TransferHookExtension, rest)
  | x25 => mret (ConfidentialTransferFeeExtension, rest)
  | x26 => mret (WithdrawExcessLamports, rest)
  | x27 => mret (MetadataPointerExtension, rest)
  | x28 => mret (GroupPointerExtension, rest)
  | x29 => mret (GroupMemberPointerExtension, rest)
  | x2a => mret (ConfidentialMintBurnExtension, rest)
  | x2b => mret (ScaledUiAmountExtension, rest)
  | x2c => mret (PausableExtension, rest)
  | x2d => '(amount, rest) ← unpack_u64_option rest; mret (UnwrapLamports amount, rest)
  | x2e => mret (PermissionedBurnExtension, rest)
  | xff => mret (Batch rest, [])
  | _ => Err (TokenError.InvalidInstruction : ProgramError)
  end.

Definition unpack (input : list byte) : Result ProgramError TokenInstruction :=
  '(token_instruction, _) ← unpack_with_rest input;
  mret token_instruction.

(** ** Batches as sequences of instructions

    [batch_fromstr] of [interface/src/serialization.rs]: the elements that the
    data of a batch is serialized to, and the data made from them.  How an
    element is written is the serializer's. *)
Record BatchItem : Type := mk_batch_item {
  account_count : byte;
  data_length : byte;
  instruction : TokenInstruction
}.

Definition is_batch (i : TokenInstruction) : bool :=
  match i with Batch _ => true | _ => false end.

(** The loop, with one unit of fuel for every instruction. *)
Fixpoint batch_elements (fuel : nat) (x : list byte) : Result ProgramError (list BatchItem) :=
  match fuel with
  | O => Panic
  | S fuel =>
      '(header, rest) ← or_invalid (split_at_checked 2 x);
      match header with
      | [account_count; data_length] =>
          '(instruction_data, rest) ←
            or_invalid (split_at_checked (Z.to_nat (u8_to_Z data_length)) rest);
          '(instruction, instruction_rest) ← unpack_with_rest instruction_data;
          _ ← fail_if (negb (length instruction_rest =? 0)%nat) TokenError.InvalidInstruction;
          _ ← fail_if (is_batch instruction) TokenError.InvalidInstruction;
          let batch_item := mk_batch_item account_count data_length instruction in
          match rest with
          | [] => mret [batch_item]
          | _ => items ← batch_elements fuel rest; mret (batch_item :: items)
          end
      | _ => Panic
      end
  end.

Definition batch_serialize (x : list byte) : Result ProgramError (list BatchItem) :=
  batch_elements (S (length x)) x.

Fixpoint batch_deserialize (items : list BatchItem) : Result ProgramError (list byte) :=
  match items with
  | [] => mret []
  | item :: items =>
      _ ← fail_if (is_batch (instruction item)) TokenError.InvalidInstruction;
      out ← batch_deserialize items;
      mret (account_count item :: data_length item :: pack (instruction item) ++ out)
  end.
End TokenInstruction.
Abbreviation TokenInstruction := TokenInstruction.TokenInstruction.

(** ** Instructions with their accounts *)

(** [solana_instruction::AccountMeta] and [Instruction]. *)
Record AccountMeta : Type := mk_meta {
  meta_pubkey : Address;
  meta_is_signer : bool;
  meta_is_writable : bool
}.
Definition new (pubkey : Address) (is_signer : bool) : AccountMeta := mk_meta pubkey is_signer true.
Definition new_readonly (pubkey : Address) (is_signer : bool) : AccountMeta :=
  mk_meta pubkey is_signer false.

Record Instruction : Type := mk_instruction {
  ix_program_id : Address;
  ix_accounts : list AccountMeta;
  ix_data : list byte
}.

(** The metas that close most lists: the authority, which signs itself when
    there are no multisignature signers, and those signers. *)
Definition authority_metas (authority_pubkey : Address) (signer_pubkeys : list Address)
    : list AccountMeta :=
  new_readonly authority_pubkey (match signer_pubkeys with [] => true | _ => false end) ::
  ((fun signer_pubkey => new_readonly signer_pubkey true) <$> signer_pubkeys).

Section clients.
Context `{RT : Runtime}.
Import TokenInstruction.

Definition sysvar_rent : AccountMeta := new_readonly rt_rent_id false.

(** [Ok(Instruction { program_id, accounts, data })] after the check of the program id. *)
Definition build (check : Address -> Result ProgramError unit) (token_program_id : Address)
    (accounts : list AccountMeta) (data : TokenInstruction) : Result ProgramError Instruction :=
  _ ← check token_program_id;
  mret (mk_instruction token_program_id accounts (pack data)).
Abbreviation build_spl := (build check_spl_token_program_account).
Abbreviation build_2022 := (build check_program_account).

Definition initialize_mint token_program_id mint_pubkey mint_authority_pubkey
    (freeze_authority_pubkey : option Address) decimals :=
  build_spl token_program_id [new mint_pubkey false; sysvar_rent]
    (InitializeMint decimals mint_authority_pubkey freeze_authority_pubkey).

Definition initialize_mint2 token_program_id mint_pubkey mint_authority_pubkey
    (freeze_authority_pubkey : option Address) decimals :=
  build_spl token_program_id [new mint_pubkey false]
    (InitializeMint2 decimals mint_authority_pubkey freeze_authority_pubkey).

Definition initialize_account token_program_id account_pubkey mint_pubkey owner_pubkey :=
  build_spl token_program_id
    [new account_pubkey false; new_readonly mint_pubkey false; new_readonly owner_pubkey false;
     sysvar_rent] InitializeAccount.

Definition initialize_account2 token_program_id account_pubkey mint_pubkey owner_pubkey :=
  build_spl token_program_id
    [new account_pubkey false; new_readonly mint_pubkey false; sysvar_rent]
    (InitializeAccount2 owner_pubkey).

Definition initialize_account3 token_program_id account_pubkey mint_pubkey owner_pubkey :=
  build_spl token_program_id [new account_pubkey false; new_readonly mint_pubkey false]
    (InitializeAccount3 owner_pubkey).

(** The guard of the two multisig constructors. *)
Definition check_signer_counts (signer_pubkeys : list Address) (m : byte)
    : Result ProgramError unit :=
  fail_if (negb (is_valid_signer_index (Z.to_nat (u8_to_Z m))) ||
           negb (is_valid_signer_index (length signer_pubkeys)) ||
           (length signer_pubkeys <? Z.to_nat (u8_to_Z m))%nat)
    ProgramError.MissingRequiredSignature.

Definition multisig_metas (signer_pubkeys : list Address) : list AccountMeta :=
  (fun signer_pubkey => new_readonly signer_pubkey false) <$> signer_pubkeys.

Definition initialize_multisig token_program_id multisig_pubkey signer_pubkeys m
    : Result ProgramError Instruction :=
  _ ← check_spl_token_program_account token_program_id;
  _ ← check_signer_counts signer_pubkeys m;
  mret (mk_instruction token_program_id
          (new multisig_pubkey false :: sysvar_rent :: multisig_metas signer_pubkeys)
          (pack (InitializeMultisig m))).

Definition initialize_multisig2 token_program_id multisig_pubkey signer_pubkeys m
    : Result ProgramError Instruction :=
  _ ← check_spl_token_program_account token_program_id;
  _ ← check_signer_counts signer_pubkeys m;
  mret (mk_instruction token_program_id
          (new multisig_pubkey false :: multisig_metas signer_pubkeys)
          (pack (InitializeMultisig2 m))).

Definition transfer token_program_id source_pubkey destination_pubkey authority_pubkey
    signer_pubkeys amount :=
  build_spl token_program_id
    (new source_pubkey false :: new destination_pubkey false ::
     authority_metas authority_pubkey signer_pubkeys) (Transfer amount).

Definition approve token_program_id source_pubkey delegate_pubkey owner_pubkey signer_pubkeys amount :=
  build_spl token_program_id
    (new source_pubkey false :: new_readonly delegate_pubkey false ::
     authority_metas owner_pubkey signer_pubkeys) (Approve amount).

Definition revoke token_program_id source_pubkey owner_pubkey signer_pubkeys :=
  build_spl token_program_id
    (new source_pubkey false :: authority_metas owner_pubkey signer_pubkeys) Revoke.

Definition set_authority token_program_id owned_pubkey (new_authority_pubkey : option Address)
    authority_type owner_pubkey signer_pubkeys :=
  build_spl token_program_id
    (new owned_pubkey false :: authority_metas owner_pubkey signer_pubkeys)
    (SetAuthority authority_type new_authority_pubkey).

Definition mint_to token_program_id mint_pubkey account_pubkey mint_authority_pubkey
    signer_pubkeys amount :=
  build_spl token_program_id
    (new mint_pubkey false :: new account_pubkey false ::
     authority_metas mint_authority_pubkey signer_pubkeys) (MintTo amount).

Definition burn token_program_id account_pubkey mint_pubkey authority_pubkey signer_pubkeys amount :=
  build_spl token_program_id
    (new account_pubkey false :: new mint_pubkey false ::
     authority_metas authority_pubkey signer_pubkeys) (Burn amount).

Definition close_account token_program_id account_pubkey destination_pubkey owner_pubkey
    signer_pubkeys :=
  build_spl token_program_id
    (new account_pubkey false :: new destination_pubkey false ::
     authority_metas owner_pubkey signer_pubkeys) CloseAccount.

Definition freeze_account token_program_id account_pubkey mint_pubkey freeze_authority_pubkey
    signer_pubkeys :=
  build_spl token_program_id
    (new account_pubkey false :: new_readonly mint_pubkey false ::
     authority_metas freeze_authority_pubkey signer_pubkeys) FreezeAccount.

Definition thaw_account token_program_id account_pubkey mint_pubkey freeze_authority_pubkey
    signer_pubkeys :=
  build_spl token_program_id
    (new account_pubkey false :: new_readonly mint_pubkey false ::
     authority_metas freeze_authority_pubkey signer_pubkeys) ThawAccount.

Definition transfer_checked token_program_id source_pubkey mint_pubkey destination_pubkey
    authority_pubkey signer_pubkeys amount decimals :=
  build_spl token_program_id
    (new source_pubkey false :: new_readonly mint_pubkey false :: new destination_pubkey false ::
     authority_metas authority_pubkey signer_pubkeys) (TransferChecked amount decimals).

Definition approve_checked token_program_id source_pubkey mint_pubkey delegate_pubkey owner_pubkey
    signer_pubkeys amount decimals :=
  build_spl token_program_id
    (new source_pubkey false :: new_readonly mint_pubkey false ::
     new_readonly delegate_pubkey false :: authority_metas owner_pubkey signer_pubkeys)
    (ApproveChecked amount decimals).

Definition mint_to_checked token_program_id mint_pubkey account_pubkey mint_authority_pubkey
    signer_pubkeys amount decimals :=
  build_spl token_program_id
    (new mint_pubkey false :: new account_pubkey false ::
     authority_metas mint_authority_pubkey signer_pubkeys) (MintToChecked amount decimals).

Definition burn_checked token_program_id account_pubkey mint_pubkey authority_pubkey signer_pubkeys
    amount decimals :=
  build_spl token_program_id
    (new account_pubkey false :: new mint_pubkey false ::
     authority_metas authority_pubkey signer_pubkeys) (BurnChecked amount decimals).

Definition sync_native token_program_id account_pubkey :=
  build_spl token_program_id [new account_pubkey false] SyncNative.

Definition sync_native_with_rent_sysvar token_program_id account_pubkey
    : Result ProgramError Instruction :=
  instruction ← sync_native token_program_id account_pubkey;
  mret (mk_instruction (ix_program_id instruction) (ix_accounts instruction ++ [sysvar_rent])
          (ix_data instruction)).

Definition get_account_data_size token_program_id mint_pubkey extension_types :=
  build_spl token_program_id [new_readonly mint_pubkey false] (GetAccountDataSize extension_types).

Definition initialize_mint_close_authority token_program_id mint_pubkey
    (close_authority : option Address) :=
  build_2022 token_program_id [new mint_pubkey false] (InitializeMintCloseAuthority close_authority).

Definition initialize_immutable_owner token_program_id token_account :=
  build_spl token_program_id [new token_account false] InitializeImmutableOwner.

Definition amount_to_ui_amount token_program_id mint_pubkey amount :=
  build_spl token_program_id [new_readonly mint_pubkey false] (AmountToUiAmount amount).

Definition ui_amount_to_amount token_program_id mint_pubkey ui_amount :=
  build_spl token_program_id [new_readonly mint_pubkey false] (UiAmountToAmount ui_amount).

Definition reallocate token_program_id account_pubkey payer owner_pubkey signer_pubkeys
    extension_types :=
  build_2022 token_program_id
    (new account_pubkey false :: new payer true :: new_readonly rt_system_program_id false ::
     authority_metas owner_pubkey signer_pubkeys) (Reallocate extension_types).

Definition create_native_mint token_program_id payer :=
  build_2022 token_program_id
    [new payer true; new native_mint.id false; new_readonly rt_system_program_id false]
    CreateNativeMint.

Definition initialize_non_transferable_mint token_program_id mint_pubkey :=
  build_2022 token_program_id [new mint_pubkey false] InitializeNonTransferableMint.

Definition initialize_permanent_delegate token_program_id mint_pubkey delegate :=
  build_2022 token_program_id [new mint_pubkey false] (InitializePermanentDelegate delegate).

Definition withdraw_excess_lamports token_program_id source_account destination_account authority
    signers :=
  build_2022 token_program_id
    (new source_account false :: new destination_account false :: authority_metas authority signers)
    WithdrawExcessLamports.

Definition unwrap_lamports token_program_id source_pubkey destination_pubkey authority_pubkey
    signer_pubkeys (amount : option Z) :=
  build_spl token_program_id
    (new source_pubkey false :: new destination_pubkey false ::
     authority_metas authority_pubkey signer_pubkeys) (UnwrapLamports amount).

End clients.
