(* ===== verification/Processor.v ===== *)
(** * Dispatch

    [Processor::process], [_process_inner] and [process_batch] of
    [program/src/processor.rs]: the first byte selects the instruction, its
    data is decoded, and the handler runs.  A batch is a sequence of
    instructions, each with its share of the accounts. *)
From S2P Require Import Prelude Bytes Errors Ids Runtime Pod ExtensionState Extension TlvTheory.
From S2P Require Import ViewTheory AccountLen MonadTheory Ownership Transfer Supply.
From S2P Require Import PodInstruction Authority Initialize Lifecycle Settings Fees State.
From S2P Require Import Reallocate UiAmount VariableLen TokenMetadata CiphertextArithmetic.
From S2P Require Import ProofExtraction ConfidentialTransfer ConfidentialTransferFee ConfidentialMintBurn.

(** The extension types that follow the instruction byte. *)
Definition decode_extension_types (input : list byte) : Result ProgramError (list ExtensionType) :=
  collect extension_type_try_from_slice (chunks EXT_TYPE_SIZE (drop 1 input)).

Module permissioned_burn_processor.
Section processor.
Context `{RT : Runtime} `{CV : CurveInterface} `{ZK : ZkInterface} `{ZC : !ZkContexts}.

Definition permissioned_burn_try_from (b : byte)
    : option permissioned_burn.PermissionedBurnInstruction :=
  match b with
  | x00 => Some permissioned_burn.Initialize
  | x01 => Some permissioned_burn.Burn
  | x02 => Some permissioned_burn.BurnChecked
  | x03 => Some permissioned_burn.ConfidentialBurn
  | _ => None
  end.

Definition process_instruction (program_id : Address) (accounts : list AccountInfo)
    (input : list byte) : M unit :=
  _ ← lift (check_program_account program_id);
  instruction ← lift (decode_instruction_type permissioned_burn_try_from input);
  match instruction with
  | permissioned_burn.Initialize =>
      authority ← lift (decode_instruction_data Address input);
      permissioned_burn.process_initialize accounts authority
  | permissioned_burn.Burn =>
      data ← lift (decode_instruction_data AmountData input);
      process_burn program_id accounts (u64_get (ad_amount data))
        BurnInstructionVariant.Permissioned InstructionVariant.Unchecked
  | permissioned_burn.BurnChecked =>
      data ← lift (decode_instruction_data AmountCheckedData input);
      process_burn program_id accounts (u64_get (acd_amount data))
        BurnInstructionVariant.Permissioned (InstructionVariant.Checked (acd_decimals data))
  | permissioned_burn.ConfidentialBurn =>
      data ← lift (decode_instruction_data confidential_mint_burn.BurnInstructionData input);
      confidential_mint_burn.process_confidential_burn program_id accounts data
        BurnInstructionVariant.Permissioned
  end.
End processor.
End permissioned_burn_processor.

Section processor.
Context `{RT : Runtime} `{PM : PackMethods} `{F64 : Float64}.
Context `{CV : CurveInterface} `{ZK : ZkInterface} `{ZC : !ZkContexts}.
Context `{TM : TokenMetadataInterface} `{TG : TokenGroupInterface}.

(** The [match] of [_process_inner]. *)
Definition process_pod_instruction (instruction_type : PodTokenInstruction) (program_id : Address)
    (accounts : list AccountInfo) (input : list byte) : M unit :=
  match instruction_type with
  | PodTokenInstruction.InitializeMint =>
      '(data, freeze_authority) ←
        lift (decode_instruction_data_with_coption_pubkey InitializeMintData input);
      process_initialize_mint accounts (imd_decimals data) (imd_mint_authority data) freeze_authority
  | PodTokenInstruction.InitializeMint2 =>
      '(data, freeze_authority) ←
        lift (decode_instruction_data_with_coption_pubkey InitializeMintData input);
      process_initialize_mint2 accounts (imd_decimals data) (imd_mint_authority data) freeze_authority
  | PodTokenInstruction.InitializeAccount => process_initialize_account accounts
  | PodTokenInstruction.InitializeAccount2 =>
      owner ← lift (decode_instruction_data Address input);
      process_initialize_account2 accounts owner
  | PodTokenInstruction.InitializeAccount3 =>
      owner ← lift (decode_instruction_data Address input);
      process_initialize_account3 accounts owner
  | PodTokenInstruction.InitializeMultisig =>
      data ← lift (decode_instruction_data InitializeMultisigData input);
      process_initialize_multisig accounts (imsd_m data)
  | PodTokenInstruction.InitializeMultisig2 =>
      data ← lift (decode_instruction_data InitializeMultisigData input);
      process_initialize_multisig2 accounts (imsd_m data)
  | PodTokenInstruction.Transfer =>
      data ← lift (decode_instruction_data AmountData input);
      process_transfer program_id accounts (u64_get (ad_amount data)) TransferInstruction.Unchecked
  | PodTokenInstruction.Approve =>
      data ← lift (decode_instruction_data AmountData input);
      process_approve program_id accounts (u64_get (ad_amount data)) InstructionVariant.Unchecked
  | PodTokenInstruction.Revoke => process_revoke program_id accounts
  | PodTokenInstruction.SetAuthority =>
      '(data, new_authority) ←
        lift (decode_instruction_data_with_coption_pubkey SetAuthorityData input);
      authority_type ← lift (authority_type_from (sad_authority_type data));
      process_set_authority program_id accounts authority_type new_authority
  | PodTokenInstruction.MintTo =>
      data ← lift (decode_instruction_data AmountData input);
      process_mint_to program_id accounts (u64_get (ad_amount data)) InstructionVariant.Unchecked
  | PodTokenInstruction.Burn =>
      data ← lift (decode_instruction_data AmountData input);
      process_burn program_id accounts (u64_get (ad_amount data))
        BurnInstructionVariant.Standard InstructionVariant.Unchecked
  | PodTokenInstruction.CloseAccount => process_close_account program_id accounts
  | PodTokenInstruction.FreezeAccount => process_toggle_freeze_account program_id accounts true
  | PodTokenInstruction.ThawAccount => process_toggle_freeze_account program_id accounts false
  | PodTokenInstruction.TransferChecked =>
      data ← lift (decode_instruction_data AmountCheckedData input);
      process_transfer program_id accounts (u64_get (acd_amount data))
        (TransferInstruction.Checked (acd_decimals data))
  | PodTokenInstruction.ApproveChecked =>
      data ← lift (decode_instruction_data AmountCheckedData input);
      process_approve program_id accounts (u64_get (acd_amount data))
        (InstructionVariant.Checked (acd_decimals data))
  | PodTokenInstruction.MintToChecked =>
      data ← lift (decode_instruction_data AmountCheckedData input);
      process_mint_to program_id accounts (u64_get (acd_amount data))
        (InstructionVariant.Checked (acd_decimals data))
  | PodTokenInstruction.BurnChecked =>
      data ← lift (decode_instruction_data AmountCheckedData input);
      process_burn program_id accounts (u64_get (acd_amount data))
        BurnInstructionVariant.Standard (InstructionVariant.Checked (acd_decimals data))
  | PodTokenInstruction.SyncNative => process_sync_native accounts
  | PodTokenInstruction.GetAccountDataSize =>
      extension_types ← lift (decode_extension_types input);
      process_get_account_data_size accounts extension_types
  | PodTokenInstruction.InitializeMintCloseAuthority =>
      '(_, close_authority) ← lift (decode_instruction_data_with_coption_pubkey unit input);
      process_initialize_mint_close_authority accounts close_authority
  | PodTokenInstruction.TransferFeeExtension =>
      transfer_fee.process_instruction program_id accounts (drop 1 input)
  | PodTokenInstruction.ConfidentialTransferExtension =>
      confidential_transfer.process_instruction program_id accounts (drop 1 input)
  | PodTokenInstruction.DefaultAccountStateExtension =>
      default_account_state.process_instruction program_id accounts (drop 1 input)
  | PodTokenInstruction.InitializeImmutableOwner => process_initialize_immutable_owner accounts
  | PodTokenInstruction.AmountToUiAmount =>
      data ← lift (decode_instruction_data AmountData input);
      process_amount_to_ui_amount accounts (u64_get (ad_amount data))
  | PodTokenInstruction.UiAmountToAmount =>
      let ui_amount := drop 1 input in
      _ ← bail_if (negb (valid_utf8 ui_amount)) TokenError.InvalidInstruction;
      process_ui_amount_to_amount accounts ui_amount
  | PodTokenInstruction.Reallocate =>
      extension_types ← lift (decode_extension_types input);
      process_reallocate program_id accounts extension_types
  | PodTokenInstruction.MemoTransferExtension =>
      memo_transfer.process_instruction program_id accounts (drop 1 input)
  | PodTokenInstruction.CreateNativeMint => process_create_native_mint accounts
  | PodTokenInstruction.InitializeNonTransferableMint =>
      process_initialize_non_transferable_mint accounts
  | PodTokenInstruction.InterestBearingMintExtension =>
      interest_bearing_mint.process_instruction program_id accounts (drop 1 input)
  | PodTokenInstruction.CpiGuardExtension =>
      cpi_guard.process_instruction program_id accounts (drop 1 input)
  | PodTokenInstruction.InitializePermanentDelegate =>
      delegate ← lift (decode_instruction_data Address input);
      process_initialize_permanent_delegate accounts delegate
  | PodTokenInstruction.TransferHookExtension =>
      transfer_hook.process_instruction program_id accounts (drop 1 input)
  | PodTokenInstruction.ConfidentialTransferFeeExtension =>
      confidential_transfer_fee.process_instruction program_id accounts (drop 1 input)
  | PodTokenInstruction.WithdrawExcessLamports =>
      process_withdraw_excess_lamports program_id accounts
  | PodTokenInstruction.MetadataPointerExtension =>
      metadata_pointer.process_instruction program_id accounts (drop 1 input)
  | PodTokenInstruction.GroupPointerExtension =>
      group_pointer.process_instruction program_id accounts (drop 1 input)
  | PodTokenInstruction.GroupMemberPointerExtension =>
      group_member_pointer.process_instruction program_id accounts (drop 1 input)
  | PodTokenInstruction.ConfidentialMintBurnExtension =>
      confidential_mint_burn.process_instruction program_id accounts (drop 1 input)
  | PodTokenInstruction.ScaledUiAmountExtension =>
      scaled_ui_amount.process_instruction program_id accounts (drop 1 input)
  | PodTokenInstruction.PausableExtension =>
      pausable.process_instruction program_id accounts (drop 1 input)
  | PodTokenInstruction.PermissionedBurnExtension =>
      permissioned_burn_processor.process_instruction program_id accounts (drop 1 input)
  | PodTokenInstruction.UnwrapLamports =>
      '(_, amount) ← lift (decode_instruction_data_with_coption_u64 unit input);
      process_unwrap_lamports program_id accounts amount
  | PodTokenInstruction.Batch => throw TokenError.InvalidInstruction
  end.

Definition decode_type (input : list byte) : Result ProgramError PodTokenInstruction :=
  decode_instruction_type pod_token_instruction_try_from input.

Definition _process_inner (program_id : Address) (accounts : list AccountInfo)
    (input : list byte) : M unit :=
  match decode_type input with
  | Ok instruction_type => process_pod_instruction instruction_type program_id accounts input
  | _ =>
      match tm_unpack input with
      | Some instruction => token_metadata.process_instruction program_id accounts instruction
      | None =>
          match tg_unpack input with
          | Some instruction => token_group.process_instruction program_id accounts instruction
          | None => throw TokenError.InvalidInstruction
          end
      end
  end.

(** ** Batches *)

Definition IX_HEADER_SIZE : nat := 2.

(** [slice.get(..n)], on a slice of accounts. *)
Definition get_accounts (n : nat) (accounts : list AccountInfo) : option (list AccountInfo) :=
  if (n <=? length accounts)%nat then Some (take n accounts) else None.

(** The [loop]; every turn consumes a header. *)
Fixpoint process_batch_from (fuel : nat) (program_id : Address) (accounts : list AccountInfo)
    (data : list byte) : M unit :=
  match fuel with
  | O => fun _ => Panic
  | S fuel =>
      match data with
      | h0 :: h1 :: _ =>
          let expected_accounts := Z.to_nat (u8_to_Z h0) in
          let data_offset := (IX_HEADER_SIZE + Z.to_nat (u8_to_Z h1))%nat in
          ix_accounts ← lift (ok_or (get_accounts expected_accounts accounts)
                                ProgramError.NotEnoughAccountKeys);
          ix_data ← lift (ok_or (get_range IX_HEADER_SIZE data_offset data)
                            (TokenError.InvalidInstruction : ProgramError));
          _ ← _process_inner program_id ix_accounts ix_data;
          if (data_offset =? length data)%nat then mret tt
          else process_batch_from fuel program_id (drop expected_accounts accounts)
                 (drop data_offset data)
      | _ => throw TokenError.InvalidInstruction
      end
  end.

Definition process_batch (program_id : Address) (accounts : list AccountInfo) (data : list byte)
    : M unit :=
  process_batch_from (S (length data)) program_id accounts data.

Definition process (program_id : Address) (accounts : list AccountInfo) (input : list byte)
    : M unit :=
  match decode_type input with
  | Ok PodTokenInstruction.Batch => process_batch program_id accounts (drop 1 input)
  | _ => _process_inner program_id accounts input
  end.

End processor.
