(* ===== verification/ExtensionInstructions.v ===== *)
(** * The instructions of extensions as clients build them

    [interface/src/extension/*/instruction.rs]: the token instruction that
    introduces the extension, the byte of the extension's own instruction, and
    its data.  Each Rust module is a [Module] here; the byte is the
    discriminant of the variant named beside it.  The instructions of
    confidential transfers are in [ConfidentialInstructions]. *)
From S2P Require Import Prelude Bytes Errors Ids Runtime Pod ExtensionState Extension.
From S2P Require Import PodInstruction Settings Fees Instruction.
Import TokenInstruction.
#[local] Existing Instances interest_bearing_mint.InitializeInstructionData_pod
  scaled_ui_amount.InitializeInstructionData_pod scaled_ui_amount.UpdateMultiplierInstructionData_pod.

(** [encode_instruction]. *)
Definition encode_instruction {D} `{Pod D} (token_program_id : Address) (accounts : list AccountMeta)
    (token_instruction_type : TokenInstruction) (instruction_type : byte) (instruction_data : D)
    : Instruction :=
  mk_instruction token_program_id accounts
    (pack token_instruction_type ++ instruction_type :: to_bytes instruction_data).

(** [Option<Address>::try_into()], [InvalidArgument] for the null address. *)
Definition into_maybe_null (a : option Address) : Result ProgramError MaybeNull :=
  ok_or (maybe_null_try_from a) ProgramError.InvalidArgument.

Module memo_transfer_instruction.
Definition enable_required_transfer_memos (token_program_id account owner : Address)
    (signers : list Address) : Result ProgramError Instruction :=
  _ ← check_program_account token_program_id;
  mret (encode_instruction token_program_id (new account false :: authority_metas owner signers)
          MemoTransferExtension x00 (* Enable *) tt).
Definition disable_required_transfer_memos (token_program_id account owner : Address)
    (signers : list Address) : Result ProgramError Instruction :=
  _ ← check_program_account token_program_id;
  mret (encode_instruction token_program_id (new account false :: authority_metas owner signers)
          MemoTransferExtension x01 (* Disable *) tt).
End memo_transfer_instruction.

Module cpi_guard_instruction.
Definition enable_cpi_guard (token_program_id account owner : Address) (signers : list Address)
    : Result ProgramError Instruction :=
  _ ← check_program_account token_program_id;
  mret (encode_instruction token_program_id (new account false :: authority_metas owner signers)
          CpiGuardExtension x00 (* Enable *) tt).
Definition disable_cpi_guard (token_program_id account owner : Address) (signers : list Address)
    : Result ProgramError Instruction :=
  _ ← check_program_account token_program_id;
  mret (encode_instruction token_program_id (new account false :: authority_metas owner signers)
          CpiGuardExtension x01 (* Disable *) tt).
End cpi_guard_instruction.

Module default_account_state_instruction.
(** This module has an [encode_instruction] of its own. *)
Definition encode_instruction (token_program_id : Address) (accounts : list AccountMeta)
    (instruction_type : byte) (state : AccountState) : Instruction :=
  mk_instruction token_program_id accounts
    (pack DefaultAccountStateExtension ++ [instruction_type; account_state_u8 state]).
Definition initialize_default_account_state (token_program_id mint : Address) (state : AccountState)
    : Result ProgramError Instruction :=
  _ ← check_program_account token_program_id;
  mret (encode_instruction token_program_id [new mint false] x00 (* Initialize *) state).
Definition update_default_account_state (token_program_id mint freeze_authority : Address)
    (signers : list Address) (state : AccountState) : Result ProgramError Instruction :=
  _ ← check_program_account token_program_id;
  mret (encode_instruction token_program_id
          (new mint false :: authority_metas freeze_authority signers) x01 (* Update *) state).
End default_account_state_instruction.

Module interest_bearing_mint_instruction.
Definition initialize (token_program_id mint : Address) (rate_authority : option Address) (rate : Z)
    : Result ProgramError Instruction :=
  _ ← check_program_account token_program_id;
  rate_authority ← into_maybe_null rate_authority;
  mret (encode_instruction token_program_id [new mint false] InterestBearingMintExtension
          x00 (* Initialize *) (interest_bearing_mint.mk_init rate_authority (i16_new rate))).
Definition update_rate (token_program_id mint rate_authority : Address) (signers : list Address)
    (rate : Z) : Result ProgramError Instruction :=
  _ ← check_program_account token_program_id;
  mret (encode_instruction token_program_id (new mint false :: authority_metas rate_authority signers)
          InterestBearingMintExtension x01 (* UpdateRate *) (i16_new rate)).
End interest_bearing_mint_instruction.

Module pausable_instruction.
Definition initialize (token_program_id mint authority : Address)
    : Result ProgramError Instruction :=
  _ ← check_program_account token_program_id;
  mret (encode_instruction token_program_id [new mint false] PausableExtension
          x00 (* Initialize *) authority).
Definition pause (token_program_id mint authority : Address) (signers : list Address)
    : Result ProgramError Instruction :=
  _ ← check_program_account token_program_id;
  mret (encode_instruction token_program_id (new mint false :: authority_metas authority signers)
          PausableExtension x01 (* Pause *) tt).
Definition resume (token_program_id mint authority : Address) (signers : list Address)
    : Result ProgramError Instruction :=
  _ ← check_program_account token_program_id;
  mret (encode_instruction token_program_id (new mint false :: authority_metas authority signers)
          PausableExtension x02 (* Resume *) tt).
End pausable_instruction.

Module scaled_ui_amount_instruction.
(** The multiplier is given by the bytes of its [f64]. *)
Definition initialize (token_program_id mint : Address) (authority : option Address)
    (multiplier : PodF64) : Result ProgramError Instruction :=
  _ ← check_program_account token_program_id;
  authority ← into_maybe_null authority;
  mret (encode_instruction token_program_id [new mint false] ScaledUiAmountExtension
          x00 (* Initialize *) (scaled_ui_amount.mk_init authority multiplier)).
Definition update_multiplier (token_program_id mint authority : Address) (signers : list Address)
    (multiplier : PodF64) (effective_timestamp : Z) : Result ProgramError Instruction :=
  _ ← check_program_account token_program_id;
  mret (encode_instruction token_program_id (new mint false :: authority_metas authority signers)
          ScaledUiAmountExtension x01 (* UpdateMultiplier *)
          (scaled_ui_amount.mk_update multiplier (i64_new effective_timestamp))).
End scaled_ui_amount_instruction.

(** What the four pointer modules share: they differ in the token instruction. *)
Section pointer.
Context (extension : TokenInstruction).

Definition initialize_pointer (token_program_id mint : Address) (authority address : option Address)
    : Result ProgramError Instruction :=
  _ ← check_program_account token_program_id;
  authority ← into_maybe_null authority;
  address ← into_maybe_null address;
  mret (encode_instruction token_program_id [new mint false] extension
          x00 (* Initialize *) (mk_pair_data authority address)).

Definition update_pointer (token_program_id mint authority : Address) (signers : list Address)
    (address : option Address) : Result ProgramError Instruction :=
  _ ← check_program_account token_program_id;
  address ← into_maybe_null address;
  mret (encode_instruction token_program_id (new mint false :: authority_metas authority signers)
          extension x01 (* Update *) address).
End pointer.

Module transfer_hook_instruction.
Definition initialize := initialize_pointer TransferHookExtension.
Definition update := update_pointer TransferHookExtension.
End transfer_hook_instruction.

Module metadata_pointer_instruction.
Definition initialize := initialize_pointer MetadataPointerExtension.
Definition update := update_pointer MetadataPointerExtension.
End metadata_pointer_instruction.

Module group_pointer_instruction.
Definition initialize := initialize_pointer GroupPointerExtension.
Definition update := update_pointer GroupPointerExtension.
End group_pointer_instruction.

Module group_member_pointer_instruction.
Definition initialize := initialize_pointer GroupMemberPointerExtension.
Definition update := update_pointer GroupMemberPointerExtension.
End group_member_pointer_instruction.

Module permissioned_burn_instruction.
Definition initialize (token_program_id mint authority : Address)
    : Result ProgramError Instruction :=
  _ ← check_program_account token_program_id;
  mret (encode_instruction token_program_id [new mint false] PermissionedBurnExtension
          x00 (* Initialize *) authority).
Definition burn_metas (account mint permissioned_burn_authority authority : Address)
    (signer_pubkeys : list Address) : list AccountMeta :=
  new account false :: new mint false :: new_readonly permissioned_burn_authority true ::
  authority_metas authority signer_pubkeys.
Definition burn (token_program_id account mint permissioned_burn_authority authority : Address)
    (signer_pubkeys : list Address) (amount : Z) : Result ProgramError Instruction :=
  _ ← check_program_account token_program_id;
  mret (encode_instruction token_program_id
          (burn_metas account mint permissioned_burn_authority authority signer_pubkeys)
          PermissionedBurnExtension x01 (* Burn *) (mk_ad (u64_new amount))).
Definition burn_checked (token_program_id account mint permissioned_burn_authority authority : Address)
    (signer_pubkeys : list Address) (amount : Z) (decimals : byte)
    : Result ProgramError Instruction :=
  _ ← check_program_account token_program_id;
  mret (encode_instruction token_program_id
          (burn_metas account mint permissioned_burn_authority authority signer_pubkeys)
          PermissionedBurnExtension x02 (* BurnChecked *) (mk_acd (u64_new amount) decimals)).
End permissioned_burn_instruction.

Module transfer_fee_instruction.
Definition encode_instruction_data (transfer_fee_instruction : transfer_fee.TransferFeeInstruction)
    : list byte :=
  pack TransferFeeExtension ++ transfer_fee.pack transfer_fee_instruction.

Definition initialize_transfer_fee_config (token_program_id mint : Address)
    (transfer_fee_config_authority withdraw_withheld_authority : option Address)
    (transfer_fee_basis_points maximum_fee : Z) : Result ProgramError Instruction :=
  _ ← check_program_account token_program_id;
  mret (mk_instruction token_program_id [new mint false]
    (encode_instruction_data (transfer_fee.InitializeTransferFeeConfig transfer_fee_config_authority
       withdraw_withheld_authority transfer_fee_basis_points maximum_fee))).

Definition transfer_checked_with_fee (token_program_id source mint destination authority : Address)
    (signers : list Address) (amount : Z) (decimals : byte) (fee : Z)
    : Result ProgramError Instruction :=
  _ ← check_program_account token_program_id;
  mret (mk_instruction token_program_id
    (new source false :: new_readonly mint false :: new destination false ::
     authority_metas authority signers)
    (encode_instruction_data (transfer_fee.TransferCheckedWithFee amount decimals fee))).

Definition withdraw_withheld_tokens_from_mint (token_program_id mint destination authority : Address)
    (signers : list Address) : Result ProgramError Instruction :=
  _ ← check_program_account token_program_id;
  mret (mk_instruction token_program_id
    (new mint false :: new destination false :: authority_metas authority signers)
    (encode_instruction_data transfer_fee.WithdrawWithheldTokensFromMint)).

Definition source_metas (sources : list Address) : list AccountMeta :=
  (fun source => new source false) <$> sources.

Definition withdraw_withheld_tokens_from_accounts
    (token_program_id mint destination authority : Address) (signers sources : list Address)
    : Result ProgramError Instruction :=
  _ ← check_program_account token_program_id;
  num_token_accounts ←
    (if (length sources <? 256)%nat then Ok (u8_of_Z (Z.of_nat (length sources)))
     else Err ProgramError.InvalidInstructionData);
  mret (mk_instruction token_program_id
    ((new_readonly mint false :: new destination false :: authority_metas authority signers) ++
     source_metas sources)
    (encode_instruction_data (transfer_fee.WithdrawWithheldTokensFromAccounts num_token_accounts))).

Definition harvest_withheld_tokens_to_mint (token_program_id mint : Address) (sources : list Address)
    : Result ProgramError Instruction :=
  _ ← check_program_account token_program_id;
  mret (mk_instruction token_program_id (new mint false :: source_metas sources)
    (encode_instruction_data transfer_fee.HarvestWithheldTokensToMint)).

Definition set_transfer_fee (token_program_id mint authority : Address) (signers : list Address)
    (transfer_fee_basis_points maximum_fee : Z) : Result ProgramError Instruction :=
  _ ← check_program_account token_program_id;
  mret (mk_instruction token_program_id (new mint false :: authority_metas authority signers)
    (encode_instruction_data (transfer_fee.SetTransferFee transfer_fee_basis_points maximum_fee))).
End transfer_fee_instruction.
