(* ===== verification/ConfidentialInstructions.v ===== *)
(** * The confidential instructions as clients build them

    [interface/src/extension/confidential_transfer/instruction.rs],
    [confidential_transfer_fee/instruction.rs],
    [confidential_mint_burn/instruction.rs], the confidential burn of
    [permissioned_burn/instruction.rs], and [ProofLocation] with
    [process_proof_location] of
    [confidential/proof-extraction/src/instruction.rs].  A proof is given where
    it was verified before, in an account, or as data that an instruction
    of the same transaction will verify; the functions that return several
    instructions put those behind their own.  Proof data and the instruction
    that verifies it belong to another crate: the class [ZkProofs]. *)
From S2P Require Import Prelude Bytes Errors Ids Runtime Pod ExtensionState Extension.
From S2P Require Import PodInstruction Settings Fees CiphertextArithmetic ProofExtraction.
From S2P Require Import ConfidentialTransfer ConfidentialTransferFee ConfidentialMintBurn.
From S2P Require Import Instruction ExtensionInstructions.
Import TokenInstruction.

Class ZkProofs `{ZK : ZkInterface} : Type := mk_zk_proofs {
  (** The data of a proof of this type, [T] of [ProofLocation<T>]. *)
  ZkProofData : ProofType -> Type;
  (** [ProofInstruction::encode_verify_proof(None, proof_data)]. *)
  encode_verify_proof : ProofInstruction -> forall proof_type, ZkProofData proof_type -> Instruction;
  (** [sysvar::instructions::id()]. *)
  sysvar_instructions_id : Address
}.

(** The byte of an [i8]. *)
Definition i8_new (z : Z) : byte := u8_of_Z (z mod 256).

Definition i8_checked_add (a b : Z) : option Z := checked (-128) 127 (a + b).

Section proofs.
Context `{RT : Runtime} `{ZK : ZkInterface} `{ZP : !ZkProofs}.

(** ** Where a proof is *)

(** The offset is a [NonZeroI8]. *)
Inductive ProofLocation (proof_type : ProofType) : Type :=
  | InstructionOffset (proof_instruction_offset : Z) (proof_data : ZkProofData proof_type)
  | ContextStateAccount (context_state_account : Address).
#[global] Arguments InstructionOffset {_} _ _.
#[global] Arguments ContextStateAccount {_} _.

Definition is_instruction_offset {ty} (location : ProofLocation ty) : bool :=
  match location with InstructionOffset _ _ => true | ContextStateAccount _ => false end.

(** [process_proof_location]: the offset, and the three vectors and counters
    that it changes: [accounts], [expected_instruction_offset] and
    [proof_instructions]. *)
Definition process_proof_location {ty} (accounts : list AccountMeta) (expected_instruction_offset : Z)
    (proof_instructions : list Instruction) (proof_location : ProofLocation ty)
    (push_sysvar_to_accounts : bool) (proof_instruction_type : ProofInstruction)
    : Result ProgramError (Z * (list AccountMeta * Z * list Instruction)) :=
  match proof_location with
  | InstructionOffset proof_instruction_offset proof_data =>
      _ ← fail_if (negb (proof_instruction_offset =? expected_instruction_offset))
            ProgramError.InvalidInstructionData;
      let accounts :=
        if push_sysvar_to_accounts
        then accounts ++ [new_readonly sysvar_instructions_id false] else accounts in
      let proof_instructions :=
        proof_instructions ++ [encode_verify_proof proof_instruction_type ty proof_data] in
      expected_instruction_offset ←
        ok_or (i8_checked_add expected_instruction_offset 1) ProgramError.InvalidInstructionData;
      mret (proof_instruction_offset, (accounts, expected_instruction_offset, proof_instructions))
  | ContextStateAccount context_state_account =>
      mret (0, (accounts ++ [new_readonly context_state_account false], expected_instruction_offset,
                proof_instructions))
  end.

(** The [match] on the location of the only proof: the accounts pushed, and the offset. *)
Definition single_location {ty} (location : ProofLocation ty) : list AccountMeta * Z :=
  match location with
  | InstructionOffset offset _ => ([new_readonly sysvar_instructions_id false], offset)
  | ContextStateAccount k => ([new_readonly k false], 0)
  end.

(** The [match] on the location of one of several proofs, which share the sysvar. *)
Definition shared_location {ty} (location : ProofLocation ty) : list AccountMeta * Z :=
  match location with
  | InstructionOffset offset _ => ([], offset)
  | ContextStateAccount k => ([new_readonly k false], 0)
  end.

(** The sysvar, when a proof is in the transaction. *)
Definition sysvar_metas (needed : bool) : list AccountMeta :=
  if needed then [new_readonly sysvar_instructions_id false] else [].

(** The [if let] that appends the instruction of a proof, and counts it. *)
Definition append_proof {ty} (proof_instruction : ProofInstruction) (location : ProofLocation ty)
    (state : Z * list Instruction) : Result ProgramError (Z * list Instruction) :=
  let '(expected_instruction_offset, instructions) := state in
  match location with
  | InstructionOffset proof_instruction_offset proof_data =>
      _ ← fail_if (negb (proof_instruction_offset =? expected_instruction_offset))
            (TokenError.InvalidProofInstructionOffset : ProgramError);
      mret (expected_instruction_offset + 1,
            instructions ++ [encode_verify_proof proof_instruction ty proof_data])
  | ContextStateAccount _ => mret state
  end.
End proofs.

Module confidential_transfer_instruction.
Section clients.
Context `{RT : Runtime} `{ZK : ZkInterface} `{ZP : !ZkProofs}.

Definition initialize_mint (token_program_id mint : Address) (authority : option Address)
    (auto_approve_new_accounts : bool) (auditor_elgamal_pubkey : option PodElGamalPubkey)
    : Result ProgramError Instruction :=
  _ ← check_program_account token_program_id;
  authority ← into_maybe_null authority;
  auditor_elgamal_pubkey ← into_maybe_null auditor_elgamal_pubkey;
  mret (encode_instruction token_program_id [new mint false] ConfidentialTransferExtension
          x00 (* InitializeMint *)
          (confidential_transfer.mk_initialize_mint authority (bool_new auto_approve_new_accounts)
             auditor_elgamal_pubkey)).

Definition update_mint (token_program_id mint authority : Address) (multisig_signers : list Address)
    (auto_approve_new_accounts : bool) (auditor_elgamal_pubkey : option PodElGamalPubkey)
    : Result ProgramError Instruction :=
  _ ← check_program_account token_program_id;
  auditor_elgamal_pubkey ← into_maybe_null auditor_elgamal_pubkey;
  mret (encode_instruction token_program_id (new mint false :: authority_metas authority multisig_signers)
          ConfidentialTransferExtension x01 (* UpdateMint *)
          (confidential_transfer.mk_update_mint (bool_new auto_approve_new_accounts)
             auditor_elgamal_pubkey)).

Definition inner_configure_account (token_program_id token_account mint : Address)
    (decryptable_zero_balance : DecryptableBalance) (maximum_pending_balance_credit_counter : Z)
    (authority : Address) (multisig_signers : list Address)
    (proof_data_location : ProofLocation ProofType.PubkeyValidity) : Result ProgramError Instruction :=
  _ ← check_program_account token_program_id;
  let '(proof_accounts, proof_instruction_offset) := single_location proof_data_location in
  mret (encode_instruction token_program_id
          ([new token_account false; new_readonly mint false] ++ proof_accounts ++
           authority_metas authority multisig_signers)
          ConfidentialTransferExtension x02 (* ConfigureAccount *)
          (confidential_transfer.mk_configure_account decryptable_zero_balance
             (u64_new maximum_pending_balance_credit_counter) (i8_new proof_instruction_offset))).

Definition configure_account (token_program_id token_account mint : Address)
    (decryptable_zero_balance : DecryptableBalance) (maximum_pending_balance_credit_counter : Z)
    (authority : Address) (multisig_signers : list Address)
    (proof_data_location : ProofLocation ProofType.PubkeyValidity)
    : Result ProgramError (list Instruction) :=
  instruction ← inner_configure_account token_program_id token_account mint decryptable_zero_balance
    maximum_pending_balance_credit_counter authority multisig_signers proof_data_location;
  '(_, instructions) ← append_proof ProofInstruction.VerifyPubkeyValidity proof_data_location
    (1, [instruction]);
  mret instructions.

Definition approve_account (token_program_id account_to_approve mint authority : Address)
    (multisig_signers : list Address) : Result ProgramError Instruction :=
  _ ← check_program_account token_program_id;
  mret (encode_instruction token_program_id
          (new account_to_approve false :: new_readonly mint false ::
           authority_metas authority multisig_signers)
          ConfidentialTransferExtension x03 (* ApproveAccount *) tt).

Definition inner_empty_account (token_program_id token_account authority : Address)
    (multisig_signers : list Address) (proof_data_location : ProofLocation ProofType.ZeroCiphertext)
    : Result ProgramError Instruction :=
  _ ← check_program_account token_program_id;
  let '(proof_accounts, proof_instruction_offset) := single_location proof_data_location in
  mret (encode_instruction token_program_id
          ([new token_account false] ++ proof_accounts ++ authority_metas authority multisig_signers)
          ConfidentialTransferExtension x04 (* EmptyAccount *)
          (confidential_transfer.mk_empty_account (i8_new proof_instruction_offset))).

Definition empty_account (token_program_id token_account authority : Address)
    (multisig_signers : list Address) (proof_data_location : ProofLocation ProofType.ZeroCiphertext)
    : Result ProgramError (list Instruction) :=
  instruction ← inner_empty_account token_program_id token_account authority multisig_signers
    proof_data_location;
  '(_, instructions) ← append_proof ProofInstruction.VerifyZeroCiphertext proof_data_location
    (1, [instruction]);
  mret instructions.

Definition deposit (token_program_id token_account mint : Address) (amount : Z) (decimals : byte)
    (authority : Address) (multisig_signers : list Address) : Result ProgramError Instruction :=
  _ ← check_program_account token_program_id;
  mret (encode_instruction token_program_id
          (new token_account false :: new_readonly mint false ::
           authority_metas authority multisig_signers)
          ConfidentialTransferExtension x05 (* Deposit *)
          (confidential_transfer.mk_deposit (u64_new amount) decimals)).

Definition inner_withdraw (token_program_id token_account mint : Address) (amount : Z) (decimals : byte)
    (new_decryptable_available_balance : DecryptableBalance) (authority : Address)
    (multisig_signers : list Address)
    (equality_proof_data_location : ProofLocation ProofType.CiphertextCommitmentEquality)
    (range_proof_data_location : ProofLocation ProofType.BatchedRangeProofU64)
    : Result ProgramError Instruction :=
  _ ← check_program_account token_program_id;
  let accounts := [new token_account false; new_readonly mint false] ++
    sysvar_metas (is_instruction_offset equality_proof_data_location ||
                  is_instruction_offset range_proof_data_location) in
  let '(pushed, equality_proof_instruction_offset) := shared_location equality_proof_data_location in
  let accounts := accounts ++ pushed in
  let '(pushed, range_proof_instruction_offset) := shared_location range_proof_data_location in
  let accounts := accounts ++ pushed in
  mret (encode_instruction token_program_id (accounts ++ authority_metas authority multisig_signers)
          ConfidentialTransferExtension x06 (* Withdraw *)
          (confidential_transfer.mk_withdraw (u64_new amount) decimals
             new_decryptable_available_balance (i8_new equality_proof_instruction_offset)
             (i8_new range_proof_instruction_offset))).

Definition withdraw (token_program_id token_account mint : Address) (amount : Z) (decimals : byte)
    (new_decryptable_available_balance : DecryptableBalance) (authority : Address)
    (multisig_signers : list Address)
    (equality_proof_data_location : ProofLocation ProofType.CiphertextCommitmentEquality)
    (range_proof_data_location : ProofLocation ProofType.BatchedRangeProofU64)
    : Result ProgramError (list Instruction) :=
  instruction ← inner_withdraw token_program_id token_account mint amount decimals
    new_decryptable_available_balance authority multisig_signers equality_proof_data_location
    range_proof_data_location;
  state ← append_proof ProofInstruction.VerifyCiphertextCommitmentEquality
    equality_proof_data_location (1, [instruction]);
  '(_, instructions) ← append_proof ProofInstruction.VerifyBatchedRangeProofU64
    range_proof_data_location state;
  mret instructions.

Definition inner_transfer
    (token_program_id source_token_account mint destination_token_account : Address)
    (new_source_decryptable_available_balance : DecryptableBalance)
    (transfer_amount_auditor_ciphertext_lo transfer_amount_auditor_ciphertext_hi : PodElGamalCiphertext)
    (authority : Address) (multisig_signers : list Address)
    (equality_proof_data_location : ProofLocation ProofType.CiphertextCommitmentEquality)
    (ciphertext_validity_proof_data_location :
       ProofLocation ProofType.BatchedGroupedCiphertext3HandlesValidity)
    (range_proof_data_location : ProofLocation ProofType.BatchedRangeProofU128)
    : Result ProgramError Instruction :=
  _ ← check_program_account token_program_id;
  let accounts :=
    [new source_token_account false; new_readonly mint false; new destination_token_account false] ++
    sysvar_metas (is_instruction_offset equality_proof_data_location ||
                  is_instruction_offset ciphertext_validity_proof_data_location ||
                  is_instruction_offset range_proof_data_location) in
  let '(pushed, equality_proof_instruction_offset) := shared_location equality_proof_data_location in
  let accounts := accounts ++ pushed in
  let '(pushed, ciphertext_validity_proof_instruction_offset) :=
    shared_location ciphertext_validity_proof_data_location in
  let accounts := accounts ++ pushed in
  let '(pushed, range_proof_instruction_offset) := shared_location range_proof_data_location in
  let accounts := accounts ++ pushed in
  mret (encode_instruction token_program_id (accounts ++ authority_metas authority multisig_signers)
          ConfidentialTransferExtension x07 (* Transfer *)
          (confidential_transfer.mk_transfer new_source_decryptable_available_balance
             transfer_amount_auditor_ciphertext_lo transfer_amount_auditor_ciphertext_hi
             (i8_new equality_proof_instruction_offset)
             (i8_new ciphertext_validity_proof_instruction_offset)
             (i8_new range_proof_instruction_offset))).

Definition transfer
    (token_program_id source_token_account mint destination_token_account : Address)
    (new_source_decryptable_available_balance : DecryptableBalance)
    (transfer_amount_auditor_ciphertext_lo transfer_amount_auditor_ciphertext_hi : PodElGamalCiphertext)
    (authority : Address) (multisig_signers : list Address)
    (equality_proof_data_location : ProofLocation ProofType.CiphertextCommitmentEquality)
    (ciphertext_validity_proof_data_location :
       ProofLocation ProofType.BatchedGroupedCiphertext3HandlesValidity)
    (range_proof_data_location : ProofLocation ProofType.BatchedRangeProofU128)
    : Result ProgramError (list Instruction) :=
  instruction ← inner_transfer token_program_id source_token_account mint destination_token_account
    new_source_decryptable_available_balance transfer_amount_auditor_ciphertext_lo
    transfer_amount_auditor_ciphertext_hi authority multisig_signers equality_proof_data_location
    ciphertext_validity_proof_data_location range_proof_data_location;
  state ← append_proof ProofInstruction.VerifyCiphertextCommitmentEquality
    equality_proof_data_location (1, [instruction]);
  state ← append_proof ProofInstruction.VerifyBatchedGroupedCiphertext3HandlesValidity
    ciphertext_validity_proof_data_location state;
  '(_, instructions) ← append_proof ProofInstruction.VerifyBatchedRangeProofU128
    range_proof_data_location state;
  mret instructions.

Definition inner_apply_pending_balance (token_program_id token_account : Address)
    (expected_pending_balance_credit_counter : Z)
    (new_decryptable_available_balance : DecryptableBalance) (authority : Address)
    (multisig_signers : list Address) : Result ProgramError Instruction :=
  _ ← check_program_account token_program_id;
  mret (encode_instruction token_program_id
          (new token_account false :: authority_metas authority multisig_signers)
          ConfidentialTransferExtension x08 (* ApplyPendingBalance *)
          (confidential_transfer.mk_apply_pending_balance
             (u64_new expected_pending_balance_credit_counter) new_decryptable_available_balance)).

Definition apply_pending_balance (token_program_id token_account : Address)
    (pending_balance_instructions : Z) (new_decryptable_available_balance : DecryptableBalance)
    (authority : Address) (multisig_signers : list Address) : Result ProgramError Instruction :=
  inner_apply_pending_balance token_program_id token_account pending_balance_instructions
    new_decryptable_available_balance authority multisig_signers.

Definition enable_or_disable_balance_credits (instruction : byte)
    (token_program_id token_account authority : Address) (multisig_signers : list Address)
    : Result ProgramError Instruction :=
  _ ← check_program_account token_program_id;
  mret (encode_instruction token_program_id
          (new token_account false :: authority_metas authority multisig_signers)
          ConfidentialTransferExtension instruction tt).

Definition enable_confidential_credits :=
  enable_or_disable_balance_credits x09 (* EnableConfidentialCredits *).
Definition disable_confidential_credits :=
  enable_or_disable_balance_credits x0a (* DisableConfidentialCredits *).
Definition enable_non_confidential_credits :=
  enable_or_disable_balance_credits x0b (* EnableNonConfidentialCredits *).
Definition disable_non_confidential_credits :=
  enable_or_disable_balance_credits x0c (* DisableNonConfidentialCredits *).

Definition inner_transfer_with_fee
    (token_program_id source_token_account mint destination_token_account : Address)
    (new_source_decryptable_available_balance : DecryptableBalance)
    (transfer_amount_auditor_ciphertext_lo transfer_amount_auditor_ciphertext_hi : PodElGamalCiphertext)
    (authority : Address) (multisig_signers : list Address)
    (equality_proof_data_location : ProofLocation ProofType.CiphertextCommitmentEquality)
    (transfer_amount_ciphertext_validity_proof_data_location :
       ProofLocation ProofType.BatchedGroupedCiphertext3HandlesValidity)
    (fee_sigma_proof_data_location : ProofLocation ProofType.PercentageWithCap)
    (fee_ciphertext_validity_proof_data_location :
       ProofLocation ProofType.BatchedGroupedCiphertext2HandlesValidity)
    (range_proof_data_location : ProofLocation ProofType.BatchedRangeProofU256)
    : Result ProgramError Instruction :=
  _ ← check_program_account token_program_id;
  let accounts :=
    [new source_token_account false; new_readonly mint false; new destination_token_account false] ++
    sysvar_metas (is_instruction_offset equality_proof_data_location ||
                  is_instruction_offset transfer_amount_ciphertext_validity_proof_data_location ||
                  is_instruction_offset fee_sigma_proof_data_location ||
                  is_instruction_offset fee_ciphertext_validity_proof_data_location ||
                  is_instruction_offset range_proof_data_location) in
  let '(pushed, equality_proof_instruction_offset) := shared_location equality_proof_data_location in
  let accounts := accounts ++ pushed in
  let '(pushed, transfer_amount_ciphertext_validity_proof_instruction_offset) :=
    shared_location transfer_amount_ciphertext_validity_proof_data_location in
  let accounts := accounts ++ pushed in
  let '(pushed, fee_sigma_proof_instruction_offset) :=
    shared_location fee_sigma_proof_data_location in
  let accounts := accounts ++ pushed in
  let '(pushed, fee_ciphertext_validity_proof_instruction_offset) :=
    shared_location fee_ciphertext_validity_proof_data_location in
  let accounts := accounts ++ pushed in
  let '(pushed, range_proof_instruction_offset) := shared_location range_proof_data_location in
  let accounts := accounts ++ pushed in
  mret (encode_instruction token_program_id (accounts ++ authority_metas authority multisig_signers)
          ConfidentialTransferExtension x0d (* TransferWithFee *)
          (confidential_transfer.mk_transfer_with_fee new_source_decryptable_available_balance
             transfer_amount_auditor_ciphertext_lo transfer_amount_auditor_ciphertext_hi
             (i8_new equality_proof_instruction_offset)
             (i8_new transfer_amount_ciphertext_validity_proof_instruction_offset)
             (i8_new fee_sigma_proof_instruction_offset)
             (i8_new fee_ciphertext_validity_proof_instruction_offset)
             (i8_new range_proof_instruction_offset))).

Definition transfer_with_fee
    (token_program_id source_token_account mint destination_token_account : Address)
    (new_source_decryptable_available_balance : DecryptableBalance)
    (transfer_amount_auditor_ciphertext_lo transfer_amount_auditor_ciphertext_hi : PodElGamalCiphertext)
    (authority : Address) (multisig_signers : list Address)
    (equality_proof_data_location : ProofLocation ProofType.CiphertextCommitmentEquality)
    (transfer_amount_ciphertext_validity_proof_data_location :
       ProofLocation ProofType.BatchedGroupedCiphertext3HandlesValidity)
    (fee_sigma_proof_data_location : ProofLocation ProofType.PercentageWithCap)
    (fee_ciphertext_validity_proof_data_location :
       ProofLocation ProofType.BatchedGroupedCiphertext2HandlesValidity)
    (range_proof_data_location : ProofLocation ProofType.BatchedRangeProofU256)
    : Result ProgramError (list Instruction) :=
  instruction ← inner_transfer_with_fee token_program_id source_token_account mint
    destination_token_account new_source_decryptable_available_balance
    transfer_amount_auditor_ciphertext_lo transfer_amount_auditor_ciphertext_hi authority
    multisig_signers equality_proof_data_location
    transfer_amount_ciphertext_validity_proof_data_location fee_sigma_proof_data_location
    fee_ciphertext_validity_proof_data_location range_proof_data_location;
  state ← append_proof ProofInstruction.VerifyCiphertextCommitmentEquality
    equality_proof_data_location (1, [instruction]);
  state ← append_proof ProofInstruction.VerifyBatchedGroupedCiphertext3HandlesValidity
    transfer_amount_ciphertext_validity_proof_data_location state;
  state ← append_proof ProofInstruction.VerifyPercentageWithCap fee_sigma_proof_data_location state;
  state ← append_proof ProofInstruction.VerifyBatchedGroupedCiphertext2HandlesValidity
    fee_ciphertext_validity_proof_data_location state;
  '(_, instructions) ← append_proof ProofInstruction.VerifyBatchedRangeProofU256
    range_proof_data_location state;
  mret instructions.

Definition configure_account_with_registry
    (token_program_id token_account mint elgamal_registry_account : Address) (payer : option Address)
    : Result ProgramError Instruction :=
  _ ← check_program_account token_program_id;
  let accounts := [new token_account false; new_readonly mint false;
                   new_readonly elgamal_registry_account false] in
  let accounts :=
    match payer with
    | Some payer => accounts ++ [new payer true; new_readonly rt_system_program_id false]
    | None => accounts
    end in
  mret (encode_instruction token_program_id accounts ConfidentialTransferExtension
          x0e (* ConfigureAccountWithRegistry *) tt).
End clients.
End confidential_transfer_instruction.

Module confidential_transfer_fee_instruction.
Section clients.
Context `{ZK : ZkInterface} `{ZP : !ZkProofs}.

Definition initialize_confidential_transfer_fee_config (token_program_id mint : Address)
    (authority : option Address) (withdraw_withheld_authority_elgamal_pubkey : PodElGamalPubkey)
    : Result ProgramError Instruction :=
  _ ← check_program_account token_program_id;
  authority ← into_maybe_null authority;
  mret (encode_instruction token_program_id [new mint false] ConfidentialTransferFeeExtension
          x00 (* InitializeConfidentialTransferFeeConfig *)
          (confidential_transfer_fee.mk_initialize_config authority
             withdraw_withheld_authority_elgamal_pubkey)).

Definition inner_withdraw_withheld_tokens_from_mint (token_program_id mint destination : Address)
    (new_decryptable_available_balance : DecryptableBalance) (authority : Address)
    (multisig_signers : list Address)
    (proof_data_location : ProofLocation ProofType.CiphertextCiphertextEquality)
    : Result ProgramError Instruction :=
  _ ← check_program_account token_program_id;
  let '(proof_accounts, proof_instruction_offset) := single_location proof_data_location in
  mret (encode_instruction token_program_id
          ([new mint false; new destination false] ++ proof_accounts ++
           authority_metas authority multisig_signers)
          ConfidentialTransferFeeExtension x01 (* WithdrawWithheldTokensFromMint *)
          (confidential_transfer_fee.mk_withdraw_from_mint (i8_new proof_instruction_offset)
             new_decryptable_available_balance)).

Definition withdraw_withheld_tokens_from_mint (token_program_id mint destination : Address)
    (new_decryptable_available_balance : DecryptableBalance) (authority : Address)
    (multisig_signers : list Address)
    (proof_data_location : ProofLocation ProofType.CiphertextCiphertextEquality)
    : Result ProgramError (list Instruction) :=
  instruction ← inner_withdraw_withheld_tokens_from_mint token_program_id mint destination
    new_decryptable_available_balance authority multisig_signers proof_data_location;
  '(_, instructions) ← append_proof ProofInstruction.VerifyCiphertextCiphertextEquality
    proof_data_location (1, [instruction]);
  mret instructions.

Definition inner_withdraw_withheld_tokens_from_accounts (token_program_id mint destination : Address)
    (new_decryptable_available_balance : DecryptableBalance) (authority : Address)
    (multisig_signers sources : list Address)
    (proof_data_location : ProofLocation ProofType.CiphertextCiphertextEquality)
    : Result ProgramError Instruction :=
  _ ← check_program_account token_program_id;
  num_token_accounts ←
    (if (length sources <? 256)%nat then Ok (u8_of_Z (Z.of_nat (length sources)))
     else Err ProgramError.InvalidInstructionData);
  let '(proof_accounts, proof_instruction_offset) := single_location proof_data_location in
  mret (encode_instruction token_program_id
          ([new mint false; new destination false] ++ proof_accounts ++
           authority_metas authority multisig_signers ++ transfer_fee_instruction.source_metas sources)
          ConfidentialTransferFeeExtension x02 (* WithdrawWithheldTokensFromAccounts *)
          (confidential_transfer_fee.mk_withdraw_from_accounts num_token_accounts
             (i8_new proof_instruction_offset) new_decryptable_available_balance)).

Definition withdraw_withheld_tokens_from_accounts (token_program_id mint destination : Address)
    (new_decryptable_available_balance : DecryptableBalance) (authority : Address)
    (multisig_signers sources : list Address)
    (proof_data_location : ProofLocation ProofType.CiphertextCiphertextEquality)
    : Result ProgramError (list Instruction) :=
  instruction ← inner_withdraw_withheld_tokens_from_accounts token_program_id mint destination
    new_decryptable_available_balance authority multisig_signers sources proof_data_location;
  '(_, instructions) ← append_proof ProofInstruction.VerifyCiphertextCiphertextEquality
    proof_data_location (1, [instruction]);
  mret instructions.

Definition harvest_withheld_tokens_to_mint (token_program_id mint : Address) (sources : list Address)
    : Result ProgramError Instruction :=
  _ ← check_program_account token_program_id;
  mret (encode_instruction token_program_id
          (new mint false :: transfer_fee_instruction.source_metas sources)
          ConfidentialTransferFeeExtension x03 (* HarvestWithheldTokensToMint *) tt).

Definition enable_harvest_to_mint (token_program_id mint authority : Address)
    (multisig_signers : list Address) : Result ProgramError Instruction :=
  _ ← check_program_account token_program_id;
  mret (encode_instruction token_program_id (new mint false :: authority_metas authority multisig_signers)
          ConfidentialTransferFeeExtension x04 (* EnableHarvestToMint *) tt).

Definition disable_harvest_to_mint (token_program_id mint authority : Address)
    (multisig_signers : list Address) : Result ProgramError Instruction :=
  _ ← check_program_account token_program_id;
  mret (encode_instruction token_program_id (new mint false :: authority_metas authority multisig_signers)
          ConfidentialTransferFeeExtension x05 (* DisableHarvestToMint *) tt).
End clients.
End confidential_transfer_fee_instruction.

Module confidential_mint_burn_instruction.
Section clients.
Context `{ZK : ZkInterface} `{ZP : !ZkProofs}.

Definition initialize_mint (token_program_id mint : Address) (supply_elgamal_pubkey : PodElGamalPubkey)
    (decryptable_supply : DecryptableBalance) : Result ProgramError Instruction :=
  _ ← check_program_account token_program_id;
  mret (encode_instruction token_program_id [new mint false] ConfidentialMintBurnExtension
          x00 (* InitializeMint *)
          (confidential_mint_burn.mk_initialize_mint supply_elgamal_pubkey decryptable_supply)).

Definition rotate_supply_elgamal_pubkey (token_program_id mint authority : Address)
    (multisig_signers : list Address) (new_supply_elgamal_pubkey : PodElGamalPubkey)
    (ciphertext_equality_proof : ProofLocation ProofType.CiphertextCiphertextEquality)
    : Result ProgramError (list Instruction) :=
  _ ← check_program_account token_program_id;
  '(proof_instruction_offset, (accounts, _, proof_instructions)) ←
    process_proof_location [new mint false] 1 [] ciphertext_equality_proof true
      ProofInstruction.VerifyCiphertextCiphertextEquality;
  mret (encode_instruction token_program_id (accounts ++ authority_metas authority multisig_signers)
          ConfidentialMintBurnExtension x01 (* RotateSupplyElGamalPubkey *)
          (confidential_mint_burn.mk_rotate new_supply_elgamal_pubkey
             (i8_new proof_instruction_offset)) :: proof_instructions).

Definition update_decryptable_supply (token_program_id mint authority : Address)
    (multisig_signers : list Address) (new_decryptable_supply : DecryptableBalance)
    : Result ProgramError Instruction :=
  _ ← check_program_account token_program_id;
  mret (encode_instruction token_program_id (new mint false :: authority_metas authority multisig_signers)
          ConfidentialMintBurnExtension x02 (* UpdateDecryptableSupply *)
          (confidential_mint_burn.mk_update_decryptable new_decryptable_supply)).

Definition inner_confidential_mint (token_program_id token_account mint : Address)
    (mint_amount_auditor_ciphertext_lo mint_amount_auditor_ciphertext_hi : PodElGamalCiphertext)
    (authority : Address) (multisig_signers : list Address)
    (equality_proof_location : ProofLocation ProofType.CiphertextCommitmentEquality)
    (ciphertext_validity_proof_location :
       ProofLocation ProofType.BatchedGroupedCiphertext3HandlesValidity)
    (range_proof_location : ProofLocation ProofType.BatchedRangeProofU128)
    (new_decryptable_supply : DecryptableBalance) : Result ProgramError Instruction :=
  _ ← check_program_account token_program_id;
  let accounts := [new token_account false; new mint false] ++
    sysvar_metas (is_instruction_offset equality_proof_location ||
                  is_instruction_offset ciphertext_validity_proof_location ||
                  is_instruction_offset range_proof_location) in
  let '(pushed, equality_proof_instruction_offset) := shared_location equality_proof_location in
  let accounts := accounts ++ pushed in
  let '(pushed, ciphertext_validity_proof_instruction_offset) :=
    shared_location ciphertext_validity_proof_location in
  let accounts := accounts ++ pushed in
  let '(pushed, range_proof_instruction_offset) := shared_location range_proof_location in
  let accounts := accounts ++ pushed in
  mret (encode_instruction token_program_id (accounts ++ authority_metas authority multisig_signers)
          ConfidentialMintBurnExtension x03 (* Mint *)
          (confidential_mint_burn.mk_mint_data new_decryptable_supply
             mint_amount_auditor_ciphertext_lo mint_amount_auditor_ciphertext_hi
             (i8_new equality_proof_instruction_offset)
             (i8_new ciphertext_validity_proof_instruction_offset)
             (i8_new range_proof_instruction_offset))).

Definition confidential_mint_with_split_proofs (token_program_id token_account mint : Address)
    (mint_amount_auditor_ciphertext_lo mint_amount_auditor_ciphertext_hi : PodElGamalCiphertext)
    (authority : Address) (multisig_signers : list Address)
    (equality_proof_location : ProofLocation ProofType.CiphertextCommitmentEquality)
    (ciphertext_validity_proof_location :
       ProofLocation ProofType.BatchedGroupedCiphertext3HandlesValidity)
    (range_proof_location : ProofLocation ProofType.BatchedRangeProofU128)
    (new_decryptable_supply : DecryptableBalance) : Result ProgramError (list Instruction) :=
  instruction ← inner_confidential_mint token_program_id token_account mint
    mint_amount_auditor_ciphertext_lo mint_amount_auditor_ciphertext_hi authority multisig_signers
    equality_proof_location ciphertext_validity_proof_location range_proof_location
    new_decryptable_supply;
  state ← append_proof ProofInstruction.VerifyCiphertextCommitmentEquality
    equality_proof_location (1, [instruction]);
  state ← append_proof ProofInstruction.VerifyBatchedGroupedCiphertext3HandlesValidity
    ciphertext_validity_proof_location state;
  '(_, instructions) ← append_proof ProofInstruction.VerifyBatchedRangeProofU128
    range_proof_location state;
  mret instructions.

Definition inner_confidential_burn (token_program_id token_account mint : Address)
    (new_decryptable_available_balance : DecryptableBalance)
    (burn_amount_auditor_ciphertext_lo burn_amount_auditor_ciphertext_hi : PodElGamalCiphertext)
    (authority : Address) (multisig_signers : list Address)
    (equality_proof_location : ProofLocation ProofType.CiphertextCommitmentEquality)
    (ciphertext_validity_proof_location :
       ProofLocation ProofType.BatchedGroupedCiphertext3HandlesValidity)
    (range_proof_location : ProofLocation ProofType.BatchedRangeProofU128)
    : Result ProgramError Instruction :=
  _ ← check_program_account token_program_id;
  let accounts := [new token_account false; new mint false] ++
    sysvar_metas (is_instruction_offset equality_proof_location ||
                  is_instruction_offset ciphertext_validity_proof_location ||
                  is_instruction_offset range_proof_location) in
  let '(pushed, equality_proof_instruction_offset) := shared_location equality_proof_location in
  let accounts := accounts ++ pushed in
  let '(pushed, ciphertext_validity_proof_instruction_offset) :=
    shared_location ciphertext_validity_proof_location in
  let accounts := accounts ++ pushed in
  let '(pushed, range_proof_instruction_offset) := shared_location range_proof_location in
  let accounts := accounts ++ pushed in
  mret (encode_instruction token_program_id (accounts ++ authority_metas authority multisig_signers)
          ConfidentialMintBurnExtension x04 (* Burn *)
          (confidential_mint_burn.mk_burn_data new_decryptable_available_balance
             burn_amount_auditor_ciphertext_lo burn_amount_auditor_ciphertext_hi
             (i8_new equality_proof_instruction_offset)
             (i8_new ciphertext_validity_proof_instruction_offset)
             (i8_new range_proof_instruction_offset))).

Definition confidential_burn_with_split_proofs (token_program_id token_account mint : Address)
    (new_decryptable_available_balance : DecryptableBalance)
    (burn_amount_auditor_ciphertext_lo burn_amount_auditor_ciphertext_hi : PodElGamalCiphertext)
    (authority : Address) (multisig_signers : list Address)
    (equality_proof_location : ProofLocation ProofType.CiphertextCommitmentEquality)
    (ciphertext_validity_proof_location :
       ProofLocation ProofType.BatchedGroupedCiphertext3HandlesValidity)
    (range_proof_location : ProofLocation ProofType.BatchedRangeProofU128)
    : Result ProgramError (list Instruction) :=
  instruction ← inner_confidential_burn token_program_id token_account mint
    new_decryptable_available_balance burn_amount_auditor_ciphertext_lo
    burn_amount_auditor_ciphertext_hi authority multisig_signers equality_proof_location
    ciphertext_validity_proof_location range_proof_location;
  state ← append_proof ProofInstruction.VerifyCiphertextCommitmentEquality
    equality_proof_location (1, [instruction]);
  state ← append_proof ProofInstruction.VerifyBatchedGroupedCiphertext3HandlesValidity
    ciphertext_validity_proof_location state;
  '(_, instructions) ← append_proof ProofInstruction.VerifyBatchedRangeProofU128
    range_proof_location state;
  mret instructions.

Definition apply_pending_burn (token_program_id mint authority : Address)
    (multisig_signers : list Address) : Result ProgramError Instruction :=
  _ ← check_program_account token_program_id;
  mret (encode_instruction token_program_id (new mint false :: authority_metas authority multisig_signers)
          ConfidentialMintBurnExtension x05 (* ApplyPendingBurn *) tt).
End clients.
End confidential_mint_burn_instruction.

Module permissioned_confidential_burn_instruction.
Section clients.
Context `{ZK : ZkInterface} `{ZP : !ZkProofs}.

Definition confidential_burn_with_split_proofs
    (token_program_id token_account mint permissioned_burn_authority : Address)
    (new_decryptable_available_balance : DecryptableBalance)
    (burn_amount_auditor_ciphertext_lo burn_amount_auditor_ciphertext_hi : PodElGamalCiphertext)
    (authority : Address) (multisig_signers : list Address)
    (equality_proof_location : ProofLocation ProofType.CiphertextCommitmentEquality)
    (ciphertext_validity_proof_location :
       ProofLocation ProofType.BatchedGroupedCiphertext3HandlesValidity)
    (range_proof_location : ProofLocation ProofType.BatchedRangeProofU128)
    : Result ProgramError (list Instruction) :=
  _ ← check_program_account token_program_id;
  let accounts := [new token_account false; new mint false] in
  '(equality_proof_instruction_offset, (accounts, expected, proof_instructions)) ←
    process_proof_location accounts 1 [] equality_proof_location true
      ProofInstruction.VerifyCiphertextCommitmentEquality;
  '(ciphertext_validity_proof_instruction_offset, (accounts, expected, proof_instructions)) ←
    process_proof_location accounts expected proof_instructions ciphertext_validity_proof_location
      false ProofInstruction.VerifyBatchedGroupedCiphertext3HandlesValidity;
  '(range_proof_instruction_offset, (accounts, _, proof_instructions)) ←
    process_proof_location accounts expected proof_instructions range_proof_location false
      ProofInstruction.VerifyBatchedRangeProofU128;
  mret (encode_instruction token_program_id
          (accounts ++ new_readonly permissioned_burn_authority true ::
           authority_metas authority multisig_signers)
          PermissionedBurnExtension x03 (* ConfidentialBurn *)
          (confidential_mint_burn.mk_burn_data new_decryptable_available_balance
             burn_amount_auditor_ciphertext_lo burn_amount_auditor_ciphertext_hi
             (i8_new equality_proof_instruction_offset)
             (i8_new ciphertext_validity_proof_instruction_offset)
             (i8_new range_proof_instruction_offset)) :: proof_instructions).
End clients.
End permissioned_confidential_burn_instruction.
