(* ===== verification/ProofGeneration.v ===== *)
(** * Proofs as clients generate them

    [confidential/proof-generation/src]: from the balance of an account and an
    amount, a client encrypts the amount, computes the ciphertext and a
    commitment of what remains, and asks for the proofs that the confidential
    instructions need.

    Keys, ciphertexts, commitments and the provers belong to [solana_zk_sdk]:
    the class [ZkSdk].  Randomness is explicit: a function that draws openings
    takes the generator and returns it ([Gen]). *)
From stdpp Require Import vector.
From S2P Require Import Prelude Bytes Errors Ids Runtime Pod ExtensionState CiphertextArithmetic.
From S2P Require Import ProofExtraction ExtensionInstructions ConfidentialInstructions.

(** ** The SDK *)

Class ZkSdk `{ZK : ZkInterface} `{ZP : !ZkProofs} : Type := mk_zk_sdk {
  (** [ElGamalPubkey], its default, and its bytes. *)
  ElGamalPubkey : Type;
  default_pubkey : ElGamalPubkey;
  pubkey_pod : ElGamalPubkey -> PodElGamalPubkey;
  ElGamalKeypair : Type;
  keypair_pubkey : ElGamalKeypair -> ElGamalPubkey;
  (** [PedersenCommitment] and [PedersenOpening] with [+], [-] and [*] by a scalar. *)
  PedersenCommitment : Type;
  commitment_pod : PedersenCommitment -> PodPedersenCommitment;
  commitment_add : PedersenCommitment -> PedersenCommitment -> PedersenCommitment;
  commitment_sub : PedersenCommitment -> PedersenCommitment -> PedersenCommitment;
  commitment_mul : PedersenCommitment -> Z -> PedersenCommitment;
  PedersenOpening : Type;
  default_opening : PedersenOpening;
  opening_add : PedersenOpening -> PedersenOpening -> PedersenOpening;
  opening_sub : PedersenOpening -> PedersenOpening -> PedersenOpening;
  opening_mul : PedersenOpening -> Z -> PedersenOpening;
  (** [Pedersen::with]. *)
  pedersen_with : Z -> PedersenOpening -> PedersenCommitment;
  (** [ElGamalCiphertext]. *)
  ElGamalCiphertext : Type;
  ciphertext_pod : ElGamalCiphertext -> PodElGamalCiphertext;
  ciphertext_add : ElGamalCiphertext -> ElGamalCiphertext -> ElGamalCiphertext;
  ciphertext_sub : ElGamalCiphertext -> ElGamalCiphertext -> ElGamalCiphertext;
  ciphertext_mul : ElGamalCiphertext -> Z -> ElGamalCiphertext;
  subtract_amount : ElGamalCiphertext -> Z -> ElGamalCiphertext;
  (** [GroupedElGamalCiphertext<N>]. *)
  GroupedElGamalCiphertext : nat -> Type;
  encrypt_with : forall {n}, vec ElGamalPubkey n -> Z -> PedersenOpening -> GroupedElGamalCiphertext n;
  grouped_commitment : forall {n}, GroupedElGamalCiphertext n -> PedersenCommitment;
  to_elgamal_ciphertext : forall {n}, GroupedElGamalCiphertext n -> nat -> option ElGamalCiphertext;
  g2_pod : GroupedElGamalCiphertext 2 -> PodGroupedElGamalCiphertext2Handles;
  g3_pod : GroupedElGamalCiphertext 3 -> PodGroupedElGamalCiphertext3Handles;
  (** [AeKey], [AeCiphertext] and [decrypt]. *)
  AeKey : Type;
  AeCiphertext : Type;
  ae_decrypt : AeCiphertext -> AeKey -> option Z;
  (** The random number generator, and [PedersenOpening::new_rand]. *)
  Rng : Type;
  new_rand : Rng -> PedersenOpening * Rng;
  (** [context_data] of the proofs. *)
  equality_context :
    ZkProofData ProofType.CiphertextCommitmentEquality -> CiphertextCommitmentEqualityProofContext;
  grouped_2_context : ZkProofData ProofType.BatchedGroupedCiphertext2HandlesValidity ->
    BatchedGroupedCiphertext2HandlesValidityProofContext;
  grouped_3_context : ZkProofData ProofType.BatchedGroupedCiphertext3HandlesValidity ->
    BatchedGroupedCiphertext3HandlesValidityProofContext;
  percentage_context :
    ZkProofData ProofType.PercentageWithCap -> PercentageWithCapProofContext;
  range_u64_context : ZkProofData ProofType.BatchedRangeProofU64 -> BatchedRangeProofContext;
  range_u128_context : ZkProofData ProofType.BatchedRangeProofU128 -> BatchedRangeProofContext;
  range_u256_context : ZkProofData ProofType.BatchedRangeProofU256 -> BatchedRangeProofContext;
  (** The provers, which draw randomness as well. *)
  ProofGenerationError : Type;
  build_ciphertext_commitment_equality_proof_data :
    ElGamalKeypair -> ElGamalCiphertext -> PedersenCommitment -> PedersenOpening -> Z ->
    Rng -> Result ProofGenerationError (ZkProofData ProofType.CiphertextCommitmentEquality * Rng);
  build_batched_grouped_ciphertext_2_handles_validity_proof_data :
    ElGamalPubkey -> ElGamalPubkey -> GroupedElGamalCiphertext 2 -> GroupedElGamalCiphertext 2 ->
    Z -> Z -> PedersenOpening -> PedersenOpening ->
    Rng -> Result ProofGenerationError
             (ZkProofData ProofType.BatchedGroupedCiphertext2HandlesValidity * Rng);
  build_batched_grouped_ciphertext_3_handles_validity_proof_data :
    ElGamalPubkey -> ElGamalPubkey -> ElGamalPubkey ->
    GroupedElGamalCiphertext 3 -> GroupedElGamalCiphertext 3 ->
    Z -> Z -> PedersenOpening -> PedersenOpening ->
    Rng -> Result ProofGenerationError
             (ZkProofData ProofType.BatchedGroupedCiphertext3HandlesValidity * Rng);
  build_percentage_with_cap_proof_data :
    PedersenCommitment -> PedersenOpening -> Z -> PedersenCommitment -> PedersenOpening -> Z ->
    PedersenCommitment -> PedersenOpening -> Z ->
    Rng -> Result ProofGenerationError (ZkProofData ProofType.PercentageWithCap * Rng);
  build_batched_range_proof_u64_data :
    list PedersenCommitment -> list Z -> list nat -> list PedersenOpening ->
    Rng -> Result ProofGenerationError (ZkProofData ProofType.BatchedRangeProofU64 * Rng);
  build_batched_range_proof_u128_data :
    list PedersenCommitment -> list Z -> list nat -> list PedersenOpening ->
    Rng -> Result ProofGenerationError (ZkProofData ProofType.BatchedRangeProofU128 * Rng);
  build_batched_range_proof_u256_data :
    list PedersenCommitment -> list Z -> list nat -> list PedersenOpening ->
    Rng -> Result ProofGenerationError (ZkProofData ProofType.BatchedRangeProofU256 * Rng)
}.

(** ** Errors *)

Module TokenProofGenerationError.
Inductive TokenProofGenerationError `{ZS : ZkSdk} : Type :=
  | ProofGeneration (e : ProofGenerationError)
  | NotEnoughFunds
  | IllegalAmountBitLength
  | FeeCalculation
  | CiphertextExtraction.
End TokenProofGenerationError.
Abbreviation TokenProofGenerationError := TokenProofGenerationError.TokenProofGenerationError.

(** [u64::checked_shl] and [checked_shr] with a [u32]: only the distance is checked. *)
Definition u64_checked_shl (a k : Z) : option Z :=
  if k <? 64 then Some (Z.shiftl a k mod 2 ^ 64) else None.
Definition u64_checked_shr (a k : Z) : option Z :=
  if k <? 64 then Some (Z.shiftr a k) else None.

(** [as u32] of a [usize], and [as u64] of a [u128]. *)
Definition as_u32 (n : nat) : Z := Z.of_nat n mod 2 ^ 32.
Definition as_u64 (z : Z) : Z := z mod 2 ^ 64.

Section generation.
Context `{ZK : ZkInterface} `{ZP : !ZkProofs} `{ZS : !ZkSdk}.

(** ** Drawing randomness *)

Definition Gen (Er A : Type) : Type := Rng -> Result Er (A * Rng).

#[export] Instance Gen_ret {Er} : MRet (Gen Er) := fun _ a g => Ok (a, g).
#[export] Instance Gen_bind {Er} : MBind (Gen Er) := fun _ _ f m g =>
  match m g with
  | Ok (a, g') => f a g'
  | Err e => Err e
  | Panic => Panic
  end.

(** [.ok_or(e)?], [.unwrap()], [.map_err(f)?], and drawing. *)
Definition some_or {Er A} (o : option A) (e : Er) : Gen Er A := fun g =>
  match o with Some a => Ok (a, g) | None => Err e end.
Definition unwrap {Er A} (o : option A) : Gen Er A := fun g =>
  match o with Some a => Ok (a, g) | None => Panic end.
Definition map_err {Er Er' A} (f : Er -> Er') (m : Gen Er A) : Gen Er' A := fun g =>
  match m g with Ok r => Ok r | Err e => Err (f e) | Panic => Panic end.
Definition random {Er A} (m : Rng -> A * Rng) : Gen Er A := fun g => Ok (m g).
Definition draw {Er} : Gen Er PedersenOpening := random new_rand.

(** [.map_err(TokenProofGenerationError::from)?]. *)
Definition prove {A} (p : Rng -> Result ProofGenerationError (A * Rng))
    : Gen TokenProofGenerationError A :=
  map_err TokenProofGenerationError.ProofGeneration p.

(** [Pedersen::new]: a commitment under a new opening. *)
Definition pedersen_new {Er} (amount : Z) : Gen Er (PedersenCommitment * PedersenOpening) :=
  opening ← draw; mret (pedersen_with amount opening, opening).
End generation.

Module proof_generation.

Definition TRANSFER_AMOUNT_LO_BITS : nat := 16.
Definition TRANSFER_AMOUNT_HI_BITS : nat := 32.
Definition REMAINING_BALANCE_BIT_LENGTH : nat := 64.

Definition try_split_u64 (amount : Z) (bit_length : nat) : option (Z * Z) :=
  if (bit_length =? 0)%nat then Some (0, amount)
  else if (bit_length <=? 63)%nat then
    let bit_length_complement := 64 - Z.of_nat bit_length in
    shifted ← u64_checked_shl amount bit_length_complement;
    lo ← u64_checked_shr shifted bit_length_complement;
    hi ← u64_checked_shr amount (as_u32 bit_length);
    Some (lo, hi)
  else if (bit_length =? 64)%nat then Some (amount, 0)
  else None.

Definition try_combine_lo_hi_u64 (amount_lo amount_hi : Z) (bit_length : nat) : option Z :=
  if (bit_length =? 0)%nat then Some amount_hi
  else if (bit_length <=? 63)%nat then
    shifted ← u64_checked_shl amount_hi (as_u32 bit_length);
    u64_checked_add shifted amount_hi
  else if (bit_length =? 64)%nat then Some amount_lo
  else None.

Section lib.
Context `{ZK : ZkInterface} `{ZP : !ZkProofs} `{ZS : !ZkSdk}.

Definition try_combine_lo_hi_ciphertexts (ciphertext_lo ciphertext_hi : ElGamalCiphertext)
    (bit_length : nat) : option ElGamalCiphertext :=
  two_power ← u64_checked_shl 1 (as_u32 bit_length);
  Some (ciphertext_add ciphertext_lo (ciphertext_mul ciphertext_hi two_power)).

Definition try_combine_lo_hi_commitments (comm_lo comm_hi : PedersenCommitment) (bit_length : nat)
    : option PedersenCommitment :=
  two_power ← u64_checked_shl 1 (as_u32 bit_length);
  Some (commitment_add comm_lo (commitment_mul comm_hi two_power)).

Definition try_combine_lo_hi_openings (opening_lo opening_hi : PedersenOpening) (bit_length : nat)
    : option PedersenOpening :=
  two_power ← u64_checked_shl 1 (as_u32 bit_length);
  Some (opening_add opening_lo (opening_mul opening_hi two_power)).

Record CiphertextValidityProofWithAuditorCiphertext : Type := mk_validity_with_auditor {
  va_proof_data : ZkProofData ProofType.BatchedGroupedCiphertext3HandlesValidity;
  va_ciphertext_lo : PodElGamalCiphertext;
  va_ciphertext_hi : PodElGamalCiphertext
}.

(** ** [encryption.rs] *)

(** [TransferAmountCiphertext::new], for the keys of source, destination and auditor. *)
Definition TransferAmountCiphertext_new (amount : Z)
    (source_pubkey destination_pubkey auditor_pubkey : ElGamalPubkey)
    : Gen TokenProofGenerationError (GroupedElGamalCiphertext 3 * PedersenOpening) :=
  opening ← draw;
  let grouped_ciphertext :=
    encrypt_with [# source_pubkey; destination_pubkey; auditor_pubkey] amount opening in
  mret (grouped_ciphertext, opening).

Definition FeeCiphertext_new (amount : Z)
    (destination_pubkey withdraw_withheld_authority_pubkey : ElGamalPubkey)
    : Gen TokenProofGenerationError (GroupedElGamalCiphertext 2 * PedersenOpening) :=
  opening ← draw;
  let grouped_ciphertext :=
    encrypt_with [# destination_pubkey; withdraw_withheld_authority_pubkey] amount opening in
  mret (grouped_ciphertext, opening).

Definition BurnAmountCiphertext_new (amount : Z)
    (source_pubkey supply_pubkey auditor_pubkey : ElGamalPubkey)
    : Gen TokenProofGenerationError (GroupedElGamalCiphertext 3 * PedersenOpening) :=
  opening ← draw;
  let grouped_ciphertext :=
    encrypt_with [# source_pubkey; supply_pubkey; auditor_pubkey] amount opening in
  mret (grouped_ciphertext, opening).

Definition MintAmountCiphertext_new (amount : Z)
    (destination_pubkey supply_pubkey auditor_pubkey : ElGamalPubkey)
    : Gen TokenProofGenerationError (GroupedElGamalCiphertext 3 * PedersenOpening) :=
  opening ← draw;
  let grouped_ciphertext :=
    encrypt_with [# destination_pubkey; supply_pubkey; auditor_pubkey] amount opening in
  mret (grouped_ciphertext, opening).
End lib.
End proof_generation.

(** ** Withdrawals *)

Module withdraw_proof.

Definition REMAINING_BALANCE_BIT_LENGTH : nat := 64.

Section withdraw.
Context `{ZK : ZkInterface} `{ZP : !ZkProofs} `{ZS : !ZkSdk}.

Record WithdrawProofData : Type := mk_withdraw_proof_data {
  wpd_equality_proof_data : ZkProofData ProofType.CiphertextCommitmentEquality;
  wpd_range_proof_data : ZkProofData ProofType.BatchedRangeProofU64
}.

Definition withdraw_proof_data (current_available_balance : ElGamalCiphertext)
    (current_balance withdraw_amount : Z) (elgamal_keypair : ElGamalKeypair)
    : Gen TokenProofGenerationError WithdrawProofData :=
  remaining_balance ← some_or (u64_checked_sub current_balance withdraw_amount)
    TokenProofGenerationError.NotEnoughFunds;
  '(remaining_balance_commitment, remaining_balance_opening) ← pedersen_new remaining_balance;
  let remaining_balance_ciphertext := subtract_amount current_available_balance withdraw_amount in
  equality_proof_data ←
    prove (build_ciphertext_commitment_equality_proof_data elgamal_keypair
             remaining_balance_ciphertext remaining_balance_commitment remaining_balance_opening
             remaining_balance);
  range_proof_data ←
    prove (build_batched_range_proof_u64_data [remaining_balance_commitment] [remaining_balance]
             [REMAINING_BALANCE_BIT_LENGTH] [remaining_balance_opening]);
  mret (mk_withdraw_proof_data equality_proof_data range_proof_data).
End withdraw.
End withdraw_proof.

(** ** Transfers *)

Module transfer_proof.
Import proof_generation.

Definition RANGE_PROOF_PADDING_BIT_LENGTH : nat := 16.

Section transfer.
Context `{ZK : ZkInterface} `{ZP : !ZkProofs} `{ZS : !ZkSdk}.

Record TransferProofData : Type := mk_transfer_proof_data {
  tpd_equality_proof_data : ZkProofData ProofType.CiphertextCommitmentEquality;
  tpd_ciphertext_validity_proof_data_with_ciphertext : CiphertextValidityProofWithAuditorCiphertext;
  tpd_range_proof_data : ZkProofData ProofType.BatchedRangeProofU128
}.

Definition transfer_split_proof_data (current_available_balance : ElGamalCiphertext)
    (current_decryptable_available_balance : AeCiphertext) (transfer_amount : Z)
    (source_elgamal_keypair : ElGamalKeypair) (aes_key : AeKey)
    (destination_elgamal_pubkey : ElGamalPubkey) (auditor_elgamal_pubkey : option ElGamalPubkey)
    : Gen TokenProofGenerationError TransferProofData :=
  let auditor_elgamal_pubkey := default default_pubkey auditor_elgamal_pubkey in
  '(transfer_amount_lo, transfer_amount_hi) ←
    some_or (try_split_u64 transfer_amount TRANSFER_AMOUNT_LO_BITS)
      TokenProofGenerationError.IllegalAmountBitLength;
  '(grouped_ciphertext_lo, transfer_amount_opening_lo) ←
    TransferAmountCiphertext_new transfer_amount_lo (keypair_pubkey source_elgamal_keypair)
      destination_elgamal_pubkey auditor_elgamal_pubkey;
  '(grouped_ciphertext_hi, transfer_amount_opening_hi) ←
    TransferAmountCiphertext_new transfer_amount_hi (keypair_pubkey source_elgamal_keypair)
      destination_elgamal_pubkey auditor_elgamal_pubkey;
  current_decrypted_available_balance ←
    some_or (ae_decrypt current_decryptable_available_balance aes_key)
      TokenProofGenerationError.IllegalAmountBitLength;
  new_decrypted_available_balance ←
    some_or (u64_checked_sub current_decrypted_available_balance transfer_amount)
      TokenProofGenerationError.NotEnoughFunds;
  '(new_available_balance_commitment, new_source_opening) ←
    pedersen_new new_decrypted_available_balance;
  transfer_amount_source_ciphertext_lo ← unwrap (to_elgamal_ciphertext grouped_ciphertext_lo 0);
  transfer_amount_source_ciphertext_hi ← unwrap (to_elgamal_ciphertext grouped_ciphertext_hi 0);
  transfer_amount_source_ciphertext ←
    some_or (try_combine_lo_hi_ciphertexts transfer_amount_source_ciphertext_lo
               transfer_amount_source_ciphertext_hi TRANSFER_AMOUNT_LO_BITS)
      TokenProofGenerationError.IllegalAmountBitLength;
  let new_available_balance_ciphertext :=
    ciphertext_sub current_available_balance transfer_amount_source_ciphertext in
  equality_proof_data ←
    prove (build_ciphertext_commitment_equality_proof_data source_elgamal_keypair
             new_available_balance_ciphertext new_available_balance_commitment new_source_opening
             new_decrypted_available_balance);
  ciphertext_validity_proof_data ←
    prove (build_batched_grouped_ciphertext_3_handles_validity_proof_data
             (keypair_pubkey source_elgamal_keypair) destination_elgamal_pubkey
             auditor_elgamal_pubkey grouped_ciphertext_lo grouped_ciphertext_hi
             transfer_amount_lo transfer_amount_hi
             transfer_amount_opening_lo transfer_amount_opening_hi);
  transfer_amount_auditor_ciphertext_lo ←
    some_or (g3_try_extract_ciphertext
               (g3_grouped_ciphertext_lo (grouped_3_context ciphertext_validity_proof_data)) 2)
      TokenProofGenerationError.CiphertextExtraction;
  transfer_amount_auditor_ciphertext_hi ←
    some_or (g3_try_extract_ciphertext
               (g3_grouped_ciphertext_hi (grouped_3_context ciphertext_validity_proof_data)) 2)
      TokenProofGenerationError.CiphertextExtraction;
  let ciphertext_validity_proof_data_with_ciphertext :=
    mk_validity_with_auditor ciphertext_validity_proof_data
      transfer_amount_auditor_ciphertext_lo transfer_amount_auditor_ciphertext_hi in
  '(padding_commitment, padding_opening) ← pedersen_new 0;
  range_proof_data ←
    prove (build_batched_range_proof_u128_data
             [new_available_balance_commitment; grouped_commitment grouped_ciphertext_lo;
              grouped_commitment grouped_ciphertext_hi; padding_commitment]
             [new_decrypted_available_balance; transfer_amount_lo; transfer_amount_hi; 0]
             [REMAINING_BALANCE_BIT_LENGTH; TRANSFER_AMOUNT_LO_BITS; TRANSFER_AMOUNT_HI_BITS;
              RANGE_PROOF_PADDING_BIT_LENGTH]
             [new_source_opening; transfer_amount_opening_lo; transfer_amount_opening_hi;
              padding_opening]);
  mret (mk_transfer_proof_data equality_proof_data ciphertext_validity_proof_data_with_ciphertext
          range_proof_data).
End transfer.
End transfer_proof.

(** ** Minting *)

Module mint_proof.
Import proof_generation.

Definition NEW_SUPPLY_BIT_LENGTH : nat := 64.
Definition MINT_AMOUNT_LO_BIT_LENGTH : nat := 16.
Definition MINT_AMOUNT_HI_BIT_LENGTH : nat := 32.
Definition RANGE_PROOF_PADDING_BIT_LENGTH : nat := 16.

Section mint.
Context `{ZK : ZkInterface} `{ZP : !ZkProofs} `{ZS : !ZkSdk}.

Record MintProofData : Type := mk_mint_proof_data {
  mpd_equality_proof_data : ZkProofData ProofType.CiphertextCommitmentEquality;
  mpd_ciphertext_validity_proof_data_with_ciphertext : CiphertextValidityProofWithAuditorCiphertext;
  mpd_range_proof_data : ZkProofData ProofType.BatchedRangeProofU128
}.

Definition mint_split_proof_data (current_supply_ciphertext : ElGamalCiphertext)
    (mint_amount current_supply : Z) (supply_elgamal_keypair : ElGamalKeypair)
    (destination_elgamal_pubkey : ElGamalPubkey) (auditor_elgamal_pubkey : option ElGamalPubkey)
    : Gen TokenProofGenerationError MintProofData :=
  let auditor_elgamal_pubkey := default default_pubkey auditor_elgamal_pubkey in
  '(mint_amount_lo, mint_amount_hi) ←
    some_or (try_split_u64 mint_amount MINT_AMOUNT_LO_BIT_LENGTH)
      TokenProofGenerationError.IllegalAmountBitLength;
  '(grouped_ciphertext_lo, mint_amount_opening_lo) ←
    MintAmountCiphertext_new mint_amount_lo destination_elgamal_pubkey
      (keypair_pubkey supply_elgamal_keypair) auditor_elgamal_pubkey;
  '(grouped_ciphertext_hi, mint_amount_opening_hi) ←
    MintAmountCiphertext_new mint_amount_hi destination_elgamal_pubkey
      (keypair_pubkey supply_elgamal_keypair) auditor_elgamal_pubkey;
  mint_amount_ciphertext_supply_lo ← unwrap (to_elgamal_ciphertext grouped_ciphertext_lo 1);
  mint_amount_ciphertext_supply_hi ← unwrap (to_elgamal_ciphertext grouped_ciphertext_hi 1);
  mint_amount_ciphertext_supply ←
    some_or (try_combine_lo_hi_ciphertexts mint_amount_ciphertext_supply_lo
               mint_amount_ciphertext_supply_hi MINT_AMOUNT_LO_BIT_LENGTH)
      TokenProofGenerationError.IllegalAmountBitLength;
  let new_supply_ciphertext :=
    ciphertext_add current_supply_ciphertext mint_amount_ciphertext_supply in
  new_supply ← some_or (u64_checked_add current_supply mint_amount)
    TokenProofGenerationError.IllegalAmountBitLength;
  '(new_supply_commitment, new_supply_opening) ← pedersen_new new_supply;
  equality_proof_data ←
    prove (build_ciphertext_commitment_equality_proof_data supply_elgamal_keypair
             new_supply_ciphertext new_supply_commitment new_supply_opening new_supply);
  ciphertext_validity_proof_data ←
    prove (build_batched_grouped_ciphertext_3_handles_validity_proof_data
             destination_elgamal_pubkey (keypair_pubkey supply_elgamal_keypair)
             auditor_elgamal_pubkey grouped_ciphertext_lo grouped_ciphertext_hi
             mint_amount_lo mint_amount_hi mint_amount_opening_lo mint_amount_opening_hi);
  mint_amount_auditor_ciphertext_lo ←
    some_or (g3_try_extract_ciphertext
               (g3_grouped_ciphertext_lo (grouped_3_context ciphertext_validity_proof_data)) 2)
      TokenProofGenerationError.CiphertextExtraction;
  mint_amount_auditor_ciphertext_hi ←
    some_or (g3_try_extract_ciphertext
               (g3_grouped_ciphertext_hi (grouped_3_context ciphertext_validity_proof_data)) 2)
      TokenProofGenerationError.CiphertextExtraction;
  let ciphertext_validity_proof_data_with_ciphertext :=
    mk_validity_with_auditor ciphertext_validity_proof_data
      mint_amount_auditor_ciphertext_lo mint_amount_auditor_ciphertext_hi in
  '(padding_commitment, padding_opening) ← pedersen_new 0;
  range_proof_data ←
    prove (build_batched_range_proof_u128_data
             [new_supply_commitment; grouped_commitment grouped_ciphertext_lo;
              grouped_commitment grouped_ciphertext_hi; padding_commitment]
             [new_supply; mint_amount_lo; mint_amount_hi; 0]
             [NEW_SUPPLY_BIT_LENGTH; MINT_AMOUNT_LO_BIT_LENGTH; MINT_AMOUNT_HI_BIT_LENGTH;
              RANGE_PROOF_PADDING_BIT_LENGTH]
             [new_supply_opening; mint_amount_opening_lo; mint_amount_opening_hi;
              padding_opening]);
  mret (mk_mint_proof_data equality_proof_data ciphertext_validity_proof_data_with_ciphertext
          range_proof_data).
End mint.
End mint_proof.

(** ** Burning *)

Module burn_proof.
Import proof_generation.

Definition REMAINING_BALANCE_BIT_LENGTH : nat := 64.
Definition BURN_AMOUNT_LO_BIT_LENGTH : nat := 16.
Definition BURN_AMOUNT_HI_BIT_LENGTH : nat := 32.
Definition RANGE_PROOF_PADDING_BIT_LENGTH : nat := 16.

Section burn.
Context `{ZK : ZkInterface} `{ZP : !ZkProofs} `{ZS : !ZkSdk}.

Record BurnProofData : Type := mk_burn_proof_data {
  bpd_equality_proof_data : ZkProofData ProofType.CiphertextCommitmentEquality;
  bpd_ciphertext_validity_proof_data_with_ciphertext : CiphertextValidityProofWithAuditorCiphertext;
  bpd_range_proof_data : ZkProofData ProofType.BatchedRangeProofU128
}.

Definition burn_split_proof_data (current_available_balance_ciphertext : ElGamalCiphertext)
    (current_decryptable_available_balance : AeCiphertext) (burn_amount : Z)
    (source_elgamal_keypair : ElGamalKeypair) (source_aes_key : AeKey)
    (supply_elgamal_pubkey : ElGamalPubkey) (auditor_elgamal_pubkey : option ElGamalPubkey)
    : Gen TokenProofGenerationError BurnProofData :=
  let auditor_elgamal_pubkey := default default_pubkey auditor_elgamal_pubkey in
  '(burn_amount_lo, burn_amount_hi) ←
    some_or (try_split_u64 burn_amount BURN_AMOUNT_LO_BIT_LENGTH)
      TokenProofGenerationError.IllegalAmountBitLength;
  '(grouped_ciphertext_lo, burn_amount_opening_lo) ←
    BurnAmountCiphertext_new burn_amount_lo (keypair_pubkey source_elgamal_keypair)
      supply_elgamal_pubkey auditor_elgamal_pubkey;
  '(grouped_ciphertext_hi, burn_amount_opening_hi) ←
    BurnAmountCiphertext_new burn_amount_hi (keypair_pubkey source_elgamal_keypair)
      supply_elgamal_pubkey auditor_elgamal_pubkey;
  current_decrypted_available_balance ←
    some_or (ae_decrypt current_decryptable_available_balance source_aes_key)
      TokenProofGenerationError.IllegalAmountBitLength;
  burn_amount_ciphertext_source_lo ← unwrap (to_elgamal_ciphertext grouped_ciphertext_lo 0);
  burn_amount_ciphertext_source_hi ← unwrap (to_elgamal_ciphertext grouped_ciphertext_hi 0);
  burn_amount_ciphertext_source ←
    some_or (try_combine_lo_hi_ciphertexts burn_amount_ciphertext_source_lo
               burn_amount_ciphertext_source_hi BURN_AMOUNT_LO_BIT_LENGTH)
      TokenProofGenerationError.IllegalAmountBitLength;
  let new_available_balance_ciphertext :=
    ciphertext_sub current_available_balance_ciphertext burn_amount_ciphertext_source in
  remaining_balance ←
    some_or (u64_checked_sub current_decrypted_available_balance burn_amount)
      TokenProofGenerationError.NotEnoughFunds;
  '(new_available_balance_commitment, new_available_balance_opening) ←
    pedersen_new remaining_balance;
  equality_proof_data ←
    prove (build_ciphertext_commitment_equality_proof_data source_elgamal_keypair
             new_available_balance_ciphertext new_available_balance_commitment
             new_available_balance_opening remaining_balance);
  ciphertext_validity_proof_data ←
    prove (build_batched_grouped_ciphertext_3_handles_validity_proof_data
             (keypair_pubkey source_elgamal_keypair) supply_elgamal_pubkey
             auditor_elgamal_pubkey grouped_ciphertext_lo grouped_ciphertext_hi
             burn_amount_lo burn_amount_hi burn_amount_opening_lo burn_amount_opening_hi);
  burn_amount_auditor_ciphertext_lo ←
    some_or (g3_try_extract_ciphertext
               (g3_grouped_ciphertext_lo (grouped_3_context ciphertext_validity_proof_data)) 2)
      TokenProofGenerationError.CiphertextExtraction;
  burn_amount_auditor_ciphertext_hi ←
    some_or (g3_try_extract_ciphertext
               (g3_grouped_ciphertext_hi (grouped_3_context ciphertext_validity_proof_data)) 2)
      TokenProofGenerationError.CiphertextExtraction;
  let ciphertext_validity_proof_data_with_ciphertext :=
    mk_validity_with_auditor ciphertext_validity_proof_data
      burn_amount_auditor_ciphertext_lo burn_amount_auditor_ciphertext_hi in
  '(padding_commitment, padding_opening) ← pedersen_new 0;
  range_proof_data ←
    prove (build_batched_range_proof_u128_data
             [new_available_balance_commitment; grouped_commitment grouped_ciphertext_lo;
              grouped_commitment grouped_ciphertext_hi; padding_commitment]
             [remaining_balance; burn_amount_lo; burn_amount_hi; 0]
             [REMAINING_BALANCE_BIT_LENGTH; BURN_AMOUNT_LO_BIT_LENGTH; BURN_AMOUNT_HI_BIT_LENGTH;
              RANGE_PROOF_PADDING_BIT_LENGTH]
             [new_available_balance_opening; burn_amount_opening_lo; burn_amount_opening_hi;
              padding_opening]);
  mret (mk_burn_proof_data equality_proof_data ciphertext_validity_proof_data_with_ciphertext
          range_proof_data).
End burn.
End burn_proof.

(** ** Transfers with a fee *)

Module transfer_with_fee_proof.
Import proof_generation.

Definition MAX_FEE_BASIS_POINTS_SUB_ONE : Z := 9999.
Definition MAX_FEE_BASIS_POINTS : Z := 10000.
Definition ONE_IN_BASIS_POINTS : Z := MAX_FEE_BASIS_POINTS.

Definition FEE_AMOUNT_LO_BITS : nat := 16.
Definition FEE_AMOUNT_HI_BITS : nat := 32.

Definition REMAINING_BALANCE_BIT_LENGTH : nat := 64.
Definition DELTA_BIT_LENGTH : nat := 16.
Definition NET_TRANSFER_AMOUNT_BIT_LENGTH : nat := 64.

(** The fee rounded up, and by how much in basis points. *)
Definition calculate_fee (transfer_amount fee_rate_basis_points : Z) : option (Z * Z) :=
  numerator ← u128_checked_mul transfer_amount fee_rate_basis_points;
  fee ← u128_checked_add numerator ONE_IN_BASIS_POINTS;
  fee ← u128_checked_sub fee 1;
  fee ← u128_checked_div fee ONE_IN_BASIS_POINTS;
  delta_fee ← u128_checked_mul fee ONE_IN_BASIS_POINTS;
  delta_fee ← u128_checked_sub delta_fee numerator;
  Some (as_u64 fee, as_u64 delta_fee).

Section transfer.
Context `{ZK : ZkInterface} `{ZP : !ZkProofs} `{ZS : !ZkSdk}.

Definition compute_delta_commitment_and_opening
    (combined : PedersenCommitment * PedersenOpening)
    (combined_fee : PedersenCommitment * PedersenOpening) (fee_rate_basis_points : Z)
    : PedersenCommitment * PedersenOpening :=
  let '(combined_commitment, combined_opening) := combined in
  let '(combined_fee_commitment, combined_fee_opening) := combined_fee in
  let fee_rate_scalar := fee_rate_basis_points in
  let delta_commitment :=
    commitment_sub (commitment_mul combined_fee_commitment MAX_FEE_BASIS_POINTS)
      (commitment_mul combined_commitment fee_rate_scalar) in
  let delta_opening :=
    opening_sub (opening_mul combined_fee_opening MAX_FEE_BASIS_POINTS)
      (opening_mul combined_opening fee_rate_scalar) in
  (delta_commitment, delta_opening).

Record TransferWithFeeProofData : Type := mk_transfer_with_fee_proof_data {
  tfpd_equality_proof_data : ZkProofData ProofType.CiphertextCommitmentEquality;
  tfpd_transfer_amount_ciphertext_validity_proof_data_with_ciphertext :
    CiphertextValidityProofWithAuditorCiphertext;
  tfpd_percentage_with_cap_proof_data : ZkProofData ProofType.PercentageWithCap;
  tfpd_fee_ciphertext_validity_proof_data :
    ZkProofData ProofType.BatchedGroupedCiphertext2HandlesValidity;
  tfpd_range_proof_data : ZkProofData ProofType.BatchedRangeProofU256
}.

(** What the first part computes and the rest uses: the parts of the amount with
    their ciphertexts and openings, the new balance with its commitment and
    opening, and two proofs. *)
Record AmountProofs : Type := mk_amount_proofs {
  transfer_amount_lo : Z;
  transfer_amount_hi : Z;
  transfer_amount_grouped_ciphertext_lo : GroupedElGamalCiphertext 3;
  transfer_amount_grouped_ciphertext_hi : GroupedElGamalCiphertext 3;
  transfer_amount_opening_lo : PedersenOpening;
  transfer_amount_opening_hi : PedersenOpening;
  new_decrypted_available_balance : Z;
  new_available_balance_commitment : PedersenCommitment;
  new_source_opening : PedersenOpening;
  amount_equality_proof_data : ZkProofData ProofType.CiphertextCommitmentEquality;
  amount_ciphertext_validity_proof_data_with_ciphertext :
    CiphertextValidityProofWithAuditorCiphertext
}.

(** [transfer_with_fee_split_proof_data], until the fee. *)
Definition transfer_amount_proofs (current_available_balance : ElGamalCiphertext)
    (current_decryptable_available_balance : AeCiphertext) (transfer_amount : Z)
    (source_elgamal_keypair : ElGamalKeypair) (aes_key : AeKey)
    (destination_elgamal_pubkey auditor_elgamal_pubkey : ElGamalPubkey) : Gen TokenProofGenerationError AmountProofs :=
  '(transfer_amount_lo, transfer_amount_hi) ←
    some_or (try_split_u64 transfer_amount TRANSFER_AMOUNT_LO_BITS)
      TokenProofGenerationError.IllegalAmountBitLength;
  '(grouped_ciphertext_lo, transfer_amount_opening_lo) ←
    TransferAmountCiphertext_new transfer_amount_lo (keypair_pubkey source_elgamal_keypair)
      destination_elgamal_pubkey auditor_elgamal_pubkey;
  '(grouped_ciphertext_hi, transfer_amount_opening_hi) ←
    TransferAmountCiphertext_new transfer_amount_hi (keypair_pubkey source_elgamal_keypair)
      destination_elgamal_pubkey auditor_elgamal_pubkey;
  current_decrypted_available_balance ←
    some_or (ae_decrypt current_decryptable_available_balance aes_key)
      TokenProofGenerationError.IllegalAmountBitLength;
  new_decrypted_available_balance ←
    some_or (u64_checked_sub current_decrypted_available_balance transfer_amount)
      TokenProofGenerationError.NotEnoughFunds;
  '(new_available_balance_commitment, new_source_opening) ←
    pedersen_new new_decrypted_available_balance;
  transfer_amount_source_ciphertext_lo ← unwrap (to_elgamal_ciphertext grouped_ciphertext_lo 0);
  transfer_amount_source_ciphertext_hi ← unwrap (to_elgamal_ciphertext grouped_ciphertext_hi 0);
  transfer_amount_source_ciphertext ←
    some_or (try_combine_lo_hi_ciphertexts transfer_amount_source_ciphertext_lo
               transfer_amount_source_ciphertext_hi TRANSFER_AMOUNT_LO_BITS)
      TokenProofGenerationError.IllegalAmountBitLength;
  let new_available_balance_ciphertext :=
    ciphertext_sub current_available_balance transfer_amount_source_ciphertext in
  equality_proof_data ←
    prove (build_ciphertext_commitment_equality_proof_data source_elgamal_keypair
             new_available_balance_ciphertext new_available_balance_commitment new_source_opening
             new_decrypted_available_balance);
  transfer_amount_ciphertext_validity_proof_data ←
    prove (build_batched_grouped_ciphertext_3_handles_validity_proof_data
             (keypair_pubkey source_elgamal_keypair) destination_elgamal_pubkey
             auditor_elgamal_pubkey grouped_ciphertext_lo grouped_ciphertext_hi
             transfer_amount_lo transfer_amount_hi
             transfer_amount_opening_lo transfer_amount_opening_hi);
  transfer_amount_auditor_ciphertext_lo ←
    some_or (g3_try_extract_ciphertext (g3_grouped_ciphertext_lo
               (grouped_3_context transfer_amount_ciphertext_validity_proof_data)) 2)
      TokenProofGenerationError.CiphertextExtraction;
  transfer_amount_auditor_ciphertext_hi ←
    some_or (g3_try_extract_ciphertext (g3_grouped_ciphertext_hi
               (grouped_3_context transfer_amount_ciphertext_validity_proof_data)) 2)
      TokenProofGenerationError.CiphertextExtraction;
  mret (mk_amount_proofs transfer_amount_lo transfer_amount_hi
          grouped_ciphertext_lo grouped_ciphertext_hi
          transfer_amount_opening_lo transfer_amount_opening_hi
          new_decrypted_available_balance new_available_balance_commitment new_source_opening
          equality_proof_data
          (mk_validity_with_auditor transfer_amount_ciphertext_validity_proof_data
             transfer_amount_auditor_ciphertext_lo transfer_amount_auditor_ciphertext_hi)).

(** The fee, its claimed delta, and what arrives: "calculate fee". *)
Definition transfer_fee_amounts (transfer_amount fee_rate_basis_points maximum_fee : Z)
    : option (Z * Z * Z) :=
  '(raw_fee_amount, raw_delta_fee) ← calculate_fee transfer_amount fee_rate_basis_points;
  let '(fee_amount, claimed_delta_fee) :=
    if maximum_fee <? raw_fee_amount then (maximum_fee, 0) else (raw_fee_amount, raw_delta_fee) in
  net_transfer_amount ← u64_checked_sub transfer_amount fee_amount;
  Some (fee_amount, claimed_delta_fee, net_transfer_amount).

(** "generate range proof data". *)
Definition transfer_with_fee_range_proof (amounts : AmountProofs)
    (claimed_delta_fee fee_amount_lo fee_amount_hi net_transfer_amount : Z)
    (fee_ciphertext_lo fee_ciphertext_hi : GroupedElGamalCiphertext 2)
    (fee_opening_lo fee_opening_hi : PedersenOpening)
    (claimed_commitment : PedersenCommitment) (claimed_opening : PedersenOpening)
    (net_transfer_amount_commitment : PedersenCommitment)
    (net_transfer_amount_opening : PedersenOpening)
    : Gen TokenProofGenerationError (ZkProofData ProofType.BatchedRangeProofU256) :=
  delta_fee_complement ← some_or (u64_checked_sub MAX_FEE_BASIS_POINTS_SUB_ONE claimed_delta_fee)
    TokenProofGenerationError.FeeCalculation;
  let max_fee_basis_points_sub_one_commitment :=
    pedersen_with MAX_FEE_BASIS_POINTS_SUB_ONE default_opening in
  let claimed_complement_commitment :=
    commitment_sub max_fee_basis_points_sub_one_commitment claimed_commitment in
  let claimed_complement_opening := opening_sub default_opening claimed_opening in
  prove (build_batched_range_proof_u256_data
    [new_available_balance_commitment amounts;
     grouped_commitment (transfer_amount_grouped_ciphertext_lo amounts);
     grouped_commitment (transfer_amount_grouped_ciphertext_hi amounts);
     claimed_commitment; claimed_complement_commitment;
     grouped_commitment fee_ciphertext_lo; grouped_commitment fee_ciphertext_hi;
     net_transfer_amount_commitment]
    [new_decrypted_available_balance amounts; transfer_amount_lo amounts;
     transfer_amount_hi amounts; claimed_delta_fee; delta_fee_complement;
     fee_amount_lo; fee_amount_hi; net_transfer_amount]
    [REMAINING_BALANCE_BIT_LENGTH; TRANSFER_AMOUNT_LO_BITS; TRANSFER_AMOUNT_HI_BITS;
     DELTA_BIT_LENGTH; DELTA_BIT_LENGTH; FEE_AMOUNT_LO_BITS; FEE_AMOUNT_HI_BITS;
     NET_TRANSFER_AMOUNT_BIT_LENGTH]
    [new_source_opening amounts; transfer_amount_opening_lo amounts;
     transfer_amount_opening_hi amounts; claimed_opening; claimed_complement_opening;
     fee_opening_lo; fee_opening_hi; net_transfer_amount_opening]).

Definition transfer_with_fee_split_proof_data (current_available_balance : ElGamalCiphertext)
    (current_decryptable_available_balance : AeCiphertext) (transfer_amount : Z)
    (source_elgamal_keypair : ElGamalKeypair) (aes_key : AeKey)
    (destination_elgamal_pubkey : ElGamalPubkey) (auditor_elgamal_pubkey : option ElGamalPubkey)
    (withdraw_withheld_authority_elgamal_pubkey : ElGamalPubkey)
    (fee_rate_basis_points maximum_fee : Z) : Gen TokenProofGenerationError TransferWithFeeProofData :=
  let auditor_elgamal_pubkey := default default_pubkey auditor_elgamal_pubkey in
  amounts ←
    transfer_amount_proofs current_available_balance current_decryptable_available_balance
      transfer_amount source_elgamal_keypair aes_key destination_elgamal_pubkey
      auditor_elgamal_pubkey;
  '(fee_amount, claimed_delta_fee, net_transfer_amount) ←
    some_or (transfer_fee_amounts transfer_amount fee_rate_basis_points maximum_fee)
      TokenProofGenerationError.FeeCalculation;
  '(fee_amount_lo, fee_amount_hi) ←
    some_or (try_split_u64 fee_amount FEE_AMOUNT_LO_BITS)
      TokenProofGenerationError.IllegalAmountBitLength;
  '(fee_ciphertext_lo, fee_opening_lo) ←
    FeeCiphertext_new fee_amount_lo destination_elgamal_pubkey
      withdraw_withheld_authority_elgamal_pubkey;
  '(fee_ciphertext_hi, fee_opening_hi) ←
    FeeCiphertext_new fee_amount_hi destination_elgamal_pubkey
      withdraw_withheld_authority_elgamal_pubkey;
  combined_transfer_amount_commitment ←
    some_or (try_combine_lo_hi_commitments
               (grouped_commitment (transfer_amount_grouped_ciphertext_lo amounts))
               (grouped_commitment (transfer_amount_grouped_ciphertext_hi amounts))
               TRANSFER_AMOUNT_LO_BITS)
      TokenProofGenerationError.IllegalAmountBitLength;
  combined_transfer_amount_opening ←
    some_or (try_combine_lo_hi_openings (transfer_amount_opening_lo amounts)
               (transfer_amount_opening_hi amounts) TRANSFER_AMOUNT_LO_BITS)
      TokenProofGenerationError.IllegalAmountBitLength;
  combined_fee_commitment ←
    some_or (try_combine_lo_hi_commitments (grouped_commitment fee_ciphertext_lo)
               (grouped_commitment fee_ciphertext_hi) FEE_AMOUNT_LO_BITS)
      TokenProofGenerationError.IllegalAmountBitLength;
  combined_fee_opening ←
    some_or (try_combine_lo_hi_openings fee_opening_lo fee_opening_hi FEE_AMOUNT_LO_BITS)
      TokenProofGenerationError.IllegalAmountBitLength;
  let net_transfer_amount_commitment :=
    commitment_sub combined_transfer_amount_commitment combined_fee_commitment in
  let net_transfer_amount_opening :=
    opening_sub combined_transfer_amount_opening combined_fee_opening in
  '(claimed_commitment, claimed_opening) ← pedersen_new claimed_delta_fee;
  let '(delta_commitment, delta_opening) :=
    compute_delta_commitment_and_opening
      (combined_transfer_amount_commitment, combined_transfer_amount_opening)
      (combined_fee_commitment, combined_fee_opening) fee_rate_basis_points in
  percentage_with_cap_proof_data ←
    prove (build_percentage_with_cap_proof_data combined_fee_commitment combined_fee_opening
             fee_amount delta_commitment delta_opening claimed_delta_fee
             claimed_commitment claimed_opening maximum_fee);
  let fee_destination_withdraw_withheld_authority_ciphertext_lo :=
    encrypt_with [# destination_elgamal_pubkey; withdraw_withheld_authority_elgamal_pubkey]
      fee_amount_lo fee_opening_lo in
  let fee_destination_withdraw_withheld_authority_ciphertext_hi :=
    encrypt_with [# destination_elgamal_pubkey; withdraw_withheld_authority_elgamal_pubkey]
      fee_amount_hi fee_opening_hi in
  fee_ciphertext_validity_proof_data ←
    prove (build_batched_grouped_ciphertext_2_handles_validity_proof_data
             destination_elgamal_pubkey withdraw_withheld_authority_elgamal_pubkey
             fee_destination_withdraw_withheld_authority_ciphertext_lo
             fee_destination_withdraw_withheld_authority_ciphertext_hi
             fee_amount_lo fee_amount_hi fee_opening_lo fee_opening_hi);
  range_proof_data ←
    transfer_with_fee_range_proof amounts claimed_delta_fee fee_amount_lo fee_amount_hi
      net_transfer_amount fee_ciphertext_lo fee_ciphertext_hi fee_opening_lo fee_opening_hi
      claimed_commitment claimed_opening
      net_transfer_amount_commitment net_transfer_amount_opening;
  mret (mk_transfer_with_fee_proof_data (amount_equality_proof_data amounts)
          (amount_ciphertext_validity_proof_data_with_ciphertext amounts)
          percentage_with_cap_proof_data fee_ciphertext_validity_proof_data range_proof_data).
End transfer.
End transfer_with_fee_proof.
