(* ===== verification/ClientBalances.v ===== *)
(** * The balances as clients follow them

    [clients/rust-legacy/src/zk_proofs]: what a client reads of the extensions
    of an account or a mint, the plaintexts it decrypts with the secrets of the
    owner, the proofs it asks for, and the decryptable balance that it sends
    with the instruction.  More of [solana_zk_sdk] is used here than in
    [ProofGeneration]: the class [ZkClientSdk]. *)
From S2P Require Import Prelude Bytes Errors Ids Runtime Pod ExtensionState CiphertextArithmetic.
From S2P Require Import ProofExtraction ExtensionInstructions ConfidentialInstructions ProofGeneration.
Import proof_generation.

Class ZkClientSdk `{ZS : ZkSdk} : Type := mk_zk_client_sdk {
  (** [ElGamalSecretKey], and its [decrypt_u32]. *)
  ElGamalSecretKey : Type;
  keypair_secret : ElGamalKeypair -> ElGamalSecretKey;
  decrypt_u32 : ElGamalSecretKey -> ElGamalCiphertext -> option Z;
  (** [TryFrom<PodElGamalCiphertext>] and [TryFrom<PodAeCiphertext>]. *)
  ciphertext_try_from : EncryptedBalance -> option ElGamalCiphertext;
  ae_try_from : DecryptableBalance -> option AeCiphertext;
  (** [From<AeCiphertext>] for the bytes in an instruction. *)
  ae_pod : AeCiphertext -> DecryptableBalance;
  (** Encryption, with new randomness or with an opening. *)
  ae_encrypt : AeKey -> Z -> Rng -> AeCiphertext * Rng;
  pubkey_encrypt : ElGamalPubkey -> Z -> Rng -> ElGamalCiphertext * Rng;
  pubkey_encrypt_with : ElGamalPubkey -> Z -> PedersenOpening -> ElGamalCiphertext;
  zero_ciphertext_context : ZkProofData ProofType.ZeroCiphertext -> ZeroCiphertextProofContext;
  ciphertext_equality_context :
    ZkProofData ProofType.CiphertextCiphertextEquality -> CiphertextCiphertextEqualityProofContext;
  build_zero_ciphertext_proof_data : ElGamalKeypair -> ElGamalCiphertext ->
    Rng -> Result ProofGenerationError (ZkProofData ProofType.ZeroCiphertext * Rng);
  build_ciphertext_ciphertext_equality_proof_data :
    ElGamalKeypair -> ElGamalPubkey -> ElGamalCiphertext -> ElGamalCiphertext -> PedersenOpening -> Z ->
    Rng -> Result ProofGenerationError (ZkProofData ProofType.CiphertextCiphertextEquality * Rng)
}.

(** [PENDING_BALANCE_LO_BIT_LENGTH]. *)
Definition PENDING_BALANCE_LO_BIT_LENGTH : Z := 16.

Definition combine_balances (balance_lo balance_hi : Z) : option Z :=
  shifted ← u64_checked_shl balance_hi PENDING_BALANCE_LO_BIT_LENGTH;
  u64_checked_add shifted balance_lo.

Section clients.
Context `{ZK : ZkInterface} `{ZP : !ZkProofs} `{ZS : !ZkSdk} `{ZE : !ZkClientSdk}.

(** [IntoTokenError]. *)
Definition into_token_error (e : TokenProofGenerationError) : TokenError :=
  match e with
  | TokenProofGenerationError.ProofGeneration _ => TokenError.ProofGeneration
  | TokenProofGenerationError.NotEnoughFunds => TokenError.InsufficientFunds
  | TokenProofGenerationError.IllegalAmountBitLength => TokenError.IllegalBitLength
  | TokenProofGenerationError.FeeCalculation => TokenError.FeeCalculation
  | TokenProofGenerationError.CiphertextExtraction => TokenError.MalformedCiphertext
  end.

(** [.map_err(|_| TokenError::ProofGeneration)]. *)
Definition proven {A} (p : Rng -> Result ProofGenerationError (A * Rng)) : Gen TokenError A :=
  map_err (fun _ => TokenError.ProofGeneration) p.

(** [.try_into().map_err(|_| TokenError::MalformedCiphertext)?]. *)
Definition try_ciphertext (b : EncryptedBalance) : Gen TokenError ElGamalCiphertext :=
  some_or (ciphertext_try_from b) TokenError.MalformedCiphertext.
Definition try_ae (b : DecryptableBalance) : Gen TokenError AeCiphertext :=
  some_or (ae_try_from b) TokenError.MalformedCiphertext.

(** The function [decrypted_available_balance] of three of the structs. *)
Definition decrypted_available_balance (decryptable_available_balance : DecryptableBalance)
    (aes_key : AeKey) : Gen TokenError Z :=
  decryptable_available_balance ← try_ae decryptable_available_balance;
  some_or (ae_decrypt decryptable_available_balance aes_key) TokenError.AccountDecryption.

(** [aes_key.encrypt(..)]. *)
Definition encrypted (aes_key : AeKey) (amount : Z) : Gen TokenError AeCiphertext :=
  random (ae_encrypt aes_key amount).
End clients.

(** ** [EmptyAccountAccountInfo] *)

Module EmptyAccountAccountInfo.
Section info.
Context `{ZK : ZkInterface} `{ZP : !ZkProofs} `{ZS : !ZkSdk} `{ZE : !ZkClientSdk}.

Record EmptyAccountAccountInfo : Type := mk_info { available_balance : EncryptedBalance }.

Definition new (account : ConfidentialTransferAccount) : EmptyAccountAccountInfo :=
  mk_info (cta_available_balance account).

Definition generate_proof_data (self : EmptyAccountAccountInfo) (elgamal_keypair : ElGamalKeypair)
    : Gen TokenError (ZkProofData ProofType.ZeroCiphertext) :=
  available_balance ← try_ciphertext (available_balance self);
  proven (build_zero_ciphertext_proof_data elgamal_keypair available_balance).
End info.
End EmptyAccountAccountInfo.

(** ** [ApplyPendingBalanceAccountInfo] *)

Module ApplyPendingBalanceAccountInfo.
Section info.
Context `{ZK : ZkInterface} `{ZP : !ZkProofs} `{ZS : !ZkSdk} `{ZE : !ZkClientSdk}.

Record ApplyPendingBalanceAccountInfo : Type := mk_info {
  pending_balance_credit_counter : Z;
  pending_balance_lo : EncryptedBalance;
  pending_balance_hi : EncryptedBalance;
  decryptable_available_balance : DecryptableBalance
}.

Definition new (account : ConfidentialTransferAccount) : ApplyPendingBalanceAccountInfo :=
  mk_info (u64_get (cta_pending_balance_credit_counter account))
    (cta_pending_balance_lo account) (cta_pending_balance_hi account)
    (cta_decryptable_available_balance account).

Definition decrypted_pending_balance_lo (self : ApplyPendingBalanceAccountInfo)
    (elgamal_secret_key : ElGamalSecretKey) : Gen TokenError Z :=
  pending_balance_lo ← try_ciphertext (pending_balance_lo self);
  some_or (decrypt_u32 elgamal_secret_key pending_balance_lo) TokenError.AccountDecryption.

Definition decrypted_pending_balance_hi (self : ApplyPendingBalanceAccountInfo)
    (elgamal_secret_key : ElGamalSecretKey) : Gen TokenError Z :=
  pending_balance_hi ← try_ciphertext (pending_balance_hi self);
  some_or (decrypt_u32 elgamal_secret_key pending_balance_hi) TokenError.AccountDecryption.

Definition new_decryptable_available_balance (self : ApplyPendingBalanceAccountInfo)
    (elgamal_secret_key : ElGamalSecretKey) (aes_key : AeKey) : Gen TokenError AeCiphertext :=
  decrypted_pending_balance_lo ← decrypted_pending_balance_lo self elgamal_secret_key;
  decrypted_pending_balance_hi ← decrypted_pending_balance_hi self elgamal_secret_key;
  pending_balance ←
    some_or (combine_balances decrypted_pending_balance_lo decrypted_pending_balance_hi)
      TokenError.AccountDecryption;
  current_available_balance ←
    decrypted_available_balance (decryptable_available_balance self) aes_key;
  new_decrypted_available_balance ← unwrap (u64_checked_add current_available_balance pending_balance);
  encrypted aes_key new_decrypted_available_balance.

Definition get_pending_balance (self : ApplyPendingBalanceAccountInfo)
    (elgamal_secret_key : ElGamalSecretKey) : Gen TokenError Z :=
  decrypted_lo ← decrypted_pending_balance_lo self elgamal_secret_key;
  decrypted_hi ← decrypted_pending_balance_hi self elgamal_secret_key;
  some_or (combine_balances decrypted_lo decrypted_hi) TokenError.AccountDecryption.

Definition has_pending_balance (self : ApplyPendingBalanceAccountInfo) : bool :=
  0 <? pending_balance_credit_counter self.

Definition get_available_balance (self : ApplyPendingBalanceAccountInfo) (aes_key : AeKey)
    : Gen TokenError Z :=
  decrypted_available_balance (decryptable_available_balance self) aes_key.

Definition get_total_balance (self : ApplyPendingBalanceAccountInfo)
    (elgamal_secret_key : ElGamalSecretKey) (aes_key : AeKey) : Gen TokenError Z :=
  pending ← get_pending_balance self elgamal_secret_key;
  available ← get_available_balance self aes_key;
  some_or (u64_checked_add pending available) TokenError.Overflow.
End info.
End ApplyPendingBalanceAccountInfo.

(** ** [WithdrawAccountInfo] *)

Module WithdrawAccountInfo.
Section info.
Context `{ZK : ZkInterface} `{ZP : !ZkProofs} `{ZS : !ZkSdk} `{ZE : !ZkClientSdk}.

Record WithdrawAccountInfo : Type := mk_info {
  available_balance : EncryptedBalance;
  decryptable_available_balance : DecryptableBalance
}.

Definition new (account : ConfidentialTransferAccount) : WithdrawAccountInfo :=
  mk_info (cta_available_balance account) (cta_decryptable_available_balance account).

Definition generate_proof_data (self : WithdrawAccountInfo) (withdraw_amount : Z)
    (elgamal_keypair : ElGamalKeypair) (aes_key : AeKey)
    : Gen TokenError withdraw_proof.WithdrawProofData :=
  current_available_balance ← try_ciphertext (available_balance self);
  current_decrypted_available_balance ←
    decrypted_available_balance (decryptable_available_balance self) aes_key;
  map_err into_token_error
    (withdraw_proof.withdraw_proof_data current_available_balance
       current_decrypted_available_balance withdraw_amount elgamal_keypair).

Definition new_decryptable_available_balance (self : WithdrawAccountInfo) (withdraw_amount : Z)
    (aes_key : AeKey) : Gen TokenError AeCiphertext :=
  current_decrypted_available_balance ←
    decrypted_available_balance (decryptable_available_balance self) aes_key;
  new_decrypted_available_balance ←
    some_or (u64_checked_sub current_decrypted_available_balance withdraw_amount)
      TokenError.InsufficientFunds;
  encrypted aes_key new_decrypted_available_balance.
End info.
End WithdrawAccountInfo.

(** ** [TransferAccountInfo] *)

Module TransferAccountInfo.
Section info.
Context `{ZK : ZkInterface} `{ZP : !ZkProofs} `{ZS : !ZkSdk} `{ZE : !ZkClientSdk}.

Record TransferAccountInfo : Type := mk_info {
  available_balance : EncryptedBalance;
  decryptable_available_balance : DecryptableBalance
}.

Definition new (account : ConfidentialTransferAccount) : TransferAccountInfo :=
  mk_info (cta_available_balance account) (cta_decryptable_available_balance account).

Definition generate_split_transfer_proof_data (self : TransferAccountInfo) (transfer_amount : Z)
    (source_elgamal_keypair : ElGamalKeypair) (aes_key : AeKey)
    (destination_elgamal_pubkey : ElGamalPubkey) (auditor_elgamal_pubkey : option ElGamalPubkey)
    : Gen TokenError transfer_proof.TransferProofData :=
  current_available_balance ← try_ciphertext (available_balance self);
  current_decryptable_available_balance ← try_ae (decryptable_available_balance self);
  map_err into_token_error
    (transfer_proof.transfer_split_proof_data current_available_balance
       current_decryptable_available_balance transfer_amount source_elgamal_keypair aes_key
       destination_elgamal_pubkey auditor_elgamal_pubkey).

Definition generate_split_transfer_with_fee_proof_data (self : TransferAccountInfo)
    (transfer_amount : Z) (source_elgamal_keypair : ElGamalKeypair) (aes_key : AeKey)
    (destination_elgamal_pubkey : ElGamalPubkey) (auditor_elgamal_pubkey : option ElGamalPubkey)
    (withdraw_withheld_authority_elgamal_pubkey : ElGamalPubkey)
    (fee_rate_basis_points maximum_fee : Z)
    : Gen TokenError transfer_with_fee_proof.TransferWithFeeProofData :=
  current_available_balance ← try_ciphertext (available_balance self);
  current_decryptable_available_balance ← try_ae (decryptable_available_balance self);
  map_err into_token_error
    (transfer_with_fee_proof.transfer_with_fee_split_proof_data current_available_balance
       current_decryptable_available_balance transfer_amount source_elgamal_keypair aes_key
       destination_elgamal_pubkey auditor_elgamal_pubkey
       withdraw_withheld_authority_elgamal_pubkey fee_rate_basis_points maximum_fee).

Definition new_decryptable_available_balance (self : TransferAccountInfo) (transfer_amount : Z)
    (aes_key : AeKey) : Gen TokenError AeCiphertext :=
  current_decrypted_available_balance ←
    decrypted_available_balance (decryptable_available_balance self) aes_key;
  new_decrypted_available_balance ←
    some_or (u64_checked_sub current_decrypted_available_balance transfer_amount)
      TokenError.InsufficientFunds;
  encrypted aes_key new_decrypted_available_balance.
End info.
End TransferAccountInfo.

(** ** [WithheldTokensInfo] *)

Module WithheldTokensInfo.
Section info.
Context `{ZK : ZkInterface} `{ZP : !ZkProofs} `{ZS : !ZkSdk} `{ZE : !ZkClientSdk}.

Record WithheldTokensInfo : Type := mk_info { withheld_amount : EncryptedBalance }.

Definition new (withheld_amount : EncryptedBalance) : WithheldTokensInfo := mk_info withheld_amount.

Definition generate_proof_data (self : WithheldTokensInfo)
    (withdraw_withheld_authority_elgamal_keypair : ElGamalKeypair)
    (destination_elgamal_pubkey : ElGamalPubkey)
    : Gen TokenError (ZkProofData ProofType.CiphertextCiphertextEquality) :=
  withheld_amount_in_mint ← try_ciphertext (withheld_amount self);
  decrypted_withheld_amount_in_mint ←
    some_or (decrypt_u32 (keypair_secret withdraw_withheld_authority_elgamal_keypair)
               withheld_amount_in_mint) TokenError.AccountDecryption;
  destination_opening ← draw;
  let destination_ciphertext :=
    pubkey_encrypt_with destination_elgamal_pubkey decrypted_withheld_amount_in_mint
      destination_opening in
  proven (build_ciphertext_ciphertext_equality_proof_data
            withdraw_withheld_authority_elgamal_keypair destination_elgamal_pubkey
            withheld_amount_in_mint destination_ciphertext destination_opening
            decrypted_withheld_amount_in_mint).
End info.
End WithheldTokensInfo.

(** ** [SupplyAccountInfo] and [BurnAccountInfo] *)

Module SupplyAccountInfo.
Section info.
Context `{ZK : ZkInterface} `{ZP : !ZkProofs} `{ZS : !ZkSdk} `{ZE : !ZkClientSdk}.

Record SupplyAccountInfo : Type := mk_info {
  current_supply : EncryptedBalance;
  decryptable_supply : DecryptableBalance;
  supply_elgamal_pubkey : PodElGamalPubkey
}.

Definition new (extension : ConfidentialMintBurn) : SupplyAccountInfo :=
  mk_info (cmb_confidential_supply extension) (cmb_decryptable_supply extension)
    (cmb_supply_elgamal_pubkey extension).

(** The decryptable supply may be ahead of the encrypted one: by the difference
    of the two ciphertexts. *)
Definition decrypted_current_supply (self : SupplyAccountInfo) (aes_key : AeKey)
    (elgamal_keypair : ElGamalKeypair) : Gen TokenError Z :=
  decryptable_supply ← try_ae (decryptable_supply self);
  current_decryptable_supply ←
    some_or (ae_decrypt decryptable_supply aes_key) TokenError.AccountDecryption;
  decryptable_supply_ciphertext ←
    random (pubkey_encrypt (keypair_pubkey elgamal_keypair) current_decryptable_supply);
  current_supply ← try_ciphertext (current_supply self);
  let supply_delta_ciphertext := ciphertext_sub decryptable_supply_ciphertext current_supply in
  decryptable_to_current_diff ←
    some_or (decrypt_u32 (keypair_secret elgamal_keypair) supply_delta_ciphertext)
      TokenError.AccountDecryption;
  some_or (u64_checked_sub current_decryptable_supply decryptable_to_current_diff)
    TokenError.Overflow.

Definition generate_rotate_supply_elgamal_pubkey_proof (self : SupplyAccountInfo)
    (current_supply_elgamal_keypair : ElGamalKeypair) (new_supply_elgamal_pubkey : ElGamalPubkey)
    (aes_key : AeKey) : Gen TokenError (ZkProofData ProofType.CiphertextCiphertextEquality) :=
  supply ← decrypted_current_supply self aes_key current_supply_elgamal_keypair;
  new_supply_opening ← draw;
  let new_supply_ciphertext :=
    pubkey_encrypt_with new_supply_elgamal_pubkey supply new_supply_opening in
  current_supply ← try_ciphertext (current_supply self);
  proven (build_ciphertext_ciphertext_equality_proof_data current_supply_elgamal_keypair
            new_supply_elgamal_pubkey current_supply new_supply_ciphertext new_supply_opening supply).

Definition generate_split_mint_proof_data (self : SupplyAccountInfo) (mint_amount : Z)
    (supply_elgamal_keypair : ElGamalKeypair) (aes_key : AeKey)
    (destination_elgamal_pubkey : ElGamalPubkey) (auditor_elgamal_pubkey : option ElGamalPubkey)
    : Gen TokenError mint_proof.MintProofData :=
  current_supply_ciphertext ← try_ciphertext (current_supply self);
  current_supply ← decrypted_current_supply self aes_key supply_elgamal_keypair;
  map_err into_token_error
    (mint_proof.mint_split_proof_data current_supply_ciphertext mint_amount current_supply
       supply_elgamal_keypair destination_elgamal_pubkey auditor_elgamal_pubkey).

Definition new_decryptable_supply (self : SupplyAccountInfo) (mint_amount : Z)
    (elgamal_keypair : ElGamalKeypair) (aes_key : AeKey) : Gen TokenError AeCiphertext :=
  current_decrypted_supply ← decrypted_current_supply self aes_key elgamal_keypair;
  new_decrypted_available_balance ←
    some_or (u64_checked_add current_decrypted_supply mint_amount) TokenError.Overflow;
  encrypted aes_key new_decrypted_available_balance.
End info.
End SupplyAccountInfo.

Module BurnAccountInfo.
Section info.
Context `{ZK : ZkInterface} `{ZP : !ZkProofs} `{ZS : !ZkSdk} `{ZE : !ZkClientSdk}.

Record BurnAccountInfo : Type := mk_info {
  available_balance : EncryptedBalance;
  decryptable_available_balance : DecryptableBalance
}.

Definition new (account : ConfidentialTransferAccount) : BurnAccountInfo :=
  mk_info (cta_available_balance account) (cta_decryptable_available_balance account).

Definition generate_split_burn_proof_data (self : BurnAccountInfo) (burn_amount : Z)
    (source_elgamal_keypair : ElGamalKeypair) (aes_key : AeKey)
    (supply_elgamal_pubkey : ElGamalPubkey) (auditor_elgamal_pubkey : option ElGamalPubkey)
    : Gen TokenError burn_proof.BurnProofData :=
  current_available_balance_ciphertext ← try_ciphertext (available_balance self);
  current_decryptable_available_balance ← try_ae (decryptable_available_balance self);
  map_err into_token_error
    (burn_proof.burn_split_proof_data current_available_balance_ciphertext
       current_decryptable_available_balance burn_amount source_elgamal_keypair aes_key
       supply_elgamal_pubkey auditor_elgamal_pubkey).

Definition new_decryptable_balance (self : BurnAccountInfo) (burn_amount : Z) (aes_key : AeKey)
    : Gen TokenError AeCiphertext :=
  decryptable ← try_ae (decryptable_available_balance self);
  current_available_balance ← some_or (ae_decrypt decryptable aes_key) TokenError.AccountDecryption;
  new_decryptable_balance ←
    some_or (u64_checked_sub current_available_balance burn_amount) TokenError.Overflow;
  encrypted aes_key new_decryptable_balance.
End info.
End BurnAccountInfo.
