(* ===== verification/InstructionTheory.v ===== *)
(** * The byte format of instructions

    Unpacking is the inverse of packing, never panics, and reads the same
    instruction as the decoders of the processor: what a client builds is what
    the handler receives.  A batch is the list of its elements, and runs them one
    after the other. *)
From S2P Require Import Prelude Bytes Errors Ids Runtime Pod ExtensionState Extension TlvTheory.
From S2P Require Import ViewTheory CiphertextArithmetic ProofExtraction MonadTheory State.
From S2P Require Import PodInstruction ConfidentialTransfer ConfidentialTransferFee.
From S2P Require Import ConfidentialMintBurn TokenMetadata UiAmount Instruction Processor.
Import TokenInstruction.

(** ** The parts of an instruction *)

Lemma or_invalid_Ok {A} (o : option A) a : or_invalid o = Ok a <-> o = Some a.
Proof. apply ok_or_Ok. Qed.

Lemma split_first_Some l b rest : split_first l = Some (b, rest) <-> l = b :: rest.
Proof. destruct l; naive_solver. Qed.

Lemma get_prefix_Some n l p :
  get_prefix n l = Some p <-> exists rest, l = p ++ rest /\ length p = n.
Proof.
  unfold get_prefix. split.
  - destruct (Nat.leb_spec n (length l)); intros [= <-].
    exists (drop n l). split; [by rewrite take_drop|]. rewrite length_take. lia.
  - intros (rest & -> & <-). rewrite (proj2 (Nat.leb_le _ _)) by (rewrite length_app; lia).
    by rewrite take_app_length.
Qed.

Lemma unpack_pubkey_Ok input k rest :
  unpack_pubkey input = Ok (k, rest) <-> input = to_bytes k ++ rest.
Proof.
  unfold unpack_pubkey. rewrite bind_Ok. split.
  - intros (p & (r & -> & Hl)%or_invalid_Ok%get_prefix_Some & [= <- <-]).
    rewrite drop_app_length' by done. f_equal. symmetry. by apply bytes_list_of_list.
  - intros ->. exists (to_bytes k). split.
    + apply or_invalid_Ok, get_prefix_Some. exists rest. by rewrite length_to_bytes.
    + rewrite drop_app_length' by (by rewrite length_to_bytes). do 3 f_equal. apply bytes_of_list_list.
Qed.

Lemma unpack_u64_Ok input z rest :
  unpack_u64 input = Ok (z, rest) <-> is_u64 z /\ input = to_le_bytes 8 z ++ rest.
Proof.
  unfold unpack_u64. rewrite bind_Ok. split.
  - intros (p & (r & -> & Hl)%or_invalid_Ok%get_prefix_Some & [= <- <-]).
    rewrite drop_app_length', to_from_le_8 by done. split; [by apply from_le_8_range|done].
  - intros [Hz ->]. exists (to_le_bytes 8 z). split.
    + apply or_invalid_Ok, get_prefix_Some. exists rest. by rewrite length_to_le_bytes.
    + rewrite drop_app_length' by (by rewrite length_to_le_bytes). by rewrite from_to_le_8.
Qed.

Lemma split_at_u64 l bs rest :
  or_invalid (split_at_checked 8 l) = Ok (bs, rest) <->
  is_u64 (from_le_bytes bs) /\ length bs = 8%nat /\ l = bs ++ rest.
Proof.
  rewrite or_invalid_Ok. unfold split_at_checked. split.
  - destruct (Nat.leb_spec 8 (length l)); intros [= <- <-].
    assert (length (take 8 l) = 8%nat) as Hl by (rewrite length_take; lia).
    split; [by apply from_le_8_range|]. split; [done|]. by rewrite take_drop.
  - intros (_ & Hl & ->). rewrite (proj2 (Nat.leb_le _ _)) by (rewrite length_app; lia).
    by rewrite take_app_length', drop_app_length'.
Qed.

Lemma unpack_amount_decimals_Ok input a d rest :
  unpack_amount_decimals input = Ok (a, d, rest) <->
  is_u64 a /\ input = to_le_bytes 8 a ++ d :: rest.
Proof.
  unfold unpack_amount_decimals. rewrite bind_Ok. split.
  - intros ([z r] & [Hz ->]%unpack_u64_Ok & H). apply bind_Ok in H as ([b r'] & H & [= <- <- <-]).
    apply or_invalid_Ok, split_first_Some in H as ->. done.
  - intros [Ha ->]. exists (a, d :: rest). split; [by apply unpack_u64_Ok|done].
Qed.

(** The two options. *)
Section option.
Context {A} (un : list byte -> Result ProgramError (A * list byte)) (body : A -> list byte).
Context (valid : A -> Prop).
Context (un_Ok : forall input a rest, un input = Ok (a, rest) <-> valid a /\ input = body a ++ rest).

Lemma unpack_option_Ok input o rest :
  match split_first input with
  | Some (x00, rest) => Ok (None, rest)
  | Some (x01, rest) => '(v, rest) ← un rest; mret (Some v, rest)
  | _ => Err (TokenError.InvalidInstruction : ProgramError)
  end = Ok (o, rest) <->
  from_option valid True o /\
  input = match o with Some v => x01 :: body v | None => [x00] end ++ rest.
Proof.
  split.
  - destruct input as [|b input]; [done|]. destruct b; try done; simpl.
    + by intros [= <- <-].
    + intros ([v r] & [Hv ->]%un_Ok & [= <- <-])%bind_Ok. done.
  - intros [Hv ->]. destruct o as [v|]; simpl in *; [|done].
    apply bind_Ok. exists (v, rest). split; [by apply un_Ok|done].
Qed.
End option.

Lemma unpack_pubkey_option_Ok input o rest :
  unpack_pubkey_option input = Ok (o, rest) <-> input = pack_pubkey_option o ++ rest.
Proof.
  unfold unpack_pubkey_option, pack_pubkey_option.
  rewrite (unpack_option_Ok unpack_pubkey to_bytes (fun _ => True)).
  - split; [by intros [_ ?]|]. intros ->. split; [by destruct o|done].
  - intros. rewrite unpack_pubkey_Ok. naive_solver.
Qed.

Lemma unpack_u64_option_Ok input o rest :
  unpack_u64_option input = Ok (o, rest) <->
  from_option is_u64 True o /\ input = pack_u64_option o ++ rest.
Proof. apply unpack_option_Ok. intros. apply unpack_u64_Ok. Qed.

(** ** The extension types *)

Lemma chunks_from_fuel f n l :
  (0 < n)%nat -> (length l <= f)%nat -> chunks_from f n l = chunks n l.
Proof.
  unfold chunks. intros Hn. revert l. 
  enough (forall f g l, (length l <= f)%nat -> (length l <= g)%nat -> chunks_from f n l = chunks_from g n l)
    by eauto.
  clear f. induction f as [|f IH]; intros g l Hf Hg; destruct l as [|b l]; cbn [length] in *;
    [by destruct g|lia|by destruct g|]. destruct g as [|g]; [lia|]. cbn [chunks_from]. f_equal.
  apply IH; rewrite length_drop; cbn [length]; lia.
Qed.

Lemma chunks_cons n a l : (0 < n)%nat -> length a = n -> chunks n (a ++ l) = a :: chunks n l.
Proof.
  intros Hn Ha. destruct a as [|b a]; [simpl in Ha; lia|]. unfold chunks at 1.
  cbn [app length chunks_from]. rewrite app_comm_cons, take_app_length', drop_app_length' by done.
  f_equal. apply chunks_from_fuel; [done|]. rewrite length_app. lia.
Qed.
Lemma length_extension_type_bytes t : length (extension_type_bytes t) = 2%nat.
Proof. apply length_to_le_bytes. Qed.

Lemma extension_type_slice_Ok l t :
  extension_type_try_from_slice l = Ok t <-> l = extension_type_bytes t.
Proof.
  unfold extension_type_try_from_slice. destruct (Nat.eqb_spec (length l) 2) as [E|Hne].
  - rewrite ok_or_Ok, extension_type_try_from_Some. unfold extension_type_bytes. split.
    + intros <-. by rewrite <- E, to_from_le_bytes.
    + intros ->. apply from_to_le_2. pose proof (extension_type_u16_range t). unfold u16_max. lia.
  - split; [done|]. intros ->. by rewrite length_extension_type_bytes in Hne.
Qed.

Lemma unpack_extension_types_Ok rest ts :
  unpack_extension_types rest = Ok ts <-> rest = concat (extension_type_bytes <$> ts).
Proof.
  unfold unpack_extension_types. split.
  - revert rest. induction ts as [|t ts IH]; intros rest H.
    + destruct rest as [|b rest]; [done|]. unfold chunks in H. cbn [length chunks_from collect] in H.
      m_inv.
    + destruct rest as [|b rest]; [done|].
      rewrite <- (take_drop 2 (b :: rest)) in H.
      unfold chunks in H. rewrite take_drop in H. cbn [length chunks_from collect] in H. m_inv.
      match goal with H : extension_type_try_from_slice _ = Ok _ |- _ =>
        apply extension_type_slice_Ok in H as E end.
      rewrite chunks_from_fuel in Hm0 by (rewrite ?length_drop; cbn [length]; lia).
      apply IH in Hm0. cbn [fmap list_fmap concat]. rewrite <- E, <- Hm0. by rewrite take_drop.
  - intros ->. induction ts as [|t ts IH]; [done|]. cbn [fmap list_fmap concat].
    rewrite chunks_cons by (lia || apply length_extension_type_bytes). cbn [collect].
    by rewrite (proj2 (extension_type_slice_Ok _ _) eq_refl), IH.
Qed.

(** ** The format *)

(** The integers of an instruction fit their types, its string is UTF-8. *)
Definition valid (i : TokenInstruction) : Prop :=
  match i with
  | Transfer amount | Approve amount | MintTo amount | Burn amount
  | TransferChecked amount _ | ApproveChecked amount _ | MintToChecked amount _
  | BurnChecked amount _ | AmountToUiAmount amount => is_u64 amount
  | UnwrapLamports amount => from_option is_u64 True amount
  | UiAmountToAmount ui_amount => valid_utf8 ui_amount = true
  | _ => True
  end.

(** Instructions that take all the bytes that are left. *)
Definition takes_rest (i : TokenInstruction) : bool :=
  match i with
  | GetAccountDataSize _ | Reallocate _ | UiAmountToAmount _ | Batch _ => true
  | _ => false
  end.

(** Compute a reader on the bytes of what it reads. *)
Ltac read_packed :=
  repeat first
    [ progress rewrite <- ?app_assoc
    | erewrite (proj2 (unpack_pubkey_option_Ok _ _ _)) by reflexivity
    | erewrite (proj2 (unpack_pubkey_Ok _ _ _)) by reflexivity
    | erewrite (proj2 (unpack_amount_decimals_Ok _ _ _ _)) by (split; [eassumption|reflexivity])
    | erewrite (proj2 (unpack_u64_option_Ok _ _ _)) by (split; [eassumption|reflexivity])
    | erewrite (proj2 (unpack_u64_Ok _ _ _)) by (split; [eassumption|reflexivity])
    | erewrite (proj2 (unpack_extension_types_Ok _ _)) by reflexivity
    | erewrite (proj2 (split_at_u64 _ _ _))
        by (split_and!; [by rewrite from_to_le_8|apply length_to_le_bytes|reflexivity]) ].

Lemma unpack_pack_with_rest i rest :
  valid i -> (takes_rest i = true -> rest = []) -> unpack_with_rest (pack i ++ rest) = Ok (i, rest).
Proof.
  intros Hv Hr. destruct i; cbn [pack app valid takes_rest] in *; try reflexivity;
    try rewrite (Hr eq_refl), app_nil_r;
    unfold unpack_with_rest, unpack_initialize_mint;
    cbn [split_first or_invalid ok_or mbind Result_bind app]; read_packed;
    cbn [mbind Result_bind]; rewrite ?from_to_le_8, ?authority_type_from_into by done; try reflexivity.
  - by rewrite (proj2 (unpack_pubkey_option_Ok _ freeze_authority rest) eq_refl).
  - by rewrite (proj2 (unpack_pubkey_option_Ok _ freeze_authority rest) eq_refl).
  - by rewrite Hv.
Qed.

Lemma authority_type_into_from b t : authority_type_from b = Ok t -> b = authority_type_into t.
Proof. destruct b; try done; by intros [= <-]. Qed.

(** Turn every reader that succeeded into the bytes it read. *)
Ltac read_back :=
  repeat match goal with
  | H : unpack_pubkey_option _ = Ok (_, _) |- _ => apply unpack_pubkey_option_Ok in H; subst
  | H : unpack_pubkey _ = Ok (_, _) |- _ => apply unpack_pubkey_Ok in H; subst
  | H : unpack_amount_decimals _ = Ok (_, _, _) |- _ => apply unpack_amount_decimals_Ok in H as [? H]; subst
  | H : unpack_u64_option _ = Ok (_, _) |- _ => apply unpack_u64_option_Ok in H as [? H]; subst
  | H : unpack_u64 _ = Ok (_, _) |- _ => apply unpack_u64_Ok in H as [? H]; subst
  | H : unpack_extension_types _ = Ok _ |- _ => apply unpack_extension_types_Ok in H; subst
  | H : or_invalid (split_at_checked 8 _) = Ok (_, _) |- _ => apply split_at_u64 in H as (? & ? & H); subst
  | H : or_invalid (split_first _) = Ok (_, _) |- _ =>
      apply or_invalid_Ok, split_first_Some in H; subst
  | H : authority_type_from _ = Ok _ |- _ => apply authority_type_into_from in H; subst
  end.

Lemma unpack_with_rest_inv input i rest :
  unpack_with_rest input = Ok (i, rest) ->
  valid i /\ input = pack i ++ rest /\ (takes_rest i = true -> rest = []).
Proof.
  unfold unpack_with_rest, unpack_initialize_mint. intros ([tag r] & Ht & H)%bind_Ok.
  apply or_invalid_Ok, split_first_Some in Ht as ->.
  destruct tag; try done; m_inv; read_back; cbn [pack app valid takes_rest].
  all: try (split; [by trivial|]; split; [|done]; rewrite <- ?app_assoc; cbn [app]; done).
  - split; [done|]. by rewrite to_from_le_8.
  - split; [done|]. by rewrite to_from_le_8.
  - split; [done|]. by rewrite to_from_le_8.
  - split; [done|]. by rewrite to_from_le_8.
  - by rewrite app_nil_r.
  - destruct (valid_utf8 r) eqn:E; [|done]. injection H as <- <-. cbn [pack app]. by rewrite app_nil_r.
  - by rewrite app_nil_r.
  - by rewrite app_nil_r.
Qed.

(** C27: an instruction is read from exactly the bytes it packs to.  For every
    byte string, unpacking gives the instruction [i] and the unread bytes when
    and only when the string is the packing of [i] followed by those bytes,
    the integers of [i] fit their types, its text is UTF-8, and nothing is
    unread after an instruction that takes all the bytes. *)
Theorem unpack_with_rest_spec input i rest :
  unpack_with_rest input = Ok (i, rest) <->
  valid i /\ input = pack i ++ rest /\ (takes_rest i = true -> rest = []).
Proof.
  split; [apply unpack_with_rest_inv|]. intros (Hv & -> & Hr). by apply unpack_pack_with_rest.
Qed.

(** ** Failures *)

(** How reading may fail; [types] is whether extension types are read. *)
Definition invalid (types : bool) {A} (r : Result ProgramError A) : Prop :=
  match r with
  | Ok _ => True
  | Err e => e = TokenError.InvalidInstruction \/ (e = ProgramError.InvalidAccountData /\ types = true)
  | Panic => False
  end.

Lemma invalid_bind b {A B} (r : Result ProgramError A) (f : A -> Result ProgramError B) :
  invalid b r -> (forall a, r = Ok a -> invalid b (f a)) -> invalid b (r ≫= f).
Proof. destruct r; simpl; auto. Qed.

Lemma invalid_or b {A} (o : option A) : invalid b (or_invalid o).
Proof. destruct o; simpl; auto. Qed.

Lemma invalid_pubkey ty l : invalid ty (unpack_pubkey l).
Proof. apply invalid_bind; [apply invalid_or|done]. Qed.

Lemma invalid_u64 ty l : invalid ty (unpack_u64 l).
Proof. apply invalid_bind; [apply invalid_or|done]. Qed.

Lemma invalid_pubkey_option ty l : invalid ty (unpack_pubkey_option l).
Proof.
  unfold unpack_pubkey_option. destruct l as [|b l]; [by left|]. destruct b; simpl; try (by left); [done|].
  apply invalid_bind; [apply invalid_pubkey|by intros [? ?]].
Qed.

Lemma invalid_u64_option ty l : invalid ty (unpack_u64_option l).
Proof.
  unfold unpack_u64_option. destruct l as [|b l]; [by left|]. destruct b; simpl; try (by left); [done|].
  apply invalid_bind; [apply invalid_u64|by intros [? ?]].
Qed.

Lemma invalid_amount_decimals ty l : invalid ty (unpack_amount_decimals l).
Proof.
  apply invalid_bind; [apply invalid_u64|intros [z r] _].
  apply invalid_bind; [apply invalid_or|by intros [? ?]].
Qed.

Lemma invalid_extension_types l : invalid true (unpack_extension_types l).
Proof.
  unfold unpack_extension_types. induction (chunks 2 l) as [|c cs IH]; [done|]. cbn [collect].
  apply invalid_bind.
  - unfold extension_type_try_from_slice. destruct (_ =? _)%nat; [|by right].
    destruct (extension_type_try_from _); [done|by right].
  - intros t _. by apply invalid_bind.
Qed.

Lemma invalid_authority_type ty b : invalid ty (authority_type_from b).
Proof. destruct b; simpl; auto. Qed.

Create HintDb invalid discriminated.
#[local] Hint Resolve invalid_or invalid_pubkey invalid_u64 invalid_pubkey_option invalid_u64_option
  invalid_amount_decimals invalid_extension_types invalid_authority_type : invalid.

Definition reads_extension_types (input : list byte) : bool :=
  match input with x15 :: _ | x1d :: _ => true | _ => false end.

Lemma unpack_with_rest_invalid input :
  invalid (reads_extension_types input) (unpack_with_rest input).
Proof.
  unfold unpack_with_rest, unpack_initialize_mint. destruct input as [|tag rest]; [by left|].
  cbn [split_first or_invalid ok_or mbind Result_bind].
  destruct tag; cbn [reads_extension_types]; first [exact I|by left|idtac];
    repeat (apply invalid_bind; [eauto 2 with invalid|intros; repeat case_match; try exact I]).
  destruct (valid_utf8 rest); [exact I|by left].
Qed.

(** unpacking any bytes ends in an instruction, in [InvalidInstruction], or,
    where extension types are listed, in [InvalidAccountData]; it never panics,
    the arm that is marked unreachable included. *)
Theorem unpack_no_panic input : invalid (reads_extension_types input) (unpack input).
Proof.
  apply invalid_bind; [apply unpack_with_rest_invalid|]. by intros [i rest] _.
Qed.

(** ** Batches *)

Lemma split_at_checked_Some n l a b :
  split_at_checked n l = Some (a, b) <-> l = a ++ b /\ length a = n.
Proof.
  unfold split_at_checked. destruct (Nat.leb_spec n (length l)) as [Hl|Hl].
  - split.
    + intros [= <- <-]. by rewrite take_drop, length_take, Nat.min_l.
    + intros [-> <-]. by rewrite take_app_length, drop_app_length.
  - split; [done|]. intros [-> <-]. rewrite length_app in Hl. lia.
Qed.

(** An element from which its instruction is read back. *)
Definition batch_item_valid (item : BatchItem) : Prop :=
  valid (instruction item) /\ is_batch (instruction item) = false /\
  u8_to_Z (data_length item) = Z.of_nat (length (pack (instruction item))).

Definition item_bytes (item : BatchItem) : list byte :=
  account_count item :: data_length item :: pack (instruction item).

(** One turn of the loop reads one valid element. *)
Lemma batch_elements_step fuel x items :
  batch_elements (S fuel) x = Ok items <->
  exists item rest, batch_item_valid item /\ x = item_bytes item ++ rest /\
    match rest with
    | [] => items = [item]
    | _ => exists items', batch_elements fuel rest = Ok items' /\ items = item :: items'
    end.
Proof.
  cbn [batch_elements]. split.
  - intros ([h r] & [Ex Hh]%ok_or_Ok%split_at_checked_Some & H)%bind_Ok.
    destruct h as [|a [|b [|? ?]]]; try done. subst x.
    apply bind_Ok in H as ([d rest] & [-> Hd]%ok_or_Ok%split_at_checked_Some & H).
    apply bind_Ok in H as ([i ir] & Hu%unpack_with_rest_inv & H).
    apply bind_Ok in H as ([] & Hr%fail_if_Ok & H). apply bind_Ok in H as ([] & Hb%fail_if_Ok & H).
    destruct ir; [|done]. destruct Hu as (Hv & -> & _). rewrite app_nil_r in *.
    exists (mk_batch_item a b i), rest. split.
    { split; [done|]. split; [done|]. cbn. pose proof (u8_to_Z_range b). lia. }
    split; [done|]. destruct rest; [by apply ret_Ok in H as <-|].
    apply bind_Ok in H as (items' & Hi & H). apply ret_Ok in H as <-. eauto.
  - intros ([a b i] & rest & (Hv & Hb & Hl) & -> & H). cbn [instruction data_length] in *.
    unfold item_bytes. cbn [account_count data_length instruction app].
    assert (split_at_checked 2 (a :: b :: pack i ++ rest) = Some ([a; b], pack i ++ rest)) as ->
      by (by apply split_at_checked_Some).
    cbn [or_invalid ok_or mbind Result_bind].
    assert (split_at_checked (Z.to_nat (u8_to_Z b)) (pack i ++ rest) = Some (pack i, rest)) as ->
      by (apply split_at_checked_Some; split; [done|lia]).
    cbn [or_invalid ok_or mbind Result_bind].
    assert (unpack_with_rest (pack i) = Ok (i, [])) as ->
      by (rewrite <- (app_nil_r (pack i)); by apply unpack_pack_with_rest).
    cbn [mbind Result_bind]. rewrite Hb. cbn [fail_if err_if mbind Result_bind length Nat.eqb negb].
    destruct rest; [by rewrite H|]. destruct H as (items' & -> & ->). done.
Qed.

Lemma deserialize_cons item items x :
  batch_item_valid item ->
  batch_deserialize (item :: items) = Ok x <->
  exists rest, batch_deserialize items = Ok rest /\ x = item_bytes item ++ rest.
Proof.
  intros (_ & Hb & _). cbn [batch_deserialize]. rewrite Hb. cbn [fail_if err_if mbind Result_bind].
  rewrite bind_Ok. unfold item_bytes. split.
  - intros (r & Hr & H). apply ret_Ok in H as <-. by exists r.
  - intros (r & Hr & ->). by exists r.
Qed.

(** What the elements of a batch say is what its data says: data is serialized
    to a list of elements exactly when these are one or more, each with the
    length of its instruction and none of them a batch itself, and the data is
    what they are deserialized to. *)
Theorem batch_fromstr_roundtrip x items :
  batch_serialize x = Ok items <->
  items <> [] /\ Forall batch_item_valid items /\ batch_deserialize items = Ok x.
Proof.
  unfold batch_serialize. assert (length x < S (length x))%nat as Hf by lia. revert Hf.
  generalize (S (length x)) as fuel. intros fuel. revert x items.
  induction fuel as [|fuel IH]; intros x items Hf; [lia|]. rewrite batch_elements_step. split.
  - intros (item & rest & Hv & -> & H). destruct rest as [|c rest].
    + subst items. split; [done|]. split; [by constructor|]. apply deserialize_cons; [done|]. by exists [].
    + destruct H as (items' & Hi & ->). apply IH in Hi as (_ & Ha & Hd).
      * split; [done|]. split; [by constructor|]. apply deserialize_cons; [done|]. by exists (c :: rest).
      * unfold item_bytes in Hf. cbn [app length] in Hf. rewrite length_app in Hf. cbn [length] in *. lia.
  - intros (Hne & Ha & Hd). destruct items as [|item items]; [done|].
    apply Forall_cons in Ha as [Hv Ha]. apply (deserialize_cons _ _ _ Hv) in Hd as (rest & Hd & ->).
    exists item, rest. split; [done|]. split; [done|]. destruct items as [|j items].
    + injection Hd as <-. done.
    + destruct rest as [|c rest].
      { exfalso. apply Forall_cons in Ha as [Hj _].
        by apply (deserialize_cons _ _ _ Hj) in Hd as (? & _ & ?). }
      exists (j :: items). split; [|done]. apply IH; [|done].
      unfold item_bytes in Hf. cbn [app length] in Hf. rewrite length_app in Hf. cbn [length] in *. lia.
Qed.

(** ** What a batch does

    A batch runs its instructions in order, each on the accounts its header
    counts, and refuses a batch among them; the loop ends. *)

Section batch.
Context `{RT : Runtime} `{PM : PackMethods} `{F64 : Float64}.
Context `{CV : CurveInterface} `{ZK : ZkInterface} `{ZC : !ZkContexts}.
Context `{TM : TokenMetadataInterface} `{TG : TokenGroupInterface}.

(** An instruction of a batch: its accounts and its data, which a header can
    describe. *)
Definition InnerInstruction : Type := list AccountInfo * list byte.
Definition fits (ix : InnerInstruction) : Prop :=
  (length ix.1 < 256)%nat /\ (length ix.2 < 256)%nat.

Definition encode_ix (ix : InnerInstruction) : list byte :=
  u8_of_Z (Z.of_nat (length ix.1)) :: u8_of_Z (Z.of_nat (length ix.2)) :: ix.2.
Definition encode_batch (ixs : list InnerInstruction) : list byte := concat (encode_ix <$> ixs).

(** Running instructions one after the other. *)
Fixpoint run (program_id : Address) (ixs : list InnerInstruction) : M unit :=
  match ixs with
  | [] => mret tt
  | ix :: ixs => _ ← _process_inner program_id ix.1 ix.2; run program_id ixs
  end.

Lemma u8_length n : (n < 256)%nat -> Z.to_nat (u8_to_Z (u8_of_Z (Z.of_nat n))) = n.
Proof. intros Hn. rewrite u8_to_of_Z, Z.mod_small by lia. lia. Qed.

Lemma get_range_app (a b c : list byte) i j :
  i = length a -> j = (length a + length b)%nat -> get_range i j (a ++ b ++ c) = Some b.
Proof.
  intros Hi Hj. unfold get_range. rewrite !length_app.
  rewrite (proj2 (Nat.leb_le i j)), (proj2 (Nat.leb_le j _)) by lia. simpl.
  by rewrite slice_app_mid.
Qed.

(** One turn of the loop on an encoded instruction. *)
Lemma process_batch_turn fuel pid ix rest more data w :
  fits ix ->
  process_batch_from (S fuel) pid (ix.1 ++ rest ++ more) (encode_ix ix ++ data) w =
    (_ ← _process_inner pid ix.1 ix.2;
     match data with [] => mret tt | _ => process_batch_from fuel pid (rest ++ more) data end) w.
Proof.
  intros [H1 H2]. cbn [process_batch_from encode_ix app].
  rewrite !u8_length by done. unfold get_accounts.
  rewrite (proj2 (Nat.leb_le _ _)) by (rewrite length_app; lia).
  rewrite take_app_length, drop_app_length.
  change (u8_of_Z ?a :: u8_of_Z ?b :: ix.2 ++ data)
    with ([u8_of_Z a; u8_of_Z b] ++ ix.2 ++ data).
  rewrite get_range_app by done. cbn [ok_or lift mbind M_bind].
  unfold mbind, M_bind, lift. destruct (_process_inner pid ix.1 ix.2 w) as [[[] w1]| |]; [|done..].
  rewrite !length_app. cbn [length]. destruct data as [|b data].
  - by rewrite (proj2 (Nat.eqb_eq _ _)) by (cbn [length]; unfold IX_HEADER_SIZE; lia).
  - rewrite (proj2 (Nat.eqb_neq _ _)) by (cbn [length]; unfold IX_HEADER_SIZE; lia).
    rewrite (app_assoc [_; _]), drop_app_length' by (rewrite length_app; done). done.
Qed.

Lemma encode_batch_cons ix ixs : encode_batch (ix :: ixs) = encode_ix ix ++ encode_batch ixs.
Proof. done. Qed.

Lemma process_batch_run fuel pid ixs more w :
  ixs <> [] -> Forall fits ixs -> (length (encode_batch ixs) < fuel)%nat ->
  process_batch_from fuel pid (concat (fst <$> ixs) ++ more) (encode_batch ixs) w = run pid ixs w.
Proof.
  intros Hne Hf. revert fuel w Hne. induction Hf as [|ix ixs Hix Hf IH]; intros fuel w Hne Hl; [done|].
  destruct fuel as [|fuel]; [lia|]. rewrite encode_batch_cons in *.
  cbn [fmap list_fmap concat]. rewrite <- app_assoc, process_batch_turn by done.
  cbn [run]. unfold mbind, M_bind.
  destruct (_process_inner pid ix.1 ix.2 w) as [[[] w1]| |]; [|done..].
  destruct ixs as [|ix' ixs]; [done|]. rewrite encode_batch_cons. cbn [encode_ix app].
  apply IH; [done|]. rewrite length_app in Hl. cbn [encode_ix length] in Hl. lia.
Qed.

Lemma process_batch_decode fuel pid accounts data w w' :
  process_batch_from fuel pid accounts data w = Ok (tt, w') ->
  exists ixs more, ixs <> [] /\ Forall fits ixs /\ data = encode_batch ixs /\
    accounts = concat (fst <$> ixs) ++ more /\ run pid ixs w = Ok (tt, w').
Proof.
  revert accounts data w. induction fuel as [|fuel IH]; intros accounts data w H; [done|].
  destruct data as [|h0 [|h1 data]]; [done..|]. cbn [process_batch_from] in H. m_inv.
  unfold get_accounts in Hm. destruct (Nat.leb_spec (Z.to_nat (u8_to_Z h0)) (length accounts)); [|done].
  injection Hm as <-.
  unfold get_range in Hm0. destruct (_ && _) eqn:Er; [|done]. injection Hm0 as <-.
  apply andb_true_iff in Er as [_ Er%Nat.leb_le]. cbn [length] in Er. unfold IX_HEADER_SIZE in *.
  pose proof (u8_to_Z_range h0). pose proof (u8_to_Z_range h1).
  set (n := Z.to_nat (u8_to_Z h0)) in *. set (k := Z.to_nat (u8_to_Z h1)) in *.
  assert (slice (h0 :: h1 :: data) 2 (2 + k) = take k data) as Es.
  { unfold slice. cbn [drop]. f_equal. lia. }
  change (S (S k)) with (2 + k)%nat in Hm1; rewrite Es in Hm1. set (ix := (take n accounts, take k data) : InnerInstruction).
  assert (fits ix) as Hfit by (split; simpl; rewrite length_take; lia).
  assert (h0 :: h1 :: data = encode_ix ix ++ drop k data) as Ed.
  { unfold encode_ix. cbn [fst snd ix]. rewrite !length_take, !Nat.min_l by lia.
    unfold n, k. rewrite !Z2Nat.id, !u8_of_to_Z by lia. cbn [app]. by rewrite take_drop. }
  destruct (Nat.eqb_spec (2 + k) (length (h0 :: h1 :: data))) as [E|E]; cbn [length] in E.
  - m_inv. exists [ix], (drop n accounts). split; [done|]. split; [by constructor|].
    split; [|split].
    + rewrite Ed. unfold encode_batch. cbn [fmap list_fmap concat]. by rewrite drop_ge by lia.
    + cbn [fmap list_fmap concat fst ix]. by rewrite app_nil_r, take_drop.
    + cbn [run fst snd ix]. unfold mbind, M_bind. by rewrite Hm1.
  - apply IH in H as (ixs & more & Hne & Hf & Hd & Ha & Hr).
    exists (ix :: ixs), more. split; [done|]. split; [by constructor|]. split; [|split].
    + rewrite encode_batch_cons, <- Hd. exact Ed.
    + cbn [fmap list_fmap concat fst ix]. by rewrite <- app_assoc, <- Ha, take_drop.
    + cbn [run fst snd ix]. unfold mbind, M_bind. by rewrite Hm1.
Qed.

(** Fuel beyond the length of the data changes nothing. *)
Lemma process_batch_fuel f g pid accounts data w :
  (length data < f)%nat -> (length data < g)%nat ->
  process_batch_from f pid accounts data w = process_batch_from g pid accounts data w.
Proof.
  revert g accounts data w. induction f as [|f IH]; intros g accounts data w Hf Hg; [lia|].
  destruct g as [|g]; [lia|]. destruct data as [|h0 [|h1 data]]; [done..|].
  cbn [process_batch_from]. unfold mbind, M_bind, lift.
  destruct (ok_or (get_accounts _ _) _); [|done..]. destruct (ok_or (get_range _ _ _) _); [|done..].
  destruct (_process_inner _ _ _ w) as [[[] w1]| |]; [|done..].
  destruct (_ =? _)%nat; [done|]. cbn [length] in *.
  apply IH; rewrite length_drop; cbn [length]; unfold IX_HEADER_SIZE; lia.
Qed.

(** C39: a batch is the sequence of its instructions: it succeeds exactly when its
    data is the encoding of one or more instructions whose accounts are, in
    order, the accounts given, and those instructions, run one after the other,
    all succeed; the state it leaves is theirs.  A batch among them fails.  The
    loop always ends: fuel beyond the length of the data changes nothing. *)
Theorem process_batch_spec pid accounts data w :
  (forall w', process_batch pid accounts data w = Ok (tt, w') <->
     exists ixs more, ixs <> [] /\ Forall fits ixs /\ data = encode_batch ixs /\
       accounts = concat (fst <$> ixs) ++ more /\ run pid ixs w = Ok (tt, w')) /\
  _process_inner pid accounts (xff :: data) w = fail TokenError.InvalidInstruction /\
  (forall fuel, (length data < fuel)%nat ->
     process_batch_from fuel pid accounts data w = process_batch pid accounts data w).
Proof.
  split; [|split].
  - intros w'. split; [apply process_batch_decode|].
    intros (ixs & more & Hne & Hf & -> & -> & Hr). unfold process_batch.
    rewrite process_batch_run by (done || lia). done.
  - reflexivity.
  - intros fuel Hl. apply process_batch_fuel; lia.
Qed.
End batch.
