(* ===== verification/ClientTheory.v ===== *)
(** * What a client builds is what the program runs

    The handler that each packed instruction reaches and the arguments it gets,
    and, for every function that builds an instruction, the accounts the handler
    then finds. *)
From S2P Require Import Prelude Bytes Errors Ids Runtime Pod ExtensionState Extension TlvTheory.
From S2P Require Import ViewTheory AccountLen MonadTheory Ownership Transfer Supply.
From S2P Require Import PodInstruction Authority Initialize Lifecycle Settings Fees State.
From S2P Require Import Reallocate UiAmount Instruction InstructionTheory TokenMetadata.
From S2P Require Import CiphertextArithmetic ProofExtraction ConfidentialTransfer.
From S2P Require Import ConfidentialTransferFee ConfidentialMintBurn Processor.
Import TokenInstruction.

Definition pod_option {A} (d : A) (o : option A) : PodCOption A :=
  match o with Some a => PodCOption.some a | None => PodCOption.none d end.

Section clients.
Context `{RT : Runtime} `{PM : PackMethods} `{F64 : Float64}.
Context `{CV : CurveInterface} `{ZK : ZkInterface} `{ZC : !ZkContexts}.
Context `{TM : TokenMetadataInterface} `{TG : TokenGroupInterface}.

(** What an instruction means: its handler on its arguments.  The instructions
    of extensions are followed by their own data. *)
Definition interpret (i : TokenInstruction) (data : list byte) (program_id : Address)
    (accounts : list AccountInfo) : M unit :=
  match i with
  | InitializeMint d a f =>
      process_initialize_mint accounts d a (pod_option (zeroed 32) f)
  | InitializeAccount => process_initialize_account accounts
  | InitializeMultisig m => process_initialize_multisig accounts m
  | Transfer a => process_transfer program_id accounts a TransferInstruction.Unchecked
  | Approve a => process_approve program_id accounts a InstructionVariant.Unchecked
  | Revoke => process_revoke program_id accounts
  | SetAuthority t a => process_set_authority program_id accounts t (pod_option (zeroed 32) a)
  | MintTo a => process_mint_to program_id accounts a InstructionVariant.Unchecked
  | Burn a =>
      process_burn program_id accounts a BurnInstructionVariant.Standard InstructionVariant.Unchecked
  | CloseAccount => process_close_account program_id accounts
  | FreezeAccount => process_toggle_freeze_account program_id accounts true
  | ThawAccount => process_toggle_freeze_account program_id accounts false
  | TransferChecked a d => process_transfer program_id accounts a (TransferInstruction.Checked d)
  | ApproveChecked a d => process_approve program_id accounts a (InstructionVariant.Checked d)
  | MintToChecked a d => process_mint_to program_id accounts a (InstructionVariant.Checked d)
  | BurnChecked a d =>
      process_burn program_id accounts a BurnInstructionVariant.Standard (InstructionVariant.Checked d)
  | InitializeAccount2 o => process_initialize_account2 accounts o
  | SyncNative => process_sync_native accounts
  | InitializeAccount3 o => process_initialize_account3 accounts o
  | InitializeMultisig2 m => process_initialize_multisig2 accounts m
  | InitializeMint2 d a f => process_initialize_mint2 accounts d a (pod_option (zeroed 32) f)
  | GetAccountDataSize ts => process_get_account_data_size accounts ts
  | InitializeImmutableOwner => process_initialize_immutable_owner accounts
  | AmountToUiAmount a => process_amount_to_ui_amount accounts a
  | UiAmountToAmount s => process_ui_amount_to_amount accounts s
  | InitializeMintCloseAuthority a =>
      process_initialize_mint_close_authority accounts (pod_option (zeroed 32) a)
  | TransferFeeExtension => transfer_fee.process_instruction program_id accounts data
  | ConfidentialTransferExtension => confidential_transfer.process_instruction program_id accounts data
  | DefaultAccountStateExtension => default_account_state.process_instruction program_id accounts data
  | Reallocate ts => process_reallocate program_id accounts ts
  | MemoTransferExtension => memo_transfer.process_instruction program_id accounts data
  | CreateNativeMint => process_create_native_mint accounts
  | InitializeNonTransferableMint => process_initialize_non_transferable_mint accounts
  | InterestBearingMintExtension => interest_bearing_mint.process_instruction program_id accounts data
  | CpiGuardExtension => cpi_guard.process_instruction program_id accounts data
  | InitializePermanentDelegate d => process_initialize_permanent_delegate accounts d
  | TransferHookExtension => transfer_hook.process_instruction program_id accounts data
  | ConfidentialTransferFeeExtension => confidential_transfer_fee.process_instruction program_id accounts data
  | WithdrawExcessLamports => process_withdraw_excess_lamports program_id accounts
  | MetadataPointerExtension => metadata_pointer.process_instruction program_id accounts data
  | GroupPointerExtension => group_pointer.process_instruction program_id accounts data
  | GroupMemberPointerExtension => group_member_pointer.process_instruction program_id accounts data
  | ConfidentialMintBurnExtension => confidential_mint_burn.process_instruction program_id accounts data
  | ScaledUiAmountExtension => scaled_ui_amount.process_instruction program_id accounts data
  | PausableExtension => pausable.process_instruction program_id accounts data
  | UnwrapLamports a => process_unwrap_lamports program_id accounts (pod_option 0 a)
  | PermissionedBurnExtension =>
      permissioned_burn_processor.process_instruction program_id accounts data
  | Batch data => process_batch program_id accounts data
  end.

(** Instructions whose data another enumeration continues. *)
Definition is_prefix (i : TokenInstruction) : bool :=
  match i with
  | TransferFeeExtension | ConfidentialTransferExtension | DefaultAccountStateExtension
  | MemoTransferExtension | InterestBearingMintExtension | CpiGuardExtension
  | TransferHookExtension | ConfidentialTransferFeeExtension | MetadataPointerExtension
  | GroupPointerExtension | GroupMemberPointerExtension | ConfidentialMintBurnExtension
  | ScaledUiAmountExtension | PausableExtension | PermissionedBurnExtension => true
  | _ => false
  end.

(** ** The processor's decoders *)

Lemma decode_data_bytes {T} `{Pod T} (b : byte) (v : T) l :
  l = to_bytes v -> decode_instruction_data T (b :: l) = Ok v.
Proof.
  intros ->. unfold decode_instruction_data. change (drop 1 (b :: to_bytes v)) with (to_bytes v).
  rewrite (proj2 (Nat.eqb_eq _ (size_of T + 1)%nat)) by (simpl; rewrite length_to_bytes; lia).
  cbn [negb]. by rewrite (proj2 (try_from_bytes_Some _ v) eq_refl).
Qed.

Lemma decode_with_option {O T} `{Pod T} un (o : O) (b : byte) (v : T) l r :
  l = to_bytes v ++ r -> un r = Ok o -> decode_instruction_data_with un T (b :: l) = Ok (v, o).
Proof.
  intros -> Hu. unfold decode_instruction_data_with.
  change (b :: to_bytes v ++ r) with ([b] ++ to_bytes v ++ r).
  rewrite get_range_app by (rewrite ?length_to_bytes; simpl; lia).
  cbn [ok_or mbind Result_bind]. rewrite (proj2 (try_from_bytes_Some _ _) eq_refl).
  cbn [ok_or mbind Result_bind]. rewrite app_assoc, drop_app_length'; [by rewrite Hu|].
  rewrite length_app, length_to_bytes. simpl. lia.
Qed.

Lemma pod_unpack_pubkey_option (o : option Address) :
  PodInstruction.unpack_pubkey_option (pack_pubkey_option o) = Ok (pod_option (zeroed 32) o).
Proof.
  destruct o as [k|]; [|done]. unfold pack_pubkey_option, PodInstruction.unpack_pubkey_option.
  assert (get_prefix 32 (to_bytes k) = Some (to_bytes k)) as ->.
  { apply get_prefix_Some. exists []. by rewrite app_nil_r, length_to_bytes. }
  cbn [ok_or mbind Result_bind pod_option]. do 2 f_equal. apply bytes_of_list_list.
Qed.

Lemma pod_unpack_u64_option (o : option Z) :
  from_option is_u64 True o ->
  PodInstruction.unpack_u64_option (pack_u64_option o) = Ok (pod_option 0 o).
Proof.
  destruct o as [z|]; [|done]. intros Hz. unfold pack_u64_option, PodInstruction.unpack_u64_option.
  assert (get_prefix 8 (to_le_bytes 8 z) = Some (to_le_bytes 8 z)) as ->.
  { apply get_prefix_Some. exists []. by rewrite app_nil_r, length_to_le_bytes. }
  cbn [ok_or mbind Result_bind pod_option]. do 2 f_equal. by apply from_to_le_8.
Qed.

Lemma to_bytes_u64 z : to_bytes (u64_new z) = to_le_bytes 8 z.
Proof. apply bytes_list_of_list, length_to_le_bytes. Qed.

Lemma decode_types b ts :
  decode_extension_types (b :: concat (extension_type_bytes <$> ts)) = Ok ts.
Proof. exact (proj2 (unpack_extension_types_Ok _ ts) eq_refl). Qed.

(** Decode what was packed. *)
Lemma lift_Ok_bind {A B} (a : A) (f : A -> M B) r : r = Ok a -> (lift r ≫= f) = f a.
Proof. by intros ->. Qed.

Lemma process_tag t program_id accounts b l :
  pod_token_instruction_try_from b = Some t -> t <> PodTokenInstruction.Batch ->
  process program_id accounts (b :: l) = process_pod_instruction t program_id accounts (b :: l).
Proof.
  intros Ht Hne. unfold process, _process_inner.
  assert (decode_type (b :: l) = Ok t) as ->.
  { unfold decode_type, decode_instruction_type. by rewrite Ht. }
  by destruct t.
Qed.

Lemma decode_amount {B} b a (f : AmountData -> M B) :
  (lift (decode_instruction_data AmountData (b :: to_le_bytes 8 a)) ≫= f) = f (mk_ad (u64_new a)).
Proof. apply lift_Ok_bind, decode_data_bytes. symmetry. apply to_bytes_u64. Qed.

Lemma decode_amount_checked {B} b a d (f : AmountCheckedData -> M B) :
  (lift (decode_instruction_data AmountCheckedData (b :: to_le_bytes 8 a ++ [d])) ≫= f) =
    f (mk_acd (u64_new a) d).
Proof.
  apply lift_Ok_bind, decode_data_bytes.
  change (to_bytes (mk_acd (u64_new a) d)) with (to_bytes (u64_new a) ++ [d]).
  by rewrite to_bytes_u64.
Qed.

Lemma decode_key {B} b (k : Address) (f : Address -> M B) :
  (lift (decode_instruction_data Address (b :: to_bytes k)) ≫= f) = f k.
Proof. by apply lift_Ok_bind, decode_data_bytes. Qed.

Lemma decode_multisig {B} b m (f : InitializeMultisigData -> M B) :
  (lift (decode_instruction_data InitializeMultisigData [b; m]) ≫= f) = f (mk_imsd m).
Proof. by apply lift_Ok_bind, decode_data_bytes. Qed.

Lemma decode_with_key {T B} `{Pod T} b v l o (f : T * PodCOption Address -> M B) :
  l = to_bytes v ->
  (lift (decode_instruction_data_with_coption_pubkey T (b :: l ++ pack_pubkey_option o)) ≫= f) =
    f (v, pod_option (zeroed 32) o).
Proof.
  intros Hl. apply lift_Ok_bind. eapply decode_with_option; [by rewrite Hl|apply pod_unpack_pubkey_option].
Qed.

Lemma decode_with_u64 {B} b o (f : unit * PodCOption Z -> M B) :
  from_option is_u64 True o ->
  (lift (decode_instruction_data_with_coption_u64 unit (b :: pack_u64_option o)) ≫= f) =
    f (tt, pod_option 0 o).
Proof.
  intros Ho. apply lift_Ok_bind. by eapply (decode_with_option _ _ _ tt); [|apply pod_unpack_u64_option].
Qed.

(** A packed instruction, followed by the data of its extension when it
    introduces one, is decoded by the processor to the same instruction: its
    handler runs, on all accounts, with the fields that were packed. *)
Lemma process_packed i data program_id accounts :
  valid i -> (is_prefix i = false -> data = []) ->
  process program_id accounts (pack i ++ data) = interpret i data program_id accounts.
Proof.
  intros Hv Hd. destruct i; cbn [is_prefix valid] in *; try rewrite (Hd eq_refl), app_nil_r;
    cbn [pack app interpret];
    try (erewrite process_tag by (reflexivity || discriminate); cbn [process_pod_instruction]);
    repeat match goal with |- context [drop 1 (?b :: ?d)] => change (drop 1 (b :: d)) with d end;
    rewrite ?decode_amount, ?decode_amount_checked, ?decode_key, ?decode_multisig;
    cbn [ad_amount acd_amount acd_decimals imsd_m]; rewrite ?u64_get_new by done;
    lazymatch goal with |- ?x = ?x => reflexivity | _ => idtac end.
  - change (decimals :: ?l) with (to_bytes (mk_imd decimals mint_authority) ++ pack_pubkey_option freeze_authority).
    by rewrite (decode_with_key _ (mk_imd decimals mint_authority)).
  - change (authority_type_into authority_type :: ?l) with ([authority_type_into authority_type] ++ l).
    rewrite (decode_with_key _ (mk_sad (authority_type_into authority_type))) by reflexivity.
    cbn [sad_authority_type]. by rewrite (lift_Ok_bind authority_type _ _ (authority_type_from_into _)).
  - change (decimals :: ?l) with (to_bytes (mk_imd decimals mint_authority) ++ pack_pubkey_option freeze_authority).
    by rewrite (decode_with_key _ (mk_imd decimals mint_authority)).
  - apply lift_Ok_bind, decode_types.
  - rewrite Hv. reflexivity.
  - change (pack_pubkey_option close_authority) with ([] ++ pack_pubkey_option close_authority).
    by rewrite (decode_with_key _ tt).
  - apply lift_Ok_bind, decode_types.
  - by rewrite decode_with_u64.
  - unfold process. by rewrite ?drop_0.
Qed.

(** ** The functions that build instructions *)

(** The runtime hands the accounts over as the metas say. *)
Definition info_of (m : AccountMeta) : AccountInfo :=
  mk_info (meta_pubkey m) (meta_is_signer m) (meta_is_writable m).
Definition execute (ix : Instruction) : M unit :=
  process (ix_program_id ix) (info_of <$> ix_accounts ix) (ix_data ix).

Definition ro (k : Address) : AccountInfo := mk_info k false false.
Definition rw (k : Address) : AccountInfo := mk_info k false true.
Definition payer_info (k : Address) : AccountInfo := mk_info k true true.

(** An authority that signs itself, or the signers of its multisig. *)
Definition authority_infos (a : Address) (signers : list Address) : list AccountInfo :=
  mk_info a (bool_decide (signers = [])) false :: ((fun k => mk_info k true false) <$> signers).

Definition executes (r : Result ProgramError Instruction) (m : M unit) : Prop :=
  exists ix, r = Ok ix /\ execute ix = m.

Lemma authority_metas_infos a signers :
  info_of <$> authority_metas a signers = authority_infos a signers.
Proof.
  unfold authority_metas, authority_infos. cbn [fmap list_fmap]. f_equal.
  - by destruct signers.
  - by rewrite <- list_fmap_compose.
Qed.

Lemma execute_packed i accounts :
  valid i -> is_prefix i = false ->
  execute (mk_instruction id accounts (pack i)) = interpret i [] id (info_of <$> accounts).
Proof.
  intros Hv Hp. unfold execute. cbn [ix_program_id ix_accounts ix_data].
  rewrite <- (app_nil_r (pack i)). by apply process_packed.
Qed.

Lemma multisig_metas_infos signers : info_of <$> multisig_metas signers = ro <$> signers.
Proof. unfold multisig_metas. by rewrite <- list_fmap_compose. Qed.

Lemma executes_build check i accounts infos m :
  check id = Ok tt -> valid i -> is_prefix i = false -> info_of <$> accounts = infos ->
  interpret i [] id infos = m -> executes (build check id accounts i) m.
Proof.
  intros Hc Hv Hp <- <-. eexists. split; [unfold build; by rewrite Hc|]. by apply execute_packed.
Qed.

Import Instruction.

(** The instruction that each function builds, and the handler that runs on the
    accounts it lists. *)
Inductive client : Result ProgramError Instruction -> M unit -> Prop :=
  | client_initialize_mint m a f d :
      client (initialize_mint id m a f d)
        (process_initialize_mint [rw m; ro rt_rent_id] d a (pod_option (zeroed 32) f))
  | client_initialize_mint2 m a f d :
      client (initialize_mint2 id m a f d)
        (process_initialize_mint2 [rw m] d a (pod_option (zeroed 32) f))
  | client_initialize_account k m o :
      client (initialize_account id k m o)
        (process_initialize_account [rw k; ro m; ro o; ro rt_rent_id])
  | client_initialize_account2 k m o :
      client (initialize_account2 id k m o)
        (process_initialize_account2 [rw k; ro m; ro rt_rent_id] o)
  | client_initialize_account3 k m o :
      client (initialize_account3 id k m o) (process_initialize_account3 [rw k; ro m] o)
  | client_initialize_multisig k signers m : check_signer_counts signers m = Ok tt ->
      client (initialize_multisig id k signers m)
        (process_initialize_multisig (rw k :: ro rt_rent_id :: (ro <$> signers)) m)
  | client_initialize_multisig2 k signers m : check_signer_counts signers m = Ok tt ->
      client (initialize_multisig2 id k signers m)
        (process_initialize_multisig2 (rw k :: (ro <$> signers)) m)
  | client_transfer s d a signers n : is_u64 n ->
      client (transfer id s d a signers n)
        (process_transfer id (rw s :: rw d :: authority_infos a signers) n
           TransferInstruction.Unchecked)
  | client_approve s d a signers n : is_u64 n ->
      client (approve id s d a signers n)
        (process_approve id (rw s :: ro d :: authority_infos a signers) n
           InstructionVariant.Unchecked)
  | client_revoke s a signers :
      client (revoke id s a signers) (process_revoke id (rw s :: authority_infos a signers))
  | client_set_authority k new t a signers :
      client (set_authority id k new t a signers)
        (process_set_authority id (rw k :: authority_infos a signers) t
           (pod_option (zeroed 32) new))
  | client_mint_to m k a signers n : is_u64 n ->
      client (mint_to id m k a signers n)
        (process_mint_to id (rw m :: rw k :: authority_infos a signers) n
           InstructionVariant.Unchecked)
  | client_burn k m a signers n : is_u64 n ->
      client (burn id k m a signers n)
        (process_burn id (rw k :: rw m :: authority_infos a signers) n
           BurnInstructionVariant.Standard InstructionVariant.Unchecked)
  | client_close_account k d a signers :
      client (close_account id k d a signers)
        (process_close_account id (rw k :: rw d :: authority_infos a signers))
  | client_freeze_account k m a signers :
      client (freeze_account id k m a signers)
        (process_toggle_freeze_account id (rw k :: ro m :: authority_infos a signers) true)
  | client_thaw_account k m a signers :
      client (thaw_account id k m a signers)
        (process_toggle_freeze_account id (rw k :: ro m :: authority_infos a signers) false)
  | client_transfer_checked s m d a signers n dec : is_u64 n ->
      client (transfer_checked id s m d a signers n dec)
        (process_transfer id (rw s :: ro m :: rw d :: authority_infos a signers) n
           (TransferInstruction.Checked dec))
  | client_approve_checked s m d a signers n dec : is_u64 n ->
      client (approve_checked id s m d a signers n dec)
        (process_approve id (rw s :: ro m :: ro d :: authority_infos a signers) n
           (InstructionVariant.Checked dec))
  | client_mint_to_checked m k a signers n dec : is_u64 n ->
      client (mint_to_checked id m k a signers n dec)
        (process_mint_to id (rw m :: rw k :: authority_infos a signers) n
           (InstructionVariant.Checked dec))
  | client_burn_checked k m a signers n dec : is_u64 n ->
      client (burn_checked id k m a signers n dec)
        (process_burn id (rw k :: rw m :: authority_infos a signers) n
           BurnInstructionVariant.Standard (InstructionVariant.Checked dec))
  | client_sync_native k : client (sync_native id k) (process_sync_native [rw k])
  | client_sync_native_with_rent_sysvar k :
      client (sync_native_with_rent_sysvar id k) (process_sync_native [rw k; ro rt_rent_id])
  | client_get_account_data_size m types :
      client (get_account_data_size id m types) (process_get_account_data_size [ro m] types)
  | client_initialize_mint_close_authority m a :
      client (initialize_mint_close_authority id m a)
        (process_initialize_mint_close_authority [rw m] (pod_option (zeroed 32) a))
  | client_initialize_immutable_owner k :
      client (initialize_immutable_owner id k) (process_initialize_immutable_owner [rw k])
  | client_amount_to_ui_amount m n : is_u64 n ->
      client (amount_to_ui_amount id m n) (process_amount_to_ui_amount [ro m] n)
  | client_ui_amount_to_amount m s : valid_utf8 s = true ->
      client (ui_amount_to_amount id m s) (process_ui_amount_to_amount [ro m] s)
  | client_reallocate k payer a signers types :
      client (reallocate id k payer a signers types)
        (process_reallocate id
           (rw k :: payer_info payer :: ro rt_system_program_id :: authority_infos a signers) types)
  | client_create_native_mint payer :
      client (create_native_mint id payer)
        (process_create_native_mint
           [payer_info payer; rw native_mint.id; ro rt_system_program_id])
  | client_initialize_non_transferable_mint m :
      client (initialize_non_transferable_mint id m)
        (process_initialize_non_transferable_mint [rw m])
  | client_initialize_permanent_delegate m d :
      client (initialize_permanent_delegate id m d)
        (process_initialize_permanent_delegate [rw m] d)
  | client_withdraw_excess_lamports s d a signers :
      client (withdraw_excess_lamports id s d a signers)
        (process_withdraw_excess_lamports id (rw s :: rw d :: authority_infos a signers))
  | client_unwrap_lamports s d a signers n : from_option is_u64 True n ->
      client (unwrap_lamports id s d a signers n)
        (process_unwrap_lamports id (rw s :: rw d :: authority_infos a signers) (pod_option 0 n)).

Lemma check_id : check_program_account id = Ok tt /\ check_spl_token_program_account id = Ok tt.
Proof. split; vm_compute; reflexivity. Qed.

Lemma client_executes r m : client r m -> executes r m.
Proof.
  destruct check_id as [C1 C2]. intros Hc. destruct Hc;
    try (eapply executes_build; [done|done|done| |reflexivity];
         cbn [fmap list_fmap]; rewrite ?authority_metas_infos; reflexivity).
  - unfold initialize_multisig. rewrite C2. cbn [mbind Result_bind].
    match goal with H : check_signer_counts _ _ = _ |- _ => rewrite H end.
    eexists. split; [reflexivity|]. rewrite execute_packed by done.
    cbn [fmap list_fmap]. by rewrite multisig_metas_infos.
  - unfold initialize_multisig2. rewrite C2. cbn [mbind Result_bind].
    match goal with H : check_signer_counts _ _ = _ |- _ => rewrite H end.
    eexists. split; [reflexivity|]. rewrite execute_packed by done.
    cbn [fmap list_fmap]. by rewrite multisig_metas_infos.
  - unfold sync_native_with_rent_sysvar, sync_native, build. rewrite C2. cbn [mbind Result_bind].
    eexists. split; [reflexivity|]. cbn [ix_program_id ix_accounts ix_data app].
    by rewrite execute_packed.
Qed.
End clients.
