(* ===== verification/ExtensionClientTheory.v ===== *)
(** * The instructions of extensions reach their handlers

    For every function that builds an instruction of an extension: the handler
    that runs, on which accounts, with which arguments. *)
From S2P Require Import Prelude Bytes Errors Ids Runtime Pod ExtensionState Extension TlvTheory.
From S2P Require Import ViewTheory AccountLen MonadTheory Ownership Transfer Supply.
From S2P Require Import PodInstruction Authority Initialize Lifecycle Settings Fees State FeesTheory.
From S2P Require Import Reallocate UiAmount Instruction ExtensionInstructions InstructionTheory.
From S2P Require Import TokenMetadata CiphertextArithmetic ProofExtraction ConfidentialTransfer.
From S2P Require Import ConfidentialTransferFee ConfidentialMintBurn Processor.
From S2P Require Import ClientTheory.
Import TokenInstruction.
#[local] Existing Instances interest_bearing_mint.InitializeInstructionData_pod
  scaled_ui_amount.InitializeInstructionData_pod scaled_ui_amount.UpdateMultiplierInstructionData_pod.

Section clients.
Context `{RT : Runtime} `{PM : PackMethods} `{F64 : Float64}.
Context `{CV : CurveInterface} `{ZK : ZkInterface} `{ZC : !ZkContexts}.
Context `{TM : TokenMetadataInterface} `{TG : TokenGroupInterface}.

Lemma execute_extension i accounts data :
  valid i -> is_prefix i = true ->
  execute (mk_instruction id accounts (pack i ++ data)) = interpret i data id (info_of <$> accounts).
Proof.
  intros Hv Hp. unfold execute. cbn [ix_program_id ix_accounts ix_data].
  apply process_packed; [done|]. by rewrite Hp.
Qed.

Lemma check_program_id {B} (f : unit -> M B) : (lift (check_program_account id) ≫= f) = f tt.
Proof. apply lift_Ok_bind. vm_compute. reflexivity. Qed.

Lemma decode_tag {T B} (try_from : byte -> option T) t b l (f : T -> M B) :
  try_from b = Some t -> (lift (decode_instruction_type try_from (b :: l)) ≫= f) = f t.
Proof. intros Ht. apply lift_Ok_bind. unfold decode_instruction_type. by rewrite Ht. Qed.

Lemma decode_body {T B} `{Pod T} b (v : T) (f : T -> M B) :
  (lift (decode_instruction_data T (b :: to_bytes v)) ≫= f) = f v.
Proof. by apply lift_Ok_bind, decode_data_bytes. Qed.

Lemma authority_or_default_state b i s :
  two_variants default_account_state.Initialize default_account_state.Update b = Some i ->
  default_account_state.decode_instruction [b; account_state_u8 s] = Ok (i, s).
Proof.
  intros Hb. unfold default_account_state.decode_instruction. rewrite Hb.
  cbn [ok_or mbind Result_bind].
  assert (account_state_try_from (account_state_u8 s) = Some s) as -> by by destruct s. done.
Qed.

(** The handler of each function of [ExtensionInstructions]. *)
Inductive extension_client : Result ProgramError Instruction -> M unit -> Prop :=
  | client_enable_memos k a signers :
      extension_client (memo_transfer_instruction.enable_required_transfer_memos id k a signers)
        (memo_transfer.process_toggle_required_memo_transfers id
           (rw k :: authority_infos a signers) true)
  | client_disable_memos k a signers :
      extension_client (memo_transfer_instruction.disable_required_transfer_memos id k a signers)
        (memo_transfer.process_toggle_required_memo_transfers id
           (rw k :: authority_infos a signers) false)
  | client_enable_cpi_guard k a signers :
      extension_client (cpi_guard_instruction.enable_cpi_guard id k a signers)
        (cpi_guard.process_toggle_cpi_guard id (rw k :: authority_infos a signers) true)
  | client_disable_cpi_guard k a signers :
      extension_client (cpi_guard_instruction.disable_cpi_guard id k a signers)
        (cpi_guard.process_toggle_cpi_guard id (rw k :: authority_infos a signers) false)
  | client_initialize_default_state m s :
      extension_client
        (default_account_state_instruction.initialize_default_account_state id m s)
        (default_account_state.process_initialize_default_account_state [rw m] s)
  | client_update_default_state m a signers s :
      extension_client
        (default_account_state_instruction.update_default_account_state id m a signers s)
        (default_account_state.process_update_default_account_state id
           (rw m :: authority_infos a signers) s)
  | client_initialize_interest m o a r : maybe_null_try_from o = Some a ->
      extension_client (interest_bearing_mint_instruction.initialize id m o r)
        (interest_bearing_mint.process_initialize [rw m] a (i16_new r))
  | client_update_rate m a signers r :
      extension_client (interest_bearing_mint_instruction.update_rate id m a signers r)
        (interest_bearing_mint.process_update_rate id (rw m :: authority_infos a signers) (i16_new r))
  | client_initialize_pausable m a :
      extension_client (pausable_instruction.initialize id m a)
        (pausable.process_initialize [rw m] a)
  | client_pause m a signers :
      extension_client (pausable_instruction.pause id m a signers)
        (pausable.process_toggle_pause id (rw m :: authority_infos a signers) true)
  | client_resume m a signers :
      extension_client (pausable_instruction.resume id m a signers)
        (pausable.process_toggle_pause id (rw m :: authority_infos a signers) false)
  | client_initialize_scaled m o a x : maybe_null_try_from o = Some a ->
      extension_client (scaled_ui_amount_instruction.initialize id m o x)
        (scaled_ui_amount.process_initialize [rw m] a x)
  | client_update_multiplier m a signers x t :
      extension_client (scaled_ui_amount_instruction.update_multiplier id m a signers x t)
        (scaled_ui_amount.process_update_multiplier id (rw m :: authority_infos a signers) x (i64_new t))
  | client_initialize_hook m o p a b :
      maybe_null_try_from o = Some a -> maybe_null_try_from p = Some b ->
      extension_client (transfer_hook_instruction.initialize id m o p)
        (transfer_hook.process_initialize id [rw m] a b)
  | client_update_hook m a signers p b : maybe_null_try_from p = Some b ->
      extension_client (transfer_hook_instruction.update id m a signers p)
        (transfer_hook.process_update id (rw m :: authority_infos a signers) b)
  | client_initialize_metadata m o p a b :
      maybe_null_try_from o = Some a -> maybe_null_try_from p = Some b ->
      extension_client (metadata_pointer_instruction.initialize id m o p)
        (metadata_pointer.process_initialize [rw m] a b)
  | client_update_metadata m a signers p b : maybe_null_try_from p = Some b ->
      extension_client (metadata_pointer_instruction.update id m a signers p)
        (metadata_pointer.process_update id (rw m :: authority_infos a signers) b)
  | client_initialize_group m o p a b :
      maybe_null_try_from o = Some a -> maybe_null_try_from p = Some b ->
      extension_client (group_pointer_instruction.initialize id m o p)
        (group_pointer.process_initialize [rw m] a b)
  | client_update_group m a signers p b : maybe_null_try_from p = Some b ->
      extension_client (group_pointer_instruction.update id m a signers p)
        (group_pointer.process_update id (rw m :: authority_infos a signers) b)
  | client_initialize_member m o p a b :
      maybe_null_try_from o = Some a -> maybe_null_try_from p = Some b ->
      extension_client (group_member_pointer_instruction.initialize id m o p)
        (group_member_pointer.process_initialize [rw m] a b)
  | client_update_member m a signers p b : maybe_null_try_from p = Some b ->
      extension_client (group_member_pointer_instruction.update id m a signers p)
        (group_member_pointer.process_update id (rw m :: authority_infos a signers) b)
  | client_initialize_permissioned_burn m a :
      extension_client (permissioned_burn_instruction.initialize id m a)
        (permissioned_burn.process_initialize [rw m] a)
  | client_permissioned_burn k m b a signers n : is_u64 n ->
      extension_client (permissioned_burn_instruction.burn id k m b a signers n)
        (process_burn id (rw k :: rw m :: mk_info b true false :: authority_infos a signers) n
           BurnInstructionVariant.Permissioned InstructionVariant.Unchecked)
  | client_permissioned_burn_checked k m b a signers n d : is_u64 n ->
      extension_client (permissioned_burn_instruction.burn_checked id k m b a signers n d)
        (process_burn id (rw k :: rw m :: mk_info b true false :: authority_infos a signers) n
           BurnInstructionVariant.Permissioned (InstructionVariant.Checked d))
  | client_initialize_fee m o p bps fee : is_u16 bps -> is_u64 fee ->
      extension_client (transfer_fee_instruction.initialize_transfer_fee_config id m o p bps fee)
        (transfer_fee.process_initialize_transfer_fee_config [rw m] o p bps fee)
  | client_transfer_with_fee s m d a signers n dec fee : is_u64 n -> is_u64 fee ->
      extension_client
        (transfer_fee_instruction.transfer_checked_with_fee id s m d a signers n dec fee)
        (process_transfer id (rw s :: ro m :: rw d :: authority_infos a signers) n
           (TransferInstruction.CheckedWithFee dec fee))
  | client_withdraw_from_mint m d a signers :
      extension_client (transfer_fee_instruction.withdraw_withheld_tokens_from_mint id m d a signers)
        (transfer_fee.process_withdraw_withheld_tokens_from_mint id
           (rw m :: rw d :: authority_infos a signers))
  | client_withdraw_from_accounts m d a signers sources : (length sources < 256)%nat ->
      extension_client
        (transfer_fee_instruction.withdraw_withheld_tokens_from_accounts id m d a signers sources)
        (transfer_fee.process_withdraw_withheld_tokens_from_accounts id
           (ro m :: rw d :: authority_infos a signers ++ (rw <$> sources))
           (u8_of_Z (Z.of_nat (length sources))))
  | client_harvest m sources :
      extension_client (transfer_fee_instruction.harvest_withheld_tokens_to_mint id m sources)
        (transfer_fee.process_harvest_withheld_tokens_to_mint (rw m :: (rw <$> sources)))
  | client_set_fee m a signers bps fee : is_u16 bps -> is_u64 fee ->
      extension_client (transfer_fee_instruction.set_transfer_fee id m a signers bps fee)
        (transfer_fee.process_set_transfer_fee id (rw m :: authority_infos a signers) bps fee).

Lemma executes_encoded {D} `{Pod D} accounts infos i b (d : D) m :
  valid i -> is_prefix i = true -> info_of <$> accounts = infos ->
  interpret i (b :: to_bytes d) id infos = m ->
  executes (mret (encode_instruction id accounts i b d)) m.
Proof.
  intros Hv Hp <- <-. eexists. split; [reflexivity|]. by apply execute_extension.
Qed.

Lemma executes_state accounts infos b i st m :
  two_variants default_account_state.Initialize default_account_state.Update b = Some i ->
  info_of <$> accounts = infos ->
  match i with
  | default_account_state.Initialize =>
      default_account_state.process_initialize_default_account_state infos st
  | default_account_state.Update =>
      default_account_state.process_update_default_account_state id infos st
  end = m ->
  executes (mret (default_account_state_instruction.encode_instruction id accounts b st)) m.
Proof.
  intros Hb <- <-. eexists. split; [reflexivity|].
  unfold default_account_state_instruction.encode_instruction.
  rewrite execute_extension by done. cbn [interpret]. unfold default_account_state.process_instruction.
  rewrite check_program_id. rewrite (lift_Ok_bind (i, st)); [by destruct i|].
  by apply authority_or_default_state.
Qed.

Lemma executes_fee accounts infos i m :
  instruction_in_range i -> info_of <$> accounts = infos ->
  match i with
  | transfer_fee.InitializeTransferFeeConfig a b bps fee =>
      transfer_fee.process_initialize_transfer_fee_config infos a b bps fee
  | transfer_fee.TransferCheckedWithFee n d fee =>
      process_transfer id infos n (TransferInstruction.CheckedWithFee d fee)
  | transfer_fee.WithdrawWithheldTokensFromMint =>
      transfer_fee.process_withdraw_withheld_tokens_from_mint id infos
  | transfer_fee.WithdrawWithheldTokensFromAccounts n =>
      transfer_fee.process_withdraw_withheld_tokens_from_accounts id infos n
  | transfer_fee.HarvestWithheldTokensToMint =>
      transfer_fee.process_harvest_withheld_tokens_to_mint infos
  | transfer_fee.SetTransferFee bps fee => transfer_fee.process_set_transfer_fee id infos bps fee
  end = m ->
  executes (mret (mk_instruction id accounts (transfer_fee_instruction.encode_instruction_data i))) m.
Proof.
  intros Hi <- <-. eexists. split; [reflexivity|].
  unfold transfer_fee_instruction.encode_instruction_data.
  rewrite execute_extension by done. cbn [interpret]. unfold transfer_fee.process_instruction.
  rewrite (lift_Ok_bind i); [|by rewrite <- (app_nil_r (transfer_fee.pack i)); apply transfer_fee_unpack_pack].
  rewrite check_program_id. by destruct i.
Qed.

(** Build with [constructor], then run the dispatch of [process_instruction]. *)
Ltac infos := try unfold permissioned_burn_instruction.burn_metas; cbn [fmap list_fmap]; rewrite ?authority_metas_infos; reflexivity.
Tactic Notation "client" hyp(C) reference(constructor) reference(process_instruction) :=
  unfold constructor; try unfold initialize_pointer; try unfold update_pointer;
  rewrite C; cbn [mbind Result_bind]; unfold into_maybe_null;
  repeat match goal with H : maybe_null_try_from _ = Some _ |- _ =>
    rewrite H; cbn [ok_or mbind Result_bind]; clear H end;
  eapply executes_encoded; [done|reflexivity|infos|];
  cbn [interpret]; unfold process_instruction; try unfold process_pointer_instruction;
  rewrite check_program_id; erewrite decode_tag by reflexivity; cbn beta iota;
  rewrite ?decode_body; cbn [ad_amount acd_amount acd_decimals]; rewrite ?u64_get_new by done;
  reflexivity.

Lemma source_metas_infos sources :
  info_of <$> transfer_fee_instruction.source_metas sources = rw <$> sources.
Proof. unfold transfer_fee_instruction.source_metas. by rewrite <- list_fmap_compose. Qed.

Lemma extension_client_executes r m : extension_client r m -> executes r m.
Proof.
  assert (check_program_account id = Ok tt) as C by (vm_compute; reflexivity).
  intros Hc. destruct Hc.
  - client C memo_transfer_instruction.enable_required_transfer_memos memo_transfer.process_instruction.
  - client C memo_transfer_instruction.disable_required_transfer_memos memo_transfer.process_instruction.
  - client C cpi_guard_instruction.enable_cpi_guard cpi_guard.process_instruction.
  - client C cpi_guard_instruction.disable_cpi_guard cpi_guard.process_instruction.
  - unfold default_account_state_instruction.initialize_default_account_state. rewrite C.
    by eapply executes_state; [reflexivity|infos|].
  - unfold default_account_state_instruction.update_default_account_state. rewrite C.
    by eapply executes_state; [reflexivity|infos|].
  - client C interest_bearing_mint_instruction.initialize interest_bearing_mint.process_instruction.
  - client C interest_bearing_mint_instruction.update_rate interest_bearing_mint.process_instruction.
  - client C pausable_instruction.initialize pausable.process_instruction.
  - client C pausable_instruction.pause pausable.process_instruction.
  - client C pausable_instruction.resume pausable.process_instruction.
  - client C scaled_ui_amount_instruction.initialize scaled_ui_amount.process_instruction.
  - client C scaled_ui_amount_instruction.update_multiplier scaled_ui_amount.process_instruction.
  - client C transfer_hook_instruction.initialize transfer_hook.process_instruction.
  - client C transfer_hook_instruction.update transfer_hook.process_instruction.
  - client C metadata_pointer_instruction.initialize metadata_pointer.process_instruction.
  - client C metadata_pointer_instruction.update metadata_pointer.process_instruction.
  - client C group_pointer_instruction.initialize group_pointer.process_instruction.
  - client C group_pointer_instruction.update group_pointer.process_instruction.
  - client C group_member_pointer_instruction.initialize group_member_pointer.process_instruction.
  - client C group_member_pointer_instruction.update group_member_pointer.process_instruction.
  - client C permissioned_burn_instruction.initialize permissioned_burn_processor.process_instruction.
  - client C permissioned_burn_instruction.burn permissioned_burn_processor.process_instruction.
  - client C permissioned_burn_instruction.burn_checked permissioned_burn_processor.process_instruction.
  - unfold transfer_fee_instruction.initialize_transfer_fee_config. rewrite C.
    by eapply executes_fee; [|infos|].
  - unfold transfer_fee_instruction.transfer_checked_with_fee. rewrite C.
    by eapply executes_fee; [|infos|].
  - unfold transfer_fee_instruction.withdraw_withheld_tokens_from_mint. rewrite C.
    by eapply executes_fee; [|infos|].
  - unfold transfer_fee_instruction.withdraw_withheld_tokens_from_accounts. rewrite C.
    rewrite (proj2 (Nat.ltb_lt _ _)) by done.
    eapply executes_fee; [done| |reflexivity].
    cbn [fmap list_fmap app]. by rewrite fmap_app, authority_metas_infos, source_metas_infos.
  - unfold transfer_fee_instruction.harvest_withheld_tokens_to_mint. rewrite C.
    eapply executes_fee; [done| |reflexivity]. cbn [fmap list_fmap]. by rewrite source_metas_infos.
  - unfold transfer_fee_instruction.set_transfer_fee. rewrite C.
    by eapply executes_fee; [|infos|].
Qed.
End clients.
