(* ===== verification/ConfidentialClientTheory.v ===== *)
(** * The confidential instructions reach their handlers

    For every function that builds a confidential instruction: the handler that
    runs, on which accounts, with which arguments, and which instructions that
    verify proofs follow; and that the handler then finds exactly the proofs
    that the client gave. *)
From S2P Require Import Prelude Bytes Errors Ids Runtime Pod ExtensionState Extension TlvTheory.
From S2P Require Import ViewTheory AccountLen MonadTheory Ownership Transfer Supply.
From S2P Require Import PodInstruction Authority Initialize Lifecycle Settings Fees State FeesTheory.
From S2P Require Import Reallocate UiAmount Instruction ExtensionInstructions InstructionTheory.
From S2P Require Import TokenMetadata CiphertextArithmetic ProofExtraction ConfidentialTransfer.
From S2P Require Import ConfidentialTransferFee ConfidentialMintBurn Processor.
From S2P Require Import ClientTheory ExtensionClientTheory ConfidentialInstructions.
Import TokenInstruction.

Lemma i8_get_new z : -128 <= z <= 127 -> i8_get (i8_new z) = z.
Proof.
  intros Hz. unfold i8_get, i8_new. rewrite u8_to_of_Z, Z.mod_mod by lia.
  unfold signed. change (2 ^ (8 * Z.of_nat 1 - 1)) with 128. change (2 ^ (8 * Z.of_nat 1)) with 256.
  destruct (decide (0 <= z)).
  - rewrite Z.mod_small by lia. case_match; lia.
  - rewrite <- (Z_mod_plus_full z 1), Z.mod_small by lia. case_match; lia.
Qed.

(** ** The locations of proofs *)

(** A location without its proof: an offset or an account. *)
Definition Place : Type := (Z + Address)%type.

(** The proofs given as instructions come one after another, from [next] on. *)
Fixpoint in_sequence (next : Z) (places : list Place) : bool :=
  match places with
  | [] => true
  | inl offset :: rest => (offset =? next) && in_sequence (next + 1) rest
  | inr _ :: rest => in_sequence next rest
  end.

Definition offset_of (p : Place) : Z := match p with inl offset => offset | inr _ => 0 end.
Definition in_transaction (p : Place) : bool := match p with inl _ => true | inr _ => false end.
Definition place_infos (p : Place) : list AccountInfo :=
  match p with inl _ => [] | inr k => [ro k] end.
Definition next_after (next : Z) (p : Place) : Z := match p with inl _ => next + 1 | inr _ => next end.

Lemma in_sequence_range next places p :
  1 <= next -> in_sequence next places = true -> p ∈ places ->
  offset_of p = 0 \/ next <= offset_of p < next + Z.of_nat (length places).
Proof.
  revert next. induction places as [|q places IH]; intros next Hn Hs Hp; [by inversion Hp|].
  cbn [length]. destruct q as [o|k]; cbn [in_sequence] in Hs.
  - apply andb_prop in Hs as [Ho%Z.eqb_eq Hs]. inversion Hp as [|? ? ? Hp']; subst; cbn [offset_of].
    + lia.
    + destruct (IH (next + 1) ltac:(lia) Hs Hp'); lia.
  - inversion Hp as [|? ? ? Hp']; subst; cbn [offset_of]; [lia|]. destruct (IH next Hn Hs Hp'); lia.
Qed.

Section clients.
Context `{RT : Runtime} `{PM : PackMethods} `{F64 : Float64}.
Context `{CV : CurveInterface} `{ZK : ZkInterface} `{ZC : !ZkContexts} `{ZP : !ZkProofs}.
Context `{TM : TokenMetadataInterface} `{TG : TokenGroupInterface}.

Definition place {ty} (location : ProofLocation ty) : Place :=
  match location with InstructionOffset o _ => inl o | ContextStateAccount k => inr k end.

(** The instruction that verifies the proof, when it is in the transaction. *)
Definition verifier {ty} (i : ProofInstruction) (location : ProofLocation ty) : list Instruction :=
  match location with
  | InstructionOffset _ proof_data => [encode_verify_proof i ty proof_data]
  | ContextStateAccount _ => []
  end.

(** What a handler finds for its proofs: the sysvar first, when one of several
    is in the transaction, then the accounts of the others. *)
Definition proof_infos (places : list Place) : list AccountInfo :=
  (if existsb in_transaction places then [ro sysvar_instructions_id] else []) ++
  (places ≫= place_infos).

Lemma append_proof_spec {ty} i (location : ProofLocation ty) next places ixs :
  in_sequence next (place location :: places) = true ->
  append_proof i location (next, ixs) = Ok (next_after next (place location), ixs ++ verifier i location) /\
  in_sequence (next_after next (place location)) places = true.
Proof.
  destruct location as [o d|k]; cbn [in_sequence place append_proof next_after verifier].
  - intros [->%Z.eqb_eq Hs]%andb_prop. by rewrite Z.eqb_refl.
  - intros Hs. by rewrite app_nil_r.
Qed.

Lemma process_proof_location_spec {ty} i (location : ProofLocation ty) accounts next places ixs push :
  1 <= next < 100 -> in_sequence next (place location :: places) = true ->
  process_proof_location accounts next ixs location push i =
    Ok (offset_of (place location),
        (accounts ++ (if push && in_transaction (place location) then [new_readonly sysvar_instructions_id false] else []) ++
           (shared_location location).1,
         next_after next (place location), ixs ++ verifier i location)) /\
  in_sequence (next_after next (place location)) places = true.
Proof.
  intros Hn. destruct location as [o d|k];
    cbn [in_sequence place process_proof_location next_after verifier offset_of in_transaction shared_location fst].
  - intros [->%Z.eqb_eq Hs]%andb_prop. rewrite Z.eqb_refl. split; [|done].
    unfold i8_checked_add, checked. rewrite (proj2 (in_range_spec _ _ _)) by lia.
    by destruct push; cbn; rewrite ?app_nil_r.
  - intros Hs. by rewrite andb_false_r, app_nil_r.
Qed.

Definition executes_with (r : Result ProgramError (list Instruction)) (verifiers : list Instruction)
    (m : M unit) : Prop :=
  exists ix, r = Ok (ix :: verifiers) /\ execute ix = m.

(** The functions that return one instruction. *)
Inductive confidential_client : Result ProgramError Instruction -> M unit -> Prop :=
  | client_confidential_mint m o b p a e :
      maybe_null_try_from o = Some a -> maybe_null_try_from p = Some e ->
      confidential_client (confidential_transfer_instruction.initialize_mint id m o b p)
        (confidential_transfer.process_initialize_mint [rw m] a (bool_new b) e)
  | client_update_confidential_mint m a signers b p e : maybe_null_try_from p = Some e ->
      confidential_client (confidential_transfer_instruction.update_mint id m a signers b p)
        (confidential_transfer.process_update_mint (rw m :: authority_infos a signers) (bool_new b) e)
  | client_approve_account k m a signers :
      confidential_client (confidential_transfer_instruction.approve_account id k m a signers)
        (confidential_transfer.process_approve_account (rw k :: ro m :: authority_infos a signers))
  | client_deposit k m n d a signers : is_u64 n ->
      confidential_client (confidential_transfer_instruction.deposit id k m n d a signers)
        (confidential_transfer.process_deposit id (rw k :: ro m :: authority_infos a signers) n d)
  | client_apply_pending k n b a signers :
      confidential_client (confidential_transfer_instruction.apply_pending_balance id k n b a signers)
        (confidential_transfer.process_apply_pending_balance id (rw k :: authority_infos a signers)
           (confidential_transfer.mk_apply_pending_balance (u64_new n) b))
  | client_enable_credits k a signers :
      confidential_client (confidential_transfer_instruction.enable_confidential_credits id k a signers)
        (confidential_transfer.process_allow_confidential_credits id
           (rw k :: authority_infos a signers) true)
  | client_disable_credits k a signers :
      confidential_client (confidential_transfer_instruction.disable_confidential_credits id k a signers)
        (confidential_transfer.process_allow_confidential_credits id
           (rw k :: authority_infos a signers) false)
  | client_enable_open_credits k a signers :
      confidential_client
        (confidential_transfer_instruction.enable_non_confidential_credits id k a signers)
        (confidential_transfer.process_allow_non_confidential_credits id
           (rw k :: authority_infos a signers) true)
  | client_disable_open_credits k a signers :
      confidential_client
        (confidential_transfer_instruction.disable_non_confidential_credits id k a signers)
        (confidential_transfer.process_allow_non_confidential_credits id
           (rw k :: authority_infos a signers) false)
  | client_configure_with_registry k m r payer :
      confidential_client
        (confidential_transfer_instruction.configure_account_with_registry id k m r payer)
        (confidential_transfer.process_configure_account_with_registry id
           ([rw k; ro m; ro r] ++
            match payer with Some p => [payer_info p; ro rt_system_program_id] | None => [] end))
  | client_initialize_fee_config m o e a : maybe_null_try_from o = Some a ->
      confidential_client
        (confidential_transfer_fee_instruction.initialize_confidential_transfer_fee_config id m o e)
        (confidential_transfer_fee.process_initialize_confidential_transfer_fee_config [rw m] a e)
  | client_confidential_harvest m sources :
      confidential_client
        (confidential_transfer_fee_instruction.harvest_withheld_tokens_to_mint id m sources)
        (confidential_transfer_fee.process_harvest_withheld_tokens_to_mint (rw m :: (rw <$> sources)))
  | client_enable_harvest m a signers :
      confidential_client (confidential_transfer_fee_instruction.enable_harvest_to_mint id m a signers)
        (confidential_transfer_fee.process_enable_harvest_to_mint id (rw m :: authority_infos a signers))
  | client_disable_harvest m a signers :
      confidential_client (confidential_transfer_fee_instruction.disable_harvest_to_mint id m a signers)
        (confidential_transfer_fee.process_disable_harvest_to_mint id (rw m :: authority_infos a signers))
  | client_initialize_mint_burn m e d :
      confidential_client (confidential_mint_burn_instruction.initialize_mint id m e d)
        (confidential_mint_burn.process_initialize_mint [rw m]
           (confidential_mint_burn.mk_initialize_mint e d))
  | client_update_supply m a signers d :
      confidential_client
        (confidential_mint_burn_instruction.update_decryptable_supply id m a signers d)
        (confidential_mint_burn.process_update_decryptable_supply id (rw m :: authority_infos a signers) d)
  | client_apply_pending_burn m a signers :
      confidential_client (confidential_mint_burn_instruction.apply_pending_burn id m a signers)
        (confidential_mint_burn.process_apply_pending_burn id (rw m :: authority_infos a signers)).

(** The functions that return the instructions of their proofs as well. *)
Inductive confidential_clients
    : Result ProgramError (list Instruction) -> list Instruction -> M unit -> Prop :=
  | clients_configure k m z n a signers p : in_sequence 1 [place p] = true ->
      confidential_clients
        (confidential_transfer_instruction.configure_account id k m z n a signers p)
        (verifier ProofInstruction.VerifyPubkeyValidity p)
        (confidential_transfer.process_configure_account [] id
           (rw k :: ro m :: proof_infos [place p] ++ authority_infos a signers) z (u64_new n)
           (confidential_transfer.ProofInstructionOffset (offset_of (place p))))
  | clients_empty k a signers p : in_sequence 1 [place p] = true ->
      confidential_clients (confidential_transfer_instruction.empty_account id k a signers p)
        (verifier ProofInstruction.VerifyZeroCiphertext p)
        (confidential_transfer.process_empty_account id
           (rw k :: proof_infos [place p] ++ authority_infos a signers) (offset_of (place p)))
  | clients_withdraw k m n d b a signers p q :
      is_u64 n -> in_sequence 1 [place p; place q] = true ->
      confidential_clients (confidential_transfer_instruction.withdraw id k m n d b a signers p q)
        (verifier ProofInstruction.VerifyCiphertextCommitmentEquality p ++
         verifier ProofInstruction.VerifyBatchedRangeProofU64 q)
        (confidential_transfer.process_withdraw id
           (rw k :: ro m :: proof_infos [place p; place q] ++ authority_infos a signers) n d b
           (offset_of (place p)) (offset_of (place q)))
  | clients_transfer s m d b lo hi a signers p q r :
      in_sequence 1 [place p; place q; place r] = true ->
      confidential_clients
        (confidential_transfer_instruction.transfer id s m d b lo hi a signers p q r)
        (verifier ProofInstruction.VerifyCiphertextCommitmentEquality p ++
         verifier ProofInstruction.VerifyBatchedGroupedCiphertext3HandlesValidity q ++
         verifier ProofInstruction.VerifyBatchedRangeProofU128 r)
        (confidential_transfer.process_transfer id
           (rw s :: ro m :: rw d :: proof_infos [place p; place q; place r] ++
            authority_infos a signers) b lo hi (offset_of (place p)) (offset_of (place q)) None None
           (offset_of (place r)))
  | clients_transfer_with_fee s m d b lo hi a signers p q f v r :
      in_sequence 1 [place p; place q; place f; place v; place r] = true ->
      confidential_clients
        (confidential_transfer_instruction.transfer_with_fee id s m d b lo hi a signers p q f v r)
        (verifier ProofInstruction.VerifyCiphertextCommitmentEquality p ++
         verifier ProofInstruction.VerifyBatchedGroupedCiphertext3HandlesValidity q ++
         verifier ProofInstruction.VerifyPercentageWithCap f ++
         verifier ProofInstruction.VerifyBatchedGroupedCiphertext2HandlesValidity v ++
         verifier ProofInstruction.VerifyBatchedRangeProofU256 r)
        (confidential_transfer.process_transfer id
           (rw s :: ro m :: rw d :: proof_infos [place p; place q; place f; place v; place r] ++
            authority_infos a signers) b lo hi (offset_of (place p)) (offset_of (place q))
           (Some (offset_of (place f))) (Some (offset_of (place v))) (offset_of (place r)))
  | clients_withdraw_from_mint m d b a signers p : in_sequence 1 [place p] = true ->
      confidential_clients
        (confidential_transfer_fee_instruction.withdraw_withheld_tokens_from_mint id m d b a signers p)
        (verifier ProofInstruction.VerifyCiphertextCiphertextEquality p)
        (confidential_transfer_fee.process_withdraw_withheld_tokens_from_mint id
           (rw m :: rw d :: proof_infos [place p] ++ authority_infos a signers) b
           (offset_of (place p)))
  | clients_withdraw_from_accounts m d b a signers sources p :
      (length sources < 256)%nat -> in_sequence 1 [place p] = true ->
      confidential_clients
        (confidential_transfer_fee_instruction.withdraw_withheld_tokens_from_accounts id m d b a
           signers sources p)
        (verifier ProofInstruction.VerifyCiphertextCiphertextEquality p)
        (confidential_transfer_fee.process_withdraw_withheld_tokens_from_accounts id
           (rw m :: rw d :: proof_infos [place p] ++ authority_infos a signers ++ (rw <$> sources))
           (u8_of_Z (Z.of_nat (length sources))) b (offset_of (place p)))
  | clients_rotate m a signers e p : in_sequence 1 [place p] = true ->
      confidential_clients
        (confidential_mint_burn_instruction.rotate_supply_elgamal_pubkey id m a signers e p)
        (verifier ProofInstruction.VerifyCiphertextCiphertextEquality p)
        (confidential_mint_burn.process_rotate_supply_elgamal_pubkey id
           (rw m :: proof_infos [place p] ++ authority_infos a signers)
           (confidential_mint_burn.mk_rotate e (i8_new (offset_of (place p)))))
  | clients_mint k m lo hi a signers p q r b :
      in_sequence 1 [place p; place q; place r] = true ->
      confidential_clients
        (confidential_mint_burn_instruction.confidential_mint_with_split_proofs id k m lo hi a signers
           p q r b)
        (verifier ProofInstruction.VerifyCiphertextCommitmentEquality p ++
         verifier ProofInstruction.VerifyBatchedGroupedCiphertext3HandlesValidity q ++
         verifier ProofInstruction.VerifyBatchedRangeProofU128 r)
        (confidential_mint_burn.process_confidential_mint id
           (rw k :: rw m :: proof_infos [place p; place q; place r] ++ authority_infos a signers)
           (confidential_mint_burn.mk_mint_data b lo hi (i8_new (offset_of (place p)))
              (i8_new (offset_of (place q))) (i8_new (offset_of (place r)))))
  | clients_burn k m b lo hi a signers p q r :
      in_sequence 1 [place p; place q; place r] = true ->
      confidential_clients
        (confidential_mint_burn_instruction.confidential_burn_with_split_proofs id k m b lo hi a signers
           p q r)
        (verifier ProofInstruction.VerifyCiphertextCommitmentEquality p ++
         verifier ProofInstruction.VerifyBatchedGroupedCiphertext3HandlesValidity q ++
         verifier ProofInstruction.VerifyBatchedRangeProofU128 r)
        (confidential_mint_burn.process_confidential_burn id
           (rw k :: rw m :: proof_infos [place p; place q; place r] ++ authority_infos a signers)
           (confidential_mint_burn.mk_burn_data b lo hi (i8_new (offset_of (place p)))
              (i8_new (offset_of (place q))) (i8_new (offset_of (place r))))
           BurnInstructionVariant.Standard)
  | clients_permissioned_burn k m pa b lo hi a signers p q r :
      in_sequence 1 [place p; place q; place r] = true ->
      (in_transaction (place p) = true \/
       existsb in_transaction [place q; place r] = false) ->
      confidential_clients
        (permissioned_confidential_burn_instruction.confidential_burn_with_split_proofs id k m pa b lo
           hi a signers p q r)
        (verifier ProofInstruction.VerifyCiphertextCommitmentEquality p ++
         verifier ProofInstruction.VerifyBatchedGroupedCiphertext3HandlesValidity q ++
         verifier ProofInstruction.VerifyBatchedRangeProofU128 r)
        (confidential_mint_burn.process_confidential_burn id
           (rw k :: rw m :: proof_infos [place p; place q; place r] ++
            mk_info pa true false :: authority_infos a signers)
           (confidential_mint_burn.mk_burn_data b lo hi (i8_new (offset_of (place p)))
              (i8_new (offset_of (place q))) (i8_new (offset_of (place r))))
           BurnInstructionVariant.Permissioned).

(** ** Running what was built *)

Definition place_metas (p : Place) : list AccountMeta :=
  match p with inl _ => [] | inr k => [new_readonly k false] end.

Lemma shared_location_place {ty} (location : ProofLocation ty) :
  shared_location location = (place_metas (place location), offset_of (place location)).
Proof. by destruct location. Qed.

Lemma single_location_place {ty} (location : ProofLocation ty) :
  single_location location =
    (sysvar_metas (in_transaction (place location)) ++ place_metas (place location),
     offset_of (place location)).
Proof. by destruct location. Qed.

Lemma is_instruction_offset_place {ty} (location : ProofLocation ty) :
  is_instruction_offset location = in_transaction (place location).
Proof. by destruct location. Qed.

(** The offsets that the processor decodes are those of the client. *)
Lemma offsets_decoded places :
  in_sequence 1 places = true -> (length places <= 10)%nat ->
  Forall (fun p => i8_get (i8_new (offset_of p)) = offset_of p) places.
Proof.
  intros Hs Hl. apply Forall_forall. intros p Hp. apply i8_get_new.
  destruct (in_sequence_range 1 places p ltac:(lia) Hs Hp) as [->|H]; lia.
Qed.

Lemma executes_with_encoded {D} `{Pod D} accounts infos i b (d : D) verifiers m :
  valid i -> is_prefix i = true -> info_of <$> accounts = infos ->
  interpret i (b :: to_bytes d) id infos = m ->
  executes_with (Ok (encode_instruction id accounts i b d :: verifiers)) verifiers m.
Proof.
  intros Hv Hp <- <-. eexists. split; [reflexivity|]. by apply execute_extension.
Qed.

(** The accounts of a client as the handler finds them, by cases on the places. *)
Ltac found :=
  unfold sysvar_metas, proof_infos;
  rewrite ?is_instruction_offset_place, ?shared_location_place;
  repeat match goal with |- context [place ?p] => destruct (place p) end;
  cbn -[authority_metas authority_infos transfer_fee_instruction.source_metas]; rewrite ?fmap_app, ?authority_metas_infos, ?source_metas_infos; reflexivity.

(** Run the dispatch of [process_instruction] on the built data. *)
Ltac decode :=
  rewrite check_program_id;
  erewrite decode_tag by reflexivity; cbn beta iota; rewrite ?decode_body;
  cbn [confidential_transfer.ca_decryptable_zero_balance
       confidential_transfer.ca_maximum_pending_balance_credit_counter
       confidential_transfer.ca_proof_instruction_offset
       confidential_transfer.ea_proof_instruction_offset confidential_transfer.di_amount
       confidential_transfer.di_decimals confidential_transfer.wi_amount
       confidential_transfer.wi_decimals
       confidential_transfer.wi_new_decryptable_available_balance
       confidential_transfer.wi_equality_proof_instruction_offset
       confidential_transfer.wi_range_proof_instruction_offset
       confidential_transfer.ti_new_source_decryptable_available_balance
       confidential_transfer.ti_transfer_amount_auditor_ciphertext_lo
       confidential_transfer.ti_transfer_amount_auditor_ciphertext_hi
       confidential_transfer.ti_equality_proof_instruction_offset
       confidential_transfer.ti_ciphertext_validity_proof_instruction_offset
       confidential_transfer.ti_range_proof_instruction_offset
       confidential_transfer.tw_new_source_decryptable_available_balance
       confidential_transfer.tw_transfer_amount_auditor_ciphertext_lo
       confidential_transfer.tw_transfer_amount_auditor_ciphertext_hi
       confidential_transfer.tw_equality_proof_instruction_offset
       confidential_transfer.tw_transfer_amount_ciphertext_validity_proof_instruction_offset
       confidential_transfer.tw_fee_sigma_proof_instruction_offset
       confidential_transfer.tw_fee_ciphertext_validity_proof_instruction_offset
       confidential_transfer.tw_range_proof_instruction_offset
       confidential_transfer_fee.wm_proof_instruction_offset
       confidential_transfer_fee.wm_new_decryptable_available_balance
       confidential_transfer_fee.wa_num_token_accounts
       confidential_transfer_fee.wa_proof_instruction_offset
       confidential_transfer_fee.wa_new_decryptable_available_balance];
  rewrite ?u64_get_new by done.
Tactic Notation "single" hyp(C) reference(constructor) reference(process_instruction) :=
  unfold constructor; rewrite C; cbn [mbind Result_bind]; unfold into_maybe_null;
  repeat match goal with H : maybe_null_try_from _ = Some _ |- _ =>
    rewrite H; cbn [ok_or mbind Result_bind]; clear H end;
  eapply executes_encoded; [done|reflexivity|found|];
  cbn [interpret]; unfold process_instruction; decode; reflexivity.

Lemma single_executes r m : confidential_client r m -> executes r m.
Proof.
  assert (check_program_account id = Ok tt) as C by (vm_compute; reflexivity).
  intros Hc. destruct Hc.
  - single C confidential_transfer_instruction.initialize_mint confidential_transfer.process_instruction.
  - single C confidential_transfer_instruction.update_mint confidential_transfer.process_instruction.
  - single C confidential_transfer_instruction.approve_account confidential_transfer.process_instruction.
  - single C confidential_transfer_instruction.deposit confidential_transfer.process_instruction.
  - unfold confidential_transfer_instruction.apply_pending_balance.
    single C confidential_transfer_instruction.inner_apply_pending_balance
      confidential_transfer.process_instruction.
  - unfold confidential_transfer_instruction.enable_confidential_credits.
    single C confidential_transfer_instruction.enable_or_disable_balance_credits
      confidential_transfer.process_instruction.
  - unfold confidential_transfer_instruction.disable_confidential_credits.
    single C confidential_transfer_instruction.enable_or_disable_balance_credits
      confidential_transfer.process_instruction.
  - unfold confidential_transfer_instruction.enable_non_confidential_credits.
    single C confidential_transfer_instruction.enable_or_disable_balance_credits
      confidential_transfer.process_instruction.
  - unfold confidential_transfer_instruction.disable_non_confidential_credits.
    single C confidential_transfer_instruction.enable_or_disable_balance_credits
      confidential_transfer.process_instruction.
  - destruct payer; single C confidential_transfer_instruction.configure_account_with_registry
      confidential_transfer.process_instruction.
  - single C confidential_transfer_fee_instruction.initialize_confidential_transfer_fee_config
      confidential_transfer_fee.process_instruction.
  - single C confidential_transfer_fee_instruction.harvest_withheld_tokens_to_mint
      confidential_transfer_fee.process_instruction.
  - single C confidential_transfer_fee_instruction.enable_harvest_to_mint
      confidential_transfer_fee.process_instruction.
  - single C confidential_transfer_fee_instruction.disable_harvest_to_mint
      confidential_transfer_fee.process_instruction.
  - single C confidential_mint_burn_instruction.initialize_mint confidential_mint_burn.process_instruction.
  - single C confidential_mint_burn_instruction.update_decryptable_supply
      confidential_mint_burn.process_instruction.
  - single C confidential_mint_burn_instruction.apply_pending_burn
      confidential_mint_burn.process_instruction.
Qed.

(** Append the instructions of the proofs, one location after the other. *)
Ltac append_proofs :=
  repeat match goal with
  | H : in_sequence ?n (place ?p :: ?rest) = true |- context [append_proof ?i ?p (?n, ?ixs)] =>
      let E := fresh "E" in let H' := fresh "H" in
      destruct (append_proof_spec i p n rest ixs H) as [E H'];
      rewrite E; clear E; cbn [mbind Result_bind]
  | H : in_sequence ?n (place ?p :: ?rest) = true |-
      context [process_proof_location ?accounts ?n ?ixs ?p ?push ?i] =>
      let E := fresh "E" in let H' := fresh "H" in
      destruct (process_proof_location_spec i p accounts n rest ixs push
                  ltac:(unfold next_after; repeat case_match; lia) H) as [E H'];
      rewrite E; clear E; cbn [mbind Result_bind mret Result_ret]
  end.

Ltac offsets Hs :=
  let F := fresh "F" in let E := fresh "E" in
  pose proof (offsets_decoded _ Hs ltac:(cbn; lia)) as F;
  repeat (apply Forall_cons in F as [E F]; rewrite ?E; clear E).

(** Append the proofs, then run [process_instruction]. *)
Tactic Notation "build" hyp(C) hyp(Hs) :=
  rewrite C, ?single_location_place, ?shared_location_place;
  cbn [mbind Result_bind mret Result_ret];
  pose proof Hs; append_proofs; rewrite <- ?app_assoc; cbn [app mret Result_ret];
  eapply executes_with_encoded; [done|reflexivity| |].
Tactic Notation "several" hyp(C) reference(process_instruction) hyp(Hs) :=
  build C Hs;
  [|cbn [interpret]; unfold process_instruction; decode; offsets Hs; reflexivity];
  found.

Lemma several_executes r verifiers m : confidential_clients r verifiers m -> executes_with r verifiers m.
Proof.
  assert (check_program_account id = Ok tt) as C by (vm_compute; reflexivity).
  intros Hc. destruct Hc.
  - unfold confidential_transfer_instruction.configure_account,
      confidential_transfer_instruction.inner_configure_account.
    several C confidential_transfer.process_instruction H.
  - unfold confidential_transfer_instruction.empty_account,
      confidential_transfer_instruction.inner_empty_account.
    several C confidential_transfer.process_instruction H.
  - unfold confidential_transfer_instruction.withdraw,
      confidential_transfer_instruction.inner_withdraw.
    several C confidential_transfer.process_instruction H0.
  - unfold confidential_transfer_instruction.transfer,
      confidential_transfer_instruction.inner_transfer.
    several C confidential_transfer.process_instruction H.
  - unfold confidential_transfer_instruction.transfer_with_fee,
      confidential_transfer_instruction.inner_transfer_with_fee.
    several C confidential_transfer.process_instruction H.
  - unfold confidential_transfer_fee_instruction.withdraw_withheld_tokens_from_mint,
      confidential_transfer_fee_instruction.inner_withdraw_withheld_tokens_from_mint.
    several C confidential_transfer_fee.process_instruction H.
  - unfold confidential_transfer_fee_instruction.withdraw_withheld_tokens_from_accounts,
      confidential_transfer_fee_instruction.inner_withdraw_withheld_tokens_from_accounts.
    rewrite (proj2 (Nat.ltb_lt _ _)) by done.
    several C confidential_transfer_fee.process_instruction H0.
  - unfold confidential_mint_burn_instruction.rotate_supply_elgamal_pubkey.
    several C confidential_mint_burn.process_instruction H.
  - unfold confidential_mint_burn_instruction.confidential_mint_with_split_proofs,
      confidential_mint_burn_instruction.inner_confidential_mint.
    several C confidential_mint_burn.process_instruction H.
  - unfold confidential_mint_burn_instruction.confidential_burn_with_split_proofs,
      confidential_mint_burn_instruction.inner_confidential_burn.
    several C confidential_mint_burn.process_instruction H.
  - unfold permissioned_confidential_burn_instruction.confidential_burn_with_split_proofs.
    build C H; [|cbn [interpret]; unfold permissioned_burn_processor.process_instruction; decode; reflexivity].
    rewrite ?shared_location_place. revert H0. unfold proof_infos.
    destruct (place p), (place q), (place r); cbn -[authority_metas authority_infos];
      intros [Ht|Ht]; try discriminate; by rewrite authority_metas_infos.
Qed.

(** C18: every function that builds an instruction, of the token program or of an
    extension, builds one that the processor decodes and dispatches to the
    handler of that name, on exactly the accounts that the function lists (the
    authority signs itself when and only when no members of a multisig are
    given) and with the arguments of the function.  When a confidential
    instruction needs proofs, the handler gets the sysvar and the accounts that
    hold proofs, and the function returns the instructions that verify the
    others in the order of the offsets that the handler gets. *)
Theorem client_instructions_execute :
  (forall r m, client r m \/ extension_client r m \/ confidential_client r m -> executes r m) /\
  (forall r verifiers m, confidential_clients r verifiers m -> executes_with r verifiers m).
Proof.
  split; [|by apply several_executes].
  intros r m [H|[H|H]]; [by apply client_executes|by apply extension_client_executes|].
  by apply single_executes.
Qed.

(** ** Finding the proofs *)

(** The instructions are those at [next] and after, counted from the one that runs. *)
Definition visible (next : Z) (ixs : list Instruction) (w : World) : Prop :=
  forall i ix, ixs !! i = Some ix ->
  zk_get_instruction_relative (next + Z.of_nat i) sysvar_instructions_id
    (cell_data (cell w sysvar_instructions_id)) = Ok (ix_program_id ix, ix_data ix).

(** The context of the proof is [c]: the verifying instruction carries it, or
    the account holds it, verified. *)
Definition gives {U} `{!ZkContext U} {ty} (held : list Borrow) (w : World) (i : ProofInstruction)
    (location : ProofLocation ty) (c : U) : Prop :=
  match location with
  | InstructionOffset _ proof_data =>
      let ix := encode_verify_proof i ty proof_data in
      ix_program_id ix = zk_id /\ zk_instruction_type (ix_data ix) = Some i /\
      zk_proof_data ty (ix_data ix) = Some c
  | ContextStateAccount k =>
      cell_owner (cell w k) = zk_id /\
      zk_context_state (cell_data (cell w k)) = Some (zk_proof_type_into ty, c) /\
      existsb (conflicts_shared k) held = false
  end.

Lemma visible_app next a b w :
  visible next (a ++ b) w -> visible next a w /\ visible (next + Z.of_nat (length a)) b w.
Proof.
  intros H. split; intros i ix Hi.
  - apply H. by apply lookup_app_l_Some.
  - specialize (H (length a + i)%nat ix). rewrite lookup_app_r, Nat.add_comm, Nat.add_sub in H by lia.
    rewrite <- (H Hi). f_equal. lia.
Qed.

(** One proof is found, and the next may be looked for. *)
Lemma extract_found {U} `{!ZkContext U} {ty} held w i (p : ProofLocation ty) (c : U) next places ixs
    sysvar iter :
  1 <= next -> zk_proof_type_to_instruction ty = Ok i -> gives held w i p c ->
  in_sequence next (place p :: places) = true -> visible next (verifier i p ++ ixs) w ->
  (in_transaction (place p) = true -> sysvar = Some (ro sysvar_instructions_id)) ->
  verify_and_extract_context U ty held (place_infos (place p) ++ iter) (offset_of (place p)) sysvar w =
    Ok ((c, iter), w) /\
  in_sequence (next_after next (place p)) places = true /\
  visible (next_after next (place p)) ixs w /\ 1 <= next_after next (place p).
Proof.
  intros Hn Hi Hg Hs Hv Hsys. unfold verify_and_extract_context. destruct p as [o d|k].
  - cbn [place in_sequence place_infos offset_of next_after in_transaction verifier app gives] in *.
    apply andb_prop in Hs as [->%Z.eqb_eq Hs]. destruct Hg as (Ho & Ht & Hd).
    split; [|apply visible_app with (a := [_]) in Hv as [_ Hv]; split_and!; [done|done|lia]].
    rewrite (proj2 (Z.eqb_neq _ _)) by lia. rewrite Hsys by done.
    specialize (Hv 0%nat _ eq_refl). rewrite Z.add_0_r in Hv.
    unfold mbind, M_bind, data_of, get_cell, lift, mret, M_ret. cbn.
    unfold mbind, M_bind. cbn. rewrite Hv. cbn. rewrite Hi. cbn. rewrite Ho, Ht, Hd. by rewrite !bool_decide_true by done.
  - cbn [place in_sequence place_infos offset_of next_after in_transaction verifier app gives] in *.
    destruct Hg as (Ho & Hc & Hb). split; [|done]. cbn [Z.eqb].
    unfold info_owner, get_cell, lift, mret, M_ret, borrow, data_of.
    unfold check_zk_elgamal_proof_program_account. cbn. unfold mbind, M_bind. cbn.
    unfold mbind, M_bind. cbn. rewrite Ho, bool_decide_true by done. cbn.
    rewrite Hb. unfold mbind, M_bind. cbn. rewrite Hc. cbn. by rewrite bool_decide_true by done.
Qed.

Lemma offsets_in_transaction next places :
  1 <= next -> in_sequence next places = true ->
  existsb (fun offset => negb (offset =? 0)) (offset_of <$> places) = existsb in_transaction places.
Proof.
  revert next. induction places as [|[o|k] places IH]; intros next Hn Hs; [done| |];
    cbn [in_sequence existsb fmap list_fmap offset_of in_transaction] in *.
  - apply andb_prop in Hs as [->%Z.eqb_eq _]. by rewrite (proj2 (Z.eqb_neq _ _)) by lia.
  - by apply (IH next).
Qed.

Lemma sysvar_found places rest :
  in_sequence 1 places = true ->
  proof_sysvar (offset_of <$> places) (proof_infos places ++ rest) =
    Ok (if existsb in_transaction places then Some (ro sysvar_instructions_id) else None,
        (places ≫= place_infos) ++ rest).
Proof.
  intros Hs. unfold proof_sysvar, proof_infos. rewrite (offsets_in_transaction 1) by done.
  by destruct (existsb in_transaction places).
Qed.

(** What the consistency check makes of the contexts, and the accounts that are left. *)
Definition settled {C} (r : Result TokenProofExtractionError C) (rest : list AccountInfo)
    : M (C * list AccountInfo) :=
  context ← lift (map_err extraction_into r); mret (context, rest).

(** Find the next proof, of context [c]. *)
Ltac find_proof c :=
  match goal with
  | Hg : gives ?held ?w ?i ?p c, Hs : in_sequence ?n (place ?p :: _) = true,
    Hw : visible ?n (verifier ?i ?p ++ _) ?w |-
    context [verify_and_extract_context _ _ _ (place_infos (place ?p) ++ ?iter) _ ?sysvar] =>
      let E := fresh "E" in
      destruct (extract_found held w i p c _ _ _ sysvar iter ltac:(eassumption) eq_refl Hg Hs Hw
                  ltac:(cbn [existsb]; intros ->; rewrite ?orb_true_r; done)) as (E & ? & ? & ?);
      clear Hs Hw; eapply M_bind_step; [exact E|]; clear E; cbn beta iota
  end.

(** Take the sysvar off the list of accounts. *)
Ltac locate Hs Hw :=
  let E := fresh "E" in
  pose proof (fun rest => sysvar_found _ rest Hs) as E; cbn [fmap list_fmap] in E; rewrite E; clear E;
  rewrite (lift_Ok_bind _ _ _ eq_refl); cbn beta iota; cbn [mbind list_bind app];
  rewrite <- ?app_assoc, <- (app_nil_r (_ ++ _)), <- ?app_assoc in Hw;
  rewrite <- ?app_assoc; assert (1 <= 1) by lia.

Lemma extract_single {U} `{!ZkContext U} {ty} held w rest i (l : ProofLocation ty) (c : U) :
  zk_proof_type_to_instruction ty = Ok i -> gives held w i l c ->
  in_sequence 1 [place l] = true -> visible 1 (verifier i l) w ->
  verify_and_extract_context U ty held (proof_infos [place l] ++ rest) (offset_of (place l)) None w =
    Ok ((c, rest), w).
Proof.
  intros Hi Hg Hs Hw. rewrite <- (app_nil_r (verifier i l)) in Hw.
  destruct (extract_found held w i l c 1 [] [] (Some (ro sysvar_instructions_id)) rest
              ltac:(lia) Hi Hg Hs Hw ltac:(done)) as [E _].
  rewrite <- E. clear - Hs. destruct l as [o d|k]; [|done].
  cbn in Hs. rewrite andb_true_r in Hs. apply Z.eqb_eq in Hs as ->. reflexivity.
Qed.

Lemma mint_burn_found held w rest (p : ProofLocation ProofType.CiphertextCommitmentEquality)
    (q : ProofLocation ProofType.BatchedGroupedCiphertext3HandlesValidity)
    (r : ProofLocation ProofType.BatchedRangeProofU128)
    (ceq : CiphertextCommitmentEqualityProofContext)
    (c3 : BatchedGroupedCiphertext3HandlesValidityProofContext) (cr : BatchedRangeProofContext) :
  gives held w ProofInstruction.VerifyCiphertextCommitmentEquality p ceq ->
  gives held w ProofInstruction.VerifyBatchedGroupedCiphertext3HandlesValidity q c3 ->
  gives held w ProofInstruction.VerifyBatchedRangeProofU128 r cr ->
  in_sequence 1 [place p; place q; place r] = true ->
  visible 1 (verifier ProofInstruction.VerifyCiphertextCommitmentEquality p ++
      verifier ProofInstruction.VerifyBatchedGroupedCiphertext3HandlesValidity q ++
      verifier ProofInstruction.VerifyBatchedRangeProofU128 r) w ->
  confidential_mint_burn.verify_mint_proof held
     (proof_infos [place p; place q; place r] ++ rest) (i8_new (offset_of (place p)))
     (i8_new (offset_of (place q))) (i8_new (offset_of (place r))) w =
   settled (MintProofContext_verify_and_extract ceq c3 cr) rest w /\
  confidential_mint_burn.verify_burn_proof held
     (proof_infos [place p; place q; place r] ++ rest) (i8_new (offset_of (place p)))
     (i8_new (offset_of (place q))) (i8_new (offset_of (place r))) w =
   settled (BurnProofContext_verify_and_extract ceq c3 cr) rest w.
Proof.
  intros Hp Hq Hr Hs Hw.
  assert (confidential_mint_burn.extract_contexts held
    (proof_infos [place p; place q; place r] ++ rest) (i8_new (offset_of (place p)))
    (i8_new (offset_of (place q))) (i8_new (offset_of (place r))) w = Ok ((ceq, c3, cr, rest), w)) as E.
  { unfold confidential_mint_burn.extract_contexts. offsets Hs.
    locate Hs Hw. find_proof ceq. find_proof c3. by find_proof cr. }
  split; by apply (M_bind_step _ _ _ _ _ _ E).
Qed.

Lemma withdraw_found held w rest (p : ProofLocation ProofType.CiphertextCommitmentEquality)
    (q : ProofLocation ProofType.BatchedRangeProofU64)
    (ceq : CiphertextCommitmentEqualityProofContext) (cr : BatchedRangeProofContext) :
  gives held w ProofInstruction.VerifyCiphertextCommitmentEquality p ceq ->
  gives held w ProofInstruction.VerifyBatchedRangeProofU64 q cr ->
  in_sequence 1 [place p; place q] = true ->
  visible 1 (verifier ProofInstruction.VerifyCiphertextCommitmentEquality p ++
      verifier ProofInstruction.VerifyBatchedRangeProofU64 q) w ->
  confidential_transfer.verify_withdraw_proof held (proof_infos [place p; place q] ++ rest)
     (offset_of (place p)) (offset_of (place q)) w =
   settled (WithdrawProofContext_verify_and_extract ceq cr) rest w.
Proof.
  intros Hp Hq Hs Hw. unfold confidential_transfer.verify_withdraw_proof.
  locate Hs Hw. find_proof ceq. by find_proof cr.
Qed.

Lemma transfer_found held w rest (p : ProofLocation ProofType.CiphertextCommitmentEquality)
    (q : ProofLocation ProofType.BatchedGroupedCiphertext3HandlesValidity)
    (r : ProofLocation ProofType.BatchedRangeProofU128)
    (ceq : CiphertextCommitmentEqualityProofContext)
    (c3 : BatchedGroupedCiphertext3HandlesValidityProofContext) (cr : BatchedRangeProofContext) :
  gives held w ProofInstruction.VerifyCiphertextCommitmentEquality p ceq ->
  gives held w ProofInstruction.VerifyBatchedGroupedCiphertext3HandlesValidity q c3 ->
  gives held w ProofInstruction.VerifyBatchedRangeProofU128 r cr ->
  in_sequence 1 [place p; place q; place r] = true ->
  visible 1 (verifier ProofInstruction.VerifyCiphertextCommitmentEquality p ++
      verifier ProofInstruction.VerifyBatchedGroupedCiphertext3HandlesValidity q ++
      verifier ProofInstruction.VerifyBatchedRangeProofU128 r) w ->
  confidential_transfer.verify_transfer_proof held
     (proof_infos [place p; place q; place r] ++ rest)
     (offset_of (place p)) (offset_of (place q)) (offset_of (place r)) w =
   settled (TransferProofContext_verify_and_extract ceq c3 cr) rest w.
Proof.
  intros Hp Hq Hr Hs Hw. unfold confidential_transfer.verify_transfer_proof.
  locate Hs Hw. find_proof ceq. find_proof c3. by find_proof cr.
Qed.

Lemma transfer_with_fee_found held w rest fee
    (p : ProofLocation ProofType.CiphertextCommitmentEquality)
    (q : ProofLocation ProofType.BatchedGroupedCiphertext3HandlesValidity)
    (f : ProofLocation ProofType.PercentageWithCap)
    (v : ProofLocation ProofType.BatchedGroupedCiphertext2HandlesValidity)
    (r : ProofLocation ProofType.BatchedRangeProofU256)
    (ceq : CiphertextCommitmentEqualityProofContext)
    (c3 : BatchedGroupedCiphertext3HandlesValidityProofContext) (cs : PercentageWithCapProofContext)
    (c2 : BatchedGroupedCiphertext2HandlesValidityProofContext) (cr : BatchedRangeProofContext) :
  gives held w ProofInstruction.VerifyCiphertextCommitmentEquality p ceq ->
  gives held w ProofInstruction.VerifyBatchedGroupedCiphertext3HandlesValidity q c3 ->
  gives held w ProofInstruction.VerifyPercentageWithCap f cs ->
  gives held w ProofInstruction.VerifyBatchedGroupedCiphertext2HandlesValidity v c2 ->
  gives held w ProofInstruction.VerifyBatchedRangeProofU256 r cr ->
  in_sequence 1 [place p; place q; place f; place v; place r] = true ->
  visible 1 (verifier ProofInstruction.VerifyCiphertextCommitmentEquality p ++
      verifier ProofInstruction.VerifyBatchedGroupedCiphertext3HandlesValidity q ++
      verifier ProofInstruction.VerifyPercentageWithCap f ++
      verifier ProofInstruction.VerifyBatchedGroupedCiphertext2HandlesValidity v ++
      verifier ProofInstruction.VerifyBatchedRangeProofU256 r) w ->
  confidential_transfer.verify_transfer_with_fee_proof held
     (proof_infos [place p; place q; place f; place v; place r] ++ rest)
     (offset_of (place p)) (offset_of (place q)) (offset_of (place f)) (offset_of (place v))
     (offset_of (place r)) fee w =
   settled (transfer_with_fee.verify_and_extract ceq c3 cs c2 cr
              (u16_get (tf_transfer_fee_basis_points fee)) (u64_get (tf_maximum_fee fee))) rest w.
Proof.
  intros Hp Hq Hf Hv Hr Hs Hw. unfold confidential_transfer.verify_transfer_with_fee_proof.
  locate Hs Hw. find_proof ceq. find_proof c3. find_proof cs. find_proof c2. by find_proof cr.
Qed.

(** A use of a function that builds an instruction with proofs: what it returns,
    where the proofs are, the contexts that the client gave for them, the
    handler and the call by which it reads the proofs, both on the same part of
    its list of accounts, and what that call is to find and leave. *)
Record ProofUse : Type := mk_proof_use {
  pu_context : Type;
  pu_built : Result ProgramError (list Instruction);
  pu_places : list Place;
  pu_given : World -> Prop;
  pu_handler : list AccountInfo -> M unit;
  pu_read : list AccountInfo -> M (pu_context * list AccountInfo);
  pu_found : Result TokenProofExtractionError pu_context;
  pu_rest : list AccountInfo
}.

(** One proof, read by itself. *)
Definition single_use {U} `{!ZkContext U} {ty} (held : list Borrow) (i : ProofInstruction)
    (p : ProofLocation ty) (c : U) (built : Result ProgramError (list Instruction))
    (handler : list AccountInfo -> M unit) (rest : list AccountInfo) : ProofUse :=
  mk_proof_use U built [place p] (fun w => gives held w i p c) handler
    (fun iter => verify_and_extract_context U ty held iter (offset_of (place p)) None) (Ok c) rest.

(** An equality, a validity and a range proof, for a mint or a burn. *)
Definition mint_burn_use {C} (held : list Borrow)
    (read : list Borrow -> list AccountInfo -> byte -> byte -> byte -> M (C * list AccountInfo))
    (p : ProofLocation ProofType.CiphertextCommitmentEquality)
    (q : ProofLocation ProofType.BatchedGroupedCiphertext3HandlesValidity)
    (r : ProofLocation ProofType.BatchedRangeProofU128)
    (ceq : CiphertextCommitmentEqualityProofContext)
    (c3 : BatchedGroupedCiphertext3HandlesValidityProofContext) (cr : BatchedRangeProofContext)
    (built : Result ProgramError (list Instruction)) (handler : list AccountInfo -> M unit)
    (found : Result TokenProofExtractionError C) (rest : list AccountInfo) : ProofUse :=
  mk_proof_use C built [place p; place q; place r]
    (fun w =>
      gives held w ProofInstruction.VerifyCiphertextCommitmentEquality p ceq /\
      gives held w ProofInstruction.VerifyBatchedGroupedCiphertext3HandlesValidity q c3 /\
      gives held w ProofInstruction.VerifyBatchedRangeProofU128 r cr)
    handler
    (fun iter => read held iter (i8_new (offset_of (place p))) (i8_new (offset_of (place q)))
                   (i8_new (offset_of (place r))))
    found rest.

(** Every function of the client that takes proofs, the borrows its handler
    holds when it reads them included. *)
Inductive proof_use : ProofUse -> Prop :=
  | use_configure k m z n a signers p c :
      proof_use (single_use [] ProofInstruction.VerifyPubkeyValidity p (c : PubkeyValidityProofContext)
        (confidential_transfer_instruction.configure_account id k m z n a signers p)
        (fun iter => confidential_transfer.process_configure_account [] id (rw k :: ro m :: iter) z
           (u64_new n) (confidential_transfer.ProofInstructionOffset (offset_of (place p))))
        (authority_infos a signers))
  | use_empty k a signers p c :
      proof_use (single_use [] ProofInstruction.VerifyZeroCiphertext p (c : ZeroCiphertextProofContext)
        (confidential_transfer_instruction.empty_account id k a signers p)
        (fun iter => confidential_transfer.process_empty_account id (rw k :: iter)
           (offset_of (place p)))
        (authority_infos a signers))
  | use_withdraw_from_mint m d b a signers p c :
      proof_use (single_use [] ProofInstruction.VerifyCiphertextCiphertextEquality p
        (c : CiphertextCiphertextEqualityProofContext)
        (confidential_transfer_fee_instruction.withdraw_withheld_tokens_from_mint id m d b a signers p)
        (fun iter => confidential_transfer_fee.process_withdraw_withheld_tokens_from_mint id
           (rw m :: rw d :: iter) b (offset_of (place p)))
        (authority_infos a signers))
  | use_withdraw_from_accounts m d b a signers sources p c : (length sources < 256)%nat ->
      proof_use (single_use [] ProofInstruction.VerifyCiphertextCiphertextEquality p
        (c : CiphertextCiphertextEqualityProofContext)
        (confidential_transfer_fee_instruction.withdraw_withheld_tokens_from_accounts id m d b a
           signers sources p)
        (fun iter => confidential_transfer_fee.process_withdraw_withheld_tokens_from_accounts id
           (rw m :: rw d :: iter) (u8_of_Z (Z.of_nat (length sources))) b (offset_of (place p)))
        (authority_infos a signers ++ (rw <$> sources)))
  | use_rotate m a signers e p c :
      proof_use (single_use [Mut m] ProofInstruction.VerifyCiphertextCiphertextEquality p
        (c : CiphertextCiphertextEqualityProofContext)
        (confidential_mint_burn_instruction.rotate_supply_elgamal_pubkey id m a signers e p)
        (fun iter => confidential_mint_burn.process_rotate_supply_elgamal_pubkey id (rw m :: iter)
           (confidential_mint_burn.mk_rotate e (i8_new (offset_of (place p)))))
        (authority_infos a signers))
  | use_withdraw k m n d b a signers p q ceq cr : is_u64 n ->
      proof_use (mk_proof_use WithdrawProofContext
        (confidential_transfer_instruction.withdraw id k m n d b a signers p q) [place p; place q]
        (fun w => gives [] w ProofInstruction.VerifyCiphertextCommitmentEquality p ceq /\
                  gives [] w ProofInstruction.VerifyBatchedRangeProofU64 q cr)
        (fun iter => confidential_transfer.process_withdraw id (rw k :: ro m :: iter) n d b
           (offset_of (place p)) (offset_of (place q)))
        (fun iter => confidential_transfer.verify_withdraw_proof [] iter (offset_of (place p))
           (offset_of (place q)))
        (WithdrawProofContext_verify_and_extract ceq cr) (authority_infos a signers))
  | use_transfer s m d b lo hi a signers p q r ceq c3 cr :
      proof_use (mk_proof_use TransferProofContext
        (confidential_transfer_instruction.transfer id s m d b lo hi a signers p q r)
        [place p; place q; place r]
        (fun w =>
          gives [Mut m] w ProofInstruction.VerifyCiphertextCommitmentEquality p ceq /\
          gives [Mut m] w ProofInstruction.VerifyBatchedGroupedCiphertext3HandlesValidity q c3 /\
          gives [Mut m] w ProofInstruction.VerifyBatchedRangeProofU128 r cr)
        (fun iter => confidential_transfer.process_transfer id (rw s :: ro m :: rw d :: iter) b lo hi
           (offset_of (place p)) (offset_of (place q)) None None (offset_of (place r)))
        (fun iter => confidential_transfer.verify_transfer_proof [Mut m] iter (offset_of (place p))
           (offset_of (place q)) (offset_of (place r)))
        (TransferProofContext_verify_and_extract ceq c3 cr) (authority_infos a signers))
  | use_transfer_with_fee s m d b lo hi a signers p q f v r ceq c3 cs c2 cr fee :
      proof_use (mk_proof_use transfer_with_fee.TransferWithFeeProofContext
        (confidential_transfer_instruction.transfer_with_fee id s m d b lo hi a signers p q f v r)
        [place p; place q; place f; place v; place r]
        (fun w =>
          gives [Mut m] w ProofInstruction.VerifyCiphertextCommitmentEquality p ceq /\
          gives [Mut m] w ProofInstruction.VerifyBatchedGroupedCiphertext3HandlesValidity q c3 /\
          gives [Mut m] w ProofInstruction.VerifyPercentageWithCap f cs /\
          gives [Mut m] w ProofInstruction.VerifyBatchedGroupedCiphertext2HandlesValidity v c2 /\
          gives [Mut m] w ProofInstruction.VerifyBatchedRangeProofU256 r cr)
        (fun iter => confidential_transfer.process_transfer id (rw s :: ro m :: rw d :: iter) b lo hi
           (offset_of (place p)) (offset_of (place q)) (Some (offset_of (place f)))
           (Some (offset_of (place v))) (offset_of (place r)))
        (fun iter => confidential_transfer.verify_transfer_with_fee_proof [Mut m] iter
           (offset_of (place p)) (offset_of (place q)) (offset_of (place f)) (offset_of (place v))
           (offset_of (place r)) fee)
        (transfer_with_fee.verify_and_extract ceq c3 cs c2 cr
           (u16_get (tf_transfer_fee_basis_points fee)) (u64_get (tf_maximum_fee fee)))
        (authority_infos a signers))
  | use_mint k m lo hi a signers p q r b ceq c3 cr :
      proof_use (mint_burn_use [Mut k; Mut m] confidential_mint_burn.verify_mint_proof p q r ceq c3 cr
        (confidential_mint_burn_instruction.confidential_mint_with_split_proofs id k m lo hi a signers
           p q r b)
        (fun iter => confidential_mint_burn.process_confidential_mint id (rw k :: rw m :: iter)
           (confidential_mint_burn.mk_mint_data b lo hi (i8_new (offset_of (place p)))
              (i8_new (offset_of (place q))) (i8_new (offset_of (place r)))))
        (MintProofContext_verify_and_extract ceq c3 cr) (authority_infos a signers))
  | use_burn k m b lo hi a signers p q r ceq c3 cr :
      proof_use (mint_burn_use [Mut m] confidential_mint_burn.verify_burn_proof p q r ceq c3 cr
        (confidential_mint_burn_instruction.confidential_burn_with_split_proofs id k m b lo hi a signers
           p q r)
        (fun iter => confidential_mint_burn.process_confidential_burn id (rw k :: rw m :: iter)
           (confidential_mint_burn.mk_burn_data b lo hi (i8_new (offset_of (place p)))
              (i8_new (offset_of (place q))) (i8_new (offset_of (place r))))
           BurnInstructionVariant.Standard)
        (BurnProofContext_verify_and_extract ceq c3 cr) (authority_infos a signers))
  | use_permissioned_burn k m pa b lo hi a signers p q r ceq c3 cr :
      in_transaction (place p) = true \/ existsb in_transaction [place q; place r] = false ->
      proof_use (mint_burn_use [Mut m] confidential_mint_burn.verify_burn_proof p q r ceq c3 cr
        (permissioned_confidential_burn_instruction.confidential_burn_with_split_proofs id k m pa b lo
           hi a signers p q r)
        (fun iter => confidential_mint_burn.process_confidential_burn id (rw k :: rw m :: iter)
           (confidential_mint_burn.mk_burn_data b lo hi (i8_new (offset_of (place p)))
              (i8_new (offset_of (place q))) (i8_new (offset_of (place r))))
           BurnInstructionVariant.Permissioned)
        (BurnProofContext_verify_and_extract ceq c3 cr)
        (mk_info pa true false :: authority_infos a signers)).

(** C24: the proofs that a client gives a function that builds a confidential
    instruction are those that the handler reads.  The function returns an
    instruction and those that verify the proofs in its transaction; the
    instruction runs the handler, and when the others follow it, and each
    context is in its instruction or, verified, in the account named, the call
    by which the handler reads its proofs finds every context as the client
    gave it, at the offsets and behind the sysvar and the accounts that the
    function put there, and leaves exactly the authority's accounts.  This holds
    of each of the eleven functions, the borrows of the handler included; of
    the burn with a permission unless the sysvar is needed and its first proof
    is in an account, where it fails. *)
Theorem client_proofs_found u :
  proof_use u -> in_sequence 1 (pu_places u) = true ->
  exists ix verifiers iter,
    pu_built u = Ok (ix :: verifiers) /\ execute ix = pu_handler u iter /\
    forall w, visible 1 verifiers w -> pu_given u w ->
      pu_read u iter w = settled (pu_found u) (pu_rest u) w.
Proof.
  intros Hu Hs.
  assert (forall verifiers iter,
    confidential_clients (pu_built u) verifiers (pu_handler u iter) ->
    (forall w, visible 1 verifiers w -> pu_given u w ->
       pu_read u iter w = settled (pu_found u) (pu_rest u) w) ->
    exists ix verifiers iter, pu_built u = Ok (ix :: verifiers) /\ execute ix = pu_handler u iter /\
      forall w, visible 1 verifiers w -> pu_given u w ->
        pu_read u iter w = settled (pu_found u) (pu_rest u) w) as use.
  { intros verifiers iter Hc Hr. apply several_executes in Hc as (ix & Hb & He).
    by exists ix, verifiers, iter. }
  destruct Hu; cbn [single_use mint_burn_use pu_places] in Hs; (eapply use;
    [cbn [single_use mint_burn_use pu_built pu_handler]; by econstructor|]);
    cbn [single_use mint_burn_use pu_read pu_given pu_found pu_rest]; intros w Hw Hg.
  1-5: by apply extract_single with (c := c) (2 := Hg).
  - destruct Hg. by apply withdraw_found.
  - destruct Hg as (? & ? & ?). by apply transfer_found.
  - destruct Hg as (? & ? & ? & ? & ?). by apply transfer_with_fee_found.
  - destruct Hg as (? & ? & ?). by apply mint_burn_found.
  - destruct Hg as (? & ? & ?). by apply mint_burn_found.
  - destruct Hg as (? & ? & ?). by apply mint_burn_found.
Qed.

(** ** A client that forgets the sysvar *)

(** [get_instruction_relative] accepts no account but the sysvar. *)
Definition checks_sysvar : Prop :=
  forall offset key data, key <> sysvar_instructions_id ->
  forall r, zk_get_instruction_relative offset key data <> Ok r.

Lemma extract_not_sysvar U `{!ZkContext U} ty held iter offset x w r :
  checks_sysvar -> key x <> sysvar_instructions_id -> offset <> 0 ->
  verify_and_extract_context U ty held iter offset (Some x) w <> Ok r.
Proof.
  intros Hc Hx Ho. unfold verify_and_extract_context. rewrite (proj2 (Z.eqb_neq _ _)) by done.
  destruct r. intros H. m_inv. eapply Hc; eassumption.
Qed.

Lemma burn_not_sysvar held x infos o1 o2 o3 w r :
  checks_sysvar -> key x <> sysvar_instructions_id -> i8_get o2 <> 0 \/ i8_get o3 <> 0 ->
  confidential_mint_burn.verify_burn_proof held (x :: infos) o1 o2 o3 w <> Ok r.
Proof.
  intros Hc Hx Ho. unfold confidential_mint_burn.verify_burn_proof, confidential_mint_burn.extract_contexts.
  assert (proof_sysvar [i8_get o1; i8_get o2; i8_get o3] (x :: infos) = Ok (Some x, infos)) as ->.
  { unfold proof_sysvar. cbn [existsb].
    destruct Ho as [Ho|Ho]; rewrite (proj2 (Z.eqb_neq _ _) Ho); cbn [negb orb]; by rewrite ?orb_true_r. }
  destruct r. intros H. m_inv.
  destruct Ho as [Ho|Ho].
  - match goal with H : verify_and_extract_context _ _ _ _ (i8_get o2) _ _ = _ |- _ =>
      exact (extract_not_sysvar _ _ _ _ _ _ _ _ Hc Hx Ho H) end.
  - match goal with H : verify_and_extract_context _ _ _ _ (i8_get o3) _ _ = _ |- _ =>
      exact (extract_not_sysvar _ _ _ _ _ _ _ _ Hc Hx Ho H) end.
Qed.

(** C25: the client function for a confidential burn with a permission puts the sysvar into the accounts
    when the first proof is an instruction, not when another is.  Given the
    first proof in an account and another as an instruction, it returns
    instructions that never succeed: the handler takes the account of the
    first proof for the sysvar. *)
Theorem permissioned_burn_needs_sysvar k m pa b lo hi a signers c q r :
  checks_sysvar -> c <> sysvar_instructions_id ->
  in_sequence 1 [place q; place r] = true -> existsb in_transaction [place q; place r] = true ->
  exists ix verifiers,
    permissioned_confidential_burn_instruction.confidential_burn_with_split_proofs id k m pa b lo hi a
      signers (ContextStateAccount c) q r = Ok (ix :: verifiers) /\
    forall w res, execute ix w <> Ok res.
Proof.
  assert (check_program_account id = Ok tt) as C by (vm_compute; reflexivity).
  intros Hc Hne Hs Ht.
  set (p := ContextStateAccount c : ProofLocation ProofType.CiphertextCommitmentEquality).
  assert (in_sequence 1 [place p; place q; place r] = true) as H by done.
  enough (exists infos, executes_with
    (permissioned_confidential_burn_instruction.confidential_burn_with_split_proofs id k m pa b lo hi a
       signers p q r)
    (verifier ProofInstruction.VerifyCiphertextCommitmentEquality p ++
     verifier ProofInstruction.VerifyBatchedGroupedCiphertext3HandlesValidity q ++
     verifier ProofInstruction.VerifyBatchedRangeProofU128 r)
    (confidential_mint_burn.process_confidential_burn id (rw k :: rw m :: ro c :: infos)
       (confidential_mint_burn.mk_burn_data b lo hi (i8_new (offset_of (place p)))
          (i8_new (offset_of (place q))) (i8_new (offset_of (place r))))
       BurnInstructionVariant.Permissioned)) as [infos (ix & Hix & Hex)].
  { eexists _, _. split; [exact Hix|]. intros w [[] w']. rewrite Hex.
    unfold confidential_mint_burn.process_confidential_burn. intros Hr. m_inv.
    match goal with H : confidential_mint_burn.verify_burn_proof _ _ _ _ _ _ = _ |- _ =>
      apply (burn_not_sysvar _ (ro c) _ _ _ _ _ _ Hc Hne) in H; [done|] end.
    cbn [confidential_mint_burn.bi_ciphertext_validity_proof_instruction_offset
         confidential_mint_burn.bi_range_proof_instruction_offset].
    offsets H. cbn [existsb] in Ht. clear - Hs Ht.
    destruct (place q), (place r); cbn in *; try discriminate; lia. }
  exists (place_infos (place q) ++ place_infos (place r) ++
            mk_info pa true false :: authority_infos a signers).
  unfold permissioned_confidential_burn_instruction.confidential_burn_with_split_proofs.
  build C H; [|cbn [interpret]; unfold permissioned_burn_processor.process_instruction; decode; reflexivity].
  rewrite ?shared_location_place.
  destruct (place q), (place r); cbn -[authority_metas authority_infos];
    by rewrite authority_metas_infos.
Qed.
End clients.
