(* ===== verification/Onchain.v ===== *)
(** * Transfers that other programs invoke

    [program/src/onchain.rs]: a program that holds the accounts of a transfer,
    with the signers of a multisig and the accounts of a transfer hook among
    the additional ones, gathers what the call needs and makes it; and
    [program/src/offchain.rs], the same for a client that can fetch accounts.
    The resolution of the hook's own accounts belongs to
    [spl_transfer_hook_interface] and the call to the runtime: they are the
    classes [HookResolution] and [HookFetching]. *)
From S2P Require Import Prelude Bytes Errors Ids Runtime Pod ExtensionState Extension TlvTheory.
From S2P Require Import ViewTheory MonadTheory Ownership State Transfer PodInstruction.
From S2P Require Import Fees FeesTheory Instruction.
From S2P Require Import InstructionTheory UiAmount ExtensionInstructions CiphertextArithmetic.
From S2P Require Import ProofExtraction ConfidentialTransfer TokenMetadata Processor ClientTheory.
From S2P Require Import ExtensionClientTheory.

Class HookResolution : Type := mk_hook_resolution {
  (** [onchain::add_extra_accounts_for_execute_cpi], on the instruction, its
      accounts, the hook's program, the source, mint, destination and
      authority, the amount and the additional accounts. *)
  add_extra_accounts_for_execute_cpi : Instruction -> list AccountInfo -> Address ->
    AccountInfo -> AccountInfo -> AccountInfo -> AccountInfo -> Z -> list AccountInfo ->
    World -> Result ProgramError (Instruction * list AccountInfo);
  (** [invoke_signed], with the seeds of the signers. *)
  invoke_signed : Instruction -> list AccountInfo -> list (list (list byte)) ->
    World -> Result ProgramError World
}.

(** ** The helpers of programs *)

(** A function that reads the accounts. *)
Definition reads {A} (f : World -> Result ProgramError A) : M A := fun w => lift (f w) w.

(** [&multisig.signers[..multisig.n as usize]]. *)
Definition multisig_signers (multisig : PodMultisig) : Result ProgramError (list Address) :=
  let n := Z.to_nat (u8_to_Z (multisig_n multisig)) in
  if (MAX_SIGNERS <? n)%nat then Panic else Ok (take n (signers multisig)).

Definition is_multisig_account (account : AccountInfo) : M bool :=
  owner ← info_owner account;
  len ← data_len [] account;
  mret ((bool_decide (owner = id) || bool_decide (owner = inline_spl_token.id)) &&
        (len =? size_of PodMultisig)%nat).

Definition read_multisig (account : AccountInfo) : M PodMultisig :=
  multisig_data ← borrow [] account;
  lift (ok_or (try_from_bytes (A := PodMultisig) multisig_data) ProgramError.InvalidArgument).

(** The loop of [extract_multisig_accounts]: the slice is taken at each account. *)
Fixpoint extract_accounts (multisig : PodMultisig) (accounts : list AccountInfo)
    : Result ProgramError (list AccountInfo) :=
  match accounts with
  | [] => Ok []
  | account :: accounts =>
      signers ← multisig_signers multisig;
      rest ← extract_accounts multisig accounts;
      mret (if bool_decide (key account ∈ signers) then account :: rest else rest)
  end.

Definition extract_multisig_accounts (multisig_account : AccountInfo) (accounts : list AccountInfo)
    : M (list AccountInfo) :=
  is_multisig ← is_multisig_account multisig_account;
  if (is_multisig : bool) then
    multisig ← read_multisig multisig_account;
    lift (extract_accounts multisig accounts)
  else mret [].

(** [transfer_hook::get_program_id] on a [StateWithExtensions<Mint>]. *)
Definition swe_get_program_id (mint : StateWithExtensions Mint.Mint) : option Address :=
  bytes ← ok (get_extension_bytes PodMint (TYPE TransferHook) (swe_tlv_data mint));
  e ← try_from_bytes (A := TransferHook) bytes;
  maybe_null_get (th_program_id e).

(** [cpi_instruction.accounts[3].is_signer = false]. *)
Definition unsign_authority (cpi_instruction : Instruction) : Instruction :=
  mk_instruction (ix_program_id cpi_instruction)
    (alter (fun m => mk_meta (meta_pubkey m) false (meta_is_writable m)) 3%nat
       (ix_accounts cpi_instruction))
    (ix_data cpi_instruction).

(** [cpi_instruction.accounts.push(..)] for every account. *)
Definition push_signers (infos : list AccountInfo) (cpi_instruction : Instruction) : Instruction :=
  mk_instruction (ix_program_id cpi_instruction)
    (ix_accounts cpi_instruction ++ ((fun i => new_readonly (key i) true) <$> infos))
    (ix_data cpi_instruction).

(** The block of [transfer_instruction_and_account_infos] for an authority that is
    a multisig. *)
Definition add_multisig_signers (authority_info : AccountInfo) (additional_accounts : list AccountInfo)
    (cpi_instruction : Instruction) (cpi_account_infos : list AccountInfo)
    : M (Instruction * list AccountInfo) :=
  is_multisig ← is_multisig_account authority_info;
  if (is_multisig : bool) then
    multisig ← read_multisig authority_info;
    signers ← lift (multisig_signers multisig);
    let found := filter (fun account => key account ∈ signers) additional_accounts in
    mret (push_signers found (unsign_authority cpi_instruction), cpi_account_infos ++ found)
  else mret (cpi_instruction, cpi_account_infos).

Section onchain.
Context `{RT : Runtime} `{PM : PackMethods} `{HR : HookResolution}.

Definition transfer_instruction_and_account_infos (token_program_id : Address)
    (source_info mint_info destination_info authority_info : AccountInfo)
    (additional_accounts : list AccountInfo) (amount : Z) (decimals : byte) (fee : option Z)
    : M (Instruction * list AccountInfo) :=
  cpi_instruction ← lift
    match fee with
    | None =>
        Instruction.transfer_checked token_program_id (key source_info) (key mint_info)
          (key destination_info) (key authority_info) [] amount decimals
    | Some fee =>
        transfer_fee_instruction.transfer_checked_with_fee token_program_id (key source_info)
          (key mint_info) (key destination_info) (key authority_info) [] amount decimals fee
    end;
  let cpi_account_infos := [source_info; mint_info; destination_info; authority_info] in
  '(cpi_instruction, cpi_account_infos) ←
    add_multisig_signers authority_info additional_accounts cpi_instruction cpi_account_infos;
  mint_data ← try_borrow_data [] mint_info;
  mint ← lift (swe_unpack Mint.Mint PodMint mint_data);
  match swe_get_program_id mint with
  | Some program_id =>
      reads (add_extra_accounts_for_execute_cpi cpi_instruction cpi_account_infos program_id
        source_info mint_info destination_info authority_info amount additional_accounts)
  | None => mret (cpi_instruction, cpi_account_infos)
  end.

Definition invoke_transfer_internal (token_program_id : Address)
    (source_info mint_info destination_info authority_info : AccountInfo)
    (additional_accounts : list AccountInfo) (amount : Z) (decimals : byte) (fee : option Z)
    (seeds : list (list (list byte))) : M unit :=
  '(cpi_instruction, cpi_account_infos) ←
    transfer_instruction_and_account_infos token_program_id source_info mint_info destination_info
      authority_info additional_accounts amount decimals fee;
  invoke (invoke_signed cpi_instruction cpi_account_infos seeds).

Definition invoke_transfer_checked (token_program_id : Address)
    (source_info mint_info destination_info authority_info : AccountInfo)
    (additional_accounts : list AccountInfo) (amount : Z) (decimals : byte)
    (seeds : list (list (list byte))) : M unit :=
  invoke_transfer_internal token_program_id source_info mint_info destination_info authority_info
    additional_accounts amount decimals None seeds.

Definition invoke_transfer_checked_with_fee (token_program_id : Address)
    (source_info mint_info destination_info authority_info : AccountInfo)
    (additional_accounts : list AccountInfo) (amount : Z) (decimals : byte) (fee : Z)
    (seeds : list (list (list byte))) : M unit :=
  invoke_transfer_internal token_program_id source_info mint_info destination_info authority_info
    additional_accounts amount decimals (Some fee) seeds.
End onchain.

(** ** The helpers of clients *)

Class HookFetching : Type := mk_hook_fetching {
  (** [AccountFetchError], a boxed error, made from program errors. *)
  AccountFetchError : Type;
  fetch_error_from : ProgramError -> AccountFetchError;
  (** What awaiting a fetch depends on and changes. *)
  Network : Type;
  (** [offchain::add_extra_account_metas_for_execute]. *)
  add_extra_account_metas_for_execute : Instruction -> Address -> Address -> Address -> Address ->
    Address -> Z ->
    (Address -> Network -> Result AccountFetchError (option (list byte) * Network)) ->
    Network -> Result AccountFetchError (Instruction * Network)
}.

Section offchain.
Context `{RT : Runtime} `{PM : PackMethods} `{HF : HookFetching}.

Definition Fetch : Type := Address -> Network -> Result AccountFetchError (option (list byte) * Network).

(** [?] on a program error. *)
Definition fetched {A} (r : Result ProgramError A) : Result AccountFetchError A :=
  match r with Ok a => Ok a | Err e => Err (fetch_error_from e) | Panic => Panic end.

Definition add_extra_account_metas (instruction : Instruction)
    (source_pubkey mint_pubkey destination_pubkey authority_pubkey : Address) (amount : Z)
    (fetch_account_data_fn : Fetch) (net : Network)
    : Result AccountFetchError (Instruction * Network) :=
  '(mint_data, net) ← fetch_account_data_fn mint_pubkey net;
  mint_data ← fetched (ok_or mint_data ProgramError.InvalidAccountData);
  mint ← fetched (swe_unpack Mint.Mint PodMint mint_data);
  match swe_get_program_id mint with
  | Some program_id =>
      add_extra_account_metas_for_execute instruction program_id source_pubkey mint_pubkey
        destination_pubkey authority_pubkey amount fetch_account_data_fn net
  | None => mret (instruction, net)
  end.

Definition create_transfer_checked_instruction_with_extra_metas (token_program_id source_pubkey
    mint_pubkey destination_pubkey authority_pubkey : Address) (signer_pubkeys : list Address)
    (amount : Z) (decimals : byte) (fetch_account_data_fn : Fetch) (net : Network)
    : Result AccountFetchError (Instruction * Network) :=
  transfer_instruction ← fetched
    (Instruction.transfer_checked token_program_id source_pubkey mint_pubkey destination_pubkey
       authority_pubkey signer_pubkeys amount decimals);
  add_extra_account_metas transfer_instruction source_pubkey mint_pubkey destination_pubkey
    authority_pubkey amount fetch_account_data_fn net.

Definition create_transfer_checked_with_fee_instruction_with_extra_metas (token_program_id
    source_pubkey mint_pubkey destination_pubkey authority_pubkey : Address)
    (signer_pubkeys : list Address) (amount : Z) (decimals : byte) (fee : Z)
    (fetch_account_data_fn : Fetch) (net : Network) : Result AccountFetchError (Instruction * Network) :=
  transfer_instruction ← fetched
    (transfer_fee_instruction.transfer_checked_with_fee token_program_id source_pubkey mint_pubkey
       destination_pubkey authority_pubkey signer_pubkeys amount decimals fee);
  add_extra_account_metas transfer_instruction source_pubkey mint_pubkey destination_pubkey
    authority_pubkey amount fetch_account_data_fn net.
End offchain.

(** ** What the token program then sees *)

Section theory.
Context `{RT : Runtime} `{PM : PackMethods} `{F64 : Float64}.
Context `{CV : CurveInterface} `{ZK : ZkInterface} `{ZC : !ZkContexts}.
Context `{TM : TokenMetadataInterface} `{TG : TokenGroupInterface} `{HR : HookResolution}.

Definition is_multisig (account : AccountInfo) (w : World) : bool :=
  owned_by_token_program id (cell_owner (cell w (key account))) &&
  (length (cell_data (cell w (key account))) =? Multisig_LEN)%nat.

Lemma is_multisig_account_eq account w :
  is_multisig_account account w = Ok (is_multisig account w, w).
Proof.
  unfold is_multisig_account, is_multisig, owned_by_token_program.
  eapply M_bind_step; [by apply info_owner_Ok|]; cbn beta.
  eapply M_bind_step; [by apply data_len_Ok|]; cbn beta.
  apply M_ret_Ok. do 2 f_equal. rewrite (bool_decide_ext (id = _) (cell_owner (cell w (key account)) = id))
    by (split; congruence).
  by destruct (bool_decide (_ = id)), (bool_decide (_ = inline_spl_token.id)).
Qed.

(** Those of the additional accounts that have a key of the multisig. *)
Definition found_signers (ms : PodMultisig) (extra : list AccountInfo) : list AccountInfo :=
  filter (fun account => key account ∈ multisig_keys ms) extra.

Lemma multisig_signers_Ok ms l :
  multisig_signers ms = Ok l <-> u8_to_Z (multisig_n ms) <= Z.of_nat MAX_SIGNERS /\ l = multisig_keys ms.
Proof.
  unfold multisig_signers, multisig_keys. pose proof (u8_to_Z_range (multisig_n ms)).
  destruct (Nat.ltb_spec MAX_SIGNERS (Z.to_nat (u8_to_Z (multisig_n ms)))); naive_solver lia.
Qed.

Lemma read_multisig_Ok account w ms w' :
  read_multisig account w = Ok (ms, w') <->
  w' = w /\ cell_data (cell w (key account)) = to_bytes ms.
Proof.
  unfold read_multisig. rewrite M_bind_Ok. setoid_rewrite borrow_Ok. setoid_rewrite lift_Ok.
  setoid_rewrite ok_or_Ok. setoid_rewrite try_from_bytes_Some. naive_solver.
Qed.

Lemma add_multisig_signers_Ok ai extra ix infos w r w' :
  add_multisig_signers ai extra ix infos w = Ok (r, w') <->
  w' = w /\
  if is_multisig ai w
  then exists ms, cell_data (cell w (key ai)) = to_bytes ms /\
    u8_to_Z (multisig_n ms) <= Z.of_nat MAX_SIGNERS /\
    r = (push_signers (found_signers ms extra) (unsign_authority ix), infos ++ found_signers ms extra)
  else r = (ix, infos).
Proof.
  unfold add_multisig_signers. rewrite M_bind_Ok. setoid_rewrite is_multisig_account_eq. split.
  - intros (b & w1 & [= <- <-] & H). destruct (is_multisig ai w); [|by apply M_ret_Ok in H as [= -> ->]].
    m_step. apply read_multisig_Ok in Hm as [-> Hd]. m_inv. apply multisig_signers_Ok in Hm as [Hn ->].
    split; [done|]. eauto.
  - intros [-> H]. exists (is_multisig ai w), w. split; [done|].
    destruct (is_multisig ai w); [|by subst]. destruct H as (ms & Hd & Hn & ->).
    eapply M_bind_step; [by apply read_multisig_Ok|]. cbn beta.
    eapply M_bind_step; [by apply lift_Ok; split; [apply multisig_signers_Ok|]|]. done.
Qed.

(** The signers of a multisig that were found approve as all that were given. *)
Definition signing (i : AccountInfo) : AccountInfo := mk_info (key i) true false.

Lemma is_matched_found ms extra more k : k ∈ multisig_keys ms ->
  (forall j, j ∈ key <$> more -> j ∈ key <$> extra) ->
  is_matched ((signing <$> found_signers ms extra) ++ more) k = is_matched extra k.
Proof.
  intros Hk Hmore. unfold is_matched. apply bool_decide_ext.
  rewrite fmap_app, elem_of_app, <- list_fmap_compose.
  change (key ∘ signing) with key. split.
  - intros [(i & -> & Hi)%list_elem_of_fmap|H]; [|by apply Hmore].
    apply list_elem_of_filter in Hi as [_ Hi]. by apply list_elem_of_fmap_2.
  - intros (i & -> & Hi)%list_elem_of_fmap. left. apply list_elem_of_fmap_2.
    by apply list_elem_of_filter.
Qed.

Lemma matched_count_ext infos infos' keys :
  (forall k, k ∈ keys -> is_matched infos k = is_matched infos' k) ->
  matched_count infos keys = matched_count infos' keys.
Proof.
  unfold matched_count. induction keys as [|k keys IH]; intros He; [done|].
  rewrite !filter_cons, (He k) by left. specialize (IH (fun j Hj => He j (list_elem_of_further _ _ _ Hj))).
  case_decide; cbn [length]; by rewrite IH.
Qed.

Lemma matched_count_found ms extra more :
  (forall j, j ∈ key <$> more -> j ∈ key <$> extra) ->
  matched_count ((signing <$> found_signers ms extra) ++ more) (multisig_keys ms) =
  matched_count extra (multisig_keys ms).
Proof.
  intros Hmore. apply matched_count_ext. intros k Hk. by apply is_matched_found.
Qed.

Lemma matches_sign_found ms extra more :
  (forall j, j ∈ key <$> more -> j ∈ key <$> extra) ->
  matches_sign ((signing <$> found_signers ms extra) ++ more) (multisig_keys ms).
Proof.
  intros Hmore k s Hk Hf. unfold first_with_key in Hf. rewrite filter_app in Hf.
  destruct (filter (fun i => key i = k) (signing <$> found_signers ms extra)) as [|i l] eqn:El.
  - exfalso. assert (s ∈ filter (fun i => key i = k) more) as Hs
      by (destruct (filter _ more); [done|]; injection Hf as ->; left).
    apply list_elem_of_filter in Hs as [<- Hs].
    pose proof (list_elem_of_fmap_2 key _ _ Hs) as He%Hmore.
    apply list_elem_of_fmap in He as (j & Ej & Hj).
    assert (signing j ∈ filter (fun i => key i = key s) (signing <$> found_signers ms extra)) as Hin.
    { apply list_elem_of_filter. split; [done|]. apply list_elem_of_fmap_2, list_elem_of_filter.
      by rewrite <- Ej. }
    rewrite El in Hin. by apply not_elem_of_nil in Hin.
  - injection Hf as ->.
    assert (s ∈ filter (fun i => key i = k) (signing <$> found_signers ms extra)) as Hs
      by (rewrite El; left).
    apply list_elem_of_filter in Hs as [_ (j & -> & _)%list_elem_of_fmap]. done.
Qed.

(** [extract_multisig_accounts] lists the same accounts. *)
Lemma extract_accounts_found ms extra :
  u8_to_Z (multisig_n ms) <= Z.of_nat MAX_SIGNERS ->
  extract_accounts ms extra = Ok (found_signers ms extra).
Proof.
  intros Hn. assert (multisig_signers ms = Ok (multisig_keys ms)) as E by (by apply multisig_signers_Ok).
  unfold found_signers. induction extra as [|a extra IH]; [done|].
  cbn [extract_accounts]. rewrite E, IH. cbn [mbind Result_bind]. rewrite filter_cons.
  case_decide; [by rewrite bool_decide_true|by rewrite bool_decide_false].
Qed.

Lemma extract_multisig_accounts_found account ms extra w :
  is_multisig account w = true -> cell_data (cell w (key account)) = to_bytes ms ->
  u8_to_Z (multisig_n ms) <= Z.of_nat MAX_SIGNERS ->
  extract_multisig_accounts account extra w = Ok (found_signers ms extra, w).
Proof.
  intros Em Hd Hn. unfold extract_multisig_accounts.
  eapply M_bind_step; [apply is_multisig_account_eq|]. rewrite Em.
  eapply M_bind_step; [by apply read_multisig_Ok|]. cbn beta.
  apply lift_Ok. by rewrite extract_accounts_found.
Qed.

(** ** The whole helper *)

(** The resolution of a hook's accounts appends accounts, each with its meta,
    out of the additional ones. *)
Definition resolves_from_additional : Prop :=
  forall ix infos p si mi di ai n extra w ix' infos',
    add_extra_accounts_for_execute_cpi ix infos p si mi di ai n extra w = Ok (ix', infos') ->
    exists metas more,
      ix' = mk_instruction (ix_program_id ix) (ix_accounts ix ++ metas) (ix_data ix) /\
      infos' = infos ++ more /\ key <$> more = meta_pubkey <$> metas /\
      forall k, k ∈ key <$> more -> k ∈ key <$> extra.

Definition transfer_variant (d : byte) (fee : option Z) : TransferInstruction :=
  match fee with
  | None => TransferInstruction.Checked d
  | Some fee => TransferInstruction.CheckedWithFee d fee
  end.

Definition transfer_data (n : Z) (d : byte) (fee : option Z) : list byte :=
  match fee with
  | None => TokenInstruction.pack (TokenInstruction.TransferChecked n d)
  | Some fee =>
      transfer_fee_instruction.encode_instruction_data (transfer_fee.TransferCheckedWithFee n d fee)
  end.

Lemma base_instruction s m t a n d fee :
  match fee with
  | None => Instruction.transfer_checked id s m t a [] n d
  | Some fee => transfer_fee_instruction.transfer_checked_with_fee id s m t a [] n d fee
  end = Ok (mk_instruction id [new s false; new_readonly m false; new t false; new_readonly a true]
              (transfer_data n d fee)).
Proof. by destruct fee. Qed.

Lemma execute_transfer accounts n d fee : is_u64 n -> from_option is_u64 True fee ->
  execute (mk_instruction id accounts (transfer_data n d fee)) =
  process_transfer id (info_of <$> accounts) n (transfer_variant d fee).
Proof.
  intros Hn Hf. destruct fee as [fee|]; cbn [transfer_data transfer_variant].
  - destruct (executes_fee accounts (info_of <$> accounts)
      (transfer_fee.TransferCheckedWithFee n d fee) _ (conj Hn Hf) eq_refl eq_refl)
      as (ix & [= <-] & He). exact He.
  - by rewrite execute_packed.
Qed.

(** What the helper returns: the four accounts, the authority as a signer unless
    it is a multisig, then those found to sign for it, then the hook's. *)
Record gathered (si mi di ai : AccountInfo) (extra : list AccountInfo) (n : Z) (d : byte)
    (fee : option Z) (w : World) (ix : Instruction) (infos found more : list AccountInfo)
    (metas : list AccountMeta) : Prop := {
  gathered_metas : ix = mk_instruction id
    ([new (key si) false; new_readonly (key mi) false; new (key di) false;
      new_readonly (key ai) (negb (is_multisig ai w))] ++
     ((fun i => new_readonly (key i) true) <$> found) ++ metas) (transfer_data n d fee);
  gathered_infos : infos = [si; mi; di; ai] ++ found ++ more;
  gathered_more : key <$> more = meta_pubkey <$> metas;
  gathered_extra : forall k, k ∈ key <$> more -> k ∈ key <$> extra;
  gathered_found :
    if is_multisig ai w
    then exists ms, cell_data (cell w (key ai)) = to_bytes ms /\
      u8_to_Z (multisig_n ms) <= Z.of_nat MAX_SIGNERS /\ found = found_signers ms extra
    else found = []
}.

Lemma transfer_gathers si mi di ai extra n d fee w ix infos w' :
  resolves_from_additional ->
  transfer_instruction_and_account_infos id si mi di ai extra n d fee w = Ok ((ix, infos), w') ->
  w' = w /\ exists found more metas, gathered si mi di ai extra n d fee w ix infos found more metas.
Proof.
  intros Hres H. unfold transfer_instruction_and_account_infos in H.
  rewrite (base_instruction (key si) (key mi) (key di) (key ai) n d fee) in H.
  apply M_bind_Ok in H as (ix0 & w0 & [[= <-] ->]%lift_Ok & H).
  apply M_bind_Ok in H as ([ix1 infos1] & w1 & Hadd & H).
  apply add_multisig_signers_Ok in Hadd as [-> Hadd].
  apply M_bind_Ok in H as (data & w2 & (_ & -> & ->)%try_borrow_data_Ok & H).
  apply M_bind_Ok in H as (mt & w3 & [Hmt ->]%lift_Ok & H).
  assert (w' = w /\ exists metas more, ix = mk_instruction (ix_program_id ix1)
      (ix_accounts ix1 ++ metas) (ix_data ix1) /\ infos = infos1 ++ more /\
      key <$> more = meta_pubkey <$> metas /\ forall k, k ∈ key <$> more -> k ∈ key <$> extra)
    as [-> (metas & more & -> & -> & Hk & Hx)].
  { destruct (swe_get_program_id mt).
    - unfold reads in H. apply lift_Ok in H as [H ->]. split; [done|]. by eapply Hres.
    - apply M_ret_Ok in H as [= -> -> ->]. split; [done|]. exists [], []. rewrite !app_nil_r.
      split; [by destruct ix1|]. split_and!; [done..|]. intros k Hk. by apply not_elem_of_nil in Hk. }
  split; [done|]. destruct (is_multisig ai w) eqn:Em.
  - destruct Hadd as (ms & Hd & Hn & [= -> ->]). exists (found_signers ms extra), more, metas.
    split; rewrite ?Em; try done;
      first [by exists ms|cbn; by rewrite <- app_assoc].
  - injection Hadd as -> ->. exists [], more, metas. split; rewrite ?Em; done.
Qed.

(** Which programs' calls succeed in gathering: the mint can be read and has no
    hook, and a multisig has at most [MAX_SIGNERS] keys. *)
Lemma transfer_gathering_succeeds si mi di ai extra n d fee w m :
  swe_unpack Mint.Mint PodMint (cell_data (cell w (key mi))) = Ok m -> swe_get_program_id m = None ->
  (forall ms, cell_data (cell w (key ai)) = to_bytes ms ->
     u8_to_Z (multisig_n ms) <= Z.of_nat MAX_SIGNERS) ->
  exists r, transfer_instruction_and_account_infos id si mi di ai extra n d fee w = Ok (r, w).
Proof.
  intros Hm Hh Hn. unfold transfer_instruction_and_account_infos.
  rewrite (base_instruction (key si) (key mi) (key di) (key ai) n d fee).
  set (ix := mk_instruction _ _ _).
  assert (exists r, add_multisig_signers ai extra ix [si; mi; di; ai] w = Ok (r, w)) as [[ix1 infos1] Ha].
  { destruct (is_multisig ai w) eqn:Em.
    - pose proof Em as [_ El%Nat.eqb_eq]%andb_true_iff.
      pose proof (to_from_bytes (A := PodMultisig) _ El) as Ed.
      eexists. apply add_multisig_signers_Ok. rewrite Em. split; [done|]. by eauto.
    - eexists. apply add_multisig_signers_Ok. by rewrite Em. }
  eexists. eapply M_bind_step; [by apply lift_Ok|]. cbn beta.
  eapply M_bind_step; [exact Ha|]. cbn beta iota.
  eapply M_bind_step; [by apply try_borrow_data_Ok|]. cbn beta.
  eapply M_bind_step; [by apply lift_Ok|]. cbn beta. by rewrite Hh.
Qed.

(** C23: a program that calls the helper for a transfer acts through the
    processor as its authority does.  It succeeds in gathering the call when the
    mint is readable and has no hook; whatever it gathers, hook accounts
    included, has one account for every meta, runs the transfer of that amount
    between those accounts on the authority, which signs unless it is a multisig,
    and is approved exactly when the authority is the expected one and, if that
    is a multisig account, when it is initialized and enough of its positions are
    among the additional accounts. *)
Theorem onchain_transfer_authorized si mi di ai extra n d fee w :
  resolves_from_additional -> is_u64 n -> from_option is_u64 True fee ->
  (forall m, swe_unpack Mint.Mint PodMint (cell_data (cell w (key mi))) = Ok m ->
     swe_get_program_id m = None ->
     (forall ms, cell_data (cell w (key ai)) = to_bytes ms ->
        u8_to_Z (multisig_n ms) <= Z.of_nat MAX_SIGNERS) ->
     exists r, transfer_instruction_and_account_infos id si mi di ai extra n d fee w = Ok (r, w)) /\
  (forall ix infos w',
     transfer_instruction_and_account_infos id si mi di ai extra n d fee w = Ok ((ix, infos), w') ->
     w' = w /\ key <$> infos = meta_pubkey <$> ix_accounts ix /\
     exists auth rest,
       key auth = key ai /\ is_signer auth = negb (is_multisig ai w) /\
       execute ix = process_transfer id
         (rw (key si) :: ro (key mi) :: rw (key di) :: auth :: rest) n (transfer_variant d fee) /\
       forall expected,
         authorizes id expected auth (length (cell_data (cell w (key auth)))) rest w <->
         expected = key ai /\
         (is_multisig ai w = true -> exists ms, cell_data (cell w (key ai)) = to_bytes ms /\
            bool_get (multisig_is_initialized ms) = true /\
            u8_to_Z (multisig_m ms) <= Z.of_nat (matched_count extra (multisig_keys ms)))).
Proof.
  intros Hres Hn Hf. split; [intros m; apply transfer_gathering_succeeds|].
  intros ix infos w' H. apply transfer_gathers in H as [-> (found & more & metas & [-> -> Hk Hx Hfound])]; [|done].
  split; [done|]. split.
  { cbn [ix_accounts app fmap list_fmap meta_pubkey new new_readonly].
    do 4 f_equal. rewrite !fmap_app, Hk, <- list_fmap_compose. done. }
  exists (mk_info (key ai) (negb (is_multisig ai w)) false), ((signing <$> found) ++ (info_of <$> metas)).
  split; [done|]. split; [done|]. split.
  { rewrite execute_transfer by done. cbn [app fmap list_fmap]. do 5 f_equal.
    by rewrite fmap_app, <- list_fmap_compose. }
  assert (key <$> (info_of <$> metas) = meta_pubkey <$> metas) as Em by (by rewrite <- list_fmap_compose).
  intros expected. unfold authorizes. cbn [key is_signer]. fold (is_multisig ai w).
  destruct (is_multisig ai w); [|naive_solver].
  destruct Hfound as (ms & Hd & Hmax & ->).
  assert (forall k, k ∈ key <$> (info_of <$> metas) -> k ∈ key <$> extra) as Hx'
    by (intros k; rewrite Em, <- Hk; apply Hx).
  unfold multisig_approves. split.
  - intros (-> & ms' & Hd' & Hi & _ & _ & Hm). split; [done|]. intros _. exists ms'.
    assert (ms' = ms) as -> by (apply to_bytes_inj; congruence).
    by rewrite (matched_count_found ms extra) in Hm by done.
  - intros (-> & (ms' & Hd' & Hi & Hm)); [done|]. split; [done|]. exists ms'.
    assert (ms' = ms) as -> by (apply to_bytes_inj; congruence).
    split_and!; [done..| |by rewrite matched_count_found]. by apply matches_sign_found.
Qed.
End theory.
