(* ===== verification/TokenClient.v ===== *)
(** * The client of the token program

    [clients/rust-legacy/src/token.rs]: the methods of [Token], which fetch the
    accounts they need, build the instructions, and send them in a transaction.

    A method is a computation over the network, the random numbers and the memo
    that the next transaction will carry ([ClientState]); one that fails leaves
    the state it had reached.  A keypair is its address: what signing does is in
    the class [ProgramClient], with the RPC client, the transactions and the
    instructions of other programs.  The methods for confidential accounts,
    metadata and groups are in [ConfidentialClient]. *)
From S2P Require Import Prelude Bytes Errors Ids Runtime Pod ExtensionState Extension TlvTheory.
From S2P Require Import AccountLen MonadTheory Ownership State Transfer PodInstruction VariableLen.
From S2P Require Import Settings Fees UiAmount Instruction ExtensionInstructions TokenMetadata.
From S2P Require Import CiphertextArithmetic ProofExtraction ConfidentialTransfer.
From S2P Require Import ConfidentialTransferFee ConfidentialMintBurn ConfidentialInstructions Onchain.

(** ** Parameters of extensions, and errors *)

Module ExtensionInitializationParams.
Inductive ExtensionInitializationParams : Type :=
  | ConfidentialTransferMint (authority : option Address) (auto_approve_new_accounts : bool)
      (auditor_elgamal_pubkey : option PodElGamalPubkey)
  | DefaultAccountState (state : AccountState)
  | MintCloseAuthority (close_authority : option Address)
  | TransferFeeConfig (transfer_fee_config_authority withdraw_withheld_authority : option Address)
      (transfer_fee_basis_points maximum_fee : Z)
  | InterestBearingConfig (rate_authority : option Address) (rate : Z)
  | NonTransferable
  | PermanentDelegate (delegate : Address)
  | TransferHook (authority program_id : option Address)
  | MetadataPointer (authority metadata_address : option Address)
  | ConfidentialTransferFeeConfig (authority : option Address)
      (withdraw_withheld_authority_elgamal_pubkey : PodElGamalPubkey)
  | GroupPointer (authority group_address : option Address)
  | GroupMemberPointer (authority member_address : option Address)
  | ScaledUiAmountConfig (authority : option Address) (multiplier : PodF64)
  | PausableConfig (authority : Address)
  | PermissionedBurnConfig (authority : Address)
  | ConfidentialMintBurn (supply_elgamal_pubkey : PodElGamalPubkey)
      (decryptable_supply : DecryptableBalance).

Definition extension (self : ExtensionInitializationParams) : ExtensionType :=
  match self with
  | ConfidentialTransferMint _ _ _ => ExtensionType.ConfidentialTransferMint
  | DefaultAccountState _ => ExtensionType.DefaultAccountState
  | MintCloseAuthority _ => ExtensionType.MintCloseAuthority
  | TransferFeeConfig _ _ _ _ => ExtensionType.TransferFeeConfig
  | InterestBearingConfig _ _ => ExtensionType.InterestBearingConfig
  | NonTransferable => ExtensionType.NonTransferable
  | PermanentDelegate _ => ExtensionType.PermanentDelegate
  | TransferHook _ _ => ExtensionType.TransferHook
  | MetadataPointer _ _ => ExtensionType.MetadataPointer
  | ConfidentialTransferFeeConfig _ _ => ExtensionType.ConfidentialTransferFeeConfig
  | GroupPointer _ _ => ExtensionType.GroupPointer
  | GroupMemberPointer _ _ => ExtensionType.GroupMemberPointer
  | ScaledUiAmountConfig _ _ => ExtensionType.ScaledUiAmount
  | PausableConfig _ => ExtensionType.Pausable
  | PermissionedBurnConfig _ => ExtensionType.PermissionedBurn
  | ConfidentialMintBurn _ _ => ExtensionType.ConfidentialMintBurn
  end.

Definition instruction `{RT : Runtime} (self : ExtensionInitializationParams)
    (token_program_id mint : Address) : Result ProgramError Instruction :=
  match self with
  | ConfidentialTransferMint authority auto_approve_new_accounts auditor_elgamal_pubkey =>
      confidential_transfer_instruction.initialize_mint token_program_id mint authority
        auto_approve_new_accounts auditor_elgamal_pubkey
  | DefaultAccountState state =>
      default_account_state_instruction.initialize_default_account_state token_program_id mint state
  | MintCloseAuthority close_authority =>
      Instruction.initialize_mint_close_authority token_program_id mint close_authority
  | TransferFeeConfig transfer_fee_config_authority withdraw_withheld_authority
      transfer_fee_basis_points maximum_fee =>
      transfer_fee_instruction.initialize_transfer_fee_config token_program_id mint
        transfer_fee_config_authority withdraw_withheld_authority transfer_fee_basis_points maximum_fee
  | InterestBearingConfig rate_authority rate =>
      interest_bearing_mint_instruction.initialize token_program_id mint rate_authority rate
  | NonTransferable => Instruction.initialize_non_transferable_mint token_program_id mint
  | PermanentDelegate delegate => Instruction.initialize_permanent_delegate token_program_id mint delegate
  | TransferHook authority program_id =>
      transfer_hook_instruction.initialize token_program_id mint authority program_id
  | MetadataPointer authority metadata_address =>
      metadata_pointer_instruction.initialize token_program_id mint authority metadata_address
  | ConfidentialTransferFeeConfig authority withdraw_withheld_authority_elgamal_pubkey =>
      confidential_transfer_fee_instruction.initialize_confidential_transfer_fee_config
        token_program_id mint authority withdraw_withheld_authority_elgamal_pubkey
  | GroupPointer authority group_address =>
      group_pointer_instruction.initialize token_program_id mint authority group_address
  | GroupMemberPointer authority member_address =>
      group_member_pointer_instruction.initialize token_program_id mint authority member_address
  | ScaledUiAmountConfig authority multiplier =>
      scaled_ui_amount_instruction.initialize token_program_id mint authority multiplier
  | PausableConfig authority => pausable_instruction.initialize token_program_id mint authority
  | PermissionedBurnConfig authority =>
      permissioned_burn_instruction.initialize token_program_id mint authority
  | ConfidentialMintBurn supply_elgamal_pubkey decryptable_supply =>
      confidential_mint_burn_instruction.initialize_mint token_program_id mint
        supply_elgamal_pubkey decryptable_supply
  end.
End ExtensionInitializationParams.
Abbreviation ExtensionInitializationParams :=
  ExtensionInitializationParams.ExtensionInitializationParams.

(** The errors of the client, over those of the RPC client and of a signer. *)
Module ClientTokenError.
Inductive TokenError (ClientError SignerError : Type) : Type :=
  | Client (e : ClientError)
  | Program (e : ProgramError)
  | AccountNotFound
  | AccountInvalidOwner
  | AccountInvalidMint
  | AccountInvalidAssociatedAddress
  | AccountInvalidAuxiliaryAddress
  | ProofGeneration
  | MaximumDepositTransferAmountExceeded
  | Key (e : SignerError)
  | AccountDecryption
  | NotEnoughFunds
  | MissingMemoSigner
  | MissingDecimals
  | InvalidDecimals.
Arguments Client {_ _} _.
Arguments Program {_ _} _.
Arguments Key {_ _} _.
Arguments AccountNotFound {_ _}.
Arguments AccountInvalidOwner {_ _}.
Arguments AccountInvalidMint {_ _}.
Arguments AccountInvalidAssociatedAddress {_ _}.
Arguments AccountInvalidAuxiliaryAddress {_ _}.
Arguments ProofGeneration {_ _}.
Arguments MaximumDepositTransferAmountExceeded {_ _}.
Arguments AccountDecryption {_ _}.
Arguments NotEnoughFunds {_ _}.
Arguments MissingMemoSigner {_ _}.
Arguments MissingDecimals {_ _}.
Arguments InvalidDecimals {_ _}.
End ClientTokenError.

(** ** What the client uses *)

Class ProgramClient `{HF : HookFetching} : Type := mk_program_client {
  (** [ProgramClientError] is the boxed error of a fetch; [SignerError]. *)
  SignerError : Type;
  Hash : Type;
  Output : Type;
  SimulationOutput : Type;
  Transaction : Type;
  client_get_account : Address -> Network -> Result AccountFetchError (option Cell * Network);
  client_get_minimum_balance_for_rent_exemption :
    nat -> Network -> Result AccountFetchError (Z * Network);
  client_get_latest_blockhash : Network -> Result AccountFetchError (Hash * Network);
  client_send_transaction : Transaction -> Network -> Result AccountFetchError (Output * Network);
  client_simulate_transaction :
    Transaction -> Network -> Result AccountFetchError (SimulationOutput * Network);
  get_compute_units_consumed : SimulationOutput -> Result AccountFetchError Z;
  (** The boxed error of [u32::try_from]. *)
  too_many_units : AccountFetchError;
  (** [Transaction::new_unsigned] on [Message::new_with_blockhash], and
      [try_partial_sign] with its error boxed. *)
  new_unsigned : list Instruction -> Address -> Hash -> Transaction;
  try_partial_sign : list Address -> Hash -> Transaction -> Result AccountFetchError Transaction;
  (** The instructions of the compute budget, the memo, the system and the
      associated token account programs. *)
  set_compute_unit_price : Z -> Instruction;
  set_compute_unit_limit : Z -> Instruction;
  build_memo : list byte -> list Address -> Instruction;
  advance_nonce_account : Address -> Address -> Instruction;
  system_create_account : Address -> Address -> Z -> Z -> Address -> Instruction;
  system_transfer : Address -> Address -> Z -> Instruction;
  get_associated_token_address_with_program_id : Address -> Address -> Address -> Address;
  ata_create_associated_token_account : Address -> Address -> Address -> Address -> Instruction;
  ata_create_associated_token_account_idempotent :
    Address -> Address -> Address -> Address -> Instruction
}.

(** ** Tokens *)

Module ComputeUnitLimit.
Inductive ComputeUnitLimit : Type := Default | Simulated | Static (compute_unit_limit : Z).
End ComputeUnitLimit.
Abbreviation ComputeUnitLimit := ComputeUnitLimit.ComputeUnitLimit.

Record TokenMemo : Type := mk_memo { memo_text : list byte; memo_signers : list Address }.

(** The native mint of a program: that of the other token program is given. *)
Definition native_mint_of (spl_native_mint program_id : Address) : Result ProgramError Address :=
  if bool_decide (program_id = id) then Ok native_mint.id
  else if bool_decide (program_id = inline_spl_token.id) then Ok spl_native_mint
  else Panic.
Definition native_mint_decimals (spl_decimals : byte) (program_id : Address)
    : Result ProgramError byte :=
  if bool_decide (program_id = id) then Ok (u8_of_Z native_mint.DECIMALS)
  else if bool_decide (program_id = inline_spl_token.id) then Ok spl_decimals
  else Panic.

(** [StateWithExtensionsOwned::unpack]. *)
Definition swo_unpack `{PM : PackMethods} (S P : Type) `{Pack S, BaseState P} (input : list byte)
    : Result ProgramError (StateWithExtensions S) :=
  _ ← check_min_len_and_not_multisig input (size_of P);
  let rest := drop (size_of P) input in
  base ← pm_unpack S (take (size_of P) input);
  indices ← type_and_tlv_indices P rest;
  match indices with
  | Some (account_type_index, tlv_start_index) =>
      account_type ← account_type_at rest account_type_index;
      _ ← check_account_type P account_type;
      mret (mk_swe base (drop tlv_start_index rest))
  | None => mret (mk_swe base [])
  end.

(** [get_extension] on it, whose base state has the layout [P]. *)
Definition swo_get_extension (P : Type) `{BaseState P} (V : Type) `{Pod V, Extension V} {S}
    (st : StateWithExtensions S) : Result ProgramError V :=
  bytes ← get_extension_bytes P (TYPE V) (swe_tlv_data st);
  ok_or (try_from_bytes bytes) ProgramError.InvalidArgument.

Section monad.
Context `{PC : ProgramClient} {R : Type}.

(** The memo is apart, in [ClientState]: it is behind a lock. *)
Record Token : Type := mk_token {
  pubkey : Address;
  decimals : option byte;
  payer : Address;
  program_id : Address;
  nonce_account : option Address;
  nonce_authority : option Address;
  nonce_blockhash : option Hash;
  transfer_hook_accounts : option (list AccountMeta);
  compute_unit_price : option Z;
  compute_unit_limit : ComputeUnitLimit
}.

Definition Failure : Type := ClientTokenError.TokenError AccountFetchError SignerError.

Record ClientState : Type := mk_client_state {
  network : Network;
  rng : R;
  memo : option TokenMemo
}.

(** A computation that fails leaves the state it had reached. *)
Definition Client (A : Type) : Type := ClientState -> Result Failure A * ClientState.

#[export] Instance Client_ret : MRet Client := fun _ a s => (Ok a, s).
#[export] Instance Client_bind : MBind Client := fun _ _ f m s =>
  match m s with
  | (Ok a, s') => f a s'
  | (Err e, s') => (Err e, s')
  | (Panic, s') => (Panic, s')
  end.

(** A result, [Err(e)], and [r?] on a [ProgramError]. *)
Definition result {A} (r : Result Failure A) : Client A := fun s => (r, s).
Definition error {A} (e : Failure) : Client A := result (Err e).
Definition program {A} (r : Result ProgramError A) : Client A :=
  result (map_err ClientTokenError.Program r).

(** [o.ok_or(e)?] and [o.unwrap()]. *)
Definition required {A} (o : option A) (e : Failure) : Client A :=
  result (match o with Some a => Ok a | None => Err e end).
Definition unwrapped {A} (o : option A) : Client A :=
  result (match o with Some a => Ok a | None => Panic end).

(** [f.await.map_err(into)?]; what a failed request does to the network is
    left out. *)
Definition awaited {A} (into : AccountFetchError -> Failure)
    (f : Network -> Result AccountFetchError (A * Network)) : Client A := fun s =>
  match f (network s) with
  | Ok (a, n) => (Ok a, mk_client_state n (rng s) (memo s))
  | Err e => (Err (into e), s)
  | Panic => (Panic, s)
  end.
Definition client {A} : (Network -> Result AccountFetchError (A * Network)) -> Client A :=
  awaited ClientTokenError.Client.
(** The same for what does not use the network. *)
Definition boxed {A} (r : Result AccountFetchError A) : Client A :=
  result (map_err ClientTokenError.Client r).

(** [f.await.ok()]. *)
Definition attempt {A} (m : Client A) : Client (option A) := fun s =>
  match m s with
  | (Ok a, s') => (Ok (Some a), s')
  | (Err _, s') => (Ok None, s')
  | (Panic, s') => (Panic, s')
  end.

(** [w_memo.take()]. *)
Definition take_memo : Client (option TokenMemo) := fun s =>
  (Ok (memo s), mk_client_state (network s) (rng s) None).

(** [self.with_memo(..)]. *)
Definition with_memo (text : list byte) (signers : list Address) : Client unit := fun s =>
  (Ok tt, mk_client_state (network s) (rng s) (Some (mk_memo text signers))).

(** A step that succeeds, and one that fails. *)
Lemma client_step {A B} (m : Client A) (f : A -> Client B) s a s' :
  m s = (Ok a, s') -> (m ≫= f) s = f a s'.
Proof. intros E. unfold mbind, Client_bind. by rewrite E. Qed.

Lemma client_stop {A B} (m : Client A) (f : A -> Client B) s e s' :
  m s = (Err e, s') -> (m ≫= f) s = (Err e, s').
Proof. intros E. unfold mbind, Client_bind. by rewrite E. Qed.

Lemma program_step {A B} (r : Result ProgramError A) (f : A -> Client B) s a :
  r = Ok a -> (program r ≫= f) s = f a s.
Proof. intros ->. done. Qed.
End monad.
Arguments Token {_ _}.
Arguments Failure {_ _}.
Arguments ClientState {_} _.
Arguments Client {_ _} _ _.

Module token.
Section token.
Context `{RT : Runtime} `{PM : PackMethods} `{HF : HookFetching} `{PC : !ProgramClient} {R : Type}.
Local Abbreviation Client := (Client R).

Definition new_token (program_id address : Address) (decimals : option byte) (payer : Address) : Token :=
  mk_token address decimals payer program_id None None None None None ComputeUnitLimit.Default.

Definition new_native (spl_native_mint : Address) (spl_decimals : byte) (program_id payer : Address)
    : Result ProgramError Token :=
  address ← native_mint_of spl_native_mint program_id;
  decimals ← native_mint_decimals spl_decimals program_id;
  mret (new_token program_id address (Some decimals) payer).

Definition is_native (spl_native_mint : Address) (self : Token) : Result ProgramError bool :=
  native ← native_mint_of spl_native_mint (program_id self);
  mret (bool_decide (pubkey self = native)).

Definition with_payer (payer : Address) (self : Token) : Token :=
  mk_token (pubkey self) (decimals self) payer (program_id self) (nonce_account self)
    (nonce_authority self) (nonce_blockhash self) (transfer_hook_accounts self)
    (compute_unit_price self) (compute_unit_limit self).
Definition with_nonce (nonce_account nonce_authority : Address) (nonce_blockhash : Hash) (self : Token)
    : Token :=
  mk_token (pubkey self) (decimals self) (payer self) (program_id self) (Some nonce_account)
    (Some nonce_authority) (Some nonce_blockhash) (Some []) (compute_unit_price self)
    (compute_unit_limit self).
Definition with_transfer_hook_accounts (transfer_hook_accounts : list AccountMeta) (self : Token)
    : Token :=
  mk_token (pubkey self) (decimals self) (payer self) (program_id self) (nonce_account self)
    (nonce_authority self) (nonce_blockhash self) (Some transfer_hook_accounts)
    (compute_unit_price self) (compute_unit_limit self).
Definition with_compute_unit_price (compute_unit_price : Z) (self : Token) : Token :=
  mk_token (pubkey self) (decimals self) (payer self) (program_id self) (nonce_account self)
    (nonce_authority self) (nonce_blockhash self) (transfer_hook_accounts self)
    (Some compute_unit_price) (compute_unit_limit self).
Definition with_compute_unit_limit (compute_unit_limit : ComputeUnitLimit) (self : Token) : Token :=
  mk_token (pubkey self) (decimals self) (payer self) (program_id self) (nonce_account self)
    (nonce_authority self) (nonce_blockhash self) (transfer_hook_accounts self)
    (compute_unit_price self) compute_unit_limit.

Definition get_multisig_signers (authority : Address) (signing_pubkeys : list Address)
    : list Address :=
  if bool_decide (signing_pubkeys = [authority]) then [] else signing_pubkeys.

(** ** Transactions *)

Definition to_instruction (m : TokenMemo) : Instruction :=
  build_memo (memo_text m) (memo_signers m).

Definition MAX_COMPUTE_UNIT_LIMIT : Z := 1400000.

(** The last instruction is the one that was pushed, with other data. *)
Definition add_compute_unit_limit_from_simulation (self : Token) (instructions : list Instruction)
    (blockhash : Hash) : Client (list Instruction) :=
  let pushed := set_compute_unit_limit MAX_COMPUTE_UNIT_LIMIT in
  let transaction := new_unsigned (instructions ++ [pushed]) (payer self) blockhash in
  simulation_result ← client (client_simulate_transaction transaction);
  units_consumed ← boxed (get_compute_units_consumed simulation_result);
  compute_unit_limit ←
    required (if units_consumed <? 2 ^ 32 then Some units_consumed else None)
      (ClientTokenError.Client too_many_units);
  mret (instructions ++
        [mk_instruction (ix_program_id pushed) (ix_accounts pushed)
           (ix_data (set_compute_unit_limit compute_unit_limit))]).

(** The memo that goes first, if any. *)
Definition memo_instructions (signing_pubkeys : list Address) : Client (list Instruction) :=
  m ← take_memo;
  match m with
  | Some m =>
      if forallb (fun signer => bool_decide (signer ∈ signing_pubkeys)) (memo_signers m)
      then mret [to_instruction m]
      else error ClientTokenError.MissingMemoSigner
  | None => mret []
  end.

Definition sign (signers : list Address) (blockhash : Hash) (transaction : Transaction)
    : Client Transaction :=
  boxed (try_partial_sign signers blockhash transaction).

Definition construct_tx (self : Token) (token_instructions : list Instruction)
    (signing_keypairs : list Address) : Client Transaction :=
  instructions ← memo_instructions signing_keypairs;
  let instructions := instructions ++ token_instructions in
  '(instructions, blockhash) ←
    match nonce_account self, nonce_authority self, nonce_blockhash self with
    | Some nonce_account, Some nonce_authority, Some nonce_blockhash =>
        mret (advance_nonce_account nonce_account nonce_authority :: instructions, nonce_blockhash)
    | _, _, _ =>
        blockhash ← client client_get_latest_blockhash;
        mret (instructions, blockhash)
    end;
  let instructions :=
    match compute_unit_price self with
    | Some compute_unit_price => instructions ++ [set_compute_unit_price compute_unit_price]
    | None => instructions
    end in
  instructions ←
    match compute_unit_limit self with
    | ComputeUnitLimit.Default => mret instructions
    | ComputeUnitLimit.Simulated =>
        add_compute_unit_limit_from_simulation self instructions blockhash
    | ComputeUnitLimit.Static compute_unit_limit =>
        mret (instructions ++ [set_compute_unit_limit compute_unit_limit])
    end;
  let transaction := new_unsigned instructions (payer self) blockhash in
  transaction ←
    (if bool_decide (payer self ∈ signing_keypairs) then mret transaction
     else sign [payer self] blockhash transaction);
  transaction ←
    match nonce_authority self with
    | Some nonce_authority =>
        if negb (bool_decide (nonce_authority = payer self)) &&
           negb (bool_decide (nonce_authority ∈ signing_keypairs))
        then sign [nonce_authority] blockhash transaction else mret transaction
    | None => mret transaction
    end;
  sign signing_keypairs blockhash transaction.

Definition simulate_ixs (self : Token) (token_instructions : list Instruction)
    (signing_keypairs : list Address) : Client SimulationOutput :=
  transaction ← construct_tx self token_instructions signing_keypairs;
  client (client_simulate_transaction transaction).

Definition process_ixs (self : Token) (token_instructions : list Instruction)
    (signing_keypairs : list Address) : Client Output :=
  transaction ← construct_tx self token_instructions signing_keypairs;
  client (client_send_transaction transaction).

(** ** Creating mints and accounts *)

Definition get_minimum_balance_for_rent_exemption (len : nat) : Client Z :=
  client (client_get_minimum_balance_for_rent_exemption len).

(** [for params in ... { instructions.push(params.instruction(..)?); }]. *)
Fixpoint push_instructions (program_id mint : Address) (params : list ExtensionInitializationParams)
    : Result ProgramError (list Instruction) :=
  match params with
  | [] => mret []
  | p :: params =>
      instruction ← ExtensionInitializationParams.instruction p program_id mint;
      instructions ← push_instructions program_id mint params;
      mret (instruction :: instructions)
  end.

(** [Mint] and [Account] have the sizes of their Pod layouts. *)
Definition create_mint (self : Token) (mint_authority : Address) (freeze_authority : option Address)
    (extension_initialization_params : list ExtensionInitializationParams)
    (signing_keypairs : list Address) : Client Output :=
  decimals ← required (decimals self) ClientTokenError.MissingDecimals;
  let extension_types :=
    ExtensionInitializationParams.extension <$> extension_initialization_params in
  space ← program (try_calculate_account_len PodMint extension_types);
  lamports ← get_minimum_balance_for_rent_exemption space;
  instructions ← program
    (push_instructions (program_id self) (pubkey self) extension_initialization_params);
  initialize ← program
    (Instruction.initialize_mint (program_id self) (pubkey self) mint_authority freeze_authority
       decimals);
  process_ixs self
    (system_create_account (payer self) (pubkey self) lamports (Z.of_nat space) (program_id self) ::
     instructions ++ [initialize]) signing_keypairs.

Definition create_native_mint (spl_native_mint : Address) (spl_decimals : byte)
    (program_id payer_ : Address) : Client Token :=
  token ← program (new_native spl_native_mint spl_decimals program_id payer_);
  instruction ← program (Instruction.create_native_mint program_id (payer token));
  _ ← process_ixs token [instruction] [];
  mret token.

Definition create_multisig (self : Token) (account : Address) (multisig_members : list Address)
    (minimum_signers : byte) : Client Output :=
  lamports ← get_minimum_balance_for_rent_exemption Multisig_LEN;
  initialize ← program
    (Instruction.initialize_multisig (program_id self) account multisig_members minimum_signers);
  process_ixs self
    [system_create_account (payer self) account lamports (Z.of_nat Multisig_LEN) (program_id self);
     initialize] [account].

Definition get_associated_token_address (self : Token) (owner : Address) : Address :=
  get_associated_token_address_with_program_id owner (pubkey self) (program_id self).

Definition create_associated_token_account (self : Token) (owner : Address) : Client Output :=
  process_ixs self
    [ata_create_associated_token_account (payer self) owner (pubkey self) (program_id self)] [].

Definition get_account (account : Address) : Client Cell :=
  found ← client (client_get_account account);
  required found ClientTokenError.AccountNotFound.

Definition unpack_mint_info (self : Token) (account : Cell) : Client (StateWithExtensions Mint.Mint) :=
  if negb (bool_decide (cell_owner account = program_id self))
  then error ClientTokenError.AccountInvalidOwner
  else
    let mint_result := swo_unpack Mint.Mint PodMint (cell_data account) in
    match mint_result, decimals self with
    | Ok mint, Some decimals =>
        if negb (bool_decide (decimals = Mint.decimals (swe_base mint)))
        then error ClientTokenError.InvalidDecimals else mret mint
    | _, _ => program mint_result
    end.

Definition get_mint_info (self : Token) : Client (StateWithExtensions Mint.Mint) :=
  account ← get_account (pubkey self);
  unpack_mint_info self account.

Definition get_account_info (self : Token) (account : Address)
    : Client (StateWithExtensions Account.Account) :=
  account ← get_account account;
  if negb (bool_decide (cell_owner account = program_id self))
  then error ClientTokenError.AccountInvalidOwner
  else
    account ← program (swo_unpack Account.Account PodAccount (cell_data account));
    if negb (bool_decide (Account.mint (swe_base account) = pubkey self))
    then error ClientTokenError.AccountInvalidMint else mret account.

Definition get_or_create_associated_account_info (self : Token) (owner : Address)
    : Client (StateWithExtensions Account.Account) := fun s =>
  let account := get_associated_token_address self owner in
  match get_account_info self account s with
  | (Err ClientTokenError.AccountNotFound, s) | (Err ClientTokenError.AccountInvalidOwner, s) =>
      (_ ← create_associated_token_account self owner; get_account_info self account) s
  | r => r
  end.

(** The loop that adds the extensions that are not required already. *)
Fixpoint add_extensions (required_extensions extensions : list ExtensionType) : list ExtensionType :=
  match extensions with
  | [] => required_extensions
  | extension_type :: extensions =>
      add_extensions
        (if bool_decide (extension_type ∈ required_extensions) then required_extensions
         else required_extensions ++ [extension_type]) extensions
  end.

Definition create_auxiliary_token_account_with_extension_space (self : Token)
    (account owner : Address) (extensions : list ExtensionType) : Client Output :=
  state ← get_mint_info self;
  required_extensions ← program
    (try_for_each_required_init_account_extension (swe_tlv_data state)
       (fun extension_type required => Ok (required ++ [extension_type])) []);
  let required_extensions := add_extensions required_extensions extensions in
  space ← program (try_calculate_account_len PodAccount required_extensions);
  lamports ← get_minimum_balance_for_rent_exemption space;
  instructions ←
    (if bool_decide (ExtensionType.ImmutableOwner ∈ required_extensions) then
       instruction ← program (Instruction.initialize_immutable_owner (program_id self) account);
       mret [instruction]
     else mret []);
  initialize ← program
    (Instruction.initialize_account (program_id self) account (pubkey self) owner);
  process_ixs self
    (system_create_account (payer self) account lamports (Z.of_nat space) (program_id self) ::
     instructions ++ [initialize]) [account].

Definition create_auxiliary_token_account (self : Token) (account owner : Address) : Client Output :=
  create_auxiliary_token_account_with_extension_space self account owner [].

(** ** Moving tokens *)

Definition fetch_account_data_fn (address : Address) (n : Network)
    : Result AccountFetchError (option (list byte) * Network) :=
  match client_get_account address n with
  | Ok (found, n) => Ok (cell_data <$> found, n)
  | Err e => Err e
  | Panic => Panic
  end.

Definition extend_accounts (instruction : Instruction) (metas : list AccountMeta) : Instruction :=
  mk_instruction (ix_program_id instruction) (ix_accounts instruction ++ metas) (ix_data instruction).

Definition set_authority (self : Token) (account authority : Address) (new_authority : option Address)
    (authority_type : AuthorityType) (signing_keypairs : list Address) : Client Output :=
  let multisig_signers := get_multisig_signers authority signing_keypairs in
  instruction ← program
    (Instruction.set_authority (program_id self) account new_authority authority_type authority
       multisig_signers);
  process_ixs self [instruction] signing_keypairs.

Definition mint_to (self : Token) (destination authority : Address) (amount : Z)
    (signing_keypairs : list Address) : Client Output :=
  let multisig_signers := get_multisig_signers authority signing_keypairs in
  instruction ← program
    match decimals self with
    | Some decimals =>
        Instruction.mint_to_checked (program_id self) (pubkey self) destination authority
          multisig_signers amount decimals
    | None =>
        Instruction.mint_to (program_id self) (pubkey self) destination authority multisig_signers
          amount
    end;
  process_ixs self [instruction] signing_keypairs.

(** The checked transfer, with the given accounts of the hook or with those
    that are resolved. *)
Definition checked_transfer (self : Token) (source destination authority : Address)
    (multisig_signers : list Address) (amount : Z) (decimals : byte) : Client Instruction :=
  match transfer_hook_accounts self with
  | Some transfer_hook_accounts =>
      instruction ← program
        (Instruction.transfer_checked (program_id self) source (pubkey self) destination authority
           multisig_signers amount decimals);
      mret (extend_accounts instruction transfer_hook_accounts)
  | None =>
      awaited (fun _ => ClientTokenError.AccountNotFound)
        (create_transfer_checked_instruction_with_extra_metas (program_id self) source (pubkey self)
           destination authority multisig_signers amount decimals fetch_account_data_fn)
  end.

Definition transfer (self : Token) (source destination authority : Address) (amount : Z)
    (signing_keypairs : list Address) : Client Output :=
  let multisig_signers := get_multisig_signers authority signing_keypairs in
  instruction ←
    match decimals self with
    | Some decimals =>
        checked_transfer self source destination authority multisig_signers amount decimals
    | None =>
        program (Instruction.transfer (program_id self) source destination authority
                   multisig_signers amount)
    end;
  process_ixs self [instruction] signing_keypairs.

Definition create_recipient_associated_account_and_transfer (self : Token)
    (source destination destination_owner authority : Address) (amount : Z) (fee : option Z)
    (signing_keypairs : list Address) : Client Output :=
  let multisig_signers := get_multisig_signers authority signing_keypairs in
  if negb (bool_decide (destination = get_associated_token_address self destination_owner))
  then error ClientTokenError.AccountInvalidAssociatedAddress
  else
    let create := ata_create_associated_token_account_idempotent (payer self) destination_owner
                    (pubkey self) (program_id self) in
    instruction ←
      match fee with
      | Some fee =>
          decimals ← required (decimals self) ClientTokenError.MissingDecimals;
          program (transfer_fee_instruction.transfer_checked_with_fee (program_id self) source
                     (pubkey self) destination authority multisig_signers amount decimals fee)
      | None =>
          match decimals self with
          | Some decimals =>
              checked_transfer self source destination authority multisig_signers amount decimals
          | None =>
              program (Instruction.transfer (program_id self) source destination authority
                         multisig_signers amount)
          end
      end;
    process_ixs self [create; instruction] signing_keypairs.

Definition transfer_with_fee (self : Token) (source destination authority : Address) (amount fee : Z)
    (signing_keypairs : list Address) : Client Output :=
  let multisig_signers := get_multisig_signers authority signing_keypairs in
  decimals ← required (decimals self) ClientTokenError.MissingDecimals;
  instruction ←
    match transfer_hook_accounts self with
    | Some transfer_hook_accounts =>
        instruction ← program
          (transfer_fee_instruction.transfer_checked_with_fee (program_id self) source (pubkey self)
             destination authority multisig_signers amount decimals fee);
        mret (extend_accounts instruction transfer_hook_accounts)
    | None =>
        awaited (fun _ => ClientTokenError.AccountNotFound)
          (create_transfer_checked_with_fee_instruction_with_extra_metas (program_id self) source
             (pubkey self) destination authority multisig_signers amount decimals fee
             fetch_account_data_fn)
    end;
  process_ixs self [instruction] signing_keypairs.

Definition burn (self : Token) (source authority : Address) (amount : Z)
    (signing_keypairs : list Address) : Client Output :=
  let multisig_signers := get_multisig_signers authority signing_keypairs in
  instruction ← program
    match decimals self with
    | Some decimals =>
        Instruction.burn_checked (program_id self) source (pubkey self) authority multisig_signers
          amount decimals
    | None =>
        Instruction.burn (program_id self) source (pubkey self) authority multisig_signers amount
    end;
  process_ixs self [instruction] signing_keypairs.

Definition permissioned_burn (self : Token) (source permissioned_burn_authority authority : Address)
    (amount : Z) (signing_keypairs : list Address) : Client Output :=
  let multisig_signers := get_multisig_signers authority signing_keypairs in
  instruction ← program
    match decimals self with
    | Some decimals =>
        permissioned_burn_instruction.burn_checked (program_id self) source (pubkey self)
          permissioned_burn_authority authority multisig_signers amount decimals
    | None =>
        permissioned_burn_instruction.burn (program_id self) source (pubkey self)
          permissioned_burn_authority authority multisig_signers amount
    end;
  process_ixs self [instruction] signing_keypairs.

Definition approve (self : Token) (source delegate authority : Address) (amount : Z)
    (signing_keypairs : list Address) : Client Output :=
  let multisig_signers := get_multisig_signers authority signing_keypairs in
  instruction ← program
    match decimals self with
    | Some decimals =>
        Instruction.approve_checked (program_id self) source (pubkey self) delegate authority
          multisig_signers amount decimals
    | None =>
        Instruction.approve (program_id self) source delegate authority multisig_signers amount
    end;
  process_ixs self [instruction] signing_keypairs.

Definition revoke (self : Token) (source authority : Address) (signing_keypairs : list Address)
    : Client Output :=
  let multisig_signers := get_multisig_signers authority signing_keypairs in
  instruction ← program
    (Instruction.revoke (program_id self) source authority multisig_signers);
  process_ixs self [instruction] signing_keypairs.
(** ** Closing, freezing, and wrapped lamports *)

(** The [sync_native] that closing adds when the lamports go to a native
    account. *)
Definition sync_if_native (self : Token) (lamports_destination : Address) : Client (list Instruction) :=
  found ← attempt (client (client_get_account lamports_destination));
  match found with
  | Some (Some destination_account) =>
      match swo_unpack Account.Account PodAccount (cell_data destination_account) with
      | Ok destination_obj =>
          if Account.has_native (swe_base destination_obj) then
            instruction ← program (Instruction.sync_native (program_id self) lamports_destination);
            mret [instruction]
          else mret []
      | Err _ => mret []
      | Panic => program Panic
      end
  | _ => mret []
  end.

Definition close_account (self : Token) (account lamports_destination authority : Address)
    (signing_keypairs : list Address) : Client Output :=
  let multisig_signers := get_multisig_signers authority signing_keypairs in
  close ← program
    (Instruction.close_account (program_id self) account lamports_destination authority
       multisig_signers);
  sync ← sync_if_native self lamports_destination;
  process_ixs self (close :: sync) signing_keypairs.

Definition empty_and_close_account (spl_native_mint : Address) (self : Token)
    (account_to_close lamports_destination tokens_destination authority : Address)
    (signing_keypairs : list Address) : Client Output :=
  let multisig_signers := get_multisig_signers authority signing_keypairs in
  account_state ← get_account_info self account_to_close;
  native ← program (is_native spl_native_mint self);
  let amount := Account.amount (swe_base account_state) in
  emptied ←
    (if negb native && (0 <? amount) then
       instruction ← program
         match decimals self with
         | Some decimals =>
             Instruction.transfer_checked (program_id self) account_to_close (pubkey self)
               tokens_destination authority multisig_signers amount decimals
         | None =>
             Instruction.transfer (program_id self) account_to_close tokens_destination authority
               multisig_signers amount
         end;
       mret [instruction]
     else mret []);
  close ← program
    (Instruction.close_account (program_id self) account_to_close lamports_destination authority
       multisig_signers);
  sync ← sync_if_native self lamports_destination;
  process_ixs self (emptied ++ close :: sync) signing_keypairs.

(** The methods that send one instruction which the authority approves. *)
Definition send_approved (self : Token) (authority : Address) (signing_keypairs : list Address)
    (instruction : list Address -> Result ProgramError Instruction) : Client Output :=
  let multisig_signers := get_multisig_signers authority signing_keypairs in
  instruction ← program (instruction multisig_signers);
  process_ixs self [instruction] signing_keypairs.

Definition freeze (self : Token) (account authority : Address) (signing_keypairs : list Address)
    : Client Output :=
  send_approved self authority signing_keypairs
    (Instruction.freeze_account (program_id self) account (pubkey self) authority).

Definition thaw (self : Token) (account authority : Address) (signing_keypairs : list Address)
    : Client Output :=
  send_approved self authority signing_keypairs
    (Instruction.thaw_account (program_id self) account (pubkey self) authority).

Definition wrap_ixs (spl_native_mint : Address) (self : Token) (account owner : Address)
    (lamports : Z) (immutable_owner : bool) : Client (list Instruction) :=
  native ← program (is_native spl_native_mint self);
  if negb native then error ClientTokenError.AccountInvalidMint
  else if bool_decide (account = get_associated_token_address self owner) then
    mret [system_transfer owner account lamports;
          ata_create_associated_token_account (payer self) owner (pubkey self) (program_id self)]
  else
    let extensions := if immutable_owner then [ExtensionType.ImmutableOwner] else [] in
    space ← program (try_calculate_account_len PodAccount extensions);
    let create :=
      system_create_account (payer self) account lamports (Z.of_nat space) (program_id self) in
    immutable ←
      (if immutable_owner then
         instruction ← program (Instruction.initialize_immutable_owner (program_id self) account);
         mret [instruction]
       else mret []);
    initialize ← program
      (Instruction.initialize_account (program_id self) account (pubkey self) owner);
    mret (create :: immutable ++ [initialize]).

Definition wrap (spl_native_mint : Address) (self : Token) (account owner : Address) (lamports : Z)
    (signing_keypairs : list Address) : Client Output :=
  let immutable_owner := negb (bool_decide (program_id self = inline_spl_token.id)) in
  instructions ← wrap_ixs spl_native_mint self account owner lamports immutable_owner;
  process_ixs self instructions signing_keypairs.

Definition wrap_with_mutable_ownership (spl_native_mint : Address) (self : Token)
    (account owner : Address) (lamports : Z) (signing_keypairs : list Address) : Client Output :=
  instructions ← wrap_ixs spl_native_mint self account owner lamports false;
  process_ixs self instructions signing_keypairs.

Definition unwrap_lamports (self : Token) (source destination authority : Address) (amount : option Z)
    (signing_keypairs : list Address) : Client Output :=
  send_approved self authority signing_keypairs (fun multisig_signers =>
    Instruction.unwrap_lamports (program_id self) source destination authority multisig_signers
      amount).

(** The methods that send one instruction for anyone. *)
Definition send_unsigned (self : Token) (instruction : Result ProgramError Instruction)
    : Client Output :=
  instruction ← program instruction;
  process_ixs self [instruction] [].

Definition sync_native (self : Token) (account : Address) : Client Output :=
  send_unsigned self (Instruction.sync_native (program_id self) account).

Definition withdraw_excess_lamports (self : Token) (source destination authority : Address)
    (signing_keypairs : list Address) : Client Output :=
  send_approved self authority signing_keypairs
    (Instruction.withdraw_excess_lamports (program_id self) source destination authority).

(** ** Extensions *)

Definition set_transfer_fee (self : Token) (authority : Address) (transfer_fee_basis_points maximum_fee : Z)
    (signing_keypairs : list Address) : Client Output :=
  send_approved self authority signing_keypairs
    (fun multisig_signers =>
       transfer_fee_instruction.set_transfer_fee (program_id self) (pubkey self) authority
         multisig_signers transfer_fee_basis_points maximum_fee).

Definition set_default_account_state (self : Token) (authority : Address) (state : AccountState)
    (signing_keypairs : list Address) : Client Output :=
  send_approved self authority signing_keypairs
    (fun multisig_signers =>
       default_account_state_instruction.update_default_account_state (program_id self) (pubkey self)
         authority multisig_signers state).

Definition harvest_withheld_tokens_to_mint (self : Token) (sources : list Address) : Client Output :=
  send_unsigned self
    (transfer_fee_instruction.harvest_withheld_tokens_to_mint (program_id self) (pubkey self) sources).

Definition withdraw_withheld_tokens_from_mint (self : Token) (destination authority : Address)
    (signing_keypairs : list Address) : Client Output :=
  send_approved self authority signing_keypairs
    (transfer_fee_instruction.withdraw_withheld_tokens_from_mint (program_id self) (pubkey self)
       destination authority).

Definition withdraw_withheld_tokens_from_accounts (self : Token) (destination authority : Address) (sources : list Address)
    (signing_keypairs : list Address) : Client Output :=
  send_approved self authority signing_keypairs
    (fun multisig_signers =>
       transfer_fee_instruction.withdraw_withheld_tokens_from_accounts (program_id self) (pubkey self)
         destination authority multisig_signers sources).

Definition reallocate (self : Token) (account authority : Address) (extension_types : list ExtensionType)
    (signing_keypairs : list Address) : Client Output :=
  send_approved self authority signing_keypairs
    (fun multisig_signers =>
       Instruction.reallocate (program_id self) account (payer self) authority multisig_signers
         extension_types).

Definition enable_required_transfer_memos (self : Token) (account authority : Address)
    (signing_keypairs : list Address) : Client Output :=
  send_approved self authority signing_keypairs
    (memo_transfer_instruction.enable_required_transfer_memos (program_id self) account authority).

Definition disable_required_transfer_memos (self : Token) (account authority : Address)
    (signing_keypairs : list Address) : Client Output :=
  send_approved self authority signing_keypairs
    (memo_transfer_instruction.disable_required_transfer_memos (program_id self) account authority).

Definition pause (self : Token) (authority : Address)
    (signing_keypairs : list Address) : Client Output :=
  send_approved self authority signing_keypairs
    (pausable_instruction.pause (program_id self) (pubkey self) authority).

Definition resume (self : Token) (authority : Address)
    (signing_keypairs : list Address) : Client Output :=
  send_approved self authority signing_keypairs
    (pausable_instruction.resume (program_id self) (pubkey self) authority).

Definition enable_cpi_guard (self : Token) (account authority : Address)
    (signing_keypairs : list Address) : Client Output :=
  send_approved self authority signing_keypairs
    (cpi_guard_instruction.enable_cpi_guard (program_id self) account authority).

Definition disable_cpi_guard (self : Token) (account authority : Address)
    (signing_keypairs : list Address) : Client Output :=
  send_approved self authority signing_keypairs
    (cpi_guard_instruction.disable_cpi_guard (program_id self) account authority).

Definition update_interest_rate (self : Token) (authority : Address) (new_rate : Z)
    (signing_keypairs : list Address) : Client Output :=
  send_approved self authority signing_keypairs
    (fun multisig_signers =>
       interest_bearing_mint_instruction.update_rate (program_id self) (pubkey self) authority
         multisig_signers new_rate).

Definition update_multiplier (self : Token) (authority : Address) (new_multiplier : PodF64)
    (new_multiplier_effective_timestamp : Z)
    (signing_keypairs : list Address) : Client Output :=
  send_approved self authority signing_keypairs
    (fun multisig_signers =>
       scaled_ui_amount_instruction.update_multiplier (program_id self) (pubkey self) authority
         multisig_signers new_multiplier new_multiplier_effective_timestamp).

Definition update_transfer_hook_program_id (self : Token) (authority : Address) (new_program_id : option Address)
    (signing_keypairs : list Address) : Client Output :=
  send_approved self authority signing_keypairs
    (fun multisig_signers =>
       transfer_hook_instruction.update (program_id self) (pubkey self) authority multisig_signers
         new_program_id).

Definition update_metadata_address (self : Token) (authority : Address) (new_metadata_address : option Address)
    (signing_keypairs : list Address) : Client Output :=
  send_approved self authority signing_keypairs
    (fun multisig_signers =>
       metadata_pointer_instruction.update (program_id self) (pubkey self) authority multisig_signers
         new_metadata_address).

Definition update_group_address (self : Token) (authority : Address) (new_group_address : option Address)
    (signing_keypairs : list Address) : Client Output :=
  send_approved self authority signing_keypairs
    (fun multisig_signers =>
       group_pointer_instruction.update (program_id self) (pubkey self) authority multisig_signers
         new_group_address).

Definition update_group_member_address (self : Token) (authority : Address) (new_member_address : option Address)
    (signing_keypairs : list Address) : Client Output :=
  send_approved self authority signing_keypairs
    (fun multisig_signers =>
       group_member_pointer_instruction.update (program_id self) (pubkey self) authority multisig_signers
         new_member_address).
End token.
End token.
