(* ===== verification/ConfidentialClient.v ===== *)
(** * The client: confidential instructions, metadata and groups

    The rest of [clients/rust-legacy/src/token.rs]: the methods that read a
    confidential account or mint, ask for the proofs that an instruction needs
    or take them from accounts, and send the instruction with its proofs; the
    accounts that hold proofs and their records; and the metadata and the group
    of a mint, with the rent that they cost.

    The proofs are those of [ClientBalances] and [ProofGeneration]; what the
    client takes besides from other crates is in [ProofAccounts] and
    [DescriptionInstructions].  Requests that the source awaits together are
    made one after the other, all of them before the first result is looked at.

    [confidential_transfer_withdraw] and the other methods with several proofs
    place each instruction that verifies a proof at its index in the list of
    proofs, and the functions that build the instructions count only those
    there are: a proof in an account before one that is not given makes the
    method fail ([split_proofs_fail]). *)
From S2P Require Import Prelude Bytes Errors Ids Runtime Pod ExtensionState Extension TlvTheory.
From S2P Require Import AccountLen MonadTheory Ownership State Transfer PodInstruction VariableLen.
From S2P Require Import Settings Fees UiAmount Instruction ExtensionInstructions TokenMetadata.
From S2P Require Import CiphertextArithmetic ProofExtraction ConfidentialTransfer.
From S2P Require Import ConfidentialTransferFee ConfidentialMintBurn ConfidentialInstructions.
From S2P Require Import ProofGeneration ClientBalances ConfidentialClientTheory Onchain TokenClient.
Import token proof_generation.

(** ** What the client uses besides *)

(** The accounts that hold proofs, and what of the SDK only [Token] uses. *)
Class ProofAccounts `{ZS : ZkSdk} : Type := mk_proof_accounts {
  build_pubkey_validity_proof_data : ElGamalKeypair ->
    Rng -> Result ProofGenerationError (ZkProofData ProofType.PubkeyValidity * Rng);
  (** [ElGamalCiphertext::default()], and [bytes_of] on a proof. *)
  default_ciphertext : ElGamalCiphertext;
  proof_bytes : forall {ty}, ZkProofData ty -> list byte;
  (** [size_of::<ProofContextState<U>>()]. *)
  proof_context_state_size : ProofType -> nat;
  (** [encode_verify_proof] and [encode_verify_proof_from_account] with the
      account and the authority of a context state, and [close_context_state]. *)
  encode_verify_proof_in : ProofInstruction -> Address -> Address ->
    forall ty, ZkProofData ty -> Instruction;
  encode_verify_proof_from_account :
    ProofInstruction -> Address -> Address -> Address -> Z -> Instruction;
  close_context_state : Address -> Address -> Address -> Instruction;
  (** [spl_record]: its id, its instructions, and [WRITABLE_START_INDEX]. *)
  spl_record_id : Address;
  spl_record_initialize : Address -> Address -> Instruction;
  spl_record_write : Address -> Address -> Z -> list byte -> Instruction;
  spl_record_close_account : Address -> Address -> Address -> Instruction;
  spl_record_WRITABLE_START_INDEX : nat;
  (** [bincode::serialized_size] of the transaction of these instructions, its
      signatures, payer and blockhash being the default ones. *)
  serialized_size : list Instruction -> nat
}.

(** The builders of [spl_token_metadata_interface] and [spl_token_group_interface]. *)
Class DescriptionInstructions `{TM : TokenMetadataInterface} : Type := mk_description_instructions {
  metadata_initialize : Address -> Address -> Address -> Address -> Address ->
    list byte -> list byte -> list byte -> Instruction;
  metadata_update_field : Address -> Address -> Address -> Field -> list byte -> Instruction;
  metadata_update_authority : Address -> Address -> Address -> MaybeNull -> Instruction;
  metadata_remove_key : Address -> Address -> Address -> list byte -> bool -> Instruction;
  group_initialize_group : Address -> Address -> Address -> Address -> option Address -> Z -> Instruction;
  group_update_group_max_size : Address -> Address -> Address -> Z -> Instruction;
  group_update_group_authority : Address -> Address -> Address -> option Address -> Instruction;
  group_initialize_member :
    Address -> Address -> Address -> Address -> Address -> Address -> Instruction
}.

Record ProofAccountWithCiphertext : Type := mk_proof_account {
  context_state_account : Address;
  pa_ciphertext_lo : PodElGamalCiphertext;
  pa_ciphertext_hi : PodElGamalCiphertext
}.

(** [m.await] as a value. *)
Definition caught `{PC : ProgramClient} {R A} (m : Client R A) : Client R (Result Failure A) :=
  fun s => match m s with (Panic, s') => (Panic, s') | (r, s') => (Ok r, s') end.

(** [join_all(futures).await]. *)
Fixpoint join_all `{PC : ProgramClient} {R A} (futures : list (Client R A))
    : Client R (list (Result Failure A)) :=
  match futures with
  | [] => mret []
  | f :: futures => r ← caught f; rs ← join_all futures; mret (r :: rs)
  end.

(** [results.into_iter().collect()]. *)
Fixpoint collect {E A} (results : list (Result E A)) : Result E (list A) :=
  match results with
  | [] => mret []
  | r :: results => a ← r; rest ← collect results; mret (a :: rest)
  end.

(** [slice.chunks(n)], which panics when [n] is zero; a chunk a turn, so the
    length of the slice is enough turns. *)
Fixpoint chunks_from (fuel n : nat) (l : list byte) : list (list byte) :=
  match fuel, l with
  | S fuel, _ :: _ => take n l :: chunks_from fuel n (drop n l)
  | _, _ => []
  end.
Definition chunks (n : nat) (l : list byte) : option (list (list byte)) :=
  if (n =? 0)%nat then None else Some (chunks_from (length l) n l).

(** [data.split_at(n)]. *)
Definition split_at_index (n : nat) (data : list byte) : option (list byte * list byte) :=
  if (n <=? length data)%nat then Some (take n data, drop n data) else None.

Module confidential_token.
Section client.
Context `{RT : Runtime} `{PM : PackMethods} `{ZK : ZkInterface} `{ZP : !ZkProofs} `{ZS : !ZkSdk}.
Context `{ZE : !ZkClientSdk} `{PA : !ProofAccounts} `{HF : HookFetching} `{PC : !ProgramClient}.
Local Abbreviation Client := (Client Rng).

(** [g.map_err(|_| e)?] on a computation that draws randomness. *)
Definition generated {Er A} (e : Failure) (g : Gen Er A) : Client A := fun s =>
  match g (rng s) with
  | Ok (a, r) => (Ok a, mk_client_state (network s) r (memo s))
  | Err _ => (Err e, s)
  | Panic => (Panic, s)
  end.

(** [account_info], or what the extension of the account says. *)
Definition account_info_or_fetch {I} (self : Token) (account : Address) (account_info : option I)
    (new : ConfidentialTransferAccount -> I) : Client I :=
  match account_info with
  | Some account_info => mret account_info
  | None =>
      account ← get_account_info self account;
      confidential_transfer_account ← program
        (swo_get_extension PodAccount ConfidentialTransferAccount account);
      mret (new confidential_transfer_account)
  end.
Definition mint_info_or_fetch {I} (V : Type) `{Pod V, Extension V} (self : Token)
    (mint_info : option I) (new : V -> I) : Client I :=
  match mint_info with
  | Some mint_info => mret mint_info
  | None =>
      mint ← get_mint_info self;
      extension ← program (swo_get_extension PodMint V mint);
      mret (new extension)
  end.

Definition confidential_transfer_create_proof_location {ty} (proof_data : option (ZkProofData ty))
    (context_account : option Address) (instruction_offset : Z) : option (ProofLocation ty) :=
  match proof_data with
  | Some proof_data => Some (InstructionOffset instruction_offset proof_data)
  | None => ContextStateAccount <$> context_account
  end.

(** [account.is_none().then_some(data)]. *)
Definition unless_in {X A} (account : option X) (data : A) : option A :=
  match account with Some _ => None | None => Some data end.

(** The proof that is generated unless it is in an account. *)
Definition proof_unless_in {Er ty} (context_state_account : option Address)
    (g : Gen Er (ZkProofData ty)) : Client (option (ZkProofData ty)) :=
  match context_state_account with
  | Some _ => mret None
  | None => proof_data ← generated ClientTokenError.ProofGeneration g; mret (Some proof_data)
  end.

(** The ciphertexts for the auditor, from the proof of their validity or with
    the account that holds it. *)
Definition auditor_ciphertexts
    (proof_data_with_ciphertext : option CiphertextValidityProofWithAuditorCiphertext)
    (proof_account_with_ciphertext : option ProofAccountWithCiphertext)
    : Client (PodElGamalCiphertext * PodElGamalCiphertext) :=
  match proof_data_with_ciphertext with
  | Some data => mret (va_ciphertext_lo data, va_ciphertext_hi data)
  | None =>
      account ← unwrapped proof_account_with_ciphertext;
      mret (pa_ciphertext_lo account, pa_ciphertext_hi account)
  end.

(** A value that is drawn. *)
Definition drawn {A} (g : Rng -> A * Rng) : Client A := fun s =>
  let '(a, r) := g (rng s) in (Ok a, mk_client_state (network s) r (memo s)).

(** ** Confidential accounts *)

Definition confidential_transfer_update_mint (self : Token) (authority : Address)
    (auto_approve_new_account : bool) (auditor_elgamal_pubkey : option PodElGamalPubkey)
    (signing_keypairs : list Address) : Client Output :=
  send_approved self authority signing_keypairs (fun multisig_signers =>
    confidential_transfer_instruction.update_mint (program_id self) (pubkey self) authority
      multisig_signers auto_approve_new_account auditor_elgamal_pubkey).

Definition DEFAULT_MAXIMUM_PENDING_BALANCE_CREDIT_COUNTER : Z := 65536.

Definition confidential_transfer_configure_token_account (self : Token) (account authority : Address)
    (context_state_account : option Address) (maximum_pending_balance_credit_counter : option Z)
    (elgamal_keypair : ElGamalKeypair) (aes_key : AeKey) (signing_keypairs : list Address)
    : Client Output :=
  let multisig_signers := get_multisig_signers authority signing_keypairs in
  let maximum_pending_balance_credit_counter :=
    default DEFAULT_MAXIMUM_PENDING_BALANCE_CREDIT_COUNTER maximum_pending_balance_credit_counter in
  proof_data ← proof_unless_in context_state_account (build_pubkey_validity_proof_data elgamal_keypair);
  proof_location ←
    unwrapped (confidential_transfer_create_proof_location proof_data context_state_account 1);
  decryptable_balance ← drawn (ae_encrypt aes_key 0);
  instructions ← program
    (confidential_transfer_instruction.configure_account (program_id self) account (pubkey self)
       (ae_pod decryptable_balance) maximum_pending_balance_credit_counter authority
       multisig_signers proof_location);
  process_ixs self instructions signing_keypairs.

Definition confidential_transfer_configure_token_account_with_registry (self : Token)
    (account elgamal_registry_account : Address) (payer : option Address) : Client Output :=
  send_unsigned self
    (confidential_transfer_instruction.configure_account_with_registry (program_id self) account
       (pubkey self) elgamal_registry_account payer).

Definition confidential_transfer_approve_account (self : Token) (account authority : Address)
    (signing_keypairs : list Address) : Client Output :=
  send_approved self authority signing_keypairs
    (confidential_transfer_instruction.approve_account (program_id self) account (pubkey self)
       authority).

Definition confidential_transfer_empty_account (self : Token) (account authority : Address)
    (context_state_account : option Address)
    (account_info : option EmptyAccountAccountInfo.EmptyAccountAccountInfo)
    (elgamal_keypair : ElGamalKeypair) (signing_keypairs : list Address) : Client Output :=
  let multisig_signers := get_multisig_signers authority signing_keypairs in
  account_info ← account_info_or_fetch self account account_info EmptyAccountAccountInfo.new;
  proof_data ← proof_unless_in context_state_account
    (EmptyAccountAccountInfo.generate_proof_data account_info elgamal_keypair);
  proof_location ←
    unwrapped (confidential_transfer_create_proof_location proof_data context_state_account 1);
  instructions ← program
    (confidential_transfer_instruction.empty_account (program_id self) account authority
       multisig_signers proof_location);
  process_ixs self instructions signing_keypairs.

Definition confidential_transfer_deposit (self : Token) (account authority : Address) (amount : Z)
    (decimals : byte) (signing_keypairs : list Address) : Client Output :=
  send_approved self authority signing_keypairs
    (confidential_transfer_instruction.deposit (program_id self) account (pubkey self) amount
       decimals authority).

Definition confidential_transfer_withdraw (self : Token) (account authority : Address)
    (equality_proof_account range_proof_account : option Address) (withdraw_amount : Z)
    (decimals : byte) (account_info : option WithdrawAccountInfo.WithdrawAccountInfo)
    (elgamal_keypair : ElGamalKeypair) (aes_key : AeKey) (signing_keypairs : list Address)
    : Client Output :=
  let multisig_signers := get_multisig_signers authority signing_keypairs in
  account_info ← account_info_or_fetch self account account_info WithdrawAccountInfo.new;
  '(equality_proof_data, range_proof_data) ←
    match equality_proof_account, range_proof_account with
    | Some _, Some _ => mret (None, None)
    | _, _ =>
        data ← generated ClientTokenError.ProofGeneration
          (WithdrawAccountInfo.generate_proof_data account_info withdraw_amount elgamal_keypair
             aes_key);
        mret (unless_in equality_proof_account (withdraw_proof.wpd_equality_proof_data data),
              unless_in range_proof_account (withdraw_proof.wpd_range_proof_data data))
    end;
  equality_proof_location ← unwrapped
    (confidential_transfer_create_proof_location equality_proof_data equality_proof_account 1);
  range_proof_location ← unwrapped
    (confidential_transfer_create_proof_location range_proof_data range_proof_account 2);
  new_decryptable_available_balance ← generated ClientTokenError.AccountDecryption
    (WithdrawAccountInfo.new_decryptable_available_balance account_info withdraw_amount aes_key);
  instructions ← program
    (confidential_transfer_instruction.withdraw (program_id self) account (pubkey self)
       withdraw_amount decimals (ae_pod new_decryptable_available_balance) authority
       multisig_signers equality_proof_location range_proof_location);
  process_ixs self instructions signing_keypairs.

(** [&mut instructions[0]], given the accounts of the hook. *)
Definition add_hook_accounts (self : Token)
    (source_account destination_account source_authority : Address) (instructions : list Instruction)
    : Client (list Instruction) :=
  match instructions with
  | [] => unwrapped None
  | first :: rest =>
      first ← awaited (fun _ => ClientTokenError.AccountNotFound)
        (add_extra_account_metas first source_account (pubkey self) destination_account
           source_authority u64_max fetch_account_data_fn);
      mret (first :: rest)
  end.

Definition confidential_transfer_transfer (self : Token)
    (source_account destination_account source_authority : Address)
    (equality_proof_account : option Address)
    (ciphertext_validity_proof_account_with_ciphertext : option ProofAccountWithCiphertext)
    (range_proof_account : option Address) (transfer_amount : Z)
    (account_info : option TransferAccountInfo.TransferAccountInfo)
    (source_elgamal_keypair : ElGamalKeypair) (source_aes_key : AeKey)
    (destination_elgamal_pubkey : ElGamalPubkey) (auditor_elgamal_pubkey : option ElGamalPubkey)
    (signing_keypairs : list Address) : Client Output :=
  let multisig_signers := get_multisig_signers source_authority signing_keypairs in
  account_info ← account_info_or_fetch self source_account account_info TransferAccountInfo.new;
  '(equality_proof_data, ciphertext_validity_proof_data_with_ciphertext, range_proof_data) ←
    match equality_proof_account, ciphertext_validity_proof_account_with_ciphertext,
          range_proof_account with
    | Some _, Some _, Some _ => mret (None, None, None)
    | _, _, _ =>
        data ← generated ClientTokenError.ProofGeneration
          (TransferAccountInfo.generate_split_transfer_proof_data account_info transfer_amount
             source_elgamal_keypair source_aes_key destination_elgamal_pubkey
             auditor_elgamal_pubkey);
        mret (unless_in equality_proof_account (transfer_proof.tpd_equality_proof_data data),
              unless_in ciphertext_validity_proof_account_with_ciphertext
                (transfer_proof.tpd_ciphertext_validity_proof_data_with_ciphertext data),
              unless_in range_proof_account (transfer_proof.tpd_range_proof_data data))
    end;
  '(transfer_amount_auditor_ciphertext_lo, transfer_amount_auditor_ciphertext_hi) ←
    auditor_ciphertexts ciphertext_validity_proof_data_with_ciphertext
      ciphertext_validity_proof_account_with_ciphertext;
  equality_proof_location ← unwrapped
    (confidential_transfer_create_proof_location equality_proof_data equality_proof_account 1);
  ciphertext_validity_proof_location ← unwrapped
    (confidential_transfer_create_proof_location
       (va_proof_data <$> ciphertext_validity_proof_data_with_ciphertext)
       (context_state_account <$> ciphertext_validity_proof_account_with_ciphertext) 2);
  range_proof_location ← unwrapped
    (confidential_transfer_create_proof_location range_proof_data range_proof_account 3);
  new_decryptable_available_balance ← generated ClientTokenError.AccountDecryption
    (TransferAccountInfo.new_decryptable_available_balance account_info transfer_amount
       source_aes_key);
  instructions ← program
    (confidential_transfer_instruction.transfer (program_id self) source_account (pubkey self)
       destination_account (ae_pod new_decryptable_available_balance)
       transfer_amount_auditor_ciphertext_lo transfer_amount_auditor_ciphertext_hi source_authority
       multisig_signers equality_proof_location ciphertext_validity_proof_location
       range_proof_location);
  instructions ←
    add_hook_accounts self source_account destination_account source_authority instructions;
  process_ixs self instructions signing_keypairs.

Definition confidential_transfer_transfer_with_fee (self : Token)
    (source_account destination_account source_authority : Address)
    (equality_proof_account : option Address)
    (transfer_amount_ciphertext_validity_proof_account_with_ciphertext :
       option ProofAccountWithCiphertext)
    (percentage_with_cap_proof_account fee_ciphertext_validity_proof_account range_proof_account :
       option Address)
    (transfer_amount : Z) (account_info : option TransferAccountInfo.TransferAccountInfo)
    (source_elgamal_keypair : ElGamalKeypair) (source_aes_key : AeKey)
    (destination_elgamal_pubkey : ElGamalPubkey) (auditor_elgamal_pubkey : option ElGamalPubkey)
    (withdraw_withheld_authority_elgamal_pubkey : ElGamalPubkey)
    (fee_rate_basis_points maximum_fee : Z) (signing_keypairs : list Address) : Client Output :=
  let multisig_signers := get_multisig_signers source_authority signing_keypairs in
  account_info ← account_info_or_fetch self source_account account_info TransferAccountInfo.new;
  '(equality_proof_data, transfer_amount_ciphertext_validity_proof_data_with_ciphertext,
    percentage_with_cap_proof_data, fee_ciphertext_validity_proof_data, range_proof_data) ←
    match equality_proof_account,
          transfer_amount_ciphertext_validity_proof_account_with_ciphertext,
          percentage_with_cap_proof_account, fee_ciphertext_validity_proof_account,
          range_proof_account with
    | Some _, Some _, Some _, Some _, Some _ => mret (None, None, None, None, None)
    | _, _, _, _, _ =>
        data ← generated ClientTokenError.ProofGeneration
          (TransferAccountInfo.generate_split_transfer_with_fee_proof_data account_info
             transfer_amount source_elgamal_keypair source_aes_key destination_elgamal_pubkey
             auditor_elgamal_pubkey withdraw_withheld_authority_elgamal_pubkey
             fee_rate_basis_points maximum_fee);
        mret (unless_in equality_proof_account
                (transfer_with_fee_proof.tfpd_equality_proof_data data),
              unless_in transfer_amount_ciphertext_validity_proof_account_with_ciphertext
                (transfer_with_fee_proof.tfpd_transfer_amount_ciphertext_validity_proof_data_with_ciphertext
                   data),
              unless_in percentage_with_cap_proof_account
                (transfer_with_fee_proof.tfpd_percentage_with_cap_proof_data data),
              unless_in fee_ciphertext_validity_proof_account
                (transfer_with_fee_proof.tfpd_fee_ciphertext_validity_proof_data data),
              unless_in range_proof_account (transfer_with_fee_proof.tfpd_range_proof_data data))
    end;
  '(transfer_amount_auditor_ciphertext_lo, transfer_amount_auditor_ciphertext_hi) ←
    auditor_ciphertexts transfer_amount_ciphertext_validity_proof_data_with_ciphertext
      transfer_amount_ciphertext_validity_proof_account_with_ciphertext;
  equality_proof_location ← unwrapped
    (confidential_transfer_create_proof_location equality_proof_data equality_proof_account 1);
  transfer_amount_ciphertext_validity_proof_location ← unwrapped
    (confidential_transfer_create_proof_location
       (va_proof_data <$> transfer_amount_ciphertext_validity_proof_data_with_ciphertext)
       (context_state_account <$>
          transfer_amount_ciphertext_validity_proof_account_with_ciphertext) 2);
  fee_sigma_proof_location ← unwrapped
    (confidential_transfer_create_proof_location percentage_with_cap_proof_data
       percentage_with_cap_proof_account 3);
  fee_ciphertext_validity_proof_location ← unwrapped
    (confidential_transfer_create_proof_location fee_ciphertext_validity_proof_data
       fee_ciphertext_validity_proof_account 4);
  range_proof_location ← unwrapped
    (confidential_transfer_create_proof_location range_proof_data range_proof_account 5);
  new_decryptable_available_balance ← generated ClientTokenError.AccountDecryption
    (TransferAccountInfo.new_decryptable_available_balance account_info transfer_amount
       source_aes_key);
  instructions ← program
    (confidential_transfer_instruction.transfer_with_fee (program_id self) source_account
       (pubkey self) destination_account (ae_pod new_decryptable_available_balance)
       transfer_amount_auditor_ciphertext_lo transfer_amount_auditor_ciphertext_hi source_authority
       multisig_signers equality_proof_location transfer_amount_ciphertext_validity_proof_location
       fee_sigma_proof_location fee_ciphertext_validity_proof_location range_proof_location);
  instructions ←
    add_hook_accounts self source_account destination_account source_authority instructions;
  process_ixs self instructions signing_keypairs.

Definition confidential_transfer_apply_pending_balance (self : Token) (account authority : Address)
    (account_info : option ApplyPendingBalanceAccountInfo.ApplyPendingBalanceAccountInfo)
    (elgamal_secret_key : ElGamalSecretKey) (aes_key : AeKey) (signing_keypairs : list Address)
    : Client Output :=
  let multisig_signers := get_multisig_signers authority signing_keypairs in
  account_info ← account_info_or_fetch self account account_info ApplyPendingBalanceAccountInfo.new;
  let expected_pending_balance_credit_counter :=
    ApplyPendingBalanceAccountInfo.pending_balance_credit_counter account_info in
  new_decryptable_available_balance ← generated ClientTokenError.AccountDecryption
    (ApplyPendingBalanceAccountInfo.new_decryptable_available_balance account_info elgamal_secret_key
       aes_key);
  instruction ← program
    (confidential_transfer_instruction.apply_pending_balance (program_id self) account
       expected_pending_balance_credit_counter (ae_pod new_decryptable_available_balance) authority
       multisig_signers);
  process_ixs self [instruction] signing_keypairs.

Definition confidential_transfer_enable_confidential_credits (self : Token)
    (account authority : Address) (signing_keypairs : list Address) : Client Output :=
  send_approved self authority signing_keypairs
    (confidential_transfer_instruction.enable_confidential_credits (program_id self) account
       authority).

Definition confidential_transfer_disable_confidential_credits (self : Token)
    (account authority : Address) (signing_keypairs : list Address) : Client Output :=
  send_approved self authority signing_keypairs
    (confidential_transfer_instruction.disable_confidential_credits (program_id self) account
       authority).

Definition confidential_transfer_enable_non_confidential_credits (self : Token)
    (account authority : Address) (signing_keypairs : list Address) : Client Output :=
  send_approved self authority signing_keypairs
    (confidential_transfer_instruction.enable_non_confidential_credits (program_id self) account
       authority).

Definition confidential_transfer_disable_non_confidential_credits (self : Token)
    (account authority : Address) (signing_keypairs : list Address) : Client Output :=
  send_approved self authority signing_keypairs
    (confidential_transfer_instruction.disable_non_confidential_credits (program_id self) account
       authority).

(** ** Withheld fees of confidential transfers *)

Definition withheld_proof_instructions
    (builder : ProofLocation ProofType.CiphertextCiphertextEquality ->
       Result ProgramError (list Instruction))
    (self : Token) (context_state_account : option Address)
    (account_info : WithheldTokensInfo.WithheldTokensInfo)
    (withdraw_withheld_authority_elgamal_keypair : ElGamalKeypair)
    (destination_elgamal_pubkey : ElGamalPubkey) (signing_keypairs : list Address) : Client Output :=
  proof_data ← proof_unless_in context_state_account
    (WithheldTokensInfo.generate_proof_data account_info withdraw_withheld_authority_elgamal_keypair
       destination_elgamal_pubkey);
  proof_location ←
    unwrapped (confidential_transfer_create_proof_location proof_data context_state_account 1);
  instructions ← program (builder proof_location);
  process_ixs self instructions signing_keypairs.

Definition confidential_transfer_withdraw_withheld_tokens_from_mint (self : Token)
    (destination_account withdraw_withheld_authority : Address)
    (context_state_account : option Address)
    (withheld_tokens_info : option WithheldTokensInfo.WithheldTokensInfo)
    (withdraw_withheld_authority_elgamal_keypair : ElGamalKeypair)
    (destination_elgamal_pubkey : ElGamalPubkey)
    (new_decryptable_available_balance : DecryptableBalance) (signing_keypairs : list Address)
    : Client Output :=
  let multisig_signers := get_multisig_signers withdraw_withheld_authority signing_keypairs in
  account_info ← mint_info_or_fetch ConfidentialTransferFeeConfig self withheld_tokens_info
    (fun config => WithheldTokensInfo.new (ctfc_withheld_amount config));
  withheld_proof_instructions
    (confidential_transfer_fee_instruction.withdraw_withheld_tokens_from_mint (program_id self)
       (pubkey self) destination_account new_decryptable_available_balance
       withdraw_withheld_authority multisig_signers)
    self context_state_account account_info withdraw_withheld_authority_elgamal_keypair
    destination_elgamal_pubkey signing_keypairs.

(** The loop over the fetched accounts. *)
Fixpoint aggregate_withheld
    (sources_extensions : list (Result Failure (StateWithExtensions Account.Account)))
    (aggregate_withheld_amount : ElGamalCiphertext) : Client ElGamalCiphertext :=
  match sources_extensions with
  | [] => mret aggregate_withheld_amount
  | source_extension :: sources_extensions =>
      account ← result source_extension;
      extension ← program (swo_get_extension PodAccount ConfidentialTransferFeeAmount account);
      withheld_amount ← required (ciphertext_try_from (ctfa_withheld_amount extension))
        ClientTokenError.AccountDecryption;
      aggregate_withheld sources_extensions
        (ciphertext_add aggregate_withheld_amount withheld_amount)
  end.

Definition confidential_transfer_withdraw_withheld_tokens_from_accounts (self : Token)
    (destination_account withdraw_withheld_authority : Address)
    (context_state_account : option Address)
    (withheld_tokens_info : option WithheldTokensInfo.WithheldTokensInfo)
    (withdraw_withheld_authority_elgamal_keypair : ElGamalKeypair)
    (destination_elgamal_pubkey : ElGamalPubkey)
    (new_decryptable_available_balance : DecryptableBalance) (sources : list Address)
    (signing_keypairs : list Address) : Client Output :=
  let multisig_signers := get_multisig_signers withdraw_withheld_authority signing_keypairs in
  account_info ←
    match withheld_tokens_info with
    | Some account_info => mret account_info
    | None =>
        sources_extensions ← join_all (get_account_info self <$> sources);
        aggregate_withheld_amount ← aggregate_withheld sources_extensions default_ciphertext;
        mret (WithheldTokensInfo.new (ciphertext_pod aggregate_withheld_amount))
    end;
  withheld_proof_instructions
    (confidential_transfer_fee_instruction.withdraw_withheld_tokens_from_accounts (program_id self)
       (pubkey self) destination_account new_decryptable_available_balance
       withdraw_withheld_authority multisig_signers sources)
    self context_state_account account_info withdraw_withheld_authority_elgamal_keypair
    destination_elgamal_pubkey signing_keypairs.

Definition confidential_transfer_harvest_withheld_tokens_to_mint (self : Token)
    (sources : list Address) : Client Output :=
  send_unsigned self
    (confidential_transfer_fee_instruction.harvest_withheld_tokens_to_mint (program_id self)
       (pubkey self) sources).

Definition confidential_transfer_enable_harvest_to_mint (self : Token)
    (withdraw_withheld_authority : Address) (signing_keypairs : list Address) : Client Output :=
  send_approved self withdraw_withheld_authority signing_keypairs
    (confidential_transfer_fee_instruction.enable_harvest_to_mint (program_id self) (pubkey self)
       withdraw_withheld_authority).

Definition confidential_transfer_disable_harvest_to_mint (self : Token)
    (withdraw_withheld_authority : Address) (signing_keypairs : list Address) : Client Output :=
  send_approved self withdraw_withheld_authority signing_keypairs
    (confidential_transfer_fee_instruction.disable_harvest_to_mint (program_id self) (pubkey self)
       withdraw_withheld_authority).

(** ** Confidential supply *)

Definition confidential_transfer_rotate_supply_elgamal_pubkey (self : Token) (authority : Address)
    (current_supply_elgamal_keypair : ElGamalKeypair) (new_supply_elgamal_pubkey : ElGamalPubkey)
    (aes_key : AeKey) (context_state_account : option Address)
    (account_info : option SupplyAccountInfo.SupplyAccountInfo) (signing_keypairs : list Address)
    : Client Output :=
  let multisig_signers := get_multisig_signers authority signing_keypairs in
  account_info ← mint_info_or_fetch ConfidentialMintBurn self account_info SupplyAccountInfo.new;
  proof_data ← proof_unless_in context_state_account
    (SupplyAccountInfo.generate_rotate_supply_elgamal_pubkey_proof account_info
       current_supply_elgamal_keypair new_supply_elgamal_pubkey aes_key);
  proof_location ←
    unwrapped (confidential_transfer_create_proof_location proof_data context_state_account 1);
  instructions ← program
    (confidential_mint_burn_instruction.rotate_supply_elgamal_pubkey (program_id self) (pubkey self)
       authority multisig_signers (pubkey_pod new_supply_elgamal_pubkey) proof_location);
  process_ixs self instructions signing_keypairs.

Definition confidential_transfer_update_decrypt_supply (self : Token) (authority : Address)
    (new_decryptable_supply : DecryptableBalance) (signing_keypairs : list Address) : Client Output :=
  send_approved self authority signing_keypairs (fun multisig_signers =>
    confidential_mint_burn_instruction.update_decryptable_supply (program_id self) (pubkey self)
      authority multisig_signers new_decryptable_supply).

Definition confidential_transfer_mint (self : Token) (authority destination_account : Address)
    (equality_proof_account : option Address)
    (ciphertext_validity_proof_account_with_ciphertext : option ProofAccountWithCiphertext)
    (range_proof_account : option Address) (mint_amount : Z) (supply_elgamal_keypair : ElGamalKeypair)
    (destination_elgamal_pubkey : ElGamalPubkey) (auditor_elgamal_pubkey : option ElGamalPubkey)
    (aes_key : AeKey) (account_info : option SupplyAccountInfo.SupplyAccountInfo)
    (signing_keypairs : list Address) : Client Output :=
  let multisig_signers := get_multisig_signers authority signing_keypairs in
  account_info ← mint_info_or_fetch ConfidentialMintBurn self account_info SupplyAccountInfo.new;
  '(equality_proof_data, ciphertext_validity_proof_data_with_ciphertext, range_proof_data) ←
    match equality_proof_account, ciphertext_validity_proof_account_with_ciphertext,
          range_proof_account with
    | Some _, Some _, Some _ => mret (None, None, None)
    | _, _, _ =>
        data ← generated ClientTokenError.ProofGeneration
          (SupplyAccountInfo.generate_split_mint_proof_data account_info mint_amount
             supply_elgamal_keypair aes_key destination_elgamal_pubkey auditor_elgamal_pubkey);
        mret (unless_in equality_proof_account (mint_proof.mpd_equality_proof_data data),
              unless_in ciphertext_validity_proof_account_with_ciphertext
                (mint_proof.mpd_ciphertext_validity_proof_data_with_ciphertext data),
              unless_in range_proof_account (mint_proof.mpd_range_proof_data data))
    end;
  equality_proof_location ← unwrapped
    (confidential_transfer_create_proof_location equality_proof_data equality_proof_account 1);
  ciphertext_validity_proof_location ← unwrapped
    (confidential_transfer_create_proof_location
       (va_proof_data <$> ciphertext_validity_proof_data_with_ciphertext)
       (context_state_account <$> ciphertext_validity_proof_account_with_ciphertext) 2);
  range_proof_location ← unwrapped
    (confidential_transfer_create_proof_location range_proof_data range_proof_account 3);
  '(mint_amount_auditor_ciphertext_lo, mint_amount_auditor_ciphertext_hi) ←
    auditor_ciphertexts ciphertext_validity_proof_data_with_ciphertext
      ciphertext_validity_proof_account_with_ciphertext;
  new_decryptable_supply ← generated ClientTokenError.AccountDecryption
    (SupplyAccountInfo.new_decryptable_supply account_info mint_amount supply_elgamal_keypair
       aes_key);
  instructions ← program
    (confidential_mint_burn_instruction.confidential_mint_with_split_proofs (program_id self)
       destination_account (pubkey self) mint_amount_auditor_ciphertext_lo
       mint_amount_auditor_ciphertext_hi authority multisig_signers equality_proof_location
       ciphertext_validity_proof_location range_proof_location (ae_pod new_decryptable_supply));
  process_ixs self instructions signing_keypairs.

Definition confidential_transfer_burn_inner (self : Token) (authority source_account : Address)
    (maybe_permissioned_burn_authority equality_proof_account : option Address)
    (ciphertext_validity_proof_account_with_ciphertext : option ProofAccountWithCiphertext)
    (range_proof_account : option Address) (burn_amount : Z) (source_elgamal_keypair : ElGamalKeypair)
    (supply_elgamal_pubkey : ElGamalPubkey) (auditor_elgamal_pubkey : option ElGamalPubkey)
    (aes_key : AeKey) (account_info : option BurnAccountInfo.BurnAccountInfo)
    (signing_keypairs : list Address) : Client Output :=
  let multisig_signers := get_multisig_signers authority signing_keypairs in
  account_info ← account_info_or_fetch self source_account account_info BurnAccountInfo.new;
  '(equality_proof_data, ciphertext_validity_proof_data_with_ciphertext, range_proof_data) ←
    match equality_proof_account, ciphertext_validity_proof_account_with_ciphertext,
          range_proof_account with
    | Some _, Some _, Some _ => mret (None, None, None)
    | _, _, _ =>
        data ← generated ClientTokenError.ProofGeneration
          (BurnAccountInfo.generate_split_burn_proof_data account_info burn_amount
             source_elgamal_keypair aes_key supply_elgamal_pubkey auditor_elgamal_pubkey);
        mret (unless_in equality_proof_account (burn_proof.bpd_equality_proof_data data),
              unless_in ciphertext_validity_proof_account_with_ciphertext
                (burn_proof.bpd_ciphertext_validity_proof_data_with_ciphertext data),
              unless_in range_proof_account (burn_proof.bpd_range_proof_data data))
    end;
  equality_proof_location ← unwrapped
    (confidential_transfer_create_proof_location equality_proof_data equality_proof_account 1);
  ciphertext_validity_proof_location ← unwrapped
    (confidential_transfer_create_proof_location
       (va_proof_data <$> ciphertext_validity_proof_data_with_ciphertext)
       (context_state_account <$> ciphertext_validity_proof_account_with_ciphertext) 2);
  range_proof_location ← unwrapped
    (confidential_transfer_create_proof_location range_proof_data range_proof_account 3);
  '(burn_amount_auditor_ciphertext_lo, burn_amount_auditor_ciphertext_hi) ←
    auditor_ciphertexts ciphertext_validity_proof_data_with_ciphertext
      ciphertext_validity_proof_account_with_ciphertext;
  new_decryptable_balance ← generated ClientTokenError.AccountDecryption
    (BurnAccountInfo.new_decryptable_balance account_info burn_amount aes_key);
  instructions ← program
    match maybe_permissioned_burn_authority with
    | Some permissioned_burn_authority =>
        permissioned_confidential_burn_instruction.confidential_burn_with_split_proofs
          (program_id self) source_account (pubkey self) permissioned_burn_authority
          (ae_pod new_decryptable_balance) burn_amount_auditor_ciphertext_lo
          burn_amount_auditor_ciphertext_hi authority multisig_signers equality_proof_location
          ciphertext_validity_proof_location range_proof_location
    | None =>
        confidential_mint_burn_instruction.confidential_burn_with_split_proofs (program_id self)
          source_account (pubkey self) (ae_pod new_decryptable_balance)
          burn_amount_auditor_ciphertext_lo burn_amount_auditor_ciphertext_hi authority
          multisig_signers equality_proof_location ciphertext_validity_proof_location
          range_proof_location
    end;
  process_ixs self instructions signing_keypairs.

Definition confidential_transfer_permissioned_burn (self : Token)
    (authority source_account permissioned_burn_authority : Address) :=
  confidential_transfer_burn_inner self authority source_account (Some permissioned_burn_authority).

Definition confidential_transfer_burn (self : Token) (authority source_account : Address) :=
  confidential_transfer_burn_inner self authority source_account None.

Definition confidential_transfer_apply_pending_burn (self : Token) (authority : Address)
    (signing_keypairs : list Address) : Client Output :=
  send_approved self authority signing_keypairs
    (confidential_mint_burn_instruction.apply_pending_burn (program_id self) (pubkey self) authority).

(** ** Accounts that hold proofs *)

Definition PACKET_DATA_SIZE : nat := 1232.

Definition calculate_record_max_chunk_size
    (create_record_instructions : bool -> list byte -> Z -> list Instruction)
    (first_instruction : bool) : nat :=
  PACKET_DATA_SIZE - serialized_size (create_record_instructions first_instruction [] 0) - 1.

(** The closure of [confidential_transfer_create_record_account]. *)
Definition create_record_instructions (self : Token) (record_account record_authority : Address)
    (rent : Z) (space : nat) (first_instruction : bool) (bytes : list byte) (offset : Z)
    : list Instruction :=
  (if first_instruction
   then [system_create_account (payer self) record_account rent (Z.of_nat space) spl_record_id;
         spl_record_initialize record_account record_authority]
   else []) ++ [spl_record_write record_account record_authority offset bytes].

(** The loop over the chunks. *)
Fixpoint record_batches (create : list byte -> Z -> list Instruction) (record_offset : Z)
    (chunks : list (list byte)) : list (list Instruction) :=
  match chunks with
  | [] => []
  | chunk :: chunks =>
      create chunk record_offset ::
      record_batches create (u64_saturating_add record_offset (Z.of_nat (length chunk))) chunks
  end.

Definition confidential_transfer_create_record_account {ty} (self : Token)
    (record_account record_authority : Address) (proof_data : ZkProofData ty)
    (record_account_signer record_authority_signer : Address) : Client (list Output) :=
  let proof_data := proof_bytes proof_data in
  let space := (length proof_data + spl_record_WRITABLE_START_INDEX)%nat in
  rent ← get_minimum_balance_for_rent_exemption space;
  let create := create_record_instructions self record_account record_authority rent space in
  let first_chunk_size := calculate_record_max_chunk_size create true in
  '(first_chunk, rest) ←
    (if (space <=? first_chunk_size)%nat then mret (proof_data, [])
     else unwrapped (split_at_index first_chunk_size proof_data));
  _ ← process_ixs self (create true first_chunk 0) [record_account_signer; record_authority_signer];
  let subsequent_chunk_size := calculate_record_max_chunk_size create false in
  chunks ← unwrapped (chunks subsequent_chunk_size rest);
  let ixs_batch := record_batches (create false) (Z.of_nat first_chunk_size) chunks in
  outputs ← join_all ((fun ixs => process_ixs self ixs [record_authority_signer]) <$> ixs_batch);
  result (collect outputs).

Definition confidential_transfer_close_record_account (self : Token)
    (record_account lamport_destination_account record_account_authority : Address)
    (signing_keypairs : list Address) : Client Output :=
  process_ixs self
    [spl_record_close_account record_account record_account_authority lamport_destination_account]
    signing_keypairs.

Definition confidential_transfer_create_context_state_account {ty} (self : Token)
    (context_state_account context_state_authority : Address) (proof_data : ZkProofData ty)
    (signing_keypairs : list Address) : Client Output :=
  instruction_type ← program (zk_proof_type_to_instruction ty);
  let space := proof_context_state_size ty in
  rent ← get_minimum_balance_for_rent_exemption space;
  process_ixs self
    [system_create_account (payer self) context_state_account rent (Z.of_nat space) zk_id;
     encode_verify_proof_in instruction_type context_state_account context_state_authority ty
       proof_data] signing_keypairs.

Definition RECORD_ACCOUNT_PROOF_OFFSET : Z := 33.

Definition confidential_transfer_create_context_state_account_from_record (ty : ProofType)
    (self : Token) (context_state_account context_state_authority record_account : Address)
    (signing_keypairs : list Address) : Client Output :=
  instruction_type ← program (zk_proof_type_to_instruction ty);
  let space := proof_context_state_size ty in
  rent ← get_minimum_balance_for_rent_exemption space;
  process_ixs self
    [system_create_account (payer self) context_state_account rent (Z.of_nat space) zk_id;
     encode_verify_proof_from_account instruction_type context_state_account
       context_state_authority record_account RECORD_ACCOUNT_PROOF_OFFSET] signing_keypairs.

Definition confidential_transfer_close_context_state_account (self : Token)
    (context_state_account lamport_destination_account context_state_authority : Address)
    (signing_keypairs : list Address) : Client Output :=
  process_ixs self
    [close_context_state context_state_account context_state_authority lamport_destination_account]
    signing_keypairs.

(** ** Reading confidential balances *)

Definition fetch_balance_info (self : Token) (account : Address)
    : Client ApplyPendingBalanceAccountInfo.ApplyPendingBalanceAccountInfo :=
  account_info_or_fetch self account None ApplyPendingBalanceAccountInfo.new.

Definition confidential_transfer_get_pending_balance (self : Token) (account : Address)
    (elgamal_secret_key : ElGamalSecretKey) : Client Z :=
  account_info ← fetch_balance_info self account;
  generated ClientTokenError.AccountDecryption
    (ApplyPendingBalanceAccountInfo.get_pending_balance account_info elgamal_secret_key).

Definition confidential_transfer_get_available_balance (self : Token) (account : Address)
    (aes_key : AeKey) : Client Z :=
  account_info ← fetch_balance_info self account;
  generated ClientTokenError.AccountDecryption
    (ApplyPendingBalanceAccountInfo.get_available_balance account_info aes_key).

Definition confidential_transfer_get_total_balance (self : Token) (account : Address)
    (elgamal_secret_key : ElGamalSecretKey) (aes_key : AeKey) : Client Z :=
  account_info ← fetch_balance_info self account;
  generated ClientTokenError.AccountDecryption
    (ApplyPendingBalanceAccountInfo.get_total_balance account_info elgamal_secret_key aes_key).

Definition confidential_transfer_has_pending_balance (self : Token) (account : Address)
    : Client bool :=
  account_info ← fetch_balance_info self account;
  mret (ApplyPendingBalanceAccountInfo.has_pending_balance account_info).
End client.
End confidential_token.

(** ** Metadata and groups *)

Module description_token.
Section client.
Context `{RT : Runtime} `{PM : PackMethods} `{HF : HookFetching} `{PC : !ProgramClient} {R : Type}.
Context `{TM : TokenMetadataInterface} `{DI : !DescriptionInstructions}.
Local Abbreviation Client := (Client R).

(** [get_variable_len_extension] on the owned view. *)
Definition swo_get_variable_len_extension (V : Type) `{VariableLenPack V, Extension V} {S}
    (st : StateWithExtensions S) : Result ProgramError V :=
  data ← get_extension_bytes PodMint (TYPE V) (swe_tlv_data st);
  vl_unpack_from_slice data.

(** What the mint lacks for rent at its new length, which the extension
    determines: [get_minimum_balance_for_rent_exemption] and what follows it. *)
Definition additional_rent (new_account_len : nat) (account_lamports : Z) : Client Z :=
  new_rent_exempt_minimum ← get_minimum_balance_for_rent_exemption new_account_len;
  mret (u64_saturating_sub new_rent_exempt_minimum account_lamports).

Definition new_account_len_with (token_metadata : TokenMetadata)
    (mint_state : StateWithExtensions Mint.Mint) : Result ProgramError nat :=
  packed_len ← vl_get_packed_len token_metadata;
  try_get_new_account_len_for_extension_len (S := PodMint) (TYPE TokenMetadata)
    (swe_tlv_data mint_state) packed_len.

Definition get_additional_rent_for_new_metadata (self : Token) (token_metadata : TokenMetadata)
    : Client Z :=
  account ← get_account (pubkey self);
  mint_state ← unpack_mint_info self account;
  new_account_len ← program (new_account_len_with token_metadata mint_state);
  additional_rent new_account_len (cell_lamports account).

Definition get_additional_rent_for_updated_metadata (self : Token) (field : Field)
    (value : list byte) : Client Z :=
  account ← get_account (pubkey self);
  mint_state ← unpack_mint_info self account;
  token_metadata ← program (swo_get_variable_len_extension TokenMetadata mint_state);
  let token_metadata := tm_update field value token_metadata in
  new_account_len ← program (new_account_len_with token_metadata mint_state);
  additional_rent new_account_len (cell_lamports account).

Definition get_additional_rent_for_fixed_len_extension (V : Type) `{Pod V, Extension V}
    (self : Token) : Client Z :=
  account ← get_account (pubkey self);
  mint_state ← unpack_mint_info self account;
  match swo_get_extension PodMint V mint_state with
  | Ok _ => mret 0
  | Err _ =>
      new_account_len ← program
        (try_get_new_account_len_for_extension_len (S := PodMint) (TYPE V) (swe_tlv_data mint_state)
           (size_of V));
      additional_rent new_account_len (cell_lamports account)
  | Panic => program Panic
  end.

(** The transfer of what is lacking goes first. *)
Definition rent_transfer (self : Token) (payer : Address) (additional_lamports : Z)
    : list Instruction :=
  if 0 <? additional_lamports then [system_transfer payer (pubkey self) additional_lamports] else [].

Definition token_metadata_initialize (self : Token) (update_authority mint_authority : Address)
    (name symbol uri : list byte) (signing_keypairs : list Address) : Client Output :=
  process_ixs self
    [metadata_initialize (program_id self) (pubkey self) update_authority (pubkey self) mint_authority
       name symbol uri] signing_keypairs.

Definition token_metadata_initialize_with_rent_transfer (self : Token)
    (payer update_authority mint_authority : Address) (name symbol uri : list byte)
    (signing_keypairs : list Address) : Client Output :=
  let token_metadata := tm_new name symbol uri (zeroed 32) (zeroed 32) in
  additional_lamports ← get_additional_rent_for_new_metadata self token_metadata;
  process_ixs self
    (rent_transfer self payer additional_lamports ++
     [metadata_initialize (program_id self) (pubkey self) update_authority (pubkey self)
        mint_authority name symbol uri]) signing_keypairs.

Definition token_metadata_update_field (self : Token) (update_authority : Address) (field : Field)
    (value : list byte) (signing_keypairs : list Address) : Client Output :=
  process_ixs self
    [metadata_update_field (program_id self) (pubkey self) update_authority field value]
    signing_keypairs.

Definition token_metadata_update_field_with_rent_transfer (self : Token)
    (payer update_authority : Address) (field : Field) (value : list byte)
    (transfer_lamports : option Z) (signing_keypairs : list Address) : Client Output :=
  additional_lamports ←
    match transfer_lamports with
    | Some transfer_lamports => mret transfer_lamports
    | None => get_additional_rent_for_updated_metadata self field value
    end;
  process_ixs self
    (rent_transfer self payer additional_lamports ++
     [metadata_update_field (program_id self) (pubkey self) update_authority field value])
    signing_keypairs.

Definition token_metadata_update_authority (self : Token) (current_authority : Address)
    (new_authority : option Address) (signing_keypairs : list Address) : Client Output :=
  new_authority ← program (ok_or (maybe_null_try_from new_authority) ProgramError.InvalidArgument);
  process_ixs self
    [metadata_update_authority (program_id self) (pubkey self) current_authority new_authority]
    signing_keypairs.

Definition token_metadata_remove_key (self : Token) (update_authority : Address) (key : list byte)
    (idempotent : bool) (signing_keypairs : list Address) : Client Output :=
  process_ixs self
    [metadata_remove_key (program_id self) (pubkey self) update_authority key idempotent]
    signing_keypairs.

Definition token_group_initialize (self : Token) (mint_authority update_authority : Address)
    (max_size : Z) (signing_keypairs : list Address) : Client Output :=
  process_ixs self
    [group_initialize_group (program_id self) (pubkey self) (pubkey self) mint_authority
       (Some update_authority) max_size] signing_keypairs.

Definition token_group_initialize_with_rent_transfer (self : Token)
    (payer mint_authority update_authority : Address) (max_size : Z)
    (signing_keypairs : list Address) : Client Output :=
  additional_lamports ← get_additional_rent_for_fixed_len_extension TokenGroup self;
  process_ixs self
    (rent_transfer self payer additional_lamports ++
     [group_initialize_group (program_id self) (pubkey self) (pubkey self) mint_authority
        (Some update_authority) max_size]) signing_keypairs.

Definition token_group_update_max_size (self : Token) (update_authority : Address)
    (new_max_size : Z) (signing_keypairs : list Address) : Client Output :=
  process_ixs self
    [group_update_group_max_size (program_id self) (pubkey self) update_authority new_max_size]
    signing_keypairs.

Definition token_group_update_authority (self : Token) (current_authority : Address)
    (new_authority : option Address) (signing_keypairs : list Address) : Client Output :=
  process_ixs self
    [group_update_group_authority (program_id self) (pubkey self) current_authority new_authority]
    signing_keypairs.

Definition token_group_initialize_member (self : Token)
    (mint_authority group_mint group_update_authority : Address) (signing_keypairs : list Address)
    : Client Output :=
  process_ixs self
    [group_initialize_member (program_id self) (pubkey self) (pubkey self) mint_authority group_mint
       group_update_authority] signing_keypairs.

Definition token_group_initialize_member_with_rent_transfer (self : Token)
    (payer mint_authority group_mint group_update_authority : Address)
    (signing_keypairs : list Address) : Client Output :=
  additional_lamports ← get_additional_rent_for_fixed_len_extension TokenGroupMember self;
  process_ixs self
    (rent_transfer self payer additional_lamports ++
     [group_initialize_member (program_id self) (pubkey self) (pubkey self) mint_authority group_mint
        group_update_authority]) signing_keypairs.
End client.
End description_token.

(** ** Proofs in accounts and in the transaction *)

(** Of the proofs, in their order, those in accounts come last. *)
Fixpoint accounts_last (in_account : list bool) : bool :=
  match in_account with
  | [] => true
  | b :: in_account => if b then forallb (fun b => b) in_account else accounts_last in_account
  end.

Definition given {A} (o : option A) : bool := match o with Some _ => true | None => false end.

Section split_proofs.
Context `{RT : Runtime} `{PM : PackMethods} `{ZK : ZkInterface} `{ZP : !ZkProofs} `{ZS : !ZkSdk}.
Context `{ZE : !ZkClientSdk} `{PA : !ProofAccounts} `{HF : HookFetching} `{PC : !ProgramClient}.
Import confidential_token.

Lemma append_proof_Ok {ty} i (location : ProofLocation ty) next ixs next' ixs' :
  append_proof i location (next, ixs) = Ok (next', ixs') ->
  forall places, in_sequence next (place location :: places) = in_sequence next' places.
Proof.
  destruct location as [o d|k]; cbn [append_proof place in_sequence].
  - unfold fail_if. destruct (o =? next); cbn; [|done]. by intros [= <- _] places.
  - by intros [= <- _] places.
Qed.

Lemma process_proof_location_Ok {ty} i (location : ProofLocation ty) accounts next ixs push
    o accounts' next' ixs' :
  process_proof_location accounts next ixs location push i = Ok (o, (accounts', next', ixs')) ->
  forall places, in_sequence next (place location :: places) = in_sequence next' places.
Proof.
  destruct location as [o' d|k]; cbn [process_proof_location place in_sequence].
  - unfold fail_if. destruct (o' =? next); cbn; [|done]. unfold i8_checked_add, checked.
    destruct (in_range _ _ _); cbn; [|done]. by intros [= _ _ <- _] places.
  - by intros [= _ _ <- _] places.
Qed.

(** The first bind of a function that builds instructions. *)
Ltac built_inv H :=
  repeat (apply bind_Ok in H as (? & ? & H);
          repeat match goal with x : (_ * _)%type |- _ => destruct x end);
  repeat match goal with
  | H : append_proof _ _ (_, _) = Ok _ |- _ => pose proof (append_proof_Ok _ _ _ _ _ _ H); clear H
  | H : process_proof_location _ _ _ _ _ _ = Ok _ |- _ =>
      pose proof (process_proof_location_Ok _ _ _ _ _ _ _ _ _ _ H); clear H
  end;
  repeat match goal with
  | H : forall places, in_sequence _ _ = _ |- _ => rewrite H; clear H
  end.

Lemma withdraw_built p k m n d b a signers l1 l2 ixs :
  confidential_transfer_instruction.withdraw p k m n d b a signers l1 l2 = Ok ixs ->
  in_sequence 1 [place l1; place l2] = true.
Proof. unfold confidential_transfer_instruction.withdraw. intros H. by built_inv H. Qed.

Lemma transfer_built p k m k' b lo hi a signers l1 l2 l3 ixs :
  confidential_transfer_instruction.transfer p k m k' b lo hi a signers l1 l2 l3 = Ok ixs ->
  in_sequence 1 [place l1; place l2; place l3] = true.
Proof. unfold confidential_transfer_instruction.transfer. intros H. by built_inv H. Qed.

Lemma transfer_with_fee_built p k m k' b lo hi a signers l1 l2 l3 l4 l5 ixs :
  confidential_transfer_instruction.transfer_with_fee p k m k' b lo hi a signers l1 l2 l3 l4 l5 =
    Ok ixs ->
  in_sequence 1 [place l1; place l2; place l3; place l4; place l5] = true.
Proof. unfold confidential_transfer_instruction.transfer_with_fee. intros H. by built_inv H. Qed.

Lemma mint_built p k m lo hi a signers l1 l2 l3 b ixs :
  confidential_mint_burn_instruction.confidential_mint_with_split_proofs p k m lo hi a signers l1 l2
    l3 b = Ok ixs ->
  in_sequence 1 [place l1; place l2; place l3] = true.
Proof.
  unfold confidential_mint_burn_instruction.confidential_mint_with_split_proofs. intros H.
  by built_inv H.
Qed.

Lemma burn_built p k m b lo hi a signers l1 l2 l3 ixs :
  confidential_mint_burn_instruction.confidential_burn_with_split_proofs p k m b lo hi a signers l1
    l2 l3 = Ok ixs ->
  in_sequence 1 [place l1; place l2; place l3] = true.
Proof.
  unfold confidential_mint_burn_instruction.confidential_burn_with_split_proofs. intros H.
  by built_inv H.
Qed.

Lemma permissioned_burn_built p k m pa b lo hi a signers l1 l2 l3 ixs :
  permissioned_confidential_burn_instruction.confidential_burn_with_split_proofs p k m pa b lo hi a
    signers l1 l2 l3 = Ok ixs ->
  in_sequence 1 [place l1; place l2; place l3] = true.
Proof.
  unfold permissioned_confidential_burn_instruction.confidential_burn_with_split_proofs. intros H.
  by built_inv H.
Qed.

(** The steps of a method that succeeded. *)
Lemma client_bind_Ok {A B} (m : Client Rng A) (f : A -> Client Rng B) s b s' :
  (m ≫= f) s = (Ok b, s') -> exists a s1, m s = (Ok a, s1) /\ f a s1 = (Ok b, s').
Proof.
  unfold mbind, Client_bind. destruct (m s) as [[a|e|] s1]; [|done|done]. by exists a, s1.
Qed.

Lemma program_Ok {A} (r : Result ProgramError A) (s s' : ClientState Rng) a :
  program r s = (Ok a, s') -> r = Ok a.
Proof. unfold program, result. destruct r; cbn; congruence. Qed.

Lemma unwrapped_Ok {A} (o : option A) (s s' : ClientState Rng) a :
  unwrapped o s = (Ok a, s') -> o = Some a.
Proof. unfold unwrapped, result. destruct o; cbn; congruence. Qed.

Ltac sent_inv H :=
  repeat (apply client_bind_Ok in H as (? & ? & ? & H);
          repeat match goal with x : (_ * _)%type |- _ => destruct x end).

(** In a method that sent what it built, the locations are what they were
    created from, and [built] says where they are. *)
Ltac refused H built :=
  sent_inv H;
  repeat match goal with
  | H : mret _ _ = _ |- _ => cbn in H; injection H as ?; subst
  | H : (_ ≫= _) _ = _ |- _ => sent_inv H
  end;
  repeat match goal with H : unwrapped _ _ = _ |- _ => apply unwrapped_Ok in H end;
  cbn [unless_in confidential_transfer_create_proof_location fmap option_fmap option_map] in *;
  simplify_eq;
  match goal with H : program _ _ = _ |- _ => apply program_Ok, built in H; discriminate H end.

(** C26: a client that gives some of the proofs in accounts and not a later one
    fails: when [confidential_transfer_withdraw], [confidential_transfer_transfer],
    [confidential_transfer_transfer_with_fee], [confidential_transfer_mint] or a
    confidential burn succeeds, the proofs in accounts are the last ones of the
    list, because these methods number the instructions of the others by their
    place among all proofs, and the functions that build the instructions
    expect the next number. *)
Theorem split_proofs_fail (self : Token) k k' authority signers n (s s' : ClientState Rng) out
    (e f : option Address) (v : option ProofAccountWithCiphertext) (c g : option Address) :
  (forall d info keypair key,
     accounts_last [given e; given f] = false ->
     confidential_transfer_withdraw self k authority e f n d info keypair key signers s
       <> (Ok out, s')) /\
  (forall info keypair key destination auditor,
     accounts_last [given e; given v; given f] = false ->
     confidential_transfer_transfer self k k' authority e v f n info keypair key destination auditor
       signers s <> (Ok out, s')) /\
  (forall info keypair key destination auditor withheld rate fee,
     accounts_last [given e; given v; given c; given g; given f] = false ->
     confidential_transfer_transfer_with_fee self k k' authority e v c g f n info keypair key
       destination auditor withheld rate fee signers s <> (Ok out, s')) /\
  (forall info keypair key destination auditor,
     accounts_last [given e; given v; given f] = false ->
     confidential_transfer_mint self authority k e v f n keypair destination auditor key info signers
       s <> (Ok out, s')) /\
  (forall permissioned info keypair key supply auditor,
     accounts_last [given e; given v; given f] = false ->
     confidential_transfer_burn_inner self authority k permissioned e v f n keypair supply auditor
       key info signers s <> (Ok out, s')).
Proof.
  split_and!.
  - intros * Hg H. unfold confidential_transfer_withdraw in H.
    destruct e, f; try discriminate Hg; refused H withdraw_built.
  - intros * Hg H. unfold confidential_transfer_transfer, auditor_ciphertexts in H.
    destruct e, v, f; try discriminate Hg; refused H transfer_built.
  - intros * Hg H. unfold confidential_transfer_transfer_with_fee, auditor_ciphertexts in H.
    destruct e, v, c, g, f; try discriminate Hg; refused H transfer_with_fee_built.
  - intros * Hg H. unfold confidential_transfer_mint, auditor_ciphertexts in H.
    destruct e, v, f; try discriminate Hg; refused H mint_built.
  - intros * Hg H. unfold confidential_transfer_burn_inner, auditor_ciphertexts in H.
    destruct e, v, f; try discriminate Hg; destruct permissioned;
      first [refused H burn_built|refused H permissioned_burn_built].
Qed.

(** The length that decides whether a proof is split is that of the account,
    which has a header: a proof that fits into the first chunk, with the header
    not, is split behind its end. *)
Lemma record_account_panics {ty} (self : Token) k a (proof_data : ZkProofData ty) k_signer a_signer
    rent (s s' : ClientState Rng) :
  let n := length (proof_bytes proof_data) in
  let space := (n + spl_record_WRITABLE_START_INDEX)%nat in
  let first_chunk_size :=
    calculate_record_max_chunk_size (create_record_instructions self k a rent space) true in
  get_minimum_balance_for_rent_exemption space s = (Ok rent, s') ->
  (n < first_chunk_size < space)%nat ->
  confidential_transfer_create_record_account self k a proof_data k_signer a_signer s = (Panic, s').
Proof.
  intros n space first_chunk_size Hr Hn. unfold confidential_transfer_create_record_account.
  rewrite (client_step _ _ _ _ _ Hr). fold n space first_chunk_size.
  rewrite (proj2 (Nat.leb_gt space first_chunk_size)) by lia. unfold split_at_index.
  rewrite (proj2 (Nat.leb_gt first_chunk_size (length (proof_bytes proof_data)))) by (fold n; lia).
  reflexivity.
Qed.
End split_proofs.
