(* ===== verification/ProofGenerationTheory.v ===== *)
(** * The laws of the SDK, and runs of its clients

    The documented laws of [solana_zk_sdk]: ciphertexts and commitments are
    pairs of points and points of the group ([ZkSdkLaws]), and a prover given a
    true statement returns a proof with that statement as its context
    ([ZkProvers]).  Then what the operations of the SDK are on the bytes that the
    processor works on, and rules for runs that succeed whatever is drawn
    ([yields]). *)
From stdpp Require Import vector.
From S2P Require Import Prelude Bytes Errors Ids Runtime Pod ExtensionState CiphertextArithmetic.
From S2P Require Import CiphertextTheory ProofExtraction TransferFee ConfidentialTransfer ConfidentialPure.
From S2P Require Import ExtensionInstructions ConfidentialInstructions ProofGeneration.
Import proof_generation.

(** ** The laws of the SDK *)

(** One commitment of a range proof. *)
Record RangeClaim `{ZS : ZkSdk} : Type := mk_range_claim {
  rc_commitment : PedersenCommitment;
  rc_amount : Z;
  rc_bits : nat;
  rc_opening : PedersenOpening
}.
#[global] Arguments mk_range_claim {_ _ _} _ _ _ _.

(** The context of a range proof has room for eight commitments. *)
Definition range_context_of `{ZS : ZkSdk} (claims : list RangeClaim) : BatchedRangeProofContext :=
  mk_batched_range (resize 8 (zeroed 32) ((commitment_pod ∘ rc_commitment) <$> claims))
    (resize 8 x00 ((u8_of_Z ∘ Z.of_nat ∘ rc_bits) <$> claims)).

(** The prover returns a proof about [P]. *)
Definition proves `{ZS : ZkSdk} {A} (r : Result ProofGenerationError (A * Rng)) (P : A -> Prop) : Prop :=
  exists a g, r = Ok (a, g) /\ P a.

Class ZkSdkLaws (E : Type) `{CL : CurveLaws E} `{ZS : ZkSdk} : Type := mk_zk_sdk_laws {
  pubkey_point : ElGamalPubkey -> E;
  pubkey_pod_eq pk : pubkey_pod pk = encode (pubkey_point pk);
  secret : ElGamalKeypair -> Z;
  secret_eq kp : (secret kp ⋅ pubkey_point (keypair_pubkey kp))%point = point_H;
  commitment_point : PedersenCommitment -> E;
  commitment_pod_eq c : commitment_pod c = encode (commitment_point c);
  commitment_add_eq a b :
    commitment_point (commitment_add a b) = (commitment_point a + commitment_point b)%point;
  commitment_sub_eq a b :
    commitment_point (commitment_sub a b) = (commitment_point a - commitment_point b)%point;
  commitment_mul_eq a n :
    is_u64 n -> commitment_point (commitment_mul a n) = (n ⋅ commitment_point a)%point;
  opening_scalar : PedersenOpening -> Z;
  default_opening_eq (x : E) : (opening_scalar default_opening ⋅ x)%point = pzero;
  opening_add_eq a b (x : E) :
    (opening_scalar (opening_add a b) ⋅ x = opening_scalar a ⋅ x + opening_scalar b ⋅ x)%point;
  opening_sub_eq a b (x : E) :
    (opening_scalar (opening_sub a b) ⋅ x = opening_scalar a ⋅ x - opening_scalar b ⋅ x)%point;
  opening_mul_eq a n (x : E) :
    is_u64 n -> (opening_scalar (opening_mul a n) ⋅ x = n ⋅ (opening_scalar a ⋅ x))%point;
  pedersen_with_eq n o : is_u64 n ->
    commitment_point (pedersen_with n o) = (n ⋅ point_G + opening_scalar o ⋅ point_H)%point;
  (** Commitment and handle. *)
  ciphertext_points : ElGamalCiphertext -> E * E;
  ciphertext_pod_eq c : ciphertext_pod c =
    ciphertext_arithmetic.ristretto_to_elgamal_ciphertext
      (encode (ciphertext_points c).1) (encode (ciphertext_points c).2);
  ciphertext_add_eq a b : ciphertext_points (ciphertext_add a b) =
    (((ciphertext_points a).1 + (ciphertext_points b).1)%point,
     ((ciphertext_points a).2 + (ciphertext_points b).2)%point);
  ciphertext_sub_eq a b : ciphertext_points (ciphertext_sub a b) =
    (((ciphertext_points a).1 - (ciphertext_points b).1)%point,
     ((ciphertext_points a).2 - (ciphertext_points b).2)%point);
  ciphertext_mul_eq a n : is_u64 n -> ciphertext_points (ciphertext_mul a n) =
    ((n ⋅ (ciphertext_points a).1)%point, (n ⋅ (ciphertext_points a).2)%point);
  subtract_amount_eq a n : is_u64 n -> ciphertext_points (subtract_amount a n) =
    (((ciphertext_points a).1 - n ⋅ point_G)%point, (ciphertext_points a).2);
  grouped_commitment_eq {n} (pks : vec ElGamalPubkey n) m o :
    grouped_commitment (encrypt_with pks m o) = pedersen_with m o;
  grouped_handle_eq {n} (pks : vec ElGamalPubkey n) m o i pk : vec_to_list pks !! i = Some pk ->
    exists c, to_elgamal_ciphertext (encrypt_with pks m o) i = Some c /\
      ciphertext_points c =
        (commitment_point (pedersen_with m o), (opening_scalar o ⋅ pubkey_point pk)%point);
  g2_commitment_eq c : g2_extract_commitment (g2_pod c) = commitment_pod (grouped_commitment c);
  g2_extract_eq c i : g2_try_extract_ciphertext (g2_pod c) i = ciphertext_pod <$> to_elgamal_ciphertext c i;
  g3_commitment_eq c : g3_extract_commitment (g3_pod c) = commitment_pod (grouped_commitment c);
  g3_extract_eq c i : g3_try_extract_ciphertext (g3_pod c) i = ciphertext_pod <$> to_elgamal_ciphertext c i
}.

Section statements.
Context {E : Type} `{SL : ZkSdkLaws E}.

(** The commitment is of the amount, under the opening. *)
Definition commits (c : PedersenCommitment) (n : Z) (o : PedersenOpening) : Prop :=
  commitment_point c = (n ⋅ point_G + opening_scalar o ⋅ point_H)%point.

(** The bit lengths add up to the size of the proof. *)
Definition range_claims (size : nat) (claims : list RangeClaim) : Prop :=
  (length claims <= 8)%nat /\ foldr (fun c n => rc_bits c + n)%nat 0%nat claims = size /\
  Forall (fun c => commits (rc_commitment c) (rc_amount c) (rc_opening c) /\
                   (0 < rc_bits c <= 64)%nat /\ 0 <= rc_amount c < 2 ^ Z.of_nat (rc_bits c)) claims.
End statements.

(** The provers are complete. *)
Class ZkProvers (E : Type) `{SL : ZkSdkLaws E} : Prop := mk_zk_provers {
  prove_equality kp c comm o n g :
    is_u64 n -> decrypt (secret kp) (ciphertext_pod c) = Some (amount_point n) -> commits comm n o ->
    proves (build_ciphertext_commitment_equality_proof_data kp c comm o n g)
      (fun p => equality_context p =
         mk_commitment_equality (pubkey_pod (keypair_pubkey kp)) (ciphertext_pod c) (commitment_pod comm));
  prove_grouped_2 pk1 pk2 lo hi o_lo o_hi g : is_u64 lo -> is_u64 hi ->
    let c_lo := encrypt_with [# pk1; pk2] lo o_lo in
    let c_hi := encrypt_with [# pk1; pk2] hi o_hi in
    proves (build_batched_grouped_ciphertext_2_handles_validity_proof_data pk1 pk2 c_lo c_hi
              lo hi o_lo o_hi g)
      (fun p => grouped_2_context p =
         mk_grouped_2 (pubkey_pod pk1) (pubkey_pod pk2) (g2_pod c_lo) (g2_pod c_hi));
  prove_grouped_3 pk1 pk2 pk3 lo hi o_lo o_hi g : is_u64 lo -> is_u64 hi ->
    let c_lo := encrypt_with [# pk1; pk2; pk3] lo o_lo in
    let c_hi := encrypt_with [# pk1; pk2; pk3] hi o_hi in
    proves (build_batched_grouped_ciphertext_3_handles_validity_proof_data pk1 pk2 pk3 c_lo c_hi
              lo hi o_lo o_hi g)
      (fun p => grouped_3_context p =
         mk_grouped_3 (pubkey_pod pk1) (pubkey_pod pk2) (pubkey_pod pk3) (g3_pod c_lo) (g3_pod c_hi));
  (** Below the cap the deltas are compared, at the cap they are not. *)
  prove_percentage comm o n delta delta_o claimed claimed_comm claimed_o cap g :
    is_u64 n -> is_u64 claimed -> is_u64 cap -> n <= cap -> commits comm n o ->
    commits claimed_comm claimed claimed_o -> n = cap \/ commits delta claimed delta_o ->
    proves (build_percentage_with_cap_proof_data comm o n delta delta_o claimed claimed_comm
              claimed_o cap g)
      (fun p => percentage_context p =
         mk_percentage_with_cap (commitment_pod comm) (commitment_pod delta)
           (commitment_pod claimed_comm) (u64_new cap));
  prove_range_u64 claims g : range_claims 64 claims ->
    proves (build_batched_range_proof_u64_data (rc_commitment <$> claims) (rc_amount <$> claims)
              (rc_bits <$> claims) (rc_opening <$> claims) g)
      (fun p => range_u64_context p = range_context_of claims);
  prove_range_u128 claims g : range_claims 128 claims ->
    proves (build_batched_range_proof_u128_data (rc_commitment <$> claims) (rc_amount <$> claims)
              (rc_bits <$> claims) (rc_opening <$> claims) g)
      (fun p => range_u128_context p = range_context_of claims);
  prove_range_u256 claims g : range_claims 256 claims ->
    proves (build_batched_range_proof_u256_data (rc_commitment <$> claims) (rc_amount <$> claims)
              (rc_bits <$> claims) (rc_opening <$> claims) g)
      (fun p => range_u256_context p = range_context_of claims)
}.

(** ** Splitting and combining *)

(** The low bits and the rest. *)
Lemma try_split_u64_eq n b :
  is_u64 n -> (b <= 64)%nat ->
  try_split_u64 n b = Some (n mod 2 ^ Z.of_nat b, n / 2 ^ Z.of_nat b).
Proof.
  intros [Hn0 Hn] Hb. unfold u64_max in Hn. unfold try_split_u64.
  destruct (Nat.eqb_spec b 0) as [->|Hb0].
  { cbn [Z.of_nat]. by rewrite Z.pow_0_r, Z.mod_1_r, Z.div_1_r. }
  destruct (Nat.leb_spec b 63) as [Hle|Hgt].
  - unfold u64_checked_shl, u64_checked_shr, as_u32.
    rewrite (Z.mod_small (Z.of_nat b)) by lia.
    rewrite !(proj2 (Z.ltb_lt _ _)) by lia. cbn [mbind option_bind]. f_equal. f_equal.
    + rewrite Z.shiftl_mul_pow2, Z.shiftr_div_pow2 by lia.
      replace (2 ^ 64) with (2 ^ Z.of_nat b * 2 ^ (64 - Z.of_nat b))
        by (rewrite <- Z.pow_add_r by lia; f_equal; lia).
      rewrite Z.mul_mod_distr_r by (apply Z.pow_nonzero; lia).
      by rewrite Z.div_mul by (apply Z.pow_nonzero; lia).
    + by rewrite Z.shiftr_div_pow2 by lia.
  - assert (b = 64)%nat as -> by lia. cbn [Nat.eqb]. f_equal. f_equal.
    + rewrite Z.mod_small; [done|]. change (2 ^ Z.of_nat 64) with 18446744073709551616. lia.
    + rewrite Z.div_small; [done|]. change (2 ^ Z.of_nat 64) with 18446744073709551616. lia.
Qed.

(** [lo + 2^16 hi] gives the amount back. *)
Lemma split_combine n : n mod 65536 + 65536 * (n / 65536) = n.
Proof. pose proof (Z.div_mod n 65536). lia. Qed.

Section accepted.
Context {E : Type} `{SL : ZkSdkLaws E}.

(** ** Runs that succeed *)

(** Whatever is drawn, [m] returns a value with [P]. *)
Definition yields {Er A} (m : Gen Er A) (P : A -> Prop) : Prop :=
  forall g, exists a g', m g = Ok (a, g') /\ P a.

Lemma yields_ret {Er A} (a : A) (P : A -> Prop) : P a -> yields (mret a : Gen Er A) P.
Proof. intros HP g. by exists a, g. Qed.

Lemma yields_bind {Er A B} (m : Gen Er A) (f : A -> Gen Er B) (P : A -> Prop) (Q : B -> Prop) :
  yields m P -> (forall a, P a -> yields (f a) Q) -> yields (m ≫= f) Q.
Proof.
  intros Hm Hf g. destruct (Hm g) as (a & g' & Ea & Ha). destruct (Hf a Ha g') as (b & g'' & Eb & Hb).
  exists b, g''. split; [|done]. unfold mbind, Gen_bind. by rewrite Ea.
Qed.

Lemma yields_bind_some {Er A B} (o : option A) a (e : Er) (f : A -> Gen Er B) (Q : B -> Prop) :
  o = Some a -> yields (f a) Q -> yields (some_or o e ≫= f) Q.
Proof. intros -> Hf g. exact (Hf g). Qed.

Lemma yields_bind_unwrap {Er A B} (o : option A) a (f : A -> Gen Er B) (Q : B -> Prop) :
  o = Some a -> yields (f a) Q -> yields (unwrap o ≫= f) Q.
Proof. intros -> Hf g. exact (Hf g). Qed.

Lemma yields_bind_draw {Er B} (f : PedersenOpening -> Gen Er B) (Q : B -> Prop) :
  (forall o, yields (f o) Q) -> yields (draw ≫= f) Q.
Proof. intros Hf g. unfold mbind, Gen_bind, draw, random. destruct (new_rand g) as [o g']. apply Hf. Qed.

Lemma yields_bind_new {Er B} n (f : PedersenCommitment * PedersenOpening -> Gen Er B) (Q : B -> Prop) :
  (forall o, yields (f (pedersen_with n o, o)) Q) -> yields (pedersen_new n ≫= f) Q.
Proof.
  intros Hf. intros g. unfold pedersen_new, mbind, Gen_bind, draw, random.
  destruct (new_rand g) as [o g']. apply Hf.
Qed.

Lemma yields_bind_prove {A B} (p : Rng -> Result ProofGenerationError (A * Rng))
    (f : A -> Gen TokenProofGenerationError B)
    (P : A -> Prop) (Q : B -> Prop) :
  (forall g, proves (p g) P) -> (forall a, P a -> yields (f a) Q) -> yields (prove p ≫= f) Q.
Proof.
  intros Hp Hf. apply (yields_bind _ _ P); [|done]. intros g.
  destruct (Hp g) as (a & g' & Ea & Ha). exists a, g'. unfold prove, map_err. by rewrite Ea.
Qed.

(** ** Ciphertexts and commitments as points *)

Lemma u64_65536 : is_u64 65536.
Proof. done. Qed.

Lemma decrypt_pod s c :
  decrypt s (ciphertext_pod c) =
    Some ((ciphertext_points c).1 - s ⋅ (ciphertext_points c).2)%point.
Proof. rewrite ciphertext_pod_eq, decrypt_ciphertext, !decode_encode. done. Qed.

(** The operations of the SDK are those of the processor. *)
Lemma subtract_from_pod c n : is_u64 n ->
  ciphertext_arithmetic.subtract_from (ciphertext_pod c) n = Some (ciphertext_pod (subtract_amount c n)).
Proof.
  intros Hn. unfold ciphertext_arithmetic.subtract_from.
  rewrite multiply_u64, decode_G by done. cbn [mbind option_bind mret option_ret].
  rewrite !ciphertext_pod_eq, elgamal_roundtrip, subtract_amount_eq by done.
  rewrite subtract_ristretto_eq, !decode_encode. done.
Qed.

Lemma subtract_with_lo_hi_pod a lo hi :
  ciphertext_arithmetic.subtract_with_lo_hi (ciphertext_pod a) (ciphertext_pod lo) (ciphertext_pod hi) =
    Some (ciphertext_pod (ciphertext_sub a (ciphertext_add lo (ciphertext_mul hi 65536)))).
Proof.
  unfold ciphertext_arithmetic.subtract_with_lo_hi.
  change (Z.shiftl 1 ciphertext_arithmetic.SHIFT_BITS) with 65536.
  rewrite !ciphertext_pod_eq, !elgamal_roundtrip, ciphertext_sub_eq, ciphertext_add_eq.
  rewrite ciphertext_mul_eq by done. cbn [fst snd].
  repeat (rewrite ?multiply_u64, ?add_ristretto_eq, ?subtract_ristretto_eq, ?decode_encode by done;
          cbn [mbind option_bind mret option_ret]). done.
Qed.

Lemma add_with_lo_hi_pod a lo hi :
  ciphertext_arithmetic.add_with_lo_hi (ciphertext_pod a) (ciphertext_pod lo) (ciphertext_pod hi) =
    Some (ciphertext_pod (ciphertext_add a (ciphertext_add lo (ciphertext_mul hi 65536)))).
Proof.
  unfold ciphertext_arithmetic.add_with_lo_hi.
  change (Z.shiftl 1 ciphertext_arithmetic.SHIFT_BITS) with 65536.
  rewrite !ciphertext_pod_eq, !elgamal_roundtrip, !ciphertext_add_eq.
  rewrite ciphertext_mul_eq by done. cbn [fst snd].
  repeat (rewrite ?multiply_u64, ?add_ristretto_eq, ?decode_encode by done;
          cbn [mbind option_bind mret option_ret]). done.
Qed.

(** The part of [encrypt_with] for one key decrypts to the amount. *)
Lemma encrypted_for {n} (pks : vec ElGamalPubkey n) m o i pk :
  is_u64 m -> vec_to_list pks !! i = Some pk ->
  exists c, to_elgamal_ciphertext (encrypt_with pks m o) i = Some c /\
    encryption (pubkey_pod pk) (amount_point m) (opening_scalar o) (ciphertext_pod c).
Proof.
  intros Hm Hi. destruct (grouped_handle_eq pks m o i pk Hi) as (c & Hc & Ep). exists c.
  split; [done|]. exists (pubkey_point pk). rewrite pubkey_pod_eq, decode_encode. split; [done|].
  rewrite ciphertext_pod_eq, elgamal_roundtrip, Ep. cbn [fst snd].
  by rewrite !decode_encode, pedersen_with_eq.
Qed.

Lemma keypair_of_secret kp : keypair (secret kp) (pubkey_pod (keypair_pubkey kp)).
Proof.
  exists (pubkey_point (keypair_pubkey kp)). rewrite pubkey_pod_eq, decode_encode.
  split; [done|]. apply secret_eq.
Qed.

Lemma commits_with n o : is_u64 n -> commits (pedersen_with n o) n o.
Proof. intros Hn. by apply pedersen_with_eq. Qed.

(** ** Amounts *)

Lemma pscale_opp_l a (x : E) : ((- a) ⋅ x)%point = popp (a ⋅ x)%point.
Proof.
  apply (pplus_cancel (a ⋅ x)%point). rewrite <- pscale_plus_l, popp_r, Z.add_opp_diag_r.
  apply pscale_0_l.
Qed.

Lemma pscale_sub a b (x : E) : ((a - b) ⋅ x)%point = (a ⋅ x - b ⋅ x)%point.
Proof. by rewrite <- pscale_opp_l, <- pscale_plus_l. Qed.

Lemma amount_point_split n :
  lo_hi (amount_point (n mod 65536)) (amount_point (n / 65536)) = (amount_point n : E).
Proof.
  unfold lo_hi, amount_point. by rewrite pscale_mul, <- pscale_plus_l, split_combine.
Qed.

Lemma commits_add c n o c' n' o' :
  commits c n o -> commits c' n' o' -> commits (commitment_add c c') (n + n') (opening_add o o').
Proof.
  unfold commits. intros E1 E2. by rewrite commitment_add_eq, E1, E2, opening_add_eq, pscale_plus_l, pplus_swap.
Qed.

Lemma commits_sub c n o c' n' o' :
  commits c n o -> commits c' n' o' -> commits (commitment_sub c c') (n - n') (opening_sub o o').
Proof.
  unfold commits. intros E1 E2. by rewrite commitment_sub_eq, E1, E2, opening_sub_eq, pscale_sub, psub_plus.
Qed.

Lemma commits_mul c n o k :
  is_u64 k -> commits c n o -> commits (commitment_mul c k) (k * n) (opening_mul o k).
Proof.
  unfold commits. intros Hk E1.
  by rewrite commitment_mul_eq, E1, opening_mul_eq, pscale_plus_r, pscale_mul by done.
Qed.

(** What remains after subtracting the parts of an amount decrypts to the difference. *)
Lemma remaining_decrypt s a lo hi balance n :
  decrypt s (ciphertext_pod a) = Some (amount_point balance) ->
  decrypt s (ciphertext_pod lo) = Some (amount_point (n mod 65536)) ->
  decrypt s (ciphertext_pod hi) = Some (amount_point (n / 65536)) ->
  decrypt s (ciphertext_pod (ciphertext_sub a (ciphertext_add lo (ciphertext_mul hi 65536)))) =
    Some (amount_point (balance - n)).
Proof.
  intros Ha Hl Hh. pose proof (subtract_with_lo_hi_decrypt s (ciphertext_pod a) (ciphertext_pod lo)
    (ciphertext_pod hi)) as Hd.
  rewrite subtract_with_lo_hi_pod, Ha, Hl, Hh in Hd. cbn [mbind option_bind mret option_ret] in Hd.
  rewrite Hd, amount_point_split. unfold amount_point. by rewrite pscale_sub.
Qed.

Lemma added_decrypt s a lo hi balance n :
  decrypt s (ciphertext_pod a) = Some (amount_point balance) ->
  decrypt s (ciphertext_pod lo) = Some (amount_point (n mod 65536)) ->
  decrypt s (ciphertext_pod hi) = Some (amount_point (n / 65536)) ->
  decrypt s (ciphertext_pod (ciphertext_add a (ciphertext_add lo (ciphertext_mul hi 65536)))) =
    Some (amount_point (balance + n)).
Proof.
  intros Ha Hl Hh. pose proof (add_with_lo_hi_decrypt s (ciphertext_pod a) (ciphertext_pod lo)
    (ciphertext_pod hi)) as Hd.
  rewrite add_with_lo_hi_pod, Ha, Hl, Hh in Hd. cbn [mbind option_bind mret option_ret] in Hd.
  rewrite Hd, amount_point_split. unfold amount_point. by rewrite pscale_plus_l.
Qed.

(** ** Ciphertexts for several keys *)

Lemma yields_bind_encrypt {n Er B} (pks : vec ElGamalPubkey n) m
    (f : GroupedElGamalCiphertext n * PedersenOpening -> Gen Er B) (Q : B -> Prop) :
  (forall o, yields (f (encrypt_with pks m o, o)) Q) ->
  yields ((opening ← draw; mret (encrypt_with pks m opening, opening)) ≫= f) Q.
Proof.
  intros Hf g. unfold mbind, Gen_bind, draw, random. destruct (new_rand g) as [o g']. apply Hf.
Qed.

(** The proof is about the amount [n], encrypted for the three keys, and comes
    with the ciphertexts of the third. *)
Definition validity_of (n : Z) (pk1 pk2 pk3 : ElGamalPubkey)
    (va : CiphertextValidityProofWithAuditorCiphertext) : Prop :=
  let ctx := grouped_3_context (va_proof_data va) in
  g3_first_pubkey ctx = pubkey_pod pk1 /\ g3_second_pubkey ctx = pubkey_pod pk2 /\
  g3_third_pubkey ctx = pubkey_pod pk3 /\
  amount_for g3_try_extract_ciphertext [pubkey_pod pk1; pubkey_pod pk2; pubkey_pod pk3]
    (amount_point n) (g3_grouped_ciphertext_lo ctx) (g3_grouped_ciphertext_hi ctx) /\
  g3_try_extract_ciphertext (g3_grouped_ciphertext_lo ctx) 2 = Some (va_ciphertext_lo va) /\
  g3_try_extract_ciphertext (g3_grouped_ciphertext_hi ctx) 2 = Some (va_ciphertext_hi va).

Lemma grouped_encryption_pods {n C} (pks : vec ElGamalPubkey n) (pod : GroupedElGamalCiphertext n -> C)
    (extract : C -> nat -> option PodElGamalCiphertext) m o :
  (forall c i, extract (pod c) i = ciphertext_pod <$> to_elgamal_ciphertext c i) -> is_u64 m ->
  grouped_encryption extract (pubkey_pod <$> vec_to_list pks) (amount_point m)
    (pod (encrypt_with pks m o)).
Proof.
  intros He Hm. exists (opening_scalar o). intros i pk x Hi Hx.
  apply list_lookup_fmap_Some_1 in Hi as (pk' & -> & Hi).
  destruct (encrypted_for pks m o i pk' Hm Hi) as (c & Hc & Hcx).
  rewrite He, Hc in Hx. by injection Hx as <-.
Qed.

Lemma grouped_3_encryption pk1 pk2 pk3 m o : is_u64 m ->
  grouped_encryption g3_try_extract_ciphertext [pubkey_pod pk1; pubkey_pod pk2; pubkey_pod pk3]
    (amount_point m) (g3_pod (encrypt_with [# pk1; pk2; pk3] m o)).
Proof. intros Hm. by apply (grouped_encryption_pods [# pk1; pk2; pk3] g3_pod); [apply g3_extract_eq|]. Qed.

Lemma grouped_2_encryption pk1 pk2 m o : is_u64 m ->
  grouped_encryption g2_try_extract_ciphertext [pubkey_pod pk1; pubkey_pod pk2]
    (amount_point m) (g2_pod (encrypt_with [# pk1; pk2] m o)).
Proof. intros Hm. by apply (grouped_encryption_pods [# pk1; pk2] g2_pod); [apply g2_extract_eq|]. Qed.

Lemma prefix_zip_all_equal {A} `{EqDecision A} (l l' : list A) :
  l' `prefix_of` l -> zip_all_equal l l' = true.
Proof.
  intros [r ->]. unfold zip_all_equal. apply forallb_forall. induction l' as [|x l' IH]; [by destruct r|].
  cbn [app zip zip_with]. intros p [<-|Hp]; [by apply bool_decide_true|by apply IH].
Qed.

(** The parts of an amount, and their ciphertexts for one of the keys. *)
Lemma amount_parts n : is_u64 n -> n < 2 ^ 48 ->
  is_u64 (n mod 65536) /\ is_u64 (n / 65536) /\ n mod 65536 < 2 ^ 16 /\ n / 65536 < 2 ^ 32.
Proof.
  intros [Hn0 Hn] Hlt. unfold is_u64, u64_max in *. pose proof (Z.mod_pos_bound n 65536).
  assert (0 <= n / 65536) by (apply Z.div_pos; lia).
  assert (n / 65536 < 2 ^ 32) by (apply Z.div_lt_upper_bound; lia). lia.
Qed.

Lemma amount_ciphertexts (pks : vec ElGamalPubkey 3) n o_lo o_hi i pk :
  is_u64 n -> n < 2 ^ 48 -> vec_to_list pks !! i = Some pk ->
  exists lo hi, to_elgamal_ciphertext (encrypt_with pks (n mod 65536) o_lo) i = Some lo /\
    to_elgamal_ciphertext (encrypt_with pks (n / 65536) o_hi) i = Some hi /\
    forall s, keypair s (pubkey_pod pk) ->
      decrypt s (ciphertext_pod lo) = Some (amount_point (n mod 65536)) /\
      decrypt s (ciphertext_pod hi) = Some (amount_point (n / 65536)).
Proof.
  intros Hn Hlt Hi. destruct (amount_parts n Hn Hlt) as (Hlo & Hhi & _).
  destruct (encrypted_for pks _ o_lo i pk Hlo Hi) as (lo & El & Hl).
  destruct (encrypted_for pks _ o_hi i pk Hhi Hi) as (hi & Eh & Hh).
  exists lo, hi. split; [done|]. split; [done|]. intros s Hs. split; by eapply encryption_decrypt.
Qed.

(** The proof of validity comes with the ciphertexts for the auditor. *)
Lemma validity_made n pk1 pk2 pk3 o_lo o_hi p :
  is_u64 n -> n < 2 ^ 48 ->
  grouped_3_context p = mk_grouped_3 (pubkey_pod pk1) (pubkey_pod pk2) (pubkey_pod pk3)
    (g3_pod (encrypt_with [# pk1; pk2; pk3] (n mod 65536) o_lo))
    (g3_pod (encrypt_with [# pk1; pk2; pk3] (n / 65536) o_hi)) ->
  exists a_lo a_hi,
    g3_try_extract_ciphertext (g3_grouped_ciphertext_lo (grouped_3_context p)) 2 = Some a_lo /\
    g3_try_extract_ciphertext (g3_grouped_ciphertext_hi (grouped_3_context p)) 2 = Some a_hi /\
    validity_of n pk1 pk2 pk3 (mk_validity_with_auditor p a_lo a_hi).
Proof.
  intros Hn Hlt Ep. destruct (amount_parts n Hn Hlt) as (Hlo & Hhi & _).
  destruct (amount_ciphertexts [# pk1; pk2; pk3] n o_lo o_hi 2 pk3 Hn Hlt eq_refl)
    as (lo & hi & El & Eh & _).
  exists (ciphertext_pod lo), (ciphertext_pod hi).
  unfold validity_of. cbn [va_proof_data va_ciphertext_lo va_ciphertext_hi]. rewrite Ep.
  cbn [g3_first_pubkey g3_second_pubkey g3_third_pubkey g3_grouped_ciphertext_lo
       g3_grouped_ciphertext_hi]. rewrite !g3_extract_eq, El, Eh.
  split_and!; try done. rewrite <- amount_point_split.
  by apply grouped_amount; apply grouped_3_encryption.
Qed.

(** The range proof of a transfer, a burn or a mint: what is left, the parts of
    the amount, and the padding. *)
Definition amount_claims (c : PedersenCommitment) (left : Z) (o : PedersenOpening)
    (pks : vec ElGamalPubkey 3) (n : Z) (o_lo o_hi o_0 : PedersenOpening) : list RangeClaim :=
  [mk_range_claim c left 64 o;
   mk_range_claim (grouped_commitment (encrypt_with pks (n mod 65536) o_lo)) (n mod 65536) 16 o_lo;
   mk_range_claim (grouped_commitment (encrypt_with pks (n / 65536) o_hi)) (n / 65536) 32 o_hi;
   mk_range_claim (pedersen_with 0 o_0) 0 16 o_0].

Lemma amount_range left o pks n o_lo o_hi o_0 :
  is_u64 left -> is_u64 n -> n < 2 ^ 48 ->
  range_claims 128 (amount_claims (pedersen_with left o) left o pks n o_lo o_hi o_0).
Proof.
  intros Hl Hn Hlt. destruct (amount_parts n Hn Hlt) as ([Hlo _] & [Hhi _] & Hlo' & Hhi').
  split; [cbn; lia|]. split; [done|].
  destruct (amount_parts n Hn Hlt) as (Ulo & Uhi & _).
  repeat constructor; cbn [rc_commitment rc_amount rc_bits rc_opening];
    rewrite ?grouped_commitment_eq; try (apply commits_with; done); try lia.
  - by destruct Hl.
  - destruct Hl as [_ Hl]. unfold u64_max in Hl. change (2 ^ Z.of_nat 64) with 18446744073709551616. lia.
Qed.
End accepted.
