(* ===== verification/ProofAcceptance.v ===== *)
(** * What clients prove is accepted

    On a balance that covers the amount (below 2^48, but for withdrawals) the functions of [ProofGeneration]
    return proofs whose contexts pass the checks of [ProofExtraction], and the
    ciphertext that they are about is the one that the processor computes; so
    for transfers with a fee, and the client's fee is the processor's. *)
From stdpp Require Import vector.
From S2P Require Import Prelude Bytes Errors Ids Runtime Pod ExtensionState TransferFee.
From S2P Require Import CiphertextArithmetic CiphertextTheory ProofExtraction ConfidentialTransfer.
From S2P Require Import ConfidentialPure ExtensionInstructions ConfidentialInstructions.
From S2P Require Import ProofGeneration ProofGenerationTheory.
Import proof_generation.

(** One step of a function that generates proofs. *)
Ltac gen_step :=
  match goal with
  | |- yields (mret _) _ => apply yields_ret
  | |- yields (some_or (try_split_u64 _ _) _ ≫= _) _ =>
      eapply yields_bind_some; [apply try_split_u64_eq; [done|by cbv; lia]|]
  | |- yields (pedersen_new _ ≫= _) _ => apply yields_bind_new; intros
  | H : ?o = Some _ |- yields (some_or ?o _ ≫= _) _ => eapply yields_bind_some; [exact H|]
  | H : ?o = Some _ |- yields (unwrap ?o ≫= _) _ => eapply yields_bind_unwrap; [exact H|]
  | |- yields (some_or (try_combine_lo_hi_ciphertexts _ _ _) _ ≫= _) _ =>
      eapply yields_bind_some; [reflexivity|]
  end; cbn beta iota zeta.

Section provers.
Context {E : Type} `{PV : ZkProvers E}.

Definition withdraw_accepted (avail : ElGamalCiphertext) (balance n : Z) (kp : ElGamalKeypair) : Prop :=
  yields (withdraw_proof.withdraw_proof_data avail balance n kp) (fun d =>
    exists ctx,
      WithdrawProofContext_verify_and_extract
        (equality_context (withdraw_proof.wpd_equality_proof_data d))
        (range_u64_context (withdraw_proof.wpd_range_proof_data d)) = Ok ctx /\
      wp_source_pubkey ctx = pubkey_pod (keypair_pubkey kp) /\
      ciphertext_arithmetic.subtract_from (ciphertext_pod avail) n =
        Some (wp_remaining_balance_ciphertext ctx) /\
      decrypt (secret kp) (wp_remaining_balance_ciphertext ctx) = Some (amount_point (balance - n))).

(** The balance covers the withdrawal. *)
Lemma withdraw_proofs_accepted avail balance n kp :
  is_u64 balance -> 0 <= n <= balance ->
  decrypt (secret kp) (ciphertext_pod avail) = Some (amount_point balance) ->
  withdraw_accepted avail balance n kp.
Proof.
  intros Hb Hn Ha. unfold withdraw_accepted, withdraw_proof.withdraw_proof_data.
  assert (is_u64 n) as Un by (unfold is_u64 in *; lia).
  assert (is_u64 (balance - n)) as Ur by (unfold is_u64 in *; lia).
  assert (u64_checked_sub balance n = Some (balance - n)) as Es by (by apply u64_checked_sub_Some).
  assert (decrypt (secret kp) (ciphertext_pod (subtract_amount avail n)) =
    Some (amount_point (balance - n))) as Hd.
  { pose proof (subtract_from_decrypt (secret kp) (ciphertext_pod avail) n Un) as Hd.
    rewrite subtract_from_pod, Ha in Hd by done. cbn [mbind option_bind mret option_ret] in Hd.
    rewrite Hd. unfold amount_point. by rewrite pscale_sub. }
  do 2 gen_step.
  eapply yields_bind_prove; [intros g; apply prove_equality; [done|exact Hd|by apply commits_with]|].
  intros p Ep. eapply yields_bind_prove.
  { intros g. apply (prove_range_u64 [mk_range_claim (pedersen_with (balance - n) o) (balance - n) 64 o]).
    split; [cbn; lia|]. split; [done|]. constructor; [|done]. split; [by apply commits_with|].
    cbn. unfold is_u64, u64_max in Ur. lia. }
  intros r Er. gen_step. cbn [withdraw_proof.wpd_equality_proof_data withdraw_proof.wpd_range_proof_data].
  rewrite Ep, Er. eexists. split; [|split; [|split]].
  - unfold WithdrawProofContext_verify_and_extract. cbn. by rewrite !bool_decide_true.
  - done.
  - by apply subtract_from_pod.
  - exact Hd.
Qed.

(** What the three proofs of a transfer, a burn or a mint are about. *)
Definition three_proofs (kp : ElGamalKeypair) (c : ElGamalCiphertext) (left : Z) (n : Z)
    (pk1 pk2 pk3 : ElGamalPubkey) (o_lo o_hi : PedersenOpening)
    (eq : CiphertextCommitmentEqualityProofContext)
    (va : CiphertextValidityProofWithAuditorCiphertext) (range : BatchedRangeProofContext) : Prop :=
  exists o o_0,
    eq = mk_commitment_equality (pubkey_pod (keypair_pubkey kp)) (ciphertext_pod c)
           (commitment_pod (pedersen_with left o)) /\
    grouped_3_context (va_proof_data va) =
      mk_grouped_3 (pubkey_pod pk1) (pubkey_pod pk2) (pubkey_pod pk3)
        (g3_pod (encrypt_with [# pk1; pk2; pk3] (n mod 65536) o_lo))
        (g3_pod (encrypt_with [# pk1; pk2; pk3] (n / 65536) o_hi)) /\
    range = range_context_of
      (amount_claims (pedersen_with left o) left o [# pk1; pk2; pk3] n o_lo o_hi o_0) /\
    validity_of n pk1 pk2 pk3 va.

Lemma yields_three_proofs {B} kp c left n pk1 pk2 pk3 o o_lo o_hi
    (mk : ZkProofData ProofType.CiphertextCommitmentEquality ->
          CiphertextValidityProofWithAuditorCiphertext ->
          ZkProofData ProofType.BatchedRangeProofU128 -> B) (Q : B -> Prop) :
  is_u64 left -> is_u64 n -> n < 2 ^ 48 ->
  decrypt (secret kp) (ciphertext_pod c) = Some (amount_point left) ->
  (forall p va r,
     three_proofs kp c left n pk1 pk2 pk3 o_lo o_hi (equality_context p) va (range_u128_context r) ->
     Q (mk p va r)) ->
  let c_lo := encrypt_with [# pk1; pk2; pk3] (n mod 65536) o_lo in
  let c_hi := encrypt_with [# pk1; pk2; pk3] (n / 65536) o_hi in
  yields (
    p ← prove (build_ciphertext_commitment_equality_proof_data kp c (pedersen_with left o) o left);
    v ← prove (build_batched_grouped_ciphertext_3_handles_validity_proof_data pk1 pk2 pk3 c_lo c_hi
                 (n mod 65536) (n / 65536) o_lo o_hi);
    a_lo ← some_or (g3_try_extract_ciphertext (g3_grouped_ciphertext_lo (grouped_3_context v)) 2)
             TokenProofGenerationError.CiphertextExtraction;
    a_hi ← some_or (g3_try_extract_ciphertext (g3_grouped_ciphertext_hi (grouped_3_context v)) 2)
             TokenProofGenerationError.CiphertextExtraction;
    '(c_0, o_0) ← pedersen_new 0;
    r ← prove (build_batched_range_proof_u128_data
                 [pedersen_with left o; grouped_commitment c_lo; grouped_commitment c_hi; c_0]
                 [left; n mod 65536; n / 65536; 0] [64; 16; 32; 16]%nat [o; o_lo; o_hi; o_0]);
    mret (mk p (mk_validity_with_auditor v a_lo a_hi) r)) Q.
Proof.
  intros Hl Hn Hlt Hc HQ c_lo c_hi. destruct (amount_parts n Hn Hlt) as (Ulo & Uhi & _).
  eapply yields_bind_prove; [intros g; apply prove_equality; [done|exact Hc|by apply commits_with]|].
  intros p Ep. eapply yields_bind_prove; [intros g; by apply prove_grouped_3|]. intros v Ev.
  destruct (validity_made n pk1 pk2 pk3 o_lo o_hi v Hn Hlt Ev) as (a_lo & a_hi & Elo & Ehi & Hv).
  do 3 gen_step. rename o0 into o_0. eapply yields_bind_prove.
  { intros g. apply (prove_range_u128 (amount_claims (pedersen_with left o) left o [# pk1; pk2; pk3]
      n o_lo o_hi o_0)). by apply amount_range. }
  intros r Er. apply yields_ret, HQ. by exists o, o_0.
Qed.

(** The contexts of the three proofs agree. *)
Lemma amount_commitments left o pk1 pk2 pk3 n o_lo o_hi o_0 :
  let c := pedersen_with left o in
  let pks := [# pk1; pk2; pk3] in
  let range := range_context_of (amount_claims c left o pks n o_lo o_hi o_0) in
  zip_all_equal (range_commitments range)
    [commitment_pod c; g3_extract_commitment (g3_pod (encrypt_with pks (n mod 65536) o_lo));
     g3_extract_commitment (g3_pod (encrypt_with pks (n / 65536) o_hi))] = true /\
  zip_all_equal (range_bit_lengths range) (bits [64; 16; 32; 16]) = true.
Proof.
  cbn zeta. rewrite !g3_commitment_eq.
  split; apply prefix_zip_all_equal; eexists; reflexivity.
Qed.
End provers.

Ltac contexts_agree :=
  cbn [eq_pubkey eq_commitment eq_ciphertext g3_first_pubkey g3_second_pubkey g3_third_pubkey
       g3_grouped_ciphertext_lo g3_grouped_ciphertext_hi];
  match goal with
  | |- context [range_context_of (amount_claims (pedersen_with ?l ?o) _ _ [# ?a; ?b; ?c] ?n ?lo ?hi ?z)] =>
      destruct (amount_commitments l o a b c n lo hi z) as [Ec Eb];
      rewrite Ec, Eb, bool_decide_true by done; reflexivity
  end.

Section accepted.
Context {E : Type} `{PV : ZkProvers E}.

(** The accepted context, the ciphertexts of the [i]-th key in it, and the
    ciphertext that the processor computes from them. *)
Definition moves {A C} (update : PodElGamalCiphertext -> PodElGamalCiphertext ->
      PodElGamalCiphertext -> option PodElGamalCiphertext)
    (extracted : Result TokenProofExtractionError A) (pubkeys : A -> C) (keys : C)
    (c_lo c_hi : A -> PodGroupedElGamalCiphertext3Handles) (i : nat)
    (old : PodElGamalCiphertext) (new : A -> PodElGamalCiphertext) : Prop :=
  exists ctx lo hi,
    extracted = Ok ctx /\ pubkeys ctx = keys /\
    g3_try_extract_ciphertext (c_lo ctx) i = Some lo /\
    g3_try_extract_ciphertext (c_hi ctx) i = Some hi /\
    update old lo hi = Some (new ctx).

Definition transfer_accepted (avail : ElGamalCiphertext) (ae : AeCiphertext) (n : Z)
    (kp : ElGamalKeypair) (key : AeKey) (dst : ElGamalPubkey) (auditor : option ElGamalPubkey) : Prop :=
  let aud := default default_pubkey auditor in
  yields (transfer_proof.transfer_split_proof_data avail ae n kp key dst auditor) (fun d =>
    let va := transfer_proof.tpd_ciphertext_validity_proof_data_with_ciphertext d in
    validity_of n (keypair_pubkey kp) dst aud va /\
    moves ciphertext_arithmetic.subtract_with_lo_hi
      (TransferProofContext_verify_and_extract
         (equality_context (transfer_proof.tpd_equality_proof_data d))
         (grouped_3_context (va_proof_data va))
         (range_u128_context (transfer_proof.tpd_range_proof_data d)))
      tp_transfer_pubkeys
      (mk_transfer_pubkeys (pubkey_pod (keypair_pubkey kp)) (pubkey_pod dst) (pubkey_pod aud))
      tp_ciphertext_lo tp_ciphertext_hi 0 (ciphertext_pod avail) tp_new_source_ciphertext).

Lemma transfer_proofs_accepted avail ae balance n kp key dst auditor :
  is_u64 balance -> 0 <= n <= balance -> n < 2 ^ 48 -> ae_decrypt ae key = Some balance ->
  decrypt (secret kp) (ciphertext_pod avail) = Some (amount_point balance) ->
  transfer_accepted avail ae n kp key dst auditor.
Proof.
  intros Hb Hn Hlt Hae Ha. red. set (aud := default default_pubkey auditor).
  assert (is_u64 n) as Un by (unfold is_u64 in *; lia).
  assert (is_u64 (balance - n)) as Ur by (unfold is_u64 in *; lia).
  assert (u64_checked_sub balance n = Some (balance - n)) as Es by (by apply u64_checked_sub_Some).
  unfold transfer_proof.transfer_split_proof_data, TransferAmountCiphertext_new. cbn zeta. fold aud.
  gen_step. apply yields_bind_encrypt. intros o_lo. apply yields_bind_encrypt. intros o_hi.
  destruct (amount_ciphertexts [# keypair_pubkey kp; dst; aud] n o_lo o_hi 0 _ Un Hlt eq_refl)
    as (lo & hi & El & Eh & Hd).
  destruct (Hd _ (keypair_of_secret kp)) as [Hl Hh].
  do 6 gen_step. eapply yields_three_proofs; [done..|by apply remaining_decrypt|].
  intros p va r (o' & o_0 & Ep & Ev & Er & Hv). split; [done|].
  cbn [transfer_proof.tpd_ciphertext_validity_proof_data_with_ciphertext
       transfer_proof.tpd_equality_proof_data transfer_proof.tpd_range_proof_data].
  rewrite Ep, Ev, Er. do 3 eexists. split.
  { unfold TransferProofContext_verify_and_extract. contexts_agree. }
  cbn [tp_ciphertext_lo tp_ciphertext_hi tp_new_source_ciphertext].
  rewrite !g3_extract_eq, El, Eh. do 3 (split; [reflexivity|]). apply subtract_with_lo_hi_pod.
Qed.

Definition burn_accepted (avail : ElGamalCiphertext) (ae : AeCiphertext) (n : Z)
    (kp : ElGamalKeypair) (key : AeKey) (supply : ElGamalPubkey) (auditor : option ElGamalPubkey) : Prop :=
  let aud := default default_pubkey auditor in
  yields (burn_proof.burn_split_proof_data avail ae n kp key supply auditor) (fun d =>
    let va := burn_proof.bpd_ciphertext_validity_proof_data_with_ciphertext d in
    validity_of n (keypair_pubkey kp) supply aud va /\
    moves ciphertext_arithmetic.subtract_with_lo_hi
      (BurnProofContext_verify_and_extract
         (equality_context (burn_proof.bpd_equality_proof_data d))
         (grouped_3_context (va_proof_data va))
         (range_u128_context (burn_proof.bpd_range_proof_data d)))
      bp_burn_pubkeys
      (mk_burn_pubkeys (pubkey_pod (keypair_pubkey kp)) (pubkey_pod supply) (pubkey_pod aud))
      bp_burn_amount_ciphertext_lo bp_burn_amount_ciphertext_hi 0
      (ciphertext_pod avail) bp_remaining_balance_ciphertext).

Lemma burn_proofs_accepted avail ae balance n kp key supply auditor :
  is_u64 balance -> 0 <= n <= balance -> n < 2 ^ 48 -> ae_decrypt ae key = Some balance ->
  decrypt (secret kp) (ciphertext_pod avail) = Some (amount_point balance) ->
  burn_accepted avail ae n kp key supply auditor.
Proof.
  intros Hb Hn Hlt Hae Ha. red. set (aud := default default_pubkey auditor).
  assert (is_u64 n) as Un by (unfold is_u64 in *; lia).
  assert (is_u64 (balance - n)) as Ur by (unfold is_u64 in *; lia).
  assert (u64_checked_sub balance n = Some (balance - n)) as Es by (by apply u64_checked_sub_Some).
  unfold burn_proof.burn_split_proof_data, BurnAmountCiphertext_new. cbn zeta. fold aud.
  gen_step. apply yields_bind_encrypt. intros o_lo. apply yields_bind_encrypt. intros o_hi.
  destruct (amount_ciphertexts [# keypair_pubkey kp; supply; aud] n o_lo o_hi 0 _ Un Hlt eq_refl)
    as (lo & hi & El & Eh & Hd).
  destruct (Hd _ (keypair_of_secret kp)) as [Hl Hh].
  do 6 gen_step. eapply yields_three_proofs; [done..|by apply remaining_decrypt|].
  intros p va r (o' & o_0 & Ep & Ev & Er & Hv). split; [done|].
  cbn [burn_proof.bpd_ciphertext_validity_proof_data_with_ciphertext
       burn_proof.bpd_equality_proof_data burn_proof.bpd_range_proof_data].
  rewrite Ep, Ev, Er. do 3 eexists. split.
  { unfold BurnProofContext_verify_and_extract. contexts_agree. }
  cbn [bp_burn_amount_ciphertext_lo bp_burn_amount_ciphertext_hi bp_remaining_balance_ciphertext].
  rewrite !g3_extract_eq, El, Eh. do 3 (split; [reflexivity|]). apply subtract_with_lo_hi_pod.
Qed.

Definition mint_accepted (supply_ct : ElGamalCiphertext) (supply n : Z) (kp : ElGamalKeypair)
    (dst : ElGamalPubkey) (auditor : option ElGamalPubkey) : Prop :=
  let aud := default default_pubkey auditor in
  yields (mint_proof.mint_split_proof_data supply_ct n supply kp dst auditor) (fun d =>
    let va := mint_proof.mpd_ciphertext_validity_proof_data_with_ciphertext d in
    validity_of n dst (keypair_pubkey kp) aud va /\
    moves ciphertext_arithmetic.add_with_lo_hi
      (MintProofContext_verify_and_extract
         (equality_context (mint_proof.mpd_equality_proof_data d))
         (grouped_3_context (va_proof_data va))
         (range_u128_context (mint_proof.mpd_range_proof_data d)))
      mp_mint_pubkeys
      (mk_mint_pubkeys (pubkey_pod dst) (pubkey_pod (keypair_pubkey kp)) (pubkey_pod aud))
      mp_mint_amount_ciphertext_lo mp_mint_amount_ciphertext_hi 1
      (ciphertext_pod supply_ct) mp_new_supply_ciphertext).

Lemma mint_proofs_accepted supply_ct supply n kp dst auditor :
  is_u64 supply -> 0 <= n -> is_u64 (supply + n) -> n < 2 ^ 48 ->
  decrypt (secret kp) (ciphertext_pod supply_ct) = Some (amount_point supply) ->
  mint_accepted supply_ct supply n kp dst auditor.
Proof.
  intros Hb Hn Ur Hlt Ha. red. set (aud := default default_pubkey auditor).
  assert (is_u64 n) as Un by (unfold is_u64 in *; lia).
  assert (u64_checked_add supply n = Some (supply + n)) as Es by (by apply u64_checked_add_Some).
  unfold mint_proof.mint_split_proof_data, MintAmountCiphertext_new. cbn zeta. fold aud.
  gen_step. apply yields_bind_encrypt. intros o_lo. apply yields_bind_encrypt. intros o_hi.
  destruct (amount_ciphertexts [# dst; keypair_pubkey kp; aud] n o_lo o_hi 1 _ Un Hlt eq_refl)
    as (lo & hi & El & Eh & Hd).
  destruct (Hd _ (keypair_of_secret kp)) as [Hl Hh].
  do 5 gen_step. eapply yields_three_proofs; [done..|by apply added_decrypt|].
  intros p va r (o' & o_0 & Ep & Ev & Er & Hv). split; [done|].
  cbn [mint_proof.mpd_ciphertext_validity_proof_data_with_ciphertext
       mint_proof.mpd_equality_proof_data mint_proof.mpd_range_proof_data].
  rewrite Ep, Ev, Er. do 3 eexists. split.
  { unfold MintProofContext_verify_and_extract. contexts_agree. }
  cbn [mp_mint_amount_ciphertext_lo mp_mint_amount_ciphertext_hi mp_new_supply_ciphertext].
  rewrite !g3_extract_eq, El, Eh. do 3 (split; [reflexivity|]). apply add_with_lo_hi_pod.
Qed.

(** ** Amounts that are not covered *)

Definition refuses {Er A} (m : Gen Er A) (e : Er) : Prop := forall g, m g = Err e.

Lemma refuses_bind_none {Er A B} (o : option A) (e : Er) (f : A -> Gen Er B) :
  o = None -> refuses (some_or o e ≫= f) e.
Proof. by intros -> g. Qed.

Lemma refuses_bind_some {Er A B} (o : option A) a (e e' : Er) (f : A -> Gen Er B) :
  o = Some a -> refuses (f a) e' -> refuses (some_or o e ≫= f) e'.
Proof. intros -> Hf g. exact (Hf g). Qed.

Lemma refuses_bind_unwrap {Er A B} (o : option A) a (e : Er) (f : A -> Gen Er B) :
  o = Some a -> refuses (f a) e -> refuses (unwrap o ≫= f) e.
Proof. intros -> Hf g. exact (Hf g). Qed.

Lemma refuses_bind_encrypt {n Er B} (pks : vec ElGamalPubkey n) m (e : Er)
    (f : GroupedElGamalCiphertext n * PedersenOpening -> Gen Er B) :
  (forall o, refuses (f (encrypt_with pks m o, o)) e) ->
  refuses ((opening ← draw; mret (encrypt_with pks m opening, opening)) ≫= f) e.
Proof.
  intros Hf g. unfold mbind, Gen_bind, draw, random. destruct (new_rand g) as [o g']. apply Hf.
Qed.

Lemma overdrawn balance n : is_u64 balance -> balance < n -> u64_checked_sub balance n = None.
Proof.
  intros Hb Hlt. destruct (u64_checked_sub balance n) eqn:Es; [|done].
  apply u64_checked_sub_Some in Es. lia.
Qed.

Lemma overdrawn_transfer_refused avail ae balance n kp key dst auditor :
  is_u64 balance -> is_u64 n -> balance < n -> ae_decrypt ae key = Some balance ->
  refuses (transfer_proof.transfer_split_proof_data avail ae n kp key dst auditor)
    TokenProofGenerationError.NotEnoughFunds.
Proof.
  intros Hb Hn Hlt Hae. unfold transfer_proof.transfer_split_proof_data, TransferAmountCiphertext_new.
  cbn zeta. eapply refuses_bind_some; [by apply try_split_u64_eq; [|cbv; lia]|]. cbn beta iota.
  do 2 (apply refuses_bind_encrypt; intros ?; cbn beta iota).
  eapply refuses_bind_some; [exact Hae|]. by apply refuses_bind_none, overdrawn.
Qed.

Lemma overdrawn_burn_refused avail ae balance n kp key supply auditor :
  is_u64 balance -> is_u64 n -> balance < n -> ae_decrypt ae key = Some balance ->
  refuses (burn_proof.burn_split_proof_data avail ae n kp key supply auditor)
    TokenProofGenerationError.NotEnoughFunds.
Proof.
  intros Hb Hn Hlt Hae. unfold burn_proof.burn_split_proof_data, BurnAmountCiphertext_new.
  cbn zeta. eapply refuses_bind_some; [by apply try_split_u64_eq; [|cbv; lia]|]. cbn beta iota.
  do 2 (apply refuses_bind_encrypt; intros ?; cbn beta iota).
  eapply refuses_bind_some; [exact Hae|].
  do 2 (match goal with |- refuses (unwrap (to_elgamal_ciphertext (encrypt_with ?pks ?m ?o) 0) ≫= _) _ =>
          destruct (grouped_handle_eq pks m o 0 _ eq_refl) as (? & El & _) end;
        eapply refuses_bind_unwrap; [exact El|]; clear El).
  eapply refuses_bind_some; [reflexivity|]. cbn zeta. by apply refuses_bind_none, overdrawn.
Qed.

Lemma overflowing_mint_refused supply_ct supply n kp dst auditor :
  is_u64 supply -> is_u64 n -> u64_max < supply + n ->
  refuses (mint_proof.mint_split_proof_data supply_ct n supply kp dst auditor)
    TokenProofGenerationError.IllegalAmountBitLength.
Proof.
  intros Hb Hn Hlt. unfold mint_proof.mint_split_proof_data, MintAmountCiphertext_new.
  cbn zeta. eapply refuses_bind_some; [by apply try_split_u64_eq; [|cbv; lia]|]. cbn beta iota.
  do 2 (apply refuses_bind_encrypt; intros ?; cbn beta iota).
  do 2 (match goal with |- refuses (unwrap (to_elgamal_ciphertext (encrypt_with ?pks ?m ?o) 1) ≫= _) _ =>
          destruct (grouped_handle_eq pks m o 1 _ eq_refl) as (? & El & _) end;
        eapply refuses_bind_unwrap; [exact El|]; clear El).
  eapply refuses_bind_some; [reflexivity|]. cbn zeta. apply refuses_bind_none.
  destruct (u64_checked_add supply n) eqn:Es; [|done].
  apply u64_checked_add_Some in Es; [|done..]. unfold is_u64 in *. lia.
Qed.

(** C19: what a client proves is accepted.  On a balance that decrypts to what
    the client believes, the proofs of a withdrawal of any amount that it covers
    are returned whatever randomness is drawn, and so are those of a transfer and
    of a burn that it covers, and of a mint that keeps the supply a u64, when the
    amount is below 2^48, what the 16 and 32 bits of its parts hold; their
    contexts pass the checks of the processor and name the keys given, and the
    ciphertext that they are about is the one the processor computes.  More than
    the balance is refused as NotEnoughFunds, and a mint that overflows the
    supply as IllegalAmountBitLength.  Nothing is stated of covered amounts of
    2^48 and above: their high part does not fit the 32 bits that the range proof
    is asked for, and what a prover does with a false claim is not the code's. *)
Theorem generated_proofs_accepted avail ae balance n kp key other auditor :
  is_u64 balance -> is_u64 n -> ae_decrypt ae key = Some balance ->
  decrypt (secret kp) (ciphertext_pod avail) = Some (amount_point balance) ->
  (n <= balance ->
     withdraw_accepted avail balance n kp /\
     (n < 2 ^ 48 -> transfer_accepted avail ae n kp key other auditor /\
                    burn_accepted avail ae n kp key other auditor)) /\
  (balance + n <= u64_max -> n < 2 ^ 48 -> mint_accepted avail balance n kp other auditor) /\
  (u64_max < balance + n ->
     refuses (mint_proof.mint_split_proof_data avail n balance kp other auditor)
       TokenProofGenerationError.IllegalAmountBitLength) /\
  (balance < n ->
     refuses (withdraw_proof.withdraw_proof_data avail balance n kp)
       TokenProofGenerationError.NotEnoughFunds /\
     refuses (transfer_proof.transfer_split_proof_data avail ae n kp key other auditor)
       TokenProofGenerationError.NotEnoughFunds /\
     refuses (burn_proof.burn_split_proof_data avail ae n kp key other auditor)
       TokenProofGenerationError.NotEnoughFunds).
Proof.
  intros Hb Hn Hae Ha. pose proof Hn as [Hn0 _]. pose proof Hb as [Hb0 _]. split; [|split; [|split]].
  - intros Hle. split; [by apply withdraw_proofs_accepted|].
    intros Hlt. split; [by apply (transfer_proofs_accepted _ _ balance)|by apply (burn_proofs_accepted _ _ balance)].
  - intros Hs Hlt. apply mint_proofs_accepted; try done. split; [lia|done].
  - by apply overflowing_mint_refused.
  - intros Hlt. split; [by apply refuses_bind_none, overdrawn|].
    split; [by apply (overdrawn_transfer_refused _ _ balance)|by apply (overdrawn_burn_refused _ _ balance)].
Qed.
End accepted.

(** ** Proofs for transfers with a fee

    The fee that a client of [transfer_with_fee_proof] proves is the fee that
    an ordinary transfer charges, and the five proofs that it generates pass the
    checks of [transfer_with_fee.verify_and_extract]. *)
Import proof_generation.

(** ** The fee *)

(** What the client claims about the fee, without machine widths. *)
Definition claimed_delta (bp max x : Z) : Z :=
  if max <? (x * bp + 9999) / 10000 then 0 else (x * bp + 9999) / 10000 * 10000 - x * bp.

Lemma raw_fee_bounds bp x :
  0 <= bp <= 10000 -> 0 <= x ->
  0 <= (x * bp + 9999) / 10000 <= x /\ 0 <= (x * bp + 9999) / 10000 * 10000 - x * bp <= 9999.
Proof.
  intros Hb Hx. pose proof (Z.div_mod (x * bp + 9999) 10000). pose proof (Z.mod_pos_bound (x * bp + 9999) 10000).
  assert (0 <= (x * bp + 9999) / 10000) by (apply Z.div_pos; nia). nia.
Qed.

Lemma client_fee_eq bp x :
  is_u64 x -> 0 <= bp <= 10000 ->
  transfer_with_fee_proof.calculate_fee x bp =
    Some ((x * bp + 9999) / 10000, (x * bp + 9999) / 10000 * 10000 - x * bp).
Proof.
  intros Hx Hb. destruct (raw_fee_bounds bp x Hb) as [H1 H2]; [by destruct Hx|].
  unfold is_u64, u64_max in Hx. unfold transfer_with_fee_proof.calculate_fee.
  unfold transfer_with_fee_proof.ONE_IN_BASIS_POINTS, transfer_with_fee_proof.MAX_FEE_BASIS_POINTS.
  unfold u128_checked_mul, u128_checked_add, u128_checked_sub, u128_checked_div, u128_max.
  rewrite (proj2 (checked_Some _ _ (x * bp) _)) by (split; [done|nia]). cbn [mbind option_bind].
  rewrite (proj2 (checked_Some _ _ (x * bp + 10000) _)) by (split; [done|nia]). cbn [mbind option_bind].
  rewrite (proj2 (checked_Some _ _ (x * bp + 10000 - 1) _)) by (split; [done|nia]).
  cbn [mbind option_bind]. change (10000 =? 0) with false. cbn [mbind option_bind].
  replace (x * bp + 10000 - 1) with (x * bp + 9999) by lia.
  set (q := (x * bp + 9999) / 10000) in *.
  rewrite (proj2 (checked_Some _ _ (q * 10000) _)) by (split; [done|nia]). cbn [mbind option_bind].
  rewrite (proj2 (checked_Some _ _ (q * 10000 - x * bp) _)) by (split; [done|nia]).
  cbn [mbind option_bind]. unfold as_u64. by rewrite !Z.mod_small by lia.
Qed.

Lemma transfer_fee_amounts_eq bp max x :
  is_u64 x -> 0 <= bp <= 10000 -> 0 <= max ->
  transfer_with_fee_proof.transfer_fee_amounts x bp max =
    Some (fee_spec bp max x, claimed_delta bp max x, x - fee_spec bp max x).
Proof.
  intros Hx Hb Hm. pose proof (fee_spec_bounds bp max x Hb Hm ltac:(by destruct Hx)) as Hf.
  unfold transfer_with_fee_proof.transfer_fee_amounts. rewrite client_fee_eq by done.
  cbn [mbind option_bind]. unfold claimed_delta.
  assert ((if max <? (x * bp + 9999) / 10000 then max else (x * bp + 9999) / 10000) =
    fee_spec bp max x) as Ef by (unfold fee_spec; destruct (Z.ltb_spec max ((x * bp + 9999) / 10000)); lia).
  assert (u64_checked_sub x (fee_spec bp max x) = Some (x - fee_spec bp max x)) as Es
    by (apply u64_checked_sub_Some; unfold is_u64 in Hx; lia).
  rewrite <- Ef in *. by destruct (max <? _); cbn [mbind option_bind]; rewrite Es.
Qed.

Section provers.
Context {E : Type} `{PV : ZkProvers E}.

(** ** Commitments as the processor computes them *)

Lemma subtract_pod a b :
  subtract_ristretto (commitment_pod a) (commitment_pod b) = Some (commitment_pod (commitment_sub a b)).
Proof. by rewrite !commitment_pod_eq, subtract_ristretto_eq, !decode_encode, commitment_sub_eq. Qed.

Lemma multiply_pod k a : is_u64 k ->
  multiply_ristretto (transfer_with_fee.u64_to_scalar k) (commitment_pod a) =
    Some (commitment_pod (commitment_mul a k)).
Proof.
  intros Hk. change (transfer_with_fee.u64_to_scalar k) with (ciphertext_arithmetic.u64_to_scalar k).
  by rewrite !commitment_pod_eq, multiply_u64, decode_encode, commitment_mul_eq by done.
Qed.

Lemma u16_to_scalar_read n : 0 <= n <= u16_max -> le_read (transfer_with_fee.u16_to_scalar n) = n.
Proof.
  intros Hn. unfold transfer_with_fee.u16_to_scalar, le_read, bytes_of_list. cbn [bytes_list].
  rewrite resize_ge by (rewrite length_to_le_bytes; lia).
  rewrite from_le_bytes_pad, from_to_le_bytes, Z.mod_small; [done|].
  unfold u16_max in Hn. change (256 ^ Z.of_nat 2) with 65536. lia.
Qed.

Lemma multiply_pod_16 k a : 0 <= k <= u16_max ->
  multiply_ristretto (transfer_with_fee.u16_to_scalar k) (commitment_pod a) =
    Some (commitment_pod (commitment_mul a k)).
Proof.
  intros Hk. rewrite !commitment_pod_eq, multiply_ristretto_eq; rewrite u16_to_scalar_read by done.
  - by rewrite decode_encode, commitment_mul_eq by (unfold is_u64, u64_max, u16_max in *; lia).
  - unfold u64_max, u16_max in *. lia.
Qed.

Lemma combine_pod a b :
  transfer_with_fee.combine_lo_hi_pedersen_points (commitment_pod a) (commitment_pod b) =
    Some (commitment_pod (commitment_add a (commitment_mul b 65536))).
Proof.
  unfold transfer_with_fee.combine_lo_hi_pedersen_points. rewrite multiply_pod by done.
  cbn [mbind option_bind].
  by rewrite !commitment_pod_eq, add_ristretto_eq, !decode_encode, commitment_add_eq.
Qed.

(** The commitment to the highest delta needs no opening. *)
Lemma multiply_generator k : is_u64 k ->
  multiply_ristretto (transfer_with_fee.u64_to_scalar k) transfer_with_fee.G =
    Some (commitment_pod (pedersen_with k default_opening)).
Proof.
  intros Hk. change (transfer_with_fee.u64_to_scalar k) with (ciphertext_arithmetic.u64_to_scalar k).
  change transfer_with_fee.G with ciphertext_arithmetic.G.
  rewrite multiply_u64, decode_G, commitment_pod_eq, pedersen_with_eq by done.
  cbn [mbind option_bind mret option_ret]. by rewrite default_opening_eq, pplus_0_r.
Qed.

(** ** The proofs *)

(** A commitment put together from its parts. *)
Definition combined (lo hi : PedersenCommitment) : PedersenCommitment :=
  commitment_add lo (commitment_mul hi 65536).

(** Contexts put together like this pass the checks. *)
Lemma fee_contexts_accepted pk dst aud authority ct (c_lo c_hi : GroupedElGamalCiphertext 3)
    (f_lo f_hi : GroupedElGamalCiphertext 2) left claimed bp max :
  is_u64 max -> 0 <= bp <= 10000 ->
  let c := combined (grouped_commitment c_lo) (grouped_commitment c_hi) in
  let f := combined (grouped_commitment f_lo) (grouped_commitment f_hi) in
  transfer_with_fee.verify_and_extract
    (mk_commitment_equality pk ct (commitment_pod left))
    (mk_grouped_3 pk dst aud (g3_pod c_lo) (g3_pod c_hi))
    (mk_percentage_with_cap (commitment_pod f)
       (commitment_pod (commitment_sub (commitment_mul f 10000) (commitment_mul c bp)))
       (commitment_pod claimed) (u64_new max))
    (mk_grouped_2 dst authority (g2_pod f_lo) (g2_pod f_hi))
    (mk_batched_range
       (commitment_pod <$> [left; grouped_commitment c_lo; grouped_commitment c_hi; claimed;
          commitment_sub (pedersen_with 9999 default_opening) claimed;
          grouped_commitment f_lo; grouped_commitment f_hi; commitment_sub c f])
       (bits [64; 16; 32; 16; 16; 16; 32; 64])) bp max =
  Ok (transfer_with_fee.mk_transfer_with_fee_proof (g3_pod c_lo) (g3_pod c_hi)
        (transfer_with_fee.mk_transfer_with_fee_pubkeys pk dst aud authority) ct
        (g2_pod f_lo) (g2_pod f_hi)).
Proof.
  intros Hm Hb c f. unfold transfer_with_fee.verify_and_extract, transfer_with_fee.verify_delta_commitment.
  unfold transfer_with_fee.commitment_to_ristretto.
  cbn [g3_first_pubkey g3_second_pubkey g3_third_pubkey g3_grouped_ciphertext_lo
       g3_grouped_ciphertext_hi g2_first_pubkey g2_second_pubkey g2_grouped_ciphertext_lo
       g2_grouped_ciphertext_hi pwc_percentage_commitment pwc_claimed_commitment
       pwc_delta_commitment pwc_max_value eq_commitment eq_pubkey eq_ciphertext
       range_commitments range_bit_lengths].
  rewrite u64_get_new, Z.eqb_refl by done.
  unfold transfer_with_fee.MAX_FEE_BASIS_POINTS_SUB_ONE, transfer_with_fee.MAX_FEE_BASIS_POINTS.
  repeat first [ rewrite g3_commitment_eq | rewrite g2_commitment_eq | rewrite combine_pod
    | rewrite subtract_pod | rewrite bool_decide_true by done
    | rewrite prefix_zip_all_equal by reflexivity
    | rewrite multiply_generator by done | rewrite multiply_pod by done
    | rewrite multiply_pod_16 by (unfold u16_max; lia)
    | progress (cbn [mbind Result_bind mret Result_ret check transfer_with_fee.curve_ok ok_or]) ].
  reflexivity.
Qed.

(** The first part, until the fee. *)
Lemma transfer_amount_proofs_made avail ae balance n kp key dst aud :
  is_u64 balance -> 0 <= n <= balance -> n < 2 ^ 48 -> ae_decrypt ae key = Some balance ->
  decrypt (secret kp) (ciphertext_pod avail) = Some (amount_point balance) ->
  yields (transfer_with_fee_proof.transfer_amount_proofs avail ae n kp key dst aud) (fun a =>
    let pks := [# keypair_pubkey kp; dst; aud] in
    exists o_lo o_hi lo hi o p va,
      let c_lo := encrypt_with pks (n mod 65536) o_lo in
      let c_hi := encrypt_with pks (n / 65536) o_hi in
      a = transfer_with_fee_proof.mk_amount_proofs (n mod 65536) (n / 65536) c_lo c_hi o_lo o_hi
            (balance - n) (pedersen_with (balance - n) o) o p va /\
      to_elgamal_ciphertext c_lo 0 = Some lo /\ to_elgamal_ciphertext c_hi 0 = Some hi /\
      equality_context p = mk_commitment_equality (pubkey_pod (keypair_pubkey kp))
        (ciphertext_pod (ciphertext_sub avail (ciphertext_add lo (ciphertext_mul hi 65536))))
        (commitment_pod (pedersen_with (balance - n) o)) /\
      grouped_3_context (va_proof_data va) = mk_grouped_3 (pubkey_pod (keypair_pubkey kp))
        (pubkey_pod dst) (pubkey_pod aud) (g3_pod c_lo) (g3_pod c_hi) /\
      validity_of n (keypair_pubkey kp) dst aud va).
Proof.
  intros Hb Hn Hlt Hae Ha.
  assert (is_u64 n) as Un by (unfold is_u64 in *; lia).
  assert (is_u64 (balance - n)) as Ur by (unfold is_u64 in *; lia).
  assert (u64_checked_sub balance n = Some (balance - n)) as Es by (by apply u64_checked_sub_Some).
  destruct (amount_parts n Un Hlt) as (Ulo & Uhi & _).
  unfold transfer_with_fee_proof.transfer_amount_proofs, TransferAmountCiphertext_new. cbn zeta.
  gen_step. apply yields_bind_encrypt. intros o_lo. apply yields_bind_encrypt. intros o_hi.
  destruct (amount_ciphertexts [# keypair_pubkey kp; dst; aud] n o_lo o_hi 0 _ Un Hlt eq_refl)
    as (lo & hi & El & Eh & Hd).
  destruct (Hd _ (keypair_of_secret kp)) as [Hl Hh].
  do 6 gen_step.
  eapply yields_bind_prove; [intros g; apply prove_equality; [done|by apply remaining_decrypt|by apply commits_with]|].
  intros p Ep. eapply yields_bind_prove; [intros g; by apply prove_grouped_3|]. intros v Ev.
  destruct (validity_made n _ _ _ o_lo o_hi v Un Hlt Ev) as (a_lo & a_hi & Elo & Ehi & Hv).
  do 3 gen_step. exists o_lo, o_hi, lo, hi, o, p. eexists. split; [reflexivity|]. done.
Qed.

(** A commitment put together from the parts of an amount. *)
Lemma commits_combined n c_lo c_hi o_lo o_hi :
  commits c_lo (n mod 65536) o_lo -> commits c_hi (n / 65536) o_hi ->
  commits (combined c_lo c_hi) n (opening_add o_lo (opening_mul o_hi 65536)).
Proof.
  intros Hl Hh. rewrite <- (split_combine n) at 1. apply commits_add; [done|]. by apply commits_mul.
Qed.

Lemma commits_encrypt {k} (pks : vec ElGamalPubkey k) m o :
  is_u64 m -> commits (grouped_commitment (encrypt_with pks m o)) m o.
Proof. intros Hm. rewrite grouped_commitment_eq. by apply commits_with. Qed.

Lemma commits_encrypted {k} (pks : vec ElGamalPubkey k) n o_lo o_hi :
  is_u64 n -> n < 2 ^ 48 ->
  commits (combined (grouped_commitment (encrypt_with pks (n mod 65536) o_lo))
           (grouped_commitment (encrypt_with pks (n / 65536) o_hi))) n
    (opening_add o_lo (opening_mul o_hi 65536)).
Proof.
  intros Hn Hlt. destruct (amount_parts n Hn Hlt) as (Ulo & Uhi & _).
  apply commits_combined; by apply commits_encrypt.
Qed.

Lemma fee_parts bp max n :
  is_u64 n -> n < 2 ^ 48 -> 0 <= bp <= 10000 -> 0 <= max ->
  is_u64 (fee_spec bp max n) /\ fee_spec bp max n < 2 ^ 48 /\ fee_spec bp max n <= n /\
  0 <= claimed_delta bp max n <= 9999.
Proof.
  intros Hn Hlt Hb Hm. pose proof (fee_spec_bounds bp max n Hb Hm ltac:(by destruct Hn)).
  destruct (raw_fee_bounds bp n Hb ltac:(by destruct Hn)). unfold is_u64, u64_max, claimed_delta in *.
  destruct (max <? _); lia.
Qed.

(** The commitments of the range proof of a transfer with a fee. *)
Definition fee_claims (left : Z) (o : PedersenOpening) (n fee claimed : Z)
    (c_lo c_hi : GroupedElGamalCiphertext 3) (o_lo o_hi : PedersenOpening)
    (f_lo f_hi : GroupedElGamalCiphertext 2) (fo_lo fo_hi co : PedersenOpening) : list RangeClaim :=
  [mk_range_claim (pedersen_with left o) left 64 o;
   mk_range_claim (grouped_commitment c_lo) (n mod 65536) 16 o_lo;
   mk_range_claim (grouped_commitment c_hi) (n / 65536) 32 o_hi;
   mk_range_claim (pedersen_with claimed co) claimed 16 co;
   mk_range_claim (commitment_sub (pedersen_with 9999 default_opening) (pedersen_with claimed co))
     (9999 - claimed) 16 (opening_sub default_opening co);
   mk_range_claim (grouped_commitment f_lo) (fee mod 65536) 16 fo_lo;
   mk_range_claim (grouped_commitment f_hi) (fee / 65536) 32 fo_hi;
   mk_range_claim (commitment_sub (combined (grouped_commitment c_lo) (grouped_commitment c_hi))
       (combined (grouped_commitment f_lo) (grouped_commitment f_hi)))
     (n - fee) 64
     (opening_sub (opening_add o_lo (opening_mul o_hi 65536)) (opening_add fo_lo (opening_mul fo_hi 65536)))].

Lemma fee_claims_range left o n fee claimed pks pks' o_lo o_hi fo_lo fo_hi co :
  is_u64 left -> is_u64 n -> n < 2 ^ 48 -> is_u64 fee -> fee <= n -> 0 <= claimed <= 9999 ->
  range_claims 256 (fee_claims left o n fee claimed
    (encrypt_with pks (n mod 65536) o_lo) (encrypt_with pks (n / 65536) o_hi) o_lo o_hi
    (encrypt_with pks' (fee mod 65536) fo_lo) (encrypt_with pks' (fee / 65536) fo_hi) fo_lo fo_hi co).
Proof.
  intros Hl Hn Hlt Hf Hle Hc.
  destruct (amount_parts n Hn Hlt) as (U1 & U2 & L1 & L2).
  destruct (amount_parts fee Hf ltac:(lia)) as (U3 & U4 & L3 & L4).
  assert (is_u64 claimed) as Uc by (unfold is_u64, u64_max; lia).
  split; [cbn; lia|]. split; [done|]. unfold fee_claims.
  repeat apply List.Forall_cons; try apply List.Forall_nil;
    cbn [rc_commitment rc_amount rc_bits rc_opening];
    (split; [|split; [lia|unfold is_u64, u64_max in *; lia]]).
  - by apply commits_with.
  - by apply commits_encrypt.
  - by apply commits_encrypt.
  - by apply commits_with.
  - apply commits_sub; by apply commits_with.
  - by apply commits_encrypt.
  - by apply commits_encrypt.
  - apply commits_sub; apply commits_encrypted; (done || lia).
Qed.

Lemma fee_range_made left o n fee claimed pks pks' o_lo o_hi fo_lo fo_hi co p va :
  is_u64 left -> is_u64 n -> n < 2 ^ 48 -> is_u64 fee -> fee <= n -> 0 <= claimed <= 9999 ->
  let c_lo := encrypt_with pks (n mod 65536) o_lo in
  let c_hi := encrypt_with pks (n / 65536) o_hi in
  let f_lo := encrypt_with pks' (fee mod 65536) fo_lo in
  let f_hi := encrypt_with pks' (fee / 65536) fo_hi in
  yields (transfer_with_fee_proof.transfer_with_fee_range_proof
    (transfer_with_fee_proof.mk_amount_proofs (n mod 65536) (n / 65536) c_lo c_hi o_lo o_hi
       left (pedersen_with left o) o p va)
    claimed (fee mod 65536) (fee / 65536) (n - fee) f_lo f_hi fo_lo fo_hi
    (pedersen_with claimed co) co
    (commitment_sub (combined (grouped_commitment c_lo) (grouped_commitment c_hi))
       (combined (grouped_commitment f_lo) (grouped_commitment f_hi)))
    (opening_sub (opening_add o_lo (opening_mul o_hi 65536)) (opening_add fo_lo (opening_mul fo_hi 65536))))
    (fun r => range_u256_context r = range_context_of
       (fee_claims left o n fee claimed c_lo c_hi o_lo o_hi f_lo f_hi fo_lo fo_hi co)).
Proof.
  intros Hl Hn Hlt Hf Hle Hc c_lo c_hi f_lo f_hi.
  assert (u64_checked_sub 9999 claimed = Some (9999 - claimed)) as Es
    by (apply u64_checked_sub_Some; unfold u64_max; lia).
  unfold transfer_with_fee_proof.transfer_with_fee_range_proof.
  eapply yields_bind_some; [exact Es|]. intros g.
  destruct (prove_range_u256 _ g (fee_claims_range left o n fee claimed pks pks' o_lo o_hi fo_lo fo_hi
    co Hl Hn Hlt Hf Hle Hc)) as (r & g' & Er & Hr).
  exists r, g'. split; [|done]. unfold prove, map_err. etrans; [|apply (f_equal (fun x => match x with
    | Ok r => Ok r | Err e => Err (TokenProofGenerationError.ProofGeneration e) | Panic => Panic end) Er)].
  reflexivity.
Qed.

(** The proof of the fee: at the cap, or with the delta that is claimed. *)
Lemma fee_sigma_made n bp max c o f fo co g :
  is_u64 n -> n < 2 ^ 48 -> 0 <= bp <= 10000 -> is_u64 max ->
  let fee := fee_spec bp max n in
  let claimed := claimed_delta bp max n in
  let delta := commitment_sub (commitment_mul f 10000) (commitment_mul c bp) in
  commits c n o -> commits f fee fo ->
  proves (build_percentage_with_cap_proof_data f fo fee delta
            (opening_sub (opening_mul fo 10000) (opening_mul o bp)) claimed
            (pedersen_with claimed co) co max g)
    (fun s => percentage_context s =
       mk_percentage_with_cap (commitment_pod f) (commitment_pod delta)
         (commitment_pod (pedersen_with claimed co)) (u64_new max)).
Proof.
  intros Hn Hlt Hb Hm fee claimed delta Hc Hf.
  destruct (fee_parts bp max n Hn Hlt Hb ltac:(by destruct Hm)) as (Uf & _ & _ & Hcl).
  assert (is_u64 claimed) as Uc by (unfold is_u64, u64_max, claimed; lia).
  apply prove_percentage; try done.
  - unfold fee, fee_spec. lia.
  - by apply commits_with.
  - assert (commits delta (10000 * fee - bp * n)
      (opening_sub (opening_mul fo 10000) (opening_mul o bp))) as Hd
      by (apply commits_sub; apply commits_mul; try done; unfold is_u64, u64_max; lia).
    unfold fee, claimed, fee_spec, claimed_delta in *.
    destruct (Z.ltb_spec max ((n * bp + 9999) / 10000)); [left; lia|right].
    replace ((n * bp + 9999) / 10000 * 10000 - n * bp)
      with (10000 * Z.min ((n * bp + 9999) / 10000) max - bp * n) by lia. exact Hd.
Qed.

(** The fee is encrypted for the two keys. *)
Lemma fee_amount_for dst authority fee fo_lo fo_hi :
  is_u64 fee -> fee < 2 ^ 48 ->
  amount_for g2_try_extract_ciphertext [pubkey_pod dst; pubkey_pod authority] (amount_point fee)
    (g2_pod (encrypt_with [# dst; authority] (fee mod 65536) fo_lo))
    (g2_pod (encrypt_with [# dst; authority] (fee / 65536) fo_hi)).
Proof.
  intros Hf Hlt. destruct (amount_parts fee Hf Hlt) as (Ulo & Uhi & _).
  rewrite <- amount_point_split. apply grouped_amount; by apply grouped_2_encryption.
Qed.

Lemma covered_fee_proofs_accepted avail ae balance n kp key dst auditor authority f :
  is_u64 balance -> 0 <= n <= balance -> n < 2 ^ 48 -> ae_decrypt ae key = Some balance ->
  decrypt (secret kp) (ciphertext_pod avail) = Some (amount_point balance) -> valid_fee f ->
  let aud := default default_pubkey auditor in
  let bp := u16_get (tf_transfer_fee_basis_points f) in
  let max := u64_get (tf_maximum_fee f) in
  exists fee, calculate_fee f n = Some fee /\
  yields (transfer_with_fee_proof.transfer_with_fee_split_proof_data avail ae n kp key dst auditor
            authority bp max) (fun d =>
    let va := transfer_with_fee_proof.tfpd_transfer_amount_ciphertext_validity_proof_data_with_ciphertext d in
    validity_of n (keypair_pubkey kp) dst aud va /\
    exists ctx lo hi,
      transfer_with_fee.verify_and_extract
        (equality_context (transfer_with_fee_proof.tfpd_equality_proof_data d))
        (grouped_3_context (va_proof_data va))
        (percentage_context (transfer_with_fee_proof.tfpd_percentage_with_cap_proof_data d))
        (grouped_2_context (transfer_with_fee_proof.tfpd_fee_ciphertext_validity_proof_data d))
        (range_u256_context (transfer_with_fee_proof.tfpd_range_proof_data d)) bp max = Ok ctx /\
      transfer_with_fee.tf_transfer_with_fee_pubkeys ctx =
        transfer_with_fee.mk_transfer_with_fee_pubkeys (pubkey_pod (keypair_pubkey kp))
          (pubkey_pod dst) (pubkey_pod aud) (pubkey_pod authority) /\
      g3_try_extract_ciphertext (transfer_with_fee.tf_ciphertext_lo ctx) 0 = Some lo /\
      g3_try_extract_ciphertext (transfer_with_fee.tf_ciphertext_hi ctx) 0 = Some hi /\
      ciphertext_arithmetic.subtract_with_lo_hi (ciphertext_pod avail) lo hi =
        Some (transfer_with_fee.tf_new_source_ciphertext ctx) /\
      amount_for g2_try_extract_ciphertext [pubkey_pod dst; pubkey_pod authority] (amount_point fee)
        (transfer_with_fee.tf_fee_ciphertext_lo ctx) (transfer_with_fee.tf_fee_ciphertext_hi ctx)).
Proof.
  intros Hb Hn Hlt Hae Ha Hf aud bp max.
  assert (is_u64 n) as Un by (unfold is_u64 in *; lia).
  pose proof (u16_get_range (tf_transfer_fee_basis_points f)) as Rb.
  pose proof (u64_get_range (tf_maximum_fee f)) as Rm.
  assert (0 <= bp <= 10000) as Hbp by (unfold valid_fee, MAX_FEE_BASIS_POINTS, is_u16 in *; lia).
  exists (fee_spec bp max n). split; [by apply calculate_fee_valid|].
  unfold transfer_with_fee_proof.transfer_with_fee_split_proof_data. cbn zeta. fold aud.
  eapply yields_bind; [by apply (transfer_amount_proofs_made avail ae balance)|].
  intros a (o_lo & o_hi & lo & hi & o & p & va & -> & El & Eh & Ep & Ev & Hv).
  destruct (fee_parts bp max n Un Hlt Hbp ltac:(by destruct Rm)) as (Uf & Lf & Hle & Hc).
  set (fee := fee_spec bp max n) in *. set (claimed := claimed_delta bp max n) in *.
  destruct (amount_parts fee Uf Lf) as (Ulo & Uhi & _).
  assert (is_u64 claimed) as Uc by (unfold is_u64, u64_max; lia).
  eapply yields_bind_some; [apply transfer_fee_amounts_eq; [done|done|by destruct Rm]|].
  cbn beta iota zeta. fold fee claimed. gen_step. unfold FeeCiphertext_new. cbn zeta.
  apply yields_bind_encrypt. intros fo_lo. apply yields_bind_encrypt. intros fo_hi.
  cbn beta iota zeta.
  do 4 (eapply yields_bind_some; [reflexivity|]; cbn beta iota zeta).
  gen_step. rename o0 into co. cbn [transfer_with_fee_proof.compute_delta_commitment_and_opening].
  eapply yields_bind_prove.
  { intros g. exact (fee_sigma_made n bp max _ _ _ _ co g Un Hlt Hbp Rm
      (commits_encrypted [# keypair_pubkey kp; dst; aud] n o_lo o_hi Un Hlt)
      (commits_encrypted [# dst; authority] fee fo_lo fo_hi Uf Lf)). }
  intros sg Es. eapply yields_bind_prove; [intros g; by apply prove_grouped_2|]. intros fv Efv.
  eapply yields_bind.
  { apply (fee_range_made (balance - n) o n fee claimed [# keypair_pubkey kp; dst; aud]
      [# dst; authority] o_lo o_hi fo_lo fo_hi co p va); try done. unfold is_u64 in *. lia. }
  intros r Er. apply yields_ret.
  cbn [transfer_with_fee_proof.tfpd_equality_proof_data
       transfer_with_fee_proof.tfpd_transfer_amount_ciphertext_validity_proof_data_with_ciphertext
       transfer_with_fee_proof.tfpd_percentage_with_cap_proof_data
       transfer_with_fee_proof.tfpd_fee_ciphertext_validity_proof_data
       transfer_with_fee_proof.tfpd_range_proof_data
       transfer_with_fee_proof.amount_equality_proof_data
       transfer_with_fee_proof.amount_ciphertext_validity_proof_data_with_ciphertext].
  split; [done|]. rewrite Ep, Ev, Efv, Er. rewrite Es. do 3 eexists.
  split.
  { exact (fee_contexts_accepted _ _ _ _ _
      (encrypt_with [# keypair_pubkey kp; dst; aud] (n mod 65536) o_lo)
      (encrypt_with [# keypair_pubkey kp; dst; aud] (n / 65536) o_hi)
      (encrypt_with [# dst; authority] (fee mod 65536) fo_lo)
      (encrypt_with [# dst; authority] (fee / 65536) fo_hi)
      (pedersen_with (balance - n) o) (pedersen_with claimed co) bp max Rm Hbp). }
  cbn [transfer_with_fee.tf_ciphertext_lo transfer_with_fee.tf_ciphertext_hi
       transfer_with_fee.tf_new_source_ciphertext transfer_with_fee.tf_fee_ciphertext_lo
       transfer_with_fee.tf_fee_ciphertext_hi].
  rewrite !g3_extract_eq, El, Eh. do 3 (split; [reflexivity|]).
  split; [apply subtract_with_lo_hi_pod|by apply fee_amount_for].
Qed.

Lemma refuses_bind {Er A B} (m : Gen Er A) (f : A -> Gen Er B) (e : Er) :
  refuses m e -> refuses (m ≫= f) e.
Proof. intros Hm g. unfold mbind, Gen_bind. by rewrite Hm. Qed.

Lemma overdrawn_fee_transfer_refused avail ae balance n kp key dst auditor authority bp max :
  is_u64 balance -> is_u64 n -> balance < n -> ae_decrypt ae key = Some balance ->
  refuses (transfer_with_fee_proof.transfer_with_fee_split_proof_data avail ae n kp key dst auditor
             authority bp max) TokenProofGenerationError.NotEnoughFunds.
Proof.
  intros Hb Hn Hlt Hae. unfold transfer_with_fee_proof.transfer_with_fee_split_proof_data. cbn zeta.
  apply refuses_bind.
  unfold transfer_with_fee_proof.transfer_amount_proofs, TransferAmountCiphertext_new.
  eapply refuses_bind_some; [by apply try_split_u64_eq; [|cbv; lia]|]. cbn beta iota.
  do 2 (apply refuses_bind_encrypt; intros ?; cbn beta iota).
  eapply refuses_bind_some; [exact Hae|]. by apply refuses_bind_none, overdrawn.
Qed.

(** C20: on a balance that covers the amount, below 2^48, and for a rate of at
    most 100 percent, a client gets the five proofs of a transfer with a fee,
    whatever randomness is drawn: their contexts pass the checks of the processor
    for the rate and the maximum fee, name the keys given, are about the balance
    less the amount, and state the fee that an ordinary transfer charges,
    encrypted for the destination and the withdraw authority.  An amount that the
    balance does not cover is refused as NotEnoughFunds. *)
Theorem fee_proofs_accepted avail ae balance n kp key dst auditor authority f :
  is_u64 balance -> is_u64 n -> ae_decrypt ae key = Some balance ->
  decrypt (secret kp) (ciphertext_pod avail) = Some (amount_point balance) -> valid_fee f ->
  let aud := default default_pubkey auditor in
  let bp := u16_get (tf_transfer_fee_basis_points f) in
  let max := u64_get (tf_maximum_fee f) in
  (n <= balance -> n < 2 ^ 48 ->
   exists fee, calculate_fee f n = Some fee /\
   yields (transfer_with_fee_proof.transfer_with_fee_split_proof_data avail ae n kp key dst auditor
             authority bp max) (fun d =>
     let va := transfer_with_fee_proof.tfpd_transfer_amount_ciphertext_validity_proof_data_with_ciphertext d in
     validity_of n (keypair_pubkey kp) dst aud va /\
     exists ctx lo hi,
       transfer_with_fee.verify_and_extract
         (equality_context (transfer_with_fee_proof.tfpd_equality_proof_data d))
         (grouped_3_context (va_proof_data va))
         (percentage_context (transfer_with_fee_proof.tfpd_percentage_with_cap_proof_data d))
         (grouped_2_context (transfer_with_fee_proof.tfpd_fee_ciphertext_validity_proof_data d))
         (range_u256_context (transfer_with_fee_proof.tfpd_range_proof_data d)) bp max = Ok ctx /\
       transfer_with_fee.tf_transfer_with_fee_pubkeys ctx =
         transfer_with_fee.mk_transfer_with_fee_pubkeys (pubkey_pod (keypair_pubkey kp))
           (pubkey_pod dst) (pubkey_pod aud) (pubkey_pod authority) /\
       g3_try_extract_ciphertext (transfer_with_fee.tf_ciphertext_lo ctx) 0 = Some lo /\
       g3_try_extract_ciphertext (transfer_with_fee.tf_ciphertext_hi ctx) 0 = Some hi /\
       ciphertext_arithmetic.subtract_with_lo_hi (ciphertext_pod avail) lo hi =
         Some (transfer_with_fee.tf_new_source_ciphertext ctx) /\
       amount_for g2_try_extract_ciphertext [pubkey_pod dst; pubkey_pod authority] (amount_point fee)
         (transfer_with_fee.tf_fee_ciphertext_lo ctx) (transfer_with_fee.tf_fee_ciphertext_hi ctx))) /\
  (balance < n ->
   refuses (transfer_with_fee_proof.transfer_with_fee_split_proof_data avail ae n kp key dst auditor
              authority bp max) TokenProofGenerationError.NotEnoughFunds).
Proof.
  intros Hb Hn Hae Ha Hf aud bp max. pose proof Hn as [Hn0 _]. split.
  - intros Hle Hlt. by apply (covered_fee_proofs_accepted avail ae balance).
  - intros Hlt. by apply (overdrawn_fee_transfer_refused _ _ balance).
Qed.
End provers.
