(* ===== verification/ClientBalanceTheory.v ===== *)
(** * Clients keep up with their balances

    A client knows an account when the decryptable balance and the available
    ciphertext stand for one number ([in_step]).  What it computes from such an
    account keeps it so: withdrawing, and applying a pending balance whose halves
    are below 2^32, succeed with the ciphertexts and proofs that the client makes, and leave the account
    in step with the new balance. *)
From S2P Require Import Prelude Bytes Errors Ids Runtime Pod ExtensionState CiphertextArithmetic.
From S2P Require Import CiphertextTheory ProofExtraction Extension TlvTheory ViewTheory MonadTheory.
From S2P Require Import Ownership Ledger TransferTheory FeesTheory PodInstruction ConfidentialTransfer.
From S2P Require Import ConfidentialPure ConfidentialTheory ExtensionInstructions ConfidentialInstructions.
From S2P Require Import ProofGeneration ClientBalances ProofGenerationTheory ProofAcceptance.
Import confidential_transfer proof_generation.

(** The documented laws of decryption: a small plaintext is found exactly when it
    is there. *)
Class ZkClientLaws (E : Type) `{SL : ZkSdkLaws E} `{ZE : !ZkClientSdk} : Prop := mk_zk_client_laws {
  decrypt_u32_sound kp c n : decrypt_u32 (keypair_secret kp) c = Some n ->
    0 <= n < 2 ^ 32 /\ decrypt (secret kp) (ciphertext_pod c) = Some (amount_point n);
  decrypt_u32_complete kp c n : 0 <= n < 2 ^ 32 ->
    decrypt (secret kp) (ciphertext_pod c) = Some (amount_point n) ->
    decrypt_u32 (keypair_secret kp) c = Some n;
  ciphertext_try_from_Some b c : ciphertext_try_from b = Some c -> ciphertext_pod c = b;
  ciphertext_try_from_decrypt s b (x : E) : decrypt s b = Some x ->
    exists c, ciphertext_try_from b = Some c;
  ae_try_from_pod c : ae_try_from (ae_pod c) = Some c;
  ae_decrypt_encrypt key n g : is_u64 n -> ae_decrypt (ae_encrypt key n g).1 key = Some n
}.

Section theory.
Context {E : Type} `{RT : Runtime} `{ZC : ZkContexts} `{CV : CurveInterface} `{PG : !PointGroup E}.
Context `{CL : !CurveLaws E} `{ZP : !ZkProofs} `{ZS : !ZkSdk} `{SL : !ZkSdkLaws E}.
Context `{PV : !ZkProvers E} `{ZE : !ZkClientSdk} `{EL : !ZkClientLaws E}.

(** ** Steps of client functions *)

Lemma yields_map_err {Er Er' A} (f : Er -> Er') (m : Gen Er A) (P : A -> Prop) :
  yields m P -> yields (map_err f m) P.
Proof.
  intros Hm g. destruct (Hm g) as (a & g' & Ea & Ha). exists a, g'. unfold map_err. by rewrite Ea.
Qed.

Lemma yields_some {Er A} (o : option A) a (e : Er) (P : A -> Prop) :
  o = Some a -> P a -> yields (some_or o e) P.
Proof. intros -> HP g. by exists a, g. Qed.


(** ** Accounts that a client knows *)

(** The two forms of the available balance stand for [n]. *)
Record in_step (kp : ElGamalKeypair) (key : AeKey) (e : ConfidentialTransferAccount) (n : Z) : Prop :=
  mk_in_step {
  step_pubkey : cta_elgamal_pubkey e = pubkey_pod (keypair_pubkey kp);
  step_decryptable : exists c, ae_try_from (cta_decryptable_available_balance e) = Some c /\
    ae_decrypt c key = Some n;
  step_available : decrypt (secret kp) (cta_available_balance e) = Some (amount_point n);
  step_range : is_u64 n
}.






Lemma yields_available kp key e n : in_step kp key e n ->
  yields (decrypted_available_balance (cta_decryptable_available_balance e) key) (fun m => m = n).
Proof.
  intros [_ (c & Hc & Hd) _ _]. eapply yields_bind_some; [exact Hc|]. by eapply yields_some.
Qed.

Lemma yields_encrypted key n : is_u64 n ->
  yields (encrypted key n) (fun c => ae_decrypt c key = Some n).
Proof.
  intros Hn g. unfold encrypted, random. destruct (ae_encrypt key n g) as [c g'] eqn:Ec.
  exists c, g'. split; [done|]. pose proof (ae_decrypt_encrypt key n g Hn) as Hd. by rewrite Ec in Hd.
Qed.

(** ** What the client reads *)




(** ** What the client cannot read *)








(** ** Applying the pending balance *)




(** ** Withdrawing *)

(** The two contexts are where the instruction looks for them, before [rest]. *)
Definition withdraw_proofs_found (w : World) (iter : list AccountInfo) (i j : Z)
    (equality : CiphertextCommitmentEqualityProofContext) (range : BatchedRangeProofContext)
    (rest : list AccountInfo) : Prop :=
  exists sysvar iter1 iter2,
    proof_sysvar [i; j] iter = Ok (sysvar, iter1) /\
    verify_and_extract_context CiphertextCommitmentEqualityProofContext
      ProofType.CiphertextCommitmentEquality [] iter1 i sysvar w = Ok ((equality, iter2), w) /\
    verify_and_extract_context BatchedRangeProofContext ProofType.BatchedRangeProofU64 [] iter2 j
      sysvar w = Ok ((range, rest), w).

Lemma withdraw_proofs_verified w iter i j equality range rest ctx :
  withdraw_proofs_found w iter i j equality range rest ->
  WithdrawProofContext_verify_and_extract equality range = Ok ctx ->
  verify_withdraw_proof [] iter i j w = Ok ((ctx, rest), w).
Proof.
  intros (sysvar & iter1 & iter2 & Hp & He & Hr) Hc. unfold verify_withdraw_proof.
  eapply M_bind_step; [by apply lift_Ok|]; cbn beta iota.
  eapply M_bind_step; [exact He|]; cbn beta iota.
  eapply M_bind_step; [exact Hr|]; cbn beta iota.
  eapply M_bind_step; [apply lift_Ok; split; [|reflexivity]|reflexivity]. by rewrite Hc.
Qed.

(** An account and its mint from which [n] can be withdrawn. *)
Record withdrawable (pid : Address) (ti mi ai : AccountInfo) (signers : list AccountInfo) (w : World)
    (st : PodStateMut PodAccount) (e : ConfidentialTransferAccount) (d : byte) (n : Z) : Prop := {
  wd_account : token_account w (key ti) st;
  wd_confidential : get_extension ConfidentialTransferAccount st = Ok e;
  wd_mint : exists mt, cell_owner (cell w (key mi)) = id /\
    unpack PodMint (cell_data (cell w (key mi))) = Ok mt /\ decimals (state_base mt) = d /\
    has_extension ConfidentialMintBurn mt = false /\ mint_paused mt = false;
  wd_transferable : has_extension NonTransferableAccount st = false;
  wd_thawed : is_frozen (base st) = false;
  wd_of_mint : mint (base st) = key mi;
  wd_not_native : is_native (base st) = false;
  wd_source : cta_valid_as_source e = Ok tt;
  wd_approved : authorizes pid (owner (base st)) ai (length (cell_data (cell w (key ai)))) signers w;
  wd_room : u64_get (amount (base st)) + n <= u64_max;
  wd_distinct : key ti <> key mi /\ key ai <> key ti /\ key ai <> key mi
}.

(** The ciphertext that is left, as the processor computes it. *)
Lemma remaining_computed a n r w : is_u64 n ->
  ciphertext_arithmetic.subtract_from a n = Some r -> (n = 0 -> r = a) ->
  (if 0 <? n then arithmetic_ok (ciphertext_arithmetic.subtract_from a n) else mret a) w = Ok (r, w).
Proof.
  intros [Hn _] Hr H0. destruct (Z.ltb_spec 0 n).
  - unfold arithmetic_ok. apply lift_Ok. by rewrite Hr.
  - rewrite H0 by lia. done.
Qed.

(** One step of a handler whose condition is at hand. *)
Ltac m_run :=
  eapply M_bind_step;
  [solve [eassumption | by apply lift_Ok | by apply data_len_Ok | by apply check_owner_own
         | by apply bail_if_Ok
         | apply borrow_mut_Ok; split; [cbn; by rewrite ?bool_decide_false|done]]|];
  cbn beta iota.

Lemma subtract_zero_pod c : ciphertext_pod (subtract_amount c 0) = ciphertext_pod c.
Proof.
  rewrite !ciphertext_pod_eq, subtract_amount_eq by done. cbn [fst snd].
  by rewrite pscale_0_l, popp_0, pplus_0_r.
Qed.

Lemma process_withdraw_succeeds pid ti mi iter ai signers w st e d n i j ctx nd :
  withdrawable pid ti mi ai signers w st e d n -> is_u64 n ->
  verify_withdraw_proof [] iter i j w = Ok ((ctx, ai :: signers), w) ->
  wp_source_pubkey ctx = cta_elgamal_pubkey e ->
  ciphertext_arithmetic.subtract_from (cta_available_balance e) n =
    Some (wp_remaining_balance_ciphertext ctx) ->
  (n = 0 -> wp_remaining_balance_ciphertext ctx = cta_available_balance e) ->
  let e' := cta_set_decryptable nd (cta_set_available (wp_remaining_balance_ciphertext ctx) e) in
  exists w', process_withdraw pid (ti :: mi :: iter) n d nd i j w = Ok (tt, w') /\
    confidential_account w' (key ti) (set_amount (u64_get (amount (base st)) + n) (base st)) e'.
Proof.
  intros [[Ho Hu] He (mt & Hmo & Hmu & Hd & Hb & Hpa) Hnt Hf Hm Hna Hs Ha Hr (D1 & D2 & D3)]
    Hn Hv Ek Hsub H0 e'.
  destruct (get_extension_mut_exists _ _ _ He) as [put Hg].
  destruct (becomes_put_same _ st e put e' Hu Hg) as [_ Hbe]. pose proof (proj1 (proj2 Hbe)) as Eb.
  assert (u64_checked_add (u64_get (amount (base (put e')))) n = Some (u64_get (amount (base st)) + n))
    as Er by (rewrite Eb; apply u64_checked_add_Some;
              pose proof (u64_get_range (amount (base st))); unfold is_u64 in *; lia).
  eexists. split.
  - unfold process_withdraw. do 8 m_run.
    eapply M_bind_step; [apply bail_if_Ok; by rewrite Hd, bool_decide_true|]; cbn beta iota.
    do 6 m_run.
    eapply M_bind_step; [apply validate_owner_approved; [exact Ha|]; cbn; by rewrite !bool_decide_false|].
    cbn beta iota. m_run.
    eapply M_bind_step; [apply bail_if_Ok; by rewrite Hm, bool_decide_true|]; cbn beta iota.
    do 3 m_run.
    eapply M_bind_step; [apply bail_if_Ok; by rewrite Ek, bool_decide_true|]; cbn beta iota.
    eapply M_bind_step; [by apply remaining_computed|]; cbn beta iota.
    eapply M_bind_step; [apply bail_if_Ok; by rewrite bool_decide_true|]; cbn beta iota.
    eapply M_bind_step; [apply lift_Ok; split; [unfold e' in Er; by rewrite Er|reflexivity]|].
    cbn beta iota. by apply write_repack_Ok.
  - set (b' := set_amount (u64_get (amount (base st)) + n) (base st)).
    destruct (rewrites_store (key ti) st (with_base b' (put e')) b' e e' w Ho Hu He
      (becomes_base _ _ _ b' _ Hbe eq_refl) eq_refl) as (_ & H2 & _). unfold b', e' in *. by rewrite Eb.
  Unshelve. all: exact tt.
Qed.

(** C21: a client that is in step with an account can always withdraw what it
    has: the proofs and the decryptable balance that it computes for an amount
    within the balance make Withdraw succeed, wherever the contexts of the
    proofs are put, on an account of a mint that allow it, with the approval of
    the owner; the tokens arrive, and the client is in step with the rest. *)
Theorem client_withdraws kp akey pid ti mi iter ai signers w st e d b n i j :
  withdrawable pid ti mi ai signers w st e d n -> in_step kp akey e b -> 0 <= n <= b ->
  yields (
    proofs ← WithdrawAccountInfo.generate_proof_data (WithdrawAccountInfo.new e) n kp akey;
    balance ← WithdrawAccountInfo.new_decryptable_available_balance (WithdrawAccountInfo.new e) n akey;
    mret (proofs, balance)) (fun '(proofs, balance) =>
    withdraw_proofs_found w iter i j
      (equality_context (withdraw_proof.wpd_equality_proof_data proofs))
      (range_u64_context (withdraw_proof.wpd_range_proof_data proofs)) (ai :: signers) ->
    exists w' e',
      process_withdraw pid (ti :: mi :: iter) n d (ae_pod balance) i j w = Ok (tt, w') /\
      confidential_account w' (key ti) (set_amount (u64_get (amount (base st)) + n) (base st)) e' /\
      in_step kp akey e' (b - n)).
Proof.
  intros Hw Hs Hn. pose proof Hs as [Ek (c & Hc & Hdec) Ha Rb].
  assert (is_u64 n) as Un by (unfold is_u64 in *; lia).
  assert (is_u64 (b - n)) as Ur by (unfold is_u64 in *; lia).
  destruct (ciphertext_try_from_decrypt _ _ _ Ha) as [a Hta].
  pose proof (ciphertext_try_from_Some _ _ Hta) as Epa.
  eapply yields_bind.
  { eapply yields_bind_some; [exact Hta|].
    eapply yields_bind; [by apply (yields_available kp akey e b)|]. intros ? ->.
    apply yields_map_err. apply withdraw_proofs_accepted; [done..|by rewrite Epa]. }
  intros p (ctx & Hctx & Epk & Hsub & Hrem). eapply yields_bind.
  { eapply yields_bind; [by apply (yields_available kp akey e b)|]. intros ? ->.
    eapply yields_bind_some; [by apply u64_checked_sub_Some|]. by apply yields_encrypted. }
  intros nc Hnc. apply yields_ret. intros Hfound.
  pose proof (withdraw_proofs_verified _ _ _ _ _ _ _ _ Hfound Hctx) as Hv. rewrite Epa in Hsub.
  destruct (process_withdraw_succeeds pid ti mi iter ai signers w st e d n i j ctx (ae_pod nc))
    as (w' & Hr & Hacc); try done; [by rewrite Epk, Ek| |].
  { intros ->. pose proof (subtract_from_pod a 0 Un) as Hz. rewrite Epa, Hsub in Hz.
    injection Hz as ->. by rewrite subtract_zero_pod, Epa. }
  eexists w', _. split; [exact Hr|]. split; [exact Hacc|]. split; try done.
  exists nc. split; [apply ae_try_from_pod|done].
Qed.
End theory.
