(* ===== verification/MintCreation.v ===== *)
(** * Creating mints

    [create_mint] of [clients/rust-legacy/src/token.rs]: a new account with the
    room that the extensions ask for, an instruction for each of them, and
    [InitializeMint].  Whatever extensions are asked for, if they may occur
    together and their values are allowed, the instructions succeed, and the
    mint has those extensions with those values. *)
From S2P Require Import Prelude Bytes Errors Ids Runtime Pod ExtensionState Extension TlvTheory.
From S2P Require Import ViewTheory Clean AccountLen MonadTheory Ownership State Transfer PodInstruction.
From S2P Require Import VariableLen VariableLenTheory Initialize InitializeTheory Settings Fees UiAmount.
From S2P Require Import Instruction ExtensionInstructions TokenMetadata CiphertextArithmetic.
From S2P Require Import ProofExtraction ConfidentialTransfer ConfidentialTransferFee.
From S2P Require Import ConfidentialMintBurn ConfidentialInstructions Processor ClientTheory.
From S2P Require Import ExtensionClientTheory ConfidentialClientTheory Onchain TokenClient.
Import token.

(** ** Entries in the room that a mint has *)

Definition entries (es : list Entry) (n : nat) : list byte := tlv_encode es ++ replicate n x00.

Lemma length_entries es n : length (entries es n) = (length (tlv_encode es) + n)%nat.
Proof. unfold entries. by rewrite length_app, length_replicate. Qed.

Lemma indices_after ty es n :
  Forall entry_ok es -> Forall (fun e => e.1 <> extension_type_u16 ty) es -> (4 <= n)%nat ->
  ty <> ExtensionType.Uninitialized ->
  get_extension_indices ty (entries es n) true = Ok (get_tlv_indices (length (tlv_encode es))).
Proof.
  intros Hes Hne Hn Hty. unfold entries. induction Hes as [|[t v] es He Hes IH].
  - change (tlv_encode []) with (@nil byte). rewrite app_nil_l.
    replace n with (4 + (n - 4))%nat by lia. cbn.
    case_match; [|done]. exfalso. rewrite Z.eqb_eq in *. apply Hty, extension_type_u16_0. done.
  - apply Forall_cons in Hne as [Ht Hne]. cbn [fst] in Ht.
    rewrite tlv_encode_cons, <- app_assoc. cbn [fst snd].
    rewrite get_extension_indices_cons by done. rewrite (proj2 (Z.eqb_neq _ _)) by done.
    rewrite IH by done. cbn [fmap Result_fmap]. rewrite <- get_tlv_indices_add.
    by rewrite length_app, length_enc_entry.
Qed.

Lemma alloc_fresh ty len (st : PodStateMut PodMint) es n :
  get_account_type ty = AccountType.Mint -> tlv_data st = entries es n ->
  Forall entry_ok es -> Forall (fun e => e.1 <> extension_type_u16 ty) es ->
  (4 + len <= n)%nat -> Z.of_nat len <= u16_max ->
  exists r, alloc ty len true st = Ok r.
Proof.
  intros Hty Ht Hes Hne Hn Hlen. unfold alloc. change (ACCOUNT_TYPE PodMint) with AccountType.Mint.
  rewrite Hty, bool_decide_true by done. cbn [negb].
  assert (ty <> ExtensionType.Uninitialized) as Hu by (by intros ->).
  rewrite Ht, indices_after by (done || lia). cbn [mbind Result_bind].
  set (idx := get_tlv_indices (length (tlv_encode es))).
  assert (drop (type_start idx) (entries es n) = replicate n x00) as Ed
    by (unfold entries; by rewrite drop_app_length' by done).
  rewrite Ed, length_replicate.
  destruct (Nat.ltb_spec n (add_type_and_length_to_len len)) as [Hl|_].
  { unfold add_type_and_length_to_len, EXT_TYPE_SIZE, LENGTH_SIZE in Hl. lia. }
  assert (slice (entries es n) (type_start idx) (length_start idx) = [x00; x00]) as ->.
  { unfold slice. rewrite Ed. replace (length_start idx - type_start idx)%nat with 2%nat by tlv_lia.
    by replace n with (2 + (n - 2))%nat by lia. }
  change (extension_type_try_from_slice [x00; x00]) with
    (Ok ExtensionType.Uninitialized : Result ProgramError ExtensionType).
  cbn [mbind Result_bind]. rewrite bool_decide_true by done. cbn [orb].
  rewrite (bool_decide_false (ExtensionType.Uninitialized = ty)) by congruence. cbn [andb].
  unfold length_try_from. rewrite (proj2 (Z.leb_le _ _)) by done. cbn [mbind Result_bind]. by eexists.
Qed.

(** An extension that the mint does not have yet is added after the others. *)
Lemma fresh_init_extension V `{Pod V, Extension V} (st : PodStateMut PodMint) es n :
  get_account_type (TYPE V) = AccountType.Mint -> Z.of_nat (size_of V) <= u16_max ->
  tlv_data st = entries es n -> Forall entry_ok es ->
  Forall (fun e => e.1 <> extension_type_u16 (TYPE V)) es -> (4 + size_of V <= n)%nat ->
  exists put, init_extension V true st = Ok (pod_default V, put) /\
    forall v, put v = with_tlv_data
      (entries (es ++ [(extension_type_u16 (TYPE V), to_bytes v)]) (n - (4 + size_of V))) st.
Proof.
  intros Hty Hsz Ht Hes Hne Hn.
  destruct (alloc_fresh (TYPE V) (size_of V) st es n) as [[st' idx] Ha]; [done..|].
  assert (exists put, init_extension V true st = Ok (pod_default V, put)) as [put Hi].
  { unfold init_extension. rewrite Ha. by eexists. }
  exists put. split; [done|]. intros v.
  pose proof (put_init_same_shape V true st _ put v Hi) as (Eb & Ep & Ea & El).
  apply init_extension_place in Hi as (_ & es' & old & tail & p & Hp & E & Ho).
  assert (tlv_holds (tlv_data st) es) as Hh by (split; [done|]; by exists n).
  pose proof (place_holds _ _ _ _ _ _ _ es (to_bytes v) Hp (length_to_bytes v) Ho Hh) as (_ & k & Ek).
  rewrite set_entry_new in Ek by done. rewrite <- E in Ek.
  change (tlv_data (put v) = entries (es ++ [(extension_type_u16 (TYPE V), to_bytes v)]) k) in Ek.
  assert (length (tlv_encode (es ++ [(extension_type_u16 (TYPE V), to_bytes v)])) =
    length (tlv_encode es) + (4 + size_of V))%nat as Ee.
  { rewrite tlv_encode_app, tlv_encode_cons, !length_app, length_enc_entry. cbn [fst snd].
    rewrite length_to_bytes. simpl. lia. }
  rewrite Ek, Ht, !length_entries , Ee in El.
  replace (n - (4 + size_of V))%nat with k by lia. rewrite <- Ek.
  destruct (put v) as [b pd a t], st as [b' pd' a' t']. unfold with_tlv_data. cbn in *. by subst.
Qed.

(** The entries of a mint under construction, with their types. *)
Definition typed (e : ExtensionType * list byte) : Entry := (extension_type_u16 e.1, e.2).

Definition mint_entry (e : ExtensionType * list byte) : Prop :=
  get_account_type e.1 = AccountType.Mint /\ Z.of_nat (length e.2) <= u16_max.

Lemma typed_ok es : Forall mint_entry es -> Forall entry_ok (typed <$> es).
Proof.
  intros Hes. apply Forall_fmap. eapply Forall_impl; [exact Hes|]. intros [t v] [Ht Hv].
  split; [|done]. by apply (get_account_type_nonzero (S := PodMint)).
Qed.

Lemma typed_fresh t es : t ∉ es.*1 -> Forall (fun e => e.1 <> extension_type_u16 t) (typed <$> es).
Proof.
  intros Ht. apply Forall_fmap, Forall_forall. intros [u v] Hin E. cbn in E.
  apply extension_type_u16_inj in E as ->. apply Ht. apply list_elem_of_fmap. by exists (t, v).
Qed.

(** The walk over the entries collects their types. *)
Lemma collect_entries es n fuel pre acc :
  Forall mint_entry es -> (length (entries (typed <$> es) n) < fuel)%nat ->
  exists used, try_for_each_from fuel (pre ++ entries (typed <$> es) n)
    (fun t ts => Ok (ts ++ [t])) acc (length pre) = Ok (acc ++ es.*1, used).
Proof.
  intros Hes. revert fuel pre acc.
  induction Hes as [|[t v] es [Ht Hv] Hes IH]; intros fuel pre acc Hf;
    (destruct fuel as [|fuel]; [lia|]); rewrite try_for_each_turn.
  - unfold entries. change (tlv_encode (typed <$> [])) with (@nil byte).
    rewrite app_nil_l, app_nil_r, length_app, length_replicate.
    destruct (_ <? _)%nat; [|by eexists].
    cbn [get_tlv_indices length_start type_start]. unfold EXT_TYPE_SIZE.
    destruct (Nat.ltb_spec (length pre + n) (length pre + 2)) as [|Hn]; [by eexists|].
    rewrite slice_app_r, Nat.sub_diag by lia.
    replace (length pre + 2 - length pre)%nat with 2%nat by lia.
    replace n with (2 + (n - 2))%nat by lia.
    rewrite replicate_add, slice_0, take_app_length' by done. cbn. by eexists.
  - cbn [fst snd] in *. unfold entries in *. rewrite fmap_cons, tlv_encode_cons in *.
    cbn [typed fst snd] in *. rewrite <- app_assoc in *.
    set (rest := tlv_encode (typed <$> es) ++ replicate n x00) in *.
    assert (length (pre ++ enc_entry (extension_type_u16 t) v ++ rest) =
      (length pre + (4 + length v) + length rest)%nat) as El
      by (rewrite !length_app, length_enc_entry; lia).
    rewrite El. destruct (Nat.ltb_spec (length pre) (length pre + (4 + length v) + length rest)); [|lia].
    cbn [get_tlv_indices length_start type_start value_start]. unfold EXT_TYPE_SIZE, LENGTH_SIZE.
    destruct (Nat.ltb_spec (length pre + (4 + length v) + length rest) (length pre + 2)); [lia|].
    rewrite slice_enc_type. pose proof (extension_type_u16_range t).
    unfold extension_type_try_from_slice. rewrite length_to_le_bytes, from_to_le_2 by tlv_lia.
    rewrite extension_type_try_from_u16. cbn [Nat.eqb ok_or mbind Result_bind].
    rewrite decide_False by (intros ->; done).
    destruct (Nat.ltb_spec (length pre + (4 + length v) + length rest) (length pre + 2 + 2)); [lia|].
    rewrite <- (Nat.add_0_r (length pre)), get_tlv_indices_add, Nat.add_0_r.
    rewrite tlv_length_at_app, enc_entry_length_at by tlv_lia.
    destruct (Nat.ltb_spec (length pre + (4 + length v) + length rest) (length pre + 2 + 2 + length v));
      [lia|].
    replace (length pre + 2 + 2 + length v)%nat
      with (length (pre ++ enc_entry (extension_type_u16 t) v))
      by (rewrite length_app, length_enc_entry; lia).
    rewrite app_assoc. destruct (IH fuel (pre ++ enc_entry (extension_type_u16 t) v) (acc ++ [t])) as [u E].
    { rewrite length_app, length_enc_entry in Hf. lia. }
    exists u. rewrite E. by rewrite <- app_assoc.
Qed.

Lemma entries_info es n :
  Forall mint_entry es ->
  exists info, get_tlv_data_info (entries (typed <$> es) n) = Ok info /\ extension_types info = es.*1.
Proof.
  intros Hes. destruct (collect_entries es n (S (length (entries (typed <$> es) n))) [] [] Hes) as [u E];
    [lia|].
  unfold get_tlv_data_info, try_for_each_tlv_extension_type. cbn [length app] in E. rewrite E. by eexists.
Qed.

Lemma entries_first es n :
  Forall mint_entry es ->
  exists first, get_first_extension_type (entries (typed <$> es) n) = Ok first /\
    forall t, first = Some t -> get_account_type t = AccountType.Mint.
Proof.
  intros Hes. unfold get_first_extension_type. destruct Hes as [|[t v] es [Ht Hv] Hes].
  - unfold entries. change (tlv_encode (typed <$> [])) with (@nil byte). rewrite app_nil_l.
    destruct n as [|[|[|n]]]; by exists None.
  - unfold entries. rewrite fmap_cons, tlv_encode_cons, <- app_assoc. cbn [typed fst snd] in *.
    set (rest := _ ++ replicate n x00).
    assert (length (enc_entry (extension_type_u16 t) v ++ rest) = (4 + length v) + length rest)%nat as El
      by (rewrite length_app, length_enc_entry; lia).
    assert (slice (enc_entry (extension_type_u16 t) v ++ rest) 0 2 = to_le_bytes 2 (extension_type_u16 t))
      as Es by apply (slice_enc_type []).
    destruct (enc_entry (extension_type_u16 t) v ++ rest) as [|b l] eqn:E; [by cbn in El|].
    cbn [get_tlv_indices length_start type_start]. unfold EXT_TYPE_SIZE. rewrite El.
    destruct (Nat.leb_spec (4 + length v + length rest) (0 + 2)); [lia|].
    rewrite index_range_Ok by (rewrite ?El; lia). cbn [Nat.add mbind Result_bind]. rewrite Es.
    pose proof (extension_type_u16_range t).
    unfold extension_type_try_from_slice. rewrite length_to_le_bytes, from_to_le_2 by tlv_lia.
    rewrite extension_type_try_from_u16. cbn [Nat.eqb ok_or mbind Result_bind].
    rewrite decide_False by (intros ->; done). eexists. split; [done|]. by intros ? [= <-].
Qed.

(** ** The mint under construction *)

Definition preparing (es : list (ExtensionType * list byte)) (n : nat) : PodStateMut PodMint :=
  mk_state_mut (pod_default PodMint) (replicate (BASE_ACCOUNT_LENGTH - size_of PodMint) x00) [x00]
    (entries (typed <$> es) n).

Lemma preparing_empty n : replicate (BASE_ACCOUNT_AND_TYPE_LENGTH + n) x00 = repack (preparing [] n).
Proof. rewrite replicate_add. reflexivity. Qed.

Lemma length_preparing es n :
  length (repack (preparing es n)) =
    (BASE_ACCOUNT_AND_TYPE_LENGTH + (length (tlv_encode (typed <$> es)) + n))%nat.
Proof.
  rewrite length_repack. cbn [padding account_type tlv_data preparing]. by rewrite length_entries.
Qed.

Lemma unpack_entries (st : PodStateMut PodMint) es n :
  base st = pod_default PodMint -> well_formed AccountType.Uninitialized st ->
  Forall mint_entry es -> tlv_data st = entries (typed <$> es) n ->
  unpack_uninitialized PodMint (repack st) = Ok st.
Proof.
  intros Hb Hw Hes Ht. apply unpack_uninitialized_Ok. split; [done|].
  split; [rewrite Hb; by vm_compute|]. split; [done|].
  unfold check_account_type_matches_extension_type.
  destruct (entries_first es n Hes) as (first & E & Hf).
  rewrite Ht, E. cbn [mbind Result_bind]. destruct first as [t|]; [|done].
  change (ACCOUNT_TYPE PodMint) with AccountType.Mint. by rewrite Hf, bool_decide_true.
Qed.

Lemma unpack_preparing es n :
  Forall mint_entry es -> length (repack (preparing es n)) <> Multisig_LEN ->
  unpack_uninitialized PodMint (repack (preparing es n)) = Ok (preparing es n).
Proof. intros Hes Hl. apply (unpack_entries _ es n); [done| |done..]. split; [done|by right]. Qed.

#[local] Ltac run := eapply M_bind_step; cbn beta iota.

Section steps.
Context `{RT : Runtime}.

(** An instruction that adds an extension. *)
Lemma initialize_extension_step V `{Pod V, Extension V} {C} k l es n w pre (c : C) fields v :
  cell w k = mk_cell l (repack (preparing es n)) id ->
  Forall mint_entry es -> length (repack (preparing es n)) <> Multisig_LEN ->
  get_account_type (TYPE V) = AccountType.Mint -> Z.of_nat (size_of V) <= u16_max ->
  TYPE V ∉ es.*1 -> (4 + size_of V <= n)%nat ->
  pre w = Ok (c, w) -> fields c (pod_default V) w = Ok (v, w) ->
  initialize_extension_with PodMint V (mk_info k false true) pre fields w =
    Ok (tt, set_cell k (mk_cell l
      (repack (preparing (es ++ [(TYPE V, to_bytes v)]) (n - (4 + size_of V)))) id) w).
Proof.
  intros Hc Hes Hl Ht Hs Hne Hn Hpre Hf. unfold initialize_extension_with.
  destruct (fresh_init_extension V (preparing es n) (typed <$> es) n) as (put & Hi & Hput);
    [done|done|done|by apply typed_ok|by apply typed_fresh|done|].
  run. { apply check_owner_own. cbn [key]. by rewrite Hc. }
  run. { unfold borrow_mut. cbn [existsb]. apply data_of_Ok. cbn [key]. by rewrite Hc. }
  cbn [cell_data]. run. { apply lift_Ok. split; [by apply unpack_preparing|done]. }
  run; [exact Hpre|]. run; [by apply lift_Ok|]. run; [exact Hf|].
  apply write_data_Ok. cbn [key]. rewrite Hc, Hput. unfold with_data. cbn [cell_lamports cell_owner].
  unfold with_tlv_data, preparing at 1. cbn [base padding account_type].
  by rewrite fmap_app.
Qed.

(** The mint that [InitializeMint] leaves. *)
Definition created (decimals_ : byte) (mint_authority_ : Address) (freeze_authority_ : PodCOption Address)
    (st : PodStateMut PodMint) : PodStateMut PodMint :=
  mk_state_mut (initialized_mint decimals_ mint_authority_ freeze_authority_ (base st)) (padding st)
    (match account_type st with [] => [] | _ :: rest => account_type_u8 AccountType.Mint :: rest end)
    (tlv_data st).

Lemma initialize_mint_step k l st es n w d ma fa rent :
  cell w k = mk_cell l (repack st) id ->
  unpack_uninitialized PodMint (repack st) = Ok st -> tlv_data st = entries (typed <$> es) n ->
  Forall mint_entry es -> try_calculate_account_len PodMint es.*1 = Ok (length (repack st)) ->
  check_for_invalid_mint_extension_combinations es.*1 = Ok tt ->
  (forall e, get_extension DefaultAccountState st = Ok e ->
     exists s, das_state e = account_state_u8 s /\
       (s = AccountState.Frozen -> PodCOption.is_none fa = false)) ->
  rt_rent_from_account_info rt_rent_id (cell_data (cell w rt_rent_id)) = Ok rent ->
  is_exempt rent l (length (repack st)) = true ->
  process_initialize_mint [mk_info k false true; mk_info rt_rent_id false false] d ma fa w =
    Ok (tt, set_cell k (mk_cell l (repack (created d ma fa st)) id) w).
Proof.
  intros Hc Hu Ht Hes Hlen Hcomb Hds Hr He.
  destruct (entries_info es n Hes) as (info & Hinfo & Htypes). rewrite <- Ht in Hinfo.
  destruct (entries_first es n Hes) as (first & Hfirst & Hft). rewrite <- Ht in Hfirst.
  unfold process_initialize_mint, _process_initialize_mint.
  run; [by apply lift_Ok|]. run; [apply data_len_Ok; cbn [key]; rewrite Hc; done|].
  run. { apply borrow_mut_Ok. cbn [key]. by rewrite Hc. }
  run. { apply check_owner_own. cbn [key]. by rewrite Hc. }
  cbn [cell_data]. run.
  { unfold get_rent. run; [by apply lift_Ok|]. run; [by apply data_of_Ok|].
    run; [apply lift_Ok; split; [exact Hr|done]|]. by apply M_ret_Ok. }
  run; [apply info_lamports_Ok; cbn [key]; rewrite Hc; done|].
  run; [apply bail_if_Ok; cbn [cell_lamports]; rewrite He; done|].
  run; [by apply lift_Ok|]. run; [by apply lift_Ok|]. rewrite Htypes.
  run; [by apply lift_Ok|]. run; [apply bail_if_Ok; by rewrite Nat.eqb_refl|].
  rewrite Hcomb. run; [by apply lift_Ok|].
  run.
  { match goal with |- ?m w = _ => assert (m w = Ok (tt, w)) as ->; [|done] end.
    destruct (get_extension DefaultAccountState st) as [e| |]; [|done..].
    destruct (Hds e eq_refl) as (s & Es & Hs). run.
    - apply lift_Ok. split; [|done]. unfold default_state. rewrite Es.
      by instantiate (1 := s); destruct s.
    - apply bail_if_Ok. split; [|done]. case_bool_decide; [by rewrite Hs|done]. }
  run.
  { apply lift_Ok. split; [|done]. unfold init_account_type. cbn [with_base tlv_data account_type].
    rewrite Hfirst. cbn [mbind Result_bind].
    instantiate (1 := created d ma fa st). unfold created.
    destruct (account_type st) as [|b rest] eqn:Ea; [by rewrite <- Ea|].
    assert (match first with
      | Some t => fail_if (negb (bool_decide (get_account_type t = ACCOUNT_TYPE PodMint)))
                    (TokenError.ExtensionBaseMismatch : ProgramError)
      | None => mret tt end = Ok tt) as ->.
    { destruct first as [t|]; [|done]. by rewrite (Hft t eq_refl). }
    done. }
  apply write_data_Ok. cbn [key]. by rewrite Hc.
  Unshelve. all: exact tt.
Qed.
End steps.

(** ** What the parameters ask for *)

(** An extension with its value. *)
Record Setting : Type := mk_setting {
  setting_type : Type;
  setting_pod : Pod setting_type;
  setting_extension : Extension setting_type;
  setting_value : setting_type
}.
Arguments mk_setting {_ _ _} _.

Definition setting_entry (s : Setting) : ExtensionType * list byte :=
  match s with @mk_setting V _ _ v => (TYPE V, to_bytes v) end.
Definition has_setting (s : Setting) (st : PodStateMut PodMint) : Prop :=
  match s with @mk_setting V P E v => get_extension V st = Ok v end.

Definition or_null (a : option Address) : MaybeNull := default (zeroed 32) a.

(** The value that each parameter gives its extension at time [clock]. *)
Definition setting (clock : Clock) (p : ExtensionInitializationParams) : Setting :=
  let now := i64_new (clock_unix_timestamp clock) in
  match p with
  | ExtensionInitializationParams.ConfidentialTransferMint a b e =>
      mk_setting (mk_ctm (or_null a) (bool_new b) (or_null e))
  | ExtensionInitializationParams.DefaultAccountState s =>
      mk_setting (mk_das (account_state_u8 s))
  | ExtensionInitializationParams.MintCloseAuthority a => mk_setting (mk_mca (or_null a))
  | ExtensionInitializationParams.TransferFeeConfig a b bps fee =>
      let transfer_fee := mk_tf (u64_new (clock_epoch clock)) (u64_new fee) (u16_new bps) in
      mk_setting (mk_tfc (or_null a) (or_null b) (u64_new 0) transfer_fee transfer_fee)
  | ExtensionInitializationParams.InterestBearingConfig a r =>
      mk_setting (mk_ibc (or_null a) now (i16_new r) now (i16_new r))
  | ExtensionInitializationParams.NonTransferable => mk_setting (pod_default NonTransferable)
  | ExtensionInitializationParams.PermanentDelegate a => mk_setting (mk_pd a)
  | ExtensionInitializationParams.TransferHook a b => mk_setting (mk_th (or_null a) (or_null b))
  | ExtensionInitializationParams.MetadataPointer a b => mk_setting (mk_mp (or_null a) (or_null b))
  | ExtensionInitializationParams.ConfidentialTransferFeeConfig a e =>
      mk_setting (mk_ctfc (or_null a) e (bool_new true) (zeroed 64))
  | ExtensionInitializationParams.GroupPointer a b => mk_setting (mk_gp (or_null a) (or_null b))
  | ExtensionInitializationParams.GroupMemberPointer a b => mk_setting (mk_gmp (or_null a) (or_null b))
  | ExtensionInitializationParams.ScaledUiAmountConfig a x =>
      mk_setting (mk_sua (or_null a) x (i64_new 0) x)
  | ExtensionInitializationParams.PausableConfig a => mk_setting (mk_pc a (bool_new false))
  | ExtensionInitializationParams.PermissionedBurnConfig a => mk_setting (mk_pbc a)
  | ExtensionInitializationParams.ConfidentialMintBurn e d =>
      mk_setting (mk_cmb (zeroed 64) d e (zeroed 64))
  end.

(** The values that the program accepts. *)
Definition nonnull (a : option Address) : bool := bool_decide (a <> Some (zeroed 32)).
Definition either_given (a b : option Address) : bool :=
  bool_decide (is_Some a) || bool_decide (is_Some b).

Definition allowed (p : ExtensionInitializationParams) : bool :=
  match p with
  | ExtensionInitializationParams.ConfidentialTransferMint a _ e => nonnull a && nonnull e
  | ExtensionInitializationParams.DefaultAccountState s =>
      bool_decide (s <> AccountState.Uninitialized)
  | ExtensionInitializationParams.MintCloseAuthority a => nonnull a
  | ExtensionInitializationParams.TransferFeeConfig a b bps fee =>
      nonnull a && nonnull b && (0 <=? bps) && (bps <=? TransferFee.MAX_FEE_BASIS_POINTS) &&
      (0 <=? fee) && (fee <=? u64_max)
  | ExtensionInitializationParams.InterestBearingConfig a _ => nonnull a
  | ExtensionInitializationParams.NonTransferable => true
  | ExtensionInitializationParams.PermanentDelegate a => nonnull (Some a)
  | ExtensionInitializationParams.TransferHook a b =>
      nonnull a && nonnull b && either_given a b && bool_decide (b <> Some id)
  | ExtensionInitializationParams.MetadataPointer a b
  | ExtensionInitializationParams.GroupPointer a b
  | ExtensionInitializationParams.GroupMemberPointer a b =>
      nonnull a && nonnull b && either_given a b
  | ExtensionInitializationParams.ConfidentialTransferFeeConfig a _ => nonnull a
  | ExtensionInitializationParams.ScaledUiAmountConfig a x =>
      nonnull a && scaled_ui_amount.is_sign_positive x && scaled_ui_amount.is_normal x
  | ExtensionInitializationParams.PausableConfig a
  | ExtensionInitializationParams.PermissionedBurnConfig a => nonnull (Some a)
  | ExtensionInitializationParams.ConfidentialMintBurn _ _ => true
  end.

Lemma nonnull_try_from a : nonnull a = true -> maybe_null_try_from a = Some (or_null a).
Proof.
  intros H%bool_decide_eq_true. destruct a as [a|]; [|done]. cbn. by rewrite decide_False by (by intros ->).
Qed.

Lemma nonnull_coption a : nonnull a = true -> maybe_null_of_coption (pod_option (zeroed 32) a) = Ok (or_null a).
Proof.
  intros H%bool_decide_eq_true. destruct a as [a|]; [|by vm_compute].
  unfold maybe_null_of_coption. rewrite decide_True by done.
  rewrite decide_False; [done|]. intros E. apply H. cbn in E. by rewrite E.
Qed.

Lemma or_null_get a : nonnull a = true -> maybe_null_get (or_null a) = a.
Proof. intros. by apply maybe_null_get_try_from, nonnull_try_from. Qed.

Lemma either_given_ok a b : nonnull a = true -> nonnull b = true -> either_given a b = true ->
  authority_or_address (or_null a) (or_null b) = Ok tt.
Proof.
  intros Ha Hb He. unfold authority_or_address. rewrite !or_null_get by done.
  unfold either_given in He. by destruct (bool_decide (is_Some a)), (bool_decide (is_Some b)).
Qed.

Lemma setting_type_of clock p :
  (setting_entry (setting clock p)).1 = ExtensionInitializationParams.extension p.
Proof. by destruct p. Qed.

Section runs.
Context `{RT : Runtime} `{PM : PackMethods} `{F64 : Float64}.
Context `{CV : CurveInterface} `{ZK : ZkInterface} `{ZC : !ZkContexts}.
Context `{TM : TokenMetadataInterface} `{TG : TokenGroupInterface}.

(** A client's instruction whose handler adds the entry [e]. *)
Lemma handler_step V `{Pod V, Extension V} {C} r m k l es n w pre (c : C) fields v e size :
  executes r m -> m w = initialize_extension_with PodMint V (rw k) pre fields w ->
  cell w k = mk_cell l (repack (preparing es n)) id ->
  Forall mint_entry es -> length (repack (preparing es n)) <> Multisig_LEN ->
  get_account_type (TYPE V) = AccountType.Mint -> size = (4 + size_of V)%nat ->
  (Z.of_nat (size_of V) <=? u16_max) = true -> TYPE V ∉ es.*1 -> (size <= n)%nat ->
  pre w = Ok (c, w) -> fields c (pod_default V) w = Ok (v, w) -> e = (TYPE V, to_bytes v) ->
  exists ix, r = Ok ix /\
    execute ix w = Ok (tt, set_cell k (mk_cell l (repack (preparing (es ++ [e]) (n - size))) id) w).
Proof.
  intros (ix & Hr & Hx) Hm Hc Hes Hl Ht -> Hs Hne Hn Hpre Hf ->. exists ix. split; [done|].
  rewrite Hx, Hm. apply Z.leb_le in Hs. by eapply initialize_extension_step.
Qed.

(** Run the assignments of the fields. *)
Ltac field :=
  apply lift_Ok; split; [|done];
  first [by rewrite nonnull_coption
        |by rewrite nonnull_try_from
        |by apply either_given_ok
        |match goal with H : nonnull (Some ?a) = true |- _ =>
           exact (f_equal (fun o => ok_or o _) (nonnull_try_from _ H)) end
        |by unfold scaled_ui_amount.try_validate_multiplier;
           repeat match goal with H : _ = true |- _ => rewrite H end].
Ltac fields :=
  idtac; lazymatch goal with
  | |- is_u16 _ => unfold is_u16, TransferFee.MAX_FEE_BASIS_POINTS, u16_max in *; lia
  | |- is_u64 _ => unfold is_u64 in *; lia
  | |- _ => repeat (run; [first [by apply lift_Ok|field|apply bail_if_Ok; split; [lia|done]]|]);
      by apply M_ret_Ok
  end.

(** The side conditions of [handler_step]; [f] runs the fields. *)
Ltac added Hc Hes Hl Hne Hn f :=
  lazymatch goal with
  | |- cell _ _ = _ => exact Hc
  | |- Forall mint_entry _ => exact Hes
  | |- length (repack _) <> _ => exact Hl
  | |- _ ∉ _ => exact Hne
  | |- (_ <= _)%nat => exact Hn
  | |- (_ <=? _) = true => vm_compute; reflexivity
  | |- get_account_type _ = _ => reflexivity
  | |- _ = (4 + _)%nat => reflexivity
  | |- _ = (TYPE _, _) => reflexivity
  | |- mret _ _ = _ => by apply M_ret_Ok
  | |- lift _ _ = _ => first [by apply lift_Ok|field]
  | |- _ => f
  end.
Tactic Notation "step" constr(V) constr(executes) tactic3(f) :=
  eapply (handler_step V); [apply executes; constructor; try by apply nonnull_try_from|reflexivity|..];
  match goal with
  | Hc : cell _ _ = _, Hes : Forall mint_entry _, Hl : length (repack _) <> _, Hne : _ ∉ _,
    Hn : (_ <= _)%nat |- _ => added Hc Hes Hl Hne Hn f
  end.

(** The instruction of a parameter adds its setting to the mint. *)
Lemma instruction_step clock k l es n w p :
  rt_clock = Ok clock -> allowed p = true ->
  cell w k = mk_cell l (repack (preparing es n)) id ->
  Forall mint_entry es -> length (repack (preparing es n)) <> Multisig_LEN ->
  ExtensionInitializationParams.extension p ∉ es.*1 ->
  (tlv_size (ExtensionInitializationParams.extension p) <= n)%nat ->
  exists ix, ExtensionInitializationParams.instruction p id k = Ok ix /\
    execute ix w = Ok (tt, set_cell k (mk_cell l
      (repack (preparing (es ++ [setting_entry (setting clock p)])
         (n - tlv_size (ExtensionInitializationParams.extension p)))) id) w).
Proof.
  intros Hk Ha Hc Hes Hl Hne Hn. destruct p; cbn [allowed] in Ha;
    repeat match goal with H : _ && _ = true |- _ => apply andb_true_iff in H as [H ?] end.
  - step ConfidentialTransferMint single_executes fields.
  - apply bool_decide_eq_true in Ha. eapply (handler_step DefaultAccountState).
    1: by apply extension_client_executes; constructor.
    1: by destruct state.
    all: added Hc Hes Hl Hne Hn fields.
  - step MintCloseAuthority client_executes fields.
  - step TransferFeeConfig extension_client_executes fields.
  - step InterestBearingConfig extension_client_executes fields.
  - step NonTransferable client_executes fields.
  - step PermanentDelegate client_executes fields.
  - step TransferHook extension_client_executes ltac:(idtac).
    apply bool_decide_eq_true in H. run; [|by apply M_ret_Ok].
    rewrite or_null_get by done. destruct program_id as [h|].
    + apply bail_if_Ok. split; [|done]. apply bool_decide_eq_false. congruence.
    + apply bail_if_Ok. split; [|done]. rewrite or_null_get by done.
      unfold either_given in *. by destruct (bool_decide (is_Some authority)).
  - step MetadataPointer extension_client_executes fields.
  - step ConfidentialTransferFeeConfig single_executes fields.
  - step GroupPointer extension_client_executes fields.
  - step GroupMemberPointer extension_client_executes fields.
  - step ScaledUiAmountConfig extension_client_executes fields.
  - step PausableConfig extension_client_executes fields.
  - step PermissionedBurnConfig extension_client_executes fields.
  - step ConfidentialMintBurn single_executes fields.
  Unshelve. all: exact tt.
Qed.

(** ** All instructions *)

Fixpoint execute_all (ixs : list Instruction) : M unit :=
  match ixs with
  | [] => mret tt
  | ix :: ixs => _ ← execute ix; execute_all ixs
  end.

Lemma execute_all_app ixs jxs w w1 r :
  execute_all ixs w = Ok (tt, w1) -> execute_all jxs w1 = r -> execute_all (ixs ++ jxs) w = r.
Proof.
  revert w. induction ixs as [|ix ixs IH]; intros w H1 H2; cbn [app execute_all] in *.
  - by apply M_ret_Ok in H1 as [= ->].
  - apply M_bind_Ok in H1 as ([] & w2 & Hx & H1). eapply M_bind_step; [exact Hx|]. by apply IH.
Qed.

Definition asked (clock : Clock) (p : ExtensionInitializationParams) : ExtensionType * list byte :=
  setting_entry (setting clock p).

Lemma asked_types clock params :
  (asked clock <$> params).*1 = ExtensionInitializationParams.extension <$> params.
Proof. rewrite <- list_fmap_compose. apply list_fmap_ext. intros. apply setting_type_of. Qed.

Lemma asked_entries clock params : Forall mint_entry (asked clock <$> params).
Proof.
  apply Forall_fmap, Forall_true. intros p. unfold asked, mint_entry, compose.
  destruct p; cbn [setting setting_entry fst snd]; rewrite length_to_bytes; (split; [done|]);
    apply Z.leb_le; vm_compute; reflexivity.
Qed.

Lemma asked_length clock p :
  length (enc_entry (typed (asked clock p)).1 (typed (asked clock p)).2) =
    tlv_size (ExtensionInitializationParams.extension p).
Proof.
  rewrite length_enc_entry. unfold asked.
  destruct p; cbn [setting setting_entry typed fst snd]; rewrite length_to_bytes; reflexivity.
Qed.

Definition room (params : list ExtensionInitializationParams) : nat :=
  sum_list_with tlv_size (ExtensionInitializationParams.extension <$> params).

Lemma length_asked clock params :
  length (tlv_encode (typed <$> (asked clock <$> params))) = room params.
Proof.
  induction params as [|p params IH]; [done|].
  rewrite !fmap_cons, tlv_encode_cons, length_app, asked_length, IH. done.
Qed.

(** The instructions of the parameters, on a mint that has room for them. *)
Lemma run_creation clock k l params es n w :
  rt_clock = Ok clock -> forallb allowed params = true ->
  cell w k = mk_cell l (repack (preparing es n)) id -> Forall mint_entry es ->
  length (repack (preparing es n)) <> Multisig_LEN ->
  NoDup (es.*1 ++ (ExtensionInitializationParams.extension <$> params)) -> (room params <= n)%nat ->
  exists ixs w1, push_instructions id k params = Ok ixs /\ execute_all ixs w = Ok (tt, w1) /\
    cell w1 k = mk_cell l (repack (preparing (es ++ (asked clock <$> params)) (n - room params))) id /\
    (forall c, set_cell k c w1 = set_cell k c w) /\ (forall k', k' <> k -> cell w1 k' = cell w k').
Proof.
  intros Hk. revert es n w.
  induction params as [|p params IH]; intros es n w Ha Hc Hes Hl Hnd Hn.
  { exists [], w. rewrite app_nil_r. cbn. rewrite Nat.sub_0_r. done. }
  cbn [forallb] in Ha. apply andb_true_iff in Ha as [Hp Ha].
  unfold room in Hn. cbn [fmap list_fmap sum_list_with] in Hn. fold (room params) in Hn.
  assert (ExtensionInitializationParams.extension p ∉ es.*1) as Hfresh.
  { intros Hin. apply NoDup_app in Hnd as (_ & Hd & _). apply (Hd _ Hin). cbn. set_solver. }
  destruct (instruction_step clock k l es n w p) as (ix & Hi & Hx); [done..|lia|].
  set (n1 := (n - tlv_size (ExtensionInitializationParams.extension p))%nat) in *.
  set (es1 := es ++ [setting_entry (setting clock p)]) in *.
  set (w1 := set_cell k _ w) in *.
  assert (length (repack (preparing es1 n1)) = length (repack (preparing es n))) as El.
  { rewrite !length_preparing. unfold es1. rewrite fmap_app, tlv_encode_app, length_app.
    cbn [fmap list_fmap]. rewrite tlv_encode_cons, length_app.
    pose proof (asked_length clock p) as E. unfold asked in E. rewrite E. simpl. lia. }
  destruct (IH es1 n1 w1) as (ixs & w2 & Hixs & Hx2 & Hc2 & Hset & Hother).
  - done.
  - apply cell_set_cell.
  - apply Forall_app. split; [done|]. apply (asked_entries clock [p]).
  - by rewrite El.
  - unfold es1. rewrite fmap_app, <- app_assoc. cbn [fmap list_fmap app]. by rewrite setting_type_of.
  - lia.
  - exists (ix :: ixs), w2. cbn [push_instructions]. rewrite Hi, Hixs. split; [done|].
    split; [by eapply M_bind_step|]. split.
    { rewrite Hc2. unfold es1, n1. rewrite <- app_assoc. cbn [app fmap list_fmap].
      replace (n - tlv_size (ExtensionInitializationParams.extension p) - room params)%nat
        with (n - room (p :: params))%nat; [done|]. unfold room. cbn. lia. }
    split.
    + intros c. rewrite Hset. unfold w1, set_cell. cbn. by rewrite insert_insert_eq.
    + intros k' Hk'. rewrite Hother by done. unfold w1. by rewrite cell_set_cell_ne.
Qed.

(** ** The room that the client asks for *)

Lemma set_size_NoDup ts : NoDup ts -> set_size ts = sum_list_with tlv_size ts.
Proof.
  induction 1 as [|t ts Ht Hnd IH]; [reflexivity|]. rewrite set_size_cons by done. by rewrite IH.
Qed.

Lemma extension_sized params :
  forallb sized (ExtensionInitializationParams.extension <$> params) = true.
Proof. induction params as [|p params IH]; [done|]. cbn. rewrite IH. by destruct p. Qed.

Lemma room_asked params :
  NoDup (ExtensionInitializationParams.extension <$> params) -> params <> [] ->
  exists n, (room params <= n)%nat /\ (BASE_ACCOUNT_AND_TYPE_LENGTH + n)%nat <> Multisig_LEN /\
    try_calculate_account_len PodMint (ExtensionInitializationParams.extension <$> params) =
      Ok (BASE_ACCOUNT_AND_TYPE_LENGTH + n)%nat.
Proof.
  intros Hnd Hne. set (ts := _ <$> params) in *.
  destruct (acc_insert_all_holds ts [] acc_default acc_holds_default (extension_sized params)) as (acc & Ha & Hh).
  rewrite app_nil_r in Hh. pose proof (acc_account_len_spec PodMint _ _ Hh) as E.
  assert (set_size (rev ts) = room params) as Hs.
  { unfold room. fold ts. rewrite <- set_size_NoDup by done. apply set_size_proper. intros t.
    by rewrite !list_elem_of_In, <- in_rev. }
  unfold account_len_spec in E. destruct (rev ts) as [|u us] eqn:Er.
  { exfalso. apply Hne. destruct params as [|p params]; [done|]. unfold ts in Er. cbn in Er.
    by destruct (rev (ExtensionInitializationParams.extension <$> params)). }
  rewrite Hs in E. unfold try_calculate_account_len. rewrite Ha. cbn [mbind Result_bind]. rewrite E.
  unfold adjust_len_for_multisig. destruct (Nat.eqb_spec (room params + BASE_ACCOUNT_AND_TYPE_LENGTH) Multisig_LEN).
  - exists (room params + EXT_TYPE_SIZE)%nat. split; [lia|]. split; [unfold EXT_TYPE_SIZE; lia|].
    unfold mret, Result_ret. f_equal. lia.
  - exists (room params). split; [lia|]. split; [lia|]. unfold mret, Result_ret. f_equal. lia.
Qed.

(** ** What the mint holds *)

Lemma has_setting_entry (s : Setting) (st : PodStateMut PodMint) es1 es2 n :
  mint_entry (setting_entry s) -> Forall mint_entry es1 -> (setting_entry s).1 ∉ es1.*1 ->
  tlv_data st = entries (typed <$> (es1 ++ setting_entry s :: es2)) n -> has_setting s st.
Proof.
  destruct s as [V P E v]. cbn [setting_entry has_setting]. intros [Ht Hv] Hes Hne Htlv.
  cbn [fst snd] in *. apply get_extension_Ok. change (get_tlv_data st) with (tlv_data st).
  rewrite Htlv. unfold entries. rewrite fmap_app, tlv_encode_app, fmap_cons, tlv_encode_cons.
  cbn [typed fst snd]. rewrite <- !app_assoc.
  apply get_extension_bytes_found; [done|by intros E0; rewrite E0 in Ht|by apply typed_ok
    |by apply typed_fresh|done].
Qed.

Lemma asked_settings clock params (st : PodStateMut PodMint) n :
  NoDup (ExtensionInitializationParams.extension <$> params) ->
  tlv_data st = entries (typed <$> (asked clock <$> params)) n ->
  Forall (fun p => has_setting (setting clock p) st) params.
Proof.
  intros Hnd Ht. apply Forall_forall. intros p Hp.
  apply list_elem_of_split in Hp as (l1 & l2 & ->). rewrite fmap_app, fmap_cons in Hnd.
  rewrite (fmap_app (asked clock)), (fmap_cons (asked clock)) in Ht.
  apply (has_setting_entry _ _ (asked clock <$> l1) (asked clock <$> l2) n).
  - pose proof (asked_entries clock [p]) as E. by apply Forall_cons in E as [E _].
  - apply asked_entries.
  - rewrite asked_types. change (setting_entry (setting clock p)).1 with (asked clock p).1.
    unfold asked. rewrite setting_type_of. apply NoDup_app in Hnd as (_ & Hd & _).
    intros Hin. apply (Hd _ Hin). cbn. set_solver.
  - by rewrite Ht.
Qed.

(** A mint that starts accounts in the state [s] was asked to. *)
Lemma asked_default_state clock params (st : PodStateMut PodMint) n e :
  tlv_data st = entries (typed <$> (asked clock <$> params)) n ->
  get_extension DefaultAccountState st = Ok e ->
  exists s, ExtensionInitializationParams.DefaultAccountState s ∈ params /\
    das_state e = account_state_u8 s.
Proof.
  intros Ht He. apply get_extension_Ok in He. change (get_tlv_data st) with (tlv_data st) in He.
  assert (clean (fun e => e ∈ typed <$> (asked clock <$> params)) (tlv_data st)) as Hclean.
  { exists (typed <$> (asked clock <$> params)), n. split; [by apply typed_ok, asked_entries|].
    split; [by apply Forall_forall|done]. }
  pose proof (clean_lookup _ _ _ _ Hclean He) as Hin. cbn beta in Hin.
  apply list_elem_of_fmap in Hin as (x & Ex & Hin). apply list_elem_of_fmap in Hin as (p & -> & Hin).
  injection Ex as Et Ev. apply (extension_type_u16_inj ExtensionType.DefaultAccountState) in Et.
  unfold asked in Et, Ev.
  rewrite setting_type_of in Et. destruct p; try discriminate Et.
  exists state. split; [done|]. cbn in Ev. by injection Ev.
Qed.

Lemma unpack_created d ma fa st :
  well_formed AccountType.Uninitialized st ->
  unpack_mut PodMint (repack (created d ma fa st)) = Ok (created d ma fa st).
Proof.
  intros [Hm Hw]. apply unpack_mut_Ok. split; [done|]. split; [by vm_compute|].
  assert (length (repack (created d ma fa st)) = length (repack st)) as El.
  { rewrite !length_repack. cbn [created padding account_type tlv_data]. by destruct (account_type st). }
  split; [by rewrite El|]. cbn [created padding account_type tlv_data].
  destruct Hw as [(Hp & Ha & Ht)|[Hp Ha]]; rewrite Ha; auto.
Qed.

(** A new account of the length that the client asks for is an empty mint with
    room for the extensions. *)
Lemma new_account params :
  NoDup (ExtensionInitializationParams.extension <$> params) ->
  exists st n space, try_calculate_account_len PodMint
      (ExtensionInitializationParams.extension <$> params) = Ok space /\
    repack st = replicate space x00 /\ base st = pod_default PodMint /\
    well_formed AccountType.Uninitialized st /\ tlv_data st = entries [] n /\
    (room params <= n)%nat /\ (params <> [] -> st = preparing [] n).
Proof.
  intros Hnd. destruct (decide (params = [])) as [->|Hne].
  - exists (mk_state_mut (pod_default PodMint) [] [] []), 0%nat, (size_of PodMint).
    split; [done|]. split; [by vm_compute|]. split; [done|]. split; [|done].
    split; [by vm_compute|]. by left.
  - destruct (room_asked params Hnd Hne) as (n & Hn & Hm & E).
    exists (preparing [] n), n, (BASE_ACCOUNT_AND_TYPE_LENGTH + n)%nat.
    split; [done|]. rewrite preparing_empty. split; [done|]. split; [done|].
    split; [|done]. split; [by rewrite length_preparing|]. by right.
Qed.

(** The instructions of the parameters on a new account. *)
Lemma run_on_new_account clock k params :
  rt_clock = Ok clock -> NoDup (ExtensionInitializationParams.extension <$> params) ->
  forallb allowed params = true ->
  exists space n, try_calculate_account_len PodMint
      (ExtensionInitializationParams.extension <$> params) = Ok space /\
    forall l w, cell w k = mk_cell l (replicate space x00) id ->
    exists ixs w1 st, push_instructions id k params = Ok ixs /\ execute_all ixs w = Ok (tt, w1) /\
      cell w1 k = mk_cell l (repack st) id /\ (forall c, set_cell k c w1 = set_cell k c w) /\
      (forall k', k' <> k -> cell w1 k' = cell w k') /\ base st = pod_default PodMint /\
      well_formed AccountType.Uninitialized st /\ length (repack st) = space /\
      tlv_data st = entries (typed <$> (asked clock <$> params)) n.
Proof.
  intros Hk Hnd Ha.
  destruct (new_account params Hnd) as (st0 & n & space & Hlen & Hz & Hb & Hwf & Ht & Hn & Hne).
  exists space, (n - room params)%nat. split; [done|]. intros l w Hc.
  assert (length (repack st0) = space) as Hspace by by rewrite Hz, length_replicate.
  destruct (decide (params = [])) as [->|Hparams].
  - exists [], w, st0. change (room []) with 0%nat. rewrite Nat.sub_0_r.
    split_and!; [done|done|by rewrite Hz|done|done|done|done|done|done].
  - specialize (Hne Hparams) as ->. rewrite <- Hz in Hc.
    destruct (run_creation clock k l params [] n w) as (ixs & w1 & H1 & H2 & H3 & H4 & H5);
      [done|done|done|done|apply Hwf|done|done|].
    exists ixs, w1, (preparing (asked clock <$> params) (n - room params)).
    assert (length (repack (preparing (asked clock <$> params) (n - room params))) = space) as El.
    { rewrite <- Hspace, !length_preparing, length_asked. simpl. lia. }
    do 6 (split; [done|]). split; [|done]. split; [|by right]. rewrite El, <- Hspace. apply Hwf.
Qed.

(** With [InitializeMint] after them, they make the account the mint. *)
Lemma instructions_create clock k d ma fa params :
  rt_clock = Ok clock ->
  NoDup (ExtensionInitializationParams.extension <$> params) -> forallb allowed params = true ->
  check_for_invalid_mint_extension_combinations
    (ExtensionInitializationParams.extension <$> params) = Ok tt ->
  (ExtensionInitializationParams.DefaultAccountState AccountState.Frozen ∈ params -> is_Some fa) ->
  exists space, try_calculate_account_len PodMint
      (ExtensionInitializationParams.extension <$> params) = Ok space /\
    forall l rent w, k <> rt_rent_id ->
      rt_rent_from_account_info rt_rent_id (cell_data (cell w rt_rent_id)) = Ok rent ->
      is_exempt rent l space = true -> cell w k = mk_cell l (replicate space x00) id ->
      exists ixs initialize st, push_instructions id k params = Ok ixs /\
        initialize_mint id k ma fa d = Ok initialize /\
        execute_all (ixs ++ [initialize]) w = Ok (tt, set_cell k (mk_cell l (repack st) id) w) /\
        length (repack st) = space /\ unpack_mut PodMint (repack st) = Ok st /\
        base st = initialized_mint d ma (pod_option (zeroed 32) fa) (pod_default PodMint) /\
        extension_types <$> get_tlv_data_info (tlv_data st) =
          Ok (ExtensionInitializationParams.extension <$> params) /\
        Forall (fun p => has_setting (setting clock p) st) params.
Proof.
  intros Hk Hnd Ha Hcomb Hfz.
  destruct (run_on_new_account clock k params Hk Hnd Ha) as (space & n & Hlen & Hrun).
  exists space. split; [done|]. intros l rent w Hkr Hr He Hc.
  destruct (Hrun l w Hc) as (ixs & w1 & st & Hixs & Hx & Hc1 & Hset & Hother & Hb1 & Hwf1 & Hl1 & Ht1).
  destruct (client_executes _ _ (client_initialize_mint k ma fa d)) as (init & Hinit & Hxi).
  exists ixs, init, (created d ma (pod_option (zeroed 32) fa) st).
  split; [done|]. split; [exact Hinit|]. split.
  { eapply execute_all_app; [exact Hx|]. cbn [execute_all]. rewrite Hxi.
    rewrite <- Hset. eapply M_bind_step; [|by apply M_ret_Ok].
    apply (initialize_mint_step k l st (asked clock <$> params) n w1 d ma
      (pod_option (zeroed 32) fa) rent);
      [done|by eapply unpack_entries, Ht1; auto using asked_entries|done|apply asked_entries
      |by rewrite asked_types, Hl1|by rewrite asked_types| |by rewrite Hother|by rewrite Hl1].
    intros e Hd. destruct (asked_default_state _ _ _ _ _ Ht1 Hd) as (s & Hin & Es).
    exists s. split; [done|]. intros ->. destruct (Hfz Hin) as [a ->]. by vm_compute. }
  split.
  { rewrite <- Hl1, !length_repack. cbn [created padding account_type tlv_data].
    by destruct (account_type st). }
  split; [by apply unpack_created|]. split; [cbn; by rewrite Hb1|]. split.
  { destruct (entries_info _ n (asked_entries clock params)) as (info & Ei & Et).
    cbn [created tlv_data]. rewrite Ht1, Ei. cbn. by rewrite Et, asked_types. }
  by apply (asked_settings clock params _ n).
Qed.

Section client.
Context `{PC : ProgramClient} {R : Type}.

(** C31: the client can create a mint with any extensions: if the extensions are
    distinct and may occur together, their values are ones the program accepts,
    and a mint whose accounts start frozen has a freeze authority, then
    [create_mint] sends a transaction that creates an account of the length it
    calculates, and whose further instructions, on the new account with the
    lamports the client asked the cluster for, all succeed: they change that
    account alone, to an initialized mint of exactly that length with the named
    decimals and authorities, exactly those extensions in that order, and the
    value asked for in each of them. *)
Theorem create_mint_creates clock (self : Token) d ma fa params (signers : list Address)
    (s s' : ClientState R) :
  program_id self = id -> decimals self = Some d -> rt_clock = Ok clock ->
  NoDup (ExtensionInitializationParams.extension <$> params) -> forallb allowed params = true ->
  check_for_invalid_mint_extension_combinations
    (ExtensionInitializationParams.extension <$> params) = Ok tt ->
  (ExtensionInitializationParams.DefaultAccountState AccountState.Frozen ∈ params -> is_Some fa) ->
  exists space, try_calculate_account_len PodMint
      (ExtensionInitializationParams.extension <$> params) = Ok space /\
    forall lamports rent w,
      get_minimum_balance_for_rent_exemption space s = (Ok lamports, s') ->
      pubkey self <> rt_rent_id ->
      rt_rent_from_account_info rt_rent_id (cell_data (cell w rt_rent_id)) = Ok rent ->
      is_exempt rent lamports space = true ->
      cell w (pubkey self) = mk_cell lamports (replicate space x00) id ->
      exists ixs st,
        create_mint self ma fa params signers s =
          process_ixs self (system_create_account (payer self) (pubkey self) lamports
            (Z.of_nat space) id :: ixs) signers s' /\
        execute_all ixs w =
          Ok (tt, set_cell (pubkey self) (mk_cell lamports (repack st) id) w) /\
        length (repack st) = space /\ unpack_mut PodMint (repack st) = Ok st /\
        base st = initialized_mint d ma (pod_option (zeroed 32) fa) (pod_default PodMint) /\
        extension_types <$> get_tlv_data_info (tlv_data st) =
          Ok (ExtensionInitializationParams.extension <$> params) /\
        Forall (fun p => has_setting (setting clock p) st) params.
Proof.
  intros Hid Hd Hk Hnd Ha Hcomb Hfz.
  destruct (instructions_create clock (pubkey self) d ma fa params Hk Hnd Ha Hcomb Hfz)
    as (space & Hlen & Hrun).
  exists space. split; [done|]. intros lamports rent w Hl Hkr Hr He Hc.
  destruct (Hrun lamports rent w Hkr Hr He Hc) as (ixs & init & st & Hixs & Hinit & Hx & Hst).
  exists (ixs ++ [init]), st. split; [|split; [exact Hx|exact Hst]].
  unfold create_mint. rewrite Hd, Hid, (client_step _ _ s d s) by done.
  rewrite (program_step _ _ _ _ Hlen), (client_step _ _ _ _ _ Hl).
  by rewrite (program_step _ _ _ _ Hixs), (program_step _ _ _ _ Hinit).
Qed.
End client.
End runs.
