(* ===== verification/Registry.v ===== *)
(** * The ElGamal registry

    The program of [confidential/elgamal-registry/src/processor.rs] and its
    instructions ([confidential/elgamal-registry-interface/src/instruction.rs]).
    A registry is an account at an address derived from a wallet; it records
    the wallet and the public key that confidential balances of the wallet may
    use.  The derivation is the class [ProgramAddresses]; the system program
    allocates and assigns the account.  In every reachable state a registry is at
    the address of its wallet. *)
From stdpp Require Import relations.
From S2P Require Import Prelude Bytes Errors Ids Runtime Pod ExtensionState Extension TlvTheory.
From S2P Require Import ViewTheory CiphertextArithmetic ProofExtraction MonadTheory Ledger.
From S2P Require Import PodInstruction ConfidentialTransfer ConfidentialPure Instruction.
From S2P Require Import ConfidentialInstructions ClientTheory ConfidentialClientTheory.

Class ProgramAddresses : Type := mk_program_addresses {
  (** [Address::find_program_address], of seeds and a program. *)
  find_program_address : list (list byte) -> Address -> Address * byte
}.

(** ** [lib.rs] and [state.rs] *)

(** [b"elgamal-registry"]. *)
Definition REGISTRY_ADDRESS_SEED : list byte :=
  [x65; x6c; x67; x61; x6d; x61; x6c; x2d; x72; x65; x67; x69; x73; x74; x72; x79].

Definition ELGAMAL_REGISTRY_ACCOUNT_LEN : nat := 64.

Section addresses.
Context `{PA : ProgramAddresses}.

Definition get_elgamal_registry_address_and_bump_seed (wallet_address program_id : Address)
    : Address * byte :=
  find_program_address [REGISTRY_ADDRESS_SEED; to_bytes wallet_address] program_id.

Definition get_elgamal_registry_address (wallet_address program_id : Address) : Address :=
  (get_elgamal_registry_address_and_bump_seed wallet_address program_id).1.
End addresses.

(** ** Instructions *)

(** The offset is an [i8]. *)
Inductive RegistryInstruction : Type :=
  | CreateRegistry (proof_instruction_offset : Z)
  | UpdateRegistry (proof_instruction_offset : Z).

Module RegistryInstruction.
Definition unpack (input : list byte) : Result ProgramError RegistryInstruction :=
  match input with
  | [] => Err ProgramError.InvalidInstructionData
  | tag :: rest =>
      match u8_to_Z tag with
      | 0 =>
          proof_instruction_offset ← ok_or (head rest) ProgramError.InvalidInstructionData;
          mret (CreateRegistry (i8_get proof_instruction_offset))
      | 1 =>
          proof_instruction_offset ← ok_or (head rest) ProgramError.InvalidInstructionData;
          mret (UpdateRegistry (i8_get proof_instruction_offset))
      | _ => Err ProgramError.InvalidInstructionData
      end
  end.

Definition pack (self : RegistryInstruction) : list byte :=
  match self with
  | CreateRegistry proof_instruction_offset => [u8_of_Z 0; i8_new proof_instruction_offset]
  | UpdateRegistry proof_instruction_offset => [u8_of_Z 1; i8_new proof_instruction_offset]
  end.
End RegistryInstruction.

(** ** The processor *)

Section processor.
Context `{RT : Runtime} `{ZK : ZkInterface} `{ZC : !ZkContexts} `{PA : ProgramAddresses}.

Definition validate_registry_owner (owner_info : AccountInfo) (expected_owner : Address) : M unit :=
  _ ← bail_if (negb (bool_decide (expected_owner = key owner_info))) ProgramError.InvalidAccountOwner;
  bail_if (negb (is_signer owner_info)) ProgramError.MissingRequiredSignature.

Definition validate_program_owner (registry_info : AccountInfo) (program_id : Address) : M unit :=
  owner ← info_owner registry_info;
  bail_if (negb (bool_decide (owner = program_id))) ProgramError.InvalidAccountOwner.

(** The signer seeds of the two calls derive [new_pda_account], as the caller checked. *)
Definition create_pda_account (rent : Rent) (space : nat) (owner : Address)
    (system_program new_pda_account : AccountInfo) : M unit :=
  lamports ← info_lamports new_pda_account;
  let required_lamports := u64_saturating_sub (minimum_balance rent space) lamports in
  _ ← bail_if (0 <? required_lamports) ProgramError.AccountNotRentExempt;
  _ ← invoke (rt_system_allocate (key new_pda_account) (Z.of_nat space));
  invoke (rt_system_assign (key new_pda_account) owner).

Definition process_create_registry_account (program_id : Address) (accounts : list AccountInfo)
    (proof_instruction_offset : Z) : M unit :=
  '(elgamal_registry_account_info, iter) ← lift (next_account_info accounts);
  '(wallet_account_info, iter) ← lift (next_account_info iter);
  '(system_program_info, iter) ← lift (next_account_info iter);
  _ ← bail_if (negb (is_signer wallet_account_info)) ProgramError.MissingRequiredSignature;
  '(proof_context, _) ← verify_and_extract_context PubkeyValidityProofContext
    ProofType.PubkeyValidity [] iter proof_instruction_offset None;
  let '(elgamal_registry_account_address, _) :=
    get_elgamal_registry_address_and_bump_seed (key wallet_account_info) program_id in
  _ ← bail_if (negb (bool_decide (elgamal_registry_account_address =
                                  key elgamal_registry_account_info))) ProgramError.InvalidSeeds;
  rent ← lift rt_rent;
  _ ← create_pda_account rent ELGAMAL_REGISTRY_ACCOUNT_LEN program_id system_program_info
        elgamal_registry_account_info;
  elgamal_registry_account_data ← borrow_mut [] elgamal_registry_account_info;
  _ ← lift (ok_or (try_from_bytes (A := ElGamalRegistry) elgamal_registry_account_data)
              ProgramError.InvalidArgument);
  write_data elgamal_registry_account_info
    (to_bytes (mk_registry (key wallet_account_info) (pv_pubkey proof_context))).

Definition process_update_registry_account (program_id : Address) (accounts : list AccountInfo)
    (proof_instruction_offset : Z) : M unit :=
  '(elgamal_registry_account_info, iter) ← lift (next_account_info accounts);
  elgamal_registry_account_data ← borrow_mut [] elgamal_registry_account_info;
  elgamal_registry_account ←
    lift (ok_or (try_from_bytes elgamal_registry_account_data) ProgramError.InvalidArgument);
  '(proof_context, iter) ← verify_and_extract_context PubkeyValidityProofContext
    ProofType.PubkeyValidity [Mut (key elgamal_registry_account_info)] iter
    proof_instruction_offset None;
  '(owner_info, _) ← lift (next_account_info iter);
  _ ← validate_registry_owner owner_info (er_owner elgamal_registry_account);
  _ ← validate_program_owner elgamal_registry_account_info program_id;
  write_data elgamal_registry_account_info
    (to_bytes (mk_registry (er_owner elgamal_registry_account) (pv_pubkey proof_context))).

Definition process_registry_instruction (program_id : Address) (accounts : list AccountInfo)
    (input : list byte) : M unit :=
  instruction ← lift (RegistryInstruction.unpack input);
  match instruction with
  | CreateRegistry proof_instruction_offset =>
      process_create_registry_account program_id accounts proof_instruction_offset
  | UpdateRegistry proof_instruction_offset =>
      process_update_registry_account program_id accounts proof_instruction_offset
  end.
End processor.

(** ** Building instructions *)

Section clients.
Context `{RT : Runtime} `{ZK : ZkInterface} `{ZP : !ZkProofs} `{PA : ProgramAddresses}.

(** [proof_instruction_offset]: the accounts with the one pushed, and the offset. *)
Definition proof_instruction_offset (accounts : list AccountMeta)
    (proof_location : ProofLocation ProofType.PubkeyValidity) : list AccountMeta * Z :=
  match proof_location with
  | InstructionOffset proof_instruction_offset _ =>
      (accounts ++ [new_readonly sysvar_instructions_id false], proof_instruction_offset)
  | ContextStateAccount context_state_account =>
      (accounts ++ [new_readonly context_state_account false], 0)
  end.

Definition append_zk_elgamal_proof (instructions : list Instruction)
    (proof_data_location : ProofLocation ProofType.PubkeyValidity)
    : Result ProgramError (list Instruction) :=
  match proof_data_location with
  | InstructionOffset proof_instruction_offset proof_data =>
      _ ← fail_if (negb (proof_instruction_offset =? 1)) ProgramError.InvalidArgument;
      mret (instructions ++
            [encode_verify_proof ProofInstruction.VerifyPubkeyValidity _ proof_data])
  | ContextStateAccount _ => mret instructions
  end.

Definition create_registry (owner_address : Address)
    (proof_location : ProofLocation ProofType.PubkeyValidity)
    : Result ProgramError (list Instruction) :=
  let elgamal_registry_address := get_elgamal_registry_address owner_address elgamal_registry.id in
  let '(accounts, proof_instruction_offset) :=
    proof_instruction_offset
      [new elgamal_registry_address false; new_readonly owner_address true;
       new_readonly rt_system_program_id false] proof_location in
  append_zk_elgamal_proof
    [mk_instruction elgamal_registry.id accounts
       (RegistryInstruction.pack (CreateRegistry proof_instruction_offset))] proof_location.

Definition update_registry (owner_address : Address)
    (proof_location : ProofLocation ProofType.PubkeyValidity)
    : Result ProgramError (list Instruction) :=
  let elgamal_registry_address := get_elgamal_registry_address owner_address elgamal_registry.id in
  let '(accounts, proof_instruction_offset) :=
    proof_instruction_offset [new elgamal_registry_address false] proof_location in
  append_zk_elgamal_proof
    [mk_instruction elgamal_registry.id (accounts ++ [new_readonly owner_address true])
       (RegistryInstruction.pack (UpdateRegistry proof_instruction_offset))] proof_location.
End clients.

(** ** What the registry promises

    A registry belongs to the wallet that its address is derived from, and only
    with the signature of that wallet does its key change, to one that comes
    with a proof of validity. *)

(** ** Instructions *)

Definition registry_offset (i : RegistryInstruction) : Z :=
  match i with CreateRegistry offset | UpdateRegistry offset => offset end.

Lemma registry_unpack_pack i rest :
  -128 <= registry_offset i <= 127 ->
  RegistryInstruction.unpack (RegistryInstruction.pack i ++ rest) = Ok i.
Proof.
  destruct i as [o|o]; cbn [registry_offset RegistryInstruction.pack app]; intros Ho;
    unfold RegistryInstruction.unpack; cbn; by rewrite i8_get_new.
Qed.

Section registry.
Context `{RT : Runtime} `{ZK : ZkInterface} `{ZC : !ZkContexts} `{PA : ProgramAddresses}.

(** One account is read: the context or the sysvar. *)
Lemma verify_and_extract_context_rest U `{ZU : !ZkContext U} ty held iter off w c rest w' :
  verify_and_extract_context U ty held iter off None w = Ok ((c, rest), w') ->
  w' = w /\ exists x, iter = x :: rest.
Proof.
  intros H. destruct iter as [|x iter].
  - exfalso. revert H. unfold verify_and_extract_context. by destruct (off =? 0).
  - pose proof (verify_and_extract_context_pure _ _ _ _ _ _ _ _ _ H) as ->. split; [done|].
    exists x. f_equal. revert H. unfold verify_and_extract_context.
    destruct (off =? 0); intros H; m_inv; subst; congruence.
Qed.

(** ** The processor *)

(** What is relied on of the system program: it allocates zeroed data for its
    own empty accounts, and assigns an owner. *)
Record system_program_rules : Prop := mk_system_program_rules {
  allocate_rule : forall a n w w', rt_system_allocate a n w = Ok w' ->
    cell_owner (cell w a) = rt_system_program_id /\ cell_data (cell w a) = [] /\
    w' = set_cell a (with_data (replicate (Z.to_nat n) x00) (cell w a)) w;
  assign_rule : forall a o w w', rt_system_assign a o w = Ok w' ->
    w' = set_cell a (with_owner o (cell w a)) w
}.

(** The proof that a key is valid, found by the instruction. *)
Definition key_proved (w : World) (pubkey : PodElGamalPubkey) : Prop :=
  exists held iter off rest,
    verify_and_extract_context PubkeyValidityProofContext ProofType.PubkeyValidity held iter off None w =
      Ok ((mk_pubkey_validity pubkey, rest), w).

(** Name the key that was proved valid [Hk]. *)
Ltac proved :=
  match goal with H : verify_and_extract_context _ _ _ _ _ _ ?w = Ok ((?p, _), _) |- _ =>
    assert (key_proved w (pv_pubkey p)) as Hk by (destruct p; do 4 eexists; exact H) end.

Lemma set_cell_set_cell k c c' w : set_cell k c' (set_cell k c w) = set_cell k c' w.
Proof. unfold set_cell. cbn. by rewrite insert_insert_eq. Qed.

Lemma process_create_registry_account_inv pid accounts off w w' :
  system_program_rules -> process_create_registry_account pid accounts off w = Ok (tt, w') ->
  exists r wallet sys iter pubkey rent,
    accounts = r :: wallet :: sys :: iter /\ is_signer wallet = true /\ key_proved w pubkey /\
    key r = get_elgamal_registry_address (key wallet) pid /\
    cell_owner (cell w (key r)) = rt_system_program_id /\ cell_data (cell w (key r)) = [] /\
    rt_rent = Ok rent /\
    minimum_balance rent ELGAMAL_REGISTRY_ACCOUNT_LEN <= cell_lamports (cell w (key r)) /\
    w' = set_cell (key r)
      (mk_cell (cell_lamports (cell w (key r))) (to_bytes (mk_registry (key wallet) pubkey)) pid) w.
Proof.
  intros [Ha Hs] H. unfold process_create_registry_account, create_pda_account in H.
  m_inv. destruct (get_elgamal_registry_address_and_bump_seed _ _) as [addr bump] eqn:Ea. m_inv.
  repeat match goal with H : invoke _ _ = Ok _ |- _ => apply invoke_kept in H end.
  match goal with H : rt_system_allocate _ _ _ = _ |- _ => apply Ha in H as (Ho & Hd & ->) end.
  match goal with H : rt_system_assign _ _ _ = _ |- _ => apply Hs in H as -> end.
  proved. eexists _, _, _, _, _, _. split; [reflexivity|]. split; [done|].
  split; [exact Hk|].
  split; [unfold get_elgamal_registry_address; by rewrite Ea|]. do 3 (split; [eassumption|]).
  split; [unfold u64_saturating_sub in *; lia|].
  by rewrite !set_cell_set_cell, !cell_set_cell.
Qed.

Lemma process_update_registry_account_inv pid accounts off w w' :
  process_update_registry_account pid accounts off w = Ok (tt, w') ->
  exists r x owner_info rest reg pubkey,
    accounts = r :: x :: owner_info :: rest /\ key owner_info = er_owner reg /\
    is_signer owner_info = true /\ key_proved w pubkey /\
    cell_owner (cell w (key r)) = pid /\ cell_data (cell w (key r)) = to_bytes reg /\
    w' = set_cell (key r)
      (with_data (to_bytes (mk_registry (er_owner reg) pubkey)) (cell w (key r))) w.
Proof.
  unfold process_update_registry_account, validate_registry_owner, validate_program_owner. intros H.
  m_inv. match goal with H : verify_and_extract_context _ _ _ _ _ _ _ = Ok ((?p, _), _) |- _ =>
    pose proof (verify_and_extract_context_rest _ _ _ _ _ _ _ _ _ H) as (_ & x & ->);
    idtac end.
  proved.
  eexists _, _, _, _, _, _. split; [reflexivity|]. split; [by symmetry; eassumption|].
  split; [done|]. split; [exact Hk|]. done.
Qed.

(** ** Registries belong to wallets *)

(** The registry that the account [k] is. *)
Definition registry_at (w : World) (k : Address) : option ElGamalRegistry :=
  if bool_decide (cell_owner (cell w k) = elgamal_registry.id)
  then try_from_bytes (cell_data (cell w k)) else None.

(** An instruction of the registry, or what the runtime lets other programs do. *)
Inductive registry_step : World -> World -> Prop :=
  | registry_instruction accounts input w w' :
      process_registry_instruction elgamal_registry.id accounts input w = Ok (tt, w') ->
      registry_step w w'
  | registry_foreign w w' :
      (forall k, cell_owner (cell w k) = elgamal_registry.id ->
         cell_owner (cell w' k) = elgamal_registry.id /\ cell_data (cell w' k) = cell_data (cell w k)) ->
      (forall k, cell_owner (cell w k) <> elgamal_registry.id ->
         cell_owner (cell w' k) = elgamal_registry.id ->
         Forall (fun b => b = x00) (cell_data (cell w' k))) ->
      registry_step w w'.

(** Assigned to the program with zeroed data, or created for the wallet. *)
Definition registries_derived (w : World) : Prop :=
  forall k reg, registry_at w k = Some reg ->
  er_owner reg = zeroed 32 \/ k = get_elgamal_registry_address (er_owner reg) elgamal_registry.id.

(** A wallet among the accounts signed for the new key. *)
Definition wallet_signed (w : World) (accounts : list AccountInfo) (reg : ElGamalRegistry) : Prop :=
  (exists wallet, wallet ∈ accounts /\ key wallet = er_owner reg /\ is_signer wallet = true) /\
  key_proved w (er_elgamal_pubkey reg).

Lemma registry_at_set k k' c w :
  registry_at (set_cell k c w) k' =
    if decide (k = k')
    then (if bool_decide (cell_owner c = elgamal_registry.id) then try_from_bytes (cell_data c) else None)
    else registry_at w k'.
Proof.
  unfold registry_at. rewrite cell_set_cell_case. by repeat case_decide; subst.
Qed.

Lemma registry_at_to_bytes k l reg w :
  registry_at (set_cell k (mk_cell l (to_bytes reg) elgamal_registry.id) w) k = Some reg.
Proof.
  rewrite registry_at_set, decide_True by done. cbn [cell_owner cell_data].
  rewrite bool_decide_true by done. by apply try_from_bytes_Some.
Qed.

(** What one instruction does to the registries. *)
Lemma registry_instruction_spec accounts input w w' :
  system_program_rules -> rt_system_program_id <> elgamal_registry.id ->
  process_registry_instruction elgamal_registry.id accounts input w = Ok (tt, w') ->
  exists k reg, registry_at w' k = Some reg /\ wallet_signed w accounts reg /\
    (k = get_elgamal_registry_address (er_owner reg) elgamal_registry.id /\
       cell_owner (cell w k) = rt_system_program_id \/
     exists old, registry_at w k = Some old /\ er_owner old = er_owner reg) /\
    forall k', k' <> k -> registry_at w' k' = registry_at w k'.
Proof.
  intros Hs Hid H. unfold process_registry_instruction in H. m_inv.
  match goal with i : RegistryInstruction |- _ => destruct i end.
  - apply process_create_registry_account_inv in H
      as (r & wallet & sys & iter & pubkey & rent & -> & Hsig & Hk & Hr & Ho & _ & _ & _ & ->); [|done].
    exists (key r), (mk_registry (key wallet) pubkey). split; [apply registry_at_to_bytes|].
    split; [split; [exists wallet|done]; split; [set_solver|done]|]. split; [by left|].
    intros k' Hne. by rewrite registry_at_set, decide_False.
  - apply process_update_registry_account_inv in H
      as (r & x & owner & rest & old & pubkey & -> & Hown & Hsig & Hk & Ho & Hd & ->).
    exists (key r), (mk_registry (er_owner old) pubkey).
    split; [unfold with_data; rewrite Ho; apply registry_at_to_bytes|].
    split; [split; [exists owner|done]; split; [set_solver|done]|]. split.
    + right. exists old. split; [|done]. unfold registry_at. rewrite Ho, Hd, bool_decide_true by done.
      by apply try_from_bytes_Some.
    + intros k' Hne. by rewrite registry_at_set, decide_False.
Qed.

Lemma zeroed_registry d reg :
  Forall (fun b => b = x00) d -> try_from_bytes d = Some reg -> er_owner reg = zeroed 32.
Proof.
  intros Hz ->%try_from_bytes_Some.
  change (to_bytes reg) with (bytes_list (er_owner reg) ++ bytes_list (er_elgamal_pubkey reg)) in Hz.
  apply Forall_app in Hz as [Hz _]. apply bytes_eq. symmetry.
  change (bytes_list (zeroed 32)) with (replicate 32 x00). apply replicate_as_Forall. rewrite length_bytes_list. split; [done|].
  by eapply Forall_impl; [exact Hz|].
Qed.

Lemma registry_step_derived w w' :
  system_program_rules -> rt_system_program_id <> elgamal_registry.id ->
  registry_step w w' -> registries_derived w -> registries_derived w'.
Proof.
  intros Hs Hid [accounts input w1 w2 H|w1 w2 Hkept Hnew] Hd k reg Hreg.
  - apply registry_instruction_spec in H as (k' & reg' & Hreg' & _ & Hcase & Hother); [|done..].
    destruct (decide (k = k')) as [->|Hne].
    + assert (reg = reg') as -> by congruence.
      destruct Hcase as [[-> _]|(old & Hold & <-)]; [by right|]. by apply Hd.
    + apply Hd. by rewrite <- Hother.
  - unfold registry_at in Hreg. case_bool_decide as Ho; [|done].
    destruct (decide (cell_owner (cell w1 k) = elgamal_registry.id)) as [Ho1|Ho1].
    + apply Hd. unfold registry_at. rewrite bool_decide_true by done.
      by destruct (Hkept k Ho1) as [_ <-].
    + left. by eapply zeroed_registry; [apply Hnew|].
Qed.

(** C32: in every state that the registry's instructions and other programs can
    reach from one without registries, a registry is at the address derived
    from the wallet that it records (or is zeroed data that another program
    assigned, which no wallet owns).  An instruction changes at most one
    registry: it creates that of a wallet, or gives a registry a new key and
    keeps its wallet; the wallet signed, and the new key came with a proof that
    it is valid. *)
Theorem registries_belong_to_wallets w0 w :
  system_program_rules -> rt_system_program_id <> elgamal_registry.id ->
  (forall k, cell_owner (cell w0 k) <> elgamal_registry.id) -> rtc registry_step w0 w ->
  registries_derived w /\
  forall accounts input w' k reg,
    process_registry_instruction elgamal_registry.id accounts input w = Ok (tt, w') ->
    registry_at w' k = Some reg -> registry_at w k <> Some reg ->
    wallet_signed w accounts reg /\
    forall old, registry_at w k = Some old -> er_owner old = er_owner reg.
Proof.
  intros Hs Hid Hg Hr. split.
  - assert (registries_derived w0) as Hd.
    { intros k reg. unfold registry_at. by rewrite bool_decide_false. }
    clear Hg. induction Hr as [|w0 w1 w Hst _ IH]; [done|]. apply IH. by eapply registry_step_derived.
  - intros accounts input w' k reg H Hreg Hne.
    apply registry_instruction_spec in H as (k' & reg' & Hreg' & Hw & Hcase & Hother); [|done..].
    destruct (decide (k = k')) as [->|Hk]; [|by rewrite Hother in Hreg].
    assert (reg = reg') as -> by congruence. split; [done|]. intros old Hold.
    destruct Hcase as [[_ Ho]|(old' & Hold' & <-)]; [|congruence].
    unfold registry_at in Hold. by rewrite bool_decide_false in Hold by congruence.
Qed.

(** ** Building instructions *)

Context `{ZP : !ZkProofs}.

Definition registry_executes (r : Result ProgramError (list Instruction)) (verifiers : list Instruction)
    (m : M unit) : Prop :=
  exists ix, r = Ok (ix :: verifiers) /\
    process_registry_instruction (ix_program_id ix) (info_of <$> ix_accounts ix) (ix_data ix) = m.

(** The instructions that clients build reach their handlers, with the address
    derived from the owner, who signs, and where to find the proof. *)
Theorem registry_clients_execute owner (p : ProofLocation ProofType.PubkeyValidity) :
  in_sequence 1 [place p] = true ->
  registry_executes (create_registry owner p) (verifier ProofInstruction.VerifyPubkeyValidity p)
    (process_create_registry_account elgamal_registry.id
       (rw (get_elgamal_registry_address owner elgamal_registry.id) :: mk_info owner true false ::
        ro rt_system_program_id :: proof_infos [place p]) (offset_of (place p))) /\
  registry_executes (update_registry owner p) (verifier ProofInstruction.VerifyPubkeyValidity p)
    (process_update_registry_account elgamal_registry.id
       (rw (get_elgamal_registry_address owner elgamal_registry.id) :: proof_infos [place p] ++
        [mk_info owner true false]) (offset_of (place p))).
Proof.
  intros Hs. destruct p as [o d|k]; cbn [place] in Hs.
  - apply andb_prop in Hs as [->%Z.eqb_eq _]. split; eexists; (split; [reflexivity|]); reflexivity.
  - split; eexists; (split; [reflexivity|]); reflexivity.
Qed.
End registry.
