(* ===== verification/BackingTheory.v ===== *)
(** * Supply backs circulation

    The dispatcher and the batches keep the invariant of [Backing] whatever the
    instruction, and what is not backed changes only by the deposits to and the
    withdrawals from confidential balances.  So in every state that is reached
    from one in which the program's accounts are zeroed, for every mint but the
    native one, the plaintext tokens in circulation and the deposits of the
    execution less its withdrawals do not exceed the recorded supply, and are
    equal to it unless more was withdrawn than deposited. *)
From stdpp Require Import relations.
From S2P Require Import Prelude Bytes Errors Ids Runtime Pod ExtensionState Extension TlvTheory.
From S2P Require Import ViewTheory Clean AccountLen MonadTheory Ownership Ledger.
From S2P Require Import PodInstruction Initialize InitializeTheory TransferTheory Lifecycle.
From S2P Require Import LifecycleTheory State StateTheory VariableLen SerializeTheory TokenMetadata.
From S2P Require Import Reallocate UiAmount.
From S2P Require Import FeesTheory Settings Fees Processor InstructionTheory.
From S2P Require Import Backing BackingSettings BackingAccounts BackingTransfers.
From S2P Require Import CiphertextArithmetic ProofExtraction ConfidentialTransfer.
From S2P Require Import ConfidentialTransferFee ConfidentialMintBurn BackingConfidential.

Section backing.
Context `{RT : Runtime} `{PM : PackMethods} `{F64 : Float64}.
Context `{CV : CurveInterface} `{ZK : ZkInterface} `{ZC : !ZkContexts}.
Context `{TM : TokenMetadataInterface} `{TG : TokenGroupInterface}.
Context `{TML : !TokenMetadataLaws} `{TGL : !TokenGroupLaws}.

(** What is relied on of the runtime and of the programs that are called. *)
Record sound_runtime : Prop := mk_sound_runtime {
  sound_resize : resize_zeroes;
  sound_hook : hook_keeps_tokens;
  sound_transfer : system_transfer_keeps_tokens;
  sound_allocate : forall a n w w', rt_system_allocate a n w = Ok w' ->
    token_data_kept w w' /\ cell_owner (cell w a) = rt_system_program_id;
  sound_assign : forall a o w w', rt_system_assign a o w = Ok w' -> token_data_kept w w';
  sound_system_id : rt_system_program_id <> id
}.

(** A change of every mint's tokens. *)
Definition Pool : Type := Address -> Z.

(** An account that closing left. *)
Definition closed (c : Cell) : Prop := cell_owner c <> id /\ cell_data c = [].

(** One instruction: what is unbacked changes by [δ] where the supply backs the
    circulation, and by no more than [δ] anywhere; and no account changes its
    kind, unless it is closed. *)
Definition settles (δ : Pool) (w w' : World) : Prop :=
  cells_ok w ->
  cells_ok w' /\
  (forall m, m <> native_mint.id ->
     unbacked m w' <= unbacked m w + δ m /\
     (unbacked m w <= 0 -> unbacked m w' = unbacked m w + δ m)) /\
  forall k, kind_kept (cell w k) (cell w' k) \/ closed (cell w' k).

Lemma evolves_settles δ w w' : (cells_ok w -> evolves δ w w') -> settles δ w w'.
Proof.
  intros He Hc. destruct (He Hc) as (Hc' & Hu & Hk). split; [done|]. split; [|by left].
  intros m Hm. rewrite Hu by done. lia.
Qed.

Lemma keeps_settles w w' : keeps w w' -> settles (fun _ => 0) w w'.
Proof. apply evolves_settles. Qed.

Lemma settles_ext δ δ' w w' : (forall m, δ m = δ' m) -> settles δ w w' -> settles δ' w w'.
Proof.
  intros E Hs Hc. destruct (Hs Hc) as (Hc' & Hu & Hk). split; [done|]. split; [|done].
  intros m Hm. rewrite <- E. by apply Hu.
Qed.

(** ** Growing *)

Lemma process_reallocate_keeps pid accounts new w w' :
  sound_runtime -> process_reallocate pid accounts new w = Ok (tt, w') -> keeps w w'.
Proof.
  intros Hs (ti & ? & ? & ? & ? & st & ? & ? & _ & Ho & Hu & _ & _ & _ & _ & Hcase)%process_reallocate_inv Hc;
    [|apply Hs..].
  destruct Hcase as [[_ ->]|(_ & rent & _ & Hr)]; [by apply evolves_refl|].
  destruct (cells_ok_account w (key ti) st Hc (conj Ho Hu)) as [Hn Hcl]. split; [|split].
  - pose proof Hr as (st' & Ho' & Hu' & Hk & Hcl' & Em & En & _)%regrown_tokens; [|done].
    apply (kept_except_cells_ok (key ti) w); [done..|]. intros _.
    eapply data_account; [done|]. split; [rewrite En, Em|]; done.
  - intros m _. unfold unbacked. destruct (regrown_sums _ _ _ _ _ _ m Hr Hcl Ho Hu) as [-> ->]. lia.
  - pose proof Hr as (st' & Ho' & Hu' & Hk & _ & Em & _ & _)%regrown_tokens; [|done].
    apply (kept_except_kinds (key ti)); [done|]. intros _. split; [done|]. split.
    + intros a Ha. exists st'. split; [done|]. congruence.
    + intros mt Hm. by destruct (account_mint_exclusive _ _ _ Hu Hm).
Qed.

(** ** The native mint *)

Lemma packed_mint_ok mt d d' :
  mint_valid mt -> Mint.is_initialized mt = true -> pm_pack mt d = Ok d' ->
  length d = Mint_LEN /\ length d' = Mint_LEN /\ data_ok d'.
Proof.
  intros Hv Hi. rewrite pm_pack_spec. destruct (Nat.eqb_spec (length d) (LEN Mint.Mint)) as [E|]; [|done].
  destruct (proj1 mint_pack_inverse mt d Hv) as (d1 & Hp & El & _ & Hu); [lia|].
  rewrite Hp.
  intros [= <-]. split; [done|]. split; [by rewrite El|].
  assert (length d1 = size_of PodMint) as El1 by (rewrite El, E; done).
  rewrite <- (to_from_bytes (A := PodMint) d1) in Hu by done.
  change (Mint.unpack_from_slice (to_bytes (from_bytes (A := PodMint) d1)) = Ok mt) in Hu.
  rewrite mint_unpack_pod in Hu.
  apply (conv_initialized (PodView := mint_view)) in Hu as Ei.
  set (st := mk_state_mut (from_bytes (A := PodMint) d1) [] [] []).
  assert (repack st = d1) as Er.
  { unfold repack, st. cbn [base padding account_type tlv_data]. by rewrite !app_nil_r, to_from_bytes. }
  rewrite <- Er. eapply (data_mint _ st).
  - apply unpack_mut_repack.
    + cbn [base st]. rewrite <- Ei. exact Hi.
    + split; [by rewrite Er, El1; vm_compute|by left].
  - exact (clean_zeros _ 0).
Qed.

Lemma holding_mint_sized m k c : length (cell_data c) = Mint_LEN -> k <> m -> holding m k c = 0.
Proof.
  intros Hl Hne. unfold holding. case_bool_decide; [|done].
  destruct (unpack_mut PodAccount _) as [a| |] eqn:Ha.
  { exfalso. apply unpack_mut_Ok in Ha as (E & _). rewrite E, length_repack in Hl.
    vm_compute in Hl. lia. }
  all: destruct (unpack_mut PodMint _); [by rewrite bool_decide_false|done..].
Qed.

Lemma keeps_native_mint w d :
  let c := cell w native_mint.id in
  (cell_owner c = id -> zeroes (cell_data c)) ->
  length (cell_data c) = Mint_LEN -> length d = Mint_LEN -> data_ok d ->
  keeps w (set_cell native_mint.id (with_data d c) w).
Proof.
  intros c Hz Hl Hd Hok Hc. split; [apply cells_ok_set_cell; [done|by intros _]|].
  split.
  - intros m Hm. unfold unbacked, circulation, supply_of.
    rewrite world_sum_set_cell by apply holding_empty. rewrite cell_set_cell_ne by done.
    rewrite !holding_mint_sized by done. lia.
  - apply kinds_kept_set_cell. intros Ho.
    apply (kind_kept_uncounted c d); [|done]. by apply fresh_zeroes, Hz.
Qed.

Lemma token_data_kept_trans w w1 w' :
  token_data_kept w w1 -> token_data_kept w1 w' -> token_data_kept w w'.
Proof.
  intros H1 H2 k. destruct (H1 k) as [A1 B1], (H2 k) as [A2 B2]. split.
  - intros Ho. destruct (A1 Ho) as [Ho1 E1]. destruct (A2 Ho1) as [Ho2 E2]. split; [done|congruence].
  - intros Hne Ho. destruct (decide (cell_owner (cell w1 k) = id)) as [Ho1|Hne1]; [|by apply B2].
    destruct (A2 Ho1) as [_ ->]. by apply B1.
Qed.

Lemma process_create_native_mint_keeps accounts w w' :
  sound_runtime -> process_create_native_mint accounts w = Ok (tt, w') -> keeps w w'.
Proof.
  intros [_ _ Ht Hal Has Hid] H. unfold process_create_native_mint in H. m_inv.
  repeat match goal with H : invoke _ _ = Ok _ |- _ => apply invoke_kept in H end.
  match goal with E : key _ = native_mint.id |- _ => rewrite E in * end.
  match goal with H1 : rt_system_transfer _ _ _ _ = Ok _, H2 : rt_system_allocate _ _ _ = Ok _,
      H3 : rt_system_assign _ _ _ = Ok ?w3, H : pm_pack _ _ = Ok _ |- _ =>
    apply Ht in H1; apply Hal in H2 as [H2 Ho]; apply Has in H3; rename w3 into w2;
    apply packed_mint_ok in H as (Hl & Hl' & Hok); [|done..];
    pose proof (token_data_kept_trans _ _ _ H2 H3) as H23;
    pose proof (token_data_kept_trans _ _ _ H1 H23) as H13 end.
  apply (keeps_trans w w2); [by apply keeps_foreign|]. apply keeps_native_mint; [|done..].
  intros Ho'. apply H23; [by rewrite Ho|done].
Qed.

(** ** Dispatch *)

Lemma with_mint_scale_pure {A} accounts (f : InterestBearingConfig -> byte -> Z -> Result ProgramError A)
    g h w a w' :
  with_mint_scale accounts f g h w = Ok (a, w') -> w' = w.
Proof. unfold with_mint_scale. intros H. m_inv; by m_cases. Qed.

Lemma set_return_data_keeps d w w' : set_return_data d w = Ok (tt, w') -> keeps w w'.
Proof. intros [= <-]. apply keeps_return_data. Qed.

Lemma process_amount_to_ui_amount_keeps accounts a w w' :
  process_amount_to_ui_amount accounts a w = Ok (tt, w') -> keeps w w'.
Proof.
  unfold process_amount_to_ui_amount. intros H. m_inv.
  match goal with H : with_mint_scale _ _ _ _ _ = Ok _ |- _ => apply with_mint_scale_pure in H as -> end.
  by eapply set_return_data_keeps.
Qed.

Lemma process_ui_amount_to_amount_keeps accounts s w w' :
  process_ui_amount_to_amount accounts s w = Ok (tt, w') -> keeps w w'.
Proof.
  unfold process_ui_amount_to_amount. intros H. m_inv.
  match goal with H : with_mint_scale _ _ _ _ _ = Ok _ |- _ => apply with_mint_scale_pure in H as -> end.
  by eapply set_return_data_keeps.
Qed.

Lemma process_get_account_data_size_keeps accounts types w w' :
  process_get_account_data_size accounts types w = Ok (tt, w') -> keeps w w'.
Proof.
  unfold process_get_account_data_size. intros H. m_inv. by eapply set_return_data_keeps.
Qed.

Lemma permissioned_burn_keeps pid accounts input w w' :
  permissioned_burn_processor.process_instruction pid accounts input w = Ok (tt, w') -> keeps w w'.
Proof.
  unfold permissioned_burn_processor.process_instruction. intros H. m_inv. case_match; m_inv; try done.
  - by eapply permissioned_burn_initialize_keeps.
  - by eapply process_burn_keeps.
  - by eapply process_burn_keeps.
  - by eapply confidential_burn_keeps.
Qed.

Create HintDb keeps discriminated.
#[local] Hint Resolve initialize_mint_keeps initialize_account_keeps initialize_multisig_keeps
  process_approve_keeps process_revoke_keeps process_set_authority_keeps
  process_toggle_freeze_account_keeps process_sync_native_keeps process_unwrap_lamports_keeps
  process_withdraw_excess_lamports_keeps process_mint_to_keeps process_burn_keeps
  process_initialize_mint_close_authority_keeps process_initialize_immutable_owner_keeps
  process_initialize_non_transferable_mint_keeps process_initialize_permanent_delegate_keeps
  interest_bearing_keeps memo_transfer_keeps cpi_guard_keeps default_account_state_keeps
  pausable_keeps scaled_ui_amount_keeps transfer_hook_keeps metadata_pointer_keeps
  group_pointer_keeps group_member_pointer_keeps permissioned_burn_keeps
  process_get_account_data_size_keeps process_amount_to_ui_amount_keeps
  process_ui_amount_to_amount_keeps process_reallocate_keeps process_create_native_mint_keeps
  confidential_transfer_fee_keeps confidential_mint_burn_keeps : keeps.

Lemma resize_zeroes_empties : resize_zeroes -> resize_empties.
Proof. intros Hr d d' ->%Hr. apply resize_0. Qed.

Lemma close_account_settles pid accounts w w' :
  sound_runtime -> process_close_account pid accounts w = Ok (tt, w') -> settles (fun _ => 0) w w'.
Proof.
  intros [Hr _ _ _ _ Hid] H Hc. pose proof (resize_zeroes_empties Hr) as He.
  destruct (process_close_account_backed _ _ _ _ He Hid H Hc) as [Hc' Hu].
  split; [done|]. split; [intros m Hm; destruct (Hu m Hm); lia|].
  apply process_close_account_inv in H as
    (src & dst & auth & signers & _ & _ & _ & _ & E1 & E2 & E3 & _); [|done..].
  intros k. destruct (decide (k = key src)) as [->|H1]; [right; by rewrite E1|left].
  destruct (decide (k = key dst)) as [->|H2]; [rewrite E2|rewrite E3 by done]; by apply kind_kept_same.
Qed.

(** The tokens of [m] that an instruction takes out of the plaintext balances for
    confidential ones (a deposit's amount), less those it puts back (a
    withdrawal's), as its data names them. *)
Definition credit (accounts : list AccountInfo) (input : list byte) (m : Address) : Z :=
  match decode_type input with
  | Ok PodTokenInstruction.ConfidentialTransferExtension =>
      confidential_credit accounts (drop 1 input) m
  | _ => 0
  end.

Lemma process_pod_instruction_settles t pid accounts input w w' :
  sound_runtime -> process_pod_instruction t pid accounts input w = Ok (tt, w') ->
  settles (fun m => match t with
                    | PodTokenInstruction.ConfidentialTransferExtension =>
                        - confidential_credit accounts (drop 1 input) m
                    | _ => 0
                    end) w w'.
Proof.
  intros Hs H. pose proof (sound_hook Hs) as Hh.
  destruct t; cbn [process_pod_instruction] in H; m_inv; try done;
    try (apply keeps_settles; eauto 2 with keeps; fail);
    try (apply keeps_settles; eapply process_transfer_keeps; [done| |eassumption];
         apply u64_get_range).
  - by eapply close_account_settles.
  - apply keeps_settles. by eapply transfer_fee_keeps.
  - apply evolves_settles. intros Hc. eapply confidential_transfer_evolves; [apply Hs|apply Hs|done..].
Qed.

Lemma process_inner_settles pid accounts input w w' :
  sound_runtime -> _process_inner pid accounts input w = Ok (tt, w') ->
  settles (fun m => - credit accounts input m) w w'.
Proof.
  intros Hs. pose proof (sound_resize Hs) as Hr. unfold _process_inner, credit.
  case_match eqn:Ht; [|change (fun m => - 0) with (fun m : Address => 0)..];
    [intros Hp; eapply settles_ext; [|by eapply process_pod_instruction_settles]; by destruct a|..];
    (destruct (tm_unpack input); [intros Hp; by eapply keeps_settles, token_metadata_keeps|]);
    (destruct (tg_unpack input); [intros Hp; by eapply keeps_settles, token_group_keeps|discriminate]).
Qed.

(** ** Executions *)

(** The accounts of the program that no instruction has written to yet. *)
Definition genesis (w : World) : Prop :=
  forall k, cell_owner (cell w k) = id -> zeroes (cell_data (cell w k)).

(** The instructions of the program's input: those of a batch, or itself. *)
Inductive instructions_of (accounts : list AccountInfo) (input : list byte)
    : list InnerInstruction -> Prop :=
  | one_instruction :
      decode_type input <> Ok PodTokenInstruction.Batch ->
      instructions_of accounts input [(accounts, input)]
  | batch_instructions ixs more :
      decode_type input = Ok PodTokenInstruction.Batch -> ixs <> [] -> Forall fits ixs ->
      drop 1 input = encode_batch ixs -> accounts = concat (fst <$> ixs) ++ more ->
      instructions_of accounts input ixs.

(** The instructions of an execution that succeeded, in their order. *)
Definition Trace : Type := list InnerInstruction.

(** What happens on chain: an input of the program that succeeds, or anything
    that other programs can do. *)
Inductive step (w : World) : Trace -> World -> Prop :=
  | step_process pid accounts input ixs w' :
      process pid accounts input w = Ok (tt, w') -> instructions_of accounts input ixs ->
      step w ixs w'
  | step_foreign w' : token_data_kept w w' -> step w [] w'.

Inductive execution (w0 : World) : Trace -> World -> Prop :=
  | execution_nil : execution w0 [] w0
  | execution_step tr w ixs w' :
      execution w0 tr w -> step w ixs w' -> execution w0 (tr ++ ixs) w'.

(** What the deposits of a trace took out of the plaintext balances of [m] and
    its withdrawals did not put back. *)
Definition net_deposits (m : Address) (tr : Trace) : Z :=
  sum_Z ((fun ix => credit ix.1 ix.2 m) <$> tr).

(** At no point was more of [m] withdrawn than was deposited. *)
Definition never_overdrawn (m : Address) (tr : Trace) : Prop :=
  forall pre post, tr = pre ++ post -> 0 <= net_deposits m pre.

(** Nothing of [m] is withdrawn. *)
Definition no_withdrawal (m : Address) (tr : Trace) : Prop :=
  Forall (fun ix => 0 <= credit ix.1 ix.2 m) tr.

Lemma net_deposits_app m tr tr' : net_deposits m (tr ++ tr') = net_deposits m tr + net_deposits m tr'.
Proof. unfold net_deposits. by rewrite fmap_app, sum_Z_app. Qed.

Lemma no_withdrawal_never_overdrawn m tr : no_withdrawal m tr -> never_overdrawn m tr.
Proof.
  intros Hn pre post ->. apply Forall_app in Hn as [Hn _]. unfold net_deposits.
  induction Hn as [|ix pre Hx _ IH]; [done|]. rewrite fmap_cons. unfold sum_Z in *. cbn [foldr]. lia.
Qed.

Lemma never_overdrawn_app m tr tr' : never_overdrawn m (tr ++ tr') -> never_overdrawn m tr.
Proof. intros Hn pre post ->. apply (Hn pre (post ++ tr')). by rewrite app_assoc. Qed.

(** The invariant after a trace. *)
Definition sound (tr : Trace) (w : World) : Prop :=
  cells_ok w /\ forall m, m <> native_mint.id ->
    unbacked m w <= - net_deposits m tr /\
    (never_overdrawn m tr -> unbacked m w = - net_deposits m tr).

Lemma genesis_sound w : genesis w -> sound [] w.
Proof.
  intros Hg. split; [intros k Ho; by apply data_fresh, fresh_zeroes, Hg|].
  intros m _. change (net_deposits m []) with 0. unfold unbacked.
  assert (forall k, holding m k (cell w k) = 0 /\ recorded_supply (cell w k) = 0) as Hz.
  { intros k. destruct (decide (cell_owner (cell w k) = id)) as [Ho|Hne].
    - split; [by apply holding_zeroed, Hg|by apply recorded_supply_zeroed, Hg].
    - unfold holding, recorded_supply. by rewrite bool_decide_false. }
  unfold supply_of. rewrite (proj2 (Hz m)).
  enough (circulation m w = 0) as -> by done. unfold circulation, world_sum.
  apply sum_Z_zero, Forall_fmap, Forall_forall. intros k _. apply Hz.
Qed.

Lemma settles_sound tr ixs w w' :
  settles (fun m => - net_deposits m ixs) w w' -> sound tr w -> sound (tr ++ ixs) w'.
Proof.
  intros Hs [Hc Hb]. destruct (Hs Hc) as (Hc' & Hu & _). split; [done|].
  intros m Hm. destruct (Hu m Hm) as [Hle Heq], (Hb m Hm) as [Hble Hbeq].
  rewrite net_deposits_app. split; [lia|]. intros Hn%never_overdrawn_app.
  pose proof (Hn tr [] (eq_sym (app_nil_r tr))). specialize (Hbeq Hn). lia.
Qed.

Lemma process_inner_sound pid ix tr w w' :
  sound_runtime -> _process_inner pid ix.1 ix.2 w = Ok (tt, w') -> sound tr w -> sound (tr ++ [ix]) w'.
Proof.
  intros Hs H. apply settles_sound. eapply settles_ext; [|by eapply process_inner_settles].
  intros m. unfold net_deposits, sum_Z. simpl. lia.
Qed.

Lemma run_sound pid ixs tr w w' :
  sound_runtime -> run pid ixs w = Ok (tt, w') -> sound tr w -> sound (tr ++ ixs) w'.
Proof.
  intros Hs. revert w tr. induction ixs as [|ix ixs IH]; intros w tr H Hw; cbn [run] in H; m_inv;
    [by rewrite app_nil_r|].
  match goal with H : _process_inner _ _ _ _ = Ok (?u, _) |- _ => destruct u end.
  change (tr ++ ix :: ixs) with (tr ++ [ix] ++ ixs). rewrite app_assoc.
  eapply IH; [done|]. by eapply process_inner_sound.
Qed.

Lemma process_instructions pid accounts input ixs w :
  instructions_of accounts input ixs -> process pid accounts input w = run pid ixs w.
Proof.
  unfold process. intros [Hb|ixs' more Ht Hne Hf -> ->].
  - assert (_process_inner pid accounts input w = run pid [(accounts, input)] w) as <-.
    { cbn [run fst snd]. unfold mbind, M_bind. by destruct (_process_inner _ _ _ _) as [[[] ?]| |]. }
    repeat case_match; congruence.
  - rewrite Ht. unfold process_batch. by apply process_batch_run; [..|lia].
Qed.

Lemma foreign_sound tr w w' : token_data_kept w w' -> sound tr w -> sound tr w'.
Proof.
  intros H Hw. rewrite <- (app_nil_r tr). eapply settles_sound; [|exact Hw].
  by apply keeps_settles, keeps_foreign.
Qed.

Lemma execution_sound w0 tr w : sound_runtime -> genesis w0 -> execution w0 tr w -> sound tr w.
Proof.
  intros Hs Hg He. induction He as [|tr w ixs w' _ IH Hst]; [by apply genesis_sound|].
  destruct Hst as [pid accounts input ixs w' H Hi|w' H].
  - rewrite (process_instructions _ _ _ ixs) in H by done. by eapply run_sound.
  - rewrite app_nil_r. by eapply foreign_sound.
Qed.

Lemma account_tokens_le_circulation w k a :
  token_account w k a -> account_tokens a <= circulation (mint (base a)) w.
Proof.
  intros [Ho Hu]. pose proof (holding_le_circulation (mint (base a)) k w) as Hle.
  unfold holding in Hle. by rewrite Ho, Hu, !bool_decide_true in Hle.
Qed.

(** C1: whatever inputs of the program succeed and whatever other programs do,
    from a state in which the program's accounts are zeroed: of every mint but
    the native one, the tokens in circulation (the balances and the withheld
    fees of its accounts, and the fees withheld on the mint, as plaintext) and
    what the execution's deposits to confidential balances took out of them and
    its withdrawals did not put back never exceed the recorded supply, which
    fits 64 bits; and they are exactly the supply when at no point more of the
    mint was withdrawn than deposited, as when nothing of it was withdrawn.  So no
    account holds more than the supply of its mint unless more of the mint was
    withdrawn than deposited, and only accounts of the native mint count as
    native.  The net deposits are a running total of the instructions' amounts:
    what is encrypted in the accounts, and that confidential mints and burns do not change the
    supply recorded here, is not part of it. *)
Theorem reachable_supply_is_circulation w0 tr w :
  sound_runtime -> genesis w0 -> execution w0 tr w ->
  (forall m, m <> native_mint.id ->
     circulation m w + net_deposits m tr <= supply_of m w /\ supply_of m w <= u64_max /\
     (never_overdrawn m tr \/ no_withdrawal m tr ->
      circulation m w + net_deposits m tr = supply_of m w)) /\
  (forall k a, token_account w k a -> mint (base a) <> native_mint.id ->
     0 <= net_deposits (mint (base a)) tr -> account_tokens a <= supply_of (mint (base a)) w) /\
  (forall k a, token_account w k a -> is_native (base a) = true -> mint (base a) = native_mint.id).
Proof.
  intros Hs Hg He. destruct (execution_sound _ _ _ Hs Hg He) as [Hc Hb]. unfold unbacked in Hb.
  split; [|split].
  - intros m Hm. destruct (Hb m Hm) as [Hle Heq]. split; [lia|]. split; [apply supply_of_max|].
    intros [Hn|Hn%no_withdrawal_never_overdrawn]; specialize (Heq Hn); lia.
  - intros k a Ha Hm Hn. destruct (Hb _ Hm) as [Hle _].
    pose proof (account_tokens_le_circulation _ _ _ Ha). lia.
  - intros k a Ha. by destruct (cells_ok_account _ _ _ Hc Ha).
Qed.

(** ** Kinds of accounts *)

(** A single instruction, of a batch or alone, or another program's step. *)
Inductive instruction_step (w w' : World) : Prop :=
  | instruction_inner pid ix : _process_inner pid ix.1 ix.2 w = Ok (tt, w') -> instruction_step w w'
  | instruction_foreign : token_data_kept w w' -> instruction_step w w'.

Lemma instruction_settles w w' :
  sound_runtime -> instruction_step w w' -> exists δ, settles δ w w'.
Proof.
  intros Hs [pid ix H|H]; eexists; [by eapply (process_inner_settles pid)|].
  by apply keeps_settles, keeps_foreign.
Qed.

(** An input of the program is a sequence of instructions. *)
Lemma run_instructions pid ixs w w' : run pid ixs w = Ok (tt, w') -> rtc instruction_step w w'.
Proof.
  revert w. induction ixs as [|ix ixs IH]; intros w H; cbn [run] in H; m_inv; [done|].
  match goal with H : _process_inner _ _ _ _ = Ok (?u, _) |- _ => destruct u end.
  eapply rtc_l; [by eapply instruction_inner|auto].
Qed.

(** The account at [k] is not closed in the steps. *)
Definition open_step (k : Address) (w w' : World) : Prop :=
  instruction_step w w' /\ ~ closed (cell w' k).

Lemma open_kind_kept k w w' :
  sound_runtime -> cells_ok w -> rtc (open_step k) w w' -> kind_kept (cell w k) (cell w' k).
Proof.
  intros Hs Hc Hr. induction Hr as [|w w1 w' [Hst Hk] _ IH]; [by apply kind_kept_same|].
  destruct (instruction_settles _ _ Hs Hst) as [δ Hset]. destruct (Hset Hc) as (Hc1 & _ & Hkind).
  destruct (Hkind k) as [H|H]; [|done]. eapply kind_kept_trans; [exact H|auto].
Qed.

(** C2: whatever instructions run, and whatever other programs do, a token
    account stays an account of the program that holds tokens of the same mint
    until it is closed, and a mint stays a mint with the same decimals. *)
Theorem kinds_stay_until_closed w0 tr w w' k :
  sound_runtime -> genesis w0 -> execution w0 tr w ->
  rtc (open_step k) w w' -> cell_owner (cell w k) = id ->
  cell_owner (cell w' k) = id /\
  (forall a, unpack_mut PodAccount (cell_data (cell w k)) = Ok a ->
     exists a', token_account w' k a' /\ mint (base a') = mint (base a)) /\
  (forall mt, unpack_mut PodMint (cell_data (cell w k)) = Ok mt ->
     exists mt', mint_account w' k mt' /\ decimals (base mt') = decimals (base mt)).
Proof.
  intros Hs Hg He Hk Ho. destruct (execution_sound _ _ _ Hs Hg He) as [Hc _].
  destruct (open_kind_kept k _ _ Hs Hc Hk Ho) as (Ho' & Ha & Hm). split; [done|]. split.
  - intros a (a' & Hu & E)%Ha. by exists a'.
  - intros mt (mt' & Hu & E)%Hm. by exists mt'.
Qed.

End backing.
