(* ===== verification/Examples.v ===== *)
(** * Concrete runs

    A runtime, a mint with a transfer fee, two of its token accounts and their
    authorities, all evaluated by [vm_compute]: the instructions the properties
    speak of succeed on them, and each property is applied to such a run. *)
From S2P Require Import Prelude Bytes Errors Ids Runtime Pod ExtensionState Extension TlvTheory.
From S2P Require Import ViewTheory AccountLen TransferFee MonadTheory Ownership Ledger Transfer TransferTheory Supply PodInstruction Authority AuthorityTheory Initialize InitializeTheory Lifecycle LifecycleTheory Settings Fees FeesTheory Clean.
From S2P Require Import State StateTheory.

(** ** The runtime *)

Definition example_rent : Rent :=
  mk_rent (fun len => Z.of_nat len * 10) (fun lamports len => Z.of_nat len * 10 <=? lamports).

Definition addr (n : Z) : Address := bytes_of_list 32 [u8_of_Z n; x07].

(** Epoch 5, at transaction level; the hook leaves the store as it is. *)
#[export] Instance example_runtime : Runtime := {|
  rt_clock := Ok (mk_clock 5 1000);
  rt_rent := Ok example_rent;
  rt_rent_from_account_info _ _ := Ok example_rent;
  rt_stack_height := 1;
  rt_transaction_level_stack_height := 1;
  rt_processed_sibling := None;
  rt_system_program_id := zeroed 32;
  rt_incinerator_id := addr 200;
  rt_rent_id := addr 204;
  rt_memo_v1_id := addr 201;
  rt_memo_v3_id := addr 202;
  rt_memo_v4_id := addr 203;
  rt_resize d n := Ok (resize n x00 d);
  rt_invoke_execute _ _ _ _ _ _ _ w := Ok w;
  rt_system_transfer _ _ _ w := Ok w;
  rt_system_allocate a n w :=
    if bool_decide (cell_owner (cell w a) = zeroed 32) && bool_decide (cell_data (cell w a) = [])
    then Ok (set_cell a (with_data (replicate (Z.to_nat n) x00) (cell w a)) w)
    else Err (ProgramError.Custom 0);
  rt_system_assign a o w :=
    if bool_decide (cell_owner (cell w a) = zeroed 32) &&
       bool_decide (Forall (fun b => b = x00) (cell_data (cell w a)))
    then Ok (set_cell a (with_owner o (cell w a)) w)
    else Err (ProgramError.Custom 0)
|}.

Lemma example_resize_empties : resize_empties.
Proof. intros d d' [= <-]. apply resize_0. Qed.

Lemma example_hook_keeps_tokens : hook_keeps_tokens.
Proof. intros p s m d a l n w w' [= <-] k. split; [done|]. by intros ? ?. Qed.

(** ** The accounts *)

Definition mint_key : Address := addr 1.
Definition alice : Address := addr 2.
Definition bob : Address := addr 3.
Definition alice_owner : Address := addr 4.
Definition alice_delegate : Address := addr 5.
Definition mint_owner : Address := addr 6.

Definition some_addr (a : Address) : PodCOption Address := PodCOption.some a.
Definition no_u64 : PodCOption U64 := PodCOption.none (u64_new 0).

Definition example_fee (epoch : Z) : TransferFee := mk_tf (u64_new epoch) (u64_new 50) (u16_new 1000).

Definition example_mint (withheld : Z) : PodStateMut PodMint :=
  mk_state_mut (mk_mint (some_addr mint_owner) (u64_new 1000) x06 x01 (some_addr mint_owner))
    (replicate 83 x00) [x01]
    (tlv_encode [(1, to_bytes (mk_tfc mint_owner mint_owner (u64_new withheld) (example_fee 0)
                                 (example_fee 0)))]).

Definition example_account (owner : Address) (amount withheld : Z) : PodStateMut PodAccount :=
  mk_state_mut (mk_account mint_key owner (u64_new amount) (some_addr alice_delegate) x01 no_u64
                  (u64_new 100) coption_none)
    [] [x02] (tlv_encode [(2, to_bytes (mk_tfa (u64_new withheld)))]).

Definition example_cell (data : list byte) : Cell := mk_cell 100000 data id.

Definition example_world : World :=
  mk_world (list_to_map
    [(mint_key, example_cell (repack (example_mint 5)));
     (alice, example_cell (repack (example_account alice_owner 890 5)));
     (bob, example_cell (repack (example_account mint_owner 90 10)))]) [].

Definition new_mint : Address := addr 20.
Definition new_account_key : Address := addr 21.
Definition new_multisig : Address := addr 22.
Definition wrapped : Address := addr 23.
Definition empty_account : Address := addr 24.

Definition bare_account (mint : Address) (amount : Z) (reserve : PodCOption U64) : PodStateMut PodAccount :=
  mk_state_mut (mk_account mint alice_owner (u64_new amount) coption_none x01 reserve
                  (u64_new 0) coption_none) [] [] [].

(** Uninitialised accounts, a native account and an empty one. *)
Definition example_world_2 : World :=
  mk_world (list_to_map
    [(mint_key, example_cell (repack (example_mint 5)));
     (new_mint, example_cell (replicate 82 x00));
     (new_account_key, example_cell (replicate 178 x00));
     (new_multisig, example_cell (replicate 355 x00));
     (wrapped, example_cell (repack (bare_account native_mint.id 5000 (PodCOption.some (u64_new 1650)))));
     (empty_account, example_cell (repack (bare_account mint_key 0 no_u64)))]) [].

Definition info (k : Address) : AccountInfo := mk_info k false true.
Definition signed (k : Address) : AccountInfo := mk_info k true true.

(** The store after a run. *)
Definition after {A} (m : M A) (w : World) : World :=
  match m w with Ok (_, w') => w' | _ => w end.

Lemma run_after (m : M unit) w : is_ok (m w) = true -> m w = Ok (tt, after m w).
Proof. unfold after. by destruct (m w) as [[[] w']| |]. Qed.

Ltac runs := apply run_after; vm_compute; reflexivity.

(** Keep the last fact of a conjunction. *)
Ltac last_fact H := repeat match type of H with _ /\ _ => destruct H as [_ H] end.

(** ** Transfers *)

Definition example_transfer : M unit :=
  process_transfer id [info alice; info mint_key; info bob; signed alice_owner] 200
    (TransferInstruction.CheckedWithFee x06 20).

Lemma process_transfer_moves_witness :
  exists fee st dt st' dt',
    both alice bob st dt example_world /\ both alice bob st' dt' (after example_transfer example_world) /\
    moved 200 fee st dt st' dt'.
Proof.
  destruct (process_transfer_moves id [info alice; info mint_key; info bob; signed alice_owner] 200
    (TransferInstruction.CheckedWithFee x06 20) example_world
    (after example_transfer example_world)) as
    (src & mo & dst & auth & signers & st & Hl & Hs & H).
  - exact example_hook_keeps_tokens.
  - vm_compute; split; discriminate.
  - runs.
  - destruct mo as [[mi d]|]; [|destruct Hl]. destruct Hl as [_ Hl]. injection Hl as <- <- <- <- <-.
    rewrite decide_False in H by (vm_compute; discriminate).
    destruct H as (fee & pd & hook & dt & st' & dt' & _ & Hb & Hb' & Hm & _).
    exists fee, st, dt, st', dt'. exact (conj Hb (conj Hb' Hm)).
Defined.

Lemma process_transfer_conserves_witness :
  circulation mint_key (after example_transfer example_world) = circulation mint_key example_world /\
  supply_of mint_key (after example_transfer example_world) = supply_of mint_key example_world.
Proof.
  apply (process_transfer_conserves id [info alice; info mint_key; info bob; signed alice_owner] 200
    (TransferInstruction.CheckedWithFee x06 20)).
  - exact example_hook_keeps_tokens.
  - vm_compute; split; discriminate.
  - runs.
Defined.

Example example_circulation :
  (circulation mint_key example_world, supply_of mint_key example_world) = (1000, 1000).
Proof. vm_compute. reflexivity. Qed.

(** Alice's delegate transfers, without naming the mint's fee. *)
Lemma process_transfer_authorized_witness :
  exists src mo dst auth signers st,
    transfer_layout (TransferInstruction.Checked x06)
      [info alice; info mint_key; info bob; signed alice_delegate] src mo dst auth signers /\
    unpack_mut PodAccount (cell_data (cell example_world (key src))) = Ok st /\
    has_extension NonTransferableAccount st = false.
Proof.
  destruct (process_transfer_authorized id
    [info alice; info mint_key; info bob; signed alice_delegate] 60
    (TransferInstruction.Checked x06) example_world
    (after (process_transfer id [info alice; info mint_key; info bob; signed alice_delegate] 60
              (TransferInstruction.Checked x06)) example_world)) as
    (src & mo & dst & auth & signers & st & fee & pd & hook & Hl & Hs & _ & _ & _ & _ & _ & Hn).
  - runs.
  - by exists src, mo, dst, auth, signers, st.
Defined.

(** ** Minting and burning *)

Definition example_mint_to : M unit :=
  process_mint_to id [info mint_key; info bob; signed mint_owner] 77 InstructionVariant.Unchecked.

Lemma process_mint_to_spec_witness :
  let w' := after example_mint_to example_world in
  circulation mint_key w' = circulation mint_key example_world + 77 /\
  supply_of mint_key w' = supply_of mint_key example_world + 77.
Proof.
  destruct (process_mint_to_spec id [info mint_key; info bob; signed mint_owner] 77
    InstructionVariant.Unchecked example_world (after example_mint_to example_world)) as
    (mi & di & auth & signers & mt & dt & mt' & dt' & ma & Ha & H).
  - vm_compute; split; discriminate.
  - runs.
  - injection Ha as <- <- <- <-.
    last_fact H. exact (H mint_key).
Defined.

Definition example_burn : M unit :=
  process_burn id [info alice; info mint_key; signed alice_delegate] 40
    BurnInstructionVariant.Standard (InstructionVariant.Checked x06).

Lemma process_burn_spec_witness :
  let w' := after example_burn example_world in
  circulation mint_key w' = circulation mint_key example_world - 40 /\
  supply_of mint_key w' = supply_of mint_key example_world - 40.
Proof.
  destruct (process_burn_spec id [info alice; info mint_key; signed alice_delegate] 40
    BurnInstructionVariant.Standard (InstructionVariant.Checked x06) example_world
    (after example_burn example_world)) as
    (src & mi & ap & auth & signers & mt & st & mt' & st' & Ha & H).
  - vm_compute; split; discriminate.
  - runs.
  - destruct ap; [destruct Ha|]. injection Ha as <- <- <- <-.
    last_fact H. exact (H mint_key).
Defined.

(** ** Authorities *)

Lemma process_set_authority_mint_witness :
  exists auth signers a mt',
    [signed mint_owner] = auth :: signers /\
    mint_authority_of (example_mint 5) AuthorityType.WithheldWithdraw = Some a /\
    mint_authority_of mt' AuthorityType.WithheldWithdraw = Some bob.
Proof.
  destruct (process_set_authority_mint id (info mint_key) [signed mint_owner]
    AuthorityType.WithheldWithdraw (some_addr bob) (example_mint 5) example_world
    (after (process_set_authority id [info mint_key; signed mint_owner]
              AuthorityType.WithheldWithdraw (some_addr bob)) example_world)) as
    (auth & signers & a & mt' & Ha & Hm & _ & _ & Hn & _).
  - runs.
  - vm_compute. reflexivity.
  - exists auth, signers, a, mt'. split; [exact Ha|]. split; [exact Hm|exact Hn].
Defined.

Lemma process_set_authority_account_witness :
  exists st',
    unpack_mut PodAccount (cell_data (cell (after (process_set_authority id
      [info alice; signed alice_owner] AuthorityType.AccountOwner (some_addr bob)) example_world)
      alice)) = Ok st' /\ Some bob = Some (owner (base st')).
Proof.
  destruct (process_set_authority_account id (info alice) [signed alice_owner]
    AuthorityType.AccountOwner (some_addr bob) (example_account alice_owner 890 5) example_world
    (after (process_set_authority id [info alice; signed alice_owner]
              AuthorityType.AccountOwner (some_addr bob)) example_world)) as
    (auth & signers & a & st' & _ & _ & _ & _ & Hu & _ & _ & _ & Ho & _).
  - runs.
  - vm_compute. reflexivity.
  - exists st'. split; [exact Hu|exact (proj1 Ho)].
Defined.

Lemma process_toggle_freeze_account_spec_witness :
  exists st',
    unpack_mut PodAccount (cell_data (cell (after (process_toggle_freeze_account id
      [info alice; info mint_key; signed mint_owner] true) example_world) alice)) = Ok st' /\
    is_frozen (base st') = true.
Proof.
  destruct (process_toggle_freeze_account_spec id [info alice; info mint_key; signed mint_owner]
    true example_world (after (process_toggle_freeze_account id
      [info alice; info mint_key; signed mint_owner] true) example_world)) as
    (src & mi & auth & signers & st & mt & a & Ha & _ & _ & _ & _ & _ & _ & _ & _ & st' & Hu & Hf & _).
  - runs.
  - injection Ha as <- <- <- <-. exists st'. split; [exact Hu|exact Hf].
Defined.

Lemma process_approve_spec_witness :
  total_lamports (after (process_approve id [info alice; info mint_key; info bob; signed alice_owner]
    300 (InstructionVariant.Checked x06)) example_world) = total_lamports example_world.
Proof.
  destruct (process_approve_spec id [info alice; info mint_key; info bob; signed alice_owner]
    300 (InstructionVariant.Checked x06) example_world
    (after (process_approve id [info alice; info mint_key; info bob; signed alice_owner]
       300 (InstructionVariant.Checked x06)) example_world)) as
    (src & dele & auth & signers & st & _ & _ & _ & _ & _ & _ & _ & _ & _ & Ht & _).
  - runs.
  - exact Ht.
Defined.

Lemma process_revoke_spec_witness :
  total_lamports (after (process_revoke id [info alice; signed alice_delegate]) example_world) =
  total_lamports example_world.
Proof.
  destruct (process_revoke_spec id [info alice; signed alice_delegate] example_world
    (after (process_revoke id [info alice; signed alice_delegate]) example_world)) as
    (src & auth & signers & st & _ & _ & _ & _ & _ & _ & _ & _ & Ht & _).
  - runs.
  - exact Ht.
Defined.

(** ** Withheld fees *)

Definition example_harvest : M unit :=
  transfer_fee.process_harvest_withheld_tokens_to_mint [info mint_key; info bob; info alice_owner; info alice].

Lemma process_harvest_conserves_witness :
  circulation mint_key (after example_harvest example_world) = circulation mint_key example_world.
Proof.
  destruct (process_harvest_conserves [info mint_key; info bob; info alice_owner; info alice]
    example_world (after example_harvest example_world)) as
    (mi & infos & mt & mt' & _ & _ & _ & _ & _ & _ & _ & Hsum).
  - runs.
  - exact (proj1 (Hsum mint_key)).
Defined.

Definition example_withdraw_from_mint : M unit :=
  transfer_fee.process_withdraw_withheld_tokens_from_mint id
    [info mint_key; info bob; signed mint_owner].

Lemma process_withdraw_from_mint_conserves_witness :
  circulation mint_key (after example_withdraw_from_mint example_world) =
  circulation mint_key example_world.
Proof.
  destruct (process_withdraw_from_mint_conserves id [info mint_key; info bob; signed mint_owner]
    example_world (after example_withdraw_from_mint example_world)) as
    (mi & di & auth & signers & mt & mt' & dt & dt' & e & authority & H).
  - runs.
  - cbv zeta in H. last_fact H. exact (proj1 (H mint_key)).
Defined.

Definition example_withdraw_from_accounts : M unit :=
  transfer_fee.process_withdraw_withheld_tokens_from_accounts id
    [info mint_key; info bob; signed mint_owner; info alice; info bob] x02.

Lemma process_withdraw_from_accounts_conserves_witness :
  circulation mint_key (after example_withdraw_from_accounts example_world) =
  circulation mint_key example_world.
Proof.
  destruct (process_withdraw_from_accounts_conserves id
    [info mint_key; info bob; signed mint_owner; info alice; info bob] x02
    example_world (after example_withdraw_from_accounts example_world)) as
    (mi & di & auth & infos & mt & dt & dt' & e & authority & n & H).
  - runs.
  - cbv zeta in H. last_fact H. exact (proj1 (H mint_key)).
Defined.

(** ** Initialising *)

Lemma process_initialize_mint_spec_witness :
  exists st',
    unpack_mut PodMint (cell_data (cell (after
      (process_initialize_mint2 [info new_mint] x09 mint_owner (some_addr bob)) example_world_2)
      new_mint)) = Ok st' /\
    mint_authority (base st') = some_addr mint_owner /\ decimals (base st') = x09.
Proof.
  destruct (process_initialize_mint_spec [info new_mint] x09 mint_owner (some_addr bob) false
    example_world_2 (after
      (process_initialize_mint2 [info new_mint] x09 mint_owner (some_addr bob)) example_world_2)) as
    (mi & rest & st & st' & i & Ha & Hst & _ & _ & _ & _ & Hu & Hb & _).
  - runs.
  - injection Ha as <- <-. exists st'. split; [exact Hu|]. by rewrite Hb.
Defined.

Lemma process_initialize_account_spec_witness :
  exists st',
    unpack_mut PodAccount (cell_data (cell (after
      (process_initialize_account3 [info new_account_key; info mint_key] bob) example_world_2)
      new_account_key)) = Ok st' /\ owner (base st') = bob.
Proof.
  destruct (process_initialize_account_spec [info new_account_key; info mint_key] (Some bob) false
    example_world_2 (after
      (process_initialize_account3 [info new_account_key; info mint_key] bob) example_world_2)) as
    (ai & mi & rest & st & mt & st' & o & state & am & re & rent & needed & Ha & Ho & _ & Hm & Hst &
     _ & _ & _ & _ & Hb & Hu & _).
  - runs.
  - injection Ha as <- <- <-. exists st'. split; [|by rewrite Hb, Ho].
    apply Hu. intros ->. revert Hst.
    change (cell_data (cell example_world_2 (key (info mint_key)))) with (repack (example_mint 5)) in Hm.
    assert (mt = mk_state (base (example_mint 5)) (tlv_data (example_mint 5))) as ->.
    { assert (unpack PodMint (repack (example_mint 5)) =
        Ok (mk_state (base (example_mint 5)) (tlv_data (example_mint 5)))) as E
        by (vm_compute; reflexivity). congruence. }
    vm_compute. discriminate.
Defined.

Lemma process_initialize_multisig_spec_witness :
  exists ms',
    cell_data (cell (after (process_initialize_multisig2
      [info new_multisig; info alice; info bob; info mint_owner] x02) example_world_2)
      new_multisig) = to_bytes ms' /\
    multisig_m ms' = x02 /\ take 3 (signers ms') = [alice; bob; mint_owner].
Proof.
  destruct (process_initialize_multisig_spec [info new_multisig; info alice; info bob; info mint_owner]
    x02 false example_world_2 (after (process_initialize_multisig2
      [info new_multisig; info alice; info bob; info mint_owner] x02) example_world_2)) as
    (mi & rest & infos & ms & ms' & Ha & Hi & _ & _ & Hd & _ & Hm & _ & _ & _ & Ht & _).
  - runs.
  - injection Ha as <- <-. subst infos. exists ms'. split; [exact Hd|]. split; [exact Hm|exact Ht].
Defined.

(** ** Closing, syncing and unwrapping *)

Definition example_close : M unit :=
  process_close_account id [info empty_account; info alice_owner; signed alice_owner].

Lemma process_close_account_spec_witness :
  cell (after example_close example_world_2) empty_account = mk_cell 0 [] rt_system_program_id /\
  total_lamports (after example_close example_world_2) = total_lamports example_world_2.
Proof.
  destruct (process_close_account_spec id [info empty_account; info alice_owner; signed alice_owner]
    example_world_2 (after example_close example_world_2)) as
    (src & dst & auth & signers & Ha & _ & _ & _ & Hc & _ & _ & Ht & _).
  - exact example_resize_empties.
  - vm_compute. discriminate.
  - runs.
  - injection Ha as <- <- <- <-. split; [exact Hc|exact Ht].
Defined.

Lemma process_sync_native_spec_witness :
  exists st', unpack_mut PodAccount (cell_data (cell
      (after (process_sync_native [info wrapped]) example_world_2) wrapped)) = Ok st' /\
    total_lamports (after (process_sync_native [info wrapped]) example_world_2) =
    total_lamports example_world_2.
Proof.
  destruct (process_sync_native_spec [info wrapped] example_world_2
    (after (process_sync_native [info wrapped]) example_world_2)) as
    (i & rest & st & st' & rent & Ha & _ & _ & _ & Hu & H).
  - runs.
  - injection Ha as <- <-. exists st'. split; [exact Hu|]. cbv zeta in H. last_fact H. exact H.
Defined.

Definition example_unwrap : M unit :=
  process_unwrap_lamports id [info wrapped; info bob; signed alice_owner] (PodCOption.some 3000).

Lemma process_unwrap_lamports_spec_witness :
  total_lamports (after example_unwrap example_world_2) = total_lamports example_world_2.
Proof.
  destruct (process_unwrap_lamports_spec id [info wrapped; info bob; signed alice_owner]
    (PodCOption.some 3000) example_world_2 (after example_unwrap example_world_2)) as
    (src & dst & auth & signers & st & st' & a & _ & _ & _ & _ & _ & _ & _ & _ & _ & _ & Ht & _).
  - vm_compute; split; discriminate.
  - runs.
  - exact Ht.
Defined.

(** ** Extensions *)

Definition example_config : TransferFeeConfig :=
  mk_tfc mint_owner mint_owner (u64_new 5) (example_fee 0) (example_fee 0).

Lemma extension_write_spec_witness :
  exists put : TransferFeeConfig -> PodStateMut PodMint,
    get_extension_mut TransferFeeConfig (example_mint 5) = Ok (example_config, put) /\
    get_extension TransferFeeConfig (put (pod_default TransferFeeConfig)) =
      Ok (pod_default TransferFeeConfig).
Proof.
  destruct (get_extension_mut TransferFeeConfig (example_mint 5)) as [[v put]| |] eqn:E.
  - exists put.
    destruct (extension_write_spec TransferFeeConfig PermanentDelegate (example_mint 5) v put
      (pod_default TransferFeeConfig) E) as (Hv & _ & Hp & _).
    split; [|exact Hp].
    assert (get_extension TransferFeeConfig (example_mint 5) = Ok example_config) as E'
      by (vm_compute; reflexivity).
    assert (v = example_config) as -> by congruence. reflexivity.
  - exfalso. revert E. vm_compute. discriminate.
  - exfalso. revert E. vm_compute. discriminate.
Defined.

(** A mint with an extension and room for another. *)
Definition roomy_mint : PodStateMut PodMint :=
  mk_state_mut (mk_mint (some_addr mint_owner) (u64_new 0) x06 x00 coption_none)
    (replicate 83 x00) [x00]
    (tlv_encode [(12, to_bytes (mk_pd alice))] ++ replicate 36 x00).

Lemma extension_init_spec_witness :
  exists put : MintCloseAuthority -> PodStateMut PodMint,
    init_extension MintCloseAuthority true roomy_mint = Ok (pod_default MintCloseAuthority, put) /\
    get_extension PermanentDelegate (put (mk_mca bob)) = Ok (mk_pd alice).
Proof.
  destruct (init_extension MintCloseAuthority true roomy_mint) as [[v put]| |] eqn:E.
  - exists put.
    destruct (extension_init_spec MintCloseAuthority PermanentDelegate true roomy_mint v put
      (mk_mca bob) (mk_pd alice) E) as (Hv & _ & Hp & _).
    + vm_compute. discriminate.
    + vm_compute. reflexivity.
    + split; [by rewrite Hv|exact Hp].
  - exfalso. revert E. vm_compute. discriminate.
  - exfalso. revert E. vm_compute. discriminate.
Defined.

(** ** Packed states *)

(** The provided methods of [Pack], written from their laws. *)
Definition example_unpack_unchecked S (P : Pack S) (input : list byte) : Result ProgramError S :=
  if (length input =? LEN S)%nat then unpack_from_slice input
  else Err ProgramError.InvalidAccountData.

#[export] Instance example_pack_methods : PackMethods.
Proof.
  refine (mk_pack_methods
    (fun S P input =>
       v ← example_unpack_unchecked S P input;
       if packed_is_initialized v then mret v else Err ProgramError.UninitializedAccount)
    example_unpack_unchecked
    (fun S P v dst =>
       if (length dst =? LEN S)%nat then pack_into_slice v dst
       else Err ProgramError.InvalidAccountData) _ _ _); reflexivity.
Defined.

Definition packed_alice : StateWithExtensions Account.Account :=
  mk_swe (Account.mk mint_key alice_owner 500 (Some alice_delegate) AccountState.Initialized None 100
            None)
    (tlv_encode [(2, to_bytes (mk_tfa (u64_new 0)))]).

Lemma state_with_extensions_agree_witness :
  swe_unpack Account.Account PodAccount (repack (example_account alice_owner 500 0)) =
    Ok packed_alice.
Proof.
  apply (proj1 (state_with_extensions_agree (repack (example_account alice_owner 500 0))) packed_alice).
  vm_compute. eexists _, _. split; [reflexivity|]. split; reflexivity.
Defined.

(** ** Walks over entries *)

(** Two entries and four unused bytes. *)
Definition example_entries : list byte :=
  tlv_encode [(3, replicate 32 x07); (8, [])] ++ replicate 4 x00.

Lemma tlv_walks_terminate_witness :
  get_extension_indices_from 12 ExtensionType.MemoTransfer example_entries false 0 =
    get_extension_indices ExtensionType.MemoTransfer example_entries false /\
  (exists types used, try_for_each_tlv_extension_type example_entries
     (fun t ts => Ok (ts ++ [t])) [] = Ok (types, used) /\ (used <= 44)%nat).
Proof.
  destruct (tlv_walks_terminate example_entries ExtensionType.MemoTransfer false
    (fun t ts => Ok (ts ++ [t])) [] 12) as (H1 & _ & _ & _ & _ & H6).
  - vm_compute. lia.
  - discriminate.
  - split; [exact H1|]. eexists _, _. split; [vm_compute; reflexivity|].
    eapply H6. vm_compute. reflexivity.
Defined.
