(* ===== verification/ConfidentialExamples.v ===== *)
(** * A concrete curve and proof program

    The integers modulo 2^256 as a group of points, with the laws of the
    syscalls, a proof program whose contexts are their fields in order, so that
    the confidential instructions can be run, and a cluster that keeps what
    clients send. *)
From S2P Require Import Prelude Bytes Errors Ids Runtime Pod ExtensionState CiphertextArithmetic.
From S2P Require Import CiphertextTheory ProofExtraction Instruction Onchain TokenClient.

(** ** The curve *)

Definition point_plus (x y : Bytes 32) : Bytes 32 := le_write 32 (le_read x + le_read y).
Definition point_opp (x : Bytes 32) : Bytes 32 := le_write 32 (- le_read x).
Definition point_scale (a : Z) (x : Bytes 32) : Bytes 32 := le_write 32 (a * le_read x).

Definition modulus : Z := 256 ^ Z.of_nat 32.

Lemma le_write_mod n z z' :
  z mod 256 ^ Z.of_nat n = z' mod 256 ^ Z.of_nat n -> le_write n z = le_write n z'.
Proof.
  intros E. rewrite <- (le_write_read (le_write n z)), <- (le_write_read (le_write n z')).
  by rewrite !le_read_write, E.
Qed.

Lemma le_read_zeroed : le_read (zeroed 32) = 0.
Proof. by vm_compute. Qed.

#[export] Instance example_points : PointGroup (Bytes 32).
Proof.
  refine (mk_point_group _ (zeroed 32) point_plus point_opp point_scale _ _ _ _ _ _ _ _);
    unfold point_plus, point_opp, point_scale; intros.
  - apply le_write_mod. by rewrite !le_read_write, Zplus_mod_idemp_l, Zplus_mod_idemp_r, Z.add_assoc.
  - by rewrite Z.add_comm.
  - by rewrite le_read_zeroed, Z.add_0_l, le_write_read.
  - rewrite <- (le_write_read (zeroed 32)). apply le_write_mod.
    by rewrite !le_read_write, Zplus_mod_idemp_l, Z.add_opp_diag_l, le_read_zeroed.
  - by rewrite Z.mul_1_l, le_write_read.
  - apply le_write_mod. by rewrite !le_read_write, <- Zplus_mod, Z.mul_add_distr_r.
  - apply le_write_mod.
    by rewrite !le_read_write, <- Zplus_mod, Zmult_mod_idemp_r, Z.mul_add_distr_l.
  - apply le_write_mod. by rewrite !le_read_write, Zmult_mod_idemp_r, Z.mul_assoc.
Defined.

#[export] Instance example_curve : CurveInterface := {|
  add_ristretto p q := Some (pplus p q);
  subtract_ristretto p q := Some (pplus p (popp q));
  multiply_ristretto s p := Some (pscale (le_read s) p)
|}.

#[export] Instance example_curve_laws : CurveLaws (Bytes 32).
Proof.
  refine (mk_curve_laws (Bytes 32) _ _ (fun x => x) Some _ _ _ _ _ _
    ciphertext_arithmetic.G ciphertext_arithmetic.H _ _); try done.
  by intros p x [= ->].
Defined.

(** ** The proof program *)

(** A commitment and the handles of two or three keys. *)
Definition Grouped (n : nat) : Type := (Bytes 32 * Bytes (32 * n))%type.

Definition grouped_ciphertext {n} (c : Grouped n) (i : nat) : option PodElGamalCiphertext :=
  if (i <? n)%nat
  then Some (ciphertext_arithmetic.ristretto_to_elgamal_ciphertext c.1
               (bytes_of_list 32 (slice (bytes_list c.2) (32 * i) (32 * i + 32))))
  else None.

Definition proof_type_byte (t : ProofType) : byte :=
  u8_of_Z match t with
  | ProofType.Uninitialized => 0
  | ProofType.ZeroCiphertext => 1
  | ProofType.CiphertextCiphertextEquality => 2
  | ProofType.CiphertextCommitmentEquality => 3
  | ProofType.PubkeyValidity => 4
  | ProofType.PercentageWithCap => 5
  | ProofType.BatchedRangeProofU64 => 6
  | ProofType.BatchedRangeProofU128 => 7
  | ProofType.BatchedRangeProofU256 => 8
  | ProofType.GroupedCiphertext2HandlesValidity => 9
  | ProofType.BatchedGroupedCiphertext2HandlesValidity => 10
  | ProofType.GroupedCiphertext3HandlesValidity => 11
  | ProofType.BatchedGroupedCiphertext3HandlesValidity => 12
  end.

Definition proof_instructions : list ProofInstruction :=
  [ProofInstruction.CloseContextState; ProofInstruction.VerifyZeroCiphertext;
   ProofInstruction.VerifyCiphertextCiphertextEquality;
   ProofInstruction.VerifyCiphertextCommitmentEquality; ProofInstruction.VerifyPubkeyValidity;
   ProofInstruction.VerifyPercentageWithCap; ProofInstruction.VerifyBatchedRangeProofU64;
   ProofInstruction.VerifyBatchedRangeProofU128; ProofInstruction.VerifyBatchedRangeProofU256;
   ProofInstruction.VerifyGroupedCiphertext2HandlesValidity;
   ProofInstruction.VerifyBatchedGroupedCiphertext2HandlesValidity;
   ProofInstruction.VerifyGroupedCiphertext3HandlesValidity;
   ProofInstruction.VerifyBatchedGroupedCiphertext3HandlesValidity].

(** The instruction at an offset, in a list of instructions' data, each after its
    length in two bytes. *)
Fixpoint listed (fuel : nat) (offset : Z) (d : list byte) : option (list byte) :=
  match fuel, d with
  | S fuel, l0 :: l1 :: d =>
      let n := Z.to_nat (from_le_bytes [l0; l1]) in
      if offset =? 1 then Some (take n d) else listed fuel (offset - 1) (drop n d)
  | _, _ => None
  end.

(** The proof program, and the instructions sysvar, which lists instructions of it. *)
Definition proof_program : Address := bytes_of_list 32 [x7b].
Definition sysvar_id : Address := bytes_of_list 32 [x06; xa7].

#[export] Instance example_zk : ZkInterface := {|
  zk_id := proof_program;
  zk_proof_type_into := proof_type_byte;
  zk_instruction_type d := b ← head d; proof_instructions !! Z.to_nat (u8_to_Z b);
  zk_get_instruction_relative offset k d :=
    if bool_decide (k = sysvar_id)
    then match listed (length d) offset d with
         | Some ix => Ok (proof_program, ix)
         | None => Err ProgramError.InvalidArgument
         end
    else Err ProgramError.IncorrectProgramId;
  PodGroupedElGamalCiphertext2Handles := Grouped 2;
  g2_try_extract_ciphertext := grouped_ciphertext;
  g2_extract_commitment := fst;
  PodGroupedElGamalCiphertext3Handles := Grouped 3;
  g3_try_extract_ciphertext := grouped_ciphertext;
  g3_extract_commitment := fst
|}.

(** A context is stored as the byte of its type and its fields; a verifying
    instruction has it after its own byte. *)
Definition stored_context (U : Type) `{Pod U} : ZkContext U := {|
  zk_context_state d := match d with b :: d => u ← try_from_bytes d; mret (b, u) | [] => None end;
  zk_proof_data _ d := match d with _ :: d => try_from_bytes d | [] => None end
|}.

#[export] Instance PubkeyValidity_pod : Pod PubkeyValidityProofContext.
Proof. refine (pod_iso pv_pubkey mk_pubkey_validity _ _); solve_pod_iso. Defined.

#[export] Instance ZeroCiphertext_pod : Pod ZeroCiphertextProofContext.
Proof.
  refine (pod_iso (fun x => (zc_pubkey x, zc_ciphertext x)) (fun '(a, b) => mk_zero_ciphertext a b) _ _);
    solve_pod_iso.
Defined.

#[export] Instance CiphertextEquality_pod : Pod CiphertextCiphertextEqualityProofContext.
Proof.
  refine (pod_iso (fun x => (cce_first_pubkey x, (cce_second_pubkey x, (cce_first_ciphertext x,
    cce_second_ciphertext x)))) (fun '(a, (b, (c, d))) => mk_ciphertext_equality a b c d) _ _);
    solve_pod_iso.
Defined.

#[export] Instance CommitmentEquality_pod : Pod CiphertextCommitmentEqualityProofContext.
Proof.
  refine (pod_iso (fun x => (eq_pubkey x, (eq_ciphertext x, eq_commitment x)))
    (fun '(a, (b, c)) => mk_commitment_equality a b c) _ _); solve_pod_iso.
Defined.

#[export] Instance PercentageWithCap_pod : Pod PercentageWithCapProofContext.
Proof.
  refine (pod_iso (fun x => (pwc_percentage_commitment x, (pwc_delta_commitment x,
    (pwc_claimed_commitment x, pwc_max_value x))))
    (fun '(a, (b, (c, d))) => mk_percentage_with_cap a b c d) _ _); solve_pod_iso.
Defined.

#[export] Instance Grouped2_pod : Pod BatchedGroupedCiphertext2HandlesValidityProofContext.
Proof.
  refine (pod_iso (B := Bytes 32 * (Bytes 32 * (Grouped 2 * Grouped 2)))
    (fun x => (g2_first_pubkey x, (g2_second_pubkey x, (g2_grouped_ciphertext_lo x,
      g2_grouped_ciphertext_hi x)))) (fun '(a, (b, (c, d))) => mk_grouped_2 a b c d) _ _);
    solve_pod_iso.
Defined.

#[export] Instance Grouped3_pod : Pod BatchedGroupedCiphertext3HandlesValidityProofContext.
Proof.
  refine (pod_iso (B := Bytes 32 * (Bytes 32 * (Bytes 32 * (Grouped 3 * Grouped 3))))
    (fun x => (g3_first_pubkey x, (g3_second_pubkey x, (g3_third_pubkey x,
      (g3_grouped_ciphertext_lo x, g3_grouped_ciphertext_hi x)))))
    (fun '(a, (b, (c, (d, e)))) => mk_grouped_3 a b c d e) _ _); solve_pod_iso.
Defined.

(** Eight commitments and eight bit lengths. *)
Definition parse_range (d : list byte) : option BatchedRangeProofContext :=
  if (length d =? 264)%nat
  then Some (mk_batched_range
    ((fun i => bytes_of_list 32 (slice d (32 * i) (32 * i + 32))) <$> seq 0 8) (drop 256 d))
  else None.

Definition stored_range : ZkContext BatchedRangeProofContext := {|
  zk_context_state d := match d with b :: d => u ← parse_range d; mret (b, u) | [] => None end;
  zk_proof_data _ d := match d with _ :: d => parse_range d | [] => None end
|}.

#[export] Instance example_contexts : ZkContexts := {|
  zk_pubkey_validity := stored_context _;
  zk_zero_ciphertext := stored_context _;
  zk_ciphertext_equality := stored_context _;
  zk_commitment_equality := stored_context _;
  zk_batched_range := stored_range;
  zk_percentage_with_cap := stored_context _;
  zk_grouped_2 := stored_context _;
  zk_grouped_3 := stored_context _
|}.

(** ** The arithmetic on ciphertexts *)

(** 5 encrypted for the key of the secret 1, with no randomness. *)
Definition example_ciphertext (n : Z) : PodElGamalCiphertext :=
  ciphertext_arithmetic.ristretto_to_elgamal_ciphertext (pscale n (ciphertext_arithmetic.G)) (zeroed 32).

Lemma ciphertext_arithmetic_spec_witness :
  is_u64 7 /\
  ciphertext_arithmetic.add_to (example_ciphertext 5) 7 ≫= decrypt 1 =
    Some (amount_point (E := Bytes 32) 12).
Proof.
  assert (is_u64 7) as H by (vm_compute; split; discriminate). split; [exact H|].
  destruct (ciphertext_arithmetic_spec (E := Bytes 32) 1 (example_ciphertext 5) (zeroed 64)
    (zeroed 64) (zeroed 64) 7 (zeroed 32) H) as [(_ & _ & _ & _ & _ & E & _) _].
  rewrite E. vm_compute. reflexivity.
Defined.

(** ** A cluster *)

(** A cluster that has no accounts and keeps the instructions it is sent; a transaction
    is its instructions, and signing always succeeds. *)
#[export] Instance example_fetching : HookFetching :=
  mk_hook_fetching unit (fun _ => tt) (list Instruction) (fun ix _ _ _ _ _ _ _ n => Ok (ix, n)).
#[export] Instance example_client : ProgramClient :=
  mk_program_client _ unit unit unit unit (list Instruction) (fun _ n => Ok (None, n))
    (fun _ n => Ok (5000000, n)) (fun n => Ok (tt, n)) (fun tx n => Ok (tt, n ++ tx))
    (fun _ n => Ok (tt, n)) (fun _ => Ok 200) tt (fun ixs _ _ => ixs) (fun _ _ tx => Ok tx)
    (fun _ => mk_instruction (zeroed 32) [] []) (fun _ => mk_instruction (zeroed 32) [] [])
    (fun text signers => mk_instruction (zeroed 32) (fmap (fun k => new_readonly k true) signers) text)
    (fun _ _ => mk_instruction (zeroed 32) [] [])
    (fun from k _ _ _ => mk_instruction (zeroed 32) [new from true; new k true] [])
    (fun from k _ => mk_instruction (zeroed 32) [new from true; new k false] [])
    (fun owner _ _ => owner) (fun _ k _ _ => mk_instruction (zeroed 32) [new k false] [])
    (fun _ k _ _ => mk_instruction (zeroed 32) [new k false] []).
