(* ===== verification/ConfidentialRuns.v ===== *)
(** * Confidential instructions on concrete accounts

    Two accounts of a mint with confidential balances, and the contexts of the
    proofs for what they do, with the secrets 1 and -1: the theorems on
    confidential instructions applied to them. *)
From S2P Require Import Prelude Bytes Errors Ids Runtime Pod ExtensionState CiphertextArithmetic.
From S2P Require Import CiphertextTheory ProofExtraction Extension TlvTheory ViewTheory AccountLen.
From S2P Require Import MonadTheory Ownership Ledger TransferFee TransferTheory FeesTheory.
From S2P Require Import PodInstruction Supply Initialize Settings Fees VariableLen ConfidentialTransfer.
From S2P Require Import ConfidentialTransferFee ConfidentialMintBurn ConfidentialPure.
From S2P Require Import ConfidentialTheory ConfidentialTransferTheory ConfidentialSupplyTheory.
From S2P Require Import ConfidentialFeesTheory Backing Examples ConfidentialExamples.

(** ** Accounts *)

Definition hidden : Address := addr 50.
Definition ann : Address := addr 51.
Definition ben : Address := addr 52.
Definition ann_owner : Address := addr 61.
Definition ben_owner : Address := addr 62.
Definition issuer : Address := addr 63.
Definition proof_1 : Address := addr 71.
Definition proof_2 : Address := addr 72.
Definition proof_3 : Address := addr 73.
Definition proof_4 : Address := addr 74.
Definition proof_5 : Address := addr 75.

Definition entry {V} `{Pod V, Extension V} (v : V) : Entry := (extension_type_u16 (TYPE V), to_bytes v).

Definition no_address : PodCOption Address := PodCOption.none (zeroed 32).

Definition token_data (owner : Address) (n : Z) (entries : list Entry) : list byte :=
  to_bytes (mk_account hidden owner (u64_new n) no_address x01 (PodCOption.none (u64_new 0))
    (u64_new 0) no_address) ++ [x02] ++ tlv_encode entries.

Definition mint_data (n : Z) (entries : list Entry) : list byte :=
  to_bytes (mk_mint (PodCOption.some issuer) (u64_new n) x02 (bool_new true) no_address) ++
  replicate 83 x00 ++ [x01] ++ tlv_encode entries.

(** The keys of the secrets 1 and -1. *)
Definition key_1 : PodElGamalPubkey := ciphertext_arithmetic.H.
Definition key_2 : PodElGamalPubkey := popp ciphertext_arithmetic.H.

Lemma keypair_1 : keypair 1 key_1.
Proof. exists ciphertext_arithmetic.H. split; [done|]. vm_compute. reflexivity. Qed.

Lemma keypair_2 : keypair (-1) key_2.
Proof. exists (popp ciphertext_arithmetic.H). split; [done|]. vm_compute. reflexivity. Qed.

(** A confidential account with [a] available and [p] pending. *)
Definition hidden_balance (pk : PodElGamalPubkey) (a p : Z) : ConfidentialTransferAccount :=
  mk_cta x01 pk (example_ciphertext p) (zeroed 64) (example_ciphertext a) (zeroed 36) x01 x01
    (u64_new 1) (u64_new 9) (u64_new 0) (u64_new 0).

Definition auto_approve : ConfidentialTransferMint := mk_ctm (zeroed 32) x01 (zeroed 32).

Definition ann_cell (a p : Z) (more : list Entry) : Address * Cell :=
  (ann, example_cell (token_data ann_owner 1000 (entry (hidden_balance key_1 a p) :: more))).
Definition ben_cell (a p : Z) (more : list Entry) : Address * Cell :=
  (ben, example_cell (token_data ben_owner 0 (entry (hidden_balance key_2 a p) :: more))).
Definition mint_cell (more : list Entry) : Address * Cell :=
  (hidden, example_cell (mint_data 1000 (entry auto_approve :: more))).

Definition world_of (l : list (Address * Cell)) : World := mk_world (list_to_map l) [].

(** ** Proof contexts *)

(** The plaintext [m] grouped for the keys. *)
Definition group (n : nat) (m : Z) (r : Z) (pks : list (Bytes 32)) : Grouped n :=
  (pplus (pscale m ciphertext_arithmetic.G) (pscale r ciphertext_arithmetic.H),
   bytes_of_list (32 * n) (pks ≫= (fun pk => bytes_list (pscale r pk)))).

Definition context_cell (t : ProofType) {U} `{Pod U} (u : U) : Cell :=
  mk_cell 1000 (proof_type_byte t :: to_bytes u) zk_id.

Definition grouped_3 (lo hi : Z) (p1 p2 p3 : Bytes 32) :
    BatchedGroupedCiphertext3HandlesValidityProofContext :=
  mk_grouped_3 p1 p2 p3 (group 3 lo 2 [p1; p2; p3]) (group 3 hi 3 [p1; p2; p3]).

Definition range_cell (t : ProofType) (commitments : list (Bytes 32)) (lengths : list Z) : Cell :=
  mk_cell 1000 (proof_type_byte t :: resize 256 x00 (commitments ≫= bytes_list) ++
    resize 8 x00 (u8_of_Z <$> lengths)) zk_id.

(** The statements of the contexts that are stored in a cell. *)
Definition states_truth (c : Cell) : Prop :=
  cell_owner c = zk_id ->
  (forall ctx, zk_context_state (U := BatchedGroupedCiphertext3HandlesValidityProofContext)
     (cell_data c) = Some (proof_type_byte ProofType.BatchedGroupedCiphertext3HandlesValidity, ctx) ->
     exists lo hi : Bytes 32, grouped_3_states lo hi ctx) /\
  (forall ctx, zk_context_state (U := BatchedGroupedCiphertext2HandlesValidityProofContext)
     (cell_data c) = Some (proof_type_byte ProofType.BatchedGroupedCiphertext2HandlesValidity, ctx) ->
     exists lo hi : Bytes 32, grouped_2_states lo hi ctx) /\
  (forall ctx, zk_context_state (U := CiphertextCiphertextEqualityProofContext)
     (cell_data c) = Some (proof_type_byte ProofType.CiphertextCiphertextEquality, ctx) ->
     exists m : Bytes 32, equality_states m ctx).

(** A context that can be read is stored in an account of the proof program,
    when there is no sysvar. *)
Lemma stored_contexts U `{!ZkContext U} ty (P : U -> Prop) w :
  cell_data (cell w sysvar_id) = [] ->
  (forall k ctx, cell_owner (cell w k) = zk_id ->
     zk_context_state (cell_data (cell w k)) = Some (proof_type_byte ty, ctx) -> P ctx) ->
  every_context U ty P w.
Proof.
  intros Hs Hall held iter off sysvar ctx rest H. unfold verify_and_extract_context in H.
  destruct (off =? 0).
  - m_inv. subst.
    match goal with H : check_zk_elgamal_proof_program_account _ = Ok _,
        Hc : zk_context_state _ = Some _ |- _ =>
      unfold check_zk_elgamal_proof_program_account in H; m_inv; by apply (Hall _ _ H Hc) end.
  - exfalso. m_inv.
    match goal with H : (match sysvar with _ => _ end) ?w = Ok (_, ?w') |- _ =>
      assert (w' = w) as E by (by destruct sysvar; m_inv); clear H; subst w' end.
    match goal with H : data_of _ _ = Ok _ |- _ => apply data_of_Ok in H as [-> ?]; subst end.
    match goal with H : zk_get_instruction_relative _ (key ?a) _ = Ok _ |- _ =>
      cbn [zk_get_instruction_relative example_zk] in H; case_bool_decide as Ek; [|done];
      rewrite Ek, Hs in H; done end.
Qed.

Lemma example_proofs_hold l :
  cell_data (cell (world_of l) sysvar_id) = [] -> Forall (fun e => states_truth e.2) l ->
  proofs_hold (E := Bytes 32) (world_of l).
Proof.
  intros Hs Hl. assert (forall k, states_truth (cell (world_of l) k)) as Hall.
  { intros k. unfold cell, world_of. cbn [cells]. clear Hs.
    induction Hl as [|[k' c] l Hc _ IH]; [intros Ho; vm_compute in Ho; discriminate Ho|].
    cbn [list_to_map foldr fst snd]. destruct (decide (k' = k)) as [->|Hne].
    - by rewrite lookup_insert_eq.
    - by rewrite lookup_insert_ne. }
  split; (apply stored_contexts; [exact Hs|]); intros k ctx Ho Hc; by eapply (Hall k Ho).
Qed.

(** A cell of another program states nothing. *)
Ltac no_proof := let H := fresh in intros H; exfalso; revert H; vm_compute; discriminate.

(** ** Reading accounts *)

Lemma confidential_account_eq w k b e b' e' :
  confidential_account w k b e -> confidential_account w k b' e' -> b' = b /\ e' = e.
Proof.
  intros (st & [_ Hu] & <- & He) (st' & [_ Hu'] & <- & He'). rewrite Hu in Hu'.
  injection Hu' as <-. split; congruence.
Qed.

Lemma confidential_account_read w k b e :
  cell_owner (cell w k) = id ->
  (st ← unpack_mut PodAccount (cell_data (cell w k));
   x ← get_extension ConfidentialTransferAccount st; mret (base st, x)) = Ok (b, e) ->
  confidential_account w k b e.
Proof.
  intros Ho H. apply bind_Ok in H as (st & Hu & H). apply bind_Ok in H as (x & Hx & H).
  injection H as <- <-. by exists st.
Qed.

Definition ann_base (n : Z) : PodAccount :=
  mk_account hidden ann_owner (u64_new n) no_address x01 (PodCOption.none (u64_new 0))
    (u64_new 0) no_address.
Definition ben_base : PodAccount :=
  mk_account hidden ben_owner (u64_new 0) no_address x01 (PodCOption.none (u64_new 0))
    (u64_new 0) no_address.

Ltac reads_account := apply confidential_account_read; vm_compute; reflexivity.

Ltac facts := repeat match goal with H : _ /\ _ |- _ => destruct H end.

(** What an account was and became, from what it was. *)
Lemma rewrites_from k w w' b b' e e' b0 e0 :
  rewrites k w w' b b' e e' -> confidential_account w k b0 e0 ->
  b = b0 /\ e = e0 /\ confidential_account w' k b' e'.
Proof.
  intros (H1 & H2 & _) H0. destruct (confidential_account_eq _ _ _ _ _ _ H0 H1) as [-> ->]. done.
Qed.

(** The concrete account is the one of the theorem. *)
Ltac known H :=
  match goal with Hr : rewrites _ _ _ _ _ _ _ |- _ =>
    apply (fun Hr => rewrites_from _ _ _ _ _ _ _ _ _ Hr H) in Hr as (-> & -> & Hr) end.

(** ** Deposits *)

Definition deposit_world : World := world_of [mint_cell []; ann_cell 30 5 []].
Definition deposit_500 : M unit :=
  confidential_transfer.process_deposit id [info ann; info hidden; signed ann_owner] 500 x02.

Lemma process_deposit_spec_witness : exists e,
  confidential_account (after deposit_500 deposit_world) ann (ann_base 500) e /\
  opens 1 e = Some (amount_point (E := Bytes 32) 30, amount_point 505).
Proof.
  assert (deposit_500 deposit_world = Ok (tt, after deposit_500 deposit_world)) as H by runs.
  assert (confidential_account deposit_world ann (ann_base 1000) (hidden_balance key_1 30 5)) as Hann
    by reads_account.
  destruct (process_deposit_spec (E := Bytes 32) id _ 500 x02 _ _ ltac:(vm_compute; split; discriminate) H)
    as (ti & mi & ai & signers & mt & a & e & e' & Ea & Hall).
  injection Ea as <- <- <- <-. facts. known Hann.
  exists e'. split; [assumption|].
  match goal with Hr : receives _ _ _ |- _ =>
    rewrite (Hr 1 (amount_point 30) (amount_point 5) keypair_1) by (vm_compute; reflexivity) end.
  vm_compute. reflexivity.
Defined.

(** ** Applying the pending balance *)

Definition apply_pending : M unit :=
  confidential_transfer.process_apply_pending_balance id [info ann; signed ann_owner]
    (confidential_transfer.mk_apply_pending_balance (u64_new 1) (zeroed 36)).

Lemma process_apply_pending_balance_spec_witness : exists e,
  confidential_account (after apply_pending deposit_world) ann (ann_base 1000) e /\
  opens 1 e = Some (amount_point (E := Bytes 32) 35, amount_point 0).
Proof.
  assert (apply_pending deposit_world = Ok (tt, after apply_pending deposit_world)) as H by runs.
  assert (confidential_account deposit_world ann (ann_base 1000) (hidden_balance key_1 30 5)) as Hann
    by reads_account.
  destruct (process_apply_pending_balance_spec (E := Bytes 32) id _ _ _ _ H)
    as (ti & ai & signers & b & e & e' & Ea & Hall).
  injection Ea as <- <- <-. facts. known Hann.
  exists e'. split; [assumption|].
  match goal with Hr : forall s x p, opens s _ = _ -> _ |- _ =>
    rewrite (Hr 1 (amount_point 30) (amount_point 5)) by (vm_compute; reflexivity) end.
  vm_compute. reflexivity.
Defined.

Lemma process_apply_pending_balance_enabled_witness : exists w' e,
  apply_pending deposit_world = Ok (tt, w') /\ confidential_account w' ann (ann_base 1000) e /\
  opens 1 e = Some (amount_point (E := Bytes 32) 35, amount_point 0).
Proof.
  assert (confidential_account deposit_world ann (ann_base 1000) (hidden_balance key_1 30 5)) as Hann
    by reads_account.
  destruct Hann as (st & Ht & Hb & He).
  destruct (process_apply_pending_balance_enabled (E := Bytes 32) id (info ann) (signed ann_owner) []
    (confidential_transfer.mk_apply_pending_balance (u64_new 1) (zeroed 36)) deposit_world st
    (hidden_balance key_1 30 5) 1 (amount_point 30) (amount_point 5) Ht)
    as (w' & e' & H1 & H2 & H3 & _).
  - rewrite Hb. vm_compute. reflexivity.
  - exact He.
  - vm_compute. reflexivity.
  - rewrite Hb. split; [reflexivity|]. vm_compute. reflexivity.
  - vm_compute. discriminate.
  - exists w', e'. split; [exact H1|]. rewrite Hb in H2. split; [exact H2|].
    rewrite H3. vm_compute. reflexivity.
Defined.

(** ** Withdrawals *)

(** The proof that a ciphertext under the key is that of a commitment. *)
Definition equality_cell (pk : PodElGamalPubkey) (c : option PodElGamalCiphertext) : Cell :=
  context_cell ProofType.CiphertextCommitmentEquality
    (mk_commitment_equality pk (default (zeroed 64) c) ciphertext_arithmetic.G).

Definition withdraw_world : World := world_of
  [mint_cell []; ann_cell 30 5 [];
   (proof_1, equality_cell key_1 (ciphertext_arithmetic.subtract_from (example_ciphertext 30) 10));
   (proof_2, range_cell ProofType.BatchedRangeProofU64 [ciphertext_arithmetic.G] [64])].
Definition withdraw_10 : M unit :=
  confidential_transfer.process_withdraw id
    [info ann; info hidden; info proof_1; info proof_2; signed ann_owner] 10 x02 (zeroed 36) 0 0.

Lemma process_withdraw_spec_witness : exists e,
  confidential_account (after withdraw_10 withdraw_world) ann (ann_base 1010) e /\
  opens 1 e = Some (amount_point (E := Bytes 32) 20, amount_point 5).
Proof.
  assert (withdraw_10 withdraw_world = Ok (tt, after withdraw_10 withdraw_world)) as H by runs.
  assert (confidential_account withdraw_world ann (ann_base 1000) (hidden_balance key_1 30 5)) as Hann
    by reads_account.
  destruct (process_withdraw_spec (E := Bytes 32) id _ 10 x02 _ 0 0 _ _
    ltac:(vm_compute; split; discriminate) H)
    as (ti & mi & iter & ctx & ai & signers & mt & a & e & e' & Ea & Hall).
  injection Ea as <- <- <-. facts. known Hann.
  exists e'. split; [assumption|].
  match goal with Hr : spends _ _ _ |- _ =>
    rewrite (Hr 1 (amount_point 30) (amount_point 5) keypair_1) by (vm_compute; reflexivity) end.
  vm_compute. reflexivity.
Defined.

(** ** Transfers *)

(** 70003 is 4467 and one times 65536. *)
Definition amount_3 : BatchedGroupedCiphertext3HandlesValidityProofContext :=
  grouped_3 4467 1 key_1 key_2 (zeroed 32).

Definition handle_1 (c : Grouped 3) (i : nat) : PodElGamalCiphertext :=
  default (zeroed 64) (grouped_ciphertext c i).

Definition remaining_90000 : option PodElGamalCiphertext :=
  ciphertext_arithmetic.subtract_with_lo_hi (example_ciphertext 90000)
    (handle_1 (g3_grouped_ciphertext_lo amount_3) 0) (handle_1 (g3_grouped_ciphertext_hi amount_3) 0).

(** The proofs for [amount_3]; the key and the new ciphertext that they speak of. *)
Definition amount_proofs (pk : PodElGamalPubkey) (c : option PodElGamalCiphertext)
    : list (Address * Cell) :=
  [(proof_1, equality_cell pk c); (proof_2, context_cell ProofType.BatchedGroupedCiphertext3HandlesValidity amount_3);
   (proof_3, range_cell ProofType.BatchedRangeProofU128
      [ciphertext_arithmetic.G; (g3_grouped_ciphertext_lo amount_3 : Grouped 3).1;
       (g3_grouped_ciphertext_hi amount_3 : Grouped 3).1] [64; 16; 32; 16])].

(** The statement of [amount_3] holds. *)
Lemma states_grouped_3 lo hi p1 p2 p3 :
  (forall i pk, [p1; p2; p3] !! i = Some pk ->
     exists x y, grouped_ciphertext (group 3 lo 2 [p1; p2; p3]) i = Some x /\
       grouped_ciphertext (group 3 hi 3 [p1; p2; p3]) i = Some y /\
       encryption (E := Bytes 32) pk (amount_point lo) 2 x /\
       encryption pk (amount_point hi) 3 y) ->
  grouped_3_states (E := Bytes 32) (amount_point lo) (amount_point hi) (grouped_3 lo hi p1 p2 p3).
Proof.
  intros Hi. split; [exists 2|exists 3]; intros i pk x Hpk Hx; cbn in Hpk, Hx;
    destruct (Hi i pk Hpk) as (x' & y' & Ex & Ey & H1 & H2).
  - assert (x' = x) as -> by (apply (inj Some); rewrite <- Ex; exact Hx). exact H1.
  - assert (y' = x) as -> by (apply (inj Some); rewrite <- Ey; exact Hx). exact H2.
Qed.

Lemma stored_byte U `{Pod U} b d b' (u : U) :
  @zk_context_state U (stored_context U) (b :: d) = Some (b', u) -> b' = b.
Proof. cbn. destruct (try_from_bytes d); [by intros [= <- _]|done]. Qed.

(** The byte of the type says which statement a cell can be read as. *)
Lemma truth_by_type b d n o :
  b <> proof_type_byte ProofType.BatchedGroupedCiphertext3HandlesValidity ->
  b <> proof_type_byte ProofType.BatchedGroupedCiphertext2HandlesValidity ->
  b <> proof_type_byte ProofType.CiphertextCiphertextEquality ->
  states_truth (mk_cell n (b :: d) o).
Proof.
  intros H3 H2 H1 _. cbn [cell_data].
  split_and!; intros ctx Hc; apply stored_byte in Hc; by destruct (eq_sym Hc).
Qed.

(** A context of three handles is true and the others are not stored. *)
Lemma truth_grouped_3 lo hi p1 p2 p3 :
  grouped_3_states (E := Bytes 32) (amount_point lo) (amount_point hi) (grouped_3 lo hi p1 p2 p3) ->
  states_truth (context_cell ProofType.BatchedGroupedCiphertext3HandlesValidity
    (grouped_3 lo hi p1 p2 p3)).
Proof.
  intros Ht _. unfold context_cell. cbn [cell_data]. split_and!; intros ctx Hc.
  - cbn [zk_context_state zk_grouped_3 example_contexts stored_context] in Hc.
    rewrite (proj2 (try_from_bytes_Some _ _) eq_refl) in Hc. injection Hc as <-. by do 2 eexists.
  - apply stored_byte in Hc. vm_compute in Hc. discriminate.
  - apply stored_byte in Hc. vm_compute in Hc. discriminate.
Qed.

(** The cells of accounts and of other proofs, and the statement of [amount_3]. *)
Ltac encrypts := eexists; split; [vm_compute; reflexivity|split; vm_compute; reflexivity].
Ltac truth :=
  first [no_proof
        |apply truth_by_type; vm_compute; discriminate
        |apply truth_grouped_3, states_grouped_3; intros i pk Hi;
         do 3 (destruct i as [|i]; [injection Hi as <-; do 2 eexists; split_and!;
           [vm_compute; reflexivity|vm_compute; reflexivity|encrypts|encrypts]|]); done].
Ltac proofs_true :=
  apply example_proofs_hold; [vm_compute; reflexivity|];
  repeat (apply Forall_cons; split; [cbn [snd ann_cell ben_cell mint_cell]; truth|]); constructor.

Definition transfer_world : World :=
  world_of (mint_cell [] :: ann_cell 90000 5 [] :: ben_cell 1 2 [] :: amount_proofs key_1 remaining_90000).

Lemma transfer_proofs_true : proofs_hold (E := Bytes 32) transfer_world.
Proof.
  unfold transfer_world, amount_proofs.
  proofs_true.
Qed.

Definition transfer_70003 : M unit :=
  confidential_transfer.process_transfer id
    [info ann; info hidden; info ben; info proof_1; info proof_2; info proof_3; signed ann_owner]
    (zeroed 36) (handle_1 (g3_grouped_ciphertext_lo amount_3) 2)
    (handle_1 (g3_grouped_ciphertext_hi amount_3) 2) 0 0 None None 0.

Lemma confidential_transfer_conserves_witness : exists w1 y e d,
  confidential_account w1 ann (ann_base 1000) e /\
  confidential_account (after transfer_70003 transfer_world) ben ben_base d /\
  opens 1 e = Some (pplus (amount_point (E := Bytes 32) 90000) (popp y), amount_point 5) /\
  opens (-1) d = Some (amount_point 1, pplus (amount_point 2) y).
Proof.
  assert (transfer_70003 transfer_world = Ok (tt, after transfer_70003 transfer_world)) as H by runs.
  assert (confidential_account transfer_world ann (ann_base 1000) (hidden_balance key_1 90000 5)) as Hann
    by reads_account.
  assert (confidential_account transfer_world ben ben_base (hidden_balance key_2 1 2)) as Hben
    by reads_account.
  destruct (confidential_transfer_conserves (E := Bytes 32) id _ _ _ _ _ _ _ _ _ _ _ H transfer_proofs_true)
    as (si & mi & di & rest & ai & signers & mt & ctm & y & fee & w2 & Ea & _ & Hu & _ & _ & Hmv & _ & Hfee & Hhook).
  injection Ea as <- <- <- <-.
  assert (match unpack PodMint (cell_data (cell transfer_world hidden)) with
          | Ok m => has_extension TransferFeeConfig m = false /\ get_program_id m = None
          | _ => True end) as Hm by (vm_compute; by split).
  cbn [key info] in Hu. rewrite Hu in Hm. destruct Hm as [Hx Hy].
  rewrite Hx in Hfee. cbn [andb] in Hfee. subst fee. rewrite Hy in Hhook. rewrite Hhook.
  destruct Hmv as (w1 & sb & se & se' & db & de & de' & Hs & Hd & _ & _ & _ & _ & _ & _ & _ & Hsp & Hrc).
  destruct (rewrites_from _ _ _ _ _ _ _ _ _ Hs Hann) as (-> & -> & Hann').
  assert (confidential_account w1 ben ben_base (hidden_balance key_2 1 2)) as Hben'.
  { destruct Hben as (st & Ht & Hb & He). exists st. split; [|by split].
    unfold token_account. rewrite (proj1 (proj2 (proj2 Hs))) by (vm_compute; discriminate). exact Ht. }
  destruct (rewrites_from _ _ _ _ _ _ _ _ _ Hd Hben') as (-> & -> & Hben'').
  exists w1, y, se', de'. split; [exact Hann'|]. split; [exact Hben''|]. split.
  - apply (Hsp 1 _ _ keypair_1). vm_compute. reflexivity.
  - rewrite (Hrc (-1) (amount_point 1) (amount_point 2) keypair_2) by (vm_compute; reflexivity).
    by rewrite popp_0, pplus_0_r.
Defined.

(** ** Confidential supply *)

Definition hidden_supply (n : Z) : ConfidentialMintBurn :=
  mk_cmb (example_ciphertext n) (zeroed 36) key_2 (zeroed 64).

Definition increased_supply : option PodElGamalCiphertext :=
  ciphertext_arithmetic.add_with_lo_hi (example_ciphertext 1000)
    (handle_1 (g3_grouped_ciphertext_lo amount_3) 1) (handle_1 (g3_grouped_ciphertext_hi amount_3) 1).

Definition mint_world : World :=
  world_of (mint_cell [entry (hidden_supply 1000)] :: ann_cell 90000 5 [] ::
    amount_proofs key_2 increased_supply).
Definition mint_70003 : M unit :=
  confidential_mint_burn.process_confidential_mint id
    [info ann; info hidden; info proof_1; info proof_2; info proof_3; signed issuer]
    (confidential_mint_burn.mk_mint_data (zeroed 36) (handle_1 (g3_grouped_ciphertext_lo amount_3) 2)
      (handle_1 (g3_grouped_ciphertext_hi amount_3) 2) x00 x00 x00).

Definition burn_world : World :=
  world_of (mint_cell [entry (hidden_supply 1000)] :: ann_cell 90000 5 [] ::
    amount_proofs key_1 remaining_90000).
Definition burn_70003 : M unit :=
  confidential_mint_burn.process_confidential_burn id
    [info ann; info hidden; info proof_1; info proof_2; info proof_3; signed ann_owner]
    (confidential_mint_burn.mk_burn_data (zeroed 36) (handle_1 (g3_grouped_ciphertext_lo amount_3) 2)
      (handle_1 (g3_grouped_ciphertext_hi amount_3) 2) x00 x00 x00) BurnInstructionVariant.Standard.

(** The supply of a world that is known. *)
Lemma supply_read w k b c n :
  confidential_mint w k b c ->
  unpack_mut PodMint (cell_data (cell w k)) ≫=
    (fun mt : PodStateMut PodMint => get_extension ConfidentialMintBurn mt) =
    Ok (hidden_supply n) -> c = hidden_supply n.
Proof.
  intros (m & [_ Hm] & _ & Hc) H. rewrite Hm in H. cbn [mbind Result_bind] in H. congruence.
Qed.

Lemma mint_proofs_true : proofs_hold (E := Bytes 32) mint_world.
Proof. unfold mint_world, amount_proofs. proofs_true. Qed.

Lemma burn_proofs_true : proofs_hold (E := Bytes 32) burn_world.
Proof. unfold burn_world, amount_proofs. proofs_true. Qed.

Lemma process_confidential_mint_spec_witness : exists y e b c,
  confidential_account (after mint_70003 mint_world) ann (ann_base 1000) e /\
  confidential_mint (after mint_70003 mint_world) hidden b c /\
  opens 1 e = Some (amount_point (E := Bytes 32) 90000, pplus (amount_point 5) y) /\
  decrypt (-1) (cmb_confidential_supply c) = Some (pplus (amount_point 1000) y).
Proof.
  assert (mint_70003 mint_world = Ok (tt, after mint_70003 mint_world)) as H by runs.
  assert (confidential_account mint_world ann (ann_base 1000) (hidden_balance key_1 90000 5)) as Hann
    by reads_account.
  destruct (process_confidential_mint_spec (E := Bytes 32) id _ _ _ _ H mint_proofs_true)
    as (ti & mi & rest & ctx & ap & mt & ctm & b & e & e' & c & c' & y & Ea & _ & _ & _ & _ & _ & Hrw & _ & _ & _ & _ & _ & _ & Hr & Hg & _).
  injection Ea as <- <- <-. destruct Hrw as (Hb & Ha & Hm & Hm' & _).
  destruct (confidential_account_eq _ _ _ _ _ _ Hann Hb) as [-> ->].
  assert (c = hidden_supply 1000) as -> by (apply (supply_read _ _ _ _ 1000 Hm); vm_compute; reflexivity).
  exists y, e', (base mt), c'. split; [exact Ha|]. split; [exact Hm'|]. split.
  - apply (Hr 1 _ _ keypair_1). vm_compute. reflexivity.
  - apply (Hg (-1) _ keypair_2). vm_compute. reflexivity.
Defined.

Lemma process_confidential_burn_spec_witness : exists y e b c,
  confidential_account (after burn_70003 burn_world) ann (ann_base 1000) e /\
  confidential_mint (after burn_70003 burn_world) hidden b c /\
  opens 1 e = Some (pplus (amount_point (E := Bytes 32) 90000) (popp y), amount_point 5) /\
  decrypt (-1) (cmb_pending_burn c) = Some (pplus (amount_point 0) y).
Proof.
  assert (burn_70003 burn_world = Ok (tt, after burn_70003 burn_world)) as H by runs.
  assert (confidential_account burn_world ann (ann_base 1000) (hidden_balance key_1 90000 5)) as Hann
    by reads_account.
  destruct (process_confidential_burn_spec (E := Bytes 32) id _ _ _ _ _ H burn_proofs_true)
    as (ti & mi & rest & ctx & ap & mt & ctm & bai & ai & sg & b & e & e' & c & c' & y & Ea & _ & _ & _ & _ & _ & _ & _ & Hrw & _ & _ & _ & Hr & Hg & _).
  injection Ea as <- <- <-. destruct Hrw as (Hb & Ha & Hm & Hm' & _).
  destruct (confidential_account_eq _ _ _ _ _ _ Hann Hb) as [-> ->].
  assert (c = hidden_supply 1000) as -> by (apply (supply_read _ _ _ _ 1000 Hm); vm_compute; reflexivity).
  exists y, e', (base mt), c'. split; [exact Ha|]. split; [exact Hm'|]. split.
  - apply (Hr 1 _ _ keypair_1). vm_compute. reflexivity.
  - apply (Hg (-1) _ keypair_2). vm_compute. reflexivity.
Defined.

(** ** Fees *)

Definition no_fee : TransferFee := mk_tf (u64_new 0) (u64_new 0) (u16_new 0).
Definition fee_entries (withheld : Z) : list Entry :=
  [entry (mk_tfc (zeroed 32) issuer (u64_new 0) no_fee no_fee);
   entry (mk_ctfc (zeroed 32) key_1 (bool_new true) (example_ciphertext withheld))].
Definition withholding (n : Z) : list Entry := [entry (mk_ctfa (example_ciphertext n))].

(** The withheld 3 and 4 under the first key are 7 under the second. *)
Definition collected : PodElGamalCiphertext :=
  default (zeroed 64) (c ← ciphertext_arithmetic.add (zeroed 64) (example_ciphertext 3);
                       ciphertext_arithmetic.add c (example_ciphertext 4)).
Definition equal_7 : CiphertextCiphertextEqualityProofContext :=
  mk_ciphertext_equality key_1 key_2 collected
    (ciphertext_arithmetic.ristretto_to_elgamal_ciphertext
       (pplus (pscale 7 ciphertext_arithmetic.G) (pscale 2 ciphertext_arithmetic.H)) (pscale 2 key_2)).

Lemma equal_7_true : equality_states (amount_point (E := Bytes 32) 7) equal_7.
Proof.
  split; [|exists 2; encrypts]. intros s _.
  change (decrypt s collected = Some (amount_point (E := Bytes 32) 7)).
  assert (collected = example_ciphertext 7) as -> by (vm_compute; reflexivity).
  unfold example_ciphertext. rewrite decrypt_ciphertext. cbn [decode example_curve_laws mbind option_bind].
  change (zeroed 32) with (pzero : Bytes 32). by rewrite pscale_0_r, popp_0, pplus_0_r.
Qed.

Definition fee_world : World := world_of
  [mint_cell (fee_entries 7); ann_cell 30 5 (withholding 3); ben_cell 1 2 (withholding 4);
   (proof_1, context_cell ProofType.CiphertextCiphertextEquality equal_7)].

Lemma fee_proofs_true : proofs_hold (E := Bytes 32) fee_world.
Proof.
  unfold fee_world. apply example_proofs_hold; [vm_compute; reflexivity|].
  repeat (apply Forall_cons; split; [cbn [snd ann_cell ben_cell mint_cell]; try no_proof|]); [|constructor].
  intros _. unfold context_cell. cbn [cell_data]. split_and!; intros ctx Hc.
  - apply stored_byte in Hc. vm_compute in Hc. discriminate.
  - apply stored_byte in Hc. vm_compute in Hc. discriminate.
  - cbn [zk_context_state zk_ciphertext_equality example_contexts stored_context] in Hc.
    rewrite (proj2 (try_from_bytes_Some _ _) eq_refl) in Hc. injection Hc as <-.
    eexists. exact equal_7_true.
Qed.

Lemma fee_config mt c :
  mint_account fee_world hidden mt -> get_extension ConfidentialTransferFeeConfig mt = Ok c ->
  c = mk_ctfc (zeroed 32) key_1 (bool_new true) (example_ciphertext 7).
Proof.
  intros [_ Hu] Hg.
  assert (match unpack_mut PodMint (cell_data (cell fee_world hidden)) with
          | Ok m => get_extension ConfidentialTransferFeeConfig m =
              Ok (mk_ctfc (zeroed 32) key_1 (bool_new true) (example_ciphertext 7))
          | _ => True end) as Hx by (vm_compute; reflexivity).
  rewrite Hu, Hg in Hx. by injection Hx.
Qed.

Definition harvest_run : M unit :=
  confidential_transfer_fee.process_harvest_withheld_tokens_to_mint [info hidden; info ann; info ben].

Lemma sources_distinct : NoDup [ann; ben].
Proof. apply (bool_decide_eq_true (NoDup [ann; ben])). vm_compute. reflexivity. Qed.

Lemma sources_listed i : i ∈ [info ann; info ben] -> key i ∈ [ann; ben].
Proof. intros [<-|[<-|[]]]%list_elem_of_In; [apply list_elem_of_here|apply list_elem_of_further, list_elem_of_here]. Qed.

Lemma confidential_harvest_conserves_witness : exists b c,
  fee_mint (after harvest_run fee_world) hidden b c /\
  decrypt 1 (ctfc_withheld_amount c) = Some (amount_point (E := Bytes 32) 14).
Proof.
  assert (harvest_run fee_world = Ok (tt, after harvest_run fee_world)) as H by runs.
  destruct (confidential_harvest_conserves (E := Bytes 32) _ _ _ H)
    as (mi & infos & b & c & c' & Ea & Hm & Hm' & _ & _ & _ & Hc).
  injection Ea as <- <-. exists b, c'. split; [exact Hm'|].
  destruct (Hc 1 [ann; ben]) with (x := amount_point (E := Bytes 32) 7) as (z & Hz & Hsum).
  - exact sources_distinct.
  - exact sources_listed.
  - destruct Hm as (mt & Hu & _ & Hg). rewrite (fee_config _ _ Hu Hg). vm_compute. reflexivity.
  - rewrite Hz. assert (z = amount_point 7) as ->; [|vm_compute; reflexivity].
    rewrite <- (pplus_0_l z). transitivity (point_sum (withheld_point 1 fee_world) [ann; ben]).
    + rewrite Hsum. f_equal.
    + vm_compute. reflexivity.
Defined.

Definition withdraw_run : M unit :=
  confidential_transfer_fee.process_withdraw_withheld_tokens_from_accounts id
    [info hidden; info ben; info proof_1; signed issuer; info ann; info ben] x02 (zeroed 36) 0.

Lemma confidential_withdraw_from_accounts_conserves_witness : exists e,
  confidential_account (after withdraw_run fee_world) ben ben_base e /\
  opens (-1) e = Some (amount_point (E := Bytes 32) 8, amount_point 2).
Proof.
  assert (withdraw_run fee_world = Ok (tt, after withdraw_run fee_world)) as H by runs.
  assert (confidential_account fee_world ben ben_base (hidden_balance key_2 1 2)) as Hben
    by reads_account.
  destruct (confidential_withdraw_from_accounts_conserves (E := Bytes 32) id _ _ _ _ _ _ H fee_proofs_true)
    as (mi & di & rest & ctx & ai & infos & mt & c & b & e & e' & m & Ea & Hp & Hm & _ & Hc & Hb & Hb' & _ & _ & _ & _ & Hsum & Ho).
  injection Ea as <- <- <-. exists e'.
  destruct (confidential_account_eq _ _ _ _ _ _ Hben Hb) as [-> ->]. split; [exact Hb'|].
  assert (m = amount_point 7) as ->.
  { rewrite <- (pplus_0_l m). transitivity (point_sum (withheld_point 1 fee_world) [ann; ben]).
    - rewrite (Hsum 1 [ann; ben]); [by f_equal| |exact sources_distinct|].
    + rewrite (fee_config _ _ Hm Hc). exact keypair_1.
    + assert (match verify_and_extract_context CiphertextCiphertextEqualityProofContext
          ProofType.CiphertextCiphertextEquality [] [info proof_1; signed issuer; info ann; info ben]
          0 None fee_world with Ok ((_, _ :: l), _) => l = [info ann; info ben] | _ => True end) as Hl
        by (vm_compute; reflexivity).
      rewrite Hp in Hl. subst infos. exact sources_listed.
    - vm_compute. reflexivity. }
  rewrite (Ho (-1) (amount_point 1) (amount_point 2) keypair_2) by (vm_compute; reflexivity).
  vm_compute. reflexivity.
Defined.
