(* ===== verification/MetadataExamples.v ===== *)
(** * Concrete metadata and groups

    Instances of the interfaces of the metadata and group crates (a simple
    packing, with their laws), a mint that describes itself, and a mint that
    joins a group. *)
From S2P Require Import Prelude Bytes Errors Ids Runtime Pod ExtensionState Extension TlvTheory.
From S2P Require Import ViewTheory Clean AccountLen MonadTheory Ownership Ledger.
From S2P Require Import VariableLen VariableLenTheory SerializeTheory TokenMetadata.
From S2P Require Import TokenMetadataTheory Examples.

(** ** The interfaces *)

(** An update authority, a mint and some text. *)
Definition Described : Type := (MaybeNull * (Address * list byte))%type.

Definition pack_described (v : Described) : list byte :=
  to_bytes v.1 ++ to_bytes v.2.1 ++ v.2.2.

#[export] Instance described_pack : VariableLenPack Described := {|
  vl_get_packed_len v := Ok (length (pack_described v));
  vl_pack_into_slice v d :=
    if (length d =? length (pack_described v))%nat then Ok (pack_described v)
    else Err ProgramError.InvalidAccountData;
  vl_unpack_from_slice d :=
    if (length d <? 64)%nat then Err ProgramError.InvalidAccountData
    else Ok (from_bytes (take 32 d), (from_bytes (take 32 (drop 32 d)), drop 64 d))
|}.

Lemma described_unpack_pack v : vl_unpack_from_slice (pack_described v) = Ok v.
Proof.
  destruct v as [a [m t]]. unfold pack_described. cbn [vl_unpack_from_slice described_pack fst snd].
  rewrite (proj2 (Nat.ltb_ge _ _)) by (rewrite !length_app, !length_to_bytes; cbn; lia).
  rewrite take_app_length' by (by rewrite length_to_bytes).
  rewrite drop_app_length' by (by rewrite length_to_bytes).
  rewrite take_app_length' by (by rewrite length_to_bytes).
  rewrite app_assoc, drop_app_length' by (by rewrite length_app, !length_to_bytes).
  by rewrite !from_to_bytes.
Qed.

#[export] Instance described_pack_laws : VariableLenPackLaws Described.
Proof.
  split.
  - intros v d d'. cbn [vl_pack_into_slice described_pack]. destruct (Nat.eqb_spec (length d) (length (pack_described v))); [|done].
    intros [= <-]. by symmetry.
  - intros v d d' _. cbn [vl_pack_into_slice described_pack]. case_match; [|done]. intros [= <-]. apply described_unpack_pack.
Qed.

#[export] Instance example_metadata : TokenMetadataInterface := {|
  TokenMetadata := Described;
  Field := unit;
  tm_new name symbol uri a m := (a, (m, name ++ symbol ++ uri));
  tm_update_authority v := v.1;
  tm_set_update_authority a v := (a, v.2);
  tm_mint v := v.2.1;
  tm_update _ value v := (v.1, (v.2.1, value));
  tm_remove_key _ v := (false, v);
  tm_get_slice d _ _ := Some d;
  tm_unpack _ := None;
  tm_pack := described_pack;
  tm_ImmutableMetadata := ProgramError.Custom 1;
  tm_IncorrectUpdateAuthority := ProgramError.Custom 2;
  tm_IncorrectMintAuthority := ProgramError.Custom 3;
  tm_KeyNotFound := ProgramError.Custom 4
|}.

#[export] Instance example_metadata_laws : TokenMetadataLaws.
Proof. split; try done. apply described_pack_laws. Qed.

#[export] Instance example_groups : TokenGroupInterface := {|
  tg_new m a n := mk_tg a m (u64_new 0) (u64_new n);
  tg_update_max_size n g :=
    if u64_get (tg_size g) <=? n
    then Ok (mk_tg (tg_update_authority g) (tg_mint g) (tg_size g) (u64_new n))
    else Err (ProgramError.Custom 1);
  tg_increment_size g :=
    let n := u64_get (tg_size g) + 1 in
    if n <=? u64_get (tg_max_size g)
    then Ok (n, mk_tg (tg_update_authority g) (tg_mint g) (u64_new n) (tg_max_size g))
    else Err (ProgramError.Custom 2);
  tgm_new m g n := mk_tgm m g (u64_new n);
  tg_unpack _ := None;
  tg_ImmutableGroup := ProgramError.Custom 3;
  tg_IncorrectUpdateAuthority := ProgramError.Custom 4;
  tg_IncorrectMintAuthority := ProgramError.Custom 5;
  tg_MemberAccountIsGroupAccount := ProgramError.Custom 6
|}.

#[export] Instance example_group_laws : TokenGroupLaws.
Proof.
  split; try done.
  - intros n g g' _. cbn. destruct (Z.leb_spec (u64_get (tg_size g)) n); split.
    + by intros [= <-].
    + by intros [_ ->].
    + done.
    + lia.
  - intros g n g'. cbn. destruct (Z.leb_spec (u64_get (tg_size g) + 1) (u64_get (tg_max_size g))); split.
    + by intros [= <- <-].
    + by intros (-> & _ & ->).
    + done.
    + lia.
Qed.

(** ** A mint with metadata *)

Definition described_entries (text : list byte) : list Entry :=
  [(18, to_bytes (mk_mp mint_owner mint_key)); (19, pack_described (alice_owner, (mint_key, text)))].

Definition described_state (text : list byte) : PodStateMut PodMint :=
  mk_state_mut (mk_mint (some_addr mint_owner) (u64_new 1000) x06 x01 (some_addr mint_owner))
    (replicate 83 x00) [x01] (tlv_encode (described_entries text)).

Definition described_world : World :=
  mk_world (list_to_map [(mint_key, example_cell (repack (described_state [x41; x42])))]) [].

Definition example_update : M unit :=
  token_metadata.process_instruction id [info mint_key; signed alice_owner]
    (TokenMetadataInstruction.UpdateField tt [x43; x44; x45]).

(** A mint with the given entries, and what the theorems need to know of it. *)
Definition mint_with (es : list Entry) : PodStateMut PodMint :=
  mk_state_mut (mk_mint (some_addr mint_owner) (u64_new 1000) x06 x01 (some_addr mint_owner))
    (replicate 83 x00) [x01] (tlv_encode es).

Lemma mint_with_unpack es :
  length (repack (mint_with es)) <> Multisig_LEN ->
  unpack_mut PodMint (repack (mint_with es)) = Ok (mint_with es).
Proof. intros Hl. apply unpack_mut_repack; [by vm_compute|]. split; [done|by right]. Qed.

Lemma mint_with_entries es : Forall entry_ok es -> tlv_holds (tlv_data (mint_with es)) es.
Proof. intros Hes. split; [done|]. exists 0%nat. by rewrite app_nil_r. Qed.

Lemma example_resize_zeroes : resize_zeroes.
Proof. by intros d n d' [= <-]. Qed.

Ltac entries_ok := repeat constructor; vm_compute; discriminate.

Lemma process_metadata_update_spec_witness :
  exists st' : PodStateMut PodMint,
    after example_update described_world = store mint_key st' described_world /\
    get_variable_len_extension (TokenMetadata (TokenMetadataInterface := example_metadata)) st' =
      Ok (alice_owner, (mint_key, [x43; x44; x45])).
Proof.
  destruct (process_metadata_update_spec (TM := example_metadata) id (info mint_key) (signed alice_owner) []
    (TokenMetadataInstruction.UpdateField tt [x43; x44; x45]) described_world
    (after example_update described_world) (described_state [x41; x42]) (described_entries [x41; x42]))
    as (_ & old & new & st' & (b & Hb & Hold) & _ & Hn & _ & Hw & _ & _ & Hr & _).
  - exact example_resize_zeroes.
  - reflexivity.
  - split; [apply mint_with_unpack; vm_compute; discriminate|apply mint_with_entries; entries_ok].
  - runs.
  - exists st'. split; [exact Hw|]. etransitivity; [exact Hr|]. f_equal.
    injection Hb as <-. rewrite described_unpack_pack in Hold. injection Hold as <-.
    injection Hn as <-. reflexivity.
Defined.

(** Three entries, and the middle one cut to one byte. *)
Definition three_entries (v : list byte) : list Entry := [(18, [x01; x02]); (19, v); (20, [x05])].

Lemma realloc_spec_witness :
  realloc ExtensionType.TokenMetadata 1 (mint_with (three_entries [x03; x04])) =
  Ok (with_tlv_data (tlv_encode (three_entries [x03]) ++ [x00]) (mint_with (three_entries [x03; x04])),
      10%nat, 11%nat).
Proof.
  destruct (realloc_spec ExtensionType.TokenMetadata 1 (mint_with (three_entries [x03; x04]))
    [(18, [x01; x02])] [x03; x04] [(20, [x05])] 0
    (mk_tlv_data_info [ExtensionType.MetadataPointer; ExtensionType.TokenMetadata;
                       ExtensionType.GroupPointer] 17)) as [E _].
  - entries_ok.
  - entries_ok.
  - by rewrite app_nil_r.
  - vm_compute. reflexivity.
  - rewrite E. vm_compute. reflexivity.
Defined.

(** ** A group and its member *)

Definition group_mint : Address := addr 30.
Definition example_group (size : Z) : TokenGroup :=
  mk_tg alice_owner group_mint (u64_new size) (u64_new 3).

Definition member_entries : list Entry := [(22, to_bytes (mk_gmp mint_owner mint_key))].

Definition group_world : World :=
  mk_world (list_to_map
    [(group_mint, example_cell (repack (mint_with [(21, to_bytes (example_group 2))])));
     (mint_key, example_cell (repack (mint_with member_entries)))]) [].

Definition example_join : M unit :=
  token_group.process_initialize_member id
    [info mint_key; info mint_key; signed mint_owner; info group_mint; signed alice_owner].

Lemma process_initialize_member_spec_witness :
  exists g st', signed_by (tg_update_authority g) (signed alice_owner) /\
    u64_get (tg_size g) + 1 <= u64_get (tg_max_size g) /\
    extension_added ExtensionType.TokenGroupMember
      (to_bytes (mk_tgm mint_key group_mint (u64_new (u64_get (tg_size g) + 1))))
      (mint_with member_entries) st' member_entries.
Proof.
  destruct (process_initialize_member_spec id (info mint_key) (info mint_key) (signed mint_owner)
    (info group_mint) (signed alice_owner) [] group_world (after example_join group_world)
    (mint_with member_entries) member_entries)
    as (_ & _ & _ & stg & g & put & st' & _ & _ & Hs & Hle & _ & Ha).
  - exact example_resize_zeroes.
  - split; [apply mint_with_unpack; vm_compute; discriminate|apply mint_with_entries; entries_ok].
  - runs.
  - exists g, st'. split; [exact Hs|]. split; [exact Hle|exact Ha].
Defined.
