(* ===== verification/ExecutionExamples.v ===== *)
(** * A concrete execution

    A mint and an account are created, tokens minted, and the account grown; on
    another mint, tokens are deposited to a confidential balance: the theorems on
    executions and growth applied to them. *)
From stdpp Require Import relations.
From S2P Require Import Prelude Bytes Errors Ids Runtime Pod ExtensionState Extension TlvTheory.
From S2P Require Import ViewTheory Clean AccountLen MonadTheory Ownership Ledger TransferTheory.
From S2P Require Import PodInstruction FeesTheory LifecycleTheory State StateTheory Reallocate UiAmount.
From S2P Require Import Transfer Processor Backing BackingTheory Examples InstructionTheory.
From S2P Require Import VariableLen SerializeTheory TokenMetadata MetadataExamples.
From S2P Require Import CiphertextArithmetic ProofExtraction ConfidentialTransfer BackingConfidential.
From S2P Require Import ConfidentialExamples.

(** Decimals are not used here, so any reading of [f64] will do. *)
#[export] Instance example_float64 : Float64 := {|
  f64 := Z; f64_of_Z z := z; f64_decimal z _ := z; f64_from_le_bytes _ := 0;
  f64_mul := Z.mul; f64_div := Z.div; f64_pow a n := a ^ Z.of_nat n; f64_exp a := a;
  f64_round a := a; f64_trunc a := a; f64_ltb := Z.ltb; f64_is_nan _ := false;
  f64_as_u64 a := a; f64_fixed _ _ := []; f64_parse _ := None
|}.

Lemma token_data_kept_refl w : token_data_kept w w.
Proof. intros k. split; [done|]. by intros ? ?. Qed.

Lemma token_data_kept_set a c w :
  cell_owner (cell w a) <> id ->
  (cell_owner c = id -> Forall (fun b => b = x00) (cell_data c)) -> token_data_kept w (set_cell a c w).
Proof.
  intros Ha Hc k. rewrite cell_set_cell_case. case_decide; [subst|by split]. split; [done|]. by intros _.
Qed.

Lemma example_sound_runtime : sound_runtime.
Proof.
  split.
  - by intros d n d' [= <-].
  - exact example_hook_keeps_tokens.
  - intros ? ? ? ? ? [= <-]. apply token_data_kept_refl.
  - intros a n w w'. cbn [rt_system_allocate example_runtime]. case_bool_decide as E; [|done].
    case_bool_decide; [|done]. intros [= <-].
    assert (cell_owner (cell w a) <> id) as Hne by (rewrite E; vm_compute; discriminate). split.
    + apply token_data_kept_set; [done|]. by intros Ho.
    + exact E.
  - intros a o w w'. cbn [rt_system_assign example_runtime]. case_bool_decide as E; [|done].
    case_bool_decide; [|done]. intros [= <-]. apply token_data_kept_set; [|done].
    rewrite E. vm_compute. discriminate.
  - vm_compute. discriminate.
Qed.

(** A mint and an account, and a mint and an account with room for confidential
    balances, all blank; and the context of a proof that a key is valid. *)
Definition hidden_mint : Address := addr 40.
Definition hidden_alice : Address := addr 41.
Definition proof_account : Address := addr 42.

Definition blank_world : World :=
  mk_world (list_to_map
    [(new_mint, example_cell (replicate 82 x00)); (alice, example_cell (replicate 165 x00));
     (hidden_mint, example_cell (replicate 235 x00)); (hidden_alice, example_cell (replicate 465 x00));
     (proof_account, mk_cell 1000 (x04 :: bytes_list ciphertext_arithmetic.H) zk_id)]) [].

Definition ix (accounts : list AccountInfo) (input : list byte) : InnerInstruction :=
  (accounts, input).

Definition create_mint : InnerInstruction :=
  ix [info new_mint] (x14 :: x06 :: to_bytes mint_owner ++ [x00]).
Definition create_account : InnerInstruction :=
  ix [info alice; info new_mint] (x12 :: to_bytes alice_owner).
Definition mint_500 : InnerInstruction :=
  ix [info new_mint; info alice; signed mint_owner] (x07 :: to_le_bytes 8 500).

(** Confidential: the mint approves new accounts; 70000 of 100000 are deposited. *)
Definition create_hidden : list InnerInstruction :=
  [ix [info hidden_mint] (x1b :: x00 :: to_bytes (confidential_transfer.mk_initialize_mint
     (zeroed 32) x01 (zeroed 32)));
   ix [info hidden_mint] (x14 :: x06 :: to_bytes mint_owner ++ [x00]);
   ix [info hidden_alice; info hidden_mint] (x12 :: to_bytes alice_owner);
   ix [info hidden_mint; info hidden_alice; signed mint_owner] (x07 :: to_le_bytes 8 100000);
   ix [info hidden_alice; info hidden_mint; info proof_account; signed alice_owner]
     (x1b :: x02 :: to_bytes (confidential_transfer.mk_configure_account (zeroed 36) (u64_new 9) x00))].
Definition deposit_70000 : InnerInstruction :=
  ix [info hidden_alice; info hidden_mint; signed alice_owner]
    (x1b :: x05 :: to_bytes (confidential_transfer.mk_deposit (u64_new 70000) x06)).

Definition runs_ix (i : InnerInstruction) (w : World) : World := after (process id i.1 i.2) w.
Definition run_all (l : list InnerInstruction) (w : World) : World :=
  foldl (fun w i => runs_ix i w) w l.

Definition history_2 : list InnerInstruction := [create_mint; create_account].
Definition world_2 : World := run_all history_2 blank_world.
Definition world_3 : World := runs_ix mint_500 world_2.
Definition history_3 : list InnerInstruction := history_2 ++ [mint_500].
Definition history_5 : list InnerInstruction := create_hidden ++ [deposit_70000].

Lemma cell_list_to_map (P : Address -> Cell -> Prop) l rd k :
  Forall (fun e => P e.1 e.2) l -> P k empty_cell -> P k (cell (mk_world (list_to_map l) rd) k).
Proof.
  intros Hl He. unfold cell. cbn [cells]. induction Hl as [|[k' c] l Hc _ IH]; [done|].
  cbn [list_to_map foldr fst snd]. destruct (decide (k' = k)) as [->|Hne].
  - by rewrite lookup_insert_eq.
  - by rewrite lookup_insert_ne.
Qed.

Lemma example_genesis : genesis blank_world.
Proof.
  intros k. apply (cell_list_to_map (fun _ c => cell_owner c = id -> zeroes (cell_data c))).
  - repeat (apply Forall_cons; split); [..|done]; cbn [fst snd]; intros Ho;
      first [by apply Forall_replicate|by vm_compute in Ho].
  - intros _. constructor.
Qed.

(** The instructions succeed one after the other, and none is a batch. *)
Fixpoint example_runs (l : list InnerInstruction) (w : World) : bool :=
  match l with
  | [] => true
  | i :: l =>
      is_ok (process id i.1 i.2 w) &&
      (match decode_type i.2 with Ok PodTokenInstruction.Batch => false | _ => true end) &&
      example_runs l (runs_ix i w)
  end.

Lemma example_steps l w0 tr w :
  example_runs l w = true -> execution w0 tr w -> execution w0 (tr ++ l) (run_all l w).
Proof.
  revert w tr. induction l as [|[accounts input] l IH]; intros w tr H He; [by rewrite app_nil_r|].
  cbn [example_runs fst snd] in H. apply andb_true_iff in H as [[Hr Hb]%andb_true_iff H].
  change (tr ++ (accounts, input) :: l) with (tr ++ [(accounts, input)] ++ l). rewrite app_assoc.
  apply IH; [done|]. eapply execution_step; [done|].
  apply (step_process _ id accounts input); [by apply run_after|].
  apply one_instruction. by destruct (decode_type input) as [[]| |].
Qed.

Lemma example_execution l :
  example_runs l blank_world = true -> execution blank_world l (run_all l blank_world).
Proof. intros H. apply (example_steps l blank_world []); [done|constructor]. Qed.

(** Only the deposit credits. *)
Ltac credits_0 :=
  cbn [fst snd];
  match goal with |- 0 <= ?x => let y := eval vm_compute in x in
    change (0 <= y); first [done|case_match; done] end.
Ltac credits := unfold no_withdrawal, history_3, history_2, history_5, create_hidden; cbn [app];
  repeat (apply Forall_cons; split); [..|constructor]; credits_0.

Lemma difference c p s n k : c + p = s -> s = n -> p = k -> c = n - k.
Proof. lia. Qed.

Lemma reachable_supply_is_circulation_witness :
  circulation new_mint (run_all history_3 blank_world) = 500 /\
  circulation hidden_mint (run_all history_5 blank_world) = 30000.
Proof.
  pose proof (fun l => reachable_supply_is_circulation blank_world l (run_all l blank_world)
    example_sound_runtime example_genesis) as Hall.
  split.
  - destruct (Hall history_3) as [E _]; [apply example_execution; vm_compute; reflexivity|].
    destruct (E new_mint) as (_ & _ & E1); [vm_compute; discriminate|].
    refine (difference _ _ _ 500 0 (E1 (or_intror _)) _ _); [credits|vm_compute; reflexivity..].
  - destruct (Hall history_5) as [E _]; [apply example_execution; vm_compute; reflexivity|].
    destruct (E hidden_mint) as (_ & _ & E1); [vm_compute; discriminate|].
    refine (difference _ _ _ 100000 70000 (E1 (or_intror _)) _ _); [credits|vm_compute; reflexivity..].
Defined.

Lemma kinds_stay_until_closed_witness : cell_owner (cell world_3 alice) = id.
Proof.
  assert (execution blank_world history_2 world_2) as Hw
    by (apply example_execution; vm_compute; reflexivity).
  assert (rtc (open_step alice) world_2 world_3) as Hr.
  { apply rtc_once. split; [|intros [Hne _]; vm_compute in Hne; by apply Hne].
    apply (instruction_inner _ _ id mint_500); runs. }
  destruct (kinds_stay_until_closed blank_world _ world_2 world_3 alice example_sound_runtime
    example_genesis Hw Hr) as [Ho _]; [vm_compute; reflexivity|exact Ho].
Defined.

(** ** Growing *)

Definition example_reallocate : M unit :=
  process_reallocate id [info alice; signed bob; info bob; signed alice_owner]
    [ExtensionType.MemoTransfer].

Lemma process_reallocate_spec_witness :
  circulation new_mint (after example_reallocate world_3) = 500 /\
  length (cell_data (cell (after example_reallocate world_3) alice)) = 171%nat.
Proof.
  assert (example_reallocate world_3 = Ok (tt, after example_reallocate world_3)) as H by runs.
  destruct example_sound_runtime as [Hr _ Hs _ _ _].
  destruct (process_reallocate_spec _ _ _ _ _ Hr Hs H)
    as (ti & payer & sys & auth & signers & st & inf & needed & Ea & _ & Hu & _ & _ & _ & _ & _ & Hc).
  injection Ea as <- <- <- <- <-.
  split; [|vm_compute; reflexivity].
  assert (clean any_entry (tlv_data st)) as Hcl.
  { revert Hu. vm_compute cell_data. vm_compute unpack_mut. intros [= <-]. apply (clean_zeros _ 0). }
  destruct (Hc Hcl new_mint) as [-> _]. vm_compute. reflexivity.
Defined.
