(* ===== verification/ClientExamples.v ===== *)
(** * Instructions that clients build

    A transfer, one that a program makes for a multisig of a mint with a hook, a
    withdrawal from a confidential balance with its proofs in the same
    transaction, a burn whose proofs are half in an account, and a registry: the
    theorems on what clients build applied to them. *)
From stdpp Require Import relations.
From S2P Require Import Prelude Bytes Errors Ids Runtime Pod ExtensionState Extension TlvTheory.
From S2P Require Import ViewTheory AccountLen CiphertextArithmetic CiphertextTheory ProofExtraction.
From S2P Require Import MonadTheory Ownership State Ledger Transfer Supply PodInstruction.
From S2P Require Import Settings Fees ConfidentialTransfer ConfidentialTransferFee.
From S2P Require Import ConfidentialMintBurn TokenMetadata UiAmount Instruction Processor.
From S2P Require Import ExtensionInstructions ConfidentialInstructions ClientTheory.
From S2P Require Import ExtensionClientTheory ConfidentialClientTheory Onchain Registry.
From S2P Require Import Examples ConfidentialExamples ConfidentialRuns MetadataExamples.
From S2P Require Import ExecutionExamples TokenClient MintCreation.

(** ** Instructions *)

Definition length_prefixed (d : list byte) : list byte :=
  to_le_bytes 2 (Z.of_nat (length d)) ++ d.

(** The byte of a proof instruction. *)
Definition proof_instruction_byte (i : ProofInstruction) : byte :=
  u8_of_Z (default 0 (Z.of_nat ∘ fst <$> list_find (fun j => j = i) proof_instructions)).

(** A proof is the bytes of its context; the instruction that verifies it has
    them after its own byte. *)
#[export] Instance example_proofs : ZkProofs := {|
  ZkProofData _ := list byte;
  encode_verify_proof i _ d := mk_instruction proof_program [] (proof_instruction_byte i :: d);
  sysvar_instructions_id := sysvar_id
|}.

Definition included {ty} (offset : Z) (proof : list byte) : ProofLocation ty :=
  InstructionOffset offset (proof : ZkProofData ty).

Lemma client_instructions_execute_witness :
  (exists ix, transfer_checked id alice mint_key bob alice_owner [] 200 x06 = Ok ix /\
    execute ix = process_transfer id
      [rw alice; ro mint_key; rw bob; mk_info alice_owner true false] 200
      (TransferInstruction.Checked x06)) /\
  exists ix, confidential_transfer_instruction.empty_account id alice alice_owner []
      (included 1 [x09]) = Ok [ix; mk_instruction proof_program [] [x01; x09]] /\
    execute ix = confidential_transfer.process_empty_account id
      [rw alice; ro sysvar_id; mk_info alice_owner true false] 1.
Proof.
  destruct client_instructions_execute as [Hsingle Hseveral]. split.
  - apply Hsingle. left.
    apply (client_transfer_checked alice mint_key bob alice_owner [] 200 x06).
    vm_compute. split; discriminate.
  - apply (Hseveral _ [mk_instruction proof_program [] [x01; x09]]).
    exact (clients_empty alice alice_owner [] (included 1 [x09]) eq_refl).
Defined.

(** ** A transfer that another program makes for a multisig *)

(** Two of three may act for [trio], which owns [shared]; the mint has a hook. *)
Definition trio : Address := addr 80.
Definition shared : Address := addr 81.
Definition hooked : Address := addr 82.
Definition hook_program : Address := addr 83.

Definition trio_multisig : PodMultisig :=
  set_signer 0 ann_owner (set_signer 1 ben_owner (set_signer 2 issuer
    (mk_multisig x02 x03 x01 (zeroed _)))).

(** The hook needs its program, which must be among the additional accounts; a
    call runs the token program. *)
#[export] Instance example_hook_resolution : HookResolution := {|
  add_extra_accounts_for_execute_cpi ix infos p _ _ _ _ _ extra _ :=
    match list_find (fun i => key i = p) extra with
    | Some (_, i) =>
        Ok (mk_instruction (ix_program_id ix) (ix_accounts ix ++ [new_readonly p false]) (ix_data ix),
            infos ++ [i])
    | None => Err ProgramError.InvalidArgument
    end;
  invoke_signed ix _ _ w := '(_, w') ← execute ix w; mret w'
|}.

Lemma example_resolves : resolves_from_additional.
Proof.
  intros ix infos p si mi di ai n extra w ix' infos' H.
  unfold add_extra_accounts_for_execute_cpi, example_hook_resolution in H.
  destruct (list_find (fun i => key i = p) extra) as [[j i]|] eqn:Ef; [|done].
  apply list_find_Some in Ef as (Hj & <- & _). injection H as <- <-.
  exists [new_readonly (key i) false], [i]. split_and!; [done..|].
  intros k Hk. apply list_elem_of_singleton in Hk as ->.
  by eapply list_elem_of_fmap_2, list_elem_of_lookup_2.
Qed.

Definition hook_world : World := world_of
  [(hooked, example_cell (mint_data 1000 [entry (mk_th (zeroed 32) hook_program)]));
   (shared, example_cell (to_bytes (mk_account hooked trio (u64_new 700) no_address x01
      (PodCOption.none (u64_new 0)) (u64_new 0) no_address) ++ [x02] ++
      tlv_encode [entry (mk_tha x00)]));
   (bob, example_cell (to_bytes (mk_account hooked bob (u64_new 0) no_address x01
      (PodCOption.none (u64_new 0)) (u64_new 0) no_address) ++ [x02] ++
      tlv_encode [entry (mk_tha x00)]));
   (trio, example_cell (to_bytes trio_multisig))].

Definition additional : list AccountInfo := [info hook_program; signed ben_owner; signed issuer].

Definition gathered_transfer :=
  transfer_instruction_and_account_infos id (info shared) (info hooked) (info bob) (info trio)
    additional 300 x02 None.

Definition gathered_instruction : Instruction :=
  match gathered_transfer hook_world with Ok (ix, _, _) => ix | _ => mk_instruction id [] [] end.

Lemma onchain_transfer_authorized_witness :
  (exists infos, gathered_transfer hook_world = Ok (gathered_instruction, infos, hook_world)) /\
  (exists auth rest, authorizes id trio auth 355 rest hook_world /\
     execute gathered_instruction = process_transfer id
       (rw shared :: ro hooked :: rw bob :: auth :: rest) 300 (TransferInstruction.Checked x02)) /\
  is_ok (execute gathered_instruction hook_world) = true.
Proof.
  destruct (onchain_transfer_authorized (info shared) (info hooked) (info bob) (info trio) additional
    300 x02 None hook_world example_resolves) as [_ H].
  - vm_compute. split; discriminate.
  - done.
  - assert (exists infos, gathered_transfer hook_world = Ok (gathered_instruction, infos, hook_world))
      as [infos E] by (eexists; vm_compute; reflexivity).
    split; [by exists infos|]. split; [|vm_compute; reflexivity].
    destruct (H _ _ _ E) as (_ & _ & auth & rest & Hk & _ & He & Ha). exists auth, rest.
    split; [|exact He]. rewrite Hk in Ha.
    assert (length (cell_data (cell hook_world (key (info trio)))) = 355%nat) as El by reflexivity.
    rewrite El in Ha. apply Ha. split; [reflexivity|]. intros _. exists trio_multisig.
    split; [reflexivity|]. split; vm_compute; [reflexivity|discriminate].
Defined.

(** ** The proofs of a withdrawal *)

Definition remaining : CiphertextCommitmentEqualityProofContext :=
  mk_commitment_equality (bytes_of_list 32 [x51]) (bytes_of_list 64 [x52]) (bytes_of_list 32 [x53]).
Definition remaining_bits : list byte :=
  to_bytes (eq_commitment remaining) ++ concat (replicate 7 (replicate 32 x00)) ++
  u8_of_Z 64 :: replicate 7 x00.

(** The equality proof is in an account, the range proof in the transaction. *)
Definition equality_account : Address := bytes_of_list 32 [x61].
Definition withdraw_proofs_world : World := world_of
  [(equality_account, mk_cell 0
      (proof_type_byte ProofType.CiphertextCommitmentEquality :: to_bytes remaining) proof_program);
   (sysvar_id, mk_cell 0
      (length_prefixed (proof_instruction_byte ProofInstruction.VerifyBatchedRangeProofU64 ::
                        remaining_bits)) (zeroed 32))].

Definition remaining_range : BatchedRangeProofContext :=
  default (mk_batched_range [] []) (parse_range remaining_bits).

Definition withdraw_range : ProofLocation ProofType.BatchedRangeProofU64 := included 1 remaining_bits.
Definition equality_in_account : ProofLocation ProofType.CiphertextCommitmentEquality :=
  ContextStateAccount equality_account.

(** The client's instructions, and what the handler then reads with the second
    in the transaction. *)
Lemma client_proofs_found_witness :
  exists ix iter,
    confidential_transfer_instruction.withdraw id alice mint_key 300 x02 (zeroed 36) alice_owner []
      equality_in_account withdraw_range =
    Ok [ix; encode_verify_proof ProofInstruction.VerifyBatchedRangeProofU64
              ProofType.BatchedRangeProofU64 remaining_bits] /\
    execute ix = confidential_transfer.process_withdraw id (rw alice :: ro mint_key :: iter) 300 x02
      (zeroed 36) 0 1 /\
    confidential_transfer.verify_withdraw_proof [] iter 0 1 withdraw_proofs_world =
    Ok ((mk_withdraw_proof (bytes_of_list 32 [x51]) (bytes_of_list 64 [x52]),
         authority_infos alice_owner []),
        withdraw_proofs_world).
Proof.
  destruct (client_proofs_found _ (use_withdraw alice mint_key 300 x02 (zeroed 36) alice_owner []
    equality_in_account withdraw_range remaining remaining_range ltac:(vm_compute; split; discriminate))
    eq_refl) as (ix & verifiers & iter & Hb & He & Hf).
  assert (verifiers = [encode_verify_proof ProofInstruction.VerifyBatchedRangeProofU64
    ProofType.BatchedRangeProofU64 remaining_bits]) as ->.
  { assert (confidential_transfer_instruction.withdraw id alice mint_key 300 x02 (zeroed 36)
      alice_owner [] equality_in_account withdraw_range = Ok (ix :: verifiers)) as E by exact Hb.
    clear - E. vm_compute in E. injection E as _ <-. vm_compute. reflexivity. }
  exists ix, iter. split; [exact Hb|]. split; [exact He|].
  specialize (Hf withdraw_proofs_world). etransitivity; [apply Hf|vm_compute; reflexivity].
  - intros [|[|i]] x Hi; [|done|done]. injection Hi as <-. vm_compute. reflexivity.
  - vm_compute. split_and!; reflexivity.
Defined.

(** ** A burn that cannot run *)

Lemma permissioned_burn_needs_sysvar_witness :
  exists ix verifiers,
    permissioned_confidential_burn_instruction.confidential_burn_with_split_proofs id alice mint_key
      bob (zeroed 36) (zeroed 64) (zeroed 64) alice_owner [] (ContextStateAccount equality_account)
      (included 1 [x01]) (included 2 [x02]) = Ok (ix :: verifiers) /\
    forall w res, execute ix w <> Ok res.
Proof.
  apply permissioned_burn_needs_sysvar.
  - intros offset k d Hk r. cbn. by rewrite bool_decide_false by exact Hk.
  - vm_compute. discriminate.
  - reflexivity.
  - reflexivity.
Defined.

(** ** A registry on concrete accounts

    A registry is created at the address derived from a wallet, with a proof in
    an account, and then gets a new key: the theorem on registries applied to
    the two steps. *)

(** The address is the last seed with a mark. *)
#[export] Instance example_addresses : ProgramAddresses := {|
  find_program_address seeds _ := (bytes_of_list 32 (x52 :: concat (reverse seeds)), xff)
|}.

Definition wallet : Address := addr 90.
Definition wallet_registry : Address := get_elgamal_registry_address wallet elgamal_registry.id.

Definition registry_genesis : World :=
  world_of [(wallet_registry, mk_cell 5000 [] (zeroed 32));
            (proof_1, context_cell ProofType.PubkeyValidity (mk_pubkey_validity key_1));
            (proof_2, context_cell ProofType.PubkeyValidity (mk_pubkey_validity key_2))].

Definition create_accounts : list AccountInfo :=
  [rw wallet_registry; mk_info wallet true false; ro (zeroed 32); ro proof_1].
Definition update_accounts : list AccountInfo :=
  [rw wallet_registry; ro proof_2; mk_info wallet true false].

Definition example_create : M unit :=
  process_registry_instruction elgamal_registry.id create_accounts
    (RegistryInstruction.pack (CreateRegistry 0)).
Definition example_update : M unit :=
  process_registry_instruction elgamal_registry.id update_accounts
    (RegistryInstruction.pack (UpdateRegistry 0)).

Definition registry_world : World := after example_create registry_genesis.

Lemma example_system_program_rules : system_program_rules.
Proof.
  split.
  - intros a n w w'. cbn [rt_system_allocate example_runtime]. case_bool_decide as Eo; [|done].
    case_bool_decide as Ed; [|done]. by intros [= <-].
  - intros a o w w'. cbn [rt_system_assign example_runtime]. case_bool_decide; [|done].
    case_bool_decide; [|done]. by intros [= <-].
Qed.

Lemma example_no_registries k : cell_owner (cell registry_genesis k) <> elgamal_registry.id.
Proof.
  unfold registry_genesis, world_of, cell. cbn [cells list_to_map foldr fst snd].
  rewrite !lookup_insert. repeat case_decide; vm_compute; discriminate.
Qed.

Lemma registries_belong_to_wallets_witness :
  registry_at registry_world wallet_registry = Some (mk_registry wallet key_1) /\
  wallet_registry = get_elgamal_registry_address wallet elgamal_registry.id /\
  example_update registry_world = Ok (tt, after example_update registry_world) /\
  wallet_signed registry_world update_accounts (mk_registry wallet key_2).
Proof.
  assert (example_create registry_genesis = Ok (tt, registry_world)) as Hc by runs.
  assert (example_update registry_world = Ok (tt, after example_update registry_world)) as Hu by runs.
  destruct (registries_belong_to_wallets registry_genesis registry_world
    example_system_program_rules ltac:(vm_compute; discriminate) example_no_registries
    (rtc_once _ _ (registry_instruction _ _ _ _ Hc))) as [Hd Hs].
  assert (registry_at registry_world wallet_registry = Some (mk_registry wallet key_1)) as Hr
    by (vm_compute; reflexivity).
  split; [done|]. split; [|split; [done|]].
  - destruct (Hd _ _ Hr) as [E|E]; [vm_compute in E; discriminate|exact E].
  - refine (proj1 (Hs _ _ _ wallet_registry _ Hu _ _)); [vm_compute; reflexivity|].
    rewrite Hr. vm_compute. discriminate.
Defined.

(** ** A mint with three extensions *)

Definition new_mint : Address := addr 90.
Definition new_mint_params : list ExtensionInitializationParams :=
  [ExtensionInitializationParams.TransferFeeConfig (Some issuer) None 50 5000;
   ExtensionInitializationParams.DefaultAccountState AccountState.Frozen;
   ExtensionInitializationParams.MetadataPointer (Some issuer) (Some new_mint)].

Definition new_mint_client : Token :=
  token.new_token id new_mint (Some x09) alice_owner.
Definition new_mint_state : ClientState unit := mk_client_state [] tt None.

(** 166 bytes, and 112, 5 and 68 for the extensions. *)
Definition new_mint_world : World := world_of
  [(new_mint, mk_cell 5000000 (replicate 351 x00) id)].

Definition new_mint_sent : Result Failure unit * ClientState unit :=
  token.create_mint new_mint_client issuer (Some issuer) new_mint_params [new_mint] new_mint_state.

Lemma create_mint_creates_witness :
  exists create ixs (st : PodStateMut PodMint),
    new_mint_sent = (Ok tt, mk_client_state (create :: ixs) tt None) /\ length ixs = 4%nat /\
    execute_all ixs new_mint_world =
      Ok (tt, set_cell new_mint (mk_cell 5000000 (repack st) id) new_mint_world) /\
    get_extension TransferFeeConfig st =
      Ok (mk_tfc issuer (zeroed 32) (u64_new 0) (mk_tf (u64_new 5) (u64_new 5000) (u16_new 50))
            (mk_tf (u64_new 5) (u64_new 5000) (u16_new 50))).
Proof.
  destruct (create_mint_creates (mk_clock 5 1000) new_mint_client x09 issuer (Some issuer)
    new_mint_params [new_mint] new_mint_state new_mint_state) as (space & Hlen & Hrun).
  - done.
  - done.
  - done.
  - refine (bool_decide_unpack _ _). vm_compute. exact I.
  - vm_compute. reflexivity.
  - vm_compute. reflexivity.
  - by eexists.
  - assert (space = 351%nat) as -> by (vm_compute in Hlen; congruence).
    destruct (Hrun 5000000 example_rent new_mint_world) as (ixs & st & Hm & Hx & _ & _ & _ & _ & Hs).
    + reflexivity.
    + discriminate.
    + reflexivity.
    + reflexivity.
    + vm_compute. reflexivity.
    + eexists _, ixs, st.
      split; [exact Hm|]. split.
      { assert ((fun s => length (network s)) new_mint_sent.2 = 5%nat) as E
          by (vm_compute; reflexivity).
        unfold new_mint_sent in E. rewrite Hm in E. cbn in E. by injection E as ->. }
      split; [exact Hx|]. apply Forall_cons in Hs as [Hs _]. exact Hs.
Defined.
