(* ===== verification/ProofExamples.v ===== *)
(** * A concrete SDK

    The SDK over the group of [ConfidentialExamples], with openings that count
    up from a seed, its laws, the theorems on generated proofs applied to a
    balance of 1000, and a client that applies what is pending on its account and
    withdraws. *)
From stdpp Require Import vector.
From S2P Require Import Prelude Bytes Errors Ids Runtime Pod ExtensionState Extension TlvTheory.
From S2P Require Import ViewTheory TransferFee CiphertextArithmetic CiphertextTheory.
From S2P Require Import ProofExtraction MonadTheory Ownership Ledger TransferTheory PodInstruction.
From S2P Require Import FeesTheory ConfidentialTransfer ConfidentialPure ConfidentialTheory.
From S2P Require Import Instruction ExtensionInstructions ConfidentialInstructions ProofGeneration.
From S2P Require Import ClientBalances ProofGenerationTheory ProofAcceptance.
From S2P Require Import ClientBalanceTheory TokenClient ConfidentialClient Examples.
From S2P Require Import ConfidentialExamples ConfidentialRuns.

(** ** The SDK *)

(** A proof is its context. *)
#[export] Instance context_proofs : ZkProofs := {|
  ZkProofData ty :=
    match ty with
    | ProofType.CiphertextCommitmentEquality => CiphertextCommitmentEqualityProofContext
    | ProofType.BatchedGroupedCiphertext2HandlesValidity =>
        BatchedGroupedCiphertext2HandlesValidityProofContext
    | ProofType.BatchedGroupedCiphertext3HandlesValidity =>
        BatchedGroupedCiphertext3HandlesValidityProofContext
    | ProofType.PercentageWithCap => PercentageWithCapProofContext
    | ProofType.BatchedRangeProofU64 | ProofType.BatchedRangeProofU128
    | ProofType.BatchedRangeProofU256 => BatchedRangeProofContext
    | _ => unit
    end;
  encode_verify_proof _ _ _ := mk_instruction proof_program [] [];
  sysvar_instructions_id := sysvar_id
|}.

Definition example_with (n o : Z) : Bytes 32 :=
  pplus (pscale n ciphertext_arithmetic.G) (pscale o ciphertext_arithmetic.H).

Definition example_range (cs : list (Bytes 32)) (bits : list nat) : BatchedRangeProofContext :=
  mk_batched_range (resize 8 (zeroed 32) cs) (resize 8 x00 ((u8_of_Z ∘ Z.of_nat) <$> bits)).

(** A key pair is one of the secrets 1 and -1; a generator is the next opening. *)
#[export] Instance example_sdk : ZkSdk := {|
  ElGamalPubkey := Bytes 32;
  default_pubkey := zeroed 32;
  pubkey_pod pk := pk;
  ElGamalKeypair := bool;
  keypair_pubkey b := if b then ciphertext_arithmetic.H else popp ciphertext_arithmetic.H;
  PedersenCommitment := Bytes 32;
  commitment_pod c := c;
  commitment_add := pplus;
  commitment_sub a b := pplus a (popp b);
  commitment_mul a n := pscale n a;
  PedersenOpening := Z;
  default_opening := 0;
  opening_add := Z.add;
  opening_sub := Z.sub;
  opening_mul := Z.mul;
  pedersen_with := example_with;
  ElGamalCiphertext := (Bytes 32 * Bytes 32)%type;
  ciphertext_pod c := ciphertext_arithmetic.ristretto_to_elgamal_ciphertext c.1 c.2;
  ciphertext_add a b := (pplus a.1 b.1, pplus a.2 b.2);
  ciphertext_sub a b := (pplus a.1 (popp b.1), pplus a.2 (popp b.2));
  ciphertext_mul a n := (pscale n a.1, pscale n a.2);
  subtract_amount a n := (pplus a.1 (popp (pscale n ciphertext_arithmetic.G)), a.2);
  GroupedElGamalCiphertext := Grouped;
  encrypt_with n pks m o :=
    (example_with m o,
     bytes_of_list (32 * n) (concat ((fun pk => bytes_list (pscale o pk)) <$> vec_to_list pks)));
  grouped_commitment _ c := c.1;
  to_elgamal_ciphertext n c i :=
    if (i <? n)%nat
    then Some (c.1, bytes_of_list 32 (slice (bytes_list c.2) (32 * i) (32 * i + 32))) else None;
  g2_pod c := c;
  g3_pod c := c;
  AeKey := unit;
  AeCiphertext := DecryptableBalance;
  ae_decrypt c _ := Some (le_read c mod 2 ^ 64);
  Rng := Z;
  new_rand g := (g, g + 1);
  equality_context p := p;
  grouped_2_context p := p;
  grouped_3_context p := p;
  percentage_context p := p;
  range_u64_context p := p;
  range_u128_context p := p;
  range_u256_context p := p;
  ProofGenerationError := unit;
  build_ciphertext_commitment_equality_proof_data kp c comm _ _ g :=
    Ok (mk_commitment_equality (if (kp : bool) then ciphertext_arithmetic.H
                                else popp ciphertext_arithmetic.H)
          (ciphertext_arithmetic.ristretto_to_elgamal_ciphertext c.1 c.2) comm, g);
  build_batched_grouped_ciphertext_2_handles_validity_proof_data pk1 pk2 lo hi _ _ _ _ g :=
    Ok (mk_grouped_2 pk1 pk2 lo hi, g);
  build_batched_grouped_ciphertext_3_handles_validity_proof_data pk1 pk2 pk3 lo hi _ _ _ _ g :=
    Ok (mk_grouped_3 pk1 pk2 pk3 lo hi, g);
  build_percentage_with_cap_proof_data comm _ _ delta _ _ claimed _ cap g :=
    Ok (mk_percentage_with_cap comm delta claimed (u64_new cap), g);
  build_batched_range_proof_u64_data cs _ bits _ g := Ok (example_range cs bits, g);
  build_batched_range_proof_u128_data cs _ bits _ g := Ok (example_range cs bits, g);
  build_batched_range_proof_u256_data cs _ bits _ g := Ok (example_range cs bits, g)
|}.

(** ** Its laws *)

Lemma slice_concat {A} (k : nat) (ls : list (list A)) i x :
  Forall (fun l => length l = k) ls -> ls !! i = Some x ->
  slice (concat ls) (k * i) (k * i + k) = x.
Proof.
  intros Hls. revert i. induction Hls as [|l ls Hl Hls IH]; intros i; [done|].
  cbn [concat]. destruct i as [|i]; intros Hi.
  - injection Hi as <-. rewrite Nat.mul_0_r, slice_app_l by lia.
    by rewrite slice_0, take_ge by lia.
  - rewrite slice_app_r by lia. rewrite Hl.
    replace (k * S i - k)%nat with (k * i)%nat by lia.
    replace (k * S i + k - k)%nat with (k * i + k)%nat by lia. by apply IH.
Qed.

Lemma length_concat_const {A} (k : nat) (ls : list (list A)) :
  Forall (fun l => length l = k) ls -> length (concat ls) = (k * length ls)%nat.
Proof.
  induction 1 as [|l ls Hl _ IH]; cbn [concat length]; [lia|]. rewrite length_app, Hl, IH. lia.
Qed.

(** The handle of the [i]-th key. *)
Lemma example_handle {n} (pks : vec (Bytes 32) n) o i pk :
  vec_to_list pks !! i = Some pk ->
  bytes_of_list 32 (slice (bytes_list (bytes_of_list (32 * n)
    (concat ((fun pk => bytes_list (pscale o pk)) <$> vec_to_list pks)))) (32 * i) (32 * i + 32)) =
  pscale o pk.
Proof.
  intros Hi. set (hs := (fun pk => bytes_list (pscale o pk)) <$> vec_to_list pks).
  assert (Forall (fun l => length l = 32%nat) hs) as Hhs
    by (apply Forall_fmap, Forall_forall; intros x _; apply length_bytes_list).
  rewrite bytes_list_of_list.
  - rewrite (slice_concat 32 hs i (bytes_list (pscale o pk))), bytes_of_list_list; [done|done|].
    unfold hs. by rewrite list_lookup_fmap, Hi.
  - rewrite (length_concat_const 32 hs Hhs). unfold hs. by rewrite length_fmap, length_vec_to_list.
Qed.

#[export] Instance example_sdk_laws : ZkSdkLaws (Bytes 32).
Proof.
  refine (mk_zk_sdk_laws (Bytes 32) _ _ _ _ _ _
    (fun pk => pk) _ (fun b => if (b : bool) then 1 else -1) _ (fun c => c) _ _ _ _
    (fun o => o) _ _ _ _ _ (fun c => c) _ _ _ _ _ _ _ _ _ _ _).
  all: try done.
  - intros [|]; vm_compute; reflexivity.
  - intros a b x. apply (pscale_plus_l (E := Bytes 32)).
  - intros a b x. apply (pscale_sub (E := Bytes 32)).
  - intros a n x _. change (pscale (a * n) (x : Bytes 32) = pscale n (pscale a x)).
    by rewrite (pscale_mul (E := Bytes 32)), Z.mul_comm.
  - intros n pks m o i pk Hi. exists (example_with m o, pscale o pk). split; [|done].
    assert (i < n)%nat as Hlt
      by (apply lookup_lt_Some in Hi; by rewrite length_vec_to_list in Hi).
    unfold to_elgamal_ciphertext, encrypt_with, example_sdk.
    rewrite (proj2 (Nat.ltb_lt i n) Hlt). cbn [fst snd]. by rewrite (example_handle pks o i pk Hi).
  - intros c i. unfold g2_try_extract_ciphertext, to_elgamal_ciphertext, example_zk, example_sdk,
      grouped_ciphertext. by destruct (i <? 2)%nat.
  - intros c i. unfold g3_try_extract_ciphertext, to_elgamal_ciphertext, example_zk, example_sdk,
      grouped_ciphertext. by destruct (i <? 3)%nat.
Defined.

Lemma example_range_claims (claims : list RangeClaim) :
  example_range (rc_commitment <$> claims) (rc_bits <$> claims) = range_context_of claims.
Proof. unfold example_range, range_context_of. by rewrite <- !list_fmap_compose. Qed.

#[export] Instance example_provers : ZkProvers (Bytes 32).
Proof.
  split; intros; unfold proves; try (do 2 eexists; split; reflexivity).
  all: do 2 eexists; split; [reflexivity|apply example_range_claims].
Qed.

(** ** A balance of 1000 *)

Definition balance_1000 : ElGamalCiphertext :=
  (example_with 1000 5, pscale 5 ciphertext_arithmetic.H).
Definition other_key : ElGamalPubkey := popp ciphertext_arithmetic.H.
Definition example_aes_key : AeKey := tt.
Definition decryptable_1000 : AeCiphertext := le_write 36 1000.

Lemma balance_1000_decrypts :
  decrypt (secret (true : ElGamalKeypair)) (ciphertext_pod balance_1000) = Some (amount_point 1000).
Proof. vm_compute. reflexivity. Qed.

Lemma generated_proofs_accepted_witness :
  transfer_accepted balance_1000 decryptable_1000 300 true example_aes_key other_key None /\
  mint_accepted balance_1000 1000 70000 true other_key None /\
  refuses (withdraw_proof.withdraw_proof_data balance_1000 1000 2000 true)
    TokenProofGenerationError.NotEnoughFunds.
Proof.
  split; [|split].
  - refine (proj1 (proj2 (proj1 (generated_proofs_accepted balance_1000 decryptable_1000 1000 300
      true example_aes_key other_key None _ _ eq_refl balance_1000_decrypts) _) _));
      vm_compute; try split; discriminate || reflexivity.
  - refine (proj1 (proj2 (generated_proofs_accepted balance_1000 decryptable_1000 1000 70000
      true example_aes_key other_key None _ _ eq_refl balance_1000_decrypts)) _ _);
      vm_compute; try split; discriminate || reflexivity.
  - refine (proj1 (proj2 (proj2 (proj2 (generated_proofs_accepted balance_1000 decryptable_1000 1000 2000
      true example_aes_key other_key None _ _ eq_refl balance_1000_decrypts))) _));
      vm_compute; try split; discriminate || reflexivity.
Defined.

(** 2.5 percent of 300, rounded up. *)
Definition fee_250 : TransferFee := mk_tf (u64_new 0) (u64_new 100) (u16_new 250).

Lemma fee_proofs_accepted_witness :
  exists fee, calculate_fee fee_250 300 = Some fee /\ fee = 8 /\
    is_ok (transfer_with_fee_proof.transfer_with_fee_split_proof_data balance_1000 decryptable_1000
             300 true example_aes_key other_key None other_key 250 100 0) = true.
Proof.
  destruct (fee_proofs_accepted balance_1000 decryptable_1000 1000 300 true example_aes_key
    other_key None other_key fee_250) as [Hc _].
  - vm_compute; split; discriminate.
  - vm_compute; split; discriminate.
  - reflexivity.
  - exact balance_1000_decrypts.
  - vm_compute; discriminate.
  - destruct Hc as (fee & Hf & Hy); [vm_compute; discriminate|vm_compute; reflexivity|].
    exists fee. split; [done|]. split; [vm_compute in Hf; congruence|].
    destruct (Hy 0) as (d & g & Ed & _).
    change (u16_get (tf_transfer_fee_basis_points fee_250)) with 250 in Ed.
    change (u64_get (tf_maximum_fee fee_250)) with 100 in Ed. by rewrite Ed.
Defined.

(** ** A client and its account

    The rest of the SDK over the group of [ConfidentialExamples]: a plaintext is
    found by dividing by the generator.  The client of [ann] applies what is
    pending and withdraws, with the proofs that it computes in accounts of the
    proof program. *)
Import confidential_transfer.

(** ** Decryption *)

(** The generator is twice an odd number, whose inverse modulo 2^255 this is. *)
Definition generator_half : Z := le_read ciphertext_arithmetic.G / 2.
Definition order : Z := 2 ^ 255.

(** Newton's iteration. *)
Fixpoint invert (steps : nat) (x : Z) : Z :=
  match steps with
  | O => x
  | S steps => invert steps ((x * (2 - generator_half * x)) mod order)
  end.

Definition generator_inverse : Z := invert 9 1.

(** The number of times that the generator goes into a point. *)
Definition point_log (m : Z) : Z := (m / 2 * generator_inverse) mod order.

Lemma point_log_generator n : 0 <= n < 2 ^ 32 ->
  point_log ((n * le_read ciphertext_arithmetic.G) mod modulus) = n.
Proof.
  intros Hn. unfold point_log.
  assert (le_read ciphertext_arithmetic.G = 2 * generator_half) as -> by (vm_compute; reflexivity).
  replace (n * (2 * generator_half)) with (2 * (n * generator_half)) by lia.
  change modulus with (2 * order). rewrite Zmult_mod_distr_l, (Z.mul_comm 2), Z.div_mul by done.
  rewrite Zmult_mod_idemp_l, <- Z.mul_assoc.
  rewrite <- Zmult_mod_idemp_r.
  assert ((generator_half * generator_inverse) mod order = 1) as -> by (vm_compute; reflexivity).
  rewrite Z.mul_1_r. apply Z.mod_small. unfold order. lia.
Qed.

Definition plaintext (s : Z) (c : Bytes 32 * Bytes 32) : Bytes 32 := pplus c.1 (popp (pscale s c.2)).

Definition find_u32 (s : Z) (c : Bytes 32 * Bytes 32) : option Z :=
  let n := point_log (le_read (plaintext s c)) in
  if bool_decide ((0 <= n < 2 ^ 32) /\ pscale n ciphertext_arithmetic.G = plaintext s c)
  then Some n else None.

Lemma find_u32_Some s c n :
  find_u32 s c = Some n <->
  0 <= n < 2 ^ 32 /\ plaintext s c = amount_point (E := Bytes 32) n.
Proof.
  unfold find_u32. split.
  - case_bool_decide as H; [|done]. intros [= <-]. destruct H as [H1 H2]. split; [exact H1|]. symmetry. exact H2.
  - intros [Hn Hx]. assert (point_log (le_read (plaintext s c)) = n) as ->.
    { rewrite Hx. change (le_read (amount_point (E := Bytes 32) n))
        with (le_read (le_write 32 (n * le_read ciphertext_arithmetic.G))).
      rewrite le_read_write. by apply point_log_generator. }
    by rewrite bool_decide_true.
Qed.

(** ** The rest of the SDK *)

(** An [AES] ciphertext is the number, in the bytes that it has; a proof is its
    context, so these two need nothing more. *)
#[export] Instance example_client_sdk : ZkClientSdk := {|
  ElGamalSecretKey := Z;
  keypair_secret b := if (b : bool) then 1 else -1;
  decrypt_u32 := find_u32;
  ciphertext_try_from b := Some (ciphertext_arithmetic.elgamal_ciphertext_to_ristretto b);
  ae_try_from := Some;
  ae_pod c := c;
  ae_encrypt _ n g := (le_write 36 n, g);
  pubkey_encrypt pk n g := ((example_with n g, pscale g pk), g + 1);
  pubkey_encrypt_with pk n o := (example_with n o, pscale o pk);
  zero_ciphertext_context _ := mk_zero_ciphertext (zeroed 32) (zeroed 64);
  ciphertext_equality_context _ :=
    mk_ciphertext_equality (zeroed 32) (zeroed 32) (zeroed 64) (zeroed 64);
  build_zero_ciphertext_proof_data _ _ g := Ok (tt, g);
  build_ciphertext_ciphertext_equality_proof_data _ _ _ _ _ _ g := Ok (tt, g)
|}.

Lemma ristretto_elgamal_roundtrip (b : PodElGamalCiphertext) :
  ciphertext_arithmetic.ristretto_to_elgamal_ciphertext
    (ciphertext_arithmetic.elgamal_ciphertext_to_ristretto b).1
    (ciphertext_arithmetic.elgamal_ciphertext_to_ristretto b).2 = b.
Proof.
  unfold ciphertext_arithmetic.elgamal_ciphertext_to_ristretto. cbn [fst snd].
  unfold ciphertext_arithmetic.ristretto_to_elgamal_ciphertext.
  rewrite !bytes_list_of_list by (rewrite length_slice by (rewrite length_bytes_list; lia); done).
  rewrite <- (bytes_of_list_list b) at 3. f_equal.
  unfold slice. rewrite skipn_O. change (32 - 0)%nat with 32%nat. change (64 - 32)%nat with 32%nat.
  rewrite (take_ge (drop 32 _)) by (rewrite length_drop, length_bytes_list; done).
  apply take_drop.
Qed.

Lemma plaintext_decrypt s (c : Bytes 32 * Bytes 32) :
  decrypt s (ciphertext_arithmetic.ristretto_to_elgamal_ciphertext c.1 c.2) = Some (plaintext s c).
Proof. rewrite decrypt_ciphertext. reflexivity. Qed.

Lemma secret_of_example kp : secret (kp : ElGamalKeypair) = keypair_secret kp.
Proof. reflexivity. Qed.

#[export] Instance example_client_laws : ZkClientLaws (Bytes 32).
Proof.
  split.
  - intros kp c n H. apply find_u32_Some in H as [Hn Hx]. split; [exact Hn|].
    rewrite secret_of_example. etrans; [apply plaintext_decrypt|]. by rewrite Hx.
  - intros kp c n Hn Hd. apply find_u32_Some. split; [exact Hn|].
    rewrite secret_of_example in Hd. apply Some_inj. etrans; [|exact Hd].
    symmetry. apply plaintext_decrypt.
  - intros b c [= <-]. apply ristretto_elgamal_roundtrip.
  - intros s b x _. by eexists.
  - done.
  - intros key n g Hn. cbn [ae_decrypt ae_encrypt example_sdk example_client_sdk fst].
    rewrite le_read_write. f_equal. change (256 ^ Z.of_nat 36) with (2 ^ 288).
    destruct Hn as [H0 H1]. change u64_max with 18446744073709551615 in H1.
    assert (n < 2 ^ 64) as H2 by lia.
    rewrite (Z.mod_small n (2 ^ 288)) by (split; [done|]; etrans; [exact H2|reflexivity]).
    by apply Z.mod_small.
Qed.

(** ** Applying what is pending *)

Definition ann_keypair : ElGamalKeypair := true.

(** 30 available and [p] pending, as [ann] and the others see it. *)
Definition known_30 (p : Z) : ConfidentialTransferAccount :=
  cta_set_decryptable (le_write 36 30) (hidden_balance key_1 30 p).

Definition known_cell (p : Z) : Address * Cell :=
  (ann, example_cell (token_data ann_owner 1000 [entry (known_30 p)])).

Lemma known_in_step p : in_step ann_keypair example_aes_key (known_30 p) 30.
Proof.
  split; [vm_compute; reflexivity|exists (le_write 36 30); split; vm_compute; reflexivity|
    vm_compute; reflexivity|vm_compute; split; discriminate].
Qed.





(** ** Withdrawing *)

(** What the client computes to withdraw 10, from the seed 0. *)
Definition ann_withdraws : Gen TokenError (withdraw_proof.WithdrawProofData * AeCiphertext) :=
  let info := WithdrawAccountInfo.new (known_30 5) in
  proofs ← WithdrawAccountInfo.generate_proof_data info 10 ann_keypair example_aes_key;
  balance ← WithdrawAccountInfo.new_decryptable_available_balance info 10 example_aes_key;
  mret (proofs, balance).

Definition withdraw_made : option (withdraw_proof.WithdrawProofData * AeCiphertext) :=
  match ann_withdraws 0 with Ok (made, _) => Some made | _ => None end.

Definition made_equality : CiphertextCommitmentEqualityProofContext :=
  match withdraw_made with
  | Some (proofs, _) => equality_context (withdraw_proof.wpd_equality_proof_data proofs)
  | None => mk_commitment_equality (zeroed 32) (zeroed 64) (zeroed 32)
  end.
Definition made_range : BatchedRangeProofContext :=
  match withdraw_made with
  | Some (proofs, _) => range_u64_context (withdraw_proof.wpd_range_proof_data proofs)
  | None => mk_batched_range [] []
  end.

(** The contexts in two accounts. *)
Definition client_withdraw_world : World := world_of
  [mint_cell []; known_cell 5;
   (proof_1, context_cell ProofType.CiphertextCommitmentEquality made_equality);
   (proof_2, mk_cell 1000 (proof_type_byte ProofType.BatchedRangeProofU64 ::
      (range_commitments made_range ≫= bytes_list) ++ range_bit_lengths made_range) zk_id)].

Lemma unpacked {Er A B} (r : Result Er A) a (f : A -> B) v :
  r = Ok a -> (x ← r; mret (f x)) = Ok v -> f a = v.
Proof. intros ->. by intros [= ->]. Qed.

Lemma client_may_withdraw st :
  token_account client_withdraw_world ann st -> base st = ann_base 1000 ->
  get_extension ConfidentialTransferAccount st = Ok (known_30 5) ->
  withdrawable id (info ann) (info hidden) (signed ann_owner) [] client_withdraw_world st
    (known_30 5) x02 10.
Proof.
  intros Ht Hb He. split; rewrite ?Hb.
  - exact Ht.
  - exact He.
  - eexists. split; [reflexivity|]. split; [vm_compute; reflexivity|]. vm_compute. done.
  - apply (unpacked _ _ (has_extension NonTransferableAccount) _ (proj2 Ht)). vm_compute. reflexivity.
  - vm_compute. reflexivity.
  - reflexivity.
  - vm_compute. reflexivity.
  - vm_compute. reflexivity.
  - split; [reflexivity|]. vm_compute. reflexivity.
  - vm_compute. discriminate.
  - repeat split; vm_compute; discriminate.
Qed.

Lemma made_found : withdraw_proofs_found client_withdraw_world
  [info proof_1; info proof_2; signed ann_owner] 0 0 made_equality made_range [signed ann_owner].
Proof.
  exists None, [info proof_1; info proof_2; signed ann_owner], [info proof_2; signed ann_owner].
  split; [reflexivity|]. split.
  - vm_compute. reflexivity.
  - vm_compute. reflexivity.
Qed.

Lemma client_withdraws_witness : exists w' e,
  process_withdraw id [info ann; info hidden; info proof_1; info proof_2; signed ann_owner] 10 x02
    (le_write 36 20) 0 0 client_withdraw_world = Ok (tt, w') /\
  confidential_account w' ann (ann_base 1010) e /\ in_step ann_keypair example_aes_key e 20.
Proof.
  assert (confidential_account client_withdraw_world ann (ann_base 1000) (known_30 5)) as Hann
    by reads_account.
  destruct Hann as (st & Ht & Hb & He).
  destruct (client_withdraws (E := Bytes 32) ann_keypair example_aes_key id (info ann) (info hidden)
    [info proof_1; info proof_2; signed ann_owner] (signed ann_owner) [] client_withdraw_world st
    (known_30 5) x02 30 10 0 0) with 0 as ([proofs balance] & g & Ep & Hw).
  - by apply client_may_withdraw.
  - apply known_in_step.
  - lia.
  - change (ann_withdraws 0 = Ok (proofs, balance, g)) in Ep.
    assert (withdraw_made = Some (proofs, balance)) as Em
      by (unfold withdraw_made; rewrite Ep; reflexivity).
    assert (snd <$> withdraw_made = Some (le_write 36 20)) as Es by (vm_compute; reflexivity).
    rewrite Em in Es. injection Es as ->.
    pose proof made_found as Hf. unfold made_equality, made_range in Hf. rewrite Em in Hf.
    destruct (Hw Hf) as (w' & e & Hr & Hacc & Hs). rewrite Hb in Hacc.
    assert (set_amount (u64_get (amount (ann_base 1000)) + 10) (ann_base 1000) = ann_base 1010) as Eb
      by (vm_compute; reflexivity).
    rewrite Eb in Hacc. exists w', e. split; [exact Hr|]. split; [exact Hacc|exact Hs].
Defined.

(** ** A client with half of its proofs in an account *)

#[local] Instance example_proof_accounts : ProofAccounts := {|
  build_pubkey_validity_proof_data _ r := Ok (tt, r);
  default_ciphertext := (zeroed 32, zeroed 32);
  proof_bytes _ _ := [];
  proof_context_state_size _ := 33%nat;
  encode_verify_proof_in _ k a _ _ := mk_instruction zk_id [new k false; new a true] [];
  encode_verify_proof_from_account _ k a r _ :=
    mk_instruction zk_id [new k false; new a true; new r false] [];
  close_context_state k a d := mk_instruction zk_id [new k false; new d false; new a true] [];
  spl_record_id := zeroed 32;
  spl_record_initialize k a := mk_instruction (zeroed 32) [new k false; new a true] [];
  spl_record_write k a _ d := mk_instruction (zeroed 32) [new k false; new a true] d;
  spl_record_close_account k a d := mk_instruction (zeroed 32) [new k false; new d false; new a true] [];
  spl_record_WRITABLE_START_INDEX := 33%nat;
  serialized_size ixs := length ixs
|}.

Definition ann_client : Token := token.new_token id hidden (Some x02) ann_owner.

Definition ann_state : ClientState Rng := @mk_client_state example_fetching Rng [] 0 None.

(** The withdrawal of [ann_withdraws] with proofs in accounts and in the transaction. *)
Definition ann_sends (equality_proof_account range_proof_account : option Address)
    : Result Failure unit * ClientState Rng :=
  confidential_token.confidential_transfer_withdraw ann_client ann ann_owner equality_proof_account
    range_proof_account 10 x02 (Some (WithdrawAccountInfo.new (known_30 5))) ann_keypair
    example_aes_key [ann_owner] ann_state.

Lemma split_proofs_fail_witness :
  ((ann_sends None None).1 = Ok tt /\ (ann_sends None (Some proof_2)).1 = Ok tt /\
   (ann_sends (Some proof_1) (Some proof_2)).1 = Ok tt) /\
  (ann_sends (Some proof_1) None).1 =
    Err (ClientTokenError.Program TokenError.InvalidProofInstructionOffset) /\
  forall s', ann_sends (Some proof_1) None <> (Ok tt, s').
Proof.
  split; [split_and!; vm_compute; reflexivity|]. split; [vm_compute; reflexivity|].
  intros s'. unfold ann_sends.
  apply (split_proofs_fail ann_client ann hidden ann_owner [ann_owner] 10 ann_state s' tt
    (Some proof_1) None None None None). vm_compute. reflexivity.
Defined.
